(* ===== verification/_CoqProject ===== *)
-Q . S2P
Prelude.v
Platform.v
Err.v
Cbs.v
Asn1.v
ErrM.v
DerRead.v
Pem.v
X509.v
X509Ok.v
Cbb.v
Cpu.v
MdHash.v
HashApi.v
Sha256.v
Sha512.v
Sha1.v
Hmac.v
Hkdf.v
Pbkdf2.v
KeySched.v
LeWord.v
Sha3.v
Sha3Ok.v
ChaCha20.v
Poly1305.v
ChaChaPoly.v
DtlsReplay.v
DtlsFrag.v
AesSpec.v
AesNi.v
Aes.v
BlockModes.v
AesCcm.v
GcmSpec.v
AesNiGcm.v
Gf128.v
AesNiGhash.v
AesNiGcmOk.v
AesGcm.v
Camellia.v
CamelliaGcm.v
Aead.v
Record.v
CipherSuite.v
Types.v
Conn.v
ConnWrite.v
ConnRead.v
Channel.v
ConnKeys.v
KeyUpdate.v
Session.v
ConnExport.v
X25519.v
X25519Ok.v
Tls13.v
Tls13Msg.v
Tls13Secrets.v
Tls13Ok.v
Tls13Agree.v
Tls13X25519.v
Tls13Channel.v
Tls13Safe.v
