(* ===== verification/Prelude.v ===== *)
(** * opssl: a TLS library in C, modelled and verified

    opssl (src/) is a TLS 1.2, TLS 1.3 and DTLS library with its own
    cryptography.  This development models its core as Rocq functions translated
    from the C source and proves what makes each part correct.

    ** The parts of the program and the files that model them

    Foundations.
    - [Prelude]: machine integers as [Z] with the wrap-around written out
      ([u8] to [u64]), buffers as lists of bytes ([splice] is memcpy, [.[i]] a
      read), loops ([for_range], [while_fuel]), encodings, shared tactics.
    - [Platform]: include/opssl/platform.h and src/crypto/constant_time.c.
    - [Err]: src/err.c, the thread-local ring of errors.
    - [Cbs], [Cbb]: src/crypto/cbs.c, the parser of length-prefixed data and
      the builder, a store of builders linked by pointers.
    - [Asn1]: src/x509/asn1.c, the DER reader.  [ErrM] and [DerRead] are the monads
      of its clients: code that pushes errors, and DER read through local views.
    - [Pem]: src/x509/pem.c; [X509]: src/x509/cert.c; [X509Ok]: certificates as
      abstract data, and what cert.c makes of their encoding.
    - [Cpu]: src/crypto/cpuid.c, and the vector instructions as parameters.

    Hashes and key derivation.
    - [MdHash] (block buffering), [HashApi] (the contract of a streaming hash),
      [Sha1], [Sha256], [Sha512]: the files of the same names under src/crypto.
    - [Sha3], [Sha3Ok]: sha3.c, the sponge of SHA3 and SHAKE against FIPS 202.
    - [Hmac], [Hkdf], [Pbkdf2]: hmac.c, hkdf.c, pbkdf2.c, over that contract.
    - [KeySched]: src/tls/keysched.c, the TLS 1.3 key schedule.

    Ciphers.
    - [LeWord], [ChaCha20], [Poly1305], [ChaChaPoly]: chacha20.c (scalar and
      AVX2), poly1305.c, chacha20_poly1305.c.
    - [AesSpec] (FIPS 197 and the AES instructions), [AesNi], [Aes]: aes_ni.c
      and aes.c up to the block function.
    - [BlockModes], [AesCcm]: counter mode and CBC-MAC, aes_ccm.c.
    - [GcmSpec] (SP 800-38D), [Gf128] (its field), [AesNiGcm], [AesNiGhash],
      [AesNiGcmOk]: the pipelined GCM of aes_ni.c; [AesGcm]: aes_gcm.c.
    - [Camellia], [CamelliaGcm]: camellia.c.
    - [Aead]: the AEAD context of aes_gcm.c, one interface over nine algorithms.

    Protocol.
    - [Record]: src/tls/record.c, encrypting and decrypting records in place.
    - [CipherSuite]: src/tls/ciphersuite.c, the registry and the list parser.
    - [DtlsReplay], [DtlsFrag]: the anti-replay window and the reassembly of
      handshake fragments of src/tls/dtls.c.

    Connections, all of src/tls/handshake.c.
    - [Conn]: the connection, its monad over the transport, reading and writing
      records, installing keys, application data, post-handshake messages, key
      updates, alerts and shutdown.
    - [ConnWrite], [ConnRead]: what one call writes and reads; [Channel]: two
      connections and the transport between them as a system of steps;
      [ConnKeys], [KeyUpdate]: the two ends after a handshake, and across a key
      update.
    - [Session]: resumption tickets and their encoding; [ConnExport]: moving a
      connection to another process.
    - [X25519]: src/crypto/x25519.c, field elements in limbs and the ladder, its
      signed arithmetic checked; [X25519Ok]: RFC 7748's function, the bounds of
      the arithmetic and their agreement.

    The TLS 1.3 handshake, src/tls/tls13.c.
    - [Tls13]: the handshake structure, the builders and parsers of the
      messages, the key schedule and the two handshake functions; the
      public-key operations and certificate parsing are the class [Tls13.Pki].
    - [Tls13Msg]: the messages as bytes, and that they are built and parsed so;
      [Tls13Secrets]: the transcript and the secrets of RFC 8446 section 7.1;
      [Tls13Ok]: each call on the peer's message.
    - [Tls13Agree]: a client and a server run against each other;
      [Tls13X25519]: x25519.c as the key exchange of that interface;
      [Tls13Channel]: from there to a channel of [ConnKeys]; [Tls13Safe]: what any
      buffer must hold for an end to complete.

    ** How they interact

    A hash file discharges the class of [HashApi]; HMAC, HKDF, PBKDF2 and the
    key schedule are proved against that class only.  The nine AEAD algorithms
    each discharge [Aead.AeadLaws]; [Aead.scheme_of] is what a context computes,
    and the record layer is proved against that interface, not against any
    cipher.  The public-key operations of the handshake are a class too,
    [Tls13.Pki], and [Tls13Agree.PkiLaws] is what agreement needs of them, the
    lengths of their values; [Tls13X25519.with_x25519_laws] discharges it for
    x25519.c, and [Tls13Agree.key_exchange] is a pair of key pairs with a common
    secret.  A connection's records are those of [Record] ([ConnWrite.wr_state],
    [ConnWrite.rd_state]), which is how the theorems on channels use the round
    trip of records.  Cbb is the builder the key schedule's labels are written with.
    Errors are pushed on the stack of [Err] where the code pushes them.

    ** How state and operations correspond

    A definition has the name of the C function it translates.  State passed by
    pointer is an argument and a component of the result.  [None] is undefined
    behaviour (an access out of bounds, a wild pointer) or, for a function with
    [fuel], a loop that has not ended; a failing call is a value of the result,
    0, -1 or a null pointer as in C.  Buffers keep their length; an output
    buffer is passed with its contents before the call.

    ** What the theorems show

    - equivalence with the standards: FIPS 180-4, FIPS 202, RFC 2104, 5869, 2898, 8446,
      8439, 3713, 7748, FIPS 197, SP 800-38C and 38D, including the vectorised paths;
    - refinement of abstract specifications: the error ring a queue, the builder
      a tree, the replay window a set, the AEAD dispatch a scheme, a pair of
      connections a queue of bytes, also across a migration;
    - safety: no read beyond a view, no plaintext without a valid tag, no nonce
      given to the cipher twice, no fragment copied outside its buffer;
    - the TLS 1.3 handshake: two ends complete and agree on every secret
      ([Tls13Agree.handshake_agrees], for the ClientHello the client builds without
      PSK, SNI, ALPN, OCSP and timestamps, and a server that asks for no
      certificate), the keys they extract give a channel
      ([Tls13Channel.session_established]), and, with no such restriction, no end
      completes without the peer's Finished over what it has hashed
      ([Tls13Safe]);
    - round trips of encryption, encodings, PEM and records; the fields of a
      certificate from its DER; termination of the
      loops, with fuel given by the length of the input, and totality.

    Bounds.  Fuel is the number of iterations of a C loop; the theorems ask for
    the length of the input (plus a constant for padding), one iteration per
    byte or block, and more fuel does not change a result.  Lengths are below
    2^64, or below 2^31 where the code converts them to [int].

    ** Parameters

    CPUID, the AVX2, SHA, AES and carry-less multiplication instructions are
    classes with their documented behaviour as laws; each has a concrete
    instance, which the witnesses use.  Allocation success is a parameter.

    ** Not modelled, and why

    System calls, files and sockets (random.c, bio.c, ktls.c, trust_store.c,
    tools/opssl.c); the aarch64 code paths; erasing secrets that are not read
    again.  Of the handshakes, the TLS 1.2 one (tls12.c), the post-handshake
    tickets and authentication of tls13.c and the driver in handshake.c that
    frames the messages in records.  The public-key algorithms (bignum.c, ecc.c,
    ed25519.c, rsa.c, dh.c, mlkem.c, mldsa.c) and what is built on
    them (pkey.c, chain.c): the handshake is proved over an interface
    for them, and proving their arithmetic against the mathematics of their
    curves and lattices is a development of its own. *)
From Stdlib Require Export ZArith Lia List Bool.
From stdpp Require Export base tactics list numbers strings.
From coqutil Require Export Z.PushPullMod.
Export ListNotations.

#[global] Open Scope Z_scope.

(* ------------------------------------------------------------------ *)
(** * Machine integers: values are [Z], wrap-around is written out *)

Definition wrap (w x : Z) : Z := x mod 2 ^ w.
Definition u8 (x : Z) : Z := x mod 256.
Definition u16 (x : Z) : Z := x mod 65536.
Definition u32 (x : Z) : Z := x mod 4294967296.
Definition u64 (x : Z) : Z := x mod 18446744073709551616.

Definition SIZE_MAX : Z := 18446744073709551615.
Definition UINT64_MAX : Z := 18446744073709551615.

(** Two's complement reading of the low 64 bits: a cast to int64_t or ptrdiff_t. *)
Definition s64 (x : Z) : Z :=
  let y := u64 x in if y <? 9223372036854775808 then y else y - 18446744073709551616.

(** A buffer whose length fits in a size_t. *)
Definition size_ok {A} (l : list A) : Prop := Z.of_nat (length l) <= SIZE_MAX.

Definition byte_ok (b : Z) : Prop := 0 <= b < 256.
Definition bytes (l : list Z) : Prop := Forall byte_ok l.

(** C's truth value of a comparison. *)
Definition b2z (b : bool) : Z := if b then 1 else 0.

(** Reading a cell of a fixed-size array (index in range in every use). *)
Definition get (l : list Z) (i : nat) : Z := nth i l 0.
Declare Scope opssl_scope.
Delimit Scope opssl_scope with opssl.
Notation "l .[ i ]" := (get l i) (at level 1, left associativity, format "l .[ i ]") : opssl_scope.
#[global] Open Scope opssl_scope.

(** [memcpy (buf + off, data, length data)] on a buffer held as a list. *)
Definition splice (buf : list Z) (off : nat) (data : list Z) : list Z :=
  take off buf ++ data ++ drop (off + length data) buf.

(** The bytes [p[off .. off+len)]. *)
Definition sub_list {A} (off len : nat) (l : list A) : list A := take len (drop off l).

(** The characters of a string literal, without its terminating NUL. *)
Definition chars (s : string) : list Z := map (fun c => Z.of_N (Ascii.N_of_ascii c)) (String.list_ascii_of_string s).

(** A C [while] loop, run for at most [fuel] iterations: [None] is "still
    running", so that termination is a statement about the result. *)
Fixpoint while_fuel {S : Type} (fuel : nat) (c : S -> bool) (body : S -> S) (s : S) : option S :=
  if c s then
    match fuel with
    | O => None
    | Datatypes.S f => while_fuel f c body (body s)
    end
  else Some s.

(** [for (i = a; i < a + n; i++) s = f(i, s)] *)
Definition for_range {S : Type} (a n : nat) (f : nat -> S -> S) (s : S) : S :=
  fold_left (fun s i => f i s) (seq a n) s.

(* ------------------------------------------------------------------ *)
(** * Big-endian and little-endian reference encodings *)

Fixpoint be_bytes (n : nat) (v : Z) : list Z :=
  match n with
  | O => []
  | S n' => u8 (Z.shiftr v (8 * Z.of_nat n')) :: be_bytes n' v
  end.

Definition be_val (l : list Z) : Z := fold_left (fun a b => a * 256 + b) l 0.

Fixpoint le_bytes (n : nat) (v : Z) : list Z :=
  match n with
  | O => []
  | S n' => u8 v :: le_bytes n' (Z.shiftr v 8)
  end.

Fixpoint le_val (l : list Z) : Z :=
  match l with
  | [] => 0
  | b :: l' => b + 256 * le_val l'
  end.

(* ------------------------------------------------------------------ *)
(** * Tactics and hint databases *)

Create HintDb opssl.

Ltac unwrap := unfold u8, u16, u32, u64, wrap, byte_ok in *.

(** Close a goal on machine integers after unfolding the wrappers. *)
Ltac mlia := unwrap; try Z.div_mod_to_equations; lia.

(** Equality of two wrapped sums whose reductions are at different places. *)
Ltac wrap_sum := unfold u8, u16, u32, u64; Z.push_pull_mod; f_equal; ring.

(** Case analysis on the innermost test of a C condition. *)
Ltac case_if :=
  match goal with
  | |- context [if ?b then _ else _] => destruct b eqn:?
  | H : context [if ?b then _ else _] |- _ => destruct b eqn:?
  end.

(** Turn boolean comparisons into propositions. *)
Ltac bool_to_prop :=
  repeat match goal with
  | H : (_ <? _)%Z = true |- _ => apply Z.ltb_lt in H
  | H : (_ <? _)%Z = false |- _ => apply Z.ltb_ge in H
  | H : (_ <=? _)%Z = true |- _ => apply Z.leb_le in H
  | H : (_ <=? _)%Z = false |- _ => apply Z.leb_gt in H
  | H : (_ =? _)%Z = true |- _ => apply Z.eqb_eq in H
  | H : (_ =? _)%Z = false |- _ => apply Z.eqb_neq in H
  | H : (_ <? _)%nat = true |- _ => apply Nat.ltb_lt in H
  | H : (_ <? _)%nat = false |- _ => apply Nat.ltb_ge in H
  | H : (_ <=? _)%nat = true |- _ => apply Nat.leb_le in H
  | H : (_ <=? _)%nat = false |- _ => apply Nat.leb_gt in H
  | H : (_ =? _)%nat = true |- _ => apply Nat.eqb_eq in H
  | H : (_ =? _)%nat = false |- _ => apply Nat.eqb_neq in H
  | H : _ || _ = false |- _ => apply orb_false_iff in H as [? ?]
  | H : _ && _ = true |- _ => apply andb_true_iff in H as [? ?]
  | H : negb _ = true |- _ => apply negb_true_iff in H
  | H : negb _ = false |- _ => apply negb_false_iff in H
  end.

(** Decide the first integer comparison of the goal by [lia]. *)
Ltac ltb_decide :=
  match goal with
  | |- context [(?a <? ?b)%Z] =>
    first [rewrite (proj2 (Z.ltb_ge a b)) by lia | rewrite (proj2 (Z.ltb_lt a b)) by lia]
  | |- context [(?a <=? ?b)%Z] =>
    first [rewrite (proj2 (Z.leb_gt a b)) by lia | rewrite (proj2 (Z.leb_le a b)) by lia]
  | |- context [(?a =? ?b)%Z] =>
    first [rewrite (proj2 (Z.eqb_neq a b)) by lia | rewrite (proj2 (Z.eqb_eq a b)) by lia]
  end.

(* ------------------------------------------------------------------ *)
(** * Generic lemmas: bytes *)

Lemma u8_ok x : byte_ok (u8 x).
Proof. unwrap. apply Z.mod_pos_bound. lia. Qed.

Lemma u8_id x : byte_ok x -> u8 x = x.
Proof. unwrap. intros. by rewrite Z.mod_small. Qed.

Lemma u16_id x : 0 <= x < 65536 -> u16 x = x.
Proof. apply Z.mod_small. Qed.

Lemma u64_id x : 0 <= x < 18446744073709551616 -> u64 x = x.
Proof. apply Z.mod_small. Qed.

Lemma u32_id x : 0 <= x < 4294967296 -> u32 x = x.
Proof. apply Z.mod_small. Qed.

Lemma u32_range x : 0 <= u32 x < 2 ^ 32.
Proof. apply Z.mod_pos_bound. lia. Qed.

Lemma u64_range x : 0 <= u64 x < 2 ^ 64.
Proof. apply Z.mod_pos_bound. lia. Qed.

Lemma bytes_nil : bytes [].
Proof. constructor. Qed.

Lemma bytes_cons b l : bytes (b :: l) <-> byte_ok b /\ bytes l.
Proof. apply Forall_cons. Qed.

Lemma bytes_app l1 l2 : bytes (l1 ++ l2) <-> bytes l1 /\ bytes l2.
Proof. apply Forall_app. Qed.

Lemma bytes_take n l : bytes l -> bytes (take n l).
Proof. apply Forall_take. Qed.

Lemma bytes_drop n l : bytes l -> bytes (drop n l).
Proof. apply Forall_drop. Qed.

Lemma bytes_sub off n l : bytes l -> bytes (sub_list off n l).
Proof. intros. by apply bytes_take, bytes_drop. Qed.

Lemma bytes_replicate n b : byte_ok b -> bytes (replicate n b).
Proof. intros. by apply Forall_replicate. Qed.

Lemma bytes_get l i : bytes l -> byte_ok (get l i).
Proof.
  intros H. unfold get. destruct (decide (i < length l)%nat) as [Hi | Hi].
  - eapply Forall_forall; [exact H |]. apply list_elem_of_In, nth_In. done.
  - rewrite nth_overflow by lia. unfold byte_ok. lia.
Qed.

Lemma bytes_splice buf off data : bytes buf -> bytes data -> bytes (splice buf off data).
Proof.
  intros. apply bytes_app; split; [by apply bytes_take |].
  apply bytes_app; split; [done | by apply bytes_drop].
Qed.

Lemma be_bytes_length n v : length (be_bytes n v) = n.
Proof. induction n; simpl; auto. Qed.

Lemma be_bytes_ok n v : bytes (be_bytes n v).
Proof. induction n; simpl; constructor; auto. apply u8_ok. Qed.

Lemma le_bytes_length n v : length (le_bytes n v) = n.
Proof. revert v; induction n; simpl; auto. Qed.

Lemma le_bytes_ok n v : bytes (le_bytes n v).
Proof. revert v; induction n; intros; simpl; constructor; [apply u8_ok | apply IHn]. Qed.

#[export] Hint Resolve u8_ok bytes_nil bytes_take bytes_drop bytes_sub bytes_replicate
  bytes_get bytes_splice be_bytes_ok le_bytes_ok : opssl.
Create Rewrite HintDb opssl_len.
#[export] Hint Rewrite be_bytes_length le_bytes_length : opssl_len.

Lemma flat_map_be_length n l : length (flat_map (be_bytes n) l) = (n * length l)%nat.
Proof.
  induction l as [| x l IH]; cbn [flat_map length]; [lia |]. rewrite length_app, be_bytes_length, IH. lia.
Qed.

Lemma flat_map_be_bytes n l : bytes (flat_map (be_bytes n) l).
Proof.
  induction l as [| x l IH]; cbn [flat_map]; [constructor |]. apply bytes_app; split; [apply be_bytes_ok | done].
Qed.

(* ------------------------------------------------------------------ *)
(** * Generic lemmas: splice, sub-lists, arrays *)

Lemma splice_length buf off data :
  (off + length data <= length buf)%nat -> length (splice buf off data) = length buf.
Proof.
  intros. unfold splice. rewrite !length_app, length_take, length_drop. lia.
Qed.

Lemma splice_take buf off data :
  (off <= length buf)%nat -> take (off + length data) (splice buf off data) = take off buf ++ data.
Proof.
  intros. unfold splice. rewrite app_assoc.
  rewrite take_app_length'; [done |]. rewrite length_app, length_take. lia.
Qed.

Lemma splice_full buf data :
  length data = length buf -> splice buf 0 data = data.
Proof.
  intros H. unfold splice. simpl. rewrite H, drop_all, app_nil_r. done.
Qed.

Lemma splice_nil buf off : splice buf off [] = buf.
Proof. unfold splice. cbn [length app]. by rewrite Nat.add_0_r, take_drop. Qed.

Lemma splice_end buf off data :
  (off + length data = length buf)%nat -> splice buf off data = take off buf ++ data.
Proof.
  intros H. unfold splice. rewrite H, drop_all, app_nil_r. done.
Qed.

Lemma sub_list_length {A} off len (l : list A) :
  (off + len <= length l)%nat -> length (sub_list off len l) = len.
Proof. intros. unfold sub_list. rewrite length_take, length_drop. lia. Qed.

Lemma nth_app_l {A} (l1 l2 : list A) i d : (i < length l1)%nat -> nth i (l1 ++ l2) d = nth i l1 d.
Proof. intros. by apply app_nth1. Qed.

Lemma get_app_l l1 l2 i : (i < length l1)%nat -> get (l1 ++ l2) i = get l1 i.
Proof. apply app_nth1. Qed.

Lemma get_app_r l1 l2 i : (length l1 <= i)%nat -> get (l1 ++ l2) i = get l2 (i - length l1).
Proof. intros. apply app_nth2. lia. Qed.

Lemma get_lookup l i x : l !! i = Some x -> get l i = x.
Proof. intros H. unfold get. by rewrite nth_lookup, H. Qed.

Lemma lookup_get l i : (i < length l)%nat -> l !! i = Some (get l i).
Proof.
  intros H. destruct (lookup_lt_is_Some_2 l i H) as [x Hx].
  by rewrite (get_lookup _ _ _ Hx).
Qed.

Lemma get_insert_eq l i x : (i < length l)%nat -> get (<[i:=x]> l) i = x.
Proof. intros. apply get_lookup. by apply list_lookup_insert_eq. Qed.

Lemma get_insert_ne l i j x : i <> j -> get (<[i:=x]> l) j = get l j.
Proof. intros. unfold get. rewrite !nth_lookup, list_lookup_insert_ne; done. Qed.

Lemma get_zeros n i : get (replicate n 0) i = 0.
Proof. unfold get. rewrite nth_lookup. destruct (replicate n 0 !! i) eqn:E; [by apply lookup_replicate in E as [-> _] | done]. Qed.

Lemma get_take l n i : (i < n)%nat -> get (take n l) i = get l i.
Proof. intros. unfold get. by rewrite !nth_lookup, lookup_take_lt. Qed.

(** A list of known length, read cell by cell. *)
Lemma list_eq_get l1 l2 :
  length l1 = length l2 ->
  (forall i, (i < length l1)%nat -> get l1 i = get l2 i) -> l1 = l2.
Proof. intros Hl H. apply (nth_ext _ _ 0 0); auto. Qed.

(* ------------------------------------------------------------------ *)
(** * Generic lemmas: loops *)

(** Total correctness of a [while] loop from an invariant and a variant. *)
Lemma while_total {S : Type} (I : S -> Prop) (m : S -> nat) (c : S -> bool) (body : S -> S) :
  (forall s, I s -> c s = true -> I (body s) /\ (m (body s) < m s)%nat) ->
  forall fuel s, I s -> (m s <= fuel)%nat ->
  exists s', while_fuel fuel c body s = Some s' /\ I s' /\ c s' = false.
Proof.
  intros Hstep. induction fuel as [| fuel IH]; intros s HI Hm; simpl.
  - destruct (c s) eqn:Hc; [| by eauto].
    destruct (Hstep s HI Hc). lia.
  - destruct (c s) eqn:Hc; [| by eauto].
    destruct (Hstep s HI Hc) as [HI' Hlt]. apply IH; [done | lia].
Qed.

(** A loop whose condition never becomes false never returns. *)
Lemma while_diverges {S : Type} (I : S -> Prop) (c : S -> bool) (body : S -> S) :
  (forall s, I s -> c s = true /\ I (body s)) ->
  forall fuel s, I s -> while_fuel fuel c body s = None.
Proof.
  intros H. induction fuel as [| fuel IH]; intros s HI; simpl;
    destruct (H s HI) as [-> HI']; auto.
Qed.

(** More fuel does not change the result. *)
Lemma while_mono {S : Type} (c : S -> bool) (body : S -> S) fuel fuel' s s' :
  while_fuel fuel c body s = Some s' -> (fuel <= fuel')%nat ->
  while_fuel fuel' c body s = Some s'.
Proof.
  revert fuel' s. induction fuel as [| fuel IH]; intros fuel' s H Hle; simpl in H.
  - destruct (c s) eqn:Hc; [done |]. destruct fuel'; simpl; by rewrite Hc.
  - destruct fuel' as [| fuel']; [lia |]. simpl.
    destruct (c s) eqn:Hc; [| done]. apply IH; [done | lia].
Qed.

Lemma for_range_0 {S : Type} a (f : nat -> S -> S) s : for_range a 0 f s = s.
Proof. done. Qed.

Lemma for_range_S {S : Type} a n (f : nat -> S -> S) s :
  for_range a (Datatypes.S n) f s = for_range (Datatypes.S a) n f (f a s).
Proof. done. Qed.

Lemma for_range_snoc {S : Type} a n (f : nat -> S -> S) s :
  for_range a (Datatypes.S n) f s = f (a + n)%nat (for_range a n f s).
Proof. unfold for_range. rewrite seq_S, fold_left_app. done. Qed.

Lemma for_range_add {S : Type} a n m (f : nat -> S -> S) s : for_range a (n + m) f s = for_range (a + n) m f (for_range a n f s).
Proof. unfold for_range. by rewrite seq_app, fold_left_app. Qed.

(** Invariant rule for counted loops. *)
Lemma for_range_ind {S : Type} (I : nat -> S -> Prop) a n (f : nat -> S -> S) s :
  I a s ->
  (forall i s', (a <= i < a + n)%nat -> I i s' -> I (Datatypes.S i) (f i s')) ->
  I (a + n)%nat (for_range a n f s).
Proof.
  intros H0 Hs. induction n as [| n IH].
  - rewrite Nat.add_0_r. done.
  - rewrite for_range_snoc, <- Nat.add_succ_comm. simpl.
    apply Hs; [lia |]. apply IH. intros. apply Hs; [lia | done].
Qed.

Lemma for_range_ext {S : Type} a n (f g : nat -> S -> S) s :
  (forall i s', (a <= i < a + n)%nat -> f i s' = g i s') ->
  for_range a n f s = for_range a n g s.
Proof.
  revert a s. induction n as [| n IH]; intros a s H; [done |].
  rewrite !for_range_S, H by lia. apply IH. intros. apply H. lia.
Qed.

(* ------------------------------------------------------------------ *)
(** * Generic lemmas: bit operations as arithmetic *)

Lemma land_ones' x n : 0 <= n -> Z.land x (2 ^ n - 1) = x mod 2 ^ n.
Proof. intros. rewrite <- Z.land_ones by done. by rewrite Z.ones_equiv. Qed.

Lemma land_shiftl_0 a b k : 0 <= k -> 0 <= b < 2 ^ k -> Z.land (Z.shiftl a k) b = 0.
Proof.
  intros Hk Hb. apply Z.bits_inj'. intros i Hi.
  rewrite Z.land_spec, Z.bits_0, Z.shiftl_spec by done.
  destruct (Z.lt_ge_cases i k).
  - rewrite Z.testbit_neg_r by lia. done.
  - rewrite <- (Z.mod_small b (2 ^ k)) by done.
    rewrite (Z.mod_pow2_bits_high b k i) by lia. apply andb_false_r.
Qed.

(** [(a << k) | b] is [a * 2^k + b] when [b] fits below the shift. *)
Lemma lor_shiftl a b k : 0 <= k -> 0 <= b < 2 ^ k -> Z.lor (Z.shiftl a k) b = a * 2 ^ k + b.
Proof.
  intros Hk Hb. pose proof (Z.add_lor_land (Z.shiftl a k) b) as H.
  rewrite land_shiftl_0, Z.shiftl_mul_pow2 in H by done. rewrite Z.shiftl_mul_pow2 by done. lia.
Qed.

(** Two adjacent fields of a shifted word. *)
Lemma lor_shiftl2 a b j k :
  0 <= k <= j -> 0 <= b < 2 ^ (j - k) ->
  Z.lor (Z.shiftl a j) (Z.shiftl b k) = Z.shiftl (a * 2 ^ (j - k) + b) k.
Proof.
  intros Hk Hb. replace j with ((j - k) + k) at 1 by lia.
  rewrite <- Z.shiftl_shiftl, <- Z.shiftl_lor, lor_shiftl by lia. done.
Qed.

Lemma shiftr_div x k : 0 <= k -> Z.shiftr x k = x / 2 ^ k.
Proof. apply Z.shiftr_div_pow2. Qed.

(* ------------------------------------------------------------------ *)
(** * Generic lemmas: big-endian and little-endian numbers *)

Lemma be_val_acc l a : fold_left (fun a b => a * 256 + b) l a = a * 256 ^ Z.of_nat (length l) + be_val l.
Proof.
  unfold be_val. revert a. induction l as [| b l IH]; intros a.
  - simpl. lia.
  - cbn [fold_left length]. rewrite IH, (IH (0 * 256 + b)).
    rewrite Nat2Z.inj_succ, Z.pow_succ_r by lia. lia.
Qed.

Lemma be_val_cons b l : be_val (b :: l) = b * 256 ^ Z.of_nat (length l) + be_val l.
Proof. unfold be_val at 1. cbn [fold_left]. rewrite be_val_acc. lia. Qed.

Lemma be_val_snoc l b : be_val (l ++ [b]) = be_val l * 256 + b.
Proof. unfold be_val. rewrite fold_left_app. done. Qed.

Lemma be_val_app a b : be_val (a ++ b) = be_val a * 256 ^ Z.of_nat (length b) + be_val b.
Proof. unfold be_val at 1. rewrite fold_left_app. apply be_val_acc. Qed.

Lemma pow256 n : 0 < 256 ^ Z.of_nat n.
Proof. apply Z.pow_pos_nonneg; lia. Qed.

Lemma pow256_bits n : 256 ^ Z.of_nat n = 2 ^ (8 * Z.of_nat n).
Proof. rewrite Z.pow_mul_r by lia. done. Qed.

Lemma be_val_range l : bytes l -> 0 <= be_val l < 256 ^ Z.of_nat (length l).
Proof.
  induction l as [| b l IH]; intros Hb; [done |].
  apply bytes_cons in Hb as [[Hb1 Hb2] Hl]. specialize (IH Hl).
  rewrite be_val_cons. cbn [length]. rewrite Nat2Z.inj_succ, Z.pow_succ_r by lia.
  pose proof (pow256 (length l)). nia.
Qed.

Lemma be_bytes_mod n v : be_val (be_bytes n v) = v mod 256 ^ Z.of_nat n.
Proof.
  induction n as [| n IH]; [by rewrite Z.mod_1_r |].
  cbn [be_bytes]. rewrite be_val_cons, be_bytes_length, IH.
  rewrite shiftr_div, <- pow256_bits by lia. unfold u8.
  rewrite Nat2Z.inj_succ, Z.pow_succ_r by lia.
  pose proof (pow256 n). rewrite (Z.mul_comm 256), Z.rem_mul_r by lia. lia.
Qed.

Lemma be_bytes_val n v : 0 <= v < 256 ^ Z.of_nat n -> be_val (be_bytes n v) = v.
Proof. intros. rewrite be_bytes_mod. by rewrite Z.mod_small. Qed.

Lemma be_bytes_add n a v :
  be_bytes n (a * 256 ^ Z.of_nat n + v) = be_bytes n v.
Proof.
  induction n as [| n IH] in a, v |- *; [done |].
  cbn [be_bytes]. f_equal.
  - unfold u8. rewrite !shiftr_div, <- !pow256_bits by lia.
    rewrite Nat2Z.inj_succ, Z.pow_succ_r by lia. pose proof (pow256 n).
    replace (a * (256 * 256 ^ Z.of_nat n) + v) with (v + (a * 256) * 256 ^ Z.of_nat n) by lia.
    rewrite Z.div_add by lia. by rewrite Z.mod_add by lia.
  - rewrite Nat2Z.inj_succ, Z.pow_succ_r by lia.
    replace (a * (256 * 256 ^ Z.of_nat n)) with (a * 256 * 256 ^ Z.of_nat n) by lia. apply IH.
Qed.

Lemma be_val_bytes l : bytes l -> be_bytes (length l) (be_val l) = l.
Proof.
  induction l as [| b l IH]; intros Hl; [done |].
  pose proof (be_val_range _ Hl) as Hr.
  apply bytes_cons in Hl as [Hb Hl]. cbn [length be_bytes].
  rewrite be_val_cons, be_bytes_add, IH by done. f_equal.
  rewrite shiftr_div, <- pow256_bits by lia.
  pose proof (be_val_range _ Hl). pose proof (pow256 (length l)).
  rewrite Z.div_add_l, Z.div_small, Z.add_0_r by lia. by apply u8_id.
Qed.

Lemma be_val_inj l1 l2 :
  bytes l1 -> bytes l2 -> length l1 = length l2 -> be_val l1 = be_val l2 -> l1 = l2.
Proof.
  intros H1 H2 Hl Hv. rewrite <- (be_val_bytes l1), <- (be_val_bytes l2) by done. congruence.
Qed.

Lemma be_bytes_split a b v : be_bytes (a + b) v = be_bytes a (v / 256 ^ Z.of_nat b) ++ be_bytes b v.
Proof.
  induction a as [| a IH]; [done |]. cbn [Nat.add be_bytes app]. rewrite IH. do 2 f_equal.
  rewrite !shiftr_div, pow256_bits, Z.div_div, <- Z.pow_add_r by lia. do 2 f_equal. lia.
Qed.

(** Only the low bits of the number matter. *)
Lemma be_bytes_wrap n v w :
  v mod 256 ^ Z.of_nat n = w mod 256 ^ Z.of_nat n -> be_bytes n v = be_bytes n w.
Proof.
  intros H. apply be_val_inj; [apply be_bytes_ok | apply be_bytes_ok | by rewrite !be_bytes_length |].
  by rewrite !be_bytes_mod.
Qed.

Lemma be_bytes_inj n v w :
  0 <= v < 256 ^ Z.of_nat n -> 0 <= w < 256 ^ Z.of_nat n ->
  be_bytes n v = be_bytes n w -> v = w.
Proof. intros Hv Hw H. rewrite <- (be_bytes_val n v), <- (be_bytes_val n w), H; done. Qed.

Lemma le_val_range l : bytes l -> 0 <= le_val l < 256 ^ Z.of_nat (length l).
Proof.
  induction l as [| b l IH]; intros Hb; [done |].
  apply bytes_cons in Hb as [[Hb1 Hb2] Hl]. specialize (IH Hl).
  cbn [le_val length]. rewrite Nat2Z.inj_succ, Z.pow_succ_r by lia. nia.
Qed.

Lemma le_val_app l1 l2 : le_val (l1 ++ l2) = le_val l1 + 256 ^ Z.of_nat (length l1) * le_val l2.
Proof.
  induction l1 as [| b l1 IH]; cbn [app le_val length]; [lia |].
  rewrite IH, Nat2Z.inj_succ, Z.pow_succ_r by lia. lia.
Qed.

Lemma le_bytes_mod n v : le_val (le_bytes n v) = v mod 256 ^ Z.of_nat n.
Proof.
  revert v. induction n as [| n IH]; intros v; [by rewrite Z.mod_1_r |].
  cbn [le_bytes le_val]. rewrite IH, shiftr_div by lia. change (2 ^ 8) with 256.
  rewrite Nat2Z.inj_succ, Z.pow_succ_r by lia. pose proof (pow256 n).
  rewrite Z.rem_mul_r by lia. unfold u8. lia.
Qed.

Lemma le_val_bytes l : bytes l -> le_bytes (length l) (le_val l) = l.
Proof.
  induction l as [| b l IH]; intros Hl; [done |].
  apply bytes_cons in Hl as [Hb Hl]. cbn [length le_bytes le_val].
  rewrite shiftr_div by lia. change (2 ^ 8) with 256.
  replace (b + 256 * le_val l) with (le_val l * 256 + b) by lia.
  rewrite Z.div_add_l, (Z.div_small b) by (unfold byte_ok in Hb; lia).
  rewrite Z.add_0_r, IH by done. f_equal. unfold u8.
  rewrite Z.add_comm, Z.mod_add by lia. by apply u8_id.
Qed.

(* ------------------------------------------------------------------ *)
(** * Generic lemmas: bit operations and widths *)

(** Extensionality of Z on bits, splitting at the width [n]. *)
Ltac bits_mod n :=
  apply Z.bits_inj'; intros ?i ?Hi;
  rewrite ?Z.lor_spec, ?Z.land_spec, ?Z.lxor_spec;
  match goal with
  | i : Z |- _ =>
    destruct (Z.lt_ge_cases i n);
    [ rewrite ?Z.mod_pow2_bits_low by lia | rewrite ?Z.mod_pow2_bits_high by lia ];
    rewrite ?Z.lor_spec, ?Z.land_spec, ?Z.lxor_spec
  end.

Lemma lor_mod a b n : 0 <= n -> Z.lor a b mod 2 ^ n = Z.lor (a mod 2 ^ n) (b mod 2 ^ n).
Proof. intros. by bits_mod n. Qed.

Lemma land_mod a b n : 0 <= n -> Z.land a b mod 2 ^ n = Z.land (a mod 2 ^ n) (b mod 2 ^ n).
Proof. intros. by bits_mod n. Qed.

Lemma lxor_mod a b n : 0 <= n -> Z.lxor a b mod 2 ^ n = Z.lxor (a mod 2 ^ n) (b mod 2 ^ n).
Proof. intros. by bits_mod n. Qed.

Lemma range_mod x n : 0 <= n -> x mod 2 ^ n = x -> 0 <= x < 2 ^ n.
Proof. intros Hn <-. apply Z.mod_pos_bound. by apply Z.pow_pos_nonneg. Qed.

Lemma lor_range a b n : 0 <= n -> 0 <= a < 2 ^ n -> 0 <= b < 2 ^ n -> 0 <= Z.lor a b < 2 ^ n.
Proof. intros. apply range_mod; [done |]. by rewrite lor_mod, !Z.mod_small. Qed.

Lemma lxor_range a b n : 0 <= n -> 0 <= a < 2 ^ n -> 0 <= b < 2 ^ n -> 0 <= Z.lxor a b < 2 ^ n.
Proof. intros. apply range_mod; [done |]. by rewrite lxor_mod, !Z.mod_small. Qed.

Lemma land_range_l a b n : 0 <= n -> 0 <= a < 2 ^ n -> 0 <= Z.land a b < 2 ^ n.
Proof.
  intros Hn Ha. apply range_mod; [done |]. rewrite land_mod, (Z.mod_small a) by done.
  apply Z.bits_inj'. intros i Hi. rewrite !Z.land_spec. destruct (Z.lt_ge_cases i n).
  - by rewrite Z.mod_pow2_bits_low by lia.
  - rewrite <- (Z.mod_small a (2 ^ n)), Z.mod_pow2_bits_high by lia. done.
Qed.

Lemma byte_range b : byte_ok b <-> 0 <= b < 2 ^ 8.
Proof. done. Qed.

Lemma lor_byte a b : byte_ok a -> byte_ok b -> byte_ok (Z.lor a b).
Proof. rewrite !byte_range. by apply lor_range. Qed.

Lemma lxor_byte a b : byte_ok a -> byte_ok b -> byte_ok (Z.lxor a b).
Proof. rewrite !byte_range. by apply lxor_range. Qed.

Lemma land_byte a b : byte_ok a -> byte_ok (Z.land a b).
Proof. rewrite !byte_range. by apply land_range_l. Qed.

Lemma lxor_cancel a b : Z.lxor (Z.lxor a b) b = a.
Proof. by rewrite Z.lxor_assoc, Z.lxor_nilpotent, Z.lxor_0_r. Qed.

#[export] Hint Resolve lor_byte lxor_byte land_byte : opssl.

(** [n & (2^k - 1)] on a counter that wrapped at 64 bits. *)
Lemma land_counter n k : (k <= 64)%nat ->
  Z.land (u64 (Z.of_nat n)) (Z.ones (Z.of_nat k)) = Z.of_nat (n mod 2 ^ k).
Proof.
  intros Hk. rewrite Z.land_ones by lia. unfold u64. change 18446744073709551616 with (2 ^ 64).
  rewrite Nat2Z.inj_mod, Nat2Z.inj_pow. change (Z.of_nat 2) with 2.
  replace 64 with (Z.of_nat k + (64 - Z.of_nat k)) by lia. rewrite Z.pow_add_r by lia.
  pose proof (Z.pow_pos_nonneg 2 (Z.of_nat k) ltac:(lia) ltac:(lia)).
  pose proof (Z.pow_pos_nonneg 2 (64 - Z.of_nat k) ltac:(lia) ltac:(lia)).
  rewrite Z.rem_mul_r by lia. rewrite (Z.mul_comm (2 ^ Z.of_nat k) (_ mod _)), Z.mod_add by lia.
  apply Z.mod_mod. lia.
Qed.

(* ------------------------------------------------------------------ *)
(** * Decidability of the byte predicates *)

#[export] Instance byte_ok_dec b : Decision (byte_ok b).
Proof. unfold byte_ok. apply _. Defined.

#[export] Instance bytes_dec l : Decision (bytes l).
Proof. unfold bytes. apply _. Defined.

(** Close a [bytes] goal on a closed list by evaluation. *)
Ltac solve_bytes := apply (bool_decide_unpack _); vm_compute; exact I.

(** A boolean property of all 256 byte values, by evaluation. *)
Lemma byte_forall (P : Z -> bool) :
  forallb P (map Z.of_nat (seq 0 256)) = true -> forall b, byte_ok b -> P b = true.
Proof.
  intros H b [H1 H2]. rewrite forallb_forall in H. apply H.
  apply in_map_iff. exists (Z.to_nat b). split; [lia |]. apply in_seq. lia.
Qed.

(* ------------------------------------------------------------------ *)
(** * Loops that fill an array from earlier cells *)

(** [for (i = a; i < a + n; i++) W[i] = f(W)] where [f i W] reads only cells
    below [i]: afterwards the cells satisfy the recurrence. *)
Section Fill.
Variable f : nat -> list Z -> Z.

Definition fill (a n : nat) (W : list Z) : list Z := for_range a n (fun i W => <[i := f i W]> W) W.

Lemma fill_length a n W : length (fill a n W) = length W.
Proof.
  unfold fill. apply (for_range_ind (fun _ W' => length W' = length W)); [done |].
  intros. by rewrite length_insert.
Qed.

Lemma fill_other a n W j : (j < a \/ a + n <= j)%nat -> (fill a n W).[j] = W.[j].
Proof.
  unfold fill. intros Hj.
  apply (for_range_ind (fun i W' => (j < a \/ a + n <= j)%nat -> W'.[j] = W.[j])); [done | | done].
  intros i s' Hi IH _. rewrite get_insert_ne by lia. auto.
Qed.

Lemma fill_split a n i W : (i <= n)%nat -> fill a n W = fill (a + i) (n - i) (fill a i W).
Proof.
  intros Hi. unfold fill, for_range. replace n with (i + (n - i))%nat at 1 by lia.
  by rewrite seq_app, fold_left_app.
Qed.

Lemma fill_spec a n W i :
  (forall i W W', (a <= i)%nat -> (forall j, (j < i)%nat -> W.[j] = W'.[j]) -> f i W = f i W') ->
  (a <= i < a + n)%nat -> (a + n <= length W)%nat -> (fill a n W).[i] = f i (fill a n W).
Proof.
  intros f_below Hi Hl. rewrite (fill_split a n (i - a) W) by lia.
  replace (a + (i - a))%nat with i by lia. set (W1 := fill a (i - a) W).
  assert (length W1 = length W) as Hl1 by apply fill_length.
  replace (n - (i - a))%nat with (S (n - (i - a) - 1)) by lia.
  set (m := (n - (i - a) - 1)%nat).
  assert (fill i (S m) W1 = fill (S i) m (<[i := f i W1]> W1)) as ->
    by (unfold fill; by rewrite for_range_S).
  rewrite fill_other, get_insert_eq by lia. apply f_below; [lia |].
  intros j Hj. rewrite fill_other, get_insert_ne by lia. done.
Qed.

Lemma fill_range a n W w :
  (forall i W', 0 <= f i W' < w) -> Forall (fun x => 0 <= x < w) W ->
  Forall (fun x => 0 <= x < w) (fill a n W).
Proof.
  intros Hf HW. unfold fill. apply (for_range_ind (fun _ W' => Forall (fun x => 0 <= x < w) W')); [done |].
  intros i s' _ H. by apply Forall_insert.
Qed.
End Fill.
