(* ===== verification/Platform.v ===== *)
(** Platform helpers: the network byte-order accessors of include/opssl/platform.h
    and the constant-time primitives of src/crypto/constant_time.c.

    A pointer read is a list of the bytes at the pointer; [opssl_put_be16 v] and
    its siblings return the bytes they store at [p].  [int] and [size_t]
    arithmetic is written out on [Z] with its promotions and wrap-around. *)
From S2P Require Import Prelude.

(* ------------------------------------------------------------------ *)
(** * platform.h: byte order *)

Definition opssl_be16 (p : list Z) : Z :=
  u16 (Z.lor (Z.shiftl p.[0] 8) p.[1]).

Definition opssl_be32 (p : list Z) : Z :=
  Z.lor (Z.lor (Z.lor (Z.shiftl p.[0] 24) (Z.shiftl p.[1] 16)) (Z.shiftl p.[2] 8)) p.[3].

Definition opssl_be64 (p : list Z) : Z :=
  Z.lor (Z.shiftl (opssl_be32 p) 32) (opssl_be32 (drop 4 p)).

Definition opssl_put_be16 (v : Z) : list Z := [u8 (Z.shiftr v 8); u8 v].

Definition opssl_put_be32 (v : Z) : list Z :=
  [u8 (Z.shiftr v 24); u8 (Z.shiftr v 16); u8 (Z.shiftr v 8); u8 v].

Definition opssl_put_be64 (v : Z) : list Z :=
  opssl_put_be32 (u32 (Z.shiftr v 32)) ++ opssl_put_be32 (u32 v).

(* ------------------------------------------------------------------ *)
(** * constant_time.c *)

Definition opssl_ct_eq (a b : list Z) (len : nat) : Z :=
  let diff := for_range 0 len (fun i diff => Z.lor diff (Z.lxor a.[i] b.[i])) 0 in
  Z.land 1 (Z.shiftr (diff - 1) 8).

Definition opssl_ct_is_zero (buf : list Z) (len : nat) : Z :=
  let acc := for_range 0 len (fun i acc => Z.lor acc buf.[i]) 0 in
  Z.land 1 (Z.shiftr (acc - 1) 8).

Definition opssl_ct_word_is_zero (x : Z) : Z :=
  Z.lxor 1 (Z.shiftr (Z.lor x (u64 (- s64 x))) 63).

Definition opssl_ct_mask (condition : Z) : Z :=
  u64 (- b2z (negb (condition =? 0))).

(** The result is the contents of [dst] after the call. *)
Definition opssl_ct_select (dst a b : list Z) (len : nat) (select_a : Z) : list Z :=
  let mask := u8 (- Z.land select_a 1) in
  for_range 0 len
    (fun i pd => <[i := u8 (Z.lor (Z.land a.[i] mask) (Z.land b.[i] (Z.lnot mask)))]> pd) dst.

Definition opssl_ct_min (a b : Z) : Z :=
  let diff := u64 (a - b) in
  let mask := u64 (Z.shiftr (s64 diff) 63) in
  u64 (b + Z.land diff mask).

(* ------------------------------------------------------------------ *)
(** * Byte order: the accessors are the reference encodings *)

(** The ranges of the first bytes of [p]. *)
Ltac read_bytes Hp :=
  pose proof (bytes_get _ 0 Hp); pose proof (bytes_get _ 1 Hp);
  pose proof (bytes_get _ 2 Hp); pose proof (bytes_get _ 3 Hp); unfold byte_ok in *.

Lemma be16_spec p : bytes p -> opssl_be16 p = p.[0] * 256 + p.[1].
Proof.
  intros Hp. read_bytes Hp. unfold opssl_be16.
  rewrite lor_shiftl by lia. unfold u16. rewrite Z.mod_small; lia.
Qed.

Lemma be32_spec p :
  bytes p -> opssl_be32 p = ((p.[0] * 256 + p.[1]) * 256 + p.[2]) * 256 + p.[3].
Proof.
  intros Hp. read_bytes Hp. unfold opssl_be32.
  rewrite (lor_shiftl2 p.[0] p.[1]), lor_shiftl2, lor_shiftl by (simpl; lia). simpl. lia.
Qed.

Lemma be32_range p : bytes p -> 0 <= opssl_be32 p < 2 ^ 32.
Proof. intros Hp. rewrite be32_spec by done. read_bytes Hp. lia. Qed.

Lemma be64_spec p : bytes p -> opssl_be64 p = opssl_be32 p * 2 ^ 32 + opssl_be32 (drop 4 p).
Proof.
  intros Hp. unfold opssl_be64. apply lor_shiftl; [lia |]. by apply be32_range, bytes_drop.
Qed.

Lemma be16_cons a b l : opssl_be16 (a :: b :: l) = opssl_be16 [a; b].
Proof. done. Qed.

Lemma be16_val a b : bytes [a; b] -> opssl_be16 [a; b] = be_val [a; b].
Proof. intros. rewrite be16_spec by done. done. Qed.

Lemma be32_val a b c d : bytes [a; b; c; d] -> opssl_be32 [a; b; c; d] = be_val [a; b; c; d].
Proof. intros. rewrite be32_spec by done. cbn. lia. Qed.

Lemma put_be16_bytes v : opssl_put_be16 v = be_bytes 2 v.
Proof. cbn. by rewrite Z.shiftr_0_r. Qed.

Lemma put_be32_bytes v : opssl_put_be32 v = be_bytes 4 v.
Proof. cbn. by rewrite Z.shiftr_0_r. Qed.

Lemma u8_shiftr_u32 v k : 0 <= k <= 24 -> u8 (Z.shiftr (u32 v) k) = u8 (Z.shiftr v k).
Proof.
  intros Hk. unfold u8, u32. change 256 with (2 ^ 8). change 4294967296 with (2 ^ 32).
  apply Z.bits_inj'. intros i Hi.
  destruct (Z.lt_ge_cases i 8).
  - rewrite !Z.mod_pow2_bits_low, !Z.shiftr_spec by lia.
    by rewrite Z.mod_pow2_bits_low by lia.
  - by rewrite !Z.mod_pow2_bits_high by lia.
Qed.

Lemma put_be64_bytes v : opssl_put_be64 v = be_bytes 8 v.
Proof.
  unfold opssl_put_be64, opssl_put_be32. cbn -[Z.shiftr].
  rewrite !u8_shiftr_u32 by lia.
  rewrite <- (Z.shiftr_0_r (u32 (Z.shiftr v 32))), <- (Z.shiftr_0_r (u32 v)).
  rewrite !u8_shiftr_u32 by lia. rewrite !Z.shiftr_shiftr by lia. done.
Qed.

(* ------------------------------------------------------------------ *)
(** * Constant-time primitives *)

(** The idiom [1 & ((d - 1) >> 8)] on a byte [d]. *)
Lemma ct_collapse d : byte_ok d -> Z.land 1 (Z.shiftr (d - 1) 8) = b2z (d =? 0).
Proof.
  intros [H1 H2]. rewrite shiftr_div by lia. destruct (Z.eqb_spec d 0) as [-> | Hn].
  - reflexivity.
  - rewrite Z.div_small by lia. reflexivity.
Qed.


(** The accumulator of [opssl_ct_eq] is zero exactly when the prefixes agree. *)
Lemma ct_eq_acc a b len :
  bytes a -> bytes b -> (len <= length a)%nat -> (len <= length b)%nat ->
  let diff := for_range 0 len (fun i diff => Z.lor diff (Z.lxor a.[i] b.[i])) 0 in
  byte_ok diff /\ (diff = 0 <-> take len a = take len b).
Proof.
  intros Ha Hb Hla Hlb. induction len as [| n IH]; cbn zeta; [done |].
  rewrite for_range_snoc. cbn [Nat.add]. destruct IH as [Hok Hiff]; [lia | lia |].
  split; [auto with opssl |]. rewrite Z.lor_eq_0_iff, Z.lxor_eq_0_iff, Hiff.
  rewrite (take_S_r _ _ _ (lookup_get a n ltac:(lia))), (take_S_r _ _ _ (lookup_get b n ltac:(lia))).
  split; [by intros [-> ->] |]. intros H. apply app_inj_2 in H as [? [=]]; done.
Qed.

Lemma ct_is_zero_acc a len :
  bytes a -> (len <= length a)%nat ->
  let acc := for_range 0 len (fun i acc => Z.lor acc a.[i]) 0 in
  byte_ok acc /\ (acc = 0 <-> take len a = replicate len 0).
Proof.
  intros Ha Hl. induction len as [| n IH]; cbn zeta; [done |].
  rewrite for_range_snoc. cbn [Nat.add]. destruct IH as [Hok Hiff]; [lia |].
  split; [auto with opssl |]. rewrite Z.lor_eq_0_iff, Hiff.
  rewrite (take_S_r _ _ _ (lookup_get a n ltac:(lia))), replicate_S_end.
  split; [by intros [-> ->] |]. intros H. apply app_inj_2 in H as [? [=]]; done.
Qed.

(** [opssl_ct_eq] returns 1 exactly when the first [len] bytes of the two
    buffers are equal, and 0 otherwise. *)
Theorem opssl_ct_eq_spec a b len :
  bytes a -> bytes b -> (len <= length a)%nat -> (len <= length b)%nat ->
  opssl_ct_eq a b len = b2z (bool_decide (take len a = take len b)).
Proof.
  intros Ha Hb Hla Hlb. destruct (ct_eq_acc a b len Ha Hb Hla Hlb) as [Hok Hiff].
  unfold opssl_ct_eq. rewrite ct_collapse by done. f_equal.
  destruct (Z.eqb_spec (for_range 0 len (fun i diff => Z.lor diff (Z.lxor a.[i] b.[i])) 0) 0) as [E | E].
  - symmetry. apply bool_decide_eq_true_2. by apply Hiff.
  - symmetry. apply bool_decide_eq_false_2. intros H. by apply E, Hiff.
Qed.

Lemma opssl_ct_eq_spec_witness :
  opssl_ct_eq [1; 2; 3] [1; 2; 4] 2 = 1 /\ opssl_ct_eq [1; 2; 3] [1; 2; 4] 3 = 0.
Proof.
  split.
  - refine (eq_trans (opssl_ct_eq_spec [1; 2; 3] [1; 2; 4] 2 _ _ _ _) eq_refl);
      [solve_bytes | solve_bytes | simpl; lia | simpl; lia].
  - refine (eq_trans (opssl_ct_eq_spec [1; 2; 3] [1; 2; 4] 3 _ _ _ _) eq_refl);
      [solve_bytes | solve_bytes | simpl; lia | simpl; lia].
Defined.

Lemma opssl_ct_eq_iff a b len :
  bytes a -> bytes b -> (len <= length a)%nat -> (len <= length b)%nat ->
  negb (opssl_ct_eq a b len =? 0) = bool_decide (take len a = take len b).
Proof.
  intros. destruct (ct_eq_acc a b len) as [Hok Hiff]; [done.. |].
  unfold opssl_ct_eq. rewrite ct_collapse by done.
  set (d := for_range 0 len _ 0) in *. destruct (Z.eqb_spec d 0) as [E | E].
  - symmetry. apply bool_decide_eq_true_2. by apply Hiff.
  - symmetry. apply bool_decide_eq_false_2. intros H'. by apply E, Hiff.
Qed.

Lemma opssl_ct_is_zero_spec a len :
  bytes a -> (len <= length a)%nat ->
  opssl_ct_is_zero a len = b2z (bool_decide (take len a = replicate len 0)).
Proof.
  intros Ha Hl. destruct (ct_is_zero_acc a len Ha Hl) as [Hok Hiff].
  unfold opssl_ct_is_zero. rewrite ct_collapse by done. f_equal.
  set (d := for_range 0 len _ 0) in *. destruct (Z.eqb_spec d 0) as [E | E].
  - symmetry. apply bool_decide_eq_true_2. by apply Hiff.
  - symmetry. apply bool_decide_eq_false_2. intros H. by apply E, Hiff.
Qed.

Lemma s64_range x : - 2 ^ 63 <= s64 x < 2 ^ 63.
Proof.
  unfold s64. pose proof (u64_range x). cbn zeta.
  destruct (Z.ltb_spec (u64 x) 9223372036854775808); lia.
Qed.

Lemma s64_mod x : s64 x mod 2 ^ 64 = u64 x.
Proof.
  unfold s64, u64. cbn zeta. case_if; change (2 ^ 64) with 18446744073709551616.
  - by rewrite Z.mod_mod.
  - rewrite <- (Z.mod_add _ 1) by lia.
    replace (x mod 18446744073709551616 - 18446744073709551616 + 1 * 18446744073709551616)
      with (x mod 18446744073709551616) by lia. by rewrite Z.mod_mod.
Qed.

Lemma opssl_ct_mask_spec c : opssl_ct_mask c = if c =? 0 then 0 else UINT64_MAX.
Proof. unfold opssl_ct_mask. by destruct (c =? 0). Qed.

(** Bit 63 of [x | -x] is set exactly for a nonzero 64-bit [x]. *)
Lemma opssl_ct_word_is_zero_spec x :
  0 <= x < 2 ^ 64 -> opssl_ct_word_is_zero x = b2z (x =? 0).
Proof.
  intros Hx. unfold opssl_ct_word_is_zero.
  destruct (Z.eqb_spec x 0) as [-> | Hn]; [reflexivity |].
  assert (u64 (- s64 x) = 2 ^ 64 - x) as ->.
  { unfold s64, u64. cbn zeta. rewrite (Z.mod_small x) by lia.
    case_if; bool_to_prop.
    - rewrite <- (Z.mod_add _ 1), Z.mod_small; lia.
    - rewrite Z.mod_small; lia. }
  assert (0 <= Z.lor x (2 ^ 64 - x) < 2 ^ 64) as Hr by (apply lor_range; lia).
  assert (Z.shiftr (Z.lor x (2 ^ 64 - x)) 63 = 1) as ->; [| reflexivity].
  rewrite shiftr_div by lia.
  assert (2 ^ 63 <= Z.lor x (2 ^ 64 - x)) as Hlow.
  { assert (2 ^ 63 <= x \/ 2 ^ 63 <= 2 ^ 64 - x) as [H | H] by lia.
    - etransitivity; [exact H |]. apply Z.ldiff_le; [lia |]. apply Z.bits_inj'. intros i Hi.
      rewrite Z.ldiff_spec, Z.lor_spec, Z.bits_0. by destruct (Z.testbit x i).
    - etransitivity; [exact H |].
      apply Z.ldiff_le; [lia |]. apply Z.bits_inj'. intros i Hi.
      rewrite Z.ldiff_spec, Z.lor_spec, Z.bits_0. destruct (Z.testbit x i), (Z.testbit (2 ^ 64 - x) i); done. }
  symmetry. apply (Z.div_unique _ _ _ (Z.lor x (2 ^ 64 - x) - 2 ^ 63)); lia.
Qed.

Lemma s64_sign d : 0 <= d < 2 ^ 64 -> u64 (Z.shiftr (s64 d) 63) = if d <? 2 ^ 63 then 0 else UINT64_MAX.
Proof.
  intros Hd. unfold s64. cbn zeta. unfold u64 at 2 3 4. rewrite Z.mod_small by lia.
  change 9223372036854775808 with (2 ^ 63). rewrite shiftr_div by lia.
  destruct (Z.ltb_spec d (2 ^ 63)).
  - rewrite Z.div_small by lia. done.
  - replace ((d - 18446744073709551616) / 2 ^ 63) with (-1); [done |].
    apply (Z.div_unique _ _ _ (d - 2 ^ 63)); lia.
Qed.

(** [opssl_ct_min] is the minimum exactly when the operands are within
    [-2^63 .. 2^63) of each other; beyond that it returns the maximum. *)
Theorem opssl_ct_min_spec a b :
  0 <= a < 2 ^ 64 -> 0 <= b < 2 ^ 64 ->
  opssl_ct_min a b =
    if (- 2 ^ 63 <=? a - b) && (a - b <? 2 ^ 63) then Z.min a b else Z.max a b.
Proof.
  intros Ha Hb. unfold opssl_ct_min. cbn zeta.
  rewrite s64_sign by apply u64_range.
  destruct (Z.le_gt_cases b a) as [Hab | Hab].
  - assert (u64 (a - b) = a - b) as -> by (unfold u64; rewrite Z.mod_small; lia).
    destruct (Z.leb_spec (- 2 ^ 63) (a - b)), (Z.ltb_spec (a - b) (2 ^ 63)); try lia; cbn [andb].
    + rewrite Z.land_0_r. unfold u64. rewrite Z.mod_small; lia.
    + change UINT64_MAX with (Z.ones 64). rewrite Z.land_ones, Z.mod_small by lia.
      unfold u64. rewrite Z.mod_small; lia.
  - assert (u64 (a - b) = a - b + 2 ^ 64) as ->
      by (unfold u64; rewrite <- (Z.mod_add _ 1), Z.mod_small; lia).
    destruct (Z.leb_spec (- 2 ^ 63) (a - b)), (Z.ltb_spec (a - b) (2 ^ 63)),
      (Z.ltb_spec (a - b + 2 ^ 64) (2 ^ 63)); try lia; cbn [andb].
    + change UINT64_MAX with (Z.ones 64). rewrite Z.land_ones, Z.mod_small by lia.
      unfold u64. replace (b + (a - b + 2 ^ 64)) with (a + 1 * 2 ^ 64) by lia.
      change 18446744073709551616 with (2 ^ 64). rewrite Z.mod_add, Z.mod_small; lia.
    + rewrite Z.land_0_r. unfold u64. rewrite Z.mod_small; lia.
Qed.

Lemma opssl_ct_min_spec_witness :
  opssl_ct_min 3 7 = 3 /\ opssl_ct_min (2 ^ 64 - 1) 1 = 2 ^ 64 - 1.
Proof.
  split.
  - refine (eq_trans (opssl_ct_min_spec 3 7 _ _) eq_refl); lia.
  - refine (eq_trans (opssl_ct_min_spec (2 ^ 64 - 1) 1 _ _) eq_refl); lia.
Defined.

(** One byte of [opssl_ct_select]: the mask is 0xFF for an odd [select_a]. *)
Lemma ct_select_byte x y s :
  byte_ok x -> byte_ok y ->
  u8 (Z.lor (Z.land x (u8 (- Z.land s 1))) (Z.land y (Z.lnot (u8 (- Z.land s 1))))) =
  if Z.odd s then x else y.
Proof.
  intros Hx Hy. change 1 with (Z.ones 1). rewrite Z.land_ones by lia.
  change (2 ^ 1) with 2. rewrite Zmod_odd. destruct (Z.odd s); cbv match.
  - replace (u8 (Z.opp 1)) with (Z.ones 8) by reflexivity. rewrite Z.land_ones, <- Z.ldiff_land by lia.
    assert (Z.ldiff y (Z.ones 8) = 0) as ->.
    { rewrite Z.ldiff_ones_r, shiftr_div, Z.div_small by (unfold byte_ok in *; lia). done. }
    rewrite Z.lor_0_r, Z.mod_small by (unfold byte_ok in *; lia). by apply u8_id.
  - replace (u8 (Z.opp 0)) with 0 by reflexivity. replace (Z.lnot 0) with (-1) by reflexivity.
    rewrite Z.land_0_r, Z.land_m1_r, Z.lor_0_l. by apply u8_id.
Qed.

(** [opssl_ct_select] overwrites the first [len] bytes of [dst] with those
    of [a] when [select_a] is odd and with those of [b] when it is even. *)
Theorem opssl_ct_select_spec dst a b len s :
  bytes a -> bytes b ->
  (len <= length a)%nat -> (len <= length b)%nat -> (len <= length dst)%nat ->
  opssl_ct_select dst a b len s = (if Z.odd s then take len a else take len b) ++ drop len dst.
Proof.
  intros Ha Hb Hla Hlb Hld. unfold opssl_ct_select. cbn zeta.
  induction len as [| n IH]; [by destruct (Z.odd s) |].
  rewrite for_range_snoc. cbn [Nat.add]. rewrite IH by lia.
  rewrite ct_select_byte by auto with opssl.
  assert (length (if Z.odd s then take n a else take n b) = n) as Hlen
    by (destruct (Z.odd s); rewrite length_take; lia).
  rewrite (drop_S dst (get dst n) n) by (apply lookup_get; lia).
  rewrite <- Hlen at 1. rewrite <- (Nat.add_0_r (length _)), insert_app_r. cbn [insert list_insert].
  rewrite (take_S_r _ _ _ (lookup_get a n ltac:(lia))), (take_S_r _ _ _ (lookup_get b n ltac:(lia))).
  destruct (Z.odd s); by rewrite <- app_assoc.
Qed.

Lemma opssl_ct_select_spec_witness :
  opssl_ct_select [0; 0; 9] [1; 2] [3; 4] 2 1 = [1; 2; 9] /\
  opssl_ct_select [0; 0; 9] [1; 2] [3; 4] 2 2 = [3; 4; 9].
Proof.
  split.
  - refine (eq_trans (opssl_ct_select_spec [0; 0; 9] [1; 2] [3; 4] 2 1 _ _ _ _ _) eq_refl);
      first [solve_bytes | simpl; lia].
  - refine (eq_trans (opssl_ct_select_spec [0; 0; 9] [1; 2] [3; 4] 2 2 _ _ _ _ _) eq_refl);
      first [solve_bytes | simpl; lia].
Defined.
