(* ===== verification/Err.v ===== *)
(** The thread-local error stack of src/err.c and include/opssl/err.h.

    [err_state] is the ring buffer of one thread.  Every operation of the C
    file is a function on it; the abstract specification is a bounded first-in
    first-out queue of packed codes that drops the oldest entry when full. *)
From S2P Require Import Prelude.
From stdpp Require Import pretty.
#[local] Open Scope Z_scope.

(* ------------------------------------------------------------------ *)
(** * err.h: codes *)

Definition ERR_RING_SIZE : nat := 8.
Definition ERR_MSG_SIZE : nat := 128.

(** [opssl_err_category_t] *)
Definition OPSSL_ERR_NONE : Z := 0.
Definition OPSSL_ERR_TLS : Z := 1.
Definition OPSSL_ERR_CRYPTO : Z := 2.
Definition OPSSL_ERR_X509 : Z := 3.
Definition OPSSL_ERR_IO : Z := 4.
Definition OPSSL_ERR_MEMORY : Z := 5.
Definition OPSSL_ERR_INTERNAL : Z := 6.

(** [opssl_tls_err_t], the reasons the modelled code uses. *)
Definition OPSSL_TLS_ERR_UNEXPECTED_MSG : Z := 1.
Definition OPSSL_TLS_ERR_BAD_RECORD_MAC : Z := 2.
Definition OPSSL_TLS_ERR_RECORD_OVERFLOW : Z := 3.

(** The reason codes passed to [opssl_set_error]. *)
Definition OPSSL_ERR_INVALID_ARGUMENT : Z := 1.
Definition OPSSL_ERR_ALLOC_FAILED : Z := 7.
Definition OPSSL_ERR_WANT_READ : Z := 8.
Definition OPSSL_ERR_WANT_WRITE : Z := 9.
Definition OPSSL_ERR_CONNECTION_LOST : Z := 10.
Definition OPSSL_ERR_IO_ERROR : Z := 11.
Definition OPSSL_ERR_INVALID_FD : Z := 12.
Definition OPSSL_ERR_NULL_POINTER : Z := 13.
Definition OPSSL_ERR_NO_SPACE : Z := 14.
Definition OPSSL_ERR_INVALID_OPERATION : Z := 15.
Definition OPSSL_ERR_BUFFER_OVERFLOW : Z := 22.

Definition OPSSL_ERR_PACK (cat reason : Z) : Z :=
  Z.lor (u32 (Z.shiftl (u32 cat) 24)) (Z.land (u32 reason) 0x00FFFFFF).

Definition OPSSL_ERR_GET_CATEGORY (e : Z) : Z := Z.shiftr e 24.
Definition OPSSL_ERR_GET_REASON (e : Z) : Z := Z.land e 0x00FFFFFF.

(* ------------------------------------------------------------------ *)
(** * err.c: state *)

Record err_entry := mk_err_entry {
  code : Z;
  file : option string;
  line : Z;
  msg : string
}.

Record err_state := mk_err_state {
  ring : list err_entry;
  head : nat;
  count : nat
}.

(** The build leaves [NDEBUG] undefined (meson's default), so file and line
    are stored; no operation of the API reads them. *)
Definition NDEBUG : bool := false.

Definition err_entry_zero : err_entry := mk_err_entry 0 None 0 EmptyString.

(** [static thread_local struct err_state err_tls = {0}] *)
Definition err_tls_init : err_state :=
  mk_err_state (replicate ERR_RING_SIZE err_entry_zero) 0 0.

(* ------------------------------------------------------------------ *)
(** * err.c: operations *)

Definition detect_category (reason : Z) : Z :=
  if (1000 <=? reason) && (reason <? 2000) then OPSSL_ERR_TLS else
  if (2000 <=? reason) && (reason <? 3000) then OPSSL_ERR_CRYPTO else
  if (3000 <=? reason) && (reason <? 4000) then OPSSL_ERR_X509 else
  if (4000 <=? reason) && (reason <? 5000) then OPSSL_ERR_IO else
  if (5000 <=? reason) && (reason <? 6000) then OPSSL_ERR_MEMORY else
  if (6000 <=? reason) && (reason <? 7000) then OPSSL_ERR_INTERNAL else
  OPSSL_ERR_INTERNAL.

(** Store [entry] in the slot at [head] and advance the ring. *)
Definition ring_store (st : err_state) (entry : err_entry) : err_state :=
  {| ring := <[head st := entry]> (ring st);
     head := (head st + 1) mod ERR_RING_SIZE;
     count := if (count st <? ERR_RING_SIZE)%nat then count st + 1 else count st |}.

Definition opssl_err_push (cat reason : Z) (f : string) (l : Z) (st : err_state) : err_state :=
  ring_store st
    {| code := OPSSL_ERR_PACK cat reason;
       file := if NDEBUG then None else Some f;
       line := if NDEBUG then 0 else l;
       msg := EmptyString |}.

(** [snprintf(entry->msg, ERR_MSG_SIZE, "%s", msg)] keeps 127 characters. *)
Definition opssl_set_error (reason : Z) (m : option string) (st : err_state) : err_state :=
  let cat := detect_category reason in
  ring_store st
    {| code := OPSSL_ERR_PACK cat reason;
       file := if NDEBUG then None else Some "err.c"%string;
       line := if NDEBUG then 0 else 101;
       msg := match m with
              | Some s => String.substring 0 (ERR_MSG_SIZE - 1) s
              | None => EmptyString
              end |}.

Definition opssl_err_get (st : err_state) : Z * err_state :=
  if (count st =? 0)%nat then (0, st)
  else
    let tail := ((head st + ERR_RING_SIZE - count st) mod ERR_RING_SIZE)%nat in
    let err := code (nth tail (ring st) err_entry_zero) in
    (err, {| ring := ring st; head := head st; count := count st - 1 |}).

Definition opssl_err_peek (st : err_state) : Z :=
  if (count st =? 0)%nat then 0
  else
    let tail := ((head st + ERR_RING_SIZE - count st) mod ERR_RING_SIZE)%nat in
    code (nth tail (ring st) err_entry_zero).

Definition opssl_err_clear (st : err_state) : err_state :=
  {| ring := ring st; head := 0; count := 0 |}.

Definition category_string (cat : Z) : string :=
  if cat =? OPSSL_ERR_NONE then "none" else
  if cat =? OPSSL_ERR_TLS then "tls" else
  if cat =? OPSSL_ERR_CRYPTO then "crypto" else
  if cat =? OPSSL_ERR_X509 then "x509" else
  if cat =? OPSSL_ERR_IO then "io" else
  if cat =? OPSSL_ERR_MEMORY then "memory" else
  if cat =? OPSSL_ERR_INTERNAL then "internal" else "unknown".

(** ["%u"] of an unsigned value. *)
Definition fmt_u (x : Z) : string := pretty (Z.to_N x).

Definition opssl_err_string (err : Z) : string :=
  if err =? 0 then "no error"
  else
    String.substring 0 255
      (category_string (OPSSL_ERR_GET_CATEGORY err) ++ ": " ++ fmt_u (OPSSL_ERR_GET_REASON err)).

Definition opssl_err_reason_string (err : Z) : string :=
  if err =? 0 then "success"
  else String.substring 0 63 (fmt_u (OPSSL_ERR_GET_REASON err)).

(* ------------------------------------------------------------------ *)
(** * Specification: a bounded queue *)

Inductive err_op :=
  | OpPush (cat reason : Z) (f : string) (l : Z)
  | OpSetError (reason : Z) (m : option string)
  | OpGet
  | OpPeek
  | OpClear.

(** One call on the implementation: the value it returns (0 for [void]). *)
Definition err_step (op : err_op) (st : err_state) : Z * err_state :=
  match op with
  | OpPush cat reason f l => (0, opssl_err_push cat reason f l st)
  | OpSetError reason m => (0, opssl_set_error reason m st)
  | OpGet => opssl_err_get st
  | OpPeek => (opssl_err_peek st, st)
  | OpClear => (0, opssl_err_clear st)
  end.

Definition q_push (c : Z) (q : list Z) : list Z :=
  let q' := q ++ [c] in drop (length q' - ERR_RING_SIZE) q'.

Definition q_step (op : err_op) (q : list Z) : Z * list Z :=
  match op with
  | OpPush cat reason _ _ => (0, q_push (OPSSL_ERR_PACK cat reason) q)
  | OpSetError reason _ => (0, q_push (OPSSL_ERR_PACK (detect_category reason) reason) q)
  | OpGet => (hd 0 q, tl q)
  | OpPeek => (hd 0 q, q)
  | OpClear => (0, [])
  end.

Fixpoint run {S : Type} (step : err_op -> S -> Z * S) (ops : list err_op) (s : S) : list Z :=
  match ops with
  | [] => []
  | op :: ops' => let '(r, s') := step op s in r :: run step ops' s'
  end.

(* ------------------------------------------------------------------ *)
(** * Refinement *)

Definition err_wf (st : err_state) : Prop :=
  length (ring st) = ERR_RING_SIZE /\ (head st < ERR_RING_SIZE)%nat /\
  (count st <= ERR_RING_SIZE)%nat.

(** The codes of the valid entries, oldest first. *)
Definition queue (st : err_state) : list Z :=
  map (fun i => code (nth ((head st + ERR_RING_SIZE - count st + i) mod ERR_RING_SIZE)
                          (ring st) err_entry_zero))
      (seq 0 (count st)).

Lemma err_init_wf : err_wf err_tls_init.
Proof. unfold err_wf. vm_compute. lia. Qed.

Lemma ring_store_wf st e : err_wf st -> err_wf (ring_store st e).
Proof.
  intros (Hr & Hh & Hc). unfold err_wf, ring_store; cbn [ring head count].
  rewrite length_insert. split; [done |]. split.
  - apply Nat.mod_upper_bound. done.
  - unfold ERR_RING_SIZE in *. case_if; bool_to_prop; lia.
Qed.


Lemma mod8_cases x : (x < 24)%nat ->
  (x mod 8 = if x <? 8 then x else if x <? 16 then x - 8 else x - 16)%nat.
Proof.
  intros H. do 24 (destruct x as [| x]; [reflexivity |]). lia.
Qed.

Lemma ring_store_queue st e : err_wf st -> queue (ring_store st e) = q_push (code e) (queue st).
Proof.
  destruct st as [r h c]. intros (Hr & Hh & Hc). cbn [ring head count] in *.
  unfold queue, q_push, ring_store; cbn [ring head count]. unfold ERR_RING_SIZE in *.
  rewrite length_app, length_map, length_seq. cbn [length].
  assert (forall i, (i < c)%nat -> (8 <= c -> 1 <= i)%nat ->
    nth ((h + 8 - c + i) mod 8) (<[h:=e]> r) err_entry_zero =
    nth ((h + 8 - c + i) mod 8) r err_entry_zero) as Hsame.
  { intros i Hi Hi8. rewrite !nth_lookup, list_lookup_insert_ne; [done |].
    rewrite mod8_cases by lia. repeat case_if; bool_to_prop; lia. }
  assert (nth h (<[h:=e]> r) err_entry_zero = e) as Hnew
    by (rewrite nth_lookup, list_lookup_insert_eq by lia; done).
  destruct (Nat.ltb_spec c 8).
  - replace (c + 1 - 8)%nat with 0%nat by lia. rewrite drop_0.
    rewrite (Nat.add_1_r c), seq_S, map_app. cbn [map]. f_equal.
    + apply map_ext_in. intros i [_ Hi]%in_seq. f_equal.
      rewrite <- Hsame by lia. f_equal.
      rewrite !mod8_cases by (try rewrite mod8_cases by lia; repeat case_if; lia).
      repeat case_if; bool_to_prop; lia.
    + do 2 f_equal. rewrite <- Hnew at 2. f_equal.
      rewrite !mod8_cases by (try rewrite mod8_cases by lia; repeat case_if; lia).
      repeat case_if; bool_to_prop; lia.
  - assert (c = 8%nat) as -> by lia. change (8 + 1 - 8)%nat with 1%nat.
    rewrite skipn_app. cbn [seq map length drop]. cbn [app].
    pose proof (Hsame 1%nat) as H1. pose proof (Hsame 2%nat) as H2.
    pose proof (Hsame 3%nat) as H3. pose proof (Hsame 4%nat) as H4.
    pose proof (Hsame 5%nat) as H5. pose proof (Hsame 6%nat) as H6.
    pose proof (Hsame 7%nat) as H7.
    do 8 (destruct h as [| h]; [cbn in *; rewrite ?H1, ?H2, ?H3, ?H4, ?H5, ?H6, ?H7 by lia; by rewrite Hnew |]).
    lia.
Qed.

Lemma ring_get_queue st :
  err_wf st ->
  err_wf (snd (opssl_err_get st)) /\
  fst (opssl_err_get st) = hd 0 (queue st) /\ queue (snd (opssl_err_get st)) = tl (queue st).
Proof.
  destruct st as [r h c]. intros (Hr & Hh & Hc). cbn [ring head count] in *.
  unfold opssl_err_get, queue, err_wf, ERR_RING_SIZE in *; cbn [ring head count].
  destruct (Nat.eqb_spec c 0) as [-> | Hn]; cbn [fst snd ring head count].
  - done.
  - destruct c as [| c]; [done |]. replace (S c - 1)%nat with c by lia.
    split; [lia |]. split.
    + cbn [seq map hd]. do 2 f_equal. by rewrite Nat.add_0_r.
    + cbn [seq map tl]. rewrite <- seq_shift, map_map. apply map_ext_in.
      intros i [_ Hi]%in_seq. do 3 f_equal. lia.
Qed.

Lemma ring_peek_queue st : opssl_err_peek st = fst (opssl_err_get st).
Proof. unfold opssl_err_peek, opssl_err_get. by case_if. Qed.

(** One step of the ring simulates one step of the queue. *)
Lemma err_step_sim op st :
  err_wf st ->
  err_wf (snd (err_step op st)) /\
  fst (err_step op st) = fst (q_step op (queue st)) /\
  queue (snd (err_step op st)) = snd (q_step op (queue st)).
Proof.
  intros Hwf. destruct op; cbn [err_step q_step fst snd].
  - split; [by apply ring_store_wf |]. split; [done |]. by apply ring_store_queue.
  - split; [by apply ring_store_wf |]. split; [done |]. by apply ring_store_queue.
  - by apply ring_get_queue.
  - split; [done |]. rewrite ring_peek_queue. split; [by apply ring_get_queue | done].
  - destruct Hwf as (Hr & Hh & Hc). unfold err_wf; cbn. unfold ERR_RING_SIZE in *. split; [lia | done].
Qed.

Lemma run_sim ops st : err_wf st -> run err_step ops st = run q_step ops (queue st).
Proof.
  revert st. induction ops as [| op ops IH]; intros st Hwf; [done |]. cbn [run].
  destruct (err_step_sim op st Hwf) as (Hwf' & Hr & Hq).
  destruct (err_step op st) as [r st'], (q_step op (queue st)) as [r' q']. cbn in *.
  subst r' q'. by rewrite IH.
Qed.

(** C13: the thread-local ring buffer refines a first-in first-out queue of at
    most eight codes that forgets the oldest when full: for every sequence of
    pushes, gets, peeks and clears the two return the same values.  This is the order
    of the comments of the code; doc/err-api.txt promises the last error first. *)
Theorem err_ring_refines_queue ops : run err_step ops err_tls_init = run q_step ops [].
Proof. rewrite run_sim by apply err_init_wf. done. Qed.

(** Category and reason are recovered from a packed code. *)
Theorem err_pack_roundtrip cat reason :
  0 <= cat < 256 -> 0 <= reason < 2 ^ 24 ->
  OPSSL_ERR_GET_CATEGORY (OPSSL_ERR_PACK cat reason) = cat /\
  OPSSL_ERR_GET_REASON (OPSSL_ERR_PACK cat reason) = reason.
Proof.
  intros Hc Hr. unfold OPSSL_ERR_GET_CATEGORY, OPSSL_ERR_GET_REASON, OPSSL_ERR_PACK.
  change 0x00FFFFFF with (Z.ones 24). rewrite !Z.land_ones by lia.
  unfold u32. rewrite (Z.mod_small cat), (Z.mod_small reason) by lia.
  rewrite Z.shiftl_mul_pow2, (Z.mod_small (cat * 2 ^ 24)), (Z.mod_small reason) by lia.
  rewrite <- Z.shiftl_mul_pow2, lor_shiftl by lia. rewrite shiftr_div by lia.
  rewrite Z.div_add_l, Z.div_small, Z.add_0_r by lia. split; [done |].
  rewrite Z.add_comm, Z.mod_add, Z.mod_small; lia.
Qed.

Lemma err_pack_roundtrip_witness :
  OPSSL_ERR_GET_CATEGORY (OPSSL_ERR_PACK OPSSL_ERR_X509 52) = 3 /\
  OPSSL_ERR_GET_REASON (OPSSL_ERR_PACK OPSSL_ERR_X509 52) = 52.
Proof. apply (err_pack_roundtrip OPSSL_ERR_X509 52); unfold OPSSL_ERR_X509; lia. Defined.

(** Every reason code of err.h is below 1000, where category detection always
    answers INTERNAL. *)
Lemma set_error_category reason m st :
  0 <= reason < 1000 ->
  opssl_set_error reason m st = ring_store st
    {| code := OPSSL_ERR_PACK OPSSL_ERR_INTERNAL reason;
       file := Some "err.c"%string; line := 101;
       msg := match m with Some s => String.substring 0 127 s | None => EmptyString end |}.
Proof.
  intros H. unfold opssl_set_error, detect_category.
  repeat match goal with
  | |- context [(?a <=? reason)] => rewrite (proj2 (Z.leb_gt a reason)) by lia
  end. done.
Qed.

Lemma err_push_wf cat reason f l st : err_wf st -> err_wf (opssl_err_push cat reason f l st).
Proof. apply ring_store_wf. Qed.

#[export] Hint Resolve err_push_wf err_init_wf : opssl.
