(* ===== verification/Cbs.v ===== *)
(** The CBS parser of src/crypto/cbs.c (include/opssl/cbs.h).

    A [cbs] is the pointer and the length of the C struct: [data] is the memory
    from the pointer on (it may extend beyond [len]), [len] the number of bytes
    the parser may read.  An operation returns [Some] of its out-parameter when
    the C function returns 1 and [None] when it returns 0, together with the
    [cbs] as the call leaves it: C functions that fail half way leave it
    advanced, so the state is kept in both cases. *)
From S2P Require Import Prelude Platform.
#[local] Open Scope Z_scope.

Record cbs := mk_cbs { data : list Z; len : Z }.

(** [cbs->data += n; cbs->len -= n] *)
Definition cbs_advance (n : Z) (c : cbs) : cbs :=
  {| data := drop (Z.to_nat n) (data c); len := len c - n |}.

Definition opssl_cbs_init (d : list Z) (l : Z) : cbs := {| data := d; len := l |}.
Definition opssl_cbs_len (c : cbs) : Z := len c.
Definition opssl_cbs_data (c : cbs) : list Z := data c.
Definition opssl_cbs_is_empty (c : cbs) : bool := len c =? 0.

(** A parser: result and state after the call. *)
Definition parser (A : Type) : Type := cbs -> option A * cbs.

(** [if (!p(cbs, &a)) return 0; return f(a)] *)
Definition cbs_bind {A B} (p : parser A) (f : A -> parser B) : parser B :=
  fun c => match p c with
           | (Some a, c') => f a c'
           | (None, c') => (None, c')
           end.

(* ------------------------------------------------------------------ *)
(** * Operations *)

Definition opssl_cbs_get_u8 : parser Z := fun c =>
  if len c <? 1 then (None, c)
  else (Some (data c).[0], cbs_advance 1 c).

Definition opssl_cbs_get_u16 : parser Z := fun c =>
  if len c <? 2 then (None, c)
  else (Some (opssl_be16 (data c)), cbs_advance 2 c).

Definition opssl_cbs_get_u24 : parser Z := fun c =>
  if len c <? 3 then (None, c)
  else (Some (Z.lor (Z.lor (Z.shiftl (data c).[0] 16) (Z.shiftl (data c).[1] 8)) (data c).[2]),
        cbs_advance 3 c).

Definition opssl_cbs_get_u32 : parser Z := fun c =>
  if len c <? 4 then (None, c)
  else (Some (opssl_be32 (data c)), cbs_advance 4 c).

Definition opssl_cbs_get_bytes (n : Z) : parser cbs := fun c =>
  if len c <? n then (None, c)
  else (Some {| data := data c; len := n |}, cbs_advance n c).

Definition opssl_cbs_skip (n : Z) : parser unit := fun c =>
  if len c <? n then (None, c)
  else (Some tt, cbs_advance n c).

Definition opssl_cbs_get_u8_length_prefixed : parser cbs :=
  cbs_bind opssl_cbs_get_u8 opssl_cbs_get_bytes.

Definition opssl_cbs_get_u16_length_prefixed : parser cbs :=
  cbs_bind opssl_cbs_get_u16 opssl_cbs_get_bytes.

Definition opssl_cbs_get_u24_length_prefixed : parser cbs :=
  cbs_bind opssl_cbs_get_u24 opssl_cbs_get_bytes.

(** The state is not modified; [Some] is what [*out] receives when [out] is
    not NULL. *)
Definition opssl_cbs_peek_u8 (c : cbs) : option Z :=
  if len c <? 1 then None else Some (data c).[0].

Definition opssl_cbs_copy_bytes (n : Z) : parser (list Z) := fun c =>
  if len c <? n then (None, c)
  else (Some (take (Z.to_nat n) (data c)), cbs_advance n c).

(* ------------------------------------------------------------------ *)
(** * The visible bytes, and equality up to what lies beyond them *)

Definition view (c : cbs) : list Z := take (Z.to_nat (len c)) (data c).

(** [data] points to at least [len] bytes. *)
Definition cbs_wf (c : cbs) : Prop :=
  0 <= len c <= Z.of_nat (length (data c)) /\ bytes (data c).

Definition cbs_eqv (c1 c2 : cbs) : Prop := len c1 = len c2 /\ view c1 = view c2.

#[export] Instance cbs_eqv_equiv : Equivalence cbs_eqv.
Proof.
  split.
  - by intros c.
  - by intros c1 c2 [H1 H2].
  - intros c1 c2 c3 [H1 H2] [H3 H4]. split; congruence.
Qed.

(** Results agree when they return equal values and equivalent states. *)
Definition res_eqv {A} (R : A -> A -> Prop) (r1 r2 : option A * cbs) : Prop :=
  option_relation R (fun _ => False) (fun _ => False) (fst r1) (fst r2) /\
  cbs_eqv (snd r1) (snd r2).

Lemma view_length c : cbs_wf c -> length (view c) = Z.to_nat (len c).
Proof. intros [H _]. unfold view. rewrite length_take. lia. Qed.

Lemma view_bytes c : cbs_wf c -> bytes (view c).
Proof. intros [_ H]. by apply bytes_take. Qed.

Lemma view_init l : view (opssl_cbs_init l (Z.of_nat (length l))) = l.
Proof. unfold view, opssl_cbs_init; cbn. rewrite Nat2Z.id. apply take_ge. lia. Qed.

Lemma init_wf l : bytes l -> cbs_wf (opssl_cbs_init l (Z.of_nat (length l))).
Proof. intros. split; [cbn; lia | done]. Qed.

Lemma advance_wf c n : cbs_wf c -> 0 <= n <= len c -> cbs_wf (cbs_advance n c).
Proof.
  intros [H1 H2] Hn. split; cbn.
  - rewrite length_drop. lia.
  - by apply bytes_drop.
Qed.

Lemma advance_view c n : 0 <= n <= len c -> view (cbs_advance n c) = drop (Z.to_nat n) (view c).
Proof.
  intros Hn. unfold view, cbs_advance; cbn.
  rewrite skipn_firstn_comm. f_equal. lia.
Qed.

Lemma data_view_get c i : (i < Z.to_nat (len c))%nat -> (data c).[i] = (view c).[i].
Proof.
  intros Hi. unfold get, view. rewrite !nth_lookup, lookup_take_lt by lia. done.
Qed.

Lemma take_data_view c n : 0 <= n <= len c -> take (Z.to_nat n) (data c) = take (Z.to_nat n) (view c).
Proof. intros. unfold view. rewrite take_take. f_equal. lia. Qed.

(** The view of a sub-CBS. *)
Lemma view_sub c n : 0 <= n <= len c -> view {| data := data c; len := n |} = take (Z.to_nat n) (view c).
Proof. intros. unfold view at 1; cbn [data len]. by apply take_data_view. Qed.

Lemma sub_wf c n : cbs_wf c -> 0 <= n <= len c -> cbs_wf {| data := data c; len := n |}.
Proof. intros [H1 H2] Hn. split; cbn [data len]; [lia | done]. Qed.

Lemma eqv_get c1 c2 i : cbs_eqv c1 c2 -> (i < Z.to_nat (len c1))%nat -> (data c1).[i] = (data c2).[i].
Proof. intros [Hl Hv] Hi. rewrite !data_view_get by (rewrite <- ?Hl; done). by rewrite Hv. Qed.

Lemma cbs_advance_eqv n c1 c2 :
  cbs_eqv c1 c2 -> 0 <= n <= len c1 -> cbs_eqv (cbs_advance n c1) (cbs_advance n c2).
Proof.
  intros [Hl Hv] Hn. split; [cbn; lia |]. rewrite !advance_view by (rewrite <- ?Hl; lia). by rewrite Hv.
Qed.

(* ------------------------------------------------------------------ *)
(** * Functional behaviour *)

Lemma be16_get p q : p.[0] = q.[0] -> p.[1] = q.[1] -> opssl_be16 p = opssl_be16 q.
Proof. unfold opssl_be16. by intros -> ->. Qed.

Lemma be32_get p q :
  p.[0] = q.[0] -> p.[1] = q.[1] -> p.[2] = q.[2] -> p.[3] = q.[3] -> opssl_be32 p = opssl_be32 q.
Proof. unfold opssl_be32. by intros -> -> -> ->. Qed.

(** The first bytes of the view as a big-endian number. *)
Lemma view_be c n :
  cbs_wf c -> Z.of_nat n <= len c ->
  be_val (take n (view c)) = fold_left (fun a i => a * 256 + (view c).[i]) (seq 0 n) 0.
Proof.
  intros Hwf Hn. pose proof (view_length c Hwf).
  induction n as [| n IH]; [done |]. rewrite seq_S, fold_left_app. cbn [fold_left Nat.add].
  rewrite (take_S_r _ _ (view c).[n]) by (apply lookup_get; lia).
  rewrite be_val_snoc, IH by lia. done.
Qed.

(** What a successful or failing fixed-width read does. *)
Definition reads_be (n : nat) (p : parser Z) : Prop := forall c, cbs_wf c ->
  p c = if len c <? Z.of_nat n then (None, c)
        else (Some (be_val (take n (view c))), cbs_advance (Z.of_nat n) c).

Ltac solve_reads_be :=
  intros c Hwf; pose proof (view_bytes c Hwf) as Hb;
  unfold opssl_cbs_get_u8, opssl_cbs_get_u16, opssl_cbs_get_u24, opssl_cbs_get_u32;
  repeat match goal with |- context [Z.of_nat ?n] =>
    let t := eval cbv in (Z.of_nat n) in change (Z.of_nat n) with t end;
  case_if; bool_to_prop; [done |]; do 2 f_equal; rewrite view_be by (done || lia); cbn [seq fold_left].

Lemma get_u8_reads : reads_be 1 opssl_cbs_get_u8.
Proof. solve_reads_be. rewrite data_view_get by lia. lia. Qed.

Lemma get_u16_reads : reads_be 2 opssl_cbs_get_u16.
Proof.
  solve_reads_be. rewrite (be16_get _ (view c)) by (apply data_view_get; lia).
  rewrite be16_spec by done. lia.
Qed.

Lemma get_u24_reads : reads_be 3 opssl_cbs_get_u24.
Proof.
  solve_reads_be. rewrite !data_view_get by lia. read_bytes Hb.
  rewrite lor_shiftl2, lor_shiftl by (simpl; lia). simpl. lia.
Qed.

Lemma get_u32_reads : reads_be 4 opssl_cbs_get_u32.
Proof.
  solve_reads_be. rewrite (be32_get _ (view c)) by (apply data_view_get; lia).
  rewrite be32_spec by done. lia.
Qed.

#[export] Hint Resolve get_u8_reads get_u16_reads get_u24_reads get_u32_reads : opssl.

(* ------------------------------------------------------------------ *)
(** * No operation looks past [len] *)

(** [p] reads only visible bytes: what lies beyond [len] in memory changes
    neither its result nor the visible part of the state it leaves. *)
Class CbsSafe {A} (R : A -> A -> Prop) (p : parser A) : Prop :=
  cbs_safe : forall c1 c2, cbs_wf c1 -> cbs_wf c2 -> cbs_eqv c1 c2 -> res_eqv R (p c1) (p c2).

#[export] Instance get_u8_safe : CbsSafe eq opssl_cbs_get_u8.
Proof.
  intros c1 c2 _ _ He. pose proof He as [Hl _]. unfold opssl_cbs_get_u8. rewrite <- Hl.
  case_if; bool_to_prop; split; cbn; auto using cbs_advance_eqv with lia.
  apply eqv_get; [done | lia].
Qed.

#[export] Instance get_u16_safe : CbsSafe eq opssl_cbs_get_u16.
Proof.
  intros c1 c2 _ _ He. pose proof He as [Hl _]. unfold opssl_cbs_get_u16. rewrite <- Hl.
  case_if; bool_to_prop; split; cbn [fst snd option_relation]; auto using cbs_advance_eqv with lia.
  apply be16_get; apply eqv_get; (done || lia).
Qed.

#[export] Instance get_u24_safe : CbsSafe eq opssl_cbs_get_u24.
Proof.
  intros c1 c2 _ _ He. pose proof He as [Hl _]. unfold opssl_cbs_get_u24. rewrite <- Hl.
  case_if; bool_to_prop; split; cbn [fst snd option_relation]; auto using cbs_advance_eqv with lia.
  rewrite (eqv_get c1 c2 0), (eqv_get c1 c2 1), (eqv_get c1 c2 2) by (done || lia). done.
Qed.

#[export] Instance get_u32_safe : CbsSafe eq opssl_cbs_get_u32.
Proof.
  intros c1 c2 _ _ He. pose proof He as [Hl _]. unfold opssl_cbs_get_u32. rewrite <- Hl.
  case_if; bool_to_prop; split; cbn [fst snd option_relation]; auto using cbs_advance_eqv with lia.
  apply be32_get; apply eqv_get; (done || lia).
Qed.

#[export] Instance get_bytes_safe n : 0 <= n -> CbsSafe cbs_eqv (opssl_cbs_get_bytes n).
Proof.
  intros Hn c1 c2 _ _ He. pose proof He as [Hl Hv]. unfold opssl_cbs_get_bytes. rewrite <- Hl.
  case_if; bool_to_prop; split; cbn [fst snd option_relation]; auto using cbs_advance_eqv with lia.
  split; [done |]. rewrite !view_sub by lia. by rewrite Hv.
Qed.

#[export] Instance skip_safe n : 0 <= n -> CbsSafe eq (opssl_cbs_skip n).
Proof.
  intros Hn c1 c2 _ _ He. pose proof He as [Hl Hv]. unfold opssl_cbs_skip. rewrite <- Hl.
  case_if; bool_to_prop; split; cbn [fst snd option_relation]; auto using cbs_advance_eqv with lia.
Qed.

#[export] Instance copy_bytes_safe n : 0 <= n -> CbsSafe eq (opssl_cbs_copy_bytes n).
Proof.
  intros Hn c1 c2 _ _ He. pose proof He as [Hl Hv]. unfold opssl_cbs_copy_bytes. rewrite <- Hl.
  case_if; bool_to_prop; split; cbn [fst snd option_relation]; auto using cbs_advance_eqv with lia.
  rewrite !take_data_view by lia. by rewrite Hv.
Qed.

(** Any big-endian length followed by that many bytes. *)
Lemma length_prefixed_spec k p c :
  reads_be k p -> cbs_wf c ->
  cbs_bind p opssl_cbs_get_bytes c =
    if len c <? Z.of_nat k then (None, c)
    else let n := be_val (take k (view c)) in
         let c' := cbs_advance (Z.of_nat k) c in
         if len c' <? n then (None, c')
         else (Some {| data := data c'; len := n |}, cbs_advance n c').
Proof. intros Hp Hwf. unfold cbs_bind. rewrite (Hp c Hwf). by case_if. Qed.

Lemma be_val_take_range k c :
  cbs_wf c -> Z.of_nat k <= len c -> 0 <= be_val (take k (view c)) < 256 ^ Z.of_nat k.
Proof.
  intros Hwf Hk. pose proof (be_val_range _ (bytes_take k _ (view_bytes c Hwf))) as Hr.
  rewrite length_take, view_length, Nat.min_l in Hr by (done || lia). done.
Qed.

Lemma length_prefixed_safe k p :
  reads_be k p -> CbsSafe cbs_eqv (cbs_bind p opssl_cbs_get_bytes).
Proof.
  intros Hp c1 c2 Hw1 Hw2 He. pose proof He as [Hl Hv].
  rewrite !(length_prefixed_spec k) by done. rewrite <- Hl, <- Hv. cbn zeta.
  case_if; bool_to_prop; [by split |].
  pose proof (be_val_take_range k c1 Hw1 ltac:(lia)) as Hr.
  assert (cbs_eqv (cbs_advance (Z.of_nat k) c1) (cbs_advance (Z.of_nat k) c2)) as He'
    by (apply cbs_advance_eqv; [done | lia]).
  revert He'. generalize (cbs_advance (Z.of_nat k) c1), (cbs_advance (Z.of_nat k) c2). intros d1 d2 He'.
  pose proof He' as [Hl' Hv']. rewrite <- Hl'. match goal with |- context [if ?b then _ else _] => destruct b eqn:Hlt end; bool_to_prop; [by split |].
  split; cbn [fst snd option_relation].
  - split; [done |]. revert Hr Hlt. generalize (be_val (take k (view c1))). intros n Hr Hn.
    rewrite !view_sub by lia. by rewrite Hv'.
  - apply cbs_advance_eqv; [done | lia].
Qed.

#[export] Instance get_u8_lp_safe : CbsSafe cbs_eqv opssl_cbs_get_u8_length_prefixed.
Proof. apply (length_prefixed_safe 1). apply get_u8_reads. Qed.
#[export] Instance get_u16_lp_safe : CbsSafe cbs_eqv opssl_cbs_get_u16_length_prefixed.
Proof. apply (length_prefixed_safe 2). apply get_u16_reads. Qed.
#[export] Instance get_u24_lp_safe : CbsSafe cbs_eqv opssl_cbs_get_u24_length_prefixed.
Proof. apply (length_prefixed_safe 3). apply get_u24_reads. Qed.

(** Success of a length-prefixed read, exactly. *)
Lemma length_prefixed_iff k p c x rest :
  reads_be k p -> cbs_wf c ->
  (exists out c', cbs_bind p opssl_cbs_get_bytes c = (Some out, c') /\
     view out = x /\ view c' = rest) <->
  view c = be_bytes k (Z.of_nat (length x)) ++ x ++ rest /\
  Z.of_nat (length x) < 256 ^ Z.of_nat k.
Proof.
  intros Hp Hwf. rewrite (length_prefixed_spec k) by done. cbn zeta.
  pose proof (view_length c Hwf) as Hvl. pose proof (proj1 Hwf) as Hlen. split.
  - intros (out & c' & Heq & <- & <-). revert Heq.
    case_if; bool_to_prop; [done |]. case_if; bool_to_prop; [done |]. intros [= <- <-].
    pose proof (be_val_take_range k c Hwf ltac:(lia)) as Hr.
    set (n := be_val _) in *. set (c1 := cbs_advance (Z.of_nat k) c) in *.
    change (drop (Z.to_nat (Z.of_nat k)) (data c)) with (data c1).
    rewrite (view_sub c1 n) by lia.
    assert (cbs_wf c1) as Hw1 by (apply advance_wf; [done | lia]).
    rewrite advance_view by lia. rewrite length_take, view_length, Nat.min_l by (done || lia).
    rewrite Z2Nat.id by lia. split; [| lia].
    rewrite take_drop. unfold c1, n. rewrite advance_view by lia. rewrite Nat2Z.id.
    replace (be_bytes k _) with (take k (view c)); [by rewrite take_drop |].
    rewrite <- (be_val_bytes (take k (view c))) at 1 by (apply bytes_take, view_bytes, Hwf).
    f_equal. rewrite length_take. lia.
  - intros [Hv Hlt]. rewrite Hv in Hvl. rewrite !length_app, be_bytes_length in Hvl.
    rewrite (proj2 (Z.ltb_ge (len c) _)) by lia.
    assert (be_val (take k (view c)) = Z.of_nat (length x)) as ->.
    { rewrite Hv, take_app_length' by (by rewrite be_bytes_length). apply be_bytes_val. lia. }
    assert (cbs_wf (cbs_advance (Z.of_nat k) c)) as Hw1 by (apply advance_wf; [done | lia]).
    assert (view (cbs_advance (Z.of_nat k) c) = x ++ rest) as Hv1.
    { rewrite advance_view, Hv, Nat2Z.id by lia. apply drop_app_length'. by rewrite be_bytes_length. }
    rewrite (proj2 (Z.ltb_ge (len (cbs_advance _ c)) _)) by (cbn; lia).
    eexists _, _. split; [reflexivity |]. split.
    + rewrite view_sub by (cbn; lia). rewrite Hv1.
      apply take_app_length'. lia.
    + rewrite advance_view by (cbn; lia). rewrite Hv1. apply drop_app_length'. lia.
Qed.

(** A length-prefixed read succeeds with field [x], leaving [rest], exactly
    when the visible input is the 1-, 2- or 3-byte big-endian length of [x],
    then [x], then [rest]. *)
Theorem cbs_length_prefixed_iff c x rest :
  cbs_wf c ->
  ((exists out c', opssl_cbs_get_u8_length_prefixed c = (Some out, c') /\
      view out = x /\ view c' = rest) <->
   view c = be_bytes 1 (Z.of_nat (length x)) ++ x ++ rest /\ Z.of_nat (length x) < 2 ^ 8) /\
  ((exists out c', opssl_cbs_get_u16_length_prefixed c = (Some out, c') /\
      view out = x /\ view c' = rest) <->
   view c = be_bytes 2 (Z.of_nat (length x)) ++ x ++ rest /\ Z.of_nat (length x) < 2 ^ 16) /\
  ((exists out c', opssl_cbs_get_u24_length_prefixed c = (Some out, c') /\
      view out = x /\ view c' = rest) <->
   view c = be_bytes 3 (Z.of_nat (length x)) ++ x ++ rest /\ Z.of_nat (length x) < 2 ^ 24).
Proof.
  intros Hwf. split; [| split].
  - exact (length_prefixed_iff 1 _ c x rest get_u8_reads Hwf).
  - exact (length_prefixed_iff 2 _ c x rest get_u16_reads Hwf).
  - exact (length_prefixed_iff 3 _ c x rest get_u24_reads Hwf).
Qed.

Lemma cbs_length_prefixed_iff_witness :
  exists out c', opssl_cbs_get_u16_length_prefixed (opssl_cbs_init [0; 2; 7; 8; 9] 5) = (Some out, c') /\
    view out = [7; 8] /\ view c' = [9].
Proof.
  apply (cbs_length_prefixed_iff (opssl_cbs_init [0; 2; 7; 8; 9] 5) [7; 8] [9]).
  - apply (init_wf [0; 2; 7; 8; 9]). solve_bytes.
  - split; reflexivity.
Defined.

(** C14: no parser operation looks past [len]: on two views with the same visible
    bytes every operation returns the same result and leaves the same visible
    rest, whatever lies beyond in memory. *)
Theorem cbs_no_overread n :
  0 <= n ->
  CbsSafe eq opssl_cbs_get_u8 /\ CbsSafe eq opssl_cbs_get_u16 /\
  CbsSafe eq opssl_cbs_get_u24 /\ CbsSafe eq opssl_cbs_get_u32 /\
  CbsSafe cbs_eqv (opssl_cbs_get_bytes n) /\ CbsSafe eq (opssl_cbs_skip n) /\
  CbsSafe eq (opssl_cbs_copy_bytes n) /\
  CbsSafe cbs_eqv opssl_cbs_get_u8_length_prefixed /\
  CbsSafe cbs_eqv opssl_cbs_get_u16_length_prefixed /\
  CbsSafe cbs_eqv opssl_cbs_get_u24_length_prefixed.
Proof.
  intros Hn. repeat (lazymatch goal with |- _ /\ _ => split | _ => idtac end); eauto with typeclass_instances.
Qed.

Lemma cbs_no_overread_witness :
  res_eqv cbs_eqv (opssl_cbs_get_bytes 2 (opssl_cbs_init [1; 2; 3; 77] 3))
                  (opssl_cbs_get_bytes 2 (opssl_cbs_init [1; 2; 3] 3)).
Proof.
  destruct (cbs_no_overread 2 ltac:(lia)) as (_ & _ & _ & _ & H & _).
  apply H; [split; [cbn; lia | solve_bytes] | split; [cbn; lia | solve_bytes] | split; reflexivity].
Defined.

(** A failing read keeps no error state: a read that fails on its length leaves
    the parser past the length field, and the next read succeeds. *)
Lemma cbs_failure_not_sticky :
  exists c c', cbs_wf c /\ opssl_cbs_get_u16_length_prefixed c = (None, c') /\
    fst (opssl_cbs_get_u8 c') = Some 7.
Proof.
  exists (opssl_cbs_init [0; 9; 7] 3), (cbs_advance 2 (opssl_cbs_init [0; 9; 7] 3)).
  split; [split; [cbn; lia | solve_bytes] |]. split; reflexivity.
Qed.
