(* ===== verification/Asn1.v ===== *)
(** The DER parser of src/x509/asn1.c.

    State: the CBS being parsed and the thread's error stack (every failing
    branch of the C code pushes a numbered error).  An operation returns [Some]
    of its out-parameters for 1 and [None] for 0, with the state it leaves.
    Pointer parameters are values here, so the NULL guards that open some
    functions have nothing to test. *)
From S2P Require Import Prelude Platform Err Cbs.
#[local] Open Scope Z_scope.

Definition ASN1_BOOLEAN : Z := 0x01.
Definition ASN1_INTEGER : Z := 0x02.
Definition ASN1_BIT_STRING : Z := 0x03.
Definition ASN1_OCTET_STRING : Z := 0x04.
Definition ASN1_OID : Z := 0x06.
Definition ASN1_UTF8STRING : Z := 0x0C.
Definition ASN1_PRINTABLESTRING : Z := 0x13.
Definition ASN1_T61STRING : Z := 0x14.
Definition ASN1_IA5STRING : Z := 0x16.
Definition ASN1_UTCTIME : Z := 0x17.
Definition ASN1_GENERALIZEDTIME : Z := 0x18.
Definition ASN1_SEQUENCE : Z := 0x30.
Definition ASN1_SET : Z := 0x31.
Definition ASN1_LONG_FORM_MASK : Z := 0x80.

(* ------------------------------------------------------------------ *)
(** * The monad: a CBS, the error stack, and failure that keeps both *)

Record asn1_state := mk_asn1 { in_cbs : cbs; err : err_state }.

Definition asn1 (A : Type) : Type := asn1_state -> option A * asn1_state.

#[export] Instance asn1_ret : MRet asn1 := fun A a s => (Some a, s).
#[export] Instance asn1_bind : MBind asn1 := fun A B f p s =>
  match p s with
  | (Some a, s') => f a s'
  | (None, s') => (None, s')
  end.

(** A CBS call on the input. *)
Definition on_input {A} (p : parser A) : asn1 A := fun s =>
  let '(r, c) := p (in_cbs s) in (r, {| in_cbs := c; err := err s |}).

(** [OPSSL_ERR(OPSSL_ERR_X509, reason); return 0;] at line [l] *)
Definition fail_x509 {A} (reason l : Z) : asn1 A := fun s =>
  (None, {| in_cbs := in_cbs s; err := opssl_err_push OPSSL_ERR_X509 reason "asn1.c" l (err s) |}).

(** [return 0] *)
Definition fail {A} : asn1 A := fun s => (None, s).

(** The out-parameter of a call on a local CBS, or a numbered error. *)
Definition or_fail {A} (o : option A) (reason l : Z) : asn1 A :=
  match o with Some a => mret a | None => fail_x509 reason l end.

(** [if (!p(...)) { OPSSL_ERR(...); return 0; }] *)
Definition try_or {A} (p : parser A) (reason l : Z) : asn1 A := fun s =>
  match p (in_cbs s) with
  | (Some a, c) => (Some a, {| in_cbs := c; err := err s |})
  | (None, c) => fail_x509 reason l {| in_cbs := c; err := err s |}
  end.

(* ------------------------------------------------------------------ *)
(** * Operations *)

Definition opssl_asn1_get_tag : asn1 Z := on_input opssl_cbs_get_u8.

(** The loop over the length octets, [len] being the value so far. *)
Fixpoint get_length_octets (num_octets : nat) (l : Z) : asn1 Z :=
  match num_octets with
  | O => mret l
  | S n =>
    byte ← try_or opssl_cbs_get_u8 4 97;
    if Z.shiftr SIZE_MAX 8 <? l then fail_x509 5 103
    else get_length_octets n (u64 (Z.lor (Z.shiftl l 8) byte))
  end.

Definition opssl_asn1_get_length : asn1 Z :=
  initial ← try_or opssl_cbs_get_u8 1 68;
  if Z.land initial ASN1_LONG_FORM_MASK =? 0 then mret initial
  else
    let num_octets := Z.land initial 0x7F in
    if num_octets =? 0 then fail_x509 2 83 else
    if 8 <? num_octets then fail_x509 3 89 else
    l ← get_length_octets (Z.to_nat num_octets) 0;
    if (1 <? num_octets) && (l <? Z.shiftl 1 (8 * (num_octets - 1))) then fail_x509 6 112
    else mret l.

Definition opssl_asn1_get_element (expected_tag : Z) : asn1 cbs :=
  tag ← opssl_asn1_get_tag;
  l ← opssl_asn1_get_length;
  if negb (tag =? expected_tag) then fail_x509 7 140
  else on_input (opssl_cbs_get_bytes l).

Definition opssl_asn1_get_integer : asn1 cbs :=
  content ← opssl_asn1_get_element ASN1_INTEGER;
  if opssl_cbs_is_empty content then fail_x509 8 162 else mret content.

Definition opssl_asn1_get_sequence : asn1 cbs := opssl_asn1_get_element ASN1_SEQUENCE.
Definition opssl_asn1_get_set : asn1 cbs := opssl_asn1_get_element ASN1_SET.

(** Content and number of unused bits. *)
Definition opssl_asn1_get_bit_string : asn1 (cbs * Z) :=
  raw_content ← opssl_asn1_get_element ASN1_BIT_STRING;
  let '(u, raw_content) := opssl_cbs_get_u8 raw_content in
  unused ← or_fail u 9 209;
  if 7 <? unused then fail_x509 10 215 else
  if opssl_cbs_is_empty raw_content && negb (unused =? 0) then fail_x509 11 221
  else mret (raw_content, unused).

Definition opssl_asn1_get_octet_string : asn1 cbs := opssl_asn1_get_element ASN1_OCTET_STRING.

Definition opssl_asn1_get_oid : asn1 cbs :=
  content ← opssl_asn1_get_element ASN1_OID;
  if opssl_cbs_is_empty content then fail_x509 12 253 else mret content.

Definition opssl_asn1_get_boolean : asn1 bool :=
  content ← opssl_asn1_get_element ASN1_BOOLEAN;
  if negb (opssl_cbs_len content =? 1) then fail_x509 13 281 else
  byte ← or_fail (fst (opssl_cbs_get_u8 content)) 14 286;
  if negb (byte =? 0x00) && negb (byte =? 0xFF) then fail_x509 15 292
  else mret (negb (byte =? 0x00)).

Definition opssl_asn1_oid_equal (oid : cbs) (expected : list Z) (l : Z) : Z :=
  if negb (opssl_cbs_len oid =? l) then 0
  else opssl_ct_eq (opssl_cbs_data oid) expected (Z.to_nat l).

(* ------------------------------------------------------------------ *)
(** * Time *)

Definition leap (y : Z) : bool :=
  ((Z.rem y 4 =? 0) && negb (Z.rem y 100 =? 0)) || (Z.rem y 400 =? 0).

Definition days_in_month : list Z := [31; 28; 31; 30; 31; 30; 31; 31; 30; 31; 30; 31].

(** [time_str[i] - '0'], which may be negative: nothing checks for a digit. *)
Definition digit (time_str : list Z) (i : nat) : Z := time_str.[i] - 48.

Definition two (t : list Z) (i : nat) : Z := digit t i * 10 + digit t (i + 1).

(** The broken-down time: year, month, day, hour, minute, second. *)
Record tm := mk_tm { year : Z; month : Z; day : Z; hour : Z; min : Z; sec : Z }.

Definition parse_utctime (t : list Z) : tm :=
  let yy := two t 0 in
  {| year := yy + (if 50 <=? yy then 1900 else 2000);
     month := two t 2; day := two t 4; hour := two t 6; min := two t 8; sec := two t 10 |}.

Definition parse_generalizedtime (t : list Z) : tm :=
  {| year := digit t 0 * 1000 + digit t 1 * 100 + digit t 2 * 10 + digit t 3;
     month := two t 4; day := two t 6; hour := two t 8; min := two t 10; sec := two t 12 |}.

Definition tm_out_of_range (t : tm) : bool :=
  (month t <? 1) || (12 <? month t) || (day t <? 1) || (31 <? day t) ||
  (23 <? hour t) || (59 <? min t) || (59 <? sec t).

(** [for (int y = 1970; y < year; y++)] *)
Definition days_of_years (y : Z) : Z :=
  for_range 0 (Z.to_nat (y - 1970))
    (fun i days => days + 365 + (if leap (1970 + Z.of_nat i) then 1 else 0)) 0.

(** [for (int m = 1; m < month; m++)] *)
Definition days_of_months (y m : Z) : Z :=
  for_range 1 (Z.to_nat (m - 1))
    (fun i days => days + days_in_month.[i - 1] + (if (i =? 2)%nat && leap y then 1 else 0)) 0.

Definition tm_epoch (t : tm) : Z :=
  let days := days_of_years (year t) + days_of_months (year t) (month t) + (day t - 1) in
  days * 86400 + hour t * 3600 + min t * 60 + sec t.

Definition opssl_asn1_get_time : asn1 Z := fun s =>
  match opssl_cbs_peek_u8 (in_cbs s) with
  | None => fail_x509 16 338 s
  | Some tag =>
    (content ← (if tag =? ASN1_UTCTIME then opssl_asn1_get_element ASN1_UTCTIME
                else if tag =? ASN1_GENERALIZEDTIME then opssl_asn1_get_element ASN1_GENERALIZEDTIME
                else fail_x509 17 351);
     let time_str := opssl_cbs_data content in
     let time_len := opssl_cbs_len content in
     t ← (if tag =? ASN1_UTCTIME then
            if negb (time_len =? 13) || negb (time_str.[12] =? 90) then fail_x509 18 362
            else mret (parse_utctime time_str)
          else
            if negb (time_len =? 15) || negb (time_str.[14] =? 90) then fail_x509 19 378
            else mret (parse_generalizedtime time_str));
     if tm_out_of_range t then fail_x509 20 395
     else mret (tm_epoch t)) s
  end.

(** The bytes written to [out]: the string and its terminating NUL. *)
Definition opssl_asn1_get_string (out_len : Z) : asn1 (list Z) := fun s =>
  if out_len =? 0 then
    (None, {| in_cbs := in_cbs s; err := opssl_err_push OPSSL_ERR_INTERNAL 0 "asn1.c" 439 (err s) |})
  else
  match opssl_cbs_peek_u8 (in_cbs s) with
  | None => fail_x509 21 444 s
  | Some tag =>
    if negb (tag =? ASN1_UTF8STRING) && negb (tag =? ASN1_PRINTABLESTRING) &&
       negb (tag =? ASN1_IA5STRING) && negb (tag =? ASN1_T61STRING)
    then fail_x509 22 451 s
    else
    (content ← opssl_asn1_get_element tag;
     let str_len := opssl_cbs_len content in
     if out_len <=? str_len then fail_x509 23 463 else
     match fst (opssl_cbs_copy_bytes str_len content) with
     | None => fail
     | Some out => mret (out ++ [0])
     end) s
  end.

Definition opssl_asn1_skip_element : asn1 unit :=
  _ ← opssl_asn1_get_tag;
  l ← opssl_asn1_get_length;
  on_input (opssl_cbs_skip l).

(* ------------------------------------------------------------------ *)
(** * Encodings *)

(** DER length octets (X.690 8.1.3, 10.1): the shortest form. *)
Definition len_octets (n : Z) : nat := Z.to_nat (Z.log2 n / 8 + 1).

Definition der_length (n : Z) : list Z :=
  if n <? 128 then [n] else (128 + Z.of_nat (len_octets n)) :: be_bytes (len_octets n) n.

Definition der_tlv (tag : Z) (x : list Z) : list Z := tag :: der_length (Z.of_nat (length x)) ++ x.

(** The length octets the code accepts: DER, and also the long form with a
    single octet whatever its value. *)
Inductive accepted_length (n : Z) : list Z -> Prop :=
  | acc_short : 0 <= n < 128 -> accepted_length n [n]
  | acc_long k : (1 <= k <= 8)%nat -> 0 <= n < 256 ^ Z.of_nat k ->
      (k = 1%nat \/ 256 ^ Z.of_nat (k - 1) <= n) ->
      accepted_length n ((128 + Z.of_nat k) :: be_bytes k n).

(* ------------------------------------------------------------------ *)
(** * Length octets *)

Definition asn1_wf (s : asn1_state) : Prop := cbs_wf (in_cbs s).

Definition asn1_advance (n : Z) (s : asn1_state) : asn1_state :=
  {| in_cbs := cbs_advance n (in_cbs s); err := err s |}.

(** Unfold one bind of the monad. *)
Lemma bind_some {A B} (p : asn1 A) (f : A -> asn1 B) s a s' :
  p s = (Some a, s') -> (p ≫= f) s = f a s'.
Proof. unfold mbind, asn1_bind. by intros ->. Qed.

Lemma bind_none {A B} (p : asn1 A) (f : A -> asn1 B) s s' :
  p s = (None, s') -> (p ≫= f) s = (None, s').
Proof. unfold mbind, asn1_bind. by intros ->. Qed.

Lemma bind_inv {A B} (p : asn1 A) (f : A -> asn1 B) s b s' :
  (p ≫= f) s = (Some b, s') -> exists a s1, p s = (Some a, s1) /\ f a s1 = (Some b, s').
Proof. unfold mbind, asn1_bind. destruct (p s) as [[a |] s1]; [eauto | done]. Qed.

Lemma try_u8 s r l : asn1_wf s ->
  try_or opssl_cbs_get_u8 r l s =
    if len (in_cbs s) <? 1 then fail_x509 r l s
    else (Some (view (in_cbs s)).[0], asn1_advance 1 s).
Proof.
  intros Hwf. unfold try_or, opssl_cbs_get_u8. destruct s as [c e]. cbn [in_cbs err].
  case_if; bool_to_prop; [done |]. by rewrite data_view_get by lia.
Qed.

Lemma asn1_advance_wf n s : asn1_wf s -> 0 <= n <= len (in_cbs s) -> asn1_wf (asn1_advance n s).
Proof. apply advance_wf. Qed.

Lemma asn1_advance_advance n m s : 0 <= n -> 0 <= m ->
  asn1_advance m (asn1_advance n s) = asn1_advance (n + m) s.
Proof.
  intros. unfold asn1_advance, cbs_advance; cbn. f_equal. f_equal; [| lia].
  rewrite drop_drop. f_equal. lia.
Qed.

Lemma asn1_advance_0 s : asn1_advance 0 s = s.
Proof.
  destruct s as [[d n] e]. unfold asn1_advance, cbs_advance; cbn [in_cbs err data len].
  by rewrite drop_0, Z.sub_0_r.
Qed.

(** The length loop reads [k] octets as a big-endian number; its overflow test
    never fires for at most 8 octets. *)
Lemma get_length_octets_spec k j l s :
  asn1_wf s -> 0 <= l < 256 ^ Z.of_nat j -> (j + k <= 8)%nat ->
  Z.of_nat k <= len (in_cbs s) ->
  get_length_octets k l s =
    (Some (l * 256 ^ Z.of_nat k + be_val (take k (view (in_cbs s)))), asn1_advance (Z.of_nat k) s).
Proof.
  revert j l s. induction k as [| k IH]; intros j l s Hwf Hl Hjk Hlen.
  - cbn [get_length_octets]. change (Z.of_nat 0) with 0 at 2. rewrite asn1_advance_0.
    change (be_val (take 0 _)) with 0. change (256 ^ Z.of_nat 0) with 1.
    by replace (l * 1 + 0) with l by lia.
  - cbn [get_length_octets]. rewrite (bind_some _ _ s (view (in_cbs s)).[0] (asn1_advance 1 s)).
    2: { rewrite try_u8 by done. by ltb_decide. }
    assert (256 ^ Z.of_nat j <= 2 ^ 56) as Hj
      by (rewrite pow256_bits; apply Z.pow_le_mono_r; lia).
    change (Z.shiftr SIZE_MAX 8) with (2 ^ 56 - 1). ltb_decide.
    pose proof (view_bytes _ Hwf) as Hb. pose proof (bytes_get _ 0 Hb) as Hb0.
    pose proof (view_length _ Hwf) as Hvl. unfold byte_ok in Hb0.
    assert (u64 (Z.lor (Z.shiftl l 8) (view (in_cbs s)).[0]) = l * 256 + (view (in_cbs s)).[0]) as ->.
    { rewrite lor_shiftl by lia. unfold u64. rewrite Z.mod_small; lia. }
    rewrite (IH (S j)); [| by apply asn1_advance_wf; [done | lia] | | lia | cbn; lia].
    2: { rewrite Nat2Z.inj_succ, Z.pow_succ_r by lia. lia. }
    rewrite asn1_advance_advance by lia. f_equal; [| f_equal; lia].
    f_equal. cbn [asn1_advance in_cbs]. rewrite advance_view by lia.
    change (Z.to_nat 1) with 1%nat.
    destruct (view (in_cbs s)) as [| b v] eqn:Hv; [cbn in Hvl; lia |].
    cbn [take drop]. rewrite be_val_cons. cbn [get nth].
    rewrite length_take, Nat.min_l by (cbn in Hvl; rewrite drop_0 || idtac; lia).
    rewrite Nat2Z.inj_succ, Z.pow_succ_r by lia. unfold get; cbn [nth]. rewrite ?drop_0. lia.
Qed.

Lemma long_form_test b : byte_ok b -> (Z.land b ASN1_LONG_FORM_MASK =? 0) = (b <? 128).
Proof.
  intros Hb. apply eqb_prop.
  apply (byte_forall (fun b => eqb (Z.land b ASN1_LONG_FORM_MASK =? 0) (b <? 128))); [| done].
  vm_compute. reflexivity.
Qed.

Lemma num_octets_value b : byte_ok b -> 128 <= b -> Z.land b 0x7F = b - 128.
Proof.
  intros Hb H. change 0x7F with (Z.ones 7). rewrite Z.land_ones by lia. unfold byte_ok in Hb.
  symmetry. apply (Z.mod_unique_pos _ _ 1); lia.
Qed.

(** The length octets on a nonempty input, short form. *)
Lemma get_length_short s b v :
  asn1_wf s -> view (in_cbs s) = b :: v -> b < 128 ->
  opssl_asn1_get_length s = (Some b, asn1_advance 1 s).
Proof.
  intros Hwf Hv Hb. pose proof (view_bytes _ Hwf) as Hbs. pose proof (view_length _ Hwf) as Hl.
  rewrite Hv in Hbs, Hl. apply bytes_cons in Hbs as [Hb8 _]. cbn in Hl.
  unfold opssl_asn1_get_length. rewrite (bind_some _ _ s b (asn1_advance 1 s)).
  - rewrite long_form_test by done. by ltb_decide.
  - rewrite try_u8, Hv by done. by ltb_decide.
Qed.

(** Long form, when enough octets follow. *)
Lemma get_length_long s k v :
  asn1_wf s -> view (in_cbs s) = (128 + Z.of_nat k) :: v -> (1 <= k <= 8)%nat ->
  (k <= length v)%nat ->
  opssl_asn1_get_length s =
    let n := be_val (take k v) in
    if (1 <? Z.of_nat k) && (n <? 256 ^ Z.of_nat (k - 1)) then fail_x509 6 112 (asn1_advance (1 + Z.of_nat k) s)
    else (Some n, asn1_advance (1 + Z.of_nat k) s).
Proof.
  intros Hwf Hv Hk Hkv. pose proof (view_bytes _ Hwf) as Hbs. pose proof (view_length _ Hwf) as Hl.
  rewrite Hv in Hbs, Hl. apply bytes_cons in Hbs as [Hb8 _]. cbn in Hl.
  unfold opssl_asn1_get_length. rewrite (bind_some _ _ s (128 + Z.of_nat k) (asn1_advance 1 s)).
  2: { rewrite try_u8, Hv by done. by ltb_decide. }
  rewrite long_form_test, num_octets_value by (done || lia). ltb_decide.
  replace (128 + Z.of_nat k - 128) with (Z.of_nat k) by lia. do 2 ltb_decide. cbn match.
  assert (asn1_wf (asn1_advance 1 s)) as Hwf1 by (apply asn1_advance_wf; [done | lia]).
  assert (view (in_cbs (asn1_advance 1 s)) = v) as Hv1
    by (cbn [asn1_advance in_cbs]; rewrite advance_view, Hv by lia; done).
  rewrite Nat2Z.id.
  rewrite (bind_some _ _ _ _ _ (get_length_octets_spec k 0 0 _ Hwf1 ltac:(simpl; lia) ltac:(lia) ltac:(cbn; lia))).
  rewrite Hv1, asn1_advance_advance by lia. cbn zeta. rewrite Z.mul_0_l, Z.add_0_l.
  rewrite Z.shiftl_1_l. replace (8 * (Z.of_nat k - 1)) with (8 * Z.of_nat (k - 1)) by lia.
  rewrite <- pow256_bits. by case_if.
Qed.

(** Running out of input in the long form fails. *)
Lemma get_length_octets_short k l s :
  asn1_wf s -> len (in_cbs s) < Z.of_nat k -> fst (get_length_octets k l s) = None.
Proof.
  revert l s. induction k as [| k IH]; intros l s Hwf Hlen.
  - destruct Hwf. lia.
  - cbn [get_length_octets]. destruct (Z.lt_ge_cases (len (in_cbs s)) 1).
    + rewrite (bind_none _ _ s (snd (fail_x509 (A:=Z) 4 97 s))); [done |].
      rewrite try_u8 by done. by ltb_decide.
    + rewrite (bind_some _ _ s (view (in_cbs s)).[0] (asn1_advance 1 s)).
      2: { rewrite try_u8 by done. by ltb_decide. }
      case_if; [done |]. apply IH; [by apply asn1_advance_wf; [done | lia] | cbn; lia].
Qed.

(** An indefinite or oversized first octet is rejected. *)
Lemma get_length_bad s b v n s' :
  asn1_wf s -> view (in_cbs s) = b :: v -> byte_ok b -> b = 128 \/ 136 < b ->
  opssl_asn1_get_length s <> (Some n, s').
Proof.
  intros Hwf Hv Hb Hbad H. pose proof (view_length _ Hwf) as Hl. rewrite Hv in Hl. cbn in Hl.
  unfold opssl_asn1_get_length in H. rewrite (bind_some _ _ s b (asn1_advance 1 s)) in H.
  2: { rewrite try_u8, Hv by done. by ltb_decide. }
  rewrite long_form_test, num_octets_value in H by (done || lia).
  rewrite (proj2 (Z.ltb_ge b 128)) in H by lia.
  destruct (Z.eqb_spec (b - 128) 0); [done |].
  by rewrite (proj2 (Z.ltb_lt 8 (b - 128))) in H by lia.
Qed.

(** So is a long form with too few octets. *)
Lemma get_length_truncated s k v n s' :
  asn1_wf s -> view (in_cbs s) = (128 + Z.of_nat k) :: v -> (1 <= k <= 8)%nat ->
  (length v < k)%nat -> opssl_asn1_get_length s <> (Some n, s').
Proof.
  intros Hwf Hv Hk Hkv H. pose proof (view_bytes _ Hwf) as Hbs. pose proof (view_length _ Hwf) as Hl.
  rewrite Hv in Hbs, Hl. apply bytes_cons in Hbs as [Hb8 _]. cbn in Hl.
  unfold opssl_asn1_get_length in H.
  rewrite (bind_some _ _ s (128 + Z.of_nat k) (asn1_advance 1 s)) in H.
  2: { rewrite try_u8, Hv by done. by ltb_decide. }
  rewrite long_form_test, num_octets_value in H by (done || lia).
  rewrite (proj2 (Z.ltb_ge _ 128)) in H by lia.
  replace (128 + Z.of_nat k - 128) with (Z.of_nat k) in H by lia.
  rewrite (proj2 (Z.eqb_neq (Z.of_nat k) 0)), (proj2 (Z.ltb_ge 8 _)) in H by lia.
  apply bind_inv in H as (a & s1 & H & _). rewrite Nat2Z.id in H.
  pose proof (get_length_octets_short k 0 (asn1_advance 1 s)) as Hn. rewrite H in Hn.
  discriminate Hn; [apply asn1_advance_wf; [done | lia] | cbn; lia].
Qed.

Lemma get_length_sound s n s' :
  asn1_wf s -> opssl_asn1_get_length s = (Some n, s') ->
  exists enc rest, accepted_length n enc /\ view (in_cbs s) = enc ++ rest /\
     s' = asn1_advance (Z.of_nat (length enc)) s.
Proof.
  intros Hwf H. pose proof (view_bytes _ Hwf) as Hbs. pose proof (view_length _ Hwf) as Hl.
  destruct (view (in_cbs s)) as [| b v] eqn:Hv.
  { exfalso. unfold opssl_asn1_get_length in H.
    rewrite (bind_none _ _ s (snd (fail_x509 (A:=Z) 1 68 s))) in H; [done |].
    rewrite try_u8 by done. cbn in Hl. destruct Hwf. by ltb_decide. }
  apply bytes_cons in Hbs as [Hb Hbv]. destruct (Z.lt_ge_cases b 128) as [Hs | Hs].
  { rewrite (get_length_short s b v) in H by done. injection H as <- <-.
    exists [b], v. split; [constructor; unfold byte_ok in Hb; lia | done]. }
  destruct (decide (b = 128 \/ 136 < b)) as [Hbad | Hok].
  { by destruct (get_length_bad s b v n s'). }
  set (k := Z.to_nat (b - 128)). replace b with (128 + Z.of_nat k) in * by lia.
  destruct (decide (k <= length v)%nat) as [Hk | Hk].
  2: { destruct (get_length_truncated s k v n s'); (done || lia). }
  rewrite (get_length_long s k v) in H by (done || lia). cbn zeta in H.
  destruct ((1 <? Z.of_nat k) && (be_val (take k v) <? 256 ^ Z.of_nat (k - 1))) eqn:Ht; [done |].
  injection H as <- <-.
  exists ((128 + Z.of_nat k) :: be_bytes k (be_val (take k v))), (drop k v).
  pose proof (be_val_range _ (bytes_take k v Hbv)) as Hr.
  pose proof (be_val_bytes _ (bytes_take k v Hbv)) as Hbe.
  rewrite length_take, Nat.min_l in Hr, Hbe by lia. split; [| split].
  - constructor; [lia | lia |]. apply andb_false_iff in Ht. destruct Ht; bool_to_prop; lia.
  - rewrite Hbe. cbn [app]. by rewrite take_drop.
  - cbn [length]. rewrite be_bytes_length. f_equal. lia.
Qed.

Lemma get_length_complete s n enc rest :
  asn1_wf s -> accepted_length n enc -> view (in_cbs s) = enc ++ rest ->
  opssl_asn1_get_length s = (Some n, asn1_advance (Z.of_nat (length enc)) s).
Proof.
  intros Hwf Hacc Hv. destruct Hacc as [Hn | k Hk Hn Hmin].
  - rewrite (get_length_short s n rest) by (done || lia). done.
  - rewrite (get_length_long s k (be_bytes k n ++ rest)) by
      (done || rewrite length_app, be_bytes_length; lia). cbn zeta.
    rewrite take_app_length' by (by rewrite be_bytes_length). rewrite be_bytes_val by lia.
    cbn [length]. rewrite be_bytes_length.
    replace (1 + Z.of_nat k) with (Z.of_nat (S k)) by lia.
    destruct Hmin as [-> | Hmin]; [done |].
    rewrite (proj2 (Z.ltb_ge n _)) by lia. by rewrite andb_false_r.
Qed.

(** The length octets are read as [n] exactly when the input starts with an
    accepted encoding of [n]; the reader stops right after it and pushes no
    error.  Accepted are the DER forms and the one-octet long form. *)
Theorem asn1_get_length_accepts s n s' :
  asn1_wf s ->
  (opssl_asn1_get_length s = (Some n, s') <->
   exists enc rest, accepted_length n enc /\ view (in_cbs s) = enc ++ rest /\
     s' = asn1_advance (Z.of_nat (length enc)) s).
Proof.
  intros Hwf. split; [by apply get_length_sound |].
  intros (enc & rest & Hacc & Hv & ->). by apply (get_length_complete s n enc rest).
Qed.

Lemma asn1_get_length_accepts_witness :
  let s := {| in_cbs := opssl_cbs_init [0x81; 5; 9] 3; err := err_tls_init |} in
  opssl_asn1_get_length s = (Some 5, asn1_advance 2 s).
Proof.
  cbv zeta. apply (asn1_get_length_accepts _ 5).
  - split; [cbn; lia | solve_bytes].
  - exists [0x81; 5], [9]. split; [| split; reflexivity].
    apply (acc_long 5 1); [lia | simpl; lia | by left].
Defined.

(** The DER encoding is among the accepted ones. *)
Lemma len_octets_spec n : 128 <= n < 2 ^ 64 ->
  (1 <= len_octets n <= 8)%nat /\ 256 ^ Z.of_nat (len_octets n - 1) <= n < 256 ^ Z.of_nat (len_octets n).
Proof.
  intros Hn. unfold len_octets. set (q := Z.log2 n / 8).
  assert (0 <= Z.log2 n < 64) as Hl.
  { split; [apply Z.log2_nonneg |]. apply Z.log2_lt_pow2; lia. }
  assert (0 <= q <= 7) as Hq.
  { unfold q. split; [apply Z.div_pos; lia |]. apply Z.lt_succ_r, Z.div_lt_upper_bound; lia. }
  split; [lia |]. rewrite !pow256_bits.
  pose proof (Z.log2_spec n ltac:(lia)) as [H1 H2].
  pose proof (Z.div_mod (Z.log2 n) 8 ltac:(lia)) as Hd. fold q in Hd.
  pose proof (Z.mod_pos_bound (Z.log2 n) 8 ltac:(lia)). split.
  - etransitivity; [| exact H1]. apply Z.pow_le_mono_r; lia.
  - eapply Z.lt_le_trans; [exact H2 |]. apply Z.pow_le_mono_r; lia.
Qed.

Lemma der_length_accepted n : 0 <= n < 2 ^ 64 -> accepted_length n (der_length n).
Proof.
  intros Hn. unfold der_length. destruct (Z.ltb_spec n 128); [apply acc_short; lia |].
  destruct (len_octets_spec n) as [Hk Hr]; [lia |]. apply acc_long; [done | lia |]. right. lia.
Qed.

(** An element of the expected tag with accepted length octets is read. *)
Lemma get_element_complete tag enc x rest s :
  asn1_wf s -> accepted_length (Z.of_nat (length x)) enc -> view (in_cbs s) = tag :: enc ++ x ++ rest ->
  exists content s', opssl_asn1_get_element tag s = (Some content, s') /\ cbs_wf content /\
    view content = x /\ asn1_wf s' /\ view (in_cbs s') = rest /\ err s' = err s.
Proof.
  intros Hwf Hacc Hv. pose proof (view_length _ Hwf) as Hl. rewrite Hv in Hl.
  cbn [length] in Hl. rewrite !length_app in Hl. destruct Hwf as [Hlen Hby].
  assert (asn1_wf s) as Hwf by done.
  unfold opssl_asn1_get_element. rewrite (bind_some _ _ s tag (asn1_advance 1 s)).
  2: { unfold opssl_asn1_get_tag, on_input, opssl_cbs_get_u8. ltb_decide.
       rewrite data_view_get, Hv by lia. done. }
  assert (asn1_wf (asn1_advance 1 s)) as Hwf1 by (apply asn1_advance_wf; [done | lia]).
  assert (view (in_cbs (asn1_advance 1 s)) = enc ++ x ++ rest) as Hv1
    by (cbn [asn1_advance in_cbs]; rewrite advance_view, Hv by lia; done).
  erewrite bind_some; [| by apply (get_length_complete _ _ enc (x ++ rest))].
  rewrite Z.eqb_refl. cbn [negb]. rewrite asn1_advance_advance by lia.
  unfold on_input, opssl_cbs_get_bytes, asn1_advance; cbn [in_cbs err].
  set (c := cbs_advance _ (in_cbs s)).
  assert (len c = len (in_cbs s) - (1 + Z.of_nat (length enc))) as Hc by done.
  assert (cbs_wf c) as Hcw by (apply advance_wf; [done | lia]).
  assert (view c = x ++ rest) as Hvc.
  { unfold c. rewrite advance_view, Hv by lia.
    replace (Z.to_nat (1 + Z.of_nat (length enc))) with (S (length enc)) by lia.
    cbn [drop]. by apply drop_app_length. }
  ltb_decide. eexists _, _. split; [reflexivity |]. unfold asn1_wf. cbn [in_cbs err].
  split; [apply sub_wf; [done | lia] |]. split; [| split; [| split; [| done]]].
  - rewrite view_sub, Hvc, Nat2Z.id by lia. by apply take_app_length.
  - apply advance_wf; [done | lia].
  - rewrite advance_view, Hvc, Nat2Z.id by lia. by apply drop_app_length.
Qed.

Lemma get_element_sound tag content s s' :
  asn1_wf s -> opssl_asn1_get_element tag s = (Some content, s') ->
  exists enc, accepted_length (Z.of_nat (length (view content))) enc /\
    view (in_cbs s) = tag :: enc ++ view content ++ view (in_cbs s').
Proof.
  intros Hwf H. pose proof (view_length _ Hwf) as Hl.
  apply bind_inv in H as (tag' & s1 & H1 & H). apply bind_inv in H as (n & s2 & H2 & H).
  destruct (Z.eqb_spec tag' tag) as [-> |]; [cbn [negb] in H | done].
  unfold opssl_asn1_get_tag, on_input, opssl_cbs_get_u8 in H1.
  destruct (len (in_cbs s) <? 1) eqn:Hge; [done |]. injection H1 as Ht <-. bool_to_prop.
  rewrite data_view_get in Ht by lia. change {| in_cbs := _; err := err s |} with (asn1_advance 1 s) in H2.
  assert (asn1_wf (asn1_advance 1 s)) as Hwf1 by (apply asn1_advance_wf; [done | lia]).
  pose proof (view_length _ Hwf1) as Hl1.
  apply get_length_sound in H2 as (enc & rest & Hacc & Hv & ->); [| done]. rewrite Hv in Hl1.
  rewrite length_app in Hl1.
  remember (asn1_advance 1 s) as s1 eqn:Hs1.
  remember (asn1_advance (Z.of_nat (length enc)) s1) as s2 eqn:Hs2.
  assert (asn1_wf s2) as Hwf2 by (subst s2; apply asn1_advance_wf; [done | destruct Hwf1; lia]).
  assert (view (in_cbs s2) = rest) as Hv2.
  { subst s2. cbn [asn1_advance in_cbs]. rewrite advance_view by (destruct Hwf1; lia).
    rewrite Hv, Nat2Z.id. by apply drop_app_length. }
  unfold on_input, opssl_cbs_get_bytes in H.
  destruct (len (in_cbs s2) <? n) eqn:Hn; [done |]. injection H as <- <-. bool_to_prop. cbn [in_cbs].
  assert (0 <= n) as Hn0 by (destruct Hacc; lia).
  rewrite view_sub, advance_view, Hv2 by lia. pose proof (view_length _ Hwf2) as Hl2. rewrite Hv2 in Hl2.
  exists enc. rewrite take_drop, length_take, Nat.min_l, Z2Nat.id by lia. split; [done |].
  rewrite <- Hv. subst s1. cbn [asn1_advance in_cbs]. rewrite advance_view by lia.
  destruct (view (in_cbs s)) as [| b v]; [cbn in Hl; lia |]. unfold get in Ht. cbn [nth] in Ht.
  by subst b.
Qed.

Lemma be_bytes_1 n : 0 <= n < 256 -> be_bytes 1 n = [n].
Proof. intros Hn. cbn [be_bytes]. change (8 * Z.of_nat 0) with 0. rewrite Z.shiftr_0_r. f_equal. unfold u8, wrap. by rewrite Z.mod_small by (cbn; lia). Qed.

(** Besides the DER encoding only the long form of one octet is accepted where the
    short form would do. *)
Lemma accepted_length_iff n enc : 0 <= n < 2 ^ 64 ->
  accepted_length n enc <-> enc = der_length n \/ (n < 128 /\ enc = [0x81; n]).
Proof.
  intros Hn. split.
  - intros [H | k Hk Hr Hmin]; [left; unfold der_length; by ltb_decide |].
    destruct (Z.lt_ge_cases n 128) as [Hs | Hs].
    + right. destruct Hmin as [-> | Hmin]; [| assert (256 ^ 1 <= 256 ^ Z.of_nat (k - 1) \/ k = 1%nat) as [| ->] by
        (destruct (decide (k = 1%nat)); [by right | left; apply Z.pow_le_mono_r; lia]); [lia |]];
        (split; [done |]; by rewrite be_bytes_1 by lia).
    + left. unfold der_length. ltb_decide. destruct (len_octets_spec n) as [Ho1 Ho2]; [lia |].
      replace (len_octets n) with k; [done |]. destruct (Nat.lt_trichotomy k (len_octets n)) as [Hlt | [-> | Hlt]]; [exfalso | done | exfalso].
      * assert (256 ^ Z.of_nat k <= 256 ^ Z.of_nat (len_octets n - 1)) by (apply Z.pow_le_mono_r; lia). lia.
      * destruct Hmin as [-> | Hmin]; [lia |]. assert (256 ^ Z.of_nat (len_octets n) <= 256 ^ Z.of_nat (k - 1)) by (apply Z.pow_le_mono_r; lia). lia.
  - intros [-> | [Hs ->]]; [by apply der_length_accepted |]. rewrite <- (be_bytes_1 n) by lia.
    change 0x81 with (128 + Z.of_nat 1). apply acc_long; [lia | | by left]. change (256 ^ Z.of_nat 1) with 256. lia.
Qed.

(** C15: an element is read with content [x], leaving [rest] unread, exactly when the
    input is the expected tag, the length octets of [x], then [x], then [rest].  The
    length octets are those of DER, or [0x81] and the length where DER has the length
    alone. *)
Theorem asn1_get_element_accepts tag x rest s :
  asn1_wf s ->
  let n := Z.of_nat (length x) in
  (exists content s', opssl_asn1_get_element tag s = (Some content, s') /\ view content = x /\ view (in_cbs s') = rest) <->
  n < 2 ^ 64 /\ exists enc, (enc = der_length n \/ (n < 128 /\ enc = [0x81; n])) /\ view (in_cbs s) = tag :: enc ++ x ++ rest.
Proof.
  intros Hwf n. split.
  - intros (content & s' & H & <- & <-). destruct (get_element_sound _ _ _ _ Hwf H) as (enc & Hacc & Hv).
    assert (n < 2 ^ 64) as Hn.
    { subst n. destruct Hacc as [| k Hk Hr _]; [lia |]. assert (256 ^ Z.of_nat k <= 256 ^ 8) by (apply Z.pow_le_mono_r; lia). lia. }
    split; [done |]. exists enc. split; [| done]. apply accepted_length_iff; [lia | done].
  - intros (Hn & enc & Hacc & Hv). apply accepted_length_iff in Hacc; [| lia].
    destruct (get_element_complete _ _ _ _ _ Hwf Hacc Hv) as (c & s' & H & _ & Hc & _ & Hr & _). eauto.
Qed.

Lemma asn1_get_element_accepts_witness :
  exists content s',
    opssl_asn1_get_element 0x04 {| in_cbs := opssl_cbs_init [4; 0x81; 2; 7; 8; 9] 6; err := err_tls_init |} =
      (Some content, s') /\ view content = [7; 8] /\ view (in_cbs s') = [9].
Proof.
  apply (asn1_get_element_accepts 0x04 [7; 8] [9]).
  - split; [cbn; lia | solve_bytes].
  - split; [done |]. exists [0x81; 2]. split; [by right | reflexivity].
Defined.

(* ------------------------------------------------------------------ *)
(** * Time: the loops against a closed formula *)

(** Days from 1970-01-01 to a Gregorian date, with the year taken to start in
    March (the usual closed form). *)
Definition days_from_civil (y m d : Z) : Z :=
  let y' := if m <=? 2 then y - 1 else y in
  let m' := if m <=? 2 then m + 9 else m - 3 in
  365 * y' + y' / 4 - y' / 100 + y' / 400 + (153 * m' + 2) / 5 + (d - 1) - 719468.

Definition civil_epoch (t : tm) : Z :=
  days_from_civil (year t) (month t) (day t) * 86400 + hour t * 3600 + min t * 60 + sec t.

Definition leaps (y : Z) : Z := (y - 1) / 4 - (y - 1) / 100 + (y - 1) / 400.

Lemma leap_step y : 1 <= y -> leaps (y + 1) = leaps y + (if leap y then 1 else 0).
Proof.
  intros Hy. unfold leaps, leap. rewrite !Z.rem_mod_nonneg by lia.
  replace (y + 1 - 1) with y by lia.
  destruct (Z.eqb_spec (y mod 4) 0), (Z.eqb_spec (y mod 100) 0), (Z.eqb_spec (y mod 400) 0);
    cbn [negb andb orb]; Z.to_euclidean_division_equations; lia.
Qed.

Lemma days_of_years_spec y : 1970 <= y -> days_of_years y = 365 * (y - 1970) + leaps y - 477.
Proof.
  intros Hy. unfold days_of_years. set (n := Z.to_nat (y - 1970)).
  replace y with (1970 + Z.of_nat n) by lia. clearbody n. clear Hy.
  induction n as [| n IH]; [reflexivity |].
  rewrite for_range_snoc, IH. cbn [Nat.add].
  replace (1970 + Z.of_nat (S n)) with (1970 + Z.of_nat n + 1) by lia.
  rewrite leap_step by lia. lia.
Qed.

(** Days before a month, as the day-of-year formula of the March-based calendar. *)
Lemma days_of_months_spec y m :
  1 <= m <= 12 ->
  days_of_months y m =
    if m <=? 2 then (153 * (m + 9) + 2) / 5 - 306
    else (153 * (m - 3) + 2) / 5 + 59 + (if leap y then 1 else 0).
Proof.
  intros Hm. unfold days_of_months. generalize (leap y) as b. intros b.
  replace m with (Z.of_nat (Z.to_nat (m - 1)) + 1) by lia.
  assert (Z.to_nat (m - 1) < 12)%nat as Hk by lia. revert Hk.
  generalize (Z.to_nat (m - 1)) as k. clear m Hm. intros k Hk.
  destruct b; do 12 (destruct k as [| k]; [reflexivity |]); lia.
Qed.

Lemma days_of_months_civil y m d :
  1970 <= y -> 1 <= m <= 12 ->
  days_of_years y + days_of_months y m + (d - 1) = days_from_civil y m d.
Proof.
  intros Hy Hm. rewrite days_of_years_spec, days_of_months_spec by done.
  pose proof (leap_step y ltac:(lia)) as Hleap. unfold leaps in *.
  replace (y + 1 - 1) with y in Hleap by lia. unfold days_from_civil.
  destruct (m <=? 2); [generalize ((153 * (m + 9) + 2) / 5) | generalize ((153 * (m - 3) + 2) / 5)];
    intros q; clear Hm; revert Hleap; destruct (leap y);
    generalize ((y - 1) / 4), ((y - 1) / 100), ((y - 1) / 400), (y / 4), (y / 100), (y / 400);
    intros; lia.
Qed.

(** The two ASCII digits of a number below 100. *)
Definition dd (x : Z) : list Z := [48 + x / 10; 48 + x mod 10].

Definition utctime_bytes (t : tm) : list Z :=
  dd (year t mod 100) ++ dd (month t) ++ dd (day t) ++ dd (hour t) ++ dd (min t) ++ dd (sec t) ++ [90].

Definition generalizedtime_bytes (t : tm) : list Z :=
  dd (year t / 100) ++ dd (year t mod 100) ++ dd (month t) ++ dd (day t) ++ dd (hour t) ++
  dd (min t) ++ dd (sec t) ++ [90].

Definition tm_ok (t : tm) : Prop :=
  1 <= month t <= 12 /\ 1 <= day t <= 31 /\ 0 <= hour t <= 23 /\ 0 <= min t <= 59 /\ 0 <= sec t <= 59.

Lemma dd_two x : 0 <= x < 100 -> (48 + x / 10 - 48) * 10 + (48 + x mod 10 - 48) = x.
Proof. intros. Z.to_euclidean_division_equations. lia. Qed.

Lemma parse_utctime_bytes t : tm_ok t -> 1950 <= year t <= 2049 -> parse_utctime (utctime_bytes t) = t.
Proof.
  destruct t as [y mo d h mi s]. intros (? & ? & ? & ? & ?) Hy. cbn [year month day hour min sec] in *.
  unfold parse_utctime, two, digit, get, utctime_bytes, dd; cbn [app nth Nat.add year month day hour min sec].
  rewrite !dd_two by (lia || (Z.to_euclidean_division_equations; lia)).
  f_equal. destruct (Z.leb_spec 50 (y mod 100)); Z.to_euclidean_division_equations; lia.
Qed.

Lemma parse_generalizedtime_bytes t :
  tm_ok t -> 0 <= year t <= 9999 -> parse_generalizedtime (generalizedtime_bytes t) = t.
Proof.
  destruct t as [y mo d h mi s]. intros (? & ? & ? & ? & ?) Hy. cbn [year month day hour min sec] in *.
  unfold parse_generalizedtime, two, digit, get, generalizedtime_bytes, dd;
    cbn [app nth Nat.add year month day hour min sec].
  rewrite !dd_two by (lia || (Z.to_euclidean_division_equations; lia)).
  f_equal. Z.to_euclidean_division_equations. lia.
Qed.

Lemma tm_in_range t : tm_ok t -> tm_out_of_range t = false.
Proof.
  intros (? & ? & ? & ? & ?). unfold tm_out_of_range.
  repeat match goal with |- context [(?a <? ?b)] => rewrite (proj2 (Z.ltb_ge a b)) by lia end. done.
Qed.

Lemma tm_epoch_civil t : tm_ok t -> 1970 <= year t -> tm_epoch t = civil_epoch t.
Proof.
  intros (? & _) Hy. unfold tm_epoch, civil_epoch. by rewrite days_of_months_civil.
Qed.

Lemma dd_bytes x : 0 <= x < 100 -> Forall (fun c => 48 <= c <= 57) (dd x).
Proof. intros. repeat constructor; Z.to_euclidean_division_equations; lia. Qed.

(** The content octets of a time value. *)
Definition time_bytes (tag : Z) (t : tm) : list Z :=
  if tag =? ASN1_UTCTIME then utctime_bytes t else generalizedtime_bytes t.

Definition time_year_ok (tag y : Z) : Prop :=
  (tag = ASN1_UTCTIME /\ 1970 <= y <= 2049) \/ (tag = ASN1_GENERALIZEDTIME /\ 1970 <= y <= 9999).

(** The content's bytes, read through the data pointer. *)
Lemma data_get_view c i l : cbs_wf c -> view c = l -> (i < length l)%nat -> (data c).[i] = l.[i].
Proof.
  intros Hwf <- Hi. pose proof (view_length _ Hwf). by rewrite data_view_get by lia.
Qed.

Lemma parse_utctime_view c : (13 <= Z.to_nat (len c))%nat -> parse_utctime (data c) = parse_utctime (view c).
Proof. intros. unfold parse_utctime, two, digit. by rewrite !data_view_get by lia. Qed.

Lemma parse_generalizedtime_view c :
  (15 <= Z.to_nat (len c))%nat -> parse_generalizedtime (data c) = parse_generalizedtime (view c).
Proof. intros. unfold parse_generalizedtime, two, digit. by rewrite !data_view_get by lia. Qed.

(** The branches of the function once the element has been read. *)
Lemma get_time_content tag content s s' :
  opssl_cbs_peek_u8 (in_cbs s) = Some tag -> tag = ASN1_UTCTIME \/ tag = ASN1_GENERALIZEDTIME ->
  opssl_asn1_get_element tag s = (Some content, s') -> cbs_wf content ->
  let v := view content in
  opssl_asn1_get_time s =
    if tag =? ASN1_UTCTIME then
      if negb (Z.of_nat (length v) =? 13) || negb ((data content).[12] =? 90) then fail_x509 18 362 s'
      else if tm_out_of_range (parse_utctime v) then fail_x509 20 395 s'
      else (Some (tm_epoch (parse_utctime v)), s')
    else
      if negb (Z.of_nat (length v) =? 15) || negb ((data content).[14] =? 90) then fail_x509 19 378 s'
      else if tm_out_of_range (parse_generalizedtime v) then fail_x509 20 395 s'
      else (Some (tm_epoch (parse_generalizedtime v)), s').
Proof.
  intros Hp Htag Hel Hwf v. pose proof (view_length _ Hwf) as Hl. destruct Hwf as [Hlen _].
  unfold opssl_asn1_get_time. rewrite Hp.
  erewrite bind_some; [| destruct Htag as [-> | ->]; exact Hel]. cbv zeta. unfold opssl_cbs_len, opssl_cbs_data.
  replace (Z.of_nat (length v)) with (len content) by (unfold v; lia).
  destruct (tag =? ASN1_UTCTIME).
  - destruct (Z.eqb_spec (len content) 13) as [H13 |]; [| done].
    destruct (_ =? 90); [| done]. cbn [negb orb]. rewrite parse_utctime_view by lia. fold v.
    unfold mbind, asn1_bind, mret, asn1_ret. by case_if.
  - destruct (Z.eqb_spec (len content) 15) as [H13 |]; [| done].
    destruct (_ =? 90); [| done]. cbn [negb orb]. rewrite parse_generalizedtime_view by lia. fold v.
    unfold mbind, asn1_bind, mret, asn1_ret. by case_if.
Qed.

Lemma peek_view c b v : cbs_wf c -> view c = b :: v -> opssl_cbs_peek_u8 c = Some b.
Proof.
  intros Hwf Hv. pose proof (view_length _ Hwf) as Hl. rewrite Hv in Hl. cbn [length] in Hl.
  unfold opssl_cbs_peek_u8. ltb_decide. by rewrite data_view_get, Hv by lia.
Qed.

(** A time in DER is read as its epoch second, the input being left where reading
    the element leaves it. *)
Lemma get_time_reads tag t rest s :
  asn1_wf s -> tm_ok t -> time_year_ok tag (year t) ->
  view (in_cbs s) = der_tlv tag (time_bytes tag t) ++ rest ->
  exists c s', opssl_asn1_get_element tag s = (Some c, s') /\ opssl_asn1_get_time s = (Some (civil_epoch t), s') /\
    view (in_cbs s') = rest /\ err s' = err s.
Proof.
  intros Hwf Ht Hy Hv.
  assert (length (time_bytes tag t) = if tag =? ASN1_UTCTIME then 13%nat else 15%nat) as Hlen
    by (unfold time_bytes; by case_if).
  assert (1970 <= year t) as Hyear by (destruct Hy as [[_ ?] | [_ ?]]; lia).
  unfold der_tlv in Hv. cbn [app] in Hv. rewrite <- app_assoc in Hv.
  assert (accepted_length _ (der_length (Z.of_nat (length (time_bytes tag t))))) as Hacc
    by (apply der_length_accepted; rewrite Hlen; case_if; lia).
  destruct (get_element_complete tag _ (time_bytes tag t) rest s Hwf Hacc Hv)
    as (c & s' & Hel & Hcw & Hc & _ & Hr & He).
  exists c, s'. split; [exact Hel |]. split; [| done].
  rewrite (get_time_content tag c s s') by (done || (by eapply peek_view) || (destruct Hy as [[-> _] | [-> _]]; auto)).
  cbv zeta. rewrite Hc, Hlen. unfold time_bytes in Hc |- *.
  destruct Hy as [[-> Hy] | [-> Hy]]; cbn [ASN1_UTCTIME ASN1_GENERALIZEDTIME Z.eqb Pos.eqb] in *.
  - rewrite (data_get_view c 12 _ Hcw Hc) by (cbn; lia). change ((utctime_bytes t).[12]) with 90.
    rewrite parse_utctime_bytes, tm_in_range, tm_epoch_civil by (done || lia). done.
  - rewrite (data_get_view c 14 _ Hcw Hc) by (cbn; lia). change ((generalizedtime_bytes t).[14]) with 90.
    rewrite parse_generalizedtime_bytes, tm_in_range, tm_epoch_civil by (done || lia). done.
Qed.

(** C18: a UTCTime of the years 1970..2049 or a GeneralizedTime of the years
    1970..9999 is read as the seconds from the epoch to that civil date (the
    code's loops over years and months equal the closed Gregorian formula), and
    the input is left just after the element. *)
Theorem asn1_get_time_epoch tag t rest s :
  asn1_wf s -> tm_ok t -> time_year_ok tag (year t) ->
  view (in_cbs s) = der_tlv tag (time_bytes tag t) ++ rest ->
  exists s', opssl_asn1_get_time s = (Some (civil_epoch t), s') /\
    view (in_cbs s') = rest /\ err s' = err s.
Proof. intros Hwf Ht Hy Hv. destruct (get_time_reads tag t rest s Hwf Ht Hy Hv) as (c & s' & _ & H). by exists s'. Qed.

(** 2038-01-19 03:14:08 UTC, one second past the 32-bit limit. *)
Lemma asn1_get_time_epoch_witness :
  let t := {| year := 2038; month := 1; day := 19; hour := 3; min := 14; sec := 8 |} in
  exists s', opssl_asn1_get_time
    {| in_cbs := opssl_cbs_init (der_tlv ASN1_UTCTIME (utctime_bytes t) ++ [5]) 16; err := err_tls_init |} =
      (Some 2147483648, s') /\ view (in_cbs s') = [5] /\ err s' = err_tls_init.
Proof.
  cbv zeta.
  apply (asn1_get_time_epoch ASN1_UTCTIME {| year := 2038; month := 1; day := 19; hour := 3; min := 14; sec := 8 |} [5]
    {| in_cbs := opssl_cbs_init (der_tlv ASN1_UTCTIME (utctime_bytes
         {| year := 2038; month := 1; day := 19; hour := 3; min := 14; sec := 8 |}) ++ [5]) 16; err := err_tls_init |}).
  - split; [vm_compute; split; discriminate | solve_bytes].
  - unfold tm_ok; cbn; lia.
  - left. cbn. split; [done | lia].
  - reflexivity.
Defined.

(** The year loop never runs for a year before 1970, so the UTCTime years that
    RFC 5280 places in 1950..1969 are read as the same day of 1970. *)
Lemma asn1_get_time_before_epoch_wrong :
  let t := {| year := 1950; month := 1; day := 1; hour := 0; min := 0; sec := 0 |} in
  fst (opssl_asn1_get_time
    {| in_cbs := opssl_cbs_init (der_tlv ASN1_UTCTIME (utctime_bytes t)) 15; err := err_tls_init |}) = Some 0 /\
  civil_epoch t = -631152000.
Proof. split; reflexivity. Qed.

(** Nothing checks that the characters are digits. *)
Lemma asn1_get_time_non_digit :
  fst (opssl_asn1_get_time
    {| in_cbs := opssl_cbs_init (der_tlv ASN1_UTCTIME [55; 48; 48; 49; 48; 49; 48; 47; 48; 48; 48; 48; 90]) 15;
       err := err_tls_init |}) = Some (-3600).
Proof. reflexivity. Qed.
