(* ===== verification/ErrM.v ===== *)
(** Functions that keep the thread's error stack and may go wrong.

    [errm A] is a computation over the error stack of [Err]: [None] is undefined
    behaviour, or a loop that has not ended; a call that fails returns normally,
    with a value that says so.  Failing returns of C functions whose callers go
    on with them are [option] results, chained by [let_some]. *)
From S2P Require Import Prelude Err.

Definition errm (A : Type) : Type := err_state -> option (A * err_state).

#[export] Instance errm_ret : MRet errm := fun A a e => Some (a, e).
#[export] Instance errm_bind : MBind errm := fun A B f m e =>
  match m e with
  | Some (a, e') => f a e'
  | None => None
  end.

(** Undefined behaviour. *)
Definition undefined {A} : errm A := fun _ => None.

(** [OPSSL_ERR(cat, reason)] at line [l] of file [f]. *)
Definition push (cat reason : Z) (f : string) (l : Z) : errm unit := fun e =>
  Some (tt, opssl_err_push cat reason f l e).

(** [opssl_set_error(reason, msg)] *)
Definition set_error (reason : Z) (m : string) : errm unit := fun e =>
  Some (tt, opssl_set_error reason (Some m) e).

(** [if (!m) return 0; f(a)], the failure being [None] *)
Definition let_some {A B} (m : errm (option A)) (f : A -> errm (option B)) : errm (option B) :=
  o ← m; match o with Some a => f a | None => mret None end.
Notation "x <-? m ; f" := (let_some m (fun x => f))
  (at level 20, m at level 100, f at level 200, right associativity) : opssl_scope.
Notation "' x <-? m ; f" := (let_some m (fun x => f))
  (at level 20, x pattern, m at level 100, f at level 200, right associativity) : opssl_scope.

Lemma errm_some {A B} (m : errm A) (f : A -> errm B) e a e' :
  m e = Some (a, e') -> (m ≫= f) e = f a e'.
Proof. unfold mbind, errm_bind. by intros ->. Qed.

Lemma errm_some_eq {A B} (m : errm A) (f : A -> errm B) e a e' r :
  m e = Some (a, e') -> f a e' = r -> (m ≫= f) e = r.
Proof. unfold mbind, errm_bind. by intros -> <-. Qed.

Lemma errm_inv {A B} (m : errm A) (f : A -> errm B) e r :
  (m ≫= f) e = Some r -> exists a e', m e = Some (a, e') /\ f a e' = Some r.
Proof. unfold mbind, errm_bind. destruct (m e) as [[a e'] |]; [eauto | done]. Qed.

Lemma let_some_some {A B} (m : errm (option A)) (f : A -> errm (option B)) e a e' :
  m e = Some (Some a, e') -> let_some m f e = f a e'.
Proof. intros H. unfold let_some. by rewrite (errm_some _ _ _ _ _ H). Qed.

Lemma let_some_none {A B} (m : errm (option A)) (f : A -> errm (option B)) e e' :
  m e = Some (None, e') -> let_some m f e = Some (None, e').
Proof. intros H. unfold let_some. by rewrite (errm_some _ _ _ _ _ H). Qed.

(* ------------------------------------------------------------------ *)
(** * The error stack is only written *)

(** What the computation returns does not depend on the stack it finds. *)
Class Stable {A} (m : errm A) : Prop := stable : forall e e', fst <$> m e = fst <$> m e'.

(** What it returns; [None] is undefined behaviour. *)
Definition result {A} (m : errm A) : option A := fst <$> m err_tls_init.

#[export] Instance stable_ret {A} (a : A) : Stable (mret a).
Proof. done. Qed.

#[export] Instance stable_bind {A B} (m : errm A) (f : A -> errm B) : Stable m -> (forall a, Stable (f a)) -> Stable (m ≫= f).
Proof.
  intros Hm Hf e e'. specialize (Hm e e'). unfold mbind, errm_bind.
  destruct (m e) as [[a e1] |], (m e') as [[a' e1'] |]; try done. injection Hm as ->. apply Hf.
Qed.

#[export] Instance stable_undefined {A} : Stable (@undefined A).
Proof. done. Qed.

#[export] Instance stable_push cat reason f l : Stable (push cat reason f l).
Proof. done. Qed.

#[export] Instance stable_set_error reason m : Stable (set_error reason m).
Proof. done. Qed.

#[export] Instance stable_let_some {A B} (m : errm (option A)) (f : A -> errm (option B)) :
  Stable m -> (forall a, Stable (f a)) -> Stable (let_some m f).
Proof. intros Hm Hf. apply stable_bind; [done |]. intros [a |]; apply _. Qed.

#[export] Instance stable_if {A} (b : bool) (m m' : errm A) : Stable m -> Stable m' -> Stable (if b then m else m').
Proof. by destruct b. Qed.

#[export] Instance stable_option {A B} (o : option A) (f : A -> errm B) (m : errm B) :
  (forall a, Stable (f a)) -> Stable m -> Stable (match o with Some a => f a | None => m end).
Proof. by destruct o. Qed.

Lemma result_some {A} (m : errm A) e a e' : Stable m -> m e = Some (a, e') -> result m = Some a.
Proof. intros Hm H. unfold result. rewrite (stable err_tls_init e). by rewrite H. Qed.

Lemma result_bind {A B} (m : errm A) (f : A -> errm B) : (forall a, Stable (f a)) ->
  result (m ≫= f) = result m ≫= fun a => result (f a).
Proof.
  intros Hf. unfold result. unfold mbind at 1, errm_bind. destruct (m err_tls_init) as [[a e] |]; [| done].
  cbn [fmap option_fmap option_map fst mbind option_bind]. apply Hf.
Qed.

Lemma result_ret {A} (a : A) : result (mret a) = Some a.
Proof. done. Qed.
