(* ===== verification/DerRead.v ===== *)
(** Reading DER with local CBSs.

    The code of cert.c and chain.c opens a CBS on the contents of an element and
    reads its parts from there; here the local CBSs are values, and a computation of
    [Asn1] runs on one of them with [within].  Then the two kinds of statements made
    about such readers: what they read from an encoding, and that the error stack
    has no part in what they return. *)
From S2P Require Import Prelude Platform Err ErrM Cbs Asn1.
#[local] Open Scope Z_scope.

(* ------------------------------------------------------------------ *)
(** * Reading with local CBSs *)

(** A call of [p] on the local CBS [c]. *)
Definition within {A} (c : cbs) (p : asn1 A) : asn1 A := fun s =>
  let '(r, s') := p {| in_cbs := c; err := err s |} in (r, {| in_cbs := in_cbs s; err := err s' |}).

(** A call whose failure the caller handles. *)
Definition attempt {A} (p : asn1 A) : asn1 (option A) := fun s => let '(r, s') := p s in (Some r, s').

(** The CBS itself: its pointer and length. *)
Definition here : asn1 cbs := fun s => (Some (in_cbs s), s).

(** [CBS_peek_u8(cbs, &tag)] *)
Definition peek : asn1 (option Z) := fun s => (Some (opssl_cbs_peek_u8 (in_cbs s)), s).

(** The bytes from one pointer to a later one into the same memory. *)
Definition between (from to : cbs) : list Z :=
  take (length (data from) - length (data to)) (data from).

(** A pointer and its length. *)
Definition contents (c : cbs) : list Z := take (Z.to_nat (opssl_cbs_len c)) (opssl_cbs_data c).

(** A parse of the CBS [c], from a function that keeps the error stack. *)
Definition parse_cbs {A} (p : asn1 A) (c : cbs) : errm (option A) := fun e =>
  let '(r, s) := p {| in_cbs := c; err := e |} in Some (r, err s).

(** Enough turns for a loop that reads an element, two bytes at least, in each. *)
Definition turns (c : cbs) : nat := S (Z.to_nat (opssl_cbs_len c)).

(* ------------------------------------------------------------------ *)
(** * Reading an encoding *)

(** [p] reads exactly [enc] from the front of the input, with a result in [P], and
    pushes no error. *)
Definition reads {A} (p : asn1 A) (enc : list Z) (P : A -> Prop) : Prop :=
  forall s rest, asn1_wf s -> view (in_cbs s) = enc ++ rest ->
    exists a, p s = (Some a, asn1_advance (Z.of_nat (length enc)) s) /\ P a.

(** On an input that is [enc], [p] gives a result in [P] and pushes no error. *)
Definition whole {A} (p : asn1 A) (enc : list Z) (P : A -> Prop) : Prop :=
  forall s, asn1_wf s -> view (in_cbs s) = enc -> exists a s', p s = (Some a, s') /\ err s' = err s /\ P a.

(** A CBS on [l]. *)
Definition on (l : list Z) (c : cbs) : Prop := cbs_wf c /\ view c = l.

Lemma advance_reads s enc rest : asn1_wf s -> view (in_cbs s) = enc ++ rest ->
  asn1_wf (asn1_advance (Z.of_nat (length enc)) s) /\ view (in_cbs (asn1_advance (Z.of_nat (length enc)) s)) = rest.
Proof.
  intros Hwf Hv. pose proof (view_length _ Hwf) as Hl. rewrite Hv, length_app in Hl. destruct Hwf as [Hlen Hb] eqn:E.
  split; [apply asn1_advance_wf; [done | lia] |]. cbn [asn1_advance in_cbs].
  rewrite advance_view, Hv, Nat2Z.id by lia. by apply drop_app_length.
Qed.

Lemma reads_ret {A} (a : A) (P : A -> Prop) : P a -> reads (mret a) [] P.
Proof. intros HP s rest _ _. exists a. by rewrite asn1_advance_0. Qed.

Lemma reads_bind {A B} (p : asn1 A) (f : A -> asn1 B) e1 e2 P Q :
  reads p e1 P -> (forall a, P a -> reads (f a) e2 Q) -> reads (p ≫= f) (e1 ++ e2) Q.
Proof.
  intros Hp Hf s rest Hwf Hv. rewrite <- app_assoc in Hv. destruct (Hp s (e2 ++ rest) Hwf Hv) as (a & Ha & HP).
  destruct (advance_reads s e1 (e2 ++ rest) Hwf Hv) as [Hwf' Hv']. destruct (Hf a HP _ rest Hwf' Hv') as (b & Hb & HQ).
  exists b. split; [| done]. rewrite (bind_some _ _ _ _ _ Ha), Hb, asn1_advance_advance, length_app by lia. by rewrite Nat2Z.inj_add.
Qed.

Lemma reads_weaken {A} (p : asn1 A) enc (P Q : A -> Prop) : reads p enc P -> (forall a, P a -> Q a) -> reads p enc Q.
Proof. intros Hp HQ s rest Hwf Hv. destruct (Hp s rest Hwf Hv) as (a & Ha & HP). eauto. Qed.

Lemma reads_attempt {A} (p : asn1 A) enc P : reads p enc P -> reads (attempt p) enc (fun o => exists a, o = Some a /\ P a).
Proof. intros Hp s rest Hwf Hv. destruct (Hp s rest Hwf Hv) as (a & Ha & HP). exists (Some a). unfold attempt. rewrite Ha. eauto. Qed.

Lemma reads_within {A} c (p : asn1 A) enc P : on enc c -> whole p enc P -> reads (within c p) [] P.
Proof.
  intros [Hc Hv] Hp s rest _ _. destruct (Hp {| in_cbs := c; err := err s |} Hc Hv) as (a & s' & Ha & He & HP).
  exists a. unfold within. rewrite Ha, He. cbn [length]. change (Z.of_nat 0) with 0. rewrite asn1_advance_0. by destruct s.
Qed.

Lemma whole_ret {A} (a : A) enc (P : A -> Prop) : P a -> whole (mret a) enc P.
Proof. intros HP s _ _. by exists a, s. Qed.

Lemma whole_weaken {A} (p : asn1 A) enc (P Q : A -> Prop) : whole p enc P -> (forall a, P a -> Q a) -> whole p enc Q.
Proof. intros Hp HQ s Hwf Hv. destruct (Hp s Hwf Hv) as (a & s' & Ha & He & HP). eauto 6. Qed.

Lemma reads_whole {A} (p : asn1 A) enc rest P : reads p enc P -> whole p (enc ++ rest) P.
Proof. intros Hp s Hwf Hv. destruct (Hp s rest Hwf Hv) as (a & Ha & HP). by eexists a, _. Qed.

(** Reading the front, then working on the rest. *)
Lemma whole_bind {A B} (p : asn1 A) (f : A -> asn1 B) e1 e2 P Q :
  reads p e1 P -> (forall a, P a -> whole (f a) e2 Q) -> whole (p ≫= f) (e1 ++ e2) Q.
Proof.
  intros Hp Hf s Hwf Hv. destruct (Hp s e2 Hwf Hv) as (a & Ha & HP).
  destruct (advance_reads s e1 e2 Hwf Hv) as [Hwf' Hv']. destruct (Hf a HP _ Hwf' Hv') as (b & s' & Hb & He & HQ).
  exists b, s'. rewrite (bind_some _ _ _ _ _ Ha), Hb. done.
Qed.

(** The same, with the pointers before and after. *)
Lemma whole_between {A B} (p : asn1 A) (f : cbs -> A -> cbs -> asn1 B) e1 e2 P Q :
  reads p e1 P -> (forall c0 a c1, P a -> between c0 c1 = e1 -> whole (f c0 a c1) e2 Q) ->
  whole (c0 ← here; a ← p; c1 ← here; f c0 a c1) (e1 ++ e2) Q.
Proof.
  intros Hp Hf s Hwf Hv. destruct (Hp s e2 Hwf Hv) as (a & Ha & HP).
  destruct (advance_reads s e1 e2 Hwf Hv) as [Hwf' Hv'].
  pose proof (view_length _ Hwf) as Hl. rewrite Hv, length_app in Hl. destruct Hwf as [Hlen Hb].
  set (s1 := asn1_advance (Z.of_nat (length e1)) s) in *.
  assert (between (in_cbs s) (in_cbs s1) = e1) as Hbt.
  { unfold between, s1. cbn [asn1_advance in_cbs cbs_advance data]. rewrite Nat2Z.id, length_drop.
    replace (length (data (in_cbs s)) - (length (data (in_cbs s)) - length e1))%nat with (Z.to_nat (Z.of_nat (length e1))) by lia.
    rewrite take_data_view, Hv, Nat2Z.id by lia. by apply take_app_length. }
  destruct (Hf (in_cbs s) a (in_cbs s1) HP Hbt s1 Hwf' Hv') as (b & s' & Hb' & He & HQ).
  exists b, s'. split; [| done].
  rewrite (bind_some here _ s (in_cbs s) s) by done. rewrite (bind_some _ _ _ _ _ Ha). by rewrite (bind_some here _ s1 (in_cbs s1) s1).
Qed.

Lemma whole_peek {B} (f : option Z -> asn1 B) enc Q : whole (f (hd_error enc)) enc Q -> whole (peek ≫= f) enc Q.
Proof.
  intros Hf s Hwf Hv. destruct (Hf s Hwf Hv) as (b & s' & Hb & He & HQ). exists b, s'. split; [| done].
  rewrite (bind_some peek _ s (hd_error enc) s); [done |]. unfold peek. do 2 f_equal. destruct enc as [| b0 l].
  - pose proof (view_length _ Hwf) as Hl. rewrite Hv in Hl. cbn in Hl. unfold opssl_cbs_peek_u8. destruct Hwf. by ltb_decide.
  - by apply (peek_view _ b0 l).
Qed.

Lemma whole_here {B} (f : cbs -> asn1 B) enc Q : (forall c, on enc c -> whole (f c) enc Q) -> whole (here ≫= f) enc Q.
Proof. intros Hf s Hwf Hv. by apply (Hf (in_cbs s)). Qed.

(* ------------------------------------------------------------------ *)
(** * Elements *)

(** A length that DER can write here. *)
Definition der_ok (x : list Z) : Prop := Z.of_nat (length x) < 2 ^ 64.

Lemma on_contents x c : on x c -> contents c = x.
Proof. by intros [_ <-]. Qed.

Lemma on_len x c : on x c -> opssl_cbs_len c = Z.of_nat (length x).
Proof. intros [Hwf <-]. rewrite view_length by done. destruct Hwf. unfold opssl_cbs_len. lia. Qed.

Lemma on_take x c n : on x c -> 0 <= n <= Z.of_nat (length x) -> take (Z.to_nat n) (opssl_cbs_data c) = take (Z.to_nat n) x.
Proof. intros Hc Hn. pose proof (on_len x c Hc) as Hl. destruct Hc as [Hwf <-]. apply take_data_view. unfold opssl_cbs_len in Hl. lia. Qed.

(** A successful tag and length, and what they leave. *)
Lemma tag_length_advances tag s n s1 s2 : asn1_wf s -> opssl_asn1_get_tag s = (Some tag, s1) -> opssl_asn1_get_length s1 = (Some n, s2) ->
  exists k, 0 <= k /\ 0 <= n /\ s2 = asn1_advance k s.
Proof.
  intros Hwf H1 H2. pose proof Hwf as [Hlen _]. unfold opssl_asn1_get_tag, on_input, opssl_cbs_get_u8 in H1.
  destruct (len (in_cbs s) <? 1) eqn:Hge; [done |]. injection H1 as _ <-. bool_to_prop.
  change {| in_cbs := _; err := err s |} with (asn1_advance 1 s) in H2.
  assert (asn1_wf (asn1_advance 1 s)) as Hwf1 by (apply asn1_advance_wf; [done | lia]).
  apply get_length_sound in H2 as (enc & rest & Hacc & _ & ->); [| done].
  exists (1 + Z.of_nat (length enc)). rewrite asn1_advance_advance by lia. split; [lia |]. split; [destruct Hacc; lia | done].
Qed.

Lemma get_element_advances tag s c s' : asn1_wf s -> opssl_asn1_get_element tag s = (Some c, s') ->
  exists k, 0 <= k /\ s' = asn1_advance k s.
Proof.
  intros Hwf H. apply bind_inv in H as (tag' & s1 & H1 & H). apply bind_inv in H as (n & s2 & H2 & H).
  destruct (tag_length_advances _ _ _ _ _ Hwf H1 H2) as (k & Hk & Hn & ->).
  destruct (negb _); [done |]. unfold on_input, opssl_cbs_get_bytes in H. destruct (_ <? n); [done |]. injection H as _ <-.
  exists (k + n). rewrite <- asn1_advance_advance by lia. split; [lia | done].
Qed.

(** How far the input has moved is known from what is left of it. *)
Lemma advance_by_view k s enc rest : asn1_wf s -> view (in_cbs s) = enc ++ rest -> 0 <= k ->
  asn1_wf (asn1_advance k s) -> view (in_cbs (asn1_advance k s)) = rest -> k = Z.of_nat (length enc).
Proof.
  intros Hwf Hv Hk Hwf' Hv'. pose proof (view_length _ Hwf) as Hl. pose proof (view_length _ Hwf') as Hl'.
  rewrite Hv, length_app in Hl. rewrite Hv' in Hl'. cbn [asn1_advance in_cbs cbs_advance len] in Hl'.
  destruct Hwf as [? _], Hwf' as [Hw _]. cbn [asn1_advance in_cbs cbs_advance len] in Hw. lia.
Qed.

Lemma reads_element tag x : der_ok x -> reads (opssl_asn1_get_element tag) (der_tlv tag x) (on x).
Proof.
  intros Hx s rest Hwf Hv. pose proof Hv as Hv'. unfold der_tlv in Hv. cbn [app] in Hv. rewrite <- app_assoc in Hv.
  destruct (get_element_complete tag _ x rest s Hwf (der_length_accepted (Z.of_nat (length x)) ltac:(unfold der_ok in Hx; lia)) Hv)
    as (c & s' & Hel & Hcw & Hc & Hw & Hr & He).
  destruct (get_element_advances _ _ _ _ Hwf Hel) as (k & Hk & ->).
  rewrite (advance_by_view k s (der_tlv tag x) rest) in Hel by done. by exists c.
Qed.

Lemma reads_sequence x : der_ok x -> reads opssl_asn1_get_sequence (der_tlv 0x30 x) (on x).
Proof. apply reads_element. Qed.

Lemma reads_octet_string x : der_ok x -> reads opssl_asn1_get_octet_string (der_tlv 0x04 x) (on x).
Proof. apply reads_element. Qed.

(** The elements that must not be empty. *)
Lemma reads_nonempty tag x (reason l : Z) : der_ok x -> x <> [] ->
  reads (content ← opssl_asn1_get_element tag; if opssl_cbs_is_empty content then fail_x509 reason l else mret content) (der_tlv tag x) (on x).
Proof.
  intros Hx Hne. rewrite <- (app_nil_r (der_tlv tag x)). eapply reads_bind; [by apply reads_element |].
  intros c Hc. pose proof (on_len x c Hc) as Hl. unfold opssl_cbs_is_empty. unfold opssl_cbs_len in Hl.
  rewrite (proj2 (Z.eqb_neq (len c) 0)) by (destruct x; [done | cbn in Hl; lia]). by apply reads_ret.
Qed.

Lemma reads_integer x : der_ok x -> x <> [] -> reads opssl_asn1_get_integer (der_tlv 0x02 x) (on x).
Proof. apply reads_nonempty. Qed.

Lemma reads_oid x : der_ok x -> x <> [] -> reads opssl_asn1_get_oid (der_tlv 0x06 x) (on x).
Proof. apply reads_nonempty. Qed.

(** A bit string with [u] unused bits. *)
Lemma reads_bit_string u x : der_ok (u :: x) -> 0 <= u <= 7 -> (x = [] -> u = 0) ->
  reads opssl_asn1_get_bit_string (der_tlv 0x03 (u :: x)) (fun r => on x r.1 /\ r.2 = u).
Proof.
  intros Hx Hu Hu0. rewrite <- (app_nil_r (der_tlv 0x03 (u :: x))). eapply reads_bind; [by apply reads_element |].
  intros c [Hwf Hv]. pose proof (view_length _ Hwf) as Hl. rewrite Hv in Hl. cbn [length] in Hl. destruct Hwf as [Hlen Hb].
  unfold opssl_cbs_get_u8. ltb_decide. rewrite data_view_get, Hv by lia. unfold get; cbn [nth].
  assert (on x (cbs_advance 1 c)) as Hon
    by (split; [by apply advance_wf; [split; [done |] | lia] |]; by rewrite advance_view, Hv by lia).
  pose proof (on_len _ _ Hon) as Hlx. unfold opssl_cbs_len in Hlx.
  unfold or_fail. intros s rest _ _. exists (cbs_advance 1 c, u). cbn [fst snd length]. change (Z.of_nat 0) with 0.
  rewrite asn1_advance_0. split; [| done].
  unfold mbind, asn1_bind, mret, asn1_ret, opssl_cbs_is_empty. rewrite (proj2 (Z.ltb_ge 7 u)), Hlx by lia.
  destruct x; [rewrite Hu0 by done | cbn [length]; ltb_decide]; done.
Qed.

Lemma reads_time tag t : tm_ok t -> time_year_ok tag (year t) ->
  reads opssl_asn1_get_time (der_tlv tag (time_bytes tag t)) (fun e => e = civil_epoch t).
Proof.
  intros Ht Hy s rest Hwf Hv. destruct (get_time_reads tag t rest s Hwf Ht Hy Hv) as (c & s' & Hel & H & Hr & _).
  destruct (reads_element tag (time_bytes tag t)) with (s := s) (rest := rest) as (c' & Hc' & _); [| done | done |].
  - unfold der_ok, time_bytes. by case_if.
  - rewrite Hel in Hc'. injection Hc' as _ ->. eauto.
Qed.

Lemma reads_skip tag x : der_ok x -> reads opssl_asn1_skip_element (der_tlv tag x) (fun _ => True).
Proof.
  intros Hx s rest Hwf Hv. destruct (reads_element tag x Hx s rest Hwf Hv) as (c & Hc & _).
  apply bind_inv in Hc as (tag' & s1 & H1 & H). apply bind_inv in H as (n & s2 & H2 & H).
  exists tt. split; [| done]. unfold opssl_asn1_skip_element. rewrite (bind_some _ _ _ _ _ H1), (bind_some _ _ _ _ _ H2).
  destruct (negb _); [done |]. unfold on_input, opssl_cbs_get_bytes, opssl_cbs_skip in *. destruct (_ <? n); [done |]. f_equal. congruence.
Qed.

(* ------------------------------------------------------------------ *)
(** * The error stack has no part in a reading *)

(** The result and the CBS do not depend on the error stack. *)
Class AStable {A} (p : asn1 A) : Prop := astable : forall c e e',
  fst (p {| in_cbs := c; err := e |}) = fst (p {| in_cbs := c; err := e' |}) /\
  in_cbs (snd (p {| in_cbs := c; err := e |})) = in_cbs (snd (p {| in_cbs := c; err := e' |})).

#[export] Instance astable_ret {A} (a : A) : AStable (mret a).
Proof. done. Qed.

#[export] Instance astable_bind {A B} (p : asn1 A) (f : A -> asn1 B) : AStable p -> (forall a, AStable (f a)) -> AStable (p ≫= f).
Proof.
  intros Hp Hf c e e'. destruct (Hp c e e') as [H1 H2]. unfold mbind, asn1_bind.
  destruct (p {| in_cbs := c; err := e |}) as [[a |] [c1 e1]], (p {| in_cbs := c; err := e' |}) as [[a' |] [c2 e2]];
    cbn [fst snd in_cbs] in *; try done. injection H1 as ->. subst c2. apply Hf.
Qed.

#[export] Instance astable_on_input {A} (q : parser A) : AStable (on_input q).
Proof. intros c e e'. unfold on_input; cbn [in_cbs]. by destruct (q c). Qed.

#[export] Instance astable_fail_x509 {A} reason l : AStable (@fail_x509 A reason l).
Proof. done. Qed.

#[export] Instance astable_fail {A} : AStable (@fail A).
Proof. done. Qed.

#[export] Instance astable_or_fail {A} (o : option A) reason l : AStable (or_fail o reason l).
Proof. by destruct o. Qed.

#[export] Instance astable_try_or {A} (q : parser A) reason l : AStable (try_or q reason l).
Proof. intros c e e'. unfold try_or; cbn [in_cbs]. by destruct (q c) as [[a |] c']. Qed.

#[export] Instance astable_if {A} (b : bool) (p q : asn1 A) : AStable p -> AStable q -> AStable (if b then p else q).
Proof. by destruct b. Qed.

#[export] Instance astable_option {A B} (o : option A) (f : A -> asn1 B) (p : asn1 B) :
  (forall a, AStable (f a)) -> AStable p -> AStable (match o with Some a => f a | None => p end).
Proof. by destruct o. Qed.

#[export] Instance astable_within {A} c (p : asn1 A) : AStable p -> AStable (within c p).
Proof.
  intros Hp c0 e e'. destruct (Hp c e e') as [H1 _]. unfold within; cbn [in_cbs err].
  destruct (p {| in_cbs := c; err := e |}), (p {| in_cbs := c; err := e' |}). done.
Qed.

#[export] Instance astable_attempt {A} (p : asn1 A) : AStable p -> AStable (attempt p).
Proof.
  intros Hp c e e'. destruct (Hp c e e') as [H1 H2]. unfold attempt.
  destruct (p {| in_cbs := c; err := e |}), (p {| in_cbs := c; err := e' |}). cbn [fst snd] in *. by rewrite H1.
Qed.

#[export] Instance astable_here : AStable here.
Proof. done. Qed.

#[export] Instance astable_peek : AStable peek.
Proof. done. Qed.

#[export] Instance astable_length_octets n l : AStable (get_length_octets n l).
Proof. revert l. induction n as [| n IH]; intros l; cbn [get_length_octets]; apply _. Qed.

#[export] Instance astable_get_length : AStable opssl_asn1_get_length.
Proof. unfold opssl_asn1_get_length. apply _. Qed.

#[export] Instance astable_get_element tag : AStable (opssl_asn1_get_element tag).
Proof. unfold opssl_asn1_get_element, opssl_asn1_get_tag. apply _. Qed.

#[export] Instance astable_get_integer : AStable opssl_asn1_get_integer.
Proof. unfold opssl_asn1_get_integer. apply _. Qed.

#[export] Instance astable_get_sequence : AStable opssl_asn1_get_sequence.
Proof. unfold opssl_asn1_get_sequence. apply _. Qed.

#[export] Instance astable_get_octet_string : AStable opssl_asn1_get_octet_string.
Proof. unfold opssl_asn1_get_octet_string. apply _. Qed.

#[export] Instance astable_get_oid : AStable opssl_asn1_get_oid.
Proof. unfold opssl_asn1_get_oid. apply _. Qed.

#[export] Instance astable_get_bit_string : AStable opssl_asn1_get_bit_string.
Proof. unfold opssl_asn1_get_bit_string. apply astable_bind; [apply _ |]. intros c. destruct (opssl_cbs_get_u8 c). apply _. Qed.

#[export] Instance astable_skip_element : AStable opssl_asn1_skip_element.
Proof. unfold opssl_asn1_skip_element, opssl_asn1_get_tag. apply _. Qed.

#[export] Instance astable_get_time : AStable opssl_asn1_get_time.
Proof.
  intros c e e'. unfold opssl_asn1_get_time. cbn [in_cbs]. destruct (opssl_cbs_peek_u8 c) as [tag |]; [| done].
  generalize c, e, e'. change (AStable (content ← (if tag =? ASN1_UTCTIME then opssl_asn1_get_element ASN1_UTCTIME
                else if tag =? ASN1_GENERALIZEDTIME then opssl_asn1_get_element ASN1_GENERALIZEDTIME
                else fail_x509 17 351);
     let time_str := opssl_cbs_data content in
     let time_len := opssl_cbs_len content in
     t ← (if tag =? ASN1_UTCTIME then
            if negb (time_len =? 13) || negb (time_str.[12] =? 90) then fail_x509 18 362
            else mret (parse_utctime time_str)
          else
            if negb (time_len =? 15) || negb (time_str.[14] =? 90) then fail_x509 19 378
            else mret (parse_generalizedtime time_str));
     if tm_out_of_range t then fail_x509 20 395
     else mret (tm_epoch t))). cbv zeta. apply _.
Qed.

#[export] Instance stable_parse_cbs {A} (p : asn1 A) c : AStable p -> Stable (parse_cbs p c).
Proof.
  intros Hp e e'. destruct (Hp c e e') as [H _]. unfold parse_cbs.
  destruct (p {| in_cbs := c; err := e |}), (p {| in_cbs := c; err := e' |}). cbn [fst fmap option_fmap option_map] in *. by rewrite H.
Qed.

(** What a parse of the bytes [l] returns. *)
Definition cbs_of (l : list Z) : cbs := opssl_cbs_init l (Z.of_nat (length l)).

Lemma on_cbs_of l : bytes l -> on l (cbs_of l).
Proof. intros Hl. split; [by apply init_wf | apply view_init]. Qed.

Lemma whole_parse {A} (p : asn1 A) enc c (P : A -> Prop) e : whole p enc P -> on enc c ->
  exists a, parse_cbs p c e = Some (Some a, e) /\ P a.
Proof.
  intros Hp [Hc Hv]. destruct (Hp {| in_cbs := c; err := e |} Hc Hv) as (a & s' & Ha & He & HP).
  exists a. unfold parse_cbs. by rewrite Ha, He.
Qed.

Lemma der_tlv_length tag x : (length x < length (der_tlv tag x))%nat.
Proof. unfold der_tlv. cbn [length]. rewrite length_app. lia. Qed.

Lemma der_tlv_bytes tag x : bytes (der_tlv tag x) -> bytes x.
Proof. unfold der_tlv. rewrite bytes_cons, bytes_app. tauto. Qed.

(** A list of nonempty parts has as many bytes as parts. *)
Lemma concat_parts {A} (f : A -> list Z) l : (forall a, f a <> []) -> (length l <= length (concat (map f l)))%nat.
Proof.
  intros Hf. induction l as [| a l IH]; [done |]. cbn [map concat length]. rewrite length_app.
  assert (length (f a) <> 0)%nat by (specialize (Hf a); by destruct (f a)). lia.
Qed.
