(* ===== verification/Pem.v ===== *)
(** PEM and base64: src/x509/pem.c, except for reading files.

    A pointer into the text is a [cbs]: the memory from the pointer on, which may
    go beyond the text, and the distance to the text's end.  A [char *] with a
    length is the list of its characters.  [None] is a read outside the memory.
    [op_malloc] does not return on failure. *)
From Stdlib Require Import String.
From S2P Require Import Prelude Platform Err ErrM Cbs.
#[local] Open Scope Z_scope.

Definition PEM_BEGIN_PREFIX : list Z := chars "-----BEGIN ".
Definition PEM_END_PREFIX : list Z := chars "-----END ".
Definition PEM_SUFFIX : list Z := chars "-----".
Definition LABEL_SIZE : Z := 64.

Definition base64_chars : list Z := chars "ABCDEFGHIJKLMNOPQRSTUVWXYZabcdefghijklmnopqrstuvwxyz0123456789+/".

Definition base64_decode_table : list Z :=
  replicate 40 0xFF ++
  [0xFF; 0xFF; 0xFF; 0x3E; 0xFF; 0xFF; 0xFF; 0x3F;
   0x34; 0x35; 0x36; 0x37; 0x38; 0x39; 0x3A; 0x3B;
   0x3C; 0x3D; 0xFF; 0xFF; 0xFF; 0x00; 0xFF; 0xFF;
   0xFF; 0x00; 0x01; 0x02; 0x03; 0x04; 0x05; 0x06;
   0x07; 0x08; 0x09; 0x0A; 0x0B; 0x0C; 0x0D; 0x0E;
   0x0F; 0x10; 0x11; 0x12; 0x13; 0x14; 0x15; 0x16;
   0x17; 0x18; 0x19; 0xFF; 0xFF; 0xFF; 0xFF; 0xFF;
   0xFF; 0x1A; 0x1B; 0x1C; 0x1D; 0x1E; 0x1F; 0x20;
   0x21; 0x22; 0x23; 0x24; 0x25; 0x26; 0x27; 0x28;
   0x29; 0x2A; 0x2B; 0x2C; 0x2D; 0x2E; 0x2F; 0x30;
   0x31; 0x32; 0x33; 0xFF; 0xFF; 0xFF; 0xFF; 0xFF] ++
  replicate 128 0xFF.

(** [c == ' ' || c == '\t' || c == '\r' || c == '\n'] *)
Definition is_space (c : Z) : bool := (c =? 32) || (c =? 9) || (c =? 13) || (c =? 10).

(** The string that starts at a pointer: what precedes its NUL. *)
Fixpoint c_string (l : list Z) : list Z :=
  match l with
  | [] => []
  | c :: l => if c =? 0 then [] else c :: c_string l
  end.

(* ------------------------------------------------------------------ *)
(** * Base64 *)

(** The loop of the decoder over the characters; [inl] is the reason and the line
    of the error it returns with. *)
Fixpoint decode_loop (max_out : Z) (inp : list Z) (out : list Z) (accum accum_bits padding : Z) :
  (Z * Z) + (list Z * Z * Z * Z) :=
  match inp with
  | [] => inr (out, accum, accum_bits, padding)
  | c :: p =>
    if is_space c then decode_loop max_out p out accum accum_bits padding else
    if c =? 61 then decode_loop max_out p out accum accum_bits (padding + 1) else
    if 0 <? padding then inl (53, 196) else
    let val := base64_decode_table.[Z.to_nat (u8 c)] in
    if val =? 0xFF then inl (54, 203) else
    let accum := u32 (Z.lor (Z.shiftl accum 6) val) in
    let accum_bits := accum_bits + 6 in
    if 8 <=? accum_bits then
      if max_out <=? Z.of_nat (length out) then inl (55, 213)
      else decode_loop max_out p (out ++ [u8 (Z.shiftr accum (accum_bits - 8))]) accum (accum_bits - 8) padding
    else decode_loop max_out p out accum accum_bits padding
  end.

(** The bytes decoded into a buffer of [max_out] bytes. *)
Definition opssl_base64_decode (inp : list Z) (max_out : Z) : errm (option (list Z)) :=
  let fail_with reason l := push OPSSL_ERR_X509 reason "pem.c" l ≫= fun _ => mret None in
  match decode_loop max_out inp [] 0 0 0 with
  | inl (reason, l) => fail_with reason l
  | inr (out, accum, accum_bits, padding) =>
    if 2 <? padding then fail_with 56 224 else
    if (0 <? accum_bits) && negb (Z.land accum (Z.shiftl 1 accum_bits - 1) =? 0) then fail_with 57 230 else
    mret (Some out)
  end.

(** One turn of the encoder: up to three bytes, the characters they become. *)
Definition encode_group (inp : list Z) : list Z :=
  let triple_bytes := Nat.min 3 (length inp) in
  let triple := for_range 0 triple_bytes (fun i t => u32 (Z.lor (Z.shiftl t 8) inp.[i])) 0 in
  let triple := u32 (Z.shiftl triple ((3 - Z.of_nat triple_bytes) * 8)) in
  let real_chars := (triple_bytes + 1)%nat in
  map (fun char_idx =>
    if (char_idx <? real_chars)%nat
    then base64_chars.[Z.to_nat (Z.land (Z.shiftr triple ((3 - Z.of_nat char_idx) * 6)) 0x3F)]
    else 61) (seq 0 4).

Fixpoint encode_loop (fuel : nat) (inp : list Z) (out : list Z) (line_pos : Z) : option (list Z * Z) :=
  match inp, fuel with
  | [], _ => Some (out, line_pos)
  | _, O => None
  | _, S fuel =>
    let out := out ++ encode_group inp in
    let line_pos := line_pos + 4 in
    let inp := drop 3 inp in
    if 64 <=? line_pos then encode_loop fuel inp (out ++ [10]) 0 else encode_loop fuel inp out line_pos
  end.

Definition encoded_size (in_len : Z) : Z := u64 (u64 (in_len + 2) / 3 * 4).

Definition opssl_base64_encode (fuel : nat) (inp : list Z) (max_out : Z) : errm (option (list Z)) :=
  let encoded_len := encoded_size (Z.of_nat (length inp)) in
  let lines := u64 (encoded_len + 63) / 64 in
  let total_len := u64 (encoded_len + lines) in
  if max_out <=? total_len then _ ← push OPSSL_ERR_X509 58 "pem.c" 255; mret None else
  match encode_loop fuel inp [] 0 with
  | None => undefined
  | Some (out, line_pos) => mret (Some (if 0 <? line_pos then out ++ [10] else out))
  end.

(* ------------------------------------------------------------------ *)
(** * Finding the blocks *)

Definition at_char (P : Z -> bool) (p : cbs) : bool := (0 <? len p) && P (data p).[0].

Definition skip_whitespace (p : cbs) : cbs :=
  default p (while_fuel (Z.to_nat (len p)) (at_char is_space) (cbs_advance 1) p).

Definition find_line_end (p : cbs) : cbs :=
  default p (while_fuel (Z.to_nat (len p)) (at_char (fun c => negb ((c =? 13) || (c =? 10)))) (cbs_advance 1) p).

(** [memcmp(p, s, n) == 0]: all [n] bytes at [p] must be there. *)
Definition mem_eq (p s : list Z) : errm bool :=
  if (length p <? length s)%nat then undefined else mret (bool_decide (take (length s) p = s)).

(** [while (p < end && memcmp(p, PEM_SUFFIX, 5) != 0) p++] *)
Fixpoint scan_suffix (fuel : nat) (p : cbs) : errm cbs :=
  match fuel with
  | O => undefined
  | S fuel =>
    if 0 <? len p then
      found ← mem_eq (data p) PEM_SUFFIX;
      if found : bool then mret p else scan_suffix fuel (cbs_advance 1 p)
    else mret p
  end.

(** [if (p < end) p++] after the end of a line *)
Definition next_line (p : cbs) : cbs :=
  let p := find_line_end p in if 0 <? len p then cbs_advance 1 p else p.

(** The start of the base64 text, and the label. *)
Fixpoint find_pem_begin (fuel : nat) (label_max : Z) (p : cbs) : errm (option (cbs * list Z)) :=
  match fuel with
  | O => undefined
  | S fuel =>
    if len p <=? 0 then mret None else
    let p := skip_whitespace p in
    if len p <=? 0 then mret None else
    begins ← (if 11 <? len p then mem_eq (data p) PEM_BEGIN_PREFIX else mret false);
    if begins : bool then
      let label_start := cbs_advance 11 p in
      p ← scan_suffix (S (Z.to_nat (len label_start))) label_start;
      if len p <=? 0 then _ ← push OPSSL_ERR_X509 50 "pem.c" 100; mret None else
      let label_len := len label_start - len p in
      if label_max <=? label_len then _ ← push OPSSL_ERR_X509 51 "pem.c" 106; mret None else
      mret (Some (skip_whitespace (cbs_advance 5 p), take (Z.to_nat label_len) (data label_start)))
    else find_pem_begin fuel label_max (next_line p)
  end.

(** The line of the END marker for the label, which is a string. *)
Fixpoint find_pem_end (fuel : nat) (label : list Z) (p : cbs) : errm (option cbs) :=
  match fuel with
  | O => undefined
  | S fuel =>
    let not_found := push OPSSL_ERR_X509 52 "pem.c" 157 ≫= fun _ => mret None in
    let label_len := Z.of_nat (length label) in
    if len p <=? 0 then not_found else
    let line_start := p in
    let p := skip_whitespace p in
    if len p <=? 0 then not_found else
    found ← (if 9 + label_len + 5 <=? len p then
               b ← mem_eq (data p) PEM_END_PREFIX;
               if b : bool then
                 let check := drop 9 (data p) in
                 b ← mem_eq check label;
                 if b : bool then mem_eq (drop (length label) check) PEM_SUFFIX else mret false
               else mret false
             else mret false);
    if found : bool then mret (Some line_start) else find_pem_end fuel label (next_line p)
  end.

(* ------------------------------------------------------------------ *)
(** * Decoding *)

(** [data_end - data_start], and the size of the buffer allocated for it. *)
Definition b64_text (data_start data_end : cbs) : list Z :=
  take (Z.to_nat (len data_start - len data_end)) (data data_start).
Definition max_der_size (b64_len : Z) : Z := u64 (u64 (b64_len * 3) / 4 + 3).

(** One block: where the text goes on, the bytes and the label. *)
Definition decode_block (fuel : nat) (p : cbs) : errm (option (cbs * list Z * list Z)) :=
  '(data_start, label) <-? find_pem_begin fuel LABEL_SIZE p;
  data_end <-? find_pem_end fuel (c_string label) data_start;
  der <-? opssl_base64_decode (b64_text data_start data_end) (max_der_size (len data_start - len data_end));
  mret (Some (data_end, der, label)).

(** The bytes, and the string written to [label_out] when it is not NULL. *)
Definition opssl_pem_decode (fuel : nat) (pem : cbs) (label_max : option Z) : errm (option (list Z * list Z)) :=
  '(_, der, label) <-? decode_block fuel pem;
  match label_max with
  | Some m =>
    if 0 <? m then
      if Z.of_nat (length (c_string label)) <? m then mret (Some (der, c_string label ++ [0]))
      else _ ← push OPSSL_ERR_X509 59 "pem.c" 357; mret None
    else mret (Some (der, []))
  | None => mret (Some (der, []))
  end.

(** The blocks of the text, at most [max_count] of them. *)
Fixpoint decode_multi_loop (fuel : nat) (max_count : nat) (p : cbs) (ders : list (list Z)) : errm (option (list (list Z))) :=
  match max_count with
  | O => mret (Some ders)
  | S max_count =>
    if len p <=? 0 then mret (Some ders) else
    b ← find_pem_begin fuel LABEL_SIZE p;
    match b with
    | None => mret (Some ders)
    | Some (data_start, label) =>
      data_end <-? find_pem_end fuel (c_string label) data_start;
      der <-? opssl_base64_decode (b64_text data_start data_end) (max_der_size (len data_start - len data_end));
      decode_multi_loop fuel max_count data_end (ders ++ [der])
    end
  end.

Definition opssl_pem_decode_multi (fuel : nat) (pem : cbs) (max_count : nat) : errm (option (list (list Z))) :=
  if (max_count =? 0)%nat then _ ← push OPSSL_ERR_INTERNAL 0 "pem.c" 380; mret None else
  ders <-? decode_multi_loop fuel max_count pem [];
  mret (if (0 <? length ders)%nat then Some ders else None).

(* ------------------------------------------------------------------ *)
(** * RFC 4648 *)

Definition chr (v : Z) : Z := base64_chars.[Z.to_nat v].

(** Base64 with padding, in one line. *)
Fixpoint base64 (x : list Z) : list Z :=
  match x with
  | a :: b :: c :: x =>
    chr (a / 4) :: chr (a mod 4 * 16 + b / 16) :: chr (b mod 16 * 4 + c / 64) :: chr (c mod 64) :: base64 x
  | [a; b] => [chr (a / 4); chr (a mod 4 * 16 + b / 16); chr (b mod 16 * 4); 61]
  | [a] => [chr (a / 4); chr (a mod 4 * 16); 61; 61]
  | [] => []
  end.

(** A text without its white space. *)
Definition strip (l : list Z) : list Z := List.filter (fun c => negb (is_space c)) l.

(** A text that is empty or ends its last line. *)
Definition line_end (l : list Z) : Prop := default 10 (last l) = 10.

(** Induction three bytes at a time. *)
Lemma triple_ind (P : list Z -> Prop) :
  P [] -> (forall a, P [a]) -> (forall a b, P [a; b]) -> (forall a b c x, P x -> P (a :: b :: c :: x)) -> forall x, P x.
Proof. intros H0 H1 H2 H3. fix IH 1. intros [| a [| b [| c x]]]; [exact H0 | exact (H1 a) | exact (H2 a b) | exact (H3 a b c x (IH x))]. Qed.

(** A character of the alphabet is no white space and no padding, and the table
    gives its value back. *)
Lemma chr_decodes v : 0 <= v < 64 ->
  (negb (is_space (chr v)) && negb (chr v =? 61) && negb (chr v =? 45) && (base64_decode_table.[Z.to_nat (u8 (chr v))] =? v)) = true.
Proof.
  intros Hv. assert ((negb (v <? 64) || (negb (is_space (chr v)) && negb (chr v =? 61) && negb (chr v =? 45) && (base64_decode_table.[Z.to_nat (u8 (chr v))] =? v))) = true) as H.
  { apply (byte_forall (fun v => negb (v <? 64) || (negb (is_space (chr v)) && negb (chr v =? 61) && negb (chr v =? 45) && (base64_decode_table.[Z.to_nat (u8 (chr v))] =? v))));
      [vm_compute; reflexivity | unfold byte_ok; lia]. }
  rewrite (proj2 (Z.ltb_lt v 64)) in H by lia. exact H.
Qed.

Lemma decode_strip max_out l out accum bits padding :
  decode_loop max_out l out accum bits padding = decode_loop max_out (strip l) out accum bits padding.
Proof.
  revert out accum bits padding. induction l as [| c l IH]; intros; [done |].
  unfold strip. cbn [List.filter]. fold (strip l). destruct (is_space c) eqn:Hs; cbn [negb].
  - cbn [decode_loop]. rewrite Hs. apply IH.
  - cbn [decode_loop]. rewrite Hs. repeat case_if; auto.
Qed.

(** A byte [m] bits up depends on the [m + 8] low bits. *)
Lemma byte_of_low_bits a m : 0 <= m -> u8 (a / 2 ^ m) = u8 (a mod 2 ^ (m + 8) / 2 ^ m).
Proof.
  intros Hm. unfold u8. change 256 with (2 ^ 8). rewrite <- !Z.land_ones, <- !Z.shiftr_div_pow2 by lia.
  apply Z.bits_inj'. intros n Hn. rewrite !Z.land_spec, !Z.shiftr_spec, Z.land_spec by lia. destruct (Z.lt_ge_cases n 8).
  - rewrite (Z.ones_spec_low (m + 8)) by lia. by rewrite andb_true_r.
  - rewrite (Z.ones_spec_high 8) by lia. by rewrite !andb_false_r.
Qed.

(** Reading one character: the pending bits are those of [accum] modulo [2 ^ bits]. *)
Lemma decode_step max_out p out accum bits v :
  0 <= v < 64 -> 0 <= bits <= 26 ->
  exists accum', accum' mod 2 ^ (bits + 6) = accum mod 2 ^ bits * 64 + v /\
    decode_loop max_out (chr v :: p) out accum bits 0 =
      if 8 <=? bits + 6 then
        if max_out <=? Z.of_nat (length out) then inl (55, 213)
        else decode_loop max_out p (out ++ [u8 ((accum mod 2 ^ bits * 64 + v) / 2 ^ (bits - 2))]) accum' (bits - 2) 0
      else decode_loop max_out p out accum' (bits + 6) 0.
Proof.
  intros Hv Hb. pose proof (chr_decodes v Hv) as Hc. bool_to_prop.
  set (accum' := u32 (Z.lor (Z.shiftl accum 6) v)).
  assert (accum' = (accum * 64 + v) mod 2 ^ 32) as Ha by (unfold accum'; rewrite lor_shiftl by (simpl; lia); done).
  assert (accum' mod 2 ^ (bits + 6) = accum mod 2 ^ bits * 64 + v) as Hm.
  { rewrite Ha. replace 32 with ((bits + 6) + (26 - bits)) by lia. rewrite (Z.pow_add_r 2 (bits + 6)) by lia.
    rewrite Z.mod_mod_divide by (exists (2 ^ (26 - bits)); lia).
    pose proof (Z.mod_pos_bound accum (2 ^ bits) ltac:(apply Z.pow_pos_nonneg; lia)).
    rewrite Z.pow_add_r by lia. symmetry. apply (Z.mod_unique_pos _ _ (accum / 2 ^ bits)); [simpl; nia |].
    pose proof (Z.div_mod accum (2 ^ bits) ltac:(apply Z.pow_nonzero; lia)). simpl. nia. }
  exists accum'. split; [done |]. cbn [decode_loop].
  match goal with H : is_space _ = _, H' : base64_decode_table.[_] = _ |- _ => rewrite H, H' end. cbn [Z.ltb Z.compare].
  rewrite (proj2 (Z.eqb_neq (chr v) 61)) by done. rewrite (proj2 (Z.eqb_neq v 255)) by lia.
  fold accum'. destruct (8 <=? bits + 6) eqn:H8; [| done]. case_if; [done |].
  bool_to_prop. replace (bits + 6 - 8) with (bits - 2) by lia.
  rewrite <- Hm, Z.shiftr_div_pow2 by lia. replace (bits + 6) with (bits - 2 + 8) by lia.
  by rewrite <- byte_of_low_bits by lia.
Qed.

(** The step at each of the four positions of a group. *)
Lemma decode_1 max_out p out accum v : 0 <= v < 64 ->
  exists accum', accum' mod 2 ^ 6 = v /\ decode_loop max_out (chr v :: p) out accum 0 0 = decode_loop max_out p out accum' 6 0.
Proof.
  intros Hv. destruct (decode_step max_out p out accum 0 v Hv ltac:(lia)) as (a & Ha & ->).
  exists a. cbn [Z.add Z.leb Z.compare Pos.compare Pos.compare_cont] in *. change (2 ^ 0) with 1 in Ha. rewrite Z.mod_1_r in Ha. done.
Qed.

Lemma decode_next max_out p out accum bits v : 0 <= v < 64 -> 2 <= bits <= 6 -> Z.of_nat (length out) < max_out ->
  exists accum', accum' mod 2 ^ (bits - 2) = v mod 2 ^ (bits - 2) /\
    decode_loop max_out (chr v :: p) out accum bits 0 =
      decode_loop max_out p (out ++ [u8 (accum mod 2 ^ bits * 2 ^ (8 - bits) + v / 2 ^ (bits - 2))]) accum' (bits - 2) 0.
Proof.
  intros Hv Hb Ho. destruct (decode_step max_out p out accum bits v Hv ltac:(lia)) as (a & Ha & ->).
  exists a. do 2 ltb_decide. set (r := accum mod 2 ^ bits) in *.
  assert (64 = 2 ^ (8 - bits) * 2 ^ (bits - 2)) as H64 by (rewrite <- Z.pow_add_r by lia; replace (8 - bits + (bits - 2)) with 6 by lia; done).
  assert (0 < 2 ^ (bits - 2)) as Hp by (apply Z.pow_pos_nonneg; lia).
  assert (r * 64 + v = r * 2 ^ (8 - bits) * 2 ^ (bits - 2) + v) as He by (rewrite H64 at 1; ring).
  split.
  - replace (bits + 6) with ((bits - 2) + 8) in Ha by lia. rewrite Z.pow_add_r in Ha by lia.
    rewrite <- (Z.mod_mod_divide a (2 ^ (bits - 2) * 2 ^ 8)) by (exists (2 ^ 8); ring).
    rewrite Ha, He, Z.add_comm. apply Z.mod_add. lia.
  - rewrite He, Z.div_add_l by lia. done.
Qed.

(** A padded text of [x] appends [x], with no bits left over. *)
Lemma decode_base64 max_out x : bytes x -> forall out accum, Z.of_nat (length out + length x) <= max_out ->
  exists accum' bits padding, decode_loop max_out (base64 x) out accum 0 0 = inr (out ++ x, accum', bits, padding) /\
    padding <= 2 /\ (bits = 0 \/ accum' mod 2 ^ bits = 0) /\ 0 <= bits.
Proof.
  induction x as [| a | a b | a b c x IH] using triple_ind; intros Hx out accum Hm; cbn [base64];
    repeat match goal with H : bytes (_ :: _) |- _ => apply bytes_cons in H as [?Hby H] end; unfold byte_ok in *; cbn [length] in Hm.
  - exists accum, 0, 0. rewrite app_nil_r. cbn. split; [done | lia].
  - destruct (decode_1 max_out (chr (a mod 4 * 16) :: [61; 61]) out accum (a / 4)) as (s1 & H1 & ->); [mlia |].
    destruct (decode_next max_out [61; 61] out s1 6 (a mod 4 * 16)) as (s2 & H2 & ->); [mlia | lia | lia |].
    rewrite H1. exists s2, 4, 2. cbn [decode_loop is_space Z.eqb Pos.eqb orb Z.add Pos.add Pos.succ Z.sub Z.opp Z.pos_sub].
    split; [| split; [lia | split; [right | lia]]].
    + repeat f_equal. change (2 ^ (8 - 6)) with 4. change (2 ^ (6 - 2)) with 16. mlia.
    + change (6 - 2) with 4 in H2. rewrite H2. change (2 ^ 4) with 16. mlia.
  - destruct (decode_1 max_out (chr (a mod 4 * 16 + b / 16) :: chr (b mod 16 * 4) :: [61]) out accum (a / 4)) as (s1 & H1 & ->); [mlia |].
    destruct (decode_next max_out (chr (b mod 16 * 4) :: [61]) out s1 6 (a mod 4 * 16 + b / 16)) as (s2 & H2 & ->); [mlia | lia | lia |].
    change (6 - 2) with 4 in *.
    destruct (decode_next max_out [61] (out ++ [u8 (s1 mod 2 ^ 6 * 2 ^ (8 - 6) + (a mod 4 * 16 + b / 16) / 2 ^ 4)]) s2 4 (b mod 16 * 4))
      as (s3 & H3 & ->); [mlia | lia | rewrite length_app; cbn; lia |].
    rewrite H1, H2. exists s3, 2, 1. cbn [decode_loop is_space Z.eqb Pos.eqb orb Z.add Pos.add Pos.succ Z.sub Z.opp Z.pos_sub].
    split; [| split; [lia | split; [right | lia]]].
    + rewrite <- app_assoc. cbn [app]. change (2 ^ (8 - 6)) with 4. change (2 ^ (8 - 4)) with 16. change (2 ^ 4) with 16. change (2 ^ (4 - 2)) with 4.
      repeat f_equal; mlia.
    + change (4 - 2) with 2 in H3. rewrite H3. change (2 ^ 2) with 4. mlia.
  - destruct (decode_1 max_out (chr (a mod 4 * 16 + b / 16) :: chr (b mod 16 * 4 + c / 64) :: chr (c mod 64) :: base64 x) out accum (a / 4))
      as (s1 & H1 & ->); [mlia |].
    destruct (decode_next max_out (chr (b mod 16 * 4 + c / 64) :: chr (c mod 64) :: base64 x) out s1 6 (a mod 4 * 16 + b / 16)) as (s2 & H2 & ->);
      [mlia | lia | lia |].
    change (6 - 2) with 4 in *.
    set (o1 := out ++ _).
    assert (o1 = out ++ [a]) as Ho1.
    { unfold o1. rewrite H1. change (2 ^ (8 - 6)) with 4. change (2 ^ 4) with 16. repeat f_equal. mlia. }
    destruct (decode_next max_out (chr (c mod 64) :: base64 x) o1 s2 4 (b mod 16 * 4 + c / 64)) as (s3 & H3 & ->);
      [mlia | lia | rewrite Ho1, length_app; cbn; lia |].
    change (4 - 2) with 2 in *. set (o2 := o1 ++ _).
    assert (o2 = out ++ [a; b]) as Ho2.
    { unfold o2. rewrite Ho1, H2, <- app_assoc. cbn [app]. change (2 ^ (8 - 4)) with 16. change (2 ^ 4) with 16. change (2 ^ 2) with 4. repeat f_equal. mlia. }
    destruct (decode_next max_out (base64 x) o2 s3 2 (c mod 64)) as (s4 & _ & ->);
      [mlia | lia | rewrite Ho2, length_app; cbn; lia |].
    change (2 - 2) with 0. set (o3 := o2 ++ _).
    assert (o3 = out ++ [a; b; c]) as Ho3.
    { unfold o3. rewrite Ho2, H3, <- app_assoc. cbn [app]. change (2 ^ (8 - 2)) with 64. change (2 ^ 2) with 4. change (2 ^ 0) with 1. repeat f_equal. mlia. }
    rewrite Ho3. destruct (IH Hx (out ++ [a; b; c]) s4) as (s' & bits & pad & -> & Hr); [rewrite length_app; cbn; lia |].
    exists s', bits, pad. by rewrite <- app_assoc.
Qed.

(** A text that is base64 with white space anywhere is decoded. *)
Lemma base64_decode_text text x max_out e :
  bytes x -> strip text = base64 x -> Z.of_nat (length x) <= max_out ->
  opssl_base64_decode text max_out e = Some (Some x, e).
Proof.
  intros Hx Ht Hm. unfold opssl_base64_decode. rewrite decode_strip, Ht.
  destruct (decode_base64 max_out x Hx [] 0) as (s & bits & pad & -> & Hp & Hl & Hb); [cbn; lia |].
  ltb_decide. destruct (0 <? bits) eqn:H0; bool_to_prop; cbn [andb]; [| done].
  rewrite Z.shiftl_1_l. replace (2 ^ bits - 1) with (Z.ones bits) by (rewrite Z.ones_equiv; lia).
  rewrite Z.land_ones by lia. destruct Hl as [-> | ->]; [lia | done].
Qed.

Lemma chr_text v : 0 <= v < 64 -> strip [chr v] = [chr v].
Proof. intros Hv. pose proof (chr_decodes v Hv) as H. bool_to_prop. unfold strip. cbn [List.filter]. by rewrite H. Qed.

Lemma strip_app a b : strip (a ++ b) = strip a ++ strip b.
Proof. apply List.filter_app. Qed.

Lemma triple_step t b : 0 <= t < 2 ^ 24 -> byte_ok b -> u32 (Z.lor (Z.shiftl t 8) b) = t * 256 + b.
Proof. unfold byte_ok. intros Ht Hb. rewrite lor_shiftl by (simpl; lia). change (2 ^ 8) with 256. apply u32_id. lia. Qed.

Lemma sextet t i : 0 <= i -> Z.land (Z.shiftr t i) 0x3F = t / 2 ^ i mod 64.
Proof. intros Hi. change 0x3F with (Z.ones 6). by rewrite Z.land_ones, Z.shiftr_div_pow2 by lia. Qed.

(** The characters of one group. *)
Lemma encode_group_spec x : bytes x -> x <> [] -> encode_group x = base64 (take 3 x).
Proof.
  intros Hx Hne. unfold encode_group.
  destruct x as [| a [| b [| c x]]]; [done | ..];
    repeat match goal with H : bytes (_ :: _) |- _ => apply bytes_cons in H as [?Hby H] end.
  all: cbn [length Nat.min for_range seq fold_left map Nat.add take base64].
  all: change (@get) with (fun l i => @nth Z i l 0); cbv beta; cbn [nth].
  all: unfold for_range; cbn [seq fold_left].
  all: rewrite (triple_step 0 a) by (done || lia).
  2, 3: rewrite (triple_step _ b) by (done || unfold byte_ok in *; simpl; lia).
  3: rewrite (triple_step _ c) by (done || unfold byte_ok in *; simpl; lia).
  all: unfold byte_ok in *; rewrite u32_id by (rewrite Z.shiftl_mul_pow2 by lia; simpl; lia).
  all: rewrite Z.shiftl_mul_pow2 by lia; rewrite !sextet by (simpl; lia).
  all: cbn [Nat.ltb Nat.leb Z.of_nat Pos.of_succ_nat Pos.succ]; unfold chr, get.
  all: repeat match goal with |- _ :: _ = _ :: _ => f_equal end; try reflexivity.
  all: apply (f_equal (fun n => nth (Z.to_nat n) base64_chars 0)); simpl; Z.div_mod_to_equations; lia.
Qed.

Lemma strip_base64 x : bytes x -> strip (base64 x) = base64 x.
Proof.
  assert (forall v l, 0 <= v < 64 -> strip (chr v :: l) = chr v :: strip l) as Hc
    by (intros v l Hv; exact (eq_trans (strip_app [chr v] l) (f_equal (fun y => y ++ strip l) (chr_text v Hv)))).
  induction x as [| a | a b | a b c x IH] using triple_ind; intros Hx; cbn [base64];
    repeat match goal with H : bytes (_ :: _) |- _ => apply bytes_cons in H as [?Hby H] end; unfold byte_ok in *;
    rewrite ?Hc by mlia; [done | done | done | by rewrite IH].
Qed.

Lemma base64_group x : x <> [] -> base64 x = base64 (take 3 x) ++ base64 (drop 3 x).
Proof. destruct x as [| a [| b [| c x]]]; [done | done | done |]. intros _. cbn [take drop base64 app]. by destruct x as [| ? [| ? [| ? ?]]]. Qed.

Lemma base64_group_length x : x <> [] -> length (base64 (take 3 x)) = 4%nat.
Proof. by destruct x as [| a [| b [| c x]]]. Qed.

Lemma group_count (x : list Z) : x <> [] ->
  (Z.of_nat (length x) + 2) / 3 = 1 + (Z.of_nat (length (drop 3 x)) + 2) / 3.
Proof.
  intros Hne. assert (length x <> 0)%nat by (by destruct x). rewrite length_drop.
  destruct (decide (length x <= 3)%nat).
  - replace (length x - 3)%nat with 0%nat by lia. change ((Z.of_nat 0 + 2) / 3) with 0. Z.div_mod_to_equations. lia.
  - replace (Z.of_nat (length x) + 2) with (1 * 3 + (Z.of_nat (length x - 3) + 2)) by lia. by rewrite Z.div_add_l by lia.
Qed.

(** The encoder's loop: with [g] groups behind it, it has written the groups and a
    line end after every sixteen. *)
Lemma encode_loop_spec fuel : forall x out g lp,
  bytes x -> (length x <= fuel)%nat -> lp = 4 * (g mod 16) -> 0 <= g -> Z.of_nat (length out) = 4 * g + g / 16 -> (g mod 16 = 0 -> line_end out) ->
  exists out' g', encode_loop fuel x out lp = Some (out', 4 * (g' mod 16)) /\ strip out' = strip out ++ base64 x /\
    g' = g + (Z.of_nat (length x) + 2) / 3 /\ Z.of_nat (length out') = 4 * g' + g' / 16 /\ (g' mod 16 = 0 -> line_end out').
Proof.
  induction fuel as [| fuel IH]; intros x out g lp Hx Hf -> Hg Hl He.
  - destruct x; [| cbn in Hf; lia]. exists out, g. cbn [length encode_loop base64]. rewrite app_nil_r. change ((Z.of_nat 0 + 2) / 3) with 0. by rewrite Z.add_0_r.
  - destruct (decide (x = [])) as [-> | Hne].
    { exists out, g. cbn [length encode_loop base64]. rewrite app_nil_r. change ((Z.of_nat 0 + 2) / 3) with 0. rewrite Z.add_0_r. by destruct fuel. }
    assert (length x <> 0)%nat as Hn0 by (by destruct x).
    assert (encode_loop (S fuel) x out (4 * (g mod 16)) =
      let out := out ++ encode_group x in
      if 64 <=? 4 * (g mod 16) + 4 then encode_loop fuel (drop 3 x) (out ++ [10]) 0 else encode_loop fuel (drop 3 x) out (4 * (g mod 16) + 4)) as ->
      by (destruct x; done).
    cbv zeta. rewrite encode_group_spec by done.
    pose proof (base64_group_length x Hne) as H4.
    assert (bytes (take 3 x)) as Ht by by apply bytes_take.
    assert (bytes (drop 3 x)) as Hd by by apply bytes_drop.
    pose proof (group_count x Hne) as Hq.
    destruct (64 <=? 4 * (g mod 16) + 4) eqn:H64; bool_to_prop.
    + destruct (IH (drop 3 x) ((out ++ base64 (take 3 x)) ++ [10]) (g + 1) 0) as (o & g' & -> & Ho & Hg' & Hlo & Heo).
      { done. } { rewrite length_drop. lia. } { Z.div_mod_to_equations. lia. } { lia. }
      { rewrite !length_app, H4. cbn [length]. rewrite !Nat2Z.inj_add, Hl. Z.div_mod_to_equations. lia. }
      { intros _. unfold line_end. by rewrite last_snoc. }
      exists o, g'. split; [done |]. split; [| split; [lia | by split]].
      rewrite Ho, !strip_app, strip_base64 by done. change (strip [10]) with (@nil Z). by rewrite app_nil_r, <- app_assoc, <- base64_group.
    + destruct (IH (drop 3 x) (out ++ base64 (take 3 x)) (g + 1) (4 * (g mod 16) + 4)) as (o & g' & -> & Ho & Hg' & Hlo & Heo).
      { done. } { rewrite length_drop. lia. } { Z.div_mod_to_equations. lia. } { lia. }
      { rewrite length_app, H4, Nat2Z.inj_add, Hl. Z.div_mod_to_equations. lia. }
      { intros H0. exfalso. Z.div_mod_to_equations. lia. }
      exists o, g'. split; [done |]. split; [| split; [lia | by split]].
      rewrite Ho, !strip_app, strip_base64 by done. by rewrite <- app_assoc, <- base64_group.
Qed.

(** The size the encoder needs. *)
Definition encode_size (n : Z) : Z := 4 * ((n + 2) / 3) + (4 * ((n + 2) / 3) + 63) / 64.

(** Encoding into a buffer that is large enough writes the text of the bytes and
    a line end after every 64 characters, [encode_size] characters in all. *)
Lemma base64_encode_spec fuel x max_out e :
  bytes x -> (length x <= fuel)%nat -> Z.of_nat (length x) < 2 ^ 62 ->
  if max_out <=? encode_size (Z.of_nat (length x))
  then exists e', opssl_base64_encode fuel x max_out e = Some (None, e')
  else exists text, opssl_base64_encode fuel x max_out e = Some (Some text, e) /\ strip text = base64 x /\ line_end text /\
    Z.of_nat (length text) = encode_size (Z.of_nat (length x)).
Proof.
  intros Hx Hf Hs. set (n := Z.of_nat (length x)) in *.
  assert (0 <= n) as Hn by (unfold n; lia).
  unfold opssl_base64_encode, encoded_size. fold n.
  rewrite (u64_id (n + 2)) by lia. rewrite (u64_id ((n + 2) / 3 * 4)) by (Z.div_mod_to_equations; lia).
  rewrite (u64_id ((n + 2) / 3 * 4 + 63)) by (Z.div_mod_to_equations; lia).
  rewrite u64_id by (Z.div_mod_to_equations; lia). unfold encode_size.
  replace (4 * ((n + 2) / 3)) with ((n + 2) / 3 * 4) by lia.
  destruct (max_out <=? _) eqn:Hm; [by eexists |].
  destruct (encode_loop_spec fuel x [] 0 0) as (o & g & -> & Ho & Hg & Hl & He); [done | done | done | lia | done | done |].
  fold n in Hg. rewrite Z.add_0_l in Hg. cbn [strip List.filter app] in Ho.
  assert (0 <= g) as Hg0 by (subst g; Z.div_mod_to_equations; lia).
  eexists. split; [reflexivity |]. destruct (0 <? 4 * (g mod 16)) eqn:Hp; bool_to_prop.
  - split; [rewrite strip_app, Ho; by rewrite app_nil_r |]. split; [unfold line_end; by rewrite last_snoc |].
    rewrite length_app, Nat2Z.inj_add, Hl, <- Hg. cbn [length]. Z.div_mod_to_equations. lia.
  - split; [done |]. split; [apply He; pose proof (Z.mod_pos_bound g 16 ltac:(lia)); lia |]. rewrite Hl, <- Hg. Z.div_mod_to_equations. lia.
Qed.

(* ------------------------------------------------------------------ *)
(** * Pointers into a text *)

(** The text [t], with the memory [after] behind it. *)
Definition ptr (t after : list Z) : cbs := {| data := t ++ after; len := Z.of_nat (length t) |}.

Lemma ptr_advance n a b after : n = Z.of_nat (length a) -> cbs_advance n (ptr (a ++ b) after) = ptr b after.
Proof.
  intros ->. unfold cbs_advance, ptr; cbn [data len]. rewrite Nat2Z.id, <- app_assoc, drop_app_length, length_app.
  f_equal. lia.
Qed.

Lemma ptr_nonempty t after : (len (ptr t after) <=? 0) = bool_decide (t = []).
Proof. destruct t; [done |]. unfold ptr; cbn [len length]. by ltb_decide. Qed.

Lemma ptr_pos t after : t <> [] -> (0 <? len (ptr t after)) = true.
Proof. intros Ht. destruct t; [done |]. unfold ptr; cbn [len length]. by ltb_decide. Qed.

Lemma while_ptr P n a b after :
  Forall (fun c => P c = true) a -> (b = [] \/ exists c b', b = c :: b' /\ P c = false) -> (length a <= n)%nat ->
  while_fuel n (at_char P) (cbs_advance 1) (ptr (a ++ b) after) = Some (ptr b after).
Proof.
  intros Ha Hb. revert n. induction Ha as [| c a Hc Ha IH]; intros n Hn; cbn [app].
  - assert (at_char P (ptr b after) = false) as Hf.
    { unfold at_char, ptr; cbn [data len]. destruct Hb as [-> | (c & b' & -> & Hc)]; [done |].
      cbn [length app]. unfold get; cbn [nth]. by rewrite Hc, andb_false_r. }
    destruct n; cbn [while_fuel]; by rewrite Hf.
  - cbn [length] in Hn. destruct n as [| n]; [lia |]. cbn [while_fuel].
    assert (at_char P (ptr (c :: a ++ b) after) = true) as ->
      by (unfold at_char, ptr; cbn [data len length app]; unfold get; cbn [nth]; ltb_decide; exact Hc).
    change (c :: a ++ b) with ([c] ++ (a ++ b)). rewrite ptr_advance by done. apply IH. lia.
Qed.

(** A text is white space and then something else, or nothing. *)
Lemma split_spaces t : exists a b, t = a ++ b /\ Forall (fun c => is_space c = true) a /\
  (b = [] \/ exists c b', b = c :: b' /\ is_space c = false).
Proof.
  induction t as [| c t (a & b & -> & Ha & Hb)]; [exists [], []; auto |]. destruct (is_space c) eqn:Hc.
  - exists (c :: a), b. auto.
  - exists [], (c :: a ++ b). split; [done |]. split; [done | right; eauto].
Qed.

Lemma skip_ptr a b after :
  Forall (fun c => is_space c = true) a -> (b = [] \/ exists c b', b = c :: b' /\ is_space c = false) ->
  skip_whitespace (ptr (a ++ b) after) = ptr b after.
Proof. intros Ha Hb. unfold skip_whitespace. rewrite while_ptr; [done | done | done |]. cbn [ptr len]. rewrite length_app. lia. Qed.

Definition line_char (c : Z) : Prop := negb ((c =? 13) || (c =? 10)) = true.

Lemma next_line_ptr a d b after : Forall line_char a -> (d = 10 \/ d = 13) -> next_line (ptr (a ++ d :: b) after) = ptr b after.
Proof.
  intros Ha Hd. unfold next_line, find_line_end. rewrite while_ptr; [| done | right; eexists _, _; split; [done | by destruct Hd as [-> | ->]] | cbn [ptr len]; rewrite length_app; lia].
  cbn [default from_option id]. rewrite ptr_pos by done.
  by apply (ptr_advance 1 [d] b).
Qed.

Lemma mem_eq_ptr t after s e : (length s <= length t)%nat -> mem_eq (data (ptr t after)) s e = Some (bool_decide (take (length s) t = s), e).
Proof.
  intros Hl. unfold mem_eq, ptr; cbn [data]. rewrite length_app, (proj2 (Nat.ltb_ge _ _)) by lia.
  unfold mret, errm_ret. by rewrite take_app_le by lia.
Qed.

Lemma mem_eq_app s t after e : mem_eq (data (ptr (s ++ t) after)) s e = Some (true, e).
Proof. rewrite mem_eq_ptr by (rewrite length_app; lia). by rewrite take_app_length, bool_decide_eq_true_2. Qed.

(** A text that does not begin with the first character of [s]. *)
Lemma mem_eq_head c t d s after e : c <> d -> (length s <= length t)%nat -> mem_eq (data (ptr (c :: t) after)) (d :: s) e = Some (false, e).
Proof. intros Hc Hl. rewrite mem_eq_ptr by (cbn; lia). cbn [length take]. rewrite bool_decide_eq_false_2; [done | congruence]. Qed.

(* ------------------------------------------------------------------ *)
(** * Armoured texts *)

(** A label: no dash, no line end and no NUL, short enough for the array. *)
Definition label_ok (l : list Z) : Prop :=
  Forall (fun c => c <> 45 /\ c <> 0 /\ c <> 10 /\ c <> 13) l /\ Z.of_nat (length l) < LABEL_SIZE.

(** The base64 text of [x] in lines. *)
Definition pem_body (body x : list Z) : Prop :=
  bytes x /\ strip body = base64 x /\ line_end body.

Definition pem_block (label body : list Z) : list Z :=
  PEM_BEGIN_PREFIX ++ label ++ PEM_SUFFIX ++ [10] ++ body ++ PEM_END_PREFIX ++ label ++ PEM_SUFFIX ++ [10].

Lemma scan_suffix_ptr fuel a t after e : Forall (fun c => c <> 45) a -> (length a < fuel)%nat ->
  scan_suffix fuel (ptr (a ++ PEM_SUFFIX ++ t) after) e = Some (ptr (PEM_SUFFIX ++ t) after, e).
Proof.
  intros Ha. revert fuel. induction Ha as [| c a Hc Ha IH]; intros [| fuel] Hf; cbn [length] in Hf; [lia | | lia |];
    cbn [scan_suffix]; rewrite ptr_pos by done.
  - cbn [app]. by rewrite (errm_some _ _ _ _ _ (mem_eq_app PEM_SUFFIX t after e)).
  - assert (length (chars "----") <= length (a ++ PEM_SUFFIX ++ t))%nat as Hl by (rewrite !length_app; cbn; lia).
    rewrite (errm_some _ _ _ _ _ (mem_eq_head c (a ++ PEM_SUFFIX ++ t) 45 (chars "----") after e Hc Hl)).
    change ((c :: a) ++ PEM_SUFFIX ++ t) with ([c] ++ (a ++ PEM_SUFFIX ++ t)). rewrite ptr_advance by done. apply IH. lia.
Qed.

Lemma label_no_dash l : label_ok l -> Forall (fun c => c <> 45) l.
Proof. intros [H _]. by eapply Forall_impl; [exact H | intros c [? _]]. Qed.

Lemma label_string l : label_ok l -> c_string l = l.
Proof.
  intros [H _]. induction H as [| c l [_ [Hc _]] H IH]; [done |]. cbn [c_string]. by rewrite (proj2 (Z.eqb_neq c 0)), IH.
Qed.

(** The BEGIN line of a block. *)
Lemma find_begin_block fuel label t after e : label_ok label ->
  find_pem_begin (S fuel) LABEL_SIZE (ptr (PEM_BEGIN_PREFIX ++ label ++ PEM_SUFFIX ++ t) after) e =
    Some (Some (skip_whitespace (ptr t after), label), e).
Proof.
  intros Hlab. cbn [find_pem_begin]. rewrite ptr_nonempty, bool_decide_eq_false_2 by done.
  rewrite (skip_ptr [] (PEM_BEGIN_PREFIX ++ label ++ PEM_SUFFIX ++ t)) by (done || (right; by eexists _, _)).
  rewrite ptr_nonempty, bool_decide_eq_false_2 by done.
  set (txt := label ++ PEM_SUFFIX ++ t).
  replace (11 <? _) with true by (symmetry; apply Z.ltb_lt; unfold txt; cbn [ptr len]; rewrite !length_app; change (length PEM_BEGIN_PREFIX) with 11%nat; change (length PEM_SUFFIX) with 5%nat; lia).
  rewrite (errm_some _ _ _ _ _ (mem_eq_app PEM_BEGIN_PREFIX txt after e)).
  rewrite (ptr_advance 11 PEM_BEGIN_PREFIX txt) by done. unfold txt.
  erewrite errm_some; [| apply scan_suffix_ptr; [by apply label_no_dash | cbn [ptr len]; rewrite length_app; lia]].
  rewrite ptr_nonempty, bool_decide_eq_false_2 by done.
  assert (len (ptr (label ++ PEM_SUFFIX ++ t) after) - len (ptr (PEM_SUFFIX ++ t) after) = Z.of_nat (length label)) as ->
    by (cbn [ptr len]; rewrite !length_app; lia).
  destruct Hlab as [_ Hl]. rewrite (proj2 (Z.leb_gt LABEL_SIZE _)) by done.
  rewrite (ptr_advance 5 PEM_SUFFIX t) by done. unfold mret, errm_ret. rewrite Nat2Z.id. cbn [ptr data].
  by rewrite <- app_assoc, take_app_length.
Qed.

(** The END line of a block, with what follows it. *)
Definition end_line (label t : list Z) : list Z := PEM_END_PREFIX ++ label ++ PEM_SUFFIX ++ t.

Definition no_dash (l : list Z) : Prop := Forall (fun c => c <> 45) l.

Lemma line_end_suffix a b : line_end (a ++ b) -> line_end b.
Proof. unfold line_end. rewrite last_app. by destruct (last b). Qed.

Lemma end_line_starts label t : exists b', end_line label t = 45 :: b' /\ is_space 45 = false.
Proof. by eexists. Qed.

Lemma skip_to_end ws label t after : Forall (fun c => is_space c = true) ws ->
  skip_whitespace (ptr (ws ++ end_line label t) after) = ptr (end_line label t) after.
Proof. intros Hw. apply skip_ptr; [done | right; exists 45; apply end_line_starts]. Qed.

(** A body that ends its last line has a line to skip unless it is white space. *)
Lemma body_line b : line_end b -> b <> [] ->
  exists l d r, b = l ++ d :: r /\ Forall line_char l /\ (d = 10 \/ d = 13) /\ line_end r.
Proof.
  induction b as [| c b IH]; intros He Hne; [done |].
  destruct (negb ((c =? 13) || (c =? 10))) eqn:Hc.
  - assert (b <> []) as Hb.
    { intros ->. cbn in He. unfold line_end in He. cbn in He. by subst c. }
    destruct IH as (l & d & r & -> & Hl & Hd & Hr); [by apply (line_end_suffix [c]) | done |].
    exists (c :: l), d, r. split; [done |]. split; [by constructor | done].
  - exists [], c, b. split; [done |]. split; [done |]. split; [| by apply (line_end_suffix [c])].
    apply negb_false_iff, orb_true_iff in Hc. destruct Hc as [Hc | Hc]; apply Z.eqb_eq in Hc; auto.
Qed.

(** The search for the END line passes over the lines of the body and stops
    before the white space that ends it. *)
Lemma find_end_body label t after e : label_ok label -> forall fuel body,
  no_dash body -> line_end body -> (length body < fuel)%nat ->
  exists b ws, body = b ++ ws /\ Forall (fun c => is_space c = true) ws /\
    find_pem_end fuel label (ptr (body ++ end_line label t) after) e = Some (Some (ptr (ws ++ end_line label t) after), e).
Proof.
  intros Hlab. induction fuel as [| fuel IH]; intros body Hd He Hf; [lia |].
  cbn [find_pem_end]. rewrite ptr_nonempty, bool_decide_eq_false_2 by (by destruct body).
  destruct (split_spaces body) as (ws & b & -> & Hws & Hb). destruct (decide (b = [])) as [-> | Hne].
  - exists [], ws. rewrite app_nil_r. split; [done |]. split; [done |]. rewrite skip_to_end by done.
    rewrite ptr_nonempty, bool_decide_eq_false_2 by done.
    replace (9 + Z.of_nat (length label) + 5 <=? _) with true
      by (symmetry; apply Z.leb_le; unfold end_line; cbn [ptr len]; rewrite !length_app;
          change (length PEM_END_PREFIX) with 9%nat; change (length PEM_SUFFIX) with 5%nat; lia).
    rewrite (errm_some _ _ e true e); [reflexivity |]. unfold end_line at 1.
    rewrite (errm_some _ _ _ _ _ (mem_eq_app PEM_END_PREFIX (label ++ PEM_SUFFIX ++ t) after e)).
    rewrite (errm_some _ _ _ _ _ (mem_eq_app label (PEM_SUFFIX ++ t) after e)).
    change (drop 9 (data (ptr (PEM_END_PREFIX ++ label ++ PEM_SUFFIX ++ t) after))) with (data (ptr (label ++ PEM_SUFFIX ++ t) after)).
    assert (drop (length label) (data (ptr (label ++ PEM_SUFFIX ++ t) after)) = data (ptr (PEM_SUFFIX ++ t) after)) as ->
      by (cbn [ptr data]; by rewrite <- app_assoc, drop_app_length).
    apply mem_eq_app.
  - destruct Hb as [-> | (c & b' & -> & Hc)]; [done |].
    rewrite <- app_assoc, skip_ptr; [| done | right; by eexists _, _].
    rewrite ptr_nonempty, bool_decide_eq_false_2 by done.
    apply line_end_suffix in He. apply Forall_app in Hd as [_ Hd].
    destruct (body_line (c :: b') He Hne) as (l & d & r & Hlr & Hl & Hd10 & Hr).
    set (guard := 9 + _ + 5 <=? _).
    erewrite (errm_some _ _ e false e).
    2: { destruct guard; [| done].
         apply (errm_some_eq _ _ e false e); [| done]. change PEM_END_PREFIX with (45 :: chars "----END ").
         apply (mem_eq_head c (b' ++ end_line label t)); [by apply Forall_cons in Hd as [? _] |].
         unfold end_line. rewrite !length_app. change (length PEM_END_PREFIX) with 9%nat. change (length (chars "----END ")) with 8%nat. lia. }
    rewrite Hlr in *. rewrite <- app_assoc. cbn [app]. rewrite next_line_ptr by done.
    apply Forall_app in Hd as [_ Hd]. apply Forall_cons in Hd as [_ Hd].
    destruct (IH r Hd Hr) as (b & ws' & Hbw & Hws' & ->); [rewrite !length_app in Hf; cbn [length] in Hf; lia |].
    exists (ws ++ l ++ d :: b), ws'. split; [| done]. rewrite Hbw. by rewrite <- !app_assoc.
Qed.

Lemma strip_spaces ws : Forall (fun c => is_space c = true) ws -> strip ws = [].
Proof. induction 1 as [| c ws Hc _ IH]; [done |]. unfold strip. cbn [List.filter]. by rewrite Hc. Qed.

Lemma strip_length l : (length (strip l) <= length l)%nat.
Proof. induction l as [| c l IH]; [done |]. unfold strip in *. cbn [List.filter]. case_if; cbn [length]; lia. Qed.

Lemma base64_no_dash x : bytes x -> no_dash (base64 x).
Proof.
  assert (forall v, 0 <= v < 64 -> chr v <> 45) as Hc by (intros v Hv; pose proof (chr_decodes v Hv) as H; bool_to_prop; done).
  induction x as [| a | a b | a b c x IH] using triple_ind; intros Hx; cbn [base64];
    repeat match goal with H : bytes (_ :: _) |- _ => apply bytes_cons in H as [?Hby H] end; unfold byte_ok in *; unfold no_dash in *;
    rewrite ?Forall_cons; [done | ..]; repeat split; try (apply Hc; mlia); try done. by apply IH.
Qed.

Lemma base64_length x : Z.of_nat (length (base64 x)) = 4 * ((Z.of_nat (length x) + 2) / 3).
Proof.
  induction x as [| a | a b | a b c x IH] using triple_ind; [done.. |]. cbn [base64 length]. rewrite !Nat2Z.inj_succ, IH.
  replace (Z.succ (Z.succ (Z.succ (Z.of_nat (length x)))) + 2) with (1 * 3 + (Z.of_nat (length x) + 2)) by lia.
  rewrite Z.div_add_l by lia. lia.
Qed.

Lemma no_dash_strip l : no_dash (strip l) -> no_dash l.
Proof.
  induction l as [| c l IH]; [done |]. unfold strip. cbn [List.filter]. destruct (is_space c) eqn:Hc; cbn [negb]; intros H.
  - constructor; [intros ->; done | by apply IH].
  - apply Forall_cons in H as [? ?]. constructor; [done | by apply IH].
Qed.

(** The base64 text found between the lines of a block is decoded. *)
Lemma block_text label body x t after e fuel : label_ok label -> pem_body body x -> (length body + 1 < fuel)%nat ->
  Z.of_nat (length body) < 2 ^ 61 ->
  let start := skip_whitespace (ptr ([10] ++ body ++ end_line label t) after) in
  exists ws, Forall (fun c => is_space c = true) ws /\
    find_pem_end fuel label start e = Some (Some (ptr (ws ++ end_line label t) after), e) /\
    opssl_base64_decode (b64_text start (ptr (ws ++ end_line label t) after))
      (max_der_size (len start - len (ptr (ws ++ end_line label t) after))) e = Some (Some x, e).
Proof.
  intros Hlab (Hx & Hs & He) Hf Hsz start.
  assert (no_dash body) as Hd by (apply no_dash_strip; rewrite Hs; by apply base64_no_dash).
  destruct (split_spaces body) as (w0 & b0 & Hb & Hw0 & Hb0).
  assert (start = ptr (b0 ++ end_line label t) after) as Hst.
  { unfold start. rewrite Hb, <- app_assoc, (app_assoc [10] w0). apply skip_ptr; [by constructor |].
    right. destruct Hb0 as [-> | (c & b' & -> & Hc)]; [exists 45; apply end_line_starts | by eexists _, _]. }
  assert (length body = length w0 + length b0)%nat as Hlb by (rewrite Hb; apply length_app).
  rewrite Hb in Hd, He. apply Forall_app in Hd as [_ Hd]. apply line_end_suffix in He.
  destruct (find_end_body label t after e Hlab fuel b0 Hd He) as (b & ws & Hbw & Hws & Hfind); [lia |].
  exists ws. rewrite Hst. split; [done |]. split; [done |].
  assert (len (ptr (b0 ++ end_line label t) after) - len (ptr (ws ++ end_line label t) after) = Z.of_nat (length b)) as Hl
    by (rewrite Hbw; cbn [ptr len]; rewrite !length_app; lia).
  assert (strip b = base64 x) as Hsb.
  { rewrite <- Hs, Hb, Hbw, !strip_app, (strip_spaces w0 Hw0), (strip_spaces ws Hws). by rewrite app_nil_r. }
  unfold b64_text. rewrite Hl, Nat2Z.id. cbn [ptr data]. rewrite Hbw, <- !app_assoc, take_app_length.
  apply base64_decode_text; [done | done |].
  pose proof (strip_length b) as Hlen. rewrite Hsb in Hlen. pose proof (base64_length x) as H64.
  assert (length b0 = length b + length ws)%nat as Hlb0 by (rewrite Hbw; apply length_app).
  unfold max_der_size. rewrite (u64_id (_ * 3)) by lia. rewrite u64_id by (Z.div_mod_to_equations; lia).
  Z.div_mod_to_equations. lia.
Qed.

(** An END line is passed over on the way to the next block. *)
Lemma find_begin_end_line fuel ws label t after e : Forall (fun c => is_space c = true) ws -> label_ok label ->
  find_pem_begin (S fuel) LABEL_SIZE (ptr (ws ++ end_line label ([10] ++ t)) after) e =
    find_pem_begin fuel LABEL_SIZE (ptr t after) e.
Proof.
  intros Hw Hlab. cbn [find_pem_begin].
  rewrite ptr_nonempty, bool_decide_eq_false_2 by (by destruct ws).
  rewrite skip_to_end, ptr_nonempty, bool_decide_eq_false_2 by done.
  set (guard := 11 <? _).
  rewrite (errm_some _ _ e false e).
  - f_equal. unfold end_line. rewrite !app_assoc. rewrite <- (app_assoc _ [10] t). apply next_line_ptr; [| by left].
    destruct Hlab as [Hl _]. rewrite !Forall_app. split; [split; [by repeat constructor |] | by repeat constructor].
    eapply Forall_impl; [exact Hl |]. intros c (_ & _ & H10 & H13). unfold line_char. by rewrite !(proj2 (Z.eqb_neq c _)).
  - destruct guard eqn:Hg; [| done]. rewrite mem_eq_ptr.
    + rewrite bool_decide_eq_false_2; [done |]. by intros [=].
    + unfold guard in Hg. bool_to_prop. cbn [ptr len] in Hg. change (length PEM_BEGIN_PREFIX) with 11%nat. lia.
Qed.

Lemma find_begin_nothing fuel after e : find_pem_begin (S fuel) LABEL_SIZE (ptr [] after) e = Some (None, e).
Proof. done. Qed.

(** A block: its label, its lines and the bytes they encode. *)
Abbreviation block := (list Z * list Z * list Z)%type.
Definition block_ok : block -> Prop := fun '(label, body, x) => label_ok label /\ pem_body body x /\ Z.of_nat (length body) < 2 ^ 61.
Definition pem_text (blocks : list block) : list Z := concat (map (fun '(label, body, _) => pem_block label body) blocks).
Definition payload (b : block) : list Z := b.2.

Lemma pem_text_cons label body x blocks :
  pem_text ((label, body, x) :: blocks) =
    PEM_BEGIN_PREFIX ++ label ++ PEM_SUFFIX ++ [10] ++ body ++ end_line label ([10] ++ pem_text blocks).
Proof. unfold pem_text, pem_block, end_line. cbn [map concat]. by rewrite <- !app_assoc. Qed.

(** Where the search for the next block starts: at the blocks, or at the END line
    of the block before them. *)
Inductive starts (blocks : list block) (after : list Z) : cbs -> Prop :=
  | starts_here : starts blocks after (ptr (pem_text blocks) after)
  | starts_end ws label : Forall (fun c => is_space c = true) ws -> label_ok label ->
      starts blocks after (ptr (ws ++ end_line label ([10] ++ pem_text blocks)) after).

Lemma starts_begin blocks after p fuel e : starts blocks after p -> Forall block_ok blocks ->
  find_pem_begin (S (S fuel)) LABEL_SIZE p e =
    Some (match blocks with
          | [] => None
          | (label, body, _) :: blocks => Some (skip_whitespace (ptr ([10] ++ body ++ end_line label ([10] ++ pem_text blocks)) after), label)
          end, e).
Proof.
  intros Hp Hok. assert (forall f, find_pem_begin (S f) LABEL_SIZE (ptr (pem_text blocks) after) e =
    Some (match blocks with
          | [] => None
          | (label, body, _) :: blocks => Some (skip_whitespace (ptr ([10] ++ body ++ end_line label ([10] ++ pem_text blocks)) after), label)
          end, e)) as H.
  { intros f. destruct Hok as [| [[label body] x] blocks [Hlab _] _]; [done |]. rewrite pem_text_cons. by apply find_begin_block. }
  destruct Hp as [| ws label Hw Hl]; [apply H |]. rewrite find_begin_end_line by done. apply H.
Qed.

Lemma block_fits label body x blocks : (length body + 1 < S (length (pem_text ((label, body, x) :: blocks))))%nat.
Proof. rewrite pem_text_cons, !length_app. change (length PEM_BEGIN_PREFIX) with 11%nat. lia. Qed.

Lemma decode_multi_blocks blocks after e : Forall block_ok blocks -> forall max_count p ders fuel,
  starts blocks after p -> (length blocks <= max_count)%nat -> (length (pem_text blocks) + 2 <= fuel)%nat ->
  decode_multi_loop fuel max_count p ders e = Some (Some (ders ++ map payload blocks), e).
Proof.
  induction 1 as [| [[label body] x] blocks (Hlab & Hbody & Hsz) Hok IH]; intros max_count p ders fuel Hp Hm Hf;
    destruct fuel as [| [| fuel]]; [lia | lia | | lia | lia |].
  - destruct max_count; cbn [decode_multi_loop map]; rewrite app_nil_r; [done |]. case_if; [done |].
    by rewrite (errm_some _ _ _ _ _ (starts_begin [] after p fuel e Hp (Forall_nil_2 _))).
  - cbn [length] in Hm. destruct max_count as [| max_count]; [lia |]. cbn [decode_multi_loop].
    replace (len p <=? 0) with false by (destruct Hp as [| ws ? ? ?]; rewrite ptr_nonempty, bool_decide_eq_false_2; [done | done | done | by destruct ws]).
    erewrite errm_some by (apply starts_begin; [exact Hp | by constructor]).
    pose proof (block_fits label body x blocks).
    destruct (block_text label body x ([10] ++ pem_text blocks) after e (S (S fuel)) Hlab Hbody) as (ws & Hw & Hend & Hdec); [lia | done |].
    rewrite label_string by done. rewrite (let_some_some _ _ _ _ _ Hend), (let_some_some _ _ _ _ _ Hdec).
    rewrite (IH max_count); [| by constructor | lia |].
    + cbn [map]. by rewrite <- app_assoc.
    + rewrite pem_text_cons, !length_app in Hf. unfold end_line in Hf. rewrite !length_app in Hf. lia.
Qed.

(** The text [opssl_base64_encode] writes is a body. *)
Lemma encoded_body fuel x max_out body e : bytes x -> (length x <= fuel)%nat -> Z.of_nat (length x) < 2 ^ 60 ->
  opssl_base64_encode fuel x max_out e = Some (Some body, e) ->
  pem_body body x /\ Z.of_nat (length body) < 2 ^ 61 /\ Z.of_nat (length body) < max_out.
Proof.
  intros Hx Hf Hs H. pose proof (base64_encode_spec fuel x max_out e Hx Hf ltac:(lia)) as Hspec.
  destruct (max_out <=? _) eqn:Hm; [destruct Hspec as [e' Hn]; rewrite Hn in H; done |].
  destruct Hspec as (text & He & Ht & Hle & Hlen). rewrite He in H. injection H as <-. bool_to_prop.
  split; [done |]. rewrite Hlen. split; [| done]. unfold encode_size. Z.div_mod_to_equations. lia.
Qed.

(** C17: PEM is a round trip.  Bytes encoded by [opssl_base64_encode] (which never
    writes past its buffer) and put between BEGIN and END lines are decoded again:
    [opssl_pem_decode_multi] returns all of a text's blocks, and [opssl_pem_decode]
    the first with its label; memory behind the text is not read, and no error is
    pushed. *)
Theorem pem_roundtrip fuel_e fuel max_out (blocks : list block) after max_count label body x e :
  Forall (fun '(label, body, x) => label_ok label /\ bytes x /\ (length x <= fuel_e)%nat /\ Z.of_nat (length x) < 2 ^ 60 /\
    opssl_base64_encode fuel_e x max_out e = Some (Some body, e)) ((label, body, x) :: blocks) ->
  (length blocks < max_count)%nat -> (length (pem_text ((label, body, x) :: blocks)) + 2 <= fuel)%nat ->
  Forall (fun b => Z.of_nat (length b.1.2) < max_out) ((label, body, x) :: blocks) /\
  opssl_pem_decode_multi fuel (ptr (pem_text ((label, body, x) :: blocks)) after) max_count e = Some (Some (x :: map payload blocks), e) /\
  opssl_pem_decode fuel (ptr (pem_text ((label, body, x) :: blocks)) after) (Some LABEL_SIZE) e = Some (Some (x, label ++ [0]), e).
Proof.
  intros Henc Hm Hf.
  assert (Forall block_ok ((label, body, x) :: blocks) /\ Forall (fun b => Z.of_nat (length b.1.2) < max_out) ((label, body, x) :: blocks)) as [Hok Hmax].
  { rewrite <- Forall_and. eapply Forall_impl; [exact Henc |]. intros [[l b] y] (Hl & Hy & Hfe & Hsz & Hb).
    destruct (encoded_body _ _ _ _ _ Hy Hfe Hsz Hb) as (Hbody & H1 & H2). done. }
  split; [done |]. split.
  - unfold opssl_pem_decode_multi. rewrite (proj2 (Nat.eqb_neq max_count 0)) by lia.
    erewrite let_some_some; [| apply (decode_multi_blocks ((label, body, x) :: blocks) after); [exact Hok | apply starts_here | cbn [length]; lia | exact Hf]]. done.
  - destruct fuel as [| [| fuel]]; [lia | lia |]. pose proof (block_fits label body x blocks).
    pose proof (Forall_inv Hok) as (Hlab & Hbody & Hsz).
    destruct (block_text label body x ([10] ++ pem_text blocks) after e (S (S fuel)) Hlab Hbody) as (ws & Hw & Hend & Hdec); [lia | done |].
    unfold opssl_pem_decode.
    assert (decode_block (S (S fuel)) (ptr (pem_text ((label, body, x) :: blocks)) after) e =
      Some (Some (ptr (ws ++ end_line label ([10] ++ pem_text blocks)) after, x, label), e)) as Hblk.
    { unfold decode_block. rewrite (let_some_some _ _ _ _ _ (starts_begin ((label, body, x) :: blocks) after _ fuel e (starts_here _ after) Hok)).
      by rewrite label_string, (let_some_some _ _ _ _ _ Hend), (let_some_some _ _ _ _ _ Hdec) by done. }
    rewrite (let_some_some _ _ _ _ _ Hblk), label_string by done. destruct Hlab as [_ Hl].
    change (0 <? LABEL_SIZE) with true. cbv iota. by rewrite (proj2 (Z.ltb_lt _ _)) by done.
Qed.

(** Two blocks, of three and of no bytes. *)
Lemma pem_roundtrip_witness :
  let blocks := [(chars "KEY", chars "AQID" ++ [10], [1; 2; 3]); (chars "X", [], [])] in
  Forall (fun b : block => Z.of_nat (length b.1.2) < 10) blocks /\
  opssl_pem_decode_multi 100 (ptr (pem_text blocks) [7]) 2 err_tls_init = Some (Some [[1; 2; 3]; []], err_tls_init) /\
  opssl_pem_decode 100 (ptr (pem_text blocks) [7]) (Some LABEL_SIZE) err_tls_init = Some (Some ([1; 2; 3], chars "KEY" ++ [0]), err_tls_init).
Proof.
  apply (pem_roundtrip 5 100 10 [(chars "X", [], [])] [7] 2 (chars "KEY") (chars "AQID" ++ [10]) [1; 2; 3] err_tls_init).
  - repeat constructor; try (cbn; lia); try (vm_compute; done).
  - cbn. lia.
  - vm_compute. repeat constructor.
Defined.

(** A BEGIN line whose label is not closed is compared with the suffix up to the
    end of the text, past which [memcmp] reads. *)
Lemma pem_open_label_overread : opssl_pem_decode 20 (ptr (chars "-----BEGIN AB") []) None err_tls_init = None.
Proof. reflexivity. Qed.
