(* ===== verification/X509.v ===== *)
(** Certificates: src/x509/cert.c.

    A pointer into the certificate with its length is the list of the bytes it
    designates; the reference count, which decides when the memory is freed, is not
    part of the model, nor are null arguments.  [alloc n] says whether allocation
    succeeds: of the structure for 0, of the copy of the DER for 1, of the slot and
    the string of the k-th name kept for 2 + k.  A [char *] array is written with its
    NUL.  [time(NULL)] is an argument. *)
From Stdlib Require Import String.
From S2P Require Import Prelude Platform Err ErrM Cbs Asn1 DerRead Pem.
#[local] Open Scope Z_scope.

Definition OPSSL_ERR_BUFFER_TOO_SMALL : Z := 2.
Definition OPSSL_ERR_PEM_DECODE : Z := 5.

(** The fields of [struct opssl_x509] that the code sets. *)
Record opssl_x509 := mk_x509 {
  x_der : list Z;
  x_tbs : list Z;
  x_issuer_raw : list Z;
  x_subject_raw : list Z;
  x_spki : list Z;
  x_spki_der : list Z;
  x_sig_algo_raw : list Z;
  x_signature : list Z;
  x_serial : list Z;
  x_not_before : Z;
  x_not_after : Z;
  x_sans : list (list Z)
}.

(* ------------------------------------------------------------------ *)
(** * Distinguished names *)

(** The value of an attribute: UTF8String, or else PrintableString, or else
    IA5String, each attempt from where the one before it stopped. *)
Definition dn_value : asn1 cbs :=
  utf8 ← attempt (opssl_asn1_get_element 0x0C);
  match utf8 with Some v => mret v | None =>
    printable ← attempt (opssl_asn1_get_element 0x13);
    match printable with Some v => mret v | None => opssl_asn1_get_element 0x16 end
  end.

Definition dn_attribute : asn1 cbs :=
  rdn_set ← opssl_asn1_get_element 0x31;
  rdn_seq ← within rdn_set opssl_asn1_get_sequence;
  within rdn_seq (_ ← opssl_asn1_get_oid; dn_value).

(** The loop; [buf] is what has been written, up to [pos]. *)
Fixpoint dn_loop (fuel : nat) (buf_len : Z) (buf : list Z) : asn1 (list Z) :=
  c ← here;
  if (0 <? opssl_cbs_len c) && (Z.of_nat (length buf) <? buf_len - 1) then
    match fuel with
    | O => mret buf
    | S fuel =>
      component ← attempt dn_attribute;
      match component with
      | None => mret buf
      | Some value =>
        let buf := if (0 <? Z.of_nat (length buf)) && (Z.of_nat (length buf) <? buf_len - 2) then buf ++ [44; 32] else buf in
        let copy_len := Z.min (opssl_cbs_len value) (buf_len - Z.of_nat (length buf) - 1) in
        dn_loop fuel buf_len (buf ++ take (Z.to_nat copy_len) (opssl_cbs_data value))
      end
    end
  else mret buf.

(** What is written to the buffer, with the NUL; the function always returns 1. *)
Definition parse_dn_component (c : cbs) (buf_len : Z) : errm (option (list Z)) :=
  buf <-? parse_cbs (dn_loop (turns c) buf_len []) c;
  mret (Some (buf ++ [0])).

(* ------------------------------------------------------------------ *)
(** * Parsing *)

Section Parse.
Context (alloc : nat -> bool).

(** The loop over the names; [sans] are the strings so far, with their NULs. *)
Fixpoint san_loop (fuel : nat) (sans : list (list Z)) : asn1 (list (list Z)) :=
  c ← here;
  if 0 <? opssl_cbs_len c then
    match fuel with
    | O => mret sans
    | S fuel =>
      tag ← peek;
      match tag with
      | None => mret sans
      | Some tag =>
        if tag =? 0x82 then
          name ← attempt (opssl_asn1_get_element 0x82);
          match name with
          | None => mret sans
          | Some name_value =>
            let name_len := Z.min (opssl_cbs_len name_value) 255 in
            if alloc (2 + length sans)%nat
            then san_loop fuel (sans ++ [take (Z.to_nat name_len) (opssl_cbs_data name_value) ++ [0]])
            else mret sans
          end
        else
          skipped ← attempt opssl_asn1_skip_element;
          match skipped with
          | None => mret sans
          | Some _ => san_loop fuel sans
          end
      end
    end
  else mret sans.

(** [cert->sans] after the call, whose return value is not used. *)
Definition parse_san_extension (sans : list (list Z)) (ext_value : cbs) : asn1 (list (list Z)) :=
  san_seq ← within ext_value (attempt opssl_asn1_get_sequence);
  match san_seq with
  | None => mret sans
  | Some san_seq => within san_seq (san_loop (turns san_seq) [])
  end.

Definition san_oid : list Z := [0x55; 0x1D; 0x11].

(** One extension: its OID and its value, the critical flag being skipped. *)
Definition extension_item : asn1 (cbs * cbs) :=
  extension ← opssl_asn1_get_sequence;
  within extension (
    oid ← opssl_asn1_get_oid;
    tag ← peek;
    _ ← (match tag with Some 0x01 => attempt opssl_asn1_skip_element | _ => mret None end);
    ext_value ← opssl_asn1_get_element 0x04;
    mret (oid, ext_value)).

Fixpoint extensions_loop (fuel : nat) (sans : list (list Z)) : asn1 (list (list Z)) :=
  c ← here;
  if 0 <? opssl_cbs_len c then
    match fuel with
    | O => mret sans
    | S fuel =>
      ext ← attempt extension_item;
      match ext with
      | None => mret sans
      | Some (oid, ext_value) =>
        sans ← (if bool_decide (contents oid = san_oid) then parse_san_extension sans ext_value else mret sans);
        extensions_loop fuel sans
      end
    end
  else mret sans.

(** [cert->sans] after the call, whose return value is not used. *)
Definition parse_extensions : asn1 (list (list Z)) :=
  c ← here;
  tag ← peek;
  match tag with
  | Some 0xA3 =>
    extensions ← attempt (opssl_asn1_get_element 0xA3);
    match extensions with
    | None => mret []
    | Some extensions =>
      ext_seq ← within extensions (attempt opssl_asn1_get_sequence);
      match ext_seq with
      | None => mret []
      | Some ext_seq => within ext_seq (extensions_loop (turns ext_seq) [])
      end
    end
  | _ => mret []
  end.

(** [cert] with the fields of the TBSCertificate that [cert->tbs] holds. *)
Definition parse_tbs_certificate (cert : opssl_x509) : asn1 opssl_x509 :=
  tag ← peek;
  _ ← (match tag with Some 0xA0 => attempt opssl_asn1_skip_element | _ => mret None end);
  serial_val ← opssl_asn1_get_integer;
  _ ← opssl_asn1_skip_element;
  issuer_seq ← opssl_asn1_get_sequence;
  validity ← opssl_asn1_get_sequence;
  '(not_before, not_after) ← within validity (b ← opssl_asn1_get_time; a ← opssl_asn1_get_time; mret (b, a));
  subject_seq ← opssl_asn1_get_sequence;
  spki_start ← here;
  spki_seq ← opssl_asn1_get_sequence;
  spki_end ← here;
  sans ← parse_extensions;
  mret {| x_der := x_der cert; x_tbs := x_tbs cert;
          x_issuer_raw := contents issuer_seq; x_subject_raw := contents subject_seq;
          x_spki := contents spki_seq; x_spki_der := between spki_start spki_end;
          x_sig_algo_raw := x_sig_algo_raw cert; x_signature := x_signature cert;
          x_serial := contents serial_val; x_not_before := not_before; x_not_after := not_after;
          x_sans := sans |}.

(** The body of [parse_certificate] once the DER has been copied. *)
Definition certificate_fields (der : list Z) : asn1 opssl_x509 :=
  cert_seq ← opssl_asn1_get_sequence;
  '(tbs_seq, sig_algo_seq, signature_bits) ← within cert_seq (
     tbs_seq ← opssl_asn1_get_sequence;
     sig_algo_seq ← opssl_asn1_get_sequence;
     signature_bits ← opssl_asn1_get_element 0x03;
     mret (tbs_seq, sig_algo_seq, signature_bits));
  let signature :=
    if 0 <? opssl_cbs_len signature_bits then contents (snd (opssl_cbs_skip 1 signature_bits)) else [] in
  within tbs_seq (parse_tbs_certificate
    {| x_der := der; x_tbs := contents tbs_seq; x_issuer_raw := []; x_subject_raw := []; x_spki := []; x_spki_der := [];
       x_sig_algo_raw := contents sig_algo_seq; x_signature := signature;
       x_serial := []; x_not_before := 0; x_not_after := 0; x_sans := [] |}).

Definition parse_certificate (der : list Z) : errm (option opssl_x509) :=
  if negb (alloc 0 && alloc 1)%nat then mret None else
  parse_cbs (certificate_fields der) (opssl_cbs_init der (Z.of_nat (length der))).

Definition opssl_x509_from_der (der : list Z) : errm (option opssl_x509) :=
  if (length der =? 0)%nat then _ ← set_error OPSSL_ERR_INVALID_ARGUMENT "Invalid DER data"; mret None
  else parse_certificate der.

Definition opssl_x509_from_pem (fuel : nat) (pem : cbs) : errm (option opssl_x509) :=
  if len pem =? 0 then _ ← set_error OPSSL_ERR_INVALID_ARGUMENT "Invalid PEM data"; mret None else
  r ← opssl_pem_decode fuel pem (Some LABEL_SIZE);
  match r with
  | None => _ ← set_error OPSSL_ERR_PEM_DECODE "Failed to decode PEM"; mret None
  | Some (der, _) => opssl_x509_from_der der
  end.
End Parse.

(* ------------------------------------------------------------------ *)
(** * Reading a certificate *)

Definition opssl_x509_get_subject (cert : opssl_x509) (buf_len : Z) : errm (option (list Z)) :=
  if buf_len =? 0 then _ ← set_error OPSSL_ERR_INVALID_ARGUMENT "Invalid arguments"; mret None
  else parse_dn_component (cbs_of (x_subject_raw cert)) buf_len.

Definition opssl_x509_get_issuer (cert : opssl_x509) (buf_len : Z) : errm (option (list Z)) :=
  if buf_len =? 0 then _ ← set_error OPSSL_ERR_INVALID_ARGUMENT "Invalid arguments"; mret None
  else parse_dn_component (cbs_of (x_issuer_raw cert)) buf_len.

Definition opssl_x509_get_san_count (cert : opssl_x509) : Z := Z.of_nat (length (x_sans cert)).

(** The string written, with its NUL. *)
Definition opssl_x509_get_san (cert : opssl_x509) (idx : Z) (buf_len : Z) : errm (option (list Z)) :=
  if (idx <? 0) || (opssl_x509_get_san_count cert <=? idx) || (buf_len =? 0) then
    _ ← set_error OPSSL_ERR_INVALID_ARGUMENT "Invalid arguments"; mret None
  else
    let san := c_string (nth (Z.to_nat idx) (x_sans cert) []) in
    if buf_len <=? Z.of_nat (length san) then
      _ ← set_error OPSSL_ERR_BUFFER_TOO_SMALL "Buffer too small for SAN"; mret None
    else mret (Some (san ++ [0])).

Definition opssl_x509_get_not_before (cert : opssl_x509) : Z := x_not_before cert.
Definition opssl_x509_get_not_after (cert : opssl_x509) : Z := x_not_after cert.

Definition opssl_x509_is_expired (cert : opssl_x509) (now : Z) : Z :=
  if (now <? x_not_before cert) || (x_not_after cert <? now) then 1 else 0.

(** The bytes copied to a buffer of [len] bytes; [len] becomes their number. *)
Definition opssl_x509_get_serial (cert : opssl_x509) (len : Z) : option (list Z) :=
  if (length (x_serial cert) =? 0)%nat || (len <? Z.of_nat (length (x_serial cert))) then None
  else Some (x_serial cert).

Definition opssl_x509_get_der (cert : opssl_x509) : list Z := x_der cert.
Definition opssl_x509_get_spki (cert : opssl_x509) : list Z := x_spki cert.
Definition opssl_x509_get_spki_der (cert : opssl_x509) : list Z := x_spki_der cert.
