(* ===== verification/X509Ok.v ===== *)
(** What cert.c makes of a certificate: the DER of an abstract certificate is
    parsed to its fields, names are written within their buffer, and the error
    stack has no part in any of it. *)
From Stdlib Require Import String.
From S2P Require Import Prelude Platform Err ErrM Cbs Asn1 DerRead Pem X509.
#[local] Open Scope Z_scope.

(* ------------------------------------------------------------------ *)
(** * Certificates (RFC 5280) *)

(** GeneralName: a tag and its contents. *)
Definition general_name : Type := Z * list Z.

Inductive extension_body :=
  | SubjectAltName (names : list general_name)
  | BasicConstraints (ca : bool) (pathlen : option (list Z))
  | KeyUsage (unused : Z) (bits : list Z)
  | OtherExtension (oid value : list Z).

Record extension := mk_extension { e_critical : option (list Z); e_body : extension_body }.

Definition basic_constraints_oid : list Z := [0x55; 0x1D; 0x13].
Definition key_usage_oid : list Z := [0x55; 0x1D; 0x0F].

Record certificate := mk_certificate {
  c_version : option (list Z);
  c_serial : list Z;
  c_tbs_algorithm : list Z;
  c_issuer : list Z;
  c_not_before : Z * tm;
  c_not_after : Z * tm;
  c_subject : list Z;
  c_spki : list Z;
  c_extensions : option (list extension);
  c_sig_oid : list Z;
  c_sig_params : list Z;
  c_signature : list Z
}.

Definition opt_tlv (tag : Z) (x : option (list Z)) : list Z := match x with Some x => der_tlv tag x | None => [] end.

Definition extension_oid (b : extension_body) : list Z :=
  match b with
  | SubjectAltName _ => san_oid | BasicConstraints _ _ => basic_constraints_oid | KeyUsage _ _ => key_usage_oid
  | OtherExtension oid _ => oid
  end.

Definition general_names (names : list general_name) : list Z := concat (map (fun n => der_tlv n.1 n.2) names).

Definition extension_value (b : extension_body) : list Z :=
  match b with
  | SubjectAltName names => der_tlv 0x30 (general_names names)
  | BasicConstraints ca pathlen => der_tlv 0x30 ((if ca then der_tlv 0x01 [0xFF] else []) ++ opt_tlv 0x02 pathlen)
  | KeyUsage unused bits => der_tlv 0x03 (unused :: bits)
  | OtherExtension _ value => value
  end.

Definition extension_bytes (e : extension) : list Z :=
  der_tlv 0x30 (der_tlv 0x06 (extension_oid (e_body e)) ++ opt_tlv 0x01 (e_critical e) ++ der_tlv 0x04 (extension_value (e_body e))).

Definition extensions_bytes (es : list extension) : list Z := concat (map extension_bytes es).

Definition time_tlv (t : Z * tm) : list Z := der_tlv t.1 (time_bytes t.1 t.2).

Definition tbs_bytes (c : certificate) : list Z :=
  opt_tlv 0xA0 (c_version c) ++ der_tlv 0x02 (c_serial c) ++ der_tlv 0x30 (c_tbs_algorithm c) ++
  der_tlv 0x30 (c_issuer c) ++ der_tlv 0x30 (time_tlv (c_not_before c) ++ time_tlv (c_not_after c)) ++
  der_tlv 0x30 (c_subject c) ++ der_tlv 0x30 (c_spki c) ++
  match c_extensions c with Some es => der_tlv 0xA3 (der_tlv 0x30 (extensions_bytes es)) | None => [] end.

Definition algorithm_bytes (c : certificate) : list Z := der_tlv 0x06 (c_sig_oid c) ++ c_sig_params c.

Definition certificate_bytes (c : certificate) : list Z :=
  der_tlv 0x30 (der_tlv 0x30 (tbs_bytes c) ++ der_tlv 0x30 (algorithm_bytes c) ++ der_tlv 0x03 (0 :: c_signature c)).

(** Values the ASN.1 types allow. *)
Definition body_ok (b : extension_body) : Prop :=
  match b with
  | SubjectAltName _ => True
  | BasicConstraints _ pathlen => pathlen <> Some []
  | KeyUsage unused bits => 0 <= unused <= 7 /\ (bits = [] -> unused = 0)
  | OtherExtension oid _ => oid <> [] /\ oid <> san_oid /\ oid <> basic_constraints_oid /\ oid <> key_usage_oid
  end.

Definition time_ok (t : Z * tm) : Prop := tm_ok t.2 /\ time_year_ok t.1 (year t.2).

Record certificate_ok (c : certificate) : Prop := {
  co_bytes : bytes (certificate_bytes c);
  co_size : der_ok (certificate_bytes c);
  co_serial : c_serial c <> [];
  co_sig_oid : c_sig_oid c <> [];
  co_not_before : time_ok (c_not_before c);
  co_not_after : time_ok (c_not_after c);
  co_extensions : Forall (fun e => body_ok (e_body e)) (default [] (c_extensions c))
}.

(** The DNS names of a list of names, and those of the last SubjectAltName. *)
Definition dns_of (names : list general_name) : list (list Z) :=
  map snd (List.filter (fun n => fst n =? 0x82) names).

Definition dns_names (es : list extension) : list (list Z) :=
  fold_left (fun sans e => match e_body e with SubjectAltName names => dns_of names | _ => sans end) es [].

(** A DNS name as the certificate structure keeps it: 255 bytes at most, and a NUL. *)
Definition san_string (name : list Z) : list Z := take 255 name ++ [0].

(** The structure for a certificate. *)
Definition parsed (c : certificate) : opssl_x509 :=
  {| x_der := certificate_bytes c; x_tbs := tbs_bytes c;
     x_issuer_raw := c_issuer c; x_subject_raw := c_subject c;
     x_spki := c_spki c; x_spki_der := der_tlv 0x30 (c_spki c);
     x_sig_algo_raw := algorithm_bytes c; x_signature := c_signature c;
     x_serial := c_serial c; x_not_before := civil_epoch (c_not_before c).2; x_not_after := civil_epoch (c_not_after c).2;
     x_sans := map san_string (dns_names (default [] (c_extensions c))) |}.

(* ------------------------------------------------------------------ *)
(** * Extensions *)

Lemma tlv_nonempty tag x : der_tlv tag x <> [].
Proof. done. Qed.

Lemma body_oid_nonempty b : body_ok b -> extension_oid b <> [].
Proof. destruct b; [done.. | by intros [? _]]. Qed.

(** [der_ok] of the parts of an element. *)
Lemma der_ok_tlv tag x : der_ok (der_tlv tag x) -> der_ok x.
Proof. unfold der_ok. pose proof (der_tlv_length tag x). lia. Qed.

Lemma der_ok_app_l x y : der_ok (x ++ y) -> der_ok x.
Proof. unfold der_ok. rewrite length_app. lia. Qed.

Lemma der_ok_app_r x y : der_ok (x ++ y) -> der_ok y.
Proof. unfold der_ok. rewrite length_app. lia. Qed.

(** Solve [der_ok x] from a hypothesis on an encoding that [x] is a part of. *)
#[local] Ltac der_from H :=
  lazymatch type of H with
  | der_ok ?y =>
    lazymatch goal with |- der_ok ?x =>
      first [ constr_eq x y; exact H
            | lazymatch y with
              | der_tlv ?t ?z => let H' := fresh in pose proof (der_ok_tlv t z H) as H'; der_from H'
              | ?u ++ ?v => first [ let H' := fresh in pose proof (der_ok_app_l u v H) as H'; der_from H'
                                  | let H' := fresh in pose proof (der_ok_app_r u v H) as H'; der_from H' ]
              end ]
    end
  end.
#[local] Ltac der_part := solve [match goal with H : der_ok _ |- _ => der_from H end].

(** An extension is read as its OID and its value, whatever its critical flag. *)
Lemma reads_extension_item e : body_ok (e_body e) -> der_ok (extension_bytes e) ->
  reads extension_item (extension_bytes e) (fun r => on (extension_oid (e_body e)) r.1 /\ on (extension_value (e_body e)) r.2).
Proof.
  intros Hb Hs. unfold extension_item, extension_bytes in *. rewrite <- (app_nil_r (der_tlv 0x30 _)).
  eapply reads_bind; [apply reads_sequence; der_part |]. intros ext Hext. eapply reads_within; [exact Hext |].
  apply der_ok_tlv in Hs.
  eapply whole_bind; [apply reads_oid; [der_part | by apply body_oid_nonempty] |]. intros oid Hoid. apply whole_peek.
  destruct (e_critical e) as [crit |]; cbn [opt_tlv] in *.
  - change (hd_error (der_tlv 0x01 crit ++ der_tlv 0x04 (extension_value (e_body e)))) with (Some 1).
    eapply whole_bind; [apply reads_attempt, reads_skip; der_part |]. intros _ _.
    rewrite <- (app_nil_r (der_tlv 0x04 _)). eapply whole_bind; [apply reads_element; der_part |].
    intros v Hv. by apply whole_ret.
  - change (hd_error ([] ++ der_tlv 0x04 (extension_value (e_body e)))) with (Some 4).
    rewrite <- (app_nil_r (der_tlv 0x04 _)).
    eapply (whole_bind (mret None)); [by apply (reads_ret _ (fun _ => True)) |]. intros _ _.
    eapply whole_bind; [apply reads_element; der_part |]. intros v Hv. by apply whole_ret.
Qed.

(* ------------------------------------------------------------------ *)
(** * Names *)

Lemma whole_nil {A} (p : asn1 A) (a : A) (P : A -> Prop) : (forall s, asn1_wf s -> len (in_cbs s) = 0 -> p s = (Some a, s)) -> P a -> whole p [] P.
Proof.
  intros Hp HP s Hwf Hv. exists a, s. pose proof (view_length _ Hwf) as Hl. rewrite Hv in Hl. cbn in Hl. destruct Hwf as [? ?] eqn:E.
  rewrite Hp by (done || lia). done.
Qed.

(** The loops begin by testing that bytes are left. *)
Lemma whole_more {A} (p q : asn1 A) enc P : enc <> [] -> whole p enc P ->
  whole (c ← here; if 0 <? opssl_cbs_len c then p else q) enc P.
Proof.
  intros Hne Hp. apply whole_here. intros c Hc. rewrite (on_len _ _ Hc).
  rewrite (proj2 (Z.ltb_lt 0 _)) by (destruct enc; [done | cbn; lia]). done.
Qed.

Lemma whole_done {A} (p : asn1 A) (a : A) (P : A -> Prop) : P a ->
  whole (c ← here; if 0 <? opssl_cbs_len c then p else mret a) [] P.
Proof.
  intros HP. apply (whole_nil _ a); [| done]. intros s Hwf Hl.
  rewrite (bind_some here _ s (in_cbs s) s) by done. unfold opssl_cbs_len. by rewrite Hl.
Qed.

Lemma take_min_255 (x : list Z) : take (Z.to_nat (Z.min (Z.of_nat (length x)) 255)) x = take 255 x.
Proof. destruct (Z.le_ge_cases (Z.of_nat (length x)) 255); [rewrite Z.min_l, Nat2Z.id by lia; by rewrite !take_ge by lia | by rewrite Z.min_r by lia]. Qed.

Lemma san_loop_names alloc names : (forall n, alloc n = true) -> forall fuel sans,
  Forall (fun n => der_ok n.2) names -> (length names < fuel)%nat ->
  whole (san_loop alloc fuel sans) (general_names names) (fun r => r = sans ++ map san_string (dns_of names)).
Proof.
  intros Ha. induction names as [| [t x] names IH]; intros fuel sans Hok Hf; (destruct fuel as [| fuel]; [cbn in Hf; lia |]).
  - apply whole_done. by rewrite app_nil_r.
  - cbn [general_names map concat fst snd san_loop]. apply Forall_cons in Hok as [Hx Hok]. cbn [snd] in Hx.
    apply whole_more; [done |]. apply whole_peek. change (hd_error _) with (Some t). cbv iota.
    assert (length names < fuel)%nat by (cbn in Hf; lia). unfold dns_of. cbn [List.filter fst].
    destruct (t =? 0x82) eqn:Ht.
    + apply Z.eqb_eq in Ht as ->. eapply whole_bind; [apply reads_attempt, reads_element; exact Hx |].
      intros ? (v & -> & Hv). rewrite Ha, (on_len _ _ Hv), (on_take _ _ _ Hv), take_min_255 by lia.
      eapply whole_weaken; [by apply IH |]. intros r ->. cbn [map]. by rewrite <- app_assoc.
    + eapply whole_bind; [apply reads_attempt, reads_skip; exact Hx |]. intros ? (v & -> & Hv). by apply IH.
Qed.

Lemma general_names_ok names : der_ok (general_names names) -> Forall (fun n => der_ok n.2) names.
Proof.
  induction names as [| n names IH]; [done |]. cbn [general_names map concat]. intros H. constructor; [der_part |].
  apply IH. unfold general_names. der_part.
Qed.

Lemma turns_enough {A} (f : A -> list Z) l c : (forall a, f a <> []) -> on (concat (map f l)) c -> (length l < turns c)%nat.
Proof. intros Hf Hc. unfold turns. rewrite (on_len _ _ Hc), Nat2Z.id. pose proof (concat_parts f l Hf). lia. Qed.

(** The SubjectAltName extension replaces the names. *)
Lemma parse_san_names alloc names c sans : (forall n, alloc n = true) -> der_ok (extension_value (SubjectAltName names)) ->
  on (extension_value (SubjectAltName names)) c ->
  reads (parse_san_extension alloc sans c) [] (fun r => r = map san_string (dns_of names)).
Proof.
  intros Ha Hs Hc. cbn [extension_value] in *. unfold parse_san_extension.
  eapply (reads_bind _ _ [] []).
  - eapply reads_within; [exact Hc |]. rewrite <- (app_nil_r (der_tlv _ _)). apply reads_whole, reads_attempt, reads_sequence. der_part.
  - intros ? (seq & -> & Hseq). eapply reads_within; [exact Hseq |].
    apply (san_loop_names alloc names Ha _ []); [apply general_names_ok; der_part |]. apply (turns_enough (fun n : general_name => der_tlv n.1 n.2)); [done | exact Hseq].
Qed.

Lemma extensions_bytes_ok es : der_ok (extensions_bytes es) -> Forall (fun e => der_ok (extension_bytes e)) es.
Proof.
  induction es as [| e es IH]; [done |]. cbn [extensions_bytes map concat]. intros H. constructor; [der_part |].
  apply IH. unfold extensions_bytes. der_part.
Qed.

Lemma body_oid_san b : body_ok b -> bool_decide (extension_oid b = san_oid) = match b with SubjectAltName _ => true | _ => false end.
Proof. destruct b; intros Hb; [done | done | done |]. apply bool_decide_eq_false_2. by destruct Hb as (_ & ? & _). Qed.

Lemma extension_value_ok e : der_ok (extension_bytes e) -> der_ok (extension_value (e_body e)).
Proof. unfold extension_bytes. intros H. do 3 (apply der_ok_tlv in H || apply der_ok_app_r in H). der_part. Qed.

Lemma extensions_loop_names alloc es : (forall n, alloc n = true) -> forall fuel names,
  Forall (fun e => body_ok (e_body e)) es -> Forall (fun e => der_ok (extension_bytes e)) es -> (length es < fuel)%nat ->
  whole (extensions_loop alloc fuel (map san_string names)) (extensions_bytes es)
    (fun r => r = map san_string (fold_left (fun sans e => match e_body e with SubjectAltName names => dns_of names | _ => sans end) es names)).
Proof.
  intros Ha. induction es as [| e es IH]; intros fuel names Hb Hok Hf; (destruct fuel as [| fuel]; [cbn in Hf; lia |]).
  - by apply whole_done.
  - apply Forall_cons in Hb as [Hbe Hb], Hok as [Hoke Hok]. cbn [extensions_bytes map concat extensions_loop].
    apply whole_more; [done |].
    eapply whole_bind; [by apply reads_attempt, reads_extension_item |]. intros ? ([oid v] & -> & Hoid & Hv). cbn [fst snd] in *.
    rewrite (on_contents _ _ Hoid), body_oid_san by done. cbn [fold_left].
    assert (length es < fuel)%nat by (cbn in Hf; lia).
    change (concat (map extension_bytes es)) with ([] ++ extensions_bytes es).
    destruct (e_body e) as [sans | | |] eqn:He.
    + eapply whole_bind; [apply (parse_san_names _ sans); [done | | exact Hv]; rewrite <- He; by apply extension_value_ok |].
      intros r ->. by apply IH.
    + eapply whole_bind; [by apply (reads_ret _ (fun r => r = map san_string names)) |]. intros r ->. by apply IH.
    + eapply whole_bind; [by apply (reads_ret _ (fun r => r = map san_string names)) |]. intros r ->. by apply IH.
    + eapply whole_bind; [by apply (reads_ret _ (fun r => r = map san_string names)) |]. intros r ->. by apply IH.
Qed.

(* ------------------------------------------------------------------ *)
(** * The certificate *)

Lemma extension_bytes_nonempty e : extension_bytes e <> [].
Proof. done. Qed.

(** The names of the certificate, when it has extensions and when it has not. *)
Lemma parse_extensions_names alloc oes : (forall n, alloc n = true) ->
  Forall (fun e => body_ok (e_body e)) (default [] oes) ->
  der_ok (match oes with Some es => der_tlv 0xA3 (der_tlv 0x30 (extensions_bytes es)) | None => [] end) ->
  whole (parse_extensions alloc) (match oes with Some es => der_tlv 0xA3 (der_tlv 0x30 (extensions_bytes es)) | None => [] end)
    (fun r => r = map san_string (dns_names (default [] oes))).
Proof.
  intros Ha Hb Hs. unfold parse_extensions. apply whole_here. intros c _. apply whole_peek.
  destruct oes as [es |]; [| by apply whole_ret]. cbn [default from_option id] in Hb |- *.
  change (hd_error _) with (Some 0xA3). cbv iota. rewrite <- (app_nil_r (der_tlv 0xA3 _)).
  eapply whole_bind; [apply reads_attempt, reads_element; der_part |]. intros ? (exts & -> & Hexts).
  eapply (whole_bind _ _ [] []).
  { eapply reads_within; [exact Hexts |]. rewrite <- (app_nil_r (der_tlv _ _)). apply reads_whole, reads_attempt, reads_sequence. der_part. }
  intros ? (seq & -> & Hseq). cbv beta iota.
  apply (reads_whole _ [] []). eapply reads_within; [exact Hseq |].
  apply (extensions_loop_names alloc es Ha _ []); [done | apply extensions_bytes_ok; der_part |].
  eapply turns_enough; [apply extension_bytes_nonempty | exact Hseq].
Qed.

(** The fields of the structure the TBSCertificate gives. *)
Lemma parse_tbs_fields alloc c x0 : (forall n, alloc n = true) -> certificate_ok c ->
  x_der x0 = certificate_bytes c -> x_tbs x0 = tbs_bytes c -> x_sig_algo_raw x0 = algorithm_bytes c -> x_signature x0 = c_signature c ->
  whole (parse_tbs_certificate alloc x0) (tbs_bytes c) (fun r => r = parsed c).
Proof.
  intros Ha [_ Hs Hserial _ [Hnb1 Hnb2] [Hna1 Hna2] Hext] H1 H2 H3 H4.
  unfold certificate_bytes in Hs. apply der_ok_tlv, der_ok_app_l, der_ok_tlv in Hs.
  unfold parse_tbs_certificate, tbs_bytes in *. apply whole_peek.
  assert (forall e1 o, der_ok (opt_tlv 0xA0 o ++ der_tlv 2 (c_serial c) ++ e1) ->
    reads (match hd_error (opt_tlv 0xA0 o ++ der_tlv 2 (c_serial c) ++ e1) with Some 0xA0 => attempt opssl_asn1_skip_element | _ => mret None end)
      (opt_tlv 0xA0 o) (fun _ => True)) as Hver.
  { intros e1 [v |] Hv; cbn [opt_tlv] in *.
    - eapply reads_weaken; [apply reads_attempt, reads_skip; der_part | done].
    - by apply reads_ret. }
  eapply whole_bind; [by apply Hver |]. intros _ _. apply der_ok_app_r in Hs.
  eapply whole_bind; [apply reads_integer; [der_part | done] |]. intros serial Hser. apply der_ok_app_r in Hs.
  eapply whole_bind; [apply reads_skip; der_part |]. intros _ _. apply der_ok_app_r in Hs.
  eapply whole_bind; [apply reads_sequence; der_part |]. intros issuer Hiss. apply der_ok_app_r in Hs.
  eapply whole_bind; [apply reads_sequence; der_part |]. intros validity Hval. apply der_ok_app_r in Hs.
  match goal with |- whole _ ?x _ => change x with ([] ++ x) end.
  eapply whole_bind.
  { eapply reads_within; [exact Hval |]. eapply whole_bind; [by apply reads_time |]. intros b ->.
    rewrite <- (app_nil_r (time_tlv (c_not_after c))). eapply whole_bind; [by apply reads_time |]. intros a ->.
    by apply (whole_ret _ _ (fun r => r = (civil_epoch (c_not_before c).2, civil_epoch (c_not_after c).2))). }
  intros ? ->. cbv beta iota.
  eapply whole_bind; [apply reads_sequence; der_part |]. intros subject Hsub. apply der_ok_app_r in Hs.
  eapply whole_between; [apply reads_sequence; der_part |]. intros c0 spki c1 Hspki Hbt. apply der_ok_app_r in Hs.
  intros s Hwf Hv. destruct (parse_extensions_names alloc (c_extensions c) Ha Hext Hs s Hwf Hv) as (r & s' & Hr & He & ->).
  eexists _, s'. rewrite (bind_some _ _ _ _ _ Hr). split; [reflexivity |]. split; [done |].
  unfold parsed. by rewrite H1, H2, H3, H4, Hbt, (on_contents _ _ Hiss), (on_contents _ _ Hsub), (on_contents _ _ Hspki), (on_contents _ _ Hser).
Qed.

(** C16: parsing the DER of a certificate gives its fields: the raw parts, the
    validity as epoch seconds, and the DNS names of its last SubjectAltName extension,
    cut to 255 bytes; no error is pushed.  The times are since 1970 and there are no
    unique identifiers, which are not read. *)
Theorem x509_from_der_parses alloc c e : (forall n, alloc n = true) -> certificate_ok c ->
  opssl_x509_from_der alloc (certificate_bytes c) e = Some (Some (parsed c), e).
Proof.
  intros Ha Hc. unfold opssl_x509_from_der. change ((length (certificate_bytes c) =? 0)%nat) with false. cbv iota.
  unfold parse_certificate. rewrite !Ha. cbn [andb negb].
  destruct (whole_parse (certificate_fields alloc (certificate_bytes c)) (certificate_bytes c) (cbs_of (certificate_bytes c))
    (fun r => r = parsed c) e) as (r & Hr & ->); [| apply on_cbs_of, Hc | exact Hr].
  unfold certificate_fields.
  match goal with |- whole ?p ?x ?P => cut (whole p (x ++ []) P); [by rewrite app_nil_r |] end. pose proof (co_size _ Hc) as Hs. unfold certificate_bytes in Hs.
  eapply whole_bind; [apply reads_sequence; der_part |]. intros seq Hseq. apply der_ok_tlv in Hs.
  change (@nil Z) with (@nil Z ++ []).
  eapply (whole_bind _ _ _ _ (fun r => on (tbs_bytes c) r.1.1 /\ on (algorithm_bytes c) r.1.2 /\ on (0 :: c_signature c) r.2)).
  - eapply reads_within; [exact Hseq |].
    eapply whole_bind; [apply reads_sequence; der_part |]. intros t Ht. apply der_ok_app_r in Hs.
    eapply whole_bind; [apply reads_sequence; der_part |]. intros a Hal. apply der_ok_app_r in Hs.
    rewrite <- (app_nil_r (der_tlv 0x03 _)). eapply whole_bind; [apply reads_element; der_part |]. intros b Hb. by apply whole_ret.
  - intros [[t a] b] (Ht & Hal & Hb). cbn [fst snd] in *. rewrite (on_len _ _ Hb). cbn [length]. ltb_decide.
    assert (contents (opssl_cbs_skip 1 b).2 = c_signature c) as Hsig.
    { pose proof (on_len _ _ Hb) as Hl. unfold opssl_cbs_len in Hl. cbn [length] in Hl. unfold opssl_cbs_skip. ltb_decide. cbn [snd].
      destruct Hb as [Hbw Hbv]. unfold contents, opssl_cbs_len, opssl_cbs_data.
      change (view (cbs_advance 1 b) = c_signature c). by rewrite advance_view, Hbv by lia. }
    rewrite Hsig, (on_contents _ _ Ht), (on_contents _ _ Hal). apply (reads_whole _ [] []). eapply reads_within; [exact Ht |].
    by apply parse_tbs_fields.
Qed.

(** A certificate with a name and the basic constraints of a CA. *)
Definition example_certificate : certificate :=
  let day := {| year := 2026; month := 1; day := 2; hour := 3; min := 4; sec := 5 |} in
  {| c_version := Some (der_tlv 2 [2]); c_serial := [7]; c_tbs_algorithm := der_tlv 6 [43; 101; 112];
     c_issuer := []; c_not_before := (0x17, day); c_not_after := (0x18, day); c_subject := []; c_spki := [1; 2];
     c_extensions := Some [mk_extension None (SubjectAltName [(0x87, [1; 1; 1; 1]); (0x82, chars "a.b")]);
                           mk_extension (Some [0xFF]) (BasicConstraints true (Some [0])); mk_extension None (KeyUsage 1 [6])];
     c_sig_oid := [43; 101; 112]; c_sig_params := []; c_signature := [9; 9] |}.

Lemma example_ok : certificate_ok example_certificate.
Proof.
  split; [solve_bytes | vm_compute; done | done | done | | |].
  - split; [unfold tm_ok; cbn; lia | left; split; [done | cbn; lia]].
  - split; [unfold tm_ok; cbn; lia | right; split; [done | cbn; lia]].
  - repeat constructor; cbn; done || lia.
Qed.

Lemma x509_from_der_parses_witness :
  opssl_x509_from_der (fun _ => true) (certificate_bytes example_certificate) err_tls_init = Some (Some (parsed example_certificate), err_tls_init) /\
  x_sans (parsed example_certificate) = [chars "a.b" ++ [0]].
Proof. split; [exact (x509_from_der_parses (fun _ => true) example_certificate err_tls_init (fun _ => eq_refl) example_ok) | reflexivity]. Defined.

(* ------------------------------------------------------------------ *)
(** * Names as strings *)

(** An attribute with a UTF8String value, and a name of such attributes. *)
Definition attribute_bytes (a : list Z * list Z) : list Z := der_tlv 0x31 (der_tlv 0x30 (der_tlv 0x06 a.1 ++ der_tlv 0x0C a.2)).
Definition name_bytes (attrs : list (list Z * list Z)) : list Z := concat (map attribute_bytes attrs).

(** The values with a comma and a space between them. *)
Definition dn_join (buf v : list Z) : list Z := if decide (buf = []) then v else buf ++ [44; 32] ++ v.
Definition dn_text (attrs : list (list Z * list Z)) : list Z := fold_left dn_join (map snd attrs) [].

Lemma reads_attribute a : a.1 <> [] -> der_ok (attribute_bytes a) -> reads dn_attribute (attribute_bytes a) (on a.2).
Proof.
  intros Hne Hs. unfold attribute_bytes in *. apply der_ok_tlv in Hs as Hs1. apply der_ok_tlv in Hs1 as Hs2.
  unfold dn_attribute. rewrite <- (app_nil_r (der_tlv 0x31 _)).
  eapply reads_bind; [by apply reads_element |]. intros set Hset.
  apply (reads_bind _ _ [] [] (on (der_tlv 0x06 a.1 ++ der_tlv 0x0C a.2))).
  { eapply reads_within; [exact Hset |]. rewrite <- (app_nil_r (der_tlv 0x30 _)). by apply reads_whole, reads_sequence. }
  intros seq Hseq. eapply reads_within; [exact Hseq |]. apply der_ok_app_l in Hs2 as Ho. apply der_ok_app_r in Hs2 as Hv. apply der_ok_tlv in Ho, Hv.
  eapply whole_bind; [by apply reads_oid |]. intros oid _. unfold dn_value.
  rewrite <- (app_nil_r (der_tlv 0x0C _)). eapply whole_bind; [by apply reads_attempt, reads_element |].
  intros ? (v & -> & Hw). by apply whole_ret.
Qed.

Lemma dn_join_length vs : forall buf, (length buf <= length (fold_left dn_join vs buf))%nat.
Proof.
  induction vs as [| v vs IH]; intros buf; [done |]. cbn [fold_left]. etransitivity; [| apply IH].
  unfold dn_join. destruct (decide (buf = [])) as [-> |]; rewrite ?length_app; cbn; lia.
Qed.

(** A name that fits is written as its text. *)
Lemma dn_loop_text attrs : forall fuel n buf,
  Forall (fun a => a.1 <> [] /\ der_ok (attribute_bytes a)) attrs -> (length attrs < fuel)%nat ->
  Z.of_nat (length (fold_left dn_join (map snd attrs) buf)) <= n - 2 ->
  whole (dn_loop fuel n buf) (name_bytes attrs) (fun r => r = fold_left dn_join (map snd attrs) buf).
Proof.
  induction attrs as [| a attrs IH]; intros fuel n buf Hok Hf Hn; (destruct fuel as [| fuel]; [cbn in Hf; lia |]).
  - apply (whole_nil _ buf); [| done]. intros s Hwf Hl. cbn [dn_loop]. rewrite (bind_some here _ s (in_cbs s) s) by done.
    unfold opssl_cbs_len. by rewrite Hl.
  - apply Forall_cons in Hok as [[Hne Hoka] Hok]. cbn [map fold_left] in *. cbn [dn_loop].
    pose proof (dn_join_length (map snd attrs) (dn_join buf a.2)) as Hj.
    assert (Z.of_nat (length buf) <= n - 2 /\ (buf <> [] -> Z.of_nat (length buf) + 2 + Z.of_nat (length a.2) <= n - 2) /\ Z.of_nat (length a.2) <= n - 2) as (H1 & H2 & H3).
    { unfold dn_join in Hj at 1. destruct (decide (buf = [])) as [-> |]; rewrite ?length_app in Hj; cbn [length] in *; repeat split; intros; done || lia. }
    apply whole_here. intros c Hc. rewrite (on_len _ _ Hc).
    replace (_ && _) with true by (cbn [name_bytes map concat]; rewrite length_app; cbn [length attribute_bytes der_tlv app]; by do 2 ltb_decide).
    cbn [name_bytes map concat]. eapply whole_bind; [by apply reads_attempt, reads_attribute |]. intros ? (v & -> & Hv). cbv beta iota.
    assert (length attrs < fuel)%nat by (cbn in Hf; lia).
    rewrite (on_len _ _ Hv). destruct buf as [| b buf].
    + cbn [length]. change (0 <? Z.of_nat 0) with false. cbn [andb length app]. rewrite Z.min_l by lia.
      rewrite (on_take _ _ _ Hv), Nat2Z.id, take_ge by lia. change (dn_join [] a.2) with (a.2) in *. by apply IH.
    + replace (_ && _) with true by (specialize (H2 ltac:(done)); symmetry; apply andb_true_iff; split; apply Z.ltb_lt; cbn [length] in *; lia).
      specialize (H2 ltac:(done)).
      rewrite Z.min_l by (rewrite length_app, Nat2Z.inj_add; cbn [length] in *; lia).
      rewrite (on_take _ _ _ Hv), Nat2Z.id, take_ge, <- app_assoc by lia.
      change ((b :: buf) ++ [44; 32] ++ a.2) with (dn_join (b :: buf) a.2). by apply IH.
Qed.

(** Whatever the bytes, the loop stays within the buffer. *)
Lemma dn_loop_bounded fuel n : forall buf s, Z.of_nat (length buf) <= n - 1 ->
  exists r s', dn_loop fuel n buf s = (Some r, s') /\ Z.of_nat (length r) <= n - 1.
Proof.
  induction fuel as [| fuel IH]; intros buf s Hb; cbn [dn_loop]; rewrite (bind_some here _ s (in_cbs s) s) by done.
  - case_if; by eexists _, _.
  - destruct (_ && _) eqn:Hg; [| by eexists _, _]. bool_to_prop.
    destruct (dn_attribute s) as [r s1] eqn:Ha.
    rewrite (bind_some _ _ s r s1) by (unfold attempt; by rewrite Ha). destruct r as [v |]; [| by eexists _, _].
    apply IH. rewrite length_app, length_take. case_if; rewrite ?length_app; cbn [length]; bool_to_prop; lia.
Qed.

(** Writing a name never leaves the buffer: for every subject, as well formed
    as it may be, and every buffer, the call writes a string with its NUL, no longer
    than the buffer; a name of UTF8String attributes that fits is its values joined
    by commas. *)
Theorem x509_subject_string cert n e : 1 <= n -> bytes (x_subject_raw cert) ->
  (exists text e', opssl_x509_get_subject cert n e = Some (Some (text ++ [0]), e') /\ Z.of_nat (length (text ++ [0])) <= n) /\
  (forall attrs, Forall (fun a => a.1 <> [] /\ der_ok (attribute_bytes a)) attrs -> x_subject_raw cert = name_bytes attrs ->
     Z.of_nat (length (dn_text attrs)) <= n - 2 -> opssl_x509_get_subject cert n e = Some (Some (dn_text attrs ++ [0]), e)).
Proof.
  intros Hn Hb. unfold opssl_x509_get_subject, parse_dn_component. rewrite (proj2 (Z.eqb_neq n 0)) by lia.
  set (c := cbs_of (x_subject_raw cert)). split.
  - destruct (dn_loop_bounded (turns c) n [] {| in_cbs := c; err := e |}) as (r & s' & Hr & Hl); [cbn; lia |].
    exists r, (err s'). rewrite (let_some_some _ _ e r (err s')) by (unfold parse_cbs; by rewrite Hr).
    split; [done |]. rewrite length_app. cbn [length]. lia.
  - intros attrs Hok Hraw Hfit.
    destruct (whole_parse (dn_loop (turns c) n []) (name_bytes attrs) c (fun r => r = dn_text attrs) e) as (r & Hr & ->).
    + apply dn_loop_text; [done | | done]. apply (turns_enough attribute_bytes); [done |]. unfold c. rewrite Hraw in *. by apply on_cbs_of.
    + unfold c. rewrite Hraw in *. by apply on_cbs_of.
    + by rewrite (let_some_some _ _ _ _ _ Hr).
Qed.

Lemma x509_subject_string_witness :
  let cert := {| x_der := []; x_tbs := []; x_issuer_raw := []; x_subject_raw := name_bytes [([85; 4; 6], chars "NL"); ([85; 4; 3], chars "ab")];
                 x_spki := []; x_spki_der := []; x_sig_algo_raw := []; x_signature := []; x_serial := []; x_not_before := 0; x_not_after := 0; x_sans := [] |} in
  (exists text e', opssl_x509_get_subject cert 4 err_tls_init = Some (Some (text ++ [0]), e') /\ Z.of_nat (length (text ++ [0])) <= 4) /\
  opssl_x509_get_subject cert 8 err_tls_init = Some (Some (chars "NL, ab" ++ [0]), err_tls_init).
Proof.
  intros cert. assert (bytes (x_subject_raw cert)) as Hb by solve_bytes. split.
  - exact (proj1 (x509_subject_string cert 4 err_tls_init ltac:(lia) Hb)).
  - refine (proj2 (x509_subject_string cert 8 err_tls_init ltac:(lia) Hb) [([85; 4; 6], chars "NL"); ([85; 4; 3], chars "ab")] _ eq_refl _).
    + repeat constructor; done.
    + vm_compute. done.
Defined.

(** The second attempt at a value starts after its tag and length, so a name of
    PrintableString attributes is the empty string. *)
Lemma printable_subject_empty :
  let name := der_tlv 0x31 (der_tlv 0x30 (der_tlv 0x06 [85; 4; 3] ++ der_tlv 0x13 (chars "ab"))) in
  result (parse_dn_component (cbs_of name) 100) = Some (Some [0]).
Proof. reflexivity. Qed.

(* ------------------------------------------------------------------ *)
(** * The error stack *)

#[export] Instance astable_dn_value : AStable dn_value.
Proof. unfold dn_value. apply _. Qed.

#[export] Instance astable_dn_attribute : AStable dn_attribute.
Proof. unfold dn_attribute. apply _. Qed.

#[export] Instance astable_dn_loop fuel n buf : AStable (dn_loop fuel n buf).
Proof. revert buf. induction fuel as [| fuel IH]; intros buf; cbn [dn_loop]; apply _. Qed.

#[export] Instance stable_get_subject cert n : Stable (opssl_x509_get_subject cert n).
Proof. unfold opssl_x509_get_subject, parse_dn_component. apply _. Qed.

#[export] Instance stable_get_issuer cert n : Stable (opssl_x509_get_issuer cert n).
Proof. unfold opssl_x509_get_issuer, parse_dn_component. apply _. Qed.

#[export] Instance stable_get_san cert i n : Stable (opssl_x509_get_san cert i n).
Proof. unfold opssl_x509_get_san. apply _. Qed.

#[export] Instance astable_extension_item : AStable extension_item.
Proof.
  unfold extension_item. apply astable_bind; [apply _ |]. intros c. apply astable_within. apply astable_bind; [apply _ |]. intros oid.
  apply astable_bind; [apply _ |]. intros [tag |]; [| apply _]. apply astable_bind; [| apply _]. repeat (case_match; try apply _).
Qed.
