(* ===== verification/Cbb.v ===== *)
(** The byte builder of src/crypto/cbs.c (CBB): a growable buffer shared by a
    chain of nested, length-prefixed builders that point to one another.

    The model keeps the C program's store: the builder structures by address,
    and the memory blocks they point into.  An operation returns [None] when the
    C code would access a freed or foreign block or write outside a block, or
    reallocate a block that is not on the heap, so that memory safety is part of
    every theorem that says [Some]. *)
From S2P Require Import Prelude Platform.
From stdpp Require Import gmap.
#[local] Open Scope Z_scope.

(** Addresses of builder structures and of memory blocks. *)
Abbreviation addr := nat (only parsing).

Record opssl_cbb := mk_cbb {
  cbuf : option addr; clen : Z; cap : Z; offset : Z;
  parent : option addr; child : option addr;
  prefix_len : Z; error : bool; is_child : bool }.

Definition cbb_zero : opssl_cbb := mk_cbb None 0 0 0 None None 0 false false.

(** A block: its bytes, and whether [free] and [realloc] may be called on it. *)
Record block := mk_block { bdata : list Z; on_heap : bool }.

Record store := mk_store { cbbs : gmap addr opssl_cbb; blocks : gmap addr block; fresh : addr }.

Definition op (A : Type) : Type := store -> option (A * store).

#[export] Instance op_ret : MRet op := fun A a s => Some (a, s).
#[export] Instance op_bind : MBind op := fun A B f m s =>
  match m s with Some (a, s') => f a s' | None => None end.

(* ------------------------------------------------------------------ *)
(** * Memory *)

Definition load (p : addr) : op opssl_cbb := fun s =>
  match cbbs s !! p with Some c => Some (c, s) | None => None end.

Definition set (p : addr) (c : opssl_cbb) : op unit := fun s =>
  Some (tt, {| cbbs := <[p := c]> (cbbs s); blocks := blocks s; fresh := fresh s |}).

Definition modify (p : addr) (f : opssl_cbb -> opssl_cbb) : op unit :=
  c ← load p; set p (f c).

(** Write bytes at an offset of the block a builder points to. *)
Definition write (b : option addr) (off : Z) (data : list Z) : op unit := fun s =>
  match b with
  | None => None
  | Some a =>
    match blocks s !! a with
    | None => None
    | Some bl =>
      if (0 <=? off) && (off + Z.of_nat (length data) <=? Z.of_nat (length (bdata bl))) then
        Some (tt, {| cbbs := cbbs s;
                     blocks := <[a := {| bdata := splice (bdata bl) (Z.to_nat off) data;
                                         on_heap := on_heap bl |}]> (blocks s);
                     fresh := fresh s |})
      else None
    end
  end.

(** [op_malloc] (calloc: zeroed, does not return on failure). *)
Definition op_malloc (n : Z) : op addr := fun s =>
  Some (fresh s, {| cbbs := cbbs s;
                    blocks := <[fresh s := {| bdata := replicate (Z.to_nat n) 0; on_heap := true |}]> (blocks s);
                    fresh := S (fresh s) |}).

(** [op_realloc]: a new block with the old contents; the old one is freed.
    Bytes past the old contents are indeterminate in C: here [junk]. *)
Definition op_realloc (junk : Z) (b : option addr) (n : Z) : op addr := fun s =>
  match b with
  | None => op_malloc n s
  | Some a =>
    match blocks s !! a with
    | Some {| bdata := d; on_heap := true |} =>
      let d' := take (Z.to_nat n) d ++ replicate (Z.to_nat n - length d) junk in
      Some (fresh s, {| cbbs := cbbs s;
                        blocks := <[fresh s := {| bdata := d'; on_heap := true |}]> (delete a (blocks s));
                        fresh := S (fresh s) |})
    | _ => None
    end
  end.

Definition free (b : option addr) : op unit := fun s =>
  match b with
  | None => Some (tt, s)
  | Some a =>
    match blocks s !! a with
    | Some {| on_heap := true |} =>
      Some (tt, {| cbbs := cbbs s; blocks := delete a (blocks s); fresh := fresh s |})
    | _ => None
    end
  end.

(* ------------------------------------------------------------------ *)
(** * Field updates *)

Definition set_error (c : opssl_cbb) : opssl_cbb :=
  mk_cbb (cbuf c) (clen c) (cap c) (offset c) (parent c) (child c) (prefix_len c) true (is_child c).
Definition set_child (q : option addr) (c : opssl_cbb) : opssl_cbb :=
  mk_cbb (cbuf c) (clen c) (cap c) (offset c) (parent c) q (prefix_len c) (error c) (is_child c).
Definition set_len (n : Z) (c : opssl_cbb) : opssl_cbb :=
  mk_cbb (cbuf c) n (cap c) (offset c) (parent c) (child c) (prefix_len c) (error c) (is_child c).
Definition set_buf (b : option addr) (n : Z) (c : opssl_cbb) : opssl_cbb :=
  mk_cbb b (clen c) n (offset c) (parent c) (child c) (prefix_len c) (error c) (is_child c).

Section Cbb.
(** The value of indeterminate bytes. *)
Variable junk : Z.

(** [cbb->error = 1; return 0] *)
Definition fail_error (p : addr) : op bool := _ ← modify p set_error; mret false.

Definition opssl_cbb_init (p : addr) (initial_cap : Z) : op bool :=
  let initial_cap := if initial_cap =? 0 then 256 else initial_cap in
  b ← op_malloc initial_cap;
  _ ← set p (set_buf (Some b) initial_cap cbb_zero);
  mret true.

Definition opssl_cbb_init_fixed (p : addr) (buf : addr) (l : Z) : op bool :=
  _ ← set p (set_buf (Some buf) l cbb_zero); mret true.

Definition opssl_cbb_cleanup (p : addr) : op unit :=
  c ← load p;
  _ ← (if negb (is_child c) then free (cbuf c) else mret tt);
  set p cbb_zero.

(** The length prefix of a closed child. *)
Definition write_prefix (c : opssl_cbb) (child_len : Z) : op unit :=
  if prefix_len c =? 1 then write (cbuf c) (offset c) [u8 child_len]
  else if prefix_len c =? 2 then write (cbuf c) (offset c) (opssl_put_be16 (u16 child_len))
  else if prefix_len c =? 3 then
    write (cbuf c) (offset c) [u8 (Z.shiftr child_len 16); u8 (Z.shiftr child_len 8); u8 child_len]
  else mret tt.

Definition prefix_max (n : Z) : Z :=
  if n =? 1 then 0xFF else if n =? 2 then 0xFFFF else if n =? 3 then 0xFFFFFF else SIZE_MAX.

(** [fuel] bounds the depth of the chain of children. *)
Fixpoint opssl_cbb_flush (fuel : nat) (p : addr) : op bool :=
  match fuel with
  | O => fun _ => None
  | S fuel =>
    c ← load p;
    ok ← match child c with
         | Some q =>
           r ← opssl_cbb_flush fuel q;
           if (r : bool) then _ ← modify p (set_child None); mret true else mret false
         | None => mret true
         end;
    if negb ok then mret false else
    c ← load p;
    match is_child c, parent c with
    | true, Some pp =>
      let base := u64 (offset c + prefix_len c) in
      if clen c <? base then fail_error p else
      let child_len := clen c - base in
      if prefix_max (prefix_len c) <? child_len then fail_error p else
      _ ← write_prefix c child_len;
      _ ← modify pp (fun d => set_child None (set_len (clen c) d));
      _ ← modify p (fun d => mk_cbb (cbuf d) (clen d) (cap d) (offset d) None (child d) (prefix_len d)
                               (error d) false);
      mret true
    | _, _ => mret true
    end
  end.

(** [if (cbb->child) { if (!opssl_cbb_flush(cbb->child)) return 0; cbb->child = NULL; }] *)
Definition flush_child (fuel : nat) (p : addr) (c : opssl_cbb) : op bool :=
  match child c with
  | Some q =>
    r ← opssl_cbb_flush fuel q;
    if (r : bool) then _ ← modify p (set_child None); mret true else mret false
  | None => mret true
  end.

(** [while (new_cap < required)]: [None] is the overflow exit.  64 doublings
    of a nonzero size_t overflow, so the fuel is never the reason. *)
Fixpoint double_cap (fuel : nat) (new_cap required : Z) : option Z :=
  match fuel with
  | O => None
  | S fuel =>
    if new_cap <? required then
      let doubled := u64 (new_cap * 2) in
      if doubled <=? new_cap then None else double_cap fuel doubled required
    else Some new_cap
  end.

(** [root = cbb->parent; while (root && root->is_child) root = root->parent;] *)
Fixpoint find_root (fuel : nat) (p : option addr) : op (option addr) :=
  match fuel with
  | O => fun _ => None
  | S fuel =>
    match p with
    | None => mret None
    | Some a => c ← load a; if is_child c then find_root fuel (parent c) else mret (Some a)
    end
  end.

(** [while (p && p->is_child) { p->buf = ..; p->cap = ..; p = p->parent; }] *)
Fixpoint update_chain (fuel : nat) (p : option addr) (b : addr) (n : Z) : op unit :=
  match fuel with
  | O => fun _ => None
  | S fuel =>
    match p with
    | None => mret tt
    | Some a =>
      c ← load a;
      if is_child c then _ ← set a (set_buf (Some b) n c); update_chain fuel (parent c) b n else mret tt
    end
  end.

(** [cbb_grow] after the flush of the child: make room for [need] bytes. *)
Definition cbb_enlarge (fuel : nat) (p : addr) (need : Z) : op bool :=
  c ← load p;
  let required := u64 (clen c + need) in
  if required <? clen c then fail_error p else
  if required <=? cap c then mret true else
  if is_child c then
    root ← find_root fuel (parent c);
    match root with
    | None => fail_error p
    | Some r =>
      rc ← load r;
      match double_cap 65 (if cap rc =? 0 then 64 else cap rc) required with
      | None => fail_error p
      | Some new_cap =>
        nb ← op_realloc junk (cbuf rc) new_cap;
        _ ← modify r (set_buf (Some nb) new_cap);
        _ ← update_chain fuel (Some p) nb new_cap;
        mret true
      end
    end
  else
    match double_cap 65 (if cap c =? 0 then 64 else cap c) required with
    | None => fail_error p
    | Some new_cap =>
      nb ← op_realloc junk (cbuf c) new_cap;
      _ ← modify p (set_buf (Some nb) new_cap);
      mret true
    end.

Definition cbb_grow (fuel : nat) (p : addr) (need : Z) : op bool :=
  c ← load p;
  if error c then mret false else
  ok ← flush_child fuel p c;
  if negb ok then mret false else
  cbb_enlarge fuel p need.

(** Write at the end: grow, copy, advance. *)
Definition append (fuel : nat) (p : addr) (data : list Z) : op bool :=
  ok ← cbb_grow fuel p (Z.of_nat (length data));
  if negb ok then mret false else
  c ← load p;
  _ ← write (cbuf c) (clen c) data;
  _ ← modify p (set_len (clen c + Z.of_nat (length data)));
  mret true.

Definition opssl_cbb_add_u8 (fuel : nat) (p : addr) (v : Z) : op bool := append fuel p [v].
Definition opssl_cbb_add_u16 (fuel : nat) (p : addr) (v : Z) : op bool := append fuel p (opssl_put_be16 v).
Definition opssl_cbb_add_u24 (fuel : nat) (p : addr) (v : Z) : op bool :=
  append fuel p [u8 (Z.shiftr v 16); u8 (Z.shiftr v 8); u8 v].
Definition opssl_cbb_add_u32 (fuel : nat) (p : addr) (v : Z) : op bool := append fuel p (opssl_put_be32 v).
Definition opssl_cbb_add_bytes (fuel : nat) (p : addr) (data : list Z) : op bool := append fuel p data.

(** The three functions differ in the width [n] of the prefix only. *)
Definition add_length_prefixed (n : Z) (fuel : nat) (p ch : addr) : op bool :=
  ok ← cbb_grow fuel p n;
  if negb ok then mret false else
  c ← load p;
  _ ← write (cbuf c) (clen c) (replicate (Z.to_nat n) 0);
  _ ← set ch (mk_cbb (cbuf c) (clen c + n) (cap c) (clen c) (Some p) None n false true);
  _ ← modify p (fun d => set_child (Some ch) (set_len (clen c + n) d));
  mret true.

Definition opssl_cbb_add_u8_length_prefixed := add_length_prefixed 1.
Definition opssl_cbb_add_u16_length_prefixed := add_length_prefixed 2.
Definition opssl_cbb_add_u24_length_prefixed := add_length_prefixed 3.

(** The buffer pointer and length handed to the caller. *)
Definition opssl_cbb_finish (fuel : nat) (p : addr) : op (option (option addr * Z)) :=
  c ← load p;
  if error c || is_child c then mret None else
  ok ← flush_child fuel p c;
  if negb ok then mret None else
  c ← load p;
  _ ← modify p (fun d => set_len 0 (set_buf None 0 d));
  mret (Some (cbuf c, clen c)).

(** The offset in the block where the caller may write. *)
Definition opssl_cbb_reserve (fuel : nat) (p : addr) (l : Z) : op (option (option addr * Z)) :=
  ok ← cbb_grow fuel p l;
  if negb ok then mret None else
  c ← load p; mret (Some (cbuf c, clen c)).

Definition opssl_cbb_did_write (p : addr) (l : Z) : op bool :=
  c ← load p;
  if cap c <? u64 (clen c + l) then fail_error p
  else _ ← modify p (set_len (clen c + l)); mret true.

Definition opssl_cbb_len (p : addr) : op Z := c ← load p; mret (clen c).
End Cbb.

(* ------------------------------------------------------------------ *)
(** * Specification: a stack of open length-prefixed strings *)

(** An open builder: its address, the width of its prefix (0 for the root) and
    the bytes written to it so far.  A stack lists them from the root. *)
Abbreviation frame := (nat * nat * list Z)%type (only parsing).

(** The bytes of the block under a stack: prefixes are zero until closed. *)
Fixpoint flat (fs : list frame) : list Z :=
  match fs with
  | [] => []
  | (_, n, c) :: fs => replicate n 0 ++ c ++ flat fs
  end.

(** The encoding of the open strings of a stack once closed: [None] when one is
    too long for its prefix. *)
Fixpoint closed (fs : list frame) : option (list Z) :=
  match fs with
  | [] => Some []
  | (_, n, c) :: fs =>
    match closed fs with
    | Some t =>
      if Z.of_nat (length (c ++ t)) <=? prefix_max (Z.of_nat n)
      then Some (be_bytes n (Z.of_nat (length (c ++ t))) ++ c ++ t)
      else None
    | None => None
    end
  end.

Lemma closed_cons p n c fs : closed ((p, n, c) :: fs) =
  match closed fs with
  | Some t =>
    if Z.of_nat (length (c ++ t)) <=? prefix_max (Z.of_nat n)
    then Some (be_bytes n (Z.of_nat (length (c ++ t))) ++ c ++ t)
    else None
  | None => None
  end.
Proof. done. Qed.

Lemma closed_length fs t : closed fs = Some t -> length t = length (flat fs).
Proof.
  revert t. induction fs as [| [[p n] c] fs IH]; intros t H; cbn [closed flat] in *; [by injection H as <- |].
  destruct (closed fs) as [u |]; [| done]. destruct (_ <=? _); [| done]. injection H as <-.
  rewrite !length_app, be_bytes_length, length_replicate, (IH u); done.
Qed.

(** The structures of a stack: [base] is the offset of the first prefix, [par]
    the address of the parent of the first frame. *)
Fixpoint nodes (s : store) (b : addr) (cp : Z) (par : option addr) (base : nat) (fs : list frame) : Prop :=
  match fs with
  | [] => True
  | (p, n, c) :: rest =>
    cbbs s !! p =
      Some (mk_cbb (Some b)
              (Z.of_nat (base + n + length c + match rest with (_, n', _) :: _ => n' | [] => 0 end))
              cp (Z.of_nat base) par
              (match rest with (q, _, _) :: _ => Some q | [] => None end)
              (Z.of_nat n) false (match par with Some _ => true | None => false end)) /\
    nodes s b cp (Some p) (base + n + length c) rest
  end.

Definition ptrs (fs : list frame) : list addr := map (fun f => f.1.1) fs.

(** The store implements the stack in block [b] of [cp] bytes. *)
Record implements (s : store) (b : addr) (heap : bool) (cp : Z) (fs : list frame) : Prop := {
  im_nodes : nodes s b cp None 0 fs;
  im_block : exists bd, blocks s !! b = Some {| bdata := bd; on_heap := heap |} /\
               Z.of_nat (length bd) = cp /\ take (length (flat fs)) bd = flat fs;
  im_fits : Z.of_nat (length (flat fs)) <= cp < 2 ^ 63;
  im_nodup : NoDup (ptrs fs);
  im_width : Forall (fun f => 1 <= f.1.2 <= 3)%nat (tail fs);
  im_root : exists p c, head fs = Some (p, 0%nat, c);
  im_fresh : forall a, (fresh s <= a)%nat -> blocks s !! a = None }.

(** [nodes] depends on the structures of the frames only. *)
Lemma nodes_ext s s' b cp par base fs :
  (forall p, p ∈ ptrs fs -> cbbs s' !! p = cbbs s !! p) -> nodes s b cp par base fs -> nodes s' b cp par base fs.
Proof.
  revert par base. induction fs as [| [[p n] c] fs IH]; intros par base H; cbn [nodes]; [done |].
  intros [H1 H2]. split.
  - rewrite H; [done |]. cbn. left.
  - apply IH; [| done]. intros q Hq. apply H. cbn. by right.
Qed.

(** Focus on a frame: the frames before it only know its address and width. *)
Lemma nodes_focus s b cp fs1 p n c fs2 : forall par base,
  nodes s b cp par base (fs1 ++ (p, n, c) :: fs2) ->
  exists par', (fs1 = [] -> par' = par) /\ (forall fs0 f, fs1 = fs0 ++ [f] -> par' = Some f.1.1) /\
    nodes s b cp par' (base + length (flat fs1)) ((p, n, c) :: fs2) /\
    forall s' c' fs2', (forall a, a ∈ ptrs fs1 -> cbbs s' !! a = cbbs s !! a) ->
      nodes s' b cp par' (base + length (flat fs1)) ((p, n, c') :: fs2') ->
      nodes s' b cp par base (fs1 ++ (p, n, c') :: fs2').
Proof.
  induction fs1 as [| [[q m] e] fs1 IH]; intros par base H.
  - exists par. cbn [flat length app] in *. rewrite Nat.add_0_r.
    split; [done | split; [| split; [done |]]]; [by intros [] ? ? | by intros].
  - cbn [app nodes] in H. destruct H as [Hq H]. destruct (IH _ _ H) as (par' & H0 & H1 & H2 & H3). clear IH.
    exists par'. split; [done |]. split.
    { intros [| f0 fs0] f Hf; injection Hf as <- Hf; [by apply H0 | by apply (H1 fs0)]. }
    cbn [flat]. rewrite !length_app, length_replicate, !Nat.add_assoc. split; [done |].
    intros s' c' fs2' Hs Hn. cbn [app nodes]. split.
    + rewrite Hs by (cbn; left). rewrite Hq. by destruct fs1.
    + apply H3; [| done]. intros a Ha. apply Hs. cbn. by right.
Qed.

(* ------------------------------------------------------------------ *)
(** * Symbolic execution *)

Lemma op_bind_some {A B} (m : op A) (f : A -> op B) s a s' :
  m s = Some (a, s') -> (m ≫= f) s = f a s'.
Proof. unfold mbind, op_bind. by intros ->. Qed.

Lemma load_some p s c : cbbs s !! p = Some c -> load p s = Some (c, s).
Proof. unfold load. by intros ->. Qed.

(** The store with one structure replaced, or one block's bytes. *)
Definition with_cbb (p : addr) (c : opssl_cbb) (s : store) : store :=
  {| cbbs := <[p := c]> (cbbs s); blocks := blocks s; fresh := fresh s |}.
Definition with_block (b : addr) (bl : block) (s : store) : store :=
  {| cbbs := cbbs s; blocks := <[b := bl]> (blocks s); fresh := fresh s |}.

Lemma modify_some p f s c : cbbs s !! p = Some c -> modify p f s = Some (tt, with_cbb p (f c) s).
Proof. intros H. unfold modify. by rewrite (op_bind_some _ _ _ _ _ (load_some _ _ _ H)). Qed.

Lemma fail_error_some p s c : cbbs s !! p = Some c -> exists s', fail_error p s = Some (false, s').
Proof.
  intros H. unfold fail_error. rewrite (op_bind_some _ _ _ _ _ (modify_some _ _ _ _ H)). by eexists.
Qed.

Lemma write_some b off data s bd h :
  blocks s !! b = Some {| bdata := bd; on_heap := h |} -> (off + length data <= length bd)%nat ->
  write (Some b) (Z.of_nat off) data s =
    Some (tt, with_block b {| bdata := splice bd off data; on_heap := h |} s).
Proof.
  intros H Hle. unfold write. rewrite H. cbn [bdata on_heap].
  rewrite (proj2 (Z.leb_le 0 _)), (proj2 (Z.leb_le _ _)) by lia. cbn [andb]. by rewrite Nat2Z.id.
Qed.

Lemma write_prefix_some c b n k s :
  cbuf c = Some b -> prefix_len c = Z.of_nat n -> (1 <= n <= 3)%nat ->
  0 <= k <= prefix_max (Z.of_nat n) ->
  write_prefix c k s = write (Some b) (offset c) (be_bytes n k) s.
Proof.
  intros Hb Hn Hr Hk. unfold write_prefix. rewrite Hb, Hn.
  assert (n = 1 \/ n = 2 \/ n = 3)%nat as [-> | [-> | ->]] by lia; cbn -[prefix_max]; rewrite ?Z.shiftr_0_r; [done | | done].
  change (prefix_max (Z.of_nat 2)) with 65535 in Hk. unfold u16. by rewrite Z.mod_small by lia.
Qed.

(** A prefix written in front of a rewritten tail. *)
Lemma splice_prefix bd base c u x :
  take (length c) (drop (base + length x) bd) = c ->
  (base + length x + length c + length u <= length bd)%nat ->
  splice (splice bd (base + length x + length c) u) base x = splice bd base (x ++ c ++ u).
Proof.
  intros Hc Hl. set (o := (base + length x + length c)%nat).
  assert (take base (splice bd o u) = take base bd) as H1.
  { unfold splice. rewrite take_app_le by (rewrite length_take; unfold o; lia).
    rewrite take_take. f_equal. unfold o. lia. }
  assert (drop (base + length x) (splice bd o u) = c ++ u ++ drop (o + length u) bd) as H2.
  { unfold splice. rewrite drop_app_le by (rewrite length_take; unfold o; lia). f_equal.
    unfold o. by rewrite <- take_drop_commute. }
  set (w := splice bd o u) in *. unfold splice. rewrite H1, H2, <- !app_assoc, !length_app.
  by replace (base + (length x + (length c + length u)))%nat with (o + length u)%nat by (unfold o; lia).
Qed.

(** ** Flushing a chain of children closes it *)

(** What flushing the frames [fs] at offset [base], children of [pp], leaves. *)
Definition flushed (s s' : store) (b : addr) (bd : list Z) (h : bool) (pp : addr) (d : opssl_cbb)
    (base : nat) (fs : list frame) (t : list Z) : Prop :=
  cbbs s' !! pp = Some (set_child None (set_len (Z.of_nat (base + length t)) d)) /\
  (forall a, a <> pp -> a ∉ ptrs fs -> cbbs s' !! a = cbbs s !! a) /\
  blocks s' = <[b := {| bdata := splice bd base t; on_heap := h |}]> (blocks s) /\
  fresh s' = fresh s.

(** Closing one frame whose children are closed: [t] is its content. *)
Lemma flush_last fuel s b bd h pp d p n base (t : list Z) :
  cbbs s !! p = Some (mk_cbb (Some b) (Z.of_nat (base + n + length t)) (Z.of_nat (length bd)) (Z.of_nat base) (Some pp)
                        None (Z.of_nat n) false true) ->
  cbbs s !! pp = Some d -> p <> pp -> (1 <= n <= 3)%nat ->
  blocks s !! b = Some {| bdata := bd; on_heap := h |} -> (base + n + length t <= length bd)%nat ->
  Z.of_nat (length bd) < 2 ^ 63 ->
  if Z.of_nat (length t) <=? prefix_max (Z.of_nat n) then
    exists s', opssl_cbb_flush (S fuel) p s = Some (true, s') /\
      cbbs s' !! pp = Some (set_child None (set_len (Z.of_nat (base + n + length t)) d)) /\
      (forall a, a <> pp -> a <> p -> cbbs s' !! a = cbbs s !! a) /\
      blocks s' = <[b := {| bdata := splice bd base (be_bytes n (Z.of_nat (length t))); on_heap := h |}]> (blocks s) /\
      fresh s' = fresh s
  else exists s', opssl_cbb_flush (S fuel) p s = Some (false, s').
Proof.
  intros Hp Hpp Hne Hn Hb Hfit Hcap. cbn [opssl_cbb_flush].
  rewrite (op_bind_some _ _ _ _ _ (load_some _ _ _ Hp)). cbn [child].
  rewrite (op_bind_some _ _ s true s) by done. cbn [negb].
  rewrite (op_bind_some _ _ _ _ _ (load_some _ _ _ Hp)). cbn [is_child parent offset prefix_len clen].
  assert (u64 (Z.of_nat base + Z.of_nat n) = Z.of_nat (base + n)) as ->
    by (unfold u64; rewrite Z.mod_small by lia; lia).
  cbv zeta. rewrite (proj2 (Z.ltb_ge (Z.of_nat (base + n + length t)) _)) by lia.
  replace (Z.of_nat (base + n + length t) - Z.of_nat (base + n)) with (Z.of_nat (length t)) by lia.
  rewrite Z.ltb_antisym. destruct (Z.leb_spec (Z.of_nat (length t)) (prefix_max (Z.of_nat n))) as [Hle | Hgt]; cbn [negb].
  2: { by apply (fail_error_some p s _ Hp). }
  set (c := mk_cbb _ _ _ _ _ _ _ _ _) in *.
  erewrite op_bind_some.
  2: { rewrite (write_prefix_some c b n) by (done || lia). cbn [offset c].
       apply write_some; [exact Hb | rewrite be_bytes_length; lia]. }
  erewrite op_bind_some by (apply modify_some; exact Hpp).
  erewrite op_bind_some by (apply modify_some; unfold with_cbb; cbn [cbbs]; rewrite lookup_insert_ne by done; exact Hp).
  eexists. split; [reflexivity |]. unfold with_cbb, with_block; cbn [cbbs blocks fresh].
  split; [by rewrite lookup_insert_ne, lookup_insert_eq by done |]. split; [| done].
  intros a Ha1 Ha2. by rewrite !lookup_insert_ne by done.
Qed.

(** The block's bytes from [base] are those of the frames. *)
Definition holds_at (bd : list Z) (base : nat) (l : list Z) : Prop :=
  take (length l) (drop base bd) = l /\ (base + length l <= length bd)%nat.

Lemma holds_at_app bd base l1 l2 : holds_at bd base (l1 ++ l2) ->
  holds_at bd base l1 /\ holds_at bd (base + length l1) l2.
Proof.
  unfold holds_at. rewrite length_app. intros [H Hl].
  assert (take (length l1) (drop base bd) = l1) as H1.
  { rewrite <- (take_app_length l1 l2) at 2. rewrite <- H, take_take. f_equal. lia. }
  split; [split; [done | lia] |]. split; [| lia].
  rewrite <- (drop_app_length l1 l2) at 2. rewrite <- H, <- drop_drop, take_drop_commute. done.
Qed.

(** Flushing the child first leaves a builder without children. *)
Lemma flush_step fuel p q s c s1 c1 :
  cbbs s !! p = Some c -> child c = Some q -> opssl_cbb_flush fuel q s = Some (true, s1) ->
  cbbs s1 !! p = Some c1 ->
  opssl_cbb_flush (S fuel) p s = opssl_cbb_flush (S fuel) p (with_cbb p (set_child None c1) s1).
Proof.
  intros Hp Hc Hq Hp1. cbn [opssl_cbb_flush].
  assert (cbbs (with_cbb p (set_child None c1) s1) !! p = Some (set_child None c1)) as Hp2
    by (unfold with_cbb; cbn [cbbs]; apply lookup_insert_eq).
  rewrite (op_bind_some _ _ _ _ _ (load_some _ _ _ Hp)), (op_bind_some _ _ _ _ _ (load_some _ _ _ Hp2)).
  rewrite Hc. cbn [child set_child].
  rewrite (op_bind_some _ _ s true (with_cbb p (set_child None c1) s1)).
  2: { rewrite (op_bind_some _ _ _ _ _ Hq). by rewrite (op_bind_some _ _ _ _ _ (modify_some _ _ _ _ Hp1)). }
  by rewrite (op_bind_some _ _ (with_cbb p (set_child None c1) s1) true (with_cbb p (set_child None c1) s1)) by done.
Qed.

Lemma flush_step_fail fuel p q s c s1 :
  cbbs s !! p = Some c -> child c = Some q -> opssl_cbb_flush fuel q s = Some (false, s1) ->
  opssl_cbb_flush (S fuel) p s = Some (false, s1).
Proof.
  intros Hp Hc Hq. cbn [opssl_cbb_flush]. rewrite (op_bind_some _ _ _ _ _ (load_some _ _ _ Hp)), Hc.
  by rewrite (op_bind_some _ _ s false s1) by (by rewrite (op_bind_some _ _ _ _ _ Hq)).
Qed.

Lemma flush_spec fs : forall fuel s b bd h pp d p n c base,
  nodes s b (Z.of_nat (length bd)) (Some pp) base ((p, n, c) :: fs) ->
  cbbs s !! pp = Some d -> NoDup (pp :: ptrs ((p, n, c) :: fs)) ->
  Forall (fun f => 1 <= f.1.2 <= 3)%nat ((p, n, c) :: fs) ->
  blocks s !! b = Some {| bdata := bd; on_heap := h |} ->
  holds_at bd base (flat ((p, n, c) :: fs)) -> Z.of_nat (length bd) < 2 ^ 63 -> (length fs < fuel)%nat ->
  match closed ((p, n, c) :: fs) with
  | Some t => exists s', opssl_cbb_flush fuel p s = Some (true, s') /\
                flushed s s' b bd h pp d base ((p, n, c) :: fs) t
  | None => exists s', opssl_cbb_flush fuel p s = Some (false, s')
  end.
Proof.
  induction fs as [| [[q m] e] fs IH]; intros [| fuel] s b bd h pp d p n c base Hn Hpp Hnd Hw Hb Hat Hcap Hf;
    try (cbn in Hf; lia); apply NoDup_cons in Hnd as [Hpp' Hnd]; cbn [ptrs map fst] in Hpp'; rewrite not_elem_of_cons in Hpp';
    destruct Hpp' as [Hne Hpp']; apply Forall_cons in Hw as [Hw0 Hw]; cbn [fst snd] in Hw0.
  - cbn [nodes] in Hn. destruct Hn as [Hp _]. cbn [closed].
    destruct Hat as [Hat Hfit]. cbn [flat] in Hfit. rewrite app_nil_r, length_app, length_replicate in Hfit.
    rewrite Nat.add_0_r in Hp.
    pose proof (flush_last fuel s b bd h pp d p n base c Hp Hpp ltac:(done) Hw0 Hb ltac:(lia) Hcap) as H.
    rewrite app_nil_r. destruct (_ <=? _); [| done]. destruct H as (s' & Hs & H1 & H2 & H3 & H4).
    exists s'. split; [done |]. unfold flushed. rewrite length_app, be_bytes_length, Nat.add_assoc.
    split; [done | split; [| split; [| done]]].
    + intros a Ha1 Ha2. apply H2; [done |]. intros ->. apply Ha2. cbn. left.
    + rewrite H3. do 2 f_equal. transitivity (splice bd base (be_bytes n (Z.of_nat (length c)) ++ c ++ []));
        [| by rewrite app_nil_r].
      rewrite <- splice_prefix, splice_nil; [done | | rewrite be_bytes_length; cbn [length]; lia].
      cbn [flat] in Hat. rewrite app_nil_r in Hat. rewrite be_bytes_length.
      destruct (holds_at_app bd base (replicate n 0) c) as [_ [H5 _]].
      { split; [done | rewrite length_app, length_replicate; lia]. }
      by rewrite length_replicate in H5.
  - cbn [nodes] in Hn. destruct Hn as [Hp Hn].
    assert (NoDup (p :: ptrs ((q, m, e) :: fs))) as Hnd' by exact Hnd.
    set (cp := mk_cbb _ _ _ _ _ _ _ _ _) in Hp.
    assert (holds_at bd base (replicate n 0 ++ c) /\ holds_at bd (base + n + length c) (flat ((q, m, e) :: fs)))
      as [Hat1 Hat2].
    { cbn [flat] in Hat |- *. rewrite app_assoc in Hat. apply holds_at_app in Hat.
      by rewrite length_app, length_replicate, Nat.add_assoc in Hat. }
    specialize (IH fuel s b bd h p cp q m e (base + n + length c)%nat Hn Hp Hnd' Hw Hb Hat2 Hcap ltac:(cbn in Hf; lia)).
    rewrite closed_cons. destruct (closed ((q, m, e) :: fs)) as [t |] eqn:Ht.
    2: { destruct IH as (s' & Hs'). exists s'. by apply (flush_step_fail fuel p q s cp). }
    destruct IH as (s1 & Hs1 & Hp1 & Hother & Hblk & Hfresh).
    rewrite (flush_step fuel p q s cp s1 _ Hp eq_refl Hs1 Hp1).
    set (cp2 := set_child None _). set (s2 := with_cbb p cp2 s1).
    set (bd2 := splice bd (base + n + length c) t).
    pose proof (closed_length _ _ Ht) as Htl. destruct Hat2 as [_ Hfit].
    assert (length bd2 = length bd) as Hbd2 by (apply splice_length; lia).
    pose proof (flush_last fuel s2 b bd2 h pp d p n base (c ++ t)) as H.
    rewrite length_app in H |- *. rewrite Hbd2 in H.
    assert (Z.of_nat (base + n + length c + length t) = Z.of_nat (base + n + (length c + length t))) as Hlen by lia.
    assert (blocks s2 = <[b := {| bdata := bd2; on_heap := h |}]> (blocks s)) as Hb2 by exact Hblk.
    specialize (H ltac:(unfold s2, with_cbb; cbn [cbbs]; rewrite lookup_insert_eq; unfold cp2, cp, set_child, set_len; cbn; by rewrite Hlen)).
    specialize (H ltac:(unfold s2, with_cbb; cbn [cbbs]; rewrite lookup_insert_ne, Hother by (done || (intros E; by apply Hpp')); done)).
    specialize (H ltac:(done) Hw0). rewrite Hb2 in H. specialize (H ltac:(apply lookup_insert_eq) ltac:(lia) Hcap).
    destruct (_ <=? _); [| done]. destruct H as (s' & Hs & H1 & H2 & H3 & H4).
    exists s'. split; [done |]. unfold flushed. rewrite !length_app, be_bytes_length, !Nat.add_assoc in *.
    split; [exact H1 | split; [| split; [| exact (eq_trans H4 Hfresh)]]].
    + intros a Ha1 Ha2. cbn [ptrs map fst] in Ha2. rewrite not_elem_of_cons in Ha2. destruct Ha2 as [Ha2 Ha3].
      rewrite H2 by done. unfold s2, with_cbb; cbn [cbbs]. rewrite lookup_insert_ne by done. by apply Hother.
    + rewrite H3, insert_insert_eq. do 2 f_equal. rewrite <- splice_prefix; rewrite be_bytes_length.
      * done.
      * destruct (holds_at_app _ _ _ _ Hat1) as [_ [H5 _]]. by rewrite length_replicate in H5.
      * lia.
Qed.

(* ------------------------------------------------------------------ *)
(** ** Refinement of the stack *)

Lemma flat_app fs1 fs2 : flat (fs1 ++ fs2) = flat fs1 ++ flat fs2.
Proof. induction fs1 as [| [[p n] c] fs1 IH]; [done |]. cbn [flat app]. by rewrite IH, !app_assoc. Qed.

Lemma flat_frame p n c fs : flat ((p, n, c) :: fs) = (replicate n 0 ++ c) ++ flat fs.
Proof. cbn [flat]. by rewrite app_assoc. Qed.

Lemma ptrs_app fs1 fs2 : ptrs (fs1 ++ fs2) = ptrs fs1 ++ ptrs fs2.
Proof. apply map_app. Qed.

(** Changing the innermost open frame of a stack, in the same block. *)
Lemma implements_last s s' b h cp fs1 p n c fs2 c' bd' :
  implements s b h cp (fs1 ++ (p, n, c) :: fs2) ->
  (forall par', nodes s b cp par' (length (flat fs1)) ((p, n, c) :: fs2) ->
     cbbs s' !! p = Some (mk_cbb (Some b) (Z.of_nat (length (flat fs1) + n + length c' + 0)) cp
       (Z.of_nat (length (flat fs1))) par' None (Z.of_nat n) false (match par' with Some _ => true | None => false end))) ->
  (forall a, a ∈ ptrs fs1 -> cbbs s' !! a = cbbs s !! a) ->
  blocks s' = <[b := {| bdata := bd'; on_heap := h |}]> (blocks s) -> fresh s' = fresh s ->
  Z.of_nat (length bd') = cp -> take (length (flat (fs1 ++ [(p, n, c')]))) bd' = flat (fs1 ++ [(p, n, c')]) ->
  Z.of_nat (length (flat (fs1 ++ [(p, n, c')]))) <= cp ->
  implements s' b h cp (fs1 ++ [(p, n, c')]).
Proof.
  intros [Hn Hb Hf Hnd Hw Hr Hfr] Hp Hs Hblk Hfresh Hl Hd Hfit.
  destruct (nodes_focus _ _ _ _ _ _ _ _ _ _ Hn) as (par' & _ & _ & Hfoc & Hback).
  split; [| | lia | | | |].
  - apply Hback; [done |]. cbn [nodes]. split; [| done]. by apply Hp.
  - exists bd'. by rewrite Hblk, lookup_insert_eq.
  - rewrite ptrs_app in Hnd |- *. apply NoDup_app in Hnd as (H1 & H2 & H3). apply NoDup_app.
    split; [done | split; [| apply NoDup_singleton]]. intros a Ha Ha'. apply (H2 a Ha).
    cbn in Ha' |- *. apply list_elem_of_singleton in Ha' as ->. left.
  - destruct fs1 as [| f fs1]; [done |]. cbn [tail app] in *. apply Forall_app in Hw as [Hw1 Hw2].
    apply Forall_cons in Hw2 as [Hw2 _]. apply Forall_app. split; [done | by constructor].
  - destruct Hr as (r & e & Hr). destruct fs1 as [| f fs1]; [| by exists r, e].
    cbn in Hr. injection Hr as -> -> ->. by exists r, c'.
  - intros a Ha. rewrite Hfresh in Ha. rewrite Hblk. destruct (decide (a = b)) as [-> |].
    + destruct Hb as (bd & Hb & _). by rewrite (Hfr b Ha) in Hb.
    + rewrite lookup_insert_ne by done. by apply Hfr.
Qed.

(** The bytes of the block in front of the next byte of the innermost frame. *)
Lemma implements_prefix s b h cp fs1 p n c fs2 :
  implements s b h cp (fs1 ++ (p, n, c) :: fs2) ->
  exists bd, blocks s !! b = Some {| bdata := bd; on_heap := h |} /\ Z.of_nat (length bd) = cp /\
    take (length (flat fs1) + n + length c) bd = flat fs1 ++ replicate n 0 ++ c /\
    holds_at bd (length (flat fs1) + n + length c) (flat fs2).
Proof.
  intros [_ (bd & Hb & Hl & Hd) Hf _ _ _ _]. exists bd. split; [done | split; [done |]].
  rewrite flat_app, flat_frame, app_assoc in Hd, Hf.
  destruct (holds_at_app bd 0 (flat fs1 ++ replicate n 0 ++ c) (flat fs2)) as [[H1 _] H2].
  { split; [by rewrite drop_0 | lia]. }
  assert (length (flat fs1 ++ replicate n 0%Z ++ c) = length (flat fs1) + n + length c)%nat as HL
    by (rewrite !length_app, length_replicate; lia).
  rewrite drop_0, HL in H1. rewrite HL in H2. done.
Qed.

Lemma flush_child_spec s b h cp fs1 p n c fs2 fuel :
  implements s b h cp (fs1 ++ (p, n, c) :: fs2) -> (length fs2 <= fuel)%nat ->
  exists c0, cbbs s !! p = Some c0 /\
  match closed fs2 with
  | Some t => exists s', flush_child fuel p c0 s = Some (true, s') /\
                implements s' b h cp (fs1 ++ [(p, n, c ++ t)]) /\
                forall q, child c0 = Some q -> opssl_cbb_flush fuel q s = Some (true, s')
  | None => exists s', flush_child fuel p c0 s = Some (false, s')
  end.
Proof.
  intros Him Hfuel. destruct (nodes_focus _ _ _ _ _ _ _ _ _ _ (im_nodes _ _ _ _ _ Him)) as (par' & _ & _ & Hfoc & _).
  destruct (implements_prefix _ _ _ _ _ _ _ _ _ Him) as (bd & Hb & Hl & Hpre & Hat).
  pose proof (im_fits _ _ _ _ _ Him) as Hfits. pose proof (im_nodup _ _ _ _ _ Him) as Hnd.
  rewrite flat_app, flat_frame, !length_app, length_replicate in Hfits.
  destruct Hfoc as [Hp Hch]. eexists. split; [exact Hp |]. unfold flush_child. cbn [child].
  destruct fs2 as [| [[q m] e] rest].
  { cbn [closed]. exists s. by rewrite app_nil_r. }
  cbn [child].
  rewrite ptrs_app in Hnd. apply NoDup_app in Hnd as (Hnd1 & Hdis & Hnd2).
  assert (Forall (fun f => 1 <= f.1.2 <= 3)%nat ((q, m, e) :: rest)) as Hw.
  { pose proof (im_width _ _ _ _ _ Him) as Hw. destruct fs1; [exact Hw |]. cbn [app tail] in Hw.
    apply Forall_app in Hw as [_ Hw]. by apply Forall_cons in Hw as [_ Hw]. }
  rewrite <- Hl in Hch. cbn [Nat.add] in Hch.
  pose proof (flush_spec rest fuel s b bd h p _ q m e _ Hch Hp Hnd2 Hw Hb Hat ltac:(lia) ltac:(cbn in Hfuel; lia)) as HF.
  destruct (closed ((q, m, e) :: rest)) as [t |] eqn:Ht.
  2: { destruct HF as (s' & HF). exists s'. by rewrite (op_bind_some _ _ _ _ _ HF). }
  destruct HF as (s1 & HF & Hp1 & Hoth & Hblk & Hfresh).
  eexists. split.
  { rewrite (op_bind_some _ _ _ _ _ HF). by rewrite (op_bind_some _ _ _ _ _ (modify_some _ _ _ _ Hp1)). }
  split.
  2: { intros q' [= <-]. rewrite HF. do 2 f_equal. destruct s1 as [cs bs fr]. unfold with_cbb. cbn [cbbs blocks fresh] in *.
       f_equal. symmetry. by apply insert_id. }
  pose proof (closed_length _ _ Ht) as Htl. destruct Hat as [_ Hat].
  assert (length (flat fs1 ++ replicate n 0%Z ++ c ++ t) = length (flat fs1) + n + length c + length t)%nat as Hlen
    by (rewrite !length_app, length_replicate; lia).
  eapply (implements_last s _ b h cp fs1 p n c _ (c ++ t) (splice bd (length (flat fs1) + n + length c) t) Him).
  - intros par [Hp' _]. unfold with_cbb; cbn [cbbs]. rewrite lookup_insert_eq. rewrite Hp in Hp'. injection Hp' as ->.
    unfold set_child, set_len; cbn. do 2 f_equal. rewrite length_app. lia.
  - intros a Ha. unfold with_cbb; cbn [cbbs].
    assert (a <> p) as Hne by (intros ->; apply (Hdis _ Ha); left).
    rewrite lookup_insert_ne by done. apply Hoth; [done |]. intros Ha'. apply (Hdis _ Ha). by right.
  - exact Hblk.
  - exact Hfresh.
  - rewrite splice_length; lia.
  - rewrite flat_app, flat_frame. cbn [flat]. rewrite app_nil_r, Hlen.
    rewrite splice_take, Hpre by lia. by rewrite <- !app_assoc.
  - rewrite flat_app, flat_frame. cbn [flat]. rewrite app_nil_r, Hlen. lia.
Qed.

(** *** Growing *)

(** [c] doubled until it holds [r] bytes: 65 rounds are enough. *)
Lemma double_cap_spec f c r :
  0 < c < 2 ^ 63 -> r <= 2 ^ 62 -> r <= c * 2 ^ Z.of_nat f ->
  exists c', double_cap (S f) c r = Some c' /\ r <= c' /\ c <= c' < 2 ^ 63.
Proof.
  revert c. induction f as [| f IH]; intros c Hc Hr Hf; cbn [double_cap].
  - rewrite (proj2 (Z.ltb_ge c r)) by lia. exists c. split; [done | lia].
  - destruct (Z.ltb_spec c r); [| exists c; split; [done | lia]].
    assert (u64 (c * 2) = c * 2) as -> by (unfold u64; apply Z.mod_small; lia).
    rewrite (proj2 (Z.leb_gt (c * 2) c)) by lia.
    destruct (IH (c * 2)) as (c' & H1 & H2 & H3); [lia | done | |].
    + rewrite Nat2Z.inj_succ, Z.pow_succ_r in Hf by lia. lia.
    + exists c'. cbn [double_cap] in H1. split; [done | lia].
Qed.

(** From [p] the children [l] lead up to the root [r]. *)
Inductive up_chain (s : store) : addr -> list addr -> addr -> Prop :=
  | up_root r c : cbbs s !! r = Some c -> is_child c = false -> up_chain s r [] r
  | up_step p c pp l r : cbbs s !! p = Some c -> is_child c = true -> parent c = Some pp ->
      up_chain s pp l r -> up_chain s p (p :: l) r.

(** Stores that differ in buffer pointers only. *)
Definition same_links (s s' : store) : Prop :=
  forall a, cbbs s' !! a = cbbs s !! a \/ exists b n, cbbs s' !! a = set_buf b n <$> cbbs s !! a.

Lemma up_chain_links s s' p l r : same_links s s' -> up_chain s p l r -> up_chain s' p l r.
Proof.
  intros Hs. induction 1 as [r c Hr Hc | p c pp l r Hp Hc Hpp _ IH].
  - destruct (Hs r) as [H | (b & n & H)]; rewrite Hr in H; [by apply (up_root s' r c) |].
    by apply (up_root s' r (set_buf b n c)).
  - destruct (Hs p) as [H | (b & n & H)]; rewrite Hp in H; [by apply (up_step s' p c pp l r) |].
    by apply (up_step s' p (set_buf b n c) pp l r).
Qed.

Lemma nodes_up s b cp fs1 : forall p n c fs2,
  nodes s b cp None 0 (fs1 ++ (p, n, c) :: fs2) ->
  exists r c0, up_chain s p (rev (tail (ptrs (fs1 ++ [(p, n, c)])))) r /\
    head (ptrs (fs1 ++ [(p, n, c)])) = Some r /\ cbbs s !! r = Some c0 /\ is_child c0 = false /\
    cbuf c0 = Some b /\ cap c0 = cp.
Proof.
  induction fs1 as [| [[q m] e] fs1 IH] using rev_ind; intros p n c fs2 H.
  - cbn in H |- *. destruct H as [Hp _]. exists p. eexists. split; [by eapply up_root |]. by rewrite Hp.
  - rewrite <- app_assoc in H. cbn [app] in H. pose proof H as H'.
    destruct (IH q m e ((p, n, c) :: fs2) H') as (r & c0 & Hup & Hr & Hc0).
    destruct (nodes_focus s b cp (fs1 ++ [(q, m, e)]) p n c fs2 None 0%nat) as (par' & _ & Hpar & [Hp _] & _);
      [by rewrite <- app_assoc |].
    specialize (Hpar fs1 (q, m, e) eq_refl). subst par'. exists r, c0.
    rewrite ptrs_app. cbn [ptrs map fst] in *. fold ptrs.
    destruct (ptrs (fs1 ++ [(q, m, e)])) as [| r0 l0] eqn:Hl; [by destruct fs1 |].
    cbn [app tail head] in *. rewrite rev_app_distr. cbn [rev app]. split; [| done].
    eapply up_step; [exact Hp | done | done | exact Hup].
Qed.

Lemma find_root_spec s p l r : up_chain s p l r -> forall fuel, (length l < fuel)%nat ->
  find_root fuel (Some p) s = Some (Some r, s).
Proof.
  induction 1 as [r c Hr Hc | p c pp l r Hp Hc Hpp _ IH]; intros [| fuel] Hf; cbn in Hf; try lia; cbn [find_root].
  - rewrite (op_bind_some _ _ _ _ _ (load_some _ _ _ Hr)), Hc. done.
  - rewrite (op_bind_some _ _ _ _ _ (load_some _ _ _ Hp)), Hc, Hpp. apply IH. lia.
Qed.

Lemma update_chain_spec nb ncap l r : forall s p, up_chain s p l r -> NoDup l -> forall fuel, (length l < fuel)%nat ->
  exists s', update_chain fuel (Some p) nb ncap s = Some (tt, s') /\
    (forall a, a ∈ l -> cbbs s' !! a = set_buf (Some nb) ncap <$> cbbs s !! a) /\
    (forall a, a ∉ l -> cbbs s' !! a = cbbs s !! a) /\ blocks s' = blocks s /\ fresh s' = fresh s.
Proof.
  induction l as [| p' l IH]; intros s p Hup Hnd [| fuel] Hf; cbn in Hf; try lia; cbn [update_chain];
    inversion Hup as [r' c Hr Hc | p'' c pp l' r' Hp Hc Hpp Hup']; subst.
  - exists s. rewrite (op_bind_some _ _ _ _ _ (load_some _ _ _ Hr)), Hc.
    repeat split; intros a Ha; by apply elem_of_nil in Ha.
  - apply NoDup_cons in Hnd as [Hni Hnd].
    rewrite (op_bind_some _ _ _ _ _ (load_some _ _ _ Hp)), Hc, Hpp. set (s1 := with_cbb p' (set_buf (Some nb) ncap c) s).
    rewrite (op_bind_some _ _ s tt s1) by done.
    destruct (IH s1 pp) with (fuel := fuel) as (s' & Hs' & H1 & H2 & H3 & H4); [| done | lia |].
    { eapply up_chain_links; [| exact Hup']. intros a. unfold s1, with_cbb; cbn [cbbs].
      destruct (decide (a = p')) as [-> |]; [right | left; by rewrite lookup_insert_ne].
      rewrite lookup_insert_eq, Hp. by eexists _, _. }
    exists s'. split; [done |]. split; [| split; [| done]].
    + intros a Ha. apply elem_of_cons in Ha as [-> | Ha].
      * rewrite (H2 p' Hni). unfold s1, with_cbb; cbn [cbbs]. by rewrite lookup_insert_eq, Hp.
      * rewrite (H1 a Ha). unfold s1, with_cbb; cbn [cbbs]. rewrite lookup_insert_ne; [done |]. by intros <-.
    + intros a Ha. apply not_elem_of_cons in Ha as [Ha1 Ha2]. rewrite (H2 a Ha2).
      unfold s1, with_cbb; cbn [cbbs]. by rewrite lookup_insert_ne.
Qed.

Lemma nodes_setbuf s s' b cp nb ncap par base fs :
  (forall a, a ∈ ptrs fs -> cbbs s' !! a = set_buf (Some nb) ncap <$> cbbs s !! a) ->
  nodes s b cp par base fs -> nodes s' nb ncap par base fs.
Proof.
  revert par base. induction fs as [| [[p n] c] fs IH]; intros par base H; cbn [nodes]; [done |].
  intros [H1 H2]. split.
  - rewrite H by (cbn; left). by rewrite H1.
  - apply IH; [| done]. intros q Hq. apply H. cbn. by right.
Qed.

(** A store whose block moved, with every frame's pointer updated. *)
Lemma implements_moved s s' b h cp fs nb ncap bd bd' :
  implements s b h cp fs -> blocks s !! b = Some {| bdata := bd; on_heap := h |} ->
  (forall a, a ∈ ptrs fs -> cbbs s' !! a = set_buf (Some nb) ncap <$> cbbs s !! a) ->
  blocks s' = <[nb := {| bdata := bd'; on_heap := h |}]> (delete b (blocks s)) -> fresh s' = S nb -> fresh s = nb ->
  take (length bd) bd' = bd -> Z.of_nat (length bd') = ncap -> cp <= ncap < 2 ^ 63 ->
  implements s' nb h ncap fs.
Proof.
  intros [Hn Hb Hf Hnd Hw Hr Hfr] Hbd Hs Hblk Hfresh <- Htake Hl Hcap.
  destruct Hb as (bd0 & Hb0 & Hl0 & Hd). rewrite Hbd in Hb0. injection Hb0 as <-.
  split; [by eapply nodes_setbuf | | lia | done | done | done |].
  - exists bd'. rewrite Hblk, lookup_insert_eq. split; [done | split; [done |]].
    rewrite <- Hd at 2. rewrite <- Htake, take_take. f_equal. lia.
  - intros a Ha. rewrite Hblk, lookup_insert_ne, lookup_delete_None by lia. right. apply Hfr. lia.
Qed.

Lemma realloc_some junk b s bd ncap :
  blocks s !! b = Some {| bdata := bd; on_heap := true |} -> Z.of_nat (length bd) <= ncap ->
  exists bd', op_realloc junk (Some b) ncap s =
      Some (fresh s, {| cbbs := cbbs s; blocks := <[fresh s := {| bdata := bd'; on_heap := true |}]> (delete b (blocks s));
                        fresh := S (fresh s) |}) /\
    take (length bd) bd' = bd /\ Z.of_nat (length bd') = ncap.
Proof.
  intros Hb Hl. unfold op_realloc. rewrite Hb. eexists. split; [reflexivity |].
  rewrite (take_ge bd (Z.to_nat ncap)) by lia. split; [by apply take_app_length |]. rewrite length_app, length_replicate. lia.
Qed.

Section Ops.
Context (junk : Z).

Lemma enlarge_spec s b h cp fs1 p n c need fuel :
  let fs := fs1 ++ [(p, n, c)] in
  implements s b h cp fs -> 0 <= need ->
  (if h then Z.of_nat (length (flat fs)) + need <= 2 ^ 62 /\ 0 < cp else Z.of_nat (length (flat fs)) + need <= cp) ->
  (length fs1 < fuel)%nat ->
  exists s' b' cp', cbb_enlarge junk fuel p need s = Some (true, s') /\ implements s' b' h cp' fs /\
    cp <= cp' /\ Z.of_nat (length (flat fs)) + need <= cp' /\ (h = false -> b' = b /\ cp' = cp).
Proof.
  intros fs Him Hneed Hroom Hfuel. pose proof (im_nodes _ _ _ _ _ Him) as Hn. pose proof (im_fits _ _ _ _ _ Him) as Hfit.
  destruct (nodes_focus _ _ _ _ _ _ _ _ _ _ Hn) as (par' & Hpar0 & Hpar1 & [Hp _] & _).
  assert (length (flat fs) = 0 + length (flat fs1) + n + length c + 0)%nat as Hlen.
  { unfold fs. rewrite flat_app, flat_frame. cbn [flat]. rewrite app_nil_r, !length_app, length_replicate. lia. }
  unfold cbb_enlarge. rewrite (op_bind_some _ _ _ _ _ (load_some _ _ _ Hp)). cbn [clen cap is_child parent cbuf].
  rewrite <- Hlen. set (len := Z.of_nat (length (flat fs))) in *.
  assert (u64 (len + need) = len + need) as -> by (unfold u64; apply Z.mod_small; destruct h; lia).
  cbv zeta. rewrite (proj2 (Z.ltb_ge (len + need) len)) by lia.
  destruct (Z.leb_spec (len + need) cp) as [Hle | Hgt]; [by exists s, b, cp |].
  destruct h; [destruct Hroom as [Hroom Hcp] | lia].
  destruct (im_block _ _ _ _ _ Him) as (bd & Hb & Hl & Hd).
  rewrite (proj2 (Z.eqb_neq cp 0)) by lia.
  destruct (double_cap_spec 64 cp (len + need)) as (ncap & Hdc & Hnc1 & Hnc2); [lia | lia | |].
  { change (2 ^ Z.of_nat 64) with (2 ^ 62 * 4). lia. }
  destruct (realloc_some junk b s bd ncap Hb ltac:(lia)) as (bd' & Hre & Hbd' & Hbl').
  destruct par' as [pp |].
  - destruct (nodes_up _ _ _ _ _ _ _ _ Hn) as (r & c0 & Hup & Hr & Hc0 & Hch & Hcb & Hcc). fold fs in Hup, Hr.
    pose proof (im_nodup _ _ _ _ _ Him) as Hnd.
    assert (exists tl, ptrs fs = r :: tl) as [tl Htl] by (destruct (ptrs fs) as [| r' tl]; [done |]; injection Hr as ->; by exists tl).
    rewrite Htl in Hup, Hnd. cbn [tail] in Hup. apply NoDup_cons in Hnd as [Hrni Hnd].
    assert (length tl = length fs1) as Htll.
    { assert (length (ptrs fs) = S (length fs1)) as H by (unfold ptrs, fs; rewrite length_map, length_app; cbn; lia).
      rewrite Htl in H. cbn in H. lia. }
    assert (exists l, rev tl = p :: l /\ up_chain s pp l r) as (l & Hrev & Hup').
    { inversion Hup as [? c1 Hp1 Hc1 | ? c1 pp1 l1 ? Hp1 Hc1 Hpp1 Hup1]; subst.
      - rewrite Hp in Hp1. injection Hp1 as <-. done.
      - rewrite Hp in Hp1. injection Hp1 as <-. injection Hpp1 as <-. by exists l1. }
    assert (length (rev tl) = S (length l)) as Hll by (by rewrite Hrev). rewrite length_rev in Hll.
    rewrite (op_bind_some _ _ _ _ _ (find_root_spec _ _ _ _ Hup' fuel ltac:(lia))).
    rewrite (op_bind_some _ _ _ _ _ (load_some _ _ _ Hc0)), Hcc, Hcb.
    rewrite (proj2 (Z.eqb_neq cp 0)) by lia. rewrite Hdc. rewrite (op_bind_some _ _ _ _ _ Hre).
    set (s1 := {| cbbs := cbbs s; blocks := _; fresh := _ |}).
    rewrite (op_bind_some _ _ _ _ _ (modify_some r (set_buf (Some (fresh s)) ncap) s1 c0 Hc0)).
    set (s2 := with_cbb r _ s1).
    assert (same_links s s2) as Hlk.
    { intros a. unfold s2, with_cbb, s1; cbn [cbbs]. destruct (decide (a = r)) as [-> |].
      - right. rewrite lookup_insert_eq, Hc0. by eexists _, _.
      - left. by rewrite lookup_insert_ne. }
    destruct (update_chain_spec (fresh s) ncap (rev tl) r s2 p) with (fuel := fuel) as (s3 & Hs3 & H1 & H2 & H3 & H4).
    { by eapply up_chain_links. }
    { apply NoDup_ListNoDup. apply NoDup_rev. by apply NoDup_ListNoDup. }
    { rewrite length_rev. lia. }
    rewrite (op_bind_some _ _ _ _ _ Hs3).
    exists s3, (fresh s), ncap. split; [done |]. split; [| split; [lia | split; [lia | done]]].
    eapply (implements_moved s s3 b true cp fs (fresh s) ncap bd bd' Him Hb); try done.
    intros a Ha. rewrite Htl in Ha. destruct (decide (a = r)) as [-> | Hne].
    + rewrite H2 by (rewrite list_elem_of_In, <- in_rev, <- list_elem_of_In; done).
      unfold s2, with_cbb, s1; cbn [cbbs]. by rewrite lookup_insert_eq, Hc0.
    + apply elem_of_cons in Ha as [Ha | Ha]; [done |].
      rewrite H1 by (by rewrite list_elem_of_In, <- in_rev, <- list_elem_of_In).
      unfold s2, with_cbb, s1; cbn [cbbs]. by rewrite lookup_insert_ne.
  - assert (fs1 = []) as -> by (destruct fs1 as [| f fs1 _] using rev_ind; [done | by specialize (Hpar1 _ _ eq_refl)]).
    rewrite Hdc. rewrite (op_bind_some _ _ _ _ _ Hre). set (s1 := {| cbbs := cbbs s; blocks := _; fresh := _ |}).
    rewrite (op_bind_some _ _ _ _ _ (modify_some p (set_buf (Some (fresh s)) ncap) s1 _ Hp)).
    eexists _, (fresh s), ncap. split; [reflexivity |]. split; [| split; [lia | split; [lia | done]]].
    eapply (implements_moved s _ b true cp fs (fresh s) ncap bd bd' Him Hb); try done.
    intros a Ha. cbn in Ha. apply list_elem_of_singleton in Ha as ->.
    unfold with_cbb, s1; cbn [cbbs]. by rewrite lookup_insert_eq, Hp.
Qed.

(** Enough room for [k] more bytes: on the heap the buffer grows. *)
Definition room (h : bool) (cp : Z) (fs : list frame) (k : Z) : Prop :=
  if h then Z.of_nat (length (flat fs)) + k <= 2 ^ 62 /\ 0 < cp else Z.of_nat (length (flat fs)) + k <= cp.

Lemma flat_closed fs1 p n c fs2 t : closed fs2 = Some t ->
  length (flat (fs1 ++ [(p, n, c ++ t)])) = length (flat (fs1 ++ (p, n, c) :: fs2)).
Proof.
  intros H. rewrite !flat_app, !flat_frame, !length_app, (closed_length _ _ H). cbn [flat length]. lia.
Qed.

Lemma grow_spec s b h cp fs1 p n c fs2 need fuel :
  implements s b h cp (fs1 ++ (p, n, c) :: fs2) -> 0 <= need ->
  room h cp (fs1 ++ (p, n, c) :: fs2) need -> (length (fs1 ++ (p, n, c) :: fs2) <= fuel)%nat ->
  match closed fs2 with
  | Some t => exists s' b' cp', cbb_grow junk fuel p need s = Some (true, s') /\
      implements s' b' h cp' (fs1 ++ [(p, n, c ++ t)]) /\ cp <= cp' /\
      Z.of_nat (length (flat (fs1 ++ [(p, n, c ++ t)]))) + need <= cp' /\ (h = false -> b' = b /\ cp' = cp)
  | None => exists s', cbb_grow junk fuel p need s = Some (false, s')
  end.
Proof.
  intros Him Hneed Hroom Hf. rewrite length_app in Hf. cbn [length] in Hf.
  destruct (nodes_focus _ _ _ _ _ _ _ _ _ _ (im_nodes _ _ _ _ _ Him)) as (par & _ & _ & [Hp _] & _).
  destruct (flush_child_spec s b h cp fs1 p n c fs2 fuel Him ltac:(lia)) as (c0 & Hp' & Hfl).
  unfold cbb_grow. rewrite Hp in Hp'. injection Hp' as <-.
  rewrite (op_bind_some _ _ _ _ _ (load_some _ _ _ Hp)). cbn [error].
  destruct (closed fs2) as [t |] eqn:Ht.
  2: { destruct Hfl as (s' & Hfl). exists s'. by rewrite (op_bind_some _ _ _ _ _ Hfl). }
  destruct Hfl as (s1 & Hfl & Him1 & _). rewrite (op_bind_some _ _ _ _ _ Hfl). cbn [negb].
  destruct (enlarge_spec s1 b h cp fs1 p n (c ++ t) need fuel Him1 Hneed) as (s2 & b2 & cp2 & He & Him2 & Hcp2 & Hroom2 & Hsame);
    [by rewrite (flat_closed _ _ _ _ fs2) | lia |].
  exists s2, b2, cp2. done.
Qed.

Lemma append_spec s b h cp fs1 p n c fs2 data fuel :
  implements s b h cp (fs1 ++ (p, n, c) :: fs2) ->
  room h cp (fs1 ++ (p, n, c) :: fs2) (Z.of_nat (length data)) ->
  (length (fs1 ++ (p, n, c) :: fs2) <= fuel)%nat ->
  match closed fs2 with
  | Some t => exists s' b' cp', append junk fuel p data s = Some (true, s') /\
      implements s' b' h cp' (fs1 ++ [(p, n, c ++ t ++ data)]) /\ cp <= cp' /\ (h = false -> b' = b /\ cp' = cp)
  | None => exists s', append junk fuel p data s = Some (false, s')
  end.
Proof.
  intros Him Hroom Hf. pose proof (grow_spec s b h cp fs1 p n c fs2 (Z.of_nat (length data)) fuel Him ltac:(lia) Hroom Hf) as Hg.
  unfold append. destruct (closed fs2) as [t |] eqn:Ht.
  2: { destruct Hg as (s' & Hg). exists s'. by rewrite (op_bind_some _ _ _ _ _ Hg). }
  destruct Hg as (s1 & b1 & cp1 & Hg & Him1 & Hpos & Hfit & Hsame). rewrite (op_bind_some _ _ _ _ _ Hg). cbn [negb].
  destruct (nodes_focus _ _ _ _ _ _ _ _ _ _ (im_nodes _ _ _ _ _ Him1)) as (par & _ & _ & [Hp _] & _).
  destruct (implements_prefix _ _ _ _ _ _ _ _ _ Him1) as (bd & Hb & Hl & Hpre & _).
  assert (length (flat (fs1 ++ [(p, n, c ++ t)])) = length (flat fs1) + n + length (c ++ t))%nat as Hlen
    by (rewrite flat_app, flat_frame; cbn [flat]; rewrite app_nil_r, !length_app, length_replicate; lia).
  rewrite (op_bind_some _ _ _ _ _ (load_some _ _ _ Hp)). cbn [cbuf clen].
  erewrite op_bind_some.
  2: { rewrite Nat.add_0_r. apply write_some; [exact Hb | lia]. }
  erewrite op_bind_some by (apply modify_some; exact Hp).
  eexists _, b1, cp1. split; [reflexivity |]. split; [| done].
  pose proof (im_nodup _ _ _ _ _ Him1) as Hnd. rewrite ptrs_app in Hnd. apply NoDup_app in Hnd as (_ & Hdis & _).
  assert (length (flat (fs1 ++ [(p, n, c ++ t ++ data)])) = length (flat fs1) + n + length (c ++ t) + length data)%nat as Hlen'
    by (rewrite flat_app, flat_frame; cbn [flat]; rewrite app_nil_r, !length_app, length_replicate; lia).
  eapply (implements_last s1 _ b1 h cp1 fs1 p n (c ++ t) [] _ _ Him1).
  - intros par' [Hp' _]. unfold with_cbb, with_block; cbn [cbbs]. rewrite lookup_insert_eq.
    rewrite Hp in Hp'. injection Hp' as <-. unfold set_len; cbn. do 2 f_equal. rewrite !length_app. lia.
  - intros a Ha. unfold with_cbb, with_block; cbn [cbbs]. rewrite lookup_insert_ne; [done |].
    intros <-. apply (Hdis _ Ha). cbn. left.
  - reflexivity.
  - done.
  - rewrite splice_length; lia.
  - rewrite Hlen', Nat.add_0_l, splice_take, Hpre by lia. rewrite flat_app, flat_frame. cbn [flat].
    by rewrite app_nil_r, <- !app_assoc.
  - lia.
Qed.

(** A new child starts empty after its prefix. *)
Lemma implements_open s s' b h cp fs1 p n c w ch bd' :
  implements s b h cp (fs1 ++ [(p, n, c)]) -> ch ∉ ptrs (fs1 ++ [(p, n, c)]) -> (1 <= w <= 3)%nat ->
  let o := (length (flat fs1) + n + length c)%nat in
  (forall par', nodes s b cp par' (length (flat fs1)) [(p, n, c)] ->
    cbbs s' !! p = Some (mk_cbb (Some b) (Z.of_nat (o + w)) cp (Z.of_nat (length (flat fs1))) par'
      (Some ch) (Z.of_nat n) false (match par' with Some _ => true | None => false end))) ->
  cbbs s' !! ch = Some (mk_cbb (Some b) (Z.of_nat (o + w)) cp (Z.of_nat o) (Some p) None (Z.of_nat w) false true) ->
  (forall a, a <> p -> a <> ch -> cbbs s' !! a = cbbs s !! a) ->
  blocks s' = <[b := {| bdata := bd'; on_heap := h |}]> (blocks s) -> fresh s' = fresh s ->
  Z.of_nat (length bd') = cp -> take (o + w) bd' = flat (fs1 ++ [(p, n, c)]) ++ replicate w 0 ->
  Z.of_nat (o + w) <= cp ->
  implements s' b h cp (fs1 ++ [(p, n, c); (ch, w, [])]).
Proof.
  intros [Hn Hb Hf Hnd Hw Hr Hfr] Hch Hwr o Hp Hc Hs Hblk Hfresh Hl Hd Hfit.
  destruct (nodes_focus _ _ _ _ _ _ _ _ _ _ Hn) as (par' & _ & _ & Hfoc & Hback).
  assert (flat (fs1 ++ [(p, n, c); (ch, w, [])]) = flat (fs1 ++ [(p, n, c)]) ++ replicate w 0) as Hflat
    by (rewrite !flat_app, !flat_frame; cbn [flat]; by rewrite !app_nil_r, app_assoc).
  assert (length (flat (fs1 ++ [(p, n, c); (ch, w, [])])) = o + w)%nat as Hlen.
  { rewrite Hflat, length_app, length_replicate, flat_app, flat_frame. cbn [flat].
    rewrite app_nil_r, !length_app, length_replicate. unfold o. lia. }
  rewrite ptrs_app, not_elem_of_app in Hch. destruct Hch as [Hch1 Hch2]. cbn in Hch2.
  rewrite list_elem_of_singleton in Hch2. rewrite ptrs_app in Hnd. apply NoDup_app in Hnd as (Hnd1 & Hnd2 & _).
  split; [| | lia | | | |].
  - apply Hback.
    + intros a Ha. apply Hs; [| intros ->; by apply Hch1]. intros ->. apply (Hnd2 _ Ha). cbn. left.
    + cbn [nodes]. rewrite (Hp _ Hfoc), Hc. unfold o. cbn [length Nat.add]. rewrite !Nat.add_0_r. done.
  - exists bd'. rewrite Hblk, lookup_insert_eq. split; [done | split; [done |]]. by rewrite Hlen, Hd, Hflat.
  - rewrite ptrs_app. apply NoDup_app. split; [done | split].
    + intros a Ha Ha'. cbn in Ha'. rewrite elem_of_cons, list_elem_of_singleton in Ha'.
      destruct Ha' as [-> | ->]; [apply (Hnd2 _ Ha); cbn; left | done].
    + cbn. apply NoDup_cons. split; [rewrite list_elem_of_singleton; congruence | apply NoDup_singleton].
  - destruct fs1 as [| f fs1]; [by apply Forall_singleton |]. cbn [tail app] in *. apply Forall_app in Hw as [Hw1 Hw2].
    apply Forall_app. split; [done |]. apply Forall_cons in Hw2 as [Hw2 _].
    apply Forall_cons; split; [done | by apply Forall_singleton].
  - destruct Hr as (r & e & Hr). exists r, e. by destruct fs1.
  - intros a Ha. rewrite Hfresh in Ha. rewrite Hblk. destruct (decide (a = b)) as [-> |].
    + destruct Hb as (bd & Hb & _). by rewrite (Hfr b Ha) in Hb.
    + rewrite lookup_insert_ne by done. by apply Hfr.
Qed.

Lemma open_spec s b h cp fs1 p n c fs2 w ch fuel :
  implements s b h cp (fs1 ++ (p, n, c) :: fs2) -> ch ∉ ptrs (fs1 ++ [(p, n, c)]) -> (1 <= w <= 3)%nat ->
  room h cp (fs1 ++ (p, n, c) :: fs2) (Z.of_nat w) -> (length (fs1 ++ (p, n, c) :: fs2) <= fuel)%nat ->
  match closed fs2 with
  | Some t => exists s' b' cp', add_length_prefixed junk (Z.of_nat w) fuel p ch s = Some (true, s') /\
      implements s' b' h cp' (fs1 ++ [(p, n, c ++ t); (ch, w, [])]) /\ cp <= cp' /\ (h = false -> b' = b /\ cp' = cp)
  | None => exists s', add_length_prefixed junk (Z.of_nat w) fuel p ch s = Some (false, s')
  end.
Proof.
  intros Him Hch Hw Hroom Hf. pose proof (grow_spec s b h cp fs1 p n c fs2 (Z.of_nat w) fuel Him ltac:(lia) Hroom Hf) as Hg.
  unfold add_length_prefixed. destruct (closed fs2) as [t |] eqn:Ht.
  2: { destruct Hg as (s' & Hg). exists s'. by rewrite (op_bind_some _ _ _ _ _ Hg). }
  destruct Hg as (s1 & b1 & cp1 & Hg & Him1 & Hpos & Hfit & Hsame). rewrite (op_bind_some _ _ _ _ _ Hg). cbn [negb].
  destruct (nodes_focus _ _ _ _ _ _ _ _ _ _ (im_nodes _ _ _ _ _ Him1)) as (par & _ & _ & [Hp _] & _).
  destruct (implements_prefix _ _ _ _ _ _ _ _ _ Him1) as (bd & Hb & Hl & Hpre & _).
  set (o := (length (flat fs1) + n + length (c ++ t))%nat) in *.
  assert (length (flat (fs1 ++ [(p, n, c ++ t)])) = o) as Hlen
    by (unfold o; rewrite flat_app, flat_frame; cbn [flat]; rewrite app_nil_r, !length_app, length_replicate; lia).
  assert (ch <> p) as Hcp.
  { intros ->. apply Hch. rewrite ptrs_app, elem_of_app. right. cbn. left. }
  rewrite (op_bind_some _ _ _ _ _ (load_some _ _ _ Hp)). cbn [cbuf clen cap].
  rewrite Nat.add_0_r, Nat.add_0_l. fold o. rewrite Nat2Z.id.
  erewrite op_bind_some by (apply write_some; [exact Hb | rewrite length_replicate; lia]).
  set (s2 := with_block b1 _ s1). set (cc := mk_cbb _ _ _ _ _ _ _ _ _).
  rewrite (op_bind_some _ _ s2 tt (with_cbb ch cc s2)) by done.
  erewrite op_bind_some
    by (apply modify_some; unfold with_cbb, s2, with_block; cbn [cbbs]; rewrite lookup_insert_ne by done; exact Hp).
  eexists _, b1, cp1. split; [reflexivity |]. split; [| done].
  eapply (implements_open s1 _ b1 h cp1 fs1 p n (c ++ t) w ch _ Him1); try reflexivity; fold o.
  - rewrite ptrs_app in Hch |- *. exact Hch.
  - done.
  - intros par' [Hp' _]. unfold with_cbb, s2, with_block; cbn [cbbs]. rewrite lookup_insert_eq.
    rewrite Hp in Hp'. injection Hp' as <-. unfold set_child, set_len; cbn. do 2 f_equal. lia.
  - unfold with_cbb, s2, with_block; cbn [cbbs]. rewrite lookup_insert_ne, lookup_insert_eq by done.
    unfold cc. do 2 f_equal. lia.
  - intros a H1 H2. unfold with_cbb, s2, with_block; cbn [cbbs]. by rewrite !lookup_insert_ne by done.
  - rewrite splice_length; rewrite ?length_replicate; lia.
  - rewrite <- (length_replicate w 0%Z) at 1. rewrite splice_take, Hpre by lia. rewrite flat_app, flat_frame.
    cbn [flat]. by rewrite app_nil_r, <- !app_assoc.
  - lia.
Qed.
End Ops.

(* ------------------------------------------------------------------ *)
(** ** Programs of a builder's user *)

Inductive bop :=
  | Put (p : addr) (data : list Z)          (* opssl_cbb_add_bytes *)
  | Open (p : addr) (w : nat) (ch : addr)   (* opssl_cbb_add_u8/u16/u24_length_prefixed *)
  | Flush (p : addr).                       (* opssl_cbb_flush *)

Definition run_op (junk : Z) (fuel : nat) (o : bop) : op bool :=
  match o with
  | Put p data => opssl_cbb_add_bytes junk fuel p data
  | Open p 1 ch => opssl_cbb_add_u8_length_prefixed junk fuel p ch
  | Open p 2 ch => opssl_cbb_add_u16_length_prefixed junk fuel p ch
  | Open p _ ch => opssl_cbb_add_u24_length_prefixed junk fuel p ch
  | Flush p => opssl_cbb_flush fuel p
  end.

(** Every call is checked; the first failure ends the program. *)
Fixpoint run_ops (junk : Z) (fuel : nat) (ops : list bop) : op bool :=
  match ops with
  | [] => mret true
  | o :: ops => ok ← run_op junk fuel o; if (ok : bool) then run_ops junk fuel ops else mret false
  end.

(** The bytes the caller of [opssl_cbb_finish] gets. *)
Definition read_out (r : option addr * Z) : op (option (list Z)) := fun s =>
  match r.1 with
  | Some b => match blocks s !! b with
              | Some bl => Some (Some (take (Z.to_nat r.2) (bdata bl)), s)
              | None => None
              end
  | None => None
  end.

Definition build (junk : Z) (fuel : nat) (root : addr) (initial_cap : Z) (ops : list bop) : op (option (list Z)) :=
  _ ← opssl_cbb_init root initial_cap;
  ok ← run_ops junk fuel ops;
  if negb ok then mret None else
  r ← opssl_cbb_finish fuel root;
  match r with Some r => read_out r | None => mret None end.

(** The frame at an address, between the frames before and after it. *)
Fixpoint split_at (p : addr) (fs : list frame) : option (list frame * (nat * list Z) * list frame) :=
  match fs with
  | [] => None
  | (q, n, c) :: fs =>
    if (q =? p)%nat then Some ([], (n, c), fs)
    else match split_at p fs with
         | Some (fs1, nc, fs2) => Some ((q, n, c) :: fs1, nc, fs2)
         | None => None
         end
  end.

(** An operation on a builder first closes its descendants. *)
Definition spec_step (o : bop) (fs : list frame) : option (list frame) :=
  match o with
  | Put p data =>
    '(fs1, (n, c), fs2) ← split_at p fs; t ← closed fs2; Some (fs1 ++ [(p, n, c ++ t ++ data)])
  | Open p w ch =>
    '(fs1, (n, c), fs2) ← split_at p fs; t ← closed fs2; Some (fs1 ++ [(p, n, c ++ t); (ch, w, [])])
  | Flush p =>
    '(fs1, (n, c), fs2) ← split_at p fs;
    match rev fs1 with
    | [] => t ← closed fs2; Some [(p, n, c ++ t)]
    | (q, m, e) :: fs0 => t ← closed ((p, n, c) :: fs2); Some (rev fs0 ++ [(q, m, e ++ t)])
    end
  end.

Fixpoint spec_run (ops : list bop) (fs : list frame) : option (list frame) :=
  match ops with
  | [] => Some fs
  | o :: ops => fs ← spec_step o fs; spec_run ops fs
  end.

(** The builders used are open ones, and a child is a structure not in use. *)
Definition valid_op (o : bop) (fs : list frame) : Prop :=
  match o with
  | Put p _ | Flush p => p ∈ ptrs fs
  | Open p w ch => p ∈ ptrs fs /\ (1 <= w <= 3)%nat /\ ch ∉ ptrs fs
  end.

Fixpoint valid (ops : list bop) (fs : list frame) : Prop :=
  match ops with
  | [] => True
  | o :: ops => valid_op o fs /\ match spec_step o fs with Some fs' => valid ops fs' | None => True end
  end.

#[export] Instance valid_op_dec o fs : Decision (valid_op o fs).
Proof. destruct o; cbn [valid_op]; apply _. Defined.

#[export] Instance valid_dec ops : forall fs, Decision (valid ops fs).
Proof.
  induction ops as [| o ops IH]; intros fs; cbn [valid]; [apply _ |].
  destruct (spec_step o fs); apply _.
Defined.

Definition op_size (o : bop) : Z :=
  match o with Put _ data => Z.of_nat (length data) | Open _ w _ => Z.of_nat w | Flush _ => 0 end.

Fixpoint total_size (ops : list bop) : Z :=
  match ops with [] => 0 | o :: ops => op_size o + total_size ops end.

Lemma total_size_nonneg ops : 0 <= total_size ops.
Proof. induction ops as [| o ops IH]; cbn [total_size]; [lia | destruct o; cbn [op_size]; lia]. Qed.

Lemma split_at_app p fs : p ∈ ptrs fs ->
  exists fs1 n c fs2, split_at p fs = Some (fs1, (n, c), fs2) /\ fs = fs1 ++ (p, n, c) :: fs2.
Proof.
  induction fs as [| [[q m] e] fs IH]; intros Hp; [by apply elem_of_nil in Hp |]. cbn [split_at].
  destruct (Nat.eqb_spec q p) as [-> | Hne].
  - by exists [], m, e, fs.
  - cbn in Hp. apply elem_of_cons in Hp as [-> | Hp]; [done |].
    destruct (IH Hp) as (fs1 & n & c & fs2 & -> & ->). by exists ((q, m, e) :: fs1), n, c, fs2.
Qed.

(** Flushing the root closes its children only. *)
Lemma flush_root_spec s b h cp p n c fs2 fuel :
  implements s b h cp ((p, n, c) :: fs2) -> (length fs2 < fuel)%nat ->
  match closed fs2 with
  | Some t => exists s', opssl_cbb_flush fuel p s = Some (true, s') /\ implements s' b h cp [(p, n, c ++ t)]
  | None => exists s', opssl_cbb_flush fuel p s = Some (false, s')
  end.
Proof.
  intros Him Hf. destruct fuel as [| fuel]; [lia |].
  destruct (flush_child_spec s b h cp [] p n c fs2 fuel Him ltac:(lia)) as (c0 & Hp & Hfl).
  pose proof (im_nodes _ _ _ _ _ Him) as [Hp' _]. rewrite Hp in Hp'. injection Hp' as ->.
  cbn [opssl_cbb_flush]. rewrite (op_bind_some _ _ _ _ _ (load_some _ _ _ Hp)).
  destruct (closed fs2) as [t |].
  - destruct Hfl as (s' & Hfl & Him' & _). exists s'. split; [| done].
    unfold flush_child in Hfl. rewrite (op_bind_some _ _ _ _ _ Hfl). cbn [negb].
    pose proof (im_nodes _ _ _ _ _ Him') as [Hp' _].
    rewrite (op_bind_some _ _ _ _ _ (load_some _ _ _ Hp')). done.
  - destruct Hfl as (s' & Hfl). exists s'. unfold flush_child in Hfl. by rewrite (op_bind_some _ _ _ _ _ Hfl).
Qed.

(** Flushing a child appends its encoding to its parent. *)
Lemma flush_inner_spec s b h cp fs0 q m e p n c fs2 fuel :
  implements s b h cp (fs0 ++ (q, m, e) :: (p, n, c) :: fs2) -> (S (length fs2) <= fuel)%nat ->
  match closed ((p, n, c) :: fs2) with
  | Some t => exists s', opssl_cbb_flush fuel p s = Some (true, s') /\ implements s' b h cp (fs0 ++ [(q, m, e ++ t)])
  | None => exists s', opssl_cbb_flush fuel p s = Some (false, s')
  end.
Proof.
  intros Him Hf. destruct (flush_child_spec s b h cp fs0 q m e ((p, n, c) :: fs2) fuel Him ltac:(cbn; lia)) as (c0 & Hq & Hfl).
  destruct (nodes_focus _ _ _ _ _ _ _ _ _ _ (im_nodes _ _ _ _ _ Him)) as (par & _ & _ & [Hq' _] & _).
  rewrite Hq in Hq'. injection Hq' as ->. cbn [child flush_child] in Hfl.
  destruct (closed ((p, n, c) :: fs2)) as [t |].
  - destruct Hfl as (s' & _ & Him' & Hfl). exists s'. split; [by apply Hfl | done].
  - destruct Hfl as (s' & Hfl). unfold flush_child in Hfl. cbn [child] in Hfl. unfold mbind, op_bind at 1 in Hfl.
    destruct (opssl_cbb_flush fuel p s) as [[[|] s1] |] eqn:Hs1; try done; [| by exists s1].
    unfold mbind, op_bind in Hfl. by destruct (modify q (set_child None) s1) as [[[] ?] |].
Qed.

Section Programs.
Context (junk : Z) (fuel : nat).

(** One operation refines one step of the stack. *)
Lemma run_op_spec o s b cp fs :
  implements s b true cp fs -> 0 < cp -> valid_op o fs -> Z.of_nat (length (flat fs)) + op_size o <= 2 ^ 62 ->
  (length fs < fuel)%nat ->
  match spec_step o fs with
  | Some fs' => exists s' b' cp', run_op junk fuel o s = Some (true, s') /\ implements s' b' true cp' fs' /\ 0 < cp' /\
      Z.of_nat (length (flat fs')) <= Z.of_nat (length (flat fs)) + op_size o /\ (length fs' <= S (length fs))%nat /\
      head (ptrs fs') = head (ptrs fs)
  | None => exists s', run_op junk fuel o s = Some (false, s')
  end.
Proof.
  intros Him Hcp Hv Hsz Hf. destruct o as [p data | p w ch | p]; cbn [valid_op op_size spec_step] in *.
  - destruct (split_at_app p fs Hv) as (fs1 & n & c & fs2 & -> & ->). cbn [mbind option_bind].
    pose proof (append_spec junk s b true cp fs1 p n c fs2 data fuel Him ltac:(split; lia) ltac:(lia)) as H.
    destruct (closed fs2) as [t |] eqn:Ht; cbn [mbind option_bind]; [| exact H].
    destruct H as (s' & b' & cp' & H1 & H2 & H3 & _). exists s', b', cp'. split; [done | split; [done | split; [lia |]]].
    pose proof (flat_closed fs1 p n c fs2 t Ht) as Hfl. rewrite !flat_app, !flat_frame, !length_app in *.
    cbn [flat length] in *. rewrite ?length_app in *. split; [lia |]. split; [lia |]. rewrite !ptrs_app. by destruct fs1.
  - destruct Hv as (Hv & Hw & Hch). destruct (split_at_app p fs Hv) as (fs1 & n & c & fs2 & -> & ->). cbn [mbind option_bind].
    assert (ch ∉ ptrs (fs1 ++ [(p, n, c)])) as Hch'.
    { rewrite ptrs_app, elem_of_app in Hch |- *. cbn in Hch |- *. rewrite elem_of_cons in Hch.
      rewrite list_elem_of_singleton. tauto. }
    pose proof (open_spec junk s b true cp fs1 p n c fs2 w ch fuel Him Hch' Hw ltac:(split; lia) ltac:(lia)) as H.
    assert (run_op junk fuel (Open p w ch) = add_length_prefixed junk (Z.of_nat w) fuel p ch) as ->
      by (cbn [run_op]; destruct w as [| [| [| [|]]]]; lia || done).
    destruct (closed fs2) as [t |] eqn:Ht; cbn [mbind option_bind]; [| exact H].
    destruct H as (s' & b' & cp' & H1 & H2 & H3 & _). exists s', b', cp'. split; [done | split; [done | split; [lia |]]].
    pose proof (flat_closed fs1 p n c fs2 t Ht) as Hfl. rewrite !flat_app, !flat_frame, !length_app in *.
    cbn [flat length] in *. rewrite ?length_app, ?length_replicate in *. cbn [length]. split; [lia |]. split; [lia |].
    rewrite !ptrs_app. by destruct fs1.
  - destruct (split_at_app p fs Hv) as (fs1 & n & c & fs2 & -> & ->). cbn [mbind option_bind run_op].
    destruct fs1 as [| [[q m] e] fs1 _] using rev_ind.
    + cbn [rev app] in *. pose proof (flush_root_spec s b true cp p n c fs2 fuel Him ltac:(cbn in Hf; lia)) as H.
      destruct (closed fs2) as [t |] eqn:Ht; cbn [mbind option_bind]; [| exact H].
      destruct H as (s' & H1 & H2). exists s', b, cp. split; [done | split; [done | split; [done |]]].
      pose proof (flat_closed [] p n c fs2 t Ht) as Hfl. cbn [app] in Hfl. split; [lia |]. cbn [length]. split; [lia | done].
    + rewrite rev_app_distr. cbn [rev app]. rewrite rev_involutive, <- app_assoc in *. cbn [app] in *.
      rewrite length_app in Hf. cbn [length] in Hf.
      pose proof (flush_inner_spec s b true cp fs1 q m e p n c fs2 fuel Him ltac:(lia)) as H.
      destruct (closed ((p, n, c) :: fs2)) as [t |] eqn:Ht; cbn [mbind option_bind]; [| exact H].
      destruct H as (s' & H1 & H2). exists s', b, cp. split; [done | split; [done | split; [done |]]].
      pose proof (flat_closed fs1 q m e _ t Ht) as Hfl. split; [lia |].
      rewrite !length_app. cbn [length]. split; [lia |]. rewrite !ptrs_app. by destruct fs1.
Qed.

Lemma run_ops_spec ops : forall s b cp fs,
  implements s b true cp fs -> 0 < cp -> valid ops fs -> Z.of_nat (length (flat fs)) + total_size ops <= 2 ^ 62 ->
  (length fs + length ops < fuel)%nat ->
  match spec_run ops fs with
  | Some fs' => exists s' b' cp', run_ops junk fuel ops s = Some (true, s') /\ implements s' b' true cp' fs' /\
      (length fs' < fuel)%nat /\ head (ptrs fs') = head (ptrs fs)
  | None => exists s', run_ops junk fuel ops s = Some (false, s')
  end.
Proof.
  induction ops as [| o ops IH]; intros s b cp fs Him Hcp Hv Hsz Hf; cbn [spec_run run_ops].
  - exists s, b, cp. cbn in Hf. split; [done | split; [done | split; [lia | done]]].
  - cbn [valid total_size length] in *. destruct Hv as [Hv Hvs].
    pose proof (total_size_nonneg ops) as Ht.
    pose proof (run_op_spec o s b cp fs Him Hcp Hv ltac:(lia) ltac:(lia)) as H.
    destruct (spec_step o fs) as [fs' |]; cbn [mbind option_bind].
    + destruct H as (s1 & b1 & cp1 & H1 & Him1 & Hcp1 & Hs1 & Hl1 & Hh1). rewrite (op_bind_some _ _ _ _ _ H1).
      specialize (IH s1 b1 cp1 fs' Him1 Hcp1 Hvs ltac:(lia) ltac:(lia)). by rewrite Hh1 in IH.
    + destruct H as (s1 & H). rewrite (op_bind_some _ _ _ _ _ H). by exists s1.
Qed.
End Programs.

(* ------------------------------------------------------------------ *)
(** * Properties *)

Lemma init_spec root initial_cap s : (forall a, (fresh s <= a)%nat -> blocks s !! a = None) ->
  0 <= initial_cap <= 2 ^ 62 ->
  exists s' b cp, opssl_cbb_init root initial_cap s = Some (true, s') /\ implements s' b true cp [(root, 0%nat, [])] /\ 0 < cp.
Proof.
  intros Hfr Hc. unfold opssl_cbb_init. set (n := if initial_cap =? 0 then 256 else initial_cap).
  assert (0 < n <= 2 ^ 62) as Hn by (unfold n; destruct (Z.eqb_spec initial_cap 0); lia).
  unfold mbind, op_bind, op_malloc, set, mret, op_ret; cbn [cbbs blocks fresh].
  eexists _, (fresh s), n. split; [reflexivity |]. split; [| lia]. split; cbn [cbbs blocks fresh nodes flat app replicate].
  - split; [| done]. by rewrite lookup_insert_eq.
  - exists (replicate (Z.to_nat n) 0). rewrite lookup_insert_eq, length_replicate. split; [done | split; [lia | done]].
  - cbn. lia.
  - apply NoDup_singleton.
  - by cbn.
  - by exists root, [].
  - intros a Ha. rewrite lookup_insert_ne by lia. apply Hfr. lia.
Qed.

Lemma finish_spec s b h cp p c fs2 fuel :
  implements s b h cp ((p, 0%nat, c) :: fs2) -> (length fs2 <= fuel)%nat ->
  exists s', (r ← opssl_cbb_finish fuel p; match r with Some r => read_out r | None => mret None end) s =
    Some (closed ((p, 0%nat, c) :: fs2), s').
Proof.
  intros Him Hf. destruct (flush_child_spec s b h cp [] p 0 c fs2 fuel Him Hf) as (c0 & Hp & Hfl).
  pose proof (im_nodes _ _ _ _ _ Him) as [Hp' _]. rewrite Hp in Hp'. injection Hp' as ->.
  unfold opssl_cbb_finish. rewrite closed_cons.
  destruct (closed fs2) as [t |] eqn:Ht.
  - destruct Hfl as (s1 & Hfl & Him1 & _). pose proof (im_nodes _ _ _ _ _ Him1) as [Hp1 _].
    pose proof (im_fits _ _ _ _ _ Him1) as Hfit. destruct (im_block _ _ _ _ _ Him1) as (bd & Hb & Hl & Hd).
    cbn [app flat replicate] in Hfit, Hd. rewrite app_nil_r in Hfit, Hd.
    change (prefix_max (Z.of_nat 0)) with SIZE_MAX. rewrite (proj2 (Z.leb_le _ SIZE_MAX)) by (unfold SIZE_MAX; lia).
    eexists. erewrite op_bind_some.
    2: { rewrite (op_bind_some _ _ _ _ _ (load_some _ _ _ Hp)). cbn [error is_child orb].
         rewrite (op_bind_some _ _ _ _ _ Hfl). cbn [negb].
         rewrite (op_bind_some _ _ _ _ _ (load_some _ _ _ Hp1)).
         rewrite (op_bind_some _ _ _ _ _ (modify_some p _ s1 _ Hp1)). reflexivity. }
    unfold read_out, with_cbb; cbn [fst snd blocks cbuf clen]. rewrite Hb. cbn [bdata].
    rewrite Nat2Z.id, Nat.add_0_r. cbn [Nat.add]. by rewrite Hd.
  - destruct Hfl as (s1 & Hfl). exists s1. rewrite (op_bind_some _ _ s None s1); [done |].
    rewrite (op_bind_some _ _ _ _ _ (load_some _ _ _ Hp)). cbn [error is_child orb].
    by rewrite (op_bind_some _ _ _ _ _ Hfl).
Qed.

(** C29: building with a growable buffer never touches freed or foreign memory,
    always returns, and yields exactly the nested encoding: a program of adds,
    opens and flushes that uses open builders gives the closed bytes of the
    stack it describes, and fails precisely when a child outgrows its prefix. *)
Theorem cbb_build_refines junk fuel root initial_cap ops s :
  (forall a, (fresh s <= a)%nat -> blocks s !! a = None) -> 0 <= initial_cap <= 2 ^ 62 ->
  valid ops [(root, 0%nat, [])] -> total_size ops <= 2 ^ 62 -> (1 + length ops < fuel)%nat ->
  exists s', build junk fuel root initial_cap ops s =
    Some (spec_run ops [(root, 0%nat, [])] ≫= closed, s').
Proof.
  intros Hfr Hc Hv Hsz Hf. unfold build.
  destruct (init_spec root initial_cap s Hfr Hc) as (s1 & b & cp & Hi & Him & Hcp).
  rewrite (op_bind_some _ _ _ _ _ Hi).
  pose proof (run_ops_spec junk fuel ops s1 b cp _ Him Hcp Hv ltac:(cbn; lia) ltac:(cbn; lia)) as H.
  destruct (spec_run ops _) as [fs |]; cbn [mbind option_bind].
  - destruct H as (s2 & b2 & cp2 & H2 & Him2 & Hl2 & Hh). rewrite (op_bind_some _ _ _ _ _ H2). cbn [negb].
    destruct (im_root _ _ _ _ _ Him2) as (p & c & Hr). destruct fs as [| f fs]; [done |]. injection Hr as ->.
    injection Hh as ->. cbn in Hl2. by apply (finish_spec s2 b2 true cp2 root c fs fuel Him2 ltac:(lia)).
  - destruct H as (s2 & H2). rewrite (op_bind_some _ _ _ _ _ H2). by exists s2.
Qed.

(** A nested vector built in a one-byte buffer that has to grow. *)
Lemma cbb_build_refines_witness :
  exists s', build 99 10 0 1 [Put 0 [7]; Open 0 2 1; Open 1 1 2; Put 2 [8; 9]; Put 1 [10]; Flush 1; Put 0 [11]]
    (mk_store ∅ ∅ 0) = Some (Some [7; 0; 4; 2; 8; 9; 10; 11], s').
Proof.
  apply (cbb_build_refines 99 10 0 1
    [Put 0 [7]; Open 0 2 1; Open 1 1 2; Put 2 [8; 9]; Put 1 [10]; Flush 1; Put 0 [11]] (mk_store ∅ ∅ 0)).
  - done.
  - lia.
  - apply (bool_decide_unpack _). vm_compute. exact I.
  - vm_compute. discriminate.
  - simpl. lia.
Defined.

(** ** Builders on a caller's buffer *)

(** A builder over a fixed buffer that is large enough appends in place. *)
Lemma fixed_append junk fuel p data s b cp c :
  implements s b false cp [(p, 0%nat, c)] -> Z.of_nat (length c) + Z.of_nat (length data) <= cp -> (1 <= fuel)%nat ->
  exists s', append junk fuel p data s = Some (true, s') /\ implements s' b false cp [(p, 0%nat, c ++ data)].
Proof.
  intros Him Hr Hf. pose proof (append_spec junk s b false cp [] p 0 c [] data fuel Him) as H. cbn [app closed] in H.
  destruct H as (s' & b' & cp' & H1 & H2 & _ & Hsame); [| cbn; lia |].
  - unfold room. cbn [flat replicate app]. rewrite app_nil_r. lia.
  - destruct (Hsame eq_refl) as [-> ->]. by exists s'.
Qed.

(** The header presents it as an alternative to the growable one, but growth
    reallocates, and cleanup frees, the caller's array. *)
Lemma cbb_fixed_overflow_unsafe :
  let s := mk_store ∅ {[0%nat := {| bdata := [0; 0]; on_heap := false |}]} 1 in
  (_ ← opssl_cbb_init_fixed 0 0 2; opssl_cbb_add_bytes 99 1 0 [1; 2; 3]) s = None /\
  (_ ← opssl_cbb_init_fixed 0 0 2; opssl_cbb_cleanup 0) s = None.
Proof. split; vm_compute; reflexivity. Qed.
