(* ===== verification/Cpu.v ===== *)
(** CPU features (src/crypto/cpuid.c) and the vector instructions the code uses.

    The instructions are not code of the repository: they are the operations of
    the class [Simd], and [SimdSpec] states the documented behaviour of each one
    that the code relies on.  [simd_model] is a concrete instance, so that every
    statement with such a hypothesis can be evaluated. *)
From S2P Require Import Prelude.
#[local] Open Scope Z_scope.

(* ------------------------------------------------------------------ *)
(** * cpuid.c *)

Record opssl_cpu_features := mk_features {
  aesni : bool; pclmul : bool; avx2 : bool; sha_ni : bool; sse41 : bool; bmi2 : bool; adx : bool;
  arm_aes : bool; arm_sha2 : bool; arm_sha3 : bool; arm_pmull : bool }.

(** [static struct opssl_cpu_features cpu_features;] before detection *)
Definition cpu_features_zero : opssl_cpu_features :=
  mk_features false false false false false false false false false false false.

(** The registers after CPUID: eax, ebx, ecx, edx. *)
Record regs := mk_regs { eax : Z; ebx : Z; ecx : Z; edx : Z }.

Section Detect.
(** The CPUID and XGETBV instructions. *)
Variable cpuid : Z -> Z -> regs.
Variable xgetbv : Z -> Z.

Definition bit (x n : Z) : bool := negb (Z.land (Z.shiftr x n) 1 =? 0).

Definition xsave_enabled : bool :=
  let r := cpuid 1 0 in
  if Z.land (ecx r) (Z.shiftl 1 27) =? 0 then false
  else Z.land (xgetbv 0) 6 =? 6.

Definition detect_x86 (f : opssl_cpu_features) : opssl_cpu_features :=
  let max_leaf := eax (cpuid 0 0) in
  if max_leaf <? 1 then f else
  let r := cpuid 1 0 in
  let f := mk_features (bit (ecx r) 25) (bit (ecx r) 1) (avx2 f) (sha_ni f) (bit (ecx r) 19)
             (bmi2 f) (adx f) (arm_aes f) (arm_sha2 f) (arm_sha3 f) (arm_pmull f) in
  let have_xsave := xsave_enabled in
  if 7 <=? max_leaf then
    let r := cpuid 7 0 in
    mk_features (aesni f) (pclmul f) (have_xsave && bit (ebx r) 5) (bit (ebx r) 29) (sse41 f)
      (bit (ebx r) 8) (bit (ebx r) 19) (arm_aes f) (arm_sha2 f) (arm_sha3 f) (arm_pmull f)
  else f.
End Detect.

(* ------------------------------------------------------------------ *)
(** * Vector instructions *)

(** A 128-bit register as four 32-bit lanes, the lowest first. *)
Record m128 := mk128 { l0 : Z; l1 : Z; l2 : Z; l3 : Z }.

Definition lane (a : m128) (i : Z) : Z :=
  if i =? 0 then l0 a else if i =? 1 then l1 a else if i =? 2 then l2 a else l3 a.

(** Lane-wise combination. *)
Definition map128 (f : Z -> Z -> Z) (a b : m128) : m128 :=
  mk128 (f (l0 a) (l0 b)) (f (l1 a) (l1 b)) (f (l2 a) (l2 b)) (f (l3 a) (l3 b)).

(** The functions of FIPS 180-4 that the SHA instructions compute. *)
Definition rotr32 (x n : Z) : Z := Z.lor (Z.shiftr x n) (u32 (Z.shiftl x (32 - n))).
Definition Ch (x y z : Z) : Z := Z.lxor (Z.land x y) (Z.land (Z.lnot x) z).
Definition Maj (x y z : Z) : Z := Z.lxor (Z.lxor (Z.land x y) (Z.land x z)) (Z.land y z).
Definition Sigma0 (x : Z) : Z := Z.lxor (Z.lxor (rotr32 x 2) (rotr32 x 13)) (rotr32 x 22).
Definition Sigma1 (x : Z) : Z := Z.lxor (Z.lxor (rotr32 x 6) (rotr32 x 11)) (rotr32 x 25).
Definition sigma0 (x : Z) : Z := Z.lxor (Z.lxor (rotr32 x 7) (rotr32 x 18)) (Z.shiftr x 3).
Definition sigma1 (x : Z) : Z := Z.lxor (Z.lxor (rotr32 x 17) (rotr32 x 19)) (Z.shiftr x 10).

(** One round on the two halves CDGH and ABEF (lanes: H,G,D,C and F,E,B,A). *)
Definition rnds_A (cdgh abef : m128) (wk : Z) : Z :=
  u32 (Ch (l1 abef) (l0 abef) (l1 cdgh) + Sigma1 (l1 abef) + wk + l0 cdgh +
       Maj (l3 abef) (l2 abef) (l3 cdgh) + Sigma0 (l3 abef)).
Definition rnds_E (cdgh abef : m128) (wk : Z) : Z :=
  u32 (Ch (l1 abef) (l0 abef) (l1 cdgh) + Sigma1 (l1 abef) + wk + l0 cdgh + l2 cdgh).

Definition rnds1 (s : m128 * m128) (wk : Z) : m128 * m128 :=
  let '(cdgh, abef) := s in
  (mk128 (l1 cdgh) (l0 abef) (l3 cdgh) (l2 abef),
   mk128 (l1 abef) (rnds_E cdgh abef wk) (l3 abef) (rnds_A cdgh abef wk)).

Definition rnds2 (cdgh abef k : m128) : m128 := (rnds1 (rnds1 (cdgh, abef) (l0 k)) (l1 k)).2.

Definition msg1 (a b : m128) : m128 :=
  mk128 (u32 (l0 a + sigma0 (l1 a))) (u32 (l1 a + sigma0 (l2 a)))
        (u32 (l2 a + sigma0 (l3 a))) (u32 (l3 a + sigma0 (l0 b))).

Definition msg2 (a b : m128) : m128 :=
  let w16 := u32 (l0 a + sigma1 (l2 b)) in
  let w17 := u32 (l1 a + sigma1 (l3 b)) in
  mk128 w16 w17 (u32 (l2 a + sigma1 w16)) (u32 (l3 a + sigma1 w17)).

(** The instructions, named as the compiler's intrinsics are. *)
Class Simd := {
  mm_shuffle_epi32 : m128 -> Z -> m128;
  mm_alignr_epi8 : m128 -> m128 -> Z -> m128;
  mm_blend_epi16 : m128 -> m128 -> Z -> m128;
  mm_unpackhi_epi64 : m128 -> m128 -> m128;
  mm_add_epi32 : m128 -> m128 -> m128;
  mm_sha256rnds2_epu32 : m128 -> m128 -> m128 -> m128;
  mm_sha256msg1_epu32 : m128 -> m128 -> m128;
  mm_sha256msg2_epu32 : m128 -> m128 -> m128 }.

(** Bytes 4k of the concatenation [b ++ a], for a shift by whole lanes. *)
Definition alignr_lanes (a b : m128) (k : Z) : m128 :=
  let w i := if i <? 4 then lane b i else lane a (i - 4) in
  mk128 (w k) (w (k + 1)) (w (k + 2)) (w (k + 3)).

Lemma alignr_lanes_1 a b : alignr_lanes a b 1 = mk128 (l1 b) (l2 b) (l3 b) (l0 a).
Proof. done. Qed.

Lemma alignr_lanes_2 a b : alignr_lanes a b 2 = mk128 (l2 b) (l3 b) (l0 a) (l1 a).
Proof. done. Qed.

(** Documented behaviour, for the immediates that select whole lanes. *)
Class SimdSpec (S : Simd) : Prop := {
  shuffle_spec a imm :
    mm_shuffle_epi32 a imm =
      mk128 (lane a (Z.land imm 3)) (lane a (Z.land (Z.shiftr imm 2) 3))
            (lane a (Z.land (Z.shiftr imm 4) 3)) (lane a (Z.land (Z.shiftr imm 6) 3));
  alignr_spec a b k : 0 <= k <= 4 -> mm_alignr_epi8 a b (4 * k) = alignr_lanes a b k;
  blend_spec a b : mm_blend_epi16 a b 0xF0 = mk128 (l0 a) (l1 a) (l2 b) (l3 b);
  unpackhi_spec a b : mm_unpackhi_epi64 a b = mk128 (l2 a) (l3 a) (l2 b) (l3 b);
  add_spec a b : mm_add_epi32 a b = map128 (fun x y => u32 (x + y)) a b;
  rnds2_spec a b k : mm_sha256rnds2_epu32 a b k = rnds2 a b k;
  msg1_spec a b : mm_sha256msg1_epu32 a b = msg1 a b;
  msg2_spec a b : mm_sha256msg2_epu32 a b = msg2 a b }.

#[export] Instance simd_model : Simd := {|
  mm_shuffle_epi32 a imm :=
    mk128 (lane a (Z.land imm 3)) (lane a (Z.land (Z.shiftr imm 2) 3))
          (lane a (Z.land (Z.shiftr imm 4) 3)) (lane a (Z.land (Z.shiftr imm 6) 3));
  mm_alignr_epi8 a b n := alignr_lanes a b (n / 4);
  mm_blend_epi16 a b imm := mk128 (l0 a) (l1 a) (l2 b) (l3 b);
  mm_unpackhi_epi64 a b := mk128 (l2 a) (l3 a) (l2 b) (l3 b);
  mm_add_epi32 := map128 (fun x y => u32 (x + y));
  mm_sha256rnds2_epu32 := rnds2;
  mm_sha256msg1_epu32 := msg1;
  mm_sha256msg2_epu32 := msg2 |}.

#[export] Instance simd_model_spec : SimdSpec simd_model.
Proof.
  split; try done. intros a b k Hk. cbn [mm_alignr_epi8 simd_model].
  by rewrite Z.mul_comm, Z.div_mul.
Qed.

(** The machine the library runs on: what was detected, and its instructions. *)
Class Cpu := { cpu_features : opssl_cpu_features; cpu_simd :: Simd }.

(** A machine without any of the optional instructions, before detection. *)
Definition plain_cpu : Cpu := {| cpu_features := cpu_features_zero; cpu_simd := simd_model |}.

Definition opssl_has_avx2 `{Cpu} : bool := avx2 cpu_features.
Definition opssl_has_sha_ni `{Cpu} : bool := sha_ni cpu_features.

(* ------------------------------------------------------------------ *)
(** * Detection *)

Lemma bit_spec x n : 0 <= n -> bit x n = Z.testbit x n.
Proof.
  intros Hn. unfold bit. change 1 with (Z.ones 1). rewrite Z.land_ones by lia.
  change (2 ^ 1) with 2. rewrite Zmod_odd, <- Z.bit0_odd, Z.shiftr_spec, Z.add_0_l by lia.
  by destruct (Z.testbit x n).
Qed.

(** Nothing is reported by a CPU without CPUID leaf 1; AVX2 is reported only
    when the operating system saves the vector registers. *)
Lemma detect_x86_avx2 cpuid xgetbv :
  avx2 (detect_x86 cpuid xgetbv cpu_features_zero) = true ->
  7 <= eax (cpuid 0 0) /\ Z.testbit (ebx (cpuid 7 0)) 5 = true /\ Z.land (xgetbv 0) 6 = 6.
Proof.
  unfold detect_x86, xsave_enabled. intros H.
  destruct (_ <? 1); [done |]. destruct (Z.leb_spec 7 (eax (cpuid 0 0))); [| done].
  cbn [avx2] in H. rewrite bit_spec in H by lia. apply andb_true_iff in H as [H1 H2].
  split; [done | split; [done |]]. destruct (_ =? 0); [done |]. by apply Z.eqb_eq in H1.
Qed.
