(* ===== verification/MdHash.v ===== *)
(** The block buffering shared by the Merkle-Damgard hashes of src/crypto
    (sha1.c, sha256.c, sha512.c): absorbing whole blocks, the update path of
    sha256.c and sha512.c, the padding of all three, and the reference they are
    compared with (FIPS 180-4 padding folded over the blocks of the message). *)
From S2P Require Import Prelude Platform.
#[local] Open Scope Z_scope.

(* ------------------------------------------------------------------ *)
(** * Operations: [B] is the block size, [transform] the compression function *)

(** [while (len >= B) { transform(state, p); p += B; len -= B; }] *)
Definition block_loop_cond {St : Type} (B : nat) (s : St * list Z) : bool := (B <=? length s.2)%nat.

Definition block_loop_body {St : Type} (B : nat) (transform : St -> list Z -> St)
    (s : St * list Z) : St * list Z :=
  (transform s.1 (take B s.2), drop B s.2).

Definition block_loop {St : Type} (B : nat) (transform : St -> list Z -> St)
    (state : St) (p : list Z) : St * list Z :=
  default (state, p)
    (while_fuel (length p) (block_loop_cond B) (block_loop_body B transform) (state, p)).

(** The body of [update] after the counter: the new state and buffer. *)
Definition md_update {St : Type} (B : nat) (transform : St -> list Z -> St)
    (state : St) (buf : list Z) (buffered : nat) (p : list Z) : St * list Z :=
  let need := (B - buffered)%nat in
  if (0 <? buffered)%nat && (length p <? need)%nat then (state, splice buf buffered p)
  else
    let '(state, buf, p) :=
      if (0 <? buffered)%nat then
        let buf := splice buf buffered (take need p) in (transform state buf, buf, drop need p)
      else (state, buf, p) in
    let '(state, p) := block_loop B transform state p in
    if (0 <? length p)%nat then (state, splice buf 0 p) else (state, buf).

(** The padding of [final]: 0x80, zeros up to [lenpos], the length bytes. *)
Definition md_final {St : Type} (B lenpos : nat) (transform : St -> list Z -> St)
    (state : St) (buf : list Z) (buffered : nat) (lenbytes : list Z) : St :=
  let buf := <[buffered := 0x80]> buf in
  let buffered := S buffered in
  let '(state, buf, buffered) :=
    if (lenpos <? buffered)%nat then
      let buf := splice buf buffered (replicate (B - buffered) 0) in
      (transform state buf, buf, 0%nat)
    else (state, buf, buffered) in
  let buf := splice buf buffered (replicate (lenpos - buffered) 0) in
  let buf := splice buf lenpos lenbytes in
  transform state buf.

(* ------------------------------------------------------------------ *)
(** * The reference: blocks of a message, padding *)

(** The state after the whole blocks of [m]. *)
Definition absorb {St : Type} (B : nat) (transform : St -> list Z -> St) (s : St) (m : list Z) : St :=
  for_range 0 (length m / B) (fun i s => transform s (sub_list (i * B) B m)) s.

(** The bytes after the last whole block. *)
Definition remainder (B : nat) (m : list Z) : list Z := drop (B * (length m / B)) m.

(** 0x80, the least number of zeros that makes the total a multiple of [B],
    and the length field (which starts at [lenpos] of the last block). *)
Definition pad_zeros (B lenpos n : nat) : nat :=
  if (n mod B <? lenpos)%nat then lenpos - 1 - n mod B else lenpos + B - 1 - n mod B.

Definition md_pad (B lenpos : nat) (lenbytes m : list Z) : list Z :=
  m ++ 0x80 :: replicate (pad_zeros B lenpos (length m)) 0 ++ lenbytes.

(* ------------------------------------------------------------------ *)
(** * Lemmas *)

Section Blocks.
Context {St : Type} (B : nat) (HB : (0 < B)%nat) (transform : St -> list Z -> St).

Lemma absorb_short s m : (length m < B)%nat -> absorb B transform s m = s.
Proof. intros H. unfold absorb. by rewrite Nat.div_small. Qed.

Lemma absorb_cons s b m : length b = B ->
  absorb B transform s (b ++ m) = absorb B transform (transform s b) m.
Proof.
  intros Hb. unfold absorb. rewrite length_app, Hb.
  replace (B + length m)%nat with (1 * B + length m)%nat by lia.
  rewrite Nat.div_add_l by lia. cbn [Nat.add]. rewrite for_range_S.
  unfold sub_list at 2. rewrite Nat.mul_0_l, drop_0, take_app_length' by done.
  unfold for_range. rewrite <- seq_shift.
  generalize (transform s b) as t. generalize (seq 0 (length m / B)) as l.
  induction l as [| i l IH]; intros t; [done |]. cbn [map fold_left]. rewrite IH.
  unfold sub_list. cbn [Nat.mul]. by rewrite drop_app_add' by done.
Qed.

Lemma absorb_one s b : length b = B -> absorb B transform s b = transform s b.
Proof.
  intros Hb. rewrite <- (app_nil_r b) at 1. rewrite absorb_cons by done.
  by rewrite absorb_short.
Qed.

Lemma absorb_ind (P : St -> Prop) s m :
  P s -> (forall s b, P s -> P (transform s b)) -> P (absorb B transform s m).
Proof.
  intros H0 Ht. unfold absorb. by apply (for_range_ind (fun _ => P)); [| intros; apply Ht].
Qed.

(** Induction on the whole blocks of a message. *)
Lemma blocks_ind (P : list Z -> Prop) :
  (forall m, (length m < B)%nat -> P m) ->
  (forall b m, length b = B -> P m -> P (b ++ m)) -> forall m, P m.
Proof.
  intros Hs Hc m.
  remember (length m) as n eqn:Hn. revert m Hn. induction n as [n IH] using lt_wf_ind; intros m ->.
  destruct (decide (length m < B)%nat); [by apply Hs |].
  rewrite <- (take_drop B m). apply Hc; [rewrite length_take; lia |].
  eapply IH; [| reflexivity]. rewrite length_drop. lia.
Qed.

Lemma absorb_app s m1 m2 : (length m1 mod B = 0)%nat ->
  absorb B transform s (m1 ++ m2) = absorb B transform (absorb B transform s m1) m2.
Proof.
  revert s. induction m1 as [m1 H | b m1 Hb IH] using blocks_ind; intros s Hm.
  - rewrite Nat.mod_small in Hm by done. destruct m1; [| done]. cbn [app].
    by rewrite (absorb_short _ []) by done.
  - rewrite <- app_assoc, (absorb_cons _ b (m1 ++ m2)), (absorb_cons _ b m1) by done. apply IH.
    rewrite length_app, Hb, Nat.add_comm in Hm.
    rewrite <- Hm. replace B with (1 * B)%nat at 2 by lia. by rewrite Nat.Div0.mod_add.
Qed.

Lemma remainder_length (m : list Z) : length (remainder B m) = (length m mod B)%nat.
Proof. unfold remainder. rewrite length_drop. pose proof (Nat.div_mod_eq (length m) B). lia. Qed.

Lemma whole_length (m : list Z) : (length (take (B * (length m / B)) m) mod B = 0)%nat.
Proof.
  rewrite length_take, Nat.min_l.
  - rewrite Nat.mul_comm. apply Nat.Div0.mod_mul.
  - pose proof (Nat.div_mod_eq (length m) B). lia.
Qed.

Lemma whole_remainder (m : list Z) : take (B * (length m / B)) m ++ remainder B m = m.
Proof. apply take_drop. Qed.

Lemma remainder_lt m : (length (remainder B m) < B)%nat.
Proof. rewrite remainder_length. apply Nat.mod_upper_bound. lia. Qed.

Lemma absorb_whole s m : absorb B transform s (take (B * (length m / B)) m) = absorb B transform s m.
Proof.
  transitivity (absorb B transform s (take (B * (length m / B)) m ++ remainder B m)); [| by rewrite whole_remainder].
  rewrite absorb_app by apply whole_length.
  by rewrite (absorb_short _ (remainder B m)) by apply remainder_lt.
Qed.

(** Only the remainder of what was absorbed matters for what follows. *)
Lemma absorb_split s m d :
  absorb B transform s (m ++ d) = absorb B transform (absorb B transform s m) (remainder B m ++ d).
Proof.
  rewrite <- (whole_remainder m) at 1. rewrite <- app_assoc, absorb_app by apply whole_length.
  by rewrite absorb_whole.
Qed.

Lemma remainder_short (m : list Z) : (length m < B)%nat -> remainder B m = m.
Proof. intros. unfold remainder. by rewrite Nat.div_small, Nat.mul_0_r. Qed.

Lemma remainder_app_whole (m1 m2 : list Z) : (length m1 mod B = 0)%nat -> remainder B (m1 ++ m2) = remainder B m2.
Proof.
  intros H. unfold remainder. rewrite length_app.
  pose proof (Nat.div_mod_eq (length m1) B) as Hd. rewrite H, Nat.add_0_r in Hd.
  set (q := (length m1 / B)%nat) in *. clearbody q.
  assert ((length m1 + length m2) / B = q + length m2 / B)%nat as ->
    by (rewrite Hd, (Nat.mul_comm B), Nat.div_add_l; lia).
  rewrite drop_app_ge by lia. f_equal. lia.
Qed.

Lemma remainder_app m d : remainder B (m ++ d) = remainder B (remainder B m ++ d).
Proof.
  rewrite <- (whole_remainder m) at 1. rewrite <- app_assoc. apply remainder_app_whole, whole_length.
Qed.

Lemma remainder_cons b m : length b = B -> remainder B (b ++ m) = remainder B m.
Proof. intros H. apply remainder_app_whole. rewrite H. apply Nat.Div0.mod_same. Qed.

(** The loop over whole blocks terminates within one iteration per byte and
    absorbs them, leaving the remainder. *)
Lemma block_loop_fuel s p fuel : (length p <= fuel)%nat ->
  while_fuel fuel (block_loop_cond B) (block_loop_body B transform) (s, p) =
    Some (absorb B transform s p, remainder B p).
Proof.
  revert s fuel. induction p as [p Hs | b p Hb IH] using blocks_ind; intros s fuel Hf.
  - assert (block_loop_cond B (s, p) = false) as Hc by (apply Nat.leb_gt; done).
    rewrite absorb_short, remainder_short by done. destruct fuel; cbn [while_fuel]; by rewrite Hc.
  - rewrite length_app in Hf. destruct fuel as [| fuel]; [lia |]. cbn [while_fuel].
    assert (block_loop_cond B (s, b ++ p) = true) as ->.
    { apply Nat.leb_le. cbn [snd]. rewrite length_app. lia. }
    unfold block_loop_body at 2. cbn [fst snd]. rewrite take_app_length', drop_app_length' by done.
    rewrite IH by lia. by rewrite absorb_cons, remainder_cons.
Qed.

Lemma block_loop_spec s p : block_loop B transform s p = (absorb B transform s p, remainder B p).
Proof. unfold block_loop. by rewrite block_loop_fuel. Qed.

(* ---------------------------------------------------------------- *)

(** The state and buffer represent the message [m] hashed so far. *)
Definition md_rep (iv state : St) (buf m : list Z) : Prop :=
  state = absorb B transform iv m /\ length buf = B /\
  take (length m mod B) buf = remainder B m.

Lemma md_rep_nil iv buf : length buf = B -> md_rep iv iv buf [].
Proof.
  intros H. split; [by rewrite absorb_short by (cbn; lia) | split; [done |]].
  rewrite remainder_short by (cbn; lia). cbn [length]. by rewrite Nat.mod_small.
Qed.

(** A buffer whose first bytes are a new remainder. *)
Lemma md_rep_intro iv state buf m :
  state = absorb B transform iv m -> length buf = B ->
  take (length (remainder B m)) buf = remainder B m -> md_rep iv state buf m.
Proof. intros. split; [done | split; [done |]]. by rewrite <- remainder_length. Qed.

(** The common end of [update]: whole blocks, then the rest to the buffer. *)
Lemma update_tail iv state buf m q :
  absorb B transform iv m = absorb B transform state q -> remainder B m = remainder B q ->
  length buf = B ->
  let r := (let '(state, p) := block_loop B transform state q in
            if (0 <? length p)%nat then (state, splice buf 0 p) else (state, buf)) in
  md_rep iv r.1 r.2 m.
Proof.
  intros Habs Hrem Hl. cbn zeta. rewrite block_loop_spec. pose proof (remainder_lt q).
  destruct (Nat.ltb_spec 0 (length (remainder B q))) as [Hq | Hq]; cbn [fst snd];
    apply md_rep_intro; rewrite ?Habs, ?Hrem; try done.
  - rewrite splice_length; lia.
  - by rewrite <- (Nat.add_0_l (length (remainder B q))), splice_take by lia.
  - destruct (remainder B q); [done | cbn in Hq; lia].
Qed.

(** The last block of the padding: zeros from [k] to the length field. *)
Lemma pad_block buf k lenpos lenbytes :
  length buf = B -> (k <= lenpos)%nat -> (lenpos + length lenbytes = B)%nat ->
  splice (splice buf k (replicate (lenpos - k) 0)) lenpos lenbytes =
    take k buf ++ replicate (lenpos - k) 0 ++ lenbytes.
Proof.
  intros Hl Hk HL. set (z := replicate (lenpos - k) 0).
  assert (length z = lenpos - k)%nat as Hz by apply length_replicate.
  rewrite splice_end by (rewrite splice_length; lia).
  replace lenpos with (k + length z)%nat at 1 by lia. rewrite splice_take by lia.
  by rewrite <- app_assoc.
Qed.

Lemma mod_chunk n c : (c <= B - n mod B)%nat ->
  ((n + c) mod B = if n mod B + c =? B then 0 else n mod B + c)%nat.
Proof.
  intros Hc. pose proof (Nat.mod_upper_bound n B ltac:(lia)).
  rewrite <- Nat.Div0.add_mod_idemp_l. destruct (Nat.eqb_spec (n mod B + c) B) as [-> | He].
  - apply Nat.Div0.mod_same.
  - apply Nat.mod_small. lia.
Qed.

(** Copying a chunk that does not overflow the buffer, and compressing the
    buffer when it is full. *)
Lemma md_chunk_rep iv state buf m q :
  md_rep iv state buf m -> (length q <= B - length m mod B)%nat ->
  let buf' := splice buf (length m mod B) q in
  md_rep iv (if (length m mod B + length q =? B)%nat then transform state buf' else state) buf' (m ++ q).
Proof.
  intros (Hst & Hl & Hb) Hq. cbn zeta. pose proof (remainder_lt m) as Hlt.
  rewrite <- (remainder_length m) in *. set (r := remainder B m) in *. set (k := length r) in *.
  assert (length (splice buf k q) = B) as Hl' by (rewrite splice_length; lia).
  apply md_rep_intro; [rewrite absorb_split, <- Hst; fold r | done | rewrite remainder_app; fold r];
    destruct (Nat.eqb_spec (k + length q) B) as [He | He].
  - rewrite splice_end, Hb by lia. rewrite absorb_one; [done |]. rewrite length_app. lia.
  - rewrite absorb_short; [done |]. rewrite length_app. lia.
  - replace (r ++ q) with ((r ++ q) ++ []) by apply app_nil_r.
    rewrite remainder_cons by (rewrite length_app; lia). by rewrite remainder_short by (cbn; lia).
  - rewrite remainder_short by (rewrite length_app; lia). rewrite length_app. fold k.
    rewrite splice_take, Hb by lia. done.
Qed.

Lemma md_update_rep iv state buf m p :
  md_rep iv state buf m ->
  let r := md_update B transform state buf (length m mod B) p in md_rep iv r.1 r.2 (m ++ p).
Proof.
  intros (Hst & Hl & Hb). cbn zeta. pose proof (remainder_lt m) as Hlt.
  rewrite <- (remainder_length m) in *. unfold md_update.
  set (r := remainder B m) in *. set (k := length r) in *.
  assert (absorb B transform iv (m ++ p) = absorb B transform state (r ++ p)) as Habs
    by (rewrite Hst; apply absorb_split).
  pose proof (remainder_app m p) as Hrem. fold r in Hrem.
  assert (length (r ++ p) = k + length p)%nat as Hlen by apply length_app.
  destruct (Nat.ltb_spec 0 k) as [Hk | Hk]; cbn [andb].
  - destruct (Nat.ltb_spec (length p) (B - k)) as [Hp | Hp].
    + cbn [fst snd]. apply md_rep_intro; rewrite ?Habs, ?Hrem.
      * by rewrite absorb_short by lia.
      * rewrite splice_length; lia.
      * rewrite remainder_short by lia. rewrite Hlen, splice_take, Hb by lia. done.
    + set (b := splice buf k (take (B - k) p)).
      assert (b = r ++ take (B - k) p) as Hbe.
      { unfold b. rewrite splice_end, Hb by (rewrite length_take; lia). done. }
      assert (length b = B) as Hbl by (rewrite Hbe, length_app, length_take; lia).
      assert (r ++ p = b ++ drop (B - k) p) as Hrp by (rewrite Hbe, <- app_assoc, take_drop; done).
      rewrite Hrp, (absorb_cons _ b) in Habs by done. rewrite Hrp, (remainder_cons b) in Hrem by done.
      by apply update_tail.
  - assert (r = []) as Hr0 by (destruct r; [done | cbn in k; lia]). rewrite Hr0 in *. cbn [app] in *.
    by apply update_tail.
Qed.

(* ---------------------------------------------------------------- *)
(** ** Padding *)

Lemma md_pad_length lenpos lenbytes m : (lenpos + length lenbytes = B)%nat -> (0 < lenpos)%nat ->
  (length (md_pad B lenpos lenbytes m) mod B = 0)%nat.
Proof.
  intros HL Hp. unfold md_pad, pad_zeros. rewrite !length_app. cbn [length].
  rewrite length_app, length_replicate. pose proof (Nat.div_mod_eq (length m) B) as Hd.
  pose proof (Nat.mod_upper_bound (length m) B ltac:(lia)).
  set (q := (length m / B)%nat) in *. set (r := (length m mod B)%nat) in *. rewrite Hd.
  destruct (Nat.ltb_spec r lenpos).
  - replace (_ + _)%nat with ((q + 1) * B)%nat by lia. apply Nat.Div0.mod_mul.
  - replace (_ + _)%nat with ((q + 2) * B)%nat by lia. apply Nat.Div0.mod_mul.
Qed.

Lemma md_final_spec iv state buf m lenpos lenbytes :
  md_rep iv state buf m -> (0 < lenpos)%nat -> (lenpos + length lenbytes = B)%nat ->
  md_final B lenpos transform state buf (length m mod B) lenbytes =
    absorb B transform iv (md_pad B lenpos lenbytes m).
Proof.
  intros (Hst & Hl & Hb) Hp HL. unfold md_pad. rewrite absorb_split, <- Hst.
  pose proof (remainder_lt m) as Hlt. rewrite <- (remainder_length m) in *. unfold md_final, pad_zeros.
  rewrite <- (remainder_length m). set (r := remainder B m) in *. set (k := length r) in *.
  set (buf1 := <[k:=0x80]> buf).
  assert (take (S k) buf1 = r ++ [0x80]) as Hb1.
  { unfold buf1. rewrite insert_take_drop by lia.
    rewrite Hb. change (128 :: drop (S k) buf) with ([128] ++ drop (S k) buf). rewrite app_assoc.
    apply take_app_length'. rewrite length_app. cbn [length]. fold k. lia. }
  assert (length buf1 = B) as Hl1 by (unfold buf1; by rewrite length_insert).
  destruct (Nat.ltb_spec lenpos (S k)) as [Hk | Hk].
  - set (b1 := splice buf1 (S k) (replicate (B - S k) 0)).
    assert (b1 = r ++ 0x80 :: replicate (B - S k) 0) as Hb2.
    { unfold b1. rewrite splice_end, Hb1 by (rewrite length_replicate; lia). by rewrite <- app_assoc. }
    assert (length b1 = B) as Hlb1 by (rewrite Hb2, length_app; cbn [length]; rewrite length_replicate; lia).
    rewrite (proj2 (Nat.ltb_ge k lenpos)) by lia.
    replace (lenpos + B - 1 - k)%nat with ((B - S k) + lenpos)%nat by lia.
    rewrite replicate_add, <- app_assoc, app_comm_cons, app_assoc, <- Hb2, absorb_cons by done.
    rewrite pad_block by (done || lia). rewrite take_0, Nat.sub_0_r. cbn [app]. rewrite absorb_one; [done |]. rewrite length_app, length_replicate. lia.
  - rewrite (proj2 (Nat.ltb_lt k lenpos)) by lia. rewrite pad_block by (done || lia).
    rewrite Hb1, <- !app_assoc. cbn [app]. replace (lenpos - 1 - k)%nat with (lenpos - S k)%nat by lia.
    rewrite absorb_one; [done |]. rewrite length_app. cbn [length].
    rewrite length_app, length_replicate. fold k. lia.
Qed.
End Blocks.

Lemma absorb_ext {St : Type} B (t1 t2 : St -> list Z -> St) s m :
  (forall s b, t1 s b = t2 s b) -> absorb B t1 s m = absorb B t2 s m.
Proof. intros H. unfold absorb. apply for_range_ext. intros. apply H. Qed.
