(* ===== verification/HashApi.v ===== *)
(** The contract of a streaming hash, between the hashes (sha1.c, sha256.c,
    sha512.c) and their clients (hmac.c, keysched.c): [init], [update] and
    [final] on a context, whatever the context held before [init], compute a
    function [H] of the concatenation of the updates. *)
From S2P Require Import Prelude.
#[local] Open Scope Z_scope.

(** The operations.  [h_alloc] holds of any context the C compiler can have
    allocated (arrays of the declared sizes, whatever their contents). *)
Record hash_ops := HashOps {
  hctx : Type;
  h_alloc : hctx -> Prop;
  h_init : hctx -> hctx;
  h_update : hctx -> list Z -> hctx;
  h_final : hctx -> list Z * hctx }.

Class HashLaws (ops : hash_ops) (H : list Z -> list Z) (digest_len : nat) := {
  h_rep : hctx ops -> list Z -> Prop;
  h_init_rep c : h_alloc ops c -> h_rep (h_init ops c) [];
  h_update_rep c m d : size_ok d -> h_rep c m -> h_rep (h_update ops c d) (m ++ d);
  h_final_rep c m : h_rep c m -> (h_final ops c).1 = H m;
  h_final_alloc c m : h_rep c m -> h_alloc ops (h_final ops c).2;
  h_length m : length (H m) = digest_len;
  h_bytes m : bytes (H m) }.

Section Streaming.
Context {ops : hash_ops} {H : list Z -> list Z} {dlen : nat} {laws : HashLaws ops H dlen}.

Lemma h_updates_rep chunks : Forall size_ok chunks -> forall c m, h_rep c m ->
  h_rep (fold_left (h_update ops) chunks c) (m ++ concat chunks).
Proof.
  induction 1 as [| d ds Hd Hds IH]; intros c m Hc; cbn [fold_left concat].
  - by rewrite app_nil_r.
  - rewrite app_assoc. apply IH. by apply h_update_rep.
Qed.

(** Any split of the message into updates gives the hash of the message. *)
Lemma h_stream c chunks : h_alloc ops c -> Forall size_ok chunks ->
  (h_final ops (fold_left (h_update ops) chunks (h_init ops c))).1 = H (concat chunks).
Proof.
  intros Hc Hs. apply h_final_rep. apply (h_updates_rep chunks Hs _ []). by apply h_init_rep.
Qed.

Lemma h_oneshot c m : h_alloc ops c -> size_ok m -> (h_final ops (h_update ops (h_init ops c) m)).1 = H m.
Proof. intros Hc Hm. pose proof (h_stream c [m] Hc ltac:(by repeat constructor)) as E. cbn in E. by rewrite app_nil_r in E. Qed.

Lemma h_two c m1 m2 : h_alloc ops c -> size_ok m1 -> size_ok m2 ->
  (h_final ops (h_update ops (h_update ops (h_init ops c) m1) m2)).1 = H (m1 ++ m2).
Proof. intros Hc H1 H2. pose proof (h_stream c [m1; m2] Hc ltac:(by repeat constructor)) as E. cbn in E. by rewrite app_nil_r in E. Qed.
End Streaming.
