(* ===== verification/Sha256.v ===== *)
(** SHA-256: src/crypto/sha256.c and its hardware path src/crypto/sha256_ni.c.

    Software compression, the SHA-NI compression over the vector instructions of
    Cpu.v, their equivalence, and the streaming interface: whatever the split of
    the message, init/update/final is the compression folded over the blocks of
    the padded message. *)
From S2P Require Import Prelude Platform Cpu MdHash HashApi.
#[local] Open Scope Z_scope.

Definition OPSSL_SHA256_DIGEST_LEN : nat := 32.

Definition K256 : list Z := concat
  [[0x428a2f98; 0x71374491; 0xb5c0fbcf; 0xe9b5dba5];
   [0x3956c25b; 0x59f111f1; 0x923f82a4; 0xab1c5ed5];
   [0xd807aa98; 0x12835b01; 0x243185be; 0x550c7dc3];
   [0x72be5d74; 0x80deb1fe; 0x9bdc06a7; 0xc19bf174];
   [0xe49b69c1; 0xefbe4786; 0x0fc19dc6; 0x240ca1cc];
   [0x2de92c6f; 0x4a7484aa; 0x5cb0a9dc; 0x76f988da];
   [0x983e5152; 0xa831c66d; 0xb00327c8; 0xbf597fc7];
   [0xc6e00bf3; 0xd5a79147; 0x06ca6351; 0x14292967];
   [0x27b70a85; 0x2e1b2138; 0x4d2c6dfc; 0x53380d13];
   [0x650a7354; 0x766a0abb; 0x81c2c92e; 0x92722c85];
   [0xa2bfe8a1; 0xa81a664b; 0xc24b8b70; 0xc76c51a3];
   [0xd192e819; 0xd6990624; 0xf40e3585; 0x106aa070];
   [0x19a4c116; 0x1e376c08; 0x2748774c; 0x34b0bcb5];
   [0x391c0cb3; 0x4ed8aa4a; 0x5b9cca4f; 0x682e6ff3];
   [0x748f82ee; 0x78a5636f; 0x84c87814; 0x8cc70208];
   [0x90befffa; 0xa4506ceb; 0xbef9a3f7; 0xc67178f2]].

Definition ROR32 (x n : Z) : Z := Z.lor (Z.shiftr x n) (u32 (Z.shiftl x (32 - n))).
Definition CH (x y z : Z) : Z := Z.lxor (Z.land x y) (Z.land (Z.lnot x) z).
Definition MAJ (x y z : Z) : Z := Z.lxor (Z.lxor (Z.land x y) (Z.land x z)) (Z.land y z).
Definition EP0 (x : Z) : Z := Z.lxor (Z.lxor (ROR32 x 2) (ROR32 x 13)) (ROR32 x 22).
Definition EP1 (x : Z) : Z := Z.lxor (Z.lxor (ROR32 x 6) (ROR32 x 11)) (ROR32 x 25).
Definition SIG0 (x : Z) : Z := Z.lxor (Z.lxor (ROR32 x 7) (ROR32 x 18)) (Z.shiftr x 3).
Definition SIG1 (x : Z) : Z := Z.lxor (Z.lxor (ROR32 x 17) (ROR32 x 19)) (Z.shiftr x 10).

(* ------------------------------------------------------------------ *)
(** * Software compression *)

(** The working variables. *)
Record vars := mk_vars { va : Z; vb : Z; vc : Z; vd : Z; ve : Z; vf : Z; vg : Z; vh : Z }.

Definition sched_word (i : nat) (W : list Z) : Z :=
  u32 (SIG1 W.[i - 2] + W.[i - 7] + SIG0 W.[i - 15] + W.[i - 16]).

(** The array W after its two filling loops. *)
Definition sha256_schedule (block : list Z) : list Z :=
  fill sched_word 16 48 (fill (fun i _ => opssl_be32 (drop (i * 4) block)) 0 16 (replicate 64 0)).

Definition sha256_round (k w : Z) (v : vars) : vars :=
  let t1 := u32 (vh v + EP1 (ve v) + CH (ve v) (vf v) (vg v) + k + w) in
  let t2 := u32 (EP0 (va v) + MAJ (va v) (vb v) (vc v)) in
  mk_vars (u32 (t1 + t2)) (va v) (vb v) (vc v) (u32 (vd v + t1)) (ve v) (vf v) (vg v).

Definition vars_of (state : list Z) : vars :=
  mk_vars state.[0] state.[1] state.[2] state.[3] state.[4] state.[5] state.[6] state.[7].

(** [state[0] += a; ...] *)
Definition add_vars (state : list Z) (v : vars) : list Z :=
  [u32 (state.[0] + va v); u32 (state.[1] + vb v); u32 (state.[2] + vc v); u32 (state.[3] + vd v);
   u32 (state.[4] + ve v); u32 (state.[5] + vf v); u32 (state.[6] + vg v); u32 (state.[7] + vh v)].

Definition sha256_transform_software (state block : list Z) : list Z :=
  let W := sha256_schedule block in
  add_vars state (for_range 0 64 (fun i v => sha256_round K256.[i] W.[i] v) (vars_of state)).

(* ------------------------------------------------------------------ *)
(** * SHA-NI compression *)

Definition load_be32 (p : list Z) : Z :=
  Z.lor (Z.lor (Z.lor (Z.shiftl p.[0] 24) (Z.shiftl p.[1] 16)) (Z.shiftl p.[2] 8)) p.[3].

Section NI.
Context `{Simd}.

(** The registers of the round loop. *)
Record ni_state := mk_ni { state0 : m128; state1 : m128; m0 : m128; m1 : m128; m2 : m128; m3 : m128 }.

Definition k_at (i : nat) : m128 := mk128 K256.[i] K256.[i + 1] K256.[i + 2] K256.[i + 3].

(** Four rounds with the message words of [msg]. *)
Definition ni_rounds4 (i : nat) (msg : m128) (s : m128 * m128) : m128 * m128 :=
  let '(state0, state1) := s in
  let tmp := mm_add_epi32 msg (k_at i) in
  let state1 := mm_sha256rnds2_epu32 state1 state0 tmp in
  let tmp := mm_unpackhi_epi64 tmp tmp in
  let state0 := mm_sha256rnds2_epu32 state0 state1 tmp in
  (state0, state1).

(** One iteration of the loop over rounds 16..63. *)
Definition ni_loop_body (round : nat) (s : ni_state) : ni_state :=
  let msg0 := mm_sha256msg1_epu32 (m0 s) (m1 s) in
  let tmp := mm_alignr_epi8 (m3 s) (m2 s) 4 in
  let msg0 := mm_add_epi32 msg0 tmp in
  let msg0 := mm_sha256msg2_epu32 msg0 (m3 s) in
  let '(s0, s1) := ni_rounds4 round msg0 (state0 s, state1 s) in
  mk_ni s0 s1 (m1 s) (m2 s) (m3 s) msg0.

Definition load_msg (data : list Z) (o : nat) : m128 :=
  mk128 (load_be32 (drop o data)) (load_be32 (drop (o + 4) data))
        (load_be32 (drop (o + 8) data)) (load_be32 (drop (o + 12) data)).

(** One block, on the interleaved state (ABEF, CDGH). *)
Definition ni_block (data : list Z) (s : m128 * m128) : m128 * m128 :=
  let msg0 := load_msg data 0 in
  let msg1 := load_msg data 16 in
  let msg2 := load_msg data 32 in
  let msg3 := load_msg data 48 in
  let r := ni_rounds4 12 msg3 (ni_rounds4 8 msg2 (ni_rounds4 4 msg1 (ni_rounds4 0 msg0 s))) in
  let r := for_range 0 12 (fun j => ni_loop_body (16 + 4 * j))
             (mk_ni r.1 r.2 msg0 msg1 msg2 msg3) in
  (mm_add_epi32 (state0 r) s.1, mm_add_epi32 (state1 r) s.2).

Definition opssl_sha256_ni_transform (state data : list Z) (nblocks : nat) : list Z :=
  let t0 := mk128 state.[0] state.[1] state.[2] state.[3] in
  let t1 := mk128 state.[4] state.[5] state.[6] state.[7] in
  let t0 := mm_shuffle_epi32 t0 0xB1 in
  let t1 := mm_shuffle_epi32 t1 0x1B in
  let state0 := mm_alignr_epi8 t0 t1 8 in
  let state1 := mm_blend_epi16 t1 t0 0xF0 in
  let '(state0, state1) :=
    for_range 0 nblocks (fun block => ni_block (drop (64 * block) data)) (state0, state1) in
  let t0 := mm_shuffle_epi32 state0 0x1B in
  let state1 := mm_shuffle_epi32 state1 0xB1 in
  let state0 := mm_blend_epi16 t0 state1 0xF0 in
  let state1 := mm_alignr_epi8 state1 t0 8 in
  [l0 state0; l1 state0; l2 state0; l3 state0; l0 state1; l1 state1; l2 state1; l3 state1].
End NI.

(* ------------------------------------------------------------------ *)
(** * The streaming interface *)

Definition sha256_transform `{Cpu} (state block : list Z) : list Z :=
  if opssl_has_sha_ni then opssl_sha256_ni_transform state block 1
  else sha256_transform_software state block.

Record opssl_sha256_ctx := mk_sha256_ctx { state : list Z; count : Z; buf : list Z }.

Definition sha256_iv : list Z :=
  [0x6a09e667; 0xbb67ae85; 0x3c6ef372; 0xa54ff53a; 0x510e527f; 0x9b05688c; 0x1f83d9ab; 0x5be0cd19].

(** Only [state] and [count] are set: the buffer keeps what was there. *)
Definition opssl_sha256_init (ctx : opssl_sha256_ctx) : opssl_sha256_ctx :=
  {| state := sha256_iv; count := 0; buf := buf ctx |}.

Definition opssl_sha256_update `{Cpu} (ctx : opssl_sha256_ctx) (data : list Z) : opssl_sha256_ctx :=
  let buffered := Z.to_nat (Z.land (count ctx) 63) in
  let r := md_update 64 sha256_transform (state ctx) (buf ctx) buffered data in
  {| state := r.1; count := u64 (count ctx + Z.of_nat (length data)); buf := r.2 |}.

(** A context cleared by [opssl_memzero]. *)
Definition sha256_ctx_zero : opssl_sha256_ctx :=
  {| state := replicate 8 0; count := 0; buf := replicate 64 0 |}.

Definition opssl_sha256_final `{Cpu} (ctx : opssl_sha256_ctx) : list Z * opssl_sha256_ctx :=
  let bits := u64 (count ctx * 8) in
  let buffered := Z.to_nat (Z.land (count ctx) 63) in
  let state := md_final 64 56 sha256_transform (state ctx) (buf ctx) buffered (opssl_put_be64 bits) in
  (flat_map opssl_put_be32 state, sha256_ctx_zero).

(** [ctx] is the uninitialised local of the C function. *)
Definition opssl_sha256 `{Cpu} (ctx : opssl_sha256_ctx) (data : list Z) : list Z :=
  (opssl_sha256_final (opssl_sha256_update (opssl_sha256_init ctx) data)).1.

(* ------------------------------------------------------------------ *)
(** * The message schedule *)

Lemma schedule_first block i : (i < 16)%nat -> (sha256_schedule block).[i] = opssl_be32 (drop (i * 4) block).
Proof.
  intros Hi. unfold sha256_schedule. rewrite fill_other by lia.
  rewrite fill_spec; [done | done | lia | rewrite length_replicate; lia].
Qed.

(** The schedule satisfies the FIPS 180-4 recurrence. *)
Lemma schedule_rec block i : (16 <= i < 64)%nat ->
  (sha256_schedule block).[i] = sched_word i (sha256_schedule block).
Proof.
  intros Hi. unfold sha256_schedule. apply fill_spec; [| lia |].
  - intros j W W' Hj16 Hj. unfold sched_word. rewrite !Hj by lia. done.
  - rewrite fill_length, length_replicate. lia.
Qed.

(* ------------------------------------------------------------------ *)
(** * The hardware path computes the same function *)

(** The interleaved layout of the working variables. *)
Definition abef (v : vars) : m128 := mk128 (vf v) (ve v) (vb v) (va v).
Definition cdgh (v : vars) : m128 := mk128 (vh v) (vg v) (vd v) (vc v).

(** The variables after [n] software rounds. *)
Definition rounds (W : list Z) (n : nat) (v : vars) : vars :=
  for_range 0 n (fun i v => sha256_round K256.[i] W.[i] v) v.

(** Four words of the schedule in a register. *)
Definition words (W : list Z) (i : nat) : m128 := mk128 W.[i] W.[i + 1] W.[i + 2] W.[i + 3].

Lemma sigma0_eq x : sigma0 x = SIG0 x. Proof. done. Qed.
Lemma sigma1_eq x : sigma1 x = SIG1 x. Proof. done. Qed.

Lemma rnds1_round v w k : rnds1 (cdgh v, abef v) (u32 (w + k)) =
  (cdgh (sha256_round k w v), abef (sha256_round k w v)).
Proof.
  unfold rnds1, rnds_A, rnds_E. destruct v as [a b c d e f g h].
  cbn [cdgh abef l0 l1 l2 l3 va vb vc vd ve vf vg vh sha256_round].
  change (Ch e f g) with (CH e f g). change (Sigma1 e) with (EP1 e).
  change (Maj a b c) with (MAJ a b c). change (Sigma0 a) with (EP0 a).
  f_equal. unfold abef, sha256_round; cbn [vf ve vb va vh vg vc vd]. f_equal; wrap_sum.
Qed.

Section Equivalence.
Context {simd : Simd} {SP : SimdSpec simd}.

Lemma ni_rounds4_spec W i v :
  ni_rounds4 i (words W i) (abef (rounds W i v), cdgh (rounds W i v)) =
    (abef (rounds W (i + 4) v), cdgh (rounds W (i + 4) v)).
Proof.
  unfold ni_rounds4, rounds. replace (i + 4)%nat with (S (S (S (S i)))) by lia.
  rewrite !for_range_snoc. cbn [Nat.add]. set (u := for_range 0 i _ v).
  rewrite !rnds2_spec, unpackhi_spec, add_spec.
  unfold map128, k_at, words, rnds2; cbn [l0 l1 l2 l3].
  replace (i + 1)%nat with (S i) by lia. replace (i + 2)%nat with (S (S i)) by lia.
  replace (i + 3)%nat with (S (S (S i))) by lia. rewrite !rnds1_round. cbn [snd].
  set (u2 := sha256_round K256.[S i] _ (sha256_round _ _ u)).
  change (abef u) with (cdgh u2). by rewrite !rnds1_round.
Qed.

(** A schedule: an array satisfying the recurrence. *)
Definition schedule_ok (W : list Z) : Prop := forall i, (16 <= i < 64)%nat -> W.[i] = sched_word i W.

Lemma schedule_step W i j16 j15 j7 j2 : schedule_ok W ->
  (i < 64 /\ j16 + 16 = i /\ j15 + 15 = i /\ j7 + 7 = i /\ j2 + 2 = i)%nat ->
  u32 (u32 (u32 (W.[j16] + SIG0 W.[j15]) + W.[j7]) + SIG1 W.[j2]) = W.[i].
Proof.
  intros HW Hi. rewrite (HW i) by lia. unfold sched_word.
  replace (i - 16)%nat with j16 by lia. replace (i - 15)%nat with j15 by lia.
  replace (i - 7)%nat with j7 by lia. replace (i - 2)%nat with j2 by lia.
  generalize (SIG0 W.[j15]), (SIG1 W.[j2]), W.[j16], W.[j7]. intros. wrap_sum.
Qed.

Lemma message_lanes a0 a1 a2 a3 b0 b1 b2 b3 c0 c1 c2 c3 d0 d1 d2 d3 :
  let e0 := u32 (u32 (u32 (a0 + sigma0 a1) + c0) + sigma1 d2) in
  let e1 := u32 (u32 (u32 (a1 + sigma0 a2) + c1) + sigma1 d3) in
  msg2 (map128 (fun x y => u32 (x + y)) (msg1 (mk128 a0 a1 a2 a3) (mk128 b0 b1 b2 b3)) (mk128 c0 c1 c2 c3))
    (mk128 d0 d1 d2 d3) =
  mk128 e0 e1 (u32 (u32 (u32 (a2 + sigma0 a3) + c2) + sigma1 e0))
    (u32 (u32 (u32 (a3 + sigma0 b0) + c3) + sigma1 e1)).
Proof. reflexivity. Qed.

Lemma ni_message_spec W i : schedule_ok W -> (i + 19 < 64)%nat ->
  mm_sha256msg2_epu32
    (mm_add_epi32 (mm_sha256msg1_epu32 (words W i) (words W (i + 4)))
       (mm_alignr_epi8 (words W (i + 12)) (words W (i + 8)) 4)) (words W (i + 12)) =
    words W (i + 16).
Proof.
  intros HW Hi. rewrite msg2_spec, add_spec, msg1_spec.
  change 4 with (4 * 1). rewrite alignr_spec by lia.
  rewrite alignr_lanes_1. unfold words; cbn [l0 l1 l2 l3]. rewrite message_lanes.
  rewrite !sigma0_eq, !sigma1_eq.
  rewrite <- !Nat.add_assoc. cbn [Nat.add].
  rewrite (schedule_step W (i + 16)), (schedule_step W (i + 17)), (schedule_step W (i + 18)),
    (schedule_step W (i + 19)) by (done || lia). done.
Qed.

(** The loop over rounds 16..63 keeps the working variables and the last
    sixteen words of the schedule. *)
Lemma ni_loop_spec W v n : schedule_ok W -> (n <= 12)%nat ->
  for_range 0 n (fun j => ni_loop_body (16 + 4 * j))
    (mk_ni (abef (rounds W 16 v)) (cdgh (rounds W 16 v)) (words W 0) (words W 4) (words W 8) (words W 12)) =
  mk_ni (abef (rounds W (4 * n + 16) v)) (cdgh (rounds W (4 * n + 16) v))
    (words W (4 * n)) (words W (4 * n + 4)) (words W (4 * n + 8)) (words W (4 * n + 12)).
Proof.
  intros HW Hn. induction n as [| n IH]; [done |].
  rewrite for_range_snoc, IH by lia. cbn [Nat.add]. unfold ni_loop_body; cbn [m0 m1 m2 m3 state0 state1].
  rewrite ni_message_spec by (done || lia).
  replace (S (S (S (S (S (S (S (S (S (S (S (S (S (S (S (S (4 * n)))))))))))))))))
    with (4 * n + 16)%nat by lia.
  rewrite ni_rounds4_spec. f_equal; f_equal; try lia; f_equal; lia.
Qed.

Lemma load_msg_words block o : (o + 3 < 16)%nat ->
  load_msg block (4 * o) = words (sha256_schedule block) o.
Proof.
  intros Ho. unfold load_msg, words. rewrite !schedule_first by lia.
  replace ((o + 1) * 4)%nat with (4 * o + 4)%nat by lia. replace ((o + 2) * 4)%nat with (4 * o + 8)%nat by lia.
  replace ((o + 3) * 4)%nat with (4 * o + 12)%nat by lia. by rewrite (Nat.mul_comm o).
Qed.

Lemma ni_first_rounds W v :
  ni_rounds4 12 (words W 12) (ni_rounds4 8 (words W 8) (ni_rounds4 4 (words W 4)
    (ni_rounds4 0 (words W 0) (abef v, cdgh v)))) = (abef (rounds W 16 v), cdgh (rounds W 16 v)).
Proof.
  change (abef v, cdgh v) with (abef (rounds W 0 v), cdgh (rounds W 0 v)).
  by rewrite (ni_rounds4_spec W 0), (ni_rounds4_spec W 4), (ni_rounds4_spec W 8), (ni_rounds4_spec W 12).
Qed.

Lemma ni_block_spec block v :
  let W := sha256_schedule block in
  let add x y := map128 (fun x y => u32 (x + y)) x y in
  ni_block block (abef v, cdgh v) =
    (add (abef (rounds W 64 v)) (abef v), add (cdgh (rounds W 64 v)) (cdgh v)).
Proof.
  intros W add. unfold ni_block.
  change (load_msg block 0) with (load_msg block (4 * 0)).
  change (load_msg block 16) with (load_msg block (4 * 4)).
  change (load_msg block 32) with (load_msg block (4 * 8)).
  change (load_msg block 48) with (load_msg block (4 * 12)).
  rewrite !load_msg_words by lia. fold W.
  assert (schedule_ok W) as HW by (intros i Hi; by apply schedule_rec). clearbody W.
  rewrite ni_first_rounds. cbn [fst snd]. rewrite (ni_loop_spec W v 12) by (done || lia).
  cbn [state0 state1].
  by rewrite !add_spec.
Qed.

Lemma shuffle_B1 a : mm_shuffle_epi32 a 0xB1 = mk128 (l1 a) (l0 a) (l3 a) (l2 a).
Proof. by rewrite shuffle_spec. Qed.

Lemma shuffle_1B a : mm_shuffle_epi32 a 0x1B = mk128 (l3 a) (l2 a) (l1 a) (l0 a).
Proof. by rewrite shuffle_spec. Qed.

Lemma alignr_8 a b : mm_alignr_epi8 a b 8 = mk128 (l2 b) (l3 b) (l0 a) (l1 a).
Proof. change 8 with (4 * 2). by rewrite alignr_spec by lia. Qed.

(** The SHA-NI compression of one block is the software compression, for
    any instructions with the documented behaviour. *)
Lemma sha256_ni_block st block :
  opssl_sha256_ni_transform st block 1 = sha256_transform_software st block.
Proof.
  unfold opssl_sha256_ni_transform, sha256_transform_software.
  rewrite !shuffle_B1, !shuffle_1B, !alignr_8, !blend_spec. cbn [l0 l1 l2 l3].
  set (v := vars_of st). change (mk128 st.[5] st.[4] st.[1] st.[0]) with (abef v).
  change (mk128 st.[7] st.[6] st.[3] st.[2]) with (cdgh v).
  rewrite for_range_S, for_range_0. change (drop (64 * 0) block) with block.
  rewrite ni_block_spec. cbn zeta. rewrite !shuffle_B1, !shuffle_1B, !alignr_8, !blend_spec.
  unfold map128, abef, cdgh, add_vars; cbn [l0 l1 l2 l3].
  fold (rounds (sha256_schedule block) 64 v). generalize (rounds (sha256_schedule block) 64 v).
  intros u. unfold v, vars_of; cbn [va vb vc vd ve vf vg vh].
  by rewrite (Z.add_comm (va u)), (Z.add_comm (vb u)), (Z.add_comm (vc u)), (Z.add_comm (vd u)),
    (Z.add_comm (ve u)), (Z.add_comm (vf u)), (Z.add_comm (vg u)), (Z.add_comm (vh u)).
Qed.
End Equivalence.

(* ------------------------------------------------------------------ *)
(** * Streaming *)

(** FIPS 180-4: the compression folded over the blocks of the padded message. *)
Definition SHA256 (m : list Z) : list Z :=
  flat_map (be_bytes 4)
    (absorb 64 sha256_transform_software sha256_iv
       (md_pad 64 56 (be_bytes 8 (8 * Z.of_nat (length m))) m)).

Lemma sha256_transform_sw `{Cpu} {SP : SimdSpec cpu_simd} st block :
  sha256_transform st block = sha256_transform_software st block.
Proof. unfold sha256_transform. case_if; [| done]. apply sha256_ni_block. Qed.

Lemma transform_length st block : length (sha256_transform_software st block) = 8%nat.
Proof. done. Qed.

Section Streaming.
Context `{Cpu}.

Definition sha256_alloc (ctx : opssl_sha256_ctx) : Prop := length (buf ctx) = 64%nat.

(** The context after hashing [m]. *)
Definition sha256_rep (ctx : opssl_sha256_ctx) (m : list Z) : Prop :=
  md_rep 64 sha256_transform sha256_iv (state ctx) (buf ctx) m /\ count ctx = u64 (Z.of_nat (length m)).

Lemma buffered_spec n : Z.to_nat (Z.land (u64 (Z.of_nat n)) 63) = (n mod 64)%nat.
Proof. change 63 with (Z.ones (Z.of_nat 6)). rewrite land_counter by lia. apply Nat2Z.id. Qed.

Lemma sha256_init_rep ctx : sha256_alloc ctx -> sha256_rep (opssl_sha256_init ctx) [].
Proof. intros Ha. split; [| done]. by apply md_rep_nil; [lia |]. Qed.

Lemma sha256_update_rep ctx m d : sha256_rep ctx m -> sha256_rep (opssl_sha256_update ctx d) (m ++ d).
Proof.
  intros [Hr Hc]. unfold opssl_sha256_update. rewrite Hc, buffered_spec. split; cbn [state buf count].
  - by apply md_update_rep; [lia |].
  - rewrite length_app, Nat2Z.inj_add. wrap_sum.
Qed.

Lemma sha256_final_rep ctx m : sha256_rep ctx m ->
  (opssl_sha256_final ctx).1 =
    flat_map (be_bytes 4) (absorb 64 sha256_transform sha256_iv
      (md_pad 64 56 (be_bytes 8 (8 * Z.of_nat (length m))) m)).
Proof.
  intros [Hr Hc]. unfold opssl_sha256_final. cbn [fst]. rewrite Hc, buffered_spec.
  rewrite put_be64_bytes, (md_final_spec 64 ltac:(lia) _ _ _ _ m) by (done || lia).
  rewrite (be_bytes_wrap 8 _ (8 * Z.of_nat (length m))).
  - generalize (absorb 64 sha256_transform). intros f. by induction (f _ _) as [| x l IH];
      [| cbn [flat_map]; rewrite IH, put_be32_bytes].
  - change (256 ^ Z.of_nat 8) with 18446744073709551616. wrap_sum.
Qed.
End Streaming.

Definition sha256_ops `{Cpu} : hash_ops :=
  HashOps opssl_sha256_ctx sha256_alloc opssl_sha256_init opssl_sha256_update opssl_sha256_final.

#[export] Instance sha256_laws `{Cpu} {SP : SimdSpec cpu_simd} : HashLaws sha256_ops SHA256 32.
Proof.
  refine {| h_rep := sha256_rep : hctx sha256_ops -> list Z -> Prop |}.
  - apply sha256_init_rep.
  - intros. by apply sha256_update_rep.
  - intros ctx m Hr. change (h_final sha256_ops ctx) with (opssl_sha256_final ctx).
    rewrite (sha256_final_rep ctx m) by done. unfold SHA256.
    by rewrite (absorb_ext _ _ _ _ _ sha256_transform_sw).
  - done.
  - intros m. unfold SHA256. rewrite flat_map_be_length.
    rewrite (absorb_ind 64 sha256_transform_software (fun s => length s = 8%nat)); done.
  - intros m. apply flat_map_be_bytes.
Defined.

(** C19: whatever the split of the message into updates, and whatever the
    context and the CPU's path, SHA-256 is the compression function folded over
    the blocks of the padded message (the bit length is taken modulo 2^64). *)
Theorem sha256_streaming `{Cpu} (SP : SimdSpec cpu_simd) ctx chunks :
  sha256_alloc ctx -> Forall size_ok chunks ->
  (opssl_sha256_final (fold_left opssl_sha256_update chunks (opssl_sha256_init ctx))).1 =
    SHA256 (concat chunks).
Proof. exact (@h_stream sha256_ops SHA256 32 sha256_laws ctx chunks). Qed.

(** The two-block NIST message, in three pieces, on a CPU with SHA-NI. *)
Lemma sha256_streaming_witness :
  let cpu := {| cpu_features := mk_features false false false true false false false false false false false;
                cpu_simd := simd_model |} in
  let m1 := map Z.of_nat (seq 97 26) in let m2 := [] in let m3 := map Z.of_nat (seq 65 50) in
  (opssl_sha256_final (fold_left opssl_sha256_update [m1; m2; m3]
     (opssl_sha256_init {| state := []; count := 5; buf := replicate 64 170 |}))).1 = SHA256 (m1 ++ m3).
Proof.
  cbv zeta. apply (sha256_streaming (H := {| cpu_features :=
      mk_features false false false true false false false false false false false; cpu_simd := simd_model |})
    simd_model_spec {| state := []; count := 5; buf := replicate 64 170 |}
    [map Z.of_nat (seq 97 26); []; map Z.of_nat (seq 65 50)]); [reflexivity |].
  repeat constructor; vm_compute; discriminate.
Defined.

(** The hardware path and the software path of the dispatch agree on every
    state and block, for instructions with the documented behaviour. *)
Theorem sha256_ni_equiv `{Simd} (SP : SimdSpec _) st block :
  opssl_sha256_ni_transform st block 1 = sha256_transform_software st block.
Proof. apply sha256_ni_block. Qed.

Lemma sha256_ni_equiv_witness :
  opssl_sha256_ni_transform sha256_iv (replicate 64 7) 1 = sha256_transform_software sha256_iv (replicate 64 7).
Proof. apply (sha256_ni_equiv simd_model_spec). Defined.

(** FIPS 180-2 appendix B.1. *)
Example sha256_abc :
  be_val (SHA256 [97; 98; 99]) = 0xba7816bf8f01cfea414140de5dae2223b00361a396177a9cb410ff61f20015ad.
Proof. vm_compute. reflexivity. Qed.
