(* ===== verification/Sha512.v ===== *)
(** SHA-384 and SHA-512: src/crypto/sha512.c.

    The byte counter is two 64-bit words with a carry; the theorems cover its
    wrap-around at 2^128 bytes. *)
From S2P Require Import Prelude Platform MdHash HashApi.
#[local] Open Scope Z_scope.

Definition OPSSL_SHA384_DIGEST_LEN : nat := 48.
Definition OPSSL_SHA512_DIGEST_LEN : nat := 64.

Definition K512 : list Z := concat
  [[0x428a2f98d728ae22; 0x7137449123ef65cd; 0xb5c0fbcfec4d3b2f; 0xe9b5dba58189dbbc];
   [0x3956c25bf348b538; 0x59f111f1b605d019; 0x923f82a4af194f9b; 0xab1c5ed5da6d8118];
   [0xd807aa98a3030242; 0x12835b0145706fbe; 0x243185be4ee4b28c; 0x550c7dc3d5ffb4e2];
   [0x72be5d74f27b896f; 0x80deb1fe3b1696b1; 0x9bdc06a725c71235; 0xc19bf174cf692694];
   [0xe49b69c19ef14ad2; 0xefbe4786384f25e3; 0x0fc19dc68b8cd5b5; 0x240ca1cc77ac9c65];
   [0x2de92c6f592b0275; 0x4a7484aa6ea6e483; 0x5cb0a9dcbd41fbd4; 0x76f988da831153b5];
   [0x983e5152ee66dfab; 0xa831c66d2db43210; 0xb00327c898fb213f; 0xbf597fc7beef0ee4];
   [0xc6e00bf33da88fc2; 0xd5a79147930aa725; 0x06ca6351e003826f; 0x142929670a0e6e70];
   [0x27b70a8546d22ffc; 0x2e1b21385c26c926; 0x4d2c6dfc5ac42aed; 0x53380d139d95b3df];
   [0x650a73548baf63de; 0x766a0abb3c77b2a8; 0x81c2c92e47edaee6; 0x92722c851482353b];
   [0xa2bfe8a14cf10364; 0xa81a664bbc423001; 0xc24b8b70d0f89791; 0xc76c51a30654be30];
   [0xd192e819d6ef5218; 0xd69906245565a910; 0xf40e35855771202a; 0x106aa07032bbd1b8];
   [0x19a4c116b8d2d0c8; 0x1e376c085141ab53; 0x2748774cdf8eeb99; 0x34b0bcb5e19b48a8];
   [0x391c0cb3c5c95a63; 0x4ed8aa4ae3418acb; 0x5b9cca4f7763e373; 0x682e6ff3d6b2b8a3];
   [0x748f82ee5defb2fc; 0x78a5636f43172f60; 0x84c87814a1f0ab72; 0x8cc702081a6439ec];
   [0x90befffa23631e28; 0xa4506cebde82bde9; 0xbef9a3f7b2c67915; 0xc67178f2e372532b];
   [0xca273eceea26619c; 0xd186b8c721c0c207; 0xeada7dd6cde0eb1e; 0xf57d4f7fee6ed178];
   [0x06f067aa72176fba; 0x0a637dc5a2c898a6; 0x113f9804bef90dae; 0x1b710b35131c471b];
   [0x28db77f523047d84; 0x32caab7b40c72493; 0x3c9ebe0a15c9bebc; 0x431d67c49c100d4c];
   [0x4cc5d4becb3e42b6; 0x597f299cfc657e2a; 0x5fcb6fab3ad6faec; 0x6c44198c4a475817]].

Definition ROR64 (x n : Z) : Z := Z.lor (Z.shiftr x n) (u64 (Z.shiftl x (64 - n))).
Definition CH (x y z : Z) : Z := Z.lxor (Z.land x y) (Z.land (Z.lnot x) z).
Definition MAJ (x y z : Z) : Z := Z.lxor (Z.lxor (Z.land x y) (Z.land x z)) (Z.land y z).
Definition EP0 (x : Z) : Z := Z.lxor (Z.lxor (ROR64 x 28) (ROR64 x 34)) (ROR64 x 39).
Definition EP1 (x : Z) : Z := Z.lxor (Z.lxor (ROR64 x 14) (ROR64 x 18)) (ROR64 x 41).
Definition SIG0 (x : Z) : Z := Z.lxor (Z.lxor (ROR64 x 1) (ROR64 x 8)) (Z.shiftr x 7).
Definition SIG1 (x : Z) : Z := Z.lxor (Z.lxor (ROR64 x 19) (ROR64 x 61)) (Z.shiftr x 6).

(** The working variables. *)
Record vars := mk_vars { va : Z; vb : Z; vc : Z; vd : Z; ve : Z; vf : Z; vg : Z; vh : Z }.

Definition sched_word (i : nat) (W : list Z) : Z :=
  u64 (SIG1 W.[i - 2] + W.[i - 7] + SIG0 W.[i - 15] + W.[i - 16]).

Definition sha512_schedule (block : list Z) : list Z :=
  fill sched_word 16 64 (fill (fun i _ => opssl_be64 (drop (i * 8) block)) 0 16 (replicate 80 0)).

Definition sha512_round (k w : Z) (v : vars) : vars :=
  let t1 := u64 (vh v + EP1 (ve v) + CH (ve v) (vf v) (vg v) + k + w) in
  let t2 := u64 (EP0 (va v) + MAJ (va v) (vb v) (vc v)) in
  mk_vars (u64 (t1 + t2)) (va v) (vb v) (vc v) (u64 (vd v + t1)) (ve v) (vf v) (vg v).

Definition vars_of (state : list Z) : vars :=
  mk_vars state.[0] state.[1] state.[2] state.[3] state.[4] state.[5] state.[6] state.[7].

Definition add_vars (state : list Z) (v : vars) : list Z :=
  [u64 (state.[0] + va v); u64 (state.[1] + vb v); u64 (state.[2] + vc v); u64 (state.[3] + vd v);
   u64 (state.[4] + ve v); u64 (state.[5] + vf v); u64 (state.[6] + vg v); u64 (state.[7] + vh v)].

Definition sha512_transform (state block : list Z) : list Z :=
  let W := sha512_schedule block in
  add_vars state (for_range 0 80 (fun i v => sha512_round K512.[i] W.[i] v) (vars_of state)).

Record opssl_sha512_ctx := mk_sha512_ctx { state : list Z; count0 : Z; count1 : Z; buf : list Z }.

Definition sha512_iv : list Z :=
  [0x6a09e667f3bcc908; 0xbb67ae8584caa73b; 0x3c6ef372fe94f82b; 0xa54ff53a5f1d36f1;
   0x510e527fade682d1; 0x9b05688c2b3e6c1f; 0x1f83d9abfb41bd6b; 0x5be0cd19137e2179].

Definition sha384_iv : list Z :=
  [0xcbbb9d5dc1059ed8; 0x629a292a367cd507; 0x9159015a3070dd17; 0x152fecd8f70e5939;
   0x67332667ffc00b31; 0x8eb44a8768581511; 0xdb0c2e0d64f98fa7; 0x47b5481dbefa4fa4].

Definition opssl_sha512_init (ctx : opssl_sha512_ctx) : opssl_sha512_ctx :=
  {| state := sha512_iv; count0 := 0; count1 := 0; buf := buf ctx |}.

Definition opssl_sha384_init (ctx : opssl_sha512_ctx) : opssl_sha512_ctx :=
  {| state := sha384_iv; count0 := 0; count1 := 0; buf := buf ctx |}.

Definition opssl_sha512_update (ctx : opssl_sha512_ctx) (data : list Z) : opssl_sha512_ctx :=
  let len := Z.of_nat (length data) in
  let buffered := Z.to_nat (Z.land (count0 ctx) 127) in
  let c0 := u64 (count0 ctx + len) in
  let c1 := if c0 <? len then u64 (count1 ctx + 1) else count1 ctx in
  let r := md_update 128 sha512_transform (state ctx) (buf ctx) buffered data in
  {| state := r.1; count0 := c0; count1 := c1; buf := r.2 |}.

Definition sha512_ctx_zero : opssl_sha512_ctx :=
  {| state := replicate 8 0; count0 := 0; count1 := 0; buf := replicate 128 0 |}.

Definition opssl_sha512_final (ctx : opssl_sha512_ctx) : list Z * opssl_sha512_ctx :=
  let bits_lo := u64 (count0 ctx * 8) in
  let bits_hi := u64 (count1 ctx * 8 + Z.shiftr (count0 ctx) 61) in
  let buffered := Z.to_nat (Z.land (count0 ctx) 127) in
  let state := md_final 128 112 sha512_transform (state ctx) (buf ctx) buffered
                 (opssl_put_be64 bits_hi ++ opssl_put_be64 bits_lo) in
  (flat_map opssl_put_be64 state, sha512_ctx_zero).

Definition opssl_sha384_final (ctx : opssl_sha512_ctx) : list Z * opssl_sha512_ctx :=
  let '(full, ctx) := opssl_sha512_final ctx in
  (take OPSSL_SHA384_DIGEST_LEN full, ctx).

Definition opssl_sha512 (ctx : opssl_sha512_ctx) (data : list Z) : list Z :=
  (opssl_sha512_final (opssl_sha512_update (opssl_sha512_init ctx) data)).1.

Definition opssl_sha384 (ctx : opssl_sha512_ctx) (data : list Z) : list Z :=
  (opssl_sha384_final (opssl_sha512_update (opssl_sha384_init ctx) data)).1.

(* ------------------------------------------------------------------ *)
(** * Streaming *)

Definition absorb512 (iv m : list Z) : list Z :=
  flat_map (be_bytes 8)
    (absorb 128 sha512_transform iv (md_pad 128 112 (be_bytes 16 (8 * Z.of_nat (length m))) m)).

Definition SHA512 (m : list Z) : list Z := absorb512 sha512_iv m.
Definition SHA384 (m : list Z) : list Z := take 48 (absorb512 sha384_iv m).

Definition sha512_alloc (ctx : opssl_sha512_ctx) : Prop := length (buf ctx) = 128%nat.

(** The context after hashing [m] from [iv]: the counter is modulo 2^128. *)
Definition sha512_rep (iv : list Z) (ctx : opssl_sha512_ctx) (m : list Z) : Prop :=
  md_rep 128 sha512_transform iv (state ctx) (buf ctx) m /\
  count0 ctx = u64 (Z.of_nat (length m)) /\ count1 ctx = u64 (Z.of_nat (length m) / 2 ^ 64).

Lemma buffered512_spec n : Z.to_nat (Z.land (u64 (Z.of_nat n)) 127) = (n mod 128)%nat.
Proof. change 127 with (Z.ones (Z.of_nat 7)). rewrite land_counter by lia. apply Nat2Z.id. Qed.

(** The carry into the high word. *)
Lemma count_carry n d : 0 <= n -> 0 <= d < 2 ^ 64 ->
  (if u64 (u64 n + d) <? d then u64 (u64 (n / 2 ^ 64) + 1) else u64 (n / 2 ^ 64)) =
    u64 ((n + d) / 2 ^ 64).
Proof.
  intros Hn Hd. pose proof (Z.div_mod n (2 ^ 64) ltac:(lia)) as Hdm.
  assert (u64 n = n mod 2 ^ 64) as Hu by done. pose proof (u64_range n) as Hr. rewrite Hu in *.
  set (q := n / 2 ^ 64) in *. set (r := n mod 2 ^ 64) in *.
  replace (n + d) with (q * 2 ^ 64 + (r + d)) by lia. rewrite Z.div_add_l by lia.
  destruct (Z.lt_ge_cases (r + d) (2 ^ 64)).
  - rewrite (Z.div_small (r + d)), Z.add_0_r by lia. unfold u64 at 1. rewrite (Z.mod_small (r + d)) by lia.
    by rewrite (proj2 (Z.ltb_ge _ _)) by lia.
  - replace ((r + d) / 2 ^ 64) with 1 by (apply Z.div_unique with (r + d - 2 ^ 64); lia).
    replace (u64 (r + d)) with (r + d - 2 ^ 64)
      by (unfold u64; apply Z.mod_unique_pos with 1; lia).
    rewrite (proj2 (Z.ltb_lt _ _)) by lia. wrap_sum.
Qed.

Lemma sha512_init_rep iv ctx : sha512_alloc ctx ->
  sha512_rep iv {| state := iv; count0 := 0; count1 := 0; buf := buf ctx |} [].
Proof. intros Ha. split; [| done]. by apply md_rep_nil; [lia |]. Qed.

Lemma sha512_update_rep iv ctx m d : size_ok d ->
  sha512_rep iv ctx m -> sha512_rep iv (opssl_sha512_update ctx d) (m ++ d).
Proof.
  unfold size_ok, SIZE_MAX. intros Hd (Hr & H0 & H1). unfold opssl_sha512_update. rewrite H0, H1, buffered512_spec.
  split; [| split]; cbn [state buf count0 count1].
  - by apply md_update_rep; [lia |].
  - rewrite length_app, Nat2Z.inj_add. wrap_sum.
  - rewrite length_app, Nat2Z.inj_add. apply count_carry; lia.
Qed.

(** The two length words are the 16-byte bit length. *)
Lemma length_words n : 0 <= n ->
  opssl_put_be64 (u64 (u64 (n / 2 ^ 64) * 8 + Z.shiftr (u64 n) 61)) ++ opssl_put_be64 (u64 (u64 n * 8)) =
    be_bytes 16 (8 * n).
Proof.
  intros Hn. rewrite !put_be64_bytes. change 16%nat with (8 + 8)%nat.
  rewrite be_bytes_split. change (256 ^ Z.of_nat 8) with (2 ^ 64). f_equal; apply be_bytes_wrap;
    change (256 ^ Z.of_nat 8) with 18446744073709551616; [| wrap_sum].
  assert (8 * n / 2 ^ 64 = n / 2 ^ 64 * 8 + Z.shiftr (u64 n) 61) as ->; [| wrap_sum].
  rewrite shiftr_div by lia. unfold u64. change 18446744073709551616 with (2 ^ 64).
  Z.to_euclidean_division_equations. lia.
Qed.

Lemma sha512_final_rep iv ctx m : sha512_rep iv ctx m -> (opssl_sha512_final ctx).1 = absorb512 iv m.
Proof.
  intros (Hr & H0 & H1). unfold opssl_sha512_final. cbn [fst]. rewrite H0, H1, buffered512_spec.
  rewrite length_words by lia.
  rewrite (md_final_spec 128 ltac:(lia) _ iv _ _ m) by (done || lia). unfold absorb512.
  generalize (absorb 128 sha512_transform). intros f. by induction (f _ _) as [| x l IH];
    [| cbn [flat_map]; rewrite IH, put_be64_bytes].
Qed.

Lemma absorb512_length iv m : length iv = 8%nat -> length (absorb512 iv m) = 64%nat.
Proof.
  intros. unfold absorb512. rewrite flat_map_be_length.
  by rewrite (absorb_ind 128 sha512_transform (fun s => length s = 8%nat)).
Qed.

Definition sha512_ops : hash_ops :=
  HashOps opssl_sha512_ctx sha512_alloc opssl_sha512_init opssl_sha512_update opssl_sha512_final.

Definition sha384_ops : hash_ops :=
  HashOps opssl_sha512_ctx sha512_alloc opssl_sha384_init opssl_sha512_update opssl_sha384_final.

#[export] Instance sha512_laws : HashLaws sha512_ops SHA512 64.
Proof.
  refine {| h_rep := sha512_rep sha512_iv : hctx sha512_ops -> list Z -> Prop |}.
  - apply sha512_init_rep.
  - intros. by apply sha512_update_rep.
  - apply sha512_final_rep.
  - done.
  - intros m. by apply absorb512_length.
  - intros m. apply flat_map_be_bytes.
Defined.

#[export] Instance sha384_laws : HashLaws sha384_ops SHA384 48.
Proof.
  refine {| h_rep := sha512_rep sha384_iv : hctx sha384_ops -> list Z -> Prop |}.
  - apply sha512_init_rep.
  - intros. by apply sha512_update_rep.
  - intros ctx m Hr. cbn [h_final sha384_ops]. unfold opssl_sha384_final.
    rewrite (surjective_pairing (opssl_sha512_final ctx)). cbn [fst].
    by rewrite (sha512_final_rep sha384_iv ctx m).
  - done.
  - intros m. unfold SHA384. by rewrite length_take, absorb512_length.
  - intros m. apply bytes_take, flat_map_be_bytes.
Defined.

(** SHA-512 and SHA-384, whatever the split into updates and the previous
    contents of the context, are the compression folded over the blocks of the
    message padded with its 128-bit length. *)
Theorem sha512_streaming ctx chunks :
  sha512_alloc ctx -> Forall size_ok chunks ->
  (opssl_sha512_final (fold_left opssl_sha512_update chunks (opssl_sha512_init ctx))).1 =
    SHA512 (concat chunks) /\
  (opssl_sha384_final (fold_left opssl_sha512_update chunks (opssl_sha384_init ctx))).1 =
    SHA384 (concat chunks).
Proof.
  intros Ha Hs. split.
  - exact (@h_stream sha512_ops SHA512 64 sha512_laws ctx chunks Ha Hs).
  - exact (@h_stream sha384_ops SHA384 48 sha384_laws ctx chunks Ha Hs).
Qed.

Lemma sha512_streaming_witness :
  let c := {| state := []; count0 := 9; count1 := 1; buf := replicate 128 1 |} in
  let ms := [replicate 100 65; []; replicate 70 66] in
  (opssl_sha512_final (fold_left opssl_sha512_update ms (opssl_sha512_init c))).1 = SHA512 (concat ms) /\
  (opssl_sha384_final (fold_left opssl_sha512_update ms (opssl_sha384_init c))).1 = SHA384 (concat ms).
Proof.
  cbv zeta. apply sha512_streaming; [reflexivity |].
  repeat constructor; vm_compute; discriminate.
Defined.

(** FIPS 180-2 appendices C.1 and D.1. *)
Example sha512_abc : be_val (SHA512 [97; 98; 99]) =
  0xddaf35a193617abacc417349ae20413112e6fa4e89a97ea20a9eeee64b55d39a2192992a274fc1a836ba3c23a3feebbd454d4423643ce80e2a9ac94fa54ca49f.
Proof. vm_compute. reflexivity. Qed.

Example sha384_abc : be_val (SHA384 [97; 98; 99]) =
  0xcb00753f45a35e8bb5a03d699ac65007272c32ab0eded1631a8b605a43ff5bed8086072ba1e7cc2358baeca134c825a7.
Proof. vm_compute. reflexivity. Qed.
