(* ===== verification/Sha1.v ===== *)
(** SHA-1: src/crypto/sha1.c.  Unlike the other hashes it keeps a bit count and
    the fill of its block, and its update loop copies one chunk at a time. *)
From S2P Require Import Prelude Platform MdHash HashApi.
#[local] Open Scope Z_scope.

Definition OPSSL_SHA1_DIGEST_LEN : nat := 20.

Definition SHA1_K0 : Z := 0x5A827999.
Definition SHA1_K1 : Z := 0x6ED9EBA1.
Definition SHA1_K2 : Z := 0x8F1BBCDC.
Definition SHA1_K3 : Z := 0xCA62C1D6.

Definition sha1_iv : list Z := [0x67452301; 0xEFCDAB89; 0x98BADCFE; 0x10325476; 0xC3D2E1F0].

Definition rotleft (value shift : Z) : Z :=
  Z.lor (u32 (Z.shiftl value shift)) (Z.shiftr value (32 - shift)).
Definition ch (x y z : Z) : Z := Z.lxor (Z.land x y) (Z.land (Z.lnot x) z).
Definition parity (x y z : Z) : Z := Z.lxor (Z.lxor x y) z.
Definition maj (x y z : Z) : Z := Z.lxor (Z.lxor (Z.land x y) (Z.land x z)) (Z.land y z).

Definition sched_word (t : nat) (w : list Z) : Z :=
  rotleft (Z.lxor (Z.lxor (Z.lxor w.[t - 3] w.[t - 8]) w.[t - 14]) w.[t - 16]) 1.

Definition sha1_schedule (block : list Z) : list Z :=
  fill sched_word 16 64 (fill (fun t _ => opssl_be32 (drop (t * 4) block)) 0 16 (replicate 80 0)).

(** The working variables. *)
Record vars := mk_vars { va : Z; vb : Z; vc : Z; vd : Z; ve : Z }.

Definition sha1_round (w : list Z) (t : nat) (v : vars) : vars :=
  let '(f, k) :=
    if (t <? 20)%nat then (ch (vb v) (vc v) (vd v), SHA1_K0)
    else if (t <? 40)%nat then (parity (vb v) (vc v) (vd v), SHA1_K1)
    else if (t <? 60)%nat then (maj (vb v) (vc v) (vd v), SHA1_K2)
    else (parity (vb v) (vc v) (vd v), SHA1_K3) in
  let temp := u32 (rotleft (va v) 5 + f + ve v + k + w.[t]) in
  mk_vars temp (va v) (rotleft (vb v) 30) (vc v) (vd v).

(** The new value of [ctx->h] from [ctx->h] and [ctx->block]. *)
Definition sha1_transform (h block : list Z) : list Z :=
  let w := sha1_schedule block in
  let v := for_range 0 80 (sha1_round w) (mk_vars h.[0] h.[1] h.[2] h.[3] h.[4]) in
  [u32 (h.[0] + va v); u32 (h.[1] + vb v); u32 (h.[2] + vc v); u32 (h.[3] + vd v); u32 (h.[4] + ve v)].

Record opssl_sha1_ctx_t := mk_sha1_ctx { h : list Z; block : list Z; bitcount : Z; block_len : nat }.

Definition opssl_sha1_init (ctx : opssl_sha1_ctx_t) : opssl_sha1_ctx_t :=
  {| h := sha1_iv; block := block ctx; bitcount := 0; block_len := 0 |}.

(** One iteration of the copying loop on the context and the remaining input. *)
Definition update_body (s : opssl_sha1_ctx_t * list Z) : opssl_sha1_ctx_t * list Z :=
  let '(ctx, p) := s in
  let remaining := length p in
  let chunk := (64 - block_len ctx)%nat in
  let chunk := if (remaining <? chunk)%nat then remaining else chunk in
  let block := splice (block ctx) (block_len ctx) (take chunk p) in
  let block_len := (block_len ctx + chunk)%nat in
  let p := drop chunk p in
  if (block_len =? 64)%nat then
    ({| h := sha1_transform (h ctx) block; block := block; bitcount := bitcount ctx; block_len := 0 |}, p)
  else ({| h := h ctx; block := block; bitcount := bitcount ctx; block_len := block_len |}, p).

Definition update_cond (s : opssl_sha1_ctx_t * list Z) : bool := (0 <? length s.2)%nat.

Definition opssl_sha1_update (ctx : opssl_sha1_ctx_t) (data : list Z) : opssl_sha1_ctx_t :=
  let ctx := {| h := h ctx; block := block ctx;
                bitcount := u64 (bitcount ctx + u64 (Z.of_nat (length data) * 8));
                block_len := block_len ctx |} in
  fst (default (ctx, data) (while_fuel (length data) update_cond update_body (ctx, data))).

Definition sha1_ctx_zero : opssl_sha1_ctx_t :=
  {| h := replicate 5 0; block := replicate 64 0; bitcount := 0; block_len := 0 |}.

Definition opssl_sha1_final (ctx : opssl_sha1_ctx_t) : list Z * opssl_sha1_ctx_t :=
  let h := md_final 64 56 sha1_transform (h ctx) (block ctx) (block_len ctx) (opssl_put_be64 (bitcount ctx)) in
  (flat_map opssl_put_be32 h, sha1_ctx_zero).

Definition opssl_sha1 (ctx : opssl_sha1_ctx_t) (data : list Z) : list Z :=
  (opssl_sha1_final (opssl_sha1_update (opssl_sha1_init ctx) data)).1.

(* ------------------------------------------------------------------ *)
(** * Streaming *)

Definition SHA1 (m : list Z) : list Z :=
  flat_map (be_bytes 4)
    (absorb 64 sha1_transform sha1_iv (md_pad 64 56 (be_bytes 8 (8 * Z.of_nat (length m))) m)).

Definition sha1_alloc (ctx : opssl_sha1_ctx_t) : Prop := length (block ctx) = 64%nat.

(** The state and block represent [m]. *)
Definition sha1_holds (ctx : opssl_sha1_ctx_t) (m : list Z) : Prop :=
  md_rep 64 sha1_transform sha1_iv (h ctx) (block ctx) m /\ block_len ctx = (length m mod 64)%nat.

Definition sha1_rep (ctx : opssl_sha1_ctx_t) (m : list Z) : Prop :=
  sha1_holds ctx m /\ bitcount ctx = u64 (8 * Z.of_nat (length m)).

Lemma sha1_init_rep ctx : sha1_alloc ctx -> sha1_rep (opssl_sha1_init ctx) [].
Proof. intros Ha. split; [split; [| done] | done]. by apply md_rep_nil; [lia |]. Qed.

(** One chunk: copied to the block, which is compressed when full. *)
Lemma update_body_holds ctx m p :
  sha1_holds ctx m -> p <> [] ->
  exists q p' ctx', update_body (ctx, p) = (ctx', p') /\ p = q ++ p' /\ (length p' < length p)%nat /\
    sha1_holds ctx' (m ++ q) /\ bitcount ctx' = bitcount ctx.
Proof.
  intros [Hr Hbl] Hp. assert (0 < length p)%nat as Hp0 by (destruct p; [done | cbn; lia]).
  pose proof (Nat.mod_upper_bound (length m) 64 ltac:(lia)) as Hlt.
  cbn [update_body]. set (c := if (_ <? _)%nat then _ else _).
  assert (c <= length p /\ c <= 64 - length m mod 64 /\ 0 < c)%nat as (Hc1 & Hc2 & Hc0).
  { unfold c. rewrite Hbl. destruct (Nat.ltb_spec (length p) (64 - length m mod 64)); lia. }
  exists (take c p), (drop c p). pose proof (md_chunk_rep 64 ltac:(lia) _ _ _ _ m (take c p) Hr) as Hq.
  rewrite length_take, Nat.min_l in Hq by lia. specialize (Hq ltac:(lia)). rewrite <- Hbl in Hq.
  pose proof (mod_chunk 64 ltac:(lia) (length m) c Hc2) as Hmod. rewrite <- Hbl in Hmod.
  assert (length (m ++ take c p) = length m + c)%nat as Hl by (rewrite length_app, length_take; lia).
  destruct (Nat.eqb_spec (block_len ctx + c) 64) as [He | He]; eexists; (split; [reflexivity |]);
    (split; [by rewrite take_drop |]); (split; [rewrite length_drop; lia |]);
    (split; [split; cbn [h block block_len]; [exact Hq | by rewrite Hl] | done]).
Qed.

(** The loop terminates within one iteration per byte, having hashed them all. *)
Lemma update_loop_holds fuel ctx m p : sha1_holds ctx m -> (length p <= fuel)%nat ->
  exists ctx', while_fuel fuel update_cond update_body (ctx, p) = Some (ctx', []) /\
    sha1_holds ctx' (m ++ p) /\ bitcount ctx' = bitcount ctx.
Proof.
  revert ctx m p. induction fuel as [| fuel IH]; intros ctx m p Hr Hf.
  - destruct p; [| cbn in Hf; lia]. exists ctx. by rewrite app_nil_r.
  - destruct (decide (p = [])) as [-> | Hp]; [exists ctx; by rewrite app_nil_r |].
    destruct (update_body_holds ctx m p Hr Hp) as (q & p' & ctx1 & Hb & -> & Hl & Hr1 & Hc1).
    destruct (IH ctx1 (m ++ q) p' Hr1) as (ctx2 & Hw & Hr2 & Hc2); [lia |].
    exists ctx2. cbn [while_fuel]. unfold update_cond at 1. cbn [snd].
    rewrite (proj2 (Nat.ltb_lt 0 _)) by lia. rewrite Hb, Hw. rewrite <- app_assoc in Hr2.
    split; [done | split; [done |]]. by rewrite Hc2.
Qed.

Lemma sha1_update_rep ctx m d : sha1_rep ctx m -> sha1_rep (opssl_sha1_update ctx d) (m ++ d).
Proof.
  intros [Hr Hc]. unfold opssl_sha1_update. set (ctx1 := mk_sha1_ctx _ _ _ _).
  destruct (update_loop_holds (length d) ctx1 m d Hr ltac:(lia)) as (ctx2 & Hw & Hr2 & Hc2).
  rewrite Hw. change (sha1_rep ctx2 (m ++ d)). split; [done |]. rewrite Hc2. unfold ctx1; cbn [bitcount].
  rewrite Hc, length_app, Nat2Z.inj_add. wrap_sum.
Qed.

Lemma sha1_final_rep ctx m : sha1_rep ctx m -> (opssl_sha1_final ctx).1 = SHA1 m.
Proof.
  intros [[Hr Hb] Hc]. unfold opssl_sha1_final. cbn [fst]. rewrite Hc, Hb.
  rewrite put_be64_bytes, (md_final_spec 64 ltac:(lia) _ sha1_iv _ _ m) by (done || lia). unfold SHA1.
  rewrite (be_bytes_wrap 8 _ (8 * Z.of_nat (length m))).
  - generalize (absorb 64 sha1_transform). intros f. by induction (f _ _) as [| x l IH];
      [| cbn [flat_map]; rewrite IH, put_be32_bytes].
  - change (256 ^ Z.of_nat 8) with 18446744073709551616. wrap_sum.
Qed.

Definition sha1_ops : hash_ops :=
  HashOps opssl_sha1_ctx_t sha1_alloc opssl_sha1_init opssl_sha1_update opssl_sha1_final.

#[export] Instance sha1_laws : HashLaws sha1_ops SHA1 20.
Proof.
  refine {| h_rep := sha1_rep : hctx sha1_ops -> list Z -> Prop |}.
  - apply sha1_init_rep.
  - intros. by apply sha1_update_rep.
  - apply sha1_final_rep.
  - done.
  - intros m. unfold SHA1. rewrite flat_map_be_length.
    by rewrite (absorb_ind 64 sha1_transform (fun s => length s = 5%nat)).
  - intros m. apply flat_map_be_bytes.
Defined.

(** SHA-1's chunked update, whatever the split into updates and the previous
    contents of the context, is the compression folded over the blocks of the
    padded message; its loop always terminates. *)
Theorem sha1_streaming ctx chunks :
  sha1_alloc ctx -> Forall size_ok chunks ->
  (opssl_sha1_final (fold_left opssl_sha1_update chunks (opssl_sha1_init ctx))).1 = SHA1 (concat chunks).
Proof. exact (@h_stream sha1_ops SHA1 20 sha1_laws ctx chunks). Qed.

Lemma sha1_streaming_witness :
  let c := {| h := []; block := replicate 64 3; bitcount := 5; block_len := 60 |} in
  let ms := [replicate 60 65; replicate 70 66; []; [67]] in
  (opssl_sha1_final (fold_left opssl_sha1_update ms (opssl_sha1_init c))).1 = SHA1 (concat ms).
Proof.
  cbv zeta. apply sha1_streaming; [reflexivity |]. repeat constructor; vm_compute; discriminate.
Defined.

(** FIPS 180-2 appendix A.1. *)
Example sha1_abc : be_val (SHA1 [97; 98; 99]) = 0xa9993e364706816aba3e25717850c26c9cd0d89d.
Proof. vm_compute. reflexivity. Qed.
