(* ===== verification/Hmac.v ===== *)
(** HMAC: src/crypto/hmac.c, against RFC 2104.

    The hash contexts are used through the operations of the three hash files;
    the proofs use only their contract (HashApi.v).  Uninitialised locals are
    the cleared contexts: the hashes' theorems show their contents do not
    matter. *)
From S2P Require Import Prelude Platform Cpu HashApi Sha1 Sha256 Sha512.
#[local] Open Scope Z_scope.

Definition HMAC_MAX_BLOCK_SIZE : nat := 128.

Inductive opssl_hmac_algo_t := OPSSL_HMAC_SHA256 | OPSSL_HMAC_SHA384 | OPSSL_HMAC_SHA512 | OPSSL_HMAC_SHA1.

#[export] Instance hmac_algo_dec : EqDecision opssl_hmac_algo_t.
Proof. solve_decision. Defined.

(** The union of the inner contexts: only the member [algo] selects is used. *)
Record inner_ctx := mk_inner {
  in_sha1 : opssl_sha1_ctx_t; in_sha256 : opssl_sha256_ctx; in_sha512 : opssl_sha512_ctx }.

Record opssl_hmac_ctx := mk_hmac_ctx {
  algo : opssl_hmac_algo_t; key_pad : list Z; inner : inner_ctx; block_size : nat; digest_size : nat }.

Definition get_block_size (a : opssl_hmac_algo_t) : nat :=
  match a with
  | OPSSL_HMAC_SHA1 => 64 | OPSSL_HMAC_SHA256 => 64 | OPSSL_HMAC_SHA384 => 128 | OPSSL_HMAC_SHA512 => 128
  end.

Definition get_digest_size (a : opssl_hmac_algo_t) : nat :=
  match a with
  | OPSSL_HMAC_SHA1 => OPSSL_SHA1_DIGEST_LEN | OPSSL_HMAC_SHA256 => OPSSL_SHA256_DIGEST_LEN
  | OPSSL_HMAC_SHA384 => OPSSL_SHA384_DIGEST_LEN | OPSSL_HMAC_SHA512 => OPSSL_SHA512_DIGEST_LEN
  end.

Section Hmac.
Context `{Cpu}.

Definition set_sha1 (i : inner_ctx) c := mk_inner c (in_sha256 i) (in_sha512 i).
Definition set_sha256 (i : inner_ctx) c := mk_inner (in_sha1 i) c (in_sha512 i).
Definition set_sha512 (i : inner_ctx) c := mk_inner (in_sha1 i) (in_sha256 i) c.

Definition inner_zero : inner_ctx := mk_inner sha1_ctx_zero sha256_ctx_zero sha512_ctx_zero.

(** [None] is a NULL key. *)
Definition opssl_hmac_init (a : opssl_hmac_algo_t) (key : option (list Z)) : option opssl_hmac_ctx :=
  match key with
  | None => None
  | Some key =>
    let block_size := get_block_size a in
    let digest_size := get_digest_size a in
    let key_block := replicate HMAC_MAX_BLOCK_SIZE 0 in
    let key_block :=
      if (block_size <? length key)%nat then
        match a with
        | OPSSL_HMAC_SHA1 => splice key_block 0 (opssl_sha1 sha1_ctx_zero key)
        | OPSSL_HMAC_SHA256 => splice key_block 0 (opssl_sha256 sha256_ctx_zero key)
        | OPSSL_HMAC_SHA384 => splice key_block 0 (opssl_sha384 sha512_ctx_zero key)
        | OPSSL_HMAC_SHA512 => splice key_block 0 (opssl_sha512 sha512_ctx_zero key)
        end
      else splice key_block 0 key in
    let ipad := map (fun i => Z.lxor key_block.[i] 0x36) (seq 0 block_size) in
    let key_pad := splice (replicate 128 0) 0 (map (fun i => Z.lxor key_block.[i] 0x5c) (seq 0 block_size)) in
    let inner :=
      match a with
      | OPSSL_HMAC_SHA1 => set_sha1 inner_zero (opssl_sha1_update (opssl_sha1_init (in_sha1 inner_zero)) ipad)
      | OPSSL_HMAC_SHA256 => set_sha256 inner_zero (opssl_sha256_update (opssl_sha256_init (in_sha256 inner_zero)) ipad)
      | OPSSL_HMAC_SHA384 => set_sha512 inner_zero (opssl_sha512_update (opssl_sha384_init (in_sha512 inner_zero)) ipad)
      | OPSSL_HMAC_SHA512 => set_sha512 inner_zero (opssl_sha512_update (opssl_sha512_init (in_sha512 inner_zero)) ipad)
      end in
    Some (mk_hmac_ctx a key_pad inner block_size digest_size)
  end.

Definition opssl_hmac_update (ctx : opssl_hmac_ctx) (data : list Z) : opssl_hmac_ctx :=
  let i := inner ctx in
  let i := match algo ctx with
           | OPSSL_HMAC_SHA1 => set_sha1 i (opssl_sha1_update (in_sha1 i) data)
           | OPSSL_HMAC_SHA256 => set_sha256 i (opssl_sha256_update (in_sha256 i) data)
           | OPSSL_HMAC_SHA384 | OPSSL_HMAC_SHA512 => set_sha512 i (opssl_sha512_update (in_sha512 i) data)
           end in
  mk_hmac_ctx (algo ctx) (key_pad ctx) i (block_size ctx) (digest_size ctx).

(** The digest, its length, and the context (the inner hash is cleared). *)
Definition opssl_hmac_final (ctx : opssl_hmac_ctx) : list Z * nat * opssl_hmac_ctx :=
  let i := inner ctx in
  let '(inner_hash, i) :=
    match algo ctx with
    | OPSSL_HMAC_SHA1 => let '(h, c) := opssl_sha1_final (in_sha1 i) in (h, set_sha1 i c)
    | OPSSL_HMAC_SHA256 => let '(h, c) := opssl_sha256_final (in_sha256 i) in (h, set_sha256 i c)
    | OPSSL_HMAC_SHA384 => let '(h, c) := opssl_sha384_final (in_sha512 i) in (h, set_sha512 i c)
    | OPSSL_HMAC_SHA512 => let '(h, c) := opssl_sha512_final (in_sha512 i) in (h, set_sha512 i c)
    end in
  let opad := take (block_size ctx) (key_pad ctx) in
  let ih := take (digest_size ctx) inner_hash in
  let out :=
    match algo ctx with
    | OPSSL_HMAC_SHA1 =>
      (opssl_sha1_final (opssl_sha1_update (opssl_sha1_update (opssl_sha1_init sha1_ctx_zero) opad) ih)).1
    | OPSSL_HMAC_SHA256 =>
      (opssl_sha256_final (opssl_sha256_update (opssl_sha256_update (opssl_sha256_init sha256_ctx_zero) opad) ih)).1
    | OPSSL_HMAC_SHA384 =>
      (opssl_sha384_final (opssl_sha512_update (opssl_sha512_update (opssl_sha384_init sha512_ctx_zero) opad) ih)).1
    | OPSSL_HMAC_SHA512 =>
      (opssl_sha512_final (opssl_sha512_update (opssl_sha512_update (opssl_sha512_init sha512_ctx_zero) opad) ih)).1
    end in
  (out, digest_size ctx, mk_hmac_ctx (algo ctx) (key_pad ctx) i (block_size ctx) (digest_size ctx)).

(** [opssl_memzero(ctx, sizeof *ctx)]: the algorithm with value 0 is SHA-256. *)
Definition opssl_hmac_cleanup (ctx : opssl_hmac_ctx) : opssl_hmac_ctx :=
  mk_hmac_ctx OPSSL_HMAC_SHA256 (replicate 128 0) inner_zero 0 0.

(** The digest and its length; [None] is a return of 0. *)
Definition opssl_hmac (a : opssl_hmac_algo_t) (key : option (list Z)) (data : list Z) : option (list Z * nat) :=
  match opssl_hmac_init a key with
  | None => None
  | Some ctx => Some (opssl_hmac_final (opssl_hmac_update ctx data)).1
  end.
End Hmac.

(* ------------------------------------------------------------------ *)
(** * RFC 2104 *)

Definition hash_of (a : opssl_hmac_algo_t) : list Z -> list Z :=
  match a with
  | OPSSL_HMAC_SHA1 => SHA1 | OPSSL_HMAC_SHA256 => SHA256 | OPSSL_HMAC_SHA384 => SHA384 | OPSSL_HMAC_SHA512 => SHA512
  end.

Definition xor_with (b : Z) (l : list Z) : list Z := map (fun x => Z.lxor x b) l.

(** RFC 2104's B: the bytes of a block of the hash, 512 bits for SHA-1 and SHA-256,
    1024 bits for SHA-384 and SHA-512 (FIPS 180-4, figure 1). *)
Definition hash_block_bytes (a : opssl_hmac_algo_t) : nat :=
  match a with
  | OPSSL_HMAC_SHA1 | OPSSL_HMAC_SHA256 => 512 / 8
  | OPSSL_HMAC_SHA384 | OPSSL_HMAC_SHA512 => 1024 / 8
  end.

(** The key, hashed if longer than a block, zero-padded to a block. *)
Definition hmac_key (a : opssl_hmac_algo_t) (key : list Z) : list Z :=
  let k := if (hash_block_bytes a <? length key)%nat then hash_of a key else key in
  k ++ replicate (hash_block_bytes a - length k) 0.

Lemma block_size_rfc a : get_block_size a = hash_block_bytes a.
Proof. by destruct a. Qed.

Definition HMAC (a : opssl_hmac_algo_t) (key m : list Z) : list Z :=
  let k := hmac_key a key in
  hash_of a (xor_with 0x5c k ++ hash_of a (xor_with 0x36 k ++ m)).

Section Correct.
Context `{Cpu} {SP : SimdSpec cpu_simd}.

Definition ops_of (a : opssl_hmac_algo_t) : hash_ops :=
  match a with
  | OPSSL_HMAC_SHA1 => sha1_ops | OPSSL_HMAC_SHA256 => sha256_ops
  | OPSSL_HMAC_SHA384 => sha384_ops | OPSSL_HMAC_SHA512 => sha512_ops
  end.

#[export] Instance laws_of a : HashLaws (ops_of a) (hash_of a) (get_digest_size a).
Proof. destruct a; cbn; apply _. Defined.

(** The member of the union that [a] selects. *)
Definition member (a : opssl_hmac_algo_t) (i : inner_ctx) : hctx (ops_of a) :=
  match a with
  | OPSSL_HMAC_SHA1 => in_sha1 i | OPSSL_HMAC_SHA256 => in_sha256 i
  | OPSSL_HMAC_SHA384 => in_sha512 i | OPSSL_HMAC_SHA512 => in_sha512 i
  end.

Definition ipad (a : opssl_hmac_algo_t) (key : list Z) : list Z := xor_with 0x36 (hmac_key a key).
Definition opad (a : opssl_hmac_algo_t) (key : list Z) : list Z := xor_with 0x5c (hmac_key a key).

(** The context after [m] bytes under [key]. *)
Record hmac_rep (a : opssl_hmac_algo_t) (key : list Z) (ctx : opssl_hmac_ctx) (m : list Z) : Prop := {
  hr_algo : algo ctx = a;
  hr_block : block_size ctx = get_block_size a;
  hr_digest : digest_size ctx = get_digest_size a;
  hr_opad : take (block_size ctx) (key_pad ctx) = opad a key;
  hr_inner : h_rep (member a (inner ctx)) (ipad a key ++ m) }.
End Correct.

Lemma hash_of_length a m : length (hash_of a m) = get_digest_size a.
Proof. exact (@h_length _ _ _ (@laws_of plain_cpu simd_model_spec a) m). Qed.

Lemma hash_of_bytes a m : bytes (hash_of a m).
Proof. exact (@h_bytes _ _ _ (@laws_of plain_cpu simd_model_spec a) m). Qed.

Lemma HMAC_length a k m : length (HMAC a k m) = get_digest_size a.
Proof. apply hash_of_length. Qed.

Lemma HMAC_bytes a k m : bytes (HMAC a k m).
Proof. apply hash_of_bytes. Qed.

(** ** The padded key *)

Lemma digest_le_block a : (get_digest_size a <= get_block_size a <= 128)%nat.
Proof. destruct a; split; apply Nat.leb_le; reflexivity. Qed.

Lemma hmac_key_length a key : length (hmac_key a key) = get_block_size a.
Proof.
  pose proof (digest_le_block a). unfold hmac_key. rewrite <- block_size_rfc.
  rewrite length_app, length_replicate.
  destruct (Nat.ltb_spec (get_block_size a) (length key)); rewrite ?hash_of_length; lia.
Qed.

Lemma map_get_seq (f : Z -> Z) l n : (n <= length l)%nat -> map (fun i => f l.[i]) (seq 0 n) = map f (take n l).
Proof.
  revert n. induction l as [| x l IH]; intros n Hn; [by replace n with 0%nat by (cbn in Hn; lia) |].
  destruct n as [| n]; [done |]. cbn [seq map take]. f_equal.
  rewrite <- seq_shift, map_map. rewrite <- IH by (cbn in Hn; lia). done.
Qed.

(** The first block of the key buffer is the RFC's padded key. *)
Lemma key_block_spec n k : (length k <= n <= 128)%nat ->
  take n (splice (replicate HMAC_MAX_BLOCK_SIZE 0) 0 k) = k ++ replicate (n - length k) 0.
Proof.
  intros Hn. unfold splice, HMAC_MAX_BLOCK_SIZE. rewrite take_0, Nat.add_0_l, drop_replicate. cbn [app].
  rewrite take_app_ge by lia. f_equal. rewrite take_replicate. f_equal. lia.
Qed.

Section Streaming.
Context `{Cpu} {SP : SimdSpec cpu_simd}.

(** The four branches of each dispatch are the operations of the algorithm. *)
Lemma oneshot_spec a key : size_ok key ->
  match a with
  | OPSSL_HMAC_SHA1 => opssl_sha1 sha1_ctx_zero key
  | OPSSL_HMAC_SHA256 => opssl_sha256 sha256_ctx_zero key
  | OPSSL_HMAC_SHA384 => opssl_sha384 sha512_ctx_zero key
  | OPSSL_HMAC_SHA512 => opssl_sha512 sha512_ctx_zero key
  end = hash_of a key.
Proof.
  intros Hk. destruct a.
  - exact (@h_oneshot _ _ _ sha256_laws sha256_ctx_zero key eq_refl Hk).
  - exact (@h_oneshot _ _ _ sha384_laws sha512_ctx_zero key eq_refl Hk).
  - exact (@h_oneshot _ _ _ sha512_laws sha512_ctx_zero key eq_refl Hk).
  - exact (@h_oneshot _ _ _ sha1_laws sha1_ctx_zero key eq_refl Hk).
Qed.

Lemma outer_spec a m1 m2 : size_ok m1 -> size_ok m2 ->
  match a with
  | OPSSL_HMAC_SHA1 =>
    (opssl_sha1_final (opssl_sha1_update (opssl_sha1_update (opssl_sha1_init sha1_ctx_zero) m1) m2)).1
  | OPSSL_HMAC_SHA256 =>
    (opssl_sha256_final (opssl_sha256_update (opssl_sha256_update (opssl_sha256_init sha256_ctx_zero) m1) m2)).1
  | OPSSL_HMAC_SHA384 =>
    (opssl_sha384_final (opssl_sha512_update (opssl_sha512_update (opssl_sha384_init sha512_ctx_zero) m1) m2)).1
  | OPSSL_HMAC_SHA512 =>
    (opssl_sha512_final (opssl_sha512_update (opssl_sha512_update (opssl_sha512_init sha512_ctx_zero) m1) m2)).1
  end = hash_of a (m1 ++ m2).
Proof.
  intros H1 H2. destruct a.
  - exact (@h_two _ _ _ sha256_laws sha256_ctx_zero m1 m2 eq_refl H1 H2).
  - exact (@h_two _ _ _ sha384_laws sha512_ctx_zero m1 m2 eq_refl H1 H2).
  - exact (@h_two _ _ _ sha512_laws sha512_ctx_zero m1 m2 eq_refl H1 H2).
  - exact (@h_two _ _ _ sha1_laws sha1_ctx_zero m1 m2 eq_refl H1 H2).
Qed.

Lemma size_ok_le (l : list Z) n : (length l <= n)%nat -> Z.of_nat n <= SIZE_MAX -> size_ok l.
Proof. unfold size_ok. lia. Qed.

Lemma key_match a key kb : size_ok key ->
  match a with
  | OPSSL_HMAC_SHA1 => splice kb 0 (opssl_sha1 sha1_ctx_zero key)
  | OPSSL_HMAC_SHA256 => splice kb 0 (opssl_sha256 sha256_ctx_zero key)
  | OPSSL_HMAC_SHA384 => splice kb 0 (opssl_sha384 sha512_ctx_zero key)
  | OPSSL_HMAC_SHA512 => splice kb 0 (opssl_sha512 sha512_ctx_zero key)
  end = splice kb 0 (hash_of a key).
Proof. intros Hk. rewrite <- (oneshot_spec a key Hk). by destruct a. Qed.

Lemma hmac_init_rep a key : size_ok key ->
  exists ctx, opssl_hmac_init a (Some key) = Some ctx /\ hmac_rep a key ctx [].
Proof.
  intros Hk. eexists. split; [reflexivity |]. pose proof (digest_le_block a) as Hdb.
  pose proof (hmac_key_length a key) as Hkl.
  set (kb := if (_ <? _)%nat then _ else _).
  assert (take (get_block_size a) kb = hmac_key a key /\ length kb = 128%nat) as [Hkb Hkbl].
  { unfold kb, hmac_key. replace (hash_block_bytes a) with (get_block_size a) by apply block_size_rfc. destruct (Nat.ltb_spec (get_block_size a) (length key)) as [Hlt | Hge].
    - rewrite key_match, key_block_spec by (done || rewrite ?hash_of_length; lia).
      split; [done |]. rewrite splice_length; rewrite ?length_replicate, ?hash_of_length; unfold HMAC_MAX_BLOCK_SIZE; lia.
    - rewrite key_block_spec by lia. split; [done |].
      rewrite splice_length; rewrite ?length_replicate; unfold HMAC_MAX_BLOCK_SIZE; lia. }
  rewrite !(map_get_seq (fun x => Z.lxor x _)) by lia. rewrite Hkb. fold (xor_with 0x36 (hmac_key a key)).
  fold (xor_with 0x5c (hmac_key a key)). fold (ipad a key) (opad a key).
  assert (length (ipad a key) = get_block_size a) as Hil by (unfold ipad, xor_with; by rewrite length_map).
  assert (length (opad a key) = get_block_size a) as Hol by (unfold opad, xor_with; by rewrite length_map).
  split; cbn [algo block_size digest_size key_pad inner]; try done.
  - rewrite <- Hol at 1. unfold splice. rewrite take_0. cbn [app]. apply take_app_length.
  - rewrite app_nil_r. assert (size_ok (ipad a key)) as Hs by (apply (size_ok_le _ 128); [lia | done]).
    destruct a.
    + exact (@h_update_rep _ _ _ sha256_laws _ [] _ Hs (@h_init_rep _ _ _ sha256_laws sha256_ctx_zero eq_refl)).
    + exact (@h_update_rep _ _ _ sha384_laws _ [] _ Hs (@h_init_rep _ _ _ sha384_laws sha512_ctx_zero eq_refl)).
    + exact (@h_update_rep _ _ _ sha512_laws _ [] _ Hs (@h_init_rep _ _ _ sha512_laws sha512_ctx_zero eq_refl)).
    + exact (@h_update_rep _ _ _ sha1_laws _ [] _ Hs (@h_init_rep _ _ _ sha1_laws sha1_ctx_zero eq_refl)).
Qed.

Lemma hmac_update_rep a key ctx m d : size_ok d -> hmac_rep a key ctx m ->
  hmac_rep a key (opssl_hmac_update ctx d) (m ++ d).
Proof.
  intros Hd [H1 H2 H3 H4 H5]. split; try done. unfold opssl_hmac_update; cbn [inner]. rewrite H1, app_assoc.
  destruct a.
  - exact (@h_update_rep _ _ _ sha256_laws _ _ _ Hd H5).
  - exact (@h_update_rep _ _ _ sha384_laws _ _ _ Hd H5).
  - exact (@h_update_rep _ _ _ sha512_laws _ _ _ Hd H5).
  - exact (@h_update_rep _ _ _ sha1_laws _ _ _ Hd H5).
Qed.

Lemma hmac_final_rep a key ctx m : hmac_rep a key ctx m ->
  (opssl_hmac_final ctx).1 = (HMAC a key m, get_digest_size a).
Proof.
  intros [H1 H2 H3 H4 H5]. pose proof (digest_le_block a) as Hdb. pose proof (hmac_key_length a key) as Hkl.
  unfold opssl_hmac_final. rewrite H1.
  set (i := inner ctx) in *. set (r := match a with OPSSL_HMAC_SHA256 => _ | _ => _ end).
  assert (r.1 = hash_of a (ipad a key ++ m)) as Hr.
  { apply (@h_final_rep _ _ _ (laws_of a)) in H5. rewrite <- H5. unfold r.
    destruct a; cbn [member ops_of h_final sha1_ops sha256_ops sha384_ops sha512_ops];
    match goal with |- context [let '(h, c) := ?f in _] => by destruct f end. }
  destruct r as [ih i']. cbn [fst] in Hr |- *. subst ih.
  rewrite H4, H3, (take_ge (hash_of _ _)) by (rewrite hash_of_length; lia).
  rewrite (outer_spec a); [done | |].
  - apply (size_ok_le _ 128); [| done]. unfold opad, xor_with. rewrite length_map. lia.
  - apply (size_ok_le _ 128); [| done]. rewrite hash_of_length. lia.
Qed.

Lemma hmac_updates_rep a key chunks : Forall size_ok chunks -> forall ctx m, hmac_rep a key ctx m ->
  hmac_rep a key (fold_left opssl_hmac_update chunks ctx) (m ++ concat chunks).
Proof.
  induction 1 as [| d ds Hd _ IH]; intros ctx m Hr; cbn [fold_left concat]; [by rewrite app_nil_r |].
  rewrite app_assoc. apply IH. by apply hmac_update_rep.
Qed.

Lemma hmac_oneshot a key m : size_ok key -> size_ok m ->
  opssl_hmac a (Some key) m = Some (HMAC a key m, get_digest_size a).
Proof.
  intros Hk Hm. destruct (hmac_init_rep a key Hk) as (ctx & Hi & Hr). unfold opssl_hmac. rewrite Hi.
  by rewrite (hmac_final_rep a key _ m) by (apply (hmac_update_rep a key ctx [] m Hm Hr)).
Qed.
End Streaming.

(** C21: HMAC over any of the four hashes, streamed in any number of updates, is
    RFC 2104's HMAC of the concatenated message, for keys shorter than, equal
    to and longer than a block; the one-shot call is the same function. *)
Theorem hmac_streaming `{Cpu} (SP : SimdSpec cpu_simd) a key chunks :
  size_ok key -> Forall size_ok chunks -> size_ok (concat chunks) ->
  exists ctx, opssl_hmac_init a (Some key) = Some ctx /\
    (opssl_hmac_final (fold_left opssl_hmac_update chunks ctx)).1 = (HMAC a key (concat chunks), get_digest_size a) /\
    opssl_hmac a (Some key) (concat chunks) = Some (HMAC a key (concat chunks), get_digest_size a).
Proof.
  intros Hk Hs Hc. destruct (hmac_init_rep a key Hk) as (ctx & Hi & Hr). exists ctx. split; [done |].
  split; [| by apply hmac_oneshot].
  apply (hmac_final_rep a key). by apply (hmac_updates_rep a key chunks Hs ctx []).
Qed.

#[local] Existing Instance plain_cpu.

Lemma hmac_streaming_witness :
  exists ctx, opssl_hmac_init OPSSL_HMAC_SHA256 (Some (replicate 131 0xaa)) = Some ctx /\
    (opssl_hmac_final (fold_left opssl_hmac_update [[1; 2]; []; [3]] ctx)).1 =
      (HMAC OPSSL_HMAC_SHA256 (replicate 131 0xaa) [1; 2; 3], 32%nat) /\
    opssl_hmac OPSSL_HMAC_SHA256 (Some (replicate 131 0xaa)) [1; 2; 3] =
      Some (HMAC OPSSL_HMAC_SHA256 (replicate 131 0xaa) [1; 2; 3], 32%nat).
Proof.
  apply (@hmac_streaming plain_cpu simd_model_spec OPSSL_HMAC_SHA256 (replicate 131 0xaa) [[1; 2]; []; [3]]).
  - vm_compute. discriminate.
  - repeat constructor; vm_compute; discriminate.
  - vm_compute. discriminate.
Defined.

(** RFC 4231 test case 2. *)
Example hmac_rfc4231 :
  be_val (HMAC OPSSL_HMAC_SHA256 [0x4a; 0x65; 0x66; 0x65]
    [0x77; 0x68; 0x61; 0x74; 0x20; 0x64; 0x6f; 0x20; 0x79; 0x61; 0x20; 0x77; 0x61; 0x6e; 0x74; 0x20;
     0x66; 0x6f; 0x72; 0x20; 0x6e; 0x6f; 0x74; 0x68; 0x69; 0x6e; 0x67; 0x3f]) =
  0x5bdcc146bf60754e6a042426089575c75a003f089d2739839dec58b964ec3843.
Proof. vm_compute. reflexivity. Qed.
