(* ===== verification/Hkdf.v ===== *)
(** HKDF: src/crypto/hkdf.c, against RFC 5869 and the HKDF-Expand-Label of
    RFC 8446 section 7.1.

    Results: [None] is a run that does not end (or an access the C code may not
    make), [Some None] a return of 0, [Some (Some b)] a return of 1 with the
    output buffer [b]. *)
From S2P Require Import Prelude Platform Cpu HashApi Cbb Hmac.
From stdpp Require Import gmap.
#[local] Open Scope Z_scope.

Section Hkdf.
Context `{Cpu}.

Definition hkdf_hash_len (a : opssl_hmac_algo_t) : nat := get_digest_size a.

(** The pseudo-random key; a NULL or empty salt is a string of zeros. *)
Definition opssl_hkdf_extract (a : opssl_hmac_algo_t) (salt : option (list Z)) (ikm : list Z) : option (list Z * nat) :=
  let salt :=
    match salt with
    | Some (b :: s) => b :: s
    | _ => replicate (hkdf_hash_len a) 0
    end in
  opssl_hmac a (Some salt) ikm.

(** The variables of the loop of [opssl_hkdf_expand]. *)
Record expand_st := mk_expand { ei : Z; eT : list Z; eoff : nat; eokm : list Z }.

Definition expand_cond (n : Z) (s : expand_st) : bool := ei s <=? u8 n.

Definition expand_body (a : opssl_hmac_algo_t) (prk info : list Z) (s : expand_st) : expand_st :=
  match opssl_hmac_init a (Some prk) with
  | None => s
  | Some ctx =>
    let ctx := if (0 <? length (eT s))%nat then opssl_hmac_update ctx (eT s) else ctx in
    let ctx := if (0 <? length info)%nat then opssl_hmac_update ctx info else ctx in
    let ctx := opssl_hmac_update ctx [ei s] in
    let T := (opssl_hmac_final ctx).1.1 in
    let copy := (length (eokm s) - eoff s)%nat in
    let copy := if (hkdf_hash_len a <? copy)%nat then hkdf_hash_len a else copy in
    {| ei := u8 (ei s + 1); eT := T; eoff := eoff s + copy; eokm := splice (eokm s) (eoff s) (take copy T) |}
  end.

(** [okm] is the output buffer before the call. *)
Definition opssl_hkdf_expand (fuel : nat) (a : opssl_hmac_algo_t) (prk info okm : list Z) : option (option (list Z)) :=
  let hash_len := Z.of_nat (hkdf_hash_len a) in
  if hash_len =? 0 then Some None else
  let n := u64 (Z.of_nat (length okm) + hash_len - 1) / hash_len in
  if 255 <? n then Some None else
  match while_fuel fuel (expand_cond n) (expand_body a prk info) (mk_expand 1 [] 0 okm) with
  | None => None
  | Some s => Some (Some (eokm s))
  end.

(** ["tls13 "] *)
Definition tls13_prefix : list Z := [116; 108; 115; 49; 51; 32].

(** The HkdfLabel structure, built in the 512-byte local array [info] (block 0)
    by a builder that ignores the results of the additions. *)
Definition label_prog (label context : list Z) (out_len : Z) : op Z :=
  _ ← opssl_cbb_init_fixed 0 0 512;
  _ ← opssl_cbb_add_u16 0 1 0 (u16 out_len);
  _ ← opssl_cbb_add_u8 0 1 0 (u8 (6 + Z.of_nat (length label)));
  _ ← opssl_cbb_add_bytes 0 1 0 tls13_prefix;
  _ ← opssl_cbb_add_bytes 0 1 0 label;
  _ ← opssl_cbb_add_u8 0 1 0 (u8 (Z.of_nat (length context)));
  _ ← (if (0 <? length context)%nat then opssl_cbb_add_bytes 0 1 0 context else mret true);
  opssl_cbb_len 0.

(** [junk]: the array before the call. *)
Definition label_info (junk label context : list Z) (out_len : Z) : option (list Z) :=
  match label_prog label context out_len (mk_store ∅ {[0%nat := {| bdata := junk; on_heap := false |}]} 1) with
  | Some (n, s) =>
    match blocks s !! 0%nat with
    | Some b => Some (take (Z.to_nat n) (bdata b))
    | None => None
    end
  | None => None
  end.

Definition opssl_hkdf_expand_label (fuel : nat) (junk : list Z) (a : opssl_hmac_algo_t)
    (secret label context out : list Z) : option (option (list Z)) :=
  match label_info junk label context (Z.of_nat (length out)) with
  | None => None
  | Some info => opssl_hkdf_expand fuel a secret info out
  end.
End Hkdf.

(* ------------------------------------------------------------------ *)
(** * RFC 5869 *)

Definition HKDF_Extract (a : opssl_hmac_algo_t) (salt ikm : list Z) : list Z :=
  HMAC a (match salt with [] => replicate (get_digest_size a) 0 | _ => salt end) ikm.

(** T(i), with T(0) empty. *)
Fixpoint HKDF_T (a : opssl_hmac_algo_t) (prk info : list Z) (i : nat) : list Z :=
  match i with
  | O => []
  | S j => HMAC a prk (HKDF_T a prk info j ++ info ++ [Z.of_nat i])
  end.

Definition HKDF_Expand (a : opssl_hmac_algo_t) (prk info : list Z) (l : nat) : list Z :=
  take l (concat (map (HKDF_T a prk info) (seq 1 ((l + get_digest_size a - 1) / get_digest_size a)))).

(** RFC 8446 7.1: struct { uint16 length; opaque label<7..255>; opaque context<0..255>; }. *)
Definition HkdfLabel (label context : list Z) (l : Z) : list Z :=
  be_bytes 2 l ++ [6 + Z.of_nat (length label)] ++ tls13_prefix ++ label ++ [Z.of_nat (length context)] ++ context.

Definition HKDF_Expand_Label (a : opssl_hmac_algo_t) (secret label context : list Z) (l : nat) : list Z :=
  HKDF_Expand a secret (HkdfLabel label context (Z.of_nat l)) l.

Lemma HKDF_T_length a prk info i : (0 < i)%nat -> length (HKDF_T a prk info i) = get_digest_size a.
Proof. destruct i; [lia |]. intros _. apply HMAC_length. Qed.

Lemma concat_T_length a prk info k :
  length (concat (map (HKDF_T a prk info) (seq 1 k))) = (k * get_digest_size a)%nat.
Proof.
  induction k as [| k IH]; [done |]. rewrite seq_S, map_app, concat_app, length_app, IH. cbn [map concat].
  rewrite app_nil_r, HKDF_T_length by lia. lia.
Qed.

Lemma digest_pos a : (0 < get_digest_size a <= 64)%nat.
Proof. destruct a; split; apply Nat.leb_le; reflexivity. Qed.

Section Expand.
Context `{Cpu} {SP : SimdSpec cpu_simd}.
Context (a : opssl_hmac_algo_t) (prk info okm : list Z).
Context (Hprk : size_ok prk) (Hinfo : size_ok info).

(** One block. *)
Lemma expand_block T i : size_ok T ->
  match opssl_hmac_init a (Some prk) with
  | None => []
  | Some ctx =>
    let ctx := if (0 <? length T)%nat then opssl_hmac_update ctx T else ctx in
    let ctx := if (0 <? length info)%nat then opssl_hmac_update ctx info else ctx in
    (opssl_hmac_final (opssl_hmac_update ctx [i])).1.1
  end = HMAC a prk (T ++ info ++ [i]).
Proof.
  intros HT. destruct (hmac_init_rep a prk Hprk) as (ctx & -> & Hr). cbv zeta.
  assert (hmac_rep a prk (if (0 <? length T)%nat then opssl_hmac_update ctx T else ctx) T) as Hr1.
  { destruct T as [| x T]; [done |]. by apply (hmac_update_rep a prk ctx []). }
  set (ctx1 := if (0 <? length T)%nat then _ else _) in *.
  assert (hmac_rep a prk (if (0 <? length info)%nat then opssl_hmac_update ctx1 info else ctx1) (T ++ info)) as Hr2.
  { destruct (Nat.ltb_spec 0 (length info)) as [Hl | Hl]; [by apply hmac_update_rep |].
    assert (info = []) as -> by (destruct info; [done | cbn in Hl; lia]). by rewrite app_nil_r. }
  rewrite app_assoc. erewrite (hmac_final_rep a prk); [done |]. by apply hmac_update_rep.
Qed.

(** After [k] rounds, [k <= 254]. *)
Definition expand_inv (k : nat) (s : expand_st) : Prop :=
  let all := concat (map (HKDF_T a prk info) (seq 1 k)) in
  ei s = Z.of_nat (k + 1) /\ eT s = HKDF_T a prk info k /\
  eoff s = Nat.min (length okm) (length all) /\ length (eokm s) = length okm /\
  take (eoff s) (eokm s) = take (length okm) all.

Lemma expand_step k s : (k < 254)%nat -> expand_inv k s -> expand_inv (S k) (expand_body a prk info s).
Proof.
  intros Hk (H1 & H2 & H3 & H4 & H5). unfold expand_body.
  assert (size_ok (eT s)) as HT.
  { unfold size_ok. rewrite H2. pose proof (digest_pos a). destruct k; [done |].
    rewrite HKDF_T_length by lia. unfold SIZE_MAX. lia. }
  pose proof (expand_block (eT s) (ei s) HT) as Hb.
  destruct (hmac_init_rep a prk Hprk) as (ctx & Hi & _). rewrite Hi in Hb |- *.
  cbv zeta in Hb. rewrite Hb. clear Hb. rewrite H1, H2 in *.
  assert (HMAC a prk (HKDF_T a prk info k ++ info ++ [Z.of_nat (k + 1)]) = HKDF_T a prk info (S k)) as ->
    by (cbn [HKDF_T]; by replace (k + 1)%nat with (S k) by lia).
  unfold hkdf_hash_len. set (d := get_digest_size a). set (T := HKDF_T a prk info (S k)).
  assert (length T = d) as HlT by (apply HKDF_T_length; lia).
  set (c := if (d <? _)%nat then _ else _).
  assert (c = Nat.min d (length okm - eoff s)) as Hc.
  { unfold c. rewrite H4. destruct (Nat.ltb_spec d (length okm - eoff s)); lia. }
  set (all := concat (map (HKDF_T a prk info) (seq 1 k))) in *.
  assert (concat (map (HKDF_T a prk info) (seq 1 (S k))) = all ++ T) as Hall
    by (rewrite seq_S, map_app, concat_app; cbn [map concat]; by rewrite app_nil_r).
  unfold expand_inv. rewrite Hall, length_app, HlT. cbn [ei eT eoff eokm].
  split; [unfold u8; rewrite Z.mod_small by lia; lia |]. split; [done |]. split; [lia |].
  assert (length (take c T) = c) as Hlc by (rewrite length_take; lia).
  split; [rewrite splice_length; lia |]. rewrite <- Hlc at 1. rewrite splice_take, H5 by lia.
  rewrite take_app. f_equal. rewrite Hc.
  destruct (Nat.le_ge_cases (length okm) (length all)).
  - replace (length okm - length all)%nat with 0%nat by lia. by replace (Nat.min d (length okm - eoff s)) with 0%nat by lia.
  - replace (eoff s) with (length all) by lia. destruct (Nat.le_ge_cases d (length okm - length all)).
    + rewrite !take_ge; [done | lia | lia].
    + f_equal. lia.
Qed.

Lemma expand_loop n : (n <= 254)%nat -> forall j fuel s, (j <= n)%nat -> (j <= fuel)%nat -> expand_inv (n - j) s ->
  exists s', while_fuel fuel (expand_cond (Z.of_nat n)) (expand_body a prk info) s = Some s' /\ expand_inv n s'.
Proof.
  intros Hn. induction j as [| j IH]; intros fuel s Hj Hf Hs; pose proof Hs as (H1 & _).
  - rewrite Nat.sub_0_r in *. exists s. split; [| done].
    assert (expand_cond (Z.of_nat n) s = false) as Hc.
    { unfold expand_cond. rewrite H1. unfold u8. rewrite Z.mod_small by lia. apply Z.leb_gt. lia. }
    destruct fuel; cbn [while_fuel]; by rewrite Hc.
  - destruct fuel as [| fuel]; [lia |]. cbn [while_fuel].
    assert (expand_cond (Z.of_nat n) s = true) as ->.
    { unfold expand_cond. rewrite H1. unfold u8. rewrite Z.mod_small by lia. apply Z.leb_le. lia. }
    apply IH; [lia | lia |]. replace (n - j)%nat with (S (n - S j)) by lia. apply expand_step; [lia | done].
Qed.

Lemma blocks_needed d l : (0 < d <= 64)%nat -> Z.of_nat l <= 2 ^ 63 ->
  u64 (Z.of_nat l + Z.of_nat d - 1) / Z.of_nat d = Z.of_nat ((l + d - 1) / d).
Proof.
  intros Hd Hl. unfold u64. rewrite Z.mod_small by lia. rewrite Nat2Z.inj_div. f_equal. lia.
Qed.

Lemma expand_ok fuel : (length okm <= 254 * get_digest_size a)%nat -> (254 <= fuel)%nat ->
  opssl_hkdf_expand fuel a prk info okm = Some (Some (HKDF_Expand a prk info (length okm))).
Proof.
  intros Hl Hf. unfold opssl_hkdf_expand, hkdf_hash_len. pose proof (digest_pos a) as Hd.
  rewrite (proj2 (Z.eqb_neq _ 0)) by lia. cbv zeta.
  rewrite blocks_needed by lia. set (d := get_digest_size a) in *. set (n := ((length okm + d - 1) / d)%nat).
  assert (n <= 254)%nat as Hn by (apply Nat.lt_succ_r, Nat.Div0.div_lt_upper_bound; lia).
  assert (length okm <= n * d)%nat as Hnd.
  { unfold n. pose proof (Nat.div_mod_eq (length okm + d - 1) d). pose proof (Nat.mod_upper_bound (length okm + d - 1) d ltac:(lia)). lia. }
  rewrite (proj2 (Z.ltb_ge 255 _)) by lia.
  destruct (expand_loop n Hn n fuel (mk_expand 1 [] 0 okm)) as (s' & -> & _ & _ & H3 & H4 & H5); [lia | lia | |].
  - rewrite Nat.sub_diag. repeat split; cbn [ei eT eoff eokm]; try done; cbn; by rewrite ?Nat.min_0_r, ?take_nil.
  - unfold HKDF_Expand. fold d n. rewrite <- H5, H3, concat_T_length. fold d. rewrite Nat.min_l by lia.
    rewrite take_ge; [done | lia].
Qed.
End Expand.

Lemma expand_255_diverges `{Cpu} a prk info okm fuel :
  (254 * get_digest_size a < length okm <= 255 * get_digest_size a)%nat ->
  opssl_hkdf_expand fuel a prk info okm = None.
Proof.
  intros Hl. pose proof (digest_pos a) as Hd. unfold opssl_hkdf_expand, hkdf_hash_len.
  rewrite (proj2 (Z.eqb_neq _ 0)) by lia. cbv zeta. rewrite blocks_needed by lia.
  set (d := get_digest_size a) in *.
  assert ((length okm + d - 1) / d = 255)%nat as -> by (symmetry; apply (Nat.div_unique _ d 255 (length okm + d - 1 - 255 * d)); lia).
  change (255 <? Z.of_nat 255) with false. cbv match. rewrite (while_diverges (fun s => ei s < 256)); [done | | cbn; lia].
  intros s Hs. split; [unfold expand_cond; change (u8 (Z.of_nat 255)) with 255; apply Z.leb_le; lia |].
  unfold expand_body. destruct (opssl_hmac_init a (Some prk)); [| done]. cbn [ei]. apply (u8_ok (ei s + 1)).
Qed.

(** HKDF-Expand is RFC 5869's for outputs of up to 254 blocks and refuses
    more than 255; for exactly 255 blocks, which the RFC allows, its 8-bit loop
    counter wraps and the call never returns. *)
Theorem hkdf_expand_rfc5869 `{Cpu} (SP : SimdSpec cpu_simd) a prk info okm fuel :
  size_ok prk -> size_ok info -> Z.of_nat (length okm) <= 2 ^ 63 -> (254 <= fuel)%nat ->
  let d := get_digest_size a in
  opssl_hkdf_expand fuel a prk info okm =
    if (length okm <=? 254 * d)%nat then Some (Some (HKDF_Expand a prk info (length okm)))
    else if (length okm <=? 255 * d)%nat then None
    else Some None.
Proof.
  intros Hp Hi Hl Hf d. destruct (Nat.leb_spec (length okm) (254 * d)); [by apply expand_ok |].
  destruct (Nat.leb_spec (length okm) (255 * d)); [by apply expand_255_diverges |].
  pose proof (digest_pos a) as Hd. unfold opssl_hkdf_expand, hkdf_hash_len. fold d in Hd |- *.
  rewrite (proj2 (Z.eqb_neq _ 0)) by lia. cbv zeta. rewrite blocks_needed by lia.
  rewrite (proj2 (Z.ltb_lt 255 _)); [done |].
  assert (256 <= (length okm + d - 1) / d)%nat by (apply Nat.div_le_lower_bound; lia). lia.
Qed.

Section Witness.
#[local] Existing Instance plain_cpu.

Lemma hkdf_expand_rfc5869_witness :
  opssl_hkdf_expand 254 OPSSL_HMAC_SHA256 [1; 2] [3] (replicate 42 0) =
    Some (Some (HKDF_Expand OPSSL_HMAC_SHA256 [1; 2] [3] 42)).
Proof.
  apply (@hkdf_expand_rfc5869 plain_cpu simd_model_spec OPSSL_HMAC_SHA256 [1; 2] [3] (replicate 42 0) 254);
    vm_compute; try discriminate. apply le_n.
Defined.
End Witness.

(** RFC 5869 appendix A.1. *)
Example hkdf_rfc5869_a1 :
  let prk := HKDF_Extract OPSSL_HMAC_SHA256 (map Z.of_nat (seq 0 13)) (replicate 22 0x0b) in
  be_val prk = 0x077709362c2e32df0ddc3f0dc47bba6390b6c73bb50f9c3122ec844ad7c2b3e5 /\
  be_val (HKDF_Expand OPSSL_HMAC_SHA256 prk (map Z.of_nat (seq 0xf0 10)) 42) =
    0x3cb25f25faacd57a90434f64d0362f2a2d2d0a90cf1a5a4c5db02d56ecc4c5bf34007208d5b887185865.
Proof. split; vm_compute; reflexivity. Qed.

(* ------------------------------------------------------------------ *)
(** * HkdfLabel *)

(** One addition whose result is ignored. *)
Lemma add_ignored {A} (f : bool -> op A) data s c :
  implements s 0%nat false 512 [(0%nat, 0%nat, c)] -> Z.of_nat (length c) + Z.of_nat (length data) <= 512 ->
  exists s', (append 0 1 0 data ≫= f) s = f true s' /\ implements s' 0%nat false 512 [(0%nat, 0%nat, c ++ data)].
Proof.
  intros Him Hl. destruct (fixed_append 0 1 0 data s 0%nat 512 c Him Hl (le_n 1)) as (s' & H & Him').
  exists s'. by rewrite (op_bind_some _ _ _ _ _ H).
Qed.

Lemma label_init junk : length junk = 512%nat ->
  exists s, opssl_cbb_init_fixed 0 0 512 (mk_store ∅ {[0%nat := {| bdata := junk; on_heap := false |}]} 1) = Some (true, s) /\
    implements s 0%nat false 512 [(0%nat, 0%nat, [])].
Proof.
  intros Hj. eexists. split; [reflexivity |]. split; cbn [cbbs blocks fresh nodes flat replicate app].
  - split; [| done]. by rewrite lookup_insert_eq.
  - exists junk. rewrite lookup_singleton_eq. split; [done | split; [lia | done]].
  - cbn. lia.
  - apply NoDup_singleton.
  - by cbn.
  - by exists 0%nat, [].
  - intros b Hb. cbn in Hb. apply lookup_singleton_ne. lia.
Qed.

(** An addition that the array has no room for reallocates it: it is not a heap block. *)
Lemma add_overflow {A} (f : bool -> op A) data s c :
  implements s 0%nat false 512 [(0%nat, 0%nat, c)] -> 512 < Z.of_nat (length c) + Z.of_nat (length data) <= 1024 ->
  (append 0 1 0 data ≫= f) s = None.
Proof.
  intros Him Hl. pose proof (im_nodes _ _ _ _ _ Him) as [Hp _]. destruct (im_block _ _ _ _ _ Him) as (bd & Hb & _).
  destruct (im_fits _ _ _ _ _ Him) as [Hc _]. cbn [flat replicate app] in Hc. rewrite app_nil_r in Hc.
  rewrite Nat.add_0_r in Hp. cbn [Nat.add] in Hp.
  assert (append 0 1 0 data s = None) as H; [| unfold mbind, op_bind; by rewrite H].
  unfold append, cbb_grow, cbb_enlarge. unfold mbind, op_bind. rewrite (load_some _ _ _ Hp). cbn [Cbb.error flush_child child].
  unfold mret, op_ret. cbn [negb]. rewrite (load_some _ _ _ Hp). cbn [clen cap is_child cbuf].
  rewrite u64_id by lia. do 2 ltb_decide. change (512 =? 0) with false. cbv iota.
  cbn [double_cap]. rewrite (proj2 (Z.ltb_lt 512 _)) by lia. change (u64 (512 * 2)) with 1024. change (1024 <=? 512) with false. cbv iota.
  rewrite (proj2 (Z.ltb_ge 1024 _)) by lia. unfold op_realloc. by rewrite Hb.
Qed.

(** The structure up to the length of the context. *)
Definition label_head (label context : list Z) (n : Z) : list Z :=
  opssl_put_be16 (u16 n) ++ [u8 (6 + Z.of_nat (length label))] ++ tls13_prefix ++ label ++ [u8 (Z.of_nat (length context))].

Lemma label_head_length label context n : length (label_head label context n) = (10 + length label)%nat.
Proof. unfold label_head. rewrite !length_app. cbn. lia. Qed.

Lemma label_prog_head junk label context n : length junk = 512%nat -> (length label <= 249)%nat ->
  exists s5, implements s5 0%nat false 512 [(0%nat, 0%nat, label_head label context n)] /\
    label_prog label context n (mk_store ∅ {[0%nat := {| bdata := junk; on_heap := false |}]} 1) =
      ((if (0 <? length context)%nat then append 0 1 0 context else mret true) ≫= fun _ => opssl_cbb_len 0) s5.
Proof.
  intros Hj Hl. unfold label_prog.
  destruct (label_init junk Hj) as (s0 & H0 & I0). rewrite (op_bind_some _ _ _ _ _ H0).
  unfold opssl_cbb_add_u16, opssl_cbb_add_u8, opssl_cbb_add_bytes.
  match goal with |- context [(append 0 1 0 ?d ≫= ?f) s0] => destruct (add_ignored f d s0 [] I0) as (s1 & -> & I1); [cbn; lia |] end.
  match goal with |- context [(append 0 1 0 ?d ≫= ?f) s1] => destruct (add_ignored f d s1 _ I1) as (s2 & -> & I2); [cbn; lia |] end.
  match goal with |- context [(append 0 1 0 ?d ≫= ?f) s2] => destruct (add_ignored f d s2 _ I2) as (s3 & -> & I3); [cbn; lia |] end.
  match goal with |- context [(append 0 1 0 ?d ≫= ?f) s3] => destruct (add_ignored f d s3 _ I3) as (s4 & -> & I4); [cbn; lia |] end.
  match goal with |- context [(append 0 1 0 ?d ≫= ?f) s4] => destruct (add_ignored f d s4 _ I4) as (s5 & -> & I5);
    [rewrite !length_app; cbn; lia |] end.
  exists s5. split; [| done]. unfold label_head. by rewrite <- !app_assoc in I5.
Qed.

Lemma label_info_spec junk label context n :
  length junk = 512%nat -> (length label <= 249)%nat -> (10 + length label + length context <= 512)%nat ->
  label_info junk label context n = Some (label_head label context n ++ context).
Proof.
  intros Hj Hl Hlc. unfold label_info. destruct (label_prog_head junk label context n Hj Hl) as (s5 & I5 & ->).
  pose proof (label_head_length label context n) as Hh. set (hd := label_head label context n) in *.
  assert (exists s6, ((if (0 <? length context)%nat then append 0 1 0 context else mret true) ≫= (fun _ => opssl_cbb_len 0)) s5 =
            opssl_cbb_len 0 s6 /\ implements s6 0%nat false 512 [(0%nat, 0%nat, hd ++ context)]) as (s6 & -> & I6).
  { destruct (Nat.ltb_spec 0 (length context)) as [Hc | Hc].
    - apply (add_ignored (fun _ => opssl_cbb_len 0)); [done |]. lia.
    - exists s5. assert (context = []) as -> by (destruct context; [done | cbn in Hc; lia]). by rewrite app_nil_r. }
  pose proof (im_nodes _ _ _ _ _ I6) as [Hp _]. destruct (im_block _ _ _ _ _ I6) as (bd & Hb & _ & Hd).
  unfold opssl_cbb_len. rewrite (op_bind_some _ _ _ _ _ (load_some _ _ _ Hp)). cbn [clen mret op_ret].
  rewrite Hb. cbn [bdata]. cbn [flat replicate app] in Hd. rewrite app_nil_r in Hd.
  rewrite Nat2Z.id, Nat.add_0_r. cbn [Nat.add]. f_equal. exact Hd.
Qed.

(** The longest labels and contexts do not fit the array. *)
Lemma label_info_overflow junk label context n :
  length junk = 512%nat -> (length label <= 249)%nat -> (length context <= 255)%nat -> (512 < 10 + length label + length context)%nat ->
  label_info junk label context n = None.
Proof.
  intros Hj Hl Hc Hlc. unfold label_info. destruct (label_prog_head junk label context n Hj Hl) as (s5 & I5 & ->).
  rewrite (proj2 (Nat.ltb_lt 0 _)) by lia. pose proof (label_head_length label context n).
  by rewrite (add_overflow (fun _ => opssl_cbb_len 0) context s5 _ I5) by lia.
Qed.

Lemma expand_label_ok `{Cpu} (SP : SimdSpec cpu_simd) fuel junk a secret label context out :
  length junk = 512%nat -> (length label <= 249)%nat -> (length context <= 255)%nat ->
  (10 + length label + length context <= 512)%nat -> (length out <= 254 * get_digest_size a)%nat ->
  size_ok secret -> (254 <= fuel)%nat ->
  opssl_hkdf_expand_label fuel junk a secret label context out =
    Some (Some (HKDF_Expand_Label a secret label context (length out))).
Proof.
  intros Hj Hl Hc Hlc Ho Hs Hf. unfold opssl_hkdf_expand_label. pose proof (digest_pos a).
  rewrite label_info_spec by done.
  assert (label_head label context (Z.of_nat (length out)) ++ context = HkdfLabel label context (Z.of_nat (length out))) as ->.
  { unfold HkdfLabel, label_head. rewrite put_be16_bytes. unfold u8, u16. rewrite !Z.mod_small by lia. by rewrite <- !app_assoc. }
  apply expand_ok; try done. unfold size_ok, HkdfLabel, SIZE_MAX. rewrite !length_app, be_bytes_length. cbn [length tls13_prefix]. lia.
Qed.

(** C22: HKDF-Expand-Label, over the labels and contexts RFC 8446 allows (249 and 255
    bytes at most).  When they fit the 512-byte array with the ten bytes around them
    and the output is at most 254 digests, the result is RFC 8446's.  When they do
    not fit, which takes the longest of both, the builder reallocates the array,
    which is on the stack; and an output of the 255th digest, which RFC 5869 allows,
    never ends. *)
Theorem hkdf_expand_label_rfc8446 `{Cpu} (SP : SimdSpec cpu_simd) fuel junk a secret label context out :
  length junk = 512%nat -> (length label <= 249)%nat -> (length context <= 255)%nat -> (length out <= 255 * get_digest_size a)%nat ->
  size_ok secret -> (254 <= fuel)%nat ->
  opssl_hkdf_expand_label fuel junk a secret label context out =
    if (512 <? 10 + length label + length context)%nat || (254 * get_digest_size a <? length out)%nat then None
    else Some (Some (HKDF_Expand_Label a secret label context (length out))).
Proof.
  intros Hj Hl Hc Ho Hs Hf. destruct (Nat.ltb_spec 512 (10 + length label + length context)) as [H5 | H5]; cbn [orb].
  - unfold opssl_hkdf_expand_label. by rewrite label_info_overflow.
  - destruct (Nat.ltb_spec (254 * get_digest_size a) (length out)) as [H2 | H2]; [| by apply expand_label_ok].
    unfold opssl_hkdf_expand_label. rewrite label_info_spec by done.
    apply expand_255_diverges. lia.
Qed.

Section LabelWitness.
#[local] Existing Instance plain_cpu.

Lemma hkdf_expand_label_rfc8446_witness :
  opssl_hkdf_expand_label 254 (replicate 512 9) OPSSL_HMAC_SHA256 (replicate 32 1) [107; 101; 121] [] (replicate 16 0) =
    Some (Some (HKDF_Expand_Label OPSSL_HMAC_SHA256 (replicate 32 1) [107; 101; 121] [] (length (replicate 16 0)))).
Proof.
  refine (@hkdf_expand_label_rfc8446 plain_cpu simd_model_spec 254 (replicate 512 9) OPSSL_HMAC_SHA256 (replicate 32 1)
           [107; 101; 121] [] (replicate 16 0) _ _ _ _ _ _);
    first [apply (bool_decide_unpack _); vm_compute; exact I | apply le_n | vm_compute; discriminate].
Defined.
End LabelWitness.
