(* ===== verification/Pbkdf2.v ===== *)
(** PBKDF2: src/crypto/pbkdf2.c, against RFC 2898 section 5.2.

    Results as in Hkdf.v: [None] does not end, [Some None] returns 0. *)
From S2P Require Import Prelude Platform Cpu HashApi Hmac.
#[local] Open Scope Z_scope.

Definition xor_lists (a b : list Z) : list Z := zip_with Z.lxor a b.

Section Pbkdf2.
Context `{Cpu}.

Definition get_hash_len (a : opssl_hmac_algo_t) : nat := get_digest_size a.

(** [for (uint32_t j = 2; j <= iterations; j++)]: [u] is u_buf, [out] the
    accumulated block. *)
Fixpoint pbkdf2_f_loop (fuel : nat) (a : opssl_hmac_algo_t) (password : list Z) (iterations j : Z)
    (u out : list Z) : option (option (list Z)) :=
  if j <=? iterations then
    match fuel with
    | O => None
    | S fuel =>
      match opssl_hmac_init a (Some password) with
      | None => Some None
      | Some ctx =>
        let '(temp, n, _) := opssl_hmac_final (opssl_hmac_update ctx u) in
        if negb (n =? get_hash_len a)%nat then Some None
        else pbkdf2_f_loop fuel a password iterations (u32 (j + 1)) temp (xor_lists out temp)
      end
    end
  else Some (Some out).

Definition pbkdf2_f (fuel : nat) (a : opssl_hmac_algo_t) (password : option (list Z)) (salt : list Z)
    (iterations block_index : Z) (out_len : nat) : option (option (list Z)) :=
  let hash_len := get_hash_len a in
  if (hash_len =? 0)%nat || (out_len <? hash_len)%nat then Some None else
  match opssl_hmac_init a password with
  | None => Some None
  | Some ctx =>
    let ctx := opssl_hmac_update ctx salt in
    let ctx := opssl_hmac_update ctx (opssl_put_be32 block_index) in
    let '(u, n, _) := opssl_hmac_final ctx in
    if negb (n =? hash_len)%nat then Some None
    else match password with
         | None => Some None
         | Some pw => pbkdf2_f_loop fuel a pw iterations 2 u u
         end
  end.

(** [for (uint32_t i = 1; i <= blocks_needed; i++)]: [pos] is out_ptr - out. *)
Fixpoint pbkdf2_loop (fuel : nat) (a : opssl_hmac_algo_t) (password salt : list Z) (iterations blocks_needed i : Z)
    (out : list Z) (pos : nat) : option (option (list Z)) :=
  if i <=? blocks_needed then
    match fuel with
    | O => None
    | S fuel' =>
      match pbkdf2_f (Z.to_nat iterations) a (Some password) salt iterations i (get_hash_len a) with
      | None => None
      | Some None => Some None
      | Some (Some block) =>
        let remaining := (length out - pos)%nat in
        let copy_len := if (remaining <? get_hash_len a)%nat then remaining else get_hash_len a in
        pbkdf2_loop fuel' a password salt iterations blocks_needed (u32 (i + 1))
          (splice out pos (take copy_len block)) (pos + copy_len)
      end
    end
  else Some (Some out).

(** [out] is the output buffer before the call. *)
Definition opssl_pbkdf2 (fuel : nat) (a : opssl_hmac_algo_t) (password salt : option (list Z)) (iterations : Z)
    (out : option (list Z)) : option (option (list Z)) :=
  match password, salt, out with
  | Some password, Some salt, Some out =>
    if (length out =? 0)%nat || (iterations =? 0) then Some None else
    let hash_len := Z.of_nat (get_hash_len a) in
    if hash_len =? 0 then Some None else
    let blocks_needed := u32 (u64 (Z.of_nat (length out) + hash_len - 1) / hash_len) in
    pbkdf2_loop fuel a password salt iterations blocks_needed 1 out 0
  | _, _, _ => Some None
  end.
End Pbkdf2.

(* ------------------------------------------------------------------ *)
(** * RFC 2898 *)

(** U_{j+1} *)
Fixpoint PBKDF2_U (a : opssl_hmac_algo_t) (P S : list Z) (i : Z) (j : nat) : list Z :=
  match j with
  | O => HMAC a P (S ++ be_bytes 4 i)
  | Datatypes.S j => HMAC a P (PBKDF2_U a P S i j)
  end.

(** U_1 xor ... xor U_{c+1} *)
Fixpoint PBKDF2_F (a : opssl_hmac_algo_t) (P S : list Z) (i : Z) (c : nat) : list Z :=
  match c with
  | O => PBKDF2_U a P S i 0
  | Datatypes.S c => xor_lists (PBKDF2_F a P S i c) (PBKDF2_U a P S i (Datatypes.S c))
  end.

Definition PBKDF2 (a : opssl_hmac_algo_t) (P S : list Z) (c : Z) (l : nat) : list Z :=
  take l (concat (map (fun i => PBKDF2_F a P S (Z.of_nat i) (Z.to_nat c - 1))
                    (seq 1 ((l + get_digest_size a - 1) / get_digest_size a)))).

Lemma PBKDF2_U_length a P S i j : length (PBKDF2_U a P S i j) = get_digest_size a.
Proof. destruct j; apply HMAC_length. Qed.

Lemma PBKDF2_F_length a P S i c : length (PBKDF2_F a P S i c) = get_digest_size a.
Proof.
  induction c as [| c IH]; [apply HMAC_length |]. cbn [PBKDF2_F]. unfold xor_lists.
  rewrite length_zip_with, IH, PBKDF2_U_length. lia.
Qed.

Section Correct.
Context `{Cpu} {SP : SimdSpec cpu_simd}.
Context (a : opssl_hmac_algo_t) (P S : list Z) (c : Z).
Context (HP : size_ok P) (HS : size_ok S) (Hc : 1 <= c < 2 ^ 32 - 1).

Lemma digest_size_ok (m : list Z) : length m = get_digest_size a -> size_ok m.
Proof. intros Hm. pose proof (digest_le_block a). unfold size_ok, SIZE_MAX. lia. Qed.

(** The inner loop from U_{j+1}, [j+2] being the loop counter. *)
Lemma f_loop_spec i n : forall j fuel, (Z.of_nat (j + n) + 1 = c) -> (n <= fuel)%nat ->
  pbkdf2_f_loop fuel a P c (Z.of_nat (j + 2)) (PBKDF2_U a P S i j) (PBKDF2_F a P S i j) =
    Some (Some (PBKDF2_F a P S i (j + n))).
Proof.
  induction n as [| n IH]; intros j fuel Hj Hf.
  - rewrite Nat.add_0_r. destruct fuel; cbn [pbkdf2_f_loop]; by rewrite (proj2 (Z.leb_gt _ c)) by lia.
  - destruct fuel as [| fuel]; [lia |]. cbn [pbkdf2_f_loop]. rewrite (proj2 (Z.leb_le _ c)) by lia.
    destruct (hmac_init_rep a P HP) as (ctx & -> & Hr).
    assert (size_ok (PBKDF2_U a P S i j)) as Hu by apply digest_size_ok, PBKDF2_U_length.
    pose proof (hmac_final_rep a P _ _ (hmac_update_rep a P ctx [] _ Hu Hr)) as Hfin. cbn [app] in Hfin.
    destruct (opssl_hmac_final _) as [[temp k] ctx']. cbn [fst] in Hfin. injection Hfin as -> ->.
    unfold get_hash_len. rewrite Nat.eqb_refl. cbn [negb].
    change (HMAC a P (PBKDF2_U a P S i j)) with (PBKDF2_U a P S i (Datatypes.S j)).
    change (xor_lists (PBKDF2_F a P S i j) (PBKDF2_U a P S i (Datatypes.S j))) with (PBKDF2_F a P S i (Datatypes.S j)).
    replace (u32 (Z.of_nat (j + 2) + 1)) with (Z.of_nat (Datatypes.S j + 2)) by (unfold u32; rewrite Z.mod_small; lia).
    rewrite IH by lia. do 3 f_equal. lia.
Qed.

Lemma f_spec i : 0 <= i < 2 ^ 32 ->
  pbkdf2_f (Z.to_nat c) a (Some P) S c i (get_hash_len a) = Some (Some (PBKDF2_F a P S i (Z.to_nat c - 1))).
Proof.
  intros Hi. unfold pbkdf2_f, get_hash_len. pose proof (Hmac.digest_le_block a).
  assert (0 < get_digest_size a)%nat as Hd by (destruct a; apply Nat.ltb_lt; reflexivity).
  rewrite (proj2 (Nat.eqb_neq _ 0)), Nat.ltb_irrefl by lia. cbn [orb].
  destruct (hmac_init_rep a P HP) as (ctx & -> & Hr). cbv zeta.
  assert (size_ok (opssl_put_be32 i)) as Hb by (unfold size_ok, SIZE_MAX; cbn; lia).
  pose proof (hmac_final_rep a P _ _ (hmac_update_rep a P _ _ _ Hb (hmac_update_rep a P ctx [] _ HS Hr))) as Hfin.
  cbn [app] in Hfin. destruct (opssl_hmac_final _) as [[u k] ctx']. cbn [fst] in Hfin. injection Hfin as -> ->.
  rewrite Nat.eqb_refl. cbn [negb]. rewrite put_be32_bytes.
  apply (f_loop_spec i (Z.to_nat c - 1) 0); lia.
Qed.

Definition blocks_upto (k : nat) : list Z :=
  concat (map (fun i => PBKDF2_F a P S (Z.of_nat i) (Z.to_nat c - 1)) (seq 1 k)).

Lemma blocks_upto_S k : blocks_upto (Datatypes.S k) = blocks_upto k ++ PBKDF2_F a P S (Z.of_nat (k + 1)) (Z.to_nat c - 1).
Proof.
  unfold blocks_upto. rewrite seq_S, map_app, concat_app. cbn [map concat]. rewrite app_nil_r.
  by replace (1 + k)%nat with (k + 1)%nat by lia.
Qed.

Lemma blocks_upto_length k : length (blocks_upto k) = (k * get_digest_size a)%nat.
Proof. induction k as [| k IH]; [done |]. rewrite blocks_upto_S, length_app, IH, PBKDF2_F_length. lia. Qed.

(** The outer loop after [k] blocks. *)
Lemma loop_spec n m : forall k fuel out pos, (k + m = n)%nat -> Z.of_nat n < 2 ^ 32 - 1 -> (m <= fuel)%nat ->
  pos = Nat.min (length out) (k * get_digest_size a) -> take pos out = take (length out) (blocks_upto k) ->
  exists out', pbkdf2_loop fuel a P S c (Z.of_nat n) (Z.of_nat (k + 1)) out pos = Some (Some out') /\
    length out' = length out /\
    take (Nat.min (length out) (n * get_digest_size a)) out' = take (length out) (blocks_upto n).
Proof.
  induction m as [| m IH]; intros k fuel out pos Hk Hn Hf Hpos Hout.
  - replace k with n in * by lia. exists out. split; [| by rewrite <- Hpos].
    destruct fuel; cbn [pbkdf2_loop]; by rewrite (proj2 (Z.leb_gt _ _)) by lia.
  - destruct fuel as [| fuel]; [lia |]. cbn [pbkdf2_loop]. rewrite (proj2 (Z.leb_le _ _)) by lia.
    rewrite f_spec by lia. unfold get_hash_len. set (d := get_digest_size a) in *.
    set (T := PBKDF2_F a P S (Z.of_nat (k + 1)) (Z.to_nat c - 1)).
    assert (length T = d) as HT by apply PBKDF2_F_length.
    set (cl := if (length out - pos <? d)%nat then _ else _).
    assert (cl = Nat.min d (length out - pos)) as Hcl by (unfold cl; destruct (Nat.ltb_spec (length out - pos) d); lia).
    assert (length (take cl T) = cl) as Hlt by (rewrite length_take; lia).
    set (out1 := splice out pos (take cl T)).
    assert (length out1 = length out) as Hl1 by (unfold out1; apply splice_length; lia).
    replace (u32 (Z.of_nat (k + 1) + 1)) with (Z.of_nat (Datatypes.S k + 1)) by (unfold u32; rewrite Z.mod_small; lia).
    pose proof (blocks_upto_length k) as Hbl. fold d in Hbl.
    destruct (IH (Datatypes.S k) fuel out1 (pos + cl)%nat) as (out' & H1 & H2 & H3); try lia.
    + rewrite Hl1, blocks_upto_S. fold T. rewrite <- Hlt at 1. unfold out1. rewrite splice_take, Hout by lia.
      rewrite take_app. f_equal. rewrite Hcl. destruct (Nat.le_ge_cases (length out) (k * d)).
      * rewrite Hbl. replace (length out - k * d)%nat with 0%nat by lia.
        by replace (Nat.min d (length out - pos)) with 0%nat by lia.
      * replace pos with (k * d)%nat by lia. rewrite Hbl. destruct (Nat.le_ge_cases d (length out - k * d)).
        -- rewrite !take_ge; [done | lia | lia].
        -- f_equal. lia.
    + rewrite Hl1 in *. exists out'. by rewrite H1.
Qed.
End Correct.

(** With as many iterations as a [uint32_t] holds, the test of the inner loop never
    fails: the counter wraps. *)
Lemma f_loop_diverges `{Cpu} {SP : SimdSpec cpu_simd} a P fuel : size_ok P -> forall j u out,
  0 <= j < 2 ^ 32 -> length u = get_digest_size a -> pbkdf2_f_loop fuel a P (2 ^ 32 - 1) j u out = None.
Proof.
  intros HP. induction fuel as [| fuel IH]; intros j u out Hj Hu; cbn [pbkdf2_f_loop]; rewrite (proj2 (Z.leb_le j _)) by lia; [done |].
  destruct (hmac_init_rep a P HP) as (ctx & -> & Hr).
  pose proof (hmac_final_rep a P _ _ (hmac_update_rep a P ctx [] _ (digest_size_ok a _ Hu) Hr)) as Hfin. cbn [app] in Hfin.
  destruct (opssl_hmac_final _) as [[temp k] ctx']. cbn [fst] in Hfin. injection Hfin as -> ->.
  unfold get_hash_len. rewrite Nat.eqb_refl. cbn [negb]. apply IH; [apply Z.mod_pos_bound; lia | apply HMAC_length].
Qed.

Lemma f_diverges `{Cpu} {SP : SimdSpec cpu_simd} a P S fuel i : size_ok P -> size_ok S ->
  pbkdf2_f fuel a (Some P) S (2 ^ 32 - 1) i (get_hash_len a) = None.
Proof.
  intros HP HS. unfold pbkdf2_f, get_hash_len. assert (0 < get_digest_size a)%nat as Hd by (destruct a; apply Nat.ltb_lt; reflexivity).
  rewrite (proj2 (Nat.eqb_neq _ 0)), Nat.ltb_irrefl by lia. cbn [orb].
  destruct (hmac_init_rep a P HP) as (ctx & -> & Hr). cbv zeta.
  assert (size_ok (opssl_put_be32 i)) as Hb by (unfold size_ok, SIZE_MAX; cbn; lia).
  pose proof (hmac_final_rep a P _ _ (hmac_update_rep a P _ _ _ Hb (hmac_update_rep a P ctx [] _ HS Hr))) as Hfin.
  destruct (opssl_hmac_final _) as [[u k] ctx']. cbn [fst] in Hfin. injection Hfin as -> ->.
  rewrite Nat.eqb_refl. cbn [negb]. apply f_loop_diverges; [done | lia | apply HMAC_length].
Qed.

(** C23: PBKDF2 derives RFC 2898's key, for every hash, any nonempty output of fewer
    than 2^32 - 1 blocks and any nonzero iteration count but the largest: both loops
    terminate.  With 2^32 - 1 iterations the call never ends. *)
Theorem pbkdf2_rfc2898 `{Cpu} (SP : SimdSpec cpu_simd) a P S c out fuel :
  size_ok P -> size_ok S -> 1 <= c < 2 ^ 32 ->
  (0 < length out)%nat -> Z.of_nat (length out) <= (2 ^ 32 - 2) * Z.of_nat (get_digest_size a) ->
  (length out <= fuel)%nat ->
  opssl_pbkdf2 fuel a (Some P) (Some S) c (Some out) =
    if c =? 2 ^ 32 - 1 then None else Some (Some (PBKDF2 a P S c (length out))).
Proof.
  intros HP HS Hc Ho Hl Hf. unfold opssl_pbkdf2, get_hash_len. pose proof (digest_le_block a) as Hdb.
  assert (0 < get_digest_size a)%nat as Hd by (destruct a; apply Nat.ltb_lt; reflexivity).
  rewrite (proj2 (Nat.eqb_neq _ 0)), (proj2 (Z.eqb_neq c 0)) by lia. cbn [orb]. cbv zeta.
  rewrite (proj2 (Z.eqb_neq _ 0)) by lia. unfold PBKDF2. set (d := get_digest_size a) in *.
  set (n := ((length out + d - 1) / d)%nat).
  assert (u64 (Z.of_nat (length out) + Z.of_nat d - 1) / Z.of_nat d = Z.of_nat n) as ->.
  { unfold u64. rewrite Z.mod_small by lia. unfold n. rewrite Nat2Z.inj_div. f_equal. lia. }
  pose proof (Nat.div_mod_eq (length out + d - 1) d) as Hdm. fold n in Hdm.
  pose proof (Nat.mod_upper_bound (length out + d - 1) d ltac:(lia)) as Hmb.
  assert (Z.of_nat n < 2 ^ 32 - 1) as Hn by nia.
  assert (length out <= n * d)%nat as Hnd by lia. assert (n <= length out)%nat as Hno by nia.
  unfold u32. rewrite Z.mod_small by lia. destruct (Z.eqb_spec c (2 ^ 32 - 1)) as [-> | Hc'].
  { destruct fuel as [| fuel]; [lia |]. cbn [pbkdf2_loop]. rewrite (proj2 (Z.leb_le 1 _)) by lia. by rewrite (f_diverges a P S). }
  destruct (loop_spec a P S c HP HS ltac:(lia) n n 0 fuel out 0) as (out' & H1 & H2 & H3); try lia; [by destruct out |].
  cbn [Nat.add] in H1. change (Z.of_nat 1) with 1 in H1. rewrite H1. do 2 f_equal. fold d in H3.
  rewrite Nat.min_l, take_ge in H3 by lia. exact H3.
Qed.

Section Witness.
#[local] Existing Instance plain_cpu.

(** RFC 6070 test vector 2: password, salt, 2 iterations, 20 bytes. *)
Lemma pbkdf2_rfc2898_witness :
  let P := [112; 97; 115; 115; 119; 111; 114; 100] in let S := [115; 97; 108; 116] in
  opssl_pbkdf2 20 OPSSL_HMAC_SHA1 (Some P) (Some S) 2 (Some (replicate 20 0)) =
    Some (Some (PBKDF2 OPSSL_HMAC_SHA1 P S 2 20)).
Proof.
  cbv zeta. apply (@pbkdf2_rfc2898 plain_cpu simd_model_spec OPSSL_HMAC_SHA1 [112; 97; 115; 115; 119; 111; 114; 100]
    [115; 97; 108; 116] 2 (replicate 20 0) 20); vm_compute; try discriminate.
  - split; [discriminate | reflexivity].
  - repeat constructor.
  - repeat constructor.
Defined.
End Witness.

Example pbkdf2_rfc6070 :
  be_val (PBKDF2 OPSSL_HMAC_SHA1 [112; 97; 115; 115; 119; 111; 114; 100] [115; 97; 108; 116] 2 20) =
    0xea6c014dc72d6f8ccd1ed92ace1d41f0d8de8957.
Proof. vm_compute. reflexivity. Qed.
