(* ===== verification/KeySched.v ===== *)
(** The TLS 1.3 key schedule: src/tls/keysched.c, against RFC 8446 section 7.1.

    A [const uint8_t *p, size_t n] pair is an [option (list Z)], [None] for a
    null pointer; an output buffer is its contents before the call.  Results as
    in Hkdf.v: [None] is an access outside an object (or a run that does not
    end), [Some None] a return of OPSSL_ERROR (the contents of the outputs are
    not specified then), [Some (Some b)] a return of OPSSL_OK with the outputs.

    [fuel] and [junk] are those of [opssl_hkdf_expand_label]: the bound of its
    loop and the contents of its uninitialised local array. *)
From Stdlib Require Import Ascii String.
From S2P Require Import Prelude Platform Cpu HashApi Hmac Hkdf.
#[local] Open Scope Z_scope.

Definition TLS13_LABEL_DERIVED : list Z := chars "derived".
Definition TLS13_LABEL_C_HS_TRAFFIC : list Z := chars "c hs traffic".
Definition TLS13_LABEL_S_HS_TRAFFIC : list Z := chars "s hs traffic".
Definition TLS13_LABEL_C_AP_TRAFFIC : list Z := chars "c ap traffic".
Definition TLS13_LABEL_S_AP_TRAFFIC : list Z := chars "s ap traffic".
Definition TLS13_LABEL_KEY : list Z := chars "key".
Definition TLS13_LABEL_IV : list Z := chars "iv".
Definition TLS13_LABEL_FINISHED : list Z := chars "finished".
Definition TLS13_LABEL_TRAFFIC_UPD : list Z := chars "traffic upd".

Definition MAX_HASH_LEN : nat := 64.
Definition zero_ikm : list Z := replicate MAX_HASH_LEN 0.

Definition empty_hash_sha256 : list Z :=
  [0xe3;0xb0;0xc4;0x42;0x98;0xfc;0x1c;0x14;
   0x9a;0xfb;0xf4;0xc8;0x99;0x6f;0xb9;0x24;
   0x27;0xae;0x41;0xe4;0x64;0x9b;0x93;0x4c;
   0xa4;0x95;0x99;0x1b;0x78;0x52;0xb8;0x55].

Definition empty_hash_sha384 : list Z :=
  [0x38;0xb0;0x60;0xa7;0x51;0xac;0x96;0x38;
   0x4c;0xd9;0x32;0x7e;0xb1;0xb1;0xe3;0x6a;
   0x21;0xfd;0xb7;0x11;0x14;0xbe;0x07;0x43;
   0x4c;0x0c;0xc7;0xbf;0x63;0xf6;0xe1;0xda;
   0x27;0x4e;0xde;0xbf;0xe7;0x6f;0x65;0xfb;
   0xd5;0x1a;0xd2;0xf1;0x48;0x98;0xb9;0x5b].

Definition hmac_hash_len (a : opssl_hmac_algo_t) : nat :=
  match a with
  | OPSSL_HMAC_SHA1 => 0
  | OPSSL_HMAC_SHA256 => 32
  | OPSSL_HMAC_SHA384 => 48
  | OPSSL_HMAC_SHA512 => 64
  end.

(** Reading [n] bytes of a constant array: [None] past its end. *)
Definition read_const (c : list Z) (n : nat) : option (list Z) :=
  if (n <=? length c)%nat then Some (take n c) else None.

(** Writing a digest to the start of an output buffer. *)
Definition put_out (out : list Z) (r : option (list Z * nat)) : option (option (list Z * nat)) :=
  match r with
  | None => Some None
  | Some (d, n) => if (length d <=? length out)%nat then Some (Some (splice out 0 d, n)) else None
  end.

Section KeySched.
Context `{Cpu}.
Variable fuel : nat.
Variable junk : list Z.

Definition opssl_tls13_derive_secret (a : opssl_hmac_algo_t) (secret label transcript_hash out : option (list Z)) :
    option (option (list Z)) :=
  match secret, label, out with
  | Some secret, Some label, Some out =>
    let expected_hash_len := hmac_hash_len a in
    if (expected_hash_len =? 0)%nat || negb (length out =? expected_hash_len)%nat then Some None else
    let context :=
      match transcript_hash with
      | Some th => Some th
      | None =>
        read_const match a with OPSSL_HMAC_SHA384 => empty_hash_sha384 | _ => empty_hash_sha256 end expected_hash_len
      end in
    match context with
    | None => None
    | Some context => opssl_hkdf_expand_label fuel junk a secret label context out
    end
  | _, _, _ => Some None
  end.

Definition opssl_tls13_extract (a : opssl_hmac_algo_t) (salt ikm out : option (list Z)) (out_len : option nat) :
    option (option (list Z * nat)) :=
  match out, out_len with
  | Some out, Some _ =>
    let hash_len := hmac_hash_len a in
    if (hash_len =? 0)%nat then Some None else
    let actual_salt := match salt with Some s => s | None => take hash_len zero_ikm end in
    let actual_ikm := match ikm with Some s => s | None => take hash_len zero_ikm end in
    put_out out (opssl_hkdf_extract a (Some actual_salt) actual_ikm)
  | _, _ => Some None
  end.

(** [junk2]: the second call's local array. *)
Definition opssl_tls13_derive_traffic_keys (junk2 : list Z) (a : opssl_hmac_algo_t) (secret key iv : option (list Z)) :
    option (option (list Z * list Z)) :=
  match secret, key, iv with
  | Some secret, Some key, Some iv =>
    match opssl_hkdf_expand_label fuel junk a secret TLS13_LABEL_KEY [] key with
    | None => None
    | Some None => Some None
    | Some (Some key) =>
      match opssl_hkdf_expand_label fuel junk2 a secret TLS13_LABEL_IV [] iv with
      | None => None
      | Some None => Some None
      | Some (Some iv) => Some (Some (key, iv))
      end
    end
  | _, _, _ => Some None
  end.

Definition opssl_tls13_early_secret (a : opssl_hmac_algo_t) (psk out : option (list Z)) (out_len : option nat) :
    option (option (list Z * nat)) :=
  match out, out_len with
  | Some _, Some _ =>
    let hash_len := hmac_hash_len a in
    if (hash_len =? 0)%nat then Some None
    else opssl_tls13_extract a None psk out (Some hash_len)
  | _, _ => Some None
  end.

(** The part common to the two functions below: [derived0] is the local array
    derived_secret before the call (its first hash_len bytes are passed). *)
Definition next_secret (derived0 : list Z) (a : opssl_hmac_algo_t) (secret : list Z) (ikm out : option (list Z)) :
    option (option (list Z * nat)) :=
  let hash_len := hmac_hash_len a in
  if (hash_len =? 0)%nat || negb (length secret =? hash_len)%nat then Some None else
  match opssl_tls13_derive_secret a (Some secret) (Some TLS13_LABEL_DERIVED) None (Some (take hash_len derived0)) with
  | None => None
  | Some None => Some None
  | Some (Some derived_secret) => opssl_tls13_extract a (Some derived_secret) ikm out (Some hash_len)
  end.

Definition opssl_tls13_handshake_secret (derived0 : list Z) (a : opssl_hmac_algo_t)
    (early_secret shared_secret out : option (list Z)) (out_len : option nat) : option (option (list Z * nat)) :=
  match early_secret, out, out_len with
  | Some early_secret, Some _, Some _ => next_secret derived0 a early_secret shared_secret out
  | _, _, _ => Some None
  end.

Definition opssl_tls13_master_secret (derived0 : list Z) (a : opssl_hmac_algo_t)
    (handshake_secret out : option (list Z)) (out_len : option nat) : option (option (list Z * nat)) :=
  match handshake_secret, out, out_len with
  | Some handshake_secret, Some _, Some _ => next_secret derived0 a handshake_secret None out
  | _, _, _ => Some None
  end.

(** The next two write hash_len bytes; [next], [finished_key] are those bytes
    before the call. *)
Definition opssl_tls13_update_traffic_secret (a : opssl_hmac_algo_t) (current next : option (list Z)) :
    option (option (list Z)) :=
  match current, next with
  | Some current, Some next =>
    let hash_len := hmac_hash_len a in
    if (hash_len =? 0)%nat || negb (length current =? hash_len)%nat then Some None
    else opssl_hkdf_expand_label fuel junk a current TLS13_LABEL_TRAFFIC_UPD [] (take hash_len next)
  | _, _ => Some None
  end.

Definition opssl_tls13_finished_key (a : opssl_hmac_algo_t) (base_key finished_key : option (list Z)) :
    option (option (list Z)) :=
  match base_key, finished_key with
  | Some base_key, Some finished_key =>
    let hash_len := hmac_hash_len a in
    if (hash_len =? 0)%nat || negb (length base_key =? hash_len)%nat then Some None
    else opssl_hkdf_expand_label fuel junk a base_key TLS13_LABEL_FINISHED [] (take hash_len finished_key)
  | _, _ => Some None
  end.

Definition opssl_tls13_verify_data (a : opssl_hmac_algo_t) (finished_key transcript_hash out : option (list Z))
    (out_len : option nat) : option (option (list Z * nat)) :=
  match finished_key, transcript_hash, out, out_len with
  | Some finished_key, Some transcript_hash, Some out, Some _ =>
    let expected_hash_len := hmac_hash_len a in
    if (expected_hash_len =? 0)%nat || negb (length finished_key =? expected_hash_len)%nat ||
       negb (length transcript_hash =? expected_hash_len)%nat then Some None
    else put_out out (opssl_hmac a (Some finished_key) transcript_hash)
  | _, _, _, _ => Some None
  end.

Definition opssl_tls13_extract_secret (secret salt ikm : option (list Z)) (secret_len : nat)
    (a : opssl_hmac_algo_t) : option (option (list Z * nat)) :=
  opssl_tls13_extract a salt ikm secret (Some secret_len).

Definition opssl_tls13_derive_secret_compat (out secret label context : option (list Z)) (a : opssl_hmac_algo_t) :
    option (option (list Z)) :=
  opssl_tls13_derive_secret a secret label context out.

Definition opssl_tls13_hkdf_expand_label (out secret label context : list Z) (a : opssl_hmac_algo_t) :
    option (option (list Z)) :=
  opssl_hkdf_expand_label fuel junk a secret label context out.
End KeySched.

(* ------------------------------------------------------------------ *)
(** * RFC 8446 section 7.1 *)

Definition Derive_Secret (a : opssl_hmac_algo_t) (secret label messages : list Z) : list Z :=
  HKDF_Expand_Label a secret label (hash_of a messages) (get_digest_size a).

(** The string of Hash.length zeros. *)
Definition zeros (a : opssl_hmac_algo_t) : list Z := replicate (get_digest_size a) 0.

Definition Early_Secret (a : opssl_hmac_algo_t) (psk : list Z) : list Z := HKDF_Extract a (zeros a) psk.
Definition Handshake_Secret (a : opssl_hmac_algo_t) (psk ecdhe : list Z) : list Z :=
  HKDF_Extract a (Derive_Secret a (Early_Secret a psk) (chars "derived") []) ecdhe.
Definition Master_Secret (a : opssl_hmac_algo_t) (psk ecdhe : list Z) : list Z :=
  HKDF_Extract a (Derive_Secret a (Handshake_Secret a psk ecdhe) (chars "derived") []) (zeros a).

(** The hashes of the TLS 1.3 cipher suites. *)
Definition tls13_hash (a : opssl_hmac_algo_t) : bool :=
  match a with OPSSL_HMAC_SHA256 | OPSSL_HMAC_SHA384 => true | _ => false end.

Lemma empty_hash_ok a : tls13_hash a = true ->
  read_const match a with OPSSL_HMAC_SHA384 => empty_hash_sha384 | _ => empty_hash_sha256 end (hmac_hash_len a) =
    Some (hash_of a []).
Proof. destruct a; try discriminate; intros _; vm_compute; reflexivity. Qed.

Lemma hash_len_digest a : (a = OPSSL_HMAC_SHA1 -> False) -> hmac_hash_len a = get_digest_size a.
Proof. by destruct a. Qed.

Lemma HKDF_Extract_length a salt ikm : length (HKDF_Extract a salt ikm) = get_digest_size a.
Proof. apply HMAC_length. Qed.

Lemma HKDF_Expand_length a prk info l : length (HKDF_Expand a prk info l) = l.
Proof.
  unfold HKDF_Expand. rewrite length_take, concat_T_length. pose proof (digest_pos a).
  pose proof (Nat.div_mod_eq (l + get_digest_size a - 1) (get_digest_size a)).
  pose proof (Nat.mod_upper_bound (l + get_digest_size a - 1) (get_digest_size a) ltac:(lia)). nia.
Qed.

Section Correct.
Context `{Cpu} {SP : SimdSpec cpu_simd}.
Context (fuel : nat) (junk : list Z) (Hfuel : (254 <= fuel)%nat) (Hjunk : length junk = 512%nat).
Context (a : opssl_hmac_algo_t) (Ha : a = OPSSL_HMAC_SHA1 -> False).

Lemma hash_len_pos : (hmac_hash_len a =? 0)%nat = false.
Proof. by destruct a. Qed.

(** The expansion of a label without context, as every caller here makes it. *)
Lemma expand_short secret label context out :
  size_ok secret -> (length label <= 12)%nat -> (length context <= 255)%nat -> (length out <= 254 * get_digest_size a)%nat ->
  opssl_hkdf_expand_label fuel junk a secret label context out =
    Some (Some (HKDF_Expand_Label a secret label context (length out))).
Proof. intros. apply (@expand_label_ok _ SP); (done || lia). Qed.

Lemma derive_ok secret label th out :
  size_ok secret -> (length label <= 12)%nat -> length out = get_digest_size a ->
  (match th with Some h => (length h <= 255)%nat | None => tls13_hash a = true end) ->
  opssl_tls13_derive_secret fuel junk a (Some secret) (Some label) th (Some out) =
    Some (Some (HKDF_Expand_Label a secret label (match th with Some h => h | None => hash_of a [] end) (get_digest_size a))).
Proof.
  intros Hs Hl Ho Hth. unfold opssl_tls13_derive_secret. rewrite hash_len_pos, hash_len_digest, Ho, Nat.eqb_refl by done.
  cbn [orb negb]. pose proof (digest_pos a). destruct th as [h |].
  - rewrite expand_short by (done || lia). by rewrite Ho.
  - rewrite <- (hash_len_digest a) at 1 by done. rewrite (empty_hash_ok a Hth), expand_short; [by rewrite Ho | done | done | | lia].
    rewrite hash_of_length. lia.
Qed.

Lemma put_out_ok out d : length d = get_digest_size a -> length out = get_digest_size a ->
  put_out out (Some (d, get_digest_size a)) = Some (Some (d, get_digest_size a)).
Proof. intros Hd Ho. unfold put_out. rewrite Hd, Ho, Nat.leb_refl, splice_full; congruence. Qed.

Lemma extract_ok salt ikm out n :
  (match salt with Some s => size_ok s | None => True end) -> (match ikm with Some s => size_ok s | None => True end) ->
  length out = get_digest_size a ->
  opssl_tls13_extract a salt ikm (Some out) (Some n) =
    Some (Some (HKDF_Extract a (match salt with Some s => s | None => zeros a end)
                  (match ikm with Some s => s | None => zeros a end), get_digest_size a)).
Proof.
  intros Hs Hi Ho. unfold opssl_tls13_extract. rewrite hash_len_pos. rewrite hash_len_digest by done. cbv zeta.
  assert (take (get_digest_size a) zero_ikm = zeros a) as -> by (by destruct a).
  assert (size_ok (zeros a)) as Hz by (unfold size_ok; destruct a; vm_compute; discriminate).
  set (s := match salt with Some s => s | None => zeros a end).
  set (m := match ikm with Some s => s | None => zeros a end).
  assert (size_ok s) as Hs' by (by destruct salt). assert (size_ok m) as Hm' by (by destruct ikm).
  unfold opssl_hkdf_extract, hkdf_hash_len, HKDF_Extract. rewrite (@hmac_oneshot _ SP).
  - rewrite put_out_ok; [| apply HMAC_length | done]. by destruct s.
  - by destruct s.
  - done.
Qed.

Lemma next_secret_ok derived0 secret ikm out :
  tls13_hash a = true -> length derived0 = 64%nat -> length secret = get_digest_size a ->
  (match ikm with Some s => size_ok s | None => True end) -> length out = get_digest_size a ->
  next_secret fuel junk derived0 a secret ikm (Some out) =
    Some (Some (HKDF_Extract a (Derive_Secret a secret (chars "derived") [])
                  (match ikm with Some s => s | None => zeros a end), get_digest_size a)).
Proof.
  intros Ht Hd Hs Hi Ho. unfold next_secret. rewrite hash_len_pos, hash_len_digest by done.
  rewrite Hs, Nat.eqb_refl. cbn [orb negb]. pose proof (digest_pos a).
  rewrite derive_ok; [| unfold size_ok, SIZE_MAX; lia | cbn; lia | rewrite length_take; lia | done].
  rewrite extract_ok; [done | | done | done].
  unfold size_ok, SIZE_MAX, HKDF_Expand_Label. rewrite HKDF_Expand_length. lia.
Qed.
End Correct.

(** C24: chained as the handshake chains them, the three extraction steps compute
    RFC 8446's Early, Handshake and Master Secrets for SHA-256 and SHA-384 (an
    absent PSK or shared secret counting as zeros), and Derive-Secret on the
    result is RFC 8446's for any transcript; the built-in constants are the
    hashes of the empty transcript. *)
Theorem tls13_key_schedule_rfc8446 `{Cpu} (SP : SimdSpec cpu_simd) fuel junk derived0 a psk ecdhe out n label messages :
  tls13_hash a = true -> (254 <= fuel)%nat -> length junk = 512%nat -> length derived0 = 64%nat ->
  (match psk with Some s => size_ok s | None => True end) -> (match ecdhe with Some s => size_ok s | None => True end) ->
  length out = get_digest_size a -> (length label <= 12)%nat ->
  let d := get_digest_size a in
  let or_zeros x := match x with Some s => s | None => zeros a end in
  let ES := Early_Secret a (or_zeros psk) in
  let HS := Handshake_Secret a (or_zeros psk) (or_zeros ecdhe) in
  let MS := Master_Secret a (or_zeros psk) (or_zeros ecdhe) in
  opssl_tls13_early_secret a psk (Some out) (Some n) = Some (Some (ES, d)) /\
  opssl_tls13_handshake_secret fuel junk derived0 a (Some ES) ecdhe (Some out) (Some n) = Some (Some (HS, d)) /\
  opssl_tls13_master_secret fuel junk derived0 a (Some HS) (Some out) (Some n) = Some (Some (MS, d)) /\
  opssl_tls13_derive_secret fuel junk a (Some HS) (Some label) (Some (hash_of a messages)) (Some out) =
    Some (Some (Derive_Secret a HS label messages)).
Proof.
  intros Ht Hf Hj Hd Hp He Ho Hl d or_zeros ES HS MS.
  assert (a = OPSSL_HMAC_SHA1 -> False) as Ha by (by intros ->).
  assert (length HS = d) as HlHS by apply HKDF_Extract_length. pose proof (digest_pos a).
  repeat split.
  - unfold opssl_tls13_early_secret. rewrite hash_len_pos by done. by rewrite (extract_ok a Ha None).
  - unfold opssl_tls13_handshake_secret. rewrite next_secret_ok; try done. apply HKDF_Extract_length.
  - unfold opssl_tls13_master_secret. by rewrite next_secret_ok.
  - rewrite derive_ok; try done; [unfold size_ok, SIZE_MAX; lia | rewrite hash_of_length; lia].
Qed.

(** The traffic key and IV, the next traffic secret and the Finished value
    are RFC 8446's (sections 7.2, 7.3 and 4.4.4). *)
Theorem tls13_traffic_rfc8446 `{Cpu} (SP : SimdSpec cpu_simd) fuel junk junk2 a secret key iv next out n messages :
  (a = OPSSL_HMAC_SHA1 -> False) -> (254 <= fuel)%nat -> length junk = 512%nat -> length junk2 = 512%nat ->
  length secret = get_digest_size a -> (length key <= 254 * get_digest_size a)%nat ->
  (length iv <= 254 * get_digest_size a)%nat -> length next = get_digest_size a -> length out = get_digest_size a ->
  let d := get_digest_size a in
  let fk := HKDF_Expand_Label a secret (chars "finished") [] d in
  opssl_tls13_derive_traffic_keys fuel junk junk2 a (Some secret) (Some key) (Some iv) =
    Some (Some (HKDF_Expand_Label a secret (chars "key") [] (length key),
                HKDF_Expand_Label a secret (chars "iv") [] (length iv))) /\
  opssl_tls13_update_traffic_secret fuel junk a (Some secret) (Some next) =
    Some (Some (HKDF_Expand_Label a secret (chars "traffic upd") [] d)) /\
  opssl_tls13_finished_key fuel junk a (Some secret) (Some next) = Some (Some fk) /\
  opssl_tls13_verify_data a (Some fk) (Some (hash_of a messages)) (Some out) (Some n) =
    Some (Some (HMAC a fk (hash_of a messages), d)).
Proof.
  intros Ha Hf Hj Hj2 Hs Hk Hi Hn Ho d fk. pose proof (digest_pos a).
  assert (size_ok secret) as Hsz by (unfold size_ok, SIZE_MAX; lia).
  assert (length fk = d) as Hfk by apply HKDF_Expand_length.
  repeat split.
  - unfold opssl_tls13_derive_traffic_keys. rewrite (expand_short fuel junk Hf Hj a), (expand_short fuel junk2 Hf Hj2 a); try done; cbn; lia.
  - unfold opssl_tls13_update_traffic_secret. rewrite hash_len_pos, hash_len_digest, Hs, Nat.eqb_refl by done. cbn [orb negb].
    rewrite take_ge, expand_short, Hn; try done; cbn; lia.
  - unfold opssl_tls13_finished_key. rewrite hash_len_pos, hash_len_digest, Hs, Nat.eqb_refl by done. cbn [orb negb].
    rewrite take_ge, expand_short, Hn; try done; cbn; lia.
  - unfold opssl_tls13_verify_data. rewrite hash_len_pos, hash_len_digest, Hfk, hash_of_length by done. unfold d. rewrite !Nat.eqb_refl. cbn [orb negb].
    rewrite (@hmac_oneshot _ SP); [| unfold size_ok, SIZE_MAX; lia | unfold size_ok, SIZE_MAX; rewrite hash_of_length; lia].
    apply put_out_ok; [apply HMAC_length | done].
Qed.

(** With SHA-512 and no transcript the function reads 64 bytes of a 32-byte
    constant. *)
Lemma derive_secret_sha512_overread `{Cpu} fuel junk secret label out : length out = 64%nat ->
  opssl_tls13_derive_secret fuel junk OPSSL_HMAC_SHA512 (Some secret) (Some label) None (Some out) = None.
Proof. intros Ho. unfold opssl_tls13_derive_secret. by rewrite Ho. Qed.

Section Witness.
#[local] Existing Instance plain_cpu.

Lemma tls13_key_schedule_rfc8446_witness :
  opssl_tls13_master_secret 254 (replicate 512 9) (replicate 64 7) OPSSL_HMAC_SHA384
    (Some (Handshake_Secret OPSSL_HMAC_SHA384 (zeros OPSSL_HMAC_SHA384) [1; 2])) (Some (replicate 48 0)) (Some 0%nat) =
    Some (Some (Master_Secret OPSSL_HMAC_SHA384 (zeros OPSSL_HMAC_SHA384) [1; 2], 48%nat)).
Proof.
  refine (proj1 (proj2 (proj2 (@tls13_key_schedule_rfc8446 plain_cpu simd_model_spec 254 (replicate 512 9) (replicate 64 7)
    OPSSL_HMAC_SHA384 None (Some [1; 2]) (replicate 48 0) 0 [] [] _ _ _ _ _ _ _ _))));
    first [reflexivity | exact I | apply le_n | apply le_0_n | vm_compute; discriminate].
Defined.

Lemma tls13_traffic_rfc8446_witness :
  opssl_tls13_update_traffic_secret 254 (replicate 512 9) OPSSL_HMAC_SHA256 (Some (replicate 32 1)) (Some (replicate 32 0)) =
    Some (Some (HKDF_Expand_Label OPSSL_HMAC_SHA256 (replicate 32 1) (chars "traffic upd") [] 32)).
Proof.
  refine (proj1 (proj2 (@tls13_traffic_rfc8446 plain_cpu simd_model_spec 254 (replicate 512 9) (replicate 512 9)
    OPSSL_HMAC_SHA256 (replicate 32 1) [] [] (replicate 32 0) (replicate 32 0) 0 [] _ _ _ _ _ _ _ _ _)));
    first [reflexivity | discriminate | apply le_n | apply le_0_n].
Defined.

(** RFC 8448 section 3: the early, derived, handshake and master secrets of the
    simple 1-RTT handshake. *)
Example tls13_rfc8448 :
  let a := OPSSL_HMAC_SHA256 in
  let ecdhe := be_bytes 32 0x8bd4054fb55b9d63fdfbacf9f04b9f0d35e6d63f537563efd46272900f89492d in
  let ES := Early_Secret a (zeros a) in
  let HS := Handshake_Secret a (zeros a) ecdhe in
  be_val ES = 0x33ad0a1c607ec03b09e6cd9893680ce210adf300aa1f2660e1b22e10f170f92a /\
  be_val (Derive_Secret a ES (chars "derived") []) = 0x6f2615a108c702c5678f54fc9dbab69716c076189c48250cebeac3576c3611ba /\
  be_val HS = 0x1dc826e93606aa6fdc0aadc12f741b01046aa6b99f691ed221a9f0ca043fbeac /\
  be_val (Master_Secret a (zeros a) ecdhe) = 0x18df06843d13a08bf2a449844c5f8a478001bc4d4c627984d5a41da8d0402919.
Proof. vm_compute. repeat split. Qed.
End Witness.
