(* ===== verification/LeWord.v ===== *)
(** The little-endian loads and stores that chacha20.c, poly1305.c and
    chacha20_poly1305.c each declare for themselves. *)
From S2P Require Import Prelude.
#[local] Open Scope Z_scope.

Definition load32_le (p : list Z) : Z :=
  Z.lor (Z.lor (Z.lor p.[0] (Z.shiftl p.[1] 8)) (Z.shiftl p.[2] 16)) (Z.shiftl p.[3] 24).

Definition store32_le (v : Z) : list Z :=
  [u8 v; u8 (Z.shiftr v 8); u8 (Z.shiftr v 16); u8 (Z.shiftr v 24)].

Definition store64_le (v : Z) : list Z :=
  [u8 v; u8 (Z.shiftr v 8); u8 (Z.shiftr v 16); u8 (Z.shiftr v 24);
   u8 (Z.shiftr v 32); u8 (Z.shiftr v 40); u8 (Z.shiftr v 48); u8 (Z.shiftr v 56)].

(* ------------------------------------------------------------------ *)
(** * Lemmas *)

Lemma store32_le_bytes v : store32_le v = le_bytes 4 v.
Proof. unfold store32_le. cbn [le_bytes]. by rewrite !Z.shiftr_shiftr by lia. Qed.

Lemma store64_le_bytes v : store64_le v = le_bytes 8 v.
Proof. unfold store64_le. cbn [le_bytes]. by rewrite !Z.shiftr_shiftr by lia. Qed.

Lemma load32_le_spec p : bytes p ->
  load32_le p = p.[0] + 256 * (p.[1] + 256 * (p.[2] + 256 * p.[3])).
Proof.
  intros Hp. pose proof (bytes_get p 0 Hp). pose proof (bytes_get p 1 Hp). pose proof (bytes_get p 2 Hp).
  pose proof (bytes_get p 3 Hp). unfold byte_ok in *. unfold load32_le.
  rewrite (Z.lor_comm (Z.lor (Z.lor _ _) _)), (Z.lor_comm (Z.lor _ _)), (Z.lor_comm p.[0]).
  rewrite Z.lor_assoc, (lor_shiftl2 p.[3] p.[2]), Z.lor_assoc, lor_shiftl2, lor_shiftl by (simpl; lia). simpl. lia.
Qed.

Lemma load32_le_range p : bytes p -> 0 <= load32_le p < 2 ^ 32.
Proof.
  intros Hp. rewrite load32_le_spec by done. pose proof (bytes_get p 0 Hp). pose proof (bytes_get p 1 Hp).
  pose proof (bytes_get p 2 Hp). pose proof (bytes_get p 3 Hp). unfold byte_ok in *. lia.
Qed.

(** The word is the number of the first four bytes. *)
Lemma load32_le_val p : bytes p -> (4 <= length p)%nat -> load32_le p = le_val (take 4 p).
Proof.
  intros Hp Hl. rewrite load32_le_spec by done. destruct p as [| a [| b [| c [| d p]]]]; cbn in Hl; try lia.
  cbn. rewrite take_0. cbn. lia.
Qed.

Lemma u8_lxor_low w b v : byte_ok b -> u8 (Z.lxor w (b + 256 * v)) = Z.lxor b (u8 w).
Proof.
  intros Hb. unfold u8. change 256 with (2 ^ 8). rewrite lxor_mod, Z.lxor_comm by lia. f_equal.
  rewrite Z.mul_comm, Z.mod_add by lia. by apply Z.mod_small.
Qed.

(** Exclusive or of words is exclusive or of their bytes. *)
Lemma le_bytes_lxor p w : bytes p -> le_bytes (length p) (Z.lxor w (le_val p)) = zip_with Z.lxor p (le_bytes (length p) w).
Proof.
  revert w. induction p as [| b p IH]; intros w Hp; [done |]. apply bytes_cons in Hp as [Hb Hp].
  cbn [length le_bytes le_val zip_with]. rewrite u8_lxor_low by done. f_equal.
  rewrite <- IH, Z.shiftr_lxor by done. do 2 f_equal. rewrite shiftr_div by lia. unfold byte_ok in Hb. change (2 ^ 8) with 256.
  replace (b + 256 * le_val p) with (le_val p * 256 + b) by lia. rewrite Z.div_add_l, Z.div_small by lia. lia.
Qed.

Lemma lor_add x y k : 0 <= k -> 0 <= x < 2 ^ k -> Z.lor x (Z.shiftl y k) = x + y * 2 ^ k.
Proof. intros. rewrite Z.lor_comm, lor_shiftl by lia. lia. Qed.

Lemma le_bytes_map n : forall v, le_bytes n v = map (fun i => u8 (Z.shiftr v (8 * Z.of_nat i))) (seq 0 n).
Proof.
  induction n as [| n IH]; intros v; [done |]. cbn [le_bytes seq map]. rewrite Z.mul_0_r, Z.shiftr_0_r. f_equal.
  rewrite IH, <- seq_shift, map_map. apply map_ext. intros i. rewrite Z.shiftr_shiftr by lia. do 2 f_equal. lia.
Qed.
