(* ===== verification/Sha3.v ===== *)
(** SHA-3 and SHAKE: src/crypto/sha3.c, with the reference of FIPS 202: the round
    constants from their shift register, the rotations from the walk through the
    lanes, the sponge. *)
From S2P Require Import Prelude Platform LeWord MdHash HashApi.
#[local] Open Scope Z_scope.

(* ------------------------------------------------------------------ *)
(** * The permutation *)

Definition RC : list Z := [
  0x0000000000000001; 0x0000000000008082; 0x800000000000808a;
  0x8000000080008000; 0x000000000000808b; 0x0000000080000001;
  0x8000000080008081; 0x8000000000008009; 0x000000000000008a;
  0x0000000000000088; 0x0000000080008009; 0x000000008000000a;
  0x000000008000808b; 0x800000000000008b; 0x8000000000008089;
  0x8000000000008003; 0x8000000000008002; 0x8000000000000080;
  0x000000000000800a; 0x800000008000000a; 0x8000000080008081;
  0x8000000000008080; 0x0000000080000001; 0x8000000080008008 ].

Definition rho_offsets : list Z := [
   0;  1; 62; 28; 27; 36; 44;  6; 55; 20;
   3; 10; 43; 25; 39; 41; 45; 15; 21;  8;
  18;  2; 61; 56; 14 ].

Definition rotl64 (x n : Z) : Z :=
  let n := Z.land n 63 in
  Z.lor (u64 (Z.shiftl x n)) (Z.shiftr x (Z.land (64 - n) 63)).

Definition column (state : list Z) (x : nat) : Z :=
  Z.lxor (Z.lxor (Z.lxor (Z.lxor state.[x] state.[x + 5]) state.[x + 10]) state.[x + 15]) state.[x + 20].

(** The theta step: [C], [D], and the lanes. *)
Definition keccak_theta (state : list Z) : list Z :=
  let C := [column state 0; column state 1; column state 2; column state 3; column state 4] in
  let D := [Z.lxor C.[4] (rotl64 C.[1] 1); Z.lxor C.[0] (rotl64 C.[2] 1); Z.lxor C.[1] (rotl64 C.[3] 1);
            Z.lxor C.[2] (rotl64 C.[4] 1); Z.lxor C.[3] (rotl64 C.[0] 1)] in
  for_range 0 25 (fun i state => <[i := Z.lxor state.[i] D.[(i mod 5)%nat]]> state) state.

(** [B], from an array whose contents do not matter. *)
Definition keccak_rho_pi (state B : list Z) : list Z :=
  for_range 0 25 (fun i B =>
    let x := (i mod 5)%nat in let y := (i / 5)%nat in
    let j := (5 * ((2 * x + 3 * y) mod 5) + y)%nat in
    <[j := rotl64 state.[i] rho_offsets.[i]]> B) B.

Definition keccak_chi (B state : list Z) : list Z :=
  for_range 0 5 (fun y state =>
    for_range 0 5 (fun x state =>
      let i := (5 * y + x)%nat in
      <[i := Z.lxor B.[i] (Z.land (u64 (Z.lnot B.[(5 * y + (x + 1) mod 5)%nat])) B.[(5 * y + (x + 2) mod 5)%nat])]> state) state) state.

Definition keccak_round (round : nat) (state : list Z) : list Z :=
  let state := keccak_theta state in
  let B := keccak_rho_pi state (replicate 25 0) in
  let state := keccak_chi B state in
  <[0%nat := Z.lxor state.[0] RC.[round]]> state.

Definition keccak_f1600 (state : list Z) : list Z := for_range 0 24 keccak_round state.

(* ------------------------------------------------------------------ *)
(** * The sponge *)

Record opssl_sha3_ctx := mk_sha3 { state : list Z; buffer : list Z; buffer_len : nat; rate : nat; pad : Z }.

Definition keccak_init (rate : nat) (pad : Z) : opssl_sha3_ctx := mk_sha3 (replicate 25 0) (replicate 168 0) 0 rate pad.

(** The bytes of [buffer] combined with the lanes. *)
Definition absorb_lanes (rate : nat) (buffer state : list Z) : list Z :=
  for_range 0 ((rate + 7) / 8) (fun lane state =>
    let i := (lane * 8)%nat in
    let bytes_to_read := if (8 <? rate - i)%nat then 8%nat else (rate - i)%nat in
    let value := for_range 0 bytes_to_read (fun j value => Z.lor value (Z.shiftl buffer.[i + j] (8 * Z.of_nat j))) 0 in
    <[lane := Z.lxor state.[lane] value]> state) state.

Definition update_body (s : opssl_sha3_ctx * list Z) : opssl_sha3_ctx * list Z :=
  let '(ctx, input) := s in
  let to_copy := (rate ctx - buffer_len ctx)%nat in
  let to_copy := if (length input <? to_copy)%nat then length input else to_copy in
  let buffer := splice (buffer ctx) (buffer_len ctx) (take to_copy input) in
  let buffer_len := (buffer_len ctx + to_copy)%nat in
  let input := drop to_copy input in
  if (buffer_len =? rate ctx)%nat then (mk_sha3 (keccak_f1600 (absorb_lanes (rate ctx) buffer (state ctx))) buffer 0 (rate ctx) (pad ctx), input)
  else (mk_sha3 (state ctx) buffer buffer_len (rate ctx) (pad ctx), input).

Definition update_cond (s : opssl_sha3_ctx * list Z) : bool := (0 <? length s.2)%nat.

Definition keccak_update (ctx : opssl_sha3_ctx) (data : list Z) : opssl_sha3_ctx :=
  fst (default (ctx, data) (while_fuel (length data) update_cond update_body (ctx, data))).

(** The last block. *)
Definition pad_buffer (rate : nat) (pad : Z) (buffer : list Z) (buffer_len : nat) : list Z :=
  let buffer := <[buffer_len := pad]> buffer in
  if (buffer_len =? rate - 1)%nat then <[buffer_len := Z.lor buffer.[buffer_len] 0x80]> buffer
  else <[(rate - 1)%nat := 0x80]> (splice buffer (buffer_len + 1) (replicate (rate - buffer_len - 2) 0)).

(** The first [n] bytes of the lanes, to [out] at [offset]. *)
Definition write_lanes (state : list Z) (n offset : nat) (out : list Z) : list Z :=
  for_range 0 ((n + 7) / 8) (fun lane out =>
    let i := (lane * 8)%nat in
    let bytes_to_write := if (8 <? n - i)%nat then 8%nat else (n - i)%nat in
    splice out (offset + i) (map (fun j => u8 (Z.shiftr state.[lane] (8 * Z.of_nat j))) (seq 0 bytes_to_write))) out.

Definition squeeze_cond (out_len : nat) (s : list Z * list Z * nat) : bool := (s.2 <? out_len)%nat.

Definition squeeze_body (rate out_len : nat) (s : list Z * list Z * nat) : list Z * list Z * nat :=
  let '(state, out, offset) := s in
  let to_squeeze := if (rate <? out_len - offset)%nat then rate else (out_len - offset)%nat in
  let out := write_lanes state to_squeeze offset out in
  let offset := (offset + to_squeeze)%nat in
  ((if (offset <? out_len)%nat then keccak_f1600 state else state), out, offset).

(** The output, and the context wiped. *)
Definition keccak_final (ctx : opssl_sha3_ctx) (out : list Z) (out_len : nat) : list Z * opssl_sha3_ctx :=
  let buffer := pad_buffer (rate ctx) (pad ctx) (buffer ctx) (buffer_len ctx) in
  let state := keccak_f1600 (absorb_lanes (rate ctx) buffer (state ctx)) in
  let s := default (state, out, 0%nat) (while_fuel out_len (squeeze_cond out_len) (squeeze_body (rate ctx) out_len) (state, out, 0%nat)) in
  (s.1.2, mk_sha3 (replicate 25 0) (replicate 168 0) 0 0 0).

Definition opssl_sha3_256_init : opssl_sha3_ctx := keccak_init 136 0x06.
Definition opssl_sha3_256_update (ctx : opssl_sha3_ctx) (data : list Z) : opssl_sha3_ctx := keccak_update ctx data.
Definition opssl_sha3_256_final (ctx : opssl_sha3_ctx) (out : list Z) : list Z * opssl_sha3_ctx := keccak_final ctx out 32.
Definition opssl_sha3_256 (data out : list Z) : list Z := (opssl_sha3_256_final (opssl_sha3_256_update opssl_sha3_256_init data) out).1.

Definition opssl_sha3_512_init : opssl_sha3_ctx := keccak_init 72 0x06.
Definition opssl_sha3_512_update (ctx : opssl_sha3_ctx) (data : list Z) : opssl_sha3_ctx := keccak_update ctx data.
Definition opssl_sha3_512_final (ctx : opssl_sha3_ctx) (out : list Z) : list Z * opssl_sha3_ctx := keccak_final ctx out 64.
Definition opssl_sha3_512 (data out : list Z) : list Z := (opssl_sha3_512_final (opssl_sha3_512_update opssl_sha3_512_init data) out).1.

Definition opssl_sha3_xof_final (ctx : opssl_sha3_ctx) (out : list Z) (out_len : nat) : list Z * opssl_sha3_ctx := keccak_final ctx out out_len.

Definition opssl_shake128 (out : list Z) (out_len : nat) (input : list Z) : list Z :=
  (keccak_final (keccak_update (keccak_init 168 0x1F) input) out out_len).1.

Definition opssl_shake256 (out : list Z) (out_len : nat) (input : list Z) : list Z :=
  (keccak_final (keccak_update (keccak_init 136 0x1F) input) out out_len).1.

(* ------------------------------------------------------------------ *)
(** * FIPS 202 *)

(** A state as lanes [A x y], section 3.1. *)
Definition lanes (S : list Z) (x y : nat) : Z := S.[(5 * y + x)%nat].
Definition unlanes (A : nat -> nat -> Z) : list Z := map (fun i => A (i mod 5)%nat (i / 5)%nat) (seq 0 25).

Definition theta (A : nat -> nat -> Z) (x y : nat) : Z :=
  let C x := Z.lxor (Z.lxor (Z.lxor (Z.lxor (A x 0%nat) (A x 1%nat)) (A x 2%nat)) (A x 3%nat)) (A x 4%nat) in
  Z.lxor (A x y) (Z.lxor (C ((x + 4) mod 5)%nat) (rotl64 (C ((x + 1) mod 5)%nat) 1)).

(** The offsets (t + 1)(t + 2)/2 of the walk (x, y) -> (y, 2x + 3y) from (1, 0). *)
Fixpoint rho_walk (n t x y : nat) : list (nat * nat * Z) :=
  match n with
  | O => []
  | S n => (x, y, Z.of_nat ((t + 1) * (t + 2) / 2) mod 64) :: rho_walk n (S t) y ((2 * x + 3 * y) mod 5)
  end.

Definition rho_offset (x y : nat) : Z :=
  match find (fun '(x', y', _) => (x' =? x)%nat && (y' =? y)%nat) (rho_walk 24 0 1 0) with Some (_, r) => r | None => 0 end.

Definition rho (A : nat -> nat -> Z) (x y : nat) : Z := rotl64 (A x y) (rho_offset x y).

Definition pi (A : nat -> nat -> Z) (x y : nat) : Z := A ((x + 3 * y) mod 5)%nat x.

Definition chi (A : nat -> nat -> Z) (x y : nat) : Z :=
  Z.lxor (A x y) (Z.land (u64 (Z.lnot (A ((x + 1) mod 5)%nat y))) (A ((x + 2) mod 5)%nat y)).

(** The shift register of algorithm 5. *)
Definition lfsr_step (R : list bool) : list bool :=
  match R with
  | [r0; r1; r2; r3; r4; r5; r6; r7] => [r7; r0; r1; r2; xorb r3 r7; xorb r4 r7; xorb r5 r7; r6]
  | _ => R
  end.

Definition rc (t : nat) : bool :=
  nth 0 (Nat.iter (t mod 255) lfsr_step [true; false; false; false; false; false; false; false]) false.

Definition round_constant (ir : nat) : Z :=
  fold_right (fun j c => if rc (j + 7 * ir) then Z.lor (2 ^ (2 ^ Z.of_nat j - 1)) c else c) 0 (seq 0 7).

Definition iota (ir : nat) (A : nat -> nat -> Z) (x y : nat) : Z :=
  if (x =? 0)%nat && (y =? 0)%nat then Z.lxor (A x y) (round_constant ir) else A x y.

Definition Rnd (ir : nat) (A : nat -> nat -> Z) : nat -> nat -> Z := iota ir (chi (pi (rho (theta A)))).

Definition KECCAK_f (S : list Z) : list Z := for_range 0 24 (fun ir S => unlanes (Rnd ir (lanes S))) S.

(** The sponge, on bytes: a block is combined with the first lanes. *)
Definition absorb_block (S block : list Z) : list Z :=
  KECCAK_f (map (fun i => Z.lxor S.[i] (le_val (sub_list (i * 8) 8 block))) (seq 0 25)).

Definition pad10x1 (r : nat) (domain : Z) (n : nat) : list Z :=
  let k := (n mod r)%nat in
  if (k =? r - 1)%nat then [Z.lor domain 0x80] else domain :: replicate (r - k - 2) 0 ++ [0x80].

Fixpoint squeezed (r n : nat) (S : list Z) : list Z :=
  match n with O => [] | Datatypes.S n => take r (flat_map (le_bytes 8) S) ++ squeezed r n (KECCAK_f S) end.

(** [d] bytes of the sponge of rate [r] and domain byte [domain]. *)
Definition SPONGE (r : nat) (domain : Z) (m : list Z) (d : nat) : list Z :=
  take d (squeezed r (S (d / r)) (absorb r absorb_block (replicate 25 0) (m ++ pad10x1 r domain (length m)))).

Definition SHA3_256 (m : list Z) : list Z := SPONGE 136 0x06 m 32.
Definition SHA3_512 (m : list Z) : list Z := SPONGE 72 0x06 m 64.
Definition SHAKE128 (m : list Z) (d : nat) : list Z := SPONGE 168 0x1F m d.
Definition SHAKE256 (m : list Z) (d : nat) : list Z := SPONGE 136 0x1F m d.
