(* ===== verification/Sha3Ok.v ===== *)
(** The functions of [Sha3] are FIPS 202's. *)
From S2P Require Import Prelude Platform LeWord MdHash HashApi Sha3.
#[local] Open Scope Z_scope.

(* ------------------------------------------------------------------ *)
(** * The permutation *)

Lemma RC_spec ir : (ir < 24)%nat -> RC.[ir] = round_constant ir.
Proof.
  intros Hi. apply Z.eqb_eq. assert (forallb (fun i => RC.[i] =? round_constant i) (seq 0 24) = true) as Hf by (vm_compute; reflexivity).
  rewrite forallb_forall in Hf. apply Hf. apply in_seq. lia.
Qed.

Lemma keccak_round_spec ir S : (ir < 24)%nat -> length S = 25%nat -> keccak_round ir S = unlanes (Rnd ir (lanes S)).
Proof.
  intros Hi Hl. unfold keccak_round, Rnd, iota. rewrite (RC_spec ir Hi). generalize (round_constant ir) as c. intros c.
  do 25 (destruct S as [| ? S]; [discriminate Hl |]). destruct S; [| discriminate Hl]. clear.
  cbv -[rotl64 Z.lxor Z.land Z.lnot u64]. reflexivity.
Qed.

Lemma unlanes_length A : length (unlanes A) = 25%nat.
Proof. reflexivity. Qed.

Lemma keccak_f1600_spec S : length S = 25%nat -> keccak_f1600 S = KECCAK_f S /\ length (KECCAK_f S) = 25%nat.
Proof.
  intros Hl. unfold keccak_f1600, KECCAK_f. assert (forall n a S, (a + n <= 24)%nat -> length S = 25%nat ->
    for_range a n keccak_round S = for_range a n (fun ir S => unlanes (Rnd ir (lanes S))) S /\ length (for_range a n (fun ir S => unlanes (Rnd ir (lanes S))) S) = 25%nat) as Hr.
  { clear. induction n as [| n IH]; intros a S Ha Hl; [by rewrite !for_range_0 |]. rewrite !for_range_S, keccak_round_spec by (lia || done). apply IH; [lia | apply unlanes_length]. }
  by apply Hr.
Qed.

(* ------------------------------------------------------------------ *)
(** * Absorbing *)

Lemma load_bytes_spec b i n : bytes b -> (i + n <= length b)%nat ->
  for_range 0 n (fun j v => Z.lor v (Z.shiftl b.[i + j] (8 * Z.of_nat j))) 0 = le_val (sub_list i n b).
Proof.
  intros Hb Hl. apply (for_range_ind (fun j v => v = le_val (sub_list i j b))); [by unfold sub_list; rewrite take_0 |].
  intros j v Hj ->. cbn [Nat.add] in Hj. assert (sub_list i (S j) b = sub_list i j b ++ [b.[i + j]]) as ->.
  { unfold sub_list. apply take_S_r. rewrite lookup_drop. apply lookup_get. lia. }
  pose proof (le_val_range _ (bytes_sub i j b Hb)) as Hv. rewrite sub_list_length in Hv by lia.
  rewrite le_val_app, sub_list_length by lia. cbn [le_val]. rewrite pow256_bits in *. rewrite lor_add by lia. lia.
Qed.

(** The rates are whole numbers of lanes, and not more than a buffer. *)
Definition rate_ok (r : nat) : Prop := (0 < r <= 168)%nat /\ (r mod 8 = 0)%nat.

Lemma rate_div r : rate_ok r -> r = (8 * (r / 8))%nat /\ ((r + 7) / 8 = r / 8)%nat /\ (0 < r / 8 <= 21)%nat.
Proof. intros [H1 H2]. pose proof (Nat.div_mod_eq r 8). pose proof (Nat.div_mod_eq (r + 7) 8). pose proof (Nat.mod_upper_bound (r + 7) 8). lia. Qed.

Lemma list_25 (f : nat -> Z) S : length S = 25%nat -> (forall j, (j < 25)%nat -> S.[j] = f j) -> S = map f (seq 0 25).
Proof.
  intros Hl Hf. apply list_eq_get; [by rewrite length_map, length_seq |]. intros j Hj. rewrite Hl in Hj. rewrite Hf by done.
  unfold get. rewrite (nth_indep _ 0 (f 0%nat)) by (rewrite length_map, length_seq; lia). rewrite (map_nth f), seq_nth by lia. done.
Qed.

Lemma absorb_lanes_spec r b S : rate_ok r -> bytes b -> (r <= length b)%nat -> length S = 25%nat ->
  absorb_lanes r b S = map (fun i => Z.lxor S.[i] (le_val (sub_list (i * 8) 8 (take r b)))) (seq 0 25).
Proof.
  intros Hr Hb Hl HS. destruct (rate_div r Hr) as (Er & Ed & Hd). unfold absorb_lanes. rewrite Ed. set (w := (r / 8)%nat) in *.
  set (val i := le_val (sub_list (i * 8) 8 (take r b))).
  match goal with |- for_range 0 w ?f S = _ => pose proof (for_range_ind (fun n s => length s = 25%nat /\ forall j, (j < 25)%nat -> s.[j] = if (j <? n)%nat then Z.lxor S.[j] (val j) else S.[j]) 0 w f S) as Hind end.
  cbn [Nat.add] in Hind. destruct Hind as [Hlen Hget].
  - by split.
  - intros i s Hi [Hs Hget]. split; [by rewrite length_insert |]. intros j Hj.
    assert ((if (8 <? r - i * 8)%nat then 8%nat else (r - i * 8)%nat) = 8%nat) as -> by (destruct (Nat.ltb_spec 8 (r - i * 8)); lia).
    destruct (decide (i = j)) as [<- | Hn].
    + rewrite get_insert_eq by lia. rewrite load_bytes_spec by (done || lia). rewrite Hget by lia.
      destruct (Nat.ltb_spec i i); [lia |]. destruct (Nat.ltb_spec i (Datatypes.S i)); [| lia]. f_equal. unfold val, sub_list. f_equal.
      rewrite skipn_firstn_comm, take_take. f_equal. lia.
    + rewrite get_insert_ne, Hget by lia. destruct (Nat.ltb_spec j i), (Nat.ltb_spec j (Datatypes.S i)); (done || lia).
  - apply list_25; [done |]. intros j Hj. rewrite Hget by done. destruct (Nat.ltb_spec j w); [done |].
    assert (sub_list (j * 8) 8 (take r b) = []) as -> by (unfold sub_list; rewrite drop_ge; [apply take_nil | rewrite length_take; lia]). cbn [le_val]. by rewrite Z.lxor_0_r.
Qed.

(** What [transform] is for the buffering of [MdHash]. *)
Lemma absorb_block_spec r b S : rate_ok r -> bytes b -> (r <= length b)%nat -> length S = 25%nat ->
  keccak_f1600 (absorb_lanes r b S) = absorb_block S (take r b) /\ length (absorb_block S (take r b)) = 25%nat.
Proof.
  intros Hr Hb Hl HS. unfold absorb_block. rewrite absorb_lanes_spec by done. apply keccak_f1600_spec. by rewrite length_map, length_seq.
Qed.

Lemma absorb_length r S m : length S = 25%nat -> length (absorb r absorb_block S m) = 25%nat.
Proof.
  intros HS. apply (absorb_ind r absorb_block (fun S => length S = 25%nat)); [done |]. intros s b Hs. unfold absorb_block.
  apply keccak_f1600_spec. by rewrite length_map, length_seq.
Qed.

(** The context of rate [r] and padding [d] that has absorbed [m]. *)
Definition sha3_rep (r : nat) (d : Z) (ctx : opssl_sha3_ctx) (m : list Z) : Prop :=
  md_rep r absorb_block (replicate 25 0) (state ctx) (take r (buffer ctx)) m /\ length (buffer ctx) = 168%nat /\ bytes (buffer ctx) /\
  buffer_len ctx = (length m mod r)%nat /\ rate ctx = r /\ pad ctx = d.

Lemma keccak_init_rep r d : rate_ok r -> sha3_rep r d (keccak_init r d) [].
Proof.
  intros [Hr _]. split; [apply md_rep_nil; [lia |]; cbn [buffer keccak_init]; rewrite length_take, length_replicate; lia |].
  cbn [buffer keccak_init buffer_len rate pad]. rewrite length_replicate. split; [done |]. split; [apply bytes_replicate; unfold byte_ok; lia |].
  split; [| done]. cbn [length]. rewrite Nat.mod_small by lia. done.
Qed.

Lemma take_splice r (b : list Z) off q : (off + length q <= r)%nat -> (r <= length b)%nat -> take r (splice b off q) = splice (take r b) off q.
Proof.
  intros Hq Hr. unfold splice. rewrite !take_app, !take_take, !length_take, skipn_firstn_comm.
  rewrite (Nat.min_r r off), (Nat.min_l off r), (Nat.min_l off (length b)), (take_ge q) by lia. do 3 f_equal. lia.
Qed.

#[local] Opaque KECCAK_f keccak_f1600 absorb_lanes absorb_block.

Lemma update_body_rep r d ctx m p : rate_ok r -> sha3_rep r d ctx m -> bytes p -> p <> [] ->
  exists q p' ctx', update_body (ctx, p) = (ctx', p') /\ p = q ++ p' /\ (length p' < length p)%nat /\ sha3_rep r d ctx' (m ++ q).
Proof.
  intros Hrate (Hr & Hl & Hb & Hbl & Hrt & Hpd) Hp Hne. assert (0 < length p)%nat as Hp0 by (destruct p; [done | cbn; lia]). destruct Hrate as [Hr0 Hr8].
  pose proof (Nat.mod_upper_bound (length m) r ltac:(lia)) as Hlt. cbn [update_body]. rewrite Hrt. set (c := if (_ <? _)%nat then _ else _).
  assert (c <= length p /\ c <= r - length m mod r /\ 0 < c)%nat as (Hc1 & Hc2 & Hc0).
  { unfold c. rewrite Hbl. destruct (Nat.ltb_spec (length p) (r - length m mod r)); lia. }
  assert (length (take c p) = c) as Hq by (rewrite length_take; lia). assert (length (state ctx) = 25%nat) as HS.
  { destruct Hr as (-> & _). by apply absorb_length. }
  exists (take c p), (drop c p). pose proof (md_chunk_rep r ltac:(lia) _ _ _ _ m (take c p) Hr) as Hch. rewrite Hq in Hch. specialize (Hch Hc2).
  cbn zeta in Hch. rewrite <- take_splice in Hch by lia. rewrite <- Hbl in Hch.
  set (b := splice (buffer ctx) (buffer_len ctx) (take c p)) in *.
  assert (length b = 168%nat) as Hlb by (unfold b; rewrite splice_length; lia). assert (bytes b) as Hbb by (unfold b; apply bytes_splice; [done | by apply bytes_take]).
  pose proof (mod_chunk r ltac:(lia) (length m) c Hc2) as Hmod. rewrite <- Hbl in Hmod.
  assert (length (m ++ take c p) = length m + c)%nat as Hlm by (rewrite length_app; lia).
  destruct (absorb_block_spec r b (state ctx) (conj Hr0 Hr8) Hbb ltac:(lia) HS) as [Eab _]. rewrite Eab.
  destruct (Nat.eqb_spec (buffer_len ctx + c) r) as [He | He]; eexists; (split; [reflexivity |]); (split; [by rewrite take_drop |]); (split; [rewrite length_drop; lia |]);
    unfold sha3_rep; cbn [state buffer buffer_len rate pad]; rewrite Hlm; (split; [exact Hch |]); (split; [exact Hlb |]); (split; [exact Hbb |]); (split; [by rewrite Hmod |]); (split; [exact eq_refl | exact Hpd]).
Qed.

Lemma update_loop_rep r d fuel : forall ctx m p, rate_ok r -> sha3_rep r d ctx m -> bytes p -> (length p <= fuel)%nat ->
  exists ctx', while_fuel fuel update_cond update_body (ctx, p) = Some (ctx', []) /\ sha3_rep r d ctx' (m ++ p).
Proof.
  induction fuel as [| fuel IH]; intros ctx m p Hrate Hr Hp Hf.
  - destruct p; [| cbn in Hf; lia]. exists ctx. by rewrite app_nil_r.
  - destruct (decide (p = [])) as [-> | Hne]; [exists ctx; by rewrite app_nil_r |].
    destruct (update_body_rep r d ctx m p Hrate Hr Hp Hne) as (q & p' & ctx1 & Hb & -> & Hl & Hr1). apply bytes_app in Hp as [_ Hp'].
    destruct (IH ctx1 (m ++ q) p' Hrate Hr1 Hp' ltac:(lia)) as (ctx2 & Hw & Hr2). exists ctx2. cbn [while_fuel]. unfold update_cond at 1. cbn [snd].
    rewrite (proj2 (Nat.ltb_lt 0 _)) by lia. rewrite Hb, Hw. by rewrite <- app_assoc in Hr2.
Qed.

Lemma keccak_update_rep r d ctx m p : rate_ok r -> sha3_rep r d ctx m -> bytes p -> sha3_rep r d (keccak_update ctx p) (m ++ p).
Proof.
  intros Hrate Hr Hp. unfold keccak_update. destruct (update_loop_rep r d (length p) ctx m p Hrate Hr Hp ltac:(lia)) as (ctx' & -> & Hr'). exact Hr'.
Qed.

Lemma keccak_updates_rep r d chunks : rate_ok r -> Forall bytes chunks -> forall ctx m, sha3_rep r d ctx m ->
  sha3_rep r d (fold_left keccak_update chunks ctx) (m ++ concat chunks).
Proof.
  intros Hrate. induction 1 as [| p ps Hp Hps IH]; intros ctx m Hr; cbn [fold_left concat]; [by rewrite app_nil_r |].
  rewrite app_assoc. apply IH. by apply keccak_update_rep.
Qed.

(* ------------------------------------------------------------------ *)
(** * Padding and squeezing *)

Lemma insert_at_end {A} (l : list A) k x : (k < length l)%nat -> take (S k) (<[k := x]> l) = take k l ++ [x].
Proof.
  intros Hk. rewrite insert_take_drop by done. change (take k l ++ x :: drop (S k) l) with (take k l ++ [x] ++ drop (S k) l). rewrite app_assoc.
  apply take_app_length'. rewrite length_app, length_take. cbn [length]. lia.
Qed.

Lemma pad_buffer_spec r d b k : (0 < r <= length b)%nat -> (k < r)%nat ->
  take r (pad_buffer r d b k) = take k b ++ (if (k =? r - 1)%nat then [Z.lor d 0x80] else d :: replicate (r - k - 2) 0 ++ [0x80]) /\
  length (pad_buffer r d b k) = length b.
Proof.
  intros Hr Hk. unfold pad_buffer. destruct (Nat.eqb_spec k (r - 1)) as [-> | Hn].
  - rewrite get_insert_eq by lia. replace r with (S (r - 1)) at 1 by lia. rewrite insert_at_end by (rewrite length_insert; lia).
    rewrite take_insert_ge by lia. by rewrite !length_insert.
  - set (z := replicate (r - k - 2) 0). assert (length z = r - k - 2)%nat as Hz by apply length_replicate.
    rewrite length_insert, splice_length by (rewrite length_insert; lia). rewrite length_insert. split; [| done].
    replace r with (S (r - 1)) at 1 by lia. rewrite insert_at_end by (rewrite splice_length, length_insert; rewrite ?length_insert; lia).
    replace (r - 1)%nat with (k + 1 + length z)%nat by lia. rewrite splice_take by (rewrite length_insert; lia).
    replace (k + 1)%nat with (S k) by lia. rewrite insert_at_end by lia. by rewrite <- !app_assoc.
Qed.

Lemma splice_app_end (out : list Z) off a b : (off + length a + length b <= length out)%nat ->
  splice (splice out off a) (off + length a) b = splice out off (a ++ b).
Proof.
  intros Hl. unfold splice at 1. rewrite splice_take by lia. unfold splice at 2. rewrite <- !app_assoc. f_equal. f_equal. f_equal.
  unfold splice. rewrite app_assoc, drop_app_ge by (rewrite length_app, length_take; lia). rewrite length_app, length_take, drop_drop. f_equal. rewrite length_app. lia.
Qed.

Lemma le_bytes_prefix n k v : (k <= n)%nat -> map (fun j => u8 (Z.shiftr v (8 * Z.of_nat j))) (seq 0 k) = take k (le_bytes n v).
Proof.
  intros Hk. rewrite (le_bytes_map n v), firstn_map. f_equal.
  replace n with (k + (n - k))%nat by lia. rewrite seq_app. symmetry. apply take_app_length'. by rewrite length_seq.
Qed.

Lemma bytes_of_lanes S k : (k < length S)%nat -> exists t, drop (8 * k) (flat_map (le_bytes 8) S) = le_bytes 8 S.[k] ++ t.
Proof.
  revert k. induction S as [| x S IH]; intros k Hk; [cbn in Hk; lia |]. destruct k as [| k].
  - eexists. reflexivity.
  - destruct (IH k ltac:(cbn in Hk; lia)) as (t & E). exists t. cbn [flat_map]. replace (8 * Datatypes.S k)%nat with (length (le_bytes 8 x) + 8 * k)%nat by (rewrite le_bytes_length; lia).
    rewrite drop_app_add'; [exact E | done].
Qed.

Lemma lanes_bytes_length S : length (flat_map (le_bytes 8) S) = (8 * length S)%nat.
Proof. induction S as [| x S IH]; [done |]. cbn [flat_map length]. rewrite length_app, IH, le_bytes_length. lia. Qed.

Lemma write_lanes_spec S n off out : (n <= 8 * length S)%nat -> (off + n <= length out)%nat ->
  write_lanes S n off out = splice out off (take n (flat_map (le_bytes 8) S)).
Proof.
  intros Hn Hl. unfold write_lanes. set (F := flat_map (le_bytes 8) S). assert (length F = 8 * length S)%nat as HF by apply lanes_bytes_length.
  pose proof (Nat.div_mod_eq (n + 7) 8) as Hd. pose proof (Nat.mod_upper_bound (n + 7) 8 ltac:(lia)) as Hm.
  match goal with |- for_range 0 ?w ?f out = _ => pose proof (for_range_ind (fun k o => o = splice out off (take (Nat.min n (8 * k)) F)) 0 w f out) as Hind end.
  cbn [Nat.add] in Hind. rewrite Hind; [do 2 f_equal; lia | by rewrite Nat.mul_0_r, Nat.min_0_r, take_0, splice_nil |].
  intros k o Hk ->. set (bw := if (8 <? n - k * 8)%nat then 8%nat else (n - k * 8)%nat). assert (bw = Nat.min 8 (n - 8 * k)) as Hbw by (unfold bw; destruct (Nat.ltb_spec 8 (n - k * 8)); lia).
  rewrite (le_bytes_prefix 8) by lia. rewrite (Nat.min_r n (8 * k)) by lia. assert (length (take (8 * k) F) = 8 * k)%nat as Ht by (rewrite length_take; lia).
  replace (off + k * 8)%nat with (off + length (take (8 * k) F))%nat by lia. assert (length (take bw (le_bytes 8 S.[k])) = bw) as Hb by (rewrite length_take, le_bytes_length; lia).
  rewrite splice_app_end by lia. f_equal. replace (Nat.min n (8 * Datatypes.S k)) with (8 * k + bw)%nat by lia.
  rewrite <- (take_drop (8 * k) F) at 2. rewrite take_app_add' by done. f_equal.
  destruct (bytes_of_lanes S k ltac:(lia)) as (t & E). unfold F. rewrite E, take_app_le by (rewrite le_bytes_length; lia). done.
Qed.

Lemma squeezed_length r n : forall S, (r <= 200)%nat -> length S = 25%nat -> length (squeezed r n S) = (n * r)%nat.
Proof.
  induction n as [| n IH]; intros S Hr HS; [done |]. cbn [squeezed]. rewrite length_app, length_take, lanes_bytes_length, HS, IH by (done || by apply keccak_f1600_spec). lia.
Qed.

(** The loop ends within one iteration per byte, and writes the bytes of the sponge. *)
Lemma squeeze_loop r out_len n : (0 < r <= 200)%nat -> forall fuel S out off, length S = 25%nat -> (off <= out_len <= length out)%nat ->
  (out_len - off <= fuel)%nat -> (out_len - off <= n * r)%nat ->
  exists S', while_fuel fuel (squeeze_cond out_len) (squeeze_body r out_len) (S, out, off) = Some (S', splice out off (take (out_len - off) (squeezed r n S)), out_len).
Proof.
  intros Hr. induction n as [| n IH]; intros fuel S out off HS Ho Hf Hn.
  - assert (off = out_len) as -> by lia. assert (squeeze_cond out_len (S, out, out_len) = false) as Hc by (apply Nat.ltb_ge; cbn; lia).
    exists S. rewrite Nat.sub_diag, take_0, splice_nil. destruct fuel; cbn [while_fuel]; by rewrite Hc.
  - destruct (Nat.eq_dec off out_len) as [-> | Hlt].
    { assert (squeeze_cond out_len (S, out, out_len) = false) as Hc by (apply Nat.ltb_ge; cbn; lia).
      exists S. rewrite Nat.sub_diag, take_0, splice_nil. destruct fuel; cbn [while_fuel]; by rewrite Hc. }
    destruct fuel as [| fuel]; [lia |]. cbn [while_fuel]. assert (squeeze_cond out_len (S, out, off) = true) as -> by (apply Nat.ltb_lt; cbn; lia).
    cbn [squeeze_body squeezed]. set (c := if (r <? out_len - off)%nat then r else (out_len - off)%nat). assert (c = Nat.min r (out_len - off)) as Hc by (unfold c; destruct (Nat.ltb_spec r (out_len - off)); lia).
    rewrite write_lanes_spec by lia. set (F := flat_map (le_bytes 8) S). assert (length F = 200)%nat as HF by (unfold F; rewrite lanes_bytes_length; lia).
    assert (length (take c F) = c) as Hlc by (rewrite length_take; lia). assert (length (take r F) = r) as Hlr by (rewrite length_take; lia).
    destruct (Nat.ltb_spec (off + c) out_len) as [Hm | Hm].
    + assert (c = r) as -> by lia. destruct (keccak_f1600_spec S HS) as [-> HS']. 
      destruct (IH fuel (KECCAK_f S) (splice out off (take r F)) (off + r)%nat HS' ltac:(rewrite splice_length; lia) ltac:(lia) ltac:(lia)) as (S' & ->).
      exists S'. do 3 f_equal. pose proof (squeezed_length r n (KECCAK_f S) ltac:(lia) HS') as Hsq. 
      replace (off + r)%nat with (off + length (take r F))%nat by lia. rewrite splice_app_end by (rewrite !length_take; lia).
      f_equal. rewrite take_app_ge by lia. f_equal. f_equal. lia.
    + assert (c = (out_len - off)%nat) as Ec by lia. destruct (IH fuel S (splice out off (take c F)) (off + c)%nat HS ltac:(rewrite splice_length; lia) ltac:(lia) ltac:(lia)) as (S' & ->).
      exists S'. do 3 f_equal. replace (out_len - (off + c))%nat with 0%nat by lia. rewrite take_0, splice_nil. f_equal.
      rewrite take_app_le by lia. rewrite take_take. f_equal. lia.
Qed.

Lemma keccak_final_rep r d ctx m out n : rate_ok r -> byte_ok d -> sha3_rep r d ctx m -> (n <= length out)%nat -> bytes m ->
  (keccak_final ctx out n).1 = splice out 0 (SPONGE r d m n).
Proof.
  intros Hrate Hd (Hr & Hl & Hb & Hbl & Hrt & Hpd) Hn Hm. pose proof Hrate as [Hr0 Hr8]. pose proof (Nat.mod_upper_bound (length m) r ltac:(lia)) as Hlt.
  unfold keccak_final. rewrite Hrt, Hpd, Hbl. destruct (pad_buffer_spec r d (buffer ctx) (length m mod r) ltac:(lia) Hlt) as [Ep Hlp]. set (b := pad_buffer _ _ _ _) in *.
  destruct Hr as (Hst & Hlen & Htk). rewrite take_take, Nat.min_l in Htk by lia.
  assert (length (state ctx) = 25%nat) as HS by (rewrite Hst; by apply absorb_length).
  assert (bytes b) as Hbb.
  { unfold b, pad_buffer. assert (forall l i x, bytes l -> byte_ok x -> bytes (<[i := x]> l)) as Hins by (intros; by apply Forall_insert).
    destruct (_ =? _)%nat; apply Hins; try (unfold byte_ok; lia); [by apply Hins | |].
    - apply lor_byte; [apply bytes_get; by apply Hins | unfold byte_ok; lia].
    - apply bytes_splice; [by apply Hins | apply bytes_replicate; unfold byte_ok; lia]. }
  destruct (absorb_block_spec r b (state ctx) Hrate Hbb ltac:(lia) HS) as [-> HS']. set (S := absorb_block _ _) in *.
  destruct (squeeze_loop r n (Datatypes.S (n / r)) ltac:(lia) n S out 0 HS' ltac:(lia) ltac:(lia)) as (S' & ->).
  { pose proof (Nat.div_mod_eq n r). pose proof (Nat.mod_upper_bound n r ltac:(lia)). lia. }
  cbn [default fst snd]. rewrite Nat.sub_0_r. unfold SPONGE.
  apply (f_equal (fun S => splice out 0 (take n (squeezed r (Datatypes.S (n / r)) S)))). unfold S. rewrite Ep, Htk, absorb_split, <- Hst by lia.
  rewrite absorb_one; [done | lia |]. rewrite length_app, remainder_length by lia. unfold pad10x1. destruct (Nat.eqb_spec (length m mod r) (r - 1)); cbn [length]; [lia |].
  rewrite length_app, length_replicate. cbn [length]. lia.
Qed.

(** Any split into updates, and any length of output. *)
Lemma keccak_stream r d chunks out n : rate_ok r -> byte_ok d -> Forall bytes chunks -> (n <= length out)%nat ->
  (keccak_final (fold_left keccak_update chunks (keccak_init r d)) out n).1 = splice out 0 (SPONGE r d (concat chunks) n).
Proof.
  intros Hrate Hd Hc Hn. apply (keccak_final_rep r); [done | done | | done |].
  - exact (keccak_updates_rep r d chunks Hrate Hc _ [] (keccak_init_rep r d Hrate)).
  - induction Hc as [| p ps Hp _ IH]; [apply bytes_nil |]. cbn [concat]. by apply bytes_app.
Qed.

(** C20: SHA-3 and SHAKE are FIPS 202's.  A message given in any pieces is hashed to its
    SHA3-256 and SHA3-512, and squeezed to a SHAKE128 or SHAKE256 output of any
    length; the bytes are written at the start of the output, the rest of which is
    left alone; all the loops end. *)
Theorem sha3_streaming chunks out : Forall bytes chunks ->
  let m := concat chunks in
  ((32 <= length out)%nat -> (opssl_sha3_256_final (fold_left opssl_sha3_256_update chunks opssl_sha3_256_init) out).1 = splice out 0 (SHA3_256 m)) /\
  ((64 <= length out)%nat -> (opssl_sha3_512_final (fold_left opssl_sha3_512_update chunks opssl_sha3_512_init) out).1 = splice out 0 (SHA3_512 m)) /\
  forall n, (n <= length out)%nat ->
    opssl_shake128 out n m = splice out 0 (SHAKE128 m n) /\ opssl_shake256 out n m = splice out 0 (SHAKE256 m n).
Proof.
  intros Hc m. assert (Forall bytes [m]) as Hm.
  { repeat constructor. unfold m. induction Hc as [| p ps Hp _ IH]; [apply bytes_nil |]. cbn [concat]. by apply bytes_app. }
  assert (rate_ok 136 /\ rate_ok 72 /\ rate_ok 168) as (R1 & R2 & R3) by (unfold rate_ok; cbn; lia). assert (byte_ok 0x06 /\ byte_ok 0x1F) as [D1 D2] by (unfold byte_ok; lia).
  split; [intros Hn; by apply keccak_stream |]. split; [intros Hn; by apply keccak_stream |].
  intros n Hn. pose proof (keccak_stream 168 0x1F [m] out n R3 D2 Hm Hn) as E1. pose proof (keccak_stream 136 0x1F [m] out n R1 D2 Hm Hn) as E2.
  cbn [fold_left concat] in E1, E2. rewrite app_nil_r in E1, E2. split; [exact E1 | exact E2].
Qed.

Lemma sha3_streaming_witness : let out := replicate 300 0 in let m := concat [[1]; [2; 3]] in
  (opssl_sha3_256_final (fold_left opssl_sha3_256_update [[1]; [2; 3]] opssl_sha3_256_init) out).1 = splice out 0 (SHA3_256 m) /\
  opssl_shake128 out 200 m = splice out 0 (SHAKE128 m 200).
Proof.
  assert (Forall bytes [[1]; [2; 3]]) as Hb by (repeat constructor; lia).
  destruct (sha3_streaming [[1]; [2; 3]] (replicate 300 0) Hb) as (H1 & _ & H3). 
  assert (32 <= length (replicate 300 0%Z) /\ 200 <= length (replicate 300 0%Z))%nat as [L1 L2] by (rewrite length_replicate; lia).
  split; [exact (H1 L1) | exact (proj1 (H3 _ L2))].
Defined.

(** The hash of the empty message, in FIPS 202's examples. *)
Example sha3_256_empty : opssl_sha3_256 [] (replicate 32 0) = be_bytes 32 0xa7ffc6f8bf1ed76651c14756a061d662f580ff4de43b49fa82d80a4b80f8434a.
Proof. vm_compute. reflexivity. Qed.
