(* ===== verification/ChaCha20.v ===== *)
(** ChaCha20: src/crypto/chacha20.c, scalar and AVX2 paths, against RFC 8439.

    The 256-bit instructions are the operations of the class [Avx2], their
    documented behaviour is [Avx2Spec], and [avx2_model] is a concrete instance;
    a register is the list of its eight 32-bit lanes, the lowest first. *)
From S2P Require Import Prelude Cpu LeWord.
#[local] Open Scope Z_scope.

Definition xor_bytes (a b : list Z) : list Z := zip_with Z.lxor a b.

(* ------------------------------------------------------------------ *)
(** * Quarter round on four cells of a state, over any type of word *)

Section Quarter.
Context {A : Type} (d0 : A) (qr : A * A * A * A -> A * A * A * A).

(** A macro call on x[i], x[j], x[k], x[l]. *)
Definition on4 (i j k l : nat) (x : list A) : list A :=
  let '(a, b, c, d) := qr (nth i x d0, nth j x d0, nth k x d0, nth l x d0) in
  <[l := d]> (<[k := c]> (<[j := b]> (<[i := a]> x))).

(** The column and diagonal rounds of one iteration of the loops. *)
Definition double_round (x : list A) : list A :=
  let x := on4 0 4 8 12 x in
  let x := on4 1 5 9 13 x in
  let x := on4 2 6 10 14 x in
  let x := on4 3 7 11 15 x in
  let x := on4 0 5 10 15 x in
  let x := on4 1 6 11 12 x in
  let x := on4 2 7 8 13 x in
  on4 3 4 9 14 x.
End Quarter.

(* ------------------------------------------------------------------ *)
(** * Scalar path *)

Definition ROTL32 (x n : Z) : Z := Z.lor (u32 (Z.shiftl x n)) (Z.shiftr x (32 - n)).

Definition QR (s : Z * Z * Z * Z) : Z * Z * Z * Z :=
  let '(a, b, c, d) := s in
  let a := u32 (a + b) in let d := Z.lxor d a in let d := ROTL32 d 16 in
  let c := u32 (c + d) in let b := Z.lxor b c in let b := ROTL32 b 12 in
  let a := u32 (a + b) in let d := Z.lxor d a in let d := ROTL32 d 8 in
  let c := u32 (c + d) in let b := Z.lxor b c in let b := ROTL32 b 7 in
  (a, b, c, d).

Definition chacha20_block (inp : list Z) : list Z :=
  let x := Nat.iter 10 (double_round 0 QR) inp in
  map (fun i => u32 (x.[i] + inp.[i])) (seq 0 16).

(* ------------------------------------------------------------------ *)
(** * AVX2 path *)

Class Avx2 := {
  m256 : Type;
  mm256_zero : m256;
  mm256_set1_epi32 : Z -> m256;
  mm256_set_epi32 : Z -> Z -> Z -> Z -> Z -> Z -> Z -> Z -> m256;
  mm256_add_epi32 : m256 -> m256 -> m256;
  mm256_xor_si256 : m256 -> m256 -> m256;
  mm256_or_si256 : m256 -> m256 -> m256;
  mm256_slli_epi32 : m256 -> Z -> m256;
  mm256_srli_epi32 : m256 -> Z -> m256;
  mm256_extract_epi32 : m256 -> nat -> Z }.

(** Documented behaviour, lane by lane ([mm256_set_epi32] lists the lanes from
    the highest). *)
Class Avx2Spec (X : Avx2) : Prop := {
  zero_lane b : mm256_extract_epi32 mm256_zero b = 0;
  set1_lane x b : (b < 8)%nat -> mm256_extract_epi32 (mm256_set1_epi32 x) b = u32 x;
  set_lane x7 x6 x5 x4 x3 x2 x1 x0 b : (b < 8)%nat ->
    mm256_extract_epi32 (mm256_set_epi32 x7 x6 x5 x4 x3 x2 x1 x0) b = u32 [x0; x1; x2; x3; x4; x5; x6; x7].[b];
  add_lane v w b : (b < 8)%nat ->
    mm256_extract_epi32 (mm256_add_epi32 v w) b = u32 (mm256_extract_epi32 v b + mm256_extract_epi32 w b);
  xor_lane v w b : (b < 8)%nat ->
    mm256_extract_epi32 (mm256_xor_si256 v w) b = Z.lxor (mm256_extract_epi32 v b) (mm256_extract_epi32 w b);
  or_lane v w b : (b < 8)%nat ->
    mm256_extract_epi32 (mm256_or_si256 v w) b = Z.lor (mm256_extract_epi32 v b) (mm256_extract_epi32 w b);
  slli_lane v n b : (b < 8)%nat -> 0 <= n < 32 ->
    mm256_extract_epi32 (mm256_slli_epi32 v n) b = u32 (Z.shiftl (mm256_extract_epi32 v b) n);
  srli_lane v n b : (b < 8)%nat -> 0 <= n < 32 ->
    mm256_extract_epi32 (mm256_srli_epi32 v n) b = Z.shiftr (mm256_extract_epi32 v b) n }.

Section Avx2Path.
Context `{Avx2}.

Definition ROT256_32 (v : m256) (n : Z) : m256 :=
  mm256_or_si256 (mm256_slli_epi32 v n) (mm256_srli_epi32 v (32 - n)).

Definition QR256 (s : m256 * m256 * m256 * m256) : m256 * m256 * m256 * m256 :=
  let '(a, b, c, d) := s in
  let a := mm256_add_epi32 a b in let d := mm256_xor_si256 d a in let d := ROT256_32 d 16 in
  let c := mm256_add_epi32 c d in let b := mm256_xor_si256 b c in let b := ROT256_32 b 12 in
  let a := mm256_add_epi32 a b in let d := mm256_xor_si256 d a in let d := ROT256_32 d 8 in
  let c := mm256_add_epi32 c d in let b := mm256_xor_si256 b c in let b := ROT256_32 b 7 in
  (a, b, c, d).

Definition avx2_init (state_init : list Z) : list m256 :=
  let s := map mm256_set1_epi32 state_init in
  <[12%nat := mm256_add_epi32 (nth 12 s mm256_zero) (mm256_set_epi32 3 2 1 0 3 2 1 0)]> s.

(** [memcpy(&pt, block_in + w * 4, 4)] on a little-endian machine. *)
Definition load_native (p : list Z) : Z := le_val (take 4 p).

(** The registers after the rounds and the final addition. *)
Definition avx2_words (state_init : list Z) : list m256 :=
  let init := avx2_init state_init in
  let s := Nat.iter 10 (double_round mm256_zero QR256) init in
  map (fun i => mm256_add_epi32 (nth i s mm256_zero) (nth i init mm256_zero)) (seq 0 16).

(** The 256 bytes written to [out]. *)
Definition chacha20_avx2_4block (inp : list Z) (state_init : list Z) : list Z :=
  let s := avx2_words state_init in
  flat_map (fun b =>
    let block_in := drop (b * 64) inp in
    flat_map (fun w =>
      let word := mm256_extract_epi32 (nth w s mm256_zero) b in
      let pt := load_native (drop (w * 4) block_in) in
      store32_le (Z.lxor word pt)) (seq 0 16)) (seq 0 4).
End Avx2Path.

(* ------------------------------------------------------------------ *)
(** * opssl_chacha20 *)

(** The variables of the two loops: [written] is what [out] has advanced over,
    [rest] what [in] has still to read (its length is [len]). *)
Record chacha_st := mk_chacha { cstate : list Z; rest : list Z; written : list Z }.

Definition chacha20_state (key nonce : list Z) (counter : Z) : list Z :=
  [0x61707865; 0x3320646e; 0x79622d32; 0x6b206574] ++
  map (fun i => load32_le (drop (i * 4) key)) (seq 0 8) ++
  [counter; load32_le nonce; load32_le (drop 4 nonce); load32_le (drop 8 nonce)].

Definition avx2_cond (s : chacha_st) : bool := (256 <=? length (rest s))%nat.
Definition avx2_body `{Avx2} (s : chacha_st) : chacha_st :=
  let out := chacha20_avx2_4block (take 256 (rest s)) (cstate s) in
  mk_chacha (<[12%nat := u32 ((cstate s).[12] + 4)]> (cstate s)) (drop 256 (rest s)) (written s ++ out).

Definition scalar_cond (s : chacha_st) : bool := (0 <? length (rest s))%nat.
Definition scalar_body (s : chacha_st) : chacha_st :=
  let block := chacha20_block (cstate s) in
  let keystream := flat_map store32_le block in
  let chunk := if (length (rest s) <? 64)%nat then length (rest s) else 64%nat in
  let out := map (fun i => Z.lxor (rest s).[i] keystream.[i]) (seq 0 chunk) in
  mk_chacha (<[12%nat := u32 ((cstate s).[12] + 1)]> (cstate s)) (drop chunk (rest s)) (written s ++ out).

(** The [length inp] bytes written to [out]; [fuel] bounds the iterations of
    each loop. *)
Definition opssl_chacha20 `{Cpu} `{Avx2} (fuel : nat) (inp key nonce : list Z) (counter : Z) : option (list Z) :=
  let s := mk_chacha (chacha20_state key nonce counter) inp [] in
  match (if opssl_has_avx2 then while_fuel fuel avx2_cond avx2_body s else Some s) with
  | None => None
  | Some s => option_map written (while_fuel fuel scalar_cond scalar_body s)
  end.

(* ------------------------------------------------------------------ *)
(** * RFC 8439 *)

(** The block function with counter [c]: 20 rounds, addition, serialisation. *)
Definition chacha20_keyblock (key nonce : list Z) (c : Z) : list Z :=
  flat_map (le_bytes 4) (chacha20_block (chacha20_state key nonce (u32 c))).

(** [n] blocks of key stream from counter [c]. *)
Definition keystream (key nonce : list Z) (c : Z) (n : nat) : list Z :=
  flat_map (fun i => chacha20_keyblock key nonce (c + Z.of_nat i)) (seq 0 n).

Definition ChaCha20 (key nonce : list Z) (c : Z) (m : list Z) : list Z :=
  xor_bytes m (keystream key nonce c ((length m + 63) / 64)).

(* ------------------------------------------------------------------ *)
(** * Lemmas *)

Lemma xor_bytes_length a b : length (xor_bytes a b) = Nat.min (length a) (length b).
Proof. apply length_zip_with. Qed.

Lemma xor_bytes_app a b p : xor_bytes p (a ++ b) = xor_bytes (take (length a) p) a ++ xor_bytes (drop (length a) p) b.
Proof.
  unfold xor_bytes. revert p. induction a as [| x a IH]; intros p; [by destruct p |].
  destruct p as [| y p]; [done |]. cbn [app length take drop zip_with]. by rewrite IH.
Qed.

Lemma flat_map_seq_S {A} (f : nat -> list A) n : flat_map f (seq 1 n) = flat_map (fun i => f (S i)) (seq 0 n).
Proof. by rewrite <- seq_shift, !flat_map_concat_map, map_map. Qed.

(** Exclusive or, chunk by chunk. *)
Lemma xor_chunks k n (f : nat -> list Z) p :
  (forall i, length (f i) = k) -> length p = (n * k)%nat ->
  flat_map (fun i => xor_bytes (take k (drop (i * k) p)) (f i)) (seq 0 n) = xor_bytes p (flat_map f (seq 0 n)).
Proof.
  revert f p. induction n as [| n IH]; intros f p Hf Hp; [by destruct p |].
  cbn [seq flat_map]. rewrite xor_bytes_app, Hf, Nat.mul_0_l, drop_0, !flat_map_seq_S. f_equal.
  rewrite <- (IH (fun i => f (S i)) (drop k p)) by (done || rewrite length_drop; lia).
  rewrite !flat_map_concat_map. f_equal. apply map_ext. intros i. by rewrite drop_drop.
Qed.

(* ------------------------------------------------------------------ *)
(** ** The vector path, lane by lane *)

Definition map4 {A B} (g : A -> B) (s : A * A * A * A) : B * B * B * B :=
  let '(a, b, c, d) := s in (g a, g b, g c, g d).

Lemma map_on4 {A B} (g : A -> B) d0 qr qr' i j k l x :
  (forall s, map4 g (qr s) = qr' (map4 g s)) ->
  map g (on4 d0 qr i j k l x) = on4 (g d0) qr' i j k l (map g x).
Proof.
  intros Hq. unfold on4. rewrite !map_nth. pose proof (Hq (nth i x d0, nth j x d0, nth k x d0, nth l x d0)) as E.
  cbn [map4] in E. rewrite <- E. destruct (qr _) as [[[a b] c] d]. cbn [map4].
  change (@map A B) with (@fmap list _ A B). by rewrite !list_fmap_insert.
Qed.

Lemma map_double_round {A B} (g : A -> B) d0 qr qr' x :
  (forall s, map4 g (qr s) = qr' (map4 g s)) ->
  map g (double_round d0 qr x) = double_round (g d0) qr' (map g x).
Proof. intros Hq. unfold double_round. by rewrite !(map_on4 g d0 qr qr') by done. Qed.

Lemma map_rounds {A B} (g : A -> B) d0 qr qr' n x :
  (forall s, map4 g (qr s) = qr' (map4 g s)) ->
  map g (Nat.iter n (double_round d0 qr) x) = Nat.iter n (double_round (g d0) qr') (map g x).
Proof.
  intros Hq. induction n as [| n IH]; [done |]. rewrite !Nat.iter_succ. by rewrite (map_double_round g d0 qr qr'), IH by done.
Qed.

(** A state: sixteen 32-bit words. *)
Definition words_ok (st : list Z) : Prop := length st = 16%nat /\ Forall (fun x => 0 <= x < 2 ^ 32) st.

(** The state [j] blocks later. *)
Definition advance (st : list Z) (j : Z) : list Z := <[12%nat := u32 (st.[12] + j)]> st.

Section Lanes.
Context `{X : Avx2} {XS : Avx2Spec X}.

Lemma rot_lane v n b : (b < 8)%nat -> 0 < n < 32 ->
  mm256_extract_epi32 (ROT256_32 v n) b = ROTL32 (mm256_extract_epi32 v b) n.
Proof. intros. unfold ROT256_32, ROTL32. by rewrite or_lane, slli_lane, srli_lane by lia. Qed.

Lemma QR256_lane b s : (b < 8)%nat -> map4 (fun v => mm256_extract_epi32 v b) (QR256 s) = QR (map4 (fun v => mm256_extract_epi32 v b) s).
Proof.
  intros Hb. destruct s as [[[x y] z] w]. unfold QR256. cbn [map4]. unfold QR.
  repeat first [rewrite rot_lane by lia | rewrite xor_lane by lia | rewrite add_lane by lia]. done.
Qed.

Lemma avx2_init_lane b st : (b < 4)%nat -> words_ok st ->
  map (fun v => mm256_extract_epi32 v b) (avx2_init st) = advance st (Z.of_nat b).
Proof.
  intros Hb [Hl Hw]. unfold avx2_init, advance.
  assert (map (fun v => mm256_extract_epi32 v b) (map mm256_set1_epi32 st) = st) as Hst.
  { rewrite map_map. rewrite <- (map_id st) at 2. apply map_ext_in. intros x Hx. rewrite set1_lane by lia.
    apply Z.mod_small. by apply (proj1 (Forall_forall _ _) Hw), list_elem_of_In. }
  rewrite list_fmap_insert. change (fmap (M := list)) with (@map m256 Z). rewrite Hst. f_equal.
  rewrite add_lane, set_lane by lia. rewrite <- (map_nth (fun v => mm256_extract_epi32 v b)), Hst, zero_lane.
  destruct b as [| [| [| [| b]]]]; [done | done | done | done | lia].
Qed.

Lemma avx2_words_lane b st : (b < 4)%nat -> words_ok st ->
  map (fun v => mm256_extract_epi32 v b) (avx2_words st) = chacha20_block (advance st (Z.of_nat b)).
Proof.
  intros Hb Hst. unfold avx2_words, chacha20_block. rewrite map_map. apply map_ext. intros i.
  rewrite add_lane by lia. rewrite <- !(map_nth (fun v => mm256_extract_epi32 v b)), zero_lane.
  assert (forall s, map4 (fun v => mm256_extract_epi32 v b) (QR256 s) = QR (map4 (fun v => mm256_extract_epi32 v b) s)) as Hq
    by (intros s; apply QR256_lane; lia).
  rewrite (map_rounds (fun v => mm256_extract_epi32 v b) mm256_zero QR256 QR 10 (avx2_init st) Hq).
  rewrite avx2_init_lane by done. rewrite zero_lane. cbv beta zeta. unfold get. reflexivity.
Qed.

(** Four blocks at once are four scalar blocks with consecutive counters. *)
Lemma avx2_4block_spec inp st : bytes inp -> length inp = 256%nat -> words_ok st ->
  chacha20_avx2_4block inp st =
    xor_bytes inp (flat_map (fun b => flat_map store32_le (chacha20_block (advance st (Z.of_nat b)))) (seq 0 4)).
Proof.
  intros Hi Hl Hst. rewrite <- (xor_chunks 64 4) by done.
  unfold chacha20_avx2_4block. rewrite !flat_map_concat_map. f_equal. apply map_ext_in. intros b Hb. apply in_seq in Hb.
  rewrite <- avx2_words_lane by (done || lia). set (p := drop (b * 64) inp).
  assert (bytes p) as Hp by by apply bytes_drop. assert (64 <= length p)%nat as Hlp by (unfold p; rewrite length_drop; lia).
  change (map (fun v => mm256_extract_epi32 v b) (avx2_words st)) with
    (map (fun w => mm256_extract_epi32 (nth w (avx2_words st) mm256_zero) b) (seq 0 16)).
  set (f := fun w => mm256_extract_epi32 (nth w (avx2_words st) mm256_zero) b).
  rewrite (flat_map_concat_map store32_le), map_map, <- flat_map_concat_map.
  rewrite <- (xor_chunks 4 16) by (done || rewrite length_take; lia). rewrite !flat_map_concat_map. f_equal.
  apply map_ext_in. intros w Hw. apply in_seq in Hw. cbv beta. rewrite !store32_le_bytes, skipn_firstn_comm, firstn_firstn.
  replace (Nat.min 4 (64 - w * 4)) with 4%nat by lia.
  assert (length (take 4 (drop (w * 4) p)) = 4%nat) as Hl4 by (rewrite length_take, length_drop; lia).
  pose proof (le_bytes_lxor (take 4 (drop (w * 4) p)) (f w) ltac:(auto with opssl)) as E. rewrite Hl4 in E. exact E.
Qed.
End Lanes.

(* ------------------------------------------------------------------ *)
(** ** The loops *)

(** [n] blocks of key stream from the state [st]. *)
Definition stream (st : list Z) (n : nat) : list Z :=
  flat_map (fun i => flat_map store32_le (chacha20_block (advance st (Z.of_nat i)))) (seq 0 n).

Lemma chacha20_block_length st : length (chacha20_block st) = 16%nat.
Proof. unfold chacha20_block. by rewrite length_map, length_seq. Qed.

Lemma store_block_length st : length (flat_map store32_le (chacha20_block st)) = 64%nat.
Proof. unfold chacha20_block. rewrite flat_map_concat_map, map_map, <- flat_map_concat_map. by cbn [seq flat_map app store32_le length]. Qed.

Lemma stream_length st n : length (stream st n) = (64 * n)%nat.
Proof.
  unfold stream. enough (forall a, length (flat_map (fun i => flat_map store32_le (chacha20_block (advance st (Z.of_nat i)))) (seq a n)) =
    (64 * n)%nat) as H by apply H. induction n as [| n IH]; intros a; [done |].
  cbn [seq flat_map]. rewrite length_app, IH, store_block_length. lia.
Qed.

Lemma words_ok_12 st : words_ok st -> 0 <= st.[12] < 2 ^ 32.
Proof.
  intros [Hl Hw]. apply (proj1 (Forall_forall _ _) Hw). apply list_elem_of_lookup_2 with 12%nat.
  apply lookup_get. lia.
Qed.

Lemma advance_ok st j : words_ok st -> words_ok (advance st j).
Proof.
  intros [Hl Hw]. unfold advance. split; [by rewrite length_insert |]. apply Forall_insert; [done | apply u32_range].
Qed.

Lemma advance_0 st : words_ok st -> advance st 0 = st.
Proof.
  intros H. unfold advance. rewrite Z.add_0_r. unfold u32. rewrite Z.mod_small by apply (words_ok_12 st H).
  apply list_insert_id, lookup_get. destruct H as [-> _]. lia.
Qed.

Lemma advance_advance st i j : length st = 16%nat -> advance (advance st i) j = advance st (i + j).
Proof.
  intros Hl. unfold advance. rewrite get_insert_eq, list_insert_insert_eq by lia. f_equal. unfold u32.
  rewrite Zplus_mod_idemp_l. f_equal. lia.
Qed.

Lemma stream_add st a b : length st = 16%nat -> stream st (a + b) = stream st a ++ stream (advance st (Z.of_nat a)) b.
Proof.
  intros Hl. unfold stream. rewrite seq_app, flat_map_app. f_equal. cbn [Nat.add].
  rewrite !flat_map_concat_map. f_equal.
  replace (seq a b) with (map (fun i => a + i)%nat (seq 0 b)).
  - rewrite map_map. apply map_ext. intros i. rewrite advance_advance, Nat2Z.inj_add by done. reflexivity.
  - clear. induction b as [| b IH] in a |- *; [done |]. cbn [seq map]. rewrite Nat.add_0_r. f_equal.
    rewrite <- (IH (S a)), <- seq_shift, map_map. apply map_ext. lia.
Qed.

(** What the rest of the run has to append. *)
Definition nblocks (l : nat) : nat := ((l + 63) / 64)%nat.
Definition pending (s : chacha_st) : list Z := xor_bytes (rest s) (stream (cstate s) (nblocks (length (rest s)))).

Definition chacha_inv (target : list Z) (s : chacha_st) : Prop :=
  words_ok (cstate s) /\ bytes (rest s) /\ written s ++ pending s = target.

Lemma nblocks_more k l : (64 * k <= l)%nat -> nblocks l = (k + nblocks (l - 64 * k))%nat.
Proof.
  intros H. unfold nblocks. replace (l + 63)%nat with (k * 64 + (l - 64 * k + 63))%nat by lia.
  rewrite Nat.div_add_l by lia. done.
Qed.

(** Consuming [k] blocks. *)
Lemma pending_step st p k : length st = 16%nat -> (64 * k <= length p)%nat ->
  xor_bytes p (stream st (nblocks (length p))) =
    xor_bytes (take (64 * k) p) (stream st k) ++ pending (mk_chacha (advance st (Z.of_nat k)) (drop (64 * k) p) []).
Proof.
  intros Hl Hk. rewrite (nblocks_more k) by done. rewrite stream_add, xor_bytes_app, stream_length by done.
  unfold pending. cbn [rest cstate]. by rewrite length_drop.
Qed.

Section Loops.
Context `{X : Avx2} {XS : Avx2Spec X}.

Lemma avx2_step target s : chacha_inv target s -> avx2_cond s = true -> chacha_inv target (avx2_body s) /\
  (length (rest (avx2_body s)) < length (rest s))%nat.
Proof.
  intros (Hw & Hb & <-) Hc. apply Nat.leb_le in Hc. unfold avx2_body. cbn [rest]. rewrite length_drop.
  split; [| lia]. change (u32 ((cstate s).[12] + 4)) with (u32 ((cstate s).[12] + Z.of_nat 4)).
  split; [by apply advance_ok | split; [by apply bytes_drop |]]. cbn [written]. rewrite <- app_assoc. f_equal.
  unfold pending at 2. rewrite (pending_step _ _ 4) by (lia || apply Hw). f_equal.
  apply avx2_4block_spec; [auto with opssl | rewrite length_take; lia | done].
Qed.
End Loops.

Lemma xor_map_get p ks : (length p <= length ks)%nat ->
  map (fun i => Z.lxor p.[i] ks.[i]) (seq 0 (length p)) = xor_bytes p ks.
Proof.
  revert ks. induction p as [| x p IH]; intros ks H; [done |]. destruct ks as [| y ks]; [cbn in H; lia |].
  cbn [length seq map]. rewrite <- seq_shift, map_map. cbn [xor_bytes zip_with]. f_equal. apply IH. cbn in H. lia.
Qed.

Lemma scalar_step target s : chacha_inv target s -> scalar_cond s = true -> chacha_inv target (scalar_body s) /\
  (length (rest (scalar_body s)) < length (rest s))%nat.
Proof.
  intros (Hw & Hb & <-) Hc. apply Nat.ltb_lt in Hc. unfold scalar_body. cbn [rest]. rewrite length_drop.
  set (ks := flat_map store32_le (chacha20_block (cstate s))).
  assert (length ks = 64%nat) as Hks by apply store_block_length.
  set (chunk := if (length (rest s) <? 64)%nat then _ else _).
  assert (chunk = Nat.min (length (rest s)) 64) as Hch by (unfold chunk; destruct (Nat.ltb_spec (length (rest s)) 64); lia).
  split; [| lia]. change (u32 ((cstate s).[12] + 1)) with (u32 ((cstate s).[12] + Z.of_nat 1)).
  split; [by apply advance_ok | split; [by apply bytes_drop |]]. cbn [written]. rewrite <- app_assoc. f_equal.
  assert (stream (cstate s) 1 = ks) as Hs1.
  { unfold stream. cbn [seq flat_map]. rewrite app_nil_r. by rewrite advance_0. }
  assert (map (fun i => Z.lxor (rest s).[i] ks.[i]) (seq 0 chunk) = xor_bytes (take 64 (rest s)) ks) as ->.
  { rewrite <- xor_map_get by (rewrite length_take; lia). rewrite length_take, Nat.min_comm, <- Hch.
    apply map_ext_in. intros i Hi. apply in_seq in Hi. f_equal. unfold get. rewrite !nth_lookup.
    by rewrite lookup_take_lt by lia. }
  destruct (Nat.le_ge_cases 64 (length (rest s))).
  - replace chunk with 64%nat by lia. unfold pending at 2. rewrite (pending_step _ _ 1) by (lia || apply Hw).
    change (64 * 1)%nat with 64%nat. by rewrite Hs1.
  - unfold pending at 2. rewrite take_ge by lia. replace chunk with (length (rest s)) by lia.
    unfold pending. cbn [rest cstate]. rewrite drop_all. cbn [length]. 
    replace (nblocks (length (rest s))) with 1%nat; [by rewrite Hs1, app_nil_r |].
    unfold nblocks. apply Nat.div_unique with (length (rest s) - 1)%nat; lia.
Qed.

(* ------------------------------------------------------------------ *)
(** ** The whole function *)

Lemma load_words_ok l : Forall bytes l -> Forall (fun x => 0 <= x < 2 ^ 32) (map load32_le l).
Proof. induction 1; constructor; [by apply load32_le_range | done]. Qed.

Lemma chacha20_state_ok key nonce c : bytes key -> bytes nonce -> 0 <= c < 2 ^ 32 -> words_ok (chacha20_state key nonce c).
Proof.
  intros Hk Hn Hc. split; [done |]. unfold chacha20_state. apply Forall_app. split; [repeat constructor; done |].
  apply Forall_app. split.
  - rewrite <- (map_map (fun i => drop (i * 4) key) load32_le). apply load_words_ok. apply Forall_map, Forall_forall.
    intros i _. by apply bytes_drop.
  - repeat constructor; try apply Hc; apply load32_le_range; auto with opssl.
Qed.

Lemma store_words ws : flat_map store32_le ws = flat_map (le_bytes 4) ws.
Proof. induction ws as [| w ws IH]; cbn [flat_map]; [done |]. by rewrite IH, store32_le_bytes. Qed.

Lemma advance_state key nonce c j : advance (chacha20_state key nonce c) j = chacha20_state key nonce (u32 (c + j)).
Proof. reflexivity. Qed.

Lemma stream_keystream key nonce c n : stream (chacha20_state key nonce c) n = keystream key nonce c n.
Proof.
  unfold stream, keystream. apply flat_map_ext. intros i. rewrite advance_state. apply store_words.
Qed.

Lemma keystream_length key nonce c n : length (keystream key nonce c n) = (64 * n)%nat.
Proof. rewrite <- stream_keystream. apply stream_length. Qed.

Lemma nblocks_enough l : (l <= 64 * nblocks l)%nat.
Proof.
  unfold nblocks. pose proof (Nat.div_mod_eq (l + 63) 64). pose proof (Nat.mod_upper_bound (l + 63) 64 ltac:(lia)). lia.
Qed.

Lemma ChaCha20_length key nonce c m : length (ChaCha20 key nonce c m) = length m.
Proof.
  unfold ChaCha20. rewrite xor_bytes_length, keystream_length. pose proof (nblocks_enough (length m)).
  change ((length m + 63) / 64)%nat with (nblocks (length m)). lia.
Qed.

Lemma keystream_bytes key nonce c n : bytes (keystream key nonce c n).
Proof.
  unfold keystream. generalize (seq 0 n). intros l. induction l as [| i l IH]; [constructor |]. cbn [flat_map].
  apply bytes_app. split; [| done]. unfold chacha20_keyblock. generalize (chacha20_block (chacha20_state key nonce (u32 (c + Z.of_nat i)))).
  intros ws. induction ws; [constructor |]. cbn [flat_map]. apply bytes_app. split; [apply le_bytes_ok | done].
Qed.

Lemma xor_bytes_bytes a b : bytes a -> bytes b -> bytes (xor_bytes a b).
Proof.
  intros Ha. revert b. induction Ha as [| x a Hx Ha IH]; intros b Hb; [constructor |].
  destruct Hb; [constructor |]. constructor; [by apply lxor_byte | by apply IH].
Qed.

Lemma ChaCha20_bytes key nonce c m : bytes m -> bytes (ChaCha20 key nonce c m).
Proof. intros. apply xor_bytes_bytes; [done | apply keystream_bytes]. Qed.

Lemma xor_bytes_cancel m ks : (length m <= length ks)%nat -> xor_bytes (xor_bytes m ks) ks = m.
Proof.
  revert ks. induction m as [| x m IH]; intros ks H; [done |]. destruct ks as [| y ks]; [cbn in H; lia |].
  cbn [xor_bytes zip_with]. f_equal; [apply lxor_cancel |]. apply IH. cbn in H. lia.
Qed.

(** Decryption is encryption again. *)
Lemma ChaCha20_involutive key nonce c m : ChaCha20 key nonce c (ChaCha20 key nonce c m) = m.
Proof.
  unfold ChaCha20 at 1. rewrite ChaCha20_length. apply xor_bytes_cancel. rewrite keystream_length.
  apply nblocks_enough.
Qed.

Lemma chacha20_spec `{Cpu} `{X : Avx2} {XS : Avx2Spec X} fuel inp key nonce c :
  bytes inp -> bytes key -> bytes nonce -> 0 <= c < 2 ^ 32 -> (length inp <= fuel)%nat ->
  opssl_chacha20 fuel inp key nonce c = Some (ChaCha20 key nonce c inp).
Proof.
  intros Hi Hk Hn Hc Hf. unfold opssl_chacha20.
  set (s0 := mk_chacha _ _ _). set (T := ChaCha20 key nonce c inp).
  assert (chacha_inv T s0) as H0.
  { split; [by apply chacha20_state_ok | split; [done |]]. cbn [s0 written app]. unfold pending. cbn [s0 rest cstate].
    rewrite stream_keystream. done. }
  assert (exists s1, (if opssl_has_avx2 then while_fuel fuel avx2_cond avx2_body s0 else Some s0) = Some s1 /\
            chacha_inv T s1 /\ (length (rest s1) <= fuel)%nat) as (s1 & -> & H1 & Hf1).
  { destruct opssl_has_avx2; [| by exists s0].
    destruct (while_total (fun s => chacha_inv T s /\ (length (rest s) <= fuel)%nat) (fun s => length (rest s)) avx2_cond avx2_body)
      with (fuel := fuel) (s := s0) as (s1 & -> & [? ?] & _); [| done | done | by exists s1].
    intros s [Hs ?] Hcond. destruct (avx2_step T s Hs Hcond). split; [split; [done |] |]; lia. }
  destruct (while_total (chacha_inv T) (fun s => length (rest s)) scalar_cond scalar_body)
    with (fuel := fuel) (s := s1) as (s2 & -> & (_ & _ & H2) & Hc2); [| done | done |].
  - intros s Hs Hcond. by apply scalar_step.
  - cbn [option_map]. rewrite <- H2. apply Nat.ltb_ge in Hc2. unfold pending.
    destruct (rest s2); [by rewrite app_nil_r | cbn in Hc2; lia].
Qed.

(** C25: ChaCha20 is RFC 8439's cipher, whichever of the AVX2 and scalar paths the
    processor selects and for every length: the input xor the key stream whose
    block counter starts at [c] and wraps at 2^32; both loops terminate. *)
Theorem chacha20_rfc8439 `{Cpu} `{X : Avx2} (XS : Avx2Spec X) fuel inp key nonce c :
  bytes inp -> bytes key -> bytes nonce -> 0 <= c < 2 ^ 32 -> (length inp <= fuel)%nat ->
  opssl_chacha20 fuel inp key nonce c = Some (ChaCha20 key nonce c inp).
Proof. apply chacha20_spec. Qed.

(** A concrete instruction set: registers are lists of lanes. *)
Definition lanes (f : nat -> Z) : list Z := map f (seq 0 8).

#[export] Instance avx2_model : Avx2 := {|
  m256 := list Z;
  mm256_zero := [];
  mm256_set1_epi32 x := lanes (fun _ => u32 x);
  mm256_set_epi32 x7 x6 x5 x4 x3 x2 x1 x0 := map u32 [x0; x1; x2; x3; x4; x5; x6; x7];
  mm256_add_epi32 v w := lanes (fun b => u32 (v.[b] + w.[b]));
  mm256_xor_si256 v w := lanes (fun b => Z.lxor v.[b] w.[b]);
  mm256_or_si256 v w := lanes (fun b => Z.lor v.[b] w.[b]);
  mm256_slli_epi32 v n := lanes (fun b => u32 (Z.shiftl v.[b] n));
  mm256_srli_epi32 v n := lanes (fun b => Z.shiftr v.[b] n);
  mm256_extract_epi32 v b := v.[b] |}.

Lemma lanes_get f b : (b < 8)%nat -> (lanes f).[b] = f b.
Proof. intros H. do 8 (destruct b as [| b]; [done |]). lia. Qed.

#[export] Instance avx2_model_spec : Avx2Spec avx2_model.
Proof.
  split; cbn [mm256_extract_epi32 mm256_zero mm256_set1_epi32 mm256_set_epi32 mm256_add_epi32 mm256_xor_si256
    mm256_or_si256 mm256_slli_epi32 mm256_srli_epi32 avx2_model]; intros; try by rewrite lanes_get.
  - by destruct b.
  - do 8 (destruct b as [| b]; [done |]). lia.
Qed.

Section Witness.
#[local] Existing Instance plain_cpu.

(** A machine with AVX2. *)
Definition avx2_cpu : Cpu :=
  {| cpu_features := mk_features false false true false false false false false false false false; cpu_simd := simd_model |}.

Lemma chacha20_rfc8439_witness :
  @opssl_chacha20 avx2_cpu avx2_model 300 (replicate 300 1) (replicate 32 2) (replicate 12 3) 4294967295 =
    Some (ChaCha20 (replicate 32 2) (replicate 12 3) 4294967295 (replicate 300 1)).
Proof.
  refine (@chacha20_rfc8439 avx2_cpu avx2_model avx2_model_spec 300 (replicate 300 1) (replicate 32 2) (replicate 12 3) 4294967295 _ _ _ _ _);
    [solve_bytes | solve_bytes | solve_bytes | lia | apply (bool_decide_unpack _); vm_compute; exact I].
Defined.
End Witness.

(** RFC 8439 section 2.3.2. *)
Example chacha20_rfc8439_block :
  be_val (keystream (map Z.of_nat (seq 0 32)) [0; 0; 0; 9; 0; 0; 0; 0x4a; 0; 0; 0; 0] 1 1) =
    0x10f1e7e4d13b5915500fdd1fa32071c4c7d1f4c733c068030422aa9ac3d46c4ed2826446079faa0914c2d705d98b02a2b5129cd1de164eb9cbd083e8a2503c4e.
Proof. vm_compute. reflexivity. Qed.
