(* ===== verification/Poly1305.v ===== *)
(** Poly1305: src/crypto/poly1305.c and poly1305_internal.h, five 26-bit limbs
    with delayed carries, against RFC 8439 (arithmetic modulo 2^130 - 5). *)
From S2P Require Import Prelude Platform LeWord MdHash.
#[local] Open Scope Z_scope.

(** The arrays [r] and [h]. *)
Record limbs := L5 { x0 : Z; x1 : Z; x2 : Z; x3 : Z; x4 : Z }.

Record poly1305_state_t := mk_poly {
  pr : limbs; ph : limbs; ppad : list Z; pbuf : list Z; buf_used : nat; finalized : bool }.

Definition poly1305_init (st : poly1305_state_t) (key : list Z) : poly1305_state_t :=
  let r := L5 (Z.land (load32_le key) 0x3ffffff)
              (Z.land (Z.shiftr (load32_le (drop 3 key)) 2) 0x3ffff03)
              (Z.land (Z.shiftr (load32_le (drop 6 key)) 4) 0x3ffc0ff)
              (Z.land (Z.shiftr (load32_le (drop 9 key)) 6) 0x3f03fff)
              (Z.land (Z.shiftr (load32_le (drop 12 key)) 8) 0x00fffff) in
  let pad := [load32_le (drop 16 key); load32_le (drop 20 key); load32_le (drop 24 key); load32_le (drop 28 key)] in
  mk_poly r (L5 0 0 0 0 0) pad (pbuf st) 0 false.

(** The partial carry propagation after the products. *)
Definition poly1305_carry (d0 d1 d2 d3 d4 : Z) : limbs :=
  let c := u32 (Z.shiftr d0 26) in let h0 := Z.land (u32 d0) 0x3ffffff in let d1 := u64 (d1 + c) in
  let c := u32 (Z.shiftr d1 26) in let h1 := Z.land (u32 d1) 0x3ffffff in let d2 := u64 (d2 + c) in
  let c := u32 (Z.shiftr d2 26) in let h2 := Z.land (u32 d2) 0x3ffffff in let d3 := u64 (d3 + c) in
  let c := u32 (Z.shiftr d3 26) in let h3 := Z.land (u32 d3) 0x3ffffff in let d4 := u64 (d4 + c) in
  let c := u32 (Z.shiftr d4 26) in let h4 := Z.land (u32 d4) 0x3ffffff in let h0 := u32 (h0 + u32 (c * 5)) in
  let c := Z.shiftr h0 26 in let h0 := Z.land h0 0x3ffffff in let h1 := u32 (h1 + c) in
  L5 h0 h1 h2 h3 h4.

(** One iteration of the loop of [poly1305_blocks] on the locals h0..h4. *)
Definition poly1305_block (r : limbs) (hibit : Z) (h : limbs) (data : list Z) : limbs :=
  let '(L5 r0 r1 r2 r3 r4) := r in
  let s1 := u32 (r1 * 5) in let s2 := u32 (r2 * 5) in let s3 := u32 (r3 * 5) in let s4 := u32 (r4 * 5) in
  let '(L5 h0 h1 h2 h3 h4) := h in
  let h0 := u32 (h0 + Z.land (load32_le data) 0x3ffffff) in
  let h1 := u32 (h1 + Z.land (Z.shiftr (load32_le (drop 3 data)) 2) 0x3ffffff) in
  let h2 := u32 (h2 + Z.land (Z.shiftr (load32_le (drop 6 data)) 4) 0x3ffffff) in
  let h3 := u32 (h3 + Z.land (Z.shiftr (load32_le (drop 9 data)) 6) 0x3ffffff) in
  let h4 := u32 (h4 + Z.lor (Z.shiftr (load32_le (drop 12 data)) 8) hibit) in
  let d0 := u64 (h0 * r0 + h1 * s4 + h2 * s3 + h3 * s2 + h4 * s1) in
  let d1 := u64 (h0 * r1 + h1 * r0 + h2 * s4 + h3 * s3 + h4 * s2) in
  let d2 := u64 (h0 * r2 + h1 * r1 + h2 * r0 + h3 * s4 + h4 * s3) in
  let d3 := u64 (h0 * r3 + h1 * r2 + h2 * r1 + h3 * r0 + h4 * s4) in
  let d4 := u64 (h0 * r4 + h1 * r3 + h2 * r2 + h3 * r1 + h4 * r0) in
  poly1305_carry d0 d1 d2 d3 d4.

Definition set_h (st : poly1305_state_t) (h : limbs) : poly1305_state_t :=
  mk_poly (pr st) h (ppad st) (pbuf st) (buf_used st) (finalized st).
Definition set_buf (st : poly1305_state_t) (buf : list Z) (used : nat) : poly1305_state_t :=
  mk_poly (pr st) (ph st) (ppad st) buf used (finalized st).

Definition poly1305_blocks (st : poly1305_state_t) (data : list Z) (hibit : Z) : poly1305_state_t :=
  set_h st (block_loop 16 (poly1305_block (pr st) hibit) (ph st) data).1.

(** The rest of [poly1305_update] once the buffer is empty. *)
Definition poly1305_update_whole (st : poly1305_state_t) (data : list Z) : poly1305_state_t :=
  let '(st, data) :=
    if (16 <=? length data)%nat then
      let blocks := Z.to_nat (Z.land (Z.of_nat (length data)) (u64 (Z.lnot 15))) in
      (poly1305_blocks st (take blocks data) (Z.shiftl 1 24), drop blocks data)
    else (st, data) in
  if (0 <? length data)%nat then set_buf st (splice (pbuf st) 0 data) (length data) else st.

Definition poly1305_update (st : poly1305_state_t) (data : list Z) : poly1305_state_t :=
  if (0 <? buf_used st)%nat then
    let need := (16 - buf_used st)%nat in
    if (length data <? need)%nat then
      set_buf st (splice (pbuf st) (buf_used st) data) (buf_used st + length data)
    else
      let st := set_buf st (splice (pbuf st) (buf_used st) (take need data)) (buf_used st) in
      let st := poly1305_blocks st (pbuf st) (Z.shiftl 1 24) in
      poly1305_update_whole (set_buf st (pbuf st) 0) (drop need data)
  else poly1305_update_whole st data.

(** The carry chain and the conditional subtraction of 2^130 - 5 in [poly1305_final]. *)
Definition poly1305_reduce (h : limbs) : limbs :=
  let '(L5 h0 h1 h2 h3 h4) := h in
  let c := Z.shiftr h1 26 in let h1 := Z.land h1 0x3ffffff in let h2 := u32 (h2 + c) in
  let c := Z.shiftr h2 26 in let h2 := Z.land h2 0x3ffffff in let h3 := u32 (h3 + c) in
  let c := Z.shiftr h3 26 in let h3 := Z.land h3 0x3ffffff in let h4 := u32 (h4 + c) in
  let c := Z.shiftr h4 26 in let h4 := Z.land h4 0x3ffffff in let h0 := u32 (h0 + u32 (c * 5)) in
  let c := Z.shiftr h0 26 in let h0 := Z.land h0 0x3ffffff in let h1 := u32 (h1 + c) in
  L5 h0 h1 h2 h3 h4.

Definition poly1305_select (h : limbs) : limbs :=
  let '(L5 h0 h1 h2 h3 h4) := h in
  let g0 := u32 (h0 + 5) in let c := Z.shiftr g0 26 in let g0 := Z.land g0 0x3ffffff in
  let g1 := u32 (h1 + c) in let c := Z.shiftr g1 26 in let g1 := Z.land g1 0x3ffffff in
  let g2 := u32 (h2 + c) in let c := Z.shiftr g2 26 in let g2 := Z.land g2 0x3ffffff in
  let g3 := u32 (h3 + c) in let c := Z.shiftr g3 26 in let g3 := Z.land g3 0x3ffffff in
  let g4 := u32 (h4 + c - Z.shiftl 1 26) in
  let mask := u32 (Z.shiftr g4 31 - 1) in
  let g0 := Z.land g0 mask in let g1 := Z.land g1 mask in let g2 := Z.land g2 mask in
  let g3 := Z.land g3 mask in let g4 := Z.land g4 mask in
  let mask := u32 (Z.lnot mask) in
  L5 (Z.lor (Z.land h0 mask) g0) (Z.lor (Z.land h1 mask) g1) (Z.lor (Z.land h2 mask) g2)
     (Z.lor (Z.land h3 mask) g3) (Z.lor (Z.land h4 mask) g4).

(** The addition of [pad] and the serialisation. *)
Definition poly1305_tag (h : limbs) (pad : list Z) : list Z :=
  let '(L5 h0 h1 h2 h3 h4) := h in
  let f := u64 (Z.lor h0 (u32 (Z.shiftl h1 26)) + pad.[0]) in
  let t0 := store32_le (u32 f) in
  let f := u64 (Z.lor (Z.shiftr h1 6) (u32 (Z.shiftl h2 20)) + pad.[1] + Z.shiftr f 32) in
  let t1 := store32_le (u32 f) in
  let f := u64 (Z.lor (Z.shiftr h2 12) (u32 (Z.shiftl h3 14)) + pad.[2] + Z.shiftr f 32) in
  let t2 := store32_le (u32 f) in
  let f := u64 (Z.lor (Z.shiftr h3 18) (u32 (Z.shiftl h4 8)) + pad.[3] + Z.shiftr f 32) in
  let t3 := store32_le (u32 f) in
  t0 ++ t1 ++ t2 ++ t3.

Definition poly1305_zero : poly1305_state_t :=
  mk_poly (L5 0 0 0 0 0) (L5 0 0 0 0 0) (replicate 4 0) (replicate 16 0) 0 false.

(** The tag, and the state wiped by opssl_memzero. *)
Definition poly1305_final (st : poly1305_state_t) : list Z * poly1305_state_t :=
  let st :=
    if (0 <? buf_used st)%nat then
      let buf := <[buf_used st := 1]> (pbuf st) in
      let buf := splice buf (buf_used st + 1) (replicate (16 - buf_used st - 1) 0) in
      poly1305_blocks (set_buf st buf (buf_used st)) buf 0
    else st in
  (poly1305_tag (poly1305_select (poly1305_reduce (ph st))) (ppad st), poly1305_zero).

(** [junk]: the uninitialised local state. *)
Definition opssl_poly1305 (junk : poly1305_state_t) (msg key : list Z) : list Z :=
  (poly1305_final (poly1305_update (poly1305_init junk key) msg)).1.

Definition opssl_poly1305_verify (junk : poly1305_state_t) (tag msg key : list Z) : Z :=
  opssl_ct_eq tag (opssl_poly1305 junk msg key) 16.

(* ------------------------------------------------------------------ *)
(** * RFC 8439 section 2.5 *)

Definition P1305 : Z := 2 ^ 130 - 5.
Definition poly_clamp (r : Z) : Z := Z.land r 0x0ffffffc0ffffffc0ffffffc0fffffff.

(** Adding a chunk of at most 16 bytes, with the bit above it, and multiplying. *)
Definition poly_step (r a : Z) (chunk : list Z) : Z := ((a + le_val (chunk ++ [1])) * r) mod P1305.

Definition poly_acc (r : Z) (m : list Z) : Z :=
  let a := absorb 16 (poly_step r) 0 m in
  match remainder 16 m with [] => a | q => poly_step r a q end.

Definition Poly1305 (key m : list Z) : list Z :=
  le_bytes 16 (poly_acc (poly_clamp (le_val (take 16 key))) m + le_val (sub_list 16 16 key)).

Example poly1305_rfc8439 :
  let key := be_bytes 32 0x85d6be7857556d337f4452fe42d506a80103808afb0db2fd4abff6af4149f51b in
  let m := be_bytes 34 0x43727970746f6772617068696320466f72756d2052657365617263682047726f7570 in
  be_val (Poly1305 key m) = 0xa8061dc1305136c6c22b8baf0c0127a9 /\
  be_val (opssl_poly1305 poly1305_zero m key) = 0xa8061dc1305136c6c22b8baf0c0127a9.
Proof. vm_compute. done. Qed.

(* ------------------------------------------------------------------ *)
(** * Limbs and numbers *)

Definition lv (h : limbs) : Z :=
  x0 h + 67108864 * x1 h + 4503599627370496 * x2 h + 302231454903657293676544 * x3 h +
  20282409603651670423947251286016 * x4 h.

Definition limb (x : Z) (i : Z) : Z := Z.shiftr x (26 * i) mod 67108864.

Lemma limb_range x i : 0 <= limb x i < 67108864.
Proof. apply Z.mod_pos_bound. lia. Qed.

Lemma limbs_sum v : 0 <= v < 2 ^ 130 -> lv (L5 (limb v 0) (limb v 1) (limb v 2) (limb v 3) (limb v 4)) = v.
Proof.
  intros Hv. unfold lv, limb. cbn [x0 x1 x2 x3 x4]. rewrite !shiftr_div by lia.
  change (2 ^ (26 * 0)) with 1. rewrite Z.div_1_r.
  change (2 ^ (26 * 4)) with (67108864 * 67108864 * 67108864 * 67108864).
  change (2 ^ (26 * 3)) with (67108864 * 67108864 * 67108864). change (2 ^ (26 * 2)) with (67108864 * 67108864).
  change (2 ^ (26 * 1)) with 67108864. rewrite <- !Z.div_div by lia.
  Z.div_mod_to_equations. lia.
Qed.

(** A load of a limb, masked, in terms of the number of the bytes. *)
Lemma load_at data k : bytes data -> (k + 4 <= length data)%nat ->
  load32_le (drop k data) = Z.shiftr (le_val data) (8 * Z.of_nat k) mod 2 ^ 32.
Proof.
  intros Hd Hl. rewrite load32_le_val by (auto with opssl || rewrite length_drop; lia).
  set (w := le_val (take 4 (drop k data))).
  assert (0 <= w < 2 ^ 32) as Hw.
  { unfold w. pose proof (le_val_range (take 4 (drop k data)) ltac:(auto with opssl)) as H.
    rewrite length_take, length_drop, Nat.min_l in H by lia. done. }
  assert (le_val data = le_val (take k data) + 256 ^ Z.of_nat k * (w + 2 ^ 32 * le_val (drop 4 (drop k data)))) as ->.
  { rewrite <- (take_drop k data) at 1. rewrite le_val_app, length_take, Nat.min_l by lia.
    rewrite <- (take_drop 4 (drop k data)) at 1. rewrite le_val_app, length_take, length_drop, Nat.min_l by lia. done. }
  pose proof (le_val_range (take k data) ltac:(auto with opssl)) as Hr. rewrite length_take, Nat.min_l in Hr by lia.
  rewrite shiftr_div, <- pow256_bits by lia. rewrite Z.add_comm, Z.mul_comm, Z.div_add_l by lia.
  rewrite (Z.div_small (le_val (take k data))), Z.add_0_r by done.
  rewrite Z.mul_comm, Z.mod_add by lia. by rewrite Z.mod_small.
Qed.

Lemma limb_load data k s m : bytes data -> (k + 4 <= length data)%nat -> 0 <= s <= 6 -> 0 <= m < 2 ^ 26 ->
  Z.land (Z.shiftr (load32_le (drop k data)) s) m = Z.land (Z.shiftr (le_val data) (8 * Z.of_nat k + s)) m.
Proof.
  intros Hd Hl Hs Hm. rewrite load_at by done. apply Z.bits_inj'. intros i Hi. rewrite !Z.land_spec.
  destruct (Z.lt_ge_cases i 26).
  - rewrite !Z.shiftr_spec, Z.mod_pow2_bits_low, Z.shiftr_spec by lia. do 2 f_equal. lia.
  - rewrite <- (Z.mod_small m (2 ^ 26)) by done. by rewrite Z.mod_pow2_bits_high, !andb_false_r by lia.
Qed.

Lemma land26 x : Z.land x 67108863 = x mod 67108864.
Proof. by apply (land_ones' x 26). Qed.

(** The loads of a whole block. *)
Lemma block_limbs data : bytes data -> length data = 16%nat ->
  let t := limb (le_val data) in
  Z.land (load32_le data) 67108863 = t 0 /\ Z.land (Z.shiftr (load32_le (drop 3 data)) 2) 67108863 = t 1 /\
  Z.land (Z.shiftr (load32_le (drop 6 data)) 4) 67108863 = t 2 /\ Z.land (Z.shiftr (load32_le (drop 9 data)) 6) 67108863 = t 3 /\
  Z.shiftr (load32_le (drop 12 data)) 8 = t 4 /\ t 4 < 16777216.
Proof.
  intros Hd Hl t. pose proof (le_val_range data Hd) as Hv. rewrite Hl in Hv. change (256 ^ Z.of_nat 16) with (2 ^ 128) in Hv.
  rewrite <- (drop_0 data) at 1. rewrite <- (Z.shiftr_0_r (load32_le (drop 0 data))).
  rewrite !limb_load by (done || lia). rewrite !land26. cbn [Nat.add]. repeat split; try done.
  - rewrite load_at by (done || lia). unfold t, limb. change (2 ^ 32) with 4294967296.
    rewrite !shiftr_div by lia. change (8 * Z.of_nat 12) with 96. change (26 * 4) with 104.
    Z.div_mod_to_equations. lia.
  - unfold t, limb. rewrite shiftr_div by lia. change (26 * 4) with 104. Z.div_mod_to_equations. lia.
Qed.

(* ------------------------------------------------------------------ *)
(** * One block *)

(** The accumulator between blocks: one limb may exceed 26 bits. *)
Definition hb (h : limbs) : Prop :=
  0 <= x0 h < 67108864 /\ 0 <= x1 h < 67108864 + 64 /\ 0 <= x2 h < 67108864 /\ 0 <= x3 h < 67108864 /\ 0 <= x4 h < 67108864.

Definition rb (r : limbs) : Prop :=
  0 <= x0 r < 67108864 /\ 0 <= x1 r < 67108864 /\ 0 <= x2 r < 67108864 /\ 0 <= x3 r < 67108864 /\ 0 <= x4 r < 67108864.

Lemma u32_land26 d : Z.land (u32 d) 67108863 = d mod 67108864.
Proof. rewrite land26. unfold u32. Z.div_mod_to_equations. lia. Qed.

Lemma u32_high26 d : 0 <= d < 288230376151711744 -> u32 (Z.shiftr d 26) = d / 67108864.
Proof. intros H. rewrite shiftr_div by lia. change (2 ^ 26) with 67108864. unfold u32. apply Z.mod_small. Z.div_mod_to_equations. lia. Qed.

(** The carries preserve the number modulo 2^130 - 5. *)
Lemma carry_spec d0 d1 d2 d3 d4 :
  let B := 230000000000000000 in
  0 <= d0 < B -> 0 <= d1 < B -> 0 <= d2 < B -> 0 <= d3 < B -> 0 <= d4 < 50000000000000000 ->
  let h := poly1305_carry d0 d1 d2 d3 d4 in
  hb h /\ exists k, lv h + k * P1305 =
    d0 + 67108864 * d1 + 4503599627370496 * d2 + 302231454903657293676544 * d3 + 20282409603651670423947251286016 * d4.
Proof.
  intros B H0 H1 H2 H3 H4. unfold B in *. unfold poly1305_carry.
  rewrite (u32_high26 d0), (u32_land26 d0) by lia. set (c0 := d0 / 67108864). set (l0 := d0 mod 67108864).
  assert (0 <= c0 < 4294967296) as Hc0 by (unfold c0; Z.div_mod_to_equations; lia).
  assert (u64 (d1 + c0) = d1 + c0) as -> by (apply Z.mod_small; lia).
  rewrite (u32_high26 (d1 + c0)), (u32_land26 (d1 + c0)) by lia. set (c1 := (d1 + c0) / 67108864). set (l1 := (d1 + c0) mod 67108864).
  assert (0 <= c1 < 4294967296) as Hc1 by (unfold c1; Z.div_mod_to_equations; lia).
  assert (u64 (d2 + c1) = d2 + c1) as -> by (apply Z.mod_small; lia).
  rewrite (u32_high26 (d2 + c1)), (u32_land26 (d2 + c1)) by lia. set (c2 := (d2 + c1) / 67108864). set (l2 := (d2 + c1) mod 67108864).
  assert (0 <= c2 < 4294967296) as Hc2 by (unfold c2; Z.div_mod_to_equations; lia).
  assert (u64 (d3 + c2) = d3 + c2) as -> by (apply Z.mod_small; lia).
  rewrite (u32_high26 (d3 + c2)), (u32_land26 (d3 + c2)) by lia. set (c3 := (d3 + c2) / 67108864). set (l3 := (d3 + c2) mod 67108864).
  assert (0 <= c3 < 4294967296) as Hc3 by (unfold c3; Z.div_mod_to_equations; lia).
  assert (u64 (d4 + c3) = d4 + c3) as -> by (apply Z.mod_small; lia).
  rewrite (u32_high26 (d4 + c3)), (u32_land26 (d4 + c3)) by lia. set (c4 := (d4 + c3) / 67108864). set (l4 := (d4 + c3) mod 67108864).
  assert (0 <= c4 < 800000000) as Hc4 by (unfold c4; Z.div_mod_to_equations; lia).
  assert (0 <= l0 < 67108864) as Hl0 by (apply Z.mod_pos_bound; lia).
  assert (u32 (l0 + u32 (c4 * 5)) = l0 + c4 * 5) as -> by (unfold u32; rewrite (Z.mod_small (c4 * 5)), Z.mod_small; lia).
  rewrite land26, shiftr_div by lia. change (2 ^ 26) with 67108864.
  set (c5 := (l0 + c4 * 5) / 67108864). set (l0' := (l0 + c4 * 5) mod 67108864).
  assert (0 <= c5 < 64) as Hc5 by (unfold c5; Z.div_mod_to_equations; lia).
  assert (0 <= l1 < 67108864) as Hl1 by (apply Z.mod_pos_bound; lia).
  assert (u32 (l1 + c5) = l1 + c5) as -> by (apply Z.mod_small; lia).
  split.
  - repeat split; cbn [x0 x1 x2 x3 x4]; try lia; unfold l0', l2, l3, l4; apply Z.mod_pos_bound; lia.
  - exists c4. unfold lv, P1305. cbn [x0 x1 x2 x3 x4].
    pose proof (Z.div_mod d0 67108864 ltac:(lia)) as E1. fold c0 l0 in E1.
    pose proof (Z.div_mod (d1 + c0) 67108864 ltac:(lia)) as E2. fold c1 l1 in E2.
    pose proof (Z.div_mod (d2 + c1) 67108864 ltac:(lia)) as E3. fold c2 l2 in E3.
    pose proof (Z.div_mod (d3 + c2) 67108864 ltac:(lia)) as E4. fold c3 l3 in E4.
    pose proof (Z.div_mod (d4 + c3) 67108864 ltac:(lia)) as E5. fold c4 l4 in E5.
    pose proof (Z.div_mod (l0 + c4 * 5) 67108864 ltac:(lia)) as E6. fold c5 l0' in E6. lia.
Qed.

Lemma mul_bound a b A B : 0 <= a <= A -> 0 <= b <= B -> 0 <= a * b <= A * B.
Proof. intros [Ha HA] [Hb HB]. split; [by apply Z.mul_nonneg_nonneg | by apply Z.mul_le_mono_nonneg]. Qed.

(** A sum of five products of a limb of [h] and one of [r] or [5 r]. *)
Lemma sum5_bound a b c d e a' b' c' d' e' B :
  0 <= a <= 134217792 -> 0 <= b <= 134217792 -> 0 <= c <= 134217792 -> 0 <= d <= 134217792 -> 0 <= e <= 134217792 ->
  0 <= a' <= B -> 0 <= b' <= B -> 0 <= c' <= B -> 0 <= d' <= B -> 0 <= e' <= B ->
  0 <= a * a' + b * b' + c * c' + d * d' + e * e' <= 5 * (134217792 * B).
Proof.
  intros. pose proof (mul_bound a a' _ _ ltac:(eassumption) ltac:(eassumption)).
  pose proof (mul_bound b b' _ _ ltac:(eassumption) ltac:(eassumption)).
  pose proof (mul_bound c c' _ _ ltac:(eassumption) ltac:(eassumption)).
  pose proof (mul_bound d d' _ _ ltac:(eassumption) ltac:(eassumption)).
  pose proof (mul_bound e e' _ _ ltac:(eassumption) ltac:(eassumption)). lia.
Qed.

Lemma block_spec r hibit h data : rb r -> hb h -> bytes data -> length data = 16%nat -> hibit = 0 \/ hibit = 16777216 ->
  let h' := poly1305_block r hibit h data in
  hb h' /\ lv h' mod P1305 =
    ((lv h + (le_val data + hibit * 20282409603651670423947251286016)) * lv r) mod P1305.
Proof.
  intros Hr Hh Hd Hl Hb. unfold poly1305_block. destruct r as [r0 r1 r2 r3 r4]. destruct h as [h0 h1 h2 h3 h4].
  unfold rb, hb in Hr, Hh. cbn [x0 x1 x2 x3 x4] in Hr, Hh.
  change 0x3ffffff with 67108863. destruct (block_limbs data Hd Hl) as (-> & -> & -> & -> & -> & Ht4).
  pose proof (le_val_range data Hd) as Hv. rewrite Hl in Hv. change (256 ^ Z.of_nat 16) with (2 ^ 128) in Hv.
  set (v := le_val data) in *. clearbody v. pose proof (limbs_sum v ltac:(lia)) as Hsum.
  pose proof (limb_range v 0). pose proof (limb_range v 1). pose proof (limb_range v 2). pose proof (limb_range v 3). pose proof (limb_range v 4).
  assert (Z.lor (limb v 4) hibit = limb v 4 + hibit) as ->.
  { destruct Hb as [-> | ->]; [by rewrite Z.lor_0_r, Z.add_0_r |]. change 16777216 with (Z.shiftl 1 24).
    rewrite Z.lor_comm, lor_shiftl by lia. change (Z.shiftl 1 24) with 16777216. lia. }
  set (t0 := limb v 0) in *. set (t1 := limb v 1) in *. set (t2 := limb v 2) in *. set (t3 := limb v 3) in *. set (t4 := limb v 4) in *.
  clearbody t0 t1 t2 t3 t4. rewrite <- Hsum.
  unfold u32. rewrite (Z.mod_small (h0 + t0)), (Z.mod_small (h1 + t1)), (Z.mod_small (h2 + t2)), (Z.mod_small (h3 + t3)),
    (Z.mod_small (h4 + (t4 + hibit))), (Z.mod_small (r1 * 5)), (Z.mod_small (r2 * 5)), (Z.mod_small (r3 * 5)), (Z.mod_small (r4 * 5)) by lia.
  assert (0 <= h0 + t0 <= 134217792) as B0 by lia. assert (0 <= h1 + t1 <= 134217792) as B1 by lia.
  assert (0 <= h2 + t2 <= 134217792) as B2 by lia. assert (0 <= h3 + t3 <= 134217792) as B3 by lia.
  assert (0 <= h4 + (t4 + hibit) <= 134217792) as B4 by lia.
  set (g0 := h0 + t0) in *. set (g1 := h1 + t1) in *. set (g2 := h2 + t2) in *. set (g3 := h3 + t3) in *. set (g4 := h4 + (t4 + hibit)) in *.
  set (d0 := g0 * r0 + _ + _ + _ + _). set (d1 := g0 * r1 + _ + _ + _ + _). set (d2 := g0 * r2 + _ + _ + _ + _).
  set (d3 := g0 * r3 + _ + _ + _ + _). set (d4 := g0 * r4 + _ + _ + _ + _).
  assert (0 <= d0 <= 5 * (134217792 * 335544320)) by (apply sum5_bound; lia).
  assert (0 <= d1 <= 5 * (134217792 * 335544320)) by (apply sum5_bound; lia).
  assert (0 <= d2 <= 5 * (134217792 * 335544320)) by (apply sum5_bound; lia).
  assert (0 <= d3 <= 5 * (134217792 * 335544320)) by (apply sum5_bound; lia).
  assert (0 <= d4 <= 5 * (134217792 * 67108864)) by (apply sum5_bound; lia).
  unfold u64. rewrite !Z.mod_small by lia.
  destruct (carry_spec d0 d1 d2 d3 d4) as [Hhb [k Hk]]; try lia. split; [exact Hhb |].
  set (K := (g1 * r4 + g2 * r3 + g3 * r2 + g4 * r1) + 67108864 * (g2 * r4 + g3 * r3 + g4 * r2) +
            4503599627370496 * (g3 * r4 + g4 * r3) + 302231454903657293676544 * (g4 * r4)).
  assert (lv (poly1305_carry d0 d1 d2 d3 d4) =
    (lv (L5 h0 h1 h2 h3 h4) + (lv (L5 t0 t1 t2 t3 t4) + hibit * 20282409603651670423947251286016)) * lv (L5 r0 r1 r2 r3 r4) + (- (K + k)) * P1305) as ->.
  { replace (lv (poly1305_carry d0 d1 d2 d3 d4)) with
      (d0 + 67108864 * d1 + 4503599627370496 * d2 + 302231454903657293676544 * d3 + 20282409603651670423947251286016 * d4 - k * P1305) by lia.
    unfold K, d0, d1, d2, d3, d4, g0, g1, g2, g3, g4, lv, P1305. cbn [x0 x1 x2 x3 x4]. ring. }
  apply Z.mod_add. discriminate.
Qed.

(* ------------------------------------------------------------------ *)
(** * The end: full reduction, selection, tag *)

(** A carry out of a limb below 2^27. *)
Lemma reduce_spec h : hb h ->
  rb (poly1305_reduce h) /\ exists k, lv (poly1305_reduce h) + k * P1305 = lv h.
Proof.
  destruct h as [h0 h1 h2 h3 h4]. unfold hb, rb, lv, P1305, poly1305_reduce. cbn [x0 x1 x2 x3 x4]. intros H.
  change 0x3ffffff with 67108863. rewrite !land26, !shiftr_div by lia. change (2 ^ 26) with 67108864.
  set (c1 := h1 / 67108864). set (l1 := h1 mod 67108864).
  assert (0 <= c1 <= 1 /\ h1 = 67108864 * c1 + l1 /\ 0 <= l1 < 67108864 /\ (c1 = 1 -> l1 < 64)) as H1
    by (unfold c1, l1; Z.div_mod_to_equations; lia). clearbody c1 l1.
  rewrite (u32_id (h2 + c1)) by lia. set (c2 := (h2 + c1) / 67108864). set (l2 := (h2 + c1) mod 67108864).
  assert (0 <= c2 <= c1 /\ h2 + c1 = 67108864 * c2 + l2 /\ 0 <= l2 < 67108864) as H2
    by (unfold c2, l2; Z.div_mod_to_equations; lia). clearbody c2 l2.
  rewrite (u32_id (h3 + c2)) by lia. set (c3 := (h3 + c2) / 67108864). set (l3 := (h3 + c2) mod 67108864).
  assert (0 <= c3 <= c2 /\ h3 + c2 = 67108864 * c3 + l3 /\ 0 <= l3 < 67108864) as H3
    by (unfold c3, l3; Z.div_mod_to_equations; lia). clearbody c3 l3.
  rewrite (u32_id (h4 + c3)) by lia. set (c4 := (h4 + c3) / 67108864). set (l4 := (h4 + c3) mod 67108864).
  assert (0 <= c4 <= c3 /\ h4 + c3 = 67108864 * c4 + l4 /\ 0 <= l4 < 67108864) as H4
    by (unfold c4, l4; Z.div_mod_to_equations; lia). clearbody c4 l4.
  rewrite (u32_id (c4 * 5)), (u32_id (h0 + c4 * 5)) by lia.
  set (c0 := (h0 + c4 * 5) / 67108864). set (l0 := (h0 + c4 * 5) mod 67108864).
  assert (0 <= c0 <= c4 /\ h0 + c4 * 5 = 67108864 * c0 + l0 /\ 0 <= l0 < 67108864) as H0
    by (unfold c0, l0; Z.div_mod_to_equations; lia). clearbody c0 l0.
  rewrite (u32_id (l1 + c0)) by lia. split; [lia |]. exists c4. lia.
Qed.

Lemma land_all x : 0 <= x < 4294967296 -> Z.land x 4294967295 = x.
Proof. intros H. exact (eq_trans (land_ones' x 32 ltac:(lia)) (Z.mod_small _ _ H)). Qed.

(** The constant-time choice between [h] and [h - (2^130 - 5)]. *)
Lemma select_spec h : rb h -> rb (poly1305_select h) /\ lv (poly1305_select h) = lv h mod P1305.
Proof.
  destruct h as [h0 h1 h2 h3 h4]. unfold rb, lv, poly1305_select. cbn [x0 x1 x2 x3 x4]. intros H.
  change 0x3ffffff with 67108863. change (Z.shiftl 1 26) with 67108864.
  rewrite !land26, !(shiftr_div _ 26) by lia. change (2 ^ 26) with 67108864.
  rewrite (u32_id (h0 + 5)) by lia. set (c0 := (h0 + 5) / 67108864). set (g0 := (h0 + 5) mod 67108864).
  assert (0 <= c0 <= 1 /\ h0 + 5 = 67108864 * c0 + g0 /\ 0 <= g0 < 67108864) as H0
    by (unfold c0, g0; Z.div_mod_to_equations; lia). clearbody c0 g0.
  rewrite (u32_id (h1 + c0)) by lia. set (c1 := (h1 + c0) / 67108864). set (g1 := (h1 + c0) mod 67108864).
  assert (0 <= c1 <= 1 /\ h1 + c0 = 67108864 * c1 + g1 /\ 0 <= g1 < 67108864) as H1
    by (unfold c1, g1; Z.div_mod_to_equations; lia). clearbody c1 g1.
  rewrite (u32_id (h2 + c1)) by lia. set (c2 := (h2 + c1) / 67108864). set (g2 := (h2 + c1) mod 67108864).
  assert (0 <= c2 <= 1 /\ h2 + c1 = 67108864 * c2 + g2 /\ 0 <= g2 < 67108864) as H2
    by (unfold c2, g2; Z.div_mod_to_equations; lia). clearbody c2 g2.
  rewrite (u32_id (h3 + c2)) by lia. set (c3 := (h3 + c2) / 67108864). set (g3 := (h3 + c2) mod 67108864).
  assert (0 <= c3 <= 1 /\ h3 + c2 = 67108864 * c3 + g3 /\ 0 <= g3 < 67108864) as H3
    by (unfold c3, g3; Z.div_mod_to_equations; lia). clearbody c3 g3.
  destruct (Z.lt_ge_cases (h4 + c3) 67108864) as [Hlt | Hge].
  - assert (u32 (h4 + c3 - 67108864) = h4 + c3 - 67108864 + 4294967296) as -> by (unfold u32; Z.div_mod_to_equations; lia).
    rewrite (shiftr_div _ 31) by lia.
    assert ((h4 + c3 - 67108864 + 4294967296) / 2 ^ 31 = 1) as -> by (Z.div_mod_to_equations; lia).
    change (u32 (1 - 1)) with 0. change (u32 (Z.lnot 0)) with 4294967295.
    rewrite !Z.land_0_r, !Z.lor_0_r, !land_all by lia. split; [lia |]. symmetry. apply Z.mod_small. unfold P1305. lia.
  - assert (u32 (h4 + c3 - 67108864) = 0) as -> by (unfold u32; Z.div_mod_to_equations; lia).
    change (u32 (Z.shiftr 0 31 - 1)) with 4294967295. change (u32 (Z.lnot 4294967295)) with 0.
    rewrite !Z.land_0_r, !Z.lor_0_l, !land_all by lia. split; [lia |]. apply Z.mod_unique with 1; unfold P1305; lia.
Qed.

Lemma le_bytes_app a b v : le_bytes (a + b) v = le_bytes a v ++ le_bytes b (v / 256 ^ Z.of_nat a).
Proof.
  revert v. induction a as [| a IH]; intros v; [cbn; by rewrite Z.div_1_r |].
  cbn [Nat.add le_bytes app]. rewrite IH, shiftr_div by lia. do 2 f_equal. f_equal.
  rewrite Z.div_div, Nat2Z.inj_succ, Z.pow_succ_r by (lia || apply pow256). done.
Qed.

Lemma le_bytes_wrap n v w : v mod 256 ^ Z.of_nat n = w mod 256 ^ Z.of_nat n -> le_bytes n v = le_bytes n w.
Proof.
  intros H. rewrite <- (le_val_bytes (le_bytes n v)), <- (le_val_bytes (le_bytes n w)) by apply le_bytes_ok.
  by rewrite !le_bytes_length, !le_bytes_mod, H.
Qed.

(** One 32-bit word of the tag, packed from two limbs. *)
Lemma pack_word a b i j : 0 <= i -> 0 <= j <= 26 -> 0 <= a < 67108864 -> i + j = 26 -> 0 <= b ->
  Z.lor (Z.shiftr a i) (u32 (Z.shiftl b j)) = a / 2 ^ i + 2 ^ j * (b mod 2 ^ (32 - j)).
Proof.
  intros Hi Hj Ha Hij Hb.
  assert (u32 (Z.shiftl b j) = Z.shiftl (b mod 2 ^ (32 - j)) j) as ->.
  { unfold u32. rewrite !Z.shiftl_mul_pow2 by lia. change 4294967296 with (2 ^ 32). replace 32 with ((32 - j) + j) at 1 by lia.
    rewrite Z.pow_add_r, Z.mul_mod_distr_r by lia. done. }
  rewrite shiftr_div by lia. rewrite Z.lor_comm, lor_shiftl; [lia | lia |].
  split; [apply Z.div_pos; lia |]. apply Z.div_lt_upper_bound; [lia |]. rewrite <- Z.pow_add_r, Hij by lia. lia.
Qed.

(** The first word of a number, the carry going to the rest. *)
Lemma le_bytes_word n f T : le_bytes (4 + n) (f + 4294967296 * T) = le_bytes 4 f ++ le_bytes n (T + f / 4294967296).
Proof.
  rewrite le_bytes_app. change (256 ^ Z.of_nat 4) with 4294967296. f_equal.
  - apply le_bytes_wrap. change (256 ^ Z.of_nat 4) with 4294967296. rewrite Z.mul_comm. apply Z.mod_add. lia.
  - f_equal. rewrite Z.add_comm, Z.mul_comm. apply Z.div_add_l. lia.
Qed.

Lemma tag_spec h p0 p1 p2 p3 : rb h ->
  0 <= p0 < 2 ^ 32 -> 0 <= p1 < 2 ^ 32 -> 0 <= p2 < 2 ^ 32 -> 0 <= p3 < 2 ^ 32 ->
  poly1305_tag h [p0; p1; p2; p3] =
    le_bytes 16 (lv h + (p0 + 2 ^ 32 * (p1 + 2 ^ 32 * (p2 + 2 ^ 32 * p3)))).
Proof.
  destruct h as [h0 h1 h2 h3 h4]. unfold rb, lv, poly1305_tag. cbn [x0 x1 x2 x3 x4 get nth]. intros H Hp0 Hp1 Hp2 Hp3.
  rewrite <- (Z.shiftr_0_r h0). rewrite !pack_word by lia. rewrite Z.shiftr_0_r.
  rewrite !store32_le_bytes. rewrite !(le_bytes_wrap 4 (u32 _) _) by (apply Z.mod_mod; lia).
  change (2 ^ 0) with 1. rewrite Z.div_1_r. change (2 ^ (32 - 26)) with 64. change (2 ^ (32 - 20)) with 4096.
  change (2 ^ (32 - 14)) with 262144. change (2 ^ (32 - 8)) with 16777216. change (2 ^ 26) with 67108864. change (2 ^ 6) with 64.
  change (2 ^ 20) with 1048576. change (2 ^ 12) with 4096. change (2 ^ 14) with 16384. change (2 ^ 18) with 262144. change (2 ^ 8) with 256.
  rewrite !shiftr_div by lia. change (2 ^ 32) with 4294967296 in *.
  set (w0 := h0 + 67108864 * (h1 mod 64)). set (w1 := h1 / 64 + 1048576 * (h2 mod 4096)).
  set (w2 := h2 / 4096 + 16384 * (h3 mod 262144)). set (w3 := h3 / 262144 + 256 * (h4 mod 16777216)).
  assert (0 <= w0 < 4294967296) by (unfold w0; Z.div_mod_to_equations; lia).
  assert (0 <= w1 < 4294967296) by (unfold w1; Z.div_mod_to_equations; lia).
  assert (0 <= w2 < 4294967296) by (unfold w2; Z.div_mod_to_equations; lia).
  assert (0 <= w3 < 4294967296) by (unfold w3; Z.div_mod_to_equations; lia).
  match goal with |- _ = le_bytes 16 ?T => replace T with ((w0 + p0) + 4294967296 * ((w1 + p1) + 4294967296 * ((w2 + p2) +
    4294967296 * ((w3 + p3) + 4294967296 * (h4 / 16777216))))) by (unfold w0, w1, w2, w3; Z.div_mod_to_equations; lia) end.
  clearbody w0 w1 w2 w3. unfold u64.
  rewrite (Z.mod_small (w0 + p0)) by lia. set (f0 := w0 + p0).
  rewrite (Z.mod_small (w1 + p1 + f0 / 4294967296)) by (Z.div_mod_to_equations; lia). set (f1 := w1 + p1 + f0 / 4294967296).
  assert (0 <= f1 < 3 * 4294967296) by (unfold f1; Z.div_mod_to_equations; lia).
  rewrite (Z.mod_small (w2 + p2 + f1 / 4294967296)) by (Z.div_mod_to_equations; lia). set (f2 := w2 + p2 + f1 / 4294967296).
  assert (0 <= f2 < 3 * 4294967296) by (unfold f2; Z.div_mod_to_equations; lia).
  rewrite (Z.mod_small (w3 + p3 + f2 / 4294967296)) by (Z.div_mod_to_equations; lia). set (f3 := w3 + p3 + f2 / 4294967296).
  change 16%nat with (4 + (4 + (4 + 4)))%nat. rewrite le_bytes_word. f_equal.
  match goal with |- _ = le_bytes _ ?T => replace T with (f1 + 4294967296 * ((w2 + p2) + 4294967296 * ((w3 + p3) + 4294967296 * (h4 / 16777216)))) by (unfold f1; lia) end.
  rewrite le_bytes_word. f_equal.
  match goal with |- _ = le_bytes _ ?T => replace T with (f2 + 4294967296 * ((w3 + p3) + 4294967296 * (h4 / 16777216))) by (unfold f2; lia) end.
  rewrite le_bytes_word. f_equal. apply le_bytes_wrap. change (256 ^ Z.of_nat 4) with 4294967296.
  replace (w3 + p3 + 4294967296 * (h4 / 16777216) + f2 / 4294967296) with (f3 + (h4 / 16777216) * 4294967296) by (unfold f3; lia).
  symmetry. apply Z.mod_add. lia.
Qed.

(* ------------------------------------------------------------------ *)
(** * The streaming interface *)

(** The limbs represent the accumulator [a] of the specification. *)
Definition poly_rel (h : limbs) (a : Z) : Prop := hb h /\ lv h mod P1305 = a mod P1305.

Lemma poly_step_rel r h a data hibit chunk : rb r -> poly_rel h a -> bytes data -> length data = 16%nat ->
  hibit = 0 \/ hibit = 16777216 ->
  le_val (chunk ++ [1]) = le_val data + hibit * 20282409603651670423947251286016 ->
  poly_rel (poly1305_block r hibit h data) (poly_step (lv r) a chunk).
Proof.
  intros Hr [Hh Ha] Hd Hl Hb Hc. destruct (block_spec r hibit h data Hr Hh Hd Hl Hb) as [Hh' Hv].
  split; [exact Hh' |]. rewrite Hv. unfold poly_step. rewrite Hc, Z.mod_mod by done.
  rewrite <- (Z.mul_mod_idemp_l (_ + _)), <- (Z.mul_mod_idemp_l (a + _)) by done. do 2 f_equal.
  rewrite <- (Z.add_mod_idemp_l (lv h)), <- (Z.add_mod_idemp_l a), Ha by done. done.
Qed.

Lemma le_val_snoc l b : le_val (l ++ [b]) = le_val l + 256 ^ Z.of_nat (length l) * b.
Proof. rewrite le_val_app. cbn [le_val]. lia. Qed.

Lemma absorb_rel r m : rb r -> bytes m -> forall h a, poly_rel h a ->
  poly_rel (absorb 16 (poly1305_block r 16777216) h m) (absorb 16 (poly_step (lv r)) a m).
Proof.
  intros Hr. induction m as [m Hs | b m Hb IH] using (blocks_ind 16 ltac:(lia)); intros Hm h a Hra.
  - by rewrite !absorb_short by lia.
  - apply bytes_app in Hm as [Hbb Hm]. rewrite !absorb_cons by lia. apply IH; [done |].
    apply poly_step_rel; try done; [by right |]. rewrite le_val_snoc, Hb. reflexivity.
Qed.

Definition poly_key_r (key : list Z) : limbs := pr (poly1305_init poly1305_zero key).
Definition poly_key_pad (key : list Z) : list Z := ppad (poly1305_init poly1305_zero key).

Record poly_rep (key : list Z) (st : poly1305_state_t) (m : list Z) : Prop := {
  rep_r : pr st = poly_key_r key;
  rep_pad : ppad st = poly_key_pad key;
  rep_md : md_rep 16 (poly1305_block (pr st) 16777216) (L5 0 0 0 0 0) (ph st) (pbuf st) m;
  rep_used : buf_used st = (length m mod 16)%nat }.

Lemma poly_init_rep st key : length (pbuf st) = 16%nat -> poly_rep key (poly1305_init st key) [].
Proof. intros H. by split. Qed.

Lemma whole_mask n : Z.of_nat n <= SIZE_MAX -> Z.to_nat (Z.land (Z.of_nat n) (u64 (Z.lnot 15))) = (16 * (n / 16))%nat.
Proof.
  intros Hn. unfold SIZE_MAX in Hn.
  assert (Z.land (Z.of_nat n) (u64 (Z.lnot 15)) = 16 * (Z.of_nat n / 16)) as ->.
  { apply Z.bits_inj'. intros i Hi. rewrite Z.land_spec. unfold u64. change 18446744073709551616 with (2 ^ 64).
    replace (16 * (Z.of_nat n / 16)) with (Z.shiftl (Z.shiftr (Z.of_nat n) 4) 4)
      by (rewrite Z.shiftl_mul_pow2, shiftr_div by lia; change (2 ^ 4) with 16; lia).
    rewrite Z.shiftl_spec by lia. destruct (Z.lt_ge_cases i 4) as [H4 | H4].
    - rewrite (Z.testbit_neg_r _ (i - 4)) by lia. rewrite Z.mod_pow2_bits_low, Z.lnot_spec by lia.
      change 15 with (Z.ones 4). rewrite Z.ones_spec_low by lia. apply andb_false_r.
    - rewrite Z.shiftr_spec by lia. replace (i - 4 + 4) with i by lia. destruct (Z.lt_ge_cases i 64).
      + rewrite Z.mod_pow2_bits_low, Z.lnot_spec by lia. change 15 with (Z.ones 4).
        rewrite Z.ones_spec_high by lia. apply andb_true_r.
      + rewrite Z.mod_pow2_bits_high by lia. rewrite andb_false_r. symmetry.
        rewrite <- (Z.mod_small (Z.of_nat n) (2 ^ 64)) by lia. apply Z.mod_pow2_bits_high. lia. }
  rewrite Z2Nat.inj_mul, Z2Nat.inj_div, Nat2Z.id by (try apply Z.div_pos; lia). done.
Qed.

(** The rest of an update, as the shared tail of the hashes computes it. *)
Lemma update_whole_spec st data : size_ok data ->
  let r := (let '(h, p) := block_loop 16 (poly1305_block (pr st) 16777216) (ph st) data in
            if (0 <? length p)%nat then (h, splice (pbuf st) 0 p) else (h, pbuf st)) in
  buf_used st = 0%nat ->
  poly1305_update_whole st data = mk_poly (pr st) r.1 (ppad st) r.2 (length (remainder 16 data)) (finalized st).
Proof.
  intros Hs r Hu. unfold poly1305_update_whole, r. rewrite block_loop_spec by lia.
  assert (remainder 16 data = drop (16 * (length data / 16)) data) as Hrem by done.
  destruct (Nat.leb_spec 16 (length data)) as [Hl | Hl].
  - rewrite whole_mask by done. rewrite <- Hrem. change (Z.shiftl 1 24) with 16777216.
    unfold poly1305_blocks. rewrite block_loop_spec by lia. cbn [fst]. rewrite absorb_whole by lia.
    destruct (Nat.ltb_spec 0 (length (remainder 16 data))) as [Hr | Hr]; cbn [fst snd]; [done |].
    unfold set_h. rewrite Hu. by replace (length (remainder 16 data)) with 0%nat by lia.
  - rewrite remainder_short, absorb_short by lia.
    destruct (Nat.ltb_spec 0 (length data)) as [Hr | Hr]; cbn [fst snd]; [done |].
    destruct st. cbn in *. rewrite Hu. by replace (length data) with 0%nat by lia.
Qed.

Lemma poly_update_rep key st m d : size_ok d -> poly_rep key st m -> poly_rep key (poly1305_update st d) (m ++ d).
Proof.
  intros Hd [Hr Hp Hmd Hu].
  pose proof (md_update_rep 16 ltac:(lia) _ _ _ _ m d Hmd) as Hup. cbv zeta in Hup.
  assert (forall (p : list Z), length (remainder 16 (m ++ d)) = length p -> length p = (length (m ++ d) mod 16)%nat) as Hlen.
  { intros p <-. apply remainder_length; lia. }
  pose proof (remainder_app 16 ltac:(lia) m d) as Hrem. destruct Hmd as (Hst & Hl & Hb).
  pose proof (remainder_lt 16 ltac:(lia) m) as Hlt. pose proof (remainder_length 16 ltac:(lia) m) as Hml.
  unfold poly1305_update, md_update in *. rewrite <- Hu in *.
  destruct (Nat.ltb_spec 0 (buf_used st)) as [Hk | Hk]; cbn [andb] in Hup.
  - destruct (Nat.ltb_spec (length d) (16 - buf_used st)) as [Hs | Hs].
    + split; try done. cbn [buf_used set_buf]. rewrite <- (Hlen (remainder 16 m ++ d)); [by rewrite length_app, Hml |].
      by rewrite Hrem, remainder_short by (rewrite length_app; lia).
    + change (Z.shiftl 1 24) with 16777216. set (need := (16 - buf_used st)%nat) in *.
      set (b := splice (pbuf st) (buf_used st) (take need d)) in *.
      assert (length b = 16%nat) as Hbl by (unfold b; rewrite splice_length; rewrite ?length_take; lia).
      assert (remainder 16 (m ++ d) = remainder 16 (drop need d)) as Hrem2.
      { rewrite Hrem. assert (remainder 16 m ++ d = b ++ drop need d) as ->; [| by apply remainder_cons; [lia |]].
        unfold b. rewrite splice_end, Hb by (rewrite length_take; lia). by rewrite <- app_assoc, take_drop. }
      unfold poly1305_blocks, set_buf, set_h. cbn [pr ph ppad pbuf buf_used finalized].
      rewrite block_loop_spec, absorb_one by lia. cbn [fst].
      rewrite update_whole_spec; [| unfold size_ok in *; rewrite length_drop; lia | done]. cbn [pr ph ppad pbuf buf_used finalized].
      split; try done. cbn [buf_used]. apply Hlen. by rewrite Hrem2.
  - rewrite update_whole_spec by (done || lia). split; try done. cbn [buf_used]. apply Hlen.
    rewrite Hrem. assert (remainder 16 m = []) as -> by (destruct (remainder 16 m); [done | cbn in *; lia]). done.
Qed.

(** The clamped key in limbs. *)
Lemma clamp_limb v i m : 0 <= i ->
  m = Z.land (Z.shiftr 0x0ffffffc0ffffffc0ffffffc0fffffff (26 * i)) 67108863 ->
  Z.land (Z.shiftr v (26 * i)) m = limb (poly_clamp v) i.
Proof.
  intros Hi ->. unfold limb, poly_clamp. rewrite <- (land26 (Z.shiftr _ _)), Z.shiftr_land by lia. apply Z.land_assoc.
Qed.

Lemma load_take n k key : (k + 4 <= n)%nat -> bytes key -> (n <= length key)%nat ->
  load32_le (drop k key) = load32_le (drop k (take n key)).
Proof.
  intros Hk Hb Hl. rewrite !load32_le_spec by auto with opssl. unfold get. rewrite !nth_lookup, !lookup_drop.
  by rewrite !lookup_take_lt by lia.
Qed.

Lemma poly_key_r_spec key : bytes key -> (16 <= length key)%nat ->
  rb (poly_key_r key) /\ lv (poly_key_r key) = poly_clamp (le_val (take 16 key)).
Proof.
  intros Hb Hl. set (k16 := take 16 key). assert (bytes k16) as Hk by (by apply bytes_take).
  assert (length k16 = 16%nat) as Hlk by (unfold k16; rewrite length_take; lia).
  set (c := poly_clamp (le_val k16)).
  assert (poly_key_r key = L5 (limb c 0) (limb c 1) (limb c 2) (limb c 3) (limb c 4)) as ->.
  { unfold poly_key_r, poly1305_init. cbn [pr]. rewrite <- (drop_0 key) at 1. rewrite <- (Z.shiftr_0_r (load32_le (drop 0 key))).
    rewrite !(load_take 16 _ key) by (done || lia). fold k16. rewrite (limb_load k16 0), (limb_load k16 3), (limb_load k16 6), (limb_load k16 9) by (done || lia).
    change (8 * Z.of_nat 0 + 0) with (26 * 0). change (8 * Z.of_nat 3 + 2) with (26 * 1).
    change (8 * Z.of_nat 6 + 4) with (26 * 2). change (8 * Z.of_nat 9 + 6) with (26 * 3).
    f_equal; try (apply clamp_limb; [lia | reflexivity]).
    unfold c. rewrite load_at by (done || lia). rewrite <- (clamp_limb _ 4 0xfffff) by (lia || reflexivity).
    pose proof (le_val_range k16 Hk) as Hv. rewrite Hlk in Hv. change (256 ^ Z.of_nat 16) with (2 ^ 128) in Hv.
    rewrite (Z.mod_small (Z.shiftr (le_val k16) (8 * Z.of_nat 12))), Z.shiftr_shiftr by
      (try lia; rewrite shiftr_div by lia; change (8 * Z.of_nat 12) with 96; Z.div_mod_to_equations; lia).
    reflexivity. }
  split; [unfold rb; cbn [x0 x1 x2 x3 x4]; pose proof (limb_range c); auto |].
  apply limbs_sum. unfold c, poly_clamp. pose proof (le_val_range k16 Hk) as Hv. rewrite Hlk in Hv. change (256 ^ Z.of_nat 16) with (2 ^ 128) in Hv.
  pose proof (land_range_l (le_val k16) 0x0ffffffc0ffffffc0ffffffc0fffffff 128 ltac:(lia) Hv). lia.
Qed.

Lemma poly_key_pad_spec key : bytes key -> length key = 32%nat ->
  exists p0 p1 p2 p3, poly_key_pad key = [p0; p1; p2; p3] /\ 0 <= p0 < 2 ^ 32 /\ 0 <= p1 < 2 ^ 32 /\ 0 <= p2 < 2 ^ 32 /\ 0 <= p3 < 2 ^ 32 /\
    p0 + 2 ^ 32 * (p1 + 2 ^ 32 * (p2 + 2 ^ 32 * p3)) = le_val (sub_list 16 16 key).
Proof.
  intros Hb Hl. eexists _, _, _, _. split; [reflexivity |].
  do 4 (split; [apply load32_le_range; auto with opssl |]).
  unfold sub_list. set (k := drop 16 key). assert (bytes k) as Hk by (apply bytes_drop; done).
  assert (length k = 16%nat) as Hlk by (unfold k; rewrite length_drop; lia). rewrite take_ge by lia.
  change (drop 20 key) with (drop (16 + 4) key). change (drop 24 key) with (drop (16 + 8) key). change (drop 28 key) with (drop (16 + 12) key).
  rewrite <- !drop_drop. fold k. rewrite <- (drop_0 k) at 1. rewrite !load_at by (done || lia).
  pose proof (le_val_range k Hk) as Hv. rewrite Hlk in Hv. change (256 ^ Z.of_nat 16) with (2 ^ 128) in Hv.
  set (v := le_val k) in *. clearbody v. rewrite !shiftr_div by lia. change (2 ^ (8 * Z.of_nat 0)) with 1.
  change (2 ^ (8 * Z.of_nat 4)) with 4294967296. change (2 ^ (8 * Z.of_nat 8)) with (4294967296 * 4294967296).
  change (2 ^ (8 * Z.of_nat 12)) with (4294967296 * 4294967296 * 4294967296). change (2 ^ 32) with 4294967296.
  rewrite <- !Z.div_div by lia. Z.div_mod_to_equations. lia.
Qed.

(** The last partial block. *)
Lemma last_block buf k q : length buf = 16%nat -> (k < 16)%nat -> take k buf = q ->
  let b := splice (<[k := 1]> buf) (k + 1) (replicate (16 - k - 1) 0) in
  b = q ++ 1 :: replicate (16 - k - 1) 0 /\ length b = 16%nat.
Proof.
  intros Hl Hk <- b. assert (take (k + 1) (<[k := 1]> buf) = take k buf ++ [1]) as E.
  { rewrite Nat.add_1_r. erewrite take_S_r by (apply list_lookup_insert_eq; lia). by rewrite take_insert_ge by lia. }
  assert (b = take k buf ++ 1 :: replicate (16 - k - 1) 0) as ->.
  { unfold b. rewrite splice_end by (rewrite length_replicate, length_insert; lia). rewrite E. by rewrite <- app_assoc. }
  split; [done |]. rewrite length_app, length_take. cbn [length]. rewrite length_replicate. lia.
Qed.

Lemma le_val_zeros q n : le_val (q ++ 1 :: replicate n 0) = le_val (q ++ [1]).
Proof.
  rewrite !le_val_app. cbn [le_val]. assert (le_val (replicate n 0) = 0) as -> by (induction n as [| n IH]; [done |]; cbn; lia). done.
Qed.

Lemma poly_final_rep key st m : bytes key -> length key = 32%nat -> bytes m -> poly_rep key st m ->
  (poly1305_final st).1 = Poly1305 key m.
Proof.
  intros Hk Hlk Hm [Hr Hp (Hst & Hl & Hb) Hu].
  destruct (poly_key_r_spec key Hk ltac:(lia)) as [Hrb Hrv].
  destruct (poly_key_pad_spec key Hk Hlk) as (p0 & p1 & p2 & p3 & Epad & B0 & B1 & B2 & B3 & Ep).
  pose proof (remainder_length 16 ltac:(lia) m) as Hrl. pose proof (remainder_lt 16 ltac:(lia) m) as Hlt.
  assert (poly_rel (ph st) (absorb 16 (poly_step (lv (pr st))) 0 m)) as Hrel.
  { rewrite Hst. apply absorb_rel; [by rewrite Hr | done |]. split; [unfold hb; cbn; lia | done]. }
  unfold poly1305_final. cbn [fst]. rewrite Hu.
  set (st' := if (0 <? length m mod 16)%nat then _ else st).
  assert (poly_rel (ph st') (poly_acc (lv (pr st)) m) /\ ppad st' = ppad st) as [[Hh Ha] Hpad].
  { unfold st', poly_acc. destruct (Nat.ltb_spec 0 (length m mod 16)) as [H0 | H0].
    - destruct (last_block (pbuf st) (length m mod 16) (remainder 16 m) Hl ltac:(lia) Hb) as [Hbe Hbl].
      set (b := splice _ _ _) in *. unfold poly1305_blocks, set_buf, set_h. cbn [ph pr ppad].
      rewrite block_loop_spec, absorb_one by lia. cbn [fst]. split; [| done].
      destruct (remainder 16 m) as [| x q] eqn:Hq; [cbn [length] in Hrl; lia |]. rewrite <- Hq in *.
      apply poly_step_rel; [by rewrite Hr | done | | done | by left |].
      + rewrite Hbe. apply bytes_app. split; [unfold remainder; auto with opssl |]. constructor; [done | by apply bytes_replicate].
      + rewrite Hbe, le_val_zeros. lia.
    - split; [| done]. assert (remainder 16 m = []) as -> by (apply nil_length_inv; lia). done. }
  destruct (reduce_spec _ Hh) as [Hrr [k Hk']]. destruct (select_spec _ Hrr) as [Hsr Hsv].
  rewrite Hpad, Hp, Epad, tag_spec, Hsv by done.
  assert (lv (poly1305_reduce (ph st')) mod P1305 = poly_acc (lv (pr st)) m) as ->.
  { replace (lv (poly1305_reduce (ph st'))) with (lv (ph st') + (- k) * P1305) by lia. rewrite Z.mod_add, Ha by done.
    unfold poly_acc. destruct (remainder 16 m); [| by apply Z.mod_mod].
    apply (absorb_ind 16 (poly_step (lv (pr st))) (fun a => a mod P1305 = a)); [done |]. intros. by apply Z.mod_mod. }
  unfold Poly1305. by rewrite Hr, Hrv, Ep.
Qed.

Lemma poly_updates_rep key chunks : Forall size_ok chunks -> forall st m, poly_rep key st m ->
  poly_rep key (fold_left poly1305_update chunks st) (m ++ concat chunks).
Proof.
  induction 1 as [| d ds Hd Hds IH]; intros st m Hs; cbn [fold_left concat]; [by rewrite app_nil_r |].
  rewrite app_assoc. apply IH. by apply poly_update_rep.
Qed.

(** C26: Poly1305, streamed in any number of updates, is RFC 8439's: the 26-bit
    limb arithmetic with delayed carries computes the polynomial modulo
    2^130 - 5 without overflow, the final constant-time selection reduces it
    fully, and the tag is its sum with the second half of the key modulo 2^128. *)
Theorem poly1305_streaming st key chunks :
  length (pbuf st) = 16%nat -> bytes key -> length key = 32%nat -> Forall size_ok chunks -> bytes (concat chunks) ->
  (poly1305_final (fold_left poly1305_update chunks (poly1305_init st key))).1 = Poly1305 key (concat chunks).
Proof.
  intros Hb Hk Hl Hs Hc. apply poly_final_rep; try done. apply (poly_updates_rep key chunks Hs _ []).
  by apply poly_init_rep.
Qed.

Lemma poly1305_streaming_witness :
  (poly1305_final (fold_left poly1305_update [replicate 5 255; replicate 30 7] (poly1305_init poly1305_zero (replicate 32 255)))).1 =
    Poly1305 (replicate 32 255) (replicate 5 255 ++ replicate 30 7 ++ []).
Proof.
  apply (poly1305_streaming poly1305_zero (replicate 32 255) [replicate 5 255; replicate 30 7]);
    [reflexivity | solve_bytes | reflexivity | repeat constructor; vm_compute; discriminate | solve_bytes].
Defined.

Lemma opssl_poly1305_spec junk msg key : length (pbuf junk) = 16%nat -> bytes key -> length key = 32%nat ->
  size_ok msg -> bytes msg -> opssl_poly1305 junk msg key = Poly1305 key msg.
Proof.
  intros. apply poly_final_rep; try done. apply (poly_update_rep key _ []); [done |]. by apply poly_init_rep.
Qed.
