(* ===== verification/ChaChaPoly.v ===== *)
(** ChaCha20-Poly1305: src/crypto/chacha20_poly1305.c, against the AEAD of
    RFC 8439 section 2.8.

    [out] is the output buffer before the call (its length is [max_out]) and
    [out_len] the output length variable before the call; a call gives its
    return value and both afterwards, [None] when a loop has not ended within
    [fuel] iterations.  [junk] is the uninitialised local Poly1305 state.  The
    output does not overlap the inputs. *)
From S2P Require Import Prelude Platform Cpu LeWord MdHash ChaCha20 Poly1305.
#[local] Open Scope Z_scope.

Definition pad16 (len : nat) : nat :=
  let rem := Z.to_nat (Z.land (Z.of_nat len) 0xf) in
  if negb (rem =? 0)%nat then (16 - rem)%nat else 0%nat.

Definition compute_tag (junk : poly1305_state_t) (poly_key aad ct : list Z) : list Z :=
  let zeros := replicate 16 0 in
  let lengths := store64_le (u64 (Z.of_nat (length aad))) ++ store64_le (u64 (Z.of_nat (length ct))) in
  let st := poly1305_init junk poly_key in
  let st := poly1305_update st aad in
  let st := poly1305_update st (take (pad16 (length aad)) zeros) in
  let st := poly1305_update st ct in
  let st := poly1305_update st (take (pad16 (length ct)) zeros) in
  let st := poly1305_update st lengths in
  (poly1305_final st).1.

Section Aead.
Context `{Cpu} `{Avx2}.
Variable fuel : nat.
Variable junk : poly1305_state_t.

Definition opssl_chacha20_poly1305_seal (out : list Z) (out_len : Z) (key nonce plaintext aad : list Z) :
    option (Z * list Z * Z) :=
  if SIZE_MAX - 16 <? Z.of_nat (length plaintext) then Some (0, out, out_len) else
  let needed := Z.of_nat (length plaintext) + 16 in
  if Z.of_nat (length out) <? needed then Some (0, out, out_len) else
  match opssl_chacha20 fuel (replicate 32 0) key nonce 0 with
  | None => None
  | Some poly_key =>
    match opssl_chacha20 fuel plaintext key nonce 1 with
    | None => None
    | Some ct =>
      let out := splice out 0 ct in
      let tag := compute_tag junk poly_key aad (take (length plaintext) out) in
      Some (1, splice out (length plaintext) tag, needed)
    end
  end.

Definition opssl_chacha20_poly1305_open (out : list Z) (out_len : Z) (key nonce ciphertext aad : list Z) :
    option (Z * list Z * Z) :=
  if (length ciphertext <? 16)%nat then Some (0, out, out_len) else
  let pt_len := (length ciphertext - 16)%nat in
  if (length out <? pt_len)%nat then Some (0, out, out_len) else
  match opssl_chacha20 fuel (replicate 32 0) key nonce 0 with
  | None => None
  | Some poly_key =>
    let expected_tag := compute_tag junk poly_key aad (take pt_len ciphertext) in
    let received_tag := drop pt_len ciphertext in
    if opssl_ct_eq expected_tag received_tag 16 =? 0 then Some (0, out, out_len)
    else
      match opssl_chacha20 fuel (take pt_len ciphertext) key nonce 1 with
      | None => None
      | Some pt => Some (1, splice out 0 pt, Z.of_nat pt_len)
      end
  end.
End Aead.

(* ------------------------------------------------------------------ *)
(** * RFC 8439 section 2.8 *)

(** The padding to a multiple of 16 bytes. *)
Definition aead_pad (m : list Z) : list Z := replicate ((16 - length m mod 16) mod 16) 0.

Definition aead_otk (key nonce : list Z) : list Z := take 32 (keystream key nonce 0 1).

Definition aead_tag (key nonce aad ct : list Z) : list Z :=
  Poly1305 (aead_otk key nonce)
    (aad ++ aead_pad aad ++ ct ++ aead_pad ct ++ le_bytes 8 (Z.of_nat (length aad)) ++ le_bytes 8 (Z.of_nat (length ct))).

Definition aead_encrypt (key nonce aad pt : list Z) : list Z :=
  let ct := ChaCha20 key nonce 1 pt in ct ++ aead_tag key nonce aad ct.

(* ------------------------------------------------------------------ *)
(** * Lemmas *)

Lemma pad16_spec (m : list Z) : take (pad16 (length m)) (replicate 16 0) = aead_pad m /\ (pad16 (length m) <= 16)%nat.
Proof.
  unfold pad16, aead_pad. change 0xf with (Z.ones 4). rewrite Z.land_ones by lia. change (2 ^ 4) with (Z.of_nat 16).
  rewrite <- Nat2Z.inj_mod, Nat2Z.id. pose proof (Nat.mod_upper_bound (length m) 16 ltac:(lia)).
  destruct (Nat.eqb_spec (length m mod 16) 0) as [-> | Hn]; cbn [negb]; [split; [done | lia] |].
  rewrite (Nat.mod_small (16 - _)) by lia. split; [| lia]. rewrite take_replicate. f_equal. lia.
Qed.

Lemma Poly1305_length key m : length (Poly1305 key m) = 16%nat.
Proof. apply le_bytes_length. Qed.

Lemma aead_tag_length key nonce aad ct : length (aead_tag key nonce aad ct) = 16%nat.
Proof. apply Poly1305_length. Qed.

Lemma aead_tag_bytes key nonce aad ct : bytes (aead_tag key nonce aad ct).
Proof. apply le_bytes_ok. Qed.

Lemma otk_spec key nonce : ChaCha20 key nonce 0 (replicate 32 0) = aead_otk key nonce /\
  bytes (aead_otk key nonce) /\ length (aead_otk key nonce) = 32%nat.
Proof.
  unfold aead_otk. pose proof (keystream_length key nonce 0 1) as Hl. pose proof (keystream_bytes key nonce 0 1) as Hb.
  split; [| split; [by apply bytes_take | rewrite length_take, Hl; done]].
  unfold ChaCha20. rewrite length_replicate. change ((32 + 63) / 64)%nat with 1%nat. set (ks := keystream key nonce 0 1) in *.
  clearbody ks. assert (forall n l, (n <= length l)%nat -> xor_bytes (replicate n 0) l = take n l) as Hx.
  { induction n as [| n IH]; intros l H; [done |]. destruct l as [| x l]; [cbn in H; lia |].
    cbn [replicate xor_bytes zip_with take]. f_equal. apply IH. cbn in H. lia. }
  apply Hx. rewrite Hl. lia.
Qed.

Lemma pad_bytes m : bytes (aead_pad m).
Proof. by apply bytes_replicate. Qed.

Lemma compute_tag_spec junk key aad ct : length (pbuf junk) = 16%nat -> bytes key -> length key = 32%nat ->
  bytes aad -> bytes ct -> size_ok aad -> size_ok ct ->
  compute_tag junk key aad ct =
    Poly1305 key (aad ++ aead_pad aad ++ ct ++ aead_pad ct ++ le_bytes 8 (Z.of_nat (length aad)) ++ le_bytes 8 (Z.of_nat (length ct))).
Proof.
  intros Hj Hk Hlk Ha Hc Hsa Hsc. unfold compute_tag.
  destruct (pad16_spec aad) as [-> _]. destruct (pad16_spec ct) as [-> _].
  unfold u64. rewrite (store64_le_bytes (_ mod _)), (store64_le_bytes (Z.of_nat (length ct) mod _)), !Z.mod_small by (unfold size_ok, SIZE_MAX in *; lia).
  set (lens := le_bytes 8 (Z.of_nat (length aad)) ++ _).
  assert (bytes lens) as Hlens by (apply bytes_app; split; apply le_bytes_ok).
  assert (length lens = 16%nat) as Hll by (unfold lens; by rewrite length_app, !le_bytes_length).
  assert (forall l : list Z, size_ok (aead_pad l)) as Hp.
  { intros l. unfold size_ok, aead_pad, SIZE_MAX. rewrite length_replicate.
    pose proof (Nat.mod_upper_bound (16 - length l mod 16) 16 ltac:(lia)). lia. }
  apply poly_final_rep; [done | done | |].
  - rewrite !bytes_app. repeat split; try done; apply pad_bytes.
  - assert (size_ok lens) as Hsl by (unfold size_ok, SIZE_MAX; lia). clearbody lens.
    pose proof (poly_update_rep key _ _ _ Hsa (poly_init_rep junk key Hj)) as H1.
    pose proof (poly_update_rep key _ _ _ (Hp aad) H1) as H2. pose proof (poly_update_rep key _ _ _ Hsc H2) as H3.
    pose proof (poly_update_rep key _ _ _ (Hp ct) H3) as H4. pose proof (poly_update_rep key _ _ _ Hsl H4) as H5.
    rewrite app_nil_l, <- !app_assoc in H5. exact H5.
Qed.

Section Correct.
Context `{Cpu} `{X : Avx2} {XS : Avx2Spec X}.
Context (fuel : nat) (junk : poly1305_state_t) (Hjunk : length (pbuf junk) = 16%nat) (Hfuel : (32 <= fuel)%nat).
Context (key nonce aad : list Z) (Hk : bytes key) (Hn : bytes nonce) (Ha : bytes aad) (Hsa : size_ok aad).

Lemma seal_ok out out_len pt : bytes pt -> Z.of_nat (length pt) <= SIZE_MAX - 16 -> (length pt <= fuel)%nat ->
  opssl_chacha20_poly1305_seal fuel junk out out_len key nonce pt aad =
    if (length out <? length pt + 16)%nat then Some (0, out, out_len)
    else Some (1, splice out 0 (aead_encrypt key nonce aad pt), Z.of_nat (length pt) + 16).
Proof.
  intros Hp Hs Hf. unfold opssl_chacha20_poly1305_seal. rewrite (proj2 (Z.ltb_ge _ _)) by lia.
  destruct (Nat.ltb_spec (length out) (length pt + 16)) as [Hl | Hl].
  - by rewrite (proj2 (Z.ltb_lt _ _)) by lia.
  - rewrite (proj2 (Z.ltb_ge _ _)) by lia.
    rewrite !chacha20_spec by (done || solve_bytes || lia || (rewrite length_replicate; lia)).
    destruct (otk_spec key nonce) as (-> & Hob & Hol). set (ct := ChaCha20 key nonce 1 pt).
    assert (length ct = length pt) as Hlc by apply ChaCha20_length.
    assert (bytes ct) as Hcb by (by apply ChaCha20_bytes).
    assert (take (length pt) (splice out 0 ct) = ct) as ->.
    { rewrite <- Hlc. pose proof (splice_take out 0 ct ltac:(lia)) as E. rewrite take_0 in E. exact E. }
    rewrite compute_tag_spec; try done; [| unfold size_ok; lia].
    fold (aead_tag key nonce aad ct). set (tag := aead_tag key nonce aad ct).
    assert (length tag = 16%nat) as Hlt by apply aead_tag_length.
    unfold aead_encrypt. fold ct tag. do 3 f_equal. unfold splice. rewrite take_0. cbn [app Nat.add].
    rewrite <- Hlc, take_app_length, <- app_assoc. do 2 f_equal. rewrite drop_app_ge by lia.
    rewrite drop_drop, length_app. f_equal. lia.
Qed.

Lemma open_ok out out_len c : bytes c -> size_ok c -> (length c <= fuel)%nat ->
  opssl_chacha20_poly1305_open fuel junk out out_len key nonce c aad =
    if decide (16 <= length c <= length out + 16)%nat then
      let ct := take (length c - 16) c in
      if decide (drop (length c - 16) c = aead_tag key nonce aad ct) then
        Some (1, splice out 0 (ChaCha20 key nonce 1 ct), Z.of_nat (length c) - 16)
      else Some (0, out, out_len)
    else Some (0, out, out_len).
Proof.
  intros Hc Hs Hf. unfold opssl_chacha20_poly1305_open. cbv zeta.
  destruct (Nat.ltb_spec (length c) 16); [by rewrite decide_False by lia |].
  destruct (Nat.ltb_spec (length out) (length c - 16)); [by rewrite decide_False by lia |].
  rewrite decide_True by lia. rewrite (chacha20_spec _ (replicate 32 0)) by (done || solve_bytes || lia || (rewrite length_replicate; lia)).
  destruct (otk_spec key nonce) as (-> & Hob & Hol). set (ct := take (length c - 16) c). set (tg := drop (length c - 16) c).
  assert (bytes ct) as Hcb by by apply bytes_take. assert (length ct = length c - 16)%nat as Hlc by (unfold ct; rewrite length_take; lia).
  assert (length tg = 16%nat) as Hlt by (unfold tg; rewrite length_drop; lia).
  rewrite compute_tag_spec; try done; [| unfold size_ok in *; lia]. fold (aead_tag key nonce aad ct).
  pose proof (aead_tag_length key nonce aad ct). pose proof (aead_tag_bytes key nonce aad ct).
  pose proof (opssl_ct_eq_iff (aead_tag key nonce aad ct) tg 16 ltac:(done) ltac:(by apply bytes_drop) ltac:(lia) ltac:(lia)) as E.
  rewrite !take_ge in E by lia.
  destruct (decide (tg = aead_tag key nonce aad ct)) as [Ht | Ht].
  - rewrite bool_decide_eq_true_2 in E by done. apply negb_true_iff in E. rewrite E.
    rewrite chacha20_spec by (done || lia). do 2 f_equal. lia.
  - rewrite bool_decide_eq_false_2 in E by congruence. apply negb_false_iff in E. by rewrite E.
Qed.
End Correct.

(** C27: sealing writes RFC 8439's AEAD encryption and its length when the output
    buffer has room for it, and otherwise fails leaving the buffer as it was. *)
Theorem chacha20_poly1305_seal_rfc8439 `{Cpu} `{X : Avx2} (XS : Avx2Spec X) fuel junk out out_len key nonce pt aad :
  length (pbuf junk) = 16%nat -> (32 <= fuel)%nat -> bytes key -> bytes nonce -> bytes aad -> size_ok aad ->
  bytes pt -> Z.of_nat (length pt) <= SIZE_MAX - 16 -> (length pt <= fuel)%nat ->
  opssl_chacha20_poly1305_seal fuel junk out out_len key nonce pt aad =
    if (length out <? length pt + 16)%nat then Some (0, out, out_len)
    else Some (1, splice out 0 (aead_encrypt key nonce aad pt), Z.of_nat (length pt) + 16).
Proof. intros. by apply seal_ok. Qed.

(** C28: opening succeeds exactly when the last 16 bytes are the tag of the
    associated data and the rest, and then gives the decryption; on any failure
    nothing is written: no unauthenticated plaintext is released. *)
Theorem chacha20_poly1305_open_authentic `{Cpu} `{X : Avx2} (XS : Avx2Spec X) fuel junk out out_len key nonce c aad :
  length (pbuf junk) = 16%nat -> (32 <= fuel)%nat -> bytes key -> bytes nonce -> bytes aad -> size_ok aad ->
  bytes c -> size_ok c -> (length c <= fuel)%nat -> (16 <= length c <= length out + 16)%nat ->
  exists ct tag, c = ct ++ tag /\ length tag = 16%nat /\
    opssl_chacha20_poly1305_open fuel junk out out_len key nonce c aad =
      if decide (tag = aead_tag key nonce aad ct)
      then Some (1, splice out 0 (ChaCha20 key nonce 1 ct), Z.of_nat (length ct))
      else Some (0, out, out_len).
Proof.
  intros Hj Hf Hk Hn Ha Hsa Hc Hs Hfc Hl. exists (take (length c - 16) c), (drop (length c - 16) c).
  split; [by rewrite take_drop | split; [rewrite length_drop; lia |]].
  rewrite open_ok, decide_True by done. cbv zeta. rewrite length_take, Nat.min_l by lia.
  by replace (Z.of_nat (length c - 16)) with (Z.of_nat (length c) - 16) by lia.
Qed.

(** Opening what was sealed with the same key, nonce and associated data
    gives the plaintext back. *)
Theorem chacha20_poly1305_roundtrip `{Cpu} `{X : Avx2} (XS : Avx2Spec X) fuel junk junk2 out out_len out2 out_len2 key nonce pt aad :
  length (pbuf junk) = 16%nat -> length (pbuf junk2) = 16%nat -> (length pt + 32 <= fuel)%nat ->
  bytes key -> bytes nonce -> bytes aad -> size_ok aad -> bytes pt -> Z.of_nat (length pt) <= SIZE_MAX - 16 ->
  length out = (length pt + 16)%nat -> length out2 = length pt ->
  exists c, opssl_chacha20_poly1305_seal fuel junk out out_len key nonce pt aad = Some (1, c, Z.of_nat (length pt) + 16) /\
    opssl_chacha20_poly1305_open fuel junk2 out2 out_len2 key nonce c aad = Some (1, pt, Z.of_nat (length pt)).
Proof.
  intros Hj Hj2 Hf Hk Hn Ha Hsa Hp Hs Ho Ho2. set (ct := ChaCha20 key nonce 1 pt).
  assert (length ct = length pt) as Hlc by apply ChaCha20_length.
  assert (length (aead_encrypt key nonce aad pt) = length pt + 16)%nat as Hle
    by (unfold aead_encrypt; rewrite length_app, aead_tag_length, ChaCha20_length; done).
  exists (aead_encrypt key nonce aad pt). split.
  - rewrite seal_ok by (done || lia). rewrite (proj2 (Nat.ltb_ge _ _)), splice_full by lia. done.
  - rewrite open_ok; [| done | lia | done | done | done | done | | unfold size_ok; lia | lia].
    + rewrite decide_True by lia. rewrite Hle. replace (length pt + 16 - 16)%nat with (length ct) by lia.
      unfold aead_encrypt. fold ct. cbv zeta. rewrite take_app_length, drop_app_length, decide_True by done.
      unfold ct at 1. rewrite ChaCha20_involutive, splice_full by lia. do 2 f_equal. lia.
    + apply bytes_app. split; [by apply ChaCha20_bytes | apply aead_tag_bytes].
Qed.

Section Witness.
#[local] Existing Instance plain_cpu.
#[local] Existing Instance avx2_model.

Lemma chacha20_poly1305_seal_rfc8439_witness :
  opssl_chacha20_poly1305_seal 64 poly1305_zero (replicate 20 0) 0 (replicate 32 1) (replicate 12 2) [1; 2; 3] [4] =
    Some (1, splice (replicate 20 0) 0 (aead_encrypt (replicate 32 1) (replicate 12 2) [4] [1; 2; 3]), 19).
Proof.
  apply (@chacha20_poly1305_seal_rfc8439 plain_cpu avx2_model avx2_model_spec 64 poly1305_zero (replicate 20 0) 0
    (replicate 32 1) (replicate 12 2) [1; 2; 3] [4]);
    first [reflexivity | solve_bytes | apply (bool_decide_unpack _); vm_compute; exact I | vm_compute; discriminate].
Defined.

Lemma chacha20_poly1305_open_authentic_witness : exists ct tag, replicate 20 5 = ct ++ tag /\ length tag = 16%nat /\
  opssl_chacha20_poly1305_open 64 poly1305_zero [0; 0; 0; 0] 0 (replicate 32 1) (replicate 12 2) (replicate 20 5) [4] =
    if decide (tag = aead_tag (replicate 32 1) (replicate 12 2) [4] ct)
    then Some (1, splice [0; 0; 0; 0] 0 (ChaCha20 (replicate 32 1) (replicate 12 2) 1 ct), Z.of_nat (length ct))
    else Some (0, [0; 0; 0; 0], 0).
Proof.
  refine (@chacha20_poly1305_open_authentic plain_cpu avx2_model avx2_model_spec 64 poly1305_zero [0; 0; 0; 0] 0
    (replicate 32 1) (replicate 12 2) (replicate 20 5) [4] _ _ _ _ _ _ _ _ _ _);
    first [reflexivity | solve_bytes | apply (bool_decide_unpack _); vm_compute; exact I | vm_compute; discriminate].
Defined.

Lemma chacha20_poly1305_roundtrip_witness :
  exists c, opssl_chacha20_poly1305_seal 64 poly1305_zero (replicate 19 0) 0 (replicate 32 1) (replicate 12 2) [1; 2; 3] [4] = Some (1, c, 19) /\
    opssl_chacha20_poly1305_open 64 poly1305_zero [0; 0; 0] 0 (replicate 32 1) (replicate 12 2) c [4] = Some (1, [1; 2; 3], 3).
Proof.
  refine (@chacha20_poly1305_roundtrip plain_cpu avx2_model avx2_model_spec 64 poly1305_zero poly1305_zero (replicate 19 0) 0 [0; 0; 0] 0
    (replicate 32 1) (replicate 12 2) [1; 2; 3] [4] _ _ _ _ _ _ _ _ _ _ _);
    first [reflexivity | solve_bytes | apply (bool_decide_unpack _); vm_compute; exact I | vm_compute; discriminate].
Defined.
End Witness.

(** RFC 8439 section 2.8.2: the tag of the sunscreen message. *)
Example chacha20_poly1305_rfc8439_282 :
  let key := map Z.of_nat (seq 0x80 32) in
  let nonce := [7; 0; 0; 0; 0x40; 0x41; 0x42; 0x43; 0x44; 0x45; 0x46; 0x47] in
  let aad := [0x50; 0x51; 0x52; 0x53; 0xc0; 0xc1; 0xc2; 0xc3; 0xc4; 0xc5; 0xc6; 0xc7] in
  let pt := be_bytes 114 0x4c616469657320616e642047656e746c656d656e206f662074686520636c617373206f66202739393a204966204920636f756c64206f6666657220796f75206f6e6c79206f6e652074697020666f7220746865206675747572652c2073756e73637265656e20776f756c642062652069742e in
  be_val (drop 114 (aead_encrypt key nonce aad pt)) = 0x1ae10b594f09e26a7e902ecbd0600691.
Proof. vm_compute. reflexivity. Qed.
