(* ===== verification/DtlsReplay.v ===== *)
(** The anti-replay window of src/tls/dtls.c: four 64-bit words shifted as one
    256-bit window below the largest sequence number seen, against the set of
    the sequence numbers accepted so far. *)
From S2P Require Import Prelude.
#[local] Open Scope Z_scope.

Definition DTLS_REPLAY_WINDOW_WORDS : nat := 4.
Definition DTLS_REPLAY_WINDOW_BITS : Z := Z.of_nat DTLS_REPLAY_WINDOW_WORDS * 64.

Record dtls_replay_window_t := mk_window { max_seq : Z; window : list Z }.

(** [w->window[src]], or 0 when [src] is negative. *)
Definition word_or_0 (w : list Z) (src : Z) : Z := if 0 <=? src then w.[Z.to_nat src] else 0.

(** One iteration of the two shifting loops, in place on the array. *)
Definition shift_words_body (word_shift : Z) (i : nat) (w : list Z) : list Z :=
  let src := Z.of_nat i - word_shift in
  <[i := word_or_0 w src]> w.

Definition shift_bits_body (word_shift bit_shift : Z) (i : nat) (w : list Z) : list Z :=
  let src := Z.of_nat i - word_shift in
  let hi := word_or_0 w src in
  let lo := word_or_0 w (src - 1) in
  <[i := Z.lor (u64 (Z.shiftl hi bit_shift)) (Z.shiftr lo (64 - bit_shift))]> w.

(** [for (i = DTLS_REPLAY_WINDOW_WORDS - 1; i >= 0; i--)] *)
Definition for_down (f : nat -> list Z -> list Z) (w : list Z) : list Z :=
  for_range 0 DTLS_REPLAY_WINDOW_WORDS (fun j => f (DTLS_REPLAY_WINDOW_WORDS - 1 - j)%nat) w.

Definition replay_shift (shift : Z) (w : list Z) : list Z :=
  if DTLS_REPLAY_WINDOW_BITS <=? shift then
    for_range 0 DTLS_REPLAY_WINDOW_WORDS (fun i w => <[i := 0]> w) w
  else
    let word_shift := shift / 64 in
    let bit_shift := shift mod 64 in
    if bit_shift =? 0 then for_down (shift_words_body word_shift) w
    else for_down (shift_bits_body word_shift bit_shift) w.

(** The result and the window afterwards. *)
Definition dtls_replay_check (w : dtls_replay_window_t) (seq : Z) : Z * dtls_replay_window_t :=
  if max_seq w <? seq then
    let shift := seq - max_seq w in
    let win := replay_shift shift (window w) in
    (1, mk_window seq (<[0%nat := Z.lor win.[0] 1]> win))
  else
    let diff := max_seq w - seq in
    if DTLS_REPLAY_WINDOW_BITS <=? diff then (0, w) else
    let word := Z.to_nat (diff / 64) in
    let bit := diff mod 64 in
    let mask := Z.shiftl 1 bit in
    if negb (Z.land (window w).[word] mask =? 0) then (0, w)
    else (1, mk_window (max_seq w) (<[word := Z.lor (window w).[word] mask]> (window w))).

(** [opssl_dtls_set_replay_window] resets the window; its argument is ignored. *)
Definition opssl_dtls_set_replay_window (w : dtls_replay_window_t) (window_bits : Z) : dtls_replay_window_t :=
  mk_window 0 (for_range 0 DTLS_REPLAY_WINDOW_WORDS (fun i w => <[i := 0]> w) (window w)).

(** The checks of a sequence of records, in the order they arrive. *)
Fixpoint replay_run (w : dtls_replay_window_t) (seqs : list Z) : list Z :=
  match seqs with
  | [] => []
  | s :: seqs => let '(r, w) := dtls_replay_check w s in r :: replay_run w seqs
  end.

(* ------------------------------------------------------------------ *)
(** * Abstract specification: the accepted sequence numbers *)

(** A number is fresh when it was not accepted before and is less than 256
    below the largest accepted one. *)
Definition fresh (seen : list Z) (s : Z) : Prop :=
  ~ (s ∈ seen) /\ forall m, m ∈ seen -> m - s < 256.

#[export] Instance fresh_dec seen s : Decision (fresh seen s).
Proof.
  refine (cast_if (decide (~ (s ∈ seen) /\ Forall (fun m => m - s < 256) seen)));
    unfold fresh in *; rewrite Forall_forall in *; tauto.
Defined.

Fixpoint spec_run (seen : list Z) (seqs : list Z) : list Z :=
  match seqs with
  | [] => []
  | s :: seqs => if decide (fresh seen s) then 1 :: spec_run (s :: seen) seqs else 0 :: spec_run seen seqs
  end.

(* ------------------------------------------------------------------ *)
(** * The window as 256 bits *)

Definition wbit (w : list Z) (d : Z) : bool := Z.testbit w.[Z.to_nat (d / 64)] (d mod 64).

Definition words64 (w : list Z) : Prop := length w = 4%nat /\ Forall (fun x => 0 <= x < 2 ^ 64) w.

Lemma words64_get w i : words64 w -> 0 <= w.[i] < 2 ^ 64.
Proof.
  intros [Hl Hw]. destruct (decide (i < length w)%nat) as [Hi | Hi].
  - apply (proj1 (Forall_forall _ _) Hw). apply list_elem_of_lookup_2 with i. by apply lookup_get.
  - unfold get. rewrite nth_overflow by lia. lia.
Qed.

Lemma word_or_0_range w i : words64 w -> 0 <= word_or_0 w i < 2 ^ 64.
Proof. intros H. unfold word_or_0. destruct (0 <=? i); [by apply words64_get | lia]. Qed.

(** The loops run from the top, so that a cell is read before it is written. *)
Lemma for_down_cells g w (ws : Z) :
  length w = 4%nat -> 0 <= ws < 4 ->
  for_down (fun i w => <[i := g (word_or_0 w (Z.of_nat i - ws)) (word_or_0 w (Z.of_nat i - ws - 1))]> w) w =
    map (fun i => g (word_or_0 w (Z.of_nat i - ws)) (word_or_0 w (Z.of_nat i - ws - 1))) (seq 0 4).
Proof.
  intros Hl Hws. destruct w as [| a [| b [| c [| d [| e w]]]]]; try discriminate.
  assert (ws = 0 \/ ws = 1 \/ ws = 2 \/ ws = 3) as [-> | [-> | [-> | ->]]] by lia; reflexivity.
Qed.

Lemma high_bit x j : 0 <= x < 2 ^ 64 -> 64 <= j -> Z.testbit x j = false.
Proof. intros H Hj. rewrite <- (Z.mod_small x (2 ^ 64)) by done. by apply Z.mod_pow2_bits_high. Qed.

(** A bit of a shifted word. *)
Lemma shifted_bit hi lo b j : 0 <= hi < 2 ^ 64 -> 0 <= lo < 2 ^ 64 -> 0 < b < 64 -> 0 <= j < 64 ->
  Z.testbit (Z.lor (u64 (Z.shiftl hi b)) (Z.shiftr lo (64 - b))) j =
    if j <? b then Z.testbit lo (64 - b + j) else Z.testbit hi (j - b).
Proof.
  intros Hh Hlo Hb Hj. unfold u64. change 18446744073709551616 with (2 ^ 64).
  rewrite Z.lor_spec, Z.mod_pow2_bits_low, Z.shiftl_spec, Z.shiftr_spec by lia.
  destruct (Z.ltb_spec j b).
  - rewrite (Z.testbit_neg_r hi) by lia. cbn [orb]. f_equal. lia.
  - rewrite (high_bit lo) by lia. apply orb_false_r.
Qed.

Lemma shifted_range hi lo b : 0 <= lo < 2 ^ 64 -> 0 < b < 64 ->
  0 <= Z.lor (u64 (Z.shiftl hi b)) (Z.shiftr lo (64 - b)) < 2 ^ 64.
Proof.
  intros Hlo Hb. apply lor_range; [lia | apply u64_range |]. rewrite shiftr_div by lia.
  split; [apply Z.div_pos; lia |]. apply Z.div_lt_upper_bound; [lia |]. nia.
Qed.

Lemma word_bit w i j : 0 <= j < 64 ->
  Z.testbit (word_or_0 w i) j = if 64 * i + j <? 0 then false else wbit w (64 * i + j).
Proof.
  intros Hj. unfold word_or_0, wbit. destruct (Z.leb_spec 0 i) as [Hi | Hi].
  - rewrite (proj2 (Z.ltb_ge _ 0)) by lia.
    rewrite <- (Z.div_unique (64 * i + j) 64 i j), <- (Z.mod_unique (64 * i + j) 64 i j) by lia. done.
  - rewrite (proj2 (Z.ltb_lt _ 0)) by lia. apply Z.bits_0.
Qed.

Lemma cells_words64 f : (forall i, 0 <= f i < 2 ^ 64) -> words64 (map f (seq 0 4)).
Proof. intros H. split; [done |]. apply Forall_map, Forall_forall. intros i _. apply H. Qed.

Lemma cells_bit (f : nat -> Z) d : 0 <= d < 256 ->
  wbit (map f (seq 0 4)) d = Z.testbit (f (Z.to_nat (d / 64))) (d mod 64).
Proof.
  intros Hd. unfold wbit. assert (Z.to_nat (d / 64) < 4)%nat as Hk by (Z.div_mod_to_equations; lia).
  destruct (Z.to_nat (d / 64)) as [| [| [| [| k]]]]; try done. lia.
Qed.

(** Shifting the array of words shifts the window. *)
Lemma replay_shift_spec shift w : words64 w -> 0 < shift ->
  words64 (replay_shift shift w) /\
  forall d, 0 <= d < 256 -> wbit (replay_shift shift w) d = if d <? shift then false else wbit w (d - shift).
Proof.
  intros Hw Hs. pose proof Hw as [Hl _]. unfold replay_shift. change DTLS_REPLAY_WINDOW_BITS with 256.
  destruct (Z.leb_spec 256 shift) as [Hbig | Hsmall].
  - destruct w as [| a [| b [| c [| d [| e w]]]]]; try discriminate.
    change (for_range 0 DTLS_REPLAY_WINDOW_WORDS _ _) with (map (fun _ : nat => 0) (seq 0 4)). split; [by apply cells_words64 |].
    intros k Hk. rewrite cells_bit, Z.bits_0, (proj2 (Z.ltb_lt k shift)) by lia. done.
  - set (ws := shift / 64). set (bs := shift mod 64).
    assert (shift = 64 * ws + bs /\ 0 <= bs < 64 /\ 0 <= ws < 4) as (Hsh & Hbs & Hws) by (unfold ws, bs; Z.div_mod_to_equations; lia).
    clearbody ws bs. destruct (Z.eqb_spec bs 0) as [Hb0 | Hb0].
    + pose proof (for_down_cells (fun hi _ => hi) w ws Hl Hws) as E.
      change (for_down (shift_words_body ws) w = map (fun i => word_or_0 w (Z.of_nat i - ws)) (seq 0 4)) in E. rewrite E.
      split; [apply cells_words64; intros; by apply word_or_0_range |]. intros d Hd.
      rewrite cells_bit, word_bit by (Z.div_mod_to_equations; lia).
      replace (64 * (Z.of_nat (Z.to_nat (d / 64)) - ws) + d mod 64) with (d - shift) by (Z.div_mod_to_equations; lia).
      destruct (Z.ltb_spec (d - shift) 0); destruct (Z.ltb_spec d shift); (done || lia).
    + pose proof (for_down_cells (fun hi lo => Z.lor (u64 (Z.shiftl hi bs)) (Z.shiftr lo (64 - bs))) w ws Hl Hws) as E.
      change (for_down (shift_bits_body ws bs) w = map (fun i => Z.lor (u64 (Z.shiftl (word_or_0 w (Z.of_nat i - ws)) bs))
        (Z.shiftr (word_or_0 w (Z.of_nat i - ws - 1)) (64 - bs))) (seq 0 4)) in E. rewrite E.
      split; [apply cells_words64; intros; apply shifted_range; [by apply word_or_0_range | lia] |]. intros d Hd.
      rewrite cells_bit, shifted_bit by (try (by apply word_or_0_range); Z.div_mod_to_equations; lia).
      set (k := d / 64) in *. set (j := d mod 64) in *.
      assert (d = 64 * k + j /\ 0 <= j < 64 /\ 0 <= k) as (Hdk & Hj & Hk) by (unfold k, j; Z.div_mod_to_equations; lia).
      clearbody k j. destruct (Z.ltb_spec j bs).
      * rewrite word_bit by lia. replace (64 * (Z.of_nat (Z.to_nat k) - ws - 1) + (64 - bs + j)) with (d - shift) by lia.
        destruct (Z.ltb_spec (d - shift) 0); destruct (Z.ltb_spec d shift); (done || lia).
      * rewrite word_bit by lia. replace (64 * (Z.of_nat (Z.to_nat k) - ws) + (j - bs)) with (d - shift) by lia.
        destruct (Z.ltb_spec (d - shift) 0); destruct (Z.ltb_spec d shift); (done || lia).
Qed.

(** Setting one bit of the window. *)
Lemma set_bit_spec w n : words64 w -> 0 <= n < 256 ->
  let w' := <[Z.to_nat (n / 64) := Z.lor w.[Z.to_nat (n / 64)] (Z.shiftl 1 (n mod 64))]> w in
  words64 w' /\ forall d, 0 <= d < 256 -> wbit w' d = (d =? n) || wbit w d.
Proof.
  intros Hw Hn w'. pose proof Hw as [Hl Hf]. split.
  - split; [by unfold w'; rewrite length_insert |]. apply Forall_insert; [done |].
    apply lor_range; [lia | by apply words64_get |]. rewrite Z.shiftl_1_l. split; [apply Z.pow_nonneg; lia |].
    apply Z.pow_lt_mono_r; Z.div_mod_to_equations; lia.
  - intros d Hd. unfold wbit, w'. assert (Z.to_nat (n / 64) < 4)%nat by (Z.div_mod_to_equations; lia).
    destruct (decide (Z.to_nat (d / 64) = Z.to_nat (n / 64))) as [E | E].
    + rewrite E, get_insert_eq by lia. rewrite Z.lor_spec, Z.shiftl_1_l, Z.pow2_bits_eqb by (Z.div_mod_to_equations; lia).
      rewrite orb_comm. f_equal. destruct (Z.eqb_spec (n mod 64) (d mod 64)), (Z.eqb_spec d n); try done;
        Z.div_mod_to_equations; lia.
    + rewrite get_insert_ne by congruence. destruct (Z.eqb_spec d n); [congruence | done].
Qed.

(* ------------------------------------------------------------------ *)
(** * Refinement *)

Record replay_rel (w : dtls_replay_window_t) (seen : list Z) : Prop := {
  rr_words : words64 (window w);
  rr_max : forall s, s ∈ seen -> 0 <= s <= max_seq w;
  rr_top : (seen = [] /\ max_seq w = 0) \/ max_seq w ∈ seen;
  rr_bits : forall d, 0 <= d < 256 -> wbit (window w) d = bool_decide (max_seq w - d ∈ seen) }.

Lemma replay_step_sim w seen s : replay_rel w seen -> 0 <= s ->
  let '(r, w') := dtls_replay_check w s in
  if decide (fresh seen s) then r = 1 /\ replay_rel w' (s :: seen) else r = 0 /\ replay_rel w' seen.
Proof.
  intros [Hw Hm Ht Hb] Hs. unfold dtls_replay_check. destruct (Z.ltb_spec (max_seq w) s) as [Hgt | Hle].
  - destruct (decide (fresh seen s)) as [_ | Hf].
    2: { exfalso. apply Hf. split; [intros Hin; apply Hm in Hin; lia |]. intros m Hin. apply Hm in Hin. lia. }
    split; [done |]. destruct (replay_shift_spec (s - max_seq w) (window w) Hw ltac:(lia)) as [Hw1 Hb1].
    destruct (set_bit_spec _ 0 Hw1 ltac:(lia)) as [Hw2 Hb2].
    split; cbn [max_seq window]; [exact Hw2 | | by right; apply elem_of_cons; left |].
    + intros x [-> | Hx]%elem_of_cons; [lia |]. apply Hm in Hx. lia.
    + intros d Hd. etransitivity; [by apply (Hb2 d) |]. rewrite Hb1 by done.
      destruct (Z.eqb_spec d 0) as [-> | Hd0]; cbn [orb].
      * rewrite Z.sub_0_r. symmetry. apply bool_decide_eq_true_2. by apply elem_of_cons; left.
      * destruct (Z.ltb_spec d (s - max_seq w)) as [Hlt | Hge].
        -- symmetry. apply bool_decide_eq_false_2. intros [? | Hx]%elem_of_cons; [lia |]. apply Hm in Hx. lia.
        -- rewrite Hb by lia. apply bool_decide_ext. rewrite elem_of_cons.
           replace (max_seq w - (d - (s - max_seq w))) with (s - d) by lia. split; [by right | intros [? | ?]; [lia | done]].
  - change DTLS_REPLAY_WINDOW_BITS with 256.
    destruct (Z.leb_spec 256 (max_seq w - s)) as [Hold | Hin].
    + destruct (decide (fresh seen s)) as [[_ Hf] | _]; [| done].
      destruct Ht as [[_ ?] | Ht]; [lia |]. apply Hf in Ht. lia.
    + set (n := max_seq w - s) in *. assert (0 <= n < 256) as Hn by lia.
      assert (negb (Z.land (window w).[Z.to_nat (n / 64)] (Z.shiftl 1 (n mod 64)) =? 0) = wbit (window w) n) as ->.
      { unfold wbit. rewrite Z.shiftl_1_l. destruct (Z.testbit _ (n mod 64)) eqn:Hbit.
        - apply negb_true_iff, Z.eqb_neq. intros E. apply (f_equal (fun x => Z.testbit x (n mod 64))) in E.
          rewrite Z.land_spec, Hbit, Z.pow2_bits_true, Z.bits_0 in E by (Z.div_mod_to_equations; lia). done.
        - apply negb_false_iff, Z.eqb_eq. apply Z.bits_inj'. intros i Hi. rewrite Z.land_spec, Z.bits_0.
          rewrite Z.pow2_bits_eqb by (Z.div_mod_to_equations; lia). destruct (Z.eqb_spec (n mod 64) i) as [<- | _]; [by rewrite Hbit |].
          apply andb_false_r. }
      rewrite Hb by done. replace (max_seq w - n) with s by lia.
      destruct (bool_decide_reflect (s ∈ seen)) as [Hseen | Hseen].
      * destruct (decide (fresh seen s)) as [[Hf _] | _]; [done |]. done.
      * destruct (decide (fresh seen s)) as [_ | Hf].
        2: { exfalso. apply Hf. split; [done |]. intros m Hx. apply Hm in Hx. lia. }
        split; [done |]. destruct (set_bit_spec (window w) n Hw Hn) as [Hw2 Hb2].
        split; cbn [max_seq window]; [exact Hw2 | | |].
        -- intros x [-> | Hx]%elem_of_cons; [lia | by apply Hm].
        -- right. apply elem_of_cons. destruct Ht as [[_ ?] | Ht]; [left; lia | by right].
        -- intros d Hd. etransitivity; [by apply (Hb2 d) |]. rewrite Hb by done.
           destruct (Z.eqb_spec d n) as [-> | Hne]; cbn [orb].
           ++ symmetry. apply bool_decide_eq_true_2, elem_of_cons. left. lia.
           ++ apply bool_decide_ext. rewrite elem_of_cons. split; [by right | intros [? | ?]; [lia | done]].
Qed.

Lemma replay_init_rel w bits : length (window w) = 4%nat -> replay_rel (opssl_dtls_set_replay_window w bits) [].
Proof.
  intros Hl. destruct w as [m win]. cbn [window] in Hl. destruct win as [| a [| b [| c [| d [| e win]]]]]; try discriminate.
  unfold opssl_dtls_set_replay_window. cbn [window].
  change (for_range 0 DTLS_REPLAY_WINDOW_WORDS _ _) with (map (fun _ : nat => 0) (seq 0 4)).
  split; cbn [max_seq window]; [by apply cells_words64 | by intros s H%elem_of_nil | by left |].
  intros k Hk. rewrite cells_bit, Z.bits_0 by done. by rewrite bool_decide_eq_false_2 by apply not_elem_of_nil.
Qed.

Lemma replay_run_sim seqs : forall w seen, replay_rel w seen -> Forall (fun s => 0 <= s) seqs ->
  replay_run w seqs = spec_run seen seqs.
Proof.
  induction seqs as [| s seqs IH]; intros w seen Hr Hs; [done |]. apply Forall_cons in Hs as [Hs Hss].
  cbn [replay_run spec_run]. pose proof (replay_step_sim w seen s Hr Hs) as H. destruct (dtls_replay_check w s) as [r w'].
  destruct (decide (fresh seen s)); destruct H as [-> H]; f_equal; by apply IH.
Qed.

(** C30: from a reset window, the checks of any sequence of records answer as the
    abstract receiver does: a record is accepted exactly when its number was not
    accepted before and is less than 256 below the largest number accepted.  The
    window is 256 wide whatever size [opssl_dtls_set_replay_window] is given, which
    only resets it; dtls.h documents the argument as the size, 64 by default. *)
Theorem dtls_replay_refines w bits seqs :
  length (window w) = 4%nat -> Forall (fun s => 0 <= s) seqs ->
  replay_run (opssl_dtls_set_replay_window w bits) seqs = spec_run [] seqs.
Proof. intros Hl Hs. apply replay_run_sim; [by apply replay_init_rel | done]. Qed.

Lemma dtls_replay_refines_witness :
  replay_run (opssl_dtls_set_replay_window (mk_window 7 [1; 2; 3; 4]) 0) [5; 300; 5; 44; 45; 300; 45; 2 ^ 48] =
    spec_run [] [5; 300; 5; 44; 45; 300; 45; 2 ^ 48].
Proof. apply (dtls_replay_refines (mk_window 7 [1; 2; 3; 4]) 0); [reflexivity | repeat constructor; lia]. Defined.

Example replay_run_example : spec_run [] [5; 300; 5; 44; 45; 300; 45; 2 ^ 48] = [1; 1; 0; 0; 1; 0; 0; 1].
Proof. vm_compute. reflexivity. Qed.

(** The accepted numbers of a run. *)
Definition accepted (rs seqs : list Z) : list Z := (filter (fun p : Z * Z => p.1 = 1) (zip rs seqs)).*2.

Lemma spec_run_nodup seqs : forall seen, NoDup (accepted (spec_run seen seqs) seqs) /\
  forall s, s ∈ accepted (spec_run seen seqs) seqs -> ~ (s ∈ seen).
Proof.
  induction seqs as [| s seqs IH]; intros seen; [split; [constructor | intros s H%elem_of_nil; done] |].
  cbn [spec_run]. destruct (decide (fresh seen s)) as [[Hf _] | Hf]; unfold accepted; cbn [zip_with]; rewrite filter_cons; cbn [fst].
  - rewrite decide_True by done. destruct (IH (s :: seen)) as [H1 H2]. cbn [fmap list_fmap snd]. split.
    + constructor; [| exact H1]. intros Hin. apply H2 in Hin. apply Hin, elem_of_cons. by left.
    + intros x [-> | Hx]%elem_of_cons; [done |]. apply H2 in Hx. intros Hs. apply Hx, elem_of_cons. by right.
  - rewrite decide_False by done. apply IH.
Qed.

(** No sequence number is accepted twice, in whatever order and however often
    records are replayed. *)
Theorem dtls_replay_no_duplicates w bits seqs :
  length (window w) = 4%nat -> Forall (fun s => 0 <= s) seqs ->
  NoDup (accepted (replay_run (opssl_dtls_set_replay_window w bits) seqs) seqs).
Proof.
  intros Hl Hs. rewrite (replay_run_sim seqs _ []) by (done || by apply replay_init_rel). apply spec_run_nodup.
Qed.

Lemma dtls_replay_no_duplicates_witness :
  NoDup (accepted (replay_run (opssl_dtls_set_replay_window (mk_window 0 [0; 0; 0; 0]) 0) [3; 3; 70; 3; 400; 70]) [3; 3; 70; 3; 400; 70]).
Proof. apply (dtls_replay_no_duplicates (mk_window 0 [0; 0; 0; 0]) 0); [reflexivity | repeat constructor; lia]. Defined.
