(* ===== verification/DtlsFrag.v ===== *)
(** Handshake fragments of src/tls/dtls.c: the queue of messages being
    reassembled, and the part of the record dispatcher that feeds it.

    The C queue is a singly linked list, newest entry first; a pointer into it is
    the position of the entry here.  [op_malloc n] is the content of a fresh
    block of [n] bytes, which C leaves unspecified. *)
From S2P Require Import Prelude.
#[local] Open Scope Z_scope.

Definition DTLS_HS_HEADER_LEN : nat := 12.
Definition DTLS_MAX_HS_MSG_LEN : Z := 65536.

Record dtls_reassembly_t := mk_reassembly {
  r_type : Z;
  r_msg_seq : Z;
  r_total_length : Z;
  r_body : list Z;
  r_coverage : list Z;
  r_bytes_received : Z }.

(** A handshake fragment: the header fields and the data. *)
Record hs_frag := mk_frag {
  f_type : Z;
  f_total : Z;
  f_seq : Z;
  f_off : Z;
  f_data : list Z }.

Definition f_len (f : hs_frag) : Z := Z.of_nat (length (f_data f)).

(** What the dispatcher does with a fragment: fail, wait for more, or pass a
    message to the handshake engine. *)
Inductive hs_action :=
| HsError
| HsWantRead
| HsDrive (hs_type : Z) (body : list Z).

(** The header of a handshake record. *)
Definition parse_hs_record (record : list Z) : option hs_frag :=
  if (length record <? DTLS_HS_HEADER_LEN)%nat then None else
  let total_len := Z.lor (Z.lor (Z.shiftl record.[1] 16) (Z.shiftl record.[2] 8)) record.[3] in
  let msg_seq := u16 (Z.lor (Z.shiftl record.[4] 8) record.[5]) in
  let frag_offset := Z.lor (Z.lor (Z.shiftl record.[6] 16) (Z.shiftl record.[7] 8)) record.[8] in
  let frag_len := Z.lor (Z.lor (Z.shiftl record.[9] 16) (Z.shiftl record.[10] 8)) record.[11] in
  if Z.of_nat (length record) <? Z.of_nat DTLS_HS_HEADER_LEN + frag_len then None else
  Some (mk_frag record.[0] total_len msg_seq frag_offset (sub_list DTLS_HS_HEADER_LEN (Z.to_nat frag_len) record)).

(** [for (r = queue; r; r = r->next) if (r->msg_seq == msg_seq) return r] *)
Fixpoint reassembly_find (q : list dtls_reassembly_t) (msg_seq : Z) : option nat :=
  match q with
  | [] => None
  | r :: q => if r_msg_seq r =? msg_seq then Some 0%nat else S <$> reassembly_find q msg_seq
  end.

Definition dtls_reassembly_add_fragment (r : dtls_reassembly_t) (frag_offset frag_length : Z) (data : list Z) :
    bool * dtls_reassembly_t :=
  if r_total_length r <? u32 (frag_offset + frag_length) then (false, r) else
  let body := splice (r_body r) (Z.to_nat frag_offset) data in
  let coverage :=
    for_range (Z.to_nat frag_offset) (Z.to_nat frag_length)
      (fun i cov => <[(i / 8)%nat := Z.lor cov.[(i / 8)%nat] (u8 (Z.shiftl 1 (Z.of_nat (i mod 8))))]> cov) (r_coverage r) in
  let bytes_received := u32 (r_bytes_received r + frag_length) in
  (r_total_length r <=? bytes_received,
   mk_reassembly (r_type r) (r_msg_seq r) (r_total_length r) body coverage bytes_received).

(** The entry removed from the queue, and the rest. *)
Fixpoint dtls_reassembly_take (q : list dtls_reassembly_t) (msg_seq : Z) :
    option dtls_reassembly_t * list dtls_reassembly_t :=
  match q with
  | [] => (None, [])
  | r :: q =>
    if r_msg_seq r =? msg_seq then (Some r, q)
    else let '(d, q') := dtls_reassembly_take q msg_seq in (d, r :: q')
  end.

Definition dtls_reassembly_purge (q : list dtls_reassembly_t) : list dtls_reassembly_t := [].

Section Queue.
Variable op_malloc : nat -> list Z.

Definition new_reassembly (msg_seq type total_length : Z) : dtls_reassembly_t :=
  let cov_bytes := Z.to_nat (u32 (total_length + 7) / 8) in
  mk_reassembly type msg_seq total_length (op_malloc (if 0 <? total_length then Z.to_nat total_length else 1%nat))
    (replicate (if (0 <? cov_bytes)%nat then cov_bytes else 1%nat) 0) 0.

Definition dtls_reassembly_get (q : list dtls_reassembly_t) (msg_seq type total_length : Z) :
    option (nat * list dtls_reassembly_t) :=
  match reassembly_find q msg_seq with
  | Some i => Some (i, q)
  | None =>
    if DTLS_MAX_HS_MSG_LEN <? total_length then None
    else Some (0%nat, new_reassembly msg_seq type total_length :: q)
  end.

(** The end of [dtls_process_handshake_record]: a fragment that is not a whole
    message goes to the queue, and the message it completes to the engine. *)
Definition reassemble (q : list dtls_reassembly_t) (f : hs_frag) : hs_action * list dtls_reassembly_t :=
  match dtls_reassembly_get q (f_seq f) (f_type f) (f_total f) with
  | None => (HsError, q)
  | Some (i, q) =>
    match q !! i with
    | None => (HsError, q)
    | Some r =>
      let '(complete, r) := dtls_reassembly_add_fragment r (f_off f) (f_len f) (f_data f) in
      let q := <[i := r]> q in
      if negb complete then (HsWantRead, q) else
      match dtls_reassembly_take q (f_seq f) with
      | (None, q) => (HsError, q)
      | (Some done, q) => (HsDrive (r_type done) (take (Z.to_nat (r_total_length done)) (r_body done)), q)
      end
    end
  end.

(** Fragments in the order they arrive. *)
Fixpoint reassemble_run (q : list dtls_reassembly_t) (fs : list hs_frag) : list hs_action * list dtls_reassembly_t :=
  match fs with
  | [] => ([], q)
  | f :: fs =>
    let '(a, q) := reassemble q f in
    let '(acts, q) := reassemble_run q fs in (a :: acts, q)
  end.
End Queue.

(* ------------------------------------------------------------------ *)
(** * The queue as a map from message numbers to entries *)

Fixpoint view (s : Z) (q : list dtls_reassembly_t) : option dtls_reassembly_t :=
  match q with
  | [] => None
  | r :: q => if r_msg_seq r =? s then Some r else view s q
  end.

Definition seqs_unique (q : list dtls_reassembly_t) : Prop := NoDup (map r_msg_seq q).

Lemma find_view q s :
  match reassembly_find q s with
  | Some i => exists r, q !! i = Some r /\ view s q = Some r /\ r_msg_seq r = s
  | None => view s q = None
  end.
Proof.
  induction q as [| r q IH]; [done |]. cbn [reassembly_find view]. destruct (Z.eqb_spec (r_msg_seq r) s).
  - by exists r.
  - destruct (reassembly_find q s) as [i |]; cbn [fmap option_fmap option_map]; done.
Qed.

Lemma view_elem q s r : view s q = Some r -> r ∈ q /\ r_msg_seq r = s.
Proof.
  induction q as [| x q IH]; [done |]. cbn [view]. destruct (Z.eqb_spec (r_msg_seq x) s) as [E | E].
  - intros [= ->]. split; [by apply elem_of_cons; left | done].
  - intros H. apply IH in H as [H1 H2]. split; [by apply elem_of_cons; right | done].
Qed.

Lemma view_none q s : view s q = None <-> ~ (s ∈ map r_msg_seq q).
Proof.
  induction q as [| r q IH]; cbn [view map]; [split; [intros _ H%elem_of_nil; done | done] |].
  rewrite elem_of_cons. destruct (Z.eqb_spec (r_msg_seq r) s); [split; [done | intros H; exfalso; auto] |].
  rewrite IH. split; [intros H [? | ?]; auto | auto].
Qed.

(** Replacing the entry of a message by another of the same message. *)
Lemma view_update q s r r' i : seqs_unique q -> q !! i = Some r -> r_msg_seq r = s -> r_msg_seq r' = s ->
  view s (<[i := r']> q) = Some r' /\ (forall s', s' <> s -> view s' (<[i := r']> q) = view s' q) /\
  map r_msg_seq (<[i := r']> q) = map r_msg_seq q.
Proof.
  revert i. induction q as [| x q IH]; intros i Hu Hi Hr Hr'; [done |]. inversion Hu as [| ? ? Hx Hu']. subst.
  destruct i as [| i]; cbn [insert list_insert view map].
  - cbn in Hi. injection Hi as ->. rewrite Hr', Z.eqb_refl. split; [done | split; [| done]].
    intros s' Hs. by rewrite (proj2 (Z.eqb_neq _ _)) by congruence.
  - cbn in Hi. change (list_insert i r' q) with (<[i := r']> q). destruct (IH i Hu' Hi eq_refl Hr') as (H1 & H2 & H3).
    split; [| split; [| f_equal; exact H3]].
    + destruct (Z.eqb_spec (r_msg_seq x) (r_msg_seq r)) as [E |]; [| done]. exfalso. apply Hx. rewrite E.
      apply list_elem_of_fmap. exists r. split; [done |]. by apply list_elem_of_lookup_2 with i.
    + intros s' Hs. by rewrite H2.
Qed.

Lemma take_view q s : seqs_unique q ->
  let '(d, q') := dtls_reassembly_take q s in
  d = view s q /\ view s q' = None /\ (forall s', s' <> s -> view s' q' = view s' q) /\
  seqs_unique q' /\ (forall r, r ∈ q' -> r ∈ q).
Proof.
  induction q as [| x q IH]; intros Hu; [done |]. inversion Hu as [| ? ? Hx Hu']. subst.
  cbn [dtls_reassembly_take view]. destruct (Z.eqb_spec (r_msg_seq x) s) as [E | E].
  - split; [done |]. split; [apply view_none; by rewrite <- E |]. split; [| split; [done |]].
    + intros s' Hs. by rewrite (proj2 (Z.eqb_neq _ _)) by congruence.
    + intros r Hr. by apply elem_of_cons; right.
  - specialize (IH Hu'). destruct (dtls_reassembly_take q s) as [d q']. destruct IH as (-> & H1 & H2 & H3 & H4).
    cbn [view]. rewrite (proj2 (Z.eqb_neq _ _)) by done. split; [done | split; [done | split; [| split]]].
    + intros s' Hs. by rewrite H2.
    + constructor; [| done]. intros [r [Hr1 Hr2]]%list_elem_of_fmap. apply Hx. apply list_elem_of_fmap. exists r.
      split; [done | by apply H4].
    + intros r [-> | Hr]%elem_of_cons; apply elem_of_cons; [by left | right; by apply H4].
Qed.

Section Step.
Variable op_malloc : nat -> list Z.

(** One fragment against the entry of its message alone. *)
Definition entry_step (o : option dtls_reassembly_t) (f : hs_frag) : hs_action * option dtls_reassembly_t :=
  match (match o with Some r => Some r
         | None => if DTLS_MAX_HS_MSG_LEN <? f_total f then None else Some (new_reassembly op_malloc (f_seq f) (f_type f) (f_total f)) end) with
  | None => (HsError, None)
  | Some r =>
    let '(complete, r) := dtls_reassembly_add_fragment r (f_off f) (f_len f) (f_data f) in
    if negb complete then (HsWantRead, Some r)
    else (HsDrive (r_type r) (take (Z.to_nat (r_total_length r)) (r_body r)), None)
  end.

Lemma add_fragment_seq r off len d : r_msg_seq (dtls_reassembly_add_fragment r off len d).2 = r_msg_seq r.
Proof. unfold dtls_reassembly_add_fragment. by destruct (_ <? _). Qed.

(** The entry found or made for a fragment. *)
Lemma get_view q s t n : seqs_unique q ->
  match dtls_reassembly_get op_malloc q s t n with
  | None => view s q = None /\ DTLS_MAX_HS_MSG_LEN < n
  | Some (i, q') => exists r, q' !! i = Some r /\ r_msg_seq r = s /\ seqs_unique q' /\ view s q' = Some r /\
      (forall s', s' <> s -> view s' q' = view s' q) /\
      ((q' = q /\ view s q = Some r) \/
       (view s q = None /\ n <= DTLS_MAX_HS_MSG_LEN /\ r = new_reassembly op_malloc s t n /\ q' = r :: q))
  end.
Proof.
  intros Hu. unfold dtls_reassembly_get. pose proof (find_view q s) as H. destruct (reassembly_find q s) as [i |].
  - destruct H as (r & H1 & H2 & H3). exists r. repeat (split; [done |]). by left.
  - destruct (Z.ltb_spec DTLS_MAX_HS_MSG_LEN n); [done |]. exists (new_reassembly op_malloc s t n).
    split; [done | split; [done |]]. split; [constructor; [by apply view_none | done] |].
    cbn [view new_reassembly r_msg_seq]. rewrite Z.eqb_refl. split; [done |]. split; [| by right].
    intros s' Hs. by rewrite (proj2 (Z.eqb_neq _ _)) by congruence.
Qed.

Lemma reassemble_view q f : seqs_unique q ->
  let '(a, q') := reassemble op_malloc q f in
  entry_step (view (f_seq f) q) f = (a, view (f_seq f) q') /\
  (forall s, s <> f_seq f -> view s q' = view s q) /\ seqs_unique q'.
Proof.
  intros Hu. unfold reassemble. pose proof (get_view q (f_seq f) (f_type f) (f_total f) Hu) as Hg.
  destruct (dtls_reassembly_get _ _ _ _ _) as [[i q1] |].
  2: { destruct Hg as [Hv Hn]. unfold entry_step. rewrite Hv, (proj2 (Z.ltb_lt _ _)) by done. done. }
  destruct Hg as (r & Hi & Hr & Hu1 & Hv1 & Hother & Hcase). rewrite Hi.
  pose proof (add_fragment_seq r (f_off f) (f_len f) (f_data f)) as Hs.
  assert (entry_step (view (f_seq f) q) f =
    (let '(complete, r) := dtls_reassembly_add_fragment r (f_off f) (f_len f) (f_data f) in
     if negb complete then (HsWantRead, Some r)
     else (HsDrive (r_type r) (take (Z.to_nat (r_total_length r)) (r_body r)), None))) as ->.
  { unfold entry_step. destruct Hcase as [[-> ->] | (-> & Hn & -> & _)]; [done |]. by rewrite (proj2 (Z.ltb_ge _ _)) by done. }
  destruct (dtls_reassembly_add_fragment _ _ _ _) as [complete r']. cbn [snd] in Hs.
  destruct (view_update q1 (f_seq f) r r' i Hu1 Hi Hr ltac:(congruence)) as (H1 & H2 & H3).
  assert (seqs_unique (<[i := r']> q1)) as Hu2 by (unfold seqs_unique; by rewrite H3).
  destruct complete; cbn [negb].
  - pose proof (take_view _ (f_seq f) Hu2) as Ht. destruct (dtls_reassembly_take _ _) as [d q2].
    destruct Ht as (-> & H4 & H5 & H6 & _). rewrite H1, H4. split; [done | split; [| done]].
    intros s Hne. by rewrite H5, H2, Hother.
  - rewrite H1. split; [done | split; [| done]]. intros s Hne. by rewrite H2, Hother.
Qed.
End Step.

(* ------------------------------------------------------------------ *)
(** * Bounds *)

(** The fields as the header carries them. *)
Definition wire_frag (f : hs_frag) : Prop :=
  0 <= f_total f < 2 ^ 24 /\ 0 <= f_off f < 2 ^ 24 /\ f_len f < 2 ^ 24.

Record entry_ok (r : dtls_reassembly_t) : Prop := {
  eo_total : 0 <= r_total_length r <= DTLS_MAX_HS_MSG_LEN;
  eo_body : Z.of_nat (length (r_body r)) = Z.max 1 (r_total_length r);
  eo_cov : Z.of_nat (length (r_coverage r)) = Z.max 1 ((r_total_length r + 7) / 8);
  eo_recv : 0 <= r_bytes_received r <= Z.max 0 (r_total_length r - 1) }.

Definition queue_ok (q : list dtls_reassembly_t) : Prop := seqs_unique q /\ Forall entry_ok q.

Definition malloc_ok (op_malloc : nat -> list Z) : Prop := forall n, length (op_malloc n) = n.

Lemma new_reassembly_ok op_malloc s t n : malloc_ok op_malloc -> 0 <= n <= DTLS_MAX_HS_MSG_LEN ->
  entry_ok (new_reassembly op_malloc s t n).
Proof.
  intros Hm Hn. unfold new_reassembly, DTLS_MAX_HS_MSG_LEN in *.
  assert (u32 (n + 7) = n + 7) as -> by (apply Z.mod_small; lia).
  split; cbn [r_total_length r_body r_coverage r_bytes_received]; [done | | | lia].
  - rewrite Hm. destruct (Z.ltb_spec 0 n); lia.
  - rewrite length_replicate. destruct (Nat.ltb_spec 0 (Z.to_nat ((n + 7) / 8))); [| Z.div_mod_to_equations; lia].
    rewrite Z2Nat.id; Z.div_mod_to_equations; lia.
Qed.

Lemma coverage_length off len cov : length
  (for_range off len (fun i cov => <[(i / 8)%nat := Z.lor cov.[(i / 8)%nat] (u8 (Z.shiftl 1 (Z.of_nat (i mod 8))))]> cov) cov) = length cov.
Proof.
  apply (for_range_ind (fun _ c => length c = length cov)); [done |]. intros. by rewrite length_insert.
Qed.

(** A fragment either does not fit and changes nothing, or is copied in place
    within the message. *)
Lemma add_fragment_ok r f : entry_ok r -> wire_frag f ->
  let '(complete, r') := dtls_reassembly_add_fragment r (f_off f) (f_len f) (f_data f) in
  r_total_length r' = r_total_length r /\ r_type r' = r_type r /\
  length (r_body r') = length (r_body r) /\ length (r_coverage r') = length (r_coverage r) /\
  (if decide (f_off f + f_len f <= r_total_length r) then
     r_body r' = splice (r_body r) (Z.to_nat (f_off f)) (f_data f) /\
     r_bytes_received r' = r_bytes_received r + f_len f /\
     complete = (r_total_length r <=? r_bytes_received r + f_len f)
   else r' = r /\ complete = false).
Proof.
  intros [Ht Hb Hc Hr] (Hn & Ho & Hl). unfold dtls_reassembly_add_fragment, DTLS_MAX_HS_MSG_LEN in *.
  assert (0 <= f_len f) by (unfold f_len; lia).
  rewrite (u32_id (f_off f + f_len f)) by lia.
  destruct (Z.ltb_spec (r_total_length r) (f_off f + f_len f)); [by rewrite decide_False by lia |].
  rewrite decide_True by lia. cbn [r_total_length r_type r_body r_coverage r_bytes_received].
  rewrite (u32_id (r_bytes_received r + f_len f)) by lia.
  rewrite coverage_length, splice_length by (unfold f_len in *; lia). done.
Qed.

Lemma reassemble_ok op_malloc q f : malloc_ok op_malloc -> queue_ok q -> wire_frag f ->
  let '(a, q') := reassemble op_malloc q f in
  queue_ok q' /\ (forall t b, a = HsDrive t b -> Z.of_nat (length b) <= DTLS_MAX_HS_MSG_LEN).
Proof.
  intros Hm [Hu Hq] Hf. pose proof (reassemble_view op_malloc q f Hu) as Hview. unfold reassemble in *.
  pose proof (get_view op_malloc q (f_seq f) (f_type f) (f_total f) Hu) as Hg.
  destruct (dtls_reassembly_get _ _ _ _ _) as [[i q1] |]; [| done].
  destruct Hg as (r & Hi & Hr & Hu1 & Hv1 & _ & Hcase). rewrite Hi in *.
  assert (Forall entry_ok q1) as Hq1.
  { destruct Hcase as [[-> _] | (_ & Hn & -> & ->)]; [done |]. apply Forall_cons. split; [| done].
    apply new_reassembly_ok; [done |]. destruct Hf. lia. }
  assert (entry_ok r) as Hok by (eapply Forall_lookup_1; eassumption).
  pose proof (add_fragment_ok r f Hok Hf) as Ha. destruct (dtls_reassembly_add_fragment _ _ _ _) as [complete r'] eqn:E.
  destruct Ha as (Ht & _ & Hlb & Hlc & Hcases). pose proof Hok as [Ho1 Ho2 Ho3 Ho4].
  assert (complete = false -> entry_ok r') as Hr'.
  { intros Hcf. destruct (decide _); [destruct Hcases as (_ & Hrecv & Hcm) | destruct Hcases as [-> _]; done].
    rewrite Hcf in Hcm. symmetry in Hcm. apply Z.leb_gt in Hcm.
    split; rewrite ?Ht, ?Hlb, ?Hlc, ?Hrecv; try done. unfold f_len in *. lia. }
  destruct complete; cbn [negb] in *.
  - pose proof (add_fragment_seq r (f_off f) (f_len f) (f_data f)) as Hs. rewrite E in Hs. cbn [snd] in Hs.
    destruct (view_update q1 (f_seq f) r r' i Hu1 Hi Hr ltac:(congruence)) as (H1 & _ & H3).
    pose proof (take_view (<[i := r']> q1) (f_seq f) ltac:(unfold seqs_unique; by rewrite H3)) as Htk.
    destruct (dtls_reassembly_take _ _) as [d q2]. destruct Htk as (-> & H4 & _ & Hu2 & Hsub). rewrite H1 in *.
    split; [split; [done |] |].
    + apply Forall_forall. intros x Hx. assert (x ∈ <[i := r']> q1) as Hin by by apply Hsub.
      apply list_elem_of_lookup in Hin as [j Hj]. destruct (decide (i = j)) as [<- | Hne].
      * exfalso. rewrite list_lookup_insert_eq in Hj by (by eapply lookup_lt_Some). injection Hj as <-.
        apply view_none in H4. apply H4. apply list_elem_of_fmap. exists r'. split; [congruence | done].
      * rewrite list_lookup_insert_ne in Hj by done. eapply Forall_lookup_1; eassumption.
    + intros t b [= <- <-]. rewrite length_take, Ht. unfold DTLS_MAX_HS_MSG_LEN in *. lia.
  - split; [split; [by apply Hview |] | done]. apply Forall_insert; [done | by apply Hr'].
Qed.

(* ------------------------------------------------------------------ *)
(** * Delivery: one message among any others *)

Section Delivery.
Variable op_malloc : nat -> list Z.
Hypothesis Hmalloc : malloc_ok op_malloc.

Fixpoint entry_run (o : option dtls_reassembly_t) (fs : list hs_frag) : list hs_action * option dtls_reassembly_t :=
  match fs with
  | [] => ([], o)
  | f :: fs =>
    let '(a, o) := entry_step op_malloc o f in
    let '(acts, o) := entry_run o fs in (a :: acts, o)
  end.

(** The actions taken on the fragments of message [s]. *)
Definition actions_of (s : Z) (fs : list hs_frag) (acts : list hs_action) : list hs_action :=
  (filter (fun p : hs_frag * hs_action => f_seq p.1 = s) (zip fs acts)).*2.

Lemma run_view s fs : forall q, seqs_unique q ->
  let '(acts, q') := reassemble_run op_malloc q fs in
  entry_run (view s q) (filter (fun f => f_seq f = s) fs) = (actions_of s fs acts, view s q').
Proof.
  induction fs as [| f fs IH]; intros q Hu; [done |]. cbn [reassemble_run]. rewrite filter_cons.
  pose proof (reassemble_view op_malloc q f Hu) as H. destruct (reassemble op_malloc q f) as [a q1].
  destruct H as (H1 & H2 & H3). specialize (IH q1 H3). destruct (reassemble_run op_malloc q1 fs) as [acts q2].
  unfold actions_of in *. cbn [zip_with]. rewrite filter_cons. cbn [fst]. destruct (decide (f_seq f = s)) as [<- | Hne].
  - cbn [entry_run]. rewrite H1, IH. done.
  - rewrite H2 in IH by done. exact IH.
Qed.

(** A fragment of the message [b]. *)
Record frag_of (t s : Z) (b : list Z) (f : hs_frag) : Prop := {
  fo_type : f_type f = t;
  fo_seq : f_seq f = s;
  fo_total : f_total f = Z.of_nat (length b);
  fo_off : 0 <= f_off f;
  fo_end : f_off f + f_len f <= Z.of_nat (length b);
  fo_len : 0 < f_len f;
  fo_data : f_data f = sub_list (Z.to_nat (f_off f)) (length (f_data f)) b }.

Definition covers (f : hs_frag) (i : nat) : Prop := f_off f <= Z.of_nat i < f_off f + f_len f.

Definition sum_len (fs : list hs_frag) : Z := fold_right (fun f a => f_len f + a) 0 fs.

Lemma frag_wire t s b f : frag_of t s b f -> Z.of_nat (length b) <= DTLS_MAX_HS_MSG_LEN -> wire_frag f.
Proof. intros [] Hb. unfold wire_frag, DTLS_MAX_HS_MSG_LEN in *. lia. Qed.

Lemma splice_get buf off data i : (off + length data <= length buf)%nat ->
  (splice buf off data).[i] = if decide (off <= i < off + length data)%nat then data.[i - off] else buf.[i].
Proof.
  intros Hl. unfold splice. destruct (decide (i < off)%nat) as [Hi | Hi].
  - rewrite decide_False, get_app_l by (try rewrite length_take; lia). unfold get. by rewrite !nth_lookup, lookup_take_lt by lia.
  - rewrite get_app_r, length_take, Nat.min_l by (rewrite ?length_take; lia). destruct (decide _) as [Hd | Hd].
    + apply get_app_l. lia.
    + rewrite get_app_r by lia. unfold get. rewrite !nth_lookup, lookup_drop. do 2 f_equal. lia.
Qed.

Lemma sub_get off n (b : list Z) i : (i < n)%nat -> (sub_list off n b).[i] = b.[off + i].
Proof. intros Hi. unfold sub_list, get. rewrite !nth_lookup, lookup_take_lt, lookup_drop by done. done. Qed.

(** The bytes still to come are those of the remaining fragments. *)
Record partial (t s : Z) (b : list Z) (rest : list hs_frag) (r : dtls_reassembly_t) : Prop := {
  pa_type : r_type r = t;
  pa_ok : entry_ok r;
  pa_total : r_total_length r = Z.of_nat (length b);
  pa_recv : r_bytes_received r = Z.of_nat (length b) - sum_len rest;
  pa_body : forall i, (i < length b)%nat -> Exists (fun f => covers f i) rest \/ (r_body r).[i] = b.[i] }.

Lemma partial_new t s b fs : b <> [] -> Z.of_nat (length b) <= DTLS_MAX_HS_MSG_LEN -> sum_len fs = Z.of_nat (length b) ->
  (forall i, (i < length b)%nat -> Exists (fun f => covers f i) fs) ->
  partial t s b fs (new_reassembly op_malloc s t (Z.of_nat (length b))).
Proof.
  intros Hb Hl Hsum Hcov. assert (entry_ok (new_reassembly op_malloc s t (Z.of_nat (length b)))) as Hok
    by (apply new_reassembly_ok; [done | lia]).
  split; [done | done | done | | by auto]. cbn [new_reassembly r_bytes_received]. lia.
Qed.

Lemma partial_step t s b f rest r : frag_of t s b f -> partial t s b (f :: rest) r -> sum_len (f :: rest) <= Z.of_nat (length b) ->
  Forall (frag_of t s b) rest -> Z.of_nat (length b) <= DTLS_MAX_HS_MSG_LEN ->
  let '(complete, r') := dtls_reassembly_add_fragment r (f_off f) (f_len f) (f_data f) in
  if decide (rest = []) then complete = true /\ r_type r' = t /\ take (Z.to_nat (r_total_length r')) (r_body r') = b
  else complete = false /\ partial t s b rest r'.
Proof.
  intros Hf [Ht Hok Hn Hrecv Hbody] Hsum Hrest Hlb. pose proof (add_fragment_ok r f Hok (frag_wire t s b f Hf Hlb)) as Ha.
  destruct (dtls_reassembly_add_fragment _ _ _ _) as [complete r']. destruct Ha as (Hn' & Ht' & Hl' & Hc' & Hcase).
  destruct Hf as [_ _ _ Ho He Hlen Hdata]. rewrite Hn in Hcase. rewrite decide_True in Hcase by done.
  destruct Hcase as (Hb' & Hr' & Hcomp). destruct Hok as [Ho1 Ho2 Ho3 Ho4].
  assert (forall i, (i < length b)%nat -> Exists (fun f => covers f i) rest \/ (r_body r').[i] = b.[i]) as Hbody'.
  { intros i Hi. rewrite Hb', splice_get by (unfold f_len in *; lia).
    destruct (decide _) as [Hd | Hd].
    - right. rewrite Hdata, sub_get by lia. f_equal. lia.
    - destruct (Hbody i Hi) as [Hex | Heq]; [| by right]. apply Exists_cons in Hex as [Hcov | Hex]; [| by left].
      exfalso. unfold covers, f_len in Hcov. lia. }
  cbn [sum_len fold_right] in *. fold (sum_len rest) in *.
  assert (rest <> [] -> 0 < sum_len rest) as Hpos.
  { destruct rest as [| g rest]; [done |]. intros _. apply Forall_cons in Hrest as [[] Hrest].
    cbn [sum_len fold_right]. fold (sum_len rest).
    assert (0 <= sum_len rest) by (clear -Hrest; induction Hrest as [| x l []]; cbn [sum_len fold_right]; [lia |]; fold (sum_len l); lia). lia. }
  destruct (decide (rest = [])) as [-> | Hne].
  - cbn [sum_len fold_right] in *. split; [rewrite Hcomp; apply Z.leb_le; lia |]. split; [congruence |]. rewrite Hn', Hn, Nat2Z.id.
    assert (length (r_body r') = length b) by (rewrite Hl'; lia). rewrite take_ge by lia. apply list_eq_get; [done |].
    intros i Hi. destruct (Hbody' i ltac:(lia)) as [Hex%Exists_nil | ?]; done.
  - specialize (Hpos Hne). assert (complete = false) as -> by (rewrite Hcomp; apply Z.leb_gt; lia). split; [done |].
    split; [congruence | | congruence | lia | done].
    split; rewrite ?Hn', ?Hl', ?Hc', ?Hr'; (done || lia).
Qed.

Lemma entry_run_delivers t s b fs : forall o, fs <> [] -> Forall (frag_of t s b) fs -> b <> [] ->
  Z.of_nat (length b) <= DTLS_MAX_HS_MSG_LEN -> sum_len fs <= Z.of_nat (length b) ->
  partial t s b fs (default (new_reassembly op_malloc s t (Z.of_nat (length b))) o) ->
  entry_run o fs = (replicate (length fs - 1) HsWantRead ++ [HsDrive t b], None).
Proof.
  induction fs as [| f fs IH]; intros o Hne Hfs Hb Hl Hsum Hp; [done |]. apply Forall_cons in Hfs as [Hf Hfs].
  cbn [entry_run]. pose proof (partial_step t s b f fs _ Hf Hp Hsum Hfs Hl) as Hstep. pose proof Hf as [Hft Hfs' Hftot _ _ Hflen _].
  assert (entry_step op_malloc o f =
    (let '(complete, r) := dtls_reassembly_add_fragment (default (new_reassembly op_malloc s t (Z.of_nat (length b))) o) (f_off f) (f_len f) (f_data f) in
     if negb complete then (HsWantRead, Some r) else (HsDrive (r_type r) (take (Z.to_nat (r_total_length r)) (r_body r)), None))) as ->.
  { unfold entry_step. destruct o as [r |]; [done |]. cbn [default]. rewrite Hft, Hfs', Hftot.
    by rewrite (proj2 (Z.ltb_ge _ _)) by done. }
  destruct (dtls_reassembly_add_fragment _ _ _ _) as [complete r']. destruct (decide (fs = [])) as [-> | Hne'].
  - destruct Hstep as (-> & -> & ->). done.
  - destruct Hstep as [-> Hp']. cbn [negb]. cbn [sum_len fold_right] in Hsum. fold (sum_len fs) in Hsum.
    rewrite (IH (Some r')) by (done || lia). cbn [length]. destruct fs as [| g fs]; [done |].
    replace (S (length (g :: fs)) - 1)%nat with (S (length (g :: fs) - 1)) by (cbn [length]; lia). done.
Qed.
End Delivery.

(** Consecutive pieces of a message as fragments, from offset [off] on. *)
Fixpoint cut (t s total off : Z) (pieces : list (list Z)) : list hs_frag :=
  match pieces with
  | [] => []
  | p :: pieces => mk_frag t total s off p :: cut t s total (off + Z.of_nat (length p)) pieces
  end.

Lemma cut_frags t s b pieces : forall pre, b = pre ++ concat pieces -> Forall (fun p => p <> []) pieces ->
  Forall (frag_of t s b) (cut t s (Z.of_nat (length b)) (Z.of_nat (length pre)) pieces) /\
  sum_len (cut t s (Z.of_nat (length b)) (Z.of_nat (length pre)) pieces) = Z.of_nat (length (concat pieces)) /\
  forall i, (length pre <= i < length b)%nat ->
    Exists (fun f => covers f i) (cut t s (Z.of_nat (length b)) (Z.of_nat (length pre)) pieces).
Proof.
  induction pieces as [| p pieces IH]; intros pre Hb Hne.
  - split; [constructor | split; [done |]]. intros i Hi. rewrite Hb, length_app in Hi. cbn in Hi. lia.
  - apply Forall_cons in Hne as [Hp Hne]. cbn [concat] in Hb. cbn [cut sum_len fold_right concat].
    specialize (IH (pre ++ p) ltac:(by rewrite <- app_assoc) Hne). rewrite length_app, Nat2Z.inj_add in IH.
    destruct IH as (H1 & H2 & H3). fold (sum_len (cut t s (Z.of_nat (length b)) (Z.of_nat (length pre) + Z.of_nat (length p)) pieces)).
    assert (0 < length p)%nat by (destruct p; [done | cbn; lia]).
    assert (length b = length pre + (length p + length (concat pieces)))%nat as Hl by (by rewrite Hb, !length_app).
    split; [| split].
    + apply Forall_cons. split; [| exact H1]. split; unfold f_len; cbn [f_type f_seq f_total f_off f_data]; try lia.
      rewrite Nat2Z.id. unfold sub_list. rewrite Hb, drop_app_length, take_app_length. done.
    + rewrite H2. unfold f_len. cbn [f_data]. rewrite length_app. lia.
    + intros i Hi. apply Exists_cons. destruct (decide (i < length pre + length p)%nat); [left | right; apply H3; lia].
      unfold covers, f_len. cbn [f_off f_data]. lia.
Qed.

Lemma sum_len_perm fs gs : fs ≡ₚ gs -> sum_len fs = sum_len gs.
Proof. induction 1; cbn [sum_len fold_right] in *; unfold sum_len in *; lia. Qed.

(** C31: the non-empty pieces of a message, delivered as fragments in any order and
    interleaved with any other handshake fragments whatever, make the receiver
    wait until the last of them, on which the handshake engine gets exactly the
    message. *)
Theorem dtls_fragments_any_order op_malloc q t s pieces fs :
  malloc_ok op_malloc -> seqs_unique q -> view s q = None ->
  pieces <> [] -> Forall (fun p => p <> []) pieces -> Z.of_nat (length (concat pieces)) <= DTLS_MAX_HS_MSG_LEN ->
  filter (fun f => f_seq f = s) fs ≡ₚ cut t s (Z.of_nat (length (concat pieces))) 0 pieces ->
  let '(acts, q') := reassemble_run op_malloc q fs in
  actions_of s fs acts = replicate (length pieces - 1) HsWantRead ++ [HsDrive t (concat pieces)] /\ view s q' = None.
Proof.
  intros Hm Hu Hv Hne Hps Hl Hperm. pose proof (run_view op_malloc s fs q Hu) as H.
  destruct (reassemble_run op_malloc q fs) as [acts q']. rewrite Hv in H.
  destruct (cut_frags t s (concat pieces) pieces [] eq_refl Hps) as (H1 & H2 & H3).
  change (Z.of_nat (length (@nil Z))) with 0 in *. assert (concat pieces <> []) as Hb.
  { destruct pieces as [| [| x p] pieces]; [done | by apply Forall_cons in Hps as [? _] | done]. }
  set (gs := filter _ fs) in *. assert (length gs = length pieces) as Hlen.
  { rewrite (Permutation_length Hperm). generalize 0, (Z.of_nat (length (concat pieces))). clear.
    induction pieces as [| p ps IH]; intros o n; [done |]. cbn [cut length]. by rewrite IH. }
  rewrite (entry_run_delivers op_malloc t s (concat pieces) gs None) in H; try done.
  - injection H as <- <-. by rewrite Hlen.
  - intros E. rewrite E in Hlen. by destruct pieces.
  - by rewrite Hperm.
  - rewrite (sum_len_perm _ _ Hperm). lia.
  - cbn [default]. apply partial_new; try done; [rewrite (sum_len_perm _ _ Hperm); lia |].
    intros i Hi. rewrite Hperm. apply H3. cbn [length]. lia.
Qed.

Lemma dtls_fragments_any_order_witness :
  let fs := [mk_frag 11 3 8 1 [7]; mk_frag 2 5 1 3 [4; 5]; mk_frag 11 5 9 2 [30; 40; 50]; mk_frag 11 5 9 0 [10; 20]] in
  let '(acts, q') := reassemble_run (fun n => replicate n 170) [] fs in
  actions_of 9 fs acts = [HsWantRead; HsDrive 11 [10; 20; 30; 40; 50]] /\ view 9 q' = None.
Proof.
  apply (dtls_fragments_any_order (fun n => replicate n 170) [] 11 9 [[10; 20]; [30; 40; 50]]
    [mk_frag 11 3 8 1 [7]; mk_frag 2 5 1 3 [4; 5]; mk_frag 11 5 9 2 [30; 40; 50]; mk_frag 11 5 9 0 [10; 20]]).
  - intros n. apply length_replicate.
  - constructor.
  - reflexivity.
  - discriminate.
  - repeat constructor; discriminate.
  - vm_compute; discriminate.
  - change (filter _ _) with [mk_frag 11 5 9 2 [30; 40; 50]; mk_frag 11 5 9 0 [10; 20]]. cbn. apply Permutation_swap.
Defined.

(** C32: whatever fragments arrive, the queue keeps one entry per message, every copy
    stays within the buffers allocated for the entry, and no message passed on
    is longer than the limit. *)
Theorem dtls_reassembly_invariant op_malloc q fs :
  malloc_ok op_malloc -> queue_ok q -> Forall wire_frag fs ->
  let '(acts, q') := reassemble_run op_malloc q fs in
  queue_ok q' /\ Forall (fun a => match a with HsDrive _ b => Z.of_nat (length b) <= DTLS_MAX_HS_MSG_LEN | _ => True end) acts.
Proof.
  intros Hm Hq Hfs. revert q Hq. induction Hfs as [| f fs Hf Hfs IH]; intros q Hq; [by split |]. cbn [reassemble_run].
  pose proof (reassemble_ok op_malloc q f Hm Hq Hf) as H. destruct (reassemble op_malloc q f) as [a q1]. destruct H as [Hq1 Ha].
  specialize (IH q1 Hq1). destruct (reassemble_run op_malloc q1 fs) as [acts q2]. destruct IH as [Hq2 Hacts].
  split; [done |]. apply Forall_cons. split; [| done]. destruct a as [| | ty b]; try done. by eapply Ha.
Qed.

Lemma dtls_reassembly_invariant_witness :
  let '(acts, q') := reassemble_run (fun n => replicate n 0) [] [mk_frag 1 70000 0 0 [1]; mk_frag 1 4 0 3 [1; 2]; mk_frag 1 9 1 8 [5]] in
  queue_ok q' /\ Forall (fun a => match a with HsDrive _ b => Z.of_nat (length b) <= DTLS_MAX_HS_MSG_LEN | _ => True end) acts.
Proof.
  apply (dtls_reassembly_invariant (fun n => replicate n 0) [] [mk_frag 1 70000 0 0 [1]; mk_frag 1 4 0 3 [1; 2]; mk_frag 1 9 1 8 [5]]).
  - intros n. apply length_replicate.
  - split; constructor.
  - repeat constructor; vm_compute; (discriminate || reflexivity).
Defined.

(** A fragment received twice is counted twice: the message is passed on with
    bytes that were never received. *)
Lemma duplicate_fragment_completes op_malloc : malloc_ok op_malloc ->
  let f := mk_frag 11 4 0 0 [1; 2] in
  (reassemble_run op_malloc [] [f; f]).1 = [HsWantRead; HsDrive 11 ([1; 2] ++ drop 2 (op_malloc 4%nat))].
Proof.
  intros Hm. pose proof (Hm 4%nat) as Hl. vm_compute in Hl |- *.
  destruct (op_malloc 4%nat) as [| a [| b [| c [| d [| e l]]]]]; (discriminate || reflexivity).
Qed.
