(* ===== verification/AesSpec.v ===== *)
(** AES: the block cipher of FIPS 197 on lists of bytes, and the instructions of
    the CPU that compute its rounds.

    A 128-bit register is the list of its sixteen bytes, the lowest first.  The
    instructions are not code of the repository: they are the operations of the
    class [AesInstr], whose documented behaviour [AesInstrSpec] states. *)
From S2P Require Import Prelude.
#[local] Open Scope Z_scope.

(* ------------------------------------------------------------------ *)
(** * GF(2^8) and the S-box, FIPS 197 sections 4 and 5.1.1 *)

Definition xtime (x : Z) : Z := Z.lxor (u8 (Z.shiftl x 1)) (if Z.testbit x 7 then 0x1b else 0).

(** Multiplication, by the bits of the second factor. *)
Fixpoint gmul_bits (n : nat) (x y : Z) : Z :=
  match n with
  | O => 0
  | S n => Z.lxor (if Z.odd y then x else 0) (gmul_bits n (xtime x) (Z.shiftr y 1))
  end.

Definition gmul (x y : Z) : Z := gmul_bits 8 x y.

(** The inverse, x^254 (and 0 for 0). *)
Definition ginv (x : Z) : Z :=
  let x2 := gmul x x in let x4 := gmul x2 x2 in let x8 := gmul x4 x4 in let x16 := gmul x8 x8 in
  let x32 := gmul x16 x16 in let x64 := gmul x32 x32 in let x128 := gmul x64 x64 in
  gmul x128 (gmul x64 (gmul x32 (gmul x16 (gmul x8 (gmul x4 x2))))).

Definition rotl8 (x n : Z) : Z := Z.lor (u8 (Z.shiftl x n)) (Z.shiftr x (8 - n)).

Definition SubByte (x : Z) : Z :=
  let b := ginv x in
  Z.lxor (Z.lxor (Z.lxor (Z.lxor (Z.lxor b (rotl8 b 1)) (rotl8 b 2)) (rotl8 b 3)) (rotl8 b 4)) 0x63.

(** The same, tabulated. *)
Definition sbox_table : list Z := Eval vm_compute in map (fun i => SubByte (Z.of_nat i)) (seq 0 256).
Definition Sub (x : Z) : Z := sbox_table.[Z.to_nat x].

(* ------------------------------------------------------------------ *)
(** * The cipher, FIPS 197 sections 5.1 and 5.2 *)

Definition bxor (a b : list Z) : list Z := zip_with Z.lxor a b.

Definition SubBytes (s : list Z) : list Z := map Sub s.

(** Byte [r + 4 c] of the state is row [r], column [c]. *)
Definition ShiftRows (s : list Z) : list Z :=
  map (get s) [0; 5; 10; 15; 4; 9; 14; 3; 8; 13; 2; 7; 12; 1; 6; 11]%nat.

Definition MixColumn (a b c d : Z) : list Z :=
  let m x y z w := Z.lxor (Z.lxor (Z.lxor (Z.lxor (xtime x) (xtime y)) y) z) w in
  [m a b c d; m b c d a; m c d a b; m d a b c].

Definition MixColumns (s : list Z) : list Z :=
  flat_map (fun c => MixColumn s.[4 * c] s.[4 * c + 1] s.[4 * c + 2] s.[4 * c + 3]) (seq 0 4).

Definition aes_round (k s : list Z) : list Z := bxor (MixColumns (ShiftRows (SubBytes s))) k.
Definition aes_last_round (k s : list Z) : list Z := bxor (ShiftRows (SubBytes s)) k.

Definition RotWord (w : list Z) : list Z := [w.[1]; w.[2]; w.[3]; w.[0]].
Definition SubWord (w : list Z) : list Z := map Sub w.

(** [x^(i-1)] in GF(2^8). *)
Fixpoint Rcon (i : nat) : Z :=
  match i with O => 0x8d | S O => 1 | S i => xtime (Rcon i) end.

Definition word (ws : list (list Z)) (i : nat) : list Z := nth i ws [].

(** The word [i] of the expanded key, from the words before it. *)
Definition next_word (nk i : nat) (ws : list (list Z)) : list Z :=
  let temp := word ws (i - 1) in
  let temp :=
    if (i mod nk =? 0)%nat then bxor (SubWord (RotWord temp)) [Rcon (i / nk); 0; 0; 0]
    else if (6 <? nk)%nat && (i mod nk =? 4)%nat then SubWord temp
    else temp in
  bxor (word ws (i - nk)) temp.

Definition key_words (nk : nat) (key : list Z) : list (list Z) :=
  map (fun i => sub_list (4 * i) 4 key) (seq 0 nk).

Definition KeyExpansion (nk nr : nat) (key : list Z) : list (list Z) :=
  for_range nk (4 * (nr + 1) - nk) (fun i ws => ws ++ [next_word nk i ws]) (key_words nk key).

Definition round_key (ws : list (list Z)) (r : nat) : list Z :=
  word ws (4 * r) ++ word ws (4 * r + 1) ++ word ws (4 * r + 2) ++ word ws (4 * r + 3).

(** The cipher from the round keys. *)
Definition Cipher (nr : nat) (k : nat -> list Z) (input : list Z) : list Z :=
  aes_last_round (k nr) (for_range 1 (nr - 1) (fun r s => aes_round (k r) s) (bxor input (k 0%nat))).

(** AES-128, AES-192 and AES-256 by the length of the key. *)
Definition AES (key input : list Z) : list Z :=
  let nk := (length key / 4)%nat in
  Cipher (nk + 6) (round_key (KeyExpansion nk (nk + 6) key)) input.

(** The example vectors of FIPS 197 appendix C. *)
Definition fips_input : list Z := map (fun i => Z.of_nat (17 * i)) (seq 0 16).

Example aes128_vector : AES (map Z.of_nat (seq 0 16)) fips_input =
  [0x69; 0xc4; 0xe0; 0xd8; 0x6a; 0x7b; 0x04; 0x30; 0xd8; 0xcd; 0xb7; 0x80; 0x70; 0xb4; 0xc5; 0x5a].
Proof. vm_compute. reflexivity. Qed.

Example aes256_vector : AES (map Z.of_nat (seq 0 32)) fips_input =
  [0x8e; 0xa2; 0xb7; 0xca; 0x51; 0x67; 0x45; 0xbf; 0xea; 0xfc; 0x49; 0x90; 0x4b; 0x49; 0x60; 0x89].
Proof. vm_compute. reflexivity. Qed.

(* ------------------------------------------------------------------ *)
(** * Instructions *)

Definition dword (a : list Z) (i : nat) : list Z := sub_list (4 * i) 4 a.

(** AESKEYGENASSIST on the double words of the register. *)
Definition keygenassist (a : list Z) (imm : Z) : list Z :=
  let x1 := SubWord (dword a 1) in
  let x3 := SubWord (dword a 3) in
  x1 ++ bxor (RotWord x1) [imm; 0; 0; 0] ++ x3 ++ bxor (RotWord x3) [imm; 0; 0; 0].

Class AesInstr := {
  mm_aesenc_si128 : list Z -> list Z -> list Z;
  mm_aesenclast_si128 : list Z -> list Z -> list Z;
  mm_aeskeygenassist_si128 : list Z -> Z -> list Z }.

Class AesInstrSpec (I : AesInstr) : Prop := {
  aesenc_spec a k : mm_aesenc_si128 a k = aes_round k a;
  aesenclast_spec a k : mm_aesenclast_si128 a k = aes_last_round k a;
  keygenassist_spec a imm : mm_aeskeygenassist_si128 a imm = keygenassist a imm }.

#[export] Instance aes_instr_model : AesInstr := {|
  mm_aesenc_si128 a k := aes_round k a;
  mm_aesenclast_si128 a k := aes_last_round k a;
  mm_aeskeygenassist_si128 := keygenassist |}.

#[export] Instance aes_instr_model_spec : AesInstrSpec aes_instr_model.
Proof. by split. Qed.

(** [_mm_xor_si128], [_mm_slli_si128(a, n)], [_mm_shuffle_epi32(a, imm)] with one
    double word repeated. *)
Definition mm_xor_si128 (a b : list Z) : list Z := bxor a b.
Definition mm_slli_si128 (a : list Z) (n : nat) : list Z := replicate n 0 ++ take (16 - n) a.
Definition mm_shuffle_all (a : list Z) (i : nat) : list Z := dword a i ++ dword a i ++ dword a i ++ dword a i.

(* ------------------------------------------------------------------ *)
(** * Lemmas *)

Lemma bxor_length a b : length a = length b -> length (bxor a b) = length a.
Proof. intros H. unfold bxor. rewrite length_zip_with. lia. Qed.

Lemma bxor_get a b i : length a = length b -> (bxor a b).[i] = Z.lxor a.[i] b.[i].
Proof.
  revert a b. induction i as [| i IH]; intros [| x a] [| y b] H; try discriminate; try done.
  apply IH. cbn in H. lia.
Qed.

Lemma bxor_bytes a b : bytes a -> bytes b -> bytes (bxor a b).
Proof.
  intros Ha. revert b. induction Ha as [| x a Hx Ha IH]; intros b Hb; [constructor |].
  destruct Hb as [| y b Hy Hb]; [constructor |]. constructor; [by apply lxor_byte | by apply IH].
Qed.

(** The table is the S-box on bytes. *)
Lemma Sub_spec x : byte_ok x -> Sub x = SubByte x.
Proof.
  intros Hx. apply Z.eqb_eq. revert x Hx. apply byte_forall. vm_compute. reflexivity.
Qed.

Lemma Sub_byte x : byte_ok (Sub x).
Proof. unfold Sub. apply bytes_get. solve_bytes. Qed.

Lemma SubBytes_bytes s : bytes (SubBytes s).
Proof. apply Forall_map, Forall_forall. intros x _. apply Sub_byte. Qed.

Lemma xtime_byte x : byte_ok (xtime x).
Proof. unfold xtime. apply lxor_byte; [apply u8_ok |]. unfold byte_ok. destruct (Z.testbit x 7); lia. Qed.

Lemma ShiftRows_length s : length (ShiftRows s) = 16%nat.
Proof. done. Qed.

Lemma MixColumns_length s : length (MixColumns s) = 16%nat.
Proof. done. Qed.
