(* ===== verification/AesNi.v ===== *)
(** AES with the AES-NI instructions: the key expansion and the block function
    of src/crypto/aes_ni.c, against FIPS 197.

    A register is the list of its sixteen bytes (AesSpec). *)
From Stdlib Require Import Btauto.
From S2P Require Import Prelude AesSpec.
#[local] Open Scope Z_scope.

(** The fields of [aesni_gcm_ctx_t] that the block cipher uses. *)
Record aesni_ctx := mk_aesni { ni_rk : list (list Z); ni_nr : Z }.

(** The layout of [aesni_gcm_ctx_t]: [__m128i rk[15], H, H2..H4, H5..H8; int nr]. *)
Definition AESNI_NR_OFFSET : Z := 16 * (15 + 1 + 3 + 4).
Definition AESNI_CTX_SIZE : Z := AESNI_NR_OFFSET + 4.

Section Aesni.
Context `{AesInstr}.

(** [k ^= k << 32] three times, as every key expansion step does. *)
Definition fold_key (k : list Z) : list Z :=
  let k := mm_xor_si128 k (mm_slli_si128 k 4) in
  let k := mm_xor_si128 k (mm_slli_si128 k 4) in
  mm_xor_si128 k (mm_slli_si128 k 4).

Definition aes_keygen_assist (key : list Z) (rcon : Z) : list Z :=
  let t := mm_aeskeygenassist_si128 key rcon in
  let t := mm_shuffle_all t 3 in
  mm_xor_si128 (fold_key key) t.

Definition aesni_expand_key_128 (key : list Z) : aesni_ctx :=
  let rk0 := take 16 key in
  let rk1 := aes_keygen_assist rk0 0x01 in
  let rk2 := aes_keygen_assist rk1 0x02 in
  let rk3 := aes_keygen_assist rk2 0x04 in
  let rk4 := aes_keygen_assist rk3 0x08 in
  let rk5 := aes_keygen_assist rk4 0x10 in
  let rk6 := aes_keygen_assist rk5 0x20 in
  let rk7 := aes_keygen_assist rk6 0x40 in
  let rk8 := aes_keygen_assist rk7 0x80 in
  let rk9 := aes_keygen_assist rk8 0x1B in
  let rk10 := aes_keygen_assist rk9 0x36 in
  mk_aesni [rk0; rk1; rk2; rk3; rk4; rk5; rk6; rk7; rk8; rk9; rk10] 10.

Definition aes256_keygen_odd (prev_even prev_odd : list Z) : list Z :=
  let t := mm_aeskeygenassist_si128 prev_odd 0x00 in
  let t := mm_shuffle_all t 2 in
  mm_xor_si128 (fold_key prev_even) t.

(** The even round keys: the seven sequences written out in the C function. *)
Definition aes256_keygen_even (prev_even prev_odd : list Z) (rcon : Z) : list Z :=
  let t := mm_aeskeygenassist_si128 prev_odd rcon in
  let t := mm_shuffle_all t 3 in
  let k := fold_key prev_even in
  mm_xor_si128 k t.

Definition aesni_expand_key_256 (key : list Z) : aesni_ctx :=
  let rk0 := take 16 key in
  let rk1 := take 16 (drop 16 key) in
  let rk2 := aes256_keygen_even rk0 rk1 0x01 in
  let rk3 := aes256_keygen_odd rk1 rk2 in
  let rk4 := aes256_keygen_even rk2 rk3 0x02 in
  let rk5 := aes256_keygen_odd rk3 rk4 in
  let rk6 := aes256_keygen_even rk4 rk5 0x04 in
  let rk7 := aes256_keygen_odd rk5 rk6 in
  let rk8 := aes256_keygen_even rk6 rk7 0x08 in
  let rk9 := aes256_keygen_odd rk7 rk8 in
  let rk10 := aes256_keygen_even rk8 rk9 0x10 in
  let rk11 := aes256_keygen_odd rk9 rk10 in
  let rk12 := aes256_keygen_even rk10 rk11 0x20 in
  let rk13 := aes256_keygen_odd rk11 rk12 in
  let rk14 := aes256_keygen_even rk12 rk13 0x40 in
  mk_aesni [rk0; rk1; rk2; rk3; rk4; rk5; rk6; rk7; rk8; rk9; rk10; rk11; rk12; rk13; rk14] 14.

(** [ctx->rk[i]] *)
Definition rk_at (ctx : aesni_ctx) (i : nat) : list Z := nth i (ni_rk ctx) [].

Definition aesni_encrypt_block (ctx : aesni_ctx) (block : list Z) : list Z :=
  let block := mm_xor_si128 block (rk_at ctx 0) in
  let nr := Z.to_nat (ni_nr ctx) in
  let block := for_range 1 (nr - 1) (fun i block => mm_aesenc_si128 block (rk_at ctx i)) block in
  mm_aesenclast_si128 block (rk_at ctx nr).

(** [ctx_size] is the size of the object [ctx_ptr] points to: [None] when the
    function writes past its end. *)
Definition opssl_aesni_set_encrypt_key (ctx_size : Z) (key : list Z) (bits : Z) : option (Z * option aesni_ctx) :=
  if bits =? 128 then
    if ctx_size <? AESNI_CTX_SIZE then None else Some (1, Some (aesni_expand_key_128 key))
  else if bits =? 256 then
    if ctx_size <? AESNI_CTX_SIZE then None else Some (1, Some (aesni_expand_key_256 key))
  else Some (0, None).

Definition opssl_aesni_encrypt_block (ctx : aesni_ctx) (input : list Z) : list Z :=
  aesni_encrypt_block ctx (take 16 input).
End Aesni.

(* ------------------------------------------------------------------ *)
(** * The key expansion is FIPS 197's *)

(** One step on four words: the new words and the xor chain of FIPS 197. *)
Definition chain (w0 w1 w2 w3 t : list Z) : list (list Z) :=
  let v0 := bxor w0 t in let v1 := bxor w1 v0 in let v2 := bxor w2 v1 in [v0; v1; v2; bxor w3 v2].

Definition word_ok (w : list Z) : Prop := length w = 4%nat.

Ltac split_words :=
  repeat match goal with
  | H : word_ok ?w |- _ =>
    destruct w as [| ? [| ? [| ? [| ? [| ? ?]]]]]; try discriminate H; clear H
  end.

Lemma xor_chain a b c d t : word_ok a -> word_ok b -> word_ok c -> word_ok d -> word_ok t ->
  bxor (fold_key (a ++ b ++ c ++ d)) (t ++ t ++ t ++ t) = concat (chain a b c d t).
Proof.
  intros Ha Hb Hc Hd Ht. split_words. unfold fold_key, mm_xor_si128, mm_slli_si128, chain, bxor.
  cbn [app replicate take zip_with concat Nat.sub].
  assert (forall x y (l m : list Z), x = y -> l = m -> x :: l = y :: m) as cons_eq by congruence.
  repeat apply cons_eq; try done; apply Z.bits_inj'; intros i Hi; rewrite ?Z.lxor_spec, ?Z.bits_0; btauto.
Qed.

Lemma RotWord_word w : word_ok (RotWord w).
Proof. done. Qed.

Lemma dword_word a i : length a = 16%nat -> (i < 4)%nat -> word_ok (dword a i).
Proof. intros Ha Hi. unfold word_ok, dword. rewrite sub_list_length; lia. Qed.

Lemma SubWord_word w : word_ok w -> word_ok (SubWord w).
Proof. intros Hw. unfold word_ok, SubWord. by rewrite length_map. Qed.

Lemma bxor_word a b : word_ok a -> word_ok b -> word_ok (bxor a b).
Proof. intros Ha Hb. unfold word_ok. rewrite bxor_length; congruence. Qed.

(** What FIPS 197 applies to the word before the word [i]. *)
Definition transform (nk i : nat) (temp : list Z) : list Z :=
  if (i mod nk =? 0)%nat then bxor (SubWord (RotWord temp)) [Rcon (i / nk); 0; 0; 0]
  else if (6 <? nk)%nat && (i mod nk =? 4)%nat then SubWord temp
  else temp.

Lemma word_app_l ws us i : (i < length ws)%nat -> word (ws ++ us) i = word ws i.
Proof. apply app_nth1. Qed.

Lemma word_app_r ws us i k : (i = length ws + k)%nat -> word (ws ++ us) i = word us k.
Proof. intros ->. unfold word. rewrite app_nth2 by lia. f_equal. lia. Qed.

(** Four words of the expanded key at a time. *)
Lemma next_four nk i ws : (nk = 4 \/ nk = 8)%nat -> (i mod 4 = 0)%nat -> (nk <= i)%nat -> length ws = i ->
  for_range i 4 (fun i ws => ws ++ [next_word nk i ws]) ws =
    ws ++ chain (word ws (i - nk)) (word ws (i - nk + 1)) (word ws (i - nk + 2)) (word ws (i - nk + 3))
            (transform nk i (word ws (i - 1))).
Proof.
  intros Hnk Hi Hle Hl. rewrite !for_range_S, for_range_0.
  assert (forall us k, (1 <= k < 4)%nat -> length us = k ->
    next_word nk (i + k) (ws ++ us) = bxor (word ws (i - nk + k)) (word us (k - 1))) as Hrest.
  { intros us k Hk Hus. unfold next_word. rewrite (word_app_l ws us (i + k - nk)) by lia.
    rewrite (word_app_r ws us (i + k - 1) (k - 1)) by lia. replace (i + k - nk)%nat with (i - nk + k)%nat by lia.
    assert ((i + k) mod nk <> 0 /\ ((i + k) mod nk <> 4))%nat as [H1 H2].
    { apply (f_equal Z.of_nat) in Hi. rewrite Nat2Z.inj_mod in Hi.
      destruct Hnk as [-> | ->]; split; intros Hc; apply (f_equal Z.of_nat) in Hc; rewrite Nat2Z.inj_mod in Hc;
        Z.div_mod_to_equations; lia. }
    rewrite (proj2 (Nat.eqb_neq _ _)) by done. rewrite (proj2 (Nat.eqb_neq _ 4)) by done. by rewrite andb_false_r. }
  assert (next_word nk i ws = bxor (word ws (i - nk)) (transform nk i (word ws (i - 1)))) as -> by done.
  set (v0 := bxor _ _). replace (S i) with (i + 1)%nat by lia. rewrite (Hrest [v0] 1%nat) by (done || lia). cbn [word nth Nat.sub].
  set (v1 := bxor _ v0). rewrite <- (app_assoc ws [v0] [v1]). cbn [app]. replace (S (i + 1)) with (i + 2)%nat by lia.
  rewrite (Hrest [v0; v1] 2%nat) by (done || lia). cbn [word nth Nat.sub]. set (v2 := bxor _ v1). rewrite <- (app_assoc ws [v0; v1] [v2]). cbn [app].
  replace (S (i + 2)) with (i + 3)%nat by lia. rewrite (Hrest [v0; v1; v2] 3%nat) by (done || lia).
  rewrite <- app_assoc. done.
Qed.

Lemma transform_word nk i t : word_ok t -> word_ok (transform nk i t).
Proof.
  intros Ht. unfold transform. repeat case_match; [by apply bxor_word | unfold word_ok, SubWord; by rewrite length_map | done].
Qed.

Lemma chain_words a b c d t : word_ok a -> word_ok b -> word_ok c -> word_ok d -> word_ok t -> Forall word_ok (chain a b c d t).
Proof. intros. unfold chain. repeat constructor; repeat apply bxor_word; done. Qed.

Lemma word_word ws i : Forall word_ok ws -> (i < length ws)%nat -> word_ok (word ws i).
Proof. intros H Hi. unfold word. rewrite nth_lookup. destruct (lookup_lt_is_Some_2 ws i Hi) as [x Hx]. rewrite Hx. by eapply Forall_lookup_1. Qed.

(** The registers [K 0], [K 1], ... hold the round keys of [ws]. *)
Record keys_of (nk : nat) (K : nat -> list Z) (n : nat) (ws : list (list Z)) : Prop := {
  ko_length : length ws = (4 * n)%nat;
  ko_words : Forall word_ok ws;
  ko_keys : forall r, (r < n)%nat -> round_key ws r = K r }.

(** How a key expansion with the instructions obtains each register. *)
Definition key_step (nk : nat) (K : nat -> list Z) (n : nat) : Prop :=
  forall r, (nk / 4 <= r < n)%nat -> length (K (r - 1)%nat) = 16%nat ->
    exists t, t = transform nk (4 * r) (dword (K (r - 1)%nat) 3) /\
      K r = mm_xor_si128 (fold_key (K (r - nk / 4)%nat)) (t ++ t ++ t ++ t).

Lemma round_key_split ws r : Forall word_ok ws -> (4 * r + 3 < length ws)%nat ->
  length (round_key ws r) = 16%nat /\ dword (round_key ws r) 3 = word ws (4 * r + 3).
Proof.
  intros Hw Hl. unfold round_key.
  pose proof (word_word ws (4 * r) Hw ltac:(lia)). pose proof (word_word ws (4 * r + 1) Hw ltac:(lia)).
  pose proof (word_word ws (4 * r + 2) Hw ltac:(lia)). pose proof (word_word ws (4 * r + 3) Hw ltac:(lia)).
  set (a := word ws (4 * r)) in *. set (b := word ws (4 * r + 1)) in *. set (c := word ws (4 * r + 2)) in *.
  set (d := word ws (4 * r + 3)) in *. clearbody a b c d. split_words. done.
Qed.

Lemma round_key_app_l ws us r : (4 * r + 3 < length ws)%nat -> round_key (ws ++ us) r = round_key ws r.
Proof. intros Hr. unfold round_key. by rewrite !word_app_l by lia. Qed.

Lemma keys_step nk K n N ws : (nk = 4 \/ nk = 8)%nat -> (nk / 4 <= n < N)%nat -> key_step nk K N -> keys_of nk K n ws ->
  keys_of nk K (S n) (for_range (4 * n) 4 (fun i ws => ws ++ [next_word nk i ws]) ws).
Proof.
  intros Hnk Hn Hstep [Hl Hw Hk]. assert (nk = 4 * (nk / 4))%nat as Hnk4 by (destruct Hnk as [-> | ->]; done).
  assert (1 <= nk / 4)%nat by (destruct Hnk as [-> | ->]; cbn; lia).
  rewrite next_four by (done || lia || (rewrite Nat.mul_comm; by apply Nat.Div0.mod_mul)).
  destruct (round_key_split ws (n - 1) Hw ltac:(lia)) as [Hk16 Hk3].
  rewrite Hk in Hk16, Hk3 by lia. replace (4 * (n - 1) + 3)%nat with (4 * n - 1)%nat in Hk3 by lia.
  destruct (Hstep n ltac:(lia) Hk16) as (t & Ht & HK). rewrite Hk3 in Ht. rewrite <- Ht.
  replace (4 * n - nk)%nat with (4 * (n - nk / 4))%nat by lia. set (m := (n - nk / 4)%nat) in *.
  assert (word_ok t) as Htw by (rewrite Ht; apply transform_word, word_word; [done | lia]).
  pose proof (word_word ws (4 * m) Hw ltac:(lia)) as Wa. pose proof (word_word ws (4 * m + 1) Hw ltac:(lia)) as Wb.
  pose proof (word_word ws (4 * m + 2) Hw ltac:(lia)) as Wc. pose proof (word_word ws (4 * m + 3) Hw ltac:(lia)) as Wd.
  split.
  - rewrite length_app. cbn. lia.
  - apply Forall_app. split; [done | by apply chain_words].
  - intros r Hr. destruct (decide (r < n)%nat); [rewrite round_key_app_l by lia; by apply Hk |].
    assert (r = n) as -> by lia. rewrite HK. unfold mm_xor_si128.
    rewrite <- (Hk m) by lia. unfold round_key at 2. rewrite xor_chain by done. unfold round_key.
    rewrite (word_app_r ws _ (4 * n) 0), (word_app_r ws _ (4 * n + 1) 1), (word_app_r ws _ (4 * n + 2) 2), (word_app_r ws _ (4 * n + 3) 3) by lia.
    cbn [word nth chain concat]. by rewrite app_nil_r.
Qed.

Lemma keys_loop nk K N n ws j : (nk = 4 \/ nk = 8)%nat -> (nk / 4 <= n)%nat -> (n + j <= N)%nat -> key_step nk K N -> keys_of nk K n ws ->
  keys_of nk K (n + j) (for_range (4 * n) (4 * j) (fun i ws => ws ++ [next_word nk i ws]) ws).
Proof.
  intros Hnk Hn Hj Hstep. revert n ws Hn Hj. induction j as [| j IH]; intros n ws Hn Hj Hk; [by rewrite Nat.add_0_r |].
  replace (4 * S j)%nat with (4 + 4 * j)%nat by lia. unfold for_range. rewrite seq_app, fold_left_app.
  replace (4 * n + 4)%nat with (4 * S n)%nat by lia. replace (n + S j)%nat with (S n + j)%nat by lia.
  apply IH; [lia | lia |]. by eapply keys_step; try eassumption; lia.
Qed.

Lemma fold_key_length k : length k = 16%nat -> length (fold_key k) = 16%nat.
Proof.
  intros Hk. unfold fold_key, mm_xor_si128. assert (forall x, length x = 16%nat -> length (bxor x (mm_slli_si128 x 4)) = 16%nat) as H.
  { intros x Hx. rewrite bxor_length; [done |]. unfold mm_slli_si128. rewrite length_app, length_replicate, length_take. lia. }
  by repeat apply H.
Qed.

Section Spec.
Context {I : AesInstr} {IS : AesInstrSpec I}.

Lemma keygen_dword a imm : length a = 16%nat ->
  dword (mm_aeskeygenassist_si128 a imm) 2 = SubWord (dword a 3) /\
  dword (mm_aeskeygenassist_si128 a imm) 3 = bxor (SubWord (RotWord (dword a 3))) [imm; 0; 0; 0].
Proof.
  intros Ha. rewrite keygenassist_spec. unfold keygenassist.
  assert (word_ok (dword a 1) /\ word_ok (dword a 3)) as [H1 H3]
    by (unfold word_ok, dword; rewrite !sub_list_length by lia; done).
  set (x := dword a 1) in *. set (y := dword a 3) in *. clearbody x y. split_words. done.
Qed.

(** Registers that follow from each other as the C functions compute them. *)
Lemma ni_128_step rk0 rk1 rk2 rk3 rk4 rk5 rk6 rk7 rk8 rk9 rk10 :
  rk1 = aes_keygen_assist rk0 0x01 ->
  rk2 = aes_keygen_assist rk1 0x02 ->
  rk3 = aes_keygen_assist rk2 0x04 ->
  rk4 = aes_keygen_assist rk3 0x08 ->
  rk5 = aes_keygen_assist rk4 0x10 ->
  rk6 = aes_keygen_assist rk5 0x20 ->
  rk7 = aes_keygen_assist rk6 0x40 ->
  rk8 = aes_keygen_assist rk7 0x80 ->
  rk9 = aes_keygen_assist rk8 0x1B ->
  rk10 = aes_keygen_assist rk9 0x36 ->
  key_step 4 (fun r => nth r [rk0; rk1; rk2; rk3; rk4; rk5; rk6; rk7; rk8; rk9; rk10] []) 11.
Proof.
  intros H1 H2 H3 H4 H5 H6 H7 H8 H9 H10 r Hr Hl. eexists. split; [reflexivity |].
  destruct (keygen_dword _ (Rcon r) Hl) as [_ E]. clear Hl.
  unfold transform. rewrite (Nat.mul_comm 4 r), Nat.Div0.mod_mul, Nat.div_mul by lia. cbn [Nat.eqb]. rewrite <- E.
  do 11 (destruct r as [| r]; [first [cbn in Hr; lia | assumption] |]). cbn in Hr. lia.
Qed.

Lemma ni_256_step rk0 rk1 rk2 rk3 rk4 rk5 rk6 rk7 rk8 rk9 rk10 rk11 rk12 rk13 rk14 :
  rk2 = aes256_keygen_even rk0 rk1 0x01 ->
  rk3 = aes256_keygen_odd rk1 rk2 ->
  rk4 = aes256_keygen_even rk2 rk3 0x02 ->
  rk5 = aes256_keygen_odd rk3 rk4 ->
  rk6 = aes256_keygen_even rk4 rk5 0x04 ->
  rk7 = aes256_keygen_odd rk5 rk6 ->
  rk8 = aes256_keygen_even rk6 rk7 0x08 ->
  rk9 = aes256_keygen_odd rk7 rk8 ->
  rk10 = aes256_keygen_even rk8 rk9 0x10 ->
  rk11 = aes256_keygen_odd rk9 rk10 ->
  rk12 = aes256_keygen_even rk10 rk11 0x20 ->
  rk13 = aes256_keygen_odd rk11 rk12 ->
  rk14 = aes256_keygen_even rk12 rk13 0x40 ->
  key_step 8 (fun r => nth r [rk0; rk1; rk2; rk3; rk4; rk5; rk6; rk7; rk8; rk9; rk10; rk11; rk12; rk13; rk14] []) 15.
Proof.
  intros H2 H3 H4 H5 H6 H7 H8 H9 H10 H11 H12 H13 H14 r Hr Hl. change (8 / 4)%nat with 2%nat in *.
  pose proof (keygen_dword _ (if Nat.even r then Rcon (r / 2) else 0) Hl) as [E2 E3]. clear Hl.
  do 15 (destruct r as [| r]; [first [lia |
    eexists; split; [exact E3 | assumption] | eexists; split; [exact E2 | assumption]] |]). lia.
Qed.

Lemma key_words_keys key nk : (nk = 4 \/ nk = 8)%nat -> length key = (4 * nk)%nat ->
  keys_of nk (fun r => sub_list (16 * r) 16 key) (nk / 4) (key_words nk key).
Proof.
  intros Hnk Hl. unfold key_words. split.
  - rewrite length_map, length_seq. destruct Hnk as [-> | ->]; done.
  - apply Forall_map, Forall_forall. intros i Hi%list_elem_of_In%in_seq. unfold word_ok. apply sub_list_length. rewrite Hl. lia.
  - intros r Hr. assert (forall j : nat, (j < 4)%nat -> word (map (fun i => sub_list (4 * i) 4 key) (seq 0 nk)) (4 * r + j) = sub_list (16 * r + 4 * j) 4 key) as Hw.
    { intros j Hj. unfold word. rewrite nth_lookup, list_lookup_fmap, lookup_seq_lt by (destruct Hnk; subst nk; cbn in Hr; lia).
      change (sub_list (4 * (0 + (4 * r + j))) 4 key = sub_list (16 * r + 4 * j) 4 key).
      replace (4 * (0 + (4 * r + j)))%nat with (16 * r + 4 * j)%nat by lia. done. }
    unfold round_key. rewrite <- (Nat.add_0_r (4 * r)) at 1. rewrite !Hw by lia. unfold sub_list.
    assert (16 * r + 16 <= length key)%nat as Hkl by (destruct Hnk; subst nk; cbn in Hr; lia).
    generalize dependent (16 * r)%nat. intros o _ Ho. rewrite <- !(drop_drop key _ o). set (m := drop o key).
    assert (16 <= length m)%nat as Hm by (unfold m; rewrite length_drop; lia). clearbody m.
    do 16 (destruct m as [| ? m]; [cbn in Hm; lia |]). reflexivity.
Qed.

Lemma aesni_keys_fips key r : (length key = 16 \/ length key = 32)%nat ->
  let nk := (length key / 4)%nat in
  let ctx := if (length key =? 16)%nat then aesni_expand_key_128 key else aesni_expand_key_256 key in
  ni_nr ctx = Z.of_nat (nk + 6) /\
  ((r <= nk + 6)%nat -> rk_at ctx r = round_key (KeyExpansion nk (nk + 6) key) r).
Proof.
  assert (forall nk K N ws key, (nk = 4 \/ nk = 8)%nat -> (N = nk + 7)%nat -> key_step nk K N -> length key = (4 * nk)%nat ->
    (forall r, (r < nk / 4)%nat -> sub_list (16 * r) 16 key = K r) -> KeyExpansion nk (nk + 6) key = ws ->
    forall r, (r <= nk + 6)%nat -> K r = round_key ws r) as Hgen.
  { intros nk K N ws k Hnk HN Hs Hl Hinit Hws r' Hr. destruct (key_words_keys k nk Hnk Hl) as [A1 A2 A3].
    assert (keys_of nk K (nk / 4) (key_words nk k)) as Hk0.
    { split; [done | done |]. intros x Hx. rewrite A3 by done. by apply Hinit. }
    pose proof (keys_loop nk K N (nk / 4) _ (nk + 7 - nk / 4) Hnk ltac:(lia) ltac:(destruct Hnk as [-> | ->]; cbn; lia) Hs Hk0) as [_ _ Hkk].
    rewrite <- Hws. unfold KeyExpansion. symmetry. etransitivity; [| apply Hkk; destruct Hnk as [-> | ->]; cbn; lia].
    destruct Hnk as [-> | ->]; reflexivity. }
  intros Hk nk ctx. destruct Hk as [Hk | Hk]; unfold nk, ctx; rewrite Hk; split; try reflexivity; intros Hr; symmetry.
  - symmetry. eapply (Hgen 4%nat _ 11%nat); [by left | done | apply (ni_128_step (take 16 key)); reflexivity | done | | reflexivity | done].
    intros x Hx. assert (x = 0%nat) as -> by (cbn in Hx; lia). done.
  - symmetry. eapply (Hgen 8%nat _ 15%nat); [by right | done | apply (ni_256_step (take 16 key) (take 16 (drop 16 key))); reflexivity | done | | reflexivity | done].
    intros x Hx. cbn in Hx. destruct x as [| [| x]]; [done | done | lia].
Qed.

Lemma aesni_encrypt_fips key input : (length key = 16 \/ length key = 32)%nat -> length input = 16%nat ->
  opssl_aesni_encrypt_block (if (length key =? 16)%nat then aesni_expand_key_128 key else aesni_expand_key_256 key) input = AES key input.
Proof.
  intros Hk Hi. pose proof (fun r => aesni_keys_fips key r Hk) as H. cbv zeta in H.
  set (ctx := if (length key =? 16)%nat then _ else _) in *. clearbody ctx.
  unfold opssl_aesni_encrypt_block, aesni_encrypt_block, AES, Cipher, mm_xor_si128.
  destruct (H 0%nat) as [-> H0]. rewrite Nat2Z.id, take_ge by lia. set (nr := (length key / 4 + 6)%nat) in *.
  rewrite aesenclast_spec, H0 by lia. rewrite (proj2 (H nr)) by lia. f_equal.
  apply for_range_ext. intros i s Hi'. rewrite aesenc_spec, (proj2 (H i)) by lia. done.
Qed.
End Spec.

(** C34: on a context big enough for it, setting a 128-bit or 256-bit key and
    encrypting a block with the AES-NI instructions is the AES of FIPS 197; any
    other key size is refused. *)
Theorem aesni_block_fips197 {I : AesInstr} (IS : AesInstrSpec I) ctx_size key bits input :
  AESNI_CTX_SIZE <= ctx_size -> Z.of_nat (length key) * 8 = bits -> length input = 16%nat ->
  match opssl_aesni_set_encrypt_key ctx_size key bits with
  | Some (1, Some ctx) => (bits = 128 \/ bits = 256) /\ opssl_aesni_encrypt_block ctx input = AES key input
  | Some (rc, octx) => rc = 0 /\ octx = None /\ bits <> 128 /\ bits <> 256
  | None => False
  end.
Proof.
  intros Hs Hb Hi. unfold opssl_aesni_set_encrypt_key. rewrite (proj2 (Z.ltb_ge _ _)) by done.
  destruct (Z.eqb_spec bits 128) as [E | E]; [| destruct (Z.eqb_spec bits 256) as [E2 | E2]; [| done]].
  - split; [by left |]. rewrite <- (aesni_encrypt_fips key input) by lia. by rewrite (proj2 (Nat.eqb_eq _ _)) by lia.
  - split; [by right |]. rewrite <- (aesni_encrypt_fips key input) by lia. by rewrite (proj2 (Nat.eqb_neq _ _)) by lia.
Qed.

Lemma aesni_block_fips197_witness :
  match opssl_aesni_set_encrypt_key 384 (map Z.of_nat (seq 0 16)) 128 with
  | Some (1, Some ctx) => (128 = 128 \/ 128 = 256) /\ opssl_aesni_encrypt_block ctx fips_input = AES (map Z.of_nat (seq 0 16)) fips_input
  | Some (rc, octx) => rc = 0 /\ octx = None /\ 128 <> 128 /\ 128 <> 256
  | None => False
  end.
Proof.
  apply (@aesni_block_fips197 aes_instr_model aes_instr_model_spec 384 (map Z.of_nat (seq 0 16)) 128 fips_input);
    first [reflexivity | vm_compute; discriminate].
Defined.
