(* ===== verification/Aes.v ===== *)
(** AES in software: src/crypto/aes.c, against FIPS 197.

    A context is the record [opssl_aes_ctx_t]; its [hw_ctx] pointer is null, a
    context set up by aes_ni.c, or a wild address.  [None] is undefined
    behaviour: a write past an allocation or a wild pointer used. *)
From Stdlib Require Import Btauto.
From S2P Require Import Prelude Cpu AesSpec AesNi.
#[local] Open Scope Z_scope.

Inductive hw_ptr := HwNull | HwCtx (k : aesni_ctx) | HwWild.

Record opssl_aes_ctx_t := mk_aes_ctx { rk : list Z; nr : Z; hw_ctx : hw_ptr; use_hw : bool }.

(** A context cleared by [memset]. *)
Definition aes_ctx_zero : opssl_aes_ctx_t := mk_aes_ctx (replicate 60 0) 0 HwNull false.

Definition sbox : list Z := concat
  [[0x63; 0x7c; 0x77; 0x7b; 0xf2; 0x6b; 0x6f; 0xc5; 0x30; 0x01; 0x67; 0x2b; 0xfe; 0xd7; 0xab; 0x76];
   [0xca; 0x82; 0xc9; 0x7d; 0xfa; 0x59; 0x47; 0xf0; 0xad; 0xd4; 0xa2; 0xaf; 0x9c; 0xa4; 0x72; 0xc0];
   [0xb7; 0xfd; 0x93; 0x26; 0x36; 0x3f; 0xf7; 0xcc; 0x34; 0xa5; 0xe5; 0xf1; 0x71; 0xd8; 0x31; 0x15];
   [0x04; 0xc7; 0x23; 0xc3; 0x18; 0x96; 0x05; 0x9a; 0x07; 0x12; 0x80; 0xe2; 0xeb; 0x27; 0xb2; 0x75];
   [0x09; 0x83; 0x2c; 0x1a; 0x1b; 0x6e; 0x5a; 0xa0; 0x52; 0x3b; 0xd6; 0xb3; 0x29; 0xe3; 0x2f; 0x84];
   [0x53; 0xd1; 0x00; 0xed; 0x20; 0xfc; 0xb1; 0x5b; 0x6a; 0xcb; 0xbe; 0x39; 0x4a; 0x4c; 0x58; 0xcf];
   [0xd0; 0xef; 0xaa; 0xfb; 0x43; 0x4d; 0x33; 0x85; 0x45; 0xf9; 0x02; 0x7f; 0x50; 0x3c; 0x9f; 0xa8];
   [0x51; 0xa3; 0x40; 0x8f; 0x92; 0x9d; 0x38; 0xf5; 0xbc; 0xb6; 0xda; 0x21; 0x10; 0xff; 0xf3; 0xd2];
   [0xcd; 0x0c; 0x13; 0xec; 0x5f; 0x97; 0x44; 0x17; 0xc4; 0xa7; 0x7e; 0x3d; 0x64; 0x5d; 0x19; 0x73];
   [0x60; 0x81; 0x4f; 0xdc; 0x22; 0x2a; 0x90; 0x88; 0x46; 0xee; 0xb8; 0x14; 0xde; 0x5e; 0x0b; 0xdb];
   [0xe0; 0x32; 0x3a; 0x0a; 0x49; 0x06; 0x24; 0x5c; 0xc2; 0xd3; 0xac; 0x62; 0x91; 0x95; 0xe4; 0x79];
   [0xe7; 0xc8; 0x37; 0x6d; 0x8d; 0xd5; 0x4e; 0xa9; 0x6c; 0x56; 0xf4; 0xea; 0x65; 0x7a; 0xae; 0x08];
   [0xba; 0x78; 0x25; 0x2e; 0x1c; 0xa6; 0xb4; 0xc6; 0xe8; 0xdd; 0x74; 0x1f; 0x4b; 0xbd; 0x8b; 0x8a];
   [0x70; 0x3e; 0xb5; 0x66; 0x48; 0x03; 0xf6; 0x0e; 0x61; 0x35; 0x57; 0xb9; 0x86; 0xc1; 0x1d; 0x9e];
   [0xe1; 0xf8; 0x98; 0x11; 0x69; 0xd9; 0x8e; 0x94; 0x9b; 0x1e; 0x87; 0xe9; 0xce; 0x55; 0x28; 0xdf];
   [0x8c; 0xa1; 0x89; 0x0d; 0xbf; 0xe6; 0x42; 0x68; 0x41; 0x99; 0x2d; 0x0f; 0xb0; 0x54; 0xbb; 0x16]].

Definition rcon : list Z := [0x01; 0x02; 0x04; 0x08; 0x10; 0x20; 0x40; 0x80; 0x1b; 0x36].

Definition get_u32_be (p : list Z) : Z :=
  Z.lor (Z.lor (Z.lor (Z.shiftl p.[0] 24) (Z.shiftl p.[1] 16)) (Z.shiftl p.[2] 8)) p.[3].

Definition put_u32_be (v : Z) : list Z :=
  [u8 (Z.shiftr v 24); u8 (Z.shiftr v 16); u8 (Z.shiftr v 8); u8 v].

(** [sbox[(w >> k) & 0xff]] *)
Definition sbox_at (w k : Z) : Z := sbox.[Z.to_nat (Z.land (Z.shiftr w k) 0xff)].

Definition sub_word (w : Z) : Z :=
  Z.lor (Z.lor (Z.lor (Z.shiftl (sbox_at w 24) 24) (Z.shiftl (sbox_at w 16) 16)) (Z.shiftl (sbox_at w 8) 8)) (sbox_at w 0).

Definition rot_word (w : Z) : Z := Z.lor (u32 (Z.shiftl w 8)) (Z.shiftr w 24).

(** [ctx->rk[i]] from the words before it. *)
Definition expand_word (nk : nat) (i : nat) (rk : list Z) : Z :=
  let tmp := rk.[i - 1] in
  let tmp :=
    if (i mod nk =? 0)%nat then Z.lxor (sub_word (rot_word tmp)) (u32 (Z.shiftl rcon.[i / nk - 1] 24))
    else if (6 <? nk)%nat && (i mod nk =? 4)%nat then sub_word tmp
    else tmp in
  Z.lxor rk.[i - nk] tmp.

(** The software key expansion, on the array [rk]. *)
Definition expand_key (nk nr : nat) (key rk : list Z) : list Z :=
  let rk := for_range 0 nk (fun i rk => <[i := get_u32_be (drop (i * 4) key)]> rk) rk in
  for_range nk (4 * (nr + 1) - nk) (fun i rk => <[i := expand_word nk i rk]> rk) rk.

(** The size of the block allocated for the hardware context. *)
Definition HW_CTX_ALLOC : Z := 320.

Section Aes.
Context `{Cpu} `{AesInstr}.
Definition opssl_has_aesni : bool := aesni cpu_features.
Definition opssl_has_pclmul : bool := pclmul cpu_features.

(** [calloc_ok]: whether the allocation of the hardware context succeeds. *)
Definition opssl_aes_set_encrypt_key (calloc_ok : bool) (ctx : opssl_aes_ctx_t) (key : list Z) (bits : Z) :
    option (Z * opssl_aes_ctx_t) :=
  match (if bits =? 128 then Some (4, 10)%nat else if bits =? 192 then Some (6, 12)%nat
         else if bits =? 256 then Some (8, 14)%nat else None) with
  | None => Some (0, ctx)
  | Some (nk, nr) =>
    match hw_ctx ctx with
    | HwWild => None
    | _ =>
      let software := Some (1, mk_aes_ctx (expand_key nk nr key (rk ctx)) (Z.of_nat nr) HwNull false) in
      if opssl_has_aesni && calloc_ok then
        match opssl_aesni_set_encrypt_key HW_CTX_ALLOC key bits with
        | None => None
        | Some (_, Some k) => Some (1, mk_aes_ctx (rk ctx) (Z.of_nat nr) (HwCtx k) true)
        | Some (_, None) => software
        end
      else software
    end
  end.

(** SubBytes and ShiftRows on the columns, as words. *)
Definition sub_shift (s0 s1 s2 s3 : Z) : Z :=
  Z.lor (Z.lor (Z.lor (Z.shiftl (sbox_at s0 24) 24) (Z.shiftl (sbox_at s1 16) 16)) (Z.shiftl (sbox_at s2 8) 8)) (sbox_at s3 0).

(** The macros [XTIME] and [MIX], at 32 bits. *)
Definition XTIME (x : Z) : Z := Z.lxor (u32 (Z.shiftl x 1)) (Z.land (Z.shiftr x 7) 1 * 0x1b).
Definition MIX (a b c d : Z) : Z := Z.lxor (Z.lxor (Z.lxor (Z.lxor (XTIME a) (XTIME b)) b) c) d.

Definition byte_at (t k : Z) : Z := Z.land (Z.shiftr t k) 0xff.

Definition mix_column (t : Z) : Z :=
  let a := byte_at t 24 in let b := byte_at t 16 in let c := byte_at t 8 in let d := byte_at t 0 in
  Z.lor (Z.lor (Z.lor (u32 (Z.shiftl (MIX a b c d) 24)) (u32 (Z.shiftl (MIX b c d a) 16))) (u32 (Z.shiftl (MIX c d a b) 8))) (MIX d a b c).

(** The four columns. *)
Record cols := mk_cols { c0 : Z; c1 : Z; c2 : Z; c3 : Z }.

Definition sub_shift_cols (s : cols) : cols :=
  mk_cols (sub_shift (c0 s) (c1 s) (c2 s) (c3 s)) (sub_shift (c1 s) (c2 s) (c3 s) (c0 s))
          (sub_shift (c2 s) (c3 s) (c0 s) (c1 s)) (sub_shift (c3 s) (c0 s) (c1 s) (c2 s)).

Definition add_key (rk : list Z) (r : nat) (s : cols) : cols :=
  mk_cols (Z.lxor (c0 s) rk.[4 * r]) (Z.lxor (c1 s) rk.[4 * r + 1])
          (Z.lxor (c2 s) rk.[4 * r + 2]) (Z.lxor (c3 s) rk.[4 * r + 3]).

Definition aes_main_round (rk : list Z) (r : nat) (s : cols) : cols :=
  let t := sub_shift_cols s in
  add_key rk r (mk_cols (mix_column (c0 t)) (mix_column (c1 t)) (mix_column (c2 t)) (mix_column (c3 t))).

Definition encrypt_software (rk : list Z) (nr : nat) (input : list Z) : list Z :=
  let s := mk_cols (get_u32_be input) (get_u32_be (drop 4 input)) (get_u32_be (drop 8 input)) (get_u32_be (drop 12 input)) in
  let s := add_key rk 0 s in
  let s := for_range 1 (nr - 1) (aes_main_round rk) s in
  let t := add_key rk nr (sub_shift_cols s) in
  put_u32_be (c0 t) ++ put_u32_be (c1 t) ++ put_u32_be (c2 t) ++ put_u32_be (c3 t).

Definition opssl_aes_encrypt_block (ctx : opssl_aes_ctx_t) (input : list Z) : option (list Z) :=
  match use_hw ctx, hw_ctx ctx with
  | true, HwWild => None
  | true, HwCtx k => Some (opssl_aesni_encrypt_block k input)
  | _, _ => Some (encrypt_software (rk ctx) (Z.to_nat (nr ctx)) input)
  end.
End Aes.

(** The software cipher is not AES: [MIX] does not reduce its result to eight bits,
    so its ninth bit is or-ed into the neighbouring byte; for instance on the
    example vector of FIPS 197 appendix C.1. *)
Lemma aes_software_not_fips197 :
  let key := map Z.of_nat (seq 0 16) in
  encrypt_software (expand_key 4 10 key (replicate 60 0)) 10 fips_input <> AES key fips_input /\
  mix_column 0x00008000 = 0x819b1b80 /\ MixColumn 0 0 0x80 0 = [0x80; 0x9b; 0x1b; 0x80].
Proof. vm_compute. repeat split; discriminate. Qed.

(** With AES-NI, setting a 128-bit or 256-bit key writes past the block of
    [HW_CTX_ALLOC] bytes allocated for it. *)
Lemma aes_set_key_hw_overflow {C : Cpu} `{AesInstr} ctx key bits : opssl_has_aesni = true -> hw_ctx ctx <> HwWild ->
  bits = 128 \/ bits = 256 -> opssl_aes_set_encrypt_key true ctx key bits = None.
Proof. intros Hni Hw Hb. unfold opssl_aes_set_encrypt_key. rewrite Hni. destruct Hb as [-> | ->]; destruct (hw_ctx ctx); done. Qed.

(* ------------------------------------------------------------------ *)
(** * Words as four bytes *)

Definition pack (w : list Z) : Z := get_u32_be w.

Lemma pack_val a b c d : bytes [a; b; c; d] -> pack [a; b; c; d] = ((a * 256 + b) * 256 + c) * 256 + d.
Proof.
  intros Hb. unfold bytes in Hb. rewrite !Forall_cons in Hb. destruct Hb as (Ha & Hb & Hc & Hd & _). unfold byte_ok in *.
  unfold pack, get_u32_be, get; cbn [nth].
  rewrite (lor_shiftl2 a b 24 16), (lor_shiftl2 _ c 16 8), lor_shiftl by (cbn; lia). cbn. lia.
Qed.

Lemma pack_byte a b c d : bytes [a; b; c; d] ->
  byte_at (pack [a; b; c; d]) 24 = a /\ byte_at (pack [a; b; c; d]) 16 = b /\
  byte_at (pack [a; b; c; d]) 8 = c /\ byte_at (pack [a; b; c; d]) 0 = d.
Proof.
  intros Hb. rewrite pack_val by done. unfold bytes in Hb. rewrite !Forall_cons in Hb. destruct Hb as (Ha & Hb & Hc & Hd & _).
  unfold byte_ok, byte_at in *. change 0xff with (Z.ones 8).
  rewrite !Z.land_ones, !shiftr_div by lia. change (2 ^ 0) with 1. change (2 ^ 8) with 256. change (2 ^ 16) with 65536. change (2 ^ 24) with 16777216.
  split; [| split; [| split]]; Z.div_mod_to_equations; lia.
Qed.

Lemma pack_xor_form a b c d : bytes [a; b; c; d] ->
  pack [a; b; c; d] = Z.lxor (Z.lxor (Z.lxor (Z.shiftl a 24) (Z.shiftl b 16)) (Z.shiftl c 8)) d.
Proof.
  intros Hb. unfold bytes in Hb. rewrite !Forall_cons in Hb. destruct Hb as (Ha & Hb & Hc & Hd & _). unfold byte_ok in *.
  unfold pack, get_u32_be, get; cbn [nth].
  assert (0 <= Z.shiftl b 16 < 2 ^ 24 /\ 0 <= Z.shiftl c 8 < 2 ^ 16) as [Hb' Hc'] by (rewrite !Z.shiftl_mul_pow2 by lia; lia).
  rewrite <- (Z.lxor_lor _ d).
  2: { rewrite (lor_shiftl2 a b 24 16), (lor_shiftl2 _ c 16 8) by (cbn; lia). apply land_shiftl_0; lia. }
  f_equal. rewrite <- (Z.lxor_lor _ (Z.shiftl c 8)).
  2: { rewrite (lor_shiftl2 a b 24 16) by (cbn; lia). apply land_shiftl_0; lia. }
  f_equal. symmetry. apply Z.lxor_lor, land_shiftl_0; lia.
Qed.

Lemma pack_bxor v w : word_ok v -> word_ok w -> bytes v -> bytes w -> pack (bxor v w) = Z.lxor (pack v) (pack w).
Proof.
  intros Hv Hw Bv Bw. pose proof (bxor_bytes v w Bv Bw) as Bx. split_words. unfold bxor in *; cbn [zip_with] in *.
  rewrite !pack_xor_form by done. apply Z.bits_inj'. intros i Hi. rewrite !Z.lxor_spec, !Z.shiftl_spec, !Z.lxor_spec by done. btauto.
Qed.

Lemma sbox_Sub : sbox = sbox_table.
Proof. vm_compute. reflexivity. Qed.

Lemma sub_word_pack w : word_ok w -> bytes w -> sub_word (pack w) = pack (SubWord w).
Proof.
  intros Hw Bw. split_words. unfold sub_word, sbox_at. destruct (pack_byte _ _ _ _ Bw) as (E1 & E2 & E3 & E4). unfold byte_at in *.
  rewrite E1, E2, E3, E4, sbox_Sub. done.
Qed.

Lemma rot_word_pack w : word_ok w -> bytes w -> rot_word (pack w) = pack (RotWord w).
Proof.
  intros Hw Bw. split_words. unfold RotWord, get; cbn [nth].
  assert (bytes [z0; z1; z2; z]) as Br by (rewrite !bytes_cons in *; tauto).
  rewrite !pack_val by done. rewrite !bytes_cons in Bw. destruct Bw as (Ha & Hb & Hc & Hd & _). unfold byte_ok in *.
  unfold rot_word. rewrite shiftr_div, Z.shiftl_mul_pow2 by lia. change (2 ^ 24) with 16777216. change (2 ^ 8) with 256.
  assert ((((z * 256 + z0) * 256 + z1) * 256 + z2) / 16777216 = z) as -> by (Z.div_mod_to_equations; lia).
  assert (u32 ((((z * 256 + z0) * 256 + z1) * 256 + z2) * 256) = Z.shiftl ((z0 * 256 + z1) * 256 + z2) 8) as ->.
  { rewrite Z.shiftl_mul_pow2 by lia. unfold u32. Z.div_mod_to_equations; lia. }
  rewrite lor_shiftl by (cbn; lia). cbn. lia.
Qed.

Lemma SubWord_bytes w : bytes (SubWord w).
Proof. apply Forall_map, Forall_forall. intros x _. apply Sub_byte. Qed.

Lemma RotWord_bytes w : bytes w -> bytes (RotWord w).
Proof. intros Hw. repeat constructor; by apply bytes_get. Qed.

(* ------------------------------------------------------------------ *)
(** * The key schedule is FIPS 197's *)

Section Schedule.
Context (nk rounds : nat) (key : list Z) (Hnk : (nk = 4 \/ nk = 6 \/ nk = 8)%nat) (Hr : rounds = (nk + 6)%nat).
Context (Hl : length key = (4 * nk)%nat) (Hb : bytes key).

Lemma rcon_Rcon i : (1 <= i <= 10)%nat -> rcon.[i - 1] = Rcon i.
Proof. intros Hi. do 11 (destruct i as [| i]; [first [lia | reflexivity] |]). lia. Qed.

Definition ke (n : nat) : list (list Z) := for_range nk n (fun i ws => ws ++ [next_word nk i ws]) (key_words nk key).

Lemma ke_length n : length (ke n) = (nk + n)%nat.
Proof.
  unfold ke. induction n as [| n IH]; [unfold for_range, key_words; cbn; rewrite length_map, length_seq; lia |].
  rewrite for_range_snoc, length_app, IH. cbn. lia.
Qed.

Lemma ke_prefix n m i : (n <= m)%nat -> (i < nk + n)%nat -> word (ke m) i = word (ke n) i.
Proof.
  intros Hnm Hi. induction m as [| m IH]; [by replace n with 0%nat by lia |].
  destruct (decide (n = S m)) as [-> | Hne]; [done |]. rewrite <- IH by lia. unfold ke. rewrite for_range_snoc.
  apply word_app_l. fold (ke m). rewrite ke_length. lia.
Qed.

Lemma key_words_get i : (i < nk)%nat -> word (key_words nk key) i = sub_list (4 * i) 4 key.
Proof.
  intros Hi. unfold word, key_words. rewrite nth_lookup, list_lookup_fmap, lookup_seq_lt by done. done.
Qed.

Lemma ke_first n i : (i < nk)%nat -> word (ke n) i = sub_list (4 * i) 4 key.
Proof. intros Hi. rewrite (ke_prefix 0) by lia. by apply key_words_get. Qed.

Lemma ke_rec n i : (nk <= i < nk + n)%nat -> word (ke n) i = next_word nk i (ke n).
Proof.
  intros Hi. rewrite (ke_prefix (i - nk + 1)) by lia. replace (i - nk + 1)%nat with (S (i - nk)) by lia.
  unfold ke at 1. rewrite for_range_snoc. fold (ke (i - nk)). replace (nk + (i - nk))%nat with i by lia.
  rewrite (word_app_r _ _ i 0) by (rewrite ke_length; lia). cbn [word nth].
  assert (1 <= nk)%nat by (destruct Hnk as [-> | [-> | ->]]; lia).
  unfold next_word. rewrite (ke_prefix (i - nk) n (i - 1)), (ke_prefix (i - nk) n (i - nk)) by lia. done.
Qed.

Lemma ke_words n i : (i < nk + n)%nat -> word_ok (word (ke n) i) /\ bytes (word (ke n) i).
Proof.
  intros Hi. induction (lt_wf i) as [i _ IH]. destruct (decide (i < nk)%nat).
  - rewrite ke_first by done. split; [unfold word_ok; rewrite sub_list_length; lia | by apply bytes_sub].
  - rewrite ke_rec by lia. unfold next_word. assert (1 <= nk)%nat by (destruct Hnk as [-> | [-> | ->]]; lia).
    destruct (IH (i - 1)%nat ltac:(lia) ltac:(lia)) as [W1 B1]. destruct (IH (i - nk)%nat ltac:(lia) ltac:(lia)) as [W2 B2].
    fold (transform nk i (word (ke n) (i - 1))). split; [apply bxor_word; [done | by apply transform_word] |].
    apply bxor_bytes; [done |]. unfold transform. repeat case_match; [| apply SubWord_bytes | done].
    apply bxor_bytes; [apply SubWord_bytes |]. repeat constructor; try (unfold byte_ok; lia).
    all: destruct (i / nk)%nat as [| [| m]]; cbn; try lia; apply (xtime_byte _).
Qed.

Lemma expand_word_pack n i W : (nk <= i < nk + n)%nat -> (i < 4 * (rounds + 1))%nat ->
  (forall j, (j < i)%nat -> W.[j] = pack (word (ke n) j)) -> expand_word nk i W = pack (next_word nk i (ke n)).
Proof.
  intros Hi Hr' HW. assert (1 <= nk)%nat by (destruct Hnk as [-> | [-> | ->]]; lia). unfold expand_word, next_word.
  rewrite !HW by lia. destruct (ke_words n (i - 1) ltac:(lia)) as [W1 B1]. destruct (ke_words n (i - nk) ltac:(lia)) as [W2 B2].
  set (t := word (ke n) (i - 1)) in *. set (u := word (ke n) (i - nk)) in *.
  assert (forall v, word_ok v -> bytes v -> Z.lxor (pack u) (pack v) = pack (bxor u v)) as Hx by (intros; by rewrite pack_bxor).
  destruct (i mod nk =? 0)%nat eqn:E0; [| destruct ((6 <? nk)%nat && (i mod nk =? 4)%nat)].
  - assert (1 <= i / nk <= 10)%nat as Hq.
    { split; [apply Nat.div_le_lower_bound; lia |]. apply Nat.lt_succ_r, Nat.Div0.div_lt_upper_bound. destruct Hnk as [-> | [-> | ->]]; lia. }
    rewrite rot_word_pack by done. rewrite sub_word_pack by (done || by apply RotWord_bytes).
    rewrite rcon_Rcon by done. set (rc := Rcon (i / nk)). assert (byte_ok rc) as Hrc.
    { unfold rc. destruct (i / nk)%nat as [| [| m]]; cbn; try (unfold byte_ok; lia); apply (xtime_byte _). }
    assert (bytes [rc; 0; 0; 0]) as Brc by (apply bytes_cons; split; [done | solve_bytes]).
    assert (u32 (Z.shiftl rc 24) = pack [rc; 0; 0; 0]) as ->.
    { rewrite pack_val by done. rewrite Z.shiftl_mul_pow2, u32_id by (unfold byte_ok in Hrc; lia). lia. }
    rewrite <- pack_bxor by (done || apply SubWord_bytes).
    apply Hx; [by apply bxor_word | apply bxor_bytes; [apply SubWord_bytes | done]].
  - rewrite sub_word_pack by done. apply Hx; [| apply SubWord_bytes]. unfold word_ok, SubWord. by rewrite length_map.
  - by apply Hx.
Qed.

Lemma expand_key_spec rk0 i : length rk0 = 60%nat -> (i < 4 * (rounds + 1))%nat ->
  (expand_key nk rounds key rk0).[i] = pack (word (KeyExpansion nk rounds key) i).
Proof.
  intros Hrk Hi. set (n := (4 * (rounds + 1) - nk)%nat). change (KeyExpansion nk rounds key) with (ke n).
  assert (nk <= 8 /\ 4 <= nk)%nat as Hn by (destruct Hnk as [-> | [-> | ->]]; lia).
  unfold expand_key. set (W0 := for_range 0 nk _ rk0). fold n. set (A := for_range nk n _ W0).
  assert (length W0 = 60%nat) as Hl0.
  { unfold W0. rewrite <- Hrk. apply (fill_length (fun i _ => get_u32_be (drop (i * 4) key)) 0 nk rk0). }
  assert (forall j, (j < nk)%nat -> W0.[j] = pack (word (ke n) j)) as Hfirst.
  { intros j Hj. etransitivity.
    - apply (fill_spec (fun i _ => get_u32_be (drop (i * 4) key)) 0 nk rk0 j); [done | lia | lia].
    - rewrite ke_first by done. unfold pack, get_u32_be, sub_list, get. rewrite !nth_lookup, !lookup_take_lt by lia.
      rewrite (Nat.mul_comm j 4). done. }
  assert (forall j, (j < nk)%nat -> A.[j] = W0.[j]) as HA0 by (intros j Hj; apply (fill_other (expand_word nk)); lia).
  assert (forall j, (nk <= j < nk + n)%nat -> A.[j] = expand_word nk j A) as HA1.
  { intros j Hj. apply (fill_spec (expand_word nk)); [| done | lia]. intros k W W' Hk HW. unfold expand_word. rewrite !HW by lia. done. }
  clearbody A. assert (i < nk + n)%nat as Hi' by lia. clear Hi. induction (lt_wf i) as [i _ IH].
  destruct (decide (i < nk)%nat); [rewrite HA0 by done; by apply Hfirst |].
  rewrite HA1 by lia. rewrite (expand_word_pack n i A); [| lia | lia | intros j Hj; apply IH; lia]. f_equal. symmetry. apply ke_rec. lia.
Qed.
End Schedule.

(** In software, setting a key of 128, 192 or 256 bits computes the key
    schedule of FIPS 197, one word per array cell, and any other size is refused
    without touching the context. *)
Theorem aes_key_schedule_fips197 {C : Cpu} {I : AesInstr} calloc_ok ctx key bits :
  opssl_has_aesni && calloc_ok = false -> hw_ctx ctx <> HwWild -> length (rk ctx) = 60%nat -> bytes key ->
  Z.of_nat (length key) * 8 = bits ->
  if decide (bits = 128 \/ bits = 192 \/ bits = 256) then
    let nk := (length key / 4)%nat in
    exists ctx', opssl_aes_set_encrypt_key calloc_ok ctx key bits = Some (1, ctx') /\
      nr ctx' = Z.of_nat (nk + 6) /\ hw_ctx ctx' = HwNull /\ use_hw ctx' = false /\
      forall i, (i < 4 * (nk + 7))%nat -> (rk ctx').[i] = get_u32_be (word (KeyExpansion nk (nk + 6) key) i)
  else opssl_aes_set_encrypt_key calloc_ok ctx key bits = Some (0, ctx).
Proof.
  intros Hhw Hw Hl Hb Hbits. unfold opssl_aes_set_encrypt_key. rewrite Hhw.
  assert (forall nk, (nk = 4 \/ nk = 6 \/ nk = 8)%nat -> length key = (4 * nk)%nat ->
    forall i, (i < 4 * (nk + 7))%nat -> (expand_key nk (nk + 6) key (rk ctx)).[i] = get_u32_be (word (KeyExpansion nk (nk + 6) key) i)) as Hx.
  { intros nk Hnk Hlk i Hi. apply expand_key_spec; (done || lia). }
  destruct (decide _) as [Hd | Hd].
  - destruct Hd as [-> | [-> | ->]].
    1: assert (length key = 16)%nat as Hk by lia. 2: assert (length key = 24)%nat as Hk by lia. 3: assert (length key = 32)%nat as Hk by lia.
    all: rewrite Hk; destruct (hw_ctx ctx); try done; eexists; (split; [reflexivity |]); repeat (split; [done |]); cbn [rk].
    all: first [apply (Hx 4%nat); lia | apply (Hx 6%nat); lia | apply (Hx 8%nat); lia].
  - destruct (Z.eqb_spec bits 128); [lia |]. destruct (Z.eqb_spec bits 192); [lia |]. destruct (Z.eqb_spec bits 256); [lia | done].
Qed.

Lemma aes_key_schedule_fips197_witness :
  if decide (192 = 128 \/ 192 = 192 \/ 192 = 256) then
    let nk := (length (map Z.of_nat (seq 7 24)) / 4)%nat in
    exists ctx', @opssl_aes_set_encrypt_key plain_cpu aes_instr_model true aes_ctx_zero (map Z.of_nat (seq 7 24)) 192 = Some (1, ctx') /\
      nr ctx' = Z.of_nat (nk + 6) /\ hw_ctx ctx' = HwNull /\ use_hw ctx' = false /\
      forall i, (i < 4 * (nk + 7))%nat -> (rk ctx').[i] = get_u32_be (word (KeyExpansion nk (nk + 6) (map Z.of_nat (seq 7 24))) i)
  else @opssl_aes_set_encrypt_key plain_cpu aes_instr_model true aes_ctx_zero (map Z.of_nat (seq 7 24)) 192 = Some (0, aes_ctx_zero).
Proof.
  apply (@aes_key_schedule_fips197 plain_cpu aes_instr_model true aes_ctx_zero (map Z.of_nat (seq 7 24)) 192);
    first [reflexivity | discriminate | solve_bytes].
Defined.
