(* ===== verification/BlockModes.v ===== *)
(** What the block-cipher modes share: loops whose body may fail, blocks of
    sixteen bytes, counter mode. *)
From S2P Require Import Prelude AesSpec.
#[local] Open Scope Z_scope.

(** A [while] loop whose body may fail; [None] also when the fuel runs out. *)
Fixpoint while_opt {S : Type} (fuel : nat) (c : S -> bool) (body : S -> option S) (s : S) : option S :=
  if c s then
    match fuel with
    | O => None
    | Datatypes.S f => match body s with Some s => while_opt f c body s | None => None end
    end
  else Some s.

(** The number of blocks of a message, the last one possibly partial. *)
Definition nblocks {A} (l : list A) : nat := ((length l + 15) / 16)%nat.

(** The blocks of a message, the last one padded with zeros. *)
Fixpoint to_blocks (n : nat) (l : list Z) : list (list Z) :=
  match n with
  | O => []
  | S n => let b := take 16 l in (b ++ replicate (16 - length b) 0) :: to_blocks n (drop 16 l)
  end.

Definition blocks (l : list Z) : list (list Z) := to_blocks (nblocks l) l.

(** Counter mode with key stream blocks [ks i], [ks (i + 1)], ... *)
Fixpoint ctr_blocks (n : nat) (ks : nat -> list Z) (i : nat) (l : list Z) : list Z :=
  match n with
  | O => []
  | S n => bxor (take 16 l) (ks i) ++ ctr_blocks n ks (S i) (drop 16 l)
  end.

Definition ctr_mode (ks : nat -> list Z) (i : nat) (l : list Z) : list Z := ctr_blocks (nblocks l) ks i l.

(** CBC-MAC of whole blocks, from the chaining value [s]. *)
Definition cbc_mac (E : list Z -> list Z) (s : list Z) (bs : list (list Z)) : list Z :=
  fold_left (fun s b => E (bxor s b)) bs s.

(* ------------------------------------------------------------------ *)
(** * Lemmas *)

Lemma nblocks_nil {A} (l : list A) : l = [] <-> nblocks l = 0%nat.
Proof.
  unfold nblocks. split; [by intros -> |]. intros H. apply length_zero_iff_nil.
  apply Nat.div_small_iff in H; lia.
Qed.

Lemma nblocks_drop {A} (l : list A) n : nblocks l = S n -> nblocks (drop 16 l) = n.
Proof.
  unfold nblocks. rewrite length_drop. intros H. destruct (decide (length l <= 16)%nat) as [Hs | Hs].
  - replace (length l - 16)%nat with 0%nat by lia. assert ((length l + 15) / 16 < 2)%nat by (apply Nat.Div0.div_lt_upper_bound; lia).
    assert (n = 0%nat) as -> by lia. done.
  - replace (length l + 15)%nat with (length l - 16 + 15 + 1 * 16)%nat in H by lia. rewrite Nat.div_add in H by lia. lia.
Qed.

Lemma blocks_nil : blocks [] = [].
Proof. done. Qed.

Lemma nblocks_pos {A} (l : list A) : l <> [] -> nblocks l = S (nblocks (drop 16 l)).
Proof.
  intros Hl. destruct (nblocks l) as [| n] eqn:E; [by apply nblocks_nil in E |]. by rewrite (nblocks_drop l n E).
Qed.

Lemma blocks_cons l : l <> [] -> blocks l = (take 16 l ++ replicate (16 - length (take 16 l)) 0) :: blocks (drop 16 l).
Proof. intros Hl. unfold blocks. by rewrite (nblocks_pos l Hl). Qed.

Lemma ctr_cons ks i l : l <> [] -> ctr_mode ks i l = bxor (take 16 l) (ks i) ++ ctr_mode ks (S i) (drop 16 l).
Proof. intros Hl. unfold ctr_mode. by rewrite (nblocks_pos l Hl). Qed.

(** Induction on the blocks of a message. *)
Lemma block_ind (P : list Z -> Prop) : P [] -> (forall l, l <> [] -> P (drop 16 l) -> P l) -> forall l, P l.
Proof.
  intros H0 Hs l. remember (nblocks l) as n eqn:E. revert l E. induction n as [| n IH]; intros l E.
  - symmetry in E. apply nblocks_nil in E as ->. done.
  - apply Hs; [intros ->; done |]. apply IH. symmetry. by apply nblocks_drop.
Qed.

Lemma cbc_mac_cons E s b bs : cbc_mac E s (b :: bs) = cbc_mac E (E (bxor s b)) bs.
Proof. done. Qed.

Lemma bxor_take_length l k : length k = 16%nat -> length (bxor (take 16 l) k) = length (take 16 l).
Proof. intros Hk. unfold bxor. rewrite length_zip_with, length_take. lia. Qed.

Lemma ctr_length ks l : (forall i, length (ks i) = 16%nat) -> forall i, length (ctr_mode ks i l) = length l.
Proof.
  intros Hk. induction l as [| l Hl IH] using block_ind; intros i; [done |].
  rewrite ctr_cons, length_app, IH, bxor_take_length, <- length_app, take_drop; done.
Qed.

Lemma bxor_involutive a b : (length a <= length b)%nat -> bxor (bxor a b) b = a.
Proof.
  revert b. induction a as [| x a IH]; intros [| y b] H; try done; [cbn in H; lia |]. unfold bxor in *. cbn [zip_with].
  rewrite lxor_cancel, IH; [done | cbn in H; lia].
Qed.

(** Counter mode is its own inverse. *)
Lemma ctr_involutive ks l : (forall i, length (ks i) = 16%nat) -> forall i, ctr_mode ks i (ctr_mode ks i l) = l.
Proof.
  intros Hk. induction l as [| l Hl IH] using block_ind; intros i; [done |].
  rewrite (ctr_cons ks i l) by done. set (c := bxor _ _). set (r := ctr_mode _ _ (drop 16 l)).
  assert (length c = Nat.min 16 (length l)) as Hc by (unfold c; by rewrite bxor_take_length, length_take).
  assert (length l <> 0)%nat by (by destruct l).
  rewrite ctr_cons by (intros E%(f_equal length); rewrite length_app in E; cbn in E; lia).
  destruct (decide (length l <= 16)%nat) as [Hs | Hs].
  - assert (r = []) as -> by (unfold r; by rewrite drop_ge). rewrite app_nil_r.
    rewrite take_ge, drop_ge, app_nil_r by lia. unfold c. rewrite bxor_involutive by (rewrite Hk, length_take; lia). by apply take_ge.
  - rewrite take_app_length', drop_app_length' by lia. unfold r. rewrite IH. unfold c.
    rewrite bxor_involutive by (rewrite Hk, length_take; lia). by rewrite take_drop.
Qed.

Lemma ctr_bytes ks l : (forall i, bytes (ks i)) -> bytes l -> forall i, bytes (ctr_mode ks i l).
Proof.
  intros Hk. induction l as [| l Hl IH] using block_ind; intros Hb i; [done |]. rewrite ctr_cons by done.
  apply bytes_app. split; [apply bxor_bytes; [by apply bytes_take | done] | apply IH; by apply bytes_drop].
Qed.

Lemma ctr_ext ks ks' n l : (nblocks l <= n)%nat -> forall i, (forall j, (i <= j < i + n)%nat -> ks j = ks' j) -> ctr_mode ks i l = ctr_mode ks' i l.
Proof.
  revert l. induction n as [| n IH]; intros l Hn i Hk.
  - assert (l = []) as -> by (apply nblocks_nil; lia). done.
  - destruct (decide (l = [])) as [-> | Hl]; [done |]. rewrite (ctr_cons ks), (ctr_cons ks') by done. rewrite Hk by lia. f_equal.
    apply IH; [rewrite nblocks_pos in Hn by done; lia |]. intros j Hj. apply Hk. lia.
Qed.

(** Writing two adjacent pieces. *)
Lemma splice_splice (buf : list Z) off a b : (off + length a + length b <= length buf)%nat ->
  splice (splice buf off a) (off + length a) b = splice buf off (a ++ b).
Proof.
  intros Hl. unfold splice at 1. rewrite splice_take by lia. unfold splice. rewrite length_app, <- !app_assoc.
  do 3 f_equal. rewrite !drop_app. rewrite !length_take, !Nat.min_l by lia.
  rewrite (drop_ge (take off buf)) by (rewrite length_take; lia). rewrite (drop_ge a) by lia.
  cbn [app]. rewrite drop_drop. f_equal. lia.
Qed.

