(* ===== verification/AesCcm.v ===== *)
(** AES-CCM: src/crypto/aes_ccm.c, against NIST SP 800-38C.

    The block cipher is the one aes.c set up for the key, whichever it is: on a
    CPU without AES-NI the software one.  [out] is the output buffer before the
    call and [out_len] the output length variable before the call; a call gives
    its return value and both afterwards.  [None] is undefined behaviour, or a
    loop that has not ended within [fuel] iterations. *)
From S2P Require Import Prelude Platform Cpu AesSpec AesNi Aes BlockModes.
#[local] Open Scope Z_scope.

Definition ccm_format_b0 (nonce : list Z) (pt_len aad_len tag_len : Z) : list Z :=
  let flags := Z.lor (Z.lor (if 0 <? aad_len then 64 else 0) (u8 (Z.shiftl ((tag_len - 2) / 2) 3))) 2 in
  u8 flags :: take 12 nonce ++ [u8 (Z.shiftr pt_len 16); u8 (Z.shiftr pt_len 8); u8 pt_len].

Definition ccm_format_ctr (nonce : list Z) (i : Z) : list Z :=
  2 :: take 12 nonce ++ [u8 (Z.shiftr i 16); u8 (Z.shiftr i 8); u8 i].

Section Ccm.
Context `{Cpu} `{AesInstr}.
Variable fuel : nat.

Definition cbc_mac_block (aes : opssl_aes_ctx_t) (state block : list Z) : option (list Z) :=
  let state := bxor state block in
  opssl_aes_encrypt_block aes state.

(** The loop of [cbc_mac_aad] and of [cbc_mac_msg]: blocks of [data] from [off] on. *)
Definition cbc_mac_body (aes : opssl_aes_ctx_t) (data : list Z) (s : list Z * nat) : option (list Z * nat) :=
  let '(state, off) := s in
  let block := replicate 16 0 in
  let chunk := (length data - off)%nat in
  let chunk := if (16 <? chunk)%nat then 16%nat else chunk in
  let block := splice block 0 (sub_list off chunk data) in
  match cbc_mac_block aes state block with
  | None => None
  | Some state => Some (state, (off + chunk)%nat)
  end.

Definition cbc_mac_loop (aes : opssl_aes_ctx_t) (data : list Z) (s : list Z * nat) : option (list Z) :=
  fst <$> while_opt fuel (fun s => (s.2 <? length data)%nat) (cbc_mac_body aes data) s.

Definition cbc_mac_aad (aes : opssl_aes_ctx_t) (state aad : list Z) : option (list Z) :=
  if (length aad =? 0)%nat then Some state else
  let block := <[0%nat := u8 (Z.shiftr (Z.of_nat (length aad)) 8)]> (replicate 16 0) in
  let block := <[1%nat := u8 (Z.of_nat (length aad))]> block in
  let first := if (length aad <? 14)%nat then length aad else 14%nat in
  let block := splice block 2 (take first aad) in
  match cbc_mac_block aes state block with
  | None => None
  | Some state => cbc_mac_loop aes aad (state, first)
  end.

Definition cbc_mac_msg (aes : opssl_aes_ctx_t) (state msg : list Z) : option (list Z) :=
  cbc_mac_loop aes msg (state, 0%nat).

(** One block of counter mode: the output, the offset and the counter. *)
Definition ccm_ctr_body (aes : opssl_aes_ctx_t) (nonce input : list Z) (s : list Z * nat * Z) : option (list Z * nat * Z) :=
  let '(out, off, ctr) := s in
  let a := ccm_format_ctr nonce ctr in
  match opssl_aes_encrypt_block aes a with
  | None => None
  | Some ks =>
    let chunk := (length input - off)%nat in
    let chunk := if (16 <? chunk)%nat then 16%nat else chunk in
    Some (splice out off (bxor (sub_list off chunk input) ks), (off + chunk)%nat, u32 (ctr + 1))
  end.

Definition ccm_ctr_crypt (aes : opssl_aes_ctx_t) (out input nonce : list Z) : option (list Z) :=
  (fun s => s.1.1) <$> while_opt fuel (fun s => (s.1.2 <? length input)%nat) (ccm_ctr_body aes nonce input) (out, 0%nat, 1).

(** The CBC-MAC over B_0, the associated data and the message. *)
Definition ccm_mac (aes : opssl_aes_ctx_t) (nonce aad msg : list Z) (tag_len : Z) : option (list Z) :=
  let b0 := ccm_format_b0 nonce (Z.of_nat (length msg)) (Z.of_nat (length aad)) tag_len in
  match opssl_aes_encrypt_block aes b0 with
  | None => None
  | Some mac =>
    match cbc_mac_aad aes mac aad with
    | None => None
    | Some mac => cbc_mac_msg aes mac msg
    end
  end.

Variable calloc_ok : bool.

Definition opssl_aes_ccm_seal (out : list Z) (out_len : Z) (key nonce : list Z) (tag_len : nat) (plaintext aad : list Z) :
    option (Z * list Z * Z) :=
  let fail := Some (0, out, out_len) in
  let needed := u64 (Z.of_nat (length plaintext) + Z.of_nat tag_len) in
  if Z.of_nat (length out) <? needed then fail else
  if negb (length key =? 16)%nat && negb (length key =? 32)%nat then fail else
  if negb (tag_len =? 8)%nat && negb (tag_len =? 16)%nat then fail else
  if 0xFFFFFF <? Z.of_nat (length plaintext) then fail else
  if 0xFF00 <=? Z.of_nat (length aad) then fail else
  match opssl_aes_set_encrypt_key calloc_ok aes_ctx_zero key (if (length key =? 16)%nat then 128 else 256) with
  | None => None
  | Some (_, aes) =>
    match ccm_mac aes nonce aad plaintext (Z.of_nat tag_len) with
    | None => None
    | Some mac =>
      match ccm_ctr_crypt aes out plaintext nonce with
      | None => None
      | Some out =>
        match opssl_aes_encrypt_block aes (ccm_format_ctr nonce 0) with
        | None => None
        | Some s0 => Some (1, splice out (length plaintext) (take tag_len (bxor mac s0)), needed)
        end
      end
    end
  end.

Definition opssl_aes_ccm_open (out : list Z) (out_len : Z) (key nonce : list Z) (tag_len : nat) (ciphertext aad : list Z) :
    option (Z * list Z * Z) :=
  let fail := Some (0, out, out_len) in
  if (length ciphertext <? tag_len)%nat then fail else
  let pt_len := (length ciphertext - tag_len)%nat in
  if (length out <? pt_len)%nat then fail else
  if negb (length key =? 16)%nat && negb (length key =? 32)%nat then fail else
  if negb (tag_len =? 8)%nat && negb (tag_len =? 16)%nat then fail else
  if 0xFFFFFF <? Z.of_nat pt_len then fail else
  if 0xFF00 <=? Z.of_nat (length aad) then fail else
  match opssl_aes_set_encrypt_key calloc_ok aes_ctx_zero key (if (length key =? 16)%nat then 128 else 256) with
  | None => None
  | Some (_, aes) =>
    match ccm_ctr_crypt aes out (take pt_len ciphertext) nonce with
    | None => None
    | Some out =>
      match opssl_aes_encrypt_block aes (ccm_format_ctr nonce 0) with
      | None => None
      | Some s0 =>
        let recv_tag := splice (replicate 16 0) 0 (take tag_len (bxor (drop pt_len ciphertext) s0)) in
        match ccm_mac aes nonce aad (take pt_len out) (Z.of_nat tag_len) with
        | None => None
        | Some mac =>
          if opssl_ct_eq mac recv_tag tag_len =? 0 then Some (0, splice out 0 (replicate pt_len 0), out_len)
          else Some (1, out, Z.of_nat pt_len)
        end
      end
    end
  end.
End Ccm.

(* ------------------------------------------------------------------ *)
(** * NIST SP 800-38C, for a block cipher [E] *)

Section Spec.
Variable E : list Z -> list Z.

(** Appendix A: the first block, the encoded associated data, the payload. *)
Definition ccm_b0 (nonce : list Z) (n : nat) (adata : bool) (t : nat) : list Z :=
  [64 * (if adata then 1 else 0) + 8 * ((Z.of_nat t - 2) / 2) + 2] ++ nonce ++ be_bytes 3 (Z.of_nat n).

Definition ccm_blocks (nonce aad msg : list Z) (t : nat) : list (list Z) :=
  [ccm_b0 nonce (length msg) (negb (bool_decide (aad = []))) t] ++
  (if decide (aad = []) then [] else blocks (be_bytes 2 (Z.of_nat (length aad)) ++ aad)) ++ blocks msg.

Definition ccm_counter (nonce : list Z) (i : nat) : list Z := [2] ++ nonce ++ be_bytes 3 (Z.of_nat i).

Definition CCM_mac (nonce aad msg : list Z) (t : nat) : list Z := cbc_mac E (replicate 16 0) (ccm_blocks nonce aad msg t).

(** The encrypted message and the encrypted tag. *)
Definition CCM_ctr (nonce msg : list Z) : list Z := ctr_mode (fun i => E (ccm_counter nonce i)) 1 msg.

Definition CCM_tag (nonce aad msg : list Z) (t : nat) : list Z :=
  take t (bxor (CCM_mac nonce aad msg t) (E (ccm_counter nonce 0))).

Definition CCM_encrypt (nonce aad msg : list Z) (t : nat) : list Z :=
  CCM_ctr nonce msg ++ CCM_tag nonce aad msg t.
End Spec.

(* ------------------------------------------------------------------ *)
(** * The loops compute the specification *)

Section Correct.
Context {C : Cpu} {I : AesInstr} (aes : opssl_aes_ctx_t) (E : list Z -> list Z).
Context (HE : forall x, opssl_aes_encrypt_block aes x = Some (E x)).
Context (HEl : forall x, length (E x) = 16%nat) (HEb : forall x, bytes (E x)).

Lemma chunk_eq (data : list Z) off : (off < length data)%nat ->
  (if (16 <? length data - off)%nat then 16%nat else (length data - off)%nat) = length (take 16 (drop off data)).
Proof. intros Ho. rewrite length_take, length_drop. destruct (Nat.ltb_spec 16 (length data - off)); lia. Qed.

Lemma take_chunk (d : list Z) : take (length (take 16 d)) d = take 16 d.
Proof. rewrite length_take. destruct (decide (16 <= length d)%nat); [by rewrite Nat.min_l by lia | rewrite Nat.min_r, !take_ge by lia; done]. Qed.

Lemma drop_chunk (d : list Z) : drop (length (take 16 d)) d = drop 16 d.
Proof. rewrite length_take. destruct (decide (16 <= length d)%nat); [by rewrite Nat.min_l by lia | rewrite Nat.min_r, !drop_ge by lia; done]. Qed.

Lemma cbc_mac_body_spec data st off : (off < length data)%nat ->
  let b := take 16 (drop off data) in
  cbc_mac_body aes data (st, off) = Some (E (bxor st (b ++ replicate (16 - length b) 0)), (off + length b)%nat).
Proof.
  intros Ho b. unfold cbc_mac_body. rewrite chunk_eq by done. fold b. unfold cbc_mac_block. rewrite HE.
  unfold sub_list, b. rewrite take_chunk. fold b. do 5 f_equal. unfold splice. rewrite take_0. cbn [app]. f_equal.
  rewrite Nat.add_0_l, drop_replicate. done.
Qed.

Lemma cbc_mac_loop_spec data fuel : forall st off, (nblocks (drop off data) <= fuel)%nat ->
  cbc_mac_loop fuel aes data (st, off) = Some (cbc_mac E st (blocks (drop off data))).
Proof.
  unfold cbc_mac_loop. induction fuel as [| fuel IH]; intros st off Hf; cbn [while_opt snd].
  - assert (drop off data = []) as E0 by (apply nblocks_nil; lia). rewrite E0.
    apply (f_equal length) in E0. rewrite length_drop in E0. cbn in E0.
    by rewrite (proj2 (Nat.ltb_ge _ _)) by lia.
  - destruct (Nat.ltb_spec off (length data)) as [Ho | Ho].
    + assert (drop off data <> []) as Hd by (intros Ed%(f_equal length); rewrite length_drop in Ed; cbn in Ed; lia).
      rewrite cbc_mac_body_spec by done. cbv zeta. rewrite blocks_cons, cbc_mac_cons by done. set (b := take 16 (drop off data)). rewrite (nblocks_pos _ Hd) in Hf.
      assert (drop (off + length b) data = drop 16 (drop off data)) as Eb by (rewrite <- drop_drop; apply drop_chunk).
      rewrite IH by (rewrite Eb; lia). by rewrite Eb.
    + by rewrite drop_ge by done.
Qed.

Lemma cbc_mac_aad_spec fuel st aad : (nblocks aad <= fuel)%nat -> Z.of_nat (length aad) < 0xFF00 ->
  cbc_mac_aad fuel aes st aad =
    Some (cbc_mac E st (if decide (aad = []) then [] else blocks (be_bytes 2 (Z.of_nat (length aad)) ++ aad))).
Proof.
  intros Hf Ha. unfold cbc_mac_aad. destruct (decide (aad = [])) as [-> | Hne]; [done |].
  destruct (Nat.eqb_spec (length aad) 0) as [E0 | _]; [by destruct aad |].
  set (first := if (length aad <? 14)%nat then length aad else 14%nat).
  assert (first = Nat.min 14 (length aad)) as Efirst by (unfold first; destruct (Nat.ltb_spec (length aad) 14); lia).
  assert (take first aad = take 14 aad) as Et.
  { rewrite Efirst. destruct (decide (14 <= length aad)%nat); [by rewrite Nat.min_l by lia | rewrite Nat.min_r, !take_ge by lia; done]. }
  assert (drop first aad = drop 14 aad) as Ed.
  { rewrite Efirst. destruct (decide (14 <= length aad)%nat); [by rewrite Nat.min_l by lia | rewrite Nat.min_r, !drop_ge by lia; done]. }
  rewrite blocks_cons, cbc_mac_cons by done. unfold cbc_mac_block. rewrite HE.
  rewrite cbc_mac_loop_spec.
  2: { rewrite Ed. etransitivity; [| exact Hf]. unfold nblocks. apply Nat.Div0.div_le_mono. rewrite length_drop. lia. }
  rewrite Ed, Et. set (hi := u8 (Z.shiftr (Z.of_nat (length aad)) 8)). set (lo := u8 (Z.of_nat (length aad))).
  assert (be_bytes 2 (Z.of_nat (length aad)) = [hi; lo]) as -> by (cbn [be_bytes]; by rewrite Z.shiftr_0_r).
  assert (splice (<[1%nat:=lo]> (<[0%nat:=hi]> (replicate 16 0))) 2 (take 14 aad) =
    take 16 ([hi; lo] ++ aad) ++ replicate (16 - length (take 16 ([hi; lo] ++ aad))) 0) as ->; [| done].
  unfold splice. cbn [insert list_insert replicate take app length Nat.add drop Nat.sub]. do 3 f_equal.
  apply (drop_replicate (length (take 14 aad)) 14 0).
Qed.

Lemma b0_spec nonce n (aad : list Z) t : length nonce = 12%nat -> (t = 8 \/ t = 16)%nat ->
  ccm_format_b0 nonce (Z.of_nat n) (Z.of_nat (length aad)) (Z.of_nat t) = ccm_b0 nonce n (negb (bool_decide (aad = []))) t /\
  length (ccm_b0 nonce n (negb (bool_decide (aad = []))) t) = 16%nat.
Proof.
  intros Hn Ht. unfold ccm_format_b0, ccm_b0. rewrite take_ge by lia. split.
  - cbn [app]. f_equal. destruct aad as [| x aad]; [rewrite bool_decide_eq_true_2 by done | rewrite bool_decide_eq_false_2 by done].
    + by destruct Ht as [-> | ->].
    + rewrite (proj2 (Z.ltb_lt _ _)) by (cbn; lia). by destruct Ht as [-> | ->].
  - rewrite !length_app, be_bytes_length, Hn. done.
Qed.

Lemma bxor_zeros n (l : list Z) : length l = n -> bxor (replicate n 0) l = l.
Proof. intros <-. induction l as [| x l IH]; [done |]. unfold bxor in *. cbn [length replicate zip_with]. by rewrite IH. Qed.

Lemma ccm_mac_spec fuel nonce aad msg t : (nblocks aad <= fuel)%nat -> (nblocks msg <= fuel)%nat -> Z.of_nat (length aad) < 0xFF00 ->
  length nonce = 12%nat -> (t = 8 \/ t = 16)%nat ->
  ccm_mac fuel aes nonce aad msg (Z.of_nat t) = Some (CCM_mac E nonce aad msg t).
Proof.
  intros Hfa Hfm Ha Hn Ht. unfold ccm_mac. rewrite HE, cbc_mac_aad_spec by done. unfold cbc_mac_msg.
  rewrite cbc_mac_loop_spec by done. destruct (b0_spec nonce (length msg) aad t Hn Ht) as [-> Hl].
  unfold CCM_mac, ccm_blocks, cbc_mac. rewrite !fold_left_app. cbn [fold_left]. by rewrite (bxor_zeros 16) by done.
Qed.

Lemma counter_spec nonce i : length nonce = 12%nat -> ccm_format_ctr nonce (Z.of_nat i) = ccm_counter nonce i.
Proof. intros Hn. unfold ccm_format_ctr, ccm_counter. by rewrite take_ge by lia. Qed.

Lemma ccm_ctr_body_spec input nonce out off i : length nonce = 12%nat -> (off < length input)%nat -> Z.of_nat i < 2 ^ 31 ->
  let b := take 16 (drop off input) in
  ccm_ctr_body aes nonce input (out, off, Z.of_nat i) =
    Some (splice out off (bxor b (E (ccm_counter nonce i))), (off + length b)%nat, Z.of_nat (S i)).
Proof.
  intros Hn Ho Hi b. unfold ccm_ctr_body. rewrite HE, counter_spec by done. rewrite chunk_eq by done.
  unfold sub_list, b. rewrite take_chunk, u32_id by lia. by replace (Z.of_nat i + 1) with (Z.of_nat (S i)) by lia.
Qed.

Lemma ccm_ctr_loop_spec input nonce fuel : length nonce = 12%nat -> Z.of_nat (length input) < 2 ^ 30 ->
  forall out off i, (nblocks (drop off input) <= fuel)%nat -> (length input <= length out)%nat ->
  Z.of_nat i + Z.of_nat (nblocks (drop off input)) < 2 ^ 31 ->
  (fun s => s.1.1) <$> while_opt fuel (fun s => (s.1.2 <? length input)%nat) (ccm_ctr_body aes nonce input) (out, off, Z.of_nat i) =
    Some (splice out off (ctr_mode (fun i => E (ccm_counter nonce i)) i (drop off input))).
Proof.
  intros Hn Hlen. induction fuel as [| fuel IH]; intros out off i Hf Hlo Hi; cbn [while_opt fst snd].
  - assert (drop off input = []) as E0 by (apply nblocks_nil; lia). rewrite E0.
    apply (f_equal length) in E0. rewrite length_drop in E0. cbn in E0.
    rewrite (proj2 (Nat.ltb_ge _ _)) by lia. by rewrite splice_nil.
  - destruct (Nat.ltb_spec off (length input)) as [Ho | Ho].
    2: { rewrite drop_ge by done. by rewrite splice_nil. }
    assert (drop off input <> []) as Hd by (intros Ed%(f_equal length); rewrite length_drop in Ed; cbn in Ed; lia).
    rewrite (nblocks_pos _ Hd) in Hf, Hi. rewrite ccm_ctr_body_spec by (done || lia). cbv zeta. set (b := take 16 (drop off input)).
    assert (drop (off + length b) input = drop 16 (drop off input)) as Eb by (rewrite <- drop_drop; apply drop_chunk).
    set (x := bxor b _). assert (length x = length b) as Hx by (unfold x, b; by apply bxor_take_length).
    assert (off + length b <= length input)%nat by (unfold b; rewrite length_take, length_drop; lia).
    rewrite IH; [| rewrite Eb; lia | rewrite splice_length; lia | rewrite Eb; lia].
    rewrite Eb, (ctr_cons _ i (drop off input)) by done. fold b x. rewrite <- Hx, splice_splice; [done |].
    rewrite ctr_length, Hx, !length_drop by done. unfold b. rewrite length_take, length_drop. lia.
Qed.

Lemma ccm_ctr_crypt_spec fuel out input nonce : length nonce = 12%nat -> Z.of_nat (length input) < 2 ^ 30 ->
  (nblocks input <= fuel)%nat -> (length input <= length out)%nat ->
  ccm_ctr_crypt fuel aes out input nonce = Some (splice out 0 (CCM_ctr E nonce input)).
Proof.
  intros Hn Hl Hf Ho. unfold ccm_ctr_crypt. change 1 with (Z.of_nat 1).
  rewrite ccm_ctr_loop_spec; try done. cbn [drop]. unfold nblocks.
  assert ((length input + 15) / 16 <= length input + 15)%nat by (apply Nat.Div0.div_le_upper_bound; lia).
  rewrite drop_0. lia.
Qed.

Lemma CCM_mac_length nonce aad msg t : length (CCM_mac E nonce aad msg t) = 16%nat /\ bytes (CCM_mac E nonce aad msg t).
Proof.
  unfold CCM_mac, ccm_blocks, cbc_mac. cbn [app fold_left]. generalize (bxor (replicate 16 0) (ccm_b0 nonce (length msg) (negb (bool_decide (aad = []))) t)).
  generalize ((if decide (aad = []) then [] else blocks (be_bytes 2 (Z.of_nat (length aad)) ++ aad)) ++ blocks msg).
  intros bs. induction bs as [| b bs IH]; intros x; [split; [apply HEl | apply HEb] | apply IH].
Qed.

Lemma CCM_tag_length nonce aad msg t : (t <= 16)%nat -> length (CCM_tag E nonce aad msg t) = t.
Proof.
  intros Ht. unfold CCM_tag. destruct (CCM_mac_length nonce aad msg t) as [Hl _].
  rewrite length_take, bxor_length by (by rewrite HEl). lia.
Qed.
End Correct.

(** The cipher of a CPU without AES-NI, by the key. *)
Definition sw_cipher (key x : list Z) : list Z :=
  let nk := (length key / 4)%nat in encrypt_software (expand_key nk (nk + 6) key (replicate 60 0)) (nk + 6) x.

Lemma sw_cipher_length key x : length (sw_cipher key x) = 16%nat.
Proof. done. Qed.

Lemma put_u32_be_bytes v : bytes (put_u32_be v).
Proof. repeat constructor; apply Z.mod_pos_bound; lia. Qed.

Lemma sw_cipher_bytes key x : bytes (sw_cipher key x).
Proof. unfold sw_cipher, encrypt_software. rewrite !bytes_app. repeat split; apply put_u32_be_bytes. Qed.

(** The arguments that are accepted. *)
Definition ccm_args_ok (key aad : list Z) (t pt_len out_size : nat) : Prop :=
  (length key = 16 \/ length key = 32)%nat /\ (t = 8 \/ t = 16)%nat /\
  Z.of_nat pt_len <= 0xFFFFFF /\ Z.of_nat (length aad) < 0xFF00 /\ (pt_len <= out_size)%nat.

#[export] Instance ccm_args_dec key aad t n o : Decision (ccm_args_ok key aad t n o).
Proof. unfold ccm_args_ok. apply _. Defined.

Section Api.
Context {C : Cpu} {I : AesInstr} (calloc_ok : bool) (fuel : nat) (key nonce aad : list Z) (t : nat).
Context (Hhw : opssl_has_aesni && calloc_ok = false) (Hn : length nonce = 12%nat) (Hfa : (nblocks aad <= fuel)%nat).

Lemma ccm_key_ok : (length key = 16 \/ length key = 32)%nat ->
  exists aes, opssl_aes_set_encrypt_key calloc_ok aes_ctx_zero key (if (length key =? 16)%nat then 128 else 256) = Some (1, aes) /\
    forall x, opssl_aes_encrypt_block aes x = Some (sw_cipher key x).
Proof.
  intros Hk. unfold opssl_aes_set_encrypt_key. rewrite Hhw. unfold sw_cipher.
  destruct Hk as [-> | ->]; eexists; (split; [reflexivity | done]).
Qed.

Lemma neither_spec a b c : negb (a =? b)%nat && negb (a =? c)%nat = negb (bool_decide (a = b \/ a = c)).
Proof.
  destruct (Nat.eqb_spec a b), (Nat.eqb_spec a c); cbn [negb andb];
    [rewrite bool_decide_eq_true_2 by lia .. | rewrite bool_decide_eq_false_2 by lia]; done.
Qed.

Lemma ccm_seal_ok out out_len pt : size_ok pt -> (nblocks pt <= fuel)%nat ->
  opssl_aes_ccm_seal fuel calloc_ok out out_len key nonce t pt aad =
    if decide (ccm_args_ok key aad t (length pt) (length out - t) /\ (t <= length out)%nat)
    then Some (1, splice out 0 (CCM_encrypt (sw_cipher key) nonce aad pt t), Z.of_nat (length pt) + Z.of_nat t)
    else Some (0, out, out_len).
Proof.
  intros Hs Hf. unfold opssl_aes_ccm_seal, ccm_args_ok, size_ok, SIZE_MAX in *. rewrite !neither_spec.
  destruct (bool_decide_reflect (length key = 16 \/ length key = 32)%nat) as [Hk | Hk]; cbn [negb].
  2: { rewrite decide_False by tauto. by destruct (_ <? _). }
  destruct (bool_decide_reflect (t = 8 \/ t = 16)%nat) as [Ht | Ht]; cbn [negb].
  2: { rewrite decide_False by tauto. by destruct (_ <? _). }
  destruct (Z.ltb_spec 0xFFFFFF (Z.of_nat (length pt))); [rewrite decide_False by lia; by destruct (_ <? u64 _) |].
  rewrite u64_id by lia.
  destruct (Z.ltb_spec (Z.of_nat (length out)) (Z.of_nat (length pt) + Z.of_nat t)); [rewrite decide_False by lia; done |].
  destruct (Z.leb_spec 0xFF00 (Z.of_nat (length aad))); [rewrite decide_False by lia; done |]. rewrite decide_True by lia.
  destruct (ccm_key_ok Hk) as (aes & Hset & HE). rewrite Hset. set (E := sw_cipher key) in *.
  rewrite (ccm_mac_spec aes E HE) by (done || lia). rewrite (ccm_ctr_crypt_spec aes E HE (sw_cipher_length key)) by (done || lia).
  change (ccm_format_ctr nonce 0) with (ccm_format_ctr nonce (Z.of_nat 0)). rewrite counter_spec, HE by done.
  fold (CCM_tag E nonce aad pt t). unfold CCM_encrypt.
  assert (length (CCM_ctr E nonce pt) = length pt) as Hlc by (unfold CCM_ctr; apply ctr_length; intros; apply sw_cipher_length).
  pose proof (CCM_tag_length E (sw_cipher_length key) (sw_cipher_bytes key) nonce aad pt t ltac:(lia)) as Hlt.
  rewrite <- (splice_splice out 0 (CCM_ctr E nonce pt)) by lia. rewrite Hlc. done.
Qed.

Lemma ccm_recv_tag c s0 pt_len mac : (pt_len + t = length c)%nat -> (t = 8 \/ t = 16)%nat -> length s0 = 16%nat -> bytes s0 -> bytes c ->
  length mac = 16%nat -> bytes mac ->
  (opssl_ct_eq mac (splice (replicate 16 0) 0 (take t (bxor (drop pt_len c) s0))) t =? 0) =
    negb (bool_decide (drop pt_len c = take t (bxor mac s0))).
Proof.
  intros Hc Ht Hs0 Bs0 Bc Hm Bm. set (d := drop pt_len c). assert (length d = t) as Hd by (unfold d; rewrite length_drop; lia).
  assert (bytes d) as Bd by (by apply bytes_drop). set (r := take t (bxor d s0)).
  assert (bxor d s0 = r /\ length r = t) as [Hr Hlr].
  { assert (length (bxor d s0) = t) as Hx by (unfold bxor; rewrite length_zip_with; lia). unfold r. rewrite take_ge by lia. done. }
  assert (bytes r) as Br by (rewrite <- Hr; by apply bxor_bytes).
  pose proof (opssl_ct_eq_iff mac (splice (replicate 16 0) 0 r) t Bm) as Heq.
  assert (length (splice (replicate 16 0) 0 r) = 16%nat) as Hsl by (rewrite splice_length; rewrite length_replicate; lia).
  specialize (Heq ltac:(apply bytes_splice; [solve_bytes | done]) ltac:(lia) ltac:(lia)).
  assert (take t (splice (replicate 16 0) 0 r) = r) as Etk.
  { pose proof (splice_take (replicate 16 0) 0 r ltac:(cbn; lia)) as E. cbn [Nat.add] in E. rewrite Hlr in E. rewrite E. done. }
  rewrite Etk in Heq. rewrite <- (negb_involutive (_ =? 0)), Heq. f_equal. apply bool_decide_ext.
  assert (take t (bxor mac s0) = bxor (take t mac) s0) as ->.
  { apply list_eq_get; [unfold bxor; rewrite length_take, !length_zip_with, length_take; lia |].
    assert (length (take t mac) = t) as Htm by (rewrite length_take; lia).
    intros i Hi. unfold get. rewrite nth_lookup, nth_lookup. rewrite length_take in Hi. rewrite lookup_take_lt by lia.
    unfold bxor. rewrite !lookup_zip_with, lookup_take_lt by lia. done. }
  rewrite <- Hr. assert (length (take t mac) = t) as Htm by (rewrite length_take; lia). split; intros Hx.
  - rewrite Hx, bxor_involutive by lia. done.
  - rewrite Hx, bxor_involutive by lia. done.
Qed.

Lemma ccm_open_ok out out_len c : bytes c -> (nblocks c <= fuel)%nat ->
  opssl_aes_ccm_open fuel calloc_ok out out_len key nonce t c aad =
    if decide (ccm_args_ok key aad t (length c - t) (length out) /\ (t <= length c)%nat) then
      let pt := CCM_ctr (sw_cipher key) nonce (take (length c - t) c) in
      if decide (drop (length c - t) c = CCM_tag (sw_cipher key) nonce aad pt t)
      then Some (1, splice out 0 pt, Z.of_nat (length pt))
      else Some (0, splice out 0 (replicate (length pt) 0), out_len)
    else Some (0, out, out_len).
Proof.
  intros Hc Hf. unfold opssl_aes_ccm_open, ccm_args_ok in *. rewrite !neither_spec.
  destruct (Nat.ltb_spec (length c) t); [rewrite decide_False by lia; done |].
  destruct (Nat.ltb_spec (length out) (length c - t)); [rewrite decide_False by lia; done |].
  destruct (bool_decide_reflect (length key = 16 \/ length key = 32)%nat) as [Hk | Hk]; cbn [negb]; [| by rewrite decide_False by tauto].
  destruct (bool_decide_reflect (t = 8 \/ t = 16)%nat) as [Ht | Ht]; cbn [negb]; [| by rewrite decide_False by tauto].
  destruct (Z.ltb_spec 0xFFFFFF (Z.of_nat (length c - t))); [rewrite decide_False by lia; done |].
  destruct (Z.leb_spec 0xFF00 (Z.of_nat (length aad))); [rewrite decide_False by lia; done |]. rewrite decide_True by lia.
  destruct (ccm_key_ok Hk) as (aes & Hset & HE). rewrite Hset. set (E := sw_cipher key) in *. set (ct := take (length c - t) c).
  assert (length ct = length c - t)%nat as Hct by (unfold ct; rewrite length_take; lia).
  assert (nblocks ct <= fuel)%nat as Hfc by (etransitivity; [| exact Hf]; unfold nblocks; apply Nat.Div0.div_le_mono; lia).
  rewrite (ccm_ctr_crypt_spec aes E HE (sw_cipher_length key)) by (done || lia). cbv zeta. set (pt := CCM_ctr E nonce ct).
  assert (length pt = length ct) as Hpt by (unfold pt, CCM_ctr; apply ctr_length; intros; apply sw_cipher_length).
  change (ccm_format_ctr nonce 0) with (ccm_format_ctr nonce (Z.of_nat 0)). rewrite counter_spec, HE by done.
  assert (take (length c - t) (splice out 0 pt) = pt) as Etk.
  { pose proof (splice_take out 0 pt ltac:(lia)) as Et. cbn [Nat.add] in Et. rewrite Hpt, Hct in Et. rewrite Et. done. }
  rewrite Etk. rewrite (ccm_mac_spec aes E HE) by (done || lia || (rewrite <- Hfc; unfold nblocks; by rewrite Hpt)).
  destruct (CCM_mac_length E (sw_cipher_length key) (sw_cipher_bytes key) nonce aad pt t) as [Hml Hmb].
  rewrite ccm_recv_tag by (done || lia || apply sw_cipher_bytes). fold (CCM_tag E nonce aad pt t).
  destruct (decide _) as [Htag | Htag]; [rewrite bool_decide_eq_true_2 by done | rewrite bool_decide_eq_false_2 by done]; cbn [negb].
  - rewrite Hpt, Hct. done.
  - do 3 f_equal. rewrite Hpt, Hct. unfold splice. rewrite !take_0, !length_replicate. cbn [app Nat.add]. f_equal.
    rewrite Hpt, Hct. rewrite drop_app_ge by lia. rewrite drop_drop. f_equal. lia.
Qed.
End Api.

(** Sealing accepts exactly the argument sizes of CCM with a 12-byte nonce, and
    then writes SP 800-38C's ciphertext and tag for the block cipher in use;
    otherwise it fails leaving the output as it was. *)
Theorem aes_ccm_seal_sp800_38c {C : Cpu} {I : AesInstr} calloc_ok fuel out out_len key nonce t pt aad :
  opssl_has_aesni && calloc_ok = false -> length nonce = 12%nat -> (nblocks aad <= fuel)%nat -> (nblocks pt <= fuel)%nat -> size_ok pt ->
  opssl_aes_ccm_seal fuel calloc_ok out out_len key nonce t pt aad =
    if decide (ccm_args_ok key aad t (length pt) (length out - t) /\ (t <= length out)%nat)
    then Some (1, splice out 0 (CCM_encrypt (sw_cipher key) nonce aad pt t), Z.of_nat (length pt) + Z.of_nat t)
    else Some (0, out, out_len).
Proof. intros. by apply ccm_seal_ok. Qed.

Lemma aes_ccm_seal_sp800_38c_witness :
  @opssl_aes_ccm_seal plain_cpu aes_instr_model 2 true (replicate 30 0) 7 (replicate 16 1) (replicate 12 2) 8 (replicate 20 3) [4; 5] =
    if decide (ccm_args_ok (replicate 16 1) [4; 5] 8 20 22 /\ (8 <= 30)%nat)
    then Some (1, splice (replicate 30 0) 0 (CCM_encrypt (sw_cipher (replicate 16 1)) (replicate 12 2) [4; 5] (replicate 20 3) 8), Z.of_nat 20 + Z.of_nat 8)
    else Some (0, replicate 30 0, 7).
Proof.
  apply (@aes_ccm_seal_sp800_38c plain_cpu aes_instr_model true 2 (replicate 30 0) 7 (replicate 16 1) (replicate 12 2) 8 (replicate 20 3) [4; 5]);
    first [reflexivity | vm_compute; discriminate | vm_compute; apply le_n | vm_compute; apply le_S, le_n].
Defined.

(** Opening succeeds exactly when the trailing bytes are the tag of the decrypted
    message, and a failure after decryption leaves zeros, no plaintext, in the
    output. *)
Theorem aes_ccm_open_authentic {C : Cpu} {I : AesInstr} calloc_ok fuel out out_len key nonce t c aad :
  opssl_has_aesni && calloc_ok = false -> length nonce = 12%nat -> (nblocks aad <= fuel)%nat -> (nblocks c <= fuel)%nat -> bytes c ->
  opssl_aes_ccm_open fuel calloc_ok out out_len key nonce t c aad =
    if decide (ccm_args_ok key aad t (length c - t) (length out) /\ (t <= length c)%nat) then
      let pt := CCM_ctr (sw_cipher key) nonce (take (length c - t) c) in
      if decide (drop (length c - t) c = CCM_tag (sw_cipher key) nonce aad pt t)
      then Some (1, splice out 0 pt, Z.of_nat (length pt))
      else Some (0, splice out 0 (replicate (length pt) 0), out_len)
    else Some (0, out, out_len).
Proof. intros. by apply ccm_open_ok. Qed.

Lemma aes_ccm_open_authentic_witness :
  @opssl_aes_ccm_open plain_cpu aes_instr_model 2 true (replicate 30 9) 7 (replicate 16 1) (replicate 12 2) 8 (replicate 20 3) [4; 5] =
    if decide (ccm_args_ok (replicate 16 1) [4; 5] 8 (20 - 8) 30 /\ (8 <= 20)%nat) then
      let pt := CCM_ctr (sw_cipher (replicate 16 1)) (replicate 12 2) (take (20 - 8) (replicate 20 3)) in
      if decide (drop (20 - 8) (replicate 20 3) = CCM_tag (sw_cipher (replicate 16 1)) (replicate 12 2) [4; 5] pt 8)
      then Some (1, splice (replicate 30 9) 0 pt, Z.of_nat (length pt))
      else Some (0, splice (replicate 30 9) 0 (replicate (length pt) 0), 7)
    else Some (0, replicate 30 9, 7).
Proof.
  apply (@aes_ccm_open_authentic plain_cpu aes_instr_model true 2 (replicate 30 9) 7 (replicate 16 1) (replicate 12 2) 8 (replicate 20 3) [4; 5]);
    first [reflexivity | solve_bytes | vm_compute; apply le_n | vm_compute; apply le_S, le_n].
Defined.

(** Opening what was sealed with the same key, nonce and associated data gives
    the message back. *)
Theorem aes_ccm_roundtrip {C : Cpu} {I : AesInstr} calloc_ok fuel out out_len out2 out_len2 key nonce t pt aad :
  opssl_has_aesni && calloc_ok = false -> length nonce = 12%nat -> (nblocks aad <= fuel)%nat -> (S (nblocks pt) <= fuel)%nat -> bytes pt ->
  ccm_args_ok key aad t (length pt) (length out2) -> length out = (length pt + t)%nat -> length out2 = length pt ->
  exists c, opssl_aes_ccm_seal fuel calloc_ok out out_len key nonce t pt aad = Some (1, c, Z.of_nat (length pt) + Z.of_nat t) /\
    opssl_aes_ccm_open fuel calloc_ok out2 out_len2 key nonce t c aad = Some (1, pt, Z.of_nat (length pt)).
Proof.
  intros Hhw Hn Hfa Hfp Hb Hargs Ho Ho2. pose proof Hargs as (Hk & Ht & Hmax & Ha & _).
  set (E := sw_cipher key). set (ct := CCM_ctr E nonce pt). set (tag := CCM_tag E nonce aad pt t).
  assert (length ct = length pt) as Hlc by (unfold ct, CCM_ctr; apply ctr_length; intros; apply sw_cipher_length).
  assert (length tag = t) as Hlt by (apply CCM_tag_length; [apply sw_cipher_length | apply sw_cipher_bytes | lia]).
  destruct (CCM_mac_length E (sw_cipher_length key) (sw_cipher_bytes key) nonce aad pt t) as [_ Hmb].
  exists (ct ++ tag). split.
  - rewrite ccm_seal_ok; [| done | done | done | unfold size_ok, SIZE_MAX; lia | lia].
    rewrite decide_True by (unfold ccm_args_ok; lia). unfold CCM_encrypt. fold E ct tag.
    rewrite splice_full; [done | rewrite length_app; lia].
  - assert (nblocks (ct ++ tag) <= fuel)%nat as Hfc.
    { etransitivity; [| exact Hfp]. unfold nblocks. rewrite length_app, Hlc, Hlt.
      replace (S ((length pt + 15) / 16)) with ((length pt + 15 + 1 * 16) / 16)%nat by (rewrite Nat.div_add by lia; lia).
      apply Nat.Div0.div_le_mono. lia. }
    rewrite ccm_open_ok; [| done | done | done | | done].
    + rewrite length_app, Hlt. replace (length ct + t - t)%nat with (length ct) by lia.
      rewrite decide_True by (unfold ccm_args_ok; lia). cbv zeta. rewrite take_app_length, drop_app_length. fold E.
      assert (CCM_ctr E nonce ct = pt) as -> by (apply ctr_involutive; intros; apply sw_cipher_length).
      rewrite decide_True by done. rewrite splice_full by done. done.
    + apply bytes_app. split; [apply ctr_bytes; [intros; apply sw_cipher_bytes | done] |].
      apply bytes_take, bxor_bytes; [done | apply sw_cipher_bytes].
Qed.

Lemma aes_ccm_roundtrip_witness :
  exists c, @opssl_aes_ccm_seal plain_cpu aes_instr_model 3 true (replicate 28 0) 7 (replicate 32 1) (replicate 12 2) 8 (replicate 20 3) [4; 5] =
      Some (1, c, Z.of_nat 20 + Z.of_nat 8) /\
    @opssl_aes_ccm_open plain_cpu aes_instr_model 3 true (replicate 20 0) 7 (replicate 32 1) (replicate 12 2) 8 c [4; 5] =
      Some (1, replicate 20 3, Z.of_nat 20).
Proof.
  apply (@aes_ccm_roundtrip plain_cpu aes_instr_model true 3 (replicate 28 0) 7 (replicate 20 0) 7 (replicate 32 1) (replicate 12 2) 8 (replicate 20 3) [4; 5]);
    first [reflexivity | solve_bytes | apply (bool_decide_unpack _); vm_compute; exact I | vm_compute; apply le_n | vm_compute; do 2 apply le_S; apply le_n].
Defined.
