(* ===== verification/GcmSpec.v ===== *)
(** GCM of NIST SP 800-38D for a block cipher and a 96-bit nonce, and the
    multiplication of its field GF(2^128) on 128-bit numbers.

    A block is a list of sixteen bytes; as a number it is read big-endian, so
    that the bit the standard calls [x_0] is bit 127. *)
From S2P Require Import Prelude AesSpec BlockModes.
#[local] Open Scope Z_scope.

(** [R = 11100001 || 0^120] *)
Definition gcm_R : Z := Z.shiftl 0xE1 120.

(** Division by x: the step from [V_i] to [V_(i+1)] in algorithm 1. *)
Definition gdiv (v : Z) : Z := Z.lxor (Z.shiftr v 1) (if Z.odd v then gcm_R else 0).

(** Algorithm 1: [x * y]. *)
Definition gmul_step (x : Z) (i : nat) (zv : Z * Z) : Z * Z :=
  let '(z, v) := zv in
  (Z.lxor z (if Z.testbit x (127 - Z.of_nat i) then v else 0), gdiv v).

Definition gmul128 (x y : Z) : Z := (for_range 0 128 (gmul_step x) (0, y)).1.

(** Algorithm 2 on a sequence of blocks, from the value [y]. *)
Definition GHASH (h y : Z) (bs : list (list Z)) : Z := fold_left (fun y b => gmul128 (Z.lxor y (be_val b)) h) bs y.

(** Section 7.1: associated data and ciphertext padded to blocks, then the block
    of their lengths in bits. *)
Definition gcm_blocks (aad ct : list Z) : list (list Z) :=
  blocks aad ++ blocks ct ++
  [be_bytes 8 (8 * Z.of_nat (length aad)) ++ be_bytes 8 (8 * Z.of_nat (length ct))].

Section Gcm.
Variable E : list Z -> list Z.

Definition gcm_H : Z := be_val (E (replicate 16 0)).

(** The counter block [i]; [J_0] is number 1. *)
Definition gcm_counter (nonce : list Z) (i : nat) : list Z := nonce ++ be_bytes 4 (Z.of_nat i).

Definition GCM_ctr (nonce msg : list Z) : list Z := ctr_mode (fun i => E (gcm_counter nonce i)) 2 msg.

Definition GCM_tag (nonce aad ct : list Z) : list Z :=
  bxor (be_bytes 16 (GHASH gcm_H 0 (gcm_blocks aad ct))) (E (gcm_counter nonce 1)).

Definition GCM_encrypt (nonce aad msg : list Z) : list Z :=
  let ct := GCM_ctr nonce msg in ct ++ GCM_tag nonce aad ct.
End Gcm.

(** Test case 4 of the GCM specification (McGrew and Viega). *)
Definition tc4_key : list Z := be_bytes 16 0xfeffe9928665731c6d6a8f9467308308.
Definition tc4_nonce : list Z := be_bytes 12 0xcafebabefacedbaddecaf888.
Definition tc4_aad : list Z := be_bytes 20 0xfeedfacedeadbeeffeedfacedeadbeefabaddad2.
Definition tc4_msg : list Z := be_bytes 60
  0xd9313225f88406e5a55909c5aff5269a86a7a9531534f7da2e4c303d8a318a721c3c0c95956809532fcf0e2449a6b525b16aedf5aa0de657ba637b39.

Example gcm_vector : be_val (GCM_encrypt (AES tc4_key) tc4_nonce tc4_aad tc4_msg) =
  0x42831ec2217774244b7221b784d0d49ce3aa212f2c02a4e035c17e2329aca12e21d514b25466931c7d8f6a5aac84aa051ba30b396a0aac973d58e0915bc94fbc3221a5db94fae95ae7121a47.
Proof. vm_compute. reflexivity. Qed.

(* ------------------------------------------------------------------ *)
(** * Numbers and bytes *)

Lemma be_val_cons_xor b l : bytes (b :: l) -> be_val (b :: l) = Z.lxor (Z.shiftl b (8 * Z.of_nat (length l))) (be_val l).
Proof.
  intros [_ Hl]%bytes_cons. rewrite be_val_cons. pose proof (be_val_range l Hl) as Hr. rewrite pow256_bits in *.
  rewrite Z.lxor_lor by (apply land_shiftl_0; lia). by rewrite lor_shiftl by lia.
Qed.

Lemma be_val_bxor a b : bytes a -> bytes b -> length a = length b -> be_val (bxor a b) = Z.lxor (be_val a) (be_val b).
Proof.
  revert b. induction a as [| x a IH]; intros [| y b] Ha Hb Hl; try discriminate; [done |].
  pose proof (bxor_bytes _ _ Ha Hb) as Hx. unfold bxor in *. cbn [zip_with] in *.
  rewrite !be_val_cons_xor by done. apply bytes_cons in Ha as [_ Ha]. apply bytes_cons in Hb as [_ Hb]. injection Hl as Hl.
  rewrite IH by done. fold (bxor a b). rewrite bxor_length by done. rewrite <- Hl. rewrite Z.shiftl_lxor.
  apply Z.bits_inj'. intros i Hi. rewrite !Z.lxor_spec. destruct (Z.testbit _ i), (Z.testbit _ i), (Z.testbit _ i), (Z.testbit _ i); done.
Qed.

Lemma be_val_zeros n : be_val (replicate n 0) = 0.
Proof. induction n as [| n IH]; [done |]. cbn [replicate]. rewrite be_val_cons, IH. lia. Qed.

Lemma block_range b : bytes b -> length b = 16%nat -> 0 <= be_val b < 2 ^ 128.
Proof. intros Hb Hl. pose proof (be_val_range b Hb) as H. by rewrite Hl in H. Qed.

(* ------------------------------------------------------------------ *)
(** * The multiplication is linear in each factor *)

Definition r128 (x : Z) : Prop := 0 <= x < 2 ^ 128.

Lemma r128_lxor x y : r128 x -> r128 y -> r128 (Z.lxor x y).
Proof. by apply lxor_range. Qed.

Lemma r128_0 : r128 0.
Proof. unfold r128. lia. Qed.

Lemma r128_if (b : bool) x : r128 x -> r128 (if b then x else 0).
Proof. intros. destruct b; [done | apply r128_0]. Qed.

Lemma gdiv_range v : r128 v -> r128 (gdiv v).
Proof.
  intros Hv. unfold gdiv. apply r128_lxor; [| apply r128_if; unfold r128; vm_compute; split; congruence].
  unfold r128 in *. rewrite shiftr_div by lia. change (2 ^ 1) with 2. Z.div_mod_to_equations; lia.
Qed.

Lemma lxor_if (a b : bool) r : (if xorb a b then r else 0) = Z.lxor (if a then r else 0) (if b then r else 0).
Proof. destruct a, b; cbn [xorb]; by rewrite ?Z.lxor_nilpotent, ?Z.lxor_0_r, ?Z.lxor_0_l. Qed.

Lemma lxor_swap a b c d : Z.lxor (Z.lxor a b) (Z.lxor c d) = Z.lxor (Z.lxor a c) (Z.lxor b d).
Proof. rewrite <- !Z.lxor_assoc. f_equal. rewrite !Z.lxor_assoc. f_equal. apply Z.lxor_comm. Qed.

Lemma odd_lxor a b : Z.odd (Z.lxor a b) = xorb (Z.odd a) (Z.odd b).
Proof. rewrite <- !Z.bit0_odd. apply Z.lxor_spec. Qed.

Lemma gdiv_lxor a b : gdiv (Z.lxor a b) = Z.lxor (gdiv a) (gdiv b).
Proof. unfold gdiv. rewrite Z.shiftr_lxor, odd_lxor, lxor_if. apply lxor_swap. Qed.

Lemma gdiv_0 : gdiv 0 = 0.
Proof. done. Qed.

Lemma lxor_if_r (c : bool) a b : (if c then Z.lxor a b else 0) = Z.lxor (if c then a else 0) (if c then b else 0).
Proof. by destruct c. Qed.

Lemma gmul_loop_range x n y : r128 y -> r128 (for_range 0 n (gmul_step x) (0, y)).1 /\ r128 (for_range 0 n (gmul_step x) (0, y)).2.
Proof.
  intros Hy. apply (for_range_ind (fun _ (s : Z * Z) => r128 s.1 /\ r128 s.2)); [by split; [apply r128_0 |] |].
  intros i [z v] _ [Hz Hv]. cbn [fst snd] in *. split; [apply r128_lxor; [done | by apply r128_if] | by apply gdiv_range].
Qed.

Lemma gmul128_range x y : r128 y -> r128 (gmul128 x y).
Proof. intros Hy. by apply gmul_loop_range. Qed.

Lemma gmul_loop_lxor_r x n a b :
  for_range 0 n (gmul_step x) (0, Z.lxor a b) =
    (Z.lxor (for_range 0 n (gmul_step x) (0, a)).1 (for_range 0 n (gmul_step x) (0, b)).1,
     Z.lxor (for_range 0 n (gmul_step x) (0, a)).2 (for_range 0 n (gmul_step x) (0, b)).2).
Proof.
  induction n as [| n IH]; [done |]. rewrite !for_range_snoc, IH.
  destruct (for_range 0 n (gmul_step x) (0, a)) as [z1 v1], (for_range 0 n (gmul_step x) (0, b)) as [z2 v2]. cbn [fst snd gmul_step].
  rewrite gdiv_lxor, lxor_if_r. f_equal. apply lxor_swap.
Qed.

Lemma gmul128_lxor_r x a b : gmul128 x (Z.lxor a b) = Z.lxor (gmul128 x a) (gmul128 x b).
Proof. unfold gmul128. by rewrite gmul_loop_lxor_r. Qed.

Lemma gmul_loop_lxor_l x x' n y :
  (for_range 0 n (gmul_step (Z.lxor x x')) (0, y)).1 =
    Z.lxor (for_range 0 n (gmul_step x) (0, y)).1 (for_range 0 n (gmul_step x') (0, y)).1 /\
  (for_range 0 n (gmul_step (Z.lxor x x')) (0, y)).2 = (for_range 0 n (gmul_step x) (0, y)).2 /\
  (for_range 0 n (gmul_step x') (0, y)).2 = (for_range 0 n (gmul_step x) (0, y)).2.
Proof.
  induction n as [| n IH]; [done |]. rewrite !for_range_snoc.
  destruct (for_range 0 n (gmul_step (Z.lxor x x')) (0, y)) as [z v], (for_range 0 n (gmul_step x) (0, y)) as [z1 v1],
    (for_range 0 n (gmul_step x') (0, y)) as [z2 v2]. cbn [fst snd gmul_step] in *. destruct IH as (-> & -> & ->).
  split; [| done]. rewrite Z.lxor_spec, lxor_if. apply lxor_swap.
Qed.

Lemma gmul128_lxor_l x x' y : gmul128 (Z.lxor x x') y = Z.lxor (gmul128 x y) (gmul128 x' y).
Proof. apply gmul_loop_lxor_l. Qed.

Lemma GHASH_app h y a b : GHASH h y (a ++ b) = GHASH h (GHASH h y a) b.
Proof. apply fold_left_app. Qed.

Lemma GHASH_range h y bs : r128 h -> r128 y -> r128 (GHASH h y bs).
Proof. intros Hh. revert y. induction bs as [| b bs IH]; intros y Hy; [done |]. apply IH. by apply gmul128_range. Qed.
