(* ===== verification/AesNiGcm.v ===== *)
(** AES-GCM with the AES-NI and PCLMULQDQ instructions: src/crypto/aes_ni.c,
    against NIST SP 800-38D.

    A register is the list of its sixteen bytes for the AES instructions and the
    128-bit number they make up for the arithmetic ones ([load], [store]).
    PCLMULQDQ is not code of the repository: it is the operation of the class
    [Clmul], whose documented behaviour [ClmulSpec] states.  [None] is a loop that
    has not ended within [fuel] iterations. *)
From S2P Require Import Prelude Platform AesSpec AesNi BlockModes GcmSpec.
#[local] Open Scope Z_scope.

(* ------------------------------------------------------------------ *)
(** * Registers and instructions *)

Definition load (p : list Z) : Z := le_val (take 16 p).
Definition store (v : Z) : list Z := le_bytes 16 v.

Definition lo64 (v : Z) : Z := v mod 2 ^ 64.
Definition hi64 (v : Z) : Z := Z.shiftr v 64.
Definition mk_reg (hi lo : Z) : Z := Z.shiftl hi 64 + lo.

(** Carry-less product of two 64-bit numbers. *)
Fixpoint clmul_n (n : nat) (a b : Z) : Z :=
  match n with
  | O => 0
  | S n => Z.lxor (if Z.odd b then a else 0) (Z.double (clmul_n n a (Z.div2 b)))
  end.

Definition clmul (a b : Z) : Z := clmul_n 64 a b.

Definition half (v imm : Z) : Z := if Z.testbit imm 0 then hi64 v else lo64 v.

Class Clmul := { mm_clmulepi64_si128 : Z -> Z -> Z -> Z }.

Class ClmulSpec (I : Clmul) : Prop := {
  clmul_spec a b imm : mm_clmulepi64_si128 a b imm = clmul (half a imm) (half b (Z.shiftr imm 4)) }.

#[export] Instance clmul_model : Clmul := {|
  mm_clmulepi64_si128 a b imm := clmul (half a imm) (half b (Z.shiftr imm 4)) |}.

#[export] Instance clmul_model_spec : ClmulSpec clmul_model.
Proof. by split. Qed.

(** Shifts by bytes and by bits of each 64-bit lane, subtraction by lane, the two
    permutations used of the double words. *)
Definition slli_bytes (v n : Z) : Z := Z.shiftl v (8 * n) mod 2 ^ 128.
Definition srli_bytes (v n : Z) : Z := Z.shiftr v (8 * n).
Definition srli_epi64 (v n : Z) : Z := mk_reg (Z.shiftr (hi64 v) n) (Z.shiftr (lo64 v) n).
Definition slli_epi64 (v n : Z) : Z := mk_reg (lo64 (Z.shiftl (hi64 v) n)) (lo64 (Z.shiftl (lo64 v) n)).
Definition sub_epi64 (a b : Z) : Z := mk_reg (u64 (hi64 a - hi64 b)) (u64 (lo64 a - lo64 b)).
Definition shuffle_44 (v : Z) : Z := mk_reg (lo64 v) (lo64 v).
Definition shuffle_4E (v : Z) : Z := mk_reg (lo64 v) (hi64 v).

(** [_mm_shuffle_epi8] with the mask that reverses the bytes. *)
Definition bswap128 (v : Z) : Z := le_val (rev (store v)).

(* ------------------------------------------------------------------ *)
(** * aes_ni.c *)

Definition mul_by_x (h : Z) : Z :=
  let carry := srli_epi64 h 63 in
  let shifted := slli_epi64 h 1 in
  let carry := slli_bytes carry 8 in
  let shifted := Z.lor shifted carry in
  let msb := srli_epi64 h 63 in
  let test := srli_bytes msb 8 in
  let mask := sub_epi64 0 test in
  let mask := shuffle_44 mask in
  let red := mk_reg 0xC200000000000000 1 in
  Z.lxor shifted (Z.land mask red).

(** [inc_counter]: the last 32 bits, big-endian. *)
Definition inc_counter (ctr : Z) : Z :=
  let ctr := bswap128 ctr in
  let c32 := Z.lor (Z.shiftl (Z.shiftr ctr 32) 32) (u32 (ctr + 1)) in
  let mask := 0xFFFFFFFF in
  let ctr := Z.lor (Z.land (Z.lnot mask) ctr) (Z.land mask c32) in
  bswap128 ctr.

Definition set_epi64x (hi lo : Z) : Z := mk_reg hi lo.

(** The powers of the hash key. *)
Record ghash_key := mk_hkey { H1 : Z; H2 : Z; H3 : Z; H4 : Z; H5 : Z; H6 : Z; H7 : Z; H8 : Z }.

Section NiGcm.
Context `{AesInstr} `{Clmul}.

Definition gfmul_reduce (lo mid hi : Z) : Z :=
  let lo := Z.lxor lo (slli_bytes mid 8) in
  let hi := Z.lxor hi (srli_bytes mid 8) in
  let poly := set_epi64x 0 0xC200000000000000 in
  let r := mm_clmulepi64_si128 lo poly 0x00 in
  let lo := Z.lxor (shuffle_4E lo) r in
  let r := mm_clmulepi64_si128 lo poly 0x00 in
  Z.lxor (Z.lxor (shuffle_4E lo) r) hi.

Definition gfmul (a b : Z) : Z :=
  let lo := mm_clmulepi64_si128 a b 0x00 in
  let hi := mm_clmulepi64_si128 a b 0x11 in
  let mid := Z.lxor (mm_clmulepi64_si128 a b 0x01) (mm_clmulepi64_si128 a b 0x10) in
  gfmul_reduce lo mid hi.

(** The accumulators (lo, mid, hi). *)
Definition gfmul_accum (a b : Z) (acc : Z * Z * Z) : Z * Z * Z :=
  let '(lo, mid, hi) := acc in
  (Z.lxor lo (mm_clmulepi64_si128 a b 0x00),
   Z.lxor mid (Z.lxor (mm_clmulepi64_si128 a b 0x01) (mm_clmulepi64_si128 a b 0x10)),
   Z.lxor hi (mm_clmulepi64_si128 a b 0x11)).

Definition hash_keys (h : Z) : ghash_key :=
  let k1 := mul_by_x (bswap128 h) in
  let k2 := gfmul k1 k1 in let k3 := gfmul k2 k1 in let k4 := gfmul k3 k1 in
  let k5 := gfmul k4 k1 in let k6 := gfmul k5 k1 in let k7 := gfmul k6 k1 in let k8 := gfmul k7 k1 in
  mk_hkey k1 k2 k3 k4 k5 k6 k7 k8.

Record aesni_gcm_ctx_t := mk_ni_gcm { ni_aes : aesni_ctx; ni_H : ghash_key }.

Definition aesni_gcm_init (key : list Z) : aesni_gcm_ctx_t :=
  let aes := if (length key =? 16)%nat then aesni_expand_key_128 key else aesni_expand_key_256 key in
  mk_ni_gcm aes (hash_keys (load (aesni_encrypt_block aes (store 0)))).

(** The block [i] of the data, byte-swapped. *)
Definition swapped (data : list Z) (i : nat) : Z := bswap128 (load (drop (16 * i) data)).

(** Eight blocks, and four, with one reduction. *)
Definition ghash8 (k : ghash_key) (state : Z) (data : list Z) : Z :=
  let d0 := Z.lxor state (swapped data 0) in
  let acc := (0, 0, 0) in
  let acc := gfmul_accum d0 (H8 k) acc in
  let acc := gfmul_accum (swapped data 1) (H7 k) acc in
  let acc := gfmul_accum (swapped data 2) (H6 k) acc in
  let acc := gfmul_accum (swapped data 3) (H5 k) acc in
  let acc := gfmul_accum (swapped data 4) (H4 k) acc in
  let acc := gfmul_accum (swapped data 5) (H3 k) acc in
  let acc := gfmul_accum (swapped data 6) (H2 k) acc in
  let '(lo, mid, hi) := gfmul_accum (swapped data 7) (H1 k) acc in
  gfmul_reduce lo mid hi.

Definition ghash4 (k : ghash_key) (state : Z) (data : list Z) : Z :=
  let d0 := Z.lxor state (swapped data 0) in
  let acc := (0, 0, 0) in
  let acc := gfmul_accum d0 (H4 k) acc in
  let acc := gfmul_accum (swapped data 1) (H3 k) acc in
  let acc := gfmul_accum (swapped data 2) (H2 k) acc in
  let '(lo, mid, hi) := gfmul_accum (swapped data 3) (H1 k) acc in
  gfmul_reduce lo mid hi.

Variable fuel : nat.

(** The state, the data left and the number of blocks left. *)
Definition ghash_blocks (k : ghash_key) (state : Z) (data : list Z) (nblocks : nat) : option Z :=
  match while_fuel fuel (fun s : Z * list Z * nat => (8 <=? s.2)%nat)
          (fun s => (ghash8 k s.1.1 s.1.2, drop 128 s.1.2, (s.2 - 8)%nat)) (state, data, nblocks) with
  | None => None
  | Some s =>
    match while_fuel fuel (fun s : Z * list Z * nat => (4 <=? s.2)%nat)
            (fun s => (ghash4 k s.1.1 s.1.2, drop 64 s.1.2, (s.2 - 4)%nat)) s with
    | None => None
    | Some s =>
      match while_fuel fuel (fun s : Z * list Z * nat => (0 <? s.2)%nat)
              (fun s => (gfmul (Z.lxor s.1.1 (swapped s.1.2 0)) (H1 k), drop 16 s.1.2, (s.2 - 1)%nat)) s with
      | None => None
      | Some s => Some s.1.1
      end
    end
  end.

Definition ghash_update (k : ghash_key) (state : Z) (data : list Z) : option Z :=
  let len := length data in
  let nblocks := (len / 16)%nat in
  match (if (0 <? nblocks)%nat then ghash_blocks k state data nblocks else Some state) with
  | None => None
  | Some state =>
    let rem := Z.to_nat (Z.land (Z.of_nat len) 0xF) in
    if (0 <? rem)%nat then
      let pad := splice (replicate 16 0) 0 (take rem (drop (nblocks * 16) data)) in
      Some (gfmul (Z.lxor state (swapped pad 0)) (H1 k))
    else Some state
  end.

(** The counter after [n] increments. *)
Definition ctr_plus (ctr : Z) (n : nat) : Z := for_range 0 n (fun _ c => inc_counter c) ctr.

(** Eight blocks of counter mode at [offset]. *)
Definition ctr8 (aes : aesni_ctx) (ctr : Z) (input out : list Z) (offset : nat) : list Z :=
  for_range 0 8 (fun i out =>
    let k := aesni_encrypt_block aes (store (ctr_plus ctr (S i))) in
    splice out (offset + 16 * i) (bxor (sub_list (offset + 16 * i) 16 input) k)) out.

(** The loop over whole blocks, the last partial block: the output. *)
Definition ctr1_body (aes : aesni_ctx) (input : list Z) (s : Z * list Z * nat) : Z * list Z * nat :=
  let '(ctr, out, offset) := s in
  let ctr := inc_counter ctr in
  let ks := aesni_encrypt_block aes (store ctr) in
  (ctr, splice out offset (bxor (sub_list offset 16 input) ks), (offset + 16)%nat).

Definition ctr_tail (aes : aesni_ctx) (input : list Z) (s : Z * list Z * nat) : option (list Z) :=
  match while_fuel fuel (fun s : Z * list Z * nat => (s.2 + 16 <=? length input)%nat) (ctr1_body aes input) s with
  | None => None
  | Some (ctr, out, offset) =>
    if (offset <? length input)%nat then
      let ctr := inc_counter ctr in
      let ks := aesni_encrypt_block aes (store ctr) in
      Some (splice out offset (bxor (drop offset input) ks))
    else Some out
  end.

(** The fused loop of [opssl_aesni_gcm_seal]. *)
Record seal_state := mk_seal { ss_hash : Z; ss_ctr : Z; ss_offset : nat; ss_prev : bool; ss_out : list Z }.

Definition seal_body (ctx : aesni_gcm_ctx_t) (plaintext : list Z) (s : seal_state) : seal_state :=
  let ctr := ctr_plus (ss_ctr s) 8 in
  let hash := if ss_prev s then ghash8 (ni_H ctx) (ss_hash s) (drop (ss_offset s - 128) (ss_out s)) else ss_hash s in
  let out := ctr8 (ni_aes ctx) (ss_ctr s) plaintext (ss_out s) (ss_offset s) in
  mk_seal hash ctr (ss_offset s + 128) true out.

Definition gcm_j0 (nonce : list Z) : Z := load (take 12 nonce ++ [0; 0; 0; 1]).

Definition gcm_lengths (aad_len pt_len : nat) : list Z :=
  opssl_put_be64 (u64 (Z.of_nat aad_len * 8)) ++ opssl_put_be64 (u64 (Z.of_nat pt_len * 8)).

(** The last block and the tag. *)
Definition gcm_finish (ctx : aesni_gcm_ctx_t) (j0 hash : Z) (aad_len pt_len : nat) : list Z :=
  let len_block := swapped (gcm_lengths aad_len pt_len) 0 in
  let hash := gfmul (Z.lxor hash len_block) (H1 (ni_H ctx)) in
  let tag_mask := aesni_encrypt_block (ni_aes ctx) (store j0) in
  bxor (store (bswap128 hash)) tag_mask.

Definition opssl_aesni_gcm_seal (out : list Z) (out_len : Z) (key nonce plaintext aad : list Z) : option (Z * list Z * Z) :=
  let pt_len := length plaintext in
  if SIZE_MAX - 16 <? Z.of_nat pt_len then Some (0, out, out_len) else
  let needed := Z.of_nat pt_len + 16 in
  if Z.of_nat (length out) <? needed then Some (0, out, out_len) else
  if negb (length key =? 16)%nat && negb (length key =? 32)%nat then Some (0, out, out_len) else
  let ctx := aesni_gcm_init key in
  let j0 := gcm_j0 nonce in
  match (if (0 <? length aad)%nat then ghash_update (ni_H ctx) 0 aad else Some 0) with
  | None => None
  | Some hash =>
    match while_fuel fuel (fun s => (ss_offset s + 128 <=? pt_len)%nat) (seal_body ctx plaintext) (mk_seal hash j0 0 false out) with
    | None => None
    | Some s =>
      let hash := if ss_prev s then ghash8 (ni_H ctx) (ss_hash s) (drop (ss_offset s - 128) (ss_out s)) else ss_hash s in
      let fused_end := ss_offset s in
      match ctr_tail (ni_aes ctx) plaintext (ss_ctr s, ss_out s, ss_offset s) with
      | None => None
      | Some out =>
        match (if (fused_end <? pt_len)%nat then ghash_update (ni_H ctx) hash (sub_list fused_end (pt_len - fused_end) out)
               else Some hash) with
        | None => None
        | Some hash => Some (1, splice out pt_len (gcm_finish ctx j0 hash (length aad) pt_len), needed)
        end
      end
    end
  end.

Definition opssl_aesni_gcm_open (out : list Z) (out_len : Z) (key nonce ciphertext aad : list Z) : option (Z * list Z * Z) :=
  if (length ciphertext <? 16)%nat then Some (0, out, out_len) else
  let pt_len := (length ciphertext - 16)%nat in
  if (length out <? pt_len)%nat then Some (0, out, out_len) else
  if negb (length key =? 16)%nat && negb (length key =? 32)%nat then Some (0, out, out_len) else
  let ctx := aesni_gcm_init key in
  let j0 := gcm_j0 nonce in
  match (if (0 <? length aad)%nat then ghash_update (ni_H ctx) 0 aad else Some 0) with
  | None => None
  | Some hash =>
    match ghash_update (ni_H ctx) hash (take pt_len ciphertext) with
    | None => None
    | Some hash =>
      let expected := gcm_finish ctx j0 hash (length aad) pt_len in
      let received := drop pt_len ciphertext in
      if opssl_ct_eq expected received 16 =? 0 then Some (0, out, out_len) else
      let input := take pt_len ciphertext in
      match while_fuel fuel (fun s : Z * list Z * nat => (s.2 + 128 <=? pt_len)%nat)
              (fun s => (ctr_plus s.1.1 8, ctr8 (ni_aes ctx) s.1.1 input s.1.2 s.2, (s.2 + 128)%nat)) (j0, out, 0%nat) with
      | None => None
      | Some (ctr, out, offset) =>
        match ctr_tail (ni_aes ctx) input (ctr, out, offset) with
        | None => None
        | Some out => Some (1, out, Z.of_nat pt_len)
        end
      end
    end
  end.
End NiGcm.
