(* ===== verification/Gf128.v ===== *)
(** The multiplication of GCM is commutative and associative, and the PCLMULQDQ
    multiplication of src/crypto/aes_ni.c computes it.

    Both are linear in each factor, so that they are compared on the powers of
    two; [gdiv] is division by x, and a power of two is a power of [gdiv] on the
    unit [2^127]. *)
From S2P Require Import Prelude AesSpec AesNi BlockModes GcmSpec AesNiGcm.
#[local] Open Scope Z_scope.

(* ------------------------------------------------------------------ *)
(** * Linear functions *)

Record additive (f : Z -> Z) : Prop := {
  ad_lxor : forall a b, f (Z.lxor a b) = Z.lxor (f a) (f b);
  ad_0 : f 0 = 0 }.

Lemma split_top x n : 0 <= x < 2 ^ (n + 1) -> 0 <= n ->
  x = Z.lxor (x mod 2 ^ n) (if Z.testbit x n then 2 ^ n else 0).
Proof.
  intros Hx Hn. apply Z.bits_inj'. intros i Hi. rewrite Z.lxor_spec.
  assert (Z.testbit (if Z.testbit x n then 2 ^ n else 0) i = (Z.testbit x n && (n =? i))%bool) as ->.
  { destruct (Z.testbit x n); [by rewrite Z.pow2_bits_eqb | by rewrite Z.bits_0]. }
  destruct (Z.lt_ge_cases i n).
  - rewrite Z.mod_pow2_bits_low by lia. rewrite (proj2 (Z.eqb_neq n i)) by lia. by rewrite andb_false_r, xorb_false_r.
  - rewrite Z.mod_pow2_bits_high by lia. destruct (Z.eqb_spec n i) as [-> | Hne]; [by rewrite andb_true_r |].
    rewrite andb_false_r. rewrite <- (Z.mod_small x (2 ^ (n + 1))), Z.mod_pow2_bits_high by lia. done.
Qed.

(** Additive functions that agree on the powers of two agree. *)
Lemma lin_ext f g (n : nat) : additive f -> additive g ->
  (forall i, (i < n)%nat -> f (2 ^ Z.of_nat i) = g (2 ^ Z.of_nat i)) ->
  forall x, 0 <= x < 2 ^ Z.of_nat n -> f x = g x.
Proof.
  intros [Hf Hf0] [Hg Hg0] Hb. induction n as [| n IH]; intros x Hx.
  - assert (x = 0) as -> by (cbn in Hx; lia). by rewrite Hf0, Hg0.
  - rewrite Nat2Z.inj_succ in Hx. rewrite (split_top x (Z.of_nat n)) by lia. rewrite Hf, Hg. f_equal.
    + apply IH; [intros i Hi; apply Hb; lia | apply Z.mod_pos_bound, Z.pow_pos_nonneg; lia].
    + destruct (Z.testbit x (Z.of_nat n)); [apply Hb; lia | by rewrite Hf0, Hg0].
Qed.

Lemma lin_ext128 f g : additive f -> additive g ->
  (forall i, (i < 128)%nat -> f (2 ^ Z.of_nat i) = g (2 ^ Z.of_nat i)) -> forall x, r128 x -> f x = g x.
Proof. intros Hf Hg Hb x Hx. by apply (lin_ext f g 128). Qed.

Lemma additive_comp f g : additive f -> additive g -> additive (fun x => f (g x)).
Proof. intros [Hf Hf0] [Hg Hg0]. split; [intros; by rewrite Hg, Hf | by rewrite Hg0]. Qed.

Lemma additive_lxor f g : additive f -> additive g -> additive (fun x => Z.lxor (f x) (g x)).
Proof. intros [Hf Hf0] [Hg Hg0]. split; [intros; rewrite Hf, Hg; apply lxor_swap | by rewrite Hf0, Hg0]. Qed.

Lemma additive_gdiv : additive gdiv.
Proof. split; [apply gdiv_lxor | done]. Qed.

Lemma gmul_0_l y : gmul128 0 y = 0.
Proof. rewrite <- (Z.lxor_nilpotent 0), gmul128_lxor_l. apply Z.lxor_nilpotent. Qed.

Lemma gmul_0_r x : gmul128 x 0 = 0.
Proof. rewrite <- (Z.lxor_nilpotent 0), gmul128_lxor_r. apply Z.lxor_nilpotent. Qed.

Lemma additive_gmul_l y : additive (fun x => gmul128 x y).
Proof. split; [intros; apply gmul128_lxor_l | apply gmul_0_l]. Qed.

Lemma additive_gmul_r x : additive (gmul128 x).
Proof. split; [apply gmul128_lxor_r | apply gmul_0_r]. Qed.

(* ------------------------------------------------------------------ *)
(** * Powers of division by x *)

Definition gdivs (n : nat) (v : Z) : Z := Nat.iter n gdiv v.

Lemma gdivs_add n m v : gdivs (n + m) v = gdivs n (gdivs m v).
Proof. apply Nat.iter_add. Qed.

Lemma gdivs_range n v : r128 v -> r128 (gdivs n v).
Proof. intros Hv. induction n as [| n IH]; [done | by apply gdiv_range]. Qed.

Lemma pow2_gdivs i : (i < 128)%nat -> 2 ^ Z.of_nat i = gdivs (127 - i) (2 ^ 127).
Proof.
  intros Hi. apply Z.eqb_eq.
  assert (forallb (fun i => 2 ^ Z.of_nat i =? gdivs (127 - i) (2 ^ 127)) (seq 0 128) = true) as H by (vm_compute; reflexivity).
  rewrite forallb_forall in H. apply H, in_seq. lia.
Qed.

Lemma pow2_r128 i : (i < 128)%nat -> r128 (2 ^ Z.of_nat i).
Proof. intros Hi. split; [apply Z.pow_nonneg; lia | apply Z.pow_lt_mono_r; lia]. Qed.

(** Multiplication by a power of two is repeated division by x. *)
Lemma gmul_pow2_l i y : (i < 128)%nat -> gmul128 (2 ^ Z.of_nat i) y = gdivs (127 - i) y.
Proof.
  intros Hi. unfold gmul128.
  assert (forall n, (n <= 128)%nat -> for_range 0 n (gmul_step (2 ^ Z.of_nat i)) (0, y) =
    (if (n <=? 127 - i)%nat then 0 else gdivs (127 - i) y, gdivs n y)) as H.
  { induction n as [| n IH]; intros Hn; [done |]. rewrite for_range_snoc, IH by lia. cbn [gmul_step].
    rewrite Z.pow2_bits_eqb by lia. cbn [Nat.add].
    assert (gdiv (gdivs n y) = gdivs (S n) y) as -> by done.
    destruct (Z.eqb_spec (Z.of_nat i) (127 - Z.of_nat n)) as [E | E].
    - destruct (Nat.leb_spec n (127 - i)); [| lia]. destruct (Nat.leb_spec (S n) (127 - i)); [lia |].
      rewrite Z.lxor_0_l. by replace (127 - i)%nat with n by lia.
    - rewrite Z.lxor_0_r. destruct (Nat.leb_spec n (127 - i)), (Nat.leb_spec (S n) (127 - i)); (done || lia). }
  rewrite H by done. destruct (Nat.leb_spec 128 (127 - i)); [lia | done].
Qed.

Lemma additive_gdivs n : additive (gdivs n).
Proof.
  induction n as [| n IH]; [by split |]. exact (additive_comp gdiv (gdivs n) additive_gdiv IH).
Qed.

Lemma gmul_comm x y : r128 x -> r128 y -> gmul128 x y = gmul128 y x.
Proof.
  intros Hx Hy. revert x Hx. apply lin_ext128; [apply additive_gmul_l | apply additive_gmul_r |].
  intros i Hi. rewrite gmul_pow2_l by done. revert y Hy.
  apply lin_ext128; [apply additive_gdivs | apply additive_gmul_l |].
  intros j Hj. rewrite gmul_pow2_l by done. rewrite (pow2_gdivs i), (pow2_gdivs j) by done.
  rewrite <- !gdivs_add. f_equal. lia.
Qed.

Lemma gmul_gdivs_r n x y : r128 x -> gmul128 x (gdivs n y) = gdivs n (gmul128 x y).
Proof.
  intros Hx. revert x Hx. apply lin_ext128.
  - apply additive_gmul_l.
  - apply (additive_comp (gdivs n)); [apply additive_gdivs | apply additive_gmul_l].
  - intros i Hi. rewrite !gmul_pow2_l by done. rewrite <- !gdivs_add. f_equal. lia.
Qed.

Lemma gmul_gdivs_l n x y : r128 x -> r128 y -> gmul128 (gdivs n x) y = gdivs n (gmul128 x y).
Proof.
  intros Hx Hy. rewrite gmul_comm, gmul_gdivs_r, (gmul_comm y x) by (done || by apply gdivs_range). done.
Qed.

Lemma gdivs_1 v : gdivs 1 v = gdiv v.
Proof. done. Qed.

Lemma gmul_gdiv_l x y : r128 x -> r128 y -> gmul128 (gdiv x) y = gdiv (gmul128 x y).
Proof. intros Hx Hy. pose proof (gmul_gdivs_l 1 x y Hx Hy) as H. rewrite (gdivs_1 x), (gdivs_1 (gmul128 x y)) in H. exact H. Qed.

Lemma gmul_assoc a b c : r128 a -> r128 b -> r128 c -> gmul128 (gmul128 a b) c = gmul128 a (gmul128 b c).
Proof.
  intros Ha Hb Hc. revert a Ha. apply lin_ext128.
  - apply (additive_comp (fun x => gmul128 x c)); apply additive_gmul_l.
  - apply additive_gmul_l.
  - intros i Hi. rewrite !gmul_pow2_l by done. by apply gmul_gdivs_l.
Qed.

(* ------------------------------------------------------------------ *)
(** * The instruction sequence *)

Lemma double_lxor a b : Z.double (Z.lxor a b) = Z.lxor (Z.double a) (Z.double b).
Proof. rewrite !Z.double_spec, !(Z.mul_comm 2), <- !(Z.shiftl_mul_pow2 _ 1) by lia. apply Z.shiftl_lxor. Qed.

Lemma div2_lxor a b : Z.div2 (Z.lxor a b) = Z.lxor (Z.div2 a) (Z.div2 b).
Proof. rewrite !Z.div2_spec. apply Z.shiftr_lxor. Qed.

Lemma clmul_n_lxor_l n : forall a a' b, clmul_n n (Z.lxor a a') b = Z.lxor (clmul_n n a b) (clmul_n n a' b).
Proof.
  induction n as [| n IH]; intros a a' b; [done |]. cbn [clmul_n]. rewrite IH, double_lxor, lxor_if_r. apply lxor_swap.
Qed.

Lemma clmul_n_lxor_r n : forall a b b', clmul_n n a (Z.lxor b b') = Z.lxor (clmul_n n a b) (clmul_n n a b').
Proof.
  induction n as [| n IH]; intros a b b'; [done |]. cbn [clmul_n]. rewrite odd_lxor, lxor_if, div2_lxor, IH, double_lxor. apply lxor_swap.
Qed.

Lemma clmul_n_0_r n a : clmul_n n a 0 = 0.
Proof. rewrite <- (Z.lxor_nilpotent 0), clmul_n_lxor_r. apply Z.lxor_nilpotent. Qed.

Lemma clmul_n_0_l n b : clmul_n n 0 b = 0.
Proof. rewrite <- (Z.lxor_nilpotent 0), clmul_n_lxor_l. apply Z.lxor_nilpotent. Qed.

Lemma clmul_n_range n : forall a b k, 0 <= k -> 0 <= a < 2 ^ k -> 0 <= clmul_n n a b < 2 ^ (k + Z.of_nat n).
Proof.
  induction n as [| n IH]; intros a b k Hk Ha; cbn [clmul_n]; [pose proof (Z.pow_pos_nonneg 2 (k + Z.of_nat 0) ltac:(lia) ltac:(lia)); lia |].
  assert (2 ^ k <= 2 ^ (k + Z.of_nat (S n))) by (apply Z.pow_le_mono_r; lia).
  apply lxor_range; [lia | destruct (Z.odd b); lia |]. specialize (IH a (Z.div2 b) k Hk Ha). rewrite Z.double_spec.
  replace (k + Z.of_nat (S n)) with (Z.succ (k + Z.of_nat n)) by lia. rewrite Z.pow_succ_r by lia. lia.
Qed.

Lemma clmul_n_pow2 n : forall i j, (j < n)%nat -> clmul_n n (2 ^ Z.of_nat i) (2 ^ Z.of_nat j) = 2 ^ Z.of_nat (i + j).
Proof.
  induction n as [| n IH]; intros i j Hj; [lia |]. cbn [clmul_n]. destruct j as [| j].
  - cbn [Z.of_nat]. change (2 ^ 0) with 1. cbn [Z.odd Z.div2]. rewrite clmul_n_0_r, Nat.add_0_r. cbn [Z.double]. apply Z.lxor_0_r.
  - assert (forall x, Z.odd (2 * x) = false) as Hodd by (intros; by rewrite Z.odd_mul).
    assert (forall x, Z.div2 (2 * x) = x) as Hdiv by (intros; rewrite Z.div2_div, Z.mul_comm, Z.div_mul; lia).
    rewrite Nat2Z.inj_succ, Z.pow_succ_r, Hodd, Hdiv by lia. rewrite Z.lxor_0_l, IH, Z.double_spec by lia.
    rewrite Nat.add_succ_r, Nat2Z.inj_succ, Z.pow_succ_r by lia. done.
Qed.

Definition P64 : Z := 0xC200000000000000.

(** The reduction, with every operation linear on all numbers. *)
Definition swap_x (v : Z) : Z := Z.lxor (Z.shiftl (lo64 v) 64) (hi64 v).
Definition red_step (v : Z) : Z := Z.lxor (swap_x v) (clmul (lo64 v) P64).
Definition red_x (lo mid hi : Z) : Z :=
  Z.lxor (red_step (red_step (Z.lxor lo (slli_bytes mid 8)))) (Z.lxor hi (srli_bytes mid 8)).

Definition gf_x (a b : Z) : Z :=
  red_x (clmul (lo64 a) (lo64 b)) (Z.lxor (clmul (hi64 a) (lo64 b)) (clmul (lo64 a) (hi64 b))) (clmul (hi64 a) (hi64 b)).

Lemma lo64_range v : 0 <= lo64 v < 2 ^ 64.
Proof. apply Z.mod_pos_bound. lia. Qed.

Lemma hi64_range v : r128 v -> 0 <= hi64 v < 2 ^ 64.
Proof. intros Hv. unfold hi64, r128 in *. rewrite shiftr_div by lia. split; [apply Z.div_pos; lia | apply Z.div_lt_upper_bound; lia]. Qed.

Lemma clmul_r128 a b : 0 <= a < 2 ^ 64 -> r128 (clmul a b).
Proof. intros Ha. apply (clmul_n_range 64 a b 64); lia. Qed.

Lemma slli_r128 v n : r128 (slli_bytes v n).
Proof. apply Z.mod_pos_bound. lia. Qed.

Lemma swap_eq v : r128 v -> shuffle_4E v = swap_x v.
Proof.
  intros Hv. unfold shuffle_4E, swap_x, mk_reg. pose proof (hi64_range v Hv).
  rewrite Z.lxor_lor by (apply land_shiftl_0; lia). rewrite lor_shiftl, Z.shiftl_mul_pow2 by lia. done.
Qed.

Lemma swap_r128 v : r128 v -> r128 (swap_x v).
Proof.
  intros Hv. apply r128_lxor.
  - pose proof (lo64_range v). unfold r128. rewrite Z.shiftl_mul_pow2 by lia. lia.
  - pose proof (hi64_range v Hv). unfold r128. lia.
Qed.

Lemma lo64_lxor a b : lo64 (Z.lxor a b) = Z.lxor (lo64 a) (lo64 b).
Proof. by apply lxor_mod. Qed.

Lemma hi64_lxor a b : hi64 (Z.lxor a b) = Z.lxor (hi64 a) (hi64 b).
Proof. apply Z.shiftr_lxor. Qed.

Lemma slli_lxor a b n : 0 <= n -> slli_bytes (Z.lxor a b) n = Z.lxor (slli_bytes a n) (slli_bytes b n).
Proof. intros. unfold slli_bytes. by rewrite Z.shiftl_lxor, lxor_mod by lia. Qed.

Lemma swap_lxor a b : swap_x (Z.lxor a b) = Z.lxor (swap_x a) (swap_x b).
Proof. unfold swap_x. rewrite lo64_lxor, hi64_lxor, Z.shiftl_lxor. apply lxor_swap. Qed.

Lemma red_step_lxor a b : red_step (Z.lxor a b) = Z.lxor (red_step a) (red_step b).
Proof. unfold red_step, clmul. rewrite swap_lxor, lo64_lxor, clmul_n_lxor_l. apply lxor_swap. Qed.

Lemma red_step_r128 v : r128 v -> r128 (red_step v).
Proof. intros Hv. apply r128_lxor; [by apply swap_r128 | apply clmul_r128, lo64_range]. Qed.

Lemma red_lxor l m h l' m' h' : red_x (Z.lxor l l') (Z.lxor m m') (Z.lxor h h') = Z.lxor (red_x l m h) (red_x l' m' h').
Proof.
  unfold red_x. rewrite slli_lxor by lia. rewrite (lxor_swap l l'), !red_step_lxor.
  unfold srli_bytes at 1. rewrite Z.shiftr_lxor. fold (srli_bytes m 8) (srli_bytes m' 8).
  rewrite (lxor_swap h h'). apply lxor_swap.
Qed.

Lemma red_0 : red_x 0 0 0 = 0.
Proof. vm_compute. reflexivity. Qed.

Lemma gf_x_lxor_l a a' b : gf_x (Z.lxor a a') b = Z.lxor (gf_x a b) (gf_x a' b).
Proof.
  unfold gf_x, clmul. rewrite lo64_lxor, hi64_lxor, !clmul_n_lxor_l. rewrite (lxor_swap (clmul_n 64 (hi64 a) _)). apply red_lxor.
Qed.

Lemma gf_x_lxor_r a b b' : gf_x a (Z.lxor b b') = Z.lxor (gf_x a b) (gf_x a b').
Proof.
  unfold gf_x, clmul. rewrite lo64_lxor, hi64_lxor, !clmul_n_lxor_r. rewrite (lxor_swap (clmul_n 64 (hi64 a) (lo64 b))). apply red_lxor.
Qed.

Lemma lo64_pow2 i : lo64 (2 ^ Z.of_nat i) = if (i <? 64)%nat then 2 ^ Z.of_nat i else 0.
Proof.
  unfold lo64. destruct (Nat.ltb_spec i 64).
  - apply Z.mod_small. split; [apply Z.pow_nonneg; lia | apply Z.pow_lt_mono_r; lia].
  - replace (Z.of_nat i) with ((Z.of_nat i - 64) + 64) by lia. rewrite Z.pow_add_r by lia. apply Z.mod_mul. lia.
Qed.

Lemma hi64_pow2 i : hi64 (2 ^ Z.of_nat i) = if (i <? 64)%nat then 0 else 2 ^ Z.of_nat (i - 64).
Proof.
  unfold hi64. rewrite shiftr_div by lia. destruct (Nat.ltb_spec i 64).
  - apply Z.div_small. split; [apply Z.pow_nonneg; lia | apply Z.pow_lt_mono_r; lia].
  - replace (Z.of_nat i) with (Z.of_nat (i - 64) + 64) at 1 by lia. rewrite Z.pow_add_r by lia. apply Z.div_mul. lia.
Qed.

(** The reduction of one power of two in each accumulator. *)
Lemma red_pow2 n : (n < 127)%nat ->
  red_x (2 ^ Z.of_nat n) 0 0 = gdivs (255 - n) (2 ^ 127) /\
  red_x 0 (2 ^ Z.of_nat n) 0 = gdivs (255 - 64 - n) (2 ^ 127) /\
  red_x 0 0 (2 ^ Z.of_nat n) = gdivs (255 - 128 - n) (2 ^ 127).
Proof.
  assert (forallb (fun n => (red_x (2 ^ Z.of_nat n) 0 0 =? gdivs (255 - n) (2 ^ 127)) &&
    (red_x 0 (2 ^ Z.of_nat n) 0 =? gdivs (255 - 64 - n) (2 ^ 127)) &&
    (red_x 0 0 (2 ^ Z.of_nat n) =? gdivs (255 - 128 - n) (2 ^ 127)))%bool (seq 0 127) = true) as H by (vm_compute; reflexivity).
  rewrite forallb_forall in H. intros Hn. specialize (H n ltac:(apply in_seq; lia)).
  rewrite !andb_true_iff, !Z.eqb_eq in H. tauto.
Qed.

Lemma gf_x_pow2 i j : (i < 128)%nat -> (j < 128)%nat -> gf_x (2 ^ Z.of_nat i) (2 ^ Z.of_nat j) = gdivs (255 - i - j) (2 ^ 127).
Proof.
  intros Hi Hj. unfold gf_x, clmul. rewrite !lo64_pow2, !hi64_pow2.
  destruct (Nat.ltb_spec i 64), (Nat.ltb_spec j 64); rewrite ?clmul_n_0_l, ?clmul_n_0_r, ?clmul_n_pow2, ?Z.lxor_0_l, ?Z.lxor_0_r by lia.
  - destruct (red_pow2 (i + j) ltac:(lia)) as [-> _]. f_equal. lia.
  - destruct (red_pow2 (i + (j - 64)) ltac:(lia)) as (_ & -> & _). f_equal. lia.
  - destruct (red_pow2 (i - 64 + j) ltac:(lia)) as (_ & -> & _). f_equal. lia.
  - destruct (red_pow2 (i - 64 + (j - 64)) ltac:(lia)) as (_ & _ & ->). f_equal. lia.
Qed.

(** The product of the reflected polynomials, reduced, is GCM's product divided by x. *)
Lemma gf_x_gmul a b : r128 a -> r128 b -> gf_x a b = gmul128 a (gdiv b).
Proof.
  intros Ha Hb. assert (forall y, gf_x 0 y = 0) as H0l by (intros y; rewrite <- (Z.lxor_nilpotent 0), gf_x_lxor_l; apply Z.lxor_nilpotent).
  assert (forall x, gf_x x 0 = 0) as H0r by (intros x; rewrite <- (Z.lxor_nilpotent 0), gf_x_lxor_r; apply Z.lxor_nilpotent).
  revert a Ha. apply lin_ext128; [split; [intros; apply gf_x_lxor_l | done] | apply additive_gmul_l |].
  intros i Hi. rewrite gmul_pow2_l by done. change (gdivs (127 - i) (gdiv b)) with (gdivs (127 - i) (gdivs 1 b)). rewrite <- gdivs_add.
  revert b Hb. apply lin_ext128; [split; [intros; apply gf_x_lxor_r | done] | apply additive_gdivs |].
  intros j Hj. rewrite gf_x_pow2, (pow2_gdivs j) by done. rewrite <- gdivs_add. f_equal. lia.
Qed.

(* ------------------------------------------------------------------ *)
(** * [gfmul] and [mul_by_x] *)

Lemma mk_reg_lor hi lo : 0 <= lo < 2 ^ 64 -> mk_reg hi lo = Z.lor (Z.shiftl hi 64) lo.
Proof. intros Hl. unfold mk_reg. by rewrite lor_shiftl, Z.shiftl_mul_pow2 by lia. Qed.

Lemma mk_reg_split v : mk_reg (hi64 v) (lo64 v) = v.
Proof. unfold mk_reg, hi64, lo64. rewrite Z.shiftl_mul_pow2, shiftr_div by lia. pose proof (Z.div_mod v (2 ^ 64) ltac:(lia)). lia. Qed.

Lemma hi64_mk hi lo : 0 <= lo < 2 ^ 64 -> hi64 (mk_reg hi lo) = hi.
Proof. intros Hl. unfold hi64, mk_reg. rewrite shiftr_div, Z.shiftl_mul_pow2, Z.div_add_l, Z.div_small by lia. lia. Qed.

Lemma lo64_mk hi lo : 0 <= lo < 2 ^ 64 -> lo64 (mk_reg hi lo) = lo.
Proof. intros Hl. unfold lo64, mk_reg. rewrite Z.shiftl_mul_pow2, Z.add_comm, Z.mod_add, Z.mod_small by lia. lia. Qed.

Definition RED : Z := mk_reg P64 1.

Lemma mul_by_x_eq h : r128 h -> mul_by_x h = Z.lxor ((2 * h) mod 2 ^ 128) (if Z.testbit h 127 then RED else 0).
Proof.
  intros Hh. pose proof (hi64_range h Hh) as Hhi. pose proof (lo64_range h) as Hlo. pose proof (mk_reg_split h) as E.
  set (hi := hi64 h) in *. set (lo := lo64 h) in *.
  assert (Z.testbit h 127 = (hi / 2 ^ 63 =? 1)) as Htop.
  { rewrite <- E, mk_reg_lor, Z.lor_spec, Z.shiftl_spec by lia. replace (127 - 64) with 63 by lia.
    rewrite (Z.bits_above_log2 lo 127); [| lia | destruct (decide (lo = 0)) as [-> | Hn]; [cbn; lia |]; apply Z.log2_lt_pow2; lia].
    rewrite orb_false_r. rewrite Z.testbit_eqb by lia. destruct (Z.eqb_spec (hi / 2 ^ 63) 1) as [-> | Hne]; [done |].
    assert (hi / 2 ^ 63 = 0) as -> by (Z.div_mod_to_equations; lia). done. }
  unfold mul_by_x, srli_epi64, slli_epi64. fold hi lo. rewrite !(shiftr_div _ 63), !(Z.shiftl_mul_pow2 _ 1) by lia.
  assert (0 <= lo / 2 ^ 63 <= 1 /\ 0 <= hi / 2 ^ 63 <= 1) as [Hcl Hch] by (split; Z.div_mod_to_equations; lia).
  assert (slli_bytes (mk_reg (hi / 2 ^ 63) (lo / 2 ^ 63)) 8 = Z.shiftl (lo / 2 ^ 63) 64) as ->.
  { unfold slli_bytes, mk_reg. rewrite !Z.shiftl_mul_pow2 by lia. change (8 * 8) with 64.
    rewrite Z.mul_add_distr_r, <- Z.mul_assoc. change (2 ^ 64 * 2 ^ 64) with (2 ^ 128). rewrite Z.add_comm, Z.mod_add by lia.
    apply Z.mod_small. lia. }
  assert (srli_bytes (mk_reg (hi / 2 ^ 63) (lo / 2 ^ 63)) 8 = hi / 2 ^ 63) as ->
    by (change (srli_bytes ?v 8) with (hi64 v); apply hi64_mk; lia).
  f_equal.
  - change (2 ^ 1) with 2. pose proof (lo64_range (lo * 2)). rewrite mk_reg_lor by lia.
    rewrite <- Z.lor_assoc, (Z.lor_comm (lo64 _)), Z.lor_assoc, <- Z.shiftl_lor.
    assert (Z.lor (lo64 (hi * 2)) (lo / 2 ^ 63) = lo64 (hi * 2) + lo / 2 ^ 63) as ->.
    { assert (lo64 (hi * 2) = Z.shiftl (lo64 (hi * 2) / 2) 1) as ->.
      { rewrite Z.shiftl_mul_pow2 by lia. unfold lo64. change (2 ^ 1) with 2. Z.div_mod_to_equations; lia. }
      rewrite lor_shiftl, Z.shiftl_mul_pow2 by lia. done. }
    rewrite lor_shiftl by lia. rewrite <- E at 1. unfold mk_reg. rewrite Z.shiftl_mul_pow2 by lia. unfold lo64.
    Z.div_mod_to_equations; lia.
  - rewrite Htop. unfold sub_epi64, shuffle_44. change (hi64 0) with 0. change (lo64 0) with 0.
    assert (hi64 (hi / 2 ^ 63) = 0) as -> by (unfold hi64; rewrite shiftr_div by lia; apply Z.div_small; lia).
    assert (lo64 (hi / 2 ^ 63) = hi / 2 ^ 63) as -> by (apply Z.mod_small; lia).
    assert (hi / 2 ^ 63 = 0 \/ hi / 2 ^ 63 = 1) as [-> | ->] by lia; reflexivity.
Qed.

Lemma RED_r128 : r128 RED.
Proof. split; [vm_compute; discriminate | reflexivity]. Qed.

Lemma mul_by_x_r128 h : r128 h -> r128 (mul_by_x h).
Proof.
  intros Hh. rewrite mul_by_x_eq by done. apply r128_lxor; [apply Z.mod_pos_bound; lia | apply r128_if, RED_r128].
Qed.

(** Multiplication by x undoes division by x. *)
Lemma gdiv_mul_by_x h : r128 h -> gdiv (mul_by_x h) = h.
Proof.
  intros Hh. rewrite mul_by_x_eq, gdiv_lxor by done.
  assert (gdiv ((2 * h) mod 2 ^ 128) = h mod 2 ^ 127) as ->.
  { change (2 ^ 128) with (2 * 2 ^ 127). rewrite Z.mul_mod_distr_l by lia. unfold gdiv.
    rewrite Z.odd_mul. cbn [Z.odd andb]. rewrite Z.lxor_0_r, shiftr_div by lia. change (2 ^ 1) with 2.
    by rewrite Z.mul_comm, Z.div_mul by lia. }
  assert (gdiv (if Z.testbit h 127 then RED else 0) = if Z.testbit h 127 then 2 ^ 127 else 0) as -> by (by destruct (Z.testbit h 127)).
  symmetry. apply (split_top h 127); [exact Hh | lia].
Qed.

Section Gfmul.
Context {I : Clmul} {IS : ClmulSpec I}.

Lemma half_lo v : half v 0x00 = lo64 v.
Proof. done. Qed.

Lemma gfmul_reduce_x lo mid hi : r128 lo -> r128 hi -> gfmul_reduce lo mid hi = red_x lo mid hi.
Proof.
  intros Hl Hh. unfold gfmul_reduce, red_x, red_step, set_epi64x. rewrite !clmul_spec.
  change (half (mk_reg 0 0xC200000000000000) (Z.shiftr 0x00 4)) with P64.
  rewrite !half_lo. set (l := Z.lxor lo (slli_bytes mid 8)).
  assert (r128 l) as Hr by (apply r128_lxor; [done | apply slli_r128]).
  rewrite (swap_eq l) by done. fold (red_step l). rewrite (swap_eq (red_step l)) by (by apply red_step_r128). done.
Qed.

Lemma gfmul_gmul a b : r128 a -> r128 b -> gfmul a b = gmul128 a (gdiv b).
Proof.
  intros Ha Hb. rewrite <- gf_x_gmul by done. unfold gfmul, gf_x. rewrite !clmul_spec.
  change (half a 0x00) with (lo64 a). change (half a 0x01) with (hi64 a). change (half a 0x10) with (lo64 a). change (half a 0x11) with (hi64 a).
  change (half b (Z.shiftr 0x00 4)) with (lo64 b). change (half b (Z.shiftr 0x01 4)) with (lo64 b).
  change (half b (Z.shiftr 0x10 4)) with (hi64 b). change (half b (Z.shiftr 0x11 4)) with (hi64 b).
  apply gfmul_reduce_x; apply clmul_r128; [apply lo64_range | by apply hi64_range].
Qed.

(** A key register [k] that stands for the number [p]: [gfmul d k] is [d * p]. *)
Definition stands (k p : Z) : Prop := r128 k /\ r128 p /\ gdiv k = p.

Lemma stands_mul d k p : r128 d -> stands k p -> gfmul d k = gmul128 d p.
Proof. intros Hd (Hk & _ & <-). by apply gfmul_gmul. Qed.

Lemma stands_step k p k1 h : stands k p -> stands k1 h -> stands (gfmul k k1) (gmul128 p h).
Proof.
  intros (Hk & Hp & Hkp) Hk1. pose proof Hk1 as (H1 & Hh & _). rewrite (stands_mul k k1 h) by done.
  split; [by apply gmul128_range | split; [by apply gmul128_range |]].
  rewrite <- Hkp. symmetry. by apply gmul_gdiv_l.
Qed.

(** Accumulating products and reducing once. *)
Definition acc_ok (acc : Z * Z * Z) (v : Z) : Prop :=
  r128 acc.1.1 /\ r128 acc.2 /\ red_x acc.1.1 acc.1.2 acc.2 = v.

Lemma acc_init : acc_ok (0, 0, 0) 0.
Proof. split; [apply r128_0 | split; [apply r128_0 | apply red_0]]. Qed.

Lemma acc_step acc v d k p : acc_ok acc v -> r128 d -> stands k p -> acc_ok (gfmul_accum d k acc) (Z.lxor v (gmul128 d p)).
Proof.
  intros (Hl & Hh & Hv) Hd Hk. rewrite <- (stands_mul d k p) by done. destruct acc as [[lo mid] hi]. cbn [fst snd] in *.
  unfold gfmul_accum, acc_ok. cbn [fst snd]. rewrite !clmul_spec. change (half d 0x00) with (lo64 d). change (half d 0x11) with (hi64 d).
  assert (r128 (clmul (lo64 d) (half k (Z.shiftr 0x00 4))) /\ r128 (clmul (hi64 d) (half k (Z.shiftr 0x11 4)))) as [R1 R2]
    by (split; apply clmul_r128; [apply lo64_range | by apply hi64_range]).
  split; [by apply r128_lxor | split; [by apply r128_lxor |]].
  rewrite red_lxor, Hv. f_equal. unfold gfmul. rewrite gfmul_reduce_x by (rewrite clmul_spec; done). by rewrite !clmul_spec.
Qed.

Lemma acc_reduce acc v : acc_ok acc v -> gfmul_reduce acc.1.1 acc.1.2 acc.2 = v.
Proof. intros (Hl & Hh & Hv). by rewrite gfmul_reduce_x. Qed.
End Gfmul.
