(* ===== verification/AesNiGhash.v ===== *)
(** The hash of src/crypto/aes_ni.c is GHASH of NIST SP 800-38D: the aggregation of
    eight and of four blocks with one reduction, and the loops. *)
From S2P Require Import Prelude Platform AesSpec AesNi BlockModes GcmSpec AesNiGcm Gf128.
#[local] Open Scope Z_scope.

(* ------------------------------------------------------------------ *)
(** * Registers and blocks *)

Lemma le_val_rev l : le_val (rev l) = be_val l.
Proof.
  induction l as [| b l IH]; [done |]. cbn [rev]. rewrite le_val_app, IH, be_val_cons, length_rev. cbn [le_val]. lia.
Qed.

Lemma store_load p : bytes p -> length p = 16%nat -> store (load p) = p.
Proof. intros Hp Hl. unfold store, load. rewrite take_ge by lia. rewrite <- Hl. by apply le_val_bytes. Qed.

Lemma bswap_load p : bytes p -> length p = 16%nat -> bswap128 (load p) = be_val p.
Proof. intros Hp Hl. unfold bswap128. rewrite store_load by done. apply le_val_rev. Qed.

Lemma rev_le_be n v : 0 <= v < 256 ^ Z.of_nat n -> rev (le_bytes n v) = be_bytes n v.
Proof.
  intros Hv. apply be_val_inj.
  - apply Forall_rev, le_bytes_ok.
  - apply be_bytes_ok.
  - by rewrite length_rev, le_bytes_length, be_bytes_length.
  - rewrite be_bytes_val by done. rewrite <- le_val_rev, rev_involutive, le_bytes_mod. by apply Z.mod_small.
Qed.

Lemma store_bswap v : r128 v -> store (bswap128 v) = be_bytes 16 v.
Proof.
  intros Hv. unfold bswap128, store. rewrite <- (rev_le_be 16) by exact Hv.
  assert (length (rev (le_bytes 16 v)) = 16%nat) as Hl by (by rewrite length_rev, le_bytes_length).
  rewrite <- Hl at 1. apply le_val_bytes, Forall_rev, le_bytes_ok.
Qed.

Lemma swapped_spec data i : bytes data -> (16 * i + 16 <= length data)%nat -> swapped data i = be_val (sub_list (16 * i) 16 data).
Proof.
  intros Hb Hl. unfold swapped. rewrite <- (bswap_load (sub_list (16 * i) 16 data)); [| by apply bytes_sub | by apply sub_list_length].
  unfold load, sub_list. by rewrite take_take.
Qed.

Lemma swapped_r128 data i : bytes data -> (16 * i + 16 <= length data)%nat -> r128 (swapped data i).
Proof. intros Hb Hl. rewrite swapped_spec by done. apply block_range; [by apply bytes_sub | by apply sub_list_length]. Qed.

(** Whole blocks. *)
Lemma to_blocks_add n m (l : list Z) : to_blocks (n + m) l = to_blocks n l ++ to_blocks m (drop (16 * n) l).
Proof.
  revert l. induction n as [| n IH]; intros l; [done |]. cbn [Nat.add to_blocks app]. rewrite IH. do 2 f_equal.
  rewrite drop_drop. f_equal. f_equal. lia.
Qed.

Lemma to_blocks_whole n (l : list Z) : (16 * n <= length l)%nat -> to_blocks n l = map (fun i => sub_list (16 * i) 16 l) (seq 0 n).
Proof.
  revert l. induction n as [| n IH]; intros l Hl; [done |]. cbn [to_blocks seq map]. f_equal.
  - unfold sub_list. cbn [Nat.mul drop]. rewrite length_take, Nat.min_l, Nat.sub_diag by lia. cbn [replicate]. apply app_nil_r.
  - rewrite IH by (rewrite length_drop; lia). rewrite <- seq_shift, map_map. apply map_ext. intros i. unfold sub_list.
    rewrite drop_drop. do 2 f_equal. lia.
Qed.

Lemma to_blocks_ok n : forall l, bytes l -> Forall (fun b => bytes b /\ length b = 16%nat) (to_blocks n l).
Proof.
  induction n as [| n IH]; intros l Hl; [constructor |]. cbn [to_blocks]. constructor; [| apply IH; by apply bytes_drop]. split.
  - apply bytes_app. split; [by apply bytes_take | apply bytes_replicate; unfold byte_ok; lia].
  - rewrite length_app, length_replicate, length_take. lia.
Qed.

(* ------------------------------------------------------------------ *)
(** * The aggregated hash *)

Record key_ok (k : ghash_key) (h : Z) : Prop := {
  ko_1 : stands (H1 k) h;
  ko_2 : stands (H2 k) (gmul128 h h);
  ko_3 : stands (H3 k) (gmul128 (gmul128 h h) h);
  ko_4 : stands (H4 k) (gmul128 (gmul128 (gmul128 h h) h) h);
  ko_5 : stands (H5 k) (gmul128 (gmul128 (gmul128 (gmul128 h h) h) h) h);
  ko_6 : stands (H6 k) (gmul128 (gmul128 (gmul128 (gmul128 (gmul128 h h) h) h) h) h);
  ko_7 : stands (H7 k) (gmul128 (gmul128 (gmul128 (gmul128 (gmul128 (gmul128 h h) h) h) h) h) h);
  ko_8 : stands (H8 k) (gmul128 (gmul128 (gmul128 (gmul128 (gmul128 (gmul128 (gmul128 h h) h) h) h) h) h) h) }.

Section Hash.
Context {I : Clmul} {IS : ClmulSpec I}.

Lemma hash_keys_ok p : bytes p -> length p = 16%nat -> key_ok (hash_keys (load p)) (be_val p).
Proof.
  intros Hp Hl. unfold hash_keys. rewrite bswap_load by done. pose proof (block_range p Hp Hl) as Hr.
  assert (stands (mul_by_x (be_val p)) (be_val p)) as S1
    by (split; [by apply mul_by_x_r128 | split; [done | by apply gdiv_mul_by_x]]).
  pose proof (stands_step _ _ _ _ S1 S1) as S2. pose proof (stands_step _ _ _ _ S2 S1) as S3.
  pose proof (stands_step _ _ _ _ S3 S1) as S4. pose proof (stands_step _ _ _ _ S4 S1) as S5.
  pose proof (stands_step _ _ _ _ S5 S1) as S6. pose proof (stands_step _ _ _ _ S6 S1) as S7.
  pose proof (stands_step _ _ _ _ S7 S1) as S8. split; assumption.
Qed.

Context (k : ghash_key) (h : Z) (Hk : key_ok k h).

Lemma key_r128 : r128 h.
Proof. destruct Hk as [(_ & H & _)]. exact H. Qed.

Lemma gmul_r128 x y : r128 y -> r128 (gmul128 x y).
Proof. apply gmul128_range. Qed.

(** One more step of the chained form, on the expanded one. *)
Lemma horner_step v b : gmul128 (Z.lxor v b) h = Z.lxor (gmul128 v h) (gmul128 b h).
Proof. apply gmul128_lxor_l. Qed.

Lemma reduce_acc (acc : Z * Z * Z) v : acc_ok acc v -> (let '(lo, mid, hi) := acc in gfmul_reduce lo mid hi) = v.
Proof. intros Ha. destruct acc as [[lo mid] hi]. exact (acc_reduce _ _ Ha). Qed.

Lemma ghash4_spec st data : r128 st -> bytes data -> (64 <= length data)%nat ->
  ghash4 k st data = GHASH h st (to_blocks 4 data).
Proof.
  intros Hst Hb Hl. rewrite to_blocks_whole by lia. cbn [seq map]. unfold GHASH. cbn [fold_left].
  rewrite <- !swapped_spec by (done || lia).
  assert (forall i, (i < 4)%nat -> r128 (swapped data i)) as Hr by (intros i Hi; apply swapped_r128; [done | lia]).
  unfold ghash4. cbv zeta. pose proof key_r128 as Hh.
  set (s0 := swapped data 0) in *. set (s1 := swapped data 1) in *. set (s2 := swapped data 2) in *. set (s3 := swapped data 3) in *.
  assert (r128 s0 /\ r128 s1 /\ r128 s2 /\ r128 s3) as (R0 & R1 & R2 & R3) by (repeat split; apply Hr; lia).
  assert (r128 (Z.lxor st s0)) as RD by (by apply r128_lxor). set (d := Z.lxor st s0) in *. clearbody d s1 s2 s3.
  destruct Hk as [K1 K2 K3 K4 _ _ _ _].
  pose proof (acc_step _ _ d _ _ acc_init RD K4) as A. pose proof (acc_step _ _ s1 _ _ A R1 K3) as B.
  pose proof (acc_step _ _ s2 _ _ B R2 K2) as C. pose proof (acc_step _ _ s3 _ _ C R3 K1) as D.
  rewrite (reduce_acc _ _ D). rewrite Z.lxor_0_l. rewrite !horner_step.
  rewrite !gmul_assoc by (done || by repeat apply gmul_r128). done.
Qed.

Lemma ghash8_spec st data : r128 st -> bytes data -> (128 <= length data)%nat ->
  ghash8 k st data = GHASH h st (to_blocks 8 data).
Proof.
  intros Hst Hb Hl. rewrite to_blocks_whole by lia. cbn [seq map]. unfold GHASH. cbn [fold_left].
  rewrite <- !swapped_spec by (done || lia).
  assert (forall i, (i < 8)%nat -> r128 (swapped data i)) as Hr by (intros i Hi; apply swapped_r128; [done | lia]).
  unfold ghash8. cbv zeta. pose proof key_r128 as Hh.
  set (s0 := swapped data 0) in *. set (s1 := swapped data 1) in *. set (s2 := swapped data 2) in *. set (s3 := swapped data 3) in *.
  set (s4 := swapped data 4) in *. set (s5 := swapped data 5) in *. set (s6 := swapped data 6) in *. set (s7 := swapped data 7) in *.
  assert (r128 s0 /\ r128 s1 /\ r128 s2 /\ r128 s3) as (R0 & R1 & R2 & R3) by (repeat split; apply Hr; lia).
  assert (r128 s4 /\ r128 s5 /\ r128 s6 /\ r128 s7) as (R4 & R5 & R6 & R7) by (repeat split; apply Hr; lia).
  assert (r128 (Z.lxor st s0)) as RD by (by apply r128_lxor). set (d := Z.lxor st s0) in *. clearbody d s1 s2 s3 s4 s5 s6 s7.
  destruct Hk as [K1 K2 K3 K4 K5 K6 K7 K8].
  pose proof (acc_step _ _ d _ _ acc_init RD K8) as A0. pose proof (acc_step _ _ s1 _ _ A0 R1 K7) as A1.
  pose proof (acc_step _ _ s2 _ _ A1 R2 K6) as A2. pose proof (acc_step _ _ s3 _ _ A2 R3 K5) as A3.
  pose proof (acc_step _ _ s4 _ _ A3 R4 K4) as A4. pose proof (acc_step _ _ s5 _ _ A4 R5 K3) as A5.
  pose proof (acc_step _ _ s6 _ _ A5 R6 K2) as A6. pose proof (acc_step _ _ s7 _ _ A6 R7 K1) as A7.
  rewrite (reduce_acc _ _ A7). rewrite Z.lxor_0_l. rewrite !horner_step.
  rewrite !gmul_assoc by (done || by repeat apply gmul_r128). done.
Qed.
Lemma gfmul_spec d : r128 d -> gfmul d (H1 k) = gmul128 d h.
Proof. intros Hd. apply stands_mul; [done | apply Hk]. Qed.

Lemma ghash1_spec st data : r128 st -> bytes data -> (16 <= length data)%nat ->
  gfmul (Z.lxor st (swapped data 0)) (H1 k) = GHASH h st (to_blocks 1 data).
Proof.
  intros Hst Hb Hl. rewrite to_blocks_whole by lia. cbn [seq map]. unfold GHASH. cbn [fold_left].
  rewrite <- swapped_spec by (done || lia). apply gfmul_spec, r128_lxor; [done | apply swapped_r128; [done | lia]].
Qed.

(** A loop that consumes [m] blocks at a time. *)
Lemma ghash_loop m c (f : Z -> list Z -> Z) : (1 <= m)%nat -> c = (16 * m)%nat ->
  (forall st data, r128 st -> bytes data -> (16 * m <= length data)%nat -> f st data = GHASH h st (to_blocks m data)) ->
  forall fuel n st data, (n <= fuel)%nat -> (16 * n <= length data)%nat -> r128 st -> bytes data ->
  exists q, (q <= n)%nat /\ (n - q < m)%nat /\
    while_fuel fuel (fun s : Z * list Z * nat => (m <=? s.2)%nat) (fun s => (f s.1.1 s.1.2, drop c s.1.2, (s.2 - m)%nat)) (st, data, n) =
      Some (GHASH h st (to_blocks q data), drop (16 * q) data, (n - q)%nat).
Proof.
  intros Hm -> Hf. induction fuel as [| fuel IH]; intros n st data Hn Hl Hst Hb; cbn [while_fuel fst snd].
  - exists 0%nat. assert (n = 0%nat) as -> by lia. rewrite (proj2 (Nat.leb_gt _ _)) by lia. split; [lia | split; [lia | done]].
  - destruct (Nat.leb_spec m n) as [Hmn | Hmn].
    2: { exists 0%nat. split; [lia | split; [lia |]]. by rewrite Nat.sub_0_r. }
    rewrite Hf by (done || lia). destruct (IH (n - m)%nat (GHASH h st (to_blocks m data)) (drop (16 * m) data)) as (q & Hq1 & Hq2 & Hq3).
    + lia.
    + rewrite length_drop. lia.
    + apply GHASH_range; [apply key_r128 | done].
    + by apply bytes_drop.
    + exists (m + q)%nat. split; [lia | split; [lia |]]. rewrite Hq3, <- GHASH_app, <- to_blocks_add, drop_drop.
      replace (16 * m + 16 * q)%nat with (16 * (m + q))%nat by lia. by replace (n - m - q)%nat with (n - (m + q))%nat by lia.
Qed.

Lemma ghash_blocks_spec fuel st data n : (n <= fuel)%nat -> (16 * n <= length data)%nat -> r128 st -> bytes data ->
  ghash_blocks fuel k st data n = Some (GHASH h st (to_blocks n data)).
Proof.
  intros Hn Hl Hst Hb. unfold ghash_blocks.
  destruct (ghash_loop 8 128 (ghash8 k) ltac:(lia) eq_refl ltac:(intros; apply ghash8_spec; (done || lia)) fuel n st data) as (q8 & A1 & A2 & ->); try done.
  set (st8 := GHASH h st (to_blocks q8 data)). assert (r128 st8) as R8 by (apply GHASH_range; [apply key_r128 | done]).
  destruct (ghash_loop 4 64 (ghash4 k) ltac:(lia) eq_refl ltac:(intros; apply ghash4_spec; (done || lia)) fuel (n - q8) st8 (drop (16 * q8) data))
    as (q4 & B1 & B2 & ->); [lia | rewrite length_drop; lia | done | by apply bytes_drop |].
  set (st4 := GHASH h st8 (to_blocks q4 (drop (16 * q8) data))). assert (r128 st4) as R4 by (apply GHASH_range; [apply key_r128 | done]).
  destruct (ghash_loop 1 16 (fun st data => gfmul (Z.lxor st (swapped data 0)) (H1 k)) ltac:(lia) eq_refl ltac:(intros; apply ghash1_spec; (done || lia))
    fuel (n - q8 - q4) st4 (drop (16 * q4) (drop (16 * q8) data)))
    as (q1 & C1 & C2 & E1); [lia | rewrite !length_drop; lia | done | by do 2 apply bytes_drop |].
  change (fun s : Z * list Z * nat => (0 <? s.2)%nat) with (fun s : Z * list Z * nat => (1 <=? s.2)%nat). rewrite E1.
  cbn [fst]. f_equal. unfold st4, st8. rewrite <- !GHASH_app. f_equal.
  replace n with (q8 + (q4 + q1))%nat at 1 by lia. rewrite !to_blocks_add. by rewrite ?app_assoc.
Qed.

Lemma ghash_update_spec fuel st data : (nblocks data <= fuel)%nat -> r128 st -> bytes data ->
  ghash_update fuel k st data = Some (GHASH h st (blocks data)).
Proof.
  intros Hf Hst Hb. unfold ghash_update. set (q := (length data / 16)%nat).
  assert (16 * q <= length data)%nat as Hq by (unfold q; apply Nat.Div0.mul_div_le).
  assert (Z.to_nat (Z.land (Z.of_nat (length data)) 0xF) = length data mod 16)%nat as ->.
  { change 0xF with (Z.ones 4). rewrite Z.land_ones by lia. change (2 ^ 4) with (Z.of_nat 16). by rewrite <- Nat2Z.inj_mod, Nat2Z.id. }
  assert (length data = 16 * q + length data mod 16)%nat as Hdm by (unfold q; apply Nat.div_mod_eq).
  pose proof (Nat.mod_upper_bound (length data) 16 ltac:(lia)) as Hr. set (rem := (length data mod 16)%nat) in *.
  assert (nblocks data = if (0 <? rem)%nat then S q else q) as Hnb.
  { unfold nblocks. destruct (Nat.ltb_spec 0 rem).
    - rewrite Hdm. replace (16 * q + rem + 15)%nat with (rem - 1 + (q + 1) * 16)%nat by lia. rewrite Nat.div_add, Nat.div_small by lia. lia.
    - rewrite Hdm. replace (16 * q + rem + 15)%nat with (15 + q * 16)%nat by lia. rewrite Nat.div_add, Nat.div_small by lia. lia. }
  assert ((if (0 <? q)%nat then ghash_blocks fuel k st data q else Some st) = Some (GHASH h st (to_blocks q data))) as ->.
  { destruct (Nat.ltb_spec 0 q); [apply ghash_blocks_spec; try done; destruct (0 <? rem)%nat; lia |]. assert (q = 0%nat) as -> by lia. done. }
  unfold blocks. rewrite Hnb. destruct (Nat.ltb_spec 0 rem) as [Hrem | Hrem]; [| done]. f_equal.
  replace (S q) with (q + 1)%nat by lia. rewrite to_blocks_add, GHASH_app. set (st1 := GHASH h st (to_blocks q data)).
  assert (r128 st1) as R1 by (apply GHASH_range; [apply key_r128 | done]). rewrite (Nat.mul_comm q 16).
  set (d := drop (16 * q) data). assert (length d = rem) as Hd by (unfold d; rewrite length_drop; lia).
  rewrite (take_ge d) by lia. set (pad := splice (replicate 16 0) 0 d).
  assert (pad = d ++ replicate (16 - length d) 0) as Epad by (unfold pad, splice; cbn [take app]; by rewrite drop_replicate).
  assert (bytes pad) as Bp by (rewrite Epad; apply bytes_app; split; [by apply bytes_drop | apply bytes_replicate; unfold byte_ok; lia]).
  assert (length pad = 16%nat) as Lp by (rewrite Epad, length_app, length_replicate; lia).
  rewrite ghash1_spec by (done || lia). cbn [to_blocks]. rewrite !(take_ge pad), (take_ge d) by lia.
  do 2 f_equal. rewrite Lp. cbn [Nat.sub replicate]. by rewrite app_nil_r, Epad.
Qed.
End Hash.

