(* ===== verification/AesNiGcmOk.v ===== *)
(** The hardware AES-GCM of src/crypto/aes_ni.c is GCM of NIST SP 800-38D with AES:
    counter mode, its fusion with the hash, and the two entry points. *)
From S2P Require Import Prelude Platform Cpu AesSpec AesNi Aes BlockModes GcmSpec AesNiGcm Gf128 AesNiGhash.
#[local] Open Scope Z_scope.

(* ------------------------------------------------------------------ *)
(** * Counter mode *)

Section Counter.
Context (nonce : list Z) (Hn : length nonce = 12%nat) (Hnb : bytes nonce).

(** The counter register [i]. *)
Definition creg (i : nat) : Z := load (gcm_counter nonce i).

Lemma counter_ok i : bytes (gcm_counter nonce i) /\ length (gcm_counter nonce i) = 16%nat.
Proof.
  unfold gcm_counter. split; [apply bytes_app; split; [done | apply be_bytes_ok] | by rewrite length_app, be_bytes_length, Hn].
Qed.

Lemma store_creg i : store (creg i) = gcm_counter nonce i.
Proof. destruct (counter_ok i). by apply store_load. Qed.

Lemma bswap_be p : bytes p -> length p = 16%nat -> bswap128 (be_val p) = load p.
Proof.
  intros Hp Hl. unfold bswap128, store, load. rewrite rev_le_be by (pose proof (be_val_range p Hp) as H; by rewrite Hl in H).
  rewrite <- Hl. rewrite be_val_bytes by done. by rewrite take_ge by lia.
Qed.

Lemma inc_creg i : inc_counter (creg i) = creg (S i).
Proof.
  destruct (counter_ok i) as [Hb Hl]. destruct (counter_ok (S i)) as [Hb' Hl'].
  unfold inc_counter. unfold creg at 1 2 3. rewrite bswap_load by done. unfold creg. rewrite <- bswap_be by done. f_equal.
  unfold gcm_counter. rewrite !be_val_app, !be_bytes_length, !be_bytes_mod. change (256 ^ Z.of_nat 4) with (2 ^ 32).
  set (v := be_val nonce). assert (0 <= v) as Hv by (pose proof (be_val_range nonce Hnb); lia).
  assert (forall a, 0 <= a < 2 ^ 32 -> Z.shiftr (v * 2 ^ 32 + a) 32 = v) as Hsh
    by (intros a Ha; rewrite shiftr_div, Z.div_add_l, Z.div_small by lia; lia).
  set (c := Z.of_nat i mod 2 ^ 32). assert (0 <= c < 2 ^ 32) as Hc by (apply Z.mod_pos_bound; lia).
  rewrite Hsh by done.
  assert (u32 (v * 2 ^ 32 + c + 1) = Z.of_nat (S i) mod 2 ^ 32) as ->.
  { unfold u32, c. change 4294967296 with (2 ^ 32). rewrite <- Z.add_assoc, Z.add_comm, Z.mod_add by lia.
    rewrite Zplus_mod_idemp_l. f_equal. lia. }
  set (c' := Z.of_nat (S i) mod 2 ^ 32). assert (0 <= c' < 2 ^ 32) as Hc' by (apply Z.mod_pos_bound; lia).
  change 0xFFFFFFFF with (Z.ones 32). rewrite (Z.land_comm (Z.lnot _)), <- Z.ldiff_land, Z.ldiff_ones_r by lia. rewrite Hsh by done.
  rewrite (Z.land_comm (Z.ones 32)), Z.land_ones by lia. rewrite (lor_shiftl v c' 32) by lia.
  rewrite (Z.add_comm (v * _) c'), Z.mod_add, Z.mod_small by lia. rewrite (lor_shiftl v c' 32) by lia. lia.
Qed.

Lemma ctr_plus_creg i n : ctr_plus (creg i) n = creg (i + n).
Proof.
  unfold ctr_plus. induction n as [| n IH]; [by rewrite Nat.add_0_r |]. rewrite for_range_snoc, IH, inc_creg. f_equal. lia.
Qed.

Lemma j0_creg : gcm_j0 nonce = creg 1.
Proof. unfold gcm_j0, creg, gcm_counter. by rewrite take_ge by lia. Qed.

(** The slices of a message in counter mode. *)
Lemma ctr_slice ks l : (forall i, length (ks i) = 16%nat) -> forall i a,
  sub_list (16 * i) 16 (ctr_mode ks a l) = bxor (sub_list (16 * i) 16 l) (ks (a + i)%nat).
Proof.
  intros Hk. induction l as [| l Hl IH] using block_ind; intros i a.
  { unfold sub_list. change (ctr_mode ks a []) with (@nil Z). by rewrite !drop_nil, !take_nil. }
  rewrite (ctr_cons ks a l) by done. set (c := bxor (take 16 l) (ks a)).
  assert (length c = Nat.min 16 (length l)) as Hc by (unfold c; by rewrite bxor_take_length, length_take).
  destruct i as [| i].
  - unfold sub_list. rewrite Nat.mul_0_r, !drop_0, Nat.add_0_r. fold c. destruct (decide (16 <= length l)%nat) as [Hs | Hs].
    + by rewrite take_app_length' by lia.
    + rewrite (drop_ge l) by lia. change (ctr_mode ks (S a) []) with (@nil Z). rewrite app_nil_r. by rewrite take_ge by lia.
  - destruct (decide (16 <= length l)%nat) as [Hs | Hs].
    + specialize (IH i (S a)). unfold sub_list in *. rewrite drop_app_ge by lia. rewrite Hc, Nat.min_l by lia.
      replace (16 * S i - 16)%nat with (16 * i)%nat by lia. rewrite IH, drop_drop.
      replace (16 + 16 * i)%nat with (16 * S i)%nat by lia. by replace (S a + i)%nat with (a + S i)%nat by lia.
    + unfold sub_list. rewrite (drop_ge l) by lia. rewrite (drop_ge l) by lia. change (ctr_mode ks (S a) []) with (@nil Z).
      rewrite app_nil_r, drop_ge by lia. done.
Qed.

Context (aes : aesni_ctx) (I : AesInstr).
Definition ks (i : nat) : list Z := aesni_encrypt_block aes (gcm_counter nonce i).
Context (Hks : forall i, length (ks i) = 16%nat).
Context (input out : list Z) (Hout : (length input <= length out)%nat).

Definition ct : list Z := ctr_mode ks 2 input.

Lemma ct_length : length ct = length input.
Proof. by apply ctr_length. Qed.

(** The output with the first [n] bytes written. *)
Definition written (n : nat) : list Z := splice out 0 (take n ct).

Lemma write_block i : (16 * i + 16 <= length input)%nat ->
  splice (written (16 * i)) (16 * i) (bxor (sub_list (16 * i) 16 input) (ks (2 + i))) = written (16 * i + 16).
Proof.
  intros Hi. pose proof ct_length as Hl. rewrite <- ctr_slice by done. fold ct. unfold written.
  assert (length (take (16 * i) ct) = 16 * i)%nat as Ht by (rewrite length_take; lia).
  rewrite <- Ht at 2. rewrite splice_splice by (rewrite Ht; rewrite sub_list_length; lia).
  f_equal. unfold sub_list. rewrite <- (take_drop (16 * i) (take (16 * i + 16) ct)). rewrite take_take, Nat.min_l by lia. f_equal.
  rewrite skipn_firstn_comm. f_equal. lia.
Qed.

Lemma write_last i : (16 * i < length input)%nat -> (length input < 16 * i + 16)%nat ->
  splice (written (16 * i)) (16 * i) (bxor (drop (16 * i) input) (ks (2 + i))) = splice out 0 ct.
Proof.
  intros Hi Hi2. pose proof ct_length as Hl.
  assert (bxor (drop (16 * i) input) (ks (2 + i)) = drop (16 * i) ct) as ->.
  { pose proof (ctr_slice ks input Hks i 2) as E. fold ct in E. unfold sub_list in E.
    rewrite !take_ge in E by (rewrite length_drop; lia). done. }
  unfold written. assert (length (take (16 * i) ct) = 16 * i)%nat as Ht by (rewrite length_take; lia).
  rewrite <- Ht at 2. rewrite splice_splice by (rewrite Ht, length_drop; lia). f_equal. apply take_drop.
Qed.

Lemma ctr8_spec r : (16 * r + 128 <= length input)%nat ->
  ctr8 aes (creg (1 + r)) input (written (16 * r)) (16 * r) = written (16 * r + 128).
Proof.
  intros Hr. unfold ctr8.
  pose proof (for_range_ind (fun i o => o = written (16 * (r + i))) 0 8 (fun i out =>
    splice out (16 * r + 16 * i) (bxor (sub_list (16 * r + 16 * i) 16 input) (aesni_encrypt_block aes (store (ctr_plus (creg (1 + r)) (S i)))))) (written (16 * r))) as H.
  cbv zeta in *. rewrite H.
  - f_equal. lia.
  - by rewrite Nat.add_0_r.
  - intros i s Hi ->. rewrite ctr_plus_creg, store_creg. replace (16 * r + 16 * i)%nat with (16 * (r + i))%nat by lia.
    replace (1 + r + S i)%nat with (2 + (r + i))%nat by lia. fold (ks (2 + (r + i))). rewrite write_block by lia. f_equal. lia.
Qed.

Lemma ctr1_body_spec i o off : ctr1_body aes input (creg i, o, off) =
  (creg (S i), splice o off (bxor (sub_list off 16 input) (ks (S i))), (off + 16)%nat).
Proof. unfold ctr1_body. by rewrite inc_creg, store_creg. Qed.

Lemma ctr_tail_spec fuel : forall i, (16 * i <= length input)%nat -> (length input < 16 * (i + fuel) + 16)%nat ->
  ctr_tail fuel aes input (creg (1 + i), written (16 * i), (16 * i)%nat) = Some (splice out 0 ct).
Proof.
  unfold ctr_tail. pose proof ct_length as Hl.
  assert (forall i, (16 * i <= length input)%nat -> (length input < 16 * i + 16)%nat ->
    (if (16 * i <? length input)%nat then
      let ctr := inc_counter (creg (1 + i)) in let k := aesni_encrypt_block aes (store ctr) in
      Some (splice (written (16 * i)) (16 * i) (bxor (drop (16 * i) input) k))
     else Some (written (16 * i))) = Some (splice out 0 ct)) as Hend.
  { intros i Hi Hi2. destruct (Nat.ltb_spec (16 * i) (length input)).
    - cbv zeta. rewrite inc_creg, store_creg. f_equal. by apply write_last.
    - unfold written. by rewrite take_ge by lia. }
  induction fuel as [| fuel IH]; intros i Hi Hf; cbn [while_fuel snd].
  - rewrite (proj2 (Nat.leb_gt _ _)) by lia. apply Hend; lia.
  - destruct (Nat.leb_spec (16 * i + 16) (length input)); [| apply Hend; lia].
    rewrite ctr1_body_spec. change (S (1 + i)) with (2 + i)%nat.
    rewrite write_block by lia. replace (16 * i + 16)%nat with (16 * S i)%nat by lia. change (2 + i)%nat with (1 + S i)%nat.
    apply IH; lia.
Qed.
End Counter.

(* ------------------------------------------------------------------ *)
(** * The block cipher *)

Lemma AES_ok key x : (length key = 16 \/ length key = 32)%nat -> bytes key -> length (AES key x) = 16%nat /\ bytes (AES key x).
Proof.
  intros Hk Hb. unfold AES, Cipher, aes_last_round. set (nk := (length key / 4)%nat). set (s := for_range _ _ _ _). clearbody s.
  assert (nk = 4 \/ nk = 8)%nat as Hnk by (unfold nk; destruct Hk as [-> | ->]; [by left | by right]).
  assert (length key = 4 * nk)%nat as Hl by (unfold nk; destruct Hk as [-> | ->]; done).
  set (K := round_key _ _). assert (length K = 16%nat /\ bytes K) as [HKl HKb].
  { unfold K. change (KeyExpansion nk (nk + 6) key) with (ke nk key (4 * (nk + 6 + 1) - nk)).
    assert (forall j, (j < 4)%nat -> word_ok (word (ke nk key (4 * (nk + 6 + 1) - nk)) (4 * (nk + 6) + j)) /\
      bytes (word (ke nk key (4 * (nk + 6 + 1) - nk)) (4 * (nk + 6) + j))) as Hw.
    { intros j Hj. eapply ke_words; try done; [destruct Hnk as [-> | ->]; [by left | by right; right] | lia]. }
    unfold round_key. destruct (Hw 0%nat ltac:(lia)) as [W0 B0]. rewrite Nat.add_0_r in W0, B0.
    destruct (Hw 1%nat ltac:(lia)) as [W1 B1]. destruct (Hw 2%nat ltac:(lia)) as [W2 B2]. destruct (Hw 3%nat ltac:(lia)) as [W3 B3].
    unfold word_ok in *. split; [rewrite !length_app; lia |]. by rewrite !bytes_app. }
  split; [by rewrite bxor_length |]. apply bxor_bytes; [| done].
  unfold ShiftRows. apply Forall_map, Forall_forall. intros i _. apply bytes_get, SubBytes_bytes.
Qed.

Section Gcm.
Context {I : AesInstr} {IS : AesInstrSpec I} {J : Clmul} {JS : ClmulSpec J}.
Context (key nonce aad : list Z) (Hkey : (length key = 16 \/ length key = 32)%nat) (Hkb : bytes key).
Context (Hn : length nonce = 12%nat) (Hnb : bytes nonce) (Hab : bytes aad).

Lemma ni_block_ok x : length x = 16%nat -> aesni_encrypt_block (ni_aes (aesni_gcm_init key)) x = AES key x.
Proof.
  intros Hx. rewrite <- aesni_encrypt_fips by done. unfold opssl_aesni_encrypt_block. by rewrite take_ge by lia.
Qed.

Lemma ni_key_ok : key_ok (ni_H (aesni_gcm_init key)) (gcm_H (AES key)).
Proof.
  unfold gcm_H. rewrite <- ni_block_ok by done. unfold aesni_gcm_init at 1. cbn [ni_H].
  change (store 0) with (replicate 16 0). change (if (length key =? 16)%nat then _ else _) with (ni_aes (aesni_gcm_init key)).
  rewrite ni_block_ok by done. destruct (AES_ok key (replicate 16 0) Hkey Hkb). by apply hash_keys_ok.
Qed.

Lemma ni_ks i : ks nonce (ni_aes (aesni_gcm_init key)) I i = AES key (gcm_counter nonce i).
Proof. destruct (counter_ok nonce Hn Hnb i). by apply ni_block_ok. Qed.

Lemma ni_ks_length i : length (ks nonce (ni_aes (aesni_gcm_init key)) I i) = 16%nat.
Proof. rewrite ni_ks. by apply AES_ok. Qed.

Lemma ni_ct msg : ct nonce (ni_aes (aesni_gcm_init key)) I msg = GCM_ctr (AES key) nonce msg.
Proof. unfold ct, GCM_ctr. apply (ctr_ext _ _ (nblocks msg)); [done |]. intros j _. apply ni_ks. Qed.

Lemma ni_finish_spec hash aad_len pt_len : r128 hash ->
  gcm_finish (aesni_gcm_init key) (gcm_j0 nonce) hash aad_len pt_len =
    bxor (be_bytes 16 (GHASH (gcm_H (AES key)) hash [be_bytes 8 (8 * Z.of_nat aad_len) ++ be_bytes 8 (8 * Z.of_nat pt_len)]))
         (AES key (gcm_counter nonce 1)).
Proof.
  intros Hh. unfold gcm_finish. rewrite (j0_creg nonce Hn), (store_creg nonce Hn Hnb).
  destruct (counter_ok nonce Hn Hnb 1) as [_ Hc1]. rewrite ni_block_ok by done.
  assert (forall v, opssl_put_be64 (u64 v) = be_bytes 8 v) as Hput.
  { intros v. rewrite put_be64_bytes. apply be_bytes_wrap. unfold u64. change (256 ^ Z.of_nat 8) with 18446744073709551616. by rewrite Z.mod_mod by lia. }
  assert (gcm_lengths aad_len pt_len = be_bytes 8 (8 * Z.of_nat aad_len) ++ be_bytes 8 (8 * Z.of_nat pt_len)) as ->.
  { unfold gcm_lengths. rewrite !Hput, !(Z.mul_comm _ 8). done. }
  set (b := be_bytes 8 _ ++ _). assert (bytes b) as Bb by (apply bytes_app; split; apply be_bytes_ok).
  assert (length b = 16%nat) as Lb by (unfold b; by rewrite length_app, !be_bytes_length).
  pose proof ni_key_ok as Hk. rewrite (ghash1_spec _ _ Hk) by (done || lia).
  assert (r128 (gcm_H (AES key))) as Hr by apply (key_r128 _ _ Hk).
  assert (to_blocks 1 b = [b]) as -> by (cbn [to_blocks]; rewrite take_ge, Lb by lia; cbn [Nat.sub replicate]; by rewrite app_nil_r).
  by rewrite store_bswap by (by apply GHASH_range).
Qed.

Lemma blocks_split m (l : list Z) : (16 * m <= length l)%nat -> blocks l = to_blocks m l ++ blocks (drop (16 * m) l).
Proof.
  intros Hm. unfold blocks. rewrite <- to_blocks_add. f_equal. unfold nblocks. rewrite length_drop.
  replace (length l + 15)%nat with (length l - 16 * m + 15 + m * 16)%nat by lia. rewrite Nat.div_add by lia. lia.
Qed.

Lemma to_blocks_prefix m (l l' : list Z) : (16 * m <= length l)%nat -> (16 * m <= length l')%nat ->
  take (16 * m) l = take (16 * m) l' -> to_blocks m l = to_blocks m l'.
Proof.
  intros H1 H2 E. rewrite !to_blocks_whole by done. apply map_ext_in. intros i Hi%in_seq.
  apply (f_equal (sub_list (16 * i) 16)) in E. unfold sub_list in *. rewrite !skipn_firstn_comm, !take_take in E.
  rewrite !Nat.min_l in E by lia. exact E.
Qed.

Lemma ni_tag_spec ct : bytes ct ->
  GCM_tag (AES key) nonce aad ct =
    bxor (be_bytes 16 (GHASH (gcm_H (AES key)) (GHASH (gcm_H (AES key)) (GHASH (gcm_H (AES key)) 0 (blocks aad)) (blocks ct))
            [be_bytes 8 (8 * Z.of_nat (length aad)) ++ be_bytes 8 (8 * Z.of_nat (length ct))]))
         (AES key (gcm_counter nonce 1)).
Proof. intros Hct. unfold GCM_tag, gcm_blocks. by rewrite !GHASH_app. Qed.

Lemma ni_aad fuel : (nblocks aad <= fuel)%nat ->
  (if (0 <? length aad)%nat then ghash_update fuel (ni_H (aesni_gcm_init key)) 0 aad else Some 0) =
    Some (GHASH (gcm_H (AES key)) 0 (blocks aad)).
Proof.
  intros Hf. destruct (Nat.ltb_spec 0 (length aad)) as [Hl | Hl].
  - apply (ghash_update_spec _ _ ni_key_ok); [done | apply r128_0 | done].
  - by destruct aad; [| cbn in Hl; lia].
Qed.
Definition wr (msg out : list Z) (n : nat) : list Z := written nonce (ni_aes (aesni_gcm_init key)) I msg out n.

(** The two loops, on an output buffer. *)
Section Run.
Context (msg out : list Z) (Hmb : bytes msg) (Hob : bytes out) (Hout : (length msg <= length out)%nat).


Lemma C_ok : bytes (GCM_ctr (AES key) nonce msg) /\ length (GCM_ctr (AES key) nonce msg) = length msg.
Proof.
  unfold GCM_ctr. assert (forall i, length (AES key (gcm_counter nonce i)) = 16%nat /\ bytes (AES key (gcm_counter nonce i))) as HE
    by (intros i; by apply AES_ok).
  split; [apply ctr_bytes; [intros i; apply HE | done] | apply ctr_length; intros i; apply HE].
Qed.

Lemma W_eq n : (n <= length msg)%nat -> (wr msg out) n = take n (GCM_ctr (AES key) nonce msg) ++ drop n out.
Proof.
  intros Hn'. destruct C_ok as [_ Hl]. unfold wr, written. rewrite ni_ct. unfold splice. rewrite take_0. cbn [app]. f_equal.
  rewrite length_take. f_equal. lia.
Qed.

Lemma ni_flush_spec g0 r : (1 <= r)%nat -> (128 * r <= length msg)%nat -> r128 g0 ->
  ghash8 (ni_H (aesni_gcm_init key)) (GHASH (gcm_H (AES key)) g0 (to_blocks (8 * (r - 1)) (GCM_ctr (AES key) nonce msg))) (drop (128 * r - 128) ((wr msg out) (128 * r))) = GHASH (gcm_H (AES key)) g0 (to_blocks (8 * r) (GCM_ctr (AES key) nonce msg)).
Proof.
  intros Hr Hl Hg. destruct C_ok as [HCb HCl]. pose proof ni_key_ok as Hk. pose proof (key_r128 _ _ Hk) as Hh.
  assert (length ((wr msg out) (128 * r)) = length out) as HWl by (rewrite W_eq by lia; rewrite length_app, length_take, length_drop; lia).
  assert (bytes ((wr msg out) (128 * r))) as HWb by (rewrite W_eq by lia; apply bytes_app; split; [by apply bytes_take | by apply bytes_drop]).
  rewrite (ghash8_spec _ _ Hk) by (by apply GHASH_range || by apply bytes_drop || (rewrite length_drop; lia)).
  rewrite <- GHASH_app. f_equal.
  replace (8 * r)%nat with (8 * (r - 1) + 8)%nat by lia. rewrite to_blocks_add. f_equal.
  apply to_blocks_prefix; [rewrite length_drop; lia | rewrite length_drop; lia |].
  rewrite W_eq by lia. change (16 * 8)%nat with 128%nat. replace (16 * (8 * (r - 1)))%nat with (128 * r - 128)%nat by lia.
  rewrite drop_app_le by (rewrite length_take; lia). rewrite take_app_le by (rewrite length_drop, length_take; lia).
  rewrite skipn_firstn_comm, take_take. f_equal. lia.
Qed.

Definition hash_of (g0 : Z) (r : nat) : Z := GHASH (gcm_H (AES key)) g0 (to_blocks (8 * (r - 1)) (GCM_ctr (AES key) nonce msg)).

Definition seal_inv (g0 : Z) (r : nat) (s : seal_state) : Prop :=
  (128 * r <= length msg)%nat /\ s = mk_seal (hash_of g0 r) (creg nonce (1 + 8 * r)) (128 * r) (0 <? r)%nat ((wr msg out) (128 * r)).

Lemma seal_step g0 r s : r128 g0 -> seal_inv g0 r s -> (128 * r + 128 <= length msg)%nat ->
  seal_inv g0 (S r) (seal_body (aesni_gcm_init key) msg s).
Proof.
  intros Hg [Hr ->] Hlt. split; [lia |]. unfold seal_body. cbn [ss_hash ss_ctr ss_offset ss_prev ss_out].
  rewrite (ctr_plus_creg nonce Hn Hnb). replace (1 + 8 * r + 8)%nat with (1 + 8 * S r)%nat by lia.
  assert (ctr8 (ni_aes (aesni_gcm_init key)) (creg nonce (1 + 8 * r)) msg (wr msg out (128 * r)) (128 * r) = wr msg out (128 * S r)) as ->.
  { unfold wr. replace (128 * r)%nat with (16 * (8 * r))%nat by lia.
    rewrite (ctr8_spec nonce Hn Hnb _ _ ni_ks_length) by (done || lia). f_equal. lia. }
  replace (128 * r + 128)%nat with (128 * S r)%nat by lia. f_equal.
  destruct r as [| r]; [done |]. change (0 <? S r)%nat with true. cbv iota. apply ni_flush_spec; (done || lia).
Qed.

Lemma seal_loop fuel g0 : r128 g0 -> (length msg <= fuel)%nat ->
  exists r s, while_fuel fuel (fun s => (ss_offset s + 128 <=? length msg)%nat) (seal_body (aesni_gcm_init key) msg)
      (mk_seal g0 (gcm_j0 nonce) 0 false out) = Some s /\ seal_inv g0 r s /\ (length msg < 128 * r + 128)%nat.
Proof.
  intros Hg Hf. destruct (while_total (fun s => exists r, seal_inv g0 r s) (fun s => length msg - ss_offset s)%nat
    (fun s => (ss_offset s + 128 <=? length msg)%nat) (seal_body (aesni_gcm_init key) msg)) with (fuel := fuel) (s := mk_seal g0 (gcm_j0 nonce) 0 false out)
    as (s & Hw & [r Hr] & Hc).
  - intros s [r Hr] Hc. apply Nat.leb_le in Hc. destruct Hr as [Hr1 Hr2]. assert (ss_offset s = 128 * r)%nat as Ho by (by subst s).
    assert (seal_inv g0 (S r) (seal_body (aesni_gcm_init key) msg s)) as Hnext by (apply seal_step; [done | by split | lia]).
    split; [by exists (S r) |]. destruct Hnext as [_ ->]. cbn [ss_offset]. lia.
  - exists 0%nat. split; [lia |]. rewrite (j0_creg nonce Hn). f_equal.
  - cbn [ss_offset]. lia.
  - exists r, s. split; [done | split; [done |]]. destruct Hr as [Hr ->]. cbn [ss_offset] in Hc. apply Nat.leb_gt in Hc. lia.
Qed.

Lemma tail_spec fuel r : (128 * r <= length msg)%nat -> (length msg <= 16 * fuel)%nat ->
  ctr_tail fuel (ni_aes (aesni_gcm_init key)) msg (creg nonce (1 + 8 * r), (wr msg out) (128 * r), (128 * r)%nat) = Some (splice out 0 (GCM_ctr (AES key) nonce msg)).
Proof.
  intros Hr Hf. unfold wr. replace (128 * r)%nat with (16 * (8 * r))%nat by lia.
  rewrite (ctr_tail_spec nonce Hn Hnb _ _ ni_ks_length) by (done || lia). by rewrite ni_ct.
Qed.
End Run.

Lemma ni_seal_ok fuel out out_len pt : bytes pt -> bytes out -> Z.of_nat (length pt) <= SIZE_MAX - 16 ->
  (length pt <= fuel)%nat -> (nblocks aad <= fuel)%nat ->
  opssl_aesni_gcm_seal fuel out out_len key nonce pt aad =
    if (length out <? length pt + 16)%nat then Some (0, out, out_len)
    else Some (1, splice out 0 (GCM_encrypt (AES key) nonce aad pt), Z.of_nat (length pt) + 16).
Proof.
  intros Hpb Hob Hs Hf Hfa. unfold opssl_aesni_gcm_seal. cbv zeta. rewrite (proj2 (Z.ltb_ge _ _)) by lia.
  destruct (Nat.ltb_spec (length out) (length pt + 16)) as [Ho | Ho]; [by rewrite (proj2 (Z.ltb_lt _ _)) by lia |].
  rewrite (proj2 (Z.ltb_ge (Z.of_nat _) _)) by lia.
  assert (negb (length key =? 16)%nat && negb (length key =? 32)%nat = false) as -> by (by destruct Hkey as [-> | ->]).
  rewrite ni_aad by done. set (g0 := GHASH _ 0 (blocks aad)). pose proof ni_key_ok as Hk. pose proof (key_r128 _ _ Hk) as Hh.
  assert (r128 g0) as Hg by (apply GHASH_range; [done | apply r128_0]).
  destruct (seal_loop pt out Hpb Hob ltac:(lia) fuel g0 Hg Hf) as (r & s & -> & [Hr ->] & Hlt).
  cbn [ss_hash ss_ctr ss_offset ss_prev ss_out]. rewrite tail_spec by (done || lia).
  set (C := GCM_ctr (AES key) nonce pt). destruct (C_ok pt Hpb) as [HCb HCl]. fold C in HCb, HCl.
  assert ((if (0 <? r)%nat then ghash8 (ni_H (aesni_gcm_init key)) (hash_of pt g0 r)
      (drop (128 * r - 128) (wr pt out (128 * r))) else hash_of pt g0 r) =
    GHASH (gcm_H (AES key)) g0 (to_blocks (8 * r) C)) as ->.
  { destruct r as [| r]; [done |]. change (0 <? S r)%nat with true. apply ni_flush_spec; (done || lia). }
  set (g1 := GHASH _ g0 (to_blocks (8 * r) C)). assert (r128 g1) as Hg1 by (by apply GHASH_range).
  assert ((if (128 * r <? length pt)%nat then ghash_update fuel (ni_H (aesni_gcm_init key)) g1
      (sub_list (128 * r) (length pt - 128 * r) (splice out 0 C)) else Some g1) = Some (GHASH (gcm_H (AES key)) g0 (blocks C))) as ->.
  { rewrite (blocks_split (8 * r) C) by lia. rewrite GHASH_app. fold g1. replace (16 * (8 * r))%nat with (128 * r)%nat by lia.
    destruct (Nat.ltb_spec (128 * r) (length pt)).
    - assert (sub_list (128 * r) (length pt - 128 * r) (splice out 0 C) = drop (128 * r) C) as ->.
      { unfold sub_list, splice. rewrite take_0. cbn [app]. rewrite drop_app_le by lia.
        apply take_app_length'. rewrite length_drop. lia. }
      apply (ghash_update_spec _ _ Hk); [| done | by apply bytes_drop].
      unfold nblocks. rewrite length_drop. etransitivity; [apply Nat.Div0.div_le_upper_bound | exact Hf]. lia.
    - rewrite drop_ge by lia. done. }
  rewrite ni_finish_spec by (by apply GHASH_range). rewrite <- HCl. fold g0. rewrite <- ni_tag_spec by done.
  do 3 f_equal. unfold GCM_encrypt. fold C. rewrite <- (splice_splice out 0 C); [done |].
  unfold GCM_tag. rewrite bxor_length; rewrite be_bytes_length; [lia |]. symmetry. by apply AES_ok.
Qed.

Lemma open_loop fuel msg out : (length msg <= length out)%nat -> (length msg <= fuel)%nat ->
  exists r, (128 * r <= length msg)%nat /\ (length msg < 128 * r + 128)%nat /\
    while_fuel fuel (fun s : Z * list Z * nat => (s.2 + 128 <=? length msg)%nat)
      (fun s => (ctr_plus s.1.1 8, ctr8 (ni_aes (aesni_gcm_init key)) s.1.1 msg s.1.2 s.2, (s.2 + 128)%nat)) (gcm_j0 nonce, out, 0%nat) =
      Some (creg nonce (1 + 8 * r), wr msg out (128 * r), (128 * r)%nat).
Proof.
  intros Hout Hf. set (body := fun s : Z * list Z * nat => (ctr_plus s.1.1 8, _, _)).
  destruct (while_total (fun s => exists r, (128 * r <= length msg)%nat /\ s = (creg nonce (1 + 8 * r), wr msg out (128 * r), (128 * r)%nat))
    (fun s => length msg - s.2)%nat (fun s : Z * list Z * nat => (s.2 + 128 <=? length msg)%nat) body) with (fuel := fuel) (s := (gcm_j0 nonce, out, 0%nat))
    as (s & Hw & (r & Hr & ->) & Hc).
  - intros s (r & Hr & ->) Hc. cbn [snd] in *. apply Nat.leb_le in Hc. unfold body. cbn [fst snd].
    rewrite (ctr_plus_creg nonce Hn Hnb). replace (1 + 8 * r + 8)%nat with (1 + 8 * S r)%nat by lia.
    assert (ctr8 (ni_aes (aesni_gcm_init key)) (creg nonce (1 + 8 * r)) msg (wr msg out (128 * r)) (128 * r) = wr msg out (128 * S r)) as ->.
    { unfold wr. replace (128 * r)%nat with (16 * (8 * r))%nat by lia.
      rewrite (ctr8_spec nonce Hn Hnb _ _ ni_ks_length) by (done || lia). f_equal. lia. }
    replace (128 * r + 128)%nat with (128 * S r)%nat by lia. split; [exists (S r); split; [lia | done] | cbn [snd]; lia].
  - exists 0%nat. split; [lia |]. rewrite (j0_creg nonce Hn). unfold wr, written. cbn [Nat.mul take]. by rewrite splice_nil.
  - cbn [snd]. lia.
  - exists r. cbn [snd] in Hc. apply Nat.leb_gt in Hc. split; [done | split; [lia | done]].
Qed.

Lemma ni_open_ok fuel out out_len c : bytes c -> (length c <= fuel)%nat -> (nblocks aad <= fuel)%nat ->
  opssl_aesni_gcm_open fuel out out_len key nonce c aad =
    if decide (16 <= length c <= length out + 16)%nat then
      let ct := take (length c - 16) c in
      if decide (drop (length c - 16) c = GCM_tag (AES key) nonce aad ct) then
        Some (1, splice out 0 (GCM_ctr (AES key) nonce ct), Z.of_nat (length c) - 16)
      else Some (0, out, out_len)
    else Some (0, out, out_len).
Proof.
  intros Hc Hf Hfa. unfold opssl_aesni_gcm_open. cbv zeta.
  destruct (Nat.ltb_spec (length c) 16); [by rewrite decide_False by lia |].
  destruct (Nat.ltb_spec (length out) (length c - 16)); [by rewrite decide_False by lia |]. rewrite decide_True by lia.
  assert (negb (length key =? 16)%nat && negb (length key =? 32)%nat = false) as -> by (by destruct Hkey as [-> | ->]).
  rewrite ni_aad by done. set (g0 := GHASH _ 0 (blocks aad)). pose proof ni_key_ok as Hk. pose proof (key_r128 _ _ Hk) as Hh.
  assert (r128 g0) as Hg by (apply GHASH_range; [done | apply r128_0]).
  set (ct := take (length c - 16) c). set (tg := drop (length c - 16) c).
  assert (bytes ct) as Hcb by by apply bytes_take. assert (length ct = length c - 16)%nat as Hlc by (unfold ct; rewrite length_take; lia).
  assert (length tg = 16%nat) as Hlt by (unfold tg; rewrite length_drop; lia).
  rewrite (ghash_update_spec _ _ Hk); [| | done | done].
  2: { unfold nblocks. rewrite Hlc. etransitivity; [apply Nat.Div0.div_le_upper_bound | exact Hf]. lia. }
  rewrite ni_finish_spec by (by apply GHASH_range). rewrite <- Hlc, <- ni_tag_spec by done.
  set (tag := GCM_tag (AES key) nonce aad ct). assert (length tag = 16%nat /\ bytes tag) as [Htl Htb].
  { unfold tag, GCM_tag. destruct (counter_ok nonce Hn Hnb 1). destruct (AES_ok key (gcm_counter nonce 1) Hkey Hkb) as [HA1 HA2].
    split; [rewrite bxor_length; rewrite be_bytes_length; done | apply bxor_bytes; [apply be_bytes_ok | done]]. }
  pose proof (opssl_ct_eq_iff tag tg 16 Htb ltac:(by apply bytes_drop) ltac:(lia) ltac:(lia)) as E.
  rewrite !take_ge in E by lia. destruct (decide (tg = tag)) as [Ht | Ht].
  - rewrite bool_decide_eq_true_2 in E by done. apply negb_true_iff in E. rewrite E.
    destruct (open_loop fuel ct out ltac:(lia) ltac:(lia)) as (r & Hr1 & Hr2 & ->).
    rewrite tail_spec by (done || lia). rewrite Hlc. do 2 f_equal. lia.
  - rewrite bool_decide_eq_false_2 in E by congruence. apply negb_false_iff in E. by rewrite E.
Qed.
End Gcm.

(** C33: sealing with AES-NI writes the AES-GCM ciphertext and tag of SP 800-38D, for
    keys of 16 or 32 bytes and any message that fits, whatever mix of eight-block,
    four-block and single-block steps its length calls for; otherwise it fails
    leaving the output as it was. *)
Theorem aesni_gcm_seal_sp800_38d {I : AesInstr} (IS : AesInstrSpec I) {J : Clmul} (JS : ClmulSpec J) fuel out out_len key nonce pt aad :
  bytes key -> length nonce = 12%nat -> bytes nonce -> bytes aad -> bytes pt -> bytes out ->
  Z.of_nat (length pt) <= SIZE_MAX - 16 -> (length pt <= fuel)%nat -> (nblocks aad <= fuel)%nat ->
  opssl_aesni_gcm_seal fuel out out_len key nonce pt aad =
    if decide ((length key = 16 \/ length key = 32) /\ length pt + 16 <= length out)%nat
    then Some (1, splice out 0 (GCM_encrypt (AES key) nonce aad pt), Z.of_nat (length pt) + 16)
    else Some (0, out, out_len).
Proof.
  intros Hkb Hn Hnb Ha Hp Ho Hs Hf Hfa. destruct (decide (length key = 16 \/ length key = 32)%nat) as [Hk | Hk].
  - rewrite ni_seal_ok by done. destruct (Nat.ltb_spec (length out) (length pt + 16)); [by rewrite decide_False by lia | by rewrite decide_True by lia].
  - rewrite decide_False by tauto. unfold opssl_aesni_gcm_seal. cbv zeta.
    destruct (Nat.eqb_spec (length key) 16); [lia |]. destruct (Nat.eqb_spec (length key) 32); [lia |]. by repeat case_match.
Qed.

(** Opening succeeds exactly when the last sixteen bytes are the tag of the
    associated data and the rest, and then writes the decryption; nothing is
    written otherwise. *)
Theorem aesni_gcm_open_authentic {I : AesInstr} (IS : AesInstrSpec I) {J : Clmul} (JS : ClmulSpec J) fuel out out_len key nonce c aad :
  (length key = 16 \/ length key = 32)%nat -> bytes key -> length nonce = 12%nat -> bytes nonce -> bytes aad -> bytes c ->
  (length c <= fuel)%nat -> (nblocks aad <= fuel)%nat ->
  opssl_aesni_gcm_open fuel out out_len key nonce c aad =
    if decide (16 <= length c <= length out + 16)%nat then
      let ct := take (length c - 16) c in
      if decide (drop (length c - 16) c = GCM_tag (AES key) nonce aad ct) then
        Some (1, splice out 0 (GCM_ctr (AES key) nonce ct), Z.of_nat (length c) - 16)
      else Some (0, out, out_len)
    else Some (0, out, out_len).
Proof. intros. by apply ni_open_ok. Qed.

(** Opening what was sealed gives the message back. *)
Theorem aesni_gcm_roundtrip {I : AesInstr} (IS : AesInstrSpec I) {J : Clmul} (JS : ClmulSpec J) fuel out out_len out2 out_len2 key nonce pt aad :
  (length key = 16 \/ length key = 32)%nat -> bytes key -> length nonce = 12%nat -> bytes nonce -> bytes aad -> bytes pt -> bytes out ->
  Z.of_nat (length pt) <= SIZE_MAX - 16 -> (length pt + 16 <= fuel)%nat -> (nblocks aad <= fuel)%nat ->
  length out = (length pt + 16)%nat -> length out2 = length pt ->
  exists c, opssl_aesni_gcm_seal fuel out out_len key nonce pt aad = Some (1, c, Z.of_nat (length pt) + 16) /\
    opssl_aesni_gcm_open fuel out2 out_len2 key nonce c aad = Some (1, pt, Z.of_nat (length pt)).
Proof.
  intros Hk Hkb Hn Hnb Ha Hp Hob Hs Hf Hfa Ho Ho2. set (ct := GCM_ctr (AES key) nonce pt).
  destruct (C_ok key nonce Hk Hkb pt Hp) as [Hcb Hcl]. fold ct in Hcb, Hcl.
  assert (length (GCM_tag (AES key) nonce aad ct) = 16%nat /\ bytes (GCM_tag (AES key) nonce aad ct)) as [Htl Htb].
  { unfold GCM_tag. destruct (AES_ok key (gcm_counter nonce 1) Hk Hkb) as [HA1 HA2].
    split; [rewrite bxor_length; rewrite be_bytes_length; done | apply bxor_bytes; [apply be_bytes_ok | done]]. }
  assert (length (GCM_encrypt (AES key) nonce aad pt) = length pt + 16)%nat as Hel by (unfold GCM_encrypt; fold ct; rewrite length_app; lia).
  exists (GCM_encrypt (AES key) nonce aad pt). split.
  - rewrite ni_seal_ok by (done || lia). rewrite (proj2 (Nat.ltb_ge _ _)) by lia. by rewrite splice_full by lia.
  - assert (bytes (GCM_encrypt (AES key) nonce aad pt)) as Heb by (apply bytes_app; by split).
    rewrite ni_open_ok by (done || lia). rewrite decide_True by lia. rewrite Hel.
    replace (length pt + 16 - 16)%nat with (length ct) by lia. unfold GCM_encrypt. fold ct. cbv zeta.
    rewrite take_app_length, drop_app_length, decide_True by done. unfold ct at 1, GCM_ctr. rewrite ctr_involutive.
    + rewrite splice_full by lia. do 2 f_equal. lia.
    + intros i. by apply AES_ok.
Qed.

Lemma aesni_gcm_seal_sp800_38d_witness :
  opssl_aesni_gcm_seal 40 (replicate 36 0) 0 (replicate 16 1) (replicate 12 2) (replicate 20 3) [4; 5] =
    if decide ((length (replicate 16 1) = 16 \/ length (replicate 16 1) = 32) /\ length (replicate 20 3) + 16 <= length (replicate 36 0))%nat
    then Some (1, splice (replicate 36 0) 0 (GCM_encrypt (AES (replicate 16 1)) (replicate 12 2) [4; 5] (replicate 20 3)), Z.of_nat (length (replicate 20 3)) + 16)
    else Some (0, replicate 36 0, 0).
Proof.
  apply (@aesni_gcm_seal_sp800_38d aes_instr_model aes_instr_model_spec clmul_model clmul_model_spec 40 (replicate 36 0) 0
    (replicate 16 1) (replicate 12 2) (replicate 20 3) [4; 5]);
    first [reflexivity | solve_bytes | apply (bool_decide_unpack _); vm_compute; exact I | vm_compute; discriminate].
Defined.

Lemma aesni_gcm_open_authentic_witness :
  opssl_aesni_gcm_open 40 (replicate 4 0) 0 (replicate 16 1) (replicate 12 2) (replicate 20 3) [4; 5] =
    if decide (16 <= length (replicate 20 3) <= length (replicate 4 0) + 16)%nat then
      let ct := take (length (replicate 20 3) - 16) (replicate 20 3) in
      if decide (drop (length (replicate 20 3) - 16) (replicate 20 3) = GCM_tag (AES (replicate 16 1)) (replicate 12 2) [4; 5] ct) then
        Some (1, splice (replicate 4 0) 0 (GCM_ctr (AES (replicate 16 1)) (replicate 12 2) ct), Z.of_nat (length (replicate 20 3)) - 16)
      else Some (0, replicate 4 0, 0)
    else Some (0, replicate 4 0, 0).
Proof.
  apply (@aesni_gcm_open_authentic aes_instr_model aes_instr_model_spec clmul_model clmul_model_spec 40 (replicate 4 0) 0
    (replicate 16 1) (replicate 12 2) (replicate 20 3) [4; 5]);
    first [reflexivity | solve_bytes | apply (bool_decide_unpack _); vm_compute; exact I].
Defined.

Lemma aesni_gcm_roundtrip_witness :
  exists c, opssl_aesni_gcm_seal 40 (replicate 21 0) 0 (replicate 32 1) (replicate 12 2) [3; 4; 5; 6; 7] [8] = Some (1, c, Z.of_nat 5 + 16) /\
    opssl_aesni_gcm_open 40 (replicate 5 0) 0 (replicate 32 1) (replicate 12 2) c [8] = Some (1, [3; 4; 5; 6; 7], Z.of_nat 5).
Proof.
  apply (@aesni_gcm_roundtrip aes_instr_model aes_instr_model_spec clmul_model clmul_model_spec 40 (replicate 21 0) 0 (replicate 5 0) 0
    (replicate 32 1) (replicate 12 2) [3; 4; 5; 6; 7] [8]);
    first [reflexivity | solve_bytes | apply (bool_decide_unpack _); vm_compute; exact I | vm_compute; discriminate].
Defined.
