(* ===== verification/AesGcm.v ===== *)
(** AES-GCM in software: src/crypto/aes_gcm.c.

    The file declares its own [opssl_aes_ctx_t], without the last two members
    aes.c gives the type.  In [gcm_ctx_t] the hash key [H] follows the cipher
    context at offset 244, so the members aes.c reads and writes at offsets 248
    and 256 (LP64), [hw_ctx] and [use_hw], are the bytes 4..11 and 12 of [H];
    [aes_view] is the context as aes.c sees it.  [None] is undefined behaviour, or
    a loop that has not ended within [fuel] iterations. *)
From S2P Require Import Prelude Platform Cpu AesSpec AesNi Aes BlockModes GcmSpec AesNiGcm.
#[local] Open Scope Z_scope.

Record gcm_ctx_t := mk_gcm {
  g_rk : list Z; g_nr : Z; g_H : list Z; g_J0 : list Z; g_ghash : list Z; g_aad_len : Z; g_ct_len : Z }.

Definition gcm_zero : gcm_ctx_t :=
  mk_gcm (replicate 60 0) 0 (replicate 16 0) (replicate 16 0) (replicate 16 0) 0 0.

Definition aes_view (ctx : gcm_ctx_t) : opssl_aes_ctx_t :=
  mk_aes_ctx (g_rk ctx) (g_nr ctx)
    (if le_val (sub_list 4 8 (g_H ctx)) =? 0 then HwNull else HwWild) (negb ((g_H ctx).[12] =? 0)).

Definition set_ghash (ctx : gcm_ctx_t) (g : list Z) : gcm_ctx_t :=
  mk_gcm (g_rk ctx) (g_nr ctx) (g_H ctx) (g_J0 ctx) g (g_aad_len ctx) (g_ct_len ctx).

Definition set_lens (ctx : gcm_ctx_t) (aad_len ct_len : Z) : gcm_ctx_t :=
  mk_gcm (g_rk ctx) (g_nr ctx) (g_H ctx) (g_J0 ctx) (g_ghash ctx) aad_len ct_len.

(** [v = v * x]: every byte takes the low bit of the byte before it. *)
Definition ghash_shift (v : list Z) : list Z :=
  let v := for_range 0 15 (fun k v => let j := (15 - k)%nat in
             <[j := u8 (Z.lor (Z.shiftr v.[j] 1) (Z.shiftl v.[j - 1] 7))]> v) v in
  <[0%nat := Z.shiftr v.[0] 1]> v.

(** [(uint8_t)(-(int8_t)b)] for a bit [b]. *)
Definition byte_mask (b : Z) : Z := u8 (- b).

Definition ghash_step (x : list Z) (i : nat) (zv : list Z * list Z) : list Z * list Z :=
  let '(z, v) := zv in
  let xi := Z.land (Z.shiftr x.[i / 8] (7 - Z.of_nat (i mod 8))) 1 in
  let mask := byte_mask xi in
  let z := for_range 0 16 (fun j z => <[j := Z.lxor z.[j] (Z.land v.[j] mask)]> z) z in
  let carry := Z.land v.[15] 1 in
  let v := ghash_shift v in
  let v := <[0%nat := Z.lxor v.[0] (Z.land 0xE1 (byte_mask carry))]> v in
  (z, v).

Definition ghash_mult (x h : list Z) : list Z := (for_range 0 128 (ghash_step x) (replicate 16 0, h)).1.

Section Gcm.
Context `{Cpu} `{AesInstr}.
Variable fuel : nat.

(** One whole block; then what is left. *)
Definition ghash_xor (ghash data : list Z) (n : nat) : list Z :=
  for_range 0 n (fun i g => <[i := Z.lxor g.[i] data.[i]]> g) ghash.

Definition ghash_update (ctx : gcm_ctx_t) (data : list Z) : option gcm_ctx_t :=
  match while_fuel fuel (fun s : list Z * list Z => (16 <=? length s.2)%nat)
          (fun s => (ghash_mult (ghash_xor s.1 s.2 16) (g_H ctx), drop 16 s.2)) (g_ghash ctx, data) with
  | None => None
  | Some (ghash, data) =>
    Some (set_ghash ctx
      (if (0 <? length data)%nat then ghash_mult (ghash_xor ghash data (length data)) (g_H ctx) else ghash))
  end.

Variable calloc_ok : bool.

Definition gcm_init (key nonce : list Z) : option gcm_ctx_t :=
  let ctx := gcm_zero in
  let bits := if (length key =? 16)%nat then 128 else 256 in
  match opssl_aes_set_encrypt_key calloc_ok (aes_view ctx) key bits with
  | None => None
  | Some (_, aes) =>
    let zeros := replicate 16 0 in
    match opssl_aes_encrypt_block aes zeros with
    | None => None
    | Some h => Some (mk_gcm (rk aes) (nr aes) h (take 12 nonce ++ [0; 0; 0; 1]) (g_ghash ctx) 0 0)
    end
  end.

(** The state of the counter loop: the output written so far, the input left and
    the counter. *)
Definition gcm_ctr_body (ctx : gcm_ctx_t) (s : list Z * list Z * Z) : option (list Z * list Z * Z) :=
  let '(out, input, ctr) := s in
  let counter := take 12 (g_J0 ctx) ++ opssl_put_be32 ctr in
  match opssl_aes_encrypt_block (aes_view ctx) counter with
  | None => None
  | Some keystream =>
    let chunk := if (length input <? 16)%nat then length input else 16%nat in
    Some (out ++ bxor (take chunk input) keystream, drop chunk input, u32 (ctr + 1))
  end.

Definition gcm_ctr32_encrypt (ctx : gcm_ctx_t) (out input : list Z) : option (list Z) :=
  let ctr := u32 (opssl_be32 (drop 12 (g_J0 ctx)) + 1) in
  match while_opt fuel (fun s => (0 <? length s.1.2)%nat) (gcm_ctr_body ctx) ([], input, ctr) with
  | None => None
  | Some (written, _, _) => Some (splice out 0 written)
  end.

(** Data, then the zeros that complete its last block. *)
Definition ghash_padded (ctx : gcm_ctx_t) (data : list Z) : option gcm_ctx_t :=
  match (if (0 <? length data)%nat then ghash_update ctx data else Some ctx) with
  | None => None
  | Some ctx =>
    let pad := ((16 - length data mod 16) mod 16)%nat in
    if (0 <? pad)%nat then ghash_update ctx (replicate pad 0) else Some ctx
  end.

(** The block of lengths, and the tag. *)
Definition gcm_final (ctx : gcm_ctx_t) (aad_len pt_len : nat) : option (list Z) :=
  let lengths := opssl_put_be64 (u64 (Z.of_nat aad_len * 8)) ++ opssl_put_be64 (u64 (Z.of_nat pt_len * 8)) in
  match ghash_update ctx lengths with
  | None => None
  | Some ctx =>
    match opssl_aes_encrypt_block (aes_view ctx) (g_J0 ctx) with
    | None => None
    | Some tag_mask => Some (bxor (g_ghash ctx) tag_mask)
    end
  end.

Context `{Clmul}.

Definition opssl_aes_gcm_seal (out : list Z) (out_len : Z) (key nonce plaintext aad : list Z) : option (Z * list Z * Z) :=
  let pt_len := length plaintext in
  if SIZE_MAX - 16 <? Z.of_nat pt_len then Some (0, out, out_len) else
  let needed := Z.of_nat pt_len + 16 in
  if Z.of_nat (length out) <? needed then Some (0, out, out_len) else
  if negb (length key =? 16)%nat && negb (length key =? 32)%nat then Some (0, out, out_len) else
  if opssl_has_aesni && opssl_has_pclmul then opssl_aesni_gcm_seal fuel out out_len key nonce plaintext aad else
  match gcm_init key nonce with
  | None => None
  | Some ctx =>
    match ghash_padded (set_lens ctx (Z.of_nat (length aad)) 0) aad with
    | None => None
    | Some ctx =>
      match gcm_ctr32_encrypt ctx out plaintext with
      | None => None
      | Some out =>
        let ctx := set_lens ctx (g_aad_len ctx) (Z.of_nat pt_len) in
        match ghash_padded ctx (take pt_len out) with
        | None => None
        | Some ctx =>
          match gcm_final ctx (length aad) pt_len with
          | None => None
          | Some tag => Some (1, splice out pt_len tag, needed)
          end
        end
      end
    end
  end.

Definition opssl_aes_gcm_open (out : list Z) (out_len : Z) (key nonce ciphertext aad : list Z) : option (Z * list Z * Z) :=
  if (length ciphertext <? 16)%nat then Some (0, out, out_len) else
  let pt_len := (length ciphertext - 16)%nat in
  if (length out <? pt_len)%nat then Some (0, out, out_len) else
  if negb (length key =? 16)%nat && negb (length key =? 32)%nat then Some (0, out, out_len) else
  if opssl_has_aesni && opssl_has_pclmul then opssl_aesni_gcm_open fuel out out_len key nonce ciphertext aad else
  match gcm_init key nonce with
  | None => None
  | Some ctx =>
    match ghash_padded (set_lens ctx (Z.of_nat (length aad)) 0) aad with
    | None => None
    | Some ctx =>
      let ctx := set_lens ctx (g_aad_len ctx) (Z.of_nat pt_len) in
      match ghash_padded ctx (take pt_len ciphertext) with
      | None => None
      | Some ctx =>
        match gcm_final ctx (length aad) pt_len with
        | None => None
        | Some expected_tag =>
          if opssl_ct_eq expected_tag (drop pt_len ciphertext) 16 =? 0 then Some (0, out, out_len) else
          match gcm_ctr32_encrypt ctx out (take pt_len ciphertext) with
          | None => None
          | Some out => Some (1, out, Z.of_nat pt_len)
          end
        end
      end
    end
  end.
End Gcm.

(* ------------------------------------------------------------------ *)
(** * What the software path does *)

(** The context keeps its keys through the hashing. *)
Lemma ghash_update_H fuel ctx data ctx' : ghash_update fuel ctx data = Some ctx' ->
  g_H ctx' = g_H ctx /\ g_rk ctx' = g_rk ctx /\ g_nr ctx' = g_nr ctx /\ g_J0 ctx' = g_J0 ctx.
Proof. unfold ghash_update. destruct (while_fuel _ _ _ _) as [[g d] |]; [| done]. by intros [= <-]. Qed.

Lemma ghash_padded_H fuel ctx data ctx' : ghash_padded fuel ctx data = Some ctx' -> g_H ctx' = g_H ctx.
Proof.
  unfold ghash_padded. destruct (if (0 <? length data)%nat then ghash_update fuel ctx data else Some ctx) as [c |] eqn:E; [| done].
  assert (g_H c = g_H ctx) as <-.
  { destruct (0 <? length data)%nat; [by apply ghash_update_H in E as [-> _] | by injection E as <-]. }
  destruct (0 <? (16 - length data mod 16) mod 16)%nat; [intros H; by apply ghash_update_H in H as [-> _] | by intros [= <-]].
Qed.

(** After [gcm_init], any use of the cipher reads [H] as a pointer and a flag: when
    both are non-zero, as they are for almost every key, the block function
    follows a wild pointer. *)
Lemma gcm_software_wild {C : Cpu} {I : AesInstr} {J : Clmul} fuel calloc_ok out out_len key nonce pt aad ctx :
  opssl_has_aesni && opssl_has_pclmul = false -> (length key = 16 \/ length key = 32)%nat ->
  (length pt + 16 <= length out)%nat -> Z.of_nat (length pt) <= SIZE_MAX - 16 ->
  gcm_init calloc_ok key nonce = Some ctx -> le_val (sub_list 4 8 (g_H ctx)) <> 0 -> (g_H ctx).[12] <> 0 -> pt <> [] ->
  opssl_aes_gcm_seal fuel calloc_ok out out_len key nonce pt aad = None.
Proof.
  intros Hhw Hk Ho Hs Hi Hp Hu Hpt. unfold opssl_aes_gcm_seal. rewrite Hhw, Hi. cbv zeta.
  rewrite (proj2 (Z.ltb_ge _ _)) by lia. rewrite (proj2 (Z.ltb_ge (Z.of_nat _) _)) by lia.
  assert (negb (length key =? 16)%nat && negb (length key =? 32)%nat = false) as -> by (by destruct Hk as [-> | ->]).
  destruct (ghash_padded fuel _ aad) as [c |] eqn:Ec; [| done]. apply ghash_padded_H in Ec. cbn [set_lens g_H] in Ec. rewrite <- Ec in Hp, Hu.
  assert (forall x, opssl_aes_encrypt_block (aes_view c) x = None) as Hnone.
  { intros x. unfold opssl_aes_encrypt_block, aes_view. cbn [use_hw hw_ctx].
    by rewrite (proj2 (Z.eqb_neq _ 0) Hp), (proj2 (Z.eqb_neq _ 0) Hu). }
  assert (gcm_ctr32_encrypt fuel c out pt = None) as ->; [| done].
  unfold gcm_ctr32_encrypt. destruct pt as [| x pt]; [done |]. destruct fuel as [| n]; [done |].
  cbn [while_opt fst snd length Nat.ltb Nat.leb]. unfold gcm_ctr_body at 1. by rewrite Hnone.
Qed.

(** For instance the key of sixteen bytes 1, on a CPU without AES-NI. *)
Example gcm_software_wild_key :
  @opssl_aes_gcm_seal plain_cpu aes_instr_model 20 true clmul_model (replicate 20 0) 0 (replicate 16 1) (replicate 12 2) [1; 2; 3; 4] [] = None.
Proof. vm_compute. reflexivity. Qed.

(** A partial block is multiplied by the hash key, then multiplied again when the
    zeros that should have completed it are hashed as a block of their own: the
    hash is not GHASH of the padded data. *)
Example gcm_padding_hashed_twice :
  let ctx := mk_gcm (replicate 60 0) 10 (be_bytes 16 (2 ^ 126)) (replicate 16 0) (replicate 16 0) 0 0 in
  (be_val ∘ g_ghash <$> ghash_padded 1 ctx [0x80]) = Some (2 ^ 125) /\ GHASH (2 ^ 126) 0 (blocks [0x80]) = 2 ^ 126.
Proof. vm_compute. done. Qed.

(* ------------------------------------------------------------------ *)
(** * The multiplication is the field's *)

(** Shifting a byte string right by one bit, with [c] coming in from the left. *)
Fixpoint shift_bytes (c : Z) (l : list Z) : list Z :=
  match l with
  | [] => []
  | b :: l => (b / 2 + 128 * c) :: shift_bytes (b mod 2) l
  end.

Lemma shift_bytes_length c l : length (shift_bytes c l) = length l.
Proof. revert c. induction l as [| b l IH]; intros c; [done |]. cbn. by rewrite IH. Qed.

Lemma shift_bytes_val c l : 0 <= c < 2 -> bytes l -> bytes (shift_bytes c l) /\ be_val (shift_bytes c l) = (c * 256 ^ Z.of_nat (length l) + be_val l) / 2.
Proof.
  revert c. induction l as [| b l IH]; intros c Hc Hl.
  - split; [constructor |]. cbn. rewrite Z.add_0_r, Z.mul_1_r. symmetry. by apply Z.div_small.
  - apply bytes_cons in Hl as [Hb Hl]. unfold byte_ok in Hb.
    destruct (IH (b mod 2)) as [IHb IHv]; [apply Z.mod_pos_bound; lia | done |]. split.
    + apply bytes_cons. split; [unfold byte_ok; Z.div_mod_to_equations; lia | done].
    + cbn [shift_bytes]. rewrite !be_val_cons, shift_bytes_length, IHv. cbn [length]. rewrite Nat2Z.inj_succ, Z.pow_succ_r by lia.
      pose proof (pow256 (length l)) as Hp. set (p := 256 ^ Z.of_nat (length l)) in *.
      replace (c * (256 * p) + (b * p + be_val l)) with ((b mod 2) * p + be_val l + ((b / 2 + 128 * c) * p) * 2) by (pose proof (Z.div_mod b 2); nia).
      rewrite Z.div_add by lia. lia.
Qed.

Lemma shift_cell b p : byte_ok b -> byte_ok p -> u8 (Z.lor (Z.shiftr b 1) (Z.shiftl p 7)) = b / 2 + 128 * (p mod 2).
Proof.
  intros Hb Hp. unfold byte_ok in *. rewrite Z.lor_comm, shiftr_div, lor_shiftl by (lia || (change (2 ^ 1) with 2; change (2 ^ 7) with 128; Z.div_mod_to_equations; lia)).
  unfold u8. change (2 ^ 1) with 2. change (2 ^ 7) with 128. Z.div_mod_to_equations. lia.
Qed.

Lemma shift_bytes_get l : forall c j, (j < length l)%nat ->
  (shift_bytes c l).[j] = l.[j] / 2 + 128 * (match j with O => c | S i => l.[i] mod 2 end).
Proof.
  induction l as [| b l IH]; intros c j Hj; [cbn in Hj; lia |]. destruct j as [| j]; [done |]. cbn [shift_bytes].
  change ((b / 2 + 128 * c :: shift_bytes (b mod 2) l).[S j]) with (shift_bytes (b mod 2) l).[j]. change ((b :: l).[S j]) with l.[j].
  rewrite IH by (cbn in Hj; lia). by destruct j.
Qed.

Lemma ghash_shift_bytes v : length v = 16%nat -> bytes v -> ghash_shift v = shift_bytes 0 v.
Proof.
  intros Hl Hb. unfold ghash_shift. set (f := fun (k : nat) (v : list Z) => _).
  set (cell := fun j => u8 (Z.lor (Z.shiftr v.[j] 1) (Z.shiftl v.[j - 1] 7))).
  assert (length (for_range 0 15 f v) = 16%nat /\
    forall j, (j < 16)%nat -> (for_range 0 15 f v).[j] = if (16 - 15 <=? j)%nat then cell j else v.[j]) as [Hw1 Hw2].
  { apply (for_range_ind (fun k w => length w = 16%nat /\ forall j, (j < 16)%nat -> w.[j] = if (16 - k <=? j)%nat then cell j else v.[j])).
    - split; [done |]. intros j Hj. by rewrite (proj2 (Nat.leb_gt _ _)) by lia.
    - intros k w Hk [Hlw Hw]. unfold f. split; [by rewrite length_insert |]. intros j Hj. destruct (decide (j = 15 - k)%nat) as [-> | Hne].
      + rewrite get_insert_eq by lia. rewrite !Hw by lia. rewrite !(proj2 (Nat.leb_gt _ _)), (proj2 (Nat.leb_le _ _)) by lia. done.
      + rewrite get_insert_ne by done. rewrite Hw by done. destruct (Nat.leb_spec (16 - k) j), (Nat.leb_spec (16 - S k) j); done || lia. }
  change (16 - 15)%nat with 1%nat in Hw2. apply list_eq_get; rewrite length_insert, Hw1.
  - by rewrite shift_bytes_length.
  - intros j Hj. rewrite shift_bytes_get by lia. destruct j as [| j].
    + rewrite get_insert_eq by lia. rewrite Hw2, shiftr_div by lia. change (2 ^ 1) with 2. cbn [Nat.leb]. lia.
    + rewrite get_insert_ne, Hw2 by lia. cbn [Nat.leb]. unfold cell. rewrite shift_cell by auto with opssl. by rewrite Nat.sub_succ, Nat.sub_0_r.
Qed.

Lemma ghash_shift_spec v : length v = 16%nat -> bytes v ->
  length (ghash_shift v) = 16%nat /\ bytes (ghash_shift v) /\ be_val (ghash_shift v) = Z.shiftr (be_val v) 1.
Proof.
  intros Hl Hb. rewrite ghash_shift_bytes by done. rewrite shift_bytes_length, shiftr_div by lia.
  destruct (shift_bytes_val 0 v) as [H1 H2]; [lia | done |]. split; [done | split; [done |]]. by rewrite H2.
Qed.

(** A bit of a byte string. *)
Lemma be_val_bit l i : bytes l -> (i < 8 * length l)%nat ->
  Z.testbit (be_val l) (Z.of_nat (8 * length l - 1 - i)) = Z.testbit l.[i / 8] (7 - Z.of_nat (i mod 8)).
Proof.
  revert i. induction l as [| b l IH]; intros i Hb Hi; [cbn in Hi; lia |]. pose proof Hb as Hbl. apply bytes_cons in Hb as [Hb Hl].
  rewrite be_val_cons_xor by done. cbn [length] in *. pose proof (be_val_range l Hl) as Hr. rewrite pow256_bits in Hr.
  rewrite Z.lxor_spec, Z.shiftl_spec by lia. destruct (Nat.lt_ge_cases i 8) as [Hs | Hs].
  - rewrite Nat.div_small, Nat.mod_small by done. rewrite <- (Z.mod_small (be_val l) (2 ^ (8 * Z.of_nat (length l)))) by lia.
    rewrite Z.mod_pow2_bits_high by lia. rewrite xorb_false_r. cbn [get nth]. f_equal. lia.
  - rewrite (Z.testbit_neg_r b) by lia. rewrite xorb_false_l.
    replace (8 * S (length l) - 1 - i)%nat with (8 * length l - 1 - (i - 8))%nat by lia. rewrite IH by (done || lia).
    replace i with (i - 8 + 1 * 8)%nat at 3 4 by lia. rewrite Nat.div_add, Nat.Div0.mod_add by lia.
    replace ((i - 8) / 8 + 1)%nat with (S ((i - 8) / 8)) by lia. done.
Qed.

(** Turning a mask into a selection. *)
Lemma masked_cells z v (b : bool) : length z = 16%nat -> length v = 16%nat -> bytes v ->
  for_range 0 16 (fun j z => <[j := Z.lxor z.[j] (Z.land v.[j] (byte_mask (b2z b)))]> z) z = bxor z (if b then v else replicate 16 0).
Proof.
  intros Hz Hv Hb. set (f := fun (j : nat) (z : list Z) => _). set (m := if b then v else replicate 16 0).
  assert (length m = 16%nat) as Hm by (by destruct b).
  assert (length (for_range 0 16 f z) = 16%nat /\
    forall j, (j < 16)%nat -> (for_range 0 16 f z).[j] = if (j <? 16)%nat then Z.lxor z.[j] m.[j] else z.[j]) as [Hw1 Hw2].
  { apply (for_range_ind (fun k w => length w = 16%nat /\ forall j, (j < 16)%nat -> w.[j] = if (j <? k)%nat then Z.lxor z.[j] m.[j] else z.[j])).
    - split; [done |]. intros j Hj. by rewrite (proj2 (Nat.ltb_ge _ _)) by lia.
    - intros k w Hk [Hlw Hw]. unfold f. split; [by rewrite length_insert |]. intros j Hj. destruct (decide (j = k)) as [-> | Hne].
      + rewrite get_insert_eq by lia. rewrite Hw by lia. rewrite (proj2 (Nat.ltb_ge k k)), (proj2 (Nat.ltb_lt k _)) by lia. f_equal.
        unfold m, byte_mask. destruct b; cbn [b2z].
        * change (u8 (- (1))) with (2 ^ 8 - 1). rewrite land_ones' by lia. by apply u8_id, bytes_get.
        * change (u8 (- 0)) with 0. rewrite Z.land_0_r. by rewrite get_zeros.
      + rewrite get_insert_ne by done. rewrite Hw by done. destruct (Nat.ltb_spec j k), (Nat.ltb_spec j (S k)); done || lia. }
  apply list_eq_get; rewrite Hw1; [by rewrite bxor_length by congruence |].
  intros j Hj. rewrite Hw2, (proj2 (Nat.ltb_lt j 16)) by lia. by rewrite bxor_get by lia.
Qed.

Lemma land_1_b2z x : Z.land x 1 = b2z (Z.testbit x 0).
Proof.
  change 1 with (2 ^ 1 - 1). rewrite land_ones' by lia. change (2 ^ 1) with 2. rewrite Zmod_odd, Z.bit0_odd. by destruct (Z.odd x).
Qed.

Definition block_ok (b : list Z) : Prop := length b = 16%nat /\ bytes b.

Lemma ghash_step_spec x i z v : block_ok x -> block_ok z -> block_ok v -> (i < 128)%nat ->
  let '(z', v') := ghash_step x i (z, v) in
  block_ok z' /\ block_ok v' /\ (be_val z', be_val v') = gmul_step (be_val x) i (be_val z, be_val v).
Proof.
  intros [Lx Bx] [Lz Bz] [Lv Bv] Hi. unfold ghash_step, gmul_step. cbv zeta.
  rewrite (land_1_b2z (Z.shiftr x.[i / 8] _)), Z.shiftr_spec, Z.add_0_l by lia.
  rewrite <- be_val_bit, Lx by (done || lia). change (8 * 16 - 1)%nat with 127%nat. rewrite Nat2Z.inj_sub by lia. change (Z.of_nat 127) with 127.
  rewrite masked_cells by done. rewrite land_1_b2z. set (sel := Z.testbit (be_val x) _).
  assert (block_ok (if sel then v else replicate 16 0)) as [Ls Bs].
  { destruct sel; [done |]. split; [done |]. apply bytes_replicate. unfold byte_ok. lia. }
  destruct (ghash_shift_spec v Lv Bv) as (L1 & B1 & V1).
  destruct (ghash_shift v) as [| b0 r] eqn:Es; [discriminate |]. cbn [insert list_insert]. unfold get at 1. cbn [nth].
  apply bytes_cons in B1 as [Hb0 Hr]. cbn [length] in L1. assert (length r = 15%nat) as Lr by lia.
  set (e := Z.land 0xE1 (byte_mask (b2z (Z.testbit v.[15] 0)))).
  assert (e = if Z.odd (be_val v) then 0xE1 else 0) as Ee.
  { pose proof (be_val_bit v 127 Bv ltac:(lia)) as Hbit. rewrite Lv in Hbit. change (8 * 16 - 1 - 127)%nat with 0%nat in Hbit.
    change (127 / 8)%nat with 15%nat in Hbit. change (7 - Z.of_nat (127 mod 8)) with 0 in Hbit. unfold e. rewrite <- Hbit. change (Z.of_nat 0) with 0.
    rewrite Z.bit0_odd. by destruct (Z.odd (be_val v)). }
  assert (byte_ok e) as He by (rewrite Ee; destruct (Z.odd _); unfold byte_ok; lia).
  assert (bytes (Z.lxor b0 e :: r)) as Bv' by (apply bytes_cons; split; [by apply lxor_byte | done]).
  split; [| split].
  - split; [by rewrite bxor_length by congruence | by apply bxor_bytes].
  - split; [cbn [length]; lia | done].
  - f_equal.
    + rewrite be_val_bxor by (done || congruence). f_equal. destruct sel; [done | apply be_val_zeros].
    + unfold gdiv. rewrite <- V1, !be_val_cons_xor by (done || by apply bytes_cons). rewrite Lr, Z.shiftl_lxor, Ee.
      assert (Z.shiftl (if Z.odd (be_val v) then 0xE1 else 0) (8 * Z.of_nat 15) = if Z.odd (be_val v) then gcm_R else 0) as ->
        by (destruct (Z.odd (be_val v)); vm_compute; reflexivity).
      rewrite !Z.lxor_assoc. f_equal. apply Z.lxor_comm.
Qed.

Lemma pair_fst {A B} (a : A) (b : B) p : (a, b) = p -> a = p.1.
Proof. by intros <-. Qed.

(** The bytewise multiplication is algorithm 1 of SP 800-38D. *)
Lemma ghash_mult_spec x h : block_ok x -> block_ok h -> block_ok (ghash_mult x h) /\ be_val (ghash_mult x h) = gmul128 (be_val x) (be_val h).
Proof.
  intros Hx Hh. unfold ghash_mult, gmul128.
  assert (forall n, (n <= 128)%nat ->
    let s := for_range 0 n (ghash_step x) (replicate 16 0, h) in
    block_ok s.1 /\ block_ok s.2 /\ (be_val s.1, be_val s.2) = for_range 0 n (gmul_step (be_val x)) (0, be_val h)) as H.
  { induction n as [| n IH]; intros Hn.
    - cbn [for_range fold_left seq fst snd]. split; [split; [done | apply bytes_replicate; unfold byte_ok; lia] |]. by split.
    - cbv zeta in *. rewrite !for_range_snoc. destruct IH as (H1 & H2 & H3); [lia |]. rewrite <- H3.
      destruct (for_range 0 n (ghash_step x) (replicate 16 0, h)) as [z v]. cbn [fst snd Nat.add] in *.
      pose proof (ghash_step_spec x n z v Hx H1 H2 ltac:(lia)) as Hs. destruct (ghash_step x n (z, v)) as [z' v']. by destruct Hs as (? & ? & <-). }
  specialize (H 128%nat ltac:(lia)). cbv zeta in H. destruct H as (H1 & _ & H3). split; [exact H1 | exact (pair_fst _ _ _ H3)].
Qed.

Lemma ghash_mult_eq x h : block_ok x -> block_ok h -> ghash_mult x h = be_bytes 16 (gmul128 (be_val x) (be_val h)).
Proof.
  intros Hx Hh. destruct (ghash_mult_spec x h Hx Hh) as [[L B] <-]. rewrite <- L. by rewrite be_val_bytes.
Qed.

(** Xoring a (possibly short) block into the hash. *)
Lemma ghash_xor_spec g data n : block_ok g -> bytes data -> (n <= 16)%nat -> (n <= length data)%nat ->
  block_ok (ghash_xor g data n) /\ be_val (ghash_xor g data n) = Z.lxor (be_val g) (be_val (take n data ++ replicate (16 - n) 0)).
Proof.
  intros [Lg Bg] Hd Hn Hl.
  assert (block_ok (take n data ++ replicate (16 - n) 0)) as [Lp Bp].
  { split; [rewrite length_app, length_take, length_replicate; lia | apply bytes_app; split; [by apply bytes_take | apply bytes_replicate; unfold byte_ok; lia]]. }
  assert (ghash_xor g data n = bxor g (take n data ++ replicate (16 - n) 0)) as ->.
  { unfold ghash_xor. set (f := fun (i : nat) (g : list Z) => _).
    assert (length (for_range 0 n f g) = 16%nat /\ forall j, (for_range 0 n f g).[j] = if (j <? n)%nat then Z.lxor g.[j] data.[j] else g.[j]) as [Hw1 Hw2].
    { apply (for_range_ind (fun k w => length w = 16%nat /\ forall j, w.[j] = if (j <? k)%nat then Z.lxor g.[j] data.[j] else g.[j])); [done |].
      intros k w Hk [Hlw Hw]. unfold f. split; [by rewrite length_insert |]. intros j. destruct (decide (j = k)) as [-> | Hne].
      + rewrite get_insert_eq by lia. rewrite Hw, (proj2 (Nat.ltb_ge k k)), (proj2 (Nat.ltb_lt k _)) by lia. done.
      + rewrite get_insert_ne by done. rewrite Hw. destruct (Nat.ltb_spec j k), (Nat.ltb_spec j (S k)); done || lia. }
    apply list_eq_get; rewrite Hw1; [by rewrite bxor_length by congruence |]. intros j Hj. rewrite Hw2, bxor_get by congruence.
    destruct (Nat.ltb_spec j n).
    - rewrite get_app_l by (rewrite length_take; lia). by rewrite get_take.
    - rewrite get_app_r by (rewrite length_take; lia). by rewrite get_zeros, Z.lxor_0_r. }
  split; [split; [by rewrite bxor_length by congruence | by apply bxor_bytes] |]. apply be_val_bxor; done || congruence.
Qed.
