(* ===== verification/Camellia.v ===== *)
(** The Camellia block cipher: src/crypto/camellia.c up to [camellia_set_key].

    The 64-bit halves are [Z] values below 2^64.  [rot128] returns the pair it
    leaves in its two pointer arguments; the key generators return the context
    they fill.  The reference definition is RFC 3713's: subkeys cut from rotated
    128-bit numbers, and a loop over the rounds. *)
From S2P Require Import Prelude Platform.
#[local] Open Scope Z_scope.

Definition SBOX1 : list Z := concat
  [[112; 130; 44; 236; 179; 39; 192; 229; 228; 133; 87; 53; 234; 12; 174; 65];
   [35; 239; 107; 147; 69; 25; 165; 33; 237; 14; 79; 78; 29; 101; 146; 189];
   [134; 184; 175; 143; 124; 235; 31; 206; 62; 48; 220; 95; 94; 197; 11; 26];
   [166; 225; 57; 202; 213; 71; 93; 61; 217; 1; 90; 214; 81; 86; 108; 77];
   [139; 13; 154; 102; 251; 204; 176; 45; 116; 18; 43; 32; 240; 177; 132; 153];
   [223; 76; 203; 194; 52; 126; 118; 5; 109; 183; 169; 49; 209; 23; 4; 215];
   [20; 88; 58; 97; 222; 27; 17; 28; 50; 15; 156; 22; 83; 24; 242; 34];
   [254; 68; 207; 178; 195; 181; 122; 145; 36; 8; 232; 168; 96; 252; 105; 80];
   [170; 208; 160; 125; 161; 137; 98; 151; 84; 91; 30; 149; 224; 255; 100; 210];
   [16; 196; 0; 72; 163; 247; 117; 219; 138; 3; 230; 218; 9; 63; 221; 148];
   [135; 92; 131; 2; 205; 74; 144; 51; 115; 103; 246; 243; 157; 127; 191; 226];
   [82; 155; 216; 38; 200; 55; 198; 59; 129; 150; 111; 75; 19; 190; 99; 46];
   [233; 121; 167; 140; 159; 110; 188; 142; 41; 245; 249; 182; 47; 253; 180; 89];
   [120; 152; 6; 106; 231; 70; 113; 186; 212; 37; 171; 66; 136; 162; 141; 250];
   [114; 7; 185; 85; 248; 238; 172; 10; 54; 73; 42; 104; 60; 56; 241; 164];
   [64; 40; 211; 123; 187; 201; 67; 193; 21; 227; 173; 244; 119; 199; 128; 158]].

Definition ROL8 (x n : Z) : Z := u8 (Z.lor (Z.shiftl x n) (Z.shiftr x (8 - n))).
Definition S1 (x : Z) : Z := SBOX1.[Z.to_nat x].
Definition S2 (x : Z) : Z := ROL8 (SBOX1.[Z.to_nat x]) 1.
Definition S3 (x : Z) : Z := ROL8 (SBOX1.[Z.to_nat x]) 7.
Definition S4 (x : Z) : Z := SBOX1.[Z.to_nat (ROL8 x 1)].

Definition SIGMA : list Z :=
  [0xA09E667F3BCC908B; 0xB67AE8584CAA73B2; 0xC6EF372FE94F82BE; 0x54FF53A5F1D36F1C; 0x10E527FADE682D1D; 0xB05688C2B3E6C1FD].

Definition xors (l : list Z) : Z := fold_left Z.lxor l 0.

Definition camellia_sp (x : Z) : Z :=
  let byte k := Z.land (Z.shiftr x k) 0xFF in
  let t1 := S1 (byte 56) in let t2 := S2 (byte 48) in let t3 := S3 (byte 40) in let t4 := S4 (byte 32) in
  let t5 := S2 (byte 24) in let t6 := S3 (byte 16) in let t7 := S4 (byte 8) in let t8 := S1 (byte 0) in
  let z1 := xors [t1; t3; t4; t6; t7; t8] in
  let z2 := xors [t1; t2; t4; t5; t7; t8] in
  let z3 := xors [t1; t2; t3; t5; t6; t8] in
  let z4 := xors [t2; t3; t4; t5; t6; t7] in
  let z5 := xors [t1; t2; t6; t7; t8] in
  let z6 := xors [t2; t3; t5; t7; t8] in
  let z7 := xors [t3; t4; t5; t6; t8] in
  let z8 := xors [t1; t4; t5; t6; t7] in
  fold_left Z.lor [Z.shiftl z2 48; Z.shiftl z3 40; Z.shiftl z4 32; Z.shiftl z5 24; Z.shiftl z6 16; Z.shiftl z7 8; z8]
    (Z.shiftl z1 56).

Definition camellia_f (d k : Z) : Z := camellia_sp (Z.lxor d k).

Definition camellia_fl (x k : Z) : Z :=
  let x1 := u32 (Z.shiftr x 32) in let x2 := u32 x in
  let k1 := u32 (Z.shiftr k 32) in let k2 := u32 k in
  let t := Z.land x1 k1 in
  let x2 := Z.lxor x2 (Z.lor (u32 (Z.shiftl t 1)) (Z.shiftr t 31)) in
  let x1 := Z.lxor x1 (Z.lor x2 k2) in
  Z.lor (Z.shiftl x1 32) x2.

Definition camellia_flinv (y k : Z) : Z :=
  let y1 := u32 (Z.shiftr y 32) in let y2 := u32 y in
  let k1 := u32 (Z.shiftr k 32) in let k2 := u32 k in
  let y1 := Z.lxor y1 (Z.lor y2 k2) in
  let t := Z.land y1 k1 in
  let y2 := Z.lxor y2 (Z.lor (u32 (Z.shiftl t 1)) (Z.shiftr t 31)) in
  Z.lor (Z.shiftl y1 32) y2.

(** [h << n | l >> (64 - n)] on 64-bit words. *)
Definition funnel (h l n : Z) : Z := Z.lor (u64 (Z.shiftl h n)) (Z.shiftr l (64 - n)).

Definition rot128 (h l n : Z) : Z * Z :=
  if n <? 64 then (funnel h l n, funnel l h n)
  else if n =? 64 then (l, h)
  else let n := n - 64 in (funnel l h n, funnel h l n).

Record camellia_ctx_t := mk_camellia { cam_kw : list Z; cam_k : list Z; cam_ke : list Z; cam_nr : Z }.
Definition camellia_zero : camellia_ctx_t := mk_camellia (replicate 4 0) (replicate 24 0) (replicate 6 0) 0.

(** Two Feistel rounds: [D2 ^= F(D1, ka); D1 ^= F(D2, kb)]. *)
Definition two_rounds (ka kb : Z) (D : Z * Z) : Z * Z :=
  let '(D1, D2) := D in
  let D2 := Z.lxor D2 (camellia_f D1 ka) in
  let D1 := Z.lxor D1 (camellia_f D2 kb) in
  (D1, D2).

Definition keygen_ka (KLh KLl D1 D2 : Z) : Z * Z :=
  let '(D1, D2) := two_rounds SIGMA.[0] SIGMA.[1] (D1, D2) in
  two_rounds SIGMA.[2] SIGMA.[3] (Z.lxor D1 KLh, Z.lxor D2 KLl).

(** The fields the function does not write keep their values. *)
Definition camellia_keygen_128 (ctx : camellia_ctx_t) (key : list Z) : camellia_ctx_t :=
  let KLh := opssl_be64 key in let KLl := opssl_be64 (drop 8 key) in
  let '(KAh, KAl) := keygen_ka KLh KLl KLh KLl in
  let KL := rot128 KLh KLl in let KA := rot128 KAh KAl in
  {| cam_nr := 18;
     cam_kw := [KLh; KLl; (KA 111).1; (KA 111).2];
     cam_k := [KAh; KAl; (KL 15).1; (KL 15).2; (KA 15).1; (KA 15).2; (KL 45).1; (KL 45).2; (KA 45).1; (KL 60).2;
           (KA 60).1; (KA 60).2; (KL 94).1; (KL 94).2; (KA 94).1; (KA 94).2; (KL 111).1; (KL 111).2] ++ drop 18 (cam_k ctx);
     cam_ke := [(KA 30).1; (KA 30).2; (KL 77).1; (KL 77).2] ++ drop 4 (cam_ke ctx) |}.

Definition camellia_keygen_256 (ctx : camellia_ctx_t) (key : list Z) : camellia_ctx_t :=
  let KLh := opssl_be64 key in let KLl := opssl_be64 (drop 8 key) in
  let KRh := opssl_be64 (drop 16 key) in let KRl := opssl_be64 (drop 24 key) in
  let '(KAh, KAl) := keygen_ka KLh KLl (Z.lxor KLh KRh) (Z.lxor KLl KRl) in
  let '(KBh, KBl) := two_rounds SIGMA.[4] SIGMA.[5] (Z.lxor KAh KRh, Z.lxor KAl KRl) in
  let KL := rot128 KLh KLl in let KR := rot128 KRh KRl in
  let KA := rot128 KAh KAl in let KB := rot128 KBh KBl in
  {| cam_nr := 24;
     cam_kw := [KLh; KLl; (KB 111).1; (KB 111).2];
     cam_k := [KBh; KBl; (KR 15).1; (KR 15).2; (KA 15).1; (KA 15).2; (KB 30).1; (KB 30).2; (KL 45).1; (KL 45).2; (KA 45).1; (KA 45).2;
           (KR 60).1; (KR 60).2; (KB 60).1; (KB 60).2; (KL 77).1; (KL 77).2; (KR 94).1; (KR 94).2; (KA 94).1; (KA 94).2;
           (KL 111).1; (KL 111).2];
     cam_ke := [(KR 30).1; (KR 30).2; (KL 60).1; (KL 60).2; (KA 77).1; (KA 77).2] |}.

(** The six rounds from subkey [i]. *)
Definition six_rounds (ctx : camellia_ctx_t) (i : nat) (D : Z * Z) : Z * Z :=
  two_rounds (cam_k ctx).[i + 4] (cam_k ctx).[i + 5] (two_rounds (cam_k ctx).[i + 2] (cam_k ctx).[i + 3] (two_rounds (cam_k ctx).[i] (cam_k ctx).[i + 1] D)).

Definition fl_layer (ctx : camellia_ctx_t) (i : nat) (D : Z * Z) : Z * Z :=
  (camellia_fl D.1 (cam_ke ctx).[i], camellia_flinv D.2 (cam_ke ctx).[i + 1]).

Definition camellia_encrypt_block (ctx : camellia_ctx_t) (input : list Z) : list Z :=
  let D1 := opssl_be64 input in let D2 := opssl_be64 (drop 8 input) in
  let D := (Z.lxor D1 (cam_kw ctx).[0], Z.lxor D2 (cam_kw ctx).[1]) in
  let D := six_rounds ctx 0 D in
  let D := fl_layer ctx 0 D in
  let D := six_rounds ctx 6 D in
  let D := fl_layer ctx 2 D in
  let D := six_rounds ctx 12 D in
  let D := if cam_nr ctx =? 24 then six_rounds ctx 18 (fl_layer ctx 4 D) else D in
  let D2 := Z.lxor D.2 (cam_kw ctx).[2] in let D1 := Z.lxor D.1 (cam_kw ctx).[3] in
  opssl_put_be64 D2 ++ opssl_put_be64 D1.

Definition camellia_set_key (key : list Z) : Z * camellia_ctx_t :=
  let ctx := camellia_zero in
  if (length key =? 16)%nat then (1, camellia_keygen_128 ctx key)
  else if (length key =? 32)%nat then (1, camellia_keygen_256 ctx key)
  else (0, ctx).

(** The vectors of RFC 3713, appendix A. *)
Definition rfc3713_key : list Z := be_bytes 32 0x0123456789abcdeffedcba987654321000112233445566778899aabbccddeeff.
Example camellia_vector_128 :
  be_val (camellia_encrypt_block (camellia_set_key (take 16 rfc3713_key)).2 (take 16 rfc3713_key)) = 0x67673138549669730857065648eabe43.
Proof. vm_compute. reflexivity. Qed.
Example camellia_vector_256 :
  be_val (camellia_encrypt_block (camellia_set_key rfc3713_key).2 (take 16 rfc3713_key)) = 0x9acc237dff16d76c20ef7c919e3a7509.
Proof. vm_compute. reflexivity. Qed.

(* ------------------------------------------------------------------ *)
(** * RFC 3713 *)

Module Rfc3713.
(** Section 2.4: the boxes s1, s2, s3, s4, s2, s3, s4, s1 on the bytes, then the
    linear map whose rows say which bytes each output sums. *)
Definition rotl_byte (x n : Z) : Z := (x * 2 ^ n) mod 256 + x / 2 ^ (8 - n).
Definition sbox1 (x : Z) : Z := SBOX1.[Z.to_nat x].
Definition sbox2 (x : Z) : Z := rotl_byte (sbox1 x) 1.
Definition sbox3 (x : Z) : Z := rotl_byte (sbox1 x) 7.
Definition sbox4 (x : Z) : Z := sbox1 (rotl_byte x 1).
Definition s_boxes : list (Z -> Z) := [sbox1; sbox2; sbox3; sbox4; sbox2; sbox3; sbox4; sbox1].

Definition p_rows : list (list bool) := map (map (fun b => b =? 1))
  [[1; 0; 1; 1; 0; 1; 1; 1]; [1; 1; 0; 1; 1; 0; 1; 1]; [1; 1; 1; 0; 1; 1; 0; 1]; [0; 1; 1; 1; 1; 1; 1; 0];
   [1; 1; 0; 0; 0; 1; 1; 1]; [0; 1; 1; 0; 1; 0; 1; 1]; [0; 0; 1; 1; 1; 1; 0; 1]; [1; 0; 0; 1; 1; 1; 1; 0]].

Definition P_row (t : list Z) (row : list bool) : Z :=
  fold_right Z.lxor 0 (zip_with (fun (b : bool) x => if b then x else 0) row t).

Definition F (x k : Z) : Z :=
  let t := zip_with (fun s b => s b) s_boxes (be_bytes 8 (Z.lxor x k)) in be_val (map (P_row t) p_rows).

Definition rotl (w x n : Z) : Z := (x * 2 ^ n) mod 2 ^ w + x / 2 ^ (w - n).
Definition hi (w x : Z) : Z := x / 2 ^ w.
Definition lo (w x : Z) : Z := x mod 2 ^ w.

Definition FL (x k : Z) : Z :=
  let x2 := Z.lxor (lo 32 x) (rotl 32 (Z.land (hi 32 x) (hi 32 k)) 1) in
  let x1 := Z.lxor (hi 32 x) (Z.lor x2 (lo 32 k)) in x1 * 2 ^ 32 + x2.

Definition FLINV (y k : Z) : Z :=
  let y1 := Z.lxor (hi 32 y) (Z.lor (lo 32 y) (lo 32 k)) in
  let y2 := Z.lxor (lo 32 y) (rotl 32 (Z.land y1 (hi 32 k)) 1) in y1 * 2 ^ 32 + y2.

(** One Feistel round on the 128-bit value, without the exchange of the halves:
    round numbers count from 0. *)
Definition feistel (key : Z) (r : nat) (D : Z * Z) : Z * Z :=
  if Nat.even r then (D.1, Z.lxor D.2 (F D.1 key)) else (Z.lxor D.1 (F D.2 key), D.2).

(** Section 2.2: KA and KB. *)
Definition rfc_KA (KL KR : Z) : Z * Z :=
  let D := for_range 0 2 (fun r => feistel SIGMA.[r] r) (Z.lxor (hi 64 KL) (hi 64 KR), Z.lxor (lo 64 KL) (lo 64 KR)) in
  for_range 2 2 (fun r => feistel SIGMA.[r] r) (Z.lxor D.1 (hi 64 KL), Z.lxor D.2 (lo 64 KL)).

Definition rfc_KB (KA : Z * Z) (KR : Z) : Z * Z :=
  for_range 4 2 (fun r => feistel SIGMA.[r] r) (Z.lxor KA.1 (hi 64 KR), Z.lxor KA.2 (lo 64 KR)).

(** The halves of the rotated 128-bit numbers, each given with its rotation. *)
Definition halves (l : list (Z * Z)) : list Z := flat_map (fun '(x, n) => [hi 64 (rotl 128 x n); lo 64 (rotl 128 x n)]) l.

Definition wide (D : Z * Z) : Z := D.1 * 2 ^ 64 + D.2.

Definition rfc_subkeys (key : list Z) : list Z * list Z * list Z :=
  let KL := be_val (take 16 key) in
  if (length key =? 16)%nat then
    let KA := wide (rfc_KA KL 0) in
    (halves [(KL, 0); (KA, 111)],
     halves [(KA, 0); (KL, 15); (KA, 15); (KL, 45)] ++ [hi 64 (rotl 128 KA 45); lo 64 (rotl 128 KL 60)] ++
       halves [(KA, 60); (KL, 94); (KA, 94); (KL, 111)],
     halves [(KA, 30); (KL, 77)])
  else
    let KR := be_val (drop 16 key) in
    let KA := rfc_KA KL KR in let KB := wide (rfc_KB KA KR) in let KA := wide KA in
    (halves [(KL, 0); (KB, 111)],
     halves [(KB, 0); (KR, 15); (KA, 15); (KB, 30); (KL, 45); (KA, 45); (KR, 60); (KB, 60); (KL, 77); (KR, 94); (KA, 94); (KL, 111)],
     halves [(KR, 30); (KL, 60); (KA, 77)]).

(** Section 2.3: 18 or 24 rounds, with the FL layer after rounds 6, 12 and, of 24,
    18. *)
Definition Camellia (key input : list Z) : list Z :=
  let '(kw, k, ke) := rfc_subkeys key in
  let nr := if (length key =? 16)%nat then 18%nat else 24%nat in
  let M := be_val input in
  let D := for_range 0 nr (fun r D =>
             let D := feistel k.[r] r D in
             if ((r + 1) mod 6 =? 0)%nat && (r + 1 <? nr)%nat
             then let j := (2 * ((r + 1) / 6 - 1))%nat in (FL D.1 ke.[j], FLINV D.2 ke.[j + 1])
             else D)
             (Z.lxor (hi 64 M) kw.[0], Z.lxor (lo 64 M) kw.[1]) in
  be_bytes 16 (wide (Z.lxor D.2 kw.[2], Z.lxor D.1 kw.[3])).

End Rfc3713.
Import Rfc3713.

Example Camellia_vectors :
  be_val (Camellia (take 16 rfc3713_key) (take 16 rfc3713_key)) = 0x67673138549669730857065648eabe43 /\
  be_val (Camellia rfc3713_key (take 16 rfc3713_key)) = 0x9acc237dff16d76c20ef7c919e3a7509.
Proof. vm_compute. done. Qed.

(** The key schedule of the inverse cipher: the subkeys in reverse order. *)
Definition camellia_reverse (ctx : camellia_ctx_t) : camellia_ctx_t :=
  let n := Z.to_nat (cam_nr ctx) in
  mk_camellia (drop 2 (cam_kw ctx) ++ take 2 (cam_kw ctx)) (rev (take n (cam_k ctx))) (rev (take (n / 3 - 2) (cam_ke ctx))) (cam_nr ctx).

(* ------------------------------------------------------------------ *)
(** * The operations are RFC 3713's *)

Lemma land_ff x : Z.land x 0xFF = u8 x.
Proof. apply (land_ones' x 8). lia. Qed.

Lemma sboxes_ok b : byte_ok b -> S1 b = sbox1 b /\ S2 b = sbox2 b /\ S3 b = sbox3 b /\ S4 b = sbox4 b.
Proof.
  intros Hb. pose proof (byte_forall (fun b => (S1 b =? sbox1 b) && (S2 b =? sbox2 b) && (S3 b =? sbox3 b) && (S4 b =? sbox4 b)) eq_refl b Hb) as H.
  rewrite !andb_true_iff, !Z.eqb_eq in H. tauto.
Qed.

Lemma sboxes_byte b : byte_ok b -> byte_ok (sbox1 b) /\ byte_ok (sbox2 b) /\ byte_ok (sbox3 b) /\ byte_ok (sbox4 b).
Proof.
  intros Hb. pose proof (byte_forall (fun b => let ok x := (0 <=? x) && (x <? 256) in ok (sbox1 b) && ok (sbox2 b) && ok (sbox3 b) && ok (sbox4 b))
    eq_refl b Hb) as H. cbn zeta in H. unfold byte_ok. rewrite !andb_true_iff, !Z.leb_le, !Z.ltb_lt in H. lia.
Qed.

Lemma lor_bytes z1 z2 z3 z4 z5 z6 z7 z8 : bytes [z1; z2; z3; z4; z5; z6; z7; z8] ->
  fold_left Z.lor [Z.shiftl z2 48; Z.shiftl z3 40; Z.shiftl z4 32; Z.shiftl z5 24; Z.shiftl z6 16; Z.shiftl z7 8; z8] (Z.shiftl z1 56) =
  be_val [z1; z2; z3; z4; z5; z6; z7; z8].
Proof.
  intros H. unfold bytes in H. rewrite !Forall_cons in H. unfold byte_ok in H. cbn [fold_left].
  rewrite (lor_shiftl2 z1 z2), !(fun a b => lor_shiftl2 a b _ 40), !(fun a b => lor_shiftl2 a b _ 32), !(fun a b => lor_shiftl2 a b _ 24),
    !(fun a b => lor_shiftl2 a b _ 16), !(fun a b => lor_shiftl2 a b _ 8), lor_shiftl by (cbn; lia). cbn. lia.
Qed.

Lemma P_row_byte t row : bytes t -> byte_ok (P_row t row).
Proof.
  revert row. induction t as [| x t IH]; intros row Ht; unfold P_row in *.
  - destruct row; cbn; unfold byte_ok; lia.
  - apply bytes_cons in Ht as [Hx Ht]. destruct row as [| b row]; [cbn; unfold byte_ok; lia |]. cbn [zip_with fold_right].
    apply lxor_byte; [destruct b; [done | unfold byte_ok; lia] | by apply IH].
Qed.

Lemma camellia_f_spec d k : camellia_f d k = F d k.
Proof.
  unfold camellia_f, F, camellia_sp. set (x := Z.lxor d k). cbv zeta. rewrite !land_ff. cbn [be_bytes].
  set (b1 := u8 (Z.shiftr x (8 * Z.of_nat 7))). set (b2 := u8 (Z.shiftr x (8 * Z.of_nat 6))). set (b3 := u8 (Z.shiftr x (8 * Z.of_nat 5))).
  set (b4 := u8 (Z.shiftr x (8 * Z.of_nat 4))). set (b5 := u8 (Z.shiftr x (8 * Z.of_nat 3))). set (b6 := u8 (Z.shiftr x (8 * Z.of_nat 2))).
  set (b7 := u8 (Z.shiftr x (8 * Z.of_nat 1))). set (b8 := u8 (Z.shiftr x (8 * Z.of_nat 0))).
  change (u8 (Z.shiftr x 56)) with b1. change (u8 (Z.shiftr x 48)) with b2. change (u8 (Z.shiftr x 40)) with b3. change (u8 (Z.shiftr x 32)) with b4.
  change (u8 (Z.shiftr x 24)) with b5. change (u8 (Z.shiftr x 16)) with b6. change (u8 (Z.shiftr x 8)) with b7. change (u8 (Z.shiftr x 0)) with b8.
  assert (byte_ok b1 /\ byte_ok b2 /\ byte_ok b3 /\ byte_ok b4 /\ byte_ok b5 /\ byte_ok b6 /\ byte_ok b7 /\ byte_ok b8) as (H1 & H2 & H3 & H4 & H5 & H6 & H7 & H8)
    by (repeat split; apply u8_ok).
  unfold s_boxes. cbn [zip_with].
  rewrite (proj1 (sboxes_ok b1 H1)), (proj1 (proj2 (sboxes_ok b2 H2))), (proj1 (proj2 (proj2 (sboxes_ok b3 H3)))), (proj2 (proj2 (proj2 (sboxes_ok b4 H4)))),
    (proj1 (proj2 (sboxes_ok b5 H5))), (proj1 (proj2 (proj2 (sboxes_ok b6 H6)))), (proj2 (proj2 (proj2 (sboxes_ok b7 H7)))), (proj1 (sboxes_ok b8 H8)).
  assert (bytes [sbox1 b1; sbox2 b2; sbox3 b3; sbox4 b4; sbox2 b5; sbox3 b6; sbox4 b7; sbox1 b8]) as Ht
    by (unfold bytes; rewrite !Forall_cons; repeat split; try apply sboxes_byte; done || constructor).
  revert Ht. generalize (sbox1 b1), (sbox2 b2), (sbox3 b3), (sbox4 b4), (sbox2 b5), (sbox3 b6), (sbox4 b7), (sbox1 b8).
  intros t1 t2 t3 t4 t5 t6 t7 t8 Ht.
  assert (forall row, byte_ok (P_row [t1; t2; t3; t4; t5; t6; t7; t8] row)) as Hrow by (intros; by apply P_row_byte).
  unfold xors. cbn [fold_left]. rewrite !Z.lxor_0_l.
  change (map (P_row [t1; t2; t3; t4; t5; t6; t7; t8]) p_rows) with (let r i := P_row [t1; t2; t3; t4; t5; t6; t7; t8] (nth i p_rows []) in
    [r 0%nat; r 1%nat; r 2%nat; r 3%nat; r 4%nat; r 5%nat; r 6%nat; r 7%nat]). cbv zeta.
  rewrite <- lor_bytes.
  2: { unfold bytes. rewrite !Forall_cons. repeat split; try apply Hrow. constructor. }
  cbn. rewrite !Z.lxor_0_l, !Z.lxor_0_r, !Z.lxor_assoc. done.
Qed.

Definition r64 (x : Z) : Prop := 0 <= x < 2 ^ 64.

Lemma halves_range x : r64 x -> 0 <= hi 32 x < 2 ^ 32 /\ 0 <= lo 32 x < 2 ^ 32 /\ u32 (Z.shiftr x 32) = hi 32 x /\ u32 x = lo 32 x.
Proof.
  intros Hx. unfold r64, hi, lo, u32 in *. rewrite shiftr_div by lia. change (2 ^ 32) with 4294967296. change (2 ^ 64) with (4294967296 * 4294967296) in Hx.
  assert (0 <= x / 4294967296 < 4294967296) by (Z.div_mod_to_equations; lia).
  rewrite (Z.mod_small (x / _)) by done. pose proof (Z.mod_pos_bound x 4294967296 ltac:(lia)). done.
Qed.

Lemma hi_lo x : x = hi 32 x * 2 ^ 32 + lo 32 x.
Proof. unfold hi, lo. pose proof (Z.div_mod x (2 ^ 32)). lia. Qed.

Lemma hi_lo_pack a b : 0 <= b < 2 ^ 32 -> hi 32 (a * 2 ^ 32 + b) = a /\ lo 32 (a * 2 ^ 32 + b) = b.
Proof.
  intros Hb. unfold hi, lo. rewrite Z.div_add_l, Z.div_small, Z.add_0_r by lia. rewrite Z.add_comm, Z.mod_add, Z.mod_small by lia. done.
Qed.

Lemma rot1_spec t : 0 <= t < 2 ^ 32 -> Z.lor (u32 (Z.shiftl t 1)) (Z.shiftr t 31) = rotl 32 t 1 /\ 0 <= rotl 32 t 1 < 2 ^ 32.
Proof.
  intros Ht. assert (Z.lor (u32 (Z.shiftl t 1)) (Z.shiftr t 31) = rotl 32 t 1) as E.
  { unfold rotl. rewrite (shiftr_div t 31) by lia. change (32 - 1) with 31. unfold u32. rewrite Z.shiftl_mul_pow2 by lia.
    change 4294967296 with (2 * 2 ^ 31). change (2 ^ 32) with (2 * 2 ^ 31) in *. change (2 ^ 1) with 2. rewrite (Z.mul_comm t 2), Z.mul_mod_distr_l by lia.
    replace (2 * (t mod 2 ^ 31)) with (Z.shiftl (t mod 2 ^ 31) 1) by (rewrite Z.shiftl_mul_pow2; lia).
    rewrite lor_shiftl; [by rewrite Z.shiftl_mul_pow2 by lia | lia |]. change (2 ^ 1) with 2. Z.div_mod_to_equations; lia. }
  split; [done |]. rewrite <- E. apply lor_range; [lia | apply u32_range |]. rewrite shiftr_div by lia. Z.div_mod_to_equations; lia.
Qed.

Lemma camellia_fl_spec x k : r64 x -> r64 k -> camellia_fl x k = FL x k.
Proof.
  intros Hx Hk. unfold camellia_fl, FL. cbv zeta.
  destruct (halves_range x Hx) as (Hx1 & Hx2 & -> & ->), (halves_range k Hk) as (Hk1 & Hk2 & -> & ->).
  destruct (rot1_spec (Z.land (hi 32 x) (hi 32 k))) as [-> Hr]; [by apply land_range_l |].
  apply lor_shiftl; [lia |]. by apply lxor_range.
Qed.

Lemma camellia_flinv_spec y k : r64 y -> r64 k -> camellia_flinv y k = FLINV y k.
Proof.
  intros Hy Hk. unfold camellia_flinv, FLINV. cbv zeta.
  destruct (halves_range y Hy) as (Hy1 & Hy2 & -> & ->), (halves_range k Hk) as (Hk1 & Hk2 & -> & ->).
  destruct (rot1_spec (Z.land (Z.lxor (hi 32 y) (Z.lor (lo 32 y) (lo 32 k))) (hi 32 k))) as [-> Hr].
  { apply land_range_l; [lia |]. apply lxor_range; [lia | done |]. by apply lor_range. }
  apply lor_shiftl; [lia |]. by apply lxor_range.
Qed.

(** The two layers undo each other. *)
Lemma fl_parts x k : r64 x -> r64 k -> let x2 := Z.lxor (lo 32 x) (rotl 32 (Z.land (hi 32 x) (hi 32 k)) 1) in
  0 <= x2 < 2 ^ 32 /\ 0 <= Z.lxor (hi 32 x) (Z.lor x2 (lo 32 k)) < 2 ^ 32.
Proof.
  intros Hx Hk. destruct (halves_range x Hx) as (Hx1 & Hx2 & _), (halves_range k Hk) as (Hk1 & Hk2 & _).
  destruct (rot1_spec (Z.land (hi 32 x) (hi 32 k))) as [_ Hr]; [by apply land_range_l |]. cbv zeta.
  assert (0 <= Z.lxor (lo 32 x) (rotl 32 (Z.land (hi 32 x) (hi 32 k)) 1) < 2 ^ 32) by (by apply lxor_range).
  split; [done |]. apply lxor_range; [lia | done |]. by apply lor_range.
Qed.

Lemma flinv_parts y k : r64 y -> r64 k -> let y1 := Z.lxor (hi 32 y) (Z.lor (lo 32 y) (lo 32 k)) in
  0 <= y1 < 2 ^ 32 /\ 0 <= Z.lxor (lo 32 y) (rotl 32 (Z.land y1 (hi 32 k)) 1) < 2 ^ 32.
Proof.
  intros Hy Hk. destruct (halves_range y Hy) as (Hy1 & Hy2 & _), (halves_range k Hk) as (Hk1 & Hk2 & _). cbv zeta.
  assert (0 <= Z.lxor (hi 32 y) (Z.lor (lo 32 y) (lo 32 k)) < 2 ^ 32) as H by (apply lxor_range; [lia | done |]; by apply lor_range).
  split; [done |]. destruct (rot1_spec (Z.land (Z.lxor (hi 32 y) (Z.lor (lo 32 y) (lo 32 k))) (hi 32 k))) as [_ Hr]; [by apply land_range_l |].
  by apply lxor_range.
Qed.

Lemma pack_r64 a b : 0 <= a < 2 ^ 32 -> 0 <= b < 2 ^ 32 -> r64 (a * 2 ^ 32 + b).
Proof. unfold r64. lia. Qed.

Lemma FL_r64 x k : r64 x -> r64 k -> r64 (FL x k).
Proof. intros Hx Hk. destruct (fl_parts x k Hx Hk). by apply pack_r64. Qed.

Lemma FLINV_r64 y k : r64 y -> r64 k -> r64 (FLINV y k).
Proof. intros Hy Hk. destruct (flinv_parts y k Hy Hk). by apply pack_r64. Qed.

Lemma FLINV_FL x k : r64 x -> r64 k -> FLINV (FL x k) k = x.
Proof.
  intros Hx Hk. destruct (fl_parts x k Hx Hk) as [H2 H1]. unfold FLINV. cbv zeta. unfold FL.
  destruct (hi_lo_pack (Z.lxor (hi 32 x) (Z.lor (Z.lxor (lo 32 x) (rotl 32 (Z.land (hi 32 x) (hi 32 k)) 1)) (lo 32 k)))
    (Z.lxor (lo 32 x) (rotl 32 (Z.land (hi 32 x) (hi 32 k)) 1)) H2) as [-> ->].
  rewrite !lxor_cancel. symmetry. apply hi_lo.
Qed.

Lemma FL_FLINV y k : r64 y -> r64 k -> FL (FLINV y k) k = y.
Proof.
  intros Hy Hk. destruct (flinv_parts y k Hy Hk) as [H1 H2]. unfold FL. cbv zeta. unfold FLINV.
  destruct (hi_lo_pack (Z.lxor (hi 32 y) (Z.lor (lo 32 y) (lo 32 k)))
    (Z.lxor (lo 32 y) (rotl 32 (Z.land (Z.lxor (hi 32 y) (Z.lor (lo 32 y) (lo 32 k))) (hi 32 k)) 1)) H2) as [-> ->].
  rewrite !lxor_cancel. symmetry. apply hi_lo.
Qed.

(** [rot128] is the rotation of the 128-bit number. *)
Lemma funnel_spec h l n : r64 h -> r64 l -> 0 < n < 64 -> funnel h l n = (h * 2 ^ n) mod 2 ^ 64 + l / 2 ^ (64 - n).
Proof.
  intros Hh Hl Hn. unfold funnel, u64. change 18446744073709551616 with (2 ^ 64). rewrite shiftr_div, Z.shiftl_mul_pow2 by lia.
  assert (2 ^ 64 = 2 ^ (64 - n) * 2 ^ n) as E by (rewrite <- Z.pow_add_r by lia; f_equal; lia).
  pose proof (Z.pow_pos_nonneg 2 n ltac:(lia) ltac:(lia)). pose proof (Z.pow_pos_nonneg 2 (64 - n) ltac:(lia) ltac:(lia)).
  rewrite E, Z.mul_mod_distr_r by lia. rewrite <- Z.shiftl_mul_pow2 at 1 by lia.
  apply lor_shiftl; [lia |]. unfold r64 in Hl. split; [apply Z.div_pos; lia |]. apply Z.div_lt_upper_bound; lia.
Qed.

(** The digits of the rotated number in base A, B with AB = 2^64. *)
Lemma rot_digits A B h1 h0 l1 l0 : 0 < A -> 0 < B -> 0 <= h1 < A -> 0 <= h0 < B -> 0 <= l1 < A -> 0 <= l0 < B ->
  let v := (h1 * B + h0) * (A * B) + (l1 * B + l0) in
  (v * A) mod (A * B * (A * B)) + v / (B * (A * B)) = (h0 * A + l1) * (A * B) + (l0 * A + h1).
Proof.
  intros HA HB H1 H2 H3 H4 v. unfold v.
  replace (((h1 * B + h0) * (A * B) + (l1 * B + l0)) * A) with ((h0 * A + l1) * (A * B) + l0 * A + h1 * (A * B * (A * B))) by ring.
  rewrite Z.mod_add by nia.
  assert (0 <= h0 * A + l1 < A * B) by nia. assert (0 <= l0 * A < A * B) by nia.
  rewrite Z.mod_small by (split; [nia |]; assert ((h0 * A + l1) * (A * B) <= (A * B - 1) * (A * B)) by (apply Z.mul_le_mono_nonneg_r; lia); nia).
  replace ((h1 * B + h0) * (A * B) + (l1 * B + l0)) with (h1 * (B * (A * B)) + (h0 * (A * B) + (l1 * B + l0))) by ring.
  rewrite Z.div_add_l, Z.div_small by nia. ring.
Qed.

Lemma rotl_short h l n : r64 h -> r64 l -> 0 < n < 64 -> rotl 128 (wide (h, l)) n = wide (funnel h l n, funnel l h n) /\
  r64 (funnel h l n) /\ r64 (funnel l h n).
Proof.
  intros Hh Hl Hn. rewrite !funnel_spec by done. unfold rotl, wide. cbn [fst snd]. unfold r64 in *.
  set (A := 2 ^ n). set (B := 2 ^ (64 - n)).
  assert (2 ^ 64 = A * B) as E by (unfold A, B; rewrite <- Z.pow_add_r by lia; f_equal; lia).
  assert (2 ^ 128 = A * B * (A * B)) as E2 by (rewrite <- E; done).
  assert (2 ^ (128 - n) = B * (A * B)) as E3 by (rewrite <- E; unfold B; rewrite <- Z.pow_add_r by lia; f_equal; lia).
  assert (0 < A) by (apply Z.pow_pos_nonneg; lia). assert (0 < B) by (apply Z.pow_pos_nonneg; lia).
  rewrite E, E2, E3 in *. pose proof (Z.div_mod h B ltac:(lia)) as Dh. pose proof (Z.div_mod l B ltac:(lia)) as Dl.
  pose proof (Z.mod_pos_bound h B ltac:(lia)). pose proof (Z.mod_pos_bound l B ltac:(lia)).
  assert (0 <= h / B < A) by (split; [apply Z.div_pos; lia | apply Z.div_lt_upper_bound; lia]).
  assert (0 <= l / B < A) by (split; [apply Z.div_pos; lia | apply Z.div_lt_upper_bound; lia]).
  assert (forall x, (x * A) mod (A * B) = x mod B * A) as Em by (intros x; rewrite (Z.mul_comm A B); apply Z.mul_mod_distr_r; lia).
  rewrite !Em. replace h with (h / B * B + h mod B) at 1 2 by lia. replace l with (l / B * B + l mod B) at 1 2 by lia.
  rewrite rot_digits by done. split; [ring |]. nia.
Qed.

Lemma wide_hi_lo h l : r64 h -> r64 l -> hi 64 (wide (h, l)) = h /\ lo 64 (wide (h, l)) = l.
Proof.
  intros Hh Hl. unfold hi, lo, wide, r64 in *. cbn [fst snd]. rewrite Z.div_add_l, Z.div_small, Z.add_0_r by lia.
  rewrite Z.add_comm, Z.mod_add, Z.mod_small by lia. done.
Qed.

(** A rotation by 64 or more exchanges the halves first. *)
Lemma rotl_long h l n : r64 h -> r64 l -> 0 < n < 64 -> rotl 128 (wide (h, l)) (64 + n) = rotl 128 (wide (l, h)) n.
Proof.
  intros Hh Hl Hn. unfold rotl, wide. cbn [fst snd]. unfold r64 in *.
  set (A := 2 ^ n). set (B := 2 ^ (64 - n)).
  assert (2 ^ 64 = A * B) as E by (unfold A, B; rewrite <- Z.pow_add_r by lia; f_equal; lia).
  assert (2 ^ 128 = A * B * (A * B)) as E2 by (rewrite <- E; done).
  assert (2 ^ (128 - n) = B * (A * B)) as E3 by (rewrite <- E; unfold B; rewrite <- Z.pow_add_r by lia; f_equal; lia).
  assert (0 < A) by (apply Z.pow_pos_nonneg; lia). assert (0 < B) by (apply Z.pow_pos_nonneg; lia).
  replace (2 ^ (64 + n)) with (A * B * A) by (unfold A at 2; rewrite <- E, <- Z.pow_add_r by lia; f_equal; lia).
  replace (2 ^ (128 - (64 + n))) with B by (unfold B; f_equal; lia).
  rewrite E, E2, E3 in *. pose proof (Z.div_mod h B ltac:(lia)) as Dh. pose proof (Z.div_mod l B ltac:(lia)) as Dl.
  pose proof (Z.mod_pos_bound h B ltac:(lia)). pose proof (Z.mod_pos_bound l B ltac:(lia)).
  assert (0 <= h / B < A) by (split; [apply Z.div_pos; lia | apply Z.div_lt_upper_bound; lia]).
  assert (0 <= l / B < A) by (split; [apply Z.div_pos; lia | apply Z.div_lt_upper_bound; lia]).
  set (h1 := h / B) in *. set (h0 := h mod B) in *. set (l1 := l / B) in *. set (l0 := l mod B) in *.
  replace (l * (A * B) + h) with ((l1 * B + l0) * (A * B) + (h1 * B + h0)) by lia. rewrite rot_digits by done.
  replace ((h * (A * B) + l) * (A * B * A)) with (l0 * A * (A * B) + (h * A + l1) * (A * B * (A * B))) by (rewrite Dl; ring).
  rewrite Z.mod_add by nia. assert (0 <= l0 * A <= A * B - 1) by nia.
  rewrite Z.mod_small by (split; [nia |]; assert (l0 * A * (A * B) <= (A * B - 1) * (A * B)) by (apply Z.mul_le_mono_nonneg_r; lia); nia).
  replace (h * (A * B) + l) with ((h * A + l1) * B + l0) by lia. rewrite Z.div_add_l, Z.div_small by lia. lia.
Qed.

Lemma rot128_spec h l n : r64 h -> r64 l -> 0 < n < 128 -> n <> 64 ->
  rot128 h l n = (hi 64 (rotl 128 (wide (h, l)) n), lo 64 (rotl 128 (wide (h, l)) n)).
Proof.
  intros Hh Hl Hn Hn64. unfold rot128. destruct (Z.ltb_spec n 64) as [Hs | Hs].
  - destruct (rotl_short h l n Hh Hl ltac:(lia)) as (-> & H1 & H2). by destruct (wide_hi_lo _ _ H1 H2) as [-> ->].
  - rewrite (proj2 (Z.eqb_neq _ _)) by done. cbv zeta. replace n with (64 + (n - 64)) at 3 4 by lia.
    rewrite (rotl_long h l) by (done || lia).
    destruct (rotl_short l h (n - 64) Hl Hh ltac:(lia)) as (-> & H1 & H2). by destruct (wide_hi_lo _ _ H1 H2) as [-> ->].
Qed.

Lemma rotl_range w x n : 0 <= n <= w -> 0 <= x < 2 ^ w -> 0 <= rotl w x n < 2 ^ w.
Proof.
  intros Hn Hx. unfold rotl. assert (2 ^ w = 2 ^ (w - n) * 2 ^ n) as E by (rewrite <- Z.pow_add_r by lia; f_equal; lia).
  pose proof (Z.pow_pos_nonneg 2 n ltac:(lia) ltac:(lia)). pose proof (Z.pow_pos_nonneg 2 (w - n) ltac:(lia) ltac:(lia)).
  rewrite E in *. rewrite Z.mul_mod_distr_r by lia. pose proof (Z.mod_pos_bound x (2 ^ (w - n)) ltac:(lia)).
  assert (0 <= x / 2 ^ (w - n) < 2 ^ n) by (split; [apply Z.div_pos; lia | apply Z.div_lt_upper_bound; lia]). nia.
Qed.

Lemma rotl_0 x : 0 <= x < 2 ^ 128 -> rotl 128 x 0 = x.
Proof. intros Hx. unfold rotl. rewrite Z.mul_1_r, Z.mod_small by done. change (128 - 0) with 128. rewrite Z.div_small by done. lia. Qed.

(** Halves of a big-endian block. *)
Lemma be64_val l : bytes l -> (8 <= length l)%nat -> opssl_be64 l = be_val (take 8 l).
Proof.
  intros Hb Hl. destruct l as [| a [| b [| c [| d [| e [| f [| g [| h r]]]]]]]]; cbn in Hl; try lia.
  rewrite be64_spec, !be32_spec by auto with opssl. unfold get, be_val. cbn [take drop nth fold_left]. change (2 ^ 32) with 4294967296.
  rewrite take_0. cbn [fold_left]. lia.
Qed.

Lemma be64_halves l : bytes l -> (16 <= length l)%nat ->
  opssl_be64 l = hi 64 (be_val (take 16 l)) /\ opssl_be64 (drop 8 l) = lo 64 (be_val (take 16 l)) /\ r64 (opssl_be64 l) /\ r64 (opssl_be64 (drop 8 l)).
Proof.
  intros Hb Hl. rewrite !be64_val by (auto with opssl || rewrite ?length_drop; lia).
  assert (take 16 l = take 8 l ++ take 8 (drop 8 l)) as -> by (rewrite take_take_drop; done).
  pose proof (be_val_range (take 8 l) ltac:(auto with opssl)) as H1. pose proof (be_val_range (take 8 (drop 8 l)) ltac:(auto with opssl)) as H2.
  replace (length (take 8 l)) with 8%nat in H1 by (rewrite length_take; lia).
  replace (length (take 8 (drop 8 l))) with 8%nat in H2 by (rewrite length_take, length_drop; lia).
  change (256 ^ Z.of_nat 8) with (2 ^ 64) in H1, H2.
  assert (be_val (take 8 l ++ take 8 (drop 8 l)) = wide (be_val (take 8 l), be_val (take 8 (drop 8 l)))) as ->.
  { by rewrite be_val_app, length_take, length_drop, Nat.min_l by lia. }
  destruct (wide_hi_lo _ _ H1 H2) as [-> ->]. done.
Qed.

Lemma two_rounds_feistel ka kb r D : Nat.even r = true -> two_rounds ka kb D = feistel kb (S r) (feistel ka r D).
Proof.
  intros Hr. unfold two_rounds, feistel. rewrite Hr, Nat.even_succ, <- Nat.negb_even, Hr. destruct D as [D1 D2]. cbn [negb fst snd].
  by rewrite !camellia_f_spec.
Qed.

Definition pair64 (D : Z * Z) : Prop := r64 D.1 /\ r64 D.2.

Lemma r64_lxor a b : r64 a -> r64 b -> r64 (Z.lxor a b).
Proof. by apply lxor_range. Qed.

Lemma F_r64 x k : r64 (F x k).
Proof.
  unfold F. set (t := zip_with _ _ _).
  assert (bytes t) as Ht.
  { unfold t, s_boxes. cbn [zip_with be_bytes]. unfold bytes. rewrite !Forall_cons. repeat split; try apply sboxes_byte; try apply u8_ok. constructor. }
  pose proof (be_val_range (map (P_row t) p_rows)) as H. rewrite length_map in H. apply H.
  unfold bytes. apply Forall_map, Forall_forall. intros row _. by apply P_row_byte.
Qed.

Lemma two_rounds_range ka kb D : pair64 D -> pair64 (two_rounds ka kb D).
Proof.
  intros [H1 H2]. destruct D as [D1 D2]. unfold two_rounds. rewrite !camellia_f_spec. cbn [fst snd] in *.
  assert (r64 (Z.lxor D2 (F D1 ka))) by (apply r64_lxor; [done | apply F_r64]). split; [| done]. apply r64_lxor; [done | apply F_r64].
Qed.

Lemma wide_range D : pair64 D -> 0 <= wide D < 2 ^ 128.
Proof. destruct D as [a b]. unfold pair64, wide, r64. cbn [fst snd]. lia. Qed.

Lemma wide_cut D : pair64 D -> (hi 64 (wide D), lo 64 (wide D)) = D.
Proof. destruct D as [a b]. intros [Ha Hb]. by destruct (wide_hi_lo a b Ha Hb) as [-> ->]. Qed.

Lemma wide_be l : bytes l -> (16 <= length l)%nat -> wide (opssl_be64 l, opssl_be64 (drop 8 l)) = be_val (take 16 l).
Proof.
  intros Hb Hl. destruct (be64_halves l Hb Hl) as (-> & -> & _). unfold wide, hi, lo. cbn [fst snd].
  pose proof (Z.div_mod (be_val (take 16 l)) (2 ^ 64)). lia.
Qed.

(** The halves the code names, for the whole numbers of the standard. *)
Lemma rot_halves D n : pair64 D -> 0 < n < 128 -> n <> 64 ->
  (rot128 D.1 D.2 n).1 = hi 64 (rotl 128 (wide D) n) /\ (rot128 D.1 D.2 n).2 = lo 64 (rotl 128 (wide D) n).
Proof. intros [H1 H2] Hn Hn64. destruct D as [h l]. cbn [fst snd] in *. by rewrite (rot128_spec h l n H1 H2 Hn Hn64). Qed.

Lemma cut_0 D : pair64 D -> hi 64 (rotl 128 (wide D) 0) = D.1 /\ lo 64 (rotl 128 (wide D) 0) = D.2.
Proof. intros HD. rewrite rotl_0 by (by apply wide_range). pose proof (wide_cut D HD) as E. by rewrite <- E at 2 4. Qed.

Lemma keygen_ka_spec KL KR : pair64 KL -> pair64 KR ->
  keygen_ka KL.1 KL.2 (Z.lxor KL.1 KR.1) (Z.lxor KL.2 KR.2) = rfc_KA (wide KL) (wide KR) /\ pair64 (rfc_KA (wide KL) (wide KR)).
Proof.
  intros HL HR. assert (keygen_ka KL.1 KL.2 (Z.lxor KL.1 KR.1) (Z.lxor KL.2 KR.2) = rfc_KA (wide KL) (wide KR)) as E.
  { unfold keygen_ka, rfc_KA. pose proof (wide_cut KL HL) as EL. pose proof (wide_cut KR HR) as ER.
    destruct KL as [KLh KLl], KR as [KRh KRl]. injection EL as -> ->. injection ER as -> ->. cbn [fst snd].
    cbn [for_range fold_left seq]. rewrite (two_rounds_feistel _ _ 0) by done. destruct (feistel _ 1 _) as [D1 D2]. cbn [fst snd].
    by rewrite (two_rounds_feistel _ _ 2) by done. }
  split; [done |]. rewrite <- E. unfold keygen_ka. destruct HL, HR. destruct (two_rounds _ _ _) as [D1 D2] eqn:E1.
  assert (pair64 (D1, D2)) as [Ha Hb] by (rewrite <- E1; apply two_rounds_range; split; by apply r64_lxor).
  apply two_rounds_range. split; by apply r64_lxor.
Qed.

Lemma keygen_kb_spec KA KR : pair64 KA -> pair64 KR ->
  two_rounds SIGMA.[4] SIGMA.[5] (Z.lxor KA.1 KR.1, Z.lxor KA.2 KR.2) = rfc_KB KA (wide KR) /\ pair64 (rfc_KB KA (wide KR)).
Proof.
  intros [HA1 HA2] HR. pose proof (wide_cut KR HR) as ER. destruct HR, KR as [KRh KRl]. injection ER as Eh El. unfold rfc_KB. rewrite Eh, El.
  cbn [for_range fold_left seq fst snd] in *. rewrite <- (two_rounds_feistel _ _ 4) by done. split; [done |].
  apply two_rounds_range. split; by apply r64_lxor.
Qed.

Definition schedule_ok (ctx : camellia_ctx_t) : Prop :=
  length (cam_kw ctx) = 4%nat /\ Forall r64 (cam_kw ctx) /\
  Forall r64 (cam_ke ctx) /\ length (cam_ke ctx) = 6%nat /\ length (cam_k ctx) = 24%nat /\
  (cam_nr ctx = 18 \/ cam_nr ctx = 24).

Lemma halves_app a b : halves (a ++ b) = halves a ++ halves b.
Proof. apply flat_map_app. Qed.

Lemma key_halves l : bytes l -> (16 <= length l)%nat -> pair64 (opssl_be64 l, opssl_be64 (drop 8 l)).
Proof. intros Hb Hl. by destruct (be64_halves l Hb Hl) as (_ & _ & ? & ?). Qed.

Ltac subkeys :=
  repeat match goal with
  | H : pair64 ?D |- context [fst (rot128 (fst ?D) (snd ?D) ?n)] => rewrite (proj1 (rot_halves D n H ltac:(lia) ltac:(lia)))
  | H : pair64 ?D |- context [snd (rot128 (fst ?D) (snd ?D) ?n)] => rewrite (proj2 (rot_halves D n H ltac:(lia) ltac:(lia)))
  end.

Lemma set_key_spec key : bytes key -> (length key = 16 \/ length key = 32)%nat ->
  let '(kw, k, ke) := rfc_subkeys key in
  camellia_set_key key = (1, mk_camellia kw (k ++ replicate (24 - length k) 0) (ke ++ replicate (6 - length ke) 0)
                                          (if (length key =? 16)%nat then 18 else 24)).
Proof.
  intros Hb Hl. unfold rfc_subkeys, camellia_set_key.
  pose proof (key_halves key Hb ltac:(lia)) as HL. rewrite <- (wide_be key Hb) by lia. destruct Hl as [Hl | Hl]; rewrite Hl; cbn [Nat.eqb].
  - cbv zeta. unfold camellia_keygen_128. set (KL := (opssl_be64 key, opssl_be64 (drop 8 key))) in *.
    change (opssl_be64 key) with KL.1. change (opssl_be64 (drop 8 key)) with KL.2.
    pose proof (keygen_ka_spec KL (0, 0) HL ltac:(split; unfold r64; cbn; lia)) as [E HA]. cbn [fst snd] in E. rewrite !Z.lxor_0_r in E.
    change (wide (0, 0)) with 0 in *. rewrite E. set (KA := rfc_KA (wide KL) 0) in *. rewrite (surjective_pairing KA) at 1.
    unfold halves. cbn [flat_map app length Nat.sub replicate drop camellia_zero cam_k cam_ke].
    subkeys. destruct (cut_0 KL HL) as [-> ->], (cut_0 KA HA) as [-> ->]. done.
  - cbv zeta. unfold camellia_keygen_256. set (KL := (opssl_be64 key, opssl_be64 (drop 8 key))) in *.
    pose proof (key_halves (drop 16 key) ltac:(auto with opssl) ltac:(rewrite length_drop; lia)) as HR.
    pose proof (wide_be (drop 16 key) ltac:(auto with opssl) ltac:(rewrite length_drop; lia)) as EW.
    rewrite take_ge in EW by (rewrite length_drop; lia). rewrite <- EW.
    replace (drop 24 key) with (drop 8 (drop 16 key)) by (by rewrite drop_drop). set (KR := (opssl_be64 (drop 16 key), opssl_be64 (drop 8 (drop 16 key)))) in *.
    change (opssl_be64 key) with KL.1. change (opssl_be64 (drop 8 key)) with KL.2.
    change (opssl_be64 (drop 16 key)) with KR.1. change (opssl_be64 (drop 8 (drop 16 key))) with KR.2.
    destruct (keygen_ka_spec KL KR HL HR) as [E HA]. rewrite E. set (KA := rfc_KA (wide KL) (wide KR)) in *. rewrite (surjective_pairing KA) at 1.
    destruct (keygen_kb_spec KA KR HA HR) as [EB HB]. rewrite EB. set (KB := rfc_KB KA (wide KR)) in *. rewrite (surjective_pairing KB) at 1.
    unfold halves. cbn [flat_map app length Nat.sub replicate drop camellia_zero cam_k cam_ke].
    subkeys. destruct (cut_0 KL HL) as [-> ->], (cut_0 KB HB) as [-> ->]. done.
Qed.

(** Every subkey is a 64-bit word. *)
Lemma halves_ok l : Forall (fun '(x, n) => 0 <= x < 2 ^ 128 /\ 0 <= n <= 128) l -> Forall r64 (halves l).
Proof.
  induction l as [| [x n] l IH]; intros H; [constructor |]. apply Forall_cons in H as [H Hl]. destruct H as [Hx Hn]. cbn [halves flat_map app].
  pose proof (rotl_range 128 x n Hn Hx). unfold r64, hi, lo.
  repeat constructor; try (by apply IH); try (apply Z.mod_pos_bound; lia); [apply Z.div_pos; lia | apply Z.div_lt_upper_bound; lia].
Qed.

Lemma halves_length l : length (halves l) = (2 * length l)%nat.
Proof. induction l as [| [x n] l IH]; [done |]. cbn [halves flat_map app length] in *. unfold halves in IH. rewrite IH. lia. Qed.

Definition subkeys_ok (len : nat) (ks : list Z * list Z * list Z) : Prop :=
  let n := if (len =? 16)%nat then 18%nat else 24%nat in
  let '(kw, k, ke) := ks in
  Forall r64 kw /\ Forall r64 ke /\ length kw = 4%nat /\ length k = n /\ length ke = (n / 3 - 2)%nat.

Lemma rfc_subkeys_ok key : bytes key -> (length key = 16 \/ length key = 32)%nat -> subkeys_ok (length key) (rfc_subkeys key).
Proof.
  intros Hb Hl. unfold subkeys_ok, rfc_subkeys. pose proof (key_halves key Hb ltac:(lia)) as HL. rewrite <- (wide_be key Hb) by lia.
  destruct Hl as [Hl | Hl]; rewrite Hl; cbn [Nat.eqb].
  - pose proof (keygen_ka_spec _ (0, 0) HL ltac:(split; unfold r64; cbn; lia)) as [_ HA]. change (wide (0, 0)) with 0 in HA.
    pose proof (wide_range _ HL). pose proof (wide_range _ HA).
    repeat split; try (apply halves_ok; repeat constructor; lia || done).
  - pose proof (key_halves (drop 16 key) ltac:(auto with opssl) ltac:(rewrite length_drop; lia)) as HR.
    pose proof (wide_be (drop 16 key) ltac:(auto with opssl) ltac:(rewrite length_drop; lia)) as EW.
    rewrite take_ge in EW by (rewrite length_drop; lia). rewrite <- EW.
    destruct (keygen_ka_spec _ _ HL HR) as [_ HA]. destruct (keygen_kb_spec _ _ HA HR) as [_ HB].
    pose proof (wide_range _ HL). pose proof (wide_range _ HA). pose proof (wide_range _ HB). pose proof (wide_range _ HR).
    repeat split; try (apply halves_ok; repeat constructor; lia || done).
Qed.

(** Six rounds, as the loop of the standard runs them. *)
Lemma six_rounds_feistel ctx i D : Nat.even i = true ->
  six_rounds ctx i D = for_range i 6 (fun r => feistel (cam_k ctx).[r] r) D.
Proof.
  intros Hi. unfold six_rounds. cbn [for_range fold_left seq].
  rewrite (two_rounds_feistel _ _ i) by done. rewrite (two_rounds_feistel _ _ (i + 2)) by (by rewrite Nat.even_add, Hi).
  rewrite (two_rounds_feistel _ _ (i + 4)) by (by rewrite Nat.even_add, Hi).
  replace (i + 1)%nat with (S i) by lia. replace (i + 2)%nat with (S (S i)) by lia. replace (i + 3)%nat with (S (S (S i))) by lia.
  replace (i + 4)%nat with (S (S (S (S i)))) by lia. replace (i + 5)%nat with (S (S (S (S (S i))))) by lia. done.
Qed.

Lemma six_rounds_range ctx i D : pair64 D -> pair64 (six_rounds ctx i D).
Proof. intros. by do 3 apply two_rounds_range. Qed.

Lemma fl_layer_spec ctx i D : Forall r64 (cam_ke ctx) -> pair64 D ->
  fl_layer ctx i D = (FL D.1 (cam_ke ctx).[i], FLINV D.2 (cam_ke ctx).[i + 1]) /\ pair64 (fl_layer ctx i D).
Proof.
  intros Hk [H1 H2]. assert (forall j, r64 (cam_ke ctx).[j]) as Hj.
  { intros j. unfold get. destruct (nth_in_or_default j (cam_ke ctx) 0) as [Hin | ->]; [| unfold r64; lia].
    rewrite Forall_forall in Hk. by apply Hk, list_elem_of_In. }
  unfold fl_layer. rewrite camellia_fl_spec, camellia_flinv_spec by done. split; [done |]. split; [by apply FL_r64 | by apply FLINV_r64].
Qed.

(** The loop of the standard, six rounds at a time. *)
Definition rfc_step (nr : nat) (k ke : list Z) (r : nat) (D : Z * Z) : Z * Z :=
  let D := feistel k.[r] r D in
  if ((r + 1) mod 6 =? 0)%nat && (r + 1 <? nr)%nat
  then let j := (2 * ((r + 1) / 6 - 1))%nat in (FL D.1 ke.[j], FLINV D.2 ke.[j + 1])
  else D.

Ltac closed_tests :=
  repeat match goal with |- context [if ?b then _ else _] => let c := eval vm_compute in b in change b with c; cbv iota end.

Lemma rfc_six nr k ke i D : (i = 0 \/ i = 6 \/ i = 12 \/ i = 18)%nat -> (nr = 18 \/ nr = 24)%nat -> (i + 6 <= nr)%nat ->
  for_range i 6 (rfc_step nr k ke) D =
  let D := for_range i 6 (fun r => feistel k.[r] r) D in
  if (i + 6 <? nr)%nat then (FL D.1 ke.[i / 3], FLINV D.2 ke.[i / 3 + 1]) else D.
Proof.
  intros Hi Hn Hle. cbv zeta.
  destruct Hi as [-> | [-> | [-> | ->]]], Hn as [-> | ->]; try (exfalso; lia); cbn [for_range fold_left seq]; unfold rfc_step; closed_tests; reflexivity.
Qed.

Lemma block_out D : pair64 D -> opssl_put_be64 D.1 ++ opssl_put_be64 D.2 = be_bytes 16 (wide D).
Proof.
  intros HD. rewrite !put_be64_bytes. change 16%nat with (8 + 8)%nat. rewrite be_bytes_split. change (256 ^ Z.of_nat 8) with (2 ^ 64).
  destruct D as [a b], HD as [Ha Hb]. unfold wide. cbn [fst snd] in *. rewrite Z.div_add_l, Z.div_small, Z.add_0_r by (unfold r64 in *; lia).
  f_equal. apply be_bytes_wrap. change (256 ^ Z.of_nat 8) with (2 ^ 64). by rewrite Z.add_comm, Z.mod_add by lia.
Qed.

Lemma get_padded (l : list Z) n i : (i < length l)%nat -> (l ++ replicate n 0).[i] = l.[i].
Proof. apply get_app_l. Qed.

Lemma block_rfc (key input : list Z) ks : bytes input -> length input = 16%nat -> (length key = 16 \/ length key = 32)%nat -> subkeys_ok (length key) ks ->
  camellia_encrypt_block (let '(kw, k, ke) := ks in mk_camellia kw (k ++ replicate (24 - length k) 0) (ke ++ replicate (6 - length ke) 0)
                                          (if (length key =? 16)%nat then 18 else 24)) input =
  let '(kw, k, ke) := ks in
  let nr := if (length key =? 16)%nat then 18%nat else 24%nat in
  let D := for_range 0 nr (rfc_step nr k ke) (Z.lxor (hi 64 (be_val input)) kw.[0], Z.lxor (lo 64 (be_val input)) kw.[1]) in
  be_bytes 16 (wide (Z.lxor D.2 kw.[2], Z.lxor D.1 kw.[3])).
Proof.
  destruct ks as [[kw k] ke]. intros Hb Hi Hl (Hkw & Hke & Lw & Lk & Le). set (ctx := mk_camellia _ _ _ _).
  assert (Forall r64 (cam_ke ctx)) as Hke' by (apply Forall_app; split; [done | apply Forall_replicate; unfold r64; lia]).
  destruct (be64_halves input Hb ltac:(lia)) as (E1 & E2 & R1 & R2). rewrite take_ge in E1, E2 by lia.
  assert (forall j, r64 kw.[j]) as Hj.
  { intros j. unfold get. destruct (nth_in_or_default j kw 0) as [Hin | ->]; [| unfold r64; lia].
    rewrite Forall_forall in Hkw. by apply Hkw, list_elem_of_In. }
  assert (forall i D, (i + 6 <= length k)%nat -> Nat.even i = true ->
    six_rounds ctx i D = for_range i 6 (fun r => feistel k.[r] r) D) as Hsix.
  { intros i D Hle Hev. rewrite six_rounds_feistel by done. apply for_range_ext. intros r D' Hr. cbn [ctx cam_k]. by rewrite get_padded by lia. }
  unfold camellia_encrypt_block. cbv zeta. rewrite E1, E2. change (cam_kw ctx) with kw.
  set (D0 := (Z.lxor (hi 64 (be_val input)) kw.[0], Z.lxor (lo 64 (be_val input)) kw.[1])).
  assert (pair64 D0) as HD0 by (split; cbn [fst snd D0]; apply r64_lxor; congruence || done).
  assert (forall i D, pair64 D -> (i + 2 <= length ke)%nat -> fl_layer ctx i D = (FL D.1 ke.[i], FLINV D.2 ke.[i + 1]) /\ pair64 (fl_layer ctx i D)) as Hfl.
  { intros i D HD Hle. destruct (fl_layer_spec ctx i D Hke' HD) as [E H]. split; [| done]. rewrite E. cbn [ctx cam_ke]. by rewrite !get_padded by lia. }
  pose proof (fun i => six_rounds_range ctx i) as Hr.
  assert (4 <= length ke)%nat as Hke4 by (rewrite Le; destruct Hl as [-> | ->]; cbn; lia).
  destruct (Hfl 0%nat _ (Hr 0%nat _ HD0)) as [F0 HF0]; [lia |].
  destruct (Hfl 2%nat _ (Hr 6%nat _ HF0)) as [F2 HF2]; [lia |].
  assert (forall a b, pair64 (b, a) -> opssl_put_be64 (Z.lxor a kw.[2]) ++ opssl_put_be64 (Z.lxor b kw.[3]) =
    be_bytes 16 (wide (Z.lxor a kw.[2], Z.lxor b kw.[3]))) as Hout.
  { intros a b [Hb' Ha]. apply (block_out (_, _)). split; by apply r64_lxor. }
  assert (cam_nr ctx = if (length key =? 16)%nat then 18 else 24) as Enr by done.
  destruct Hl as [Hl | Hl]; rewrite Hl in *; cbn [Nat.eqb] in *; rewrite Enr; cbn [Z.eqb Pos.eqb].
  - cbv zeta.
    change (for_range 0 18 (rfc_step 18 k ke) D0) with (for_range 0 (6 + (6 + 6)) (rfc_step 18 k ke) D0). rewrite !for_range_add. cbn [Nat.add].
    rewrite (rfc_six 18 k ke 0), (rfc_six 18 k ke 6), (rfc_six 18 k ke 12) by lia. cbv zeta. closed_tests.
    rewrite <- !Hsix by (done || lia). change (0 / 3)%nat with 0%nat. change (6 / 3)%nat with 2%nat. rewrite <- F0, <- F2.
    apply Hout. destruct (Hr 12%nat _ HF2). by split.
  - cbv zeta.
    destruct (Hfl 4%nat _ (Hr 12%nat _ HF2)) as [F4 HF4]; [rewrite Le; cbn; lia |].
    change (for_range 0 24 (rfc_step 24 k ke) D0) with (for_range 0 (6 + (6 + (6 + 6))) (rfc_step 24 k ke) D0). rewrite !for_range_add. cbn [Nat.add].
    rewrite (rfc_six 24 k ke 0), (rfc_six 24 k ke 6), (rfc_six 24 k ke 12), (rfc_six 24 k ke 18) by lia. cbv zeta. closed_tests.
    rewrite <- !Hsix by (done || lia). change (0 / 3)%nat with 0%nat. change (6 / 3)%nat with 2%nat. change (12 / 3)%nat with 4%nat. rewrite <- F0, <- F2, <- F4.
    apply Hout. destruct (Hr 18%nat _ HF4). by split.
Qed.

(** C39: for keys of 16 and 32 bytes, setting the key and encrypting a block is RFC
    3713's Camellia; any other key length is refused. *)
Theorem camellia_rfc3713 key input : bytes key -> bytes input -> length input = 16%nat ->
  if decide (length key = 16 \/ length key = 32)%nat then
    (camellia_set_key key).1 = 1 /\ camellia_encrypt_block (camellia_set_key key).2 input = Camellia key input
  else (camellia_set_key key).1 = 0.
Proof.
  intros Hk Hi Hl. case_decide as Hd.
  - pose proof (set_key_spec key Hk Hd) as E. pose proof (rfc_subkeys_ok key Hk Hd) as Hs.
    pose proof (block_rfc key input _ Hi Hl Hd Hs) as B. unfold Camellia. destruct (rfc_subkeys key) as [[kw k] ke]. rewrite E. by split.
  - unfold camellia_set_key. destruct (Nat.eqb_spec (length key) 16); [tauto |]. destruct (Nat.eqb_spec (length key) 32); [tauto | done].
Qed.

Lemma camellia_rfc3713_witness :
  camellia_encrypt_block (camellia_set_key rfc3713_key).2 (take 16 rfc3713_key) = Camellia rfc3713_key (take 16 rfc3713_key).
Proof.
  pose proof (camellia_rfc3713 rfc3713_key (take 16 rfc3713_key) ltac:(solve_bytes) ltac:(solve_bytes) eq_refl) as H.
  rewrite decide_True in H by (right; reflexivity). apply H.
Defined.

(* ------------------------------------------------------------------ *)
(** * The block function is a permutation *)

Definition swap (D : Z * Z) : Z * Z := (D.2, D.1).

Lemma two_rounds_undo ka kb D : two_rounds kb ka (swap (two_rounds ka kb D)) = swap D.
Proof. destruct D as [D1 D2]. unfold two_rounds, swap. cbn [fst snd]. by rewrite !lxor_cancel. Qed.

Lemma six_rounds_undo ctx ctx' i i' D : (forall j, (j < 6)%nat -> (cam_k ctx').[i' + j] = (cam_k ctx).[i + (5 - j)]) ->
  six_rounds ctx' i' (swap (six_rounds ctx i D)) = swap D.
Proof.
  intros H. unfold six_rounds. rewrite (H 1%nat), (H 2%nat), (H 3%nat), (H 4%nat), (H 5%nat) by lia.
  specialize (H 0%nat ltac:(lia)). rewrite Nat.add_0_r in H. rewrite H. cbn [Nat.sub]. rewrite !Nat.add_0_r. by rewrite !two_rounds_undo.
Qed.

Lemma fl_layer_undo ctx ctx' i i' D : Forall r64 (cam_ke ctx) -> Forall r64 (cam_ke ctx') -> pair64 D ->
  (cam_ke ctx').[i'] = (cam_ke ctx).[i + 1] -> (cam_ke ctx').[i' + 1] = (cam_ke ctx).[i] ->
  fl_layer ctx' i' (swap (fl_layer ctx i D)) = swap D.
Proof.
  intros Hk Hk' HD E1 E2. destruct (fl_layer_spec ctx i D Hk HD) as [E [H1 H2]].
  rewrite (proj1 (fl_layer_spec ctx' i' (swap (fl_layer ctx i D)) Hk' (conj H2 H1))). rewrite E1, E2. unfold swap. cbn [fst snd]. rewrite E. cbn [fst snd].
  assert (forall j, r64 (cam_ke ctx).[j]) as Hj.
  { intros j. unfold get. destruct (nth_in_or_default j (cam_ke ctx) 0) as [Hin | ->]; [| unfold r64; lia].
    rewrite Forall_forall in Hk. by apply Hk, list_elem_of_In. }
  destruct HD. by rewrite FL_FLINV, FLINV_FL.
Qed.

Lemma rev_get (l : list Z) i : (i < length l)%nat -> (rev l).[i] = l.[length l - 1 - i].
Proof. intros Hi. unfold get. rewrite rev_nth by done. f_equal. lia. Qed.

Lemma be64_put x r : r64 x -> opssl_be64 (opssl_put_be64 x ++ r) = x.
Proof.
  intros Hx. rewrite put_be64_bytes. assert (opssl_be64 (be_bytes 8 x ++ r) = opssl_be64 (be_bytes 8 x)) as -> by done.
  rewrite be64_val by (apply be_bytes_ok || by rewrite be_bytes_length). rewrite take_ge by (by rewrite be_bytes_length). by apply be_bytes_val.
Qed.

Lemma put_be64_length x : length (opssl_put_be64 x) = 8%nat.
Proof. done. Qed.

(** What the block function computes between its two whitenings. *)
Definition core (ctx : camellia_ctx_t) (D : Z * Z) : Z * Z :=
  let D := six_rounds ctx 12 (fl_layer ctx 2 (six_rounds ctx 6 (fl_layer ctx 0 (six_rounds ctx 0 D)))) in
  if cam_nr ctx =? 24 then six_rounds ctx 18 (fl_layer ctx 4 D) else D.

Lemma core_range ctx D : Forall r64 (cam_ke ctx) -> pair64 D -> pair64 (core ctx D).
Proof.
  intros Hk HD. unfold core. cbv zeta.
  assert (forall i D, pair64 D -> pair64 (fl_layer ctx i D)) as Hf by (intros; by apply fl_layer_spec).
  destruct (_ =? _); auto 12 using six_rounds_range.
Qed.

Lemma core_undo ctx D : schedule_ok ctx -> pair64 D -> core (camellia_reverse ctx) (swap (core ctx D)) = swap D.
Proof.
  intros (_ & _ & Hke & Lke & Lk & Hnr) HD. set (ctx' := camellia_reverse ctx).
  set (n := Z.to_nat (cam_nr ctx)). assert (n <= 24)%nat as Hn by (unfold n; lia).
  assert (forall j, (j < n)%nat -> (cam_k ctx').[j] = (cam_k ctx).[n - 1 - j]) as HK.
  { intros j Hj. cbn [ctx' camellia_reverse cam_k]. fold n. rewrite rev_get by (rewrite length_take; lia). rewrite length_take, Nat.min_l by lia.
    apply get_take. lia. }
  set (m := (n / 3 - 2)%nat). assert (m <= 6)%nat as Hm by (unfold m, n; destruct Hnr as [-> | ->]; vm_compute; lia).
  assert (forall j, (j < m)%nat -> (cam_ke ctx').[j] = (cam_ke ctx).[m - 1 - j]) as HE.
  { intros j Hj. cbn [ctx' camellia_reverse cam_ke]. fold n. fold m. rewrite rev_get by (rewrite length_take; lia). rewrite length_take, Nat.min_l by lia.
    apply get_take. lia. }
  assert (Forall r64 (cam_ke ctx')) as Hke'.
  { cbn [ctx' camellia_reverse cam_ke]. apply Forall_rev. by apply Forall_take. }
  assert (forall i D, pair64 D -> pair64 (fl_layer ctx i D)) as Hf by (intros; by apply fl_layer_spec).
  pose proof (fun i D => six_rounds_range ctx i D) as Hs.
  assert (forall i i' D, (i + i' + 6 = n)%nat -> six_rounds ctx' i' (swap (six_rounds ctx i D)) = swap D) as H6.
  { intros i i' D' Hi. apply six_rounds_undo. intros j Hj. rewrite HK by lia. f_equal. lia. }
  assert (forall i i' D, pair64 D -> (i + i' + 2 = m)%nat -> fl_layer ctx' i' (swap (fl_layer ctx i D)) = swap D) as H2.
  { intros i i' D' HD' Hi. apply fl_layer_undo; [done | done | done | rewrite HE by lia; f_equal; lia | rewrite HE by lia; f_equal; lia]. }
  unfold core. change (cam_nr ctx') with (cam_nr ctx). unfold m, n in *.
  destruct Hnr as [E | E]; rewrite E in *; cbn [Z.eqb Pos.eqb Z.to_nat Pos.to_nat] in *; cbv zeta.
  - rewrite (H6 12%nat 0%nat) by done. rewrite (H2 2%nat 0%nat) by (auto || done). rewrite (H6 6%nat 6%nat) by done.
    rewrite (H2 0%nat 2%nat) by (auto || done). by rewrite (H6 0%nat 12%nat).
  - rewrite (H6 18%nat 0%nat) by done. rewrite (H2 4%nat 0%nat) by (auto 10 || done). rewrite (H6 12%nat 6%nat) by done.
    rewrite (H2 2%nat 2%nat) by (auto || done). rewrite (H6 6%nat 12%nat) by done. rewrite (H2 0%nat 4%nat) by (auto || done).
    by rewrite (H6 0%nat 18%nat).
Qed.

Lemma encrypt_core ctx input :
  camellia_encrypt_block ctx input =
  let D := core ctx (Z.lxor (opssl_be64 input) (cam_kw ctx).[0], Z.lxor (opssl_be64 (drop 8 input)) (cam_kw ctx).[1]) in
  opssl_put_be64 (Z.lxor D.2 (cam_kw ctx).[2]) ++ opssl_put_be64 (Z.lxor D.1 (cam_kw ctx).[3]).
Proof. done. Qed.

Lemma block_undo ctx input : schedule_ok ctx -> bytes input -> length input = 16%nat ->
  camellia_encrypt_block (camellia_reverse ctx) (camellia_encrypt_block ctx input) = input.
Proof.
  intros Hctx Hb Hl. pose proof Hctx as (Lw & Hkw & Hke & _).
  destruct (be64_halves input Hb ltac:(lia)) as (E1 & E2 & R1 & R2). rewrite take_ge in E1, E2 by lia.
  destruct (cam_kw ctx) as [| w0 [| w1 [| w2 [| w3 [|]]]]] eqn:Ew; try discriminate Lw.
  rewrite !Forall_cons in Hkw. destruct Hkw as (W0 & W1 & W2 & W3 & _).
  rewrite (encrypt_core ctx), Ew. cbv zeta. set (D0 := (Z.lxor (opssl_be64 input) _, _)).
  assert (pair64 D0) as HD0 by (split; by apply r64_lxor). destruct (core_range ctx D0 Hke HD0) as [C1 C2].
  unfold get at 1 2. cbn [nth]. rewrite encrypt_core. cbv zeta.
  assert (cam_kw (camellia_reverse ctx) = [w2; w3; w0; w1]) as -> by (cbn [camellia_reverse cam_kw]; by rewrite Ew).
  unfold get. cbn [nth]. rewrite be64_put by (by apply r64_lxor). rewrite drop_app_length' by done.
  rewrite <- (app_nil_r (opssl_put_be64 (Z.lxor (core ctx D0).1 w3))), be64_put by (by apply r64_lxor). rewrite !lxor_cancel.
  change ((core ctx D0).2, (core ctx D0).1) with (swap (core ctx D0)). rewrite core_undo by done. unfold swap, D0. cbn [fst snd].
  unfold get. cbn [nth]. rewrite !lxor_cancel, E1, E2. 
  pose proof (block_out (hi 64 (be_val input), lo 64 (be_val input)) ltac:(split; cbn [fst snd]; congruence)) as Eo. cbn [fst snd] in Eo. rewrite Eo.
  assert (wide (hi 64 (be_val input), lo 64 (be_val input)) = be_val input) as ->.
  { unfold wide, hi, lo. cbn [fst snd]. pose proof (Z.div_mod (be_val input) (2 ^ 64)). lia. }
  rewrite <- Hl. by apply be_val_bytes.
Qed.

Lemma set_key_ok key : bytes key -> (length key = 16 \/ length key = 32)%nat -> schedule_ok (camellia_set_key key).2.
Proof.
  intros Hb Hl. pose proof (set_key_spec key Hb Hl) as E. pose proof (rfc_subkeys_ok key Hb Hl) as Hs.
  destruct (rfc_subkeys key) as [[kw k] ke]. rewrite E. destruct Hs as (H1 & H2 & L1 & L2 & L3). unfold schedule_ok. cbn [snd cam_kw cam_k cam_ke cam_nr].
  rewrite !length_app, !length_replicate. split; [done | split; [done | split; [| split; [| split]]]].
  - apply Forall_app. split; [done | apply Forall_replicate; unfold r64; lia].
  - rewrite L3. by destruct Hl as [-> | ->].
  - rewrite L2. by destruct Hl as [-> | ->].
  - destruct Hl as [-> | ->]; cbn; tauto.
Qed.

(** The block function is a permutation: run with the subkeys of the schedule in
    reverse order, which is RFC 3713's decryption, it gives every encrypted block
    back. *)
Theorem camellia_block_decrypts key input : (length key = 16 \/ length key = 32)%nat -> bytes key -> bytes input -> length input = 16%nat ->
  let ctx := (camellia_set_key key).2 in
  camellia_encrypt_block (camellia_reverse ctx) (camellia_encrypt_block ctx input) = input.
Proof. intros Hl Hk Hb Hi ctx. apply block_undo; [by apply set_key_ok | done | done]. Qed.

Lemma camellia_block_decrypts_witness :
  let ctx := (camellia_set_key rfc3713_key).2 in
  camellia_encrypt_block (camellia_reverse ctx) (camellia_encrypt_block ctx (replicate 16 7)) = replicate 16 7.
Proof. exact (camellia_block_decrypts rfc3713_key (replicate 16 7) (or_intror eq_refl) ltac:(solve_bytes) ltac:(solve_bytes) eq_refl). Defined.

Lemma camellia_encrypt_ok ctx input : length (camellia_encrypt_block ctx input) = 16%nat /\ bytes (camellia_encrypt_block ctx input).
Proof. rewrite encrypt_core. cbv zeta. split; [done |]. rewrite !put_be64_bytes. apply bytes_app. split; apply be_bytes_ok. Qed.
