(* ===== verification/CamelliaGcm.v ===== *)
(** Camellia-GCM: src/crypto/camellia.c from [cam_gcm_t] on.

    [out] is the output buffer before the call and [out_len] the output length
    variable before the call; a call gives its return value and both
    afterwards.  [None] is a loop that has not ended within [fuel] iterations.

    Data that does not fill its last block is hashed as that partial block and
    then as a block of zeros, so the tag is SP 800-38D's exactly when the lengths
    are whole blocks; [CAM_tag] is the tag the code computes for every length. *)
From S2P Require Import Prelude Platform AesSpec BlockModes GcmSpec AesGcm Camellia.
#[local] Open Scope Z_scope.

Record cam_gcm_t := mk_cam_gcm {
  cg_cam : camellia_ctx_t; cg_H : list Z; cg_J0 : list Z; cg_ghash : list Z; cg_aad_len : Z; cg_ct_len : Z }.

Definition cam_gcm_zero : cam_gcm_t := mk_cam_gcm camellia_zero (replicate 16 0) (replicate 16 0) (replicate 16 0) 0 0.

Definition cg_set_ghash (g : cam_gcm_t) (h : list Z) : cam_gcm_t :=
  mk_cam_gcm (cg_cam g) (cg_H g) (cg_J0 g) h (cg_aad_len g) (cg_ct_len g).

Definition cg_set_lens (g : cam_gcm_t) (aad_len ct_len : Z) : cam_gcm_t :=
  mk_cam_gcm (cg_cam g) (cg_H g) (cg_J0 g) (cg_ghash g) aad_len ct_len.

(** The loop is that of [ghash_mult], word for word. *)
Definition cam_ghash_mult (x h : list Z) : list Z := (for_range 0 128 (ghash_step x) (replicate 16 0, h)).1.

Section CamGcm.
Variable fuel : nat.

Definition cam_ghash_update (g : cam_gcm_t) (data : list Z) : option cam_gcm_t :=
  match while_fuel fuel (fun s : list Z * list Z => (16 <=? length s.2)%nat)
          (fun s => (cam_ghash_mult (ghash_xor s.1 s.2 16) (cg_H g), drop 16 s.2)) (cg_ghash g, data) with
  | None => None
  | Some (ghash, data) =>
    Some (cg_set_ghash g
      (if (0 <? length data)%nat then cam_ghash_mult (ghash_xor ghash data (length data)) (cg_H g) else ghash))
  end.

Definition cam_gcm_init (key nonce : list Z) : cam_gcm_t :=
  let cam := (camellia_set_key key).2 in
  mk_cam_gcm cam (camellia_encrypt_block cam (replicate 16 0)) (take 12 nonce ++ [0; 0; 0; 1]) (cg_ghash cam_gcm_zero) 0 0.

(** The output written so far, the input left and the counter. *)
Definition cam_gcm_ctr_body (g : cam_gcm_t) (s : list Z * list Z * Z) : list Z * list Z * Z :=
  let '(out, input, ctr) := s in
  let counter := take 12 (cg_J0 g) ++ opssl_put_be32 ctr in
  let ks := camellia_encrypt_block (cg_cam g) counter in
  let chunk := if (length input <? 16)%nat then length input else 16%nat in
  (out ++ bxor (take chunk input) ks, drop chunk input, u32 (ctr + 1)).

Definition cam_gcm_ctr (g : cam_gcm_t) (out input : list Z) : option (list Z) :=
  let ctr := u32 (opssl_be32 (drop 12 (cg_J0 g)) + 1) in
  match while_fuel fuel (fun s => (0 <? length s.1.2)%nat) (cam_gcm_ctr_body g) ([], input, ctr) with
  | None => None
  | Some (written, _, _) => Some (splice out 0 written)
  end.

(** The associated data, guarded by its length, then its zeros; the ciphertext has
    no guard. *)
Definition cam_ghash_pad (g : cam_gcm_t) (len : nat) : option cam_gcm_t :=
  let pad := ((16 - len mod 16) mod 16)%nat in
  if (0 <? pad)%nat then cam_ghash_update g (replicate pad 0) else Some g.

Definition cam_ghash_aad (g : cam_gcm_t) (aad : list Z) : option cam_gcm_t :=
  match (if (0 <? length aad)%nat then cam_ghash_update g aad else Some g) with
  | None => None
  | Some g => cam_ghash_pad g (length aad)
  end.

Definition cam_ghash_ct (g : cam_gcm_t) (ct : list Z) : option cam_gcm_t :=
  match cam_ghash_update g ct with
  | None => None
  | Some g => cam_ghash_pad g (length ct)
  end.

Definition cam_gcm_tag (g : cam_gcm_t) (aad_len pt_len : nat) : option (list Z) :=
  let lengths := opssl_put_be64 (u64 (Z.of_nat aad_len * 8)) ++ opssl_put_be64 (u64 (Z.of_nat pt_len * 8)) in
  match cam_ghash_update g lengths with
  | None => None
  | Some g => Some (bxor (cg_ghash g) (camellia_encrypt_block (cg_cam g) (cg_J0 g)))
  end.

Definition opssl_camellia_gcm_seal (out : list Z) (out_len : Z) (key nonce plaintext aad : list Z) : option (Z * list Z * Z) :=
  let pt_len := length plaintext in
  let needed := u64 (Z.of_nat pt_len + 16) in
  if (Z.of_nat (length out) <? needed) || negb (length key =? 16)%nat && negb (length key =? 32)%nat then Some (0, out, out_len) else
  let g := cg_set_lens (cam_gcm_init key nonce) (Z.of_nat (length aad)) 0 in
  match cam_ghash_aad g aad with
  | None => None
  | Some g =>
    match cam_gcm_ctr g out plaintext with
    | None => None
    | Some out =>
      let g := cg_set_lens g (cg_aad_len g) (Z.of_nat pt_len) in
      match cam_ghash_ct g (take pt_len out) with
      | None => None
      | Some g =>
        match cam_gcm_tag g (length aad) pt_len with
        | None => None
        | Some tag => Some (1, splice out pt_len tag, needed)
        end
      end
    end
  end.

Definition opssl_camellia_gcm_open (out : list Z) (out_len : Z) (key nonce ciphertext aad : list Z) : option (Z * list Z * Z) :=
  if (length ciphertext <? 16)%nat then Some (0, out, out_len) else
  let pt_len := (length ciphertext - 16)%nat in
  if (length out <? pt_len)%nat || negb (length key =? 16)%nat && negb (length key =? 32)%nat then Some (0, out, out_len) else
  let g := cg_set_lens (cam_gcm_init key nonce) (Z.of_nat (length aad)) 0 in
  match cam_ghash_aad g aad with
  | None => None
  | Some g =>
    let g := cg_set_lens g (cg_aad_len g) (Z.of_nat pt_len) in
    match cam_ghash_ct g (take pt_len ciphertext) with
    | None => None
    | Some g =>
      match cam_gcm_tag g (length aad) pt_len with
      | None => None
      | Some expected =>
        if opssl_ct_eq expected (drop pt_len ciphertext) 16 =? 0 then Some (0, out, out_len) else
        match cam_gcm_ctr g out (take pt_len ciphertext) with
        | None => None
        | Some out => Some (1, out, Z.of_nat pt_len)
        end
      end
    end
  end.
End CamGcm.

(* ------------------------------------------------------------------ *)
(** * What is computed *)

Section Spec.
Variable E : list Z -> list Z.

(** The blocks hashed for some data. *)
Definition cam_blocks (l : list Z) : list (list Z) :=
  blocks l ++ if (length l mod 16 =? 0)%nat then [] else [replicate 16 0].

Definition CAM_tag (nonce aad ct : list Z) : list Z :=
  bxor (be_bytes 16 (GHASH (gcm_H E) 0 (cam_blocks aad ++ cam_blocks ct ++
          [be_bytes 8 (8 * Z.of_nat (length aad)) ++ be_bytes 8 (8 * Z.of_nat (length ct))])))
       (E (gcm_counter nonce 1)).

Definition CAM_encrypt (nonce aad msg : list Z) : list Z :=
  let ct := GCM_ctr E nonce msg in ct ++ CAM_tag nonce aad ct.

Lemma cam_encrypt_whole nonce aad msg : (forall b, length (E b) = 16%nat) ->
  (length aad mod 16 = 0)%nat -> (length msg mod 16 = 0)%nat -> CAM_encrypt nonce aad msg = GCM_encrypt E nonce aad msg.
Proof.
  intros HE Ha Hm. unfold CAM_encrypt, GCM_encrypt, CAM_tag, GCM_tag, gcm_blocks, cam_blocks. cbv zeta.
  unfold GCM_ctr. rewrite ctr_length by (intros; apply HE). by rewrite Ha, Hm, !app_nil_r.
Qed.
End Spec.

Lemma zeros_ok : block_ok (replicate 16 0).
Proof. split; [done | solve_bytes]. Qed.

Lemma be_block x : block_ok (be_bytes 16 x).
Proof. split; [apply be_bytes_length | apply be_bytes_ok]. Qed.

Lemma cam_mult_eq x h : cam_ghash_mult x h = ghash_mult x h.
Proof. unfold cam_ghash_mult, ghash_mult. reflexivity. Qed.

Lemma hash_step h g b : block_ok h -> block_ok g -> bytes b -> b <> [] -> (length b <= 16)%nat ->
  cam_ghash_mult (ghash_xor g b (length b)) h = be_bytes 16 (GHASH (be_val h) (be_val g) [b ++ replicate (16 - length b) 0]).
Proof.
  intros Hh Hg Hb Hne Hl. destruct (ghash_xor_spec g b (length b) Hg Hb Hl ltac:(lia)) as [Hx Ex].
  rewrite cam_mult_eq, ghash_mult_eq, Ex, take_ge by (done || lia).
  unfold GHASH. cbn [fold_left]. reflexivity.
Qed.

Lemma xor_block g data : (16 <= length data)%nat -> ghash_xor g data 16 = ghash_xor g (take 16 data) (length (take 16 data)).
Proof.
  intros Hl. rewrite length_take, Nat.min_l by done. unfold ghash_xor. apply for_range_ext. intros i w Hi. by rewrite get_take by lia.
Qed.

Lemma block_val y h bs : r128 h -> Forall block_ok bs -> r128 y -> be_val (be_bytes 16 (GHASH h y bs)) = GHASH h y bs.
Proof.
  intros Hh Hbs Hy. apply be_bytes_val. change (256 ^ Z.of_nat 16) with (2 ^ 128). revert y Hy.
  induction Hbs as [| b bs Hb Hbs IH]; intros y Hy; [done |]. cbn [GHASH fold_left]. apply IH. by apply gmul128_range.
Qed.

Lemma block_r128 b : block_ok b -> r128 (be_val b).
Proof. intros [Hl Hb]. by apply block_range. Qed.

Lemma GHASH_cons h y b bs : GHASH h y (b :: bs) = GHASH h (GHASH h y [b]) bs.
Proof. exact (GHASH_app h y [b] bs). Qed.

Lemma block_self g : block_ok g -> be_bytes 16 (be_val g) = g.
Proof. intros [Hl Hg]. rewrite <- Hl. by apply be_val_bytes. Qed.

Lemma ghash_data_loop h : block_ok h -> forall fuel g data, block_ok g -> bytes data -> (nblocks data <= fuel)%nat ->
  exists g' d, while_fuel fuel (fun s : list Z * list Z => (16 <=? length s.2)%nat)
          (fun s => (cam_ghash_mult (ghash_xor s.1 s.2 16) h, drop 16 s.2)) (g, data) = Some (g', d) /\
    (if (0 <? length d)%nat then cam_ghash_mult (ghash_xor g' d (length d)) h else g') =
      be_bytes 16 (GHASH (be_val h) (be_val g) (blocks data)).
Proof.
  intros Hh. induction fuel as [| fuel IH]; intros g data Hg Hb Hf.
  - assert (data = []) as -> by (apply nblocks_nil; lia). exists g, []. split; [done |].
    change (g = be_bytes 16 (be_val g)). by rewrite block_self.
  - cbn [while_fuel fst snd]. destruct (Nat.leb_spec 16 (length data)) as [H16 | H16].
    + assert (data <> []) as Hne by (intros ->; cbn in H16; lia). rewrite xor_block by done.
      assert (length (take 16 data) = 16%nat) as Ht by (rewrite length_take; lia).
      rewrite (hash_step h g (take 16 data)) by (auto with opssl || (intros E%(f_equal length); rewrite Ht in E; done) || lia).
      destruct (IH (be_bytes 16 (GHASH (be_val h) (be_val g) [take 16 data ++ replicate (16 - length (take 16 data)) 0])) (drop 16 data))
        as (g' & d & E1 & E2); [apply be_block | auto with opssl | rewrite (nblocks_pos data) in Hf by done; lia |].
      exists g', d. split; [exact E1 |]. rewrite E2, (blocks_cons data), Ht by done. cbn [Nat.sub replicate]. rewrite app_nil_r.
      rewrite (GHASH_cons _ _ (take 16 data) (blocks (drop 16 data))).
      rewrite (block_val (be_val g)); [reflexivity | by apply block_r128 | by repeat constructor; auto with opssl | by apply block_r128].
    + exists g, data. split; [done |]. destruct (decide (data = [])) as [-> | Hne].
      * change (g = be_bytes 16 (be_val g)). by rewrite block_self.
      * rewrite (proj2 (Nat.ltb_lt _ _)) by (destruct data; [done | cbn; lia]). rewrite hash_step by (done || lia).
        rewrite blocks_cons by done. rewrite take_ge, drop_ge by lia. reflexivity.
Qed.

Lemma cam_ghash_update_spec fuel g data : block_ok (cg_H g) -> block_ok (cg_ghash g) -> bytes data -> (nblocks data <= fuel)%nat ->
  cam_ghash_update fuel g data = Some (cg_set_ghash g (be_bytes 16 (GHASH (be_val (cg_H g)) (be_val (cg_ghash g)) (blocks data)))).
Proof.
  intros Hh Hg Hb Hf. unfold cam_ghash_update. destruct (ghash_data_loop _ Hh fuel _ _ Hg Hb Hf) as (g' & d & -> & E). by rewrite E.
Qed.

#[local] Opaque gmul128 camellia_encrypt_block camellia_set_key.

(** A context whose hash is the number [v]. *)
Definition hashed (g : cam_gcm_t) (v : Z) : cam_gcm_t := cg_set_ghash g (be_bytes 16 v).

Section Run.
Variable fuel : nat.
Variable g : cam_gcm_t.
Hypothesis HH : block_ok (cg_H g).
Let h := be_val (cg_H g).

Lemma hashed_update v data : r128 v -> bytes data -> (nblocks data <= fuel)%nat ->
  cam_ghash_update fuel (hashed g v) data = Some (hashed g (GHASH h v (blocks data))).
Proof.
  intros Hv Hb Hf. rewrite cam_ghash_update_spec; [| done | apply be_block | done | done].
  cbn [hashed cg_set_ghash cg_ghash cg_H]. rewrite (be_bytes_val 16 v) by exact Hv. reflexivity.
Qed.

Lemma hashed_pad v len : r128 v -> (1 <= fuel)%nat ->
  cam_ghash_pad fuel (hashed g v) len = Some (hashed g (GHASH h v (if (len mod 16 =? 0)%nat then [] else [replicate 16 0]))).
Proof.
  intros Hv Hf. unfold cam_ghash_pad. pose proof (Nat.mod_upper_bound len 16 ltac:(lia)) as Hm. destruct (Nat.eqb_spec (len mod 16) 0) as [E | E].
  - rewrite E. reflexivity.
  - rewrite Nat.mod_small by lia. rewrite (proj2 (Nat.ltb_lt _ _)) by lia. set (pad := (16 - len mod 16)%nat).
    assert (replicate pad 0 <> []) as Hne by (intros Hn%(f_equal length); rewrite length_replicate in Hn; cbn in Hn; lia).
    assert (drop 16 (replicate pad 0) = []) as Hd by (apply drop_ge; rewrite length_replicate; lia).
    rewrite hashed_update; [| done | apply bytes_replicate; unfold byte_ok; lia | rewrite nblocks_pos, Hd by done; cbn; lia].
    rewrite blocks_cons, Hd, take_ge by (done || (rewrite length_replicate; lia)). rewrite length_replicate, <- replicate_add.
    by replace (pad + (16 - pad))%nat with 16%nat by lia.
Qed.

Lemma hashed_aad v aad : r128 v -> bytes aad -> (nblocks aad <= fuel)%nat -> (1 <= fuel)%nat ->
  cam_ghash_aad fuel (hashed g v) aad = Some (hashed g (GHASH h v (cam_blocks aad))).
Proof.
  intros Hv Hb Hf H1. unfold cam_ghash_aad, cam_blocks. rewrite GHASH_app.
  assert ((if (0 <? length aad)%nat then cam_ghash_update fuel (hashed g v) aad else Some (hashed g v)) = Some (hashed g (GHASH h v (blocks aad)))) as ->.
  { destruct aad as [| x aad]; [reflexivity |]. by apply hashed_update. }
  apply hashed_pad; [apply GHASH_range; [by apply block_r128 | done] | done].
Qed.

Lemma hashed_ct v ct : r128 v -> bytes ct -> (nblocks ct <= fuel)%nat -> (1 <= fuel)%nat ->
  cam_ghash_ct fuel (hashed g v) ct = Some (hashed g (GHASH h v (cam_blocks ct))).
Proof.
  intros Hv Hb Hf H1. unfold cam_ghash_ct, cam_blocks. rewrite GHASH_app, hashed_update by done.
  apply hashed_pad; [apply GHASH_range; [by apply block_r128 | done] | done].
Qed.

Lemma hashed_tag v na nc : r128 v -> (1 <= fuel)%nat ->
  cam_gcm_tag fuel (hashed g v) na nc =
  Some (bxor (be_bytes 16 (GHASH h v [be_bytes 8 (8 * Z.of_nat na) ++ be_bytes 8 (8 * Z.of_nat nc)])) (camellia_encrypt_block (cg_cam g) (cg_J0 g))).
Proof.
  intros Hv Hf. unfold cam_gcm_tag. rewrite !put_be64_bytes.
  assert (forall n, be_bytes 8 (u64 (Z.of_nat n * 8)) = be_bytes 8 (8 * Z.of_nat n)) as E.
  { intros n. apply be_bytes_wrap. change (256 ^ Z.of_nat 8) with 18446744073709551616. unfold u64. by rewrite Z.mod_mod, Z.mul_comm by lia. }
  rewrite !E. set (l := be_bytes 8 (8 * Z.of_nat na) ++ be_bytes 8 (8 * Z.of_nat nc)).
  assert (length l = 16%nat) as Hl by (unfold l; by rewrite length_app, !be_bytes_length).
  assert (bytes l) as Hb by (apply bytes_app; split; apply be_bytes_ok).
  assert (l <> []) as Hne by (intros Hn; by rewrite Hn in Hl). assert (drop 16 l = []) as Hd by (apply drop_ge; lia).
  rewrite hashed_update by (done || (rewrite nblocks_pos, Hd by done; cbn; lia)).
  rewrite blocks_cons, Hd, take_ge, Hl by (done || lia). cbn [Nat.sub replicate]. rewrite app_nil_r. reflexivity.
Qed.

Variable nonce : list Z.
Hypothesis Hn : length nonce = 12%nat.
Hypothesis HJ : cg_J0 g = nonce ++ [0; 0; 0; 1].
Let E := camellia_encrypt_block (cg_cam g).

Lemma cam_ctr_loop : forall fuel' out input i, (nblocks input <= fuel')%nat ->
  exists c, while_fuel fuel' (fun s : list Z * list Z * Z => (0 <? length s.1.2)%nat) (cam_gcm_ctr_body g) (out, input, u32 (Z.of_nat i)) =
    Some (out ++ ctr_mode (fun i => E (gcm_counter nonce i)) i input, [], c).
Proof.
  induction fuel' as [| f IH]; intros out input i Hf.
  - assert (input = []) as -> by (apply nblocks_nil; lia). exists (u32 (Z.of_nat i)). cbn. by rewrite app_nil_r.
  - destruct (decide (input = [])) as [-> | Hne]; [exists (u32 (Z.of_nat i)); cbn; by rewrite app_nil_r |].
    cbn [while_fuel fst snd]. rewrite (proj2 (Nat.ltb_lt _ _)) by (destruct input; [done | cbn; lia]).
    unfold cam_gcm_ctr_body at 2. rewrite HJ, take_app_length', put_be32_bytes by done.
    assert (nonce ++ be_bytes 4 (u32 (Z.of_nat i)) = gcm_counter nonce i) as ->.
    { unfold gcm_counter. f_equal. apply be_bytes_wrap. change (256 ^ Z.of_nat 4) with 4294967296. unfold u32. by rewrite Z.mod_mod by lia. }
    assert ((if (length input <? 16)%nat then length input else 16%nat) = length (take 16 input)) as ->.
    { rewrite length_take. destruct (Nat.ltb_spec (length input) 16); lia. }
    assert (take (length (take 16 input)) input = take 16 input) as -> by (rewrite length_take; destruct (Nat.min_spec 16 (length input)) as [[? ->] | [? ->]]; [done | by rewrite !take_ge by lia]).
    assert (drop (length (take 16 input)) input = drop 16 input) as -> by (rewrite length_take; destruct (Nat.min_spec 16 (length input)) as [[? ->] | [? ->]]; [done | by rewrite !drop_ge by lia]).
    assert (u32 (u32 (Z.of_nat i) + 1) = u32 (Z.of_nat (S i))) as -> by (unfold u32; rewrite Zplus_mod_idemp_l; f_equal; lia).
    destruct (IH (out ++ bxor (take 16 input) (E (gcm_counter nonce i))) (drop 16 input) (S i)) as [c Hc]; [rewrite (nblocks_pos input) in Hf by done; lia |].
    exists c. rewrite (ctr_cons _ i) by done. rewrite app_assoc. exact Hc.
Qed.

Lemma cam_gcm_ctr_spec out input : (nblocks input <= fuel)%nat -> cam_gcm_ctr fuel g out input = Some (splice out 0 (GCM_ctr E nonce input)).
Proof.
  intros Hf. unfold cam_gcm_ctr. rewrite HJ, drop_app_length' by done.
  assert (u32 (opssl_be32 [0; 0; 0; 1] + 1) = u32 (Z.of_nat 2)) as -> by done. by destruct (cam_ctr_loop fuel [] input 2 Hf) as [c ->].
Qed.
End Run.

(** The context of a key and nonce. *)
Section Key.
Variable fuel : nat.
Variables key nonce : list Z.
Hypothesis Hn : length nonce = 12%nat.
Let g0 := cam_gcm_init key nonce.
Let E := camellia_encrypt_block (camellia_set_key key).2.

Lemma init_hashed a c : cg_set_lens g0 a c = hashed (cg_set_lens g0 a c) 0.
Proof. reflexivity. Qed.

Lemma relens v a c a' c' : cg_set_lens (hashed (cg_set_lens g0 a c) v) a' c' = hashed (cg_set_lens g0 a' c') v.
Proof. reflexivity. Qed.

Lemma init_J0 : cg_J0 g0 = nonce ++ [0; 0; 0; 1].
Proof. cbn [g0 cam_gcm_init cg_J0]. by rewrite take_ge by lia. Qed.

Lemma J0_counter : cg_J0 g0 = gcm_counter nonce 1.
Proof. by rewrite init_J0. Qed.

Lemma key_H : block_ok (cg_H g0).
Proof. apply camellia_encrypt_ok. Qed.

Lemma key_h a c : be_val (cg_H (cg_set_lens g0 a c)) = gcm_H E.
Proof. unfold gcm_H, E, g0, cam_gcm_init. cbn [cg_set_lens cg_H]. reflexivity. Qed.

Lemma h_range : r128 (gcm_H E).
Proof. rewrite <- (key_h 0 0). apply block_r128, key_H. Qed.

Lemma hash_range bs : r128 (GHASH (gcm_H E) 0 bs).
Proof. apply GHASH_range; [exact h_range | apply r128_0]. Qed.

(** The hash of associated data and ciphertext gives the tag. *)
Lemma tag_chain aad ct a c na : bytes aad -> bytes ct -> (nblocks ct <= fuel)%nat -> (1 <= fuel)%nat -> na = length aad ->
  match cam_ghash_ct fuel (hashed (cg_set_lens g0 a c) (GHASH (gcm_H E) 0 (cam_blocks aad))) ct with
  | None => None
  | Some g => cam_gcm_tag fuel g na (length ct)
  end = Some (CAM_tag E nonce aad ct).
Proof.
  intros Ha Hc Hf H1 ->.
  pose proof (hashed_ct fuel (cg_set_lens g0 a c) key_H _ ct (hash_range (cam_blocks aad)) Hc Hf H1) as E1.
  rewrite key_h in E1. rewrite E1, <- GHASH_app.
  rewrite (hashed_tag fuel (cg_set_lens g0 a c) key_H _ (length aad) (length ct) (hash_range _) H1).
  rewrite key_h, <- GHASH_app, <- app_assoc. unfold CAM_tag.
  cbn [cg_set_lens cg_cam cg_J0]. rewrite J0_counter. reflexivity.
Qed.
End Key.

Lemma CAM_tag_length key nonce aad ct : length (CAM_tag (camellia_encrypt_block (camellia_set_key key).2) nonce aad ct) = 16%nat.
Proof. unfold CAM_tag. rewrite bxor_length; rewrite be_bytes_length; [done | symmetry; apply camellia_encrypt_ok]. Qed.

Lemma CAM_tag_bytes key nonce aad ct : bytes (CAM_tag (camellia_encrypt_block (camellia_set_key key).2) nonce aad ct).
Proof. apply bxor_bytes; [apply be_bytes_ok | apply camellia_encrypt_ok]. Qed.

Lemma cam_seal_ok fuel out out_len key nonce pt aad : (length key = 16 \/ length key = 32)%nat -> length nonce = 12%nat -> bytes aad -> bytes pt ->
  Z.of_nat (length pt) <= SIZE_MAX - 16 -> (nblocks aad <= fuel)%nat -> (S (nblocks pt) <= fuel)%nat -> (length pt + 16 <= length out)%nat ->
  opssl_camellia_gcm_seal fuel out out_len key nonce pt aad =
    Some (1, splice out 0 (CAM_encrypt (camellia_encrypt_block (camellia_set_key key).2) nonce aad pt), Z.of_nat (length pt) + 16).
Proof.
  intros Hk Hn Ha Hp Hs Hfa Hfp Ho. unfold opssl_camellia_gcm_seal. cbv zeta. set (E := camellia_encrypt_block _).
  change SIZE_MAX with 18446744073709551615 in Hs. rewrite u64_id by lia. rewrite (proj2 (Z.ltb_ge _ _)) by lia.
  assert (negb (length key =? 16)%nat && negb (length key =? 32)%nat = false) as -> by (by destruct Hk as [-> | ->]). cbn [orb].
  rewrite init_hashed, hashed_aad by (done || apply key_H || apply r128_0 || lia). rewrite key_h.
  rewrite (cam_gcm_ctr_spec fuel (hashed _ _) nonce) by (done || (apply init_J0; done) || lia).
  change (camellia_encrypt_block (cg_cam (hashed _ _))) with E. set (ct := GCM_ctr E nonce pt).
  assert (length ct = length pt) as Hct by (apply ctr_length; intros; apply camellia_encrypt_ok).
  assert (bytes ct) as Bct by (apply ctr_bytes; [intros; apply camellia_encrypt_ok | done]).
  assert (take (length pt) (splice out 0 ct) = ct) as Et.
  { rewrite <- Hct. change (length ct) with (0 + length ct)%nat at 1. by rewrite splice_take by lia. }
  rewrite Et, relens. assert (nblocks ct = nblocks pt) as Hnb by (unfold nblocks; by rewrite Hct).
  match goal with |- context [cam_ghash_ct fuel (hashed (cg_set_lens _ ?a ?c) _) _] =>
    pose proof (tag_chain fuel key nonce Hn aad ct a c (length aad) Ha Bct ltac:(lia) ltac:(lia) eq_refl) as T end.
  fold E in T. destruct (cam_ghash_ct _ _ _) as [g' |]; [| discriminate]. rewrite Hct in T. rewrite T.
  unfold CAM_encrypt. fold ct. do 3 f_equal. rewrite <- Hct. apply (splice_splice out 0).
  unfold E. rewrite CAM_tag_length. lia.
Qed.

Lemma cam_open_ok fuel out out_len key nonce c aad : (length key = 16 \/ length key = 32)%nat -> length nonce = 12%nat -> bytes aad -> bytes c ->
  (nblocks aad <= fuel)%nat -> (S (nblocks c) <= fuel)%nat -> (16 <= length c)%nat -> (length c - 16 <= length out)%nat ->
  let E := camellia_encrypt_block (camellia_set_key key).2 in
  let ct := take (length c - 16) c in
  opssl_camellia_gcm_open fuel out out_len key nonce c aad =
    if decide (drop (length c - 16) c = CAM_tag E nonce aad ct)
    then Some (1, splice out 0 (GCM_ctr E nonce ct), Z.of_nat (length ct)) else Some (0, out, out_len).
Proof.
  intros Hk Hn Ha Hc Hfa Hfc H16 Ho E ct. unfold opssl_camellia_gcm_open. cbv zeta.
  rewrite (proj2 (Nat.ltb_ge (length c) 16)) by lia. rewrite (proj2 (Nat.ltb_ge _ _)) by lia.
  assert (negb (length key =? 16)%nat && negb (length key =? 32)%nat = false) as -> by (by destruct Hk as [-> | ->]). cbn [orb]. fold ct.
  assert (length ct = length c - 16)%nat as Hct by (unfold ct; rewrite length_take; lia).
  assert (nblocks ct <= nblocks c)%nat as Hnb by (unfold nblocks; apply Nat.Div0.div_le_mono; lia).
  assert (bytes ct) as Bct by (unfold ct; auto with opssl).
  rewrite init_hashed, hashed_aad by (done || apply key_H || apply r128_0 || lia). rewrite key_h, relens.
  match goal with |- context [cam_ghash_ct fuel (hashed (cg_set_lens _ ?a ?c) _) _] =>
    pose proof (tag_chain fuel key nonce Hn aad ct a c (length aad) Ha Bct ltac:(lia) ltac:(lia) eq_refl) as T end.
  fold E in T |- *. rewrite Hct in T. destruct (cam_ghash_ct _ _ _) as [g' |] eqn:Eg; [| discriminate]. rewrite T.
  rewrite hashed_ct in Eg; [| exact (key_H key nonce) | exact (hash_range key nonce _) | done | lia | lia]. injection Eg as <-.
  rewrite (cam_gcm_ctr_spec fuel (hashed _ _) nonce) by (done || (apply init_J0; done) || lia).
  change (camellia_encrypt_block (cg_cam (hashed _ _))) with E.
  set (tag := CAM_tag E nonce aad ct). set (tg := drop (length c - 16) c).
  pose proof (CAM_tag_length key nonce aad ct : length tag = 16%nat) as Ht. pose proof (CAM_tag_bytes key nonce aad ct : bytes tag) as Hb.
  assert (length tg = 16%nat) as Hlt by (unfold tg; rewrite length_drop; lia).
  pose proof (opssl_ct_eq_iff tag tg 16 Hb ltac:(by apply bytes_drop) ltac:(lia) ltac:(lia)) as Eq.
  rewrite !take_ge in Eq by lia. destruct (decide (tg = tag)) as [Htt | Htt].
  - rewrite bool_decide_eq_true_2 in Eq by done. apply negb_true_iff in Eq. by rewrite Eq, Hct.
  - rewrite bool_decide_eq_false_2 in Eq by congruence. apply negb_false_iff in Eq. by rewrite Eq.
Qed.

(** For keys of 16 or 32 bytes and any message that fits, sealing writes the
    counter-mode ciphertext and [CAM_tag], which are SP 800-38D's when the
    associated data and the message are whole blocks; otherwise it fails leaving
    the output as it was. *)
Theorem camellia_gcm_seal_spec fuel out out_len key nonce pt aad : length nonce = 12%nat -> bytes aad -> bytes pt ->
  Z.of_nat (length pt) <= SIZE_MAX - 16 -> (nblocks aad <= fuel)%nat -> (S (nblocks pt) <= fuel)%nat ->
  let E := camellia_encrypt_block (camellia_set_key key).2 in
  opssl_camellia_gcm_seal fuel out out_len key nonce pt aad =
    (if decide ((length key = 16 \/ length key = 32) /\ length pt + 16 <= length out)%nat
     then Some (1, splice out 0 (CAM_encrypt E nonce aad pt), Z.of_nat (length pt) + 16)
     else Some (0, out, out_len)) /\
  ((length aad mod 16 = 0)%nat -> (length pt mod 16 = 0)%nat -> CAM_encrypt E nonce aad pt = GCM_encrypt E nonce aad pt).
Proof.
  intros Hn Ha Hp Hs Hfa Hfp E. split; [| apply cam_encrypt_whole; intros; apply camellia_encrypt_ok].
  case_decide as Hd; [destruct Hd; by apply cam_seal_ok |]. unfold opssl_camellia_gcm_seal. cbv zeta. change SIZE_MAX with 18446744073709551615 in Hs.
  rewrite u64_id by lia. destruct (Z.ltb_spec (Z.of_nat (length out)) (Z.of_nat (length pt) + 16)); [done |].
  destruct (Nat.eqb_spec (length key) 16); [lia |]. by destruct (Nat.eqb_spec (length key) 32); [lia |].
Qed.

(** RFC 6367's cipher on whole blocks, and what a partial block costs. *)
Lemma camellia_gcm_seal_spec_witness :
  opssl_camellia_gcm_seal 3 (replicate 48 0) 0 (take 16 rfc3713_key) (replicate 12 1) (replicate 32 5) [] =
    Some (1, GCM_encrypt (camellia_encrypt_block (camellia_set_key (take 16 rfc3713_key)).2) (replicate 12 1) [] (replicate 32 5), 48).
Proof.
  destruct (camellia_gcm_seal_spec 3 (replicate 48 0) 0 (take 16 rfc3713_key) (replicate 12 1) (replicate 32 5) [] eq_refl
    ltac:(solve_bytes) ltac:(solve_bytes) ltac:(vm_compute; discriminate) ltac:(vm_compute; lia) ltac:(vm_compute; lia)) as [H1 H2].
  rewrite H2 in H1 by reflexivity. rewrite decide_True in H1 by (vm_compute; lia). rewrite H1, splice_full; [reflexivity |]. vm_compute. reflexivity.
Defined.

Example camellia_gcm_partial_block :
  CAM_tag (camellia_encrypt_block (camellia_set_key (take 16 rfc3713_key)).2) (replicate 12 1) [] [7] <>
  GCM_tag (camellia_encrypt_block (camellia_set_key (take 16 rfc3713_key)).2) (replicate 12 1) [] [7].
Proof. vm_compute. discriminate. Qed.
