(* ===== verification/Aead.v ===== *)
(** The AEAD context of src/crypto/aes_gcm.c, from [struct opssl_aead_ctx] on: one
    interface over nine algorithms.

    The abstract interface is an [aead_scheme], what a keyed algorithm computes,
    with the laws [AeadLaws] its clients rely on; [seal_spec] and [open_spec]
    are the behaviour promised for any scheme.  [scheme_of] is the scheme of a
    context, and the refinement theorem says that the dispatching code behaves
    as promised for it.

    A null pointer is [None].  A call gives its return value, the output buffer
    and the output length; [None] is undefined behaviour, or a loop that has not
    ended within [fuel] iterations. *)
From S2P Require Import Prelude Platform Cpu AesSpec AesNi Aes ChaCha20 Poly1305 ChaChaPoly BlockModes AesCcm GcmSpec AesNiGcm AesNiGcmOk AesGcm Camellia CamelliaGcm.
#[local] Open Scope Z_scope.

(** [opssl_aead_algo_t] *)
Inductive opssl_aead_algo_t :=
  OPSSL_AEAD_AES_128_GCM | OPSSL_AEAD_AES_256_GCM | OPSSL_AEAD_CHACHA20_POLY1305
| OPSSL_AEAD_AES_128_CCM | OPSSL_AEAD_AES_256_CCM | OPSSL_AEAD_AES_128_CCM_8 | OPSSL_AEAD_AES_256_CCM_8
| OPSSL_AEAD_CAMELLIA_128_GCM | OPSSL_AEAD_CAMELLIA_256_GCM.

#[export] Instance opssl_aead_algo_t_eq_dec : EqDecision opssl_aead_algo_t.
Proof. solve_decision. Defined.

Record opssl_aead_ctx := mk_aead { ac_algo : opssl_aead_algo_t; ac_key : list Z; ac_key_len : nat }.

Definition opssl_aead_new (calloc_ok : bool) (algo : opssl_aead_algo_t) : option opssl_aead_ctx :=
  if calloc_ok then Some (mk_aead algo (replicate 32 0) 0) else None.

Definition opssl_aead_set_key (ctx : option opssl_aead_ctx) (key : option (list Z)) : Z * option opssl_aead_ctx :=
  match ctx, key with
  | Some c, Some key =>
    if negb (length key =? 16)%nat && negb (length key =? 32)%nat then (0, ctx) else
    (1, Some (mk_aead (ac_algo c) (splice (ac_key c) 0 key) (length key)))
  | _, _ => (0, ctx)
  end.

Definition opssl_aead_key_len (algo : opssl_aead_algo_t) : Z :=
  match algo with
  | OPSSL_AEAD_AES_128_GCM | OPSSL_AEAD_AES_128_CCM | OPSSL_AEAD_AES_128_CCM_8 | OPSSL_AEAD_CAMELLIA_128_GCM => 16
  | _ => 32
  end.

Definition opssl_aead_nonce_len (algo : opssl_aead_algo_t) : Z := 12.

Definition opssl_aead_tag_len (algo : opssl_aead_algo_t) : Z :=
  match algo with OPSSL_AEAD_AES_128_CCM_8 | OPSSL_AEAD_AES_256_CCM_8 => 8 | _ => 16 end.

Section Dispatch.
Context `{Cpu} `{Avx2} `{AesInstr} `{Clmul}.
Variable fuel : nat.
Variable junk : poly1305_state_t.
Variable calloc_ok : bool.

(** The key argument of the ciphers that take a key length. *)
Definition ctx_key (ctx : opssl_aead_ctx) : list Z := take (ac_key_len ctx) (ac_key ctx).

Definition opssl_aead_seal (ctx : option opssl_aead_ctx) (out : option (list Z)) (out_len : option Z) (nonce plaintext aad : list Z) :
    option (Z * option (list Z) * option Z) :=
  match ctx, out, out_len with
  | Some ctx, Some o, Some ol =>
    if negb (length nonce =? 12)%nat then Some (0, out, out_len) else
    (fun r : Z * list Z * Z => (r.1.1, Some r.1.2, Some r.2)) <$>
    match ac_algo ctx with
    | OPSSL_AEAD_CHACHA20_POLY1305 => opssl_chacha20_poly1305_seal fuel junk o ol (ac_key ctx) nonce plaintext aad
    | OPSSL_AEAD_AES_128_CCM | OPSSL_AEAD_AES_256_CCM => opssl_aes_ccm_seal fuel calloc_ok o ol (ctx_key ctx) nonce 16 plaintext aad
    | OPSSL_AEAD_AES_128_CCM_8 | OPSSL_AEAD_AES_256_CCM_8 => opssl_aes_ccm_seal fuel calloc_ok o ol (ctx_key ctx) nonce 8 plaintext aad
    | OPSSL_AEAD_CAMELLIA_128_GCM | OPSSL_AEAD_CAMELLIA_256_GCM => opssl_camellia_gcm_seal fuel o ol (ctx_key ctx) nonce plaintext aad
    | _ => opssl_aes_gcm_seal fuel calloc_ok o ol (ctx_key ctx) nonce plaintext aad
    end
  | _, _, _ => Some (0, out, out_len)
  end.

Definition opssl_aead_open (ctx : option opssl_aead_ctx) (out : option (list Z)) (out_len : option Z) (nonce ciphertext aad : list Z) :
    option (Z * option (list Z) * option Z) :=
  match ctx, out, out_len with
  | Some ctx, Some o, Some ol =>
    if negb (length nonce =? 12)%nat then Some (0, out, out_len) else
    (fun r : Z * list Z * Z => (r.1.1, Some r.1.2, Some r.2)) <$>
    match ac_algo ctx with
    | OPSSL_AEAD_CHACHA20_POLY1305 => opssl_chacha20_poly1305_open fuel junk o ol (ac_key ctx) nonce ciphertext aad
    | OPSSL_AEAD_AES_128_CCM | OPSSL_AEAD_AES_256_CCM => opssl_aes_ccm_open fuel calloc_ok o ol (ctx_key ctx) nonce 16 ciphertext aad
    | OPSSL_AEAD_AES_128_CCM_8 | OPSSL_AEAD_AES_256_CCM_8 => opssl_aes_ccm_open fuel calloc_ok o ol (ctx_key ctx) nonce 8 ciphertext aad
    | OPSSL_AEAD_CAMELLIA_128_GCM | OPSSL_AEAD_CAMELLIA_256_GCM => opssl_camellia_gcm_open fuel o ol (ctx_key ctx) nonce ciphertext aad
    | _ => opssl_aes_gcm_open fuel calloc_ok o ol (ctx_key ctx) nonce ciphertext aad
    end
  | _, _, _ => Some (0, out, out_len)
  end.
End Dispatch.

(** What [opssl_aead_free] leaves in the memory it returns. *)
Definition opssl_aead_free (ctx : option opssl_aead_ctx) : option opssl_aead_ctx :=
  (fun _ => mk_aead OPSSL_AEAD_AES_128_GCM (replicate 32 0) 0) <$> ctx.

(* ------------------------------------------------------------------ *)
(** * The interface *)

(** A keyed scheme: a stream cipher that is its own inverse, and a tag on the
    associated data and the plaintext. *)
Record aead_scheme := mk_scheme {
  sc_key_ok : bool;             (* the key has an accepted length *)
  sc_max_pt : Z; sc_max_aad : Z;
  sc_tag_len : nat;
  sc_wipe : bool;               (* a failed opening zeroes the output *)
  sc_ctr : list Z -> list Z -> list Z;
  sc_tag : list Z -> list Z -> list Z -> list Z
}.

Definition nonce_ok (n : list Z) : Prop := length n = 12%nat /\ bytes n.

Class AeadLaws (S : aead_scheme) : Prop := {
  sc_ctr_length : forall n m, nonce_ok n -> length (sc_ctr S n m) = length m;
  sc_ctr_involutive : forall n m, nonce_ok n -> sc_ctr S n (sc_ctr S n m) = m;
  sc_ctr_bytes : forall n m, nonce_ok n -> bytes m -> bytes (sc_ctr S n m);
  sc_tag_length : forall n a m, nonce_ok n -> length (sc_tag S n a m) = sc_tag_len S;
  sc_tag_bytes : forall n a m, nonce_ok n -> bytes (sc_tag S n a m)
}.

Definition sc_encrypt (S : aead_scheme) (n a m : list Z) : list Z := sc_ctr S n m ++ sc_tag S n a m.

(** The sizes the scheme accepts. *)
Definition sc_fits (S : aead_scheme) (pt_len aad_len : nat) : bool :=
  sc_key_ok S && (Z.of_nat pt_len <=? sc_max_pt S) && (Z.of_nat aad_len <=? sc_max_aad S).

Definition seal_spec (S : aead_scheme) (out : list Z) (out_len : Z) (n pt aad : list Z) : Z * list Z * Z :=
  if sc_fits S (length pt) (length aad) && (length pt + sc_tag_len S <=? length out)%nat
  then (1, splice out 0 (sc_encrypt S n aad pt), Z.of_nat (length pt + sc_tag_len S))
  else (0, out, out_len).

Definition open_spec (S : aead_scheme) (out : list Z) (out_len : Z) (n c aad : list Z) : Z * list Z * Z :=
  let l := (length c - sc_tag_len S)%nat in
  if sc_fits S l (length aad) && (sc_tag_len S <=? length c)%nat && (l <=? length out)%nat then
    let pt := sc_ctr S n (take l c) in
    if decide (drop l c = sc_tag S n aad pt) then (1, splice out 0 pt, Z.of_nat l)
    else (0, if sc_wipe S then splice out 0 (replicate l 0) else out, out_len)
  else (0, out, out_len).

Section Laws.
Context (S : aead_scheme) {L : AeadLaws S}.

Lemma encrypt_length n a m : nonce_ok n -> length (sc_encrypt S n a m) = (length m + sc_tag_len S)%nat.
Proof. intros Hn. unfold sc_encrypt. by rewrite length_app, sc_ctr_length, sc_tag_length. Qed.

Lemma encrypt_bytes n a m : nonce_ok n -> bytes m -> bytes (sc_encrypt S n a m).
Proof. intros Hn Hm. apply bytes_app. split; [by apply sc_ctr_bytes | by apply sc_tag_bytes]. Qed.

(** Opening what the scheme encrypts. *)
Lemma open_encrypt out ol n m a : nonce_ok n -> sc_fits S (length m) (length a) = true -> (length m <= length out)%nat ->
  open_spec S out ol n (sc_encrypt S n a m) a = (1, splice out 0 m, Z.of_nat (length m)).
Proof.
  intros Hn Hf Ho. unfold open_spec. cbv zeta. rewrite encrypt_length by done.
  replace (length m + sc_tag_len S - sc_tag_len S)%nat with (length m) by lia. rewrite Hf. rewrite !(proj2 (Nat.leb_le _ _)) by lia. cbn [andb].
  unfold sc_encrypt. rewrite <- (sc_ctr_length n m) by done. rewrite take_app_length, drop_app_length, sc_ctr_involutive by done.
  by rewrite decide_True by done.
Qed.

(** Nothing else opens. *)
Lemma open_only out ol n c a out' l : nonce_ok n -> open_spec S out ol n c a = (1, out', l) ->
  exists m, c = sc_encrypt S n a m /\ out' = splice out 0 m /\ l = Z.of_nat (length m) /\ (length m <= length out)%nat.
Proof.
  intros Hn. unfold open_spec. cbv zeta. set (k := (length c - sc_tag_len S)%nat).
  destruct (_ && _) eqn:E; [| done]. case_decide as Hd; [| done]. intros [= <- <-].
  rewrite !andb_true_iff, !Nat.leb_le in E. destruct E as [[_ Hc] Ho].
  exists (sc_ctr S n (take k c)). rewrite sc_ctr_length, length_take, Nat.min_l by (done || lia).
  split; [| done]. unfold sc_encrypt. rewrite sc_ctr_involutive, <- Hd by done. by rewrite take_drop.
Qed.
End Laws.

(* ------------------------------------------------------------------ *)
(** * The schemes of the nine algorithms *)

Definition key_len_ok (key : list Z) : bool := (length key =? 16)%nat || (length key =? 32)%nat.

Definition chacha_scheme (key : list Z) : aead_scheme :=
  mk_scheme true (SIZE_MAX - 16) SIZE_MAX 16 false (fun n m => ChaCha20 key n 1 m) (fun n a m => aead_tag key n a (ChaCha20 key n 1 m)).

Definition ccm_scheme (key : list Z) (t : nat) : aead_scheme :=
  mk_scheme (key_len_ok key) 0xFFFFFF 0xFEFF t true (fun n m => CCM_ctr (sw_cipher key) n m) (fun n a m => CCM_tag (sw_cipher key) n a m t).

Definition gcm_scheme (key : list Z) : aead_scheme :=
  mk_scheme (key_len_ok key) (SIZE_MAX - 16) SIZE_MAX 16 false
    (fun n m => if key_len_ok key then GCM_ctr (AES key) n m else m)
    (fun n a m => if key_len_ok key then GCM_tag (AES key) n a (GCM_ctr (AES key) n m) else replicate 16 0).

Definition camellia_scheme (key : list Z) : aead_scheme :=
  let E := camellia_encrypt_block (camellia_set_key key).2 in
  mk_scheme (key_len_ok key) (SIZE_MAX - 16) SIZE_MAX 16 false (fun n m => GCM_ctr E n m) (fun n a m => CAM_tag E n a (GCM_ctr E n m)).

Definition scheme_of (ctx : opssl_aead_ctx) : aead_scheme :=
  match ac_algo ctx with
  | OPSSL_AEAD_CHACHA20_POLY1305 => chacha_scheme (ac_key ctx)
  | OPSSL_AEAD_AES_128_CCM | OPSSL_AEAD_AES_256_CCM => ccm_scheme (ctx_key ctx) 16
  | OPSSL_AEAD_AES_128_CCM_8 | OPSSL_AEAD_AES_256_CCM_8 => ccm_scheme (ctx_key ctx) 8
  | OPSSL_AEAD_CAMELLIA_128_GCM | OPSSL_AEAD_CAMELLIA_256_GCM => camellia_scheme (ctx_key ctx)
  | _ => gcm_scheme (ctx_key ctx)
  end.

Lemma key_len_spec key : key_len_ok key = true <-> (length key = 16 \/ length key = 32)%nat.
Proof. unfold key_len_ok. by rewrite orb_true_iff, !Nat.eqb_eq. Qed.

#[export] Instance chacha_laws key : AeadLaws (chacha_scheme key).
Proof.
  split; cbn [chacha_scheme sc_ctr sc_tag sc_tag_len]; intros.
  - apply ChaCha20_length.
  - apply ChaCha20_involutive.
  - by apply ChaCha20_bytes.
  - apply aead_tag_length.
  - apply aead_tag_bytes.
Qed.

#[export] Instance ccm_laws key t : (t <= 16)%nat -> AeadLaws (ccm_scheme key t).
Proof.
  intros Ht. split; cbn [ccm_scheme sc_ctr sc_tag sc_tag_len]; intros; unfold CCM_ctr.
  - apply ctr_length. intros. apply sw_cipher_length.
  - apply ctr_involutive. intros. apply sw_cipher_length.
  - apply ctr_bytes; [intros; apply sw_cipher_bytes | done].
  - apply CCM_tag_length; [apply sw_cipher_length | apply sw_cipher_bytes | done].
  - apply bytes_take, bxor_bytes; [apply CCM_mac_length; [apply sw_cipher_length | apply sw_cipher_bytes] | apply sw_cipher_bytes].
Qed.

#[export] Instance camellia_laws key : AeadLaws (camellia_scheme key).
Proof.
  split; cbn [camellia_scheme sc_ctr sc_tag sc_tag_len]; intros; unfold GCM_ctr.
  - apply ctr_length. intros. apply camellia_encrypt_ok.
  - apply ctr_involutive. intros. apply camellia_encrypt_ok.
  - apply ctr_bytes; [intros; apply camellia_encrypt_ok | done].
  - apply CAM_tag_length.
  - apply CAM_tag_bytes.
Qed.

#[export] Instance gcm_laws key : bytes key -> AeadLaws (gcm_scheme key).
Proof.
  intros Hb. split; cbn [gcm_scheme sc_ctr sc_tag sc_tag_len]; intros; destruct (key_len_ok key) eqn:Hk; try done;
    try (apply key_len_spec in Hk; pose proof (fun x => AES_ok key x Hk Hb) as HA); unfold GCM_ctr.
  - apply ctr_length. intros. apply HA.
  - apply ctr_involutive. intros. apply HA.
  - apply ctr_bytes; [intros; apply HA | done].
  - unfold GCM_tag. rewrite bxor_length; rewrite be_bytes_length; [done | symmetry; apply HA].
  - apply bxor_bytes; [apply be_bytes_ok | apply HA].
  - solve_bytes.
Qed.

Definition ctx_ok (ctx : opssl_aead_ctx) : Prop := length (ac_key ctx) = 32%nat /\ bytes (ac_key ctx).

Lemma ctx_key_bytes ctx : ctx_ok ctx -> bytes (ctx_key ctx).
Proof. intros [_ H]. by apply bytes_take. Qed.

Lemma scheme_laws ctx : ctx_ok ctx -> AeadLaws (scheme_of ctx).
Proof.
  intros Hc. unfold scheme_of. destruct (ac_algo ctx); try apply _; try (apply gcm_laws; by apply ctx_key_bytes); apply ccm_laws; lia.
Qed.

Lemma tag_len_le ctx : (sc_tag_len (scheme_of ctx) <= 16)%nat.
Proof. unfold scheme_of. destruct (ac_algo ctx); cbn; lia. Qed.

Lemma nblocks_le (l : list Z) : (BlockModes.nblocks l <= length l)%nat.
Proof.
  unfold BlockModes.nblocks. destruct (length l) as [| k]; [done |]. apply Nat.Div0.div_le_upper_bound. lia.
Qed.

Lemma decide_fits {A} (b : bool) (P : Prop) `{Decision P} (x y : A) : (b = true <-> P) -> (if decide P then x else y) = if b then x else y.
Proof. intros Hb. destruct b; [by rewrite decide_True by (by apply Hb) | rewrite decide_False; [done |]]. intros HP. by apply Hb in HP. Qed.

Lemma key_len_negb key : negb (length key =? 16)%nat && negb (length key =? 32)%nat = negb (key_len_ok key).
Proof. unfold key_len_ok. by destruct (length key =? 16)%nat, (length key =? 32)%nat. Qed.

Lemma nblocks_16 (l : list Z) n : (length l + 16 <= n)%nat -> (S (BlockModes.nblocks l) <= n)%nat.
Proof. intros H. pose proof (nblocks_le l). lia. Qed.

Section Refine.
Context {C : Cpu} {X : Avx2} {XS : Avx2Spec X} {I : AesInstr} {IS : AesInstrSpec I} {J : Clmul} {JS : ClmulSpec J}.
Context (fuel : nat) (calloc_ok : bool).

(** The code paths of the AES modes that are defined: GCM needs both instruction
    sets, CCM must not take the AES-NI path. *)
Definition aead_usable (algo : opssl_aead_algo_t) : Prop :=
  match algo with
  | OPSSL_AEAD_AES_128_GCM | OPSSL_AEAD_AES_256_GCM => opssl_has_aesni && opssl_has_pclmul = true
  | OPSSL_AEAD_AES_128_CCM | OPSSL_AEAD_AES_256_CCM | OPSSL_AEAD_AES_128_CCM_8 | OPSSL_AEAD_AES_256_CCM_8 => opssl_has_aesni && calloc_ok = false
  | _ => True
  end.

Context (nonce aad : list Z) (Hn : nonce_ok nonce) (Ha : bytes aad) (Hsa : size_ok aad) (Hfa : (BlockModes.nblocks aad <= fuel)%nat).

Lemma chacha_seal junk key out ol pt : length (pbuf junk) = 16%nat -> bytes key -> bytes pt -> size_ok pt -> (length pt + 32 <= fuel)%nat ->
  opssl_chacha20_poly1305_seal fuel junk out ol key nonce pt aad = Some (seal_spec (chacha_scheme key) out ol nonce pt aad).
Proof.
  intros Hj Hk Hp Hs Hf. destruct Hn as [Hl Hb]. unfold size_ok, SIZE_MAX in Hs, Hsa. unfold seal_spec, sc_fits.
  cbn [chacha_scheme sc_key_ok sc_max_pt sc_max_aad sc_tag_len]. destruct (Z.leb_spec (Z.of_nat (length pt)) (SIZE_MAX - 16)) as [H1 | H1].
  - rewrite seal_ok by (done || lia). rewrite (proj2 (Z.leb_le _ _)) by (unfold SIZE_MAX; lia). cbn [andb].
    destruct (Nat.ltb_spec (length out) (length pt + 16)), (Nat.leb_spec (length pt + 16) (length out)); try lia; [done |].
    do 3 f_equal. lia.
  - unfold opssl_chacha20_poly1305_seal. by rewrite (proj2 (Z.ltb_lt _ _)) by lia.
Qed.

Lemma chacha_open junk key out ol c : length (pbuf junk) = 16%nat -> bytes key -> bytes c -> size_ok c -> (length c + 32 <= fuel)%nat ->
  opssl_chacha20_poly1305_open fuel junk out ol key nonce c aad = Some (open_spec (chacha_scheme key) out ol nonce c aad).
Proof.
  intros Hj Hk Hp Hs Hf. destruct Hn as [Hl Hb]. rewrite open_ok by (done || lia). unfold size_ok, SIZE_MAX in Hs, Hsa. unfold open_spec, sc_fits.
  cbn [chacha_scheme sc_key_ok sc_max_pt sc_max_aad sc_tag_len sc_wipe sc_ctr sc_tag]. cbv zeta.
  rewrite !(proj2 (Z.leb_le _ _)) by (unfold SIZE_MAX; lia). cbn [andb].
  rewrite (decide_fits ((16 <=? length c) && (length c - 16 <=? length out))%nat) by (rewrite andb_true_iff, !Nat.leb_le; lia).
  destruct (Nat.leb_spec 16 (length c)); cbn [andb]; [| done]. destruct (_ <=? _)%nat; [| done]. rewrite ChaCha20_involutive.
  case_decide; [| done]. do 2 f_equal. lia.
Qed.

Lemma ccm_seal key t out ol pt : opssl_has_aesni && calloc_ok = false -> (t = 8 \/ t = 16)%nat -> size_ok pt -> (length pt <= fuel)%nat ->
  opssl_aes_ccm_seal fuel calloc_ok out ol key nonce t pt aad = Some (seal_spec (ccm_scheme key t) out ol nonce pt aad).
Proof.
  intros Hhw Ht Hs Hf. destruct Hn as [Hl Hb]. pose proof (nblocks_le pt). rewrite ccm_seal_ok by (done || lia).
  unfold seal_spec, sc_fits. cbn [ccm_scheme sc_key_ok sc_max_pt sc_max_aad sc_tag_len].
  rewrite (decide_fits (key_len_ok key && (Z.of_nat (length pt) <=? 16777215) && (Z.of_nat (length aad) <=? 65279) && (length pt + t <=? length out)%nat)).
  - case_match; [| done]. do 2 f_equal. lia.
  - unfold ccm_args_ok. rewrite !andb_true_iff, !Z.leb_le, Nat.leb_le, key_len_spec. lia.
Qed.

Lemma ccm_open key t out ol c : opssl_has_aesni && calloc_ok = false -> (t = 8 \/ t = 16)%nat -> bytes c -> (length c <= fuel)%nat ->
  opssl_aes_ccm_open fuel calloc_ok out ol key nonce t c aad = Some (open_spec (ccm_scheme key t) out ol nonce c aad).
Proof.
  intros Hhw Ht Hc Hf. destruct Hn as [Hl Hb]. pose proof (nblocks_le c). rewrite ccm_open_ok by (done || lia).
  unfold open_spec, sc_fits. cbn [ccm_scheme sc_key_ok sc_max_pt sc_max_aad sc_tag_len sc_wipe sc_ctr sc_tag]. cbv zeta.
  rewrite (decide_fits (key_len_ok key && (Z.of_nat (length c - t) <=? 16777215) && (Z.of_nat (length aad) <=? 65279) && (t <=? length c)%nat && (length c - t <=? length out)%nat)).
  - case_match; [| done]. assert (length (CCM_ctr (sw_cipher key) nonce (take (length c - t) c)) = length c - t)%nat as ->.
    { unfold CCM_ctr. rewrite ctr_length by (intros; apply sw_cipher_length). rewrite length_take. lia. }
    by case_decide.
  - unfold ccm_args_ok. rewrite !andb_true_iff, !Z.leb_le, !Nat.leb_le, key_len_spec. lia.
Qed.
Lemma camellia_seal key out ol pt : bytes pt -> Z.of_nat (length pt) <= SIZE_MAX - 16 -> (length pt + 16 <= fuel)%nat ->
  opssl_camellia_gcm_seal fuel out ol key nonce pt aad = Some (seal_spec (camellia_scheme key) out ol nonce pt aad).
Proof.
  intros Hp Hs Hf. destruct Hn as [Hl Hb]. unfold size_ok in Hsa. unfold seal_spec, sc_fits. cbn [camellia_scheme sc_key_ok sc_max_pt sc_max_aad sc_tag_len].
  rewrite !(proj2 (Z.leb_le _ _)), !andb_true_r by (unfold SIZE_MAX in *; lia).
  destruct (key_len_ok key) eqn:Hk; cbn [andb].
  - destruct (Nat.leb_spec (length pt + 16) (length out)) as [Ho | Ho].
    + rewrite cam_seal_ok by (done || (by apply key_len_spec) || (by apply nblocks_16)). do 2 f_equal. lia.
    + unfold opssl_camellia_gcm_seal. cbv zeta. change SIZE_MAX with 18446744073709551615 in Hs. rewrite u64_id by lia.
      by rewrite (proj2 (Z.ltb_lt _ _)) by lia.
  - unfold opssl_camellia_gcm_seal. cbv zeta. by rewrite key_len_negb, Hk, orb_true_r.
Qed.

Lemma camellia_open key out ol c : bytes c -> size_ok c -> (length c + 16 <= fuel)%nat ->
  opssl_camellia_gcm_open fuel out ol key nonce c aad = Some (open_spec (camellia_scheme key) out ol nonce c aad).
Proof.
  intros Hc Hs Hf. destruct Hn as [Hl Hb]. unfold size_ok, SIZE_MAX in Hs, Hsa. unfold open_spec, sc_fits.
  cbn [camellia_scheme sc_key_ok sc_max_pt sc_max_aad sc_tag_len sc_wipe sc_ctr sc_tag]. cbv zeta.
  rewrite !(proj2 (Z.leb_le _ _)), !andb_true_r by (unfold SIZE_MAX; lia).
  destruct (key_len_ok key) eqn:Hk; cbn [andb].
  - destruct (Nat.leb_spec 16 (length c)) as [H16 | H16]; cbn [andb].
    + destruct (Nat.leb_spec (length c - 16) (length out)) as [Ho | Ho].
      * rewrite cam_open_ok by (done || (by apply key_len_spec) || (by apply nblocks_16)). cbv zeta. unfold GCM_ctr.
        rewrite ctr_involutive by (intros; apply camellia_encrypt_ok). rewrite length_take, Nat.min_l by lia. by case_decide.
      * unfold opssl_camellia_gcm_open. cbv zeta. rewrite (proj2 (Nat.ltb_ge (length c) 16)) by lia. by rewrite (proj2 (Nat.ltb_lt _ _)) by lia.
    + unfold opssl_camellia_gcm_open. by rewrite (proj2 (Nat.ltb_lt (length c) 16)) by lia.
  - unfold opssl_camellia_gcm_open. cbv zeta. rewrite key_len_negb, Hk, orb_true_r. by destruct (_ <? _)%nat.
Qed.

Lemma gcm_seal key out ol pt : opssl_has_aesni && opssl_has_pclmul = true -> bytes key -> bytes out -> bytes pt ->
  Z.of_nat (length pt) <= SIZE_MAX - 16 -> (length pt <= fuel)%nat ->
  opssl_aes_gcm_seal fuel calloc_ok out ol key nonce pt aad = Some (seal_spec (gcm_scheme key) out ol nonce pt aad).
Proof.
  intros Hhw Hkb Hob Hp Hs Hf. destruct Hn as [Hl Hb]. unfold size_ok in Hsa. unfold opssl_aes_gcm_seal. cbv zeta. rewrite Hhw.
  unfold seal_spec, sc_fits. cbn [gcm_scheme sc_key_ok sc_max_pt sc_max_aad sc_tag_len].
  rewrite !(proj2 (Z.leb_le _ _)), !andb_true_r by (unfold SIZE_MAX in *; lia). rewrite (proj2 (Z.ltb_ge (SIZE_MAX - 16) _)) by lia. rewrite key_len_negb.
  destruct (Nat.leb_spec (length pt + 16) (length out)) as [Ho | Ho].
  - rewrite (proj2 (Z.ltb_ge _ _)), andb_true_r by lia. destruct (key_len_ok key) eqn:Hk; cbn [negb]; [| done].
    rewrite ni_seal_ok by (done || by apply key_len_spec). rewrite (proj2 (Nat.ltb_ge _ _)) by lia.
    unfold sc_encrypt. cbn [gcm_scheme sc_ctr sc_tag]. rewrite Hk. do 2 f_equal. lia.
  - rewrite (proj2 (Z.ltb_lt _ _)), andb_false_r by lia. done.
Qed.

Lemma gcm_open key out ol c : opssl_has_aesni && opssl_has_pclmul = true -> bytes key -> bytes c -> size_ok c -> (length c <= fuel)%nat ->
  opssl_aes_gcm_open fuel calloc_ok out ol key nonce c aad = Some (open_spec (gcm_scheme key) out ol nonce c aad).
Proof.
  intros Hhw Hkb Hc Hs Hf. destruct Hn as [Hl Hb]. unfold size_ok, SIZE_MAX in Hs, Hsa. unfold opssl_aes_gcm_open. cbv zeta. rewrite Hhw, key_len_negb.
  unfold open_spec, sc_fits. cbn [gcm_scheme sc_key_ok sc_max_pt sc_max_aad sc_tag_len sc_wipe sc_ctr sc_tag]. cbv zeta.
  rewrite !(proj2 (Z.leb_le _ _)), !andb_true_r by (unfold SIZE_MAX; lia).
  destruct (Nat.ltb_spec (length c) 16); [rewrite (proj2 (Nat.leb_gt _ _)), andb_false_r by lia; done |].
  destruct (Nat.ltb_spec (length out) (length c - 16)); [rewrite (proj2 (Nat.leb_gt (_ - _) _)), andb_false_r by lia; done |].
  rewrite !(proj2 (Nat.leb_le _ _)), !andb_true_r by lia. destruct (key_len_ok key) eqn:Hk; cbn [negb]; [| done].
  pose proof (proj1 (key_len_spec key) Hk) as Hk'. rewrite ni_open_ok by done. rewrite decide_True by lia. cbv zeta.
  unfold GCM_ctr. rewrite ctr_involutive by (intros; by apply AES_ok). case_decide; [| done]. do 2 f_equal. lia.
Qed.
End Refine.

(** The dispatching calls on a context, buffer and length variable that exist, with
    a nonce of twelve bytes. *)
Definition ret_of (r : Z * list Z * Z) : Z * option (list Z) * option Z := (r.1.1, Some r.1.2, Some r.2).

(** The sizes and the code paths of a call. *)
Record call_ok {C : Cpu} {I : AesInstr} (fuel : nat) (junk : poly1305_state_t) (calloc_ok : bool) (ctx : opssl_aead_ctx) (aad msg : list Z) : Prop := {
  co_junk : length (pbuf junk) = 16%nat;
  co_ctx : ctx_ok ctx;
  co_usable : aead_usable calloc_ok (ac_algo ctx);
  co_aad : bytes aad;
  co_msg : bytes msg;
  co_aad_size : size_ok aad;
  co_msg_size : Z.of_nat (length msg) <= SIZE_MAX - 16;
  co_fuel : (length aad <= fuel)%nat /\ (length msg + 32 <= fuel)%nat
}.

Section Calls.
Context {C : Cpu} {X : Avx2} {XS : Avx2Spec X} {I : AesInstr} {IS : AesInstrSpec I} {J : Clmul} {JS : ClmulSpec J}.
Context (fuel : nat) (junk : poly1305_state_t) (calloc_ok : bool) (ctx : opssl_aead_ctx) (nonce aad msg out : list Z) (ol : Z).
Context (Hok : call_ok fuel junk calloc_ok ctx aad msg) (Hn : nonce_ok nonce) (Ho : bytes out).

Ltac each_cipher seal_chacha seal_ccm seal_camellia seal_gcm :=
  match goal with |- (_ <$> ?x) = Some (ret_of ?s) => assert (x = Some s) as ->; [| reflexivity] end;
  unfold scheme_of; destruct (ac_algo ctx); cbn [aead_usable] in *;
  [apply seal_gcm | apply seal_gcm | apply seal_chacha | apply seal_ccm | apply seal_ccm | apply seal_ccm | apply seal_ccm | apply seal_camellia | apply seal_camellia];
  (assumption || lia).

Lemma dispatch_seal : opssl_aead_seal fuel junk calloc_ok (Some ctx) (Some out) (Some ol) nonce msg aad = Some (ret_of (seal_spec (scheme_of ctx) out ol nonce msg aad)).
Proof.
  destruct Hok as [Hj Hc Hu Ha Hm Hsa Hs [Hfa Hf]]. pose proof (ctx_key_bytes ctx Hc) as Hkb. pose proof Hc as [_ Hkey]. pose proof (nblocks_le aad) as Hna.
  assert (size_ok msg) as Hsm by (unfold size_ok, SIZE_MAX in *; lia). pose proof Hn as [Hl _].
  unfold opssl_aead_seal. rewrite Hl. cbn [Nat.eqb negb]. each_cipher chacha_seal ccm_seal camellia_seal gcm_seal.
Qed.

Lemma dispatch_open : opssl_aead_open fuel junk calloc_ok (Some ctx) (Some out) (Some ol) nonce msg aad = Some (ret_of (open_spec (scheme_of ctx) out ol nonce msg aad)).
Proof.
  destruct Hok as [Hj Hc Hu Ha Hm Hsa Hs [Hfa Hf]]. pose proof (ctx_key_bytes ctx Hc) as Hkb. pose proof Hc as [_ Hkey]. pose proof (nblocks_le aad) as Hna.
  assert (size_ok msg) as Hsm by (unfold size_ok, SIZE_MAX in *; lia). pose proof Hn as [Hl _].
  unfold opssl_aead_open. rewrite Hl. cbn [Nat.eqb negb]. each_cipher chacha_open ccm_open camellia_open gcm_open.
Qed.
End Calls.

(** C38: the dispatching calls behave, for every algorithm the machine can run, as the
    interface promises for the context's scheme.  The four CCM algorithms run only
    without AES-NI and the two AES-GCM ones only with AES-NI and PCLMULQDQ, the other
    paths being undefined; the schemes of CCM and Camellia-GCM have the cipher and the
    tag of the code, those of AES-GCM and ChaCha20-Poly1305 their standards'.  Without a context, buffer or length variable, or with a nonce of
    another length than twelve, they fail and write nothing. *)
Theorem aead_refines {C : Cpu} {X : Avx2} (XS : Avx2Spec X) {I : AesInstr} (IS : AesInstrSpec I) {J : Clmul} (JS : ClmulSpec J)
    fuel junk calloc_ok ctx out ol nonce msg aad :
  call_ok fuel junk calloc_ok ctx aad msg -> bytes nonce -> bytes out ->
  opssl_aead_seal fuel junk calloc_ok (Some ctx) (Some out) (Some ol) nonce msg aad =
    Some (if (length nonce =? 12)%nat then ret_of (seal_spec (scheme_of ctx) out ol nonce msg aad) else (0, Some out, Some ol)) /\
  opssl_aead_open fuel junk calloc_ok (Some ctx) (Some out) (Some ol) nonce msg aad =
    Some (if (length nonce =? 12)%nat then ret_of (open_spec (scheme_of ctx) out ol nonce msg aad) else (0, Some out, Some ol)) /\
  (forall c o l, c = None \/ o = None \/ l = None ->
     opssl_aead_seal fuel junk calloc_ok c o l nonce msg aad = Some (0, o, l) /\
     opssl_aead_open fuel junk calloc_ok c o l nonce msg aad = Some (0, o, l)).
Proof.
  intros Hok Hnb Ho. split; [| split].
  - destruct (Nat.eqb_spec (length nonce) 12) as [Hl | Hl]; [by apply dispatch_seal |].
    unfold opssl_aead_seal. by rewrite (proj2 (Nat.eqb_neq _ _)).
  - destruct (Nat.eqb_spec (length nonce) 12) as [Hl | Hl]; [by apply dispatch_open |].
    unfold opssl_aead_open. by rewrite (proj2 (Nat.eqb_neq _ _)).
  - intros [c |] [o |] [l |] Hnone; try done. by destruct Hnone as [? | [? | ?]].
Qed.

(** What any algorithm seals opens to the message, and only what it seals for the
    same key, nonce and associated data opens. *)
Theorem aead_roundtrip {C : Cpu} {X : Avx2} (XS : Avx2Spec X) {I : AesInstr} (IS : AesInstrSpec I) {J : Clmul} (JS : ClmulSpec J)
    fuel junk calloc_ok ctx out ol out2 ol2 nonce msg aad :
  call_ok fuel junk calloc_ok ctx aad msg -> (length msg + 48 <= fuel)%nat -> Z.of_nat (length msg) <= SIZE_MAX - 32 ->
  nonce_ok nonce -> bytes out -> bytes out2 ->
  sc_fits (scheme_of ctx) (length msg) (length aad) = true ->
  length out = (length msg + sc_tag_len (scheme_of ctx))%nat -> (length msg <= length out2)%nat ->
  (exists c, opssl_aead_seal fuel junk calloc_ok (Some ctx) (Some out) (Some ol) nonce msg aad = Some (1, Some c, Some (Z.of_nat (length c))) /\
     opssl_aead_open fuel junk calloc_ok (Some ctx) (Some out2) (Some ol2) nonce c aad = Some (1, Some (splice out2 0 msg), Some (Z.of_nat (length msg)))) /\
  (forall c o l, bytes c -> (length c + 32 <= fuel)%nat -> Z.of_nat (length c) <= SIZE_MAX - 16 ->
     opssl_aead_open fuel junk calloc_ok (Some ctx) (Some out2) (Some ol2) nonce c aad = Some (1, o, l) ->
     exists m, c = sc_encrypt (scheme_of ctx) nonce aad m /\ o = Some (splice out2 0 m) /\ l = Some (Z.of_nat (length m))).
Proof.
  intros Hok Hf Hs Hn Ho Ho2 Hfit Hlo Hlo2. pose proof Hok as [Hj Hc Hu Ha Hm Hsa Hsm [Hfa Hfm]]. pose proof (scheme_laws ctx Hc) as L.
  pose proof (tag_len_le ctx) as Ht. split.
  - exists (sc_encrypt (scheme_of ctx) nonce aad msg). pose proof (encrypt_length (scheme_of ctx) nonce aad msg Hn) as Hl. split.
    + rewrite dispatch_seal by done. unfold seal_spec. rewrite Hfit, (proj2 (Nat.leb_le _ _)) by lia. cbn [andb].
      rewrite splice_full by lia. by rewrite Hl.
    + assert (call_ok fuel junk calloc_ok ctx aad (sc_encrypt (scheme_of ctx) nonce aad msg)) as Hok'.
      { split; try done; [by apply encrypt_bytes | rewrite Hl; lia | rewrite Hl; lia]. }
      rewrite dispatch_open by done. by rewrite open_encrypt by done.
  - intros c o l Hcb Hcf Hcs Hopen. assert (call_ok fuel junk calloc_ok ctx aad c) as Hok' by (by split).
    rewrite dispatch_open in Hopen by done.
    destruct (open_spec (scheme_of ctx) out2 ol2 nonce c aad) as [[r o'] l'] eqn:E. injection Hopen as -> <- <-. cbn [fst snd] in *.
    destruct (open_only _ _ _ _ _ _ _ _ Hn E) as (m & -> & -> & -> & _). by exists m.
Qed.

(** A context got from [opssl_aead_new] and keyed any number of times is well
    formed. *)
Lemma aead_new_ok calloc_ok algo ctx : opssl_aead_new calloc_ok algo = Some ctx -> ctx_ok ctx.
Proof. destruct calloc_ok; [| done]. intros [= <-]. split; [done | solve_bytes]. Qed.

Lemma aead_set_key_ok ctx key : ctx_ok ctx -> bytes key ->
  if key_len_ok key
  then exists ctx', opssl_aead_set_key (Some ctx) (Some key) = (1, Some ctx') /\ ctx_ok ctx' /\ ctx_key ctx' = key /\ ac_algo ctx' = ac_algo ctx
  else opssl_aead_set_key (Some ctx) (Some key) = (0, Some ctx).
Proof.
  intros [Hl Hb] Hk. unfold opssl_aead_set_key. rewrite key_len_negb. destruct (key_len_ok key) eqn:E; cbn [negb]; [| done].
  apply key_len_spec in E. eexists. split; [reflexivity |]. split; [| split; [| done]].
  - split; cbn [ac_key]; [rewrite splice_length by lia; done | by apply bytes_splice].
  - unfold ctx_key. cbn [ac_key_len ac_key]. unfold splice. rewrite take_0. change (take (length key) (key ++ drop (0 + length key) (ac_key ctx)) = key). apply take_app_length.
Qed.

(** The key length is not compared with the algorithm's: AES-256-GCM keyed with 16
    bytes runs AES-128. *)
Example aead_key_length_unchecked :
  exists ctx, opssl_aead_new true OPSSL_AEAD_AES_256_GCM = Some ctx /\ opssl_aead_key_len (ac_algo ctx) = 32 /\
    exists ctx', opssl_aead_set_key (Some ctx) (Some (replicate 16 1)) = (1, Some ctx') /\ scheme_of ctx' = gcm_scheme (replicate 16 1).
Proof. eexists. split; [reflexivity | split; [reflexivity |]]. eexists. split; reflexivity. Qed.

Section Witness.
#[local] Existing Instance plain_cpu.
#[local] Existing Instance avx2_model.
#[local] Existing Instance aes_instr_model.
#[local] Existing Instance clmul_model.

Definition demo_ctx : opssl_aead_ctx := mk_aead OPSSL_AEAD_CHACHA20_POLY1305 (replicate 32 1) 32.

Lemma demo_call msg fuel : bytes msg -> Z.of_nat (length msg) <= SIZE_MAX - 16 -> (length msg + 32 <= fuel)%nat ->
  call_ok fuel poly1305_zero true demo_ctx [4] msg.
Proof. intros Hm Hs Hf. split; try done; [split; [done | solve_bytes] | solve_bytes | cbn; lia]. Qed.

Lemma aead_refines_witness :
  opssl_aead_seal 64 poly1305_zero true (Some demo_ctx) (Some (replicate 20 0)) (Some 0) (replicate 12 2) [1; 2; 3] [4] =
    Some (ret_of (seal_spec (chacha_scheme (replicate 32 1)) (replicate 20 0) 0 (replicate 12 2) [1; 2; 3] [4])).
Proof.
  destruct (aead_refines avx2_model_spec aes_instr_model_spec clmul_model_spec 64 poly1305_zero true demo_ctx (replicate 20 0) 0 (replicate 12 2) [1; 2; 3] [4]
    ltac:(apply demo_call; [solve_bytes | vm_compute; discriminate | cbn; lia]) ltac:(solve_bytes) ltac:(solve_bytes)) as [H _]. exact H.
Defined.

Lemma aead_roundtrip_witness :
  exists c, opssl_aead_seal 64 poly1305_zero true (Some demo_ctx) (Some (replicate 19 0)) (Some 0) (replicate 12 2) [1; 2; 3] [4] = Some (1, Some c, Some (Z.of_nat (length c))) /\
    opssl_aead_open 64 poly1305_zero true (Some demo_ctx) (Some [0; 0; 0]) (Some 0) (replicate 12 2) c [4] = Some (1, Some [1; 2; 3], Some 3).
Proof.
  destruct (aead_roundtrip avx2_model_spec aes_instr_model_spec clmul_model_spec 64 poly1305_zero true demo_ctx (replicate 19 0) 0 [0; 0; 0] 0 (replicate 12 2) [1; 2; 3] [4]
    ltac:(apply demo_call; [solve_bytes | vm_compute; discriminate | cbn; lia]) ltac:(cbn; lia) ltac:(vm_compute; discriminate)
    ltac:(split; [reflexivity | solve_bytes]) ltac:(solve_bytes) ltac:(solve_bytes) eq_refl eq_refl ltac:(cbn; lia)) as [H _]. exact H.
Defined.
End Witness.
