(* ===== verification/Record.v ===== *)
(** The TLS record layer: src/tls/record.c.

    [buf] is the caller's buffer, its length the capacity [buf_cap] of
    [opssl_record_encrypt] and the [record_len] of [opssl_record_decrypt].  A
    call gives its return value, the cipher state, the buffer and the error
    stack after it (decrypting also [*real_content_type], [None] when not set);
    [None] is undefined behaviour, or a loop of the cipher that has not ended
    within [fuel] iterations.

    The ciphers run in place: the output overlaps the input, starting at it or
    eight bytes before it.  [seal_at] and [open_at] give the cipher the bytes as
    they are before the call; [stream_at_spec] is why that is the same: reading a
    chunk, then writing it no further on than where it was read, never changes a
    byte still to be read. *)
From S2P Require Import Prelude Platform Err Cpu AesSpec ChaCha20 Poly1305 AesNi Aes BlockModes AesNiGcm Aead.
#[local] Open Scope Z_scope.

Definition TLS_CT_APPLICATION_DATA : Z := 23.
Definition TLS_RECORD_HEADER_LEN : nat := 5.

Record record_cipher_state_t := mk_rec { cipher : option opssl_aead_ctx; iv : list Z; seq : Z; is_tls13 : bool }.

Definition set_seq (st : record_cipher_state_t) (s : Z) : record_cipher_state_t := mk_rec (cipher st) (iv st) s (is_tls13 st).

Definition record_make_nonce (st : record_cipher_state_t) : list Z :=
  if is_tls13 st then
    let seq_bytes := opssl_put_be64 (seq st) in
    for_range 0 8 (fun i nonce => <[(4 + i)%nat := Z.lxor nonce.[4 + i] seq_bytes.[i]]> nonce) (take 12 (iv st))
  else take 4 (iv st) ++ opssl_put_be64 (seq st).

Definition record_make_aad (st : record_cipher_state_t) (content_type version length : Z) : list Z :=
  (if is_tls13 st then [] else opssl_put_be64 (seq st)) ++ [content_type] ++ opssl_put_be16 version ++ opssl_put_be16 length.

(** Conversion to [int]. *)
Definition s32 (x : Z) : Z := let y := u32 x in if y <? 2147483648 then y else y - 4294967296.

(** A value below the width of [size_t], as an offset. *)
Definition off (x : Z) : nat := Z.to_nat x.

Definition put_header (buf : list Z) (ct ver len : Z) : list Z :=
  splice (splice (<[0%nat := ct]> buf) 1 (opssl_put_be16 ver)) 3 (opssl_put_be16 len).

Section Record.
Context `{Cpu} `{Avx2} `{AesInstr} `{Clmul}.
Variable fuel : nat.
Variable junk : poly1305_state_t.
Variable calloc_ok : bool.

(** [opssl_aead_seal(cipher, buf + o, &out_len, max, nonce, 12, buf + i, len, aad)] *)
Definition seal_at (c : option opssl_aead_ctx) (buf : list Z) (o max : nat) (nonce : list Z) (i len : nat) (aad : list Z) : option (Z * list Z * Z) :=
  if (length buf <? o + max)%nat || (length buf <? i + len)%nat then None else
  match opssl_aead_seal fuel junk calloc_ok c (Some (sub_list o max buf)) (Some 0) nonce (sub_list i len buf) aad with
  | Some (r, Some out, Some out_len) => Some (r, splice buf o out, out_len)
  | _ => None
  end.

Definition open_at (c : option opssl_aead_ctx) (buf : list Z) (o max : nat) (nonce : list Z) (i len : nat) (aad : list Z) : option (Z * list Z * Z) :=
  if (length buf <? o + max)%nat || (length buf <? i + len)%nat then None else
  match opssl_aead_open fuel junk calloc_ok c (Some (sub_list o max buf)) (Some 0) nonce (sub_list i len buf) aad with
  | Some (r, Some out, Some out_len) => Some (r, splice buf o out, out_len)
  | _ => None
  end.

Definition opssl_record_encrypt (st : record_cipher_state_t) (buf : list Z) (content_type : Z) (plain_len : nat) (err : err_state) :
    option (Z * record_cipher_state_t * list Z * err_state) :=
  match cipher st with
  | None => Some (-1, st, buf, err)
  | Some _ =>
    if seq st =? UINT64_MAX then
      Some (-1, st, buf, opssl_err_push OPSSL_ERR_TLS OPSSL_TLS_ERR_RECORD_OVERFLOW "record.c" 129 err) else
    let ct_wire := if is_tls13 st then TLS_CT_APPLICATION_DATA else content_type in
    let ver_wire := 0x0303 in
    let nonce := record_make_nonce st in
    if is_tls13 st then
      let tls13_cipher_len := u64 (Z.of_nat plain_len + 1 + 16) in
      if Z.of_nat (length buf) <? u64 (Z.of_nat TLS_RECORD_HEADER_LEN + tls13_cipher_len) then Some (-1, st, buf, err) else
      let buf := put_header buf ct_wire ver_wire (u16 tls13_cipher_len) in
      if (length buf <=? TLS_RECORD_HEADER_LEN + plain_len)%nat then None else
      let buf := <[(TLS_RECORD_HEADER_LEN + plain_len)%nat := content_type]> buf in
      let aad := record_make_aad st ct_wire ver_wire (u16 tls13_cipher_len) in
      match seal_at (cipher st) buf TLS_RECORD_HEADER_LEN (off tls13_cipher_len) nonce TLS_RECORD_HEADER_LEN (plain_len + 1) aad with
      | None => None
      | Some (r, buf, _) =>
        if r =? 0 then Some (-1, st, buf, err)
        else Some (s32 (u64 (Z.of_nat TLS_RECORD_HEADER_LEN + tls13_cipher_len)), set_seq st (u64 (seq st + 1)), buf, err)
      end
    else
      let tls12_payload_len := u64 (8 + Z.of_nat plain_len + 16) in
      if Z.of_nat (length buf) <? u64 (Z.of_nat TLS_RECORD_HEADER_LEN + tls12_payload_len) then Some (-1, st, buf, err) else
      let buf := put_header buf ct_wire ver_wire (u16 tls12_payload_len) in
      let buf := splice buf TLS_RECORD_HEADER_LEN (opssl_put_be64 (seq st)) in
      let ciphertext_out := (TLS_RECORD_HEADER_LEN + 8)%nat in
      let aad := record_make_aad st ct_wire ver_wire (u16 (Z.of_nat plain_len)) in
      match seal_at (cipher st) buf ciphertext_out (off (u64 (Z.of_nat plain_len + 16))) nonce ciphertext_out plain_len aad with
      | None => None
      | Some (r, buf, _) =>
        if r =? 0 then Some (-1, st, buf, err)
        else Some (s32 (u64 (Z.of_nat TLS_RECORD_HEADER_LEN + tls12_payload_len)), set_seq st (u64 (seq st + 1)), buf, err)
      end
  end.

(** [while (out_len > 0 && ciphertext[out_len - 1] == 0) out_len--] *)
Fixpoint strip_padding (ciphertext : list Z) (out_len : nat) : nat :=
  match out_len with
  | O => O
  | S n => if ciphertext.[n] =? 0 then strip_padding ciphertext n else out_len
  end.

Definition opssl_record_decrypt (st : record_cipher_state_t) (buf : list Z) (err : err_state) :
    option (Z * record_cipher_state_t * list Z * err_state * option Z) :=
  match cipher st with
  | None => Some (-1, st, buf, err, None)
  | Some _ =>
    if (length buf <? TLS_RECORD_HEADER_LEN)%nat then Some (-1, st, buf, err, None) else
    if seq st =? UINT64_MAX then
      Some (-1, st, buf, opssl_err_push OPSSL_ERR_TLS OPSSL_TLS_ERR_RECORD_OVERFLOW "record.c" 242 err, None) else
    let ct_wire := buf.[0] in
    let ver_wire := opssl_be16 (drop 1 buf) in
    let payload_len := opssl_be16 (drop 3 buf) in
    if Z.of_nat (length buf) <? Z.of_nat TLS_RECORD_HEADER_LEN + payload_len then Some (-1, st, buf, err, None) else
    if is_tls13 st then
      if payload_len <? 16 then Some (-1, st, buf, err, None) else
      let nonce := record_make_nonce st in
      let aad := record_make_aad st ct_wire ver_wire payload_len in
      match open_at (cipher st) buf TLS_RECORD_HEADER_LEN (off payload_len) nonce TLS_RECORD_HEADER_LEN (off payload_len) aad with
      | None => None
      | Some (r, buf, out_len) =>
        if r =? 0 then Some (-1, st, buf, opssl_err_push OPSSL_ERR_TLS OPSSL_TLS_ERR_BAD_RECORD_MAC "record.c" 273 err, None) else
        let st := set_seq st (u64 (seq st + 1)) in
        let ciphertext := drop TLS_RECORD_HEADER_LEN buf in
        let out_len := strip_padding ciphertext (off out_len) in
        if (out_len =? 0)%nat then
          Some (-1, st, buf, opssl_err_push OPSSL_ERR_TLS OPSSL_TLS_ERR_UNEXPECTED_MSG "record.c" 285 err, None) else
        Some (s32 (Z.of_nat (out_len - 1)), st, buf, err, Some (ciphertext.[out_len - 1]))
      end
    else
      if payload_len <? 24 then Some (-1, st, buf, err, None) else
      let explicit_nonce := sub_list TLS_RECORD_HEADER_LEN 8 buf in
      let ciphertext := (TLS_RECORD_HEADER_LEN + 8)%nat in
      let ciphertext_len := payload_len - 8 in
      if ciphertext_len <? 16 then Some (-1, st, buf, err, None) else
      let plain_len := ciphertext_len - 16 in
      let nonce := take 4 (iv st) ++ explicit_nonce in
      let aad := record_make_aad st ct_wire ver_wire (u16 plain_len) in
      match open_at (cipher st) buf TLS_RECORD_HEADER_LEN (off plain_len) nonce ciphertext (off ciphertext_len) aad with
      | None => None
      | Some (r, buf, out_len) =>
        if r =? 0 then Some (-1, st, buf, opssl_err_push OPSSL_ERR_TLS OPSSL_TLS_ERR_BAD_RECORD_MAC "record.c" 331 err, None) else
        Some (s32 out_len, set_seq st (u64 (seq st + 1)), buf, err, Some ct_wire)
      end
  end.
End Record.

(* ------------------------------------------------------------------ *)
(** * Running a stream cipher in place *)

(** One chunk of key stream at a time, on one memory. *)
Fixpoint stream_at (mem : list Z) (o i : nat) (ks : list (list Z)) : list Z :=
  match ks with
  | [] => mem
  | k :: ks => stream_at (splice mem o (bxor (sub_list i (length k) mem) k)) (o + length k) (i + length k) ks
  end.

(** A write before [i] does not change what is read from [i] on. *)
Lemma read_after_write mem o data i n : (o + length data <= i)%nat -> (i + n <= length mem)%nat ->
  sub_list i n (splice mem o data) = sub_list i n mem.
Proof.
  intros Ho Hl. unfold sub_list, splice. f_equal. rewrite app_assoc, drop_app_ge by (rewrite length_app, length_take; lia).
  rewrite length_app, length_take, drop_drop. f_equal. lia.
Qed.

Lemma bxor_app a b c d : length a = length c -> bxor (a ++ b) (c ++ d) = bxor a c ++ bxor b d.
Proof. intros H. unfold bxor. by apply zip_with_app. Qed.

Lemma stream_at_spec ks : forall mem o i, (o <= i)%nat -> (i + length (concat ks) <= length mem)%nat ->
  stream_at mem o i ks = splice mem o (bxor (sub_list i (length (concat ks)) mem) (concat ks)).
Proof.
  induction ks as [| k ks IH]; intros mem o i Ho Hl; cbn [stream_at concat] in *.
  - change (length []) with 0%nat. unfold sub_list. rewrite take_0. cbn. by rewrite splice_nil.
  - rewrite length_app in *. set (x := sub_list i (length k) mem). assert (length x = length k) as Hx by (apply sub_list_length; lia).
    assert (length (bxor x k) = length k) as Hb by (by rewrite bxor_length).
    assert (sub_list i (length k + length (concat ks)) mem = x ++ sub_list (i + length k) (length (concat ks)) mem) as ->.
    { unfold x, sub_list. rewrite Nat.add_comm, <- drop_drop, <- (take_drop (length k) (take _ (drop i mem))). f_equal; [by rewrite take_take, Nat.min_l by lia |].
      rewrite skipn_firstn_comm. f_equal. lia. }
    rewrite IH by (rewrite ?splice_length by (rewrite Hb; lia); lia).
    rewrite read_after_write by (rewrite ?Hb; lia). rewrite bxor_app by done. assert (length (bxor (sub_list (i + length k) (length (concat ks)) mem) (concat ks)) = length (concat ks)) as Hb'
      by (rewrite bxor_length; apply sub_list_length; lia).
    replace (o + length k)%nat with (o + length (bxor x k))%nat by lia. apply splice_splice. lia.
Qed.

(* ------------------------------------------------------------------ *)
(** * Header, nonce and associated data *)

Definition hdr (ct ver len : Z) : list Z := ct :: be_bytes 2 ver ++ be_bytes 2 len.

Lemma put_header_spec buf ct ver len : (5 <= length buf)%nat -> put_header buf ct ver len = hdr ct ver len ++ drop 5 buf.
Proof.
  intros Hl. unfold put_header, hdr. rewrite <- (put_be16_bytes ver), <- (put_be16_bytes len). by do 5 (destruct buf as [| ? buf]; [cbn in Hl; lia |]).
Qed.

Lemma hdr_length ct ver len : length (hdr ct ver len) = 5%nat.
Proof. done. Qed.

Lemma hdr_bytes ct ver len : byte_ok ct -> bytes (hdr ct ver len).
Proof. intros H. apply bytes_cons. split; [done |]. apply bytes_app. split; apply be_bytes_ok. Qed.

Lemma make_nonce_spec st : length (iv st) = 12%nat ->
  record_make_nonce st = take 4 (iv st) ++ (if is_tls13 st then bxor (drop 4 (iv st)) (be_bytes 8 (seq st)) else be_bytes 8 (seq st)).
Proof.
  intros Hl. unfold record_make_nonce. cbv zeta. rewrite put_be64_bytes. destruct (is_tls13 st); [| done].
  pose proof (be_bytes_length 8 (seq st)) as Hs. destruct (be_bytes 8 (seq st)) as [| b0 [| b1 [| b2 [| b3 [| b4 [| b5 [| b6 [| b7 [| ? ?]]]]]]]]]; try done.
  destruct (iv st) as [| a0 [| a1 [| a2 [| a3 [| a4 [| a5 [| a6 [| a7 [| a8 [| a9 [| a10 [| a11 [| ? ?]]]]]]]]]]]]]; done.
Qed.

Lemma make_nonce_ok st : length (iv st) = 12%nat -> bytes (iv st) -> nonce_ok (record_make_nonce st).
Proof.
  intros Hl Hb. rewrite make_nonce_spec by done. assert (length (drop 4 (iv st)) = 8%nat) as Hd by (rewrite length_drop; lia). split.
  - rewrite length_app, length_take. destruct (is_tls13 st); [rewrite bxor_length by (by rewrite be_bytes_length) | rewrite be_bytes_length]; lia.
  - apply bytes_app. split; [by apply bytes_take |]. destruct (is_tls13 st); [apply bxor_bytes; [by apply bytes_drop |] |]; apply be_bytes_ok.
Qed.

Lemma bxor_inj a x y : length a = length x -> length a = length y -> bxor a x = bxor a y -> x = y.
Proof.
  intros Hx Hy E. apply list_eq_get; [lia |]. intros i Hi. pose proof (f_equal (fun l => l.[i]) E) as G. cbv beta in G.
  rewrite !bxor_get in G by done. apply (f_equal (Z.lxor a.[i])) in G. by rewrite <- !Z.lxor_assoc, !Z.lxor_nilpotent, !Z.lxor_0_l in G.
Qed.

(** The nonce determines the sequence number. *)
Lemma make_nonce_inj st s s' : length (iv st) = 12%nat -> 0 <= s <= UINT64_MAX -> 0 <= s' <= UINT64_MAX ->
  record_make_nonce (set_seq st s) = record_make_nonce (set_seq st s') -> s = s'.
Proof.
  unfold UINT64_MAX. intros Hl Hs Hs'. rewrite !make_nonce_spec by done. cbn [set_seq iv seq is_tls13].
  assert (length (drop 4 (iv st)) = 8%nat) as Hd by (rewrite length_drop; lia). intros E. apply app_inv_head in E.
  assert (be_bytes 8 s = be_bytes 8 s') as E'.
  { destruct (is_tls13 st); [| done]. by apply bxor_inj in E; rewrite ?be_bytes_length. }
  apply be_bytes_inj in E'; [done | |]; change (256 ^ Z.of_nat 8) with 18446744073709551616; lia.
Qed.

Lemma make_aad_spec st ct ver len : record_make_aad st ct ver len = (if is_tls13 st then [] else be_bytes 8 (seq st)) ++ hdr ct ver len.
Proof. unfold record_make_aad, hdr. by rewrite !put_be16_bytes, put_be64_bytes. Qed.

Lemma make_aad_ok st ct ver len : byte_ok ct -> bytes (record_make_aad st ct ver len) /\ (length (record_make_aad st ct ver len) <= 13)%nat.
Proof.
  intros H. rewrite make_aad_spec. split.
  - apply bytes_app. split; [destruct (is_tls13 st); [constructor | apply be_bytes_ok] | by apply hdr_bytes].
  - rewrite length_app, hdr_length. destruct (is_tls13 st); rewrite ?be_bytes_length; cbn; lia.
Qed.

(** Rewriting a buffer from an offset, where the data starts a window of it. *)
Lemma splice_window buf o n x : (o + n <= length buf)%nat -> (length x <= n)%nat ->
  splice buf o (splice (sub_list o n buf) 0 x) = splice buf o x.
Proof.
  intros Ho Hx. unfold splice at 2. cbn [take app Nat.add]. rewrite take_0. cbn [app]. unfold splice. f_equal.
  rewrite <- app_assoc. f_equal. rewrite length_app, length_drop, sub_list_length by done.
  replace (o + (length x + (n - length x)))%nat with (o + n)%nat by lia. unfold sub_list.
  by rewrite <- drop_drop, drop_take_drop, drop_drop by done.
Qed.

Lemma splice_same buf o n : (o + n <= length buf)%nat -> splice buf o (sub_list o n buf) = buf.
Proof.
  intros Ho. unfold splice. rewrite sub_list_length by done. unfold sub_list. rewrite <- drop_drop, (take_drop n). apply take_drop.
Qed.

Lemma strip_padding_spec c n : (n <= length c)%nat ->
  (strip_padding c n = 0%nat /\ take n c = replicate n 0) \/
  (exists m t, strip_padding c n = S (length m) /\ t = c.[length m] /\ t <> 0 /\ take n c = m ++ t :: replicate (n - S (length m)) 0).
Proof.
  induction n as [| n IH]; intros Hl; [left; by rewrite take_0 |]. cbn [strip_padding].
  rewrite (take_S_r c n c.[n]) by (apply lookup_get; lia). destruct (Z.eqb_spec c.[n] 0) as [E | E].
  - rewrite E. destruct IH as [[H1 H2] | (m & t & H1 & Ht & Ht0 & H2)]; [lia | |].
    + left. rewrite H2, H1. split; [done |]. by rewrite <- replicate_S_end.
    + right. exists m, t. split; [done |]. split; [done |]. split; [done |]. rewrite H2, <- app_assoc. cbn [app]. do 2 f_equal.
      pose proof (f_equal length H2) as G. rewrite length_take, length_app in G. cbn [length] in G. rewrite length_replicate in G.
      replace (S n - S (length m))%nat with (S (n - S (length m))) by lia. by rewrite <- replicate_S_end.
  - right. exists (take n c), c.[n]. rewrite length_take, Nat.min_l by lia. rewrite Nat.sub_diag. done.
Qed.

(* ------------------------------------------------------------------ *)
(** * What the two calls compute *)

(** The record on the wire. *)
Definition wire (S : aead_scheme) (st : record_cipher_state_t) (ct : Z) (plain : list Z) : list Z :=
  if is_tls13 st then
    let h := hdr TLS_CT_APPLICATION_DATA 0x0303 (Z.of_nat (length plain) + 17) in
    h ++ sc_encrypt S (record_make_nonce st) h (plain ++ [ct])
  else
    hdr ct 0x0303 (Z.of_nat (length plain) + 24) ++ be_bytes 8 (seq st) ++
    sc_encrypt S (record_make_nonce st) (record_make_aad st ct 0x0303 (Z.of_nat (length plain))) plain.

(** The nonce of a sequence number: the IV's last eight bytes are XORed with it in
    TLS 1.3 (RFC 8446, 5.3) and replaced by it in TLS 1.2 (RFC 5288, 3). *)
Definition nonce_of (tls13 : bool) (iv : list Z) (sq : Z) : list Z :=
  take 4 iv ++ (if tls13 then bxor (drop 4 iv) (be_bytes 8 sq) else be_bytes 8 sq).

(** The record of sequence number [sq], encrypted under nonce [n]. *)
Definition wire_under (S : aead_scheme) (tls13 : bool) (sq : Z) (n : list Z) (ct : Z) (plain : list Z) : list Z :=
  if tls13 then
    let h := hdr TLS_CT_APPLICATION_DATA 0x0303 (Z.of_nat (length plain) + 17) in
    h ++ sc_encrypt S n h (plain ++ [ct])
  else
    hdr ct 0x0303 (Z.of_nat (length plain) + 24) ++ be_bytes 8 sq ++
    sc_encrypt S n (be_bytes 8 sq ++ hdr ct 0x0303 (Z.of_nat (length plain))) plain.

Lemma wire_is_under S st ct plain : length (iv st) = 12%nat ->
  wire S st ct plain = wire_under S (is_tls13 st) (seq st) (nonce_of (is_tls13 st) (iv st) (seq st)) ct plain.
Proof.
  intros Hiv. unfold wire, wire_under, nonce_of. rewrite make_nonce_spec, make_aad_spec by done. by destruct (is_tls13 st).
Qed.

Lemma nonce_of_inj tls13 iv s s' : length iv = 12%nat -> 0 <= s <= UINT64_MAX -> 0 <= s' <= UINT64_MAX ->
  nonce_of tls13 iv s = nonce_of tls13 iv s' -> s = s'.
Proof.
  intros Hl Hs Hs' E. apply (make_nonce_inj (mk_rec None iv 0 tls13)); [done.. |].
  rewrite !make_nonce_spec by done. exact E.
Qed.

(** Where the plaintext of a record being written starts. *)
Definition plain_at (st : record_cipher_state_t) : nat := if is_tls13 st then 5 else 13.

(** The bytes a record is longer than its plaintext. *)
Definition overhead (st : record_cipher_state_t) : nat := if is_tls13 st then 22 else 29.

Record rec_ok {C : Cpu} {I : AesInstr} (junk : poly1305_state_t) (calloc_ok : bool) (st : record_cipher_state_t) (ctx : opssl_aead_ctx) : Prop := {
  ro_cipher : cipher st = Some ctx;
  ro_ctx : ctx_ok ctx;
  ro_junk : length (pbuf junk) = 16%nat;
  ro_usable : aead_usable calloc_ok (ac_algo ctx);
  ro_iv : length (iv st) = 12%nat;
  ro_iv_bytes : bytes (iv st);
  ro_seq : 0 <= seq st <= UINT64_MAX
}.

(** A buffer whose length and that of anything in it is far from wrapping. *)
Definition buf_ok (fuel : nat) (buf : list Z) : Prop := bytes buf /\ Z.of_nat (length buf) <= 0x7FFFFFFF /\ (length buf + 45 <= fuel)%nat.

Lemma s32_id x : 0 <= x <= 0x7FFFFFFF -> s32 x = x.
Proof. intros H. unfold s32. rewrite u32_id by lia. cbv zeta. by rewrite (proj2 (Z.ltb_lt _ _)) by lia. Qed.

Lemma splice_0 buf x : splice buf 0 x = x ++ drop (length x) buf.
Proof. unfold splice. by rewrite take_0. Qed.

Lemma sc_fits_le S n m n' m' : sc_fits S n m = true -> (n' <= n)%nat -> (m' <= m)%nat -> sc_fits S n' m' = true.
Proof. unfold sc_fits. rewrite !andb_true_iff, !Z.leb_le. intros [[? ?] ?] ? ?. split_and!; [done | lia | lia]. Qed.

(** The length field is two bytes of whatever number it is given. *)
Lemma hdr_u16 ct ver len : hdr ct ver (u16 len) = hdr ct ver len.
Proof.
  unfold hdr. do 2 f_equal. unfold u16, wrap. rewrite (Z.div_mod len 65536) at 2 by lia.
  rewrite Z.mul_comm. symmetry. apply (be_bytes_add 2).
Qed.

(** The two buffers handed to the cipher, after the header, in terms of the
    caller's. *)
Lemma splice_after h (b x : list Z) : length h = 5%nat -> splice (h ++ drop 5 b) 5 x = splice b 0 (h ++ x).
Proof.
  intros Hh. rewrite splice_0. unfold splice. rewrite (take_app_length' h) by done. rewrite drop_app_ge by lia.
  rewrite Hh, length_app, Hh, drop_drop, <- app_assoc. do 3 f_equal. lia.
Qed.

Lemma tls13_window h (b : list Z) p ct x : length h = 5%nat -> (5 + p < length b)%nat -> (p < length x)%nat ->
  sub_list 5 (p + 1) (<[(5 + p)%nat := ct]> (h ++ drop 5 b)) = sub_list 5 p b ++ [ct] /\
  splice (<[(5 + p)%nat := ct]> (h ++ drop 5 b)) 5 x = splice b 0 (h ++ x).
Proof.
  intros Hh Hb Hx. split.
  - rewrite insert_app_r_alt by lia. replace (5 + p - length h)%nat with p by lia.
    unfold sub_list. rewrite (drop_app_length' h) by done. rewrite insert_take_drop by (rewrite length_drop; lia).
    replace (p + 1)%nat with (length (take p (drop 5 b)) + 1)%nat by (rewrite length_take, length_drop; lia). by rewrite take_app_add.
  - rewrite <- splice_after by done. unfold splice. rewrite take_insert_ge, drop_insert_lt by lia. done.
Qed.

Lemma tls12_window h e (b : list Z) p x : length h = 5%nat -> length e = 8%nat -> (13 <= length b)%nat ->
  sub_list 13 p (splice (h ++ drop 5 b) 5 e) = sub_list 13 p b /\
  splice (splice (h ++ drop 5 b) 5 e) 13 x = splice b 0 (h ++ e ++ x).
Proof.
  intros Hh He Hb. rewrite splice_after by done. assert (length (h ++ e) = 13%nat) as Hl by (rewrite length_app; lia).
  rewrite (splice_0 b (h ++ e)), Hl. split.
  - unfold sub_list. by rewrite (drop_app_length' (h ++ e)).
  - rewrite splice_0. unfold splice. rewrite (take_app_length' (h ++ e)) by done. rewrite drop_app_ge by lia.
    rewrite Hl, drop_drop, !length_app, Hh, He, <- !app_assoc. do 4 f_equal. lia.
Qed.

Lemma open_spec_shape S out ol n c a :
  ((open_spec S out ol n c a).1.1 = 0 \/ (open_spec S out ol n c a).1.1 = 1) /\
  (AeadLaws S -> nonce_ok n -> length (open_spec S out ol n c a).1.2 = length out).
Proof.
  unfold open_spec. cbv zeta. destruct (_ && _) eqn:E; [| by split; [left |]]. rewrite !andb_true_iff, !Nat.leb_le in E. destruct E as [[_ E1] E2].
  case_decide; cbn [fst snd]; [split; [by right |] | split; [by left |]]; intros L Hn.
  - apply splice_length. rewrite sc_ctr_length, length_take by done. lia.
  - destruct (sc_wipe S); [| done]. apply splice_length. rewrite length_replicate. lia.
Qed.

Lemma hdr_read buf : bytes buf -> (5 <= length buf)%nat -> hdr buf.[0] (opssl_be16 (drop 1 buf)) (opssl_be16 (drop 3 buf)) = take 5 buf.
Proof.
  intros Hb Hl. do 5 (destruct buf as [| ? buf]; [cbn in Hl; lia |]). rewrite !bytes_cons in Hb. destruct Hb as (B0 & B1 & B2 & B3 & B4 & _).
  assert (forall a b l, byte_ok a -> byte_ok b -> be_bytes 2 (opssl_be16 (a :: b :: l)) = [a; b]) as R.
  { intros a b l Ha Hb. assert (bytes [a; b]) as Hab by (repeat (apply Forall_cons; split; [done |]); constructor).
    rewrite be16_cons, be16_val by done. by apply (be_val_bytes [a; b]). }
  unfold hdr. cbn [drop]. by rewrite !R.
Qed.

Lemma be16_range p : bytes p -> 0 <= opssl_be16 p < 65536.
Proof. intros H. rewrite be16_spec by done. pose proof (bytes_get p 0 H) as [? ?]. pose proof (bytes_get p 1 H) as [? ?]. lia. Qed.

Lemma be16_be_bytes v l : 0 <= v < 65536 -> opssl_be16 (be_bytes 2 v ++ l) = v.
Proof.
  intros H. pose proof (be_bytes_ok 2 v) as B. pose proof (be_bytes_val 2 v H) as E. cbn [be_bytes app] in *. by rewrite be16_cons, be16_val.
Qed.

(** The bytes after the header of a record, as many as it announces. *)
Definition payload (buf : list Z) : list Z := sub_list 5 (off (opssl_be16 (drop 3 buf))) buf.

(** The record was made, under the receiver's key and at the receiver's sequence
    number, by encrypting [m]. *)
Definition genuine (S : aead_scheme) (st : record_cipher_state_t) (buf m : list Z) : Prop :=
  if is_tls13 st then payload buf = sc_encrypt S (record_make_nonce st) (take 5 buf) m
  else exists e, length e = 8%nat /\
    payload buf = e ++ sc_encrypt S (take 4 (iv st) ++ e) (record_make_aad st buf.[0] (opssl_be16 (drop 1 buf)) (Z.of_nat (length m))) m.

(** [m] with the content type [t] is what [inner] carries. *)
Definition inner_of (st : record_cipher_state_t) (buf inner : list Z) (t : Z) (m : list Z) : Prop :=
  if is_tls13 st then t <> 0 /\ exists k, inner = m ++ t :: replicate k 0 else t = buf.[0] /\ inner = m.

Definition rejected (S : aead_scheme) (st : record_cipher_state_t) (buf : list Z) : Prop :=
  seq st = UINT64_MAX \/ (length buf < 5 + off (opssl_be16 (drop 3 buf)))%nat \/
  forall m, sc_tag_len S = 16%nat -> sc_fits S (length m) 13 = true -> ~ genuine S st buf m.

Definition decrypt_post (S : aead_scheme) (st : record_cipher_state_t) (buf : list Z) (err : err_state)
    (res : Z * record_cipher_state_t * list Z * err_state * option Z) : Prop :=
  let '(r, st', buf', err', ct) := res in
  length buf' = length buf /\
  ((r = -1 /\ ct = None /\ st' = st /\ rejected S st buf) \/
   (r = -1 /\ ct = None /\ st' = set_seq st (seq st + 1) /\ is_tls13 st = true /\ exists k, genuine S st buf (replicate k 0)) \/
   (exists inner m t, r = Z.of_nat (length m) /\ ct = Some t /\ st' = set_seq st (seq st + 1) /\ err' = err /\
      sub_list 5 (length m) buf' = m /\ genuine S st buf inner /\ inner_of st buf inner t m)).

Lemma sub_splice buf o x : (o + length x <= length buf)%nat -> sub_list o (length x) (splice buf o x) = x.
Proof. intros H. unfold sub_list, splice. rewrite drop_app_length' by (rewrite length_take; lia). apply take_app_length. Qed.

Lemma hdr_parse ct ver len (body rest : list Z) : 0 <= ver < 65536 -> len = Z.of_nat (length body) -> len < 65536 ->
  let buf := hdr ct ver len ++ body ++ rest in
  take 5 buf = hdr ct ver len /\ buf.[0] = ct /\ opssl_be16 (drop 1 buf) = ver /\ opssl_be16 (drop 3 buf) = len /\ payload buf = body.
Proof.
  intros Hv -> Hl buf. assert (opssl_be16 (drop 3 buf) = Z.of_nat (length body)) as E3.
  { change (drop 3 buf) with (be_bytes 2 (Z.of_nat (length body)) ++ body ++ rest). apply be16_be_bytes. lia. }
  split; [done |]. split; [done |]. split; [| split; [done |]].
  - change (drop 1 buf) with ((be_bytes 2 ver ++ be_bytes 2 (Z.of_nat (length body))) ++ body ++ rest). rewrite <- app_assoc. by apply be16_be_bytes.
  - unfold payload. rewrite E3. unfold off. rewrite Nat2Z.id. change (sub_list 5 (length body) buf) with (take (length body) (body ++ rest)). apply take_app_length.
Qed.

Lemma encrypt_inj S n a a' m m' : AeadLaws S -> nonce_ok n -> length m = length m' -> sc_encrypt S n a m = sc_encrypt S n a' m' -> m = m'.
Proof.
  intros L Hn Hl E. unfold sc_encrypt in E. apply app_inj_1 in E as [E _]; [| by rewrite !sc_ctr_length].
  rewrite <- (sc_ctr_involutive n m Hn), E. by apply sc_ctr_involutive.
Qed.

(** What is left of a padded message determines it. *)
Lemma padded_inj (m m' : list Z) t t' k : t <> 0 -> t' <> 0 -> m ++ [t] = m' ++ t' :: replicate k 0 -> m = m' /\ t = t'.
Proof.
  intros Ht Ht' E. destruct k as [| k]; [by apply app_inj_tail in E |].
  change (t' :: replicate (S k) 0) with ([t'] ++ replicate (S k) 0) in E. rewrite replicate_S_end, !app_assoc in E. by apply app_inj_tail in E as [_ ->].
Qed.

Section Spec.
Context {C : Cpu} {X : Avx2} {XS : Avx2Spec X} {I : AesInstr} {IS : AesInstrSpec I} {J : Clmul} {JS : ClmulSpec J}.
Context (fuel : nat) (junk : poly1305_state_t) (calloc_ok : bool) (st : record_cipher_state_t) (ctx : opssl_aead_ctx).
Context (Hst : rec_ok junk calloc_ok st ctx).

Lemma rec_call buf o len aad : buf_ok fuel buf -> (o + len <= length buf)%nat -> bytes aad -> (length aad <= 13)%nat ->
  call_ok fuel junk calloc_ok ctx aad (sub_list o len buf).
Proof.
  intros (Hb & Hs & Hf) Hl Ha Hla. destruct Hst. assert (length (sub_list o len buf) = len) as El by (by apply sub_list_length).
  split; try done; unfold size_ok, SIZE_MAX in *; try rewrite El; try lia. by apply bytes_sub.
Qed.

Lemma seal_at_ok buf o max nonce i len aad : buf_ok fuel buf -> (o + max <= length buf)%nat -> (i + len <= length buf)%nat ->
  nonce_ok nonce -> bytes aad -> (length aad <= 13)%nat ->
  seal_at fuel junk calloc_ok (Some ctx) buf o max nonce i len aad =
    let r := seal_spec (scheme_of ctx) (sub_list o max buf) 0 nonce (sub_list i len buf) aad in Some (r.1.1, splice buf o r.1.2, r.2).
Proof.
  intros Hb Ho Hi Hn Ha Hla. unfold seal_at. rewrite !(proj2 (Nat.ltb_ge _ _)) by done. cbn [orb].
  rewrite dispatch_seal by (done || (by apply rec_call) || by apply bytes_sub, Hb). done.
Qed.

Lemma open_at_ok buf o max nonce i len aad : buf_ok fuel buf -> (o + max <= length buf)%nat -> (i + len <= length buf)%nat ->
  nonce_ok nonce -> bytes aad -> (length aad <= 13)%nat ->
  open_at fuel junk calloc_ok (Some ctx) buf o max nonce i len aad =
    let r := open_spec (scheme_of ctx) (sub_list o max buf) 0 nonce (sub_list i len buf) aad in Some (r.1.1, splice buf o r.1.2, r.2).
Proof.
  intros Hb Ho Hi Hn Ha Hla. unfold open_at. rewrite !(proj2 (Nat.ltb_ge _ _)) by done. cbn [orb].
  rewrite dispatch_open by (done || (by apply rec_call) || by apply bytes_sub, Hb). done.
Qed.

Lemma rec_nonce : nonce_ok (record_make_nonce st).
Proof. destruct Hst. by apply make_nonce_ok. Qed.

(** Sealing a window that is long enough. *)
Lemma seal_at_window buf o max nonce i len aad : buf_ok fuel buf -> (o + max <= length buf)%nat -> (i + len <= length buf)%nat ->
  nonce_ok nonce -> bytes aad -> (length aad <= 13)%nat -> max = (len + 16)%nat ->
  seal_at fuel junk calloc_ok (Some ctx) buf o max nonce i len aad =
    if sc_fits (scheme_of ctx) len (length aad)
    then Some (1, splice buf o (sc_encrypt (scheme_of ctx) nonce aad (sub_list i len buf)), Z.of_nat (len + sc_tag_len (scheme_of ctx)))
    else Some (0, buf, 0).
Proof.
  intros Hb Ho Hi Hn Ha Hla ->. rewrite seal_at_ok by done. cbv zeta. unfold seal_spec. pose proof (tag_len_le ctx).
  pose proof (sub_list_length i len buf Hi) as Hl. rewrite Hl, sub_list_length by done. rewrite (proj2 (Nat.leb_le _ _)), andb_true_r by lia.
  destruct (sc_fits _ _ _); cbn [fst snd]; [| by rewrite splice_same].
  destruct Hst. pose proof (scheme_laws ctx ro_ctx0). rewrite splice_window; [done | done |]. rewrite encrypt_length by done. lia.
Qed.

Lemma seq_next : seq st < UINT64_MAX -> u64 (seq st + 1) = seq st + 1.
Proof. unfold UINT64_MAX. intros H. apply u64_id. destruct Hst as [_ _ _ _ _ _ Hs]. lia. Qed.


Section Encrypt.
Context (buf : list Z) (ct : Z) (p : nat) (err : err_state).
Context (Hb : buf_ok fuel buf) (Hct : byte_ok ct) (Hs : seq st < UINT64_MAX) (Hl : (p + overhead st <= length buf)%nat).

(** The lengths the cipher is called with. *)
Let fits : bool := if is_tls13 st then sc_fits (scheme_of ctx) (p + 1) 5 else sc_fits (scheme_of ctx) p 13.

(** With room for the record, it is written, unless the cipher refuses the length. *)
Let outcome : Prop := exists buf1, sub_list (plain_at st) p buf1 = sub_list (plain_at st) p buf /\
  opssl_record_encrypt fuel junk calloc_ok st buf ct p err =
    if fits then Some (Z.of_nat (p + overhead st), set_seq st (seq st + 1), splice buf 0 (wire (scheme_of ctx) st ct (sub_list (plain_at st) p buf)), err)
    else Some (-1, st, buf1, err).

Ltac open_encrypt E13 :=
  pose proof Hst as [Hci Hctx _ _ _ _ _]; pose proof (scheme_laws ctx Hctx) as L; pose proof Hb as (Hbb & Hbs & Hbf); pose proof rec_nonce as Hn;
  unfold outcome, fits, opssl_record_encrypt, wire, overhead, plain_at in *; rewrite Hci; cbv zeta; rewrite (proj2 (Z.eqb_neq _ _)) by lia;
  rewrite seq_next, E13 in * by done; cbv iota in *.

Lemma encrypt_outcome_13 : is_tls13 st = true -> outcome.
Proof.
  intros E13. open_encrypt E13.
  rewrite (u64_id (Z.of_nat p + 1 + 16)) by lia. rewrite !u64_id by (unfold TLS_RECORD_HEADER_LEN; lia). rewrite (proj2 (Z.ltb_ge _ _)) by (unfold TLS_RECORD_HEADER_LEN; lia).
  rewrite put_header_spec, hdr_u16 by lia. set (h := hdr _ _ _).
  assert (length (h ++ drop 5 buf) = length buf) as Hlb by (rewrite length_app, length_drop; unfold h; rewrite hdr_length; lia).
  rewrite Hlb. rewrite (proj2 (Nat.leb_gt _ _)) by (unfold TLS_RECORD_HEADER_LEN; lia). change TLS_RECORD_HEADER_LEN with 5%nat.
  set (buf1 := <[_ := ct]> _). assert (length buf1 = length buf) as Hl1 by (unfold buf1; by rewrite length_insert).
  assert (buf_ok fuel buf1) as Hb1.
  { unfold buf_ok. rewrite Hl1. split; [| done]. apply Forall_insert; [| done]. apply bytes_app. split; [by apply hdr_bytes | by apply bytes_drop]. }
  replace (off (Z.of_nat p + 1 + 16)) with (p + 1 + 16)%nat by (unfold off; lia). rewrite make_aad_spec, E13, hdr_u16. fold h. cbn [app].
  assert (bytes h /\ length h = 5%nat) as [Hh1 Hh2] by (split; [by apply hdr_bytes | done]). rewrite seal_at_window by (done || lia). rewrite Hh2.
  pose proof (sub_list_length 5 p buf ltac:(lia)) as Hsl.
  destruct (tls13_window h buf p ct (sc_encrypt (scheme_of ctx) (record_make_nonce st) h (sub_list 5 p buf ++ [ct])))
    as [W1 W2]; [done | lia | rewrite encrypt_length, length_app, Hsl by done; cbn; lia |].
  unfold buf1 in *. rewrite W1, W2. exists (<[(5 + p)%nat := ct]> (h ++ drop 5 buf)). split.
  - apply (f_equal (take p)) in W1. rewrite take_app_length' in W1 by done. rewrite <- W1. unfold sub_list. rewrite take_take. f_equal. lia.
  - destruct (sc_fits _ _ _); cbn [Z.eqb]; [| done]. rewrite s32_id by lia. rewrite Hsl.
    replace (Z.of_nat p + 17) with (Z.of_nat p + 1 + 16) by lia. fold h. do 4 f_equal. lia.
Qed.

Lemma encrypt_outcome_12 : is_tls13 st = false -> outcome.
Proof.
  intros E13. open_encrypt E13.
  rewrite (u64_id (8 + Z.of_nat p + 16)), (u64_id (Z.of_nat p + 16)) by lia. rewrite !u64_id by (unfold TLS_RECORD_HEADER_LEN; lia).
  rewrite (proj2 (Z.ltb_ge _ _)) by (unfold TLS_RECORD_HEADER_LEN; lia).
  rewrite put_header_spec, hdr_u16 by lia. set (h := hdr _ _ _). change TLS_RECORD_HEADER_LEN with 5%nat. change (5 + 8)%nat with 13%nat.
  assert (length (h ++ drop 5 buf) = length buf) as Hlb by (rewrite length_app, length_drop; unfold h; rewrite hdr_length; lia).
  rewrite put_be64_bytes. set (e := be_bytes 8 (seq st)) in *. assert (length e = 8%nat) as He by apply be_bytes_length.
  set (buf1 := splice _ 5 _). assert (length buf1 = length buf) as Hl1 by (unfold buf1; rewrite splice_length; rewrite ?He; lia).
  assert (buf_ok fuel buf1) as Hb1.
  { unfold buf_ok. rewrite Hl1. split; [| done]. apply bytes_splice; [| apply be_bytes_ok]. apply bytes_app. split; [by apply hdr_bytes | by apply bytes_drop]. }
  replace (off (Z.of_nat p + 16)) with (p + 16)%nat by (unfold off; lia). rewrite !make_aad_spec, E13, hdr_u16. fold e. set (aad := e ++ hdr ct 771 (Z.of_nat p)) in *.
  assert (bytes aad /\ length aad = 13%nat) as [Ha1 Ha2].
  { unfold aad. rewrite length_app, He. split; [| done]. apply bytes_app. split; [apply be_bytes_ok | by apply hdr_bytes]. }
  rewrite seal_at_window by (done || lia). rewrite Ha2.
  pose proof (sub_list_length 13 p buf ltac:(lia)) as Hsl.
  destruct (tls12_window h e buf p (sc_encrypt (scheme_of ctx) (record_make_nonce st) aad (sub_list 13 p buf))) as [W1 W2]; [done | done | lia |].
  unfold buf1 in *. rewrite W1, W2. exists (splice (h ++ drop 5 buf) 5 e). split; [done |].
  destruct (sc_fits (scheme_of ctx) p 13); cbn [Z.eqb]; [| done]. rewrite s32_id by lia. rewrite Hsl.
  replace (Z.of_nat p + 24) with (8 + Z.of_nat p + 16) by lia. fold h aad. do 4 f_equal. lia.
Qed.

Lemma encrypt_outcome : outcome.
Proof. destruct (bool_dec (is_tls13 st) true) as [E | E%not_true_is_false]; [by apply encrypt_outcome_13 | by apply encrypt_outcome_12]. Qed.

Lemma encrypt_spec : sc_fits (scheme_of ctx) (p + 1) 13 = true ->
  opssl_record_encrypt fuel junk calloc_ok st buf ct p err =
    Some (Z.of_nat (p + overhead st), set_seq st (seq st + 1), splice buf 0 (wire (scheme_of ctx) st ct (sub_list (plain_at st) p buf)), err).
Proof.
  intros Hf. destruct encrypt_outcome as (buf1 & _ & ->). replace fits with true; [done |]. symmetry. unfold fits.
  destruct (is_tls13 st); apply (sc_fits_le _ _ _ _ _ Hf); lia.
Qed.
End Encrypt.

Section Decrypt.
Context (buf : list Z) (err : err_state).
Context (Hb : buf_ok fuel buf) (H5 : (5 <= length buf)%nat) (Hs : seq st < UINT64_MAX).
Context (Hpl : (5 + off (opssl_be16 (drop 3 buf)) <= length buf)%nat).

Let pl : nat := off (opssl_be16 (drop 3 buf)).

Lemma pl_eq : opssl_be16 (drop 3 buf) = Z.of_nat pl /\ Z.of_nat pl < 65536.
Proof. pose proof (be16_range (drop 3 buf) ltac:(apply bytes_drop, Hb)). unfold pl, off. lia. Qed.

Lemma payload_split : (8 <= pl)%nat -> payload buf = sub_list 5 8 buf ++ sub_list 13 (pl - 8) buf.
Proof.
  intros H. unfold payload, sub_list. fold pl. rewrite <- (take_drop 8 (take pl (drop 5 buf))). f_equal; [rewrite take_take; f_equal; lia |].
  rewrite skipn_firstn_comm, drop_drop. f_equal.
Qed.

Ltac open_decrypt E13 :=
  pose proof Hst as [Hci Hctx _ _ _ _ _]; pose proof (scheme_laws ctx Hctx) as L; pose proof Hb as (Hbb & Hbs & Hbf); pose proof rec_nonce as Hn;
  unfold opssl_record_decrypt; rewrite Hci; cbv zeta; change TLS_RECORD_HEADER_LEN with 5%nat;
  rewrite (proj2 (Nat.ltb_ge _ _)) by lia; rewrite (proj2 (Z.eqb_neq _ _)) by lia;
  destruct pl_eq as [Epl Hpl']; fold pl; rewrite Epl; rewrite (proj2 (Z.ltb_ge _ _)) by lia;
  rewrite E13; try replace (off (Z.of_nat pl)) with pl by (unfold off; lia).

Lemma genuine_length m : genuine (scheme_of ctx) st buf m -> pl = (length m + sc_tag_len (scheme_of ctx) + if is_tls13 st then 0 else 8)%nat.
Proof.
  pose proof Hst as [_ Hctx _ _ Hiv Hivb _]. pose proof (scheme_laws ctx Hctx) as L. pose proof rec_nonce as Hn. destruct Hb as [Hbb _].
  assert (length (payload buf) = pl) as Hlp by (by apply sub_list_length). unfold genuine. destruct (is_tls13 st).
  - intros Ep. rewrite Ep, encrypt_length in Hlp by done. lia.
  - intros (e & He & Ep). pose proof (bytes_sub 5 pl buf Hbb) as B. change (sub_list 5 pl buf) with (payload buf) in B. rewrite Ep in B, Hlp.
    apply bytes_app in B as [B _]. rewrite length_app, encrypt_length, He in Hlp; [lia | done |].
    split; [rewrite length_app, length_take; lia |]. apply bytes_app. split; [by apply bytes_take | done].
Qed.

(** A result of -1 that moves nothing: what is left is that no fitting message is
    the one of the record. *)
Ltac refuse :=
  eexists; split; [reflexivity |]; split; [done |]; left; do 3 (split; [done |]); right; right;
  let m := fresh "m" in intros m Htag Hfit Hg; pose proof (genuine_length m Hg) as Hgl.

Lemma decrypt_13 : is_tls13 st = true ->
  exists res, opssl_record_decrypt fuel junk calloc_ok st buf err = Some res /\ decrypt_post (scheme_of ctx) st buf err res.
Proof.
  intros E13. open_decrypt E13. case_if; bool_to_prop; [refuse; rewrite E13 in Hgl; lia |].
  assert (bytes (record_make_aad st buf.[0] (opssl_be16 (drop 1 buf)) (Z.of_nat pl)) /\ record_make_aad st buf.[0] (opssl_be16 (drop 1 buf)) (Z.of_nat pl) = take 5 buf) as [Ha1 Ha2].
  { split; [by apply make_aad_ok, bytes_get |]. rewrite make_aad_spec, E13, <- Epl. by apply hdr_read. }
  rewrite Ha2 in *. rewrite open_at_ok by (done || rewrite length_take; lia). cbv zeta.
  change (sub_list 5 pl buf) with (payload buf). assert (length (payload buf) = pl) as Hlp by (by apply sub_list_length).
  destruct (open_spec_shape (scheme_of ctx) (payload buf) 0 (record_make_nonce st) (payload buf) (take 5 buf)) as [Hr Hlo]. specialize (Hlo L Hn).
  destruct (open_spec _ _ _ _ _ _) as [[r out] l] eqn:E. cbn [fst snd] in *.
  assert (length (splice buf 5 out) = length buf) as Hls by (apply splice_length; lia).
  destruct Hr as [-> | ->]; cbn [Z.eqb].
  { refuse. unfold genuine in Hg. rewrite E13, Htag in *. rewrite Hg in E. rewrite open_encrypt in E; [done | done | done | |].
    - apply (sc_fits_le _ _ _ _ _ Hfit); rewrite ?length_take; lia.
    - rewrite <- Hg. lia. }
  apply open_only in E; [| done | done]. destruct E as (m & Ec & -> & -> & Hlm). rewrite seq_next by done.
  replace (off (Z.of_nat (length m))) with (length m) by (unfold off; lia).
  pose proof (splice_window buf 5 pl m ltac:(done) ltac:(lia)) as Hw. change (sub_list 5 pl buf) with (payload buf) in Hw. rewrite Hw in *.
  set (buf' := splice buf 5 m) in *. assert (take (length m) (drop 5 buf') = m) as Em by (apply (sub_splice buf 5 m); lia).
  destruct (strip_padding_spec (drop 5 buf') (length m)) as [[-> Hz] | (m' & t & -> & Ht & Ht0 & Hm)]; [rewrite length_drop; lia | |].
  - cbn [Nat.eqb]. eexists. split; [reflexivity |]. split; [done |]. right. left. do 4 (split; [done |]).
    exists (length m). unfold genuine. rewrite E13. by rewrite <- Hz, Em.
  - cbn [Nat.eqb]. replace (S (length m') - 1)%nat with (length m') by lia. rewrite Em in Hm.
    pose proof (f_equal length Hm) as Hlm'. rewrite length_app in Hlm'. cbn [length] in Hlm'.
    rewrite s32_id by lia. eexists. split; [reflexivity |]. split; [done |]. right. right. exists m, m', t. rewrite <- Ht. do 4 (split; [done |]). split.
    + change (sub_list 5 (length m') buf') with (take (length m') (drop 5 buf')). replace (length m') with (length m' `min` length m)%nat at 1 by lia.
      rewrite <- take_take, Em, Hm. by rewrite take_app_length.
    + unfold genuine, inner_of. rewrite E13. split; [done |]. split; [done |]. by eexists.
Qed.

Lemma decrypt_12 : is_tls13 st = false ->
  exists res, opssl_record_decrypt fuel junk calloc_ok st buf err = Some res /\ decrypt_post (scheme_of ctx) st buf err res.
Proof.
  intros E13. open_decrypt E13. case_if; bool_to_prop; [refuse; rewrite E13 in Hgl; lia |].
  rewrite (proj2 (Z.ltb_ge _ _)) by lia. change (5 + 8)%nat with 13%nat. rewrite u16_id by lia. set (e := sub_list 5 8 buf).
  assert (length e = 8%nat) as He by (apply sub_list_length; lia).
  assert (nonce_ok (take 4 (iv st) ++ e)) as Hn'.
  { destruct Hst. split; [rewrite length_app, length_take; lia |]. apply bytes_app. split; [by apply bytes_take | by apply bytes_sub]. }
  replace (off (Z.of_nat pl - 8 - 16)) with (pl - 24)%nat by (unfold off; lia). replace (off (Z.of_nat pl - 8)) with (pl - 8)%nat by (unfold off; lia).
  replace (Z.of_nat pl - 8 - 16) with (Z.of_nat (pl - 24)) by lia.
  destruct (make_aad_ok st buf.[0] (opssl_be16 (drop 1 buf)) (Z.of_nat (pl - 24)) ltac:(by apply bytes_get)) as [Ha1 Ha2].
  rewrite open_at_ok by (done || lia). cbv zeta.
  destruct (open_spec_shape (scheme_of ctx) (sub_list 5 (pl - 24) buf) 0 (take 4 (iv st) ++ e) (sub_list 13 (pl - 8) buf)
    (record_make_aad st buf.[0] (opssl_be16 (drop 1 buf)) (Z.of_nat (pl - 24)))) as [Hr Hlo]. specialize (Hlo L Hn').
  destruct (open_spec _ _ _ _ _ _) as [[r out] l] eqn:E. cbn [fst snd] in *. rewrite sub_list_length in Hlo by lia.
  assert (length (splice buf 5 out) = length buf) as Hls by (apply splice_length; lia).
  destruct Hr as [-> | ->]; cbn [Z.eqb].
  { refuse. unfold genuine in Hg. rewrite E13, Htag in *. destruct Hg as (e' & He' & Hg).
    assert (e = e' /\ sub_list 13 (pl - 8) buf = sc_encrypt (scheme_of ctx) (take 4 (iv st) ++ e') (record_make_aad st buf.[0] (opssl_be16 (drop 1 buf)) (Z.of_nat (length m))) m) as [<- Hc].
    { apply app_inj_1; [by rewrite He, He' |]. rewrite <- Hg. symmetry. apply payload_split. lia. }
    replace (length m) with (pl - 24)%nat in Hc at 1 by lia. rewrite Hc in E. rewrite open_encrypt in E; [done | done | done | |].
    - apply (sc_fits_le _ _ _ _ _ Hfit); lia.
    - rewrite sub_list_length by lia. lia. }
  apply open_only in E; [| done | done]. destruct E as (m & Ec & -> & -> & Hlm). rewrite sub_list_length in Hlm by lia.
  rewrite seq_next, s32_id, splice_window by (done || lia). eexists. split; [reflexivity |]. rewrite splice_window in Hls by (done || lia).
  split; [done |]. right. right. exists m, m, buf.[0]. do 4 (split; [done |]). split; [apply sub_splice; lia |].
  unfold genuine, inner_of. rewrite E13. split; [| done]. exists e. split; [done |].
  assert (length m = pl - 24)%nat as ->.
  { pose proof (f_equal length Ec) as G. rewrite sub_list_length, encrypt_length in G by (done || lia). pose proof (tag_len_le ctx). lia. }
  rewrite <- Ec. apply payload_split. lia.
Qed.

Lemma decrypt_any :
  exists res, opssl_record_decrypt fuel junk calloc_ok st buf err = Some res /\ decrypt_post (scheme_of ctx) st buf err res.
Proof. destruct (is_tls13 st) eqn:E; [by apply decrypt_13 | by apply decrypt_12]. Qed.

Lemma genuine_inj m m' : genuine (scheme_of ctx) st buf m -> genuine (scheme_of ctx) st buf m' -> m = m'.
Proof.
  intros G G'. pose proof (genuine_length m G). pose proof (genuine_length m' G'). pose proof Hst as [_ Hctx _ _ Hiv Hivb _]. pose proof (scheme_laws ctx Hctx) as L.
  pose proof rec_nonce as Hn. unfold genuine in *. destruct (is_tls13 st).
  - rewrite G in G'. eapply encrypt_inj; [done | | | exact G']; [done | lia].
  - destruct G as (e & He & G), G' as (e' & He' & G'). pose proof (bytes_sub 5 pl buf ltac:(apply Hb)) as B. change (sub_list 5 pl buf) with (payload buf) in B.
    rewrite G in B, G'. apply bytes_app in B as [B _]. apply app_inj_1 in G' as [<- G']; [| by rewrite He].
    eapply encrypt_inj; [done | | | exact G']; [| lia]. split; [rewrite length_app, length_take; lia |]. apply bytes_app. split; [by apply bytes_take | done].
Qed.

End Decrypt.

Lemma wire_parse ct plain rest : let buf := wire (scheme_of ctx) st ct plain ++ rest in
  Z.of_nat (length plain) + 24 < 65536 -> sc_tag_len (scheme_of ctx) = 16%nat ->
  length (wire (scheme_of ctx) st ct plain) = (length plain + overhead st)%nat /\
  opssl_be16 (drop 3 buf) = Z.of_nat (length plain + overhead st - 5) /\
  genuine (scheme_of ctx) st buf (if is_tls13 st then plain ++ [ct] else plain) /\ (is_tls13 st = false -> buf.[0] = ct).
Proof.
  cbv zeta. intros Hl Ht. pose proof Hst as [_ Hctx _ _ _ _ _]. pose proof (scheme_laws ctx Hctx) as L. pose proof rec_nonce as Hn.
  unfold wire, genuine, overhead. cbv zeta. destruct (is_tls13 st) eqn:E13; rewrite <- !app_assoc.
  - set (h := hdr _ _ _). set (c := sc_encrypt _ _ _ _).
    assert (length c = length plain + 17)%nat as Hc by (unfold c; rewrite encrypt_length, length_app, Ht by done; cbn; lia).
    destruct (hdr_parse TLS_CT_APPLICATION_DATA 771 (Z.of_nat (length plain) + 17) c rest) as (P5 & P0 & P1 & P3 & Pp); [lia | lia | lia |]. fold h in P5, P0, P1, P3, Pp.
    rewrite ?P5, P3, Pp, length_app, Hc. split_and!; [cbn; lia | lia | done | done].
  - set (h := hdr _ _ _). set (e := be_bytes 8 (seq st)). set (c := sc_encrypt _ _ _ _). assert (length e = 8%nat) as He by apply be_bytes_length.
    assert (length c = length plain + 16)%nat as Hc by (unfold c; rewrite encrypt_length, Ht by done; lia).
    destruct (hdr_parse ct 771 (Z.of_nat (length plain) + 24) (e ++ c) rest) as (P5 & P0 & P1 & P3 & Pp); [lia | rewrite length_app; lia | lia |].
    fold h in P5, P0, P1, P3, Pp. rewrite <- app_assoc in P5, P0, P1, P3, Pp. rewrite P3, Pp, P1, P0, !length_app, Hc, He. split_and!; [cbn; lia | lia | | done].
    exists e. split; [done |]. unfold c. rewrite make_nonce_spec, E13 by apply Hst. done.
Qed.

Lemma wire_bytes ct plain : byte_ok ct -> bytes plain -> bytes (wire (scheme_of ctx) st ct plain).
Proof.
  intros Hct Hp. pose proof Hst as [_ Hctx _ _ _ _ _]. pose proof (scheme_laws ctx Hctx) as L. pose proof rec_nonce as Hn. unfold wire.
  destruct (is_tls13 st).
  - apply bytes_app. split; [by apply hdr_bytes |]. apply encrypt_bytes; [done | done |]. apply bytes_app. split; [done |]. apply bytes_cons. split; [done | constructor].
  - apply bytes_app. split; [by apply hdr_bytes |]. apply bytes_app. split; [apply be_bytes_ok | by apply encrypt_bytes].
Qed.

(** Decrypting what was just written. *)
Lemma decrypt_wire ct plain rest err : let buf := wire (scheme_of ctx) st ct plain ++ rest in
  buf_ok fuel buf -> Z.of_nat (length plain) + 24 < 65536 -> sc_tag_len (scheme_of ctx) = 16%nat -> sc_fits (scheme_of ctx) (length plain + 1) 13 = true ->
  seq st < UINT64_MAX -> (is_tls13 st = true -> ct <> 0) ->
  exists buf', opssl_record_decrypt fuel junk calloc_ok st buf err = Some (Z.of_nat (length plain), set_seq st (seq st + 1), buf', err, Some ct) /\
    length buf' = length buf /\ sub_list 5 (length plain) buf' = plain.
Proof.
  cbv zeta. intros Hb Hl Ht Hf Hs Hct. set (buf := _ ++ rest) in *. destruct (wire_parse ct plain rest Hl Ht) as (Hlw & P3 & G & P0). fold buf in P3, G, P0.
  assert (22 <= overhead st)%nat as Ho by (unfold overhead; destruct (is_tls13 st); lia).
  assert (length buf = length plain + overhead st + length rest)%nat as Hlb by (unfold buf; by rewrite length_app, Hlw).
  assert (5 + off (opssl_be16 (drop 3 buf)) <= length buf)%nat as Hpl by (rewrite P3; unfold off; lia).
  destruct (decrypt_any buf err Hb ltac:(lia) Hs Hpl) as ([[[[r st'] buf'] err'] ct'] & -> & Hlen & [H | [H | H]]).
  - destruct H as (_ & _ & _ & [H | [H | H]]); [lia | lia |]. exfalso. refine (H _ Ht _ G).
    apply (sc_fits_le _ _ _ _ _ Hf); [destruct (is_tls13 st); rewrite ?length_app; cbn; lia | lia].
  - destruct H as (_ & _ & _ & E13 & k & G'). pose proof (genuine_inj buf Hb ltac:(lia) Hpl _ _ G G') as E. rewrite E13 in *. exfalso. apply Hct; [done |].
    destruct k as [| k]; [by destruct plain |]. rewrite replicate_S_end in E. by apply app_inj_tail in E as [_ ->].
  - destruct H as (inner & m & t & -> & -> & -> & -> & Hm & G' & Hi). pose proof (genuine_inj buf Hb ltac:(lia) Hpl _ _ G G') as <-.
    assert (m = plain /\ t = ct) as [-> ->]; [| by exists buf'].
    unfold inner_of in Hi. destruct (is_tls13 st).
    + destruct Hi as (Ht0 & k & E). by destruct (padded_inj _ _ _ _ _ (Hct eq_refl) Ht0 E) as [-> ->].
    + destruct Hi as [-> <-]. split; [done |]. by apply P0.
Qed.
End Spec.

(* ------------------------------------------------------------------ *)
(** * The properties *)

(** C35: a record encrypted with a state decrypts, with a state of the same key, IV
    and sequence number and whatever follows it in the buffer, to the bytes and
    the content type that went in; both counters move by one.  The algorithm must
    have tags of sixteen bytes ([record_ccm8_broken] is what happens otherwise), and
    in TLS 1.3 the content type must not be zero. *)
Theorem record_roundtrip {C : Cpu} {X : Avx2} (XS : Avx2Spec X) {I : AesInstr} (IS : AesInstrSpec I) {J : Clmul} (JS : ClmulSpec J)
    fuel junk calloc_ok st ctx buf ct p rest err err2 :
  rec_ok junk calloc_ok st ctx -> buf_ok fuel buf -> byte_ok ct -> (is_tls13 st = true -> ct <> 0) -> seq st < UINT64_MAX ->
  (p + overhead st <= length buf)%nat -> Z.of_nat p + 24 < 65536 ->
  sc_tag_len (scheme_of ctx) = 16%nat -> sc_fits (scheme_of ctx) (p + 1) 13 = true ->
  exists rec, opssl_record_encrypt fuel junk calloc_ok st buf ct p err =
      Some (Z.of_nat (length rec), set_seq st (seq st + 1), splice buf 0 rec, err) /\
    length rec = (p + overhead st)%nat /\ bytes rec /\
    (buf_ok fuel (rec ++ rest) ->
     exists buf', opssl_record_decrypt fuel junk calloc_ok st (rec ++ rest) err2 =
         Some (Z.of_nat p, set_seq st (seq st + 1), buf', err2, Some ct) /\
       sub_list 5 p buf' = sub_list (plain_at st) p buf).
Proof.
  intros Hst Hb Hct Hct0 Hs Hl Hp Ht Hf. set (plain := sub_list (plain_at st) p buf).
  assert (length plain = p) as Hlp by (apply sub_list_length; unfold plain_at, overhead in *; destruct (is_tls13 st); lia).
  exists (wire (scheme_of ctx) st ct plain). rewrite <- Hlp in Hp, Hf.
  destruct (wire_parse junk calloc_ok st ctx Hst ct plain rest Hp Ht) as (Hlw & _). rewrite Hlp in Hlw. split; [| split; [done | split]].
  - rewrite Hlw. rewrite Hlp in Hf, Hp. by apply encrypt_spec.
  - apply (wire_bytes junk calloc_ok st ctx Hst); [done | apply bytes_sub, Hb].
  - intros Hbr. destruct (decrypt_wire fuel junk calloc_ok st ctx Hst ct plain rest err2 Hbr Hp Ht Hf Hs Hct0) as (buf' & E & _ & Hm).
    exists buf'. rewrite Hlp in *. done.
Qed.

(** C36: decrypting any bytes ends, without undefined behaviour, in one of three ways:
    a refusal that leaves the state as it was, when the counter is exhausted, the
    record is cut short or no fitting message encrypts to it; in TLS 1.3, an
    authenticated record of zeros alone, refused with the counter moved; or the
    message and type that were encrypted for this very sequence number. *)
Theorem record_decrypt_authentic {C : Cpu} {X : Avx2} (XS : Avx2Spec X) {I : AesInstr} (IS : AesInstrSpec I) {J : Clmul} (JS : ClmulSpec J)
    fuel junk calloc_ok st ctx buf err :
  rec_ok junk calloc_ok st ctx -> buf_ok fuel buf ->
  exists res, opssl_record_decrypt fuel junk calloc_ok st buf err = Some res /\ decrypt_post (scheme_of ctx) st buf err res.
Proof.
  intros Hst Hb. pose proof Hst as [Hci _ _ _ _ _ Hs].
  destruct (decide (length buf < 5)%nat) as [H5 | H5]; [| destruct (decide (seq st = UINT64_MAX)) as [Hm | Hm]; [|
    destruct (decide (length buf < 5 + off (opssl_be16 (drop 3 buf)))%nat) as [Hpl | Hpl]]].
  all: try (apply decrypt_any; (done || lia)).
  all: unfold opssl_record_decrypt; rewrite Hci; change TLS_RECORD_HEADER_LEN with 5%nat.
  - rewrite (proj2 (Nat.ltb_lt _ _)) by done. eexists. split; [reflexivity |]. split; [done |]. left. do 3 (split; [done |]). right. left. lia.
  - rewrite (proj2 (Nat.ltb_ge _ _)), Hm, Z.eqb_refl by lia. eexists. split; [reflexivity |]. split; [done |]. left. do 3 (split; [done |]). by left.
  - rewrite (proj2 (Nat.ltb_ge _ _)), (proj2 (Z.eqb_neq _ _)) by (done || lia). cbv zeta.
    pose proof (be16_range (drop 3 buf) ltac:(apply bytes_drop, Hb)). rewrite (proj2 (Z.ltb_lt _ _)) by (unfold off in Hpl; lia).
    eexists. split; [reflexivity |]. split; [done |]. left. do 3 (split; [done |]). by right; left.
Qed.

(** The calls of a writer, one after another, and what each returned and left in
    its buffer. *)
Definition write_call : Type := list Z * Z * nat.

Fixpoint encrypt_run `{Cpu} `{Avx2} `{AesInstr} `{Clmul} (fuel : nat) (junk : poly1305_state_t) (calloc_ok : bool)
    (st : record_cipher_state_t) (err : err_state) (calls : list write_call) : option (record_cipher_state_t * list (Z * list Z)) :=
  match calls with
  | [] => Some (st, [])
  | (buf, ct, p) :: calls =>
    '(r, st', buf', err') ← opssl_record_encrypt fuel junk calloc_ok st buf ct p err;
    '(st'', outs) ← encrypt_run fuel junk calloc_ok st' err' calls;
    Some (st'', (r, buf') :: outs)
  end.

Definition write_ok (fuel : nat) (call : write_call) : Prop :=
  let '(buf, ct, p) := call in buf_ok fuel buf /\ byte_ok ct /\ Z.of_nat p + 29 < 2 ^ 64.

(** A call that used no sequence number refused, and its plaintext is where it was.
    One that used [sq] left the record of its plaintext under the nonce of [sq]. *)
Definition written (S : aead_scheme) (st : record_cipher_state_t) (call : write_call) (out : Z * list Z) (used : option Z) : Prop :=
  let '(buf, ct, p) := call in
  let plain := sub_list (plain_at st) p buf in
  match used with
  | None => out.1 = -1 /\ sub_list (plain_at st) p out.2 = plain
  | Some sq => out.1 = Z.of_nat (p + overhead st) /\
      out.2 = splice buf 0 (wire_under S (is_tls13 st) sq (nonce_of (is_tls13 st) (iv st) sq) ct plain)
  end.

Lemma written_seq S st s call out used : written S (set_seq st s) call out used = written S st call out used.
Proof. done. Qed.

Section Run.
Context {C : Cpu} {X : Avx2} {XS : Avx2Spec X} {I : AesInstr} {IS : AesInstrSpec I} {J : Clmul} {JS : ClmulSpec J}.
Context (fuel : nat) (junk : poly1305_state_t) (calloc_ok : bool) (ctx : opssl_aead_ctx).

(** One call: a refusal, or the next sequence number. *)
Lemma encrypt_step st call err : rec_ok junk calloc_ok st ctx -> write_ok fuel call ->
  exists r buf' err' used, opssl_record_encrypt fuel junk calloc_ok st call.1.1 call.1.2 call.2 err =
      Some (r, set_seq st (seq st + from_option (fun _ => 1) 0 used), buf', err') /\
    written (scheme_of ctx) st call (r, buf') used /\ from_option (fun sq => sq = seq st /\ seq st < UINT64_MAX) True used.
Proof.
  destruct call as [[buf ct] p]. intros Hst (Hb & Hct & Hp). pose proof Hst as [Hci _ _ _ Hiv _ Hs]. cbn [fst snd].
  assert (set_seq st (seq st + 0) = st) as E0 by (rewrite Z.add_0_r; by destruct st).
  destruct (decide (seq st = UINT64_MAX)) as [Hm | Hm]; [| destruct (decide (p + overhead st <= length buf)%nat) as [Hl | Hl]].
  - unfold opssl_record_encrypt. rewrite Hci, Hm, Z.eqb_refl. eexists _, _, _, None. cbn [from_option]. rewrite <- Hm, E0. by split_and!.
  - destruct (encrypt_outcome fuel junk calloc_ok st ctx Hst buf ct p err Hb Hct ltac:(lia) Hl) as (buf1 & H1 & ->). case_if.
    + eexists _, _, _, (Some (seq st)). split; [reflexivity |]. cbn [written from_option fst snd]. split_and!; [done | | done | lia].
      by rewrite wire_is_under.
    + eexists _, _, _, None. cbn [from_option]. rewrite E0. by split_and!.
  - unfold opssl_record_encrypt, overhead in *. rewrite Hci, (proj2 (Z.eqb_neq _ _)) by done. cbv zeta. unfold TLS_RECORD_HEADER_LEN. destruct Hb as (_ & Hb & _).
    rewrite (u64_id (Z.of_nat p + 1 + 16)), (u64_id (8 + Z.of_nat p + 16)), (u64_id (Z.of_nat 5 + (Z.of_nat p + 1 + 16))), (u64_id (Z.of_nat 5 + (8 + Z.of_nat p + 16))) by lia.
    destruct (is_tls13 st); rewrite (proj2 (Z.ltb_lt _ _)) by lia; eexists _, _, _, None; cbn [from_option]; rewrite E0; by split_and!.
Qed.

Lemma encrypt_run_written calls : forall st err, rec_ok junk calloc_ok st ctx -> Forall (write_ok fuel) calls ->
  exists outs used, let n := length (omap id used) in
    encrypt_run fuel junk calloc_ok st err calls = Some (set_seq st (seq st + Z.of_nat n), outs) /\
    Forall3 (written (scheme_of ctx) st) calls outs used /\
    omap id used = seqZ (seq st) (Z.of_nat n) /\ seq st + Z.of_nat n <= UINT64_MAX.
Proof.
  induction calls as [| call calls IH]; intros st err Hst Hok.
  - exists [], []. cbn. rewrite Z.add_0_r. split_and!; [by destruct st | constructor | done | apply Hst].
  - apply Forall_cons in Hok as [Hc Hok].
    destruct (encrypt_step st call err Hst Hc) as (r & buf' & err' & used & E & Hw & Hu). set (st1 := set_seq st _) in E.
    assert (rec_ok junk calloc_ok st1 ctx) as Hst1 by (destruct Hst; split; try done; cbn; destruct used; cbn in *; lia).
    destruct (IH st1 err' Hst1 Hok) as (outs & us & Er & Hf & Hs & Hm). exists ((r, buf') :: outs), (used :: us). cbn zeta in *.
    destruct call as [[buf ct] p]. cbn [fst snd] in E. cbn [encrypt_run]. rewrite E. cbn [mbind option_bind]. rewrite Er. cbn [mbind option_bind].
    replace (written (scheme_of ctx) st1) with (written (scheme_of ctx) st) in Hf by done. clear E Er. subst st1. cbn [set_seq seq iv cipher is_tls13] in *.
    destruct used as [sq |]; cbn [from_option omap list_omap id length] in *.
    + destruct Hu as [-> Hlt]. split_and!; [do 3 f_equal; lia | by constructor | | lia].
      rewrite Nat2Z.inj_succ, seqZ_cons by lia. rewrite Hs at 1. do 2 f_equal; lia.
    + rewrite Z.add_0_r in *. by split_and!; [| constructor | |].
Qed.
End Run.

(** C37: over any calls, whatever their plaintexts, lengths and room, a call either
    refuses and encrypts nothing, or takes the next sequence number and leaves the
    record of its plaintext, header and type under the nonce of that number; no
    two calls have the same nonce, and the number never passes 2^64 - 1. *)
Theorem record_nonce_unique {C : Cpu} {X : Avx2} (XS : Avx2Spec X) {I : AesInstr} (IS : AesInstrSpec I) {J : Clmul} (JS : ClmulSpec J)
    fuel junk calloc_ok st ctx calls err :
  rec_ok junk calloc_ok st ctx -> Forall (write_ok fuel) calls ->
  exists outs used, let n := length (omap id used) in
    encrypt_run fuel junk calloc_ok st err calls = Some (set_seq st (seq st + Z.of_nat n), outs) /\
    Forall3 (written (scheme_of ctx) st) calls outs used /\
    omap id used = seqZ (seq st) (Z.of_nat n) /\ seq st + Z.of_nat n <= UINT64_MAX /\
    NoDup (nonce_of (is_tls13 st) (iv st) <$> omap id used).
Proof.
  intros Hst Hok. destruct (encrypt_run_written fuel junk calloc_ok ctx calls st err Hst Hok) as (outs & used & E & Hf & Hs & Hm).
  exists outs, used. split_and!; try done. rewrite Hs. pose proof Hst as [_ _ _ _ Hiv _ Hr].
  apply NoDup_fmap_2_strong; [| apply NoDup_seqZ]. intros x y Hx%elem_of_seqZ Hy%elem_of_seqZ. apply nonce_of_inj; [done | lia | lia].
Qed.

Section Witness.
#[local] Existing Instance plain_cpu.
#[local] Existing Instance avx2_model.
#[local] Existing Instance aes_instr_model.
#[local] Existing Instance clmul_model.

Definition demo_rec (c : opssl_aead_ctx) (tls13 : bool) : record_cipher_state_t := mk_rec (Some c) (replicate 12 7) 5 tls13.
Definition demo_ccm8 : opssl_aead_ctx := mk_aead OPSSL_AEAD_AES_128_CCM_8 (replicate 32 1) 16.

Lemma demo_rec_ok tls13 : rec_ok poly1305_zero true (demo_rec demo_ctx tls13) demo_ctx.
Proof. split; try done; [split; [done | solve_bytes] | solve_bytes]. Qed.

Lemma demo_buf_ok n : (n <= 100)%nat -> buf_ok 200 (replicate n 9).
Proof. intros H. split; [apply Forall_replicate; done |]. rewrite length_replicate. lia. Qed.

Lemma record_roundtrip_witness :
  exists rec buf', opssl_record_encrypt 200 poly1305_zero true (demo_rec demo_ctx true) (replicate 30 9) 22 3 err_tls_init =
      Some (Z.of_nat (length rec), set_seq (demo_rec demo_ctx true) 6, splice (replicate 30 9) 0 rec, err_tls_init) /\
    opssl_record_decrypt 200 poly1305_zero true (demo_rec demo_ctx true) (rec ++ []) err_tls_init =
      Some (3, set_seq (demo_rec demo_ctx true) 6, buf', err_tls_init, Some 22).
Proof.
  destruct (record_roundtrip avx2_model_spec aes_instr_model_spec clmul_model_spec 200 poly1305_zero true (demo_rec demo_ctx true) demo_ctx (replicate 30 9) 22 3 [] err_tls_init err_tls_init
    (demo_rec_ok true) (demo_buf_ok 30 ltac:(lia)) ltac:(done) ltac:(done) ltac:(done) ltac:(cbn; lia) ltac:(done) eq_refl eq_refl) as (rec & He & Hl & Hb & Hd).
  destruct Hd as (buf' & Hd & _); [| exists rec, buf'; split; [exact He | exact Hd]].
  rewrite app_nil_r. split; [exact Hb |]. rewrite Hl. cbn. lia.
Defined.

Lemma record_decrypt_authentic_witness :
  exists res, opssl_record_decrypt 200 poly1305_zero true (demo_rec demo_ctx false) (replicate 60 9) err_tls_init = Some res /\
    decrypt_post (scheme_of demo_ctx) (demo_rec demo_ctx false) (replicate 60 9) err_tls_init res.
Proof.
  exact (record_decrypt_authentic avx2_model_spec aes_instr_model_spec clmul_model_spec 200 poly1305_zero true (demo_rec demo_ctx false) demo_ctx (replicate 60 9) err_tls_init
    (demo_rec_ok false) (demo_buf_ok 60 ltac:(lia))).
Defined.

Definition demo_calls : list write_call := [(replicate 30 9, 22, 3%nat); (replicate 10 9, 22, 3%nat); (replicate 40 9, 23, 1%nat)].

Lemma record_nonce_unique_witness :
  exists outs used, encrypt_run 200 poly1305_zero true (demo_rec demo_ctx true) err_tls_init demo_calls = Some (set_seq (demo_rec demo_ctx true) (5 + Z.of_nat (length (omap id used))), outs) /\
    omap id used = seqZ 5 (Z.of_nat (length (omap id used))) /\ length used = 3%nat.
Proof.
  destruct (record_nonce_unique avx2_model_spec aes_instr_model_spec clmul_model_spec 200 poly1305_zero true (demo_rec demo_ctx true) demo_ctx demo_calls err_tls_init (demo_rec_ok true))
    as (outs & used & E & Hf & Hs & _).
  - repeat constructor; try (apply demo_buf_ok; lia); cbn; lia.
  - exists outs, used. split; [exact E |]. split; [exact Hs |]. symmetry. apply (Forall3_length_lr _ _ _ _ Hf).
Defined.

(** With the eight-byte tags of CCM_8, the record carries the eight bytes the tag
    does not fill, counts them, and does not decrypt: the 16 in the lengths is not
    the algorithm's tag length. *)
Example record_ccm8_broken (tls13 : bool) :
  opssl_aead_tag_len (ac_algo demo_ccm8) = 8 /\
  exists n st' buf' res, opssl_record_encrypt 200 poly1305_zero false (demo_rec demo_ccm8 tls13) (replicate 40 9) 23 4 err_tls_init = Some (n, st', buf', err_tls_init) /\
    n = Z.of_nat (4 + overhead (demo_rec demo_ccm8 tls13)) /\
    sub_list (Z.to_nat n - 8) 8 buf' = replicate 8 9 /\
    opssl_record_decrypt 200 poly1305_zero false (demo_rec demo_ccm8 tls13) buf' err_tls_init = Some res /\ res.1.1.1.1 = -1.
Proof.
  split; [done |]. destruct tls13; do 4 eexists; (split; [vm_compute; reflexivity |]); repeat (split; [vm_compute; reflexivity |]); vm_compute; reflexivity.
Qed.
End Witness.
