(* ===== verification/CipherSuite.v ===== *)
(** The registry of cipher suites: src/tls/ciphersuite.c.

    A C string is a [string] without its terminator.  The scans of
    [opssl_ciphersuite_parse_list] are structural recursions on the rest of the
    string; its outer loop, whose iterations skip several characters, runs on
    fuel, and [None] is "still running" or a write outside the output array. *)
From Stdlib Require Import Ascii.
From S2P Require Import Prelude Hmac AesSpec Aes AesNi BlockModes AesNiGcm Aead Record.
#[local] Open Scope Z_scope.

(** [opssl_ciphersuite_t]: the IANA numbers of types.h. *)
Definition OPSSL_TLS_AES_128_GCM_SHA256 : Z := 0x1301.
Definition OPSSL_TLS_AES_256_GCM_SHA384 : Z := 0x1302.
Definition OPSSL_TLS_CHACHA20_POLY1305_SHA256 : Z := 0x1303.
Definition OPSSL_TLS_AES_128_CCM_SHA256 : Z := 0x1304.
Definition OPSSL_TLS_AES_256_CCM_SHA384 : Z := 0xC0B0.
Definition OPSSL_TLS_AES_256_CCM_8_SHA384 : Z := 0xC0B1.
Definition OPSSL_TLS_CAMELLIA_128_GCM_SHA256 : Z := 0xC0B2.
Definition OPSSL_TLS_CAMELLIA_256_GCM_SHA384 : Z := 0xC0B3.
Definition OPSSL_TLS_ECDHE_RSA_AES_128_GCM : Z := 0xC02F.
Definition OPSSL_TLS_ECDHE_RSA_AES_256_GCM : Z := 0xC030.
Definition OPSSL_TLS_ECDHE_ECDSA_AES_128_GCM : Z := 0xC02B.
Definition OPSSL_TLS_ECDHE_ECDSA_AES_256_GCM : Z := 0xC02C.
Definition OPSSL_TLS_ECDHE_RSA_CHACHA20 : Z := 0xCCA8.
Definition OPSSL_TLS_ECDHE_ECDSA_CHACHA20 : Z := 0xCCA9.
Definition OPSSL_TLS_DHE_RSA_AES_128_GCM : Z := 0x009E.
Definition OPSSL_TLS_DHE_RSA_AES_256_GCM : Z := 0x009F.
Definition OPSSL_TLS_DHE_RSA_CHACHA20 : Z := 0xCCAA.
Definition OPSSL_TLS_ECDHE_ECDSA_AES_128_CCM : Z := 0xC0AC.
Definition OPSSL_TLS_ECDHE_ECDSA_AES_256_CCM : Z := 0xC0AD.
Definition OPSSL_TLS_DHE_RSA_AES_128_CCM : Z := 0xC09E.
Definition OPSSL_TLS_DHE_RSA_AES_256_CCM : Z := 0xC09F.
Definition OPSSL_TLS_AES_128_CCM_8_SHA256 : Z := 0x1305.
Definition OPSSL_TLS_DHE_RSA_AES_128_CCM_8 : Z := 0xC0A0.
Definition OPSSL_TLS_DHE_RSA_AES_256_CCM_8 : Z := 0xC0A1.
Definition OPSSL_TLS_ECDHE_ECDSA_AES_128_CCM_8 : Z := 0xC0AE.
Definition OPSSL_TLS_ECDHE_ECDSA_AES_256_CCM_8 : Z := 0xC0AF.
Definition OPSSL_TLS_ECDHE_ECDSA_CAMELLIA_128_GCM : Z := 0xC086.
Definition OPSSL_TLS_ECDHE_ECDSA_CAMELLIA_256_GCM : Z := 0xC087.
Definition OPSSL_TLS_ECDHE_RSA_CAMELLIA_128_GCM : Z := 0xC08A.
Definition OPSSL_TLS_ECDHE_RSA_CAMELLIA_256_GCM : Z := 0xC08B.
Definition OPSSL_TLS_DHE_RSA_CAMELLIA_128_GCM : Z := 0xC07C.
Definition OPSSL_TLS_DHE_RSA_CAMELLIA_256_GCM : Z := 0xC07D.

(** [opssl_tls_version_t] *)
Definition OPSSL_TLS_1_2 : Z := 0x0303.
Definition OPSSL_TLS_1_3 : Z := 0x0304.

Record opssl_ciphersuite_info_t := mk_suite {
  cs_id : Z;
  cs_name : string;
  cs_aead : opssl_aead_algo_t;
  cs_hash : opssl_hmac_algo_t;
  cs_key_len : Z; cs_iv_len : Z; cs_tag_len : Z;
  cs_is_tls13 : bool
}.

Definition cipher_suites : list opssl_ciphersuite_info_t := [
  mk_suite OPSSL_TLS_AES_256_GCM_SHA384 "TLS_AES_256_GCM_SHA384" OPSSL_AEAD_AES_256_GCM OPSSL_HMAC_SHA384 32 12 16 true;
  mk_suite OPSSL_TLS_CHACHA20_POLY1305_SHA256 "TLS_CHACHA20_POLY1305_SHA256" OPSSL_AEAD_CHACHA20_POLY1305 OPSSL_HMAC_SHA256 32 12 16 true;
  mk_suite OPSSL_TLS_AES_128_GCM_SHA256 "TLS_AES_128_GCM_SHA256" OPSSL_AEAD_AES_128_GCM OPSSL_HMAC_SHA256 16 12 16 true;
  mk_suite OPSSL_TLS_AES_128_CCM_SHA256 "TLS_AES_128_CCM_SHA256" OPSSL_AEAD_AES_128_CCM OPSSL_HMAC_SHA256 16 12 16 true;
  mk_suite OPSSL_TLS_AES_128_CCM_8_SHA256 "TLS_AES_128_CCM_8_SHA256" OPSSL_AEAD_AES_128_CCM_8 OPSSL_HMAC_SHA256 16 12 8 true;
  mk_suite OPSSL_TLS_AES_256_CCM_SHA384 "TLS_AES_256_CCM_SHA384" OPSSL_AEAD_AES_256_CCM OPSSL_HMAC_SHA384 32 12 16 true;
  mk_suite OPSSL_TLS_AES_256_CCM_8_SHA384 "TLS_AES_256_CCM_8_SHA384" OPSSL_AEAD_AES_256_CCM_8 OPSSL_HMAC_SHA384 32 12 8 true;
  mk_suite OPSSL_TLS_CAMELLIA_256_GCM_SHA384 "TLS_CAMELLIA_256_GCM_SHA384" OPSSL_AEAD_CAMELLIA_256_GCM OPSSL_HMAC_SHA384 32 12 16 true;
  mk_suite OPSSL_TLS_CAMELLIA_128_GCM_SHA256 "TLS_CAMELLIA_128_GCM_SHA256" OPSSL_AEAD_CAMELLIA_128_GCM OPSSL_HMAC_SHA256 16 12 16 true;
  mk_suite OPSSL_TLS_ECDHE_ECDSA_AES_256_GCM "TLS_ECDHE_ECDSA_WITH_AES_256_GCM_SHA384" OPSSL_AEAD_AES_256_GCM OPSSL_HMAC_SHA384 32 12 16 false;
  mk_suite OPSSL_TLS_ECDHE_RSA_AES_256_GCM "TLS_ECDHE_RSA_WITH_AES_256_GCM_SHA384" OPSSL_AEAD_AES_256_GCM OPSSL_HMAC_SHA384 32 12 16 false;
  mk_suite OPSSL_TLS_ECDHE_ECDSA_CHACHA20 "TLS_ECDHE_ECDSA_WITH_CHACHA20_POLY1305_SHA256" OPSSL_AEAD_CHACHA20_POLY1305 OPSSL_HMAC_SHA256 32 12 16 false;
  mk_suite OPSSL_TLS_ECDHE_RSA_CHACHA20 "TLS_ECDHE_RSA_WITH_CHACHA20_POLY1305_SHA256" OPSSL_AEAD_CHACHA20_POLY1305 OPSSL_HMAC_SHA256 32 12 16 false;
  mk_suite OPSSL_TLS_ECDHE_ECDSA_AES_128_GCM "TLS_ECDHE_ECDSA_WITH_AES_128_GCM_SHA256" OPSSL_AEAD_AES_128_GCM OPSSL_HMAC_SHA256 16 12 16 false;
  mk_suite OPSSL_TLS_ECDHE_RSA_AES_128_GCM "TLS_ECDHE_RSA_WITH_AES_128_GCM_SHA256" OPSSL_AEAD_AES_128_GCM OPSSL_HMAC_SHA256 16 12 16 false;
  mk_suite OPSSL_TLS_ECDHE_ECDSA_AES_256_CCM "TLS_ECDHE_ECDSA_WITH_AES_256_CCM" OPSSL_AEAD_AES_256_CCM OPSSL_HMAC_SHA256 32 12 16 false;
  mk_suite OPSSL_TLS_ECDHE_ECDSA_AES_128_CCM "TLS_ECDHE_ECDSA_WITH_AES_128_CCM" OPSSL_AEAD_AES_128_CCM OPSSL_HMAC_SHA256 16 12 16 false;
  mk_suite OPSSL_TLS_DHE_RSA_AES_256_CCM "TLS_DHE_RSA_WITH_AES_256_CCM" OPSSL_AEAD_AES_256_CCM OPSSL_HMAC_SHA256 32 12 16 false;
  mk_suite OPSSL_TLS_DHE_RSA_AES_128_CCM "TLS_DHE_RSA_WITH_AES_128_CCM" OPSSL_AEAD_AES_128_CCM OPSSL_HMAC_SHA256 16 12 16 false;
  mk_suite OPSSL_TLS_DHE_RSA_AES_256_CCM_8 "TLS_DHE_RSA_WITH_AES_256_CCM_8" OPSSL_AEAD_AES_256_CCM_8 OPSSL_HMAC_SHA256 32 12 8 false;
  mk_suite OPSSL_TLS_DHE_RSA_AES_128_CCM_8 "TLS_DHE_RSA_WITH_AES_128_CCM_8" OPSSL_AEAD_AES_128_CCM_8 OPSSL_HMAC_SHA256 16 12 8 false;
  mk_suite OPSSL_TLS_DHE_RSA_AES_256_GCM "TLS_DHE_RSA_WITH_AES_256_GCM_SHA384" OPSSL_AEAD_AES_256_GCM OPSSL_HMAC_SHA384 32 12 16 false;
  mk_suite OPSSL_TLS_DHE_RSA_CHACHA20 "TLS_DHE_RSA_WITH_CHACHA20_POLY1305_SHA256" OPSSL_AEAD_CHACHA20_POLY1305 OPSSL_HMAC_SHA256 32 12 16 false;
  mk_suite OPSSL_TLS_DHE_RSA_AES_128_GCM "TLS_DHE_RSA_WITH_AES_128_GCM_SHA256" OPSSL_AEAD_AES_128_GCM OPSSL_HMAC_SHA256 16 12 16 false;
  mk_suite OPSSL_TLS_ECDHE_ECDSA_AES_256_CCM_8 "TLS_ECDHE_ECDSA_WITH_AES_256_CCM_8" OPSSL_AEAD_AES_256_CCM_8 OPSSL_HMAC_SHA256 32 12 8 false;
  mk_suite OPSSL_TLS_ECDHE_ECDSA_AES_128_CCM_8 "TLS_ECDHE_ECDSA_WITH_AES_128_CCM_8" OPSSL_AEAD_AES_128_CCM_8 OPSSL_HMAC_SHA256 16 12 8 false;
  mk_suite OPSSL_TLS_ECDHE_ECDSA_CAMELLIA_256_GCM "TLS_ECDHE_ECDSA_WITH_CAMELLIA_256_GCM_SHA384" OPSSL_AEAD_CAMELLIA_256_GCM OPSSL_HMAC_SHA384 32 12 16 false;
  mk_suite OPSSL_TLS_ECDHE_RSA_CAMELLIA_256_GCM "TLS_ECDHE_RSA_WITH_CAMELLIA_256_GCM_SHA384" OPSSL_AEAD_CAMELLIA_256_GCM OPSSL_HMAC_SHA384 32 12 16 false;
  mk_suite OPSSL_TLS_ECDHE_ECDSA_CAMELLIA_128_GCM "TLS_ECDHE_ECDSA_WITH_CAMELLIA_128_GCM_SHA256" OPSSL_AEAD_CAMELLIA_128_GCM OPSSL_HMAC_SHA256 16 12 16 false;
  mk_suite OPSSL_TLS_ECDHE_RSA_CAMELLIA_128_GCM "TLS_ECDHE_RSA_WITH_CAMELLIA_128_GCM_SHA256" OPSSL_AEAD_CAMELLIA_128_GCM OPSSL_HMAC_SHA256 16 12 16 false;
  mk_suite OPSSL_TLS_DHE_RSA_CAMELLIA_256_GCM "TLS_DHE_RSA_WITH_CAMELLIA_256_GCM_SHA384" OPSSL_AEAD_CAMELLIA_256_GCM OPSSL_HMAC_SHA384 32 12 16 false;
  mk_suite OPSSL_TLS_DHE_RSA_CAMELLIA_128_GCM "TLS_DHE_RSA_WITH_CAMELLIA_128_GCM_SHA256" OPSSL_AEAD_CAMELLIA_128_GCM OPSSL_HMAC_SHA256 16 12 16 false
]%string.

(** The scans of the table, from its start to the first match. *)
Definition opssl_ciphersuite_find (id : Z) : option opssl_ciphersuite_info_t := List.find (fun s => cs_id s =? id) cipher_suites.

Definition opssl_ciphersuite_find_by_name (name : option string) : option opssl_ciphersuite_info_t :=
  match name with
  | None => None
  | Some name => List.find (fun s => bool_decide (cs_name s = name)) cipher_suites
  end.

Definition is_blank (c : ascii) : bool := bool_decide (c = " "%char) || bool_decide (c = "009"%char).

Fixpoint skip_blanks (s : string) : string :=
  match s with
  | String c r => if is_blank c then skip_blanks r else s
  | EmptyString => EmptyString
  end.

(** [end = start; while ( *end && ...) end++], giving the name and [end]. *)
Fixpoint scan_name (s : string) : string * string :=
  match s with
  | String c r => if bool_decide (c = ":"%char) || is_blank c then (EmptyString, s) else let '(n, e) := scan_name r in (String c n, e)
  | EmptyString => (EmptyString, EmptyString)
  end.

(** [start = ( *end == ':') ? end + 1 : end] *)
Definition next_start (e : string) : string :=
  match e with
  | String c r => if bool_decide (c = ":"%char) then r else e
  | EmptyString => e
  end.

Fixpoint parse_loop (fuel : nat) (start : string) (out : list Z) (parsed max : nat) : option (list Z * nat) :=
  if bool_decide (start = EmptyString) || negb (parsed <? max)%nat then Some (out, parsed) else
  match fuel with
  | O => None
  | S fuel =>
    let start := skip_blanks start in
    if bool_decide (start = EmptyString) then Some (out, parsed) else
    let '(name, e) := scan_name start in
    if (String.length name =? 0)%nat then Some (out, parsed) else
    if (256 <=? String.length name)%nat then parse_loop fuel (next_start e) out parsed max else
    match opssl_ciphersuite_find_by_name (Some name) with
    | Some info =>
      if (length out <=? parsed)%nat then None else
      parse_loop fuel (next_start e) (<[parsed := cs_id info]> out) (parsed + 1) max
    | None => parse_loop fuel (next_start e) out parsed max
    end
  end.

(** The return value of the three functions that fill an array. *)
Definition filled_ret (n : nat) : Z := if (0 <? n)%nat then s32 (Z.of_nat n) else -1.

(** Gives the return value, the array and [*count]. *)
Definition opssl_ciphersuite_parse_list (fuel : nat) (l : option string) (out : option (list Z)) (count : option nat) (max : nat) :
    option (Z * option (list Z) * option nat) :=
  match l, out, count with
  | Some l, Some o, Some _ =>
    if (max =? 0)%nat then Some (-1, out, count) else
    match parse_loop fuel l o 0 max with
    | None => None
    | Some (o, parsed) => Some (filled_ret parsed, Some o, Some parsed)
    end
  | _, _, _ => Some (-1, out, count)
  end.

(** One iteration of the loops over the table. *)
Definition default_step (tls13 : bool) (max : nat) (s : option (list Z * nat)) (info : opssl_ciphersuite_info_t) : option (list Z * nat) :=
  match s with
  | None => None
  | Some (out, filled) =>
    if negb (filled <? max)%nat then s else
    if Bool.eqb (cs_is_tls13 info) tls13
    then if (length out <=? filled)%nat then None else Some (<[filled := cs_id info]> out, (filled + 1)%nat)
    else s
  end.

Definition default_list (tls13 : bool) (out : option (list Z)) (count : option nat) (max : nat) : option (Z * option (list Z) * option nat) :=
  match out, count with
  | Some o, Some _ =>
    if (max =? 0)%nat then Some (-1, out, count) else
    match fold_left (default_step tls13 max) cipher_suites (Some (o, 0%nat)) with
    | None => None
    | Some (o, filled) => Some (filled_ret filled, Some o, Some filled)
    end
  | _, _ => Some (-1, out, count)
  end.

Definition opssl_ciphersuite_tls13_default := default_list true.
Definition opssl_ciphersuite_tls12_default := default_list false.

Definition opssl_ciphersuite_is_supported (id version : Z) : bool :=
  match opssl_ciphersuite_find id with
  | None => false
  | Some info => if version =? OPSSL_TLS_1_3 then cs_is_tls13 info else if version =? OPSSL_TLS_1_2 then negb (cs_is_tls13 info) else false
  end.

Definition opssl_ciphersuite_name (id : Z) : option string := cs_name <$> opssl_ciphersuite_find id.

(** The parameters, [None] for false. *)
Definition opssl_ciphersuite_get_params (id : Z) : option (opssl_aead_algo_t * opssl_hmac_algo_t * Z * Z * Z) :=
  (fun i => (cs_aead i, cs_hash i, cs_key_len i, cs_iv_len i, cs_tag_len i)) <$> opssl_ciphersuite_find id.

(* ------------------------------------------------------------------ *)
(** * The table *)

Lemma suites_distinct : NoDup (map cs_id cipher_suites) /\ NoDup (map cs_name cipher_suites).
Proof. split; apply (bool_decide_unpack _); vm_compute; exact I. Qed.

(** The first match in a list with distinct keys is the element. *)
Lemma find_key {A K} `{EqDecision K} (f : A -> K) (t : A -> bool) (l : list A) k a :
  (forall x, t x = true <-> f x = k) -> NoDup (map f l) -> a ∈ l -> f a = k -> List.find t l = Some a.
Proof.
  intros Ht. induction l as [| x l IH]; [by intros _ ?%not_elem_of_nil |]. cbn [map List.find]. rewrite NoDup_cons, elem_of_cons. intros [Hx Hn] [-> | Ha] Hk.
  - by rewrite (proj2 (Ht x)).
  - destruct (t x) eqn:E; [| auto]. apply Ht in E. destruct Hx. rewrite E, <- Hk. apply list_elem_of_In, in_map, list_elem_of_In, Ha.
Qed.

Lemma find_id info : info ∈ cipher_suites -> opssl_ciphersuite_find (cs_id info) = Some info.
Proof. intros H. apply (find_key cs_id _ _ (cs_id info)); [intros; apply Z.eqb_eq | apply suites_distinct | done | done]. Qed.

Lemma find_name info : info ∈ cipher_suites -> opssl_ciphersuite_find_by_name (Some (cs_name info)) = Some info.
Proof. intros H. apply (find_key cs_name _ _ (cs_name info)); [intros; by rewrite bool_decide_eq_true | apply suites_distinct | done | done]. Qed.

Lemma find_in id info : opssl_ciphersuite_find id = Some info -> info ∈ cipher_suites /\ cs_id info = id.
Proof. intros H. apply find_some in H as [H1 H2]. apply Z.eqb_eq in H2. split; [by apply list_elem_of_In | done]. Qed.

Lemma find_name_in name info : opssl_ciphersuite_find_by_name (Some name) = Some info -> info ∈ cipher_suites /\ cs_name info = name.
Proof. intros H. apply find_some in H as [H1 H2]. apply bool_decide_eq_true in H2. split; [by apply list_elem_of_In | done]. Qed.

(** A fact about every row, by evaluation. *)
Lemma suites_forall (P : opssl_ciphersuite_info_t -> bool) : forallb P cipher_suites = true -> forall info, info ∈ cipher_suites -> P info = true.
Proof. rewrite forallb_forall. intros H info Hi. apply H. by apply list_elem_of_In. Qed.

(* ------------------------------------------------------------------ *)
(** * Cipher lists *)

Fixpoint all_chars (P : ascii -> bool) (s : string) : bool :=
  match s with String c r => P c && all_chars P r | EmptyString => true end.

Definition blanks (s : string) : Prop := all_chars is_blank s = true.
Definition name_char (c : ascii) : bool := negb (bool_decide (c = ":"%char) || is_blank c).
Definition name_ok (n : string) : Prop := n <> EmptyString /\ all_chars name_char n = true.

(** A colon with blanks after it, or blanks alone. *)
Definition sep_ok (s : string) : Prop := (exists b, s = String ":" b /\ blanks b) \/ (s <> EmptyString /\ blanks s).

(** What stops the parser: the end, or a colon where a name should start. *)
Definition tail_ok (s : string) : Prop := s = EmptyString \/ exists r, s = String ":" r.

Fixpoint render (items : list (string * string)) (tail : string) : string :=
  match items with [] => tail | (n, sep) :: items => (n ++ sep ++ render items tail)%string end.

Fixpoint items_ok (items : list (string * string)) (tail : string) : Prop :=
  match items with
  | [] => tail_ok tail
  | [(n, sep)] => name_ok n /\ (sep_ok sep /\ tail_ok tail \/ sep = EmptyString /\ tail = EmptyString)
  | (n, sep) :: items => name_ok n /\ sep_ok sep /\ items_ok items tail
  end.

(** The suites named in a list, unknown names left out. *)
Definition known (names : list string) : list Z := omap (fun n => cs_id <$> opssl_ciphersuite_find_by_name (Some n)) names.

Lemma append_cons c a b : (String c a ++ b)%string = String c (a ++ b).
Proof. done. Qed.

Lemma skip_blanks_app b s : blanks b -> skip_blanks (b ++ s) = skip_blanks s.
Proof.
  unfold blanks. induction b as [| c b IH]; [done |]. cbn [all_chars]. rewrite andb_true_iff. intros [Hc Hb]. rewrite append_cons. cbn [skip_blanks]. by rewrite Hc, IH.
Qed.

Lemma skip_blanks_name n s : name_ok n -> skip_blanks (n ++ s) = (n ++ s)%string.
Proof.
  intros [H1 H2]. destruct n as [| c n]; [done |]. cbn [all_chars] in *. rewrite append_cons. cbn [skip_blanks]. apply andb_true_iff in H2 as [H2 _]. unfold name_char in H2.
  apply negb_true_iff, orb_false_iff in H2 as [_ H2]. by rewrite H2.
Qed.

(** A name ends where no name character follows. *)
Definition stops (e : string) : Prop := match e with EmptyString => True | String c _ => name_char c = false end.

Lemma scan_name_app n e : all_chars name_char n = true -> stops e -> scan_name (n ++ e) = (n, e).
Proof.
  induction n as [| c n IH]; cbn [all_chars].
  - intros _. destruct e as [| c e]; [done |]. change (EmptyString ++ String c e)%string with (String c e). cbn [scan_name stops]. unfold name_char. intros He. apply negb_false_iff in He. by rewrite He.
  - rewrite andb_true_iff. intros [Hc Hn] He. rewrite append_cons. cbn [scan_name]. unfold name_char in Hc. apply negb_true_iff in Hc. by rewrite Hc, IH.
Qed.

Lemma string_app_nil s : (s ++ "")%string = s.
Proof. induction s as [| c s IH]; [done |]. by rewrite append_cons, IH. Qed.

Lemma length_string_app a b : String.length (a ++ b) = (String.length a + String.length b)%nat.
Proof. induction a as [| c a IH]; [done |]. rewrite append_cons. cbn. by rewrite IH. Qed.

Lemma string_app_assoc a b c : (a ++ b ++ c)%string = ((a ++ b) ++ c)%string.
Proof. induction a as [| x a IH]; [done |]. by rewrite !append_cons, IH. Qed.

Lemma sep_stops sep s : sep_ok sep -> stops (sep ++ s).
Proof.
  intros [(b & -> & _) | [Hn Hb]]; [done |]. destruct sep as [| c sep]; [done |]. unfold blanks in Hb. cbn [all_chars] in *. rewrite append_cons. cbn [stops].
  apply andb_true_iff in Hb as [Hb _]. unfold name_char. by rewrite Hb, orb_true_r.
Qed.

(** After a separator the parser is at blanks followed by what comes next. *)
Lemma next_start_sep sep s : sep_ok sep -> exists b, blanks b /\ next_start (sep ++ s) = (b ++ s)%string /\ (String.length b <= String.length sep)%nat.
Proof.
  intros [(b & -> & Hb) | [Hn Hb]]; [exists b; split; [done |]; split; [done | cbn; lia] |].
  exists sep. split; [done |]. split; [| done]. destruct sep as [| c sep]; [done |]. rewrite append_cons. cbn [next_start]. case_bool_decide as Hc; [| done].
  unfold blanks in Hb. cbn in Hb. rewrite Hc in Hb. done.
Qed.

Lemma names_short info : info ∈ cipher_suites -> (String.length (cs_name info) < 256)%nat.
Proof. intros H. apply Nat.ltb_lt. revert info H. by apply suites_forall. Qed.

(** The parser never stores past [max] entries, and stops within the length of the
    string. *)
Lemma scan_name_rest s : let '(n, e) := scan_name s in (String.length n + String.length e = String.length s)%nat.
Proof.
  induction s as [| c s IH]; [done |]. cbn. destruct (bool_decide _ || _); [done |]. destruct (scan_name s). cbn. lia.
Qed.

Lemma skip_blanks_length s : (String.length (skip_blanks s) <= String.length s)%nat.
Proof. induction s as [| c s IH]; [done |]. cbn. destruct (is_blank c); cbn; lia. Qed.

Lemma next_start_length e : (String.length (next_start e) <= String.length e)%nat.
Proof. destruct e as [| c e]; [done |]. cbn. case_bool_decide; cbn; lia. Qed.

Lemma parse_loop_total fuel : forall s out parsed max, (String.length s <= fuel)%nat -> (max <= length out)%nat -> (parsed <= max)%nat ->
  exists out' n, parse_loop fuel s out parsed max = Some (out', n) /\ (parsed <= n <= max)%nat /\ length out' = length out.
Proof.
  induction fuel as [| fuel IH]; intros s out parsed max Hs Ho Hp.
  - destruct s; [| cbn in Hs; lia]. exists out, parsed. split; [done | lia].
  - cbn [parse_loop]. case_bool_decide as Hn; [exists out, parsed; split; [done | lia] |]. cbn [orb].
    destruct (Nat.ltb_spec parsed max) as [Hlt | Hge]; cbn [negb]; [| exists out, parsed; split; [done | lia]].
    case_bool_decide; [exists out, parsed; split; [done | lia] |]. pose proof (skip_blanks_length s) as H1. pose proof (scan_name_rest (skip_blanks s)) as H2.
    destruct (scan_name (skip_blanks s)) as [n e]. destruct (Nat.eqb_spec (String.length n) 0); [exists out, parsed; split; [done | lia] |].
    pose proof (next_start_length e). destruct (256 <=? _)%nat; [apply IH; lia |].
    destruct (opssl_ciphersuite_find_by_name _) as [info |]; [| apply IH; lia]. rewrite (proj2 (Nat.leb_gt _ _)) by lia.
    destruct (IH (next_start e) (<[parsed := cs_id info]> out) (parsed + 1)%nat max) as (out' & k & E & Hk & Hl); [lia | rewrite length_insert; lia | lia |].
    exists out', k. rewrite length_insert in Hl. split; [done | lia].
Qed.

Lemma splice_cons out i x l : (i < length out)%nat -> splice (<[i := x]> out) (i + 1) l = splice out i (x :: l).
Proof.
  intros Hi. unfold splice. rewrite insert_take_drop by done.
  assert (take i out ++ x :: drop (S i) out = (take i out ++ [x]) ++ drop (S i) out) as -> by (by rewrite <- app_assoc).
  assert (length (take i out ++ [x]) = i + 1)%nat as HL by (rewrite length_app, length_take; cbn; lia).
  rewrite (take_app_length' (take i out ++ [x])), drop_app_ge by lia. rewrite HL, drop_drop, <- app_assoc. cbn [app length]. do 4 f_equal. lia.
Qed.

Lemma parse_loop_items tail items : forall lead fuel out parsed max, items_ok items tail -> blanks lead ->
  (String.length (lead ++ render items tail) <= fuel)%nat -> (max <= length out)%nat -> (parsed <= max)%nat ->
  let ids := take (max - parsed) (known (map fst items)) in
  parse_loop fuel (lead ++ render items tail) out parsed max = Some (splice out parsed ids, (parsed + length ids)%nat).
Proof.
  induction items as [| [n sep] items IH]; intros lead fuel out parsed max Hi Hl Hf Ho Hp ids.
  - assert (ids = []) as -> by (unfold ids, known; cbn [map omap list_omap]; apply take_nil). rewrite splice_nil, Nat.add_0_r. cbn [render] in *.
    destruct fuel as [| fuel]; [destruct (lead ++ tail)%string eqn:E; [done | cbn in Hf; lia] |]. cbn [parse_loop].
    destruct (_ || _); [done |]. rewrite skip_blanks_app by done. destruct Hi as [-> | [r ->]]; [done |]. done.
  - assert (name_ok n /\ (sep_ok sep \/ sep = EmptyString /\ items = [] /\ tail = EmptyString) /\ items_ok items tail) as (Hn & Hsep & Hi').
    { destruct items as [| [n' sep'] items]; cbn [items_ok] in *; [| destruct Hi as (? & ? & ?); auto].
      destruct Hi as (? & [[? ?] | [-> ->]]); [by auto |]. split; [done |]. split; [by auto | by left]. }
    clear Hi. cbn [render] in *. rewrite !length_string_app in Hf.
    assert (String.length n <> 0%nat) as Hn0 by (destruct Hn as [Hn _]; by destruct n).
    destruct fuel as [| fuel]; [lia |]. cbn [parse_loop].
    rewrite (bool_decide_eq_false_2 (_ = EmptyString)) by (intros E; apply (f_equal String.length) in E; rewrite !length_string_app in E; cbn in E; lia).
    destruct (Nat.ltb_spec parsed max) as [Hlt | Hge]; cbn [negb orb].
    2: { assert (ids = []) as -> by (unfold ids; replace (max - parsed)%nat with 0%nat by lia; apply take_0). by rewrite splice_nil, Nat.add_0_r. }
    rewrite skip_blanks_app, skip_blanks_name by done.
    rewrite (bool_decide_eq_false_2 (_ = EmptyString)) by (intros E; apply (f_equal String.length) in E; rewrite !length_string_app in E; cbn in E; lia).
    assert (exists b, blanks b /\ scan_name (n ++ sep ++ render items tail) = (n, (sep ++ render items tail)%string) /\
      next_start (sep ++ render items tail) = (b ++ render items tail)%string /\ (String.length b <= String.length sep)%nat) as (b & Hb & -> & -> & Hbl).
    { destruct Hn as [_ Hn]. destruct Hsep as [Hsep | (-> & -> & ->)].
      - destruct (next_start_sep sep (render items tail) Hsep) as (b & H1 & H2 & H3). exists b. split; [done |]. split; [| done].
        apply scan_name_app; [done | by apply sep_stops].
      - exists EmptyString. split; [done |]. split; [by apply scan_name_app | done]. }
    rewrite (proj2 (Nat.eqb_neq _ _)) by done.
    assert (forall out' p', (max <= length out')%nat -> (p' <= max)%nat ->
      parse_loop fuel (b ++ render items tail) out' p' max =
      Some (splice out' p' (take (max - p') (known (map fst items))), (p' + length (take (max - p') (known (map fst items))))%nat)) as IH'.
    { intros out' p' H1 H2. apply IH; try done. rewrite length_string_app. lia. }
    assert (known (map fst ((n, sep) :: items)) = match opssl_ciphersuite_find_by_name (Some n) with
      | Some info => cs_id info :: known (map fst items) | None => known (map fst items) end) as Hk.
    { unfold known. cbn [map fst omap list_omap]. by destruct (opssl_ciphersuite_find_by_name (Some n)). }
    unfold ids. rewrite Hk. destruct (opssl_ciphersuite_find_by_name (Some n)) as [info |] eqn:Ef.
    + destruct (find_name_in _ _ Ef) as [Hin <-]. pose proof (names_short info Hin). rewrite (proj2 (Nat.leb_gt _ _)) by lia.
      rewrite (proj2 (Nat.leb_gt _ _)) by lia. rewrite IH' by (rewrite ?length_insert; lia).
      replace (max - parsed)%nat with (S (max - (parsed + 1))) by lia. cbn [take length]. rewrite splice_cons by lia. do 2 f_equal. lia.
    + destruct (256 <=? String.length n)%nat; by apply IH'.
Qed.

(** C40: parsing a cipher list always returns, with at most [max] suites stored in an
    array that has room for [max]; on a list of names separated by colons or
    blanks it stores the suites of the known names, in order, up to [max], and
    returns their number, or -1 for none.  A colon where a name should start ends
    the list. *)
Theorem ciphersuite_parse_list_spec s out count max : (0 < max <= length out)%nat -> Z.of_nat max <= 0x7FFFFFFF ->
  (exists out' n, opssl_ciphersuite_parse_list (String.length s) (Some s) (Some out) (Some count) max =
      Some (if (n =? 0)%nat then -1 else Z.of_nat n, Some out', Some n) /\ (n <= max)%nat /\ length out' = length out) /\
  (forall lead items tail, s = (lead ++ render items tail)%string -> blanks lead -> items_ok items tail ->
     let ids := take max (known (map fst items)) in
     opssl_ciphersuite_parse_list (String.length s) (Some s) (Some out) (Some count) max =
       Some (if (length ids =? 0)%nat then -1 else Z.of_nat (length ids), Some (splice out 0 ids), Some (length ids))).
Proof.
  intros Hm Hr. assert (forall n, (n <= max)%nat -> filled_ret n = if (n =? 0)%nat then -1 else Z.of_nat n) as Hret.
  { intros n Hn. unfold filled_ret. destruct n as [| n]; [done |]. cbn [Nat.ltb Nat.leb Nat.eqb]. apply s32_id. lia. }
  unfold opssl_ciphersuite_parse_list. rewrite (proj2 (Nat.eqb_neq max 0)) by lia. split.
  - destruct (parse_loop_total (String.length s) s out 0 max) as (out' & n & -> & Hn & Hl); [lia | lia | lia |]. exists out', n. rewrite Hret by lia. split; [done | lia].
  - intros lead items tail -> Hl Hi. cbv zeta. set (ids := take max _). rewrite (parse_loop_items tail items lead _ out 0 max) by (done || lia). rewrite Nat.sub_0_r. fold ids.
    cbn [Nat.add]. rewrite Hret; [done |]. unfold ids. rewrite length_take. lia.
Qed.

(* ------------------------------------------------------------------ *)
(** * Lookups and defaults *)

Definition row_ok (i : opssl_ciphersuite_info_t) : bool :=
  (cs_key_len i =? opssl_aead_key_len (cs_aead i)) && (cs_iv_len i =? opssl_aead_nonce_len (cs_aead i)) &&
  (cs_tag_len i =? opssl_aead_tag_len (cs_aead i)) && (0 <=? cs_id i) && (cs_id i <? 65536).

(** The registry is well formed: a suite's key, IV and tag lengths are those of its
    AEAD algorithm, its number fits two bytes, a suite is found by its number
    exactly when it is found by its name, and it is supported in exactly one of
    TLS 1.2 and TLS 1.3. *)
Theorem ciphersuite_registry_ok id info : opssl_ciphersuite_find id = Some info ->
  opssl_ciphersuite_get_params id =
    Some (cs_aead info, cs_hash info, opssl_aead_key_len (cs_aead info), opssl_aead_nonce_len (cs_aead info), opssl_aead_tag_len (cs_aead info)) /\
  0 <= id < 65536 /\
  opssl_ciphersuite_name id = Some (cs_name info) /\
  (forall name, opssl_ciphersuite_find_by_name (Some name) = Some info <-> name = cs_name info) /\
  opssl_ciphersuite_is_supported id OPSSL_TLS_1_2 = negb (opssl_ciphersuite_is_supported id OPSSL_TLS_1_3).
Proof.
  intros H. destruct (find_in _ _ H) as [Hin <-]. pose proof (suites_forall row_ok ltac:(vm_compute; reflexivity) info Hin) as Hr.
  unfold row_ok in Hr. rewrite !andb_true_iff, !Z.eqb_eq, Z.leb_le, Z.ltb_lt in Hr. destruct Hr as [[[[Hk Hi] Ht] H0] H1].
  unfold opssl_ciphersuite_get_params, opssl_ciphersuite_name, opssl_ciphersuite_is_supported. rewrite H. cbn. rewrite Hk, Hi, Ht.
  split; [done |]. split; [lia |]. split; [done |]. split; [| done]. intros name. split.
  - intros Hn. by destruct (find_name_in _ _ Hn) as [_ <-].
  - intros ->. by apply find_name.
Qed.

Lemma ciphersuite_registry_ok_witness :
  opssl_ciphersuite_find OPSSL_TLS_AES_128_CCM_8_SHA256 <> None /\
  (fun p => p.2) <$> opssl_ciphersuite_get_params OPSSL_TLS_AES_128_CCM_8_SHA256 = Some 8.
Proof.
  destruct (opssl_ciphersuite_find OPSSL_TLS_AES_128_CCM_8_SHA256) as [info |] eqn:E; [| vm_compute in E; discriminate].
  split; [done |]. destruct (ciphersuite_registry_ok OPSSL_TLS_AES_128_CCM_8_SHA256 info E) as [-> _].
  vm_compute in E. injection E as <-. reflexivity.
Defined.

Lemma default_fold t out max l : forall pre, (length pre <= max <= length out)%nat ->
  fold_left (default_step t max) l (Some (splice out 0 pre, length pre)) =
  let ids := take max (pre ++ map cs_id (List.filter (fun i => Bool.eqb (cs_is_tls13 i) t) l)) in Some (splice out 0 ids, length ids).
Proof.
  induction l as [| i l IH]; intros pre Hp; cbn [fold_left].
  - cbn. rewrite app_nil_r, take_ge by lia. done.
  - unfold default_step at 2. destruct (Nat.ltb_spec (length pre) max) as [Hlt | Hge]; cbn [negb].
    + cbn [List.filter]. destruct (Bool.eqb _ _) eqn:E; [| by apply IH].
      rewrite splice_length by (cbn; lia). rewrite (proj2 (Nat.leb_gt _ _)) by lia.
      assert (<[length pre := cs_id i]> (splice out 0 pre) = splice out 0 (pre ++ [cs_id i])) as ->.
      { rewrite !splice_0, length_app. rewrite insert_app_r_alt by done. rewrite Nat.sub_diag, <- app_assoc. f_equal. cbn [app length].
        destruct (drop (length pre) out) as [| y r] eqn:Ed; [apply (f_equal length) in Ed; rewrite length_drop in Ed; cbn in Ed; lia |].
        cbn [list_insert insert]. f_equal. by rewrite <- drop_drop, Ed. }
      replace (length pre + 1)%nat with (length (pre ++ [cs_id i])) by (rewrite length_app; cbn; lia).
      rewrite IH by (rewrite length_app; cbn; lia). cbn [map]. by rewrite <- app_assoc.
    + assert (length pre = max) as Hm by lia. rewrite IH by lia. cbv zeta. rewrite <- Hm. by rewrite !take_app_length.
Qed.

Lemma default_rows t out max l : (max <= length out)%nat ->
  let ids := take max (map cs_id (List.filter (fun i => Bool.eqb (cs_is_tls13 i) t) l)) in
  fold_left (default_step t max) l (Some (out, 0%nat)) = Some (splice out 0 ids, length ids) /\ (length ids <= max)%nat.
Proof.
  intros Hm. pose proof (default_fold t out max l [] ltac:(cbn; lia)) as E. rewrite splice_nil in E. split; [exact E |]. rewrite length_take. lia.
Qed.

(** The default lists are the rows of the version, in the order of the table, up to
    [max]. *)
Lemma default_list_spec t out count max : (0 < max <= length out)%nat -> Z.of_nat max <= 0x7FFFFFFF ->
  let ids := take max (map cs_id (List.filter (fun i => Bool.eqb (cs_is_tls13 i) t) cipher_suites)) in
  default_list t (Some out) (Some count) max = Some (if (0 <? length ids)%nat then Z.of_nat (length ids) else -1, Some (splice out 0 ids), Some (length ids)).
Proof.
  intros Hm Hr. unfold default_list. rewrite (proj2 (Nat.eqb_neq max 0)) by lia. generalize cipher_suites. intros l. cbv zeta.
  destruct (default_rows t out max l ltac:(lia)) as [-> Hl]. unfold filled_ret. by rewrite s32_id by lia.
Qed.

Definition demo_list : string := " TLS_AES_128_GCM_SHA256: NOT_A_SUITE TLS_AES_256_GCM_SHA384::x".

Lemma ciphersuite_parse_list_spec_witness :
  opssl_ciphersuite_parse_list (String.length demo_list) (Some demo_list) (Some [0; 0; 0; 0]) (Some 0%nat) 4 =
    Some (2, Some [OPSSL_TLS_AES_128_GCM_SHA256; OPSSL_TLS_AES_256_GCM_SHA384; 0; 0], Some 2%nat).
Proof.
  destruct (ciphersuite_parse_list_spec demo_list [0; 0; 0; 0] 0%nat 4 ltac:(cbn; lia) ltac:(lia)) as [_ H].
  rewrite (H " "%string [("TLS_AES_128_GCM_SHA256", ": "); ("NOT_A_SUITE", " "); ("TLS_AES_256_GCM_SHA384", ":")]%string ":x"%string).
  - vm_compute. reflexivity.
  - reflexivity.
  - reflexivity.
  - repeat split; try discriminate.
    + left. exists " "%string. split; reflexivity.
    + right. split; [discriminate | reflexivity].
    + left. split; [left; exists ""%string; split; reflexivity | right; by eexists].
Defined.
