(* ===== verification/Types.v ===== *)
(** The enumerations of include/opssl/types.h that the connection and the
    handshakes share, and the 24-bit lengths of handshake messages. *)
From S2P Require Import Prelude.
#[local] Open Scope Z_scope.

(** [opssl_result_t] *)
Inductive opssl_result_t := OPSSL_OK | OPSSL_ERROR | OPSSL_WANT_READ | OPSSL_WANT_WRITE | OPSSL_CLOSED | OPSSL_FATAL.

#[export] Instance opssl_result_t_eq_dec : EqDecision opssl_result_t.
Proof. solve_decision. Defined.

(** [opssl_curve_t] of crypto.h *)
Inductive opssl_curve_t := OPSSL_CURVE_P256 | OPSSL_CURVE_P384 | OPSSL_CURVE_P521.

#[export] Instance opssl_curve_t_eq_dec : EqDecision opssl_curve_t.
Proof. solve_decision. Defined.

(** [opssl_handshake_state_t] *)
Definition OPSSL_HS_IDLE : Z := 0.
Definition OPSSL_HS_CLIENT_HELLO : Z := 1.
Definition OPSSL_HS_ENCRYPTED_EXTENSIONS : Z := 3.
Definition OPSSL_HS_FINISHED : Z := 6.
Definition OPSSL_HS_WAIT_FINISHED : Z := 7.
Definition OPSSL_HS_COMPLETE : Z := 8.

(** [opssl_direction_t] *)
Definition OPSSL_SERVER : Z := 0.
Definition OPSSL_CLIENT : Z := 1.

(** [(p[0] << 16) | (p[1] << 8) | p[2]] *)
Definition be24 (l : list Z) : Z := Z.lor (Z.lor (Z.shiftl l.[0] 16) (Z.shiftl l.[1] 8)) l.[2].
