(* ===== verification/Conn.v ===== *)
(** A connection: src/tls/handshake.c, its state, its record input and output, and
    the calls that read and write application data.

    [conn] is [struct opssl_conn] without the members of the handshake engine and
    of the peer's certificate.  [hash_algo] is what [opssl_tls13_get_hash_algo]
    reads from [hs_buf].  The transport, a descriptor or a pair of callbacks, is
    the list of what its next calls do: [read] returns at most what it was asked
    for, the rest of a chunk staying for the next call; a list that is used up
    means no data, or no room, yet.  [sent] are the bytes written so far.

    A call runs in the monad [M] over the connection and the transport; its
    failure is undefined behaviour, or a loop that has not ended. *)
From S2P Require Import Prelude Types Platform Err Cpu Hmac Hkdf KeySched AesSpec ChaCha20 Poly1305 AesNi Aes BlockModes AesNiGcm Aead Record CipherSuite.
#[local] Open Scope Z_scope.

(* ------------------------------------------------------------------ *)
(** * Constants *)

Definition TLS_MAX_RECORD_LEN : nat := Z.to_nat 16384.
Definition TLS_MAX_ENCRYPTED_LEN : Z := 16640.
Definition TLS_HANDSHAKE_HEADER_LEN : nat := 4.
Definition TLS_RT_CHANGE_CIPHER_SPEC : Z := 20.
Definition TLS_RT_ALERT : Z := 21.
Definition TLS_RT_HANDSHAKE : Z := 22.
Definition TLS_RT_APPLICATION_DATA : Z := 23.
Definition TLS_HT_NEW_SESSION_TICKET : Z := 4.
Definition TLS_HT_CERTIFICATE_REQUEST : Z := 13.
Definition TLS_EPOCH_PLAINTEXT : Z := 0.
Definition TLS_EPOCH_HANDSHAKE : Z := 1.
Definition TLS_EPOCH_APPLICATION : Z := 2.

(** The reason codes of err.h that a connection stores. *)
Definition OPSSL_ERR_NOT_SUPPORTED : Z := 3.
Definition OPSSL_ERR_VERSION_MISMATCH : Z := 4.
Definition OPSSL_ERR_PROTOCOL : Z := 16.
Definition OPSSL_ERR_PEER_ALERT : Z := 17.
Definition OPSSL_ERR_HANDSHAKE_INCOMPLETE : Z := 18.
Definition OPSSL_ERR_SHUTDOWN_SENT : Z := 19.
Definition OPSSL_ERR_PEER_CLOSED : Z := 20.
Definition OPSSL_ERR_RECORD_TOO_LARGE : Z := 21.
Definition OPSSL_ERR_BUFFER_OVERFLOW : Z := 22.

(* ------------------------------------------------------------------ *)
(** * The state *)

Definition READ_BUF_SIZE : nat := Z.to_nat 18432.
Definition APP_BUF_SIZE : nat := Z.to_nat 16384.

Record conn := mk_conn {
  c_dir : Z; c_hs_state : Z; c_version : Z; c_cipher : Z; c_group : Z;
  c_read_buf : list Z; c_read_len : nat;
  c_write_buf : list Z; c_write_len : nat; c_write_off : nat;
  c_read_cipher : option opssl_aead_ctx; c_write_cipher : option opssl_aead_ctx;
  c_read_iv : list Z; c_write_iv : list Z; c_read_seq : Z; c_write_seq : Z;
  c_read_encrypted : bool; c_write_encrypted : bool; c_is_tls13 : bool;
  c_read_epoch : Z; c_write_epoch : Z;
  c_app_buf : list Z; c_app_len : nat; c_app_off : nat;
  c_last_error : Z; c_last_want : opssl_result_t;
  c_write_key : list Z; c_write_key_len : nat; c_read_key : list Z; c_read_key_len : nat;
  c_client_traffic_secret : list Z; c_server_traffic_secret : list Z; c_secret_len : nat;
  c_resumption_master_secret : list Z; c_rms_len : nat;
  c_session_ticket : list Z; c_session_ticket_len : nat; c_ticket_lifetime : Z; c_ticket_age_add : Z;
  c_ticket_psk : list Z; c_ticket_psk_len : nat; c_has_ticket : bool;
  c_key_update_apply_after_flush : bool; c_hs_initialized : bool;
  c_shutdown_sent : bool; c_shutdown_received : bool; c_postquantum : bool;
  c_hash_algo : opssl_hmac_algo_t
}.

(** The connection with the field [proj] replaced: its eta expansion, with [v] where
    the field is read. *)
Ltac set_field c proj v :=
  let t := eval cbv beta in
    (mk_conn (c_dir c) (c_hs_state c) (c_version c) (c_cipher c) (c_group c) (c_read_buf c) (c_read_len c)
      (c_write_buf c) (c_write_len c) (c_write_off c) (c_read_cipher c) (c_write_cipher c) (c_read_iv c) (c_write_iv c) (c_read_seq c) (c_write_seq c)
      (c_read_encrypted c) (c_write_encrypted c) (c_is_tls13 c) (c_read_epoch c) (c_write_epoch c) (c_app_buf c) (c_app_len c) (c_app_off c)
      (c_last_error c) (c_last_want c) (c_write_key c) (c_write_key_len c) (c_read_key c) (c_read_key_len c)
      (c_client_traffic_secret c) (c_server_traffic_secret c) (c_secret_len c) (c_resumption_master_secret c) (c_rms_len c)
      (c_session_ticket c) (c_session_ticket_len c) (c_ticket_lifetime c) (c_ticket_age_add c) (c_ticket_psk c) (c_ticket_psk_len c) (c_has_ticket c)
      (c_key_update_apply_after_flush c) (c_hs_initialized c) (c_shutdown_sent c) (c_shutdown_received c) (c_postquantum c) (c_hash_algo c)) in
  match eval pattern (proj c) in t with ?g _ => let r := eval cbv beta in (g v) in exact r end.

Definition set_dir (v : Z) (c : conn) : conn := ltac:(set_field c c_dir v).
Definition set_hs_state (v : Z) (c : conn) : conn := ltac:(set_field c c_hs_state v).
Definition set_version (v : Z) (c : conn) : conn := ltac:(set_field c c_version v).
Definition set_cipher (v : Z) (c : conn) : conn := ltac:(set_field c c_cipher v).
Definition set_group (v : Z) (c : conn) : conn := ltac:(set_field c c_group v).
Definition set_read_buf (v : list Z) (c : conn) : conn := ltac:(set_field c c_read_buf v).
Definition set_read_len (v : nat) (c : conn) : conn := ltac:(set_field c c_read_len v).
Definition set_write_buf (v : list Z) (c : conn) : conn := ltac:(set_field c c_write_buf v).
Definition set_write_len (v : nat) (c : conn) : conn := ltac:(set_field c c_write_len v).
Definition set_write_off (v : nat) (c : conn) : conn := ltac:(set_field c c_write_off v).
Definition set_read_cipher (v : option opssl_aead_ctx) (c : conn) : conn := ltac:(set_field c c_read_cipher v).
Definition set_write_cipher (v : option opssl_aead_ctx) (c : conn) : conn := ltac:(set_field c c_write_cipher v).
Definition set_read_iv (v : list Z) (c : conn) : conn := ltac:(set_field c c_read_iv v).
Definition set_write_iv (v : list Z) (c : conn) : conn := ltac:(set_field c c_write_iv v).
Definition set_read_seq (v : Z) (c : conn) : conn := ltac:(set_field c c_read_seq v).
Definition set_write_seq (v : Z) (c : conn) : conn := ltac:(set_field c c_write_seq v).
Definition set_read_encrypted (v : bool) (c : conn) : conn := ltac:(set_field c c_read_encrypted v).
Definition set_write_encrypted (v : bool) (c : conn) : conn := ltac:(set_field c c_write_encrypted v).
Definition set_is_tls13 (v : bool) (c : conn) : conn := ltac:(set_field c c_is_tls13 v).
Definition set_read_epoch (v : Z) (c : conn) : conn := ltac:(set_field c c_read_epoch v).
Definition set_write_epoch (v : Z) (c : conn) : conn := ltac:(set_field c c_write_epoch v).
Definition set_app_buf (v : list Z) (c : conn) : conn := ltac:(set_field c c_app_buf v).
Definition set_app_len (v : nat) (c : conn) : conn := ltac:(set_field c c_app_len v).
Definition set_app_off (v : nat) (c : conn) : conn := ltac:(set_field c c_app_off v).
Definition set_last_error (v : Z) (c : conn) : conn := ltac:(set_field c c_last_error v).
Definition set_last_want (v : opssl_result_t) (c : conn) : conn := ltac:(set_field c c_last_want v).
Definition set_write_key (v : list Z) (c : conn) : conn := ltac:(set_field c c_write_key v).
Definition set_write_key_len (v : nat) (c : conn) : conn := ltac:(set_field c c_write_key_len v).
Definition set_read_key (v : list Z) (c : conn) : conn := ltac:(set_field c c_read_key v).
Definition set_read_key_len (v : nat) (c : conn) : conn := ltac:(set_field c c_read_key_len v).
Definition set_client_traffic_secret (v : list Z) (c : conn) : conn := ltac:(set_field c c_client_traffic_secret v).
Definition set_server_traffic_secret (v : list Z) (c : conn) : conn := ltac:(set_field c c_server_traffic_secret v).
Definition set_secret_len (v : nat) (c : conn) : conn := ltac:(set_field c c_secret_len v).
Definition set_resumption_master_secret (v : list Z) (c : conn) : conn := ltac:(set_field c c_resumption_master_secret v).
Definition set_rms_len (v : nat) (c : conn) : conn := ltac:(set_field c c_rms_len v).
Definition set_session_ticket (v : list Z) (c : conn) : conn := ltac:(set_field c c_session_ticket v).
Definition set_session_ticket_len (v : nat) (c : conn) : conn := ltac:(set_field c c_session_ticket_len v).
Definition set_ticket_lifetime (v : Z) (c : conn) : conn := ltac:(set_field c c_ticket_lifetime v).
Definition set_ticket_age_add (v : Z) (c : conn) : conn := ltac:(set_field c c_ticket_age_add v).
Definition set_ticket_psk (v : list Z) (c : conn) : conn := ltac:(set_field c c_ticket_psk v).
Definition set_ticket_psk_len (v : nat) (c : conn) : conn := ltac:(set_field c c_ticket_psk_len v).
Definition set_has_ticket (v : bool) (c : conn) : conn := ltac:(set_field c c_has_ticket v).
Definition set_key_update_apply_after_flush (v : bool) (c : conn) : conn := ltac:(set_field c c_key_update_apply_after_flush v).
Definition set_hs_initialized (v : bool) (c : conn) : conn := ltac:(set_field c c_hs_initialized v).
Definition set_shutdown_sent (v : bool) (c : conn) : conn := ltac:(set_field c c_shutdown_sent v).
Definition set_shutdown_received (v : bool) (c : conn) : conn := ltac:(set_field c c_shutdown_received v).
Definition set_postquantum (v : bool) (c : conn) : conn := ltac:(set_field c c_postquantum v).
Definition set_hash_algo (v : opssl_hmac_algo_t) (c : conn) : conn := ltac:(set_field c c_hash_algo v).

(** [calloc], then the non-zero members. *)
Definition opssl_conn_new (dir : Z) : conn :=
  mk_conn dir OPSSL_HS_IDLE 0 0 0 (replicate READ_BUF_SIZE 0) 0 (replicate READ_BUF_SIZE 0) 0 0 None None
    (replicate 12 0) (replicate 12 0) 0 0 false false false TLS_EPOCH_PLAINTEXT TLS_EPOCH_PLAINTEXT
    (replicate APP_BUF_SIZE 0) 0 0 0 OPSSL_ERROR (replicate 32 0) 0 (replicate 32 0) 0
    (replicate 48 0) (replicate 48 0) 0 (replicate 48 0) 0 (replicate 1024 0) 0 0 0 (replicate 48 0) 0 false
    false false false false false OPSSL_HMAC_SHA256.

(* ------------------------------------------------------------------ *)
(** * The transport and the monad *)

Inductive rx_event := Rx (data : list Z) | RxAgain | RxError.
Inductive tx_event := Tx (room : nat) | TxAgain | TxError.

Record io := mk_io { rx : list rx_event; tx : list tx_event; sent : list Z }.

Definition M (A : Type) : Type := conn * io -> option (A * (conn * io)).

Definition ret {A} (a : A) : M A := fun w => Some (a, w).
Definition bind {A B} (m : M A) (k : A -> M B) : M B := fun w => match m w with Some (a, w) => k a w | None => None end.
Definition ub {A} : M A := fun _ => None.
Definition getc : M conn := fun w => Some (w.1, w).
Definition modc (f : conn -> conn) : M unit := fun w => Some (tt, (f w.1, w.2)).

Declare Scope conn_scope.
Delimit Scope conn_scope with conn.
Notation "x <- m ;; k" := (bind m (fun x => k)) (at level 100, m at next level, right associativity) : conn_scope.
Notation "m ;;; k" := (bind m (fun _ => k)) (at level 100, right associativity) : conn_scope.
#[local] Open Scope conn_scope.

(** [conn->last_error = e; return OPSSL_ERROR] *)
Definition fail (e : Z) : M opssl_result_t := modc (set_last_error e) ;;; ret OPSSL_ERROR.

(** What [read] and [write] return: a count, -1 with EAGAIN, -1 with another error. *)
Inductive io_ret (A : Type) := IoN (a : A) | IoAgain | IoFail.
Arguments IoN {A} a. Arguments IoAgain {A}. Arguments IoFail {A}.

Definition conn_read (len : nat) : M (io_ret (list Z)) := fun '(c, t) =>
  match rx t with
  | [] => Some (IoAgain, (c, t))
  | Rx d :: r =>
    if (length d <=? len)%nat then Some (IoN d, (c, mk_io r (tx t) (sent t)))
    else Some (IoN (take len d), (c, mk_io (Rx (drop len d) :: r) (tx t) (sent t)))
  | RxAgain :: r => Some (IoAgain, (c, mk_io r (tx t) (sent t)))
  | RxError :: r => Some (IoFail, (c, mk_io r (tx t) (sent t)))
  end.

(** A result of 0 is turned into EAGAIN. *)
Definition conn_write (data : list Z) : M (io_ret nat) := fun '(c, t) =>
  match tx t with
  | [] => Some (IoAgain, (c, t))
  | Tx room :: r =>
    let n := Nat.min room (length data) in
    if (n =? 0)%nat then Some (IoAgain, (c, mk_io (rx t) r (sent t)))
    else Some (IoN n, (c, mk_io (rx t) r (sent t ++ take n data)))
  | TxAgain :: r => Some (IoAgain, (c, mk_io (rx t) r (sent t)))
  | TxError :: r => Some (IoFail, (c, mk_io (rx t) r (sent t)))
  end.

(* ------------------------------------------------------------------ *)
(** * Records *)

(** [while (conn->read_len < total) ...]: [None] when the bytes are there, else what
    [read_record] returns.  Every iteration that goes on reads a byte, so that
    [total] iterations are enough. *)
Fixpoint fill (fuel : nat) (total : nat) : M (option opssl_result_t) :=
  c <- getc ;;
  if negb (c_read_len c <? total)%nat then ret None else
  match fuel with
  | O => ub
  | S fuel =>
    n <- conn_read (total - c_read_len c) ;;
    match n with
    | IoAgain => ret (Some OPSSL_WANT_READ)
    | IoFail => modc (set_last_error OPSSL_ERR_IO) ;;; ret (Some OPSSL_ERROR)
    | IoN [] => modc (set_last_error OPSSL_ERR_PEER_CLOSED) ;;; ret (Some OPSSL_ERROR)
    | IoN d =>
      if (length (c_read_buf c) <? c_read_len c + length d)%nat then ub else
      modc (fun c => set_read_len (c_read_len c + length d) (set_read_buf (splice (c_read_buf c) (c_read_len c) d) c)) ;;;
      fill fuel total
    end
  end.

(** What [read_record] leaves in its result and its three output arguments. *)
Inductive record_ret := Got (type : Z) (data : list Z) | NotYet (r : opssl_result_t).

Definition rec_fail (e : Z) : M record_ret := modc (set_last_error e) ;;; ret (NotYet OPSSL_ERROR).

(** The tests on the type of a record that has been read. *)
Definition check_type (type : Z) (data : list Z) : M record_ret :=
  c <- getc ;;
  if (type =? TLS_RT_ALERT) && negb (length data =? 2)%nat then rec_fail OPSSL_ERR_PROTOCOL else
  if negb (c_hs_state c =? OPSSL_HS_COMPLETE) then
    if type =? TLS_RT_APPLICATION_DATA then rec_fail OPSSL_ERR_PROTOCOL else
    if negb (type =? TLS_RT_HANDSHAKE) && negb (type =? TLS_RT_ALERT) then rec_fail OPSSL_ERR_PROTOCOL else
    ret (Got type data)
  else
    if (type =? TLS_RT_CHANGE_CIPHER_SPEC) || ((type =? TLS_RT_HANDSHAKE) && negb (c_is_tls13 c)) then rec_fail OPSSL_ERR_PROTOCOL else
    if negb (type =? TLS_RT_APPLICATION_DATA) && negb (type =? TLS_RT_ALERT) && negb (type =? TLS_RT_HANDSHAKE) then rec_fail OPSSL_ERR_PROTOCOL else
    ret (Got type data).

(** [for (i = 0; i < 8; i++) dst[o + i] (^)= seq >> (56 - i * 8)] *)
Definition seq_byte (seq : Z) (i : nat) : Z := u8 (Z.shiftr seq (56 - Z.of_nat i * 8)).
Definition put_seq (seq : Z) (dst : list Z) (o : nat) : list Z := for_range 0 8 (fun i d => <[(o + i)%nat := seq_byte seq i]> d) dst.
Definition xor_seq (seq : Z) (nonce : list Z) : list Z :=
  for_range 0 8 (fun i d => <[(4 + i)%nat := Z.lxor d.[4 + i] (seq_byte seq i)]> d) nonce.

(** [aad[11] = (n >> 8) & 0xff; aad[12] = n & 0xff] *)
Definition two_bytes (n : Z) : list Z := [Z.land (Z.shiftr n 8) 255; Z.land n 255].

(** [tag_len = 16; get_params(..., &tag_len)], and 16 for 0. *)
Definition suite_tag_len (cipher : Z) : Z :=
  let tag_len := match opssl_ciphersuite_get_params cipher with Some (_, t) => t | None => 16 end in
  if tag_len =? 0 then 16 else tag_len.

Section Records.
Context `{Cpu} `{Avx2} `{AesInstr} `{Clmul}.
Variable fuel : nat.
Variable junk : poly1305_state_t.
Variable calloc_ok : bool.

(** Decrypting the record in [read_buf], of [type] and [record_len]. *)
Definition open_record (type record_len : Z) : M record_ret :=
  c <- getc ;;
  let max := (READ_BUF_SIZE - TLS_RECORD_HEADER_LEN)%nat in
  args <- (if c_is_tls13 c then
     ret (Some (xor_seq (c_read_seq c) (take 12 (c_read_iv c)), TLS_RECORD_HEADER_LEN, record_len, [0x17; 0x03; 0x03] ++ two_bytes record_len))
   else
     if record_len <? 8 then ret None else
     let payload := (TLS_RECORD_HEADER_LEN + 8)%nat in
     let ciphertext_len := record_len - 8 in
     let nonce := take 4 (c_read_iv c) ++ sub_list TLS_RECORD_HEADER_LEN 8 (c_read_buf c) in
     let tag_len := suite_tag_len (c_cipher c) in
     if ciphertext_len <? tag_len then ret None else
     ret (Some (nonce, payload, ciphertext_len, put_seq (c_read_seq c) (replicate 8 0) 0 ++ [type; 0x03; 0x03] ++ two_bytes (ciphertext_len - tag_len)))) ;;
  match args with
  | None => rec_fail OPSSL_ERR_PROTOCOL
  | Some (nonce, payload, ciphertext_len, aad) =>
    match open_at fuel junk calloc_ok (c_read_cipher c) (c_read_buf c) TLS_RECORD_HEADER_LEN max nonce payload (off ciphertext_len) aad with
    | None => ub
    | Some (r, buf, plaintext_len) =>
      modc (set_read_buf buf) ;;;
      if negb (r =? 1) then rec_fail OPSSL_ERR_PROTOCOL else
      if plaintext_len =? 0 then rec_fail OPSSL_ERR_PROTOCOL else
      let i := if c_is_tls13 c then strip_padding (drop TLS_RECORD_HEADER_LEN buf) (off plaintext_len) else off plaintext_len in
      if c_is_tls13 c && (i =? 0)%nat then rec_fail OPSSL_ERR_PROTOCOL else
      let type := if c_is_tls13 c then (drop TLS_RECORD_HEADER_LEN buf).[i - 1] else type in
      let len := if c_is_tls13 c then (i - 1)%nat else i in
      modc (fun c => set_read_seq (u64 (c_read_seq c + 1)) (set_read_len (TLS_RECORD_HEADER_LEN + len) c)) ;;;
      check_type type (sub_list TLS_RECORD_HEADER_LEN len buf)
    end
  end.

Definition read_record : M record_ret :=
  r <- fill (TLS_RECORD_HEADER_LEN) TLS_RECORD_HEADER_LEN ;;
  match r with
  | Some r => ret (NotYet r)
  | None =>
    c <- getc ;;
    let type := (c_read_buf c).[0] in
    let rec_version := Z.lor (Z.shiftl (c_read_buf c).[1] 8) (c_read_buf c).[2] in
    let record_len := Z.lor (Z.shiftl (c_read_buf c).[3] 8) (c_read_buf c).[4] in
    if (rec_version <? 0x0300) || (0x0304 <? rec_version) then rec_fail OPSSL_ERR_VERSION_MISMATCH else
    if TLS_MAX_ENCRYPTED_LEN <? record_len then rec_fail OPSSL_ERR_RECORD_TOO_LARGE else
    let total_len := (TLS_RECORD_HEADER_LEN + off record_len)%nat in
    r <- fill total_len total_len ;;
    match r with
    | Some r => ret (NotYet r)
    | None =>
      c <- getc ;;
      let payload := sub_list TLS_RECORD_HEADER_LEN (off record_len) (c_read_buf c) in
      if c_is_tls13 c && c_read_encrypted c && negb (type =? TLS_RT_APPLICATION_DATA) && negb (type =? TLS_RT_CHANGE_CIPHER_SPEC) then
        rec_fail OPSSL_ERR_PROTOCOL
      else if type =? TLS_RT_CHANGE_CIPHER_SPEC then
        if negb (record_len =? 1) || negb ((c_read_buf c).[TLS_RECORD_HEADER_LEN] =? 1) || (c_hs_state c =? OPSSL_HS_COMPLETE) ||
           (negb (c_is_tls13 c) && c_read_encrypted c)
        then rec_fail OPSSL_ERR_PROTOCOL
        else ret (Got type payload)
      else if c_read_encrypted c && bool_decide (c_read_cipher c <> None) then open_record type record_len
      else check_type type payload
    end
  end.

(** The record written into [write_buf]: the bytes it takes, or [None] for a failure
    with [OPSSL_ERR_PROTOCOL]. *)
Definition build_record (type : Z) (data : list Z) : M (option nat) :=
  modc (fun c => set_write_buf (splice (c_write_buf c) 0 [type; 0x03; 0x03]) c) ;;;
  c <- getc ;;
  let len := Z.of_nat (length data) in
  if c_write_encrypted c && bool_decide (c_write_cipher c <> None) then
    let nonce := if c_is_tls13 c then xor_seq (c_write_seq c) (take 12 (c_write_iv c)) else put_seq (c_write_seq c) (take 12 (c_write_iv c)) 4 in
    if (TLS_MAX_RECORD_LEN <? length data)%nat then ret None else
    let pt := if c_is_tls13 c then data ++ [type] else data in
    let aad := if c_is_tls13 c
      then [0x17; 0x03; 0x03] ++ two_bytes (Z.of_nat (length pt) + suite_tag_len (c_cipher c))
      else put_seq (c_write_seq c) (replicate 8 0) 0 ++ [type; 0x03; 0x03] ++ two_bytes len in
    let start := if c_is_tls13 c then TLS_RECORD_HEADER_LEN else (TLS_RECORD_HEADER_LEN + 8)%nat in
    let buf := if c_is_tls13 c then <[0%nat := 0x17]> (c_write_buf c) else put_seq (c_write_seq c) (c_write_buf c) TLS_RECORD_HEADER_LEN in
    match opssl_aead_seal fuel junk calloc_ok (c_write_cipher c) (Some (sub_list start (READ_BUF_SIZE - start) buf)) (Some 0) nonce pt aad with
    | Some (r, Some out, Some ciphertext_len) =>
      let buf := splice buf start out in
      if negb (r =? 1) then modc (set_write_buf buf) ;;; ret None else
      let total_len := (off ciphertext_len + (start - TLS_RECORD_HEADER_LEN))%nat in
      let buf := splice buf 3 (two_bytes (Z.of_nat total_len)) in
      modc (fun c => set_write_len (TLS_RECORD_HEADER_LEN + total_len) (set_write_buf buf c)) ;;;
      if c_write_seq c =? UINT64_MAX then ret None else
      modc (set_write_seq (u64 (c_write_seq c + 1))) ;;;
      ret (Some (TLS_RECORD_HEADER_LEN + total_len)%nat)
    | _ => ub
    end
  else
    let buf := splice (splice (c_write_buf c) 3 (two_bytes len)) TLS_RECORD_HEADER_LEN data in
    modc (fun c => set_write_len (TLS_RECORD_HEADER_LEN + length data) (set_write_buf buf c)) ;;;
    ret (Some (TLS_RECORD_HEADER_LEN + length data)%nat).

(** [conn->write_buf + conn->write_off], as far as [write_len]. *)
Definition pending_out (c : conn) : list Z := sub_list (c_write_off c) (c_write_len c - c_write_off c) (c_write_buf c).

(** The start of [write_record]: what is left of the previous record goes first.
    [None] when nothing is left. *)
Definition flush_pending : M (option opssl_result_t) :=
  c <- getc ;;
  if (c_write_off c <? c_write_len c)%nat then
    n <- conn_write (pending_out c) ;;
    match n with
    | IoAgain => ret (Some OPSSL_WANT_WRITE)
    | IoFail => r <- fail OPSSL_ERR_IO ;; ret (Some r)
    | IoN n =>
      modc (set_write_off (c_write_off c + n)) ;;;
      if (c_write_off c + n <? c_write_len c)%nat then ret (Some OPSSL_WANT_WRITE) else
      modc (fun c => set_write_len 0 (set_write_off 0 c)) ;;; ret None
    end
  else ret None.

(** The rest of it. *)
Definition send_record (type : Z) (data : list Z) : M opssl_result_t :=
  built <- build_record type data ;;
  match built with
  | None => fail OPSSL_ERR_PROTOCOL
  | Some len =>
    c <- getc ;;
    n <- conn_write (take len (c_write_buf c)) ;;
    match n with
    | IoAgain => modc (set_write_off 0) ;;; ret OPSSL_WANT_WRITE
    | IoFail => fail OPSSL_ERR_IO
    | IoN n =>
      modc (set_write_off n) ;;;
      if (n <? len)%nat then ret OPSSL_WANT_WRITE else
      modc (fun c => set_write_len 0 (set_write_off 0 c)) ;;; ret OPSSL_OK
    end
  end.

Definition write_record (type : Z) (data : list Z) : M opssl_result_t :=
  if (TLS_MAX_RECORD_LEN <? length data)%nat then fail OPSSL_ERR_PROTOCOL else
  flushed <- flush_pending ;;
  match flushed with
  | Some r => ret r
  | None => send_record type data
  end.
End Records.

(* ------------------------------------------------------------------ *)
(** * Keys *)

(** The AEAD of a suite, in the switches of [setup_cipher_contexts] and
    [opssl_conn_import]. *)
Definition conn_aead (cipher : Z) : option opssl_aead_algo_t :=
  if (cipher =? OPSSL_TLS_AES_128_GCM_SHA256) || (cipher =? OPSSL_TLS_ECDHE_RSA_AES_128_GCM) || (cipher =? OPSSL_TLS_ECDHE_ECDSA_AES_128_GCM)
  then Some OPSSL_AEAD_AES_128_GCM else
  if (cipher =? OPSSL_TLS_AES_256_GCM_SHA384) || (cipher =? OPSSL_TLS_ECDHE_RSA_AES_256_GCM) || (cipher =? OPSSL_TLS_ECDHE_ECDSA_AES_256_GCM)
  then Some OPSSL_AEAD_AES_256_GCM else
  if (cipher =? OPSSL_TLS_CHACHA20_POLY1305_SHA256) || (cipher =? OPSSL_TLS_ECDHE_RSA_CHACHA20) || (cipher =? OPSSL_TLS_ECDHE_ECDSA_CHACHA20)
  then Some OPSSL_AEAD_CHACHA20_POLY1305 else None.

(** [calloc_read] and [calloc_write]: the two allocations. *)
Definition setup_cipher_contexts (calloc_read calloc_write : bool) (client_key server_key client_iv server_iv : list Z) (cipher new_epoch : Z) : M opssl_result_t :=
  match conn_aead cipher with
  | None => fail OPSSL_ERR_NOT_SUPPORTED
  | Some aead_type =>
    modc (fun c => set_read_cipher (opssl_aead_new calloc_read aead_type) (set_write_cipher None (set_cipher cipher c))) ;;;
    c <- getc ;;
    if bool_decide (c_read_cipher c = None) then fail OPSSL_ERR_MEMORY else
    modc (set_write_cipher (opssl_aead_new calloc_write aead_type)) ;;;
    c <- getc ;;
    if bool_decide (c_write_cipher c = None) then modc (set_read_cipher None) ;;; fail OPSSL_ERR_MEMORY else
    let server := c_dir c =? OPSSL_SERVER in
    let read_key := if server then client_key else server_key in
    let write_key := if server then server_key else client_key in
    let read_iv := if server then client_iv else server_iv in
    let write_iv := if server then server_iv else client_iv in
    let error := modc (fun c => set_read_cipher None (set_write_cipher None (set_last_error OPSSL_ERR_CRYPTO c))) ;;; ret OPSSL_ERROR in
    let '(r, ctx) := opssl_aead_set_key (c_read_cipher c) (Some read_key) in
    if negb (r =? 1) then error else
    modc (fun c => set_read_cipher ctx (set_read_iv (splice (c_read_iv c) 0 (take 12 read_iv)) c)) ;;;
    let '(r, ctx) := opssl_aead_set_key (c_write_cipher c) (Some write_key) in
    if negb (r =? 1) then error else
    modc (fun c => set_write_cipher ctx (set_write_iv (splice (c_write_iv c) 0 (take 12 write_iv)) c)) ;;;
    modc (fun c => set_read_key_len (Nat.min (length read_key) 32) (set_read_key (splice (c_read_key c) 0 (take 32 read_key)) c)) ;;;
    modc (fun c => set_write_key_len (Nat.min (length write_key) 32) (set_write_key (splice (c_write_key c) 0 (take 32 write_key)) c)) ;;;
    modc (fun c => set_read_encrypted true (set_write_encrypted true c)) ;;;
    c <- getc ;;
    modc (fun c => set_read_epoch new_epoch (set_write_epoch new_epoch c)) ;;;
    modc (if negb (c_read_epoch c =? new_epoch) then set_read_seq 0 else fun c => c) ;;;
    modc (if negb (c_write_epoch c =? new_epoch) then set_write_seq 0 else fun c => c) ;;;
    ret OPSSL_OK
  end.

Section Calls.
Context `{Cpu} `{Avx2} `{AesInstr} `{Clmul}.
Variable fuel : nat.
Variable junk : poly1305_state_t.
Variable calloc_ok : bool.
Variable hfuel : nat.
Variable hjunk : list Z.

(** [opssl_tls13_hkdf_expand_label] into the first [n] bytes of an array of [max]. *)
Definition expand_label (n max : nat) (secret label context : list Z) (a : opssl_hmac_algo_t) : M (option (list Z)) :=
  if (max <? n)%nat then ub else
  match opssl_tls13_hkdf_expand_label hfuel hjunk (replicate n 0) secret label context a with
  | None => ub
  | Some r => ret r
  end.

Definition our_secret (c : conn) : list Z := if c_dir c =? OPSSL_SERVER then c_server_traffic_secret c else c_client_traffic_secret c.
Definition peer_secret (c : conn) : list Z := if c_dir c =? OPSSL_SERVER then c_client_traffic_secret c else c_server_traffic_secret c.
Definition set_our_secret (s : list Z) (c : conn) : conn := if c_dir c =? OPSSL_SERVER then set_server_traffic_secret s c else set_client_traffic_secret s c.
Definition set_peer_secret (s : list Z) (c : conn) : conn := if c_dir c =? OPSSL_SERVER then set_client_traffic_secret s c else set_server_traffic_secret s c.

Definition apply_tls13_write_key_update : M opssl_result_t :=
  c <- getc ;;
  if (c_secret_len c =? 0)%nat || (c_write_key_len c =? 0)%nat || bool_decide (c_write_cipher c = None) then fail OPSSL_ERR_PROTOCOL else
  let halgo := c_hash_algo c in
  s <- expand_label (c_secret_len c) 48 (take (c_secret_len c) (our_secret c)) TLS13_LABEL_TRAFFIC_UPD [] halgo ;;
  match s with
  | None => fail OPSSL_ERR_CRYPTO
  | Some new_secret =>
    modc (set_our_secret (splice (our_secret c) 0 new_secret)) ;;;
    k <- expand_label (c_write_key_len c) 32 new_secret TLS13_LABEL_KEY [] halgo ;;
    match k with
    | None => fail OPSSL_ERR_CRYPTO
    | Some new_key =>
      v <- expand_label 12 12 new_secret TLS13_LABEL_IV [] halgo ;;
      match v with
      | None => fail OPSSL_ERR_CRYPTO
      | Some new_iv =>
        let '(r, ctx) := opssl_aead_set_key (c_write_cipher c) (Some new_key) in
        if negb (r =? 1) then fail OPSSL_ERR_CRYPTO else
        modc (fun c => set_write_cipher ctx (set_write_iv new_iv (set_write_key (splice (c_write_key c) 0 new_key) (set_write_seq 0 c)))) ;;;
        ret OPSSL_OK
      end
    end
  end.

Definition opssl_conn_flush_write : M opssl_result_t :=
  c <- getc ;;
  if (c_write_len c <=? c_write_off c)%nat then modc (fun c => set_write_len 0 (set_write_off 0 c)) ;;; ret OPSSL_OK else
  n <- conn_write (pending_out c) ;;
  match n with
  | IoAgain => ret OPSSL_WANT_WRITE
  | IoFail => ret OPSSL_ERROR
  | IoN n =>
    modc (set_write_off (c_write_off c + n)) ;;;
    if (c_write_len c <=? c_write_off c + n)%nat then modc (fun c => set_write_len 0 (set_write_off 0 c)) ;;; ret OPSSL_OK
    else ret OPSSL_WANT_WRITE
  end.

Definition finish_pending_key_update : M opssl_result_t :=
  flush <- opssl_conn_flush_write ;;
  if bool_decide (flush <> OPSSL_OK) then ret flush else
  modc (set_key_update_apply_after_flush false) ;;; apply_tls13_write_key_update.

Definition opssl_conn_key_update (request_peer_update : bool) : M opssl_result_t :=
  c <- getc ;;
  if negb (c_is_tls13 c) || negb (c_hs_state c =? OPSSL_HS_COMPLETE) then ret OPSSL_ERROR else
  if c_key_update_apply_after_flush c then finish_pending_key_update else
  if (c_secret_len c =? 0)%nat || (c_write_key_len c =? 0)%nat || bool_decide (c_write_cipher c = None) then fail OPSSL_ERR_PROTOCOL else
  flush <- (if (c_write_off c <? c_write_len c)%nat then opssl_conn_flush_write else ret OPSSL_OK) ;;
  if bool_decide (flush <> OPSSL_OK) then ret flush else
  rc <- write_record fuel junk calloc_ok TLS_RT_HANDSHAKE [24; 0; 0; 1; if request_peer_update then 1 else 0] ;;
  match rc with
  | OPSSL_WANT_WRITE | OPSSL_WANT_READ => modc (set_key_update_apply_after_flush true) ;;; ret rc
  | OPSSL_OK => apply_tls13_write_key_update
  | _ => ret rc
  end.

(** [case TLS_HT_NEW_SESSION_TICKET], on the body of the message; [OPSSL_OK] for
    [break]. *)
Definition new_session_ticket (body : list Z) : M opssl_result_t :=
  c <- getc ;;
  let msg_len := Z.of_nat (length body) in
  if (msg_len <? 12) || (c_rms_len c =? 0)%nat then ret OPSSL_OK else
  let nonce_len := body.[8] in
  if msg_len <? 9 + nonce_len + 2 then fail OPSSL_ERR_PROTOCOL else
  let n := off nonce_len in
  let ticket_len := Z.lor (Z.shiftl body.[9 + n] 8) body.[9 + n + 1] in
  if (msg_len <? 9 + nonce_len + 2 + ticket_len + 2) || (1024 <? ticket_len) then fail OPSSL_ERR_PROTOCOL else
  if ticket_len =? 0 then ret OPSSL_OK else
  p <- expand_label (c_rms_len c) 48 (take (c_rms_len c) (c_resumption_master_secret c)) (chars "resumption") (sub_list 9 n body) (c_hash_algo c) ;;
  match p with
  | None => fail OPSSL_ERR_CRYPTO
  | Some psk =>
    modc (fun c => set_ticket_psk (splice (c_ticket_psk c) 0 psk) (set_session_ticket (splice (c_session_ticket c) 0 (sub_list (9 + n + 2) (off ticket_len) body)) c)) ;;;
    modc (fun c => set_session_ticket_len (off ticket_len) (set_ticket_lifetime (opssl_be32 body) (set_ticket_age_add (opssl_be32 (drop 4 body)) c))) ;;;
    modc (fun c => set_ticket_psk_len (c_rms_len c) (set_has_ticket true c)) ;;;
    ret OPSSL_OK
  end.

(** [case 24]: KeyUpdate. *)
Definition key_update_received (body : list Z) : M opssl_result_t :=
  c <- getc ;;
  if negb (length body =? 1)%nat || (negb (body.[0] =? 0) && negb (body.[0] =? 1)) || (c_secret_len c =? 0)%nat || (c_read_key_len c =? 0)%nat ||
     bool_decide (c_read_cipher c = None) then fail OPSSL_ERR_PROTOCOL else
  let halgo := c_hash_algo c in
  s <- expand_label (c_secret_len c) 48 (take (c_secret_len c) (peer_secret c)) TLS13_LABEL_TRAFFIC_UPD [] halgo ;;
  match s with
  | None => fail OPSSL_ERR_CRYPTO
  | Some new_secret =>
    k <- expand_label (c_read_key_len c) 32 new_secret TLS13_LABEL_KEY [] halgo ;;
    match k with
    | None => fail OPSSL_ERR_CRYPTO
    | Some new_key =>
      v <- expand_label 12 12 new_secret TLS13_LABEL_IV [] halgo ;;
      match v with
      | None => fail OPSSL_ERR_CRYPTO
      | Some new_iv =>
        let '(r, ctx) := opssl_aead_set_key (c_read_cipher c) (Some new_key) in
        if negb (r =? 1) then fail OPSSL_ERR_CRYPTO else
        modc (fun c => set_read_cipher ctx (set_peer_secret (splice (peer_secret c) 0 new_secret) c)) ;;;
        modc (fun c => set_read_iv new_iv (set_read_key (splice (c_read_key c) 0 new_key) (set_read_seq 0 c))) ;;;
        if body.[0] =? 1 then opssl_conn_key_update false else ret OPSSL_OK
      end
    end
  end.

(** The loop over the messages of a record, [data] being what is left of it; every
    message takes at least its header. *)
Fixpoint post_handshake_loop (n : nat) (data : list Z) : M opssl_result_t :=
  match data with
  | [] => ret OPSSL_OK
  | _ =>
    match n with
    | O => ub
    | S n =>
      if (length data <? TLS_HANDSHAKE_HEADER_LEN)%nat then fail OPSSL_ERR_PROTOCOL else
      let msg_type := data.[0] in
      let msg_len := be24 (drop 1 data) in
      if Z.of_nat (length data - TLS_HANDSHAKE_HEADER_LEN) <? msg_len then fail OPSSL_ERR_PROTOCOL else
      let body := sub_list TLS_HANDSHAKE_HEADER_LEN (off msg_len) data in
      r <- (if msg_type =? TLS_HT_NEW_SESSION_TICKET then new_session_ticket body
            else if msg_type =? 24 then key_update_received body
            else if msg_type =? TLS_HT_CERTIFICATE_REQUEST then fail OPSSL_ERR_NOT_SUPPORTED
            else fail OPSSL_ERR_PROTOCOL) ;;
      if bool_decide (r <> OPSSL_OK) then ret r else
      post_handshake_loop n (drop (TLS_HANDSHAKE_HEADER_LEN + off msg_len) data)
    end
  end.

Definition process_tls13_post_handshake (data : list Z) : M opssl_result_t :=
  c <- getc ;;
  if negb (c_is_tls13 c) || (length data <? TLS_HANDSHAKE_HEADER_LEN)%nat then fail OPSSL_ERR_PROTOCOL else
  post_handshake_loop (length data) data.

(* ------------------------------------------------------------------ *)
(** * Application data *)

Definition process_application_data (data : list Z) : M opssl_result_t :=
  c <- getc ;;
  if (APP_BUF_SIZE - c_app_len c <? length data)%nat then fail OPSSL_ERR_BUFFER_OVERFLOW else
  modc (fun c => set_app_len (c_app_len c + length data) (set_app_buf (splice (c_app_buf c) (c_app_len c) data) c)) ;;; ret OPSSL_OK.

(** What a call returns, and the bytes it has put in the caller's buffer. *)
Definition EAGAIN (r : opssl_result_t) : M (Z * list Z) := modc (set_last_want r) ;;; ret (-1, []).

(** The records read by one call, at most [n]. *)
Fixpoint read_loop (n : nat) (len : nat) : M (Z * list Z) :=
  match n with
  | O => EAGAIN OPSSL_WANT_READ
  | S n =>
    r <- read_record fuel junk calloc_ok ;;
    match r with
    | NotYet OPSSL_WANT_READ => EAGAIN OPSSL_WANT_READ
    | NotYet OPSSL_WANT_WRITE => EAGAIN OPSSL_WANT_WRITE
    | NotYet _ => c <- getc ;; ret (if c_last_error c =? OPSSL_ERR_PEER_CLOSED then 0 else -1, [])
    | Got type data =>
      if type =? TLS_RT_APPLICATION_DATA then
        result <- process_application_data data ;;
        modc (set_read_len 0) ;;;
        if bool_decide (result <> OPSSL_OK) then ret (-1, []) else
        c <- getc ;;
        if (0 <? c_app_len c)%nat then
          let to_copy := Nat.min len (c_app_len c) in
          modc (if (to_copy <? c_app_len c)%nat
                then fun c => set_app_len (c_app_len c - to_copy) (set_app_buf (splice (c_app_buf c) 0 (sub_list to_copy (c_app_len c - to_copy) (c_app_buf c))) c)
                else set_app_len 0) ;;;
          ret (Z.of_nat to_copy, take to_copy (c_app_buf c))
        else read_loop n len
      else if type =? TLS_RT_ALERT then
        modc (set_read_len 0) ;;;
        if data.[1] =? 0 then modc (set_shutdown_received true) ;;; ret (0, []) else
        if data.[0] =? 2 then modc (set_last_error OPSSL_ERR_PEER_ALERT) ;;; ret (-1, []) else
        read_loop n len
      else if type =? TLS_RT_HANDSHAKE then
        modc (set_read_len 0) ;;;
        c <- getc ;;
        if negb (c_is_tls13 c) then modc (set_last_error OPSSL_ERR_PROTOCOL) ;;; ret (-1, []) else
        result <- process_tls13_post_handshake data ;;
        match result with
        | OPSSL_WANT_READ | OPSSL_WANT_WRITE => EAGAIN result
        | OPSSL_OK => read_loop n len
        | _ => ret (-1, [])
        end
      else modc (fun c => set_read_len 0 (set_last_error OPSSL_ERR_PROTOCOL c)) ;;; ret (-1, [])
    end
  end.

Definition opssl_read (len : nat) : M (Z * list Z) :=
  c <- getc ;;
  if (len =? 0)%nat then ret (-1, []) else
  if negb (c_hs_state c =? OPSSL_HS_COMPLETE) then modc (set_last_error OPSSL_ERR_HANDSHAKE_INCOMPLETE) ;;; ret (-1, []) else
  if (c_app_off c <? c_app_len c)%nat then
    let to_copy := Nat.min len (c_app_len c - c_app_off c) in
    modc (set_app_off (c_app_off c + to_copy)) ;;;
    modc (if (c_app_len c <=? c_app_off c + to_copy)%nat then fun c => set_app_len 0 (set_app_off 0 c) else fun c => c) ;;;
    ret (Z.of_nat to_copy, sub_list (c_app_off c) to_copy (c_app_buf c))
  else read_loop 16 len.

(** [while (written < len)], [data] being what is left and [written] before it. *)
Fixpoint write_loop (n : nat) (data : list Z) (written : nat) : M Z :=
  match data with
  | [] => ret (Z.of_nat written)
  | _ =>
    match n with
    | O => ub
    | S n =>
      let chunk_size := Nat.min (length data) TLS_MAX_RECORD_LEN in
      before <- getc ;;
      r <- write_record fuel junk calloc_ok TLS_RT_APPLICATION_DATA (take chunk_size data) ;;
      c <- getc ;;
      match r with
      | OPSSL_WANT_WRITE | OPSSL_WANT_READ =>
        let written := if negb (c_write_seq c =? c_write_seq before) then (written + chunk_size)%nat else written in
        modc (set_last_want r) ;;; ret (if (0 <? written)%nat then Z.of_nat written else -1)
      | OPSSL_OK => write_loop n (drop chunk_size data) (written + chunk_size)
      | _ => ret (-1)
      end
    end
  end.

Definition opssl_write (data : list Z) : M Z :=
  c <- getc ;;
  if (length data =? 0)%nat then ret (-1) else
  if negb (c_hs_state c =? OPSSL_HS_COMPLETE) then modc (set_last_error OPSSL_ERR_HANDSHAKE_INCOMPLETE) ;;; ret (-1) else
  if c_shutdown_sent c then modc (set_last_error OPSSL_ERR_SHUTDOWN_SENT) ;;; ret (-1) else
  ku <- (if c_key_update_apply_after_flush c then finish_pending_key_update else ret OPSSL_OK) ;;
  match ku with
  | OPSSL_WANT_WRITE | OPSSL_WANT_READ => modc (set_last_want ku) ;;; ret (-1)
  | OPSSL_OK => write_loop (length data) data 0
  | _ => ret (-1)
  end.

Definition opssl_pending : M Z := c <- getc ;; ret (s32 (u64 (Z.of_nat (c_app_len c) - Z.of_nat (c_app_off c)))).

Definition opssl_shutdown : M opssl_result_t :=
  c <- getc ;;
  r <- (if negb (c_shutdown_sent c) then write_record fuel junk calloc_ok TLS_RT_ALERT [1; 0] else ret OPSSL_OK) ;;
  if bool_decide (r <> OPSSL_OK) then ret r else
  modc (set_shutdown_sent true) ;;;
  c <- getc ;;
  ret (if c_shutdown_received c then OPSSL_OK else OPSSL_WANT_READ).

Definition opssl_conn_send_alert (level desc : Z) : M opssl_result_t :=
  r <- write_record fuel junk calloc_ok TLS_RT_ALERT [u8 level; u8 desc] ;;
  if bool_decide (r <> OPSSL_OK) then ret r else
  modc (if level =? 2 then set_shutdown_sent true else fun c => c) ;;; ret OPSSL_OK.

Definition send_fake_ccs : M opssl_result_t := write_record fuel junk calloc_ok TLS_RT_CHANGE_CIPHER_SPEC [1].

(** The [while (1)] of [opssl_conn_drain_post_handshake], for at most [n] records. *)
Fixpoint drain_loop (n : nat) : M opssl_result_t :=
  match n with
  | O => ub
  | S n =>
    r <- read_record fuel junk calloc_ok ;;
    match r with
    | NotYet OPSSL_WANT_READ => ret OPSSL_OK
    | NotYet r => ret r
    | Got type data =>
      if type =? TLS_RT_HANDSHAKE then
        r <- process_tls13_post_handshake data ;;
        if bool_decide (r <> OPSSL_OK) then ret r else modc (set_read_len 0) ;;; drain_loop n
      else if type =? TLS_RT_APPLICATION_DATA then
        r <- process_application_data data ;;
        if bool_decide (r <> OPSSL_OK) then ret r else modc (set_read_len 0) ;;; ret OPSSL_OK
      else if negb (type =? TLS_RT_ALERT) then fail OPSSL_ERR_PROTOCOL
      else modc (set_read_len 0) ;;; drain_loop n
    end
  end.

Definition opssl_conn_drain_post_handshake (n : nat) : M opssl_result_t :=
  c <- getc ;;
  if negb (c_hs_state c =? OPSSL_HS_COMPLETE) then ret OPSSL_ERROR else
  if negb (c_is_tls13 c) then ret OPSSL_OK else drain_loop n.
End Calls.
