(* ===== verification/ConnWrite.v ===== *)
(** Writing on a connection: every record that [build_record] makes is the one of
    the record layer, and reaches the transport once, whole and in order, however
    the transport cuts it. *)
From S2P Require Import Prelude Types Platform Err Cpu Hmac AesSpec ChaCha20 Poly1305 AesNi Aes BlockModes AesNiGcm AesNiGcmOk Aead Record CipherSuite Conn.
#[local] Open Scope Z_scope.
#[local] Open Scope conn_scope.

(** One direction of a connection as the record layer's state. *)
Definition rd_state (c : conn) : record_cipher_state_t := mk_rec (c_read_cipher c) (c_read_iv c) (c_read_seq c) (c_is_tls13 c).
Definition wr_state (c : conn) : record_cipher_state_t := mk_rec (c_write_cipher c) (c_write_iv c) (c_write_seq c) (c_is_tls13 c).

(* ------------------------------------------------------------------ *)
(** * Sequence numbers, two-byte fields *)

Lemma seq_bytes_be s : map (seq_byte s) (List.seq 0 8) = be_bytes 8 s.
Proof. reflexivity. Qed.

(** Writing one cell past a piece that was written. *)
Lemma insert_splice d o x v : (o + length x < length d)%nat -> <[(o + length x)%nat := v]> (splice d o x) = splice d o (x ++ [v]).
Proof.
  intros Hl. unfold splice. rewrite insert_app_r_alt by (rewrite length_take; lia). rewrite length_take, Nat.min_l by lia.
  replace (o + length x - o)%nat with (length x + 0)%nat by lia. rewrite insert_app_r, <- app_assoc, length_app. do 2 f_equal. cbn [app length].
  destruct (drop (o + length x) d) as [| y r] eqn:E; [apply (f_equal length) in E; rewrite length_drop in E; cbn in E; lia |].
  cbn [list_insert insert]. f_equal. replace (o + (length x + 1))%nat with (o + length x + 1)%nat by lia. by rewrite <- drop_drop, E.
Qed.

Lemma seq_byte_get s i : (i < 8)%nat -> (be_bytes 8 s).[i] = seq_byte s i.
Proof. intros H. rewrite <- seq_bytes_be. unfold get. rewrite nth_lookup, list_lookup_fmap. by rewrite lookup_seq_lt. Qed.

Lemma put_seq_splice s d o : (o + 8 <= length d)%nat -> put_seq s d o = splice d o (be_bytes 8 s).
Proof.
  intros Hl. unfold put_seq. change (be_bytes 8 s) with (take 8 (be_bytes 8 s)).
  change 8%nat with (0 + 8)%nat at 2. apply (for_range_ind (fun i d' => d' = splice d o (take i (be_bytes 8 s)))); [by rewrite take_0, splice_nil |].
  intros i d' Hi ->. pose proof (be_bytes_length 8 s) as Hb. rewrite <- seq_byte_get by lia.
  rewrite (take_S_r (be_bytes 8 s) i (be_bytes 8 s).[i]) by (apply lookup_get; lia).
  assert (length (take i (be_bytes 8 s)) = i) as Ht by (rewrite length_take; lia).
  replace (o + i)%nat with (o + length (take i (be_bytes 8 s)))%nat by lia. apply insert_splice. rewrite Ht. lia.
Qed.

Lemma xor_seq_nonce ctx iv s : length iv = 12%nat -> xor_seq s (take 12 iv) = record_make_nonce (mk_rec ctx iv s true).
Proof.
  intros Hl. rewrite make_nonce_spec by done. cbn [Record.iv is_tls13 seq]. do 12 (destruct iv as [| ? iv]; [done |]). destruct iv; [| done]. reflexivity.
Qed.

Lemma two_bytes_be n : 0 <= n < 65536 -> two_bytes n = be_bytes 2 n.
Proof.
  intros H. unfold two_bytes. cbn [be_bytes]. unfold u8. change 255 with (2 ^ 8 - 1). rewrite !land_ones' by lia. by rewrite Z.shiftr_0_r.
Qed.

Lemma splice_S a l o d : splice (a :: l) (S o) d = a :: splice l o d.
Proof. done. Qed.

Lemma splice_app_r (l1 l2 d : list Z) o : splice (l1 ++ l2) (length l1 + o) d = l1 ++ splice l2 o d.
Proof. induction l1 as [| a l1 IH]; [done |]. cbn [length Nat.add app]. by rewrite splice_S, IH. Qed.

(* ------------------------------------------------------------------ *)
(** * Writing a record *)

Lemma splice_app_l0 (l1 l2 d : list Z) : splice (l1 ++ l2) (length l1) d = l1 ++ splice l2 0 d.
Proof. rewrite <- (Nat.add_0_r (length l1)) at 1. apply splice_app_r. Qed.

(** The cells of the header, the explicit nonce of TLS 1.2 and the cipher's output,
    one after the other in the buffer. *)
Lemma build_layout h0 h3 h4 e ct (w : list Z) : (5 + length e + length ct <= length w)%nat -> length h0 = 3%nat ->
  let buf := splice (splice w 0 h0) 5 e in
  splice (splice buf (5 + length e) (splice (drop (5 + length e) buf) 0 ct)) 3 [h3; h4] =
  (h0 ++ [h3; h4] ++ e ++ ct) ++ drop (5 + length e + length ct) w.
Proof.
  intros Hl Hh. do 5 (destruct w as [| ? w]; [cbn in Hl; lia |]). destruct h0 as [| a [| b [| c [|]]]]; try done.
  cbn [length] in Hl. cbv zeta. rewrite splice_0. cbn [length drop app]. change 5%nat with (S (S (S (S (S O))))). rewrite !splice_S. rewrite (splice_0 w e).
  cbn [Nat.add]. rewrite !splice_S. cbn [drop]. rewrite (drop_app_length e).
  rewrite splice_app_l0.
  rewrite (splice_full (drop (length e) w)) by (apply splice_length; rewrite length_drop; lia). rewrite !splice_0. cbn [length drop app]. rewrite drop_drop, <- !app_assoc. done.
Qed.

Lemma layout_record h0 n e ct (w : list Z) : (5 + length e + length ct <= length w)%nat -> length h0 = 3%nat ->
  bytes h0 -> bytes e -> bytes ct -> bytes w ->
  let buf := splice (splice w 0 h0) 5 e in
  let b := splice (splice buf (5 + length e) (splice (drop (5 + length e) buf) 0 ct)) 3 (be_bytes 2 n) in
  length b = length w /\ bytes b /\ take (5 + length e + length ct) b = h0 ++ be_bytes 2 n ++ e ++ ct.
Proof.
  intros Hl Hh Bh Be Bc Bw buf b.
  assert (b = (h0 ++ be_bytes 2 n ++ e ++ ct) ++ drop (5 + length e + length ct) w) as -> by (by apply (build_layout h0)).
  assert (length (h0 ++ be_bytes 2 n ++ e ++ ct) = 5 + length e + length ct)%nat as El by (rewrite !length_app, be_bytes_length; lia).
  split_and!; [rewrite length_app, El, length_drop; lia | | rewrite <- El at 1; apply take_app_length].
  repeat (apply bytes_app; split); try done; [apply be_bytes_ok | by apply bytes_drop].
Qed.

Record sends {C : Cpu} {I : AesInstr} (fuel : nat) (junk : poly1305_state_t) (calloc_ok : bool) (c : conn) (ctx : opssl_aead_ctx) : Prop := {
  sn_ok : rec_ok junk calloc_ok (wr_state c) ctx;
  sn_enc : c_write_encrypted c = true;
  sn_tag : sc_tag_len (scheme_of ctx) = 16%nat;
  sn_suite : suite_tag_len (c_cipher c) = 16;
  sn_fits : sc_fits (scheme_of ctx) (Z.to_nat 16385) 13 = true;
  sn_len : length (c_write_buf c) = READ_BUF_SIZE;
  sn_bytes : bytes (c_write_buf c);
  sn_off : (c_write_off c < c_write_len c <= READ_BUF_SIZE)%nat \/ (c_write_len c = 0 /\ c_write_off c = 0)%nat;
  sn_fuel : Z.of_nat fuel >= 16500;
  sn_open : c_hs_state c = OPSSL_HS_COMPLETE /\ c_shutdown_sent c = false /\ c_key_update_apply_after_flush c = false
}.

(** The connection after a record: a new buffer and the next sequence number. *)
Definition wrote (c : conn) (b : list Z) : conn := set_write_seq (c_write_seq c + 1) (set_write_buf b c).

Ltac build_start :=
  unfold build_record, bind, modc, getc, ret; cbn [fst snd c_write_encrypted c_write_cipher c_is_tls13 c_write_seq c_write_iv c_cipher c_write_buf set_write_buf];
  repeat match goal with H : c_write_encrypted _ = _ |- _ => rewrite H | H : c_write_cipher _ = _ |- _ => rewrite H | H : c_is_tls13 _ = _ |- _ => rewrite H end;
  rewrite bool_decide_eq_true_2 by done; cbn [andb]; rewrite (proj2 (Nat.ltb_ge _ _)) by (unfold TLS_MAX_RECORD_LEN; lia).

Section Write.
Context {C : Cpu} {X : Avx2} {XS : Avx2Spec X} {I : AesInstr} {IS : AesInstrSpec I} {J : Clmul} {JS : ClmulSpec J}.
Context (fuel : nat) (junk : poly1305_state_t) (calloc_ok : bool) (c : conn) (ctx : opssl_aead_ctx).
Context (Hc : sends fuel junk calloc_ok c ctx) (type : Z) (Hty : byte_ok type) (data : list Z) (Hd : bytes data) (Hl : Z.of_nat (length data) <= 16384).
Context (Hseq : c_write_seq c < UINT64_MAX).

Lemma write_call nonce aad pt out : nonce_ok nonce -> bytes aad -> (length aad <= 13)%nat -> bytes pt -> Z.of_nat (length pt) <= 16385 -> bytes out ->
  (length pt + 16 <= length out)%nat ->
  opssl_aead_seal fuel junk calloc_ok (c_write_cipher c) (Some out) (Some 0) nonce pt aad =
    Some (1, Some (splice out 0 (sc_encrypt (scheme_of ctx) nonce aad pt)), Some (Z.of_nat (length pt + 16))).
Proof.
  intros Hn Ha Hal Hp Hpl Ho Hlo. destruct Hc as [[Hci Hctx Hj Hu Hiv Hivb Hs] He Ht Hsu Hf Hwl Hwb Hi Hfu Hop]. cbn [wr_state cipher] in Hci. rewrite Hci.
  rewrite dispatch_seal; [| split; try done; unfold size_ok, SIZE_MAX; lia | done | done]. unfold seal_spec.
  rewrite Ht, (sc_fits_le _ _ _ _ _ Hf), (proj2 (Nat.leb_le _ _)) by lia. done.
Qed.

Let built : Prop := forall t, exists b, length b = READ_BUF_SIZE /\ bytes b /\
  let n := (length data + overhead (wr_state c))%nat in
  build_record fuel junk calloc_ok type data (c, t) = Some (Some n, (set_write_len n (wrote c b), t)) /\
  take n b = wire (scheme_of ctx) (wr_state c) type data.

Ltac open_build :=
  intros E13 t; destruct Hc as [Hok He Ht Hsu Hf Hwl Hwb Hi Hfu Hop]; pose proof Hok as [Hci Hctx Hj Hu Hiv Hivb Hs]; pose proof (scheme_laws ctx Hctx) as L;
  unfold UINT64_MAX in *; cbn [wr_state cipher iv seq] in Hci, Hiv, Hs;
  pose proof (make_nonce_ok (wr_state c) Hiv Hivb) as Hn; pose proof Hty as Hty0; unfold overhead, wire; cbn [wr_state is_tls13]; rewrite E13;
  set (S := scheme_of ctx) in *.

Lemma build_record_13 : c_is_tls13 c = true -> built.
Proof.
  open_build.
  set (h := hdr _ _ _). set (m := data ++ [type]). assert (bytes m) as Hbm by (apply bytes_app; split; [done | apply bytes_cons; split; [done | solve_bytes]]). assert (length m = length data + 1)%nat as Hlm by (unfold m; rewrite length_app; done).
  assert (xor_seq (c_write_seq c) (take 12 (c_write_iv c)) = record_make_nonce (wr_state c)) as En by (unfold wr_state; rewrite E13; by apply xor_seq_nonce).
  assert ([23; 3; 3] ++ two_bytes (Z.of_nat (length m) + 16) = h) as Eh
    by (rewrite two_bytes_be by lia; unfold h, hdr; replace (Z.of_nat (length m) + 16) with (Z.of_nat (length data) + 17) by lia; done).
  build_start. fold m. rewrite Hsu, En, Eh.
  change (READ_BUF_SIZE - TLS_RECORD_HEADER_LEN)%nat with (READ_BUF_SIZE - 5)%nat. change TLS_RECORD_HEADER_LEN with 5%nat.
  assert (<[0%nat:=23]> (splice (c_write_buf c) 0 [type; 3; 3]) = splice (splice (c_write_buf c) 0 [23; 3; 3]) 5 []) as ->.
  { rewrite splice_nil. do 5 (destruct (c_write_buf c) as [| ? ?]; [done |]). done. }
  set (buf := splice _ 5 []). assert (length buf = READ_BUF_SIZE) as Hlb by (unfold buf; rewrite splice_nil, splice_length; rewrite Hwl; done || (unfold READ_BUF_SIZE; cbn [length]; lia)).
  assert (bytes buf) as Hbb by (unfold buf; rewrite splice_nil; apply bytes_splice; [done | solve_bytes]).
  set (w := sub_list 5 _ buf). assert (w = drop 5 buf) as Ew by (unfold w, sub_list; apply take_ge; rewrite length_drop; lia).
  assert (length w = READ_BUF_SIZE - 5)%nat as Hlw by (rewrite Ew, length_drop; lia).
  rewrite <- Hci, write_call; [| done | by apply hdr_bytes | cbn; lia | done | lia | rewrite Ew; by apply bytes_drop | rewrite Hlw; unfold READ_BUF_SIZE; lia].
  set (ct := sc_encrypt _ _ h m). assert (length ct = length m + 16)%nat as Hct by (unfold ct; rewrite encrypt_length by done; fold S; by rewrite Ht).
  cbn [Z.eqb Pos.eqb negb]. rewrite (proj2 (Z.eqb_neq _ _)) by (unfold UINT64_MAX; lia).
  replace (off (Z.of_nat (length m + 16)) + (5 - 5))%nat with (length m + 16)%nat by (unfold off; lia). rewrite two_bytes_be by lia.
  rewrite Ew. destruct (layout_record [23; 3; 3] (Z.of_nat (length m + 16)) [] ct (c_write_buf c)) as (Hb1 & Hb2 & Hb3);
    [rewrite Hwl; unfold READ_BUF_SIZE; cbn [length]; lia | done | solve_bytes | solve_bytes | by apply encrypt_bytes | done |].
  fold buf in Hb1, Hb2, Hb3. change (5 + length [])%nat with 5%nat in Hb1, Hb2, Hb3.
  eexists. split; [by rewrite Hb1 |]. split; [exact Hb2 |].
  rewrite Hct, Hlm in Hb3. rewrite (u64_id (c_write_seq c + 1)) by lia. rewrite Hlm in *. replace (5 + (length data + 1 + 16))%nat with (length data + 22)%nat in * by lia.
  set (b := splice (splice buf _ _) _ _) in *. split; [reflexivity |]. rewrite Hb3. unfold h, hdr. replace (Z.of_nat (length data) + 17) with (Z.of_nat (length data + 1 + 16)) by lia. done.
Qed.

Lemma build_record_12 : c_is_tls13 c = false -> built.
Proof.
  open_build.
  set (h := hdr _ _ _).
  assert (put_seq (c_write_seq c) (take 12 (c_write_iv c)) 4 = record_make_nonce (wr_state c)) as En.
  { rewrite put_seq_splice by (rewrite length_take; lia). unfold wr_state. rewrite make_nonce_spec by done. rewrite E13. cbn [Record.iv is_tls13 seq].
    rewrite splice_end by (rewrite be_bytes_length, length_take; lia). rewrite take_take. done. }
  assert (put_seq (c_write_seq c) (replicate 8 0) 0 ++ [type; 3; 3] ++ two_bytes (Z.of_nat (length data)) = record_make_aad (wr_state c) type 0x0303 (Z.of_nat (length data))) as Eh.
  { rewrite put_seq_splice by (rewrite length_replicate; lia). rewrite splice_full by (by rewrite be_bytes_length). rewrite make_aad_spec, two_bytes_be by lia. unfold wr_state. by rewrite E13. }
  build_start. rewrite En, Eh. 
  change (READ_BUF_SIZE - (TLS_RECORD_HEADER_LEN + 8))%nat with (READ_BUF_SIZE - 13)%nat. change (TLS_RECORD_HEADER_LEN + 8)%nat with 13%nat. change TLS_RECORD_HEADER_LEN with 5%nat.
  pose proof (be_bytes_length 8 (c_write_seq c)) as Hl8. pose proof (be_bytes_ok 8 (c_write_seq c)) as Hb8.
  assert (length (splice (c_write_buf c) 0 [type; 3; 3]) = READ_BUF_SIZE) as Hlb0 by (rewrite splice_length; rewrite Hwl; done || (unfold READ_BUF_SIZE; cbn [length]; lia)).
  assert (bytes [type; 3; 3]) as Hb0 by (apply bytes_cons; split; [done | solve_bytes]).
  rewrite put_seq_splice by (rewrite Hlb0; unfold READ_BUF_SIZE; lia).
  set (buf := splice _ 5 _). assert (length buf = READ_BUF_SIZE) as Hlb by (unfold buf; rewrite splice_length; rewrite Hlb0; done || (rewrite Hl8; unfold READ_BUF_SIZE; lia)).
  assert (bytes buf) as Hbb by (by unfold buf; apply bytes_splice; [apply bytes_splice |]).
  set (w := sub_list 13 _ buf). assert (w = drop 13 buf) as Ew by (unfold w, sub_list; apply take_ge; rewrite length_drop; lia).
  assert (length w = READ_BUF_SIZE - 13)%nat as Hlw by (rewrite Ew, length_drop; lia).
  destruct (make_aad_ok (wr_state c) type 771 (Z.of_nat (length data)) Hty) as [Ha1 Ha2].
  rewrite <- Hci, write_call; [| done | done | done | done | lia | rewrite Ew; by apply bytes_drop | rewrite Hlw; unfold READ_BUF_SIZE; lia].
  set (ct := sc_encrypt _ _ _ data). assert (length ct = length data + 16)%nat as Hct by (unfold ct; rewrite encrypt_length by done; fold S; by rewrite Ht).
  cbn [Z.eqb Pos.eqb negb]. rewrite (proj2 (Z.eqb_neq _ _)) by (unfold UINT64_MAX; lia).
  replace (off (Z.of_nat (length data + 16)) + (13 - 5))%nat with (length data + 24)%nat by (unfold off; lia). rewrite two_bytes_be by lia.
  rewrite Ew. destruct (layout_record [type; 3; 3] (Z.of_nat (length data + 24)) (be_bytes 8 (c_write_seq c)) ct (c_write_buf c)) as (Hb1 & Hb2 & Hb3);
    [rewrite Hwl, Hl8; unfold READ_BUF_SIZE; lia | done | done | done | by apply encrypt_bytes | done |].
  rewrite Hl8 in Hb1, Hb2, Hb3. fold buf in Hb1, Hb2, Hb3. change (5 + 8)%nat with 13%nat in Hb1, Hb2, Hb3.
  eexists. split; [by rewrite Hb1 |]. split; [exact Hb2 |].
  rewrite Hct in Hb3. rewrite (u64_id (c_write_seq c + 1)) by lia. replace (5 + (length data + 24))%nat with (length data + 29)%nat by lia. replace (13 + (length data + 16))%nat with (length data + 29)%nat in Hb3 by lia.
  set (b := splice (splice buf _ _) _ _) in *. split; [reflexivity |]. rewrite Hb3. unfold h, hdr. replace (Z.of_nat (length data) + 24) with (Z.of_nat (length data + 24)) by lia. done.
Qed.

Lemma build_record_spec : built.
Proof. destruct (c_is_tls13 c) eqn:E; [by apply build_record_13 | by apply build_record_12]. Qed.
End Write.

(* ------------------------------------------------------------------ *)
(** * The stream of bytes *)

(** What the transport has been given, and what it will be given next. *)
Definition out (c : conn) (t : io) : list Z := sent t ++ pending_out c.

Definition tx_clean (t : io) : Prop := Forall (fun e => e <> TxError) (tx t).

Lemma conn_write_spec c t d : exists x t', conn_write d (c, t) = Some (x, (c, t')) /\ rx t' = rx t /\ (tx_clean t -> tx_clean t') /\
  tx t' = tail (tx t) /\ (forall n l, tx t = Tx n :: l -> (0 < length d <= n)%nat -> x = IoN (length d)) /\
  match x with
  | IoN n => (0 < n <= length d)%nat /\ sent t' = sent t ++ take n d
  | IoAgain => sent t' = sent t
  | IoFail => sent t' = sent t /\ ~ tx_clean t
  end.
Proof.
  unfold conn_write, tx_clean. destruct t as [r [| e l] s]; cbn [rx tx sent tail]; [by eexists _, _ |].
  assert (Forall (fun e => e <> TxError) (e :: l) -> Forall (fun e => e <> TxError) l) as Hc by (intros H; by inversion H).
  destruct e as [room | |]; [destruct (Nat.eqb_spec (room `min` length d) 0) as [E | E] |..]; eexists _, _; (split; [reflexivity |]); cbn [rx tx sent]; do 3 (split; [done |]).
  - split; [intros n l' [= -> ->]; lia | done].
  - split; [intros n l' [= -> ->] ?; f_equal; lia |]. split; [lia | done].
  - by split.
  - split; [done |]. split; [done |]. intros H. by inversion H.
Qed.

(** The members that writing changes. *)
Definition wio (b : list Z) (n o : nat) (s : Z) (c : conn) : conn := set_write_seq s (set_write_off o (set_write_len n (set_write_buf b c))).

Lemma wio_id c : c = wio (c_write_buf c) (c_write_len c) (c_write_off c) (c_write_seq c) c.
Proof. by destruct c. Qed.

Section Stream.
Context {C : Cpu} {X : Avx2} {XS : Avx2Spec X} {I : AesInstr} {IS : AesInstrSpec I} {J : Clmul} {JS : ClmulSpec J}.
Context (fuel : nat) (junk : poly1305_state_t) (calloc_ok : bool) (ctx : opssl_aead_ctx).

Definition off_ok (n o : nat) : Prop := (o < n <= READ_BUF_SIZE)%nat \/ (n = 0 /\ o = 0)%nat.

Lemma sends_wio c b n o s : sends fuel junk calloc_ok c ctx -> length b = READ_BUF_SIZE -> bytes b -> off_ok n o -> 0 <= s <= UINT64_MAX ->
  sends fuel junk calloc_ok (wio b n o s c) ctx.
Proof. intros [[? ? ? ? ? ? ?] ? ? ? ? ? ? ? ? ?] ? ? ? ?. by do 2 (split; try done). Qed.

Lemma sends_last c e : sends fuel junk calloc_ok c ctx -> sends fuel junk calloc_ok (set_last_error e c) ctx.
Proof. intros [[? ? ? ? ? ? ?] ? ? ? ? ? ? ? ? ?]. by do 2 (split; try done). Qed.

Lemma sends_want c r : sends fuel junk calloc_ok c ctx -> sends fuel junk calloc_ok (set_last_want r c) ctx.
Proof. intros [[? ? ? ? ? ? ?] ? ? ? ? ? ? ? ? ?]. by do 2 (split; try done). Qed.
Definition flushed (c : conn) (t : io) (o : option opssl_result_t) (c' : conn) (t' : io) : Prop :=
  sends fuel junk calloc_ok c' ctx /\ wr_state c' = wr_state c /\ out c' t' = out c t /\ rx t' = rx t /\ (tx_clean t -> tx_clean t') /\
  match o with
  | None => (c_write_len c' = 0 /\ c_write_off c' = 0)%nat
  | Some r => r = OPSSL_WANT_WRITE \/ (r = OPSSL_ERROR /\ ~ tx_clean t)
  end.

Lemma flush_pending_spec c t : sends fuel junk calloc_ok c ctx ->
  exists o c' t', flush_pending (c, t) = Some (o, (c', t')) /\ flushed c t o c' t'.
Proof.
  intros Hc. pose proof (sn_off _ _ _ _ _ Hc) as Ho. pose proof (sn_len _ _ _ _ _ Hc) as Hl. pose proof (sn_bytes _ _ _ _ _ Hc) as Hb. pose proof (ro_seq _ _ _ _ (sn_ok _ _ _ _ _ Hc)) as Hs.
  unfold flush_pending, bind, getc. cbn [fst]. destruct (Nat.ltb_spec (c_write_off c) (c_write_len c)) as [Hlt | Hge].
  2: { eexists _, c, t. split; [reflexivity |]. unfold flushed. do 5 (split; [done |]). lia. }
  assert (length (pending_out c) = c_write_len c - c_write_off c)%nat as Hp by (apply sub_list_length; lia).
  destruct (conn_write_spec c t (pending_out c)) as (x & t' & E & Hr & Ht & _ & _ & Hx). unfold bind. rewrite E. destruct x as [n | |].
  - destruct Hx as [Hn Hx]. unfold modc. cbn [fst snd]. destruct (Nat.ltb_spec (c_write_off c + n) (c_write_len c)) as [H | H].
    + eexists _, _, t'. split; [reflexivity |]. split_and!; [| done | | done | done | by left].
      * apply (sends_wio c (c_write_buf c) (c_write_len c) (c_write_off c + n) (c_write_seq c)); try done. left. lia.
      * unfold out. rewrite Hx, <- app_assoc. f_equal. unfold pending_out. cbn [c_write_off c_write_len c_write_buf set_write_off].
        rewrite <- (take_drop n (sub_list (c_write_off c) _ _)) at 2. f_equal. unfold sub_list. rewrite skipn_firstn_comm, drop_drop. f_equal. lia.
    + eexists _, _, t'. split; [reflexivity |]. split_and!; [| done | | done | done | done | done].
      * apply (sends_wio c (c_write_buf c) 0 0 (c_write_seq c)); try done. by right.
      * unfold out. rewrite Hx, <- app_assoc. f_equal. rewrite (take_ge (pending_out c)) by lia. apply app_nil_r.
  - eexists _, c, t'. split; [reflexivity |]. split_and!; try done; [| by left]. unfold out. by rewrite Hx.
  - destruct Hx as [Hx Hd]. eexists _, _, t'. split; [reflexivity |]. split_and!; try done; [by apply sends_last | | by right]. unfold out. by rewrite Hx.
Qed.

(** Flushing between the calls. *)
Lemma flush_write_spec c t : sends fuel junk calloc_ok c ctx ->
  exists r c' t', opssl_conn_flush_write (c, t) = Some (r, (c', t')) /\
    sends fuel junk calloc_ok c' ctx /\ wr_state c' = wr_state c /\ out c' t' = out c t /\ rx t' = rx t /\ (tx_clean t -> tx_clean t') /\
    (pending_out c = [] /\ t' = t /\ pending_out c' = [] \/ pending_out c <> [] /\ tx t' = tail (tx t) /\ (forall n, tx t = [Tx n] -> (length (pending_out c) <= n)%nat -> pending_out c' = [])).
Proof.
  intros Hc. pose proof (sn_off _ _ _ _ _ Hc) as Ho. pose proof (sn_len _ _ _ _ _ Hc) as Hl. pose proof (sn_bytes _ _ _ _ _ Hc) as Hb. pose proof (ro_seq _ _ _ _ (sn_ok _ _ _ _ _ Hc)) as Hs.
  unfold opssl_conn_flush_write, bind at 1, getc. cbn [fst]. destruct (Nat.leb_spec (c_write_len c) (c_write_off c)) as [Hge | Hlt].
  - assert (c_write_len c = 0 /\ c_write_off c = 0)%nat as [H0 H0'] by lia. assert (pending_out c = []) as Hp by (unfold pending_out; by rewrite H0, H0').
    eexists _, _, t. split; [reflexivity |]. cbn [fst snd]. split_and!; try done; [| unfold out; by rewrite Hp | by left].
    apply (sends_wio c (c_write_buf c) 0 0 (c_write_seq c)); try done. by right.
  - assert (length (pending_out c) = c_write_len c - c_write_off c)%nat as Hp by (apply sub_list_length; lia).
    assert (pending_out c <> []) as Hne by (intros Hp0; rewrite Hp0 in Hp; cbn in Hp; lia).
    destruct (conn_write_spec c t (pending_out c)) as (x & t' & E & Hr & Ht & Htl & Hbig & Hx). unfold bind. rewrite E. destruct x as [n | |].
    + destruct Hx as [Hn Hx]. unfold modc, ret. cbn [fst snd]. destruct (Nat.leb_spec (c_write_len c) (c_write_off c + n)) as [H | H].
      * eexists _, _, t'. split; [reflexivity |]. split_and!; [| done | | done | done | by right].
        -- apply (sends_wio c (c_write_buf c) 0 0 (c_write_seq c)); try done. by right.
        -- unfold out. rewrite Hx, <- app_assoc. f_equal. rewrite (take_ge (pending_out c)) by lia. apply app_nil_r.
      * eexists _, _, t'. split; [reflexivity |]. split_and!; [| done | | done | done | right; do 2 (split; [done |])].
        -- apply (sends_wio c (c_write_buf c) (c_write_len c) (c_write_off c + n) (c_write_seq c)); try done. left. lia.
        -- unfold out. rewrite Hx, <- app_assoc. f_equal. unfold pending_out. cbn [c_write_off c_write_len c_write_buf set_write_off].
           rewrite <- (take_drop n (sub_list (c_write_off c) _ _)) at 2. f_equal. unfold sub_list. rewrite skipn_firstn_comm, drop_drop. f_equal. lia.
        -- intros m Em Hm. pose proof (Hbig m [] Em ltac:(lia)) as [= ->]. lia.
    + eexists _, c, t'. split; [reflexivity |]. split_and!; try done; [unfold out; by rewrite Hx |]. right. do 2 (split; [done |]).
      intros m Em Hm. by pose proof (Hbig m [] Em ltac:(lia)).
    + destruct Hx as [Hx Hd]. eexists _, c, t'. split; [reflexivity |]. split_and!; try done; [unfold out; by rewrite Hx |]. right. do 2 (split; [done |]).
      intros m Em Hm. by pose proof (Hbig m [] Em ltac:(lia)).
Qed.

Context (type : Z) (Hty : byte_ok type) (data : list Z) (Hd : bytes data) (Hl : Z.of_nat (length data) <= 16384).

(** What a call of [write_record] does: nothing, or one record more in the stream. *)
Definition written (c : conn) (t : io) (r : opssl_result_t) (c' : conn) (t' : io) : Prop :=
  sends fuel junk calloc_ok c' ctx /\ rx t' = rx t /\ (tx_clean t -> tx_clean t') /\
  ((wr_state c' = wr_state c /\ out c' t' = out c t /\ r <> OPSSL_OK) \/
   (wr_state c' = set_seq (wr_state c) (c_write_seq c + 1) /\ out c' t' = out c t ++ wire (scheme_of ctx) (wr_state c) type data)) /\
  (r = OPSSL_OK /\ pending_out c' = [] \/ r = OPSSL_WANT_WRITE \/ r = OPSSL_ERROR /\ ~ tx_clean t).

Lemma send_record_spec c t : sends fuel junk calloc_ok c ctx -> c_write_seq c < UINT64_MAX -> (c_write_len c = 0 /\ c_write_off c = 0)%nat ->
  exists r c' t', send_record fuel junk calloc_ok type data (c, t) = Some (r, (c', t')) /\ written c t r c' t'.
Proof.
  intros Hc Hseq [H0 H0']. pose proof (ro_seq _ _ _ _ (sn_ok _ _ _ _ _ Hc)) as Hs. cbn in Hs.
  destruct (build_record_spec fuel junk calloc_ok c ctx Hc type Hty data Hd Hl Hseq t) as (b & Hlb & Hbb & E & Hw).
  unfold send_record, bind at 1. rewrite E. unfold bind, getc. cbn [fst]. set (n := (length data + overhead (wr_state c))%nat) in *.
  change (c_write_buf (set_write_len n (wrote c b))) with b. rewrite Hw.
  assert (22 <= overhead (wr_state c) <= 29)%nat as Hov by (unfold overhead; destruct (is_tls13 _); lia).
  assert (n <= READ_BUF_SIZE)%nat as Hn by (unfold n, READ_BUF_SIZE; lia).
  assert (length (wire (scheme_of ctx) (wr_state c) type data) = n) as Hln by (rewrite <- Hw, length_take, Hlb; lia).
  set (w := wire _ _ _ _) in *. assert (out c t = sent t) as Eo by (unfold out, pending_out; rewrite H0, H0', app_nil_r; done).
  destruct (conn_write_spec (set_write_len n (wrote c b)) t w) as (x & t' & -> & Hr & Ht & _ & _ & Hx).
  assert (forall o, (o < n)%nat -> sends fuel junk calloc_ok (wio b n o (c_write_seq c + 1) c) ctx) as Hk.
  { intros o Ho. apply sends_wio; [done | done | done | left; unfold READ_BUF_SIZE; lia | lia]. }
  destruct x as [k | |]; unfold modc, fail, bind, ret; cbn [fst snd].
  - destruct Hx as [Hk' Hx]. destruct (Nat.ltb_spec k n) as [H | H].
    + eexists _, _, t'. split; [reflexivity |]. split_and!; [apply (Hk k H) | done | done | | by right; left]. right. split; [done |].
      rewrite Eo. unfold out. rewrite Hx, <- app_assoc. f_equal. unfold pending_out. cbn [c_write_off c_write_len c_write_buf set_write_off set_write_len wrote set_write_buf set_write_seq].
      fold w. rewrite <- (take_drop k w) at 2. f_equal. unfold sub_list. rewrite <- Hw, skipn_firstn_comm. done.
    + eexists _, _, t'. split; [reflexivity |]. split_and!; [| done | done | | by left].
      * apply (sends_wio c b 0 0 (c_write_seq c + 1)); [done | done | done | by right | lia].
      * right. split; [done |]. rewrite Eo. unfold out. rewrite Hx, take_ge by lia. by rewrite app_nil_r.
  - eexists _, _, t'. split; [reflexivity |]. split_and!; [apply (Hk 0%nat); lia | done | done | | by right; left]. right. split; [done |].
    rewrite Eo. unfold out. rewrite Hx. f_equal. unfold pending_out. cbn. by rewrite Nat.sub_0_r.
  - destruct Hx as [Hx Hd']. eexists _, _, t'. split; [reflexivity |]. split_and!; [| done | done | | by right; right].
    + assert (c_write_off c = 0%nat) as Hz by done. pose proof (sends_last _ OPSSL_ERR_IO (Hk 0%nat ltac:(lia))) as G. rewrite <- Hz in G. exact G.
    + right. split; [done |]. rewrite Eo. unfold out. rewrite Hx. f_equal. unfold pending_out. cbn. rewrite H0', Nat.sub_0_r. done.
Qed.

Lemma write_record_spec c t : sends fuel junk calloc_ok c ctx -> c_write_seq c < UINT64_MAX ->
  exists r c' t', write_record fuel junk calloc_ok type data (c, t) = Some (r, (c', t')) /\ written c t r c' t'.
Proof.
  intros Hc Hs. unfold write_record. rewrite (proj2 (Nat.ltb_ge _ _)) by (unfold TLS_MAX_RECORD_LEN; lia). unfold bind.
  destruct (flush_pending_spec c t Hc) as (o & c1 & t1 & -> & Hc1 & Ew & Eo & Er & Et & Ho). destruct o as [r |].
  - eexists _, c1, t1. split; [reflexivity |]. split_and!; try done; [| by right]. left. split_and!; try done. intros ->. destruct Ho as [| []]; done.
  - assert (c_write_seq c1 = c_write_seq c) as Es by exact (f_equal seq Ew).
    destruct (send_record_spec c1 t1 Hc1 ltac:(by rewrite Es) Ho) as (r & c' & t' & -> & H1 & H2 & H3 & H4 & H5).
    exists r, c', t'. split; [done |]. split_and!; [done | by rewrite H2 | tauto | | destruct H5 as [| [| []]]; [by left | by right; left | by right; right; tauto]].
    rewrite <- Ew, <- Eo, <- Es. done.
Qed.
End Stream.

(* ------------------------------------------------------------------ *)
(** * Application data *)

(** The records of the chunks [ds], one sequence number after the other. *)
Fixpoint wires (S : aead_scheme) (st : record_cipher_state_t) (ds : list (list Z)) : list Z :=
  match ds with
  | [] => []
  | d :: r => wire S st TLS_RT_APPLICATION_DATA d ++ wires S (set_seq st (seq st + 1)) r
  end.

Lemma wires_app S st a b : wires S st (a ++ b) = wires S st a ++ wires S (set_seq st (seq st + Z.of_nat (length a))) b.
Proof.
  revert st. induction a as [| d a IH]; intros st; [cbn; rewrite Z.add_0_r; by destruct st |]. cbn [app wires length]. rewrite IH, <- app_assoc. do 3 f_equal.
  cbn [set_seq seq]. unfold set_seq. cbn. f_equal. lia.
Qed.

Definition chunk_ok (d : list Z) : Prop := bytes d /\ 0 < Z.of_nat (length d) <= 16384.

Section Data.
Context {C : Cpu} {X : Avx2} {XS : Avx2Spec X} {I : AesInstr} {IS : AesInstrSpec I} {J : Clmul} {JS : ClmulSpec J}.
Context (fuel : nat) (junk : poly1305_state_t) (calloc_ok : bool) (ctx : opssl_aead_ctx).

(** The chunks that a call has put in the stream, and what it returns for them. *)
Definition accepted (c : conn) (t : io) (data : list Z) (before : nat) (r : Z) (c' : conn) (t' : io) : Prop :=
  sends fuel junk calloc_ok c' ctx /\ rx t' = rx t /\ (tx_clean t -> tx_clean t') /\
  exists ds, Forall chunk_ok ds /\ concat ds = take (length (concat ds)) data /\
    wr_state c' = set_seq (wr_state c) (c_write_seq c + Z.of_nat (length ds)) /\
    out c' t' = out c t ++ wires (scheme_of ctx) (wr_state c) ds /\
    (tx_clean t -> r = let n := (before + length (concat ds))%nat in if (n =? 0)%nat then -1 else Z.of_nat n).

Lemma write_loop_spec n data before c t : sends fuel junk calloc_ok c ctx -> bytes data -> (length data <= n)%nat -> (0 < before + length data)%nat ->
  c_write_seq c + Z.of_nat (length data) < UINT64_MAX ->
  exists r c' t', write_loop fuel junk calloc_ok n data before (c, t) = Some (r, (c', t')) /\ accepted c t data before r c' t'.
Proof.
  revert data before c t. induction n as [| n IH]; intros data before c t Hc Hd Hn Hb Hs.
  { destruct data; [| cbn in Hn; lia]. eexists _, c, t. split; [reflexivity |]. do 3 (split; [done |]). exists []. cbn [concat length wires] in *. cbv zeta.
    rewrite !Z.add_0_r, Nat.add_0_r, (proj2 (Nat.eqb_neq _ _)) by lia. rewrite app_nil_r. by destruct c. }
  destruct data as [| x l] eqn:Ed.
  { eexists _, c, t. split; [reflexivity |]. do 3 (split; [done |]). exists []. cbn [concat length wires] in *. cbv zeta.
    rewrite !Z.add_0_r, Nat.add_0_r, (proj2 (Nat.eqb_neq _ _)) by lia. rewrite app_nil_r. by destruct c. }
  rewrite <- Ed in *. assert (0 < length data)%nat as Hlen by (rewrite Ed; cbn; lia).
  assert (write_loop fuel junk calloc_ok (Datatypes.S n) data before (c, t) =
    (let chunk_size := Nat.min (length data) TLS_MAX_RECORD_LEN in
      before_c <- getc ;;
      r <- write_record fuel junk calloc_ok TLS_RT_APPLICATION_DATA (take chunk_size data) ;;
      c <- getc ;;
      match r with
      | OPSSL_WANT_WRITE | OPSSL_WANT_READ =>
        let written := if negb (c_write_seq c =? c_write_seq before_c) then (before + chunk_size)%nat else before in
        modc (set_last_want r) ;;; ret (if (0 <? written)%nat then Z.of_nat written else -1)
      | OPSSL_OK => write_loop fuel junk calloc_ok n (drop chunk_size data) (before + chunk_size)
      | _ => ret (-1)
      end) (c, t)) as -> by (by rewrite Ed).
  cbv zeta. set (k := (length data `min` TLS_MAX_RECORD_LEN)%nat). assert (0 < k <= length data /\ k <= Z.to_nat 16384)%nat as [Hk1 Hk2] by (unfold k, TLS_MAX_RECORD_LEN; lia).
  assert (length (take k data) = k) as Hlk by (rewrite length_take; lia).
  assert (chunk_ok (take k data)) as Hck by (split; [by apply bytes_take | lia]). unfold bind at 1 2, getc at 1. cbn [fst].
  destruct (write_record_spec fuel junk calloc_ok ctx TLS_RT_APPLICATION_DATA ltac:(done) (take k data) ltac:(apply Hck) ltac:(lia) c t Hc ltac:(lia))
    as (r & c1 & t1 & -> & Hc1 & Hr1 & Ht1 & Hcase & Hres). unfold bind, getc, modc, ret. cbn [fst snd].
  assert (r = OPSSL_OK \/ r = OPSSL_WANT_WRITE \/ r = OPSSL_ERROR /\ ~ tx_clean t) as [-> | [-> | [-> Hdirty]]] by tauto; clear Hres.
  - destruct Hcase as [(_ & _ & []) | [Ew Eo]]; [done |]. assert (c_write_seq c1 = c_write_seq c + 1) as Es by exact (f_equal seq Ew).
    destruct (IH (drop k data) (before + k)%nat c1 t1 Hc1) as (r' & c' & t' & -> & Hc' & Hr' & Ht' & ds & Hds & Hcd & Ew' & Eo' & Hret);
      [by apply bytes_drop | rewrite length_drop; lia | lia | rewrite length_drop; lia |].
    eexists r', c', t'. split; [done |]. split; [done |]. split; [by rewrite Hr' |]. split; [tauto |]. exists (take k data :: ds).
    cbn [concat length wires]. rewrite length_app, Hlk. split_and!; [by constructor | | | | intros Ht; rewrite Hret by tauto; cbv zeta; by rewrite Nat.add_assoc].
    + rewrite <- (take_drop k data) at 2. rewrite take_app_ge by lia. rewrite Hlk. replace (k + length (concat ds) - k)%nat with (length (concat ds)) by lia. by f_equal.
    + rewrite Ew', Ew, Es. unfold set_seq. cbn. f_equal. lia.
    + rewrite Eo', Eo, <- app_assoc. rewrite Ew. done.
  - destruct Hcase as [(Ew & Eo & _) | [Ew Eo]]; assert (Es := f_equal seq Ew); cbn [wr_state set_seq seq] in Es; rewrite Es.
    + rewrite Z.eqb_refl. cbn [negb]. eexists _, _, t1. split; [reflexivity |]. split; [by apply sends_want |]. do 2 (split; [done |]). exists []. cbn [concat length wires].
      rewrite Z.add_0_r, Nat.add_0_r, app_nil_r. split_and!; [done | done | exact Ew | exact Eo |]. intros _. cbv zeta. by destruct before.
    + rewrite (proj2 (Z.eqb_neq _ _)) by lia. cbn [negb]. eexists _, _, t1. split; [reflexivity |]. split; [by apply sends_want |]. do 2 (split; [done |]). exists [take k data].
      cbn [concat length wires]. rewrite !app_nil_r, Hlk. split_and!; [by constructor | done | exact Ew | exact Eo |]. intros _. cbv zeta.
      rewrite (proj2 (Nat.ltb_lt _ _)), (proj2 (Nat.eqb_neq _ _)) by lia. done.
  - destruct Hcase as [(Ew & Eo & _) | [Ew Eo]]; eexists _, c1, t1; (split; [reflexivity |]); do 3 (split; [done |]).
    + exists []. cbn [concat length wires]. rewrite Z.add_0_r, app_nil_r. by destruct c.
    + exists [take k data]. cbn [concat length wires]. rewrite !app_nil_r, Hlk. split_and!; [by constructor | done | exact Ew | exact Eo | done].
Qed.

Lemma opssl_write_spec hfuel hjunk data c t : sends fuel junk calloc_ok c ctx -> bytes data -> c_write_seq c + Z.of_nat (length data) < UINT64_MAX ->
  exists r c' t', opssl_write fuel junk calloc_ok hfuel hjunk data (c, t) = Some (r, (c', t')) /\ accepted c t data 0%nat r c' t'.
Proof.
  intros Hc Hd Hs. destruct (sn_open _ _ _ _ _ Hc) as (H1 & H2 & H3). unfold opssl_write, bind at 1, getc. cbn [fst].
  destruct (Nat.eqb_spec (length data) 0) as [E | E].
  - eexists _, c, t. split; [reflexivity |]. do 3 (split; [done |]). exists []. cbn [concat length wires]. rewrite Z.add_0_r, app_nil_r. by destruct c.
  - rewrite H1, H2, H3, Z.eqb_refl. cbn [negb]. unfold bind, ret. apply write_loop_spec; (done || lia).
Qed.
End Data.
