(* ===== verification/ConnRead.v ===== *)
(** Reading on a connection: however the transport cuts and delays the bytes,
    [opssl_read] returns what the records of the peer carry, in order and once, and
    says [OPSSL_WANT_READ] only when the next record has not come whole. *)
From S2P Require Import Prelude Types Platform Err Cpu Hmac AesSpec ChaCha20 Poly1305 AesNi Aes BlockModes AesNiGcm AesNiGcmOk Aead Record CipherSuite Conn ConnWrite.
#[local] Open Scope Z_scope.
#[local] Open Scope conn_scope.

(* ------------------------------------------------------------------ *)
(** * The transport *)

Definition ev_bytes (e : rx_event) : list Z := match e with Rx d => d | _ => [] end.

(** The bytes on their way. *)
Definition stream (t : io) : list Z := concat (map ev_bytes (rx t)).

(** No error and no end of file. *)
Definition ev_clean (e : rx_event) : Prop := match e with Rx d => d <> [] /\ bytes d | RxAgain => True | RxError => False end.
Definition rx_clean (t : io) : Prop := Forall ev_clean (rx t).

(** How often the transport still says [EAGAIN] before it has given everything. *)
Fixpoint waits (l : list rx_event) : nat := match l with [] => 0 | RxAgain :: r => S (waits r) | _ :: r => waits r end.

(** No byte is here and none can come before more is sent. *)
Definition stalled (t t' : io) : Prop := rx t' = [] \/ (waits (rx t') < waits (rx t))%nat.

Lemma stalled_le t t' : stalled t t' -> (waits (rx t') <= waits (rx t))%nat.
Proof. intros [-> | H]; cbn; lia. Qed.

Definition same_tx (t t' : io) : Prop := tx t' = tx t /\ sent t' = sent t /\ rx_clean t'.

Lemma conn_read_spec c t len : (0 < len)%nat -> rx_clean t -> exists x t', conn_read len (c, t) = Some (x, (c, t')) /\ same_tx t t' /\
  match x with
  | IoN d => d <> [] /\ bytes d /\ (length d <= len)%nat /\ stream t = d ++ stream t' /\ waits (rx t') = waits (rx t)
  | IoAgain => stream t' = stream t /\ stalled t t'
  | IoFail => False
  end.
Proof.
  intros Hlen. unfold rx_clean, conn_read, same_tx, stalled, stream. destruct t as [[| e l] x s]; cbn [rx tx sent map concat waits]; intros Hc.
  { eexists _, _. split; [reflexivity |]. split; [done |]. split; [done | by left]. }
  apply Forall_cons in Hc as [He Hc]. destruct e as [d | |]; cbn [ev_clean ev_bytes waits] in *; [| | done].
  - destruct He as [Hn Hb]. destruct (Nat.leb_spec (length d) len) as [H | H]; eexists _, _; (split; [reflexivity |]); cbn [rx tx sent map concat ev_bytes waits].
    + split_and!; done.
    + split_and!; try done.
      * apply Forall_cons. split; [| done]. split; [| by apply bytes_drop]. intros E. apply (f_equal length) in E. rewrite length_drop in E. cbn in E. lia.
      * intros E. apply (f_equal length) in E. rewrite length_take in E. cbn in E. lia.
      * by apply bytes_take.
      * rewrite length_take. lia.
      * by rewrite app_assoc, take_drop.
  - eexists _, _. split; [reflexivity |]. cbn [rx]. split; [done |]. split; [done | right; lia].
Qed.

(* ------------------------------------------------------------------ *)
(** * Filling the buffer *)

(** The members that reading a record changes. *)
Definition rio (b : list Z) (n : nat) (s : Z) (c : conn) : conn := set_read_seq s (set_read_len n (set_read_buf b c)).

Lemma rio_id c : rio (c_read_buf c) (c_read_len c) (c_read_seq c) c = c.
Proof. by destruct c. Qed.

(** The bytes that have come and those on their way. *)
Definition incoming (c : conn) (t : io) : list Z := take (c_read_len c) (c_read_buf c) ++ stream t.

Record buffered (c : conn) : Prop := {
  bf_len : length (c_read_buf c) = READ_BUF_SIZE;
  bf_bytes : bytes (c_read_buf c);
  bf_read : (c_read_len c <= READ_BUF_SIZE)%nat
}.

Definition filled (total : nat) (c : conn) (t : io) (o : option opssl_result_t) (b : list Z) (n : nat) (t' : io) : Prop :=
  buffered (rio b n (c_read_seq c) c) /\ incoming (rio b n (c_read_seq c) c) t' = incoming c t /\ same_tx t t' /\ (c_read_len c <= n)%nat /\
  match o with
  | None => n = Nat.max total (c_read_len c) /\ waits (rx t') = waits (rx t)
  | Some r => r = OPSSL_WANT_READ /\ (n < total)%nat /\ stalled t t'
  end.

Lemma conn_fill_spec k total c t : buffered c -> rx_clean t -> (total <= READ_BUF_SIZE)%nat -> (total - c_read_len c <= k)%nat ->
  exists o b n t', fill k total (c, t) = Some (o, (rio b n (c_read_seq c) c, t')) /\ filled total c t o b n t'.
Proof.
  revert c t. induction k as [| k IH]; intros c t Hc Ht Htot Hk.
  all: destruct (Nat.ltb_spec (c_read_len c) total) as [Hlt | Hge]; [try lia |
    exists None, (c_read_buf c), (c_read_len c), t; split; [cbn [fill]; unfold bind, getc; cbn [fst]; rewrite (proj2 (Nat.ltb_ge _ _)) by done; by rewrite rio_id |];
    unfold filled; rewrite rio_id; do 4 (split; [done |]); by rewrite Nat.max_r by done].
  destruct Hc as [Hl Hb Hr]. cbn [fill]. unfold bind at 1, getc. cbn [fst]. rewrite (proj2 (Nat.ltb_lt _ _)) by done. cbn [negb].
  destruct (conn_read_spec c t (total - c_read_len c) ltac:(lia) Ht) as (x & t1 & E & (Htx & Hsent & Ht1) & Hx). unfold bind at 1. rewrite E.
  destruct x as [d | |]; [| | done].
  - destruct Hx as (Hd & Hdb & Hdl & Hs & Hw). destruct d as [| d0 dr] eqn:Ed; [done |]. rewrite <- Ed in *.
    rewrite (proj2 (Nat.ltb_ge _ _)) by lia. set (b1 := splice (c_read_buf c) (c_read_len c) d). set (n1 := (c_read_len c + length d)%nat).
    unfold bind, modc. cbn [fst snd].
    assert (0 < length d)%nat as Hd0 by (rewrite Ed; cbn; lia).
    assert (buffered (rio b1 n1 (c_read_seq c) c)) as Hc1.
    { split; [cbn; unfold b1; rewrite splice_length; lia | by apply bytes_splice | cbn; unfold n1; lia]. }
    destruct (IH _ t1 Hc1 Ht1 Htot ltac:(cbn; unfold n1; lia)) as (o & b & n & t' & E' & H1 & H2 & (H3 & H3' & H3'') & H4 & H5).
    exists o, b, n, t'. split; [exact E' |]. split; [exact H1 |]. split; [| split; [split_and!; [by rewrite H3 | by rewrite H3' | done] |]].
    + change (incoming (rio b n (c_read_seq c) c) t') with (incoming (rio b n (c_read_seq (rio b1 n1 (c_read_seq c) c)) (rio b1 n1 (c_read_seq c) c)) t').
      rewrite H2. unfold incoming. cbn [c_read_len c_read_buf rio set_read_seq set_read_len set_read_buf]. unfold b1, n1.
      rewrite splice_take by lia. by rewrite Hs, <- app_assoc.
    + cbn [c_read_len rio set_read_seq set_read_len set_read_buf] in *. split; [unfold n1 in *; lia |]. unfold stalled in *. rewrite Hw in H5.
      destruct o; [done |]. destruct H5 as [H5 H5']. split; [unfold n1 in *; lia | done].
  - destruct Hx as (Hs & Hst). exists (Some OPSSL_WANT_READ), (c_read_buf c), (c_read_len c), t1. unfold filled. rewrite rio_id. split; [done |]. split; [by split |].
    split; [unfold incoming; by rewrite Hs |]. split; [done |]. done.
Qed.

(* ------------------------------------------------------------------ *)
(** * Reading a record *)

Record receives {C : Cpu} {I : AesInstr} (fuel : nat) (junk : poly1305_state_t) (calloc_ok : bool) (c : conn) (ctx : opssl_aead_ctx) : Prop := {
  rv_ok : rec_ok junk calloc_ok (rd_state c) ctx;
  rv_enc : c_read_encrypted c = true;
  rv_tag : sc_tag_len (scheme_of ctx) = 16%nat;
  rv_suite : suite_tag_len (c_cipher c) = 16;
  rv_fits : sc_fits (scheme_of ctx) (Z.to_nat 16385) 13 = true;
  rv_buf : buffered c;
  rv_app : length (c_app_buf c) = APP_BUF_SIZE;
  rv_off : (c_app_off c < c_app_len c <= APP_BUF_SIZE)%nat \/ (c_app_len c = 0 /\ c_app_off c = 0)%nat;
  rv_fuel : Z.of_nat fuel >= 18500;
  rv_open : c_hs_state c = OPSSL_HS_COMPLETE
}.

Section Read.
Context {C : Cpu} {X : Avx2} {XS : Avx2Spec X} {I : AesInstr} {IS : AesInstrSpec I} {J : Clmul} {JS : ClmulSpec J}.
Context (fuel : nat) (junk : poly1305_state_t) (calloc_ok : bool) (ctx : opssl_aead_ctx).

Lemma receives_rio c b n s : receives fuel junk calloc_ok c ctx -> length b = READ_BUF_SIZE -> bytes b -> (n <= READ_BUF_SIZE)%nat -> 0 <= s <= UINT64_MAX ->
  receives fuel junk calloc_ok (rio b n s c) ctx.
Proof. intros [[? ? ? ? ? ? ?] ? ? ? ? [? ? ?] ? ? ? ?] ? ? ? ?. by do 2 (split; try done). Qed.

Context (d : list Z) (Hd : chunk_ok d).

(** The record at the start of the buffer. *)
Definition holds (c : conn) : Prop :=
  let w := wire (scheme_of ctx) (rd_state c) TLS_RT_APPLICATION_DATA d in
  exists r, c_read_buf c = w ++ r /\ length w = (length d + overhead (rd_state c))%nat.

Lemma buf_long c : buffered c -> Z.of_nat fuel >= 18500 -> buf_ok fuel (c_read_buf c).
Proof. intros [Hl Hb _] Hf. unfold buf_ok. rewrite Hl. unfold READ_BUF_SIZE. split; [done |]. lia. Qed.

Lemma check_type_data c t : c_hs_state c = OPSSL_HS_COMPLETE -> check_type TLS_RT_APPLICATION_DATA d (c, t) = Some (Got TLS_RT_APPLICATION_DATA d, (c, t)).
Proof. intros H. unfold check_type, bind, getc. cbn [fst]. by rewrite H. Qed.

(** What opening leaves in the connection. *)
Let opened (c : conn) : Prop := forall t, exists b, length b = READ_BUF_SIZE /\ bytes b /\
  open_record fuel junk calloc_ok (if c_is_tls13 c then 23 else TLS_RT_APPLICATION_DATA) (Z.of_nat (length d + overhead (rd_state c) - 5)) (c, t) =
    Some (Got TLS_RT_APPLICATION_DATA d, (rio b (5 + length d) (c_read_seq c + 1) c, t)).

Ltac open_opened c Hc :=
  intros Hs (r & Hbuf & Hlw) E13 t; destruct Hd as [Hdb Hdl];
  destruct Hc as [Hok He Ht Hsu Hf Hbf Hla Hoff Hfu Hop]; pose proof Hok as [Hci Hctx Hj Hu Hiv Hivb Hseq]; pose proof (scheme_laws ctx Hctx) as L;
  pose proof (buf_long c Hbf Hfu) as Hbo; destruct Hbf as [Hbl Hbb Hrl];
  pose proof (make_nonce_ok (rd_state c) Hiv Hivb) as Hn; unfold wire in Hbuf, Hlw; unfold overhead in *; cbn [rd_state is_tls13 cipher iv seq] in *; rewrite E13 in *; cbv zeta in *;
  set (S := scheme_of ctx) in *.

Lemma open_record_13 c : receives fuel junk calloc_ok c ctx -> c_read_seq c < UINT64_MAX -> holds c -> c_is_tls13 c = true -> opened c.
Proof.
  intros Hc; open_opened c Hc. set (h := hdr _ _ _) in *. set (m := d ++ [TLS_RT_APPLICATION_DATA]) in *.
  assert (length m = length d + 1)%nat as Hlm by (unfold m; rewrite length_app; done).
  assert (xor_seq (c_read_seq c) (take 12 (c_read_iv c)) = record_make_nonce (rd_state c)) as En by (unfold rd_state; rewrite E13; by apply xor_seq_nonce).
  unfold open_record, bind at 1, getc. cbn [fst]. rewrite E13, Hci, En. unfold bind at 1, ret. change TLS_RECORD_HEADER_LEN with 5%nat.
  replace (Z.of_nat (length d + 22 - 5)) with (Z.of_nat (length d) + 17) by lia.
  assert ([23; 3; 3] ++ two_bytes (Z.of_nat (length d) + 17) = h) as -> by (rewrite two_bytes_be by lia; done).
  replace (off (Z.of_nat (length d) + 17)) with (length m + 16)%nat by (unfold off; lia).
  rewrite (open_at_ok fuel junk calloc_ok (rd_state c) ctx Hok); [| done | rewrite Hbl; unfold READ_BUF_SIZE; lia | rewrite Hbl; unfold READ_BUF_SIZE; lia | done | by apply hdr_bytes | cbn; lia].
  fold S. cbv zeta.
  assert (sub_list 5 (length m + 16) (c_read_buf c) = sc_encrypt S (record_make_nonce (rd_state c)) h m) as ->.
  { rewrite Hbuf, <- app_assoc. unfold sub_list. rewrite (drop_app_length' h) by done. apply take_app_length'. rewrite encrypt_length by done. lia. }
  assert (length (sub_list 5 (READ_BUF_SIZE - 5) (c_read_buf c)) = READ_BUF_SIZE - 5)%nat as Hls by (apply sub_list_length; rewrite Hbl; unfold READ_BUF_SIZE; lia).
  rewrite open_encrypt; [| done | done | apply (sc_fits_le _ _ _ _ _ Hf); cbn; lia | rewrite Hls; unfold READ_BUF_SIZE; lia].
  cbn [fst snd]. rewrite splice_window by (rewrite ?Hbl; unfold READ_BUF_SIZE; lia). set (b := splice (c_read_buf c) 5 m).
  assert (sub_list 5 (length m) b = m) as Eb by (apply sub_splice; rewrite Hbl; unfold READ_BUF_SIZE; lia).
  assert (length b = READ_BUF_SIZE) as Hlb by (unfold b; rewrite splice_length; [done | rewrite Hbl; unfold READ_BUF_SIZE; lia]).
  assert (bytes m) as Hbm by (apply bytes_app; split; [done | solve_bytes]).
  unfold bind, modc. cbn [fst snd]. change (negb (1 =? 1)) with false. cbv iota. rewrite (proj2 (Z.eqb_neq _ _)) by lia.
  assert (off (Z.of_nat (length m)) = Datatypes.S (length d)) as -> by (unfold off; lia).
  assert ((drop 5 b).[length d] = TLS_RT_APPLICATION_DATA) as Ed.
  { transitivity m.[length d]; [| unfold m, get; by rewrite app_nth2, Nat.sub_diag by lia].
    rewrite <- Eb. unfold sub_list, get. rewrite !nth_lookup, lookup_take_lt by lia. done. }
  cbn [strip_padding]. rewrite Ed. change (TLS_RT_APPLICATION_DATA =? 0) with false. cbv iota. cbn [Nat.eqb andb].
  replace (Datatypes.S (length d) - 1)%nat with (length d) by lia. rewrite Ed.
  assert (sub_list 5 (length d) b = d) as ->.
  { transitivity (take (length d) m); [| unfold m; apply take_app_length]. rewrite <- Eb. unfold sub_list. by rewrite take_take, Nat.min_l by lia. }
  cbn [c_read_seq set_read_buf fst snd]. rewrite (u64_id (c_read_seq c + 1)) by (unfold UINT64_MAX in *; lia).
  exists b. split; [done |]. split; [by apply bytes_splice |]. by rewrite check_type_data.
Qed.

Lemma open_record_12 c : receives fuel junk calloc_ok c ctx -> c_read_seq c < UINT64_MAX -> holds c -> c_is_tls13 c = false -> opened c.
Proof.
  intros Hc; open_opened c Hc. set (h := hdr _ _ _) in *. set (a := record_make_aad _ _ _ _) in *. set (e := be_bytes 8 (c_read_seq c)) in *.
  pose proof (be_bytes_length 8 (c_read_seq c)) as Hle. fold e in Hle.
  unfold open_record, bind at 1, getc. cbn [fst]. rewrite E13, Hci, Hsu. change (TLS_RECORD_HEADER_LEN + 8)%nat with 13%nat. change TLS_RECORD_HEADER_LEN with 5%nat.
  rewrite (proj2 (Z.ltb_ge _ _)), (proj2 (Z.ltb_ge _ _)) by lia. unfold bind at 1, ret.
  assert (sub_list 5 8 (c_read_buf c) = e) as -> by (rewrite Hbuf, <- !app_assoc; unfold sub_list; rewrite (drop_app_length' h) by done; by apply take_app_length').
  replace (off (Z.of_nat (length d + 29 - 5) - 8)) with (length d + 16)%nat by (unfold off; lia).
  assert (put_seq (c_read_seq c) (replicate 8 0) 0 ++ [TLS_RT_APPLICATION_DATA; 3; 3] ++ two_bytes (Z.of_nat (length d + 29 - 5) - 8 - 16) = a) as ->.
  { rewrite put_seq_splice by (rewrite length_replicate; lia). rewrite splice_full by (by rewrite be_bytes_length). unfold a. rewrite make_aad_spec, two_bytes_be by lia.
    unfold rd_state. rewrite E13. cbn [is_tls13 seq]. unfold hdr. replace (Z.of_nat (length d + 29 - 5) - 8 - 16) with (Z.of_nat (length d)) by lia. done. }
  assert (take 4 (c_read_iv c) ++ e = record_make_nonce (rd_state c)) as ->.
  { unfold rd_state. rewrite make_nonce_spec by done. rewrite E13. done. }
  destruct (make_aad_ok (rd_state c) TLS_RT_APPLICATION_DATA 0x0303 (Z.of_nat (length d)) ltac:(done)) as [Ha1 Ha2]. fold a in Ha1, Ha2.
  rewrite (open_at_ok fuel junk calloc_ok (rd_state c) ctx Hok); [| done | rewrite Hbl; unfold READ_BUF_SIZE; lia | rewrite Hbl; unfold READ_BUF_SIZE; lia | done | done | done].
  fold S. cbv zeta.
  assert (sub_list 13 (length d + 16) (c_read_buf c) = sc_encrypt S (record_make_nonce (rd_state c)) a d) as ->.
  { rewrite Hbuf, <- !app_assoc. unfold sub_list. rewrite (app_assoc h e). rewrite (drop_app_length' (h ++ e)) by (rewrite length_app, Hle; done).
    apply take_app_length'. rewrite encrypt_length by done. lia. }
  assert (length (sub_list 5 (READ_BUF_SIZE - 5) (c_read_buf c)) = READ_BUF_SIZE - 5)%nat as Hls by (apply sub_list_length; rewrite Hbl; unfold READ_BUF_SIZE; lia).
  rewrite open_encrypt; [| done | done | apply (sc_fits_le _ _ _ _ _ Hf); [lia | done] | rewrite Hls; unfold READ_BUF_SIZE; lia].
  cbn [fst snd]. rewrite splice_window by (rewrite ?Hbl; unfold READ_BUF_SIZE; lia). set (b := splice (c_read_buf c) 5 d).
  assert (sub_list 5 (length d) b = d) as Eb by (apply sub_splice; rewrite Hbl; unfold READ_BUF_SIZE; lia).
  assert (length b = READ_BUF_SIZE) as Hlb by (unfold b; rewrite splice_length; [done | rewrite Hbl; unfold READ_BUF_SIZE; lia]).
  unfold bind, modc. cbn [fst snd]. change (negb (1 =? 1)) with false. cbv iota. rewrite (proj2 (Z.eqb_neq _ _)) by lia.
  cbn [andb]. replace (off (Z.of_nat (length d))) with (length d) by (unfold off; lia). rewrite Eb.
  cbn [c_read_seq set_read_buf fst snd]. rewrite (u64_id (c_read_seq c + 1)) by (unfold UINT64_MAX in *; lia).
  exists b. split; [done |]. split; [by apply bytes_splice |]. by rewrite check_type_data.
Qed.

Lemma open_record_spec c : receives fuel junk calloc_ok c ctx -> c_read_seq c < UINT64_MAX -> holds c -> opened c.
Proof. intros H1 H2 H3. destruct (c_is_tls13 c) eqn:E; [by apply open_record_13 | by apply open_record_12]. Qed.

(** The header of the record. *)
Lemma wire_header c : receives fuel junk calloc_ok c ctx -> let w := wire (scheme_of ctx) (rd_state c) TLS_RT_APPLICATION_DATA d in
  length w = (length d + overhead (rd_state c))%nat /\ take 5 w = hdr 23 0x0303 (Z.of_nat (length w - 5)).
Proof.
  intros Hc w. destruct Hd as [_ Hl]. destruct (wire_parse junk calloc_ok (rd_state c) ctx (rv_ok _ _ _ _ _ Hc) TLS_RT_APPLICATION_DATA d [] ltac:(lia) (rv_tag _ _ _ _ _ Hc)) as (Hlw & _).
  fold w in Hlw. split; [done |]. rewrite Hlw. unfold w, wire, overhead. destruct (is_tls13 (rd_state c)).
  - rewrite take_app_length' by done. unfold hdr. do 2 f_equal. f_equal. lia.
  - rewrite take_app_length' by done. unfold hdr. do 2 f_equal. f_equal. lia.
Qed.

(** What [read_record] does with the first record of the stream, of which [later] is
    what has not been sent yet. *)
Definition got_record (c : conn) (t : io) (later rest : list Z) (r : record_ret) (b : list Z) (n : nat) (s : Z) (t' : io) : Prop :=
  length b = READ_BUF_SIZE /\ bytes b /\ (n <= READ_BUF_SIZE)%nat /\ same_tx t t' /\
  let w := wire (scheme_of ctx) (rd_state c) TLS_RT_APPLICATION_DATA d in
  match r with
  | Got ty m => ty = TLS_RT_APPLICATION_DATA /\ m = d /\ s = c_read_seq c + 1 /\ stream t' ++ later = rest /\ waits (rx t') = waits (rx t)
  | NotYet r => r = OPSSL_WANT_READ /\ s = c_read_seq c /\ incoming (rio b n s c) t' = incoming c t /\ (n < length w)%nat /\ stalled t t'
  end.

Lemma read_record_spec c t later rest : receives fuel junk calloc_ok c ctx -> rx_clean t -> c_read_seq c < UINT64_MAX ->
  let w := wire (scheme_of ctx) (rd_state c) TLS_RT_APPLICATION_DATA d in
  (c_read_len c <= length w)%nat -> incoming c t ++ later = w ++ rest ->
  exists r b n s t', read_record fuel junk calloc_ok (c, t) = Some (r, (rio b n s c, t')) /\ got_record c t later rest r b n s t'.
Proof.
  intros Hc Ht Hs w Hr Hin. destruct (wire_header c Hc) as [Hlw Hh]. fold w in Hlw, Hh. pose proof Hd as [_ Hdl].
  assert (22 <= overhead (rd_state c) <= 29)%nat as Hov by (unfold overhead; destruct (is_tls13 _); lia).
  pose proof (rv_buf _ _ _ _ _ Hc) as Hb. unfold got_record. fold w.
  (* the header *)
  unfold read_record, bind at 1. destruct (conn_fill_spec TLS_RECORD_HEADER_LEN TLS_RECORD_HEADER_LEN c t Hb Ht) as (o & b & n & t1 & -> & [Hbl Hbb Hbn] & Hinc & Htx & Hge & Ho);
    [unfold READ_BUF_SIZE, TLS_RECORD_HEADER_LEN; lia | lia |].
  destruct o as [r |].
  { destruct Ho as (-> & Hlt & Hst). change TLS_RECORD_HEADER_LEN with 5%nat in Hlt. exists (NotYet OPSSL_WANT_READ), b, n, (c_read_seq c), t1.
    do 5 (split; [done |]). split_and!; try done. lia. }
  destruct Ho as [Hn Hw1]. change TLS_RECORD_HEADER_LEN with 5%nat in Hn. unfold bind at 1, getc. cbn [fst].
  assert (take n b = take n w) as Htn.
  { rewrite <- Hinc in Hin. apply (f_equal (take n)) in Hin. unfold incoming in Hin. cbn [c_read_len c_read_buf rio set_read_seq set_read_len set_read_buf] in *.
    rewrite <- app_assoc, take_app_length' in Hin by (rewrite length_take; lia). rewrite take_app_le in Hin by lia. done. }
  assert (take 5 b = hdr 23 0x0303 (Z.of_nat (length w - 5))) as H5 by (rewrite <- Hh; replace 5%nat with (5 `min` n)%nat by lia; rewrite <- !take_take, Htn; done).
  set (c1 := rio b n (c_read_seq c) c) in *. change (c_read_buf c1) with b.
  pose proof (be_bytes_ok 2 (Z.of_nat (length w - 5))) as Hlb2. pose proof (be_bytes_val 2 (Z.of_nat (length w - 5)) ltac:(lia)) as Hlv.
  change (hdr 23 0x0303 (Z.of_nat (length w - 5))) with ([23; 3; 3] ++ be_bytes 2 (Z.of_nat (length w - 5))) in H5.
  destruct (be_bytes 2 (Z.of_nat (length w - 5))) as [| b3 [| b4 [|]]] eqn:Eb2; try (apply (f_equal length) in Eb2; by rewrite be_bytes_length in Eb2).
  assert (exists br, b = [23; 3; 3; b3; b4] ++ br) as [br ->] by (exists (drop 5 b); rewrite <- (take_drop 5 b) at 1; by rewrite H5).
  cbn [app]. change ((23 :: _ :: _ :: b3 :: b4 :: br).[0]) with 23. cbv zeta.
  assert (Z.lor (Z.shiftl (23 :: 3 :: 3 :: b3 :: b4 :: br).[3] 8) (23 :: 3 :: 3 :: b3 :: b4 :: br).[4] = Z.of_nat (length w - 5)) as ->.
  { change (Z.lor (Z.shiftl b3 8) b4 = Z.of_nat (length w - 5)). rewrite <- Hlv. apply bytes_cons in Hlb2 as [H3 H4]. apply bytes_cons in H4 as [H4 _].
    rewrite lor_shiftl by (unfold byte_ok in *; lia). cbn. lia. }
  change (Z.lor (Z.shiftl (23 :: 3 :: 3 :: b3 :: b4 :: br).[1] 8) (23 :: 3 :: 3 :: b3 :: b4 :: br).[2]) with 771. cbn [Z.ltb Z.compare Pos.compare Pos.compare_cont orb].
  rewrite (proj2 (Z.ltb_ge _ _)) by (unfold TLS_MAX_ENCRYPTED_LEN; lia).
  (* the rest *)
  change TLS_RECORD_HEADER_LEN with 5%nat. replace (5 + off (Z.of_nat (length w - 5)))%nat with (length w) by (unfold off; lia).
  set (b := 23 :: 3 :: 3 :: b3 :: b4 :: br) in *. unfold bind at 1.
  destruct (conn_fill_spec (length w) (length w) c1 t1) as (o & b' & n' & t' & -> & [Hbl' Hbb' Hbn'] & Hinc' & Htx' & Hge' & Ho'); [done | apply Htx | unfold READ_BUF_SIZE; lia | lia |].
  assert (same_tx t t') as Htt by (destruct Htx as (? & ? & ?), Htx' as (? & ? & ?); split_and!; congruence).
  change (rio b' n' (c_read_seq c1) c1) with (rio b' n' (c_read_seq c) c) in *. change (c_read_len c1) with n in *.
  destruct o as [r |].
  { destruct Ho' as (-> & Hlt & Hst). exists (NotYet OPSSL_WANT_READ), b', n', (c_read_seq c), t'. split; [done |]. do 4 (split; [done |]). split_and!; [done | done | | done |].
    - by rewrite Hinc'.
    - unfold stalled in *. by rewrite <- Hw1. }
  destruct Ho' as [Hn' Hw2]. replace n' with (length w) in * by lia. clear Hn' Hge'.
  assert (take (length w) b' = w /\ stream t' ++ later = rest) as [Htw Hrest].
  { rewrite <- Hinc, <- Hinc' in Hin. unfold incoming in Hin. cbn [c_read_len c_read_buf rio set_read_seq set_read_len set_read_buf] in *.
    rewrite <- app_assoc in Hin. apply app_inj_1 in Hin; [done |]. rewrite length_take. lia. }
  set (c2 := rio b' (length w) (c_read_seq c) c) in *. assert (receives fuel junk calloc_ok c2 ctx) as Hc2 by (apply receives_rio; try done; apply (ro_seq _ _ _ _ (rv_ok _ _ _ _ _ Hc))).
  assert (holds c2) as Hh2 by (exists (drop (length w) b'); split; [change (b' = w ++ drop (length w) b'); by rewrite <- Htw at 1; rewrite take_drop | exact Hlw]).
  unfold bind, getc, ret. cbn [fst]. change (c_hs_state c2) with (c_hs_state c). change (c_is_tls13 c2) with (c_is_tls13 c). change (c_read_cipher c2) with (c_read_cipher c).
  pose proof (ro_cipher _ _ _ _ (rv_ok _ _ _ _ _ Hc)) as Hci. cbn in Hci. change (c_read_encrypted c2) with (c_read_encrypted c). rewrite (rv_enc _ _ _ _ _ Hc), Hci.
  rewrite bool_decide_eq_true_2 by done. change (negb (23 =? TLS_RT_APPLICATION_DATA)) with false. change (23 =? TLS_RT_CHANGE_CIPHER_SPEC) with false.
  rewrite andb_false_r. cbn [andb].
  destruct (open_record_spec c2 Hc2 Hs Hh2 t') as (b'' & Hl'' & Hb'' & E).
  change (rd_state c2) with (rd_state c) in E. rewrite <- Hlw in E. change (c_is_tls13 c2) with (c_is_tls13 c) in E.
  assert ((if c_is_tls13 c then 23 else TLS_RT_APPLICATION_DATA) = 23) as Ety by by destruct (c_is_tls13 c). rewrite Ety in E. rewrite Nat2Z.inj_sub in E by lia.
  rewrite Nat2Z.inj_sub by lia. rewrite E. eexists _, b'', (5 + length d)%nat, (c_read_seq c + 1), t'. split; [reflexivity |].
  split_and!; try done; [unfold READ_BUF_SIZE; lia | by rewrite Hw2].
Qed.
End Read.

(* ------------------------------------------------------------------ *)
(** * Application data *)

(** The bytes that have been received and not read. *)
Definition queue (c : conn) : list Z := sub_list (c_app_off c) (c_app_len c - c_app_off c) (c_app_buf c).

Lemma wire_nonempty S st ct d : wire S st ct d <> [].
Proof. unfold wire. by destruct (is_tls13 st). Qed.

Section Data.
Context {C : Cpu} {X : Avx2} {XS : Avx2Spec X} {I : AesInstr} {IS : AesInstrSpec I} {J : Clmul} {JS : ClmulSpec J}.
Context (fuel : nat) (junk : poly1305_state_t) (calloc_ok : bool) (ctx : opssl_aead_ctx).
Context (hfuel : nat) (hjunk : list Z).

(** The receiver, when the records of [ds] have not been read, the last bytes of
    them, [later], not having been sent. *)
Record expects (c : conn) (t : io) (later : list Z) (ds : list (list Z)) : Prop := {
  ex_rcv : receives fuel junk calloc_ok c ctx;
  ex_clean : rx_clean t;
  ex_chunks : Forall chunk_ok ds;
  ex_stream : incoming c t ++ later = wires (scheme_of ctx) (rd_state c) ds;
  ex_part : match ds with [] => True | d :: _ => (c_read_len c <= length (wire (scheme_of ctx) (rd_state c) TLS_RT_APPLICATION_DATA d))%nat end;
  ex_seq : c_read_seq c + Z.of_nat (length ds) <= UINT64_MAX
}.

(** A call to read: bytes of the queue, or [EAGAIN] and then there was nothing to
    read, or what was missing is counted out by the transport. *)
Definition read_post (len : nat) (c : conn) (t : io) (later : list Z) (ds : list (list Z)) (r : Z) (bs : list Z) (c' : conn) (t' : io) : Prop :=
  exists ds', expects c' t' later ds' /\ rd_state c' = set_seq (rd_state c) (c_read_seq c + (Z.of_nat (length ds) - Z.of_nat (length ds'))) /\
    (tx t' = tx t /\ sent t' = sent t /\ (waits (rx t') <= waits (rx t))%nat) /\ queue c ++ concat ds = bs ++ queue c' ++ concat ds' /\
    ((r = Z.of_nat (length bs) /\ (0 < length bs <= len)%nat) \/
     (r = -1 /\ bs = [] /\ c_last_want c' = OPSSL_WANT_READ /\ stalled t t' /\ (queue c = [] /\ ds = [] \/ later <> [] \/ (waits (rx t') < waits (rx t))%nat))).

Lemma wires_nil_inv c t later : buffered c -> incoming c t ++ later = [] -> c_read_len c = 0%nat /\ stream t = [] /\ later = [].
Proof.
  intros [Hl _ Hr] E. apply app_eq_nil in E as [E ->]. apply app_eq_nil in E as [E ->]. apply (f_equal length) in E. rewrite length_take in E. cbn in E. split; [lia | done].
Qed.

(** Nothing at all has been sent. *)
Lemma read_record_idle c t : buffered c -> rx_clean t -> incoming c t = [] ->
  exists t', read_record fuel junk calloc_ok (c, t) = Some (NotYet OPSSL_WANT_READ, (c, t')) /\ same_tx t t' /\ stream t' = [] /\ stalled t t'.
Proof.
  intros Hb Ht Hin. destruct (wires_nil_inv c t [] Hb ltac:(by rewrite app_nil_r)) as (H0 & Hst & _).
  unfold read_record, bind, TLS_RECORD_HEADER_LEN. cbn [fill]. unfold bind, getc. cbn [fst]. rewrite H0. cbn [Nat.ltb Nat.leb negb Nat.sub].
  destruct (conn_read_spec c t 5 ltac:(lia) Ht) as (x & t' & -> & Htx & Hx). destruct x as [d | |]; [| | done].
  - destruct Hx as (Hd & _ & _ & Hs & _). rewrite Hst in Hs. by destruct d.
  - destruct Hx as (Hs & Hx). eexists t'. split; [done |]. split; [done |]. by rewrite Hs.
Qed.

(** What [opssl_read] does with a record of application data. *)
Lemma deliver_spec d c t n len : length (c_app_buf c) = APP_BUF_SIZE -> (c_app_len c = 0 /\ c_app_off c = 0)%nat -> chunk_ok d -> (0 < len)%nat ->
  exists k ab al, (0 < k <= len)%nat /\ (k <= length d)%nat /\ length ab = APP_BUF_SIZE /\ al = (length d - k)%nat /\ take al ab = drop k d /\
  (result <- process_application_data d ;;
   modc (set_read_len 0) ;;;
   if bool_decide (result <> OPSSL_OK) then ret (-1, []) else
   c <- getc ;;
   if (0 <? c_app_len c)%nat then
     let to_copy := Nat.min len (c_app_len c) in
     modc (if (to_copy <? c_app_len c)%nat
           then fun c => set_app_len (c_app_len c - to_copy) (set_app_buf (splice (c_app_buf c) 0 (sub_list to_copy (c_app_len c - to_copy) (c_app_buf c))) c)
           else set_app_len 0) ;;;
     ret (Z.of_nat to_copy, take to_copy (c_app_buf c))
   else read_loop fuel junk calloc_ok hfuel hjunk n len) (c, t) =
  Some ((Z.of_nat k, take k d), (set_app_len al (set_app_buf ab (set_read_len 0 c)), t)).
Proof.
  intros Hl [H0 H0'] [_ Hd] Hlen. set (k := Nat.min len (length d)).
  assert (length d <= APP_BUF_SIZE)%nat as Hda by (unfold APP_BUF_SIZE; lia).
  assert (length (splice (c_app_buf c) 0 d) = APP_BUF_SIZE) as Hls by (rewrite splice_length; rewrite ?Hl; done).
  assert (take (length d) (splice (c_app_buf c) 0 d) = d) as Htk by (rewrite splice_0; apply take_app_length).
  assert (take k (splice (c_app_buf c) 0 d) = take k d) as Htk' by (rewrite <- Htk at 2; rewrite take_take; f_equal; lia).
  unfold process_application_data, bind, getc, modc, ret. cbn [fst snd]. rewrite H0. rewrite (proj2 (Nat.ltb_ge _ _)) by lia.
  cbn [fst snd c_app_len c_app_buf set_app_len set_app_buf set_read_len Nat.add]. rewrite H0. cbn [Nat.add]. rewrite bool_decide_eq_false_2 by tauto.
  cbn [fst snd c_app_len c_app_buf set_app_len set_app_buf set_read_len].
  rewrite (proj2 (Nat.ltb_lt 0 _)) by lia. fold k. rewrite Htk'. destruct (Nat.ltb_spec k (length d)) as [Hk | Hk].
  - exists k, (splice (splice (c_app_buf c) 0 d) 0 (sub_list k (length d - k) (splice (c_app_buf c) 0 d))), (length d - k)%nat.
    assert (sub_list k (length d - k) (splice (c_app_buf c) 0 d) = drop k d) as Es by (unfold sub_list; rewrite <- skipn_firstn_comm, Htk; done).
    split_and!; try lia.
    + rewrite splice_length; [done |]. rewrite Es, length_drop. lia.
    + rewrite Es, splice_0. rewrite <- (length_drop d k). apply take_app_length.
    + reflexivity.
  - exists k, (splice (c_app_buf c) 0 d), 0%nat. split_and!; try (done || lia).
    rewrite drop_ge by lia. done.
Qed.

Lemma receives_app c ab al ao : receives fuel junk calloc_ok c ctx -> length ab = APP_BUF_SIZE -> ((ao < al <= APP_BUF_SIZE)%nat \/ (al = 0 /\ ao = 0)%nat) ->
  receives fuel junk calloc_ok (set_app_len al (set_app_off ao (set_app_buf ab c))) ctx.
Proof. intros [[? ? ? ? ? ? ?] ? ? ? ? [? ? ?] ? ? ? ?] ? ?. by do 2 (split; try done). Qed.

Lemma receives_want c r : receives fuel junk calloc_ok c ctx -> receives fuel junk calloc_ok (set_last_want r c) ctx.
Proof. intros [[? ? ? ? ? ? ?] ? ? ? ? [? ? ?] ? ? ? ?]. by do 2 (split; try done). Qed.

(** The members [opssl_read] uses of a connection that has lost some bytes of its
    queue. *)
Lemma expects_app c t later ds ab al ao : expects c t later ds -> length ab = APP_BUF_SIZE -> ((ao < al <= APP_BUF_SIZE)%nat \/ (al = 0 /\ ao = 0)%nat) ->
  expects (set_app_len al (set_app_off ao (set_app_buf ab c))) t later ds.
Proof. intros [? ? ? ? ? ?] ? ?. split; try done. by apply receives_app. Qed.

(** Bytes that are waiting in [app_buf]. *)
Lemma read_queued c t later ds len : expects c t later ds -> (0 < len)%nat -> (c_app_off c < c_app_len c)%nat ->
  exists r bs c' t', opssl_read fuel junk calloc_ok hfuel hjunk len (c, t) = Some ((r, bs), (c', t')) /\ read_post len c t later ds r bs c' t'.
Proof.
  intros He Hlen Hlt. pose proof (ex_rcv _ _ _ _ He) as Hc. unfold opssl_read, bind at 1, getc. cbn [fst]. rewrite (proj2 (Nat.eqb_neq _ _)) by lia.
  rewrite (rv_open _ _ _ _ _ Hc), Z.eqb_refl. cbn [negb]. rewrite (proj2 (Nat.ltb_lt _ _)) by done. unfold bind, modc, ret. cbn [fst snd].
  pose proof (rv_app _ _ _ _ _ Hc) as Hla. pose proof (rv_off _ _ _ _ _ Hc) as Ho. set (k := Nat.min len (c_app_len c - c_app_off c)).
  assert (length (sub_list (c_app_off c) k (c_app_buf c)) = k) as Hlk by (apply sub_list_length; rewrite Hla; lia).
  eexists _, _, _, t. split; [reflexivity |]. exists ds. split; [| split; [| split; [done |]; split; [| left; rewrite Hlk; split; [done | lia]]]].
  - destruct (Nat.leb_spec (c_app_len c) (c_app_off c + k)) as [H | H].
    + apply (expects_app c t later ds (c_app_buf c) 0 0); [done | done | by right].
    + apply (expects_app c t later ds (c_app_buf c) (c_app_len c) (c_app_off c + k)); [done | done | left; lia].
  - rewrite Z.sub_diag, Z.add_0_r. by destruct (_ <=? _)%nat.
  - rewrite app_assoc. f_equal. destruct (Nat.leb_spec (c_app_len c) (c_app_off c + k)) as [H | H]; unfold queue; cbn [c_app_len c_app_off c_app_buf set_app_len set_app_off].
    + change (sub_list 0 (0 - 0) (c_app_buf c)) with (@nil Z). rewrite app_nil_r. f_equal. lia.
    + unfold sub_list. rewrite <- (take_drop k (take (c_app_len c - c_app_off c) _)) at 1. rewrite take_take, skipn_firstn_comm, drop_drop.
      f_equal; f_equal; lia.
Qed.

Lemma opssl_read_spec c t later ds len : expects c t later ds -> (0 < len)%nat ->
  exists r bs c' t', opssl_read fuel junk calloc_ok hfuel hjunk len (c, t) = Some ((r, bs), (c', t')) /\ read_post len c t later ds r bs c' t'.
Proof.
  intros He Hlen. destruct (decide (c_app_off c < c_app_len c)%nat) as [Hlt | Hge]; [by apply read_queued |].
  pose proof He as [Hc Ht Hds Hst Hpart Hseq]. pose proof (rv_off _ _ _ _ _ Hc) as Ho. assert (c_app_len c = 0 /\ c_app_off c = 0)%nat as [H0 H0'] by lia.
  assert (queue c = []) as Hq by (unfold queue; by rewrite H0, H0').
  unfold opssl_read, bind at 1, getc. cbn [fst]. rewrite (proj2 (Nat.eqb_neq _ _)) by lia.
  rewrite (rv_open _ _ _ _ _ Hc), Z.eqb_refl. cbn [negb]. rewrite (proj2 (Nat.ltb_ge _ _)) by lia.
  change 16%nat with (Datatypes.S 15). generalize 15%nat as n. intros n. cbn [read_loop]. unfold bind at 1.
  destruct ds as [| d ds].
  { cbn [wires] in Hst. destruct (wires_nil_inv c t later (rv_buf _ _ _ _ _ Hc) Hst) as (Hr0 & Hs0 & ->). rewrite app_nil_r in Hst.
    destruct (read_record_idle c t (rv_buf _ _ _ _ _ Hc) Ht Hst) as (t' & -> & (Htx & Hsn & Hcl) & Hst' & Hstall). unfold EAGAIN, bind, modc, ret. cbn [fst snd].
    eexists _, _, _, t'. split; [reflexivity |]. exists []. split; [| split; [by cbn [length]; rewrite Z.add_0_r |]; split; [split_and!; [done | done | by apply stalled_le] |]; split; [by change (queue (set_last_want OPSSL_WANT_READ c)) with (queue c); rewrite Hq | right; split; [done |]; split; [done |]; split; [done |]; split; [done | by left]]].
    split; [by apply receives_want | done | done | | done | done]. unfold incoming. cbn [c_read_len c_read_buf set_last_want]. by rewrite Hr0, Hst'. }
  apply Forall_cons in Hds as [Hd Hds]. cbn [length] in Hseq. cbn [wires] in Hst.
  destruct (read_record_spec fuel junk calloc_ok ctx d Hd c t later _ Hc Ht ltac:(lia) Hpart Hst) as (rr & b & n0 & s & t' & -> & Hlb & Hbb & Hn0 & (Htx & Hsn & Hcl) & Hcase).
  pose proof (ro_seq _ _ _ _ (rv_ok _ _ _ _ _ Hc)) as Hsr. cbn in Hsr. destruct rr as [ty m | r].
  - destruct Hcase as (-> & -> & -> & Hrest & Hw). change (TLS_RT_APPLICATION_DATA =? TLS_RT_APPLICATION_DATA) with true. cbv iota.
    destruct (deliver_spec d (rio b n0 (c_read_seq c + 1) c) t' n len (rv_app _ _ _ _ _ Hc) ltac:(done) Hd Hlen) as (k & ab & al & Hk & Hkd & Hlab & Hal & Hdrop & E). cbv zeta in E. rewrite E. clear E.
    assert (length (take k d) = k) as Hlk by (rewrite length_take; lia). destruct Hd as [Hdb Hdl].
    eexists _, _, _, t'. split; [reflexivity |]. exists ds. split; [| split; [unfold rd_state, set_seq; cbn; f_equal; lia |]; split; [split_and!; [done | done | by rewrite Hw] |]; split; [| left; rewrite Hlk; split; [done | lia]]].
    + assert (receives fuel junk calloc_ok (set_app_len al (set_app_off 0 (set_app_buf ab (rio b 0 (c_read_seq c + 1) c)))) ctx) as Hr'.
      { apply receives_app; [apply receives_rio; (done || lia) | done |]. destruct al; [by right | left; unfold APP_BUF_SIZE; lia]. }
      rewrite <- H0' in Hr' at 1. split; [exact Hr' | exact Hcl | exact Hds | exact Hrest | | cbn; lia]. destruct ds; [done |]. cbn. lia.
    + rewrite Hq. cbn [app concat]. unfold queue. cbn [c_app_len c_app_off c_app_buf set_app_len set_app_buf set_read_len rio set_read_seq set_read_buf]. rewrite H0'.
      rewrite Nat.sub_0_r. unfold sub_list. rewrite drop_0, Hdrop, app_assoc, take_drop. done.
  - destruct Hcase as (-> & -> & Hin & Hlt & Hstall). unfold EAGAIN, bind, modc, ret. cbn [fst snd].
    eexists _, _, _, t'. split; [reflexivity |]. exists (d :: ds). split; [| split; [by rewrite Z.sub_diag, Z.add_0_r |]; split; [split_and!; [done | done | by apply stalled_le] |]; split; [done | right; split; [done |]; split; [done |]; split; [done |]; split; [done |]]].
    + split; [apply receives_want, receives_rio; try done | exact Hcl | by constructor | | by apply Nat.lt_le_incl | exact Hseq]. transitivity (incoming c t ++ later); [by rewrite <- Hin | exact Hst].
    + right. destruct Hstall as [Hrx | Hw]; [| by right]. left. intros ->. rewrite app_nil_r in Hst. rewrite <- Hin in Hst. unfold incoming, stream in Hst. rewrite Hrx in Hst.
      cbn [map concat c_read_len c_read_buf rio set_read_seq set_read_len set_read_buf] in Hst. apply (f_equal length) in Hst. rewrite app_nil_r, length_take, length_app in Hst. lia.
Qed.
End Data.
