(* ===== verification/Channel.v ===== *)
(** Two connections and the network between them: a queue of bytes.

    One end writes, the other reads.  The network moves any number of bytes at any
    time, makes room or refuses it, and keeps the reader waiting as it likes; it
    neither loses nor reorders (it is TCP).  [Record chan] keeps, with the two
    ends, the bytes that [opssl_write] has accepted and those [opssl_read] has
    returned. *)
From S2P Require Import Prelude Types Platform Err Cpu Hmac AesSpec ChaCha20 Poly1305 AesNi Aes BlockModes AesNiGcm AesNiGcmOk Aead Record CipherSuite Conn ConnWrite ConnRead.
#[local] Open Scope Z_scope.

Record chan := mk_chan { w_conn : conn; w_io : io; r_conn : conn; r_io : io; w_bytes : list Z; r_bytes : list Z }.

Inductive event :=
  | Write (data : list Z)     (* [opssl_write] *)
  | Flush                     (* [opssl_conn_flush_write] *)
  | Room (n : nat)            (* the transport will take [n] bytes *)
  | Busy                      (* or none *)
  | Deliver (n : nat)         (* the next [n] bytes reach the reader *)
  | Delay                     (* the reader will be told to wait *)
  | Read (len : nat).         (* [opssl_read] *)

Definition push_rx (e : rx_event) (t : io) : io := mk_io (rx t ++ [e]) (tx t) (sent t).
Definition push_tx (e : tx_event) (t : io) : io := mk_io (rx t) (tx t ++ [e]) (sent t).
Definition drop_sent (n : nat) (t : io) : io := mk_io (rx t) (tx t) (drop n (sent t)).

Lemma waits_app a b : waits (a ++ b) = (waits a + waits b)%nat.
Proof. induction a as [| [] a IH]; cbn [app waits]; lia. Qed.

Section Run.
Context `{Cpu} `{Avx2} `{AesInstr} `{Clmul}.
Variable fuel : nat.
Variable junk : poly1305_state_t.
Variable calloc_ok : bool.
Variable hfuel : nat.
Variable hjunk : list Z.

(** One event; [None] is undefined behaviour, or a loop that has not ended. *)
Definition step (e : event) (s : chan) : option chan :=
  let '(mk_chan wc wt rc rt W R) := s in
  match e with
  | Write data =>
    match opssl_write fuel junk calloc_ok hfuel hjunk data (wc, wt) with
    | Some (r, (wc, wt)) => Some (mk_chan wc wt rc rt (W ++ take (Z.to_nat r) data) R)
    | None => None
    end
  | Flush =>
    match opssl_conn_flush_write (wc, wt) with
    | Some (_, (wc, wt)) => Some (mk_chan wc wt rc rt W R)
    | None => None
    end
  | Room n => Some (mk_chan wc (push_tx (Tx n) wt) rc rt W R)
  | Busy => Some (mk_chan wc (push_tx TxAgain wt) rc rt W R)
  | Deliver n =>
    match take n (sent wt) with
    | [] => Some s
    | d => Some (mk_chan wc (drop_sent n wt) rc (push_rx (Rx d) rt) W R)
    end
  | Delay => Some (mk_chan wc wt rc (push_rx RxAgain rt) W R)
  | Read len =>
    match opssl_read fuel junk calloc_ok hfuel hjunk len (rc, rt) with
    | Some ((_, bs), (rc, rt)) => Some (mk_chan wc wt rc rt W (R ++ bs))
    | None => None
    end
  end.

Fixpoint run (es : list event) (s : chan) : option chan :=
  match es with
  | [] => Some s
  | e :: es => match step e s with Some s => run es s | None => None end
  end.
End Run.

Lemma run_app `{Cpu} `{Avx2} `{AesInstr} `{Clmul} fuel junk calloc_ok hfuel hjunk es es' s :
  run fuel junk calloc_ok hfuel hjunk (es ++ es') s =
  match run fuel junk calloc_ok hfuel hjunk es s with Some s => run fuel junk calloc_ok hfuel hjunk es' s | None => None end.
Proof. revert s. induction es as [| e es IH]; intros s; [done |]. cbn [app run]. destruct (step _ _ _ _ _ e s); [apply IH | done]. Qed.

Definition event_ok (e : event) : Prop := match e with Write data => bytes data | Read len => (0 < len)%nat | _ => True end.

(** A bound on the records the events can make. *)
Fixpoint volume (es : list event) : Z :=
  match es with [] => 0 | Write data :: es => Z.of_nat (length data) + volume es | _ :: es => volume es end.

Lemma volume_pos es : 0 <= volume es.
Proof. induction es as [| [] es IH]; cbn [volume]; lia. Qed.

Section Fifo.
Context {C : Cpu} {X : Avx2} {XS : Avx2Spec X} {I : AesInstr} {IS : AesInstrSpec I} {J : Clmul} {JS : ClmulSpec J}.
Context (fuel : nat) (junk : poly1305_state_t) (calloc_ok : bool) (ctx : opssl_aead_ctx).
Context (hfuel : nat) (hjunk : list Z).

(** The two ends have the same keys, and between them are the records of [ds]. *)
Record linked (s : chan) (ds : list (list Z)) : Prop := {
  lk_snd : sends fuel junk calloc_ok (w_conn s) ctx;
  lk_tx : tx_clean (w_io s);
  lk_rcv : expects fuel junk calloc_ok ctx (r_conn s) (r_io s) (out (w_conn s) (w_io s)) ds;
  lk_same : wr_state (w_conn s) = set_seq (rd_state (r_conn s)) (c_read_seq (r_conn s) + Z.of_nat (length ds));
  lk_bytes : w_bytes s = r_bytes s ++ queue (r_conn s) ++ concat ds
}.

Lemma wires_bytes st ds : rec_ok junk calloc_ok st ctx -> seq st + Z.of_nat (length ds) <= UINT64_MAX -> Forall chunk_ok ds -> bytes (wires (scheme_of ctx) st ds).
Proof.
  intros Hr Hs Hds. revert st Hr Hs. induction Hds as [| d ds [Hb _] _ IH]; intros st Hr Hs; [constructor |]. cbn [wires length] in *. apply bytes_app.
  split; [by apply (wire_bytes junk calloc_ok st ctx Hr) |]. destruct Hr as [? ? ? ? ? ? ?]. apply IH; cbn [set_seq seq]; [| lia]. split; try done. cbn. lia.
Qed.

Lemma expects_bytes c t later ds : expects fuel junk calloc_ok ctx c t later ds -> bytes later.
Proof.
  intros [Hc _ Hds Hst _ Hs]. pose proof (wires_bytes (rd_state c) ds (rv_ok _ _ _ _ _ Hc) Hs Hds) as B. rewrite <- Hst in B. by apply bytes_app in B as [_ B].
Qed.

Lemma expects_more c t later ds new later' : expects fuel junk calloc_ok ctx c t later ds -> Forall chunk_ok new ->
  c_read_seq c + Z.of_nat (length (ds ++ new)) <= UINT64_MAX ->
  later' = later ++ wires (scheme_of ctx) (set_seq (rd_state c) (c_read_seq c + Z.of_nat (length ds))) new ->
  expects fuel junk calloc_ok ctx c t later' (ds ++ new).
Proof.
  intros [Hc Ht Hds Hst Hp Hs] Hn Hs' ->. split; try done.
  - by apply Forall_app.
  - by rewrite app_assoc, Hst, wires_app.
  - destruct ds as [| d ds]; [| done]. destruct new as [| d new]; [done |]. cbn [wires app] in *.
    destruct (wires_nil_inv c t later (rv_buf _ _ _ _ _ Hc) Hst) as (-> & _). lia.
Qed.

Lemma stream_push e t : stream (push_rx e t) = stream t ++ ev_bytes e.
Proof. unfold stream, push_rx. cbn [rx]. by rewrite map_app, concat_app; cbn; rewrite app_nil_r. Qed.

Lemma incoming_push e c t : incoming c (push_rx e t) = incoming c t ++ ev_bytes e.
Proof. unfold incoming. by rewrite stream_push, app_assoc. Qed.

Lemma expects_push e c t later later' ds : expects fuel junk calloc_ok ctx c t later ds -> ev_clean e -> later = ev_bytes e ++ later' ->
  expects fuel junk calloc_ok ctx c (push_rx e t) later' ds.
Proof.
  intros [Hc Ht Hds Hst Hp Hs] He ->. split; try done.
  - apply Forall_app. by split; [| apply Forall_singleton].
  - by rewrite incoming_push, <- app_assoc.
Qed.

Lemma deliver_linked n s ds : linked s ds -> exists wt rt,
  step fuel junk calloc_ok hfuel hjunk (Deliver n) s = Some (mk_chan (w_conn s) wt (r_conn s) rt (w_bytes s) (r_bytes s)) /\
  linked (mk_chan (w_conn s) wt (r_conn s) rt (w_bytes s) (r_bytes s)) ds /\ sent wt = drop n (sent (w_io s)) /\ waits (rx rt) = waits (rx (r_io s)).
Proof.
  destruct s as [wc wt rc rt W R]. intros [Hsn Htx Hrc Hsame Hby]. cbn [step w_conn w_io r_conn r_io w_bytes r_bytes] in *. destruct (take n (sent wt)) as [| x l] eqn:Et.
  { exists wt, rt. split; [done |]. split; [by split |]. split; [| done]. rewrite <- (take_drop n (sent wt)) at 1. by rewrite Et. }
  exists (drop_sent n wt), (push_rx (Rx (x :: l)) rt). split; [done |]. split; [| split; [done | unfold push_rx; cbn [rx]; by rewrite waits_app, Nat.add_0_r]].
  split; cbn [w_conn w_io r_conn r_io w_bytes r_bytes]; try done.
  assert (out wc wt = (x :: l) ++ out wc (drop_sent n wt)) as Eo by (unfold out, drop_sent; cbn [sent]; by rewrite <- Et, app_assoc, take_drop).
  eapply expects_push; [done | | exact Eo]. split; [done |].
  pose proof (expects_bytes _ _ _ _ Hrc) as B. rewrite Eo in B. by apply bytes_app in B as [B _].
Qed.

Lemma linked_step e s ds : linked s ds -> event_ok e -> c_write_seq (w_conn s) + volume [e] < UINT64_MAX ->
  exists s' ds', step fuel junk calloc_ok hfuel hjunk e s = Some s' /\ linked s' ds' /\ c_write_seq (w_conn s') <= c_write_seq (w_conn s) + volume [e].
Proof.
  destruct s as [wc wt rc rt W R]. intros [Hsn Htx Hrc Hsame Hby] He Hv. cbn [w_conn w_io r_conn r_io w_bytes r_bytes] in *.
  assert (c_write_seq wc = c_read_seq rc + Z.of_nat (length ds)) as Hseq by exact (f_equal seq Hsame).
  destruct e as [data | | n | | n | | len]; cbn [step volume event_ok] in *.
  - destruct (opssl_write_spec fuel junk calloc_ok ctx hfuel hjunk data wc wt Hsn He ltac:(lia)) as (r & wc' & wt' & -> & Hsn' & Hrx & Htx' & new & Hnew & Hcat & Ew & Eo & Hr).
    assert (c_write_seq wc' = c_write_seq wc + Z.of_nat (length new)) as Hs' by exact (f_equal seq Ew).
    assert (length new <= length data)%nat as Hln.
    { apply (f_equal length) in Hcat. rewrite length_take in Hcat. assert (length new <= length (concat new))%nat; [| lia]. clear -Hnew.
      induction Hnew as [| d l [_ Hd] _ IH]; cbn; rewrite ?length_app; lia. }
    eexists _, (ds ++ new). split; [reflexivity |]. split; [split |]; cbn [w_conn w_io r_conn r_io w_bytes r_bytes].
    + done.
    + by apply Htx'.
    + eapply expects_more; [done | done | rewrite length_app; lia |]. rewrite Eo, Hsame. by cbn [set_seq seq].
    + rewrite Ew, Hsame. unfold set_seq. cbn [cipher Record.iv is_tls13 seq]. f_equal. rewrite length_app. lia.
    + rewrite Hby, concat_app, <- !app_assoc. do 3 f_equal. rewrite Hr by done. cbn [Nat.add]. cbv zeta. destruct (Nat.eqb_spec (length (concat new)) 0) as [E | E].
      * apply length_zero_iff_nil in E. by rewrite E.
      * by rewrite Nat2Z.id.
    + lia.
  - destruct (flush_write_spec fuel junk calloc_ok ctx wc wt Hsn) as (r & wc' & wt' & -> & Hsn' & Ew & Eo & Hrx & Htx' & _).
    eexists _, ds. split; [reflexivity |]. assert (c_write_seq wc' = c_write_seq wc) as Hs' by exact (f_equal seq Ew). split; [split |]; cbn [w_conn w_io r_conn r_io w_bytes r_bytes];
      [done | tauto | by rewrite Eo | by rewrite Ew | done | lia].
  - eexists _, ds. split; [reflexivity |]. split; [split |]; cbn [w_conn w_io r_conn r_io w_bytes r_bytes]; try done; [| lia].
    apply Forall_app. by split; [| apply Forall_singleton].
  - eexists _, ds. split; [reflexivity |]. split; [split |]; cbn [w_conn w_io r_conn r_io w_bytes r_bytes]; try done; [| lia].
    apply Forall_app. by split; [| apply Forall_singleton].
  - destruct (deliver_linked n (mk_chan wc wt rc rt W R) ds) as (wt' & rt' & E & Hl & _); [by split |]. eexists _, ds. split; [exact E |]. split; [exact Hl | cbn; lia].
  - eexists _, ds. split; [reflexivity |]. split; [split |]; cbn [w_conn w_io r_conn r_io w_bytes r_bytes]; try done; [| lia].
    by eapply expects_push.
  - destruct (opssl_read_spec fuel junk calloc_ok ctx hfuel hjunk rc rt (out wc wt) ds len Hrc He) as (r & bs & rc' & rt' & -> & ds' & Hrc' & Er & _ & Hq & _).
    eexists _, ds'. split; [reflexivity |].
    split; [split |]; cbn [w_conn w_io r_conn r_io w_bytes r_bytes]; try done; [| | lia].
    + rewrite Hsame, Er. assert (Es := f_equal seq Er). cbn [rd_state set_seq seq] in Es. rewrite Es. unfold set_seq, rd_state. cbn. f_equal. lia.
    + rewrite <- app_assoc, <- Hq. exact Hby.
Qed.

Lemma linked_run es s ds : linked s ds -> Forall event_ok es -> c_write_seq (w_conn s) + volume es < UINT64_MAX ->
  exists s' ds', run fuel junk calloc_ok hfuel hjunk es s = Some s' /\ linked s' ds'.
Proof.
  intros Hl He. revert s ds Hl. induction He as [| e es He _ IH]; intros s ds Hl Hv; [by exists s, ds |]. cbn [run].
  assert (volume (e :: es) = volume [e] + volume es) as Ev by (destruct e; cbn [volume]; lia). pose proof (volume_pos es).
  destruct (linked_step e s ds Hl He ltac:(lia)) as (s1 & ds1 & -> & Hl1 & Hs). apply (IH s1 ds1 Hl1). lia.
Qed.

(* ------------------------------------------------------------------ *)
(** * Everything arrives *)

Lemma flush_run k s ds : linked s ds -> exists wc wt,
  run fuel junk calloc_ok hfuel hjunk (repeat Flush k) s = Some (mk_chan wc wt (r_conn s) (r_io s) (w_bytes s) (r_bytes s)) /\
  linked (mk_chan wc wt (r_conn s) (r_io s) (w_bytes s) (r_bytes s)) ds /\ out wc wt = out (w_conn s) (w_io s) /\
  (pending_out (w_conn s) = [] -> pending_out wc = []) /\ (pending_out wc = [] \/ tx wt = drop k (tx (w_io s))).
Proof.
  revert s. induction k as [| k IH]; intros s Hl; [destruct s; eexists _, _; split; [done |]; do 3 (split; [done |]); by right |]. destruct s as [wc wt rc rt W R].
  cbn [repeat run step r_conn r_io w_bytes r_bytes w_conn w_io].
  destruct (flush_write_spec fuel junk calloc_ok ctx wc wt (lk_snd _ _ Hl)) as (r & wc1 & wt1 & -> & Hsn' & Ew & Eo & Hrx & Htx' & Hcase).
  assert (linked (mk_chan wc1 wt1 rc rt W R) ds) as Hl1.
  { destruct Hl as [Hsn Htx Hrc Hsame Hby]. cbn [w_conn w_io r_conn r_io w_bytes r_bytes] in *. split; cbn [w_conn w_io r_conn r_io w_bytes r_bytes]; [done | tauto | by rewrite Eo | by rewrite Ew | done]. }
  destruct (IH _ Hl1) as (wc2 & wt2 & -> & Hl2 & Eo2 & Hk & Hcase2). cbn [r_conn r_io w_bytes r_bytes w_conn w_io] in *. exists wc2, wt2. do 2 (split; [done |]). split; [by rewrite Eo2, Eo |].
  destruct Hcase as [(H1 & -> & H1') | (H0 & H1 & H1')]; [split; [intros _ | left]; by apply Hk |]. split; [done |].
  destruct Hcase2 as [H2 | H2]; [by left | right; rewrite H2, H1; by destruct (tx wt), k].
Qed.

(** Flushing until nothing is pending. *)
Lemma flush_all n s ds : linked s ds -> (length (out (w_conn s) (w_io s)) <= n)%nat -> exists wc wt,
  run fuel junk calloc_ok hfuel hjunk (repeat Flush (length (tx (w_io s))) ++ [Room n; Flush]) s = Some (mk_chan wc wt (r_conn s) (r_io s) (w_bytes s) (r_bytes s)) /\
  linked (mk_chan wc wt (r_conn s) (r_io s) (w_bytes s) (r_bytes s)) ds /\ sent wt = out (w_conn s) (w_io s) /\ pending_out wc = [].
Proof.
  intros Hl Hn. destruct (flush_run (length (tx (w_io s))) s ds Hl) as (wc & wt & E & Hl1 & Eo & _ & Hcase). rewrite drop_all in Hcase.
  rewrite run_app, E. cbn [run step]. set (wt1 := push_tx (Tx n) wt).
  assert (linked (mk_chan wc wt1 (r_conn s) (r_io s) (w_bytes s) (r_bytes s)) ds) as Hl2.
  { destruct Hl1 as [Hsn Htx Hrc Hsame Hby]. split; try done. apply Forall_app. by split; [| apply Forall_singleton]. }
  destruct (flush_write_spec fuel junk calloc_ok ctx wc wt1 (lk_snd _ _ Hl2)) as (r & wc2 & wt2 & -> & Hsn' & Ew & Eo2 & Hrx & Htx' & Hcase2).
  assert (pending_out wc2 = []) as Hp.
  { destruct Hcase2 as [(_ & _ & H) | (H0 & _ & H)]; [done |]. apply (H n); [destruct Hcase as [Hc | Hc]; [done | unfold wt1, push_tx; cbn [tx]; by rewrite Hc] |].
    assert (length (pending_out wc) <= length (out wc wt))%nat by (unfold out; rewrite length_app; lia). rewrite Eo in *. lia. }
  exists wc2, wt2. split; [done |]. split; [| split; [| done]].
  - destruct Hl2 as [Hsn Htx Hrc Hsame Hby]. cbn [w_conn w_io r_conn r_io w_bytes r_bytes] in *. split; cbn [w_conn w_io r_conn r_io w_bytes r_bytes]; [done | tauto | by rewrite Eo2 | by rewrite Ew | done].
  - rewrite <- Eo. change (out wc wt) with (out wc wt1). rewrite <- Eo2. unfold out. by rewrite Hp, app_nil_r.
Qed.

(** Reading when all has been delivered: every call gives a byte or is one of those
    the transport keeps waiting. *)
Lemma read_all m len s ds : linked s ds -> out (w_conn s) (w_io s) = [] -> (0 < len)%nat ->
  (waits (rx (r_io s)) + length (queue (r_conn s) ++ concat ds) <= m)%nat ->
  exists s', run fuel junk calloc_ok hfuel hjunk (repeat (Read len) m) s = Some s' /\ r_bytes s' = w_bytes s /\ w_bytes s' = w_bytes s.
Proof.
  intros Hl Ho Hlen. revert s ds Hl Ho. induction m as [| m IH]; intros s ds Hl Ho Hm.
  { exists s. split; [done |]. split; [| done]. destruct (queue (r_conn s) ++ concat ds) eqn:E; [| cbn in Hm; lia]. rewrite (lk_bytes _ _ Hl), E. by rewrite app_nil_r. }
  destruct s as [wc wt rc rt W R]. cbn [repeat run step r_conn r_io w_bytes r_bytes w_conn w_io] in *. destruct Hl as [Hsn Htx Hrc Hsame Hby]. cbn [r_conn r_io w_bytes r_bytes w_conn w_io] in *.
  destruct (opssl_read_spec fuel junk calloc_ok ctx hfuel hjunk rc rt (out wc wt) ds len Hrc Hlen) as (r & bs & rc' & rt' & -> & ds' & Hrc' & Er & (_ & _ & Hw) & Hq & Hcase).
  assert (linked (mk_chan wc wt rc' rt' W (R ++ bs)) ds') as Hl'.
  { split; cbn [w_conn w_io r_conn r_io w_bytes r_bytes]; try done; [| by rewrite <- app_assoc, <- Hq].
    rewrite Hsame, Er. assert (Es := f_equal seq Er). cbn [rd_state set_seq seq] in Es. rewrite Es. unfold set_seq, rd_state. cbn. f_equal. lia. }
  destruct (IH _ _ Hl' Ho) as (s' & E & HR & HW); [| by exists s']. cbn [r_conn r_io]. apply (f_equal length) in Hq. rewrite !length_app in *.
  destruct Hcase as [[_ Hb] | (_ & -> & _ & [Hrx | Hlt] & Hwhy)]; [lia | | cbn [length] in *; lia].
  rewrite Hrx. destruct Hwhy as [[Hq0 ->] | [H | H]]; [rewrite Hq0 in *; cbn [concat length waits] in *; lia | done | cbn [length waits] in *; lia].
Qed.


(** Flushing all there is, delivering it, and reading [m] times. *)
Definition drain (n m len : nat) (s : chan) : list event :=
  (repeat Flush (length (tx (w_io s))) ++ [Room n; Flush]) ++ [Deliver n] ++ repeat (Read len) m.

Lemma drain_all n m len s ds : linked s ds -> (length (out (w_conn s) (w_io s)) <= n)%nat -> (0 < len)%nat ->
  (waits (rx (r_io s)) + length (queue (r_conn s) ++ concat ds) <= m)%nat ->
  exists s', run fuel junk calloc_ok hfuel hjunk (drain n m len s) s = Some s' /\ r_bytes s' = w_bytes s.
Proof.
  intros Hl Hn Hlen Hm. unfold drain. destruct (flush_all n s ds Hl Hn) as (wc & wt & E & Hl1 & Hsent & Hp). rewrite run_app, E. cbn [app run].
  destruct (deliver_linked n _ _ Hl1) as (wt2 & rt2 & E2 & Hl2 & Hs2 & Hw2). rewrite E2. cbn [w_conn w_io r_conn r_io w_bytes r_bytes] in *.
  destruct (read_all m len _ ds Hl2) as (s' & E3 & HR & _); cbn [w_conn w_io r_conn r_io w_bytes r_bytes] in *; [| done | by rewrite Hw2 | by exists s'].
  unfold out. rewrite Hp, app_nil_r, Hs2, Hsent. by apply drop_ge.
Qed.
End Fifo.
