(* ===== verification/ConnKeys.v ===== *)
(** Keys: [setup_cipher_contexts] of the two ends leaves connections whose record
    states mirror each other, and a pair of such connections is a queue of bytes
    both ways. *)
From S2P Require Import Prelude Types Platform Err Cpu Hmac AesSpec ChaCha20 Poly1305 AesNi Aes BlockModes AesNiGcm AesNiGcmOk Aead Record CipherSuite Conn ConnWrite ConnRead Channel.
#[local] Open Scope Z_scope.
#[local] Open Scope conn_scope.

(** A connection at the end of the handshake: empty buffers, and keys of another
    epoch. *)
Record fresh (epoch : Z) (c : conn) : Prop := {
  fr_wbuf : length (c_write_buf c) = READ_BUF_SIZE /\ bytes (c_write_buf c);
  fr_widle : (c_write_len c = 0 /\ c_write_off c = 0)%nat;
  fr_rbuf : length (c_read_buf c) = READ_BUF_SIZE /\ bytes (c_read_buf c);
  fr_ridle : c_read_len c = 0%nat;
  fr_app : length (c_app_buf c) = APP_BUF_SIZE /\ (c_app_len c = 0 /\ c_app_off c = 0)%nat;
  fr_iv : length (c_read_iv c) = 12%nat /\ length (c_write_iv c) = 12%nat;
  fr_epoch : c_read_epoch c <> epoch /\ c_write_epoch c <> epoch;
  fr_open : c_shutdown_sent c = false /\ c_key_update_apply_after_flush c = false
}.

Lemma new_fresh epoch dir : epoch <> TLS_EPOCH_PLAINTEXT -> fresh epoch (opssl_conn_new dir).
Proof.
  intros He. split; cbn; rewrite ?length_replicate; try done; try (by split).
  - split; [done |]. by apply Forall_replicate.
  - split; [done |]. by apply Forall_replicate.
Qed.

(** A context of an algorithm with a key. *)
Definition keyed (a : opssl_aead_algo_t) (key : list Z) : opssl_aead_ctx := mk_aead a (splice (replicate 32 0) 0 key) (length key).

Definition key_ok (key : list Z) : Prop := key_len_ok key = true /\ bytes key.

Lemma keyed_ok a key : key_ok key -> ctx_ok (keyed a key) /\ ctx_key (keyed a key) = key.
Proof.
  intros [Hk Hb]. apply key_len_spec in Hk. split; [split; cbn [ac_key keyed] |].
  - rewrite splice_length; rewrite length_replicate; lia.
  - apply bytes_splice; [| done]. by apply Forall_replicate.
  - unfold ctx_key. cbn [ac_key_len ac_key keyed]. rewrite splice_0. apply take_app_length.
Qed.

Lemma set_key_new a key : key_ok key -> opssl_aead_set_key (opssl_aead_new true a) (Some key) = (1, Some (keyed a key)).
Proof. intros [Hk _]. unfold opssl_aead_set_key. cbn [opssl_aead_new]. by rewrite key_len_negb, Hk. Qed.

(** The suites [setup_cipher_contexts] knows have tags of sixteen bytes. *)
Lemma conn_aead_ok cipher a key : conn_aead cipher = Some a -> key_ok key ->
  suite_tag_len cipher = 16 /\ sc_tag_len (scheme_of (keyed a key)) = 16%nat /\ sc_fits (scheme_of (keyed a key)) (Z.to_nat 16385) 13 = true.
Proof.
  intros H Hk. split.
  - unfold conn_aead in H. 
    repeat (match type of H with (if ?b then _ else _) = _ => let E := fresh in destruct b eqn:E; [rewrite !orb_true_iff, !Z.eqb_eq in E; destruct_or?; subst cipher; vm_compute; reflexivity | clear E] end). done.
  - assert (a = OPSSL_AEAD_AES_128_GCM \/ a = OPSSL_AEAD_AES_256_GCM \/ a = OPSSL_AEAD_CHACHA20_POLY1305) as Ha.
    { unfold conn_aead in H. repeat (case_if; [injection H as <-; tauto |]). done. }
    destruct (keyed_ok a key Hk) as [_ Ek]. destruct Hk as [Hk _]. unfold scheme_of. cbn [ac_algo keyed] in *.
    destruct Ha as [-> | [-> | ->]]; (split; [done |]); unfold sc_fits, gcm_scheme, chacha_scheme; cbn [sc_key_ok sc_max_pt sc_max_aad]; rewrite ?Ek, ?Hk; reflexivity.
Qed.

Section Setup.
Context {C : Cpu} {I : AesInstr}.
Context (fuel : nat) (junk : poly1305_state_t) (calloc_ok : bool) (epoch cipher : Z) (a : opssl_aead_algo_t).
Context (Ha : conn_aead cipher = Some a) (Hu : aead_usable calloc_ok a) (Hj : length (pbuf junk) = 16%nat) (Hfu : Z.of_nat fuel >= 18500).
Context (ck sk civ siv : list Z) (Hck : key_ok ck) (Hsk : key_ok sk) (Hci : length civ = 12%nat /\ bytes civ) (Hsi : length siv = 12%nat /\ bytes siv).

(** The keys and IVs a side writes, and reads, with. *)
Definition our_key (c : conn) : list Z := if c_dir c =? OPSSL_SERVER then sk else ck.
Definition our_iv (c : conn) : list Z := if c_dir c =? OPSSL_SERVER then siv else civ.
Definition peer_key (c : conn) : list Z := if c_dir c =? OPSSL_SERVER then ck else sk.
Definition peer_iv (c : conn) : list Z := if c_dir c =? OPSSL_SERVER then civ else siv.

Definition ready (c c' : conn) : Prop :=
  sends fuel junk calloc_ok c' (keyed a (our_key c)) /\ receives fuel junk calloc_ok c' (keyed a (peer_key c)) /\
  wr_state c' = mk_rec (Some (keyed a (our_key c))) (our_iv c) 0 (c_is_tls13 c) /\
  rd_state c' = mk_rec (Some (keyed a (peer_key c))) (peer_iv c) 0 (c_is_tls13 c) /\
  c_read_len c' = 0%nat /\ pending_out c' = [] /\ queue c' = [].

Lemma setup_spec c t : fresh epoch c -> exists c',
  setup_cipher_contexts true true ck sk civ siv cipher epoch (c, t) = Some (OPSSL_OK, (c', t)) /\ ready c (set_hs_state OPSSL_HS_COMPLETE c').
Proof.
  intros [[Hwl Hwb] [Hw1 Hw2] [Hrl Hrb] Hr0 [Hal [Ha1 Ha2]] [Hri Hwi] [He1 He2] [Ho1 Ho2]].
  assert (key_ok (our_key c) /\ key_ok (peer_key c)) as [Hok Hpk] by (unfold our_key, peer_key; by destruct (_ =? _)).
  assert ((length (our_iv c) = 12%nat /\ bytes (our_iv c)) /\ (length (peer_iv c) = 12%nat /\ bytes (peer_iv c))) as [[Hoi Hoib] [Hpi Hpib]] by (unfold our_iv, peer_iv; by destruct (_ =? _)).
  unfold setup_cipher_contexts. rewrite Ha. unfold bind, getc, modc, ret. cbn [fst snd c_read_cipher c_write_cipher c_dir set_read_cipher set_write_cipher set_cipher set_read_iv].
  rewrite bool_decide_eq_false_2 by done. cbn [fst snd c_read_cipher c_write_cipher c_dir set_read_cipher set_write_cipher set_cipher set_read_iv].
  fold (peer_key c) (our_key c) (peer_iv c) (our_iv c). rewrite !set_key_new by done. change (negb (1 =? 1)) with false. cbv iota.
  cbn [fst snd c_read_cipher c_write_cipher c_dir set_read_cipher set_write_cipher set_cipher set_read_iv].
  match goal with |- context [c_write_epoch ?x] => change (c_write_epoch x) with (c_write_epoch c) end.
  match goal with |- context [c_read_epoch ?x] => change (c_read_epoch x) with (c_read_epoch c) end.
  rewrite !(proj2 (Z.eqb_neq _ _)) by done. cbv iota beta. cbn [negb].
  destruct (conn_aead_ok cipher a (our_key c) Ha Hok) as (Hsu & Ht1 & Hf1). destruct (conn_aead_ok cipher a (peer_key c) Ha Hpk) as (_ & Ht2 & Hf2).
  destruct (keyed_ok a (our_key c) Hok) as [Hk1 _]. destruct (keyed_ok a (peer_key c) Hpk) as [Hk2 _].
  assert (splice (c_write_iv c) 0 (take 12 (our_iv c)) = our_iv c) as E1 by (rewrite take_ge by lia; apply splice_full; lia).
  assert (splice (c_read_iv c) 0 (take 12 (peer_iv c)) = peer_iv c) as E2 by (rewrite take_ge by lia; apply splice_full; lia).
  eexists. split; [reflexivity |]. match goal with |- ready c ?x => set (c' := x) end.
  assert (wr_state c' = mk_rec (Some (keyed a (our_key c))) (our_iv c) 0 (c_is_tls13 c)) as Ew by (rewrite <- E1; reflexivity).
  assert (rd_state c' = mk_rec (Some (keyed a (peer_key c))) (peer_iv c) 0 (c_is_tls13 c)) as Er by (rewrite <- E2; reflexivity).
  assert (c_write_encrypted c' = true /\ c_read_encrypted c' = true) as [Q1 Q2] by (split; reflexivity).
  assert (c_cipher c' = cipher /\ c_hs_state c' = OPSSL_HS_COMPLETE) as [Q3 Q4] by (split; reflexivity).
  assert (c_write_buf c' = c_write_buf c /\ c_write_len c' = c_write_len c /\ c_write_off c' = c_write_off c) as (Q5 & Q6 & Q7) by (split; [| split]; reflexivity).
  assert (c_read_buf c' = c_read_buf c /\ c_read_len c' = c_read_len c) as (Q8 & Q9) by (split; reflexivity).
  assert (c_app_buf c' = c_app_buf c /\ c_app_len c' = c_app_len c /\ c_app_off c' = c_app_off c) as (Q10 & Q11 & Q12) by (split; [| split]; reflexivity).
  assert (c_shutdown_sent c' = c_shutdown_sent c /\ c_key_update_apply_after_flush c' = c_key_update_apply_after_flush c) as (Q13 & Q14) by (split; reflexivity).
  clearbody c'. unfold ready. rewrite Ew, Er. split_and!; [| | done | done | by rewrite Q9 | unfold pending_out; by rewrite Q6, Q7, Hw1 | unfold queue; by rewrite Q11, Ha1, Q12, Ha2].
  - split; rewrite ?Ew, ?Q1, ?Q3, ?Q4, ?Q5, ?Q6, ?Q7, ?Q13, ?Q14; [split; cbn [Record.cipher Record.iv seq ac_algo keyed]; assumption || (unfold UINT64_MAX; lia) || reflexivity | reflexivity | assumption | assumption | assumption | assumption | assumption | by right | lia | by split_and!].
  - split; rewrite ?Er, ?Q2, ?Q3, ?Q4, ?Q10, ?Q11, ?Q12; [split; cbn [Record.cipher Record.iv seq ac_algo keyed]; assumption || (unfold UINT64_MAX; lia) || reflexivity | reflexivity | assumption | assumption | assumption | split; rewrite ?Q8, ?Q9; assumption || (rewrite Hr0; lia) | assumption | by right | assumption | reflexivity].
Qed.
End Setup.

Section Link.
Context {C : Cpu} {I : AesInstr}.
Context (fuel : nat) (junk : poly1305_state_t) (calloc_ok : bool).

(** Two ready connections, one writing and the other reading. *)
Lemma ready_linked a ck sk civ siv cw cr w r tw tr : ready fuel junk calloc_ok a ck sk civ siv cw w -> ready fuel junk calloc_ok a ck sk civ siv cr r ->
  (c_dir cw =? OPSSL_SERVER) = negb (c_dir cr =? OPSSL_SERVER) -> c_is_tls13 cw = c_is_tls13 cr ->
  tx_clean tw -> sent tw = [] -> rx_clean tr -> stream tr = [] ->
  exists ctx, linked fuel junk calloc_ok ctx (mk_chan w tw r tr [] []) [].
Proof.
  intros (Hs & _ & Ew & _ & _ & Hp & _) (_ & Hr & _ & Er & Hl & _ & Hq) Hdir H13 Htx Hsent Hrx Hst. exists (keyed a (our_key ck sk cw)).
  assert (peer_key ck sk cr = our_key ck sk cw /\ peer_iv civ siv cr = our_iv civ siv cw) as [Ek Ei]
    by (unfold our_key, peer_key, our_iv, peer_iv; rewrite Hdir; by destruct (c_dir cr =? OPSSL_SERVER)).
  rewrite Ek in *. split; cbn [w_conn w_io r_conn r_io w_bytes r_bytes].
  - exact Hs.
  - exact Htx.
  - split; [exact Hr | exact Hrx | constructor | | done |].
    + unfold incoming, out. by rewrite Hl, Hst, Hsent, Hp.
    + cbn [length]. rewrite Z.add_0_r. apply (ro_seq _ _ _ _ (rv_ok _ _ _ _ _ Hr)).
  - cbn [length]. rewrite Z.add_0_r, Ew. change (c_read_seq r) with (seq (rd_state r)). rewrite Er, Ei, H13. done.
  - by rewrite Hq.
Qed.
End Link.

(* ------------------------------------------------------------------ *)
(** * The properties *)

(** C7: application data is a queue.  Between two connections whose record states
    mirror each other, whatever is written, however the network cuts, delays and
    refuses, no call has undefined behaviour, and the bytes [opssl_write] has
    accepted are those [opssl_read] has returned followed by those in flight: in
    order, none lost and none twice.  And none stays in flight: flush until nothing
    is pending, deliver, read, and what was accepted has been returned. *)
Theorem channel_fifo {C : Cpu} {X : Avx2} (XS : Avx2Spec X) {I : AesInstr} (IS : AesInstrSpec I) {J : Clmul} (JS : ClmulSpec J)
    fuel junk calloc_ok ctx hfuel hjunk es s :
  linked fuel junk calloc_ok ctx s [] -> Forall event_ok es -> c_write_seq (w_conn s) + volume es < UINT64_MAX ->
  exists s' in_flight, run fuel junk calloc_ok hfuel hjunk es s = Some s' /\ w_bytes s' = r_bytes s' ++ in_flight /\
    forall n m len, (length (out (w_conn s') (w_io s')) <= n)%nat -> (waits (rx (r_io s')) + length in_flight <= m)%nat -> (0 < len)%nat ->
    exists s'', run fuel junk calloc_ok hfuel hjunk (drain n m len s') s' = Some s'' /\ r_bytes s'' = w_bytes s'.
Proof.
  intros Hl He Hv. destruct (linked_run fuel junk calloc_ok ctx hfuel hjunk es s [] Hl He Hv) as (s' & ds & E & Hl').
  exists s', (queue (r_conn s') ++ concat ds). split; [done |]. split; [apply Hl' |]. intros n m len Hn Hm Hlen. by apply (drain_all fuel junk calloc_ok ctx hfuel hjunk n m len s' ds).
Qed.

(** C8: the two ends of a handshake that give [setup_cipher_contexts] the same keys,
    one as the client and one as the server, write and read under the client's key
    and IV in one direction and the server's in the other, all four sequence numbers
    being zero, and are such a pair of connections in both directions. *)
Theorem setup_mirrors {C : Cpu} {I : AesInstr} fuel junk calloc_ok epoch cipher a ck sk civ siv c s tc ts :
  conn_aead cipher = Some a -> aead_usable calloc_ok a -> length (pbuf junk) = 16%nat -> Z.of_nat fuel >= 18500 ->
  key_ok ck -> key_ok sk -> length civ = 12%nat /\ bytes civ -> length siv = 12%nat /\ bytes siv ->
  fresh epoch c -> fresh epoch s -> c_dir c = OPSSL_CLIENT -> c_dir s = OPSSL_SERVER -> c_is_tls13 c = c_is_tls13 s ->
  exists c' s', setup_cipher_contexts true true ck sk civ siv cipher epoch (c, tc) = Some (OPSSL_OK, (c', tc)) /\
    setup_cipher_contexts true true ck sk civ siv cipher epoch (s, ts) = Some (OPSSL_OK, (s', ts)) /\
    wr_state c' = mk_rec (Some (keyed a ck)) civ 0 (c_is_tls13 c) /\ rd_state s' = mk_rec (Some (keyed a ck)) civ 0 (c_is_tls13 s) /\
    wr_state s' = mk_rec (Some (keyed a sk)) siv 0 (c_is_tls13 s) /\ rd_state c' = mk_rec (Some (keyed a sk)) siv 0 (c_is_tls13 c) /\
    (tx_clean tc -> tx_clean ts -> rx_clean tc -> rx_clean ts -> sent tc = [] -> sent ts = [] -> stream tc = [] -> stream ts = [] ->
     let c'' := set_hs_state OPSSL_HS_COMPLETE c' in let s'' := set_hs_state OPSSL_HS_COMPLETE s' in
     (exists ctx, linked fuel junk calloc_ok ctx (mk_chan c'' tc s'' ts [] []) []) /\ (exists ctx, linked fuel junk calloc_ok ctx (mk_chan s'' ts c'' tc [] []) [])).
Proof.
  intros Ha Hu Hj Hf Hck Hsk Hci Hsi Hc Hs Hdc Hds H13.
  destruct (setup_spec fuel junk calloc_ok epoch cipher a Ha Hu Hj Hf ck sk civ siv Hck Hsk Hci Hsi c tc Hc) as (c' & Ec & Rc).
  destruct (setup_spec fuel junk calloc_ok epoch cipher a Ha Hu Hj Hf ck sk civ siv Hck Hsk Hci Hsi s ts Hs) as (s' & Es & Rs).
  exists c', s'. split; [done |]. split; [done |]. pose proof Rc as (_ & _ & Wc & Dc & _). pose proof Rs as (_ & _ & Ws & Ds & _).
  unfold our_key, our_iv, peer_key, peer_iv in Wc, Dc, Ws, Ds. rewrite Hdc in Wc, Dc. rewrite Hds in Ws, Ds.
  do 4 (split; [assumption |]). intros. split; eapply ready_linked; solve [eassumption | by rewrite Hdc, Hds | congruence].
Qed.

(* ------------------------------------------------------------------ *)
(** * Witnesses *)

#[local] Existing Instance plain_cpu.
#[local] Existing Instance avx2_model.
#[local] Existing Instance aes_instr_model.
#[local] Existing Instance clmul_model.

Definition quiet : io := mk_io [] [] [].
Definition demo_fuel : nat := Z.to_nat 18500.

Lemma demo_key_ok b : byte_ok b -> key_ok (replicate 32 b).
Proof. intros Hb. split; [done |]. by apply Forall_replicate. Qed.

Lemma demo_iv_ok b : byte_ok b -> length (replicate 12 b) = 12%nat /\ bytes (replicate 12 b).
Proof. intros Hb. split; [done |]. by apply Forall_replicate. Qed.

(** A client and a server of TLS 1.3 with ChaCha20-Poly1305. *)
Definition demo_end (dir : Z) : conn := set_is_tls13 true (opssl_conn_new dir).

Lemma demo_end_fresh dir : fresh TLS_EPOCH_APPLICATION (demo_end dir).
Proof. destruct (new_fresh TLS_EPOCH_APPLICATION dir ltac:(done)) as [? ? ? ? ? ? ? ?]. by split. Qed.

Lemma setup_mirrors_witness : exists c' s',
  setup_cipher_contexts true true (replicate 32 1) (replicate 32 2) (replicate 12 3) (replicate 12 4) OPSSL_TLS_CHACHA20_POLY1305_SHA256 TLS_EPOCH_APPLICATION
    (demo_end OPSSL_CLIENT, quiet) = Some (OPSSL_OK, (c', quiet)) /\
  (exists ctx, linked demo_fuel poly1305_zero true ctx (mk_chan (set_hs_state OPSSL_HS_COMPLETE c') quiet (set_hs_state OPSSL_HS_COMPLETE s') quiet [] []) []).
Proof.
  destruct (setup_mirrors demo_fuel poly1305_zero true TLS_EPOCH_APPLICATION OPSSL_TLS_CHACHA20_POLY1305_SHA256 OPSSL_AEAD_CHACHA20_POLY1305
    (replicate 32 1) (replicate 32 2) (replicate 12 3) (replicate 12 4) (demo_end OPSSL_CLIENT) (demo_end OPSSL_SERVER) quiet quiet
    eq_refl Logic.I eq_refl ltac:(unfold demo_fuel; lia) (demo_key_ok 1 ltac:(done)) (demo_key_ok 2 ltac:(done)) (demo_iv_ok 3 ltac:(done)) (demo_iv_ok 4 ltac:(done))
    (demo_end_fresh _) (demo_end_fresh _) eq_refl eq_refl eq_refl) as (c' & s' & Ec & _ & _ & _ & _ & _ & H).
  exists c', s'. split; [exact Ec |]. apply H; try done; constructor.
Defined.

(** The two ends after the handshake. *)
Definition demo_setup (dir : Z) : conn :=
  match setup_cipher_contexts true true (replicate 32 1) (replicate 32 2) (replicate 12 3) (replicate 12 4) OPSSL_TLS_CHACHA20_POLY1305_SHA256 TLS_EPOCH_APPLICATION
    (demo_end dir, quiet) with
  | Some (_, (c, _)) => c
  | None => demo_end dir
  end.

Definition demo_conn (dir : Z) : conn := set_hs_state OPSSL_HS_COMPLETE (demo_setup dir).

Lemma demo_ready dir : ready demo_fuel poly1305_zero true OPSSL_AEAD_CHACHA20_POLY1305 (replicate 32 1) (replicate 32 2) (replicate 12 3) (replicate 12 4) (demo_end dir) (demo_conn dir).
Proof.
  destruct (setup_spec demo_fuel poly1305_zero true TLS_EPOCH_APPLICATION OPSSL_TLS_CHACHA20_POLY1305_SHA256 OPSSL_AEAD_CHACHA20_POLY1305 eq_refl Logic.I eq_refl
    ltac:(unfold demo_fuel; lia) _ _ _ _ (demo_key_ok 1 ltac:(done)) (demo_key_ok 2 ltac:(done)) (demo_iv_ok 3 ltac:(done)) (demo_iv_ok 4 ltac:(done))
    (demo_end dir) quiet (demo_end_fresh _)) as (c' & E & R). unfold demo_conn, demo_setup. rewrite E. exact R.
Qed.

Lemma demo_linked : exists ctx, linked demo_fuel poly1305_zero true ctx (mk_chan (demo_conn OPSSL_CLIENT) quiet (demo_conn OPSSL_SERVER) quiet [] []) [].
Proof.
  apply (ready_linked demo_fuel poly1305_zero true _ _ _ _ _ _ _ _ _ quiet quiet (demo_ready OPSSL_CLIENT) (demo_ready OPSSL_SERVER) eq_refl eq_refl); first [reflexivity | constructor].
Qed.

Definition demo_events : list event :=
  [Room 10; Write [104; 101; 108; 108; 111]; Deliver 4; Delay; Read 100; Busy; Write [33]; Room 1000; Flush; Deliver 100; Read 2; Read 2].

Lemma demo_events_ok : Forall event_ok demo_events.
Proof. repeat constructor; try solve_bytes; cbn; lia. Qed.

Lemma wr_state_seq c r : wr_state c = r -> c_write_seq c = seq r.
Proof. by intros <-. Qed.

Lemma demo_seq dir : c_write_seq (demo_conn dir) = 0.
Proof. destruct (demo_ready dir) as (_ & _ & Ew & _). exact (wr_state_seq _ _ Ew). Qed.

Lemma channel_fifo_witness : exists s' in_flight,
  run demo_fuel poly1305_zero true 100 [] demo_events (mk_chan (demo_conn OPSSL_CLIENT) quiet (demo_conn OPSSL_SERVER) quiet [] []) = Some s' /\
  w_bytes s' = r_bytes s' ++ in_flight.
Proof.
  destruct demo_linked as [ctx Hl].
  assert (Hseq : c_write_seq (w_conn (mk_chan (demo_conn OPSSL_CLIENT) quiet (demo_conn OPSSL_SERVER) quiet [] [])) + volume demo_events < UINT64_MAX)
    by (cbn [w_conn]; rewrite demo_seq; reflexivity).
  destruct (channel_fifo avx2_model_spec aes_instr_model_spec clmul_model_spec demo_fuel poly1305_zero true ctx 100 [] demo_events _ Hl demo_events_ok Hseq) as (s' & q & E & Hq & _).
  exists s', q. exact (conj E Hq).
Defined.

(** When the last sequence number has been used, [write_record] refuses, but it has
    sealed the record by then and left it in the buffer: the next call sends it and
    seals another one with the same nonce. *)
Definition exhausted : conn := set_write_seq UINT64_MAX (demo_conn OPSSL_CLIENT).

Example write_record_reuses_nonce :
  let three := (r1 <- write_record 100 poly1305_zero true TLS_RT_APPLICATION_DATA [65] ;; r2 <- write_record 100 poly1305_zero true TLS_RT_APPLICATION_DATA [66] ;;
                r3 <- write_record 100 poly1305_zero true TLS_RT_APPLICATION_DATA [67] ;; ret [r1; r2; r3])%conn in
  let S := chacha_scheme (replicate 32 1) in
  match three (exhausted, mk_io [] [Tx 100; Tx 100] []) with
  | Some (rs, (c, t)) => rs = [OPSSL_ERROR; OPSSL_ERROR; OPSSL_ERROR] /\ seq (wr_state c) = UINT64_MAX /\
      sent t = wire S (wr_state exhausted) 23 [65] ++ wire S (wr_state exhausted) 23 [66]
  | None => False
  end.
Proof. vm_compute. by split_and!. Qed.
