(* ===== verification/KeyUpdate.v ===== *)
(** KeyUpdate: after the writer's [apply_tls13_write_key_update] and the reader's
    treatment of its message, both have the keys of the next generation that RFC
    8446 section 7.2 defines, and their connections carry data as before. *)
From S2P Require Import Prelude Types Platform Err Cpu MdHash HashApi Hmac Hkdf KeySched AesSpec ChaCha20 Poly1305 AesNi Aes BlockModes AesNiGcm AesNiGcmOk Aead Record CipherSuite Conn ConnWrite ConnRead Channel ConnKeys.
#[local] Open Scope Z_scope.
#[local] Open Scope conn_scope.

(** The next traffic secret, and the key and IV made from it. *)
Definition next_traffic (a : opssl_hmac_algo_t) (s : list Z) : list Z := HKDF_Expand_Label a s TLS13_LABEL_TRAFFIC_UPD [] (length s).
Definition traffic_key (a : opssl_hmac_algo_t) (s : list Z) (n : nat) : list Z := HKDF_Expand_Label a s TLS13_LABEL_KEY [] n.
Definition traffic_iv (a : opssl_hmac_algo_t) (s : list Z) : list Z := HKDF_Expand_Label a s TLS13_LABEL_IV [] 12.

(** The current secret of a direction: [secret_len] bytes of the array. *)
Definition write_secret (c : conn) : list Z := take (c_secret_len c) (our_secret c).
Definition read_secret (c : conn) : list Z := take (c_secret_len c) (peer_secret c).

(** The next key in a context. *)
Definition rekeyed (ctx : opssl_aead_ctx) (key : list Z) : opssl_aead_ctx := mk_aead (ac_algo ctx) (splice (ac_key ctx) 0 key) (length key).

Lemma HKDF_T_bytes a prk info i : bytes (HKDF_T a prk info i).
Proof. destruct i; [constructor | apply HMAC_bytes]. Qed.

Lemma expand_label_bytes a s l c n : bytes (HKDF_Expand_Label a s l c n).
Proof.
  unfold HKDF_Expand_Label, HKDF_Expand. apply bytes_take. generalize (List.seq 1 ((n + get_digest_size a - 1) / get_digest_size a)). intros js.
  induction js as [| j js IH]; [constructor |]. cbn [map concat]. apply bytes_app. split; [apply HKDF_T_bytes | done].
Qed.

Lemma set_key_rekeyed ctx key : key_ok key -> opssl_aead_set_key (Some ctx) (Some key) = (1, Some (rekeyed ctx key)).
Proof. intros [Hk _]. unfold opssl_aead_set_key. by rewrite key_len_negb, Hk. Qed.

Lemma rekeyed_ok ctx key : ctx_ok ctx -> key_ok key -> ctx_ok (rekeyed ctx key).
Proof.
  intros Hc [Hk Hb]. pose proof (aead_set_key_ok ctx key Hc Hb) as H. rewrite Hk in H. destruct H as (c' & E & Hc' & _).
  rewrite set_key_rekeyed in E by done. by injection E as <-.
Qed.

(** A direction whose keys can be updated. *)
Record updatable (c : conn) (ci : option opssl_aead_ctx) (ctx : opssl_aead_ctx) (secret key iv : list Z) (klen : nat) : Prop := {
  up_cipher : ci = Some ctx;
  up_hash : c_hash_algo c = OPSSL_HMAC_SHA1 -> False;
  up_secret : length secret = 48%nat;
  up_secret_len : (0 < c_secret_len c <= 48)%nat;
  up_key : length key = 32%nat;
  up_key_len : klen = 16%nat \/ klen = 32%nat
}.

Lemma traffic_key_ok a s n : n = 16%nat \/ n = 32%nat -> key_ok (traffic_key a s n).
Proof. intros H. split; [apply key_len_spec; unfold traffic_key, HKDF_Expand_Label; by rewrite HKDF_Expand_length | apply expand_label_bytes]. Qed.

Lemma next_traffic_length a s : length (next_traffic a s) = length s.
Proof. apply HKDF_Expand_length. Qed.

(** The connection after either side's update. *)
Definition new_write (c : conn) (ctx : opssl_aead_ctx) : conn :=
  let s := next_traffic (c_hash_algo c) (write_secret c) in
  let k := traffic_key (c_hash_algo c) s (c_write_key_len c) in
  let c := set_our_secret (splice (our_secret c) 0 s) c in
  set_write_cipher (Some (rekeyed ctx k)) (set_write_iv (traffic_iv (c_hash_algo c) s) (set_write_key (splice (c_write_key c) 0 k) (set_write_seq 0 c))).

Definition new_read (c : conn) (ctx : opssl_aead_ctx) : conn :=
  let s := next_traffic (c_hash_algo c) (read_secret c) in
  let k := traffic_key (c_hash_algo c) s (c_read_key_len c) in
  let c := set_read_cipher (Some (rekeyed ctx k)) (set_peer_secret (splice (peer_secret c) 0 s) c) in
  set_read_iv (traffic_iv (c_hash_algo c) s) (set_read_key (splice (c_read_key c) 0 k) (set_read_seq 0 c)).

(** The states of the new connections. *)
Lemma new_write_state c ctx : let s := next_traffic (c_hash_algo c) (write_secret c) in
  wr_state (new_write c ctx) = mk_rec (Some (rekeyed ctx (traffic_key (c_hash_algo c) s (c_write_key_len c)))) (traffic_iv (c_hash_algo c) s) 0 (c_is_tls13 c).
Proof. unfold new_write, set_our_secret. by destruct (c_dir c =? OPSSL_SERVER). Qed.

Lemma new_read_state c ctx : let s := next_traffic (c_hash_algo c) (read_secret c) in
  rd_state (new_read c ctx) = mk_rec (Some (rekeyed ctx (traffic_key (c_hash_algo c) s (c_read_key_len c)))) (traffic_iv (c_hash_algo c) s) 0 (c_is_tls13 c).
Proof. unfold new_read, set_peer_secret. by destruct (c_dir c =? OPSSL_SERVER). Qed.

Lemma new_write_secret c ctx : length (our_secret c) = 48%nat -> (c_secret_len c <= 48)%nat ->
  write_secret (new_write c ctx) = next_traffic (c_hash_algo c) (write_secret c).
Proof.
  intros Hl Hn. set (s := next_traffic _ _). assert (length s = c_secret_len c) as Hs by (unfold s; rewrite next_traffic_length; unfold write_secret; rewrite length_take; lia).
  transitivity (take (c_secret_len c) (splice (our_secret c) 0 s)); [| rewrite splice_0, <- Hs; apply take_app_length].
  unfold write_secret, new_write, our_secret, set_our_secret. fold s. by destruct (c_dir c =? OPSSL_SERVER) eqn:E; cbn; rewrite E.
Qed.

Lemma new_read_secret c ctx : length (peer_secret c) = 48%nat -> (c_secret_len c <= 48)%nat ->
  read_secret (new_read c ctx) = next_traffic (c_hash_algo c) (read_secret c).
Proof.
  intros Hl Hn. set (s := next_traffic _ _). assert (length s = c_secret_len c) as Hs by (unfold s; rewrite next_traffic_length; unfold read_secret; rewrite length_take; lia).
  transitivity (take (c_secret_len c) (splice (peer_secret c) 0 s)); [| rewrite splice_0, <- Hs; apply take_app_length].
  unfold read_secret, new_read, peer_secret, set_peer_secret. fold s. by destruct (c_dir c =? OPSSL_SERVER) eqn:E; cbn; rewrite E.
Qed.
(** And they can be updated again. *)
Lemma new_write_updatable c ctx : updatable c (c_write_cipher c) ctx (our_secret c) (c_write_key c) (c_write_iv c) (c_write_key_len c) ->
  let s := next_traffic (c_hash_algo c) (write_secret c) in let k := traffic_key (c_hash_algo c) s (c_write_key_len c) in let c' := new_write c ctx in
  updatable c' (c_write_cipher c') (rekeyed ctx k) (our_secret c') (c_write_key c') (c_write_iv c') (c_write_key_len c').
Proof.
  intros [Hc Hh Hs Hsl Hk Hkl] s k. assert (length s = c_secret_len c) as Hls by (unfold s; rewrite next_traffic_length; unfold write_secret; rewrite length_take; lia).
  assert (length k = c_write_key_len c) as Hlk by apply HKDF_Expand_length.
  assert (length (splice (our_secret c) 0 s) = 48)%nat as H1 by (rewrite splice_length; lia). assert (length (splice (c_write_key c) 0 k) = 32)%nat as H2 by (rewrite splice_length; lia).
  cbv zeta. unfold new_write, set_our_secret, our_secret in *. fold s k. destruct (c_dir c =? OPSSL_SERVER) eqn:E; split;
    cbn [c_dir c_write_cipher c_hash_algo c_secret_len c_write_key c_write_key_len c_server_traffic_secret c_client_traffic_secret set_write_cipher set_write_iv set_write_key set_write_seq set_server_traffic_secret set_client_traffic_secret];
    rewrite ?E; first [reflexivity | assumption].
Qed.

Lemma new_read_updatable c ctx : updatable c (c_read_cipher c) ctx (peer_secret c) (c_read_key c) (c_read_iv c) (c_read_key_len c) ->
  let s := next_traffic (c_hash_algo c) (read_secret c) in let k := traffic_key (c_hash_algo c) s (c_read_key_len c) in let c' := new_read c ctx in
  updatable c' (c_read_cipher c') (rekeyed ctx k) (peer_secret c') (c_read_key c') (c_read_iv c') (c_read_key_len c').
Proof.
  intros [Hc Hh Hs Hsl Hk Hkl] s k. assert (length s = c_secret_len c) as Hls by (unfold s; rewrite next_traffic_length; unfold read_secret; rewrite length_take; lia).
  assert (length k = c_read_key_len c) as Hlk by apply HKDF_Expand_length.
  assert (length (splice (peer_secret c) 0 s) = 48)%nat as H1 by (rewrite splice_length; lia). assert (length (splice (c_read_key c) 0 k) = 32)%nat as H2 by (rewrite splice_length; lia).
  cbv zeta. unfold new_read, set_peer_secret, peer_secret in *. fold s k. destruct (c_dir c =? OPSSL_SERVER) eqn:E; split;
    cbn [c_dir c_read_cipher c_hash_algo c_secret_len c_read_key c_read_key_len c_server_traffic_secret c_client_traffic_secret set_read_cipher set_read_iv set_read_key set_read_seq set_server_traffic_secret set_client_traffic_secret];
    rewrite ?E; first [reflexivity | assumption].
Qed.

Section Update.
Context {C : Cpu} {SP : SimdSpec cpu_simd} {X : Avx2} {I : AesInstr} {J : Clmul}.
Context (hfuel : nat) (hjunk : list Z) (Hfuel : (254 <= hfuel)%nat) (Hjunk : length hjunk = 512%nat).

Lemma conn_expand_label_ok n max secret label a w : (a = OPSSL_HMAC_SHA1 -> False) -> (n <= max)%nat -> (max <= 48)%nat -> (length secret <= 48)%nat -> (length label <= 12)%nat ->
  expand_label hfuel hjunk n max secret label [] a w = Some (Some (HKDF_Expand_Label a secret label [] n), w).
Proof.
  intros Ha Hn Hm Hs Hl. unfold expand_label. rewrite (proj2 (Nat.ltb_ge _ _)) by lia. unfold opssl_tls13_hkdf_expand_label.
  pose proof (digest_pos a). rewrite expand_short; rewrite ?length_replicate; try done; try lia; unfold size_ok, SIZE_MAX; cbn; lia.
Qed.

Lemma apply_write_ok c t ctx : updatable c (c_write_cipher c) ctx (our_secret c) (c_write_key c) (c_write_iv c) (c_write_key_len c) ->
  apply_tls13_write_key_update hfuel hjunk (c, t) = Some (OPSSL_OK, (new_write c ctx, t)).
Proof.
  intros [Hc Hh Hs Hsl Hk Hkl]. unfold apply_tls13_write_key_update, bind at 1, getc. cbn [fst]. rewrite (proj2 (Nat.eqb_neq (c_secret_len c) 0)), (proj2 (Nat.eqb_neq (c_write_key_len c) 0)) by lia.
  rewrite Hc, bool_decide_eq_false_2 by done. cbn [orb]. cbv zeta. unfold bind at 1.
  rewrite conn_expand_label_ok by (done || rewrite ?length_take; cbn; lia). set (s := HKDF_Expand_Label _ _ _ _ _).
  assert (s = next_traffic (c_hash_algo c) (write_secret c)) as Es by (unfold s, next_traffic, write_secret; by rewrite length_take, Nat.min_l by lia).
  assert (length s = c_secret_len c) as Hls by apply HKDF_Expand_length.
  unfold bind at 1, modc at 1. cbn [fst snd]. unfold bind at 1. rewrite conn_expand_label_ok by (done || cbn; lia).
  unfold bind at 1. rewrite conn_expand_label_ok by (done || cbn; lia). change (HKDF_Expand_Label (c_hash_algo c) s TLS13_LABEL_KEY [] (c_write_key_len c)) with (traffic_key (c_hash_algo c) s (c_write_key_len c)).
  rewrite set_key_rekeyed by by apply traffic_key_ok. change (negb (1 =? 1)) with false. cbv iota. unfold bind, modc, ret. cbn [fst snd]. unfold new_write. rewrite Es. cbv zeta. do 3 f_equal.
  unfold set_our_secret. by destruct (c_dir c =? OPSSL_SERVER).
Qed.

Lemma received_ok c t ctx fuel junk calloc_ok : updatable c (c_read_cipher c) ctx (peer_secret c) (c_read_key c) (c_read_iv c) (c_read_key_len c) ->
  key_update_received fuel junk calloc_ok hfuel hjunk [0] (c, t) = Some (OPSSL_OK, (new_read c ctx, t)).
Proof.
  intros [Hc Hh Hs Hsl Hk Hkl]. unfold key_update_received, bind at 1, getc. cbn [fst]. rewrite (proj2 (Nat.eqb_neq (c_secret_len c) 0)), (proj2 (Nat.eqb_neq (c_read_key_len c) 0)) by lia.
  rewrite Hc, bool_decide_eq_false_2 by done. rewrite !orb_false_r. change (negb (length [0%Z] =? 1)%nat) with false. cbv iota zeta. unfold bind at 1.
  rewrite conn_expand_label_ok by (done || rewrite ?length_take; cbn; lia). set (s := HKDF_Expand_Label _ _ _ _ _).
  assert (s = next_traffic (c_hash_algo c) (read_secret c)) as Es by (unfold s, next_traffic, read_secret; by rewrite length_take, Nat.min_l by lia).
  assert (length s = c_secret_len c) as Hls by apply HKDF_Expand_length.
  unfold bind at 1. rewrite conn_expand_label_ok by (done || cbn; lia).
  unfold bind at 1. rewrite conn_expand_label_ok by (done || cbn; lia). change (HKDF_Expand_Label (c_hash_algo c) s TLS13_LABEL_KEY [] (c_read_key_len c)) with (traffic_key (c_hash_algo c) s (c_read_key_len c)).
  rewrite set_key_rekeyed by by apply traffic_key_ok. change (negb (1 =? 1)) with false. cbv iota. unfold bind, modc, ret. cbn [fst snd]. change ([0].[0] =? 1) with false. cbv iota. unfold new_read. rewrite Es. cbv zeta. do 3 f_equal.
  unfold set_peer_secret. by destruct (c_dir c =? OPSSL_SERVER).
Qed.

End Update.

(** A direction of a connection, in both of its ends: the same secret and context. *)
Record mirrored (w r : conn) (ctx : opssl_aead_ctx) : Prop := {
  mi_write : updatable w (c_write_cipher w) ctx (our_secret w) (c_write_key w) (c_write_iv w) (c_write_key_len w);
  mi_read : updatable r (c_read_cipher r) ctx (peer_secret r) (c_read_key r) (c_read_iv r) (c_read_key_len r);
  mi_hash : c_hash_algo w = c_hash_algo r;
  mi_secret : write_secret w = read_secret r;
  mi_key_len : c_write_key_len w = c_read_key_len r;
  mi_tls13 : c_is_tls13 w = true /\ c_is_tls13 r = true
}.

Lemma rekeyed_scheme ctx key n m : key_ok key -> sc_fits (scheme_of ctx) n m = true ->
  sc_tag_len (scheme_of (rekeyed ctx key)) = sc_tag_len (scheme_of ctx) /\ sc_fits (scheme_of (rekeyed ctx key)) n m = true.
Proof.
  intros [Hk _] Hf. assert (ctx_key (rekeyed ctx key) = key) as Ek by (unfold ctx_key, rekeyed; cbn [ac_key ac_key_len]; rewrite splice_0; apply take_app_length).
  unfold sc_fits in *. rewrite !andb_true_iff in *. destruct Hf as [[_ H1] H2]. unfold scheme_of in *. cbn [ac_algo rekeyed] in *.
  destruct (ac_algo ctx); rewrite ?Ek; (split; [reflexivity |]); (split; [split |]); first [assumption | reflexivity].
Qed.

Section Link.
Context {C : Cpu} {I : AesInstr}.
Context (fuel : nat) (junk : poly1305_state_t) (calloc_ok : bool).

(** New keys for a connection that is not in the middle of anything. *)
Lemma sends_rekeyed c c' ctx key iv : sends fuel junk calloc_ok c ctx -> key_ok key -> length iv = 12%nat -> bytes iv ->
  wr_state c' = mk_rec (Some (rekeyed ctx key)) iv 0 (c_is_tls13 c) ->
  (c_write_encrypted c', c_cipher c', c_write_buf c', c_write_len c', c_write_off c') = (c_write_encrypted c, c_cipher c, c_write_buf c, c_write_len c, c_write_off c) ->
  (c_hs_state c', c_shutdown_sent c', c_key_update_apply_after_flush c') = (c_hs_state c, c_shutdown_sent c, c_key_update_apply_after_flush c) ->
  sends fuel junk calloc_ok c' (rekeyed ctx key).
Proof.
  intros [[? Hctx ? ? ? ? ?] ? Ht ? Hf ? ? ? ? ?] Hk Hl Hb Ew [= D1 D2 E1 E2 E3] [= E4 E5 E6]. destruct (rekeyed_scheme ctx key _ _ Hk Hf) as [Ht' Hf'].
  split; rewrite ?Ew, ?D1, ?D2, ?E1, ?E2, ?E3, ?E4, ?E5, ?E6; [split; cbn [Record.cipher Record.iv seq]; first [assumption | reflexivity | by apply rekeyed_ok | unfold UINT64_MAX; lia] |..]; first [assumption | by rewrite Ht'].
Qed.

Lemma receives_rekeyed c c' ctx key iv : receives fuel junk calloc_ok c ctx -> key_ok key -> length iv = 12%nat -> bytes iv ->
  rd_state c' = mk_rec (Some (rekeyed ctx key)) iv 0 (c_is_tls13 c) ->
  (c_read_encrypted c', c_cipher c', c_read_buf c', c_read_len c') = (c_read_encrypted c, c_cipher c, c_read_buf c, c_read_len c) ->
  (c_hs_state c', c_app_buf c', c_app_len c', c_app_off c') = (c_hs_state c, c_app_buf c, c_app_len c, c_app_off c) ->
  receives fuel junk calloc_ok c' (rekeyed ctx key).
Proof.
  intros [[? Hctx ? ? ? ? ?] ? Ht ? Hf [? ? ?] ? ? ? ?] Hk Hl Hb Ew [= D1 D2 E1 E2] [= E4 E5 E6 E7]. destruct (rekeyed_scheme ctx key _ _ Hk Hf) as [Ht' Hf'].
  split; rewrite ?Ew, ?D1, ?D2, ?E4, ?E5, ?E6, ?E7; [split; cbn [Record.cipher Record.iv seq]; first [assumption | reflexivity | by apply rekeyed_ok | unfold UINT64_MAX; lia] |..];
    first [assumption | by rewrite Ht' | split; rewrite ?E1, ?E2; assumption].
Qed.
End Link.

(** C9: a key update at a moment when nothing is in flight: both calls succeed, both
    ends hold the traffic secret of the next generation, keys and IVs are those of
    RFC 8446 section 7.2 with the sequence numbers back at zero, and the pair can
    carry data, and be updated, again. *)
Theorem key_update_mirrors {C : Cpu} (SP : SimdSpec cpu_simd) {X : Avx2} {I : AesInstr} {J : Clmul} fuel junk calloc_ok hfuel hjunk ctx s :
  (254 <= hfuel)%nat -> length hjunk = 512%nat -> linked fuel junk calloc_ok ctx s [] -> mirrored (w_conn s) (r_conn s) ctx ->
  let a := c_hash_algo (w_conn s) in let secret := next_traffic a (write_secret (w_conn s)) in
  exists w' r', apply_tls13_write_key_update hfuel hjunk (w_conn s, w_io s) = Some (OPSSL_OK, (w', w_io s)) /\
    key_update_received fuel junk calloc_ok hfuel hjunk [0] (r_conn s, r_io s) = Some (OPSSL_OK, (r', r_io s)) /\
    write_secret w' = secret /\ read_secret r' = secret /\
    let ctx' := rekeyed ctx (traffic_key a secret (c_write_key_len (w_conn s))) in
    wr_state w' = mk_rec (Some ctx') (traffic_iv a secret) 0 true /\ rd_state r' = wr_state w' /\
    linked fuel junk calloc_ok ctx' (mk_chan w' (w_io s) r' (r_io s) (w_bytes s) (r_bytes s)) [] /\ mirrored w' r' ctx'.
Proof.
  intros Hhf Hhj Hl Hm a secret. destruct s as [wc wt rc rt W R]. cbn [w_conn w_io r_conn r_io w_bytes r_bytes] in *.
  destruct Hm as [Hw Hr Hh Hs Hk [H13 H13']]. exists (new_write wc ctx), (new_read rc ctx).
  pose proof (apply_write_ok hfuel hjunk Hhf Hhj wc wt ctx Hw) as Ew. pose proof (received_ok hfuel hjunk Hhf Hhj rc rt ctx fuel junk calloc_ok Hr) as Er.
  split; [exact Ew |]. split; [exact Er |].
  pose proof (new_write_secret wc ctx (up_secret _ _ _ _ _ _ _ Hw) (proj2 (up_secret_len _ _ _ _ _ _ _ Hw))) as Sw.
  pose proof (new_read_secret rc ctx (up_secret _ _ _ _ _ _ _ Hr) (proj2 (up_secret_len _ _ _ _ _ _ _ Hr))) as Sr.
  pose proof (new_write_state wc ctx) as Tw. pose proof (new_read_state rc ctx) as Tr. cbv zeta in Tw, Tr.
  rewrite <- Hs, <- Hh in Sr, Tr. rewrite <- Hk in Tr. fold a in Sw, Sr, Tw, Tr. fold secret in Sw, Sr, Tw, Tr. rewrite H13 in Tw. rewrite H13' in Tr.
  split; [exact Sw |]. split; [exact Sr |]. cbv zeta. split; [exact Tw |]. split; [by rewrite Tw, Tr |].
  assert (key_ok (traffic_key a secret (c_write_key_len wc))) as Hko by (apply traffic_key_ok; apply Hw).
  assert (length (traffic_iv a secret) = 12%nat /\ bytes (traffic_iv a secret)) as [Hiv Hivb] by (split; [apply HKDF_Expand_length | apply expand_label_bytes]).
  assert (c_hash_algo (new_write wc ctx) = a /\ c_hash_algo (new_read rc ctx) = a) as [Ha1 Ha2].
  { split; [| transitivity (c_hash_algo rc); [| symmetry; exact Hh]]; unfold new_write, new_read, set_our_secret, set_peer_secret; destruct (_ =? _); reflexivity. }
  split.
  - destruct Hl as [Hsn Htx [Hrc Hrx Hds Hst Hp Hq] Hsame Hby]. cbn [w_conn w_io r_conn r_io w_bytes r_bytes] in *.
    split; cbn [w_conn w_io r_conn r_io w_bytes r_bytes].
    + eapply sends_rekeyed; [exact Hsn | exact Hko | exact Hiv | exact Hivb | by rewrite Tw, H13 |..]; unfold new_write, set_our_secret; destruct (_ =? _); reflexivity.
    + exact Htx.
    + assert (incoming (new_read rc ctx) rt = incoming rc rt) as Ei by (unfold new_read, set_peer_secret; destruct (_ =? _); reflexivity).
      assert (out (new_write wc ctx) wt = out wc wt) as Eo by (unfold new_write, set_our_secret; destruct (_ =? _); reflexivity).
      split; [| exact Hrx | exact Hds | by rewrite Ei, Eo | done |].
      * eapply receives_rekeyed; [exact Hrc | exact Hko | exact Hiv | exact Hivb | by rewrite Tr, H13' |..]; unfold new_read, set_peer_secret; destruct (_ =? _); reflexivity.
      * change (c_read_seq (new_read rc ctx)) with (seq (rd_state (new_read rc ctx))). rewrite Tr. cbn. unfold UINT64_MAX. lia.
    + change (c_read_seq (new_read rc ctx)) with (seq (rd_state (new_read rc ctx))). by rewrite Tw, Tr.
    + rewrite Hby. f_equal. unfold queue, new_read, set_peer_secret. destruct (_ =? _); reflexivity.
  - split.
    + apply (new_write_updatable wc ctx Hw).
    + pose proof (new_read_updatable rc ctx Hr) as U. cbv zeta in U. rewrite <- Hs, <- Hh, <- Hk in U. exact U.
    + by rewrite Ha1, Ha2.
    + by rewrite Sw, Sr.
    + unfold new_write, new_read, set_our_secret, set_peer_secret. destruct (c_dir wc =? _), (c_dir rc =? _); exact Hk.
    + unfold new_write, new_read, set_our_secret, set_peer_secret. destruct (c_dir wc =? _), (c_dir rc =? _); split; assumption.
Qed.

(* ------------------------------------------------------------------ *)
(** * Witness *)

#[local] Existing Instance plain_cpu.
#[local] Existing Instance avx2_model.
#[local] Existing Instance aes_instr_model.
#[local] Existing Instance clmul_model.

(** The secrets a handshake would have left. *)
Definition with_secrets (dir : Z) (c : conn) : conn :=
  set_dir dir (set_is_tls13 true (set_secret_len 32 (set_client_traffic_secret (replicate 48 8) (set_server_traffic_secret (replicate 48 9)
    (set_write_key_len 32 (set_read_key_len 32 (set_write_key (replicate 32 0) (set_read_key (replicate 32 0) (set_hash_algo OPSSL_HMAC_SHA256 c))))))))).

Lemma with_secrets_linked c s ctx : c_is_tls13 c = true -> c_is_tls13 s = true -> linked demo_fuel poly1305_zero true ctx (mk_chan c quiet s quiet [] []) [] ->
  linked demo_fuel poly1305_zero true ctx (mk_chan (with_secrets OPSSL_CLIENT c) quiet (with_secrets OPSSL_SERVER s) quiet [] []) [] /\
  mirrored (with_secrets OPSSL_CLIENT c) (with_secrets OPSSL_SERVER s) ctx.
Proof.
  intros Hc Hs [[Ho1 ? ? ? ? ? ? ? ? ?] Htx [[Ho2 ? ? ? ? [? ? ?] ? ? ? ?] Hrx Hds Hst Hp Hq] Hsame Hby].
  cbn [w_conn w_io r_conn r_io w_bytes r_bytes] in *. unfold wr_state in Ho1, Hsame. unfold rd_state in Ho2, Hsame, Hst. rewrite Hc in *. rewrite Hs in *.
  split; [split; cbn [w_conn w_io r_conn r_io w_bytes r_bytes] |].
  - split; assumption.
  - exact Htx.
  - split; try assumption. split; try assumption. by split.
  - exact Hsame.
  - exact Hby.
  - split; try reflexivity; [| | by split].
    + split; [exact (ro_cipher _ _ _ _ Ho1) | discriminate | reflexivity | cbn; lia | reflexivity | by right].
    + split; [exact (ro_cipher _ _ _ _ Ho2) | discriminate | reflexivity | cbn; lia | reflexivity | by right].
Qed.

Lemma key_update_mirrors_witness : exists c s ctx w' r', c_write_cipher c = Some ctx /\
  apply_tls13_write_key_update 254 (replicate 512 0) (c, quiet) = Some (OPSSL_OK, (w', quiet)) /\
  key_update_received demo_fuel poly1305_zero true 254 (replicate 512 0) [0] (s, quiet) = Some (OPSSL_OK, (r', quiet)) /\ rd_state r' = wr_state w'.
Proof.
  destruct demo_linked as [ctx Hl].
  destruct (with_secrets_linked (demo_conn OPSSL_CLIENT) (demo_conn OPSSL_SERVER) ctx ltac:(vm_compute; reflexivity) ltac:(vm_compute; reflexivity) Hl) as [Hl' Hm].
  destruct (@key_update_mirrors plain_cpu simd_model_spec avx2_model aes_instr_model clmul_model demo_fuel poly1305_zero true 254 (replicate 512 0) ctx _ ltac:(lia) eq_refl Hl' Hm) as (w' & r' & Ew & Er & _ & _ & _ & Es & _).
  eexists _, _, ctx, w', r'. split; [exact (up_cipher _ _ _ _ _ _ _ (mi_write _ _ _ Hm)) |]. split; [exact Ew |]. split; [exact Er | exact Es].
Defined.
