(* ===== verification/Session.v ===== *)
(** Resumption sessions: [struct opssl_session] of src/tls/handshake.c, taking one
    from a connection and giving it to another, and its encoding as bytes.

    [None] is undefined behaviour: a read or a copy outside an array or outside the
    caller's bytes.  [junk] is the memory [malloc] returns; [now] is the clock. *)
From S2P Require Import Prelude Types Platform Hmac Aead Record Conn.
#[local] Open Scope Z_scope.

Record opssl_session := mk_session {
  ss_version : Z; ss_cipher : Z; ss_psk : list Z; ss_psk_len : nat; ss_ticket : list Z; ss_ticket_len : nat;
  ss_lifetime : Z; ss_age_add : Z; ss_created_at : Z
}.

Definition PSK_SIZE : nat := 48.
Definition TICKET_SIZE : nat := Z.to_nat 1024.

(** [memcpy(dst, src + o, n)] to the start of an array. *)
Definition copy_into (dst src : list Z) (o n : nat) : option (list Z) :=
  if (length dst <? n)%nat || (length src <? o + n)%nat then None else Some (splice dst 0 (sub_list o n src)).

Definition opssl_conn_get_session (malloc_ok : bool) (junk : opssl_session) (now : Z) (c : conn) : option (option opssl_session) :=
  if negb (c_has_ticket c) then Some None else
  if negb malloc_ok then Some None else
  psk ← copy_into (ss_psk junk) (c_ticket_psk c) 0 (c_ticket_psk_len c);
  ticket ← copy_into (ss_ticket junk) (c_session_ticket c) 0 (c_session_ticket_len c);
  Some (Some (mk_session (c_version c) (c_cipher c) psk (c_ticket_psk_len c) ticket (c_session_ticket_len c) (c_ticket_lifetime c) (c_ticket_age_add c) (u64 now))).

Definition opssl_conn_set_session (c : conn) (sess : option opssl_session) : option (Z * conn) :=
  match sess with
  | None => Some (0, c)
  | Some s =>
    if (ss_ticket_len s =? 0)%nat then Some (0, c) else
    if (PSK_SIZE <? ss_psk_len s)%nat then Some (0, c) else
    if (TICKET_SIZE <? ss_ticket_len s)%nat then Some (0, c) else
    psk ← copy_into (c_ticket_psk c) (ss_psk s) 0 (ss_psk_len s);
    ticket ← copy_into (c_session_ticket c) (ss_ticket s) 0 (ss_ticket_len s);
    Some (1, set_has_ticket true (set_ticket_age_add (ss_age_add s) (set_ticket_lifetime (ss_lifetime s)
      (set_session_ticket_len (ss_ticket_len s) (set_session_ticket ticket (set_ticket_psk_len (ss_psk_len s) (set_ticket_psk psk c)))))))
  end.

(** [(p[0] << 8) | p[1]], and the four bytes of a [uint32_t]. *)
Definition rd16 (data : list Z) (p : nat) : option Z :=
  a ← data !! p; b ← data !! (p + 1)%nat; Some (Z.lor (Z.shiftl a 8) b).
Definition rd32 (data : list Z) (p : nat) : option Z :=
  a ← data !! p; b ← data !! (p + 1)%nat; c ← data !! (p + 2)%nat; d ← data !! (p + 3)%nat;
  Some (Z.lor (Z.lor (Z.lor (Z.shiftl a 24) (Z.shiftl b 16)) (Z.shiftl c 8)) d).

(** [for (i = 0; i < n; i++) x = (x << 8) | p[i]] *)
Fixpoint rd_be (data : list Z) (p n : nat) (x : Z) : option Z :=
  match n with
  | O => Some x
  | S n => b ← data !! p; rd_be data (p + 1) n (Z.lor (u64 (Z.shiftl x 8)) b)
  end.

Definition opssl_session_from_bytes (malloc_ok : bool) (junk : opssl_session) (data : list Z) : option (option opssl_session) :=
  let len := length data in
  if (len <? 12)%nat then Some None else
  if negb malloc_ok then Some None else
  version ← rd16 data 0;
  cipher ← rd16 data 2;
  psk_len ← rd16 data 4;
  if (48 <? psk_len) || (len <? 6 + off psk_len)%nat then Some None else
  psk ← copy_into (ss_psk junk) data 6 (off psk_len);
  let p := (6 + off psk_len)%nat in
  if (len <? p + 2)%nat then Some None else
  ticket_len ← rd16 data p;
  let p := (p + 2)%nat in
  if (1024 <? ticket_len) || (len <? p + off ticket_len)%nat then Some None else
  ticket ← copy_into (ss_ticket junk) data p (off ticket_len);
  let p := (p + off ticket_len)%nat in
  if (len <? p + 12)%nat then Some None else
  lifetime ← rd32 data p;
  age_add ← rd32 data (p + 4);
  created_at ← rd_be data (p + 8) 8 0;
  Some (Some (mk_session version cipher psk (off psk_len) ticket (off ticket_len) lifetime age_add created_at)).

(** The result, the buffer and [*out_len]. *)
Definition opssl_session_to_bytes (sess : option opssl_session) (out : option (list Z)) (out_len : option Z) : option (Z * option (list Z) * option Z) :=
  match sess, out_len with
  | Some s, Some cap =>
    let need := Z.of_nat (2 + 2 + 2 + ss_psk_len s + 2 + ss_ticket_len s + 4 + 4 + 8) in
    match out with
    | None => Some (1, None, Some need)
    | Some buf =>
      if cap <? need then Some (0, out, out_len) else
      if (length (ss_psk s) <? ss_psk_len s)%nat || (length (ss_ticket s) <? ss_ticket_len s)%nat || (Z.of_nat (length buf) <? need) then None else
      let b (x : Z) (i : Z) := u8 (Z.shiftr x (8 * i)) in
      let bytes :=
        [b (ss_version s) 1; b (ss_version s) 0; b (ss_cipher s) 1; b (ss_cipher s) 0; b (Z.of_nat (ss_psk_len s)) 1; b (Z.of_nat (ss_psk_len s)) 0] ++
        take (ss_psk_len s) (ss_psk s) ++ [b (Z.of_nat (ss_ticket_len s)) 1; b (Z.of_nat (ss_ticket_len s)) 0] ++ take (ss_ticket_len s) (ss_ticket s) ++
        [b (ss_lifetime s) 3; b (ss_lifetime s) 2; b (ss_lifetime s) 1; b (ss_lifetime s) 0] ++
        [b (ss_age_add s) 3; b (ss_age_add s) 2; b (ss_age_add s) 1; b (ss_age_add s) 0] ++
        map (fun i => b (ss_created_at s) (7 - Z.of_nat i)) (List.seq 0 8) in
      Some (1, Some (splice buf 0 bytes), Some need)
    end
  | _, _ => Some (0, out, out_len)
  end.

Definition opssl_session_get_lifetime (sess : option opssl_session) : Z := match sess with Some s => ss_lifetime s | None => 0 end.

Definition opssl_session_is_resumable (now : Z) (sess : option opssl_session) : bool :=
  match sess with
  | None => false
  | Some s =>
    if (ss_ticket_len s =? 0)%nat || (ss_psk_len s =? 0)%nat then false
    else negb ((0 <? ss_created_at s) && (u64 (ss_created_at s + ss_lifetime s) <? u64 now))
  end.

(* ------------------------------------------------------------------ *)
(** * Reading what was written *)

Lemma lookup_at (l1 l2 : list Z) i : (l1 ++ l2) !! (length l1 + i)%nat = l2 !! i.
Proof. rewrite lookup_app_r by lia. f_equal. lia. Qed.

Lemma be_val_2 a b : be_val [a; b] = a * 256 + b.
Proof. unfold be_val. cbn [fold_left]. lia. Qed.

Lemma be_val_4 a b c d : be_val [a; b; c; d] = ((a * 256 + b) * 256 + c) * 256 + d.
Proof. unfold be_val. cbn [fold_left]. lia. Qed.

Lemma rd16_at l1 v l2 : 0 <= v < 65536 -> rd16 (l1 ++ be_bytes 2 v ++ l2) (length l1) = Some v.
Proof.
  intros Hv. unfold rd16. pose proof (be_bytes_val 2 v Hv) as E. pose proof (be_bytes_ok 2 v) as B. pose proof (be_bytes_length 2 v) as L.
  destruct (be_bytes 2 v) as [| a [| b [|]]]; try done. rewrite be_val_2 in E. rewrite !bytes_cons in B. destruct B as (B1 & B2 & _).
  rewrite <- (Nat.add_0_r (length l1)) at 1. rewrite !lookup_at. cbn. rewrite lor_shiftl by (unfold byte_ok in *; lia). f_equal. lia.
Qed.

Lemma rd32_at l1 v l2 : 0 <= v < 2 ^ 32 -> rd32 (l1 ++ be_bytes 4 v ++ l2) (length l1) = Some v.
Proof.
  intros Hv. unfold rd32. pose proof (be_bytes_val 4 v Hv) as E. pose proof (be_bytes_ok 4 v) as B. pose proof (be_bytes_length 4 v) as L.
  destruct (be_bytes 4 v) as [| a [| b [| c [| d [|]]]]]; try done.
  rewrite <- (Nat.add_0_r (length l1)) at 1. rewrite !lookup_at. cbn [app lookup list_lookup mbind option_bind]. f_equal.
  change (opssl_be32 [a; b; c; d] = v). by rewrite be32_val.
Qed.

Lemma rd_be_spec n data p x : bytes data -> (p + n <= length data)%nat -> 0 <= x -> x * 256 ^ Z.of_nat n + 256 ^ Z.of_nat n <= 2 ^ 64 ->
  rd_be data p n x = Some (x * 256 ^ Z.of_nat n + be_val (sub_list p n data)).
Proof.
  revert p x. induction n as [| n IH]; intros p x Hb Hp Hx Hm; cbn [rd_be]; [change (256 ^ Z.of_nat 0) with 1; unfold sub_list; rewrite take_0; change (be_val []) with 0; f_equal; lia |].
  destruct (lookup_lt_is_Some_2 data p ltac:(lia)) as [b E]. rewrite E. cbn [mbind option_bind].
  pose proof (proj1 (Forall_lookup _ _) Hb p b E) as Hbb. replace (256 ^ Z.of_nat (S n)) with (256 * 256 ^ Z.of_nat n) in * by (rewrite Nat2Z.inj_succ, Z.pow_succ_r by lia; done).
  assert (0 < 256 ^ Z.of_nat n) as Hpos by (apply Z.pow_pos_nonneg; lia). unfold byte_ok in Hbb.
  assert (u64 (Z.shiftl x 8) = x * 256) as Eu by (rewrite Z.shiftl_mul_pow2 by lia; apply u64_id; change (2 ^ 8) with 256; nia).
  rewrite Eu. replace (Z.lor (x * 256) b) with (x * 256 + b) by (change (x * 256) with (x * 2 ^ 8); rewrite <- lor_shiftl, Z.shiftl_mul_pow2 by lia; done).
  rewrite IH by (done || lia || nia). f_equal. unfold sub_list. rewrite (drop_S data b p E). replace (p + 1)%nat with (S p) by lia. cbn [take]. rewrite be_val_cons.
  rewrite length_take, length_drop, Nat.min_l by lia. lia.
Qed.

Lemma rd_be_at l1 n v l2 : bytes l1 -> bytes l2 -> (n <= 8)%nat -> 0 <= v < 256 ^ Z.of_nat n -> rd_be (l1 ++ be_bytes n v ++ l2) (length l1) n 0 = Some v.
Proof.
  intros B1 B2 Hn Hv. assert (256 ^ Z.of_nat n <= 256 ^ 8) as Hle by (apply Z.pow_le_mono_r; lia). change (256 ^ 8) with (2 ^ 64) in Hle.
  rewrite rd_be_spec; [| | rewrite !length_app, be_bytes_length; lia | lia | lia].
  - rewrite Z.mul_0_l. unfold sub_list. rewrite drop_app_length. rewrite take_app_length' by (by rewrite be_bytes_length). by rewrite be_bytes_val.
  - repeat (apply bytes_app; split); try done. apply be_bytes_ok.
Qed.

Lemma copy_at dst l1 x l2 : (length x <= length dst)%nat -> copy_into dst (l1 ++ x ++ l2) (length l1) (length x) = Some (splice dst 0 x).
Proof.
  intros Hl. unfold copy_into. rewrite !(proj2 (Nat.ltb_ge _ _)) by (rewrite ?length_app; lia). cbn [orb]. unfold sub_list. by rewrite drop_app_length, take_app_length.
Qed.

Lemma copy_ok dst src o n : (n <= length dst)%nat -> (o + n <= length src)%nat -> copy_into dst src o n = Some (splice dst 0 (sub_list o n src)).
Proof. intros H1 H2. unfold copy_into. by rewrite !(proj2 (Nat.ltb_ge _ _)) by lia. Qed.

(** The same for data and an offset given otherwise. *)
Lemma rd16_of data p l1 v l2 : data = l1 ++ be_bytes 2 v ++ l2 -> p = length l1 -> 0 <= v < 65536 -> rd16 data p = Some v.
Proof. intros -> -> H. by apply rd16_at. Qed.

Lemma rd32_of data p l1 v l2 : data = l1 ++ be_bytes 4 v ++ l2 -> p = length l1 -> 0 <= v < 2 ^ 32 -> rd32 data p = Some v.
Proof. intros -> -> H. by apply rd32_at. Qed.

Lemma rd64_of data p l1 v l2 : data = l1 ++ be_bytes 8 v ++ l2 -> p = length l1 -> bytes l1 -> bytes l2 -> 0 <= v < 2 ^ 64 -> rd_be data p 8 0 = Some v.
Proof. intros -> -> H1 H2 H. by apply rd_be_at. Qed.

Lemma copy_of dst data p n l1 x l2 : data = l1 ++ x ++ l2 -> p = length l1 -> n = length x -> (length x <= length dst)%nat -> copy_into dst data p n = Some (splice dst 0 x).
Proof. intros -> -> -> H. by apply copy_at. Qed.

(** What a session holds, without the parts of its arrays that are not used. *)
Definition session_key (s : opssl_session) : list Z := take (ss_psk_len s) (ss_psk s).
Definition session_ticket (s : opssl_session) : list Z := take (ss_ticket_len s) (ss_ticket s).

Record session_ok (s : opssl_session) : Prop := {
  so_arrays : length (ss_psk s) = PSK_SIZE /\ length (ss_ticket s) = TICKET_SIZE;
  so_lens : (ss_psk_len s <= PSK_SIZE)%nat /\ (ss_ticket_len s <= TICKET_SIZE)%nat;
  so_ids : 0 <= ss_version s < 65536 /\ 0 <= ss_cipher s < 65536;
  so_times : 0 <= ss_lifetime s < 2 ^ 32 /\ 0 <= ss_age_add s < 2 ^ 32 /\ 0 <= ss_created_at s < 2 ^ 64;
  so_bytes : bytes (ss_psk s) /\ bytes (ss_ticket s)
}.

(** The encoding. *)
Definition session_enc (s : opssl_session) : list Z :=
  be_bytes 2 (ss_version s) ++ be_bytes 2 (ss_cipher s) ++ be_bytes 2 (Z.of_nat (ss_psk_len s)) ++ session_key s ++
  be_bytes 2 (Z.of_nat (ss_ticket_len s)) ++ session_ticket s ++ be_bytes 4 (ss_lifetime s) ++ be_bytes 4 (ss_age_add s) ++ be_bytes 8 (ss_created_at s).

Definition session_need (s : opssl_session) : nat := (24 + ss_psk_len s + ss_ticket_len s)%nat.

Lemma session_enc_length s : session_ok s -> length (session_enc s) = session_need s.
Proof.
  intros [[Hp Ht] [Hp' Ht'] _ _ _]. unfold session_enc, session_key, session_ticket, session_need. rewrite !length_app, !be_bytes_length, !length_take. lia.
Qed.

Lemma to_bytes_ok s buf cap : session_ok s -> Z.of_nat (session_need s) <= cap -> (session_need s <= length buf)%nat ->
  opssl_session_to_bytes (Some s) (Some buf) (Some cap) = Some (1, Some (splice buf 0 (session_enc s)), Some (Z.of_nat (session_need s))).
Proof.
  intros [[Hp Ht] [Hp' Ht'] _ _ _] Hc Hb. unfold opssl_session_to_bytes. replace (2 + 2 + 2 + ss_psk_len s + 2 + ss_ticket_len s + 4 + 4 + 8)%nat with (session_need s) by (unfold session_need; lia).
  rewrite (proj2 (Z.ltb_ge _ _)), !(proj2 (Nat.ltb_ge _ _)), (proj2 (Z.ltb_ge _ _)) by lia. cbn [orb]. cbv zeta. do 4 f_equal.
Qed.

(** The encoding but its last eight bytes. *)
Definition session_head (s : opssl_session) : list Z :=
  be_bytes 2 (ss_version s) ++ be_bytes 2 (ss_cipher s) ++ be_bytes 2 (Z.of_nat (ss_psk_len s)) ++ session_key s ++
  be_bytes 2 (Z.of_nat (ss_ticket_len s)) ++ session_ticket s ++ be_bytes 4 (ss_lifetime s) ++ be_bytes 4 (ss_age_add s).

Lemma session_enc_head s : session_enc s = session_head s ++ be_bytes 8 (ss_created_at s).
Proof. unfold session_enc, session_head. by rewrite <- !app_assoc. Qed.

Lemma session_head_length s : session_ok s -> length (session_head s) = (session_need s - 8)%nat.
Proof. intros H. pose proof (session_enc_length s H) as L. rewrite session_enc_head, length_app, be_bytes_length in L. lia. Qed.

(** Reading the encoding back. *)
#[local] Ltac piece := unfold session_enc, session_head; rewrite <- ?app_assoc; reflexivity.
#[local] Ltac side := rewrite ?length_app; cbn [length]; (done || lia).

(** With the head and four bytes more, all that is left is the read of the age. *)
Lemma from_bytes_head s junk tail : session_ok s -> length (ss_psk junk) = PSK_SIZE -> length (ss_ticket junk) = TICKET_SIZE -> (4 <= length tail)%nat ->
  opssl_session_from_bytes true junk (session_head s ++ tail) =
    (created_at ← rd_be (session_head s ++ tail) (length (session_head s)) 8 0;
     Some (Some (mk_session (ss_version s) (ss_cipher s) (splice (ss_psk junk) 0 (session_key s)) (ss_psk_len s)
       (splice (ss_ticket junk) 0 (session_ticket s)) (ss_ticket_len s) (ss_lifetime s) (ss_age_add s) created_at))).
Proof.
  intros Hok Hj1 Hj2 Htl. pose proof (session_head_length s Hok) as Hle. destruct Hok as [[Hp Ht] [Hp' Ht'] [Hv Hci] (Hlt & Haa & Hca) [Hb1 Hb2]].
  unfold opssl_session_from_bytes. rewrite length_app, Hle. unfold session_need. rewrite (proj2 (Nat.ltb_ge _ _)) by lia. cbn [negb].
  unfold PSK_SIZE, TICKET_SIZE in *.
  assert (length (session_key s) = ss_psk_len s) as Hlk by (unfold session_key; rewrite length_take; lia).
  assert (length (session_ticket s) = ss_ticket_len s) as Hlt' by (unfold session_ticket; rewrite length_take; lia).
  set (l0 := be_bytes 2 (ss_version s)). set (l1 := be_bytes 2 (ss_cipher s)). set (l2 := be_bytes 2 (Z.of_nat (ss_psk_len s))).
  set (l3 := be_bytes 2 (Z.of_nat (ss_ticket_len s))). set (l4 := be_bytes 4 (ss_lifetime s)).
  assert (length l0 = 2 /\ length l1 = 2 /\ length l2 = 2 /\ length l3 = 2 /\ length l4 = 4)%nat as (L0 & L1 & L2 & L3 & L4) by (repeat split; apply be_bytes_length).
  erewrite (rd16_of _ 0 [] (ss_version s)); [| piece | side ..]. cbn [mbind option_bind].
  erewrite (rd16_of _ 2 l0 (ss_cipher s)); [| piece | side ..]. cbn [mbind option_bind].
  erewrite (rd16_of _ 4 (l0 ++ l1) (Z.of_nat (ss_psk_len s))); [| piece | side ..]. cbn [mbind option_bind].
  replace (off (Z.of_nat (ss_psk_len s))) with (ss_psk_len s) by (unfold off; lia).
  rewrite (proj2 (Z.ltb_ge _ _)), (proj2 (Nat.ltb_ge _ _)) by lia. cbn [orb].
  erewrite (copy_of _ _ 6 (ss_psk_len s) (l0 ++ l1 ++ l2) (session_key s)); [| piece | side ..]. cbn [mbind option_bind].
  rewrite (proj2 (Nat.ltb_ge _ _)) by lia.
  erewrite (rd16_of _ (6 + ss_psk_len s) (l0 ++ l1 ++ l2 ++ session_key s) (Z.of_nat (ss_ticket_len s))); [| piece | side ..]. cbn [mbind option_bind].
  replace (off (Z.of_nat (ss_ticket_len s))) with (ss_ticket_len s) by (unfold off; lia).
  rewrite (proj2 (Z.ltb_ge _ _)), (proj2 (Nat.ltb_ge _ _)) by lia. cbn [orb].
  erewrite (copy_of _ _ _ (ss_ticket_len s) (l0 ++ l1 ++ l2 ++ session_key s ++ l3) (session_ticket s)); [| piece | side ..]. cbn [mbind option_bind].
  rewrite (proj2 (Nat.ltb_ge _ _)) by lia.
  erewrite (rd32_of _ (6 + ss_psk_len s + 2 + ss_ticket_len s) (l0 ++ l1 ++ l2 ++ session_key s ++ l3 ++ session_ticket s) (ss_lifetime s)); [| piece | side ..]. cbn [mbind option_bind].
  erewrite (rd32_of _ _ (l0 ++ l1 ++ l2 ++ session_key s ++ l3 ++ session_ticket s ++ l4) (ss_age_add s)); [| piece | side ..]. cbn [mbind option_bind].
  replace (6 + ss_psk_len s + 2 + ss_ticket_len s + 8)%nat with (24 + ss_psk_len s + ss_ticket_len s - 8)%nat by lia. reflexivity.
Qed.

Lemma session_head_bytes s : session_ok s -> bytes (session_head s).
Proof.
  intros [_ _ _ _ [H1 H2]]. unfold session_head. repeat (apply bytes_app; split); try apply be_bytes_ok; by apply bytes_take.
Qed.

Lemma from_bytes_enc s junk : session_ok s -> length (ss_psk junk) = PSK_SIZE -> length (ss_ticket junk) = TICKET_SIZE ->
  opssl_session_from_bytes true junk (session_enc s) = Some (Some (mk_session (ss_version s) (ss_cipher s) (splice (ss_psk junk) 0 (session_key s)) (ss_psk_len s)
    (splice (ss_ticket junk) 0 (session_ticket s)) (ss_ticket_len s) (ss_lifetime s) (ss_age_add s) (ss_created_at s))).
Proof.
  intros Hok Hj1 Hj2. rewrite session_enc_head, from_bytes_head by (done || (rewrite ?be_bytes_length; lia)).
  rewrite (rd64_of _ _ (session_head s) (ss_created_at s) []); [done | by rewrite app_nil_r | done | by apply session_head_bytes | constructor | apply Hok].
Qed.

(** Data that start with an encoding but four bytes are not refused. *)
Lemma from_bytes_prefix s junk data : session_ok s -> length (ss_psk junk) = PSK_SIZE -> length (ss_ticket junk) = TICKET_SIZE ->
  take (session_need s - 4) data = take (session_need s - 4) (session_enc s) -> opssl_session_from_bytes true junk data <> Some None.
Proof.
  intros Hok Hj1 Hj2 Hp. pose proof (session_head_length s Hok) as Hl. assert (24 <= session_need s)%nat as Hn by (unfold session_need; lia).
  pose proof (f_equal length Hp) as Hlp. rewrite !length_take, session_enc_length in Hlp by done.
  assert (data = session_head s ++ drop (session_need s - 8) data) as ->.
  { rewrite <- (take_drop (session_need s - 8) data) at 1. f_equal.
    replace (session_need s - 8)%nat with (Nat.min (session_need s - 8) (session_need s - 4)) by lia.
    rewrite <- take_take, Hp, take_take, Nat.min_l, session_enc_head by lia. by apply take_app_length'. }
  rewrite from_bytes_head by (done || (rewrite length_drop; lia)). by destruct (rd_be _ _ _ _).
Qed.

(* ------------------------------------------------------------------ *)
(** * Any bytes at all *)

Lemma rd16_inv data p : bytes data -> (p + 2 <= length data)%nat -> exists v, rd16 data p = Some v /\ 0 <= v < 65536 /\ sub_list p 2 data = be_bytes 2 v.
Proof.
  intros Hb Hp. pose proof (sub_list_length p 2 data Hp) as L. pose proof (bytes_sub p 2 data Hb) as B. exists (be_val (sub_list p 2 data)).
  pose proof (be_val_range _ B) as R. rewrite L in R. change (256 ^ Z.of_nat 2) with 65536 in R. pose proof (be_val_bytes _ B) as E. rewrite L in E.
  split; [| split; [done | by rewrite E]]. eapply (rd16_of _ _ (take p data) _ (drop (p + 2) data)); [| rewrite length_take; lia | done].
  rewrite E. unfold sub_list. rewrite <- drop_drop, take_drop. symmetry. apply take_drop.
Qed.

Lemma rd32_inv data p : bytes data -> (p + 4 <= length data)%nat -> exists v, rd32 data p = Some v /\ 0 <= v < 2 ^ 32 /\ sub_list p 4 data = be_bytes 4 v.
Proof.
  intros Hb Hp. pose proof (sub_list_length p 4 data Hp) as L. pose proof (bytes_sub p 4 data Hb) as B. exists (be_val (sub_list p 4 data)).
  pose proof (be_val_range _ B) as R. rewrite L in R. change (256 ^ Z.of_nat 4) with (2 ^ 32) in R. pose proof (be_val_bytes _ B) as E. rewrite L in E.
  split; [| split; [done | by rewrite E]]. eapply (rd32_of _ _ (take p data) _ (drop (p + 4) data)); [| rewrite length_take; lia | done].
  rewrite E. unfold sub_list. rewrite <- drop_drop, take_drop. symmetry. apply take_drop.
Qed.

Lemma rd64_inv data p : bytes data -> (p + 8 <= length data)%nat -> exists v, rd_be data p 8 0 = Some v /\ 0 <= v < 2 ^ 64 /\ sub_list p 8 data = be_bytes 8 v.
Proof.
  intros Hb Hp. pose proof (sub_list_length p 8 data Hp) as L. pose proof (bytes_sub p 8 data Hb) as B. exists (be_val (sub_list p 8 data)).
  pose proof (be_val_range _ B) as R. rewrite L in R. change (256 ^ Z.of_nat 8) with (2 ^ 64) in R. pose proof (be_val_bytes _ B) as E. rewrite L in E.
  split; [| split; [done | by rewrite E]]. rewrite rd_be_spec; [| done | done | lia | reflexivity || (cbn; lia)]. f_equal.
Qed.

Lemma rd_be_short n data p x : (p <= length data < p + n)%nat -> rd_be data p n x = None.
Proof.
  revert p x. induction n as [| n IH]; intros p x H; [lia |]. cbn [rd_be]. destruct (data !! p) as [b |] eqn:E; [| done]. cbn [mbind option_bind].
  apply lookup_lt_Some in E. apply IH. lia.
Qed.

Lemma take_more (data : list Z) p n : take (p + n) data = take p data ++ sub_list p n data.
Proof. unfold sub_list. symmetry. apply take_take_drop. Qed.

Definition junk_ok (j : opssl_session) : Prop := length (ss_psk j) = PSK_SIZE /\ length (ss_ticket j) = TICKET_SIZE /\ bytes (ss_psk j) /\ bytes (ss_ticket j).

Lemma copied_session dst x : (length x <= length dst)%nat -> take (length x) (splice dst 0 x) = x /\ length (splice dst 0 x) = length dst.
Proof. intros H. split; [rewrite splice_0; apply take_app_length | by apply splice_length]. Qed.

(** Fields read one after the other are an encoding. *)
Lemma session_of_fields junk data v ci pl tl lt aa ca : junk_ok junk -> bytes data ->
  let p := (6 + Z.to_nat pl + 2)%nat in let q := (p + Z.to_nat tl)%nat in
  0 <= v < 65536 -> 0 <= ci < 65536 -> 0 <= pl <= 48 -> 0 <= tl <= 1024 -> 0 <= lt < 2 ^ 32 -> 0 <= aa < 2 ^ 32 -> 0 <= ca < 2 ^ 64 -> (q + 16 <= length data)%nat ->
  sub_list 0 2 data = be_bytes 2 v -> sub_list 2 2 data = be_bytes 2 ci -> sub_list 4 2 data = be_bytes 2 pl -> sub_list (6 + Z.to_nat pl) 2 data = be_bytes 2 tl ->
  sub_list q 4 data = be_bytes 4 lt -> sub_list (q + 4) 4 data = be_bytes 4 aa -> sub_list (q + 8) 8 data = be_bytes 8 ca ->
  let s := mk_session v ci (splice (ss_psk junk) 0 (sub_list 6 (Z.to_nat pl) data)) (Z.to_nat pl) (splice (ss_ticket junk) 0 (sub_list p (Z.to_nat tl) data)) (Z.to_nat tl) lt aa ca in
  session_ok s /\ take (session_need s) data = session_enc s /\ session_need s = (q + 16)%nat.
Proof.
  intros (J1 & J2 & J3 & J4) Hb p q Hv Hci Hpl Htl Hlt Haa Hca Hl E0 E1 E2 E3 E4 E5 E6 s. unfold PSK_SIZE, TICKET_SIZE in *.
  assert (length (sub_list 6 (Z.to_nat pl) data) = Z.to_nat pl) as L1 by (apply sub_list_length; lia).
  assert (length (sub_list p (Z.to_nat tl) data) = Z.to_nat tl) as L2 by (apply sub_list_length; lia).
  destruct (copied_session (ss_psk junk) (sub_list 6 (Z.to_nat pl) data) ltac:(lia)) as [C1 C2]. destruct (copied_session (ss_ticket junk) (sub_list p (Z.to_nat tl) data) ltac:(lia)) as [C3 C4].
  assert (session_need s = (q + 16)%nat) as Hneed by (unfold session_need, s, q, p; cbn [ss_psk_len ss_ticket_len]; lia). split_and!; [| | done].
  - split; unfold s; cbn [ss_version ss_cipher ss_psk ss_psk_len ss_ticket ss_ticket_len ss_lifetime ss_age_add ss_created_at]; unfold PSK_SIZE, TICKET_SIZE; [by rewrite C2, C4 | lia | done | done |].
    split; apply bytes_splice; try done; by apply bytes_sub.
  - rewrite Hneed. unfold session_enc, session_key, session_ticket, s. cbn [ss_version ss_cipher ss_psk ss_psk_len ss_ticket ss_ticket_len ss_lifetime ss_age_add ss_created_at].
    rewrite L1 in C1. rewrite L2 in C3. rewrite C1, C3, !Z2Nat.id, <- E0, <- E1, <- E2, <- E3, <- E4, <- E5, <- E6 by lia.
    replace (q + 16)%nat with (q + 8 + 8)%nat by lia. rewrite !app_assoc. rewrite take_more. f_equal.
    change (q + 8)%nat with (q + (4 + 4))%nat. rewrite Nat.add_assoc, take_more. f_equal. rewrite take_more. f_equal. unfold q. rewrite take_more. f_equal. unfold p. rewrite take_more. f_equal.
    rewrite take_more. f_equal. change 6%nat with (4 + 2)%nat. rewrite take_more. f_equal. change 4%nat with (2 + 2)%nat. rewrite take_more. done.
Qed.

Lemma sub_list_app_l (l z : list Z) p n : (p + n <= length l)%nat -> sub_list p n (l ++ z) = sub_list p n l.
Proof. intros H. unfold sub_list. rewrite drop_app_le by lia. apply take_app_le. rewrite length_drop. lia. Qed.

(** What the decoder makes of any bytes, its refusals aside. *)
Lemma from_bytes_cases junk data : junk_ok junk -> bytes data ->
  match opssl_session_from_bytes true junk data with
  | Some (Some s) => session_ok s /\ take (session_need s) data = session_enc s
  | None => exists s, session_ok s /\ (1 <= session_need s - length data <= 4)%nat /\ data = take (length data) (session_enc s)
  | Some None => True
  end.
Proof.
  intros Hj Hb. pose proof Hj as (J1 & J2 & J3 & J4). unfold opssl_session_from_bytes. unfold PSK_SIZE, TICKET_SIZE in *.
  destruct (Nat.ltb_spec (length data) 12) as [H | H]; [done |]. cbn [negb].
  destruct (rd16_inv data 0 Hb ltac:(lia)) as (v & -> & Hv & E0). destruct (rd16_inv data 2 Hb ltac:(lia)) as (ci & -> & Hci & E1). destruct (rd16_inv data 4 Hb ltac:(lia)) as (pl & -> & Hpl & E2).
  cbn [mbind option_bind]. destruct (Z.ltb_spec 48 pl) as [| Hp48]; [done |]. cbn [orb]. destruct (Nat.ltb_spec (length data) (6 + off pl)) as [| Hlp]; [done |].
  unfold off in *. rewrite copy_ok by lia. cbn [mbind option_bind]. destruct (Nat.ltb_spec (length data) (6 + Z.to_nat pl + 2)) as [| Hl2]; [done |].
  destruct (rd16_inv data (6 + Z.to_nat pl) Hb ltac:(lia)) as (tl & -> & Htl & E3). cbn [mbind option_bind].
  destruct (Z.ltb_spec 1024 tl) as [| Ht1024]; [done |]. cbn [orb].
  destruct (Nat.ltb_spec (length data) (6 + Z.to_nat pl + 2 + Z.to_nat tl)) as [| Hlt]; [done |]. rewrite copy_ok by lia. cbn [mbind option_bind].
  set (q := (6 + Z.to_nat pl + 2 + Z.to_nat tl)%nat) in *. destruct (Nat.ltb_spec (length data) (q + 12)) as [| Hlq]; [done |].
  destruct (rd32_inv data q Hb ltac:(lia)) as (lt & -> & Hltr & E4). destruct (rd32_inv data (q + 4) Hb ltac:(lia)) as (aa & -> & Haa & E5). cbn [mbind option_bind].
  destruct (Nat.ltb_spec (length data) (q + 16)) as [Hshort | Hlong].
  - rewrite rd_be_short by lia. cbn [mbind option_bind]. set (z := replicate (q + 16 - length data) 0). assert (bytes (data ++ z)) as Hbz by (apply bytes_app; split; [done | by apply Forall_replicate]).
    assert (length (data ++ z) = (q + 16)%nat) as Hlz by (unfold z; rewrite length_app, length_replicate; lia).
    destruct (rd64_inv (data ++ z) (q + 8) Hbz ltac:(lia)) as (ca & _ & Hca & E6).
    destruct (session_of_fields junk (data ++ z) v ci pl tl lt aa ca) as (S1 & S2 & S3); try done; try lia; try (rewrite sub_list_app_l by lia; done).
    eexists. split; [exact S1 |]. split; [rewrite S3; fold q; lia |]. rewrite <- S2, S3. fold q. rewrite take_take, Nat.min_l by lia. symmetry. apply take_app_length.
  - destruct (rd64_inv data (q + 8) Hb ltac:(lia)) as (ca & -> & Hca & E6). cbn [mbind option_bind].
    destruct (session_of_fields junk data v ci pl tl lt aa ca) as (S1 & S2 & S3); done || lia || by split.
Qed.

(** C12: decoding any bytes.  A session that comes back is well formed and the bytes
    start with its encoding.  The call reads outside the bytes exactly on an encoding
    that lacks its last one to four bytes: twelve bytes are asked for where sixteen
    are read.  Bytes are refused only if no encoding starts like them, up to its last
    four bytes. *)
Theorem session_from_bytes_exact junk data : junk_ok junk -> bytes data ->
  match opssl_session_from_bytes true junk data with
  | Some (Some s) => session_ok s /\ take (session_need s) data = session_enc s
  | None => exists s, session_ok s /\ (1 <= session_need s - length data <= 4)%nat /\ data = take (length data) (session_enc s)
  | Some None => forall s, session_ok s -> take (session_need s - 4) data <> take (session_need s - 4) (session_enc s)
  end.
Proof.
  intros Hj Hb. pose proof (from_bytes_cases junk data Hj Hb) as H. destruct (opssl_session_from_bytes true junk data) as [[s |] |] eqn:E; [done | | done].
  intros s Hok Hp. revert E. by apply (from_bytes_prefix s); try apply Hj.
Qed.

Definition with_session (s : opssl_session) (c : conn) : conn :=
  set_has_ticket true (set_ticket_age_add (ss_age_add s) (set_ticket_lifetime (ss_lifetime s)
    (set_session_ticket_len (ss_ticket_len s) (set_session_ticket (splice (c_session_ticket c) 0 (session_ticket s))
    (set_ticket_psk_len (ss_psk_len s) (set_ticket_psk (splice (c_ticket_psk c) 0 (session_key s)) c)))))).

Lemma set_session_ok c s : (ss_psk_len s <= PSK_SIZE)%nat -> (0 < ss_ticket_len s <= TICKET_SIZE)%nat -> length (ss_psk s) = PSK_SIZE -> length (ss_ticket s) = TICKET_SIZE ->
  length (c_ticket_psk c) = PSK_SIZE -> length (c_session_ticket c) = TICKET_SIZE -> opssl_conn_set_session c (Some s) = Some (1, with_session s c).
Proof.
  intros H1 H2 H3 H4 H5 H6. unfold opssl_conn_set_session. rewrite (proj2 (Nat.eqb_neq _ _)), !(proj2 (Nat.ltb_ge _ _)) by lia. rewrite !copy_ok by lia. done.
Qed.

(* ------------------------------------------------------------------ *)
(** * The properties *)

Record ticket_ok (c : conn) : Prop := {
  tk_has : c_has_ticket c = true;
  tk_arrays : length (c_ticket_psk c) = PSK_SIZE /\ length (c_session_ticket c) = TICKET_SIZE;
  tk_lens : (c_ticket_psk_len c <= PSK_SIZE)%nat /\ (0 < c_session_ticket_len c <= TICKET_SIZE)%nat;
  tk_ids : 0 <= c_version c < 65536 /\ 0 <= c_cipher c < 65536;
  tk_times : 0 <= c_ticket_lifetime c < 2 ^ 32 /\ 0 <= c_ticket_age_add c < 2 ^ 32;
  tk_bytes : bytes (c_ticket_psk c) /\ bytes (c_session_ticket c)
}.

(** C11: a ticket that a connection holds survives being taken as a session, encoded,
    decoded in another process and given to another connection: that connection
    has the same ticket, resumption secret, lifetime and age mask. *)
Theorem session_ticket_transfer junk junk2 now c c2 buf : ticket_ok c -> junk_ok junk -> junk_ok junk2 ->
  length (c_ticket_psk c2) = PSK_SIZE -> length (c_session_ticket c2) = TICKET_SIZE -> (24 + c_ticket_psk_len c + c_session_ticket_len c <= length buf)%nat ->
  exists s out n s' c', opssl_conn_get_session true junk now c = Some (Some s) /\
    opssl_session_to_bytes (Some s) (Some buf) (Some (Z.of_nat (length buf))) = Some (1, Some out, Some (Z.of_nat n)) /\
    opssl_session_from_bytes true junk2 (take n out) = Some (Some s') /\
    opssl_conn_set_session c2 (Some s') = Some (1, c') /\
    c_has_ticket c' = true /\ c_ticket_psk_len c' = c_ticket_psk_len c /\ take (c_ticket_psk_len c) (c_ticket_psk c') = take (c_ticket_psk_len c) (c_ticket_psk c) /\
    c_session_ticket_len c' = c_session_ticket_len c /\ take (c_session_ticket_len c) (c_session_ticket c') = take (c_session_ticket_len c) (c_session_ticket c) /\
    c_ticket_lifetime c' = c_ticket_lifetime c /\ c_ticket_age_add c' = c_ticket_age_add c /\ ss_version s' = c_version c /\ ss_cipher s' = c_cipher c /\ ss_created_at s' = u64 now.
Proof.
  intros [Hh [Ha1 Ha2] [Hl1 Hl2] Hids Htimes [Hb1 Hb2]] (J1 & J2 & J3 & J4) (J5 & J6 & _ & _) H1 H2 Hbuf.
  unfold opssl_conn_get_session. rewrite Hh. cbn [negb]. rewrite !copy_ok by lia. cbn [mbind option_bind].
  set (k := sub_list 0 (c_ticket_psk_len c) (c_ticket_psk c)). set (tk := sub_list 0 (c_session_ticket_len c) (c_session_ticket c)).
  assert (length k = c_ticket_psk_len c) as Lk by (apply sub_list_length; lia). assert (length tk = c_session_ticket_len c) as Lt by (apply sub_list_length; lia).
  destruct (copied_session (ss_psk junk) k ltac:(lia)) as [C1 C2]. destruct (copied_session (ss_ticket junk) tk ltac:(lia)) as [C3 C4].
  set (s := mk_session _ _ _ _ _ _ _ _ _). rewrite Lk in C1. rewrite Lt in C3.
  assert (session_ok s) as Hs.
  { split; unfold s; cbn [ss_version ss_cipher ss_psk ss_psk_len ss_ticket ss_ticket_len ss_lifetime ss_age_add ss_created_at]; [by rewrite C2, C4 | lia | done | | split; apply bytes_splice; try done; by apply bytes_sub].
    split; [apply Htimes |]. split; [apply Htimes |]. unfold u64, wrap. apply Z.mod_pos_bound. lia. }
  assert (session_need s = 24 + c_ticket_psk_len c + c_session_ticket_len c)%nat as Hn by done.
  pose proof (session_enc_length s Hs) as Hle. exists s, (splice buf 0 (session_enc s)), (session_need s).
  rewrite to_bytes_ok by (done || lia). assert (take (session_need s) (splice buf 0 (session_enc s)) = session_enc s) as -> by (rewrite <- Hle, splice_0; apply take_app_length).
  rewrite from_bytes_enc by done. assert (session_key s = k /\ session_ticket s = tk) as [-> ->] by (split; [exact C1 | exact C3]). set (s' := mk_session _ _ (splice (ss_psk junk2) 0 k) _ _ _ _ _ _).
  destruct (copied_session (ss_psk junk2) k ltac:(lia)) as [D1 D2]. destruct (copied_session (ss_ticket junk2) tk ltac:(lia)) as [D3 D4]. rewrite Lk in D1. rewrite Lt in D3.
  exists s', (with_session s' c2). do 3 (split; [reflexivity |]). split; [apply set_session_ok; unfold s'; cbn [ss_psk_len ss_ticket_len ss_psk ss_ticket s]; lia |].
  assert (session_key s' = k /\ session_ticket s' = tk) as [Ek Et] by (split; [exact D1 | exact D3]).
  assert (take (c_ticket_psk_len c) (c_ticket_psk (with_session s' c2)) = k) as -> by (change (take (c_ticket_psk_len c) (splice (c_ticket_psk c2) 0 (session_key s')) = k); rewrite Ek, <- Lk at 1; apply copied_session; lia).
  assert (take (c_session_ticket_len c) (c_session_ticket (with_session s' c2)) = tk) as -> by (change (take (c_session_ticket_len c) (splice (c_session_ticket c2) 0 (session_ticket s')) = tk); rewrite Et, <- Lt at 1; apply copied_session; lia).
  by split_and!.
Qed.

(* ------------------------------------------------------------------ *)
(** * Witnesses *)

Definition demo_junk : opssl_session := mk_session 0 0 (replicate 48 0) 0 (replicate TICKET_SIZE 0) 0 0 0 0.

Lemma demo_junk_ok : junk_ok demo_junk.
Proof. split; [done |]. split; [unfold demo_junk; cbn [ss_ticket]; apply length_replicate |]. split; by apply Forall_replicate. Qed.

Definition demo_ticket : conn :=
  set_has_ticket true (set_ticket_psk_len 32 (set_session_ticket_len 5 (set_ticket_psk (replicate 48 7) (set_session_ticket (replicate TICKET_SIZE 9)
    (set_ticket_lifetime 7200 (set_version 0x0304 (set_cipher 0x1301 (opssl_conn_new OPSSL_CLIENT)))))))).

Lemma session_ticket_transfer_witness : exists c', c_has_ticket c' = true /\ take 32 (c_ticket_psk c') = replicate 32 7.
Proof.
  destruct (session_ticket_transfer demo_junk demo_junk 100 demo_ticket (opssl_conn_new OPSSL_CLIENT) (replicate 61 0)) as (s & out & n & s' & c' & _ & _ & _ & _ & H1 & _ & H2 & _).
  - split; [done | split; [done | apply length_replicate] | split; [cbn; unfold PSK_SIZE; lia | cbn; unfold TICKET_SIZE; lia] | by split | by split | split; by apply Forall_replicate].
  - apply demo_junk_ok.
  - apply demo_junk_ok.
  - done.
  - apply length_replicate.
  - cbn. lia.
  - exists c'. split; [exact H1 |]. exact H2.
Defined.

Lemma session_from_bytes_exact_witness : exists s, session_ok s /\ session_enc s = 3 :: 4 :: 0x13 :: 1 :: replicate 20 0.
Proof.
  pose proof (session_from_bytes_exact demo_junk (3 :: 4 :: 0x13 :: 1 :: replicate 20 0) demo_junk_ok ltac:(solve_bytes)) as H.
  destruct (opssl_session_from_bytes _ _ _) as [[s |] |] eqn:E; [| vm_compute in E; discriminate E ..].
  destruct H as [Hs Ht]. exists s. split; [exact Hs |]. rewrite <- Ht. assert (session_need s = 24%nat) as -> by (vm_compute in E; injection E as <-; reflexivity). done.
Defined.

(** An encoding of twenty bytes, four too few: the age of the session is read from
    beyond them. *)
Example session_from_bytes_overread : opssl_session_from_bytes true demo_junk (3 :: 4 :: 0x13 :: 1 :: replicate 16 0) = None.
Proof. vm_compute. reflexivity. Qed.
