(* ===== verification/ConnExport.v ===== *)
(** Moving a connection to another process: [opssl_conn_export] and
    [opssl_conn_import] of src/tls/handshake.c, on a little-endian machine.

    [None] is undefined behaviour: a copy from outside the caller's bytes or an
    array of the connection. *)
From S2P Require Import Prelude Types Platform Err Cpu Hmac AesSpec ChaCha20 Poly1305 AesNi Aes BlockModes AesNiGcm AesNiGcmOk Aead Record CipherSuite Conn ConnWrite ConnRead Channel ConnKeys Session.
#[local] Open Scope Z_scope.

Definition OPX_MAGIC_V2 : Z := 0x3258504f.
Definition OPX_MAGIC : Z := 0x3358504f.
Definition OPX_HDR_FIXED : nat := 128.

Definition flag (b : bool) : Z := if b then 1 else 0.

(** The sizes of what has not been read and not been sent, as [size_t]. *)
Definition app_payload (c : conn) : Z := u64 (Z.of_nat (c_app_len c) - Z.of_nat (c_app_off c)).
Definition write_pending (c : conn) : nat := if (c_write_off c <? c_write_len c)%nat then (c_write_len c - c_write_off c)%nat else 0%nat.

(** [memcpy(p, arr + o, n)] *)
Definition from_array (arr : list Z) (o n : nat) : option (list Z) := if (0 <? n)%nat && (length arr <? o + n)%nat then None else Some (sub_list o n arr).

Definition opssl_conn_export (c : conn) (buf : list Z) : option (Z * list Z) :=
  if negb (c_hs_state c =? OPSSL_HS_COMPLETE) then Some (-1, buf) else
  let total := u64 (Z.of_nat OPX_HDR_FIXED + app_payload c + 2 + Z.of_nat (c_read_len c) + 2 + Z.of_nat (write_pending c)) in
  if Z.of_nat (length buf) <? total then Some (-1, buf) else
  read_iv ← from_array (c_read_iv c) 0 12; write_iv ← from_array (c_write_iv c) 0 12;
  read_key ← from_array (c_read_key c) 0 32; write_key ← from_array (c_write_key c) 0 32;
  app ← from_array (c_app_buf c) (c_app_off c) (off (app_payload c));
  rec ← from_array (c_read_buf c) 0 (c_read_len c);
  pend ← from_array (c_write_buf c) (c_write_off c) (write_pending c);
  let bytes :=
    le_bytes 4 OPX_MAGIC ++ le_bytes 4 total ++ le_bytes 2 (c_version c) ++ le_bytes 2 (c_cipher c) ++ le_bytes 2 (c_group c) ++
    [u8 (c_dir c); flag (c_is_tls13 c); flag (c_read_encrypted c); flag (c_write_encrypted c)] ++
    le_bytes 8 (c_read_seq c) ++ le_bytes 8 (c_write_seq c) ++ read_iv ++ write_iv ++
    [u8 (Z.of_nat (c_read_key_len c)); u8 (Z.of_nat (c_write_key_len c))] ++ read_key ++ write_key ++
    le_bytes 2 (app_payload c) ++ le_bytes 2 0 ++ app ++
    le_bytes 2 (Z.of_nat (c_read_len c)) ++ rec ++ le_bytes 2 (Z.of_nat (write_pending c)) ++ pend in
  Some (s32 total, splice buf 0 bytes).

(** [memcpy(&x, p, n)] *)
Definition rdle (data : list Z) (p n : nat) : option Z := if (length data <? p + n)%nat then None else Some (le_val (sub_list p n data)).

(** [opssl_aead_set_key(ctx, key, n)] with an array: a length that is neither 16 nor
    32 is refused before the key is read. *)
Definition set_key_n (ctx : option opssl_aead_ctx) (key : list Z) (n : nat) : Z * option opssl_aead_ctx :=
  if (length key <? n)%nat then (0, ctx) else opssl_aead_set_key ctx (Some (take n key)).

(** The header's fields, after the two lengths. *)
Definition import_header (c : conn) (data : list Z) : option conn :=
  v ← rdle data 8 2; ci ← rdle data 10 2; g ← rdle data 12 2;
  d ← rdle data 14 1; t13 ← rdle data 15 1; re ← rdle data 16 1; we ← rdle data 17 1;
  rs ← rdle data 18 8; ws ← rdle data 26 8;
  riv ← from_array data 34 12; wiv ← from_array data 46 12;
  rkl ← rdle data 58 1; wkl ← rdle data 59 1;
  rk ← from_array data 60 32; wk ← from_array data 92 32;
  Some (set_write_key (splice (c_write_key c) 0 wk) (set_read_key (splice (c_read_key c) 0 rk) (set_write_key_len (off wkl) (set_read_key_len (off rkl)
    (set_write_iv (splice (c_write_iv c) 0 wiv) (set_read_iv (splice (c_read_iv c) 0 riv) (set_write_seq ws (set_read_seq rs
    (set_write_encrypted (negb (we =? 0)) (set_read_encrypted (negb (re =? 0)) (set_is_tls13 (negb (t13 =? 0)) (set_dir d
    (set_group g (set_cipher ci (set_version v c))))))))))))))).

(** The contexts are made anew from the keys. *)
Definition import_ciphers (calloc_read calloc_write has_rec_bufs : bool) (c : conn) : Z * conn :=
  match conn_aead (c_cipher c) with
  | None => (-1, c)
  | Some algo =>
    let c := set_write_cipher (opssl_aead_new calloc_write algo) (set_read_cipher (opssl_aead_new calloc_read algo) c) in
    if negb calloc_read || negb calloc_write then (-1, c) else
    let '(r, ctx) := set_key_n (c_read_cipher c) (c_read_key c) (c_read_key_len c) in
    let c := set_read_cipher ctx c in
    if r =? 0 then (-1, c) else
    let '(r, ctx) := set_key_n (c_write_cipher c) (c_write_key c) (c_write_key_len c) in
    let c := set_write_cipher ctx c in
    if r =? 0 then (-1, c) else
    let c := set_hs_initialized true (set_hs_state OPSSL_HS_COMPLETE c) in
    (0, if has_rec_bufs then c else set_write_off 0 (set_write_len 0 (set_read_len 0 c)))
  end.

Definition opssl_conn_import (calloc_read calloc_write : bool) (c : conn) (data : list Z) : option (Z * conn) :=
  let len := length data in
  if (len <? OPX_HDR_FIXED)%nat then Some (-1, c) else
  magic ← rdle data 0 4;
  if negb (magic =? OPX_MAGIC) && negb (magic =? OPX_MAGIC_V2) then Some (-1, c) else
  let has_rec_bufs := magic =? OPX_MAGIC in
  tlen ← rdle data 4 4;
  if Z.of_nat len <? tlen then Some (-1, c) else
  c ← import_header c data;
  alen ← rdle data 124 2;
  if 16384 <? alen then Some (-1, c) else
  app ← copy_into (c_app_buf c) data 128 (off alen);
  let c := set_app_off 0 (set_app_len (off alen) (set_app_buf app c)) in
  let p := 128%nat in (* not moved past the application data *)
  if has_rec_bufs && (p + 4 <=? len)%nat then
    rlen ← rdle data p 2;
    let p := (p + 2)%nat in
    if (18432 <? rlen) || (len <? p + off rlen)%nat then Some (-1, c) else
    rec ← copy_into (c_read_buf c) data p (off rlen);
    let c := set_read_len (off rlen) (set_read_buf rec c) in
    let p := (p + off rlen)%nat in
    wlen ← rdle data p 2;
    let p := (p + 2)%nat in
    if (18432 <? wlen) || (len <? p + off wlen)%nat then Some (-1, c) else
    pend ← copy_into (c_write_buf c) data p (off wlen);
    let c := set_write_off 0 (set_write_len (off wlen) (set_write_buf pend c)) in
    Some (import_ciphers calloc_read calloc_write has_rec_bufs c)
  else Some (import_ciphers calloc_read calloc_write has_rec_bufs c).

(* ------------------------------------------------------------------ *)
(** * What is exported and what is imported *)

(** A connection that can be moved: its contexts are those of its suite with the
    keys it keeps. *)
Record portable (c : conn) (a : opssl_aead_algo_t) : Prop := {
  pt_algo : conn_aead (c_cipher c) = Some a;
  pt_read : c_read_cipher c = Some (keyed a (take (c_read_key_len c) (c_read_key c)));
  pt_write : c_write_cipher c = Some (keyed a (take (c_write_key_len c) (c_write_key c)));
  pt_keys : length (c_read_key c) = 32%nat /\ length (c_write_key c) = 32%nat /\ bytes (c_read_key c) /\ bytes (c_write_key c);
  pt_key_lens : (c_read_key_len c = 16 \/ c_read_key_len c = 32)%nat /\ (c_write_key_len c = 16 \/ c_write_key_len c = 32)%nat;
  pt_iv : length (c_read_iv c) = 12%nat /\ length (c_write_iv c) = 12%nat;
  pt_seq : 0 <= c_read_seq c <= UINT64_MAX /\ 0 <= c_write_seq c <= UINT64_MAX;
  pt_ids : 0 <= c_version c < 65536 /\ 0 <= c_cipher c < 65536 /\ 0 <= c_group c < 65536 /\ 0 <= c_dir c < 256;
  pt_read_buf : length (c_read_buf c) = READ_BUF_SIZE /\ (c_read_len c <= READ_BUF_SIZE)%nat;
  pt_write_buf : length (c_write_buf c) = READ_BUF_SIZE /\ off_ok (c_write_len c) (c_write_off c);
  pt_app : length (c_app_buf c) = APP_BUF_SIZE /\ ((c_app_off c < c_app_len c <= APP_BUF_SIZE)%nat \/ (c_app_len c = 0 /\ c_app_off c = 0)%nat);
  pt_open : c_hs_state c = OPSSL_HS_COMPLETE
}.

(** The arrays of the connection that takes its place. *)
Record blank (c : conn) : Prop := {
  bl_keys : length (c_read_key c) = 32%nat /\ length (c_write_key c) = 32%nat;
  bl_iv : length (c_read_iv c) = 12%nat /\ length (c_write_iv c) = 12%nat;
  bl_bufs : length (c_read_buf c) = READ_BUF_SIZE /\ length (c_write_buf c) = READ_BUF_SIZE /\ length (c_app_buf c) = APP_BUF_SIZE;
  bl_bytes : bytes (c_read_buf c) /\ bytes (c_write_buf c);
  bl_open : c_shutdown_sent c = false /\ c_key_update_apply_after_flush c = false
}.

Lemma new_blank dir : blank (opssl_conn_new dir).
Proof. split; cbn; rewrite ?length_replicate; try done. split; by apply Forall_replicate. Qed.

(** The encoding, field by field. *)
Definition export_size (c : conn) : nat := (128 + length (queue c) + 2 + c_read_len c + 2 + length (pending_out c))%nat.

Definition export_head (c : conn) : list (list Z) :=
  [le_bytes 4 OPX_MAGIC; le_bytes 4 (Z.of_nat (export_size c)); le_bytes 2 (c_version c); le_bytes 2 (c_cipher c); le_bytes 2 (c_group c);
   le_bytes 1 (c_dir c); le_bytes 1 (flag (c_is_tls13 c)); le_bytes 1 (flag (c_read_encrypted c)); le_bytes 1 (flag (c_write_encrypted c));
   le_bytes 8 (c_read_seq c); le_bytes 8 (c_write_seq c); c_read_iv c; c_write_iv c;
   le_bytes 1 (Z.of_nat (c_read_key_len c)); le_bytes 1 (Z.of_nat (c_write_key_len c)); c_read_key c; c_write_key c].

Definition export_tail (c : conn) : list (list Z) :=
  [le_bytes 2 (Z.of_nat (length (queue c))); le_bytes 2 0; queue c; le_bytes 2 (Z.of_nat (c_read_len c)); take (c_read_len c) (c_read_buf c);
   le_bytes 2 (Z.of_nat (length (pending_out c))); pending_out c].

Definition export_enc (c : conn) : list Z := concat (export_head c ++ export_tail c).

Lemma le1_flag b : le_bytes 1 (flag b) = [flag b].
Proof. by destruct b. Qed.

Lemma flag_true b : negb (flag b =? 0) = b.
Proof. by destruct b. Qed.

Lemma from_array_full arr n : length arr = n -> from_array arr 0 n = Some arr.
Proof. intros <-. unfold from_array. rewrite Nat.add_0_l, Nat.ltb_irrefl, andb_false_r. unfold sub_list. by rewrite drop_0, firstn_all. Qed.

Lemma from_array_ok arr o n : (o + n <= length arr)%nat -> from_array arr o n = Some (sub_list o n arr).
Proof. intros H. unfold from_array. by rewrite (proj2 (Nat.ltb_ge (length arr) (o + n))), andb_false_r by lia. Qed.

Section Sizes.
Context (c : conn) (a : opssl_aead_algo_t) (Hc : portable c a).

Lemma queue_length : length (queue c) = (c_app_len c - c_app_off c)%nat.
Proof. destruct (pt_app _ _ Hc) as [Hl Ho]. apply sub_list_length. lia. Qed.

Lemma pending_length : length (pending_out c) = (c_write_len c - c_write_off c)%nat.
Proof. destruct (pt_write_buf _ _ Hc) as [Hl [Ho | Ho]]; apply sub_list_length; lia. Qed.

Lemma payload_queue : app_payload c = Z.of_nat (length (queue c)).
Proof. destruct (pt_app _ _ Hc) as [Hl Ho]. rewrite queue_length. unfold app_payload, APP_BUF_SIZE in *. rewrite u64_id; lia. Qed.

Lemma pending_pending : write_pending c = length (pending_out c).
Proof. rewrite pending_length. unfold write_pending. destruct (pt_write_buf _ _ Hc) as [_ [Ho | Ho]]; destruct (Nat.ltb_spec (c_write_off c) (c_write_len c)); lia. Qed.

Lemma export_bounds : (length (queue c) <= APP_BUF_SIZE)%nat /\ (length (pending_out c) <= READ_BUF_SIZE)%nat /\ (export_size c <= Z.to_nat 53380)%nat.
Proof.
  destruct (pt_app _ _ Hc) as [_ Ho]. destruct (pt_write_buf _ _ Hc) as [_ Hw]. destruct (pt_read_buf _ _ Hc) as [_ Hr]. unfold export_size, off_ok in *.
  rewrite queue_length, pending_length. unfold APP_BUF_SIZE, READ_BUF_SIZE in *. lia.
Qed.

Lemma export_ok buf : (export_size c <= length buf)%nat -> opssl_conn_export c buf = Some (Z.of_nat (export_size c), splice buf 0 (export_enc c)).
Proof.
  intros Hb. destruct export_bounds as (B1 & B2 & B3). destruct (pt_app _ _ Hc) as [Hal Ho]. destruct (pt_write_buf _ _ Hc) as [Hwl Hw]. destruct (pt_read_buf _ _ Hc) as [Hrl Hr].
  destruct (pt_iv _ _ Hc) as [Hi1 Hi2]. destruct (pt_keys _ _ Hc) as (Hk1 & Hk2 & _). unfold opssl_conn_export. rewrite (pt_open _ _ Hc), Z.eqb_refl. cbn [negb]. rewrite payload_queue, pending_pending.
  unfold APP_BUF_SIZE, READ_BUF_SIZE in *.
  assert (u64 (Z.of_nat OPX_HDR_FIXED + Z.of_nat (length (queue c)) + 2 + Z.of_nat (c_read_len c) + 2 + Z.of_nat (length (pending_out c))) = Z.of_nat (export_size c)) as ->
    by (unfold export_size, OPX_HDR_FIXED; rewrite u64_id; lia).
  rewrite (proj2 (Z.ltb_ge _ _)) by lia. rewrite (from_array_full (c_read_iv c)), (from_array_full (c_write_iv c)), (from_array_full (c_read_key c)), (from_array_full (c_write_key c)) by done. cbn [mbind option_bind]. unfold off. rewrite Nat2Z.id.
  rewrite !from_array_ok by (rewrite ?queue_length, ?pending_length; unfold off_ok, READ_BUF_SIZE in *; lia). cbn [mbind option_bind].
  rewrite s32_id by lia. do 3 f_equal. rewrite queue_length, pending_length. 
  unfold export_enc, export_head, export_tail. cbn [concat app]. rewrite !le1_flag, app_nil_r. fold (queue c) (pending_out c). rewrite <- queue_length, <- pending_length. reflexivity.
Qed.
End Sizes.

(** A field at its place. *)
Lemma piece_split (ps : list (list Z)) rest i x : ps !! i = Some x -> concat ps ++ rest = concat (take i ps) ++ x ++ concat (drop (S i) ps) ++ rest.
Proof. intros H. rewrite <- (take_drop_middle ps i x H) at 1. rewrite concat_app. cbn [concat]. by rewrite <- !app_assoc. Qed.

Lemma rdle_piece ps rest i n v p : ps !! i = Some (le_bytes n v) -> p = length (concat (take i ps)) -> 0 <= v < 256 ^ Z.of_nat n -> rdle (concat ps ++ rest) p n = Some v.
Proof.
  intros H -> Hv. rewrite (piece_split ps rest i _ H). unfold rdle. rewrite (proj2 (Nat.ltb_ge _ _)) by (rewrite !length_app, le_bytes_length; lia).
  unfold sub_list. rewrite drop_app_length, take_app_length' by (by rewrite le_bytes_length). by rewrite le_bytes_mod, Z.mod_small.
Qed.

Lemma array_piece ps rest i x p n : ps !! i = Some x -> p = length (concat (take i ps)) -> n = length x -> from_array (concat ps ++ rest) p n = Some x.
Proof.
  intros H -> ->. rewrite (piece_split ps rest i _ H). rewrite from_array_ok by (rewrite !length_app; lia). unfold sub_list. by rewrite drop_app_length, take_app_length.
Qed.

Lemma copy_piece ps rest i x dst p n : ps !! i = Some x -> p = length (concat (take i ps)) -> n = length x -> (length x <= length dst)%nat ->
  copy_into dst (concat ps ++ rest) p n = Some (splice dst 0 x).
Proof. intros H -> -> Hl. rewrite (piece_split ps rest i _ H). by apply copy_at. Qed.

(** The connection [c0] as [c]: what [opssl_conn_import] makes of it. *)
Definition restored (c0 c : conn) : conn :=
  let c1 := set_write_key (c_write_key c) (set_read_key (c_read_key c) (set_write_key_len (c_write_key_len c) (set_read_key_len (c_read_key_len c)
    (set_write_iv (c_write_iv c) (set_read_iv (c_read_iv c) (set_write_seq (c_write_seq c) (set_read_seq (c_read_seq c)
    (set_write_encrypted (c_write_encrypted c) (set_read_encrypted (c_read_encrypted c) (set_is_tls13 (c_is_tls13 c) (set_dir (c_dir c)
    (set_group (c_group c) (set_cipher (c_cipher c) (set_version (c_version c) c0)))))))))))))) in
  let c2 := set_app_off 0 (set_app_len (length (queue c)) (set_app_buf (splice (c_app_buf c0) 0 (queue c)) c1)) in
  let c3 := set_read_len (c_read_len c) (set_read_buf (splice (c_read_buf c0) 0 (take (c_read_len c) (c_read_buf c))) c2) in
  let c4 := set_write_off 0 (set_write_len (length (pending_out c)) (set_write_buf (splice (c_write_buf c0) 0 (pending_out c)) c3)) in
  set_hs_initialized true (set_hs_state OPSSL_HS_COMPLETE (set_write_cipher (c_write_cipher c) (set_read_cipher (c_read_cipher c) c4))).

Lemma set_key_n_keyed a key n : length key = 32%nat -> n = 16%nat \/ n = 32%nat -> bytes key ->
  set_key_n (opssl_aead_new true a) key n = (1, Some (keyed a (take n key))).
Proof.
  intros Hl Hn Hb. unfold set_key_n. rewrite (proj2 (Nat.ltb_ge _ _)) by lia. apply set_key_new. split; [apply key_len_spec; rewrite length_take; lia | by apply bytes_take].
Qed.

(** New contexts for a connection that has got the exported keys. *)
Lemma import_ciphers_ok c c4 a : portable c a -> c_cipher c4 = c_cipher c -> c_read_key c4 = c_read_key c -> c_write_key c4 = c_write_key c ->
  c_read_key_len c4 = c_read_key_len c -> c_write_key_len c4 = c_write_key_len c ->
  import_ciphers true true true c4 =
    (0, set_hs_initialized true (set_hs_state OPSSL_HS_COMPLETE (set_write_cipher (c_write_cipher c) (set_read_cipher (c_read_cipher c) c4)))).
Proof.
  intros Hc E1 E2 E3 E4 E5. destruct (pt_keys _ _ Hc) as (Hk1 & Hk2 & Hb1 & Hb2). destruct (pt_key_lens _ _ Hc) as [K1 K2].
  unfold import_ciphers. rewrite E1, (pt_algo _ _ Hc). cbn [negb orb].
  cbn [c_read_cipher c_write_cipher c_read_key c_write_key c_read_key_len c_write_key_len set_read_cipher set_write_cipher].
  rewrite E2, E3, E4, E5, !set_key_n_keyed by done. rewrite (pt_read _ _ Hc), (pt_write _ _ Hc). done.
Qed.

Section Importing.
Context (c0 c : conn) (a : opssl_aead_algo_t) (Hc : portable c a) (H0 : blank c0) (rest : list Z).

Let ps : list (list Z) := export_head c ++ export_tail c.

Ltac at_place := unfold ps; cbn [take app concat export_head export_tail]; rewrite ?length_app, ?le_bytes_length; cbn [length]; lia.

Lemma import_header_ok : import_header c0 (export_enc c ++ rest) =
  Some (set_write_key (c_write_key c) (set_read_key (c_read_key c) (set_write_key_len (c_write_key_len c) (set_read_key_len (c_read_key_len c)
    (set_write_iv (c_write_iv c) (set_read_iv (c_read_iv c) (set_write_seq (c_write_seq c) (set_read_seq (c_read_seq c)
    (set_write_encrypted (c_write_encrypted c) (set_read_encrypted (c_read_encrypted c) (set_is_tls13 (c_is_tls13 c) (set_dir (c_dir c)
    (set_group (c_group c) (set_cipher (c_cipher c) (set_version (c_version c) c0))))))))))))))).
Proof.
  destruct (pt_keys _ _ Hc) as (Hk1 & Hk2 & _). destruct (pt_iv _ _ Hc) as [Hi1 Hi2]. destruct (pt_ids _ _ Hc) as (V1 & V2 & V3 & V4). destruct (pt_seq _ _ Hc) as [S1 S2]. destruct (pt_key_lens _ _ Hc) as [K1 K2].
  destruct (bl_keys _ H0) as [B1 B2]. destruct (bl_iv _ H0) as [B3 B4]. unfold UINT64_MAX in *.
  assert (forall b, 0 <= flag b < 256 ^ Z.of_nat 1) as Hf by (intros []; cbn; lia).
  unfold import_header, export_enc. fold ps.
  rewrite (rdle_piece ps rest 2 2 (c_version c) 8) by (done || at_place). cbn [mbind option_bind].
  rewrite (rdle_piece ps rest 3 2 (c_cipher c) 10) by (done || at_place). cbn [mbind option_bind].
  rewrite (rdle_piece ps rest 4 2 (c_group c) 12) by (done || at_place). cbn [mbind option_bind].
  rewrite (rdle_piece ps rest 5 1 (c_dir c) 14) by (done || at_place). cbn [mbind option_bind].
  rewrite (rdle_piece ps rest 6 1 (flag (c_is_tls13 c)) 15) by (done || at_place). cbn [mbind option_bind].
  rewrite (rdle_piece ps rest 7 1 (flag (c_read_encrypted c)) 16) by (done || at_place). cbn [mbind option_bind].
  rewrite (rdle_piece ps rest 8 1 (flag (c_write_encrypted c)) 17) by (done || at_place). cbn [mbind option_bind].
  rewrite (rdle_piece ps rest 9 8 (c_read_seq c) 18) by (done || (cbn; lia) || at_place). cbn [mbind option_bind].
  rewrite (rdle_piece ps rest 10 8 (c_write_seq c) 26) by (done || (cbn; lia) || at_place). cbn [mbind option_bind].
  rewrite (array_piece ps rest 11 (c_read_iv c) 34 12) by (done || at_place). cbn [mbind option_bind].
  rewrite (array_piece ps rest 12 (c_write_iv c) 46 12) by (done || at_place). cbn [mbind option_bind].
  rewrite (rdle_piece ps rest 13 1 (Z.of_nat (c_read_key_len c)) 58) by (done || (cbn; lia) || at_place). cbn [mbind option_bind].
  rewrite (rdle_piece ps rest 14 1 (Z.of_nat (c_write_key_len c)) 59) by (done || (cbn; lia) || at_place). cbn [mbind option_bind].
  rewrite (array_piece ps rest 15 (c_read_key c) 60 32) by (done || at_place). cbn [mbind option_bind].
  rewrite (array_piece ps rest 16 (c_write_key c) 92 32) by (done || at_place). cbn [mbind option_bind].
  unfold off. rewrite !Nat2Z.id. rewrite !splice_full by lia. rewrite !flag_true. done.
Qed.

Lemma export_enc_length : length (export_enc c) = export_size c.
Proof.
  destruct (pt_keys _ _ Hc) as (Hk1 & Hk2 & _). destruct (pt_iv _ _ Hc) as [Hi1 Hi2]. destruct (pt_read_buf _ _ Hc) as [Hrl Hr].
  unfold export_enc, export_size. cbn [app concat export_head export_tail]. rewrite !length_app, !le_bytes_length, length_take. cbn [length]. lia.
Qed.

Lemma import_ok : queue c = [] -> opssl_conn_import true true c0 (export_enc c ++ rest) = Some (0, restored c0 c).
Proof.
  intros Hq. assert (length (queue c) = 0%nat) as Hq0 by by rewrite Hq.
  destruct (pt_keys _ _ Hc) as (Hk1 & Hk2 & Hkb1 & Hkb2). destruct (pt_iv _ _ Hc) as [Hi1 Hi2]. destruct (pt_key_lens _ _ Hc) as [K1 K2]. destruct (pt_read_buf _ _ Hc) as [Hrl Hr].
  destruct (bl_bufs _ H0) as (B1 & B2 & B3). destruct (export_bounds c a Hc) as (E1 & E2 & E3). pose proof export_enc_length as Hle.
  assert (export_size c = 128 + length (queue c) + 2 + c_read_len c + 2 + length (pending_out c))%nat as Hsz by done.
  unfold APP_BUF_SIZE, READ_BUF_SIZE in *. unfold opssl_conn_import. rewrite length_app, Hle. unfold OPX_HDR_FIXED. rewrite (proj2 (Nat.ltb_ge _ _)) by lia.
  pose proof import_header_ok as Hh. assert (export_enc c = concat ps) as Een by reflexivity. rewrite Een in *.
  rewrite (rdle_piece ps rest 0 4 OPX_MAGIC 0) by (done || at_place). cbn [mbind option_bind]. rewrite Z.eqb_refl. cbn [negb andb].
  rewrite (rdle_piece ps rest 1 4 (Z.of_nat (export_size c)) 4) by (done || (cbn; lia) || at_place). cbn [mbind option_bind].
  rewrite (proj2 (Z.ltb_ge _ _)) by lia. rewrite Hh. cbn [mbind option_bind]. set (c1 := set_write_key _ _).
  assert (length (take (c_read_len c) (c_read_buf c)) = c_read_len c) as Htl by (rewrite length_take; lia).
  rewrite (rdle_piece ps rest 17 2 (Z.of_nat (length (queue c))) 124) by (done || (cbn; lia) || at_place). cbn [mbind option_bind].
  rewrite (proj2 (Z.ltb_ge _ _)) by lia. unfold off. rewrite !Nat2Z.id.
  rewrite (copy_piece ps rest 19 (queue c) (c_app_buf c1) 128 (length (queue c))) by (done || (change (c_app_buf c1) with (c_app_buf c0); lia) || at_place). cbn [mbind option_bind].
  rewrite (proj2 (Nat.leb_le _ _)) by lia.
  rewrite (rdle_piece ps rest 20 2 (Z.of_nat (c_read_len c)) 128) by (done || (cbn; lia) || at_place). cbn [mbind option_bind].
  rewrite (proj2 (Z.ltb_ge _ _)) by lia. rewrite !Nat2Z.id. rewrite (proj2 (Nat.ltb_ge _ _)) by lia. cbn [orb].
  rewrite (copy_piece ps rest 21 (take (c_read_len c) (c_read_buf c)) _ _ (c_read_len c)) by (done || at_place || (rewrite Htl; cbn [c_read_buf set_app_off set_app_len set_app_buf]; change (c_read_buf c1) with (c_read_buf c0); lia)). cbn [mbind option_bind].
  rewrite (rdle_piece ps rest 22 2 (Z.of_nat (length (pending_out c)))) by (done || (cbn; lia) || (unfold ps; cbn [take app concat export_head export_tail]; rewrite ?length_app, ?le_bytes_length, Htl; cbn [length]; lia)). cbn [mbind option_bind].
  rewrite (proj2 (Z.ltb_ge _ _)) by lia. rewrite (proj2 (Nat.ltb_ge _ _)) by lia. rewrite !Nat2Z.id. cbn [orb].
  rewrite (copy_piece ps rest 23 (pending_out c) _ _ (length (pending_out c))) by (done || (unfold ps; cbn [take app concat export_head export_tail]; rewrite ?length_app, ?le_bytes_length, Htl; cbn [length]; lia) ||
    (cbn [c_write_buf set_app_off set_app_len set_app_buf set_read_len set_read_buf]; change (c_write_buf c1) with (c_write_buf c0); lia)). cbn [mbind option_bind].
  f_equal. apply (import_ciphers_ok c _ a Hc); reflexivity.
Qed.
End Importing.

(* ------------------------------------------------------------------ *)
(** * The connection that takes over *)

Lemma restored_pending c0 c a : portable c a -> blank c0 -> pending_out (restored c0 c) = pending_out c.
Proof.
  intros Hc H0. destruct (bl_bufs _ H0) as (B1 & B2 & B3). destruct (export_bounds c a Hc) as (E1 & E2 & E3).
  change (sub_list 0 (length (pending_out c) - 0) (splice (c_write_buf c0) 0 (pending_out c)) = pending_out c). rewrite Nat.sub_0_r. apply sub_splice. lia.
Qed.

Lemma restored_queue c0 c a : portable c a -> blank c0 -> queue (restored c0 c) = queue c.
Proof.
  intros Hc H0. destruct (bl_bufs _ H0) as (B1 & B2 & B3). destruct (export_bounds c a Hc) as (E1 & E2 & E3).
  change (sub_list 0 (length (queue c) - 0) (splice (c_app_buf c0) 0 (queue c)) = queue c). rewrite Nat.sub_0_r. apply sub_splice. lia.
Qed.

Lemma restored_incoming c0 c a t : portable c a -> blank c0 -> incoming (restored c0 c) t = incoming c t.
Proof.
  intros Hc H0. destruct (bl_bufs _ H0) as (B1 & B2 & B3). destruct (pt_read_buf _ _ Hc) as [Hrl Hr]. unfold incoming. f_equal.
  change (take (c_read_len c) (splice (c_read_buf c0) 0 (take (c_read_len c) (c_read_buf c))) = take (c_read_len c) (c_read_buf c)).
  rewrite splice_0. apply take_app_length'. rewrite length_take. lia.
Qed.

Section Migrate.
Context {C : Cpu} {I : AesInstr}.
Context (fuel : nat) (junk : poly1305_state_t) (calloc_ok : bool) (ctx : opssl_aead_ctx) (c0 c : conn) (a : opssl_aead_algo_t).
Context (Hc : portable c a) (H0 : blank c0).

Lemma restored_sends : sends fuel junk calloc_ok c ctx -> sends fuel junk calloc_ok (restored c0 c) ctx.
Proof.
  intros [Ho He Ht Hsu Hf Hl Hb _ Hfu _]. destruct (bl_bufs _ H0) as (B1 & B2 & B3). destruct (bl_bytes _ H0) as [B4 B5]. destruct (export_bounds c a Hc) as (E1 & E2 & E3).
  split; [exact Ho | exact He | exact Ht | exact Hsu | exact Hf | | | | exact Hfu | split; [reflexivity | exact (bl_open _ H0)]].
  - change (length (splice (c_write_buf c0) 0 (pending_out c)) = READ_BUF_SIZE). rewrite splice_length; lia.
  - change (bytes (splice (c_write_buf c0) 0 (pending_out c))). apply bytes_splice; [done | by apply bytes_sub].
  - change ((0 < length (pending_out c) <= READ_BUF_SIZE)%nat \/ (length (pending_out c) = 0 /\ 0 = 0)%nat). lia.
Qed.

Lemma restored_receives : receives fuel junk calloc_ok c ctx -> receives fuel junk calloc_ok (restored c0 c) ctx.
Proof.
  intros [Ho He Ht Hsu Hf [Hl Hb Hr] Hla _ Hfu _]. destruct (bl_bufs _ H0) as (B1 & B2 & B3). destruct (bl_bytes _ H0) as [B4 B5]. destruct (export_bounds c a Hc) as (E1 & E2 & E3).
  assert (length (take (c_read_len c) (c_read_buf c)) = c_read_len c) as Htl by (rewrite length_take; lia).
  split; [exact Ho | exact He | exact Ht | exact Hsu | exact Hf | split | | | exact Hfu | reflexivity].
  - change (length (splice (c_read_buf c0) 0 (take (c_read_len c) (c_read_buf c))) = READ_BUF_SIZE). rewrite splice_length; lia.
  - change (bytes (splice (c_read_buf c0) 0 (take (c_read_len c) (c_read_buf c)))). apply bytes_splice; [done | by apply bytes_take].
  - exact Hr.
  - change (length (splice (c_app_buf c0) 0 (queue c)) = APP_BUF_SIZE). rewrite splice_length; lia.
  - change ((0 < length (queue c) <= APP_BUF_SIZE)%nat \/ (length (queue c) = 0 /\ 0 = 0)%nat). lia.
Qed.

Lemma export_import buf : queue c = [] -> (export_size c <= length buf)%nat -> exists buf', opssl_conn_export c buf = Some (Z.of_nat (export_size c), buf') /\
  opssl_conn_import true true c0 (take (export_size c) buf') = Some (0, restored c0 c).
Proof.
  intros Hq Hb. eexists. split; [by apply (export_ok c a Hc) |].
  assert (take (export_size c) (splice buf 0 (export_enc c)) = export_enc c ++ []) as ->; [| by apply (import_ok c0 c a Hc H0 [])].
  rewrite app_nil_r, splice_0. apply take_app_length'. by rewrite (export_enc_length c a Hc).
Qed.
End Migrate.

(** C10: either end of a channel can move to another process in the middle of
    anything, records half received or half sent, when it has no data waiting to be
    read: exporting the connection and importing it into a new one succeeds, and the
    new connection takes its place in the channel, with the same bytes in flight. *)
Theorem connection_migrates {C : Cpu} {I : AesInstr} fuel junk calloc_ok ctx s ds c0 a buf : linked fuel junk calloc_ok ctx s ds -> blank c0 ->
  (portable (w_conn s) a -> queue (w_conn s) = [] -> (export_size (w_conn s) <= length buf)%nat -> exists n buf' c',
    opssl_conn_export (w_conn s) buf = Some (Z.of_nat n, buf') /\ opssl_conn_import true true c0 (take n buf') = Some (0, c') /\
    linked fuel junk calloc_ok ctx (mk_chan c' (w_io s) (r_conn s) (r_io s) (w_bytes s) (r_bytes s)) ds) /\
  (portable (r_conn s) a -> queue (r_conn s) = [] -> (export_size (r_conn s) <= length buf)%nat -> exists n buf' c',
    opssl_conn_export (r_conn s) buf = Some (Z.of_nat n, buf') /\ opssl_conn_import true true c0 (take n buf') = Some (0, c') /\
    linked fuel junk calloc_ok ctx (mk_chan (w_conn s) (w_io s) c' (r_io s) (w_bytes s) (r_bytes s)) ds).
Proof.
  intros [Hsn Htx [Hrc Hrx Hds Hst Hp Hq] Hsame Hby] H0. split; intros Hc Hn Hb; destruct (export_import c0 _ a Hc H0 buf Hn Hb) as (buf' & Ee & Ei);
    eexists _, buf', _; (split; [exact Ee |]); (split; [exact Ei |]); split; cbn [w_conn w_io r_conn r_io w_bytes r_bytes]; try assumption.
  - by eapply restored_sends.
  - split; try assumption. unfold out. rewrite (restored_pending _ _ a) by done. exact Hst.
  - split; try assumption; [by eapply restored_receives |]. rewrite (restored_incoming _ _ a) by done. exact Hst.
  - rewrite (restored_queue _ _ a) by done. exact Hby.
Qed.

(** What is not exported: the traffic secrets.  A connection that has moved refuses
    the peer's next KeyUpdate, as a protocol error. *)
Lemma restored_refuses_key_update `{Cpu} `{Avx2} `{AesInstr} `{Clmul} fuel junk calloc_ok hfuel hjunk c0 c t : c_secret_len c0 = 0%nat ->
  exists c', key_update_received fuel junk calloc_ok hfuel hjunk [0] (restored c0 c, t) = Some (OPSSL_ERROR, (c', t)) /\ c_last_error c' = OPSSL_ERR_PROTOCOL.
Proof.
  intros E. unfold key_update_received, bind at 1, getc. cbn [fst]. change (c_secret_len (restored c0 c)) with (c_secret_len c0). rewrite E. cbn [Nat.eqb].
  rewrite !orb_true_r. cbn [orb]. by eexists.
Qed.

(** The application data is copied before its length is compared with that of the
    input. *)
Example conn_import_overread : opssl_conn_import true true (opssl_conn_new OPSSL_CLIENT)
  (le_bytes 4 OPX_MAGIC ++ le_bytes 4 128 ++ replicate 116 0 ++ le_bytes 2 16384 ++ le_bytes 2 0) = None.
Proof. vm_compute. reflexivity. Qed.

(* ------------------------------------------------------------------ *)
(** * Witness *)

#[local] Existing Instance plain_cpu.
#[local] Existing Instance aes_instr_model.

Lemma demo_portable : portable (demo_conn OPSSL_CLIENT) OPSSL_AEAD_CHACHA20_POLY1305.
Proof.
  split; try (vm_compute; reflexivity); try (split; vm_compute; reflexivity).
  - split; [vm_compute; reflexivity |]. split; [vm_compute; reflexivity |]. split; solve_bytes.
  - split; right; vm_compute; reflexivity.
  - split; (split; [vm_compute; discriminate | vm_compute; discriminate]).
  - repeat (split; [split; [vm_compute; discriminate | vm_compute; reflexivity] |]). split; [vm_compute; discriminate | vm_compute; reflexivity].
  - split; [vm_compute; reflexivity |]. change (c_read_len (demo_conn OPSSL_CLIENT)) with 0%nat. lia.
  - split; [vm_compute; reflexivity | right; split; vm_compute; reflexivity].
  - split; [vm_compute; reflexivity | right; split; vm_compute; reflexivity].
Qed.

Lemma connection_migrates_witness : exists n buf' c',
  opssl_conn_export (demo_conn OPSSL_CLIENT) (replicate 200 0) = Some (Z.of_nat n, buf') /\
  opssl_conn_import true true (opssl_conn_new OPSSL_CLIENT) (take n buf') = Some (0, c').
Proof.
  destruct demo_linked as [ctx Hl].
  destruct (connection_migrates demo_fuel poly1305_zero true ctx _ [] (opssl_conn_new OPSSL_CLIENT) OPSSL_AEAD_CHACHA20_POLY1305 (replicate 200 0) Hl (new_blank _)) as [H _].
  destruct (H demo_portable) as (n & buf' & c' & He & Hi & _); [vm_compute; reflexivity | apply Nat.leb_le; vm_compute; reflexivity |]. by exists n, buf', c'.
Defined.

(** With data waiting to be read it does not work: the import looks for the records
    where the data is. *)
Example conn_import_pending_data :
  let c := set_app_len 5 (set_app_buf (splice (replicate APP_BUF_SIZE 0) 0 [104; 101; 108; 108; 111]) (demo_conn OPSSL_CLIENT)) in
  match opssl_conn_export c (replicate 200 0) with
  | Some (n, buf) => n = 137 /\ option_map fst (opssl_conn_import true true (opssl_conn_new OPSSL_CLIENT) (take (off n) buf)) = Some (-1)
  | None => False
  end.
Proof. vm_compute. by split. Qed.
