(* ===== verification/X25519.v ===== *)
(** X25519 Diffie-Hellman: src/crypto/x25519.c.

    A field element is five 64-bit limbs of 51 bits.  Signed arithmetic is checked:
    [None] is a result outside its type, which is undefined in C.  The reference is
    RFC 7748's function on integers modulo 2^255 - 19. *)
From S2P Require Import Prelude Platform LeWord.
#[local] Open Scope Z_scope.

(* ------------------------------------------------------------------ *)
(** * Checked integers *)

Definition i64 (x : Z) : option Z := if (-0x8000000000000000 <=? x) && (x <? 0x8000000000000000) then Some x else None.
Definition i128 (x : Z) : option Z := if (-0x80000000000000000000000000000000 <=? x) && (x <? 0x80000000000000000000000000000000) then Some x else None.


(* ------------------------------------------------------------------ *)
(** * The code *)

Record fe25519 := Fe { l0 : Z; l1 : Z; l2 : Z; l3 : Z; l4 : Z }.

Definition MASK51 : Z := 0x7ffffffffffff.

Definition load64 (p : list Z) : Z :=
  Z.lor (Z.lor (Z.lor (Z.lor (Z.lor (Z.lor (Z.lor p.[0] (Z.shiftl p.[1] 8)) (Z.shiftl p.[2] 16)) (Z.shiftl p.[3] 24)) (Z.shiftl p.[4] 32))
    (Z.shiftl p.[5] 40)) (Z.shiftl p.[6] 48)) (Z.shiftl p.[7] 56).

Definition load56 (p : list Z) : Z :=
  Z.lor (Z.lor (Z.lor (Z.lor (Z.lor (Z.lor p.[0] (Z.shiftl p.[1] 8)) (Z.shiftl p.[2] 16)) (Z.shiftl p.[3] 24)) (Z.shiftl p.[4] 32))
    (Z.shiftl p.[5] 40)) (Z.shiftl p.[6] 48).

Definition fe_frombytes (s : list Z) : fe25519 :=
  Fe (Z.land (load64 s) MASK51) (Z.land (Z.shiftr (load64 (drop 6 s)) 3) MASK51) (Z.land (Z.shiftr (load64 (drop 12 s)) 6) MASK51)
     (Z.land (Z.shiftr (load64 (drop 19 s)) 1) MASK51) (Z.land (Z.shiftr (load56 (drop 25 s)) 4) MASK51).

(** The number of times 2^255 - 19 is subtracted. *)
Definition fe_quotient (h : fe25519) : option Z :=
  q ← i64 (19 * l4 h);
  q ← i64 (q + Z.shiftl 1 24);
  let q := Z.shiftr q 25 in
  q ← i64 (l0 h + q);
  let q := Z.shiftr q 51 in
  q ← i64 (l1 h + q);
  let q := Z.shiftr q 51 in
  q ← i64 (l2 h + q);
  let q := Z.shiftr q 51 in
  q ← i64 (l3 h + q);
  let q := Z.shiftr q 51 in
  q ← i64 (l4 h + q);
  Some (Z.shiftr q 51).

Definition fe_pack (t0 t1 t2 t3 t4 : Z) : list Z :=
  [ u8 t0; u8 (Z.shiftr t0 8); u8 (Z.shiftr t0 16); u8 (Z.shiftr t0 24); u8 (Z.shiftr t0 32); u8 (Z.shiftr t0 40);
    u8 (Z.lor (Z.shiftr t0 48) (Z.shiftl t1 3));
    u8 (Z.shiftr t1 5); u8 (Z.shiftr t1 13); u8 (Z.shiftr t1 21); u8 (Z.shiftr t1 29); u8 (Z.shiftr t1 37);
    u8 (Z.lor (Z.shiftr t1 45) (Z.shiftl t2 6));
    u8 (Z.shiftr t2 2); u8 (Z.shiftr t2 10); u8 (Z.shiftr t2 18); u8 (Z.shiftr t2 26); u8 (Z.shiftr t2 34); u8 (Z.shiftr t2 42);
    u8 (Z.lor (Z.shiftr t2 50) (Z.shiftl t3 1));
    u8 (Z.shiftr t3 7); u8 (Z.shiftr t3 15); u8 (Z.shiftr t3 23); u8 (Z.shiftr t3 31); u8 (Z.shiftr t3 39);
    u8 (Z.lor (Z.shiftr t3 47) (Z.shiftl t4 4));
    u8 (Z.shiftr t4 4); u8 (Z.shiftr t4 12); u8 (Z.shiftr t4 20); u8 (Z.shiftr t4 28); u8 (Z.shiftr t4 36); u8 (Z.shiftr t4 44) ].

Definition fe_tobytes (h : fe25519) : option (list Z) :=
  q ← fe_quotient h;
  d ← i64 (19 * q);
  t0 ← i64 (l0 h + d);
  let carry := Z.shiftr t0 51 in let t0 := Z.land t0 MASK51 in
  t1 ← i64 (l1 h + carry);
  let carry := Z.shiftr t1 51 in let t1 := Z.land t1 MASK51 in
  t2 ← i64 (l2 h + carry);
  let carry := Z.shiftr t2 51 in let t2 := Z.land t2 MASK51 in
  t3 ← i64 (l3 h + carry);
  let carry := Z.shiftr t3 51 in let t3 := Z.land t3 MASK51 in
  t4 ← i64 (l4 h + carry);
  let t4 := Z.land t4 MASK51 in
  Some (fe_pack t0 t1 t2 t3 t4).

Definition fe_add (f g : fe25519) : option fe25519 :=
  h0 ← i64 (l0 f + l0 g); h1 ← i64 (l1 f + l1 g); h2 ← i64 (l2 f + l2 g); h3 ← i64 (l3 f + l3 g); h4 ← i64 (l4 f + l4 g);
  Some (Fe h0 h1 h2 h3 h4).

(** The limbs of 2p. *)
Definition two_p : fe25519 := Fe 0xfffffffffffda 0xffffffffffffe 0xffffffffffffe 0xffffffffffffe 0xffffffffffffe.

Definition sub_limb (f g p2 : Z) : option Z := d ← i64 (f - g); i64 (d + p2).

Definition fe_sub (f g : fe25519) : option fe25519 :=
  h0 ← sub_limb (l0 f) (l0 g) (l0 two_p); h1 ← sub_limb (l1 f) (l1 g) (l1 two_p); h2 ← sub_limb (l2 f) (l2 g) (l2 two_p);
  h3 ← sub_limb (l3 f) (l3 g) (l3 two_p); h4 ← sub_limb (l4 f) (l4 g) (l4 two_p);
  Some (Fe h0 h1 h2 h3 h4).

(** A sum of products in [__int128]. *)
Fixpoint sum128 (acc : Z) (ps : list (Z * Z)) : option Z :=
  match ps with
  | [] => Some acc
  | (a, b) :: ps => m ← i128 (a * b); acc ← i128 (acc + m); sum128 acc ps
  end.

(** [carry = (int64_t)(r >> 51); h = (int64_t)r & MASK51] *)
Definition carry128 (r : Z) : Z * Z := (s64 (Z.shiftr r 51), Z.land (s64 r) MASK51).

Definition fe_products (f g : fe25519) : option (Z * Z * Z * Z * Z) :=
  let '(Fe f0 f1 f2 f3 f4) := f in let '(Fe g0 g1 g2 g3 g4) := g in
  f1_19 ← i64 (f1 * 19); f2_19 ← i64 (f2 * 19); f3_19 ← i64 (f3 * 19); f4_19 ← i64 (f4 * 19);
  r0 ← sum128 0 [(f0, g0); (f1_19, g4); (f2_19, g3); (f3_19, g2); (f4_19, g1)];
  r1 ← sum128 0 [(f0, g1); (f1, g0); (f2_19, g4); (f3_19, g3); (f4_19, g2)];
  r2 ← sum128 0 [(f0, g2); (f1, g1); (f2, g0); (f3_19, g4); (f4_19, g3)];
  r3 ← sum128 0 [(f0, g3); (f1, g2); (f2, g1); (f3, g0); (f4_19, g4)];
  r4 ← sum128 0 [(f0, g4); (f1, g3); (f2, g2); (f3, g1); (f4, g0)];
  Some (r0, r1, r2, r3, r4).

(** The carries of [fe_mul]. *)
Definition fe_reduce (r0 r1 r2 r3 r4 : Z) : option fe25519 :=
  let '(carry, h0) := carry128 r0 in
  r1 ← i128 (r1 + carry);
  let '(carry, h1) := carry128 r1 in
  r2 ← i128 (r2 + carry);
  let '(carry, h2) := carry128 r2 in
  r3 ← i128 (r3 + carry);
  let '(carry, h3) := carry128 r3 in
  r4 ← i128 (r4 + carry);
  let '(carry, h4) := carry128 r4 in
  c19 ← i64 (carry * 19);
  h0 ← i64 (h0 + c19);
  let carry := Z.shiftr h0 51 in let h0 := Z.land h0 MASK51 in
  h1 ← i64 (h1 + carry);
  let carry := Z.shiftr h1 51 in let h1 := Z.land h1 MASK51 in
  h2 ← i64 (h2 + carry);
  Some (Fe h0 h1 h2 h3 h4).

Definition fe_mul (f g : fe25519) : option fe25519 :=
  '(r0, r1, r2, r3, r4) ← fe_products f g;
  fe_reduce r0 r1 r2 r3 r4.

Definition fe_sq (f : fe25519) : option fe25519 := fe_mul f f.

Definition cswap_limb (mask f g : Z) : Z * Z := let t := Z.land mask (Z.lxor f g) in (Z.lxor f t, Z.lxor g t).

Definition fe_cswap (f g : fe25519) (b : Z) : fe25519 * fe25519 :=
  let mask := - b in
  let '(f0, g0) := cswap_limb mask (l0 f) (l0 g) in let '(f1, g1) := cswap_limb mask (l1 f) (l1 g) in
  let '(f2, g2) := cswap_limb mask (l2 f) (l2 g) in let '(f3, g3) := cswap_limb mask (l3 f) (l3 g) in
  let '(f4, g4) := cswap_limb mask (l4 f) (l4 g) in
  (Fe f0 f1 f2 f3 f4, Fe g0 g1 g2 g3 g4).

(** [n] squarings. *)
Fixpoint fe_sqn (n : nat) (f : fe25519) : option fe25519 :=
  match n with O => Some f | S n => f ← fe_sq f; fe_sqn n f end.

Definition fe_invert (z : fe25519) : option fe25519 :=
  t0 ← fe_sq z;
  t1 ← fe_sq t0;
  t1 ← fe_sq t1;
  t1 ← fe_mul z t1;
  t0 ← fe_mul t0 t1;
  t2 ← fe_sq t0;
  t1 ← fe_mul t1 t2;
  t2 ← fe_sq t1;
  t2 ← fe_sqn 4 t2;
  t1 ← fe_mul t2 t1;
  t2 ← fe_sq t1;
  t2 ← fe_sqn 9 t2;
  t2 ← fe_mul t2 t1;
  t3 ← fe_sq t2;
  t3 ← fe_sqn 19 t3;
  t2 ← fe_mul t3 t2;
  t2 ← fe_sq t2;
  t2 ← fe_sqn 9 t2;
  t1 ← fe_mul t2 t1;
  t2 ← fe_sq t1;
  t2 ← fe_sqn 49 t2;
  t2 ← fe_mul t2 t1;
  t3 ← fe_sq t2;
  t3 ← fe_sqn 99 t3;
  t2 ← fe_mul t3 t2;
  t2 ← fe_sq t2;
  t2 ← fe_sqn 49 t2;
  t1 ← fe_mul t2 t1;
  t1 ← fe_sq t1;
  t1 ← fe_sqn 4 t1;
  fe_mul t1 t0.

Definition fe_zero : fe25519 := Fe 0 0 0 0 0.
Definition fe_one : fe25519 := Fe 1 0 0 0 0.
Definition a24 : fe25519 := Fe 121666 0 0 0 0.

(** The clamped copy of the scalar. *)
Definition clamp (scalar : list Z) : list Z :=
  let e := take 32 scalar in
  let e := <[0%nat := Z.land e.[0] 248]> e in
  let e := <[31%nat := Z.land e.[31] 127]> e in
  <[31%nat := Z.lor e.[31] 64]> e.

(** The arithmetic of one step, after the swaps. *)
Definition ladder_arith (x1 x2 z2 x3 z3 : fe25519) : option (fe25519 * fe25519 * fe25519 * fe25519) :=
  tmp0 ← fe_sub x3 z3;
  tmp1 ← fe_sub x2 z2;
  x2 ← fe_add x2 z2;
  z2 ← fe_add x3 z3;
  z3 ← fe_mul tmp0 x2;
  z2 ← fe_mul z2 tmp1;
  tmp0 ← fe_sq tmp1;
  tmp1 ← fe_sq x2;
  x3 ← fe_add z3 z2;
  z2 ← fe_sub z3 z2;
  x2 ← fe_mul tmp1 tmp0;
  tmp1 ← fe_sub tmp1 tmp0;
  z2 ← fe_sq z2;
  z3 ← fe_mul tmp1 a24;
  x3 ← fe_sq x3;
  tmp0 ← fe_add tmp0 z3;
  z3 ← fe_mul x1 z2;
  z2 ← fe_mul tmp1 tmp0;
  Some (x2, z2, x3, z3).

(** The loop from position [n - 1] down to 0. *)
Fixpoint ladder (e : list Z) (x1 : fe25519) (n : nat) (x2 z2 x3 z3 : fe25519) (swap : Z) : option (fe25519 * fe25519 * fe25519 * fe25519 * Z) :=
  match n with
  | O => Some (x2, z2, x3, z3, swap)
  | S pos =>
    let b := Z.land (Z.shiftr e.[(pos / 8)%nat] (Z.land (Z.of_nat pos) 7)) 1 in
    let swap := Z.lxor swap b in
    let '(x2, x3) := fe_cswap x2 x3 swap in
    let '(z2, z3) := fe_cswap z2 z3 swap in
    let swap := b in
    '(x2, z2, x3, z3) ← ladder_arith x1 x2 z2 x3 z3;
    ladder e x1 pos x2 z2 x3 z3 swap
  end.

Definition x25519_scalar_mult (scalar point : list Z) : option (list Z) :=
  let e := clamp scalar in
  let x1 := fe_frombytes point in
  '(x2, z2, x3, z3, swap) ← ladder e x1 255 fe_one fe_zero x1 fe_one 0;
  let '(x2, _) := fe_cswap x2 x3 swap in
  let '(z2, _) := fe_cswap z2 z3 swap in
  z2 ← fe_invert z2;
  x2 ← fe_mul x2 z2;
  fe_tobytes x2.

(** The basepoint is 9. *)
Definition basepoint : list Z := 9 :: replicate 31 0.

(** The private key is the [random] bytes, when the generator gives any. *)
Definition opssl_x25519_keygen (random : option (list Z)) : option (Z * list Z * list Z) :=
  match random with
  | None => Some (0, [], [])
  | Some priv => pub ← x25519_scalar_mult priv basepoint; Some (1, priv, pub)
  end.

Definition opssl_x25519_derive (priv peer_pub : list Z) : option (Z * list Z) :=
  shared ← x25519_scalar_mult priv peer_pub;
  if opssl_ct_is_zero shared 32 =? 0 then Some (1, shared) else Some (0, replicate 32 0).
