(* ===== verification/X25519Ok.v ===== *)
(** The functions of [X25519] against RFC 7748: the field arithmetic stays within its
    integer types and computes modulo 2^255 - 19, and the ladder is the RFC's. *)
From Stdlib Require Import Zpow_facts.
From S2P Require Import Prelude Platform LeWord X25519.
#[local] Open Scope Z_scope.

(* ------------------------------------------------------------------ *)
(** * RFC 7748 *)

Definition p25519 : Z := 2 ^ 255 - 19.

Definition decodeScalar25519 (k : list Z) : Z := 2 ^ 254 + 8 * ((le_val k / 8) mod 2 ^ 251).

Definition decodeUCoordinate (u : list Z) : Z := le_val u mod 2 ^ 255.

Definition fp (x : Z) : Z := x mod p25519.

(** x^(p-2) *)
Definition fp_inv (x : Z) : Z := Zpow_mod x (p25519 - 2) p25519.

(** One step of the RFC's loop, on field elements. *)
Definition rfc_step (x1 x2 z2 x3 z3 : Z) : Z * Z * Z * Z :=
  let A := fp (x2 + z2) in let AA := fp (A * A) in
  let B := fp (x2 - z2) in let BB := fp (B * B) in
  let E := fp (AA - BB) in
  let C := fp (x3 + z3) in let D := fp (x3 - z3) in
  let DA := fp (D * A) in let CB := fp (C * B) in
  (fp (AA * BB), fp (E * (AA + 121665 * E)), fp ((DA + CB) * (DA + CB)), fp (x1 * fp ((DA - CB) * (DA - CB)))).

Fixpoint rfc_ladder (k x1 : Z) (n : nat) (x2 z2 x3 z3 : Z) (swap : bool) : Z * Z * Z * Z * bool :=
  match n with
  | O => (x2, z2, x3, z3, swap)
  | S t =>
    let kt := Z.testbit k (Z.of_nat t) in
    let '(x2, x3) := if xorb swap kt then (x3, x2) else (x2, x3) in
    let '(z2, z3) := if xorb swap kt then (z3, z2) else (z2, z3) in
    let '(x2, z2, x3, z3) := rfc_step x1 x2 z2 x3 z3 in
    rfc_ladder k x1 t x2 z2 x3 z3 kt
  end.

(** The function X25519 on numbers. *)
Definition rfc_x25519 (k u : Z) : Z :=
  let '(x2, z2, x3, z3, swap) := rfc_ladder k (fp u) 255 1 0 (fp u) 1 false in
  let x2 := if swap then x3 else x2 in
  let z2 := if swap then z3 else z2 in
  fp (x2 * fp_inv z2).

(* ------------------------------------------------------------------ *)
(** * Checked integers and limbs *)

Lemma i64_ok x : - 2 ^ 63 <= x < 2 ^ 63 -> i64 x = Some x.
Proof. intros Hx. unfold i64. destruct (Z.leb_spec (-0x8000000000000000) x), (Z.ltb_spec x 0x8000000000000000); cbn [andb]; (done || lia). Qed.

Lemma i128_ok x : - 2 ^ 127 <= x < 2 ^ 127 -> i128 x = Some x.
Proof.
  intros Hx. unfold i128. destruct (Z.leb_spec (-0x80000000000000000000000000000000) x), (Z.ltb_spec x 0x80000000000000000000000000000000); cbn [andb]; (done || lia).
Qed.

(** The limbs are between 0 and [b]. *)
Definition within (b : Z) (f : fe25519) : Prop :=
  0 <= l0 f <= b /\ 0 <= l1 f <= b /\ 0 <= l2 f <= b /\ 0 <= l3 f <= b /\ 0 <= l4 f <= b.

Abbreviation tight := (within (2 ^ 51)).
Abbreviation loose := (within (2 ^ 53)).

Definition fval (f : fe25519) : Z := l0 f + 2 ^ 51 * l1 f + 2 ^ 102 * l2 f + 2 ^ 153 * l3 f + 2 ^ 204 * l4 f.

(** [f] is a representation, within [b], of the field element [x]. *)
Definition rep (b : Z) (f : fe25519) (x : Z) : Prop := within b f /\ fp (fval f) = x.

Lemma within_weaken a b f : a <= b -> within a f -> within b f.
Proof. unfold within. lia. Qed.

Lemma rep_weaken a b f x : a <= b -> rep a f x -> rep b f x.
Proof. intros Hab [H1 H2]. split; [by eapply within_weaken | done]. Qed.

Lemma rep_loose f x : rep (2 ^ 51) f x -> rep (2 ^ 53) f x.
Proof. by apply rep_weaken. Qed.

Lemma rep_eq b f x y : rep b f x -> x = y -> rep b f y.
Proof. by intros H <-. Qed.

Lemma fp_idem x : fp (fp x) = fp x.
Proof. by apply Z.mod_mod. Qed.

Lemma fp_mul_l x y : fp (fp x * y) = fp (x * y).
Proof. apply Z.mul_mod_idemp_l. done. Qed.

Lemma fp_mul x y : fp (fp x * fp y) = fp (x * y).
Proof. symmetry. by apply Z.mul_mod. Qed.

Lemma fp_plus x k : fp (x + k * p25519) = fp x.
Proof. by apply Z.mod_add. Qed.

Lemma fe_add_ok f g x y : rep (2 ^ 51) f x -> rep (2 ^ 51) g y -> exists h, fe_add f g = Some h /\ rep (2 ^ 53) h (fp (x + y)).
Proof.
  intros [Hf <-] [Hg <-]. unfold within in *. unfold fe_add. rewrite !i64_ok by lia. cbn [mbind option_bind].
  eexists. split; [reflexivity |]. split; [unfold within; cbn [l0 l1 l2 l3 l4]; lia |].
  unfold fp. rewrite <- Z.add_mod by done. f_equal. unfold fval. cbn [l0 l1 l2 l3 l4]. ring.
Qed.

Lemma sub_limb_ok f g q : 0 <= f <= 2 ^ 51 -> 0 <= g <= 2 ^ 51 -> 2 ^ 51 <= q <= 2 ^ 52 -> sub_limb f g q = Some (f - g + q) /\ 0 <= f - g + q <= 2 ^ 53.
Proof. intros. unfold sub_limb. rewrite i64_ok by lia. cbn [mbind option_bind]. rewrite i64_ok by lia. split; [done | lia]. Qed.

Lemma fe_sub_ok f g x y : rep (2 ^ 51) f x -> rep (2 ^ 51) g y -> exists h, fe_sub f g = Some h /\ rep (2 ^ 53) h (fp (x - y)).
Proof.
  intros [(F0 & F1 & F2 & F3 & F4) <-] [(G0 & G1 & G2 & G3 & G4) <-]. unfold fe_sub.
  destruct (sub_limb_ok _ _ (l0 two_p) F0 G0 ltac:(unfold two_p; cbn; lia)) as [-> H0]. destruct (sub_limb_ok _ _ (l1 two_p) F1 G1 ltac:(unfold two_p; cbn; lia)) as [-> H1].
  destruct (sub_limb_ok _ _ (l2 two_p) F2 G2 ltac:(unfold two_p; cbn; lia)) as [-> H2]. destruct (sub_limb_ok _ _ (l3 two_p) F3 G3 ltac:(unfold two_p; cbn; lia)) as [-> H3].
  destruct (sub_limb_ok _ _ (l4 two_p) F4 G4 ltac:(unfold two_p; cbn; lia)) as [-> H4]. cbn [mbind option_bind].
  eexists. split; [reflexivity |]. split; [by repeat split; apply H0 || apply H1 || apply H2 || apply H3 || apply H4 |].
  unfold fp. rewrite <- Zminus_mod. fold (fp (fval f - fval g)). rewrite <- (fp_plus _ 2). unfold fp. f_equal.
  unfold fval, two_p, p25519. cbn [l0 l1 l2 l3 l4]. ring.
Qed.

(* ------------------------------------------------------------------ *)
(** * Multiplication *)

Definition dot (ps : list (Z * Z)) : Z := fold_right (fun q a => q.1 * q.2 + a) 0 ps.

Lemma sum128_ok A B ps : forall acc, 0 <= A -> 0 <= B -> 0 <= acc -> Forall (fun q => 0 <= q.1 <= A /\ 0 <= q.2 <= B) ps ->
  acc + Z.of_nat (length ps) * (A * B) < 2 ^ 127 -> sum128 acc ps = Some (acc + dot ps) /\ 0 <= dot ps <= Z.of_nat (length ps) * (A * B).
Proof.
  induction ps as [| [a b] ps IH]; intros acc HA HB Ha Hps Hl; cbn [sum128 dot fold_right]; [rewrite Z.add_0_r; split; [done | cbn; lia] |].
  apply Forall_cons in Hps as [[Ha' Hb'] Hps]. cbn [fst snd length] in *. rewrite Nat2Z.inj_succ, Z.mul_succ_l in Hl |- *.
  assert (0 <= a * b <= A * B) as Hab by (split; [lia | apply Z.mul_le_mono_nonneg; lia]). assert (0 <= Z.of_nat (length ps) * (A * B)) by (apply Z.mul_nonneg_nonneg; lia).
  rewrite i128_ok by lia. cbn [mbind option_bind]. rewrite i128_ok by lia. cbn [mbind option_bind].
  destruct (IH (acc + a * b) HA HB ltac:(lia) Hps ltac:(lia)) as [-> Hd]. fold (dot ps). split; [f_equal; lia | lia].
Qed.

Lemma s64_id x : - 2 ^ 63 <= x < 2 ^ 63 -> s64 x = x.
Proof.
  intros Hx. unfold s64. destruct (Z.ltb_spec (u64 x) 9223372036854775808); unfold u64 in *; Z.div_mod_to_equations; lia.
Qed.

Lemma mask51 x : Z.land x MASK51 = x mod 2 ^ 51.
Proof. exact (land_ones' x 51 ltac:(lia)). Qed.

Lemma carry128_ok r : 0 <= r < 2 ^ 114 -> carry128 r = (r / 2 ^ 51, r mod 2 ^ 51).
Proof.
  intros Hr. unfold carry128. rewrite mask51, shiftr_div, s64_id by (first [lia | Z.div_mod_to_equations; lia]). f_equal.
  assert (exists k, s64 r = r + k * 2 ^ 13 * 2 ^ 51) as [k ->]; [| by rewrite Z.mod_add].
  pose proof (s64_mod r) as Hs. unfold u64 in Hs. change 18446744073709551616 with (2 ^ 64) in Hs. exists (s64 r / 2 ^ 64 - r / 2 ^ 64).
  pose proof (Z.div_mod r (2 ^ 64) ltac:(lia)). pose proof (Z.div_mod (s64 r) (2 ^ 64) ltac:(lia)). lia.
Qed.

(** The five sums are those of the product of two elements. *)
Lemma fe_products_ok f g : loose f -> loose g -> exists r0 r1 r2 r3 r4 X, fe_products f g = Some (r0, r1, r2, r3, r4) /\
  (0 <= r0 <= 5 * 2 ^ 111 /\ 0 <= r1 <= 5 * 2 ^ 111 /\ 0 <= r2 <= 5 * 2 ^ 111 /\ 0 <= r3 <= 5 * 2 ^ 111 /\ 0 <= r4 <= 5 * 2 ^ 106) /\
  fval f * fval g = r0 + 2 ^ 51 * r1 + 2 ^ 102 * r2 + 2 ^ 153 * r3 + 2 ^ 204 * r4 + X * p25519.
Proof.
  destruct f as [f0 f1 f2 f3 f4], g as [g0 g1 g2 g3 g4]. unfold within. cbn [l0 l1 l2 l3 l4]. intros (F0 & F1 & F2 & F3 & F4) (G0 & G1 & G2 & G3 & G4).
  unfold fe_products. rewrite !i64_ok by lia. cbn [mbind option_bind].
  edestruct (sum128_ok (2 ^ 58) (2 ^ 53) [(f0, g0); (f1 * 19, g4); (f2 * 19, g3); (f3 * 19, g2); (f4 * 19, g1)] 0) as [-> R0]; [lia.. | repeat constructor; cbn [fst snd]; lia | cbn [length]; lia |].
  edestruct (sum128_ok (2 ^ 58) (2 ^ 53) [(f0, g1); (f1, g0); (f2 * 19, g4); (f3 * 19, g3); (f4 * 19, g2)] 0) as [-> R1]; [lia.. | repeat constructor; cbn [fst snd]; lia | cbn [length]; lia |].
  edestruct (sum128_ok (2 ^ 58) (2 ^ 53) [(f0, g2); (f1, g1); (f2, g0); (f3 * 19, g4); (f4 * 19, g3)] 0) as [-> R2]; [lia.. | repeat constructor; cbn [fst snd]; lia | cbn [length]; lia |].
  edestruct (sum128_ok (2 ^ 58) (2 ^ 53) [(f0, g3); (f1, g2); (f2, g1); (f3, g0); (f4 * 19, g4)] 0) as [-> R3]; [lia.. | repeat constructor; cbn [fst snd]; lia | cbn [length]; lia |].
  edestruct (sum128_ok (2 ^ 53) (2 ^ 53) [(f0, g4); (f1, g3); (f2, g2); (f3, g1); (f4, g0)] 0) as [-> R4]; [lia.. | repeat constructor; cbn [fst snd]; lia | cbn [length]; lia |].
  cbn [mbind option_bind length] in *. rewrite !Z.add_0_l.
  do 5 eexists. exists (f1 * g4 + f2 * g3 + f3 * g2 + f4 * g1 + 2 ^ 51 * (f2 * g4 + f3 * g3 + f4 * g2) + 2 ^ 102 * (f3 * g4 + f4 * g3) + 2 ^ 153 * (f4 * g4)).
  split; [reflexivity |]. split; [lia |]. unfold fval, dot, p25519. cbn [fold_right fst snd l0 l1 l2 l3 l4]. ring.
Qed.

Lemma limb_split x : exists c m, Z.shiftr x 51 = c /\ Z.land x MASK51 = m /\ x = 2 ^ 51 * c + m /\ 0 <= m < 2 ^ 51.
Proof. exists (x / 2 ^ 51), (x mod 2 ^ 51). rewrite mask51, shiftr_div by lia. repeat split; try apply Z.mod_pos_bound; try lia. apply Z.div_mod. lia. Qed.

Lemma carry_split r : 0 <= r < 2 ^ 114 -> exists c m, carry128 r = (c, m) /\ r = 2 ^ 51 * c + m /\ 0 <= m < 2 ^ 51.
Proof. intros Hr. rewrite carry128_ok by done. exists (r / 2 ^ 51), (r mod 2 ^ 51). split; [done |]. split; [apply Z.div_mod; lia | apply Z.mod_pos_bound; lia]. Qed.

(** The carries leave limbs of 51 bits, the third of at most 2^51. *)
Lemma carries_ok r0 r1 r2 r3 r4 : 0 <= r0 <= 5 * 2 ^ 111 -> 0 <= r1 <= 5 * 2 ^ 111 -> 0 <= r2 <= 5 * 2 ^ 111 -> 0 <= r3 <= 5 * 2 ^ 111 -> 0 <= r4 <= 5 * 2 ^ 106 ->
  exists h k, fe_reduce r0 r1 r2 r3 r4 = Some h /\ tight h /\ (l4 h < 2 ^ 51 /\ fval h < 2 ^ 255 + 2 ^ 153) /\
    fval h = r0 + 2 ^ 51 * r1 + 2 ^ 102 * r2 + 2 ^ 153 * r3 + 2 ^ 204 * r4 + k * p25519.
Proof.
  intros R0 R1 R2 R3 R4. unfold fe_reduce.
  destruct (carry_split r0) as (c0 & m0 & -> & E0 & M0); [lia |]. rewrite i128_ok by lia. cbn [mbind option_bind].
  destruct (carry_split (r1 + c0)) as (c1 & m1 & -> & E1 & M1); [lia |]. rewrite i128_ok by lia. cbn [mbind option_bind].
  destruct (carry_split (r2 + c1)) as (c2 & m2 & -> & E2 & M2); [lia |]. rewrite i128_ok by lia. cbn [mbind option_bind].
  destruct (carry_split (r3 + c2)) as (c3 & m3 & -> & E3 & M3); [lia |]. rewrite i128_ok by lia. cbn [mbind option_bind].
  destruct (carry_split (r4 + c3)) as (c4 & m4 & -> & E4 & M4); [lia |].
  rewrite i64_ok by lia. cbn [mbind option_bind]. rewrite i64_ok by lia. cbn [mbind option_bind].
  destruct (limb_split (m0 + c4 * 19)) as (d0 & n0 & -> & -> & D0 & N0). rewrite i64_ok by lia. cbn [mbind option_bind].
  destruct (limb_split (m1 + d0)) as (d1 & n1 & -> & -> & D1 & N1). rewrite i64_ok by lia. cbn [mbind option_bind].
  eexists. exists (- c4). split; [reflexivity |]. unfold within, fval, p25519. cbn [l0 l1 l2 l3 l4]. assert (0 <= d1 <= 1) by lia. split; [lia |]. split; [lia |]. lia.
Qed.

(** Multiplication, for limbs of up to 53 bits. *)
Lemma fe_mul_ok f g x y : rep (2 ^ 53) f x -> rep (2 ^ 53) g y -> exists h, fe_mul f g = Some h /\ rep (2 ^ 51) h (fp (x * y)) /\ l4 h < 2 ^ 51 /\ fval h < 2 ^ 255 + 2 ^ 153.
Proof.
  intros [Hf <-] [Hg <-]. unfold fe_mul. destruct (fe_products_ok f g Hf Hg) as (r0 & r1 & r2 & r3 & r4 & X & -> & (R0 & R1 & R2 & R3 & R4) & E). cbn [mbind option_bind].
  destruct (carries_ok r0 r1 r2 r3 r4 R0 R1 R2 R3 R4) as (h & k & -> & Ht & Hb & Ev). exists h. split; [done |]. split; [| done]. split; [done |].
  rewrite fp_mul, E, Ev. by rewrite !fp_plus.
Qed.

(* ------------------------------------------------------------------ *)
(** * Powers *)

(** [f] represents the [e]-th power of [z]. *)
Definition power (z : Z) (f : fe25519) (e : Z) : Prop := 0 <= e /\ rep (2 ^ 51) f (fp (z ^ e)).

Lemma power_mul z f g a b : power z f a -> power z g b -> exists h, fe_mul f g = Some h /\ power z h (a + b).
Proof.
  intros [Ha Hf] [Hb Hg]. destruct (fe_mul_ok f g _ _ (rep_loose _ _ Hf) (rep_loose _ _ Hg)) as (h & E & Hh & _). exists h. split; [done |].
  split; [lia |]. by rewrite fp_mul, <- Z.pow_add_r in Hh.
Qed.

Lemma power_sqn z n : forall f a, power z f a -> exists h, fe_sqn n f = Some h /\ power z h (a * 2 ^ Z.of_nat n).
Proof.
  induction n as [| n IH]; intros f a Hf; cbn [fe_sqn]; [exists f; by rewrite Z.mul_1_r |].
  destruct (power_mul z f f a a Hf Hf) as (g & E & Hg). unfold fe_sq. rewrite E. cbn [mbind option_bind].
  destruct (IH g (a + a) Hg) as (h & E' & Hh). exists h. split; [done |]. replace (a * 2 ^ Z.of_nat (S n)) with ((a + a) * 2 ^ Z.of_nat n); [done |].
  rewrite Nat2Z.inj_succ, Z.pow_succ_r by lia. ring.
Qed.

(** The next line of the exponentiation. *)
Ltac power_step :=
  match goal with
  | Hf : power ?z ?f ?a, Hg : power ?z ?g ?b |- context [fe_mul ?f ?g ≫= _] =>
    let h := fresh "t" in let E := fresh "E" in destruct (power_mul z f g a b Hf Hg) as (h & -> & ?)
  | Hf : power ?z ?f ?a |- context [fe_sq ?f ≫= _] => change (fe_sq f) with (fe_mul f f); destruct (power_mul z f f a a Hf Hf) as (? & -> & ?)
  | Hf : power ?z ?f ?a |- context [fe_sqn ?n ?f ≫= _] => destruct (power_sqn z n f a Hf) as (? & -> & ?)
  end; cbn [mbind option_bind].

Lemma fe_invert_ok f z : rep (2 ^ 51) f z -> exists h, fe_invert f = Some h /\ rep (2 ^ 51) h (fp_inv z).
Proof.
  intros Hf. assert (power z f 1) as H1. { split; [lia |]. rewrite Z.pow_1_r. destruct Hf as [H1 <-]. by rewrite fp_idem. }
  unfold fe_invert. do 30 power_step.
  match goal with Hf : power z ?f ?a, Hg : power z ?g ?b |- context [fe_mul ?f ?g] => destruct (power_mul z f g a b Hf Hg) as (h & E & _ & Hh) end.
  exists h. split; [exact E |]. unfold fp_inv. rewrite Zpow_mod_correct by done.
  match type of Hh with rep _ _ (fp (z ^ ?e)) => replace e with (p25519 - 2) in Hh by (vm_compute; reflexivity) end. exact Hh.
Qed.

(* ------------------------------------------------------------------ *)
(** * The ladder *)

Lemma fe_cswap_ok f g b : fe_cswap f g (b2z b) = if b then (g, f) else (f, g).
Proof.
  unfold fe_cswap, cswap_limb. destruct f as [f0 f1 f2 f3 f4], g as [g0 g1 g2 g3 g4]. cbn [l0 l1 l2 l3 l4]. destruct b; cbn [b2z].
  - rewrite !Z.land_m1_l, !(Z.lxor_comm f0), !(Z.lxor_comm f1), !(Z.lxor_comm f2), !(Z.lxor_comm f3), !(Z.lxor_comm f4), !lxor_cancel.
    by rewrite <- !(Z.lxor_assoc g0 g0), <- !(Z.lxor_assoc g1 g1), <- !(Z.lxor_assoc g2 g2), <- !(Z.lxor_assoc g3 g3), <- !(Z.lxor_assoc g4 g4), !Z.lxor_nilpotent, !Z.lxor_0_l.
  - by rewrite !Z.land_0_l, !Z.lxor_0_r.
Qed.

Lemma fe_mul_reps a b f g x y : rep a f x -> rep b g y -> a <= 2 ^ 53 -> b <= 2 ^ 53 -> exists h, fe_mul f g = Some h /\ rep (2 ^ 51) h (fp (x * y)).
Proof.
  intros Hf Hg Ha Hb. destruct (fe_mul_ok f g x y (rep_weaken _ _ _ _ Ha Hf) (rep_weaken _ _ _ _ Hb Hg)) as (h & E & Hh & _). by exists h.
Qed.

(** The next line of a step. *)
Ltac field_step :=
  match goal with
  | Hf : rep (2 ^ 51) ?f ?x, Hg : rep (2 ^ 51) ?g ?y |- context [fe_add ?f ?g ≫= _] => destruct (fe_add_ok f g x y Hf Hg) as (? & -> & ?)
  | Hf : rep (2 ^ 51) ?f ?x, Hg : rep (2 ^ 51) ?g ?y |- context [fe_sub ?f ?g ≫= _] => destruct (fe_sub_ok f g x y Hf Hg) as (? & -> & ?)
  | Hf : rep ?a ?f ?x |- context [fe_sq ?f ≫= _] => change (fe_sq f) with (fe_mul f f); destruct (fe_mul_reps a a f f x x Hf Hf ltac:(lia) ltac:(lia)) as (? & -> & ?)
  | Hf : rep ?a ?f ?x, Hg : rep ?b ?g ?y |- context [fe_mul ?f ?g ≫= _] => destruct (fe_mul_reps a b f g x y Hf Hg ltac:(lia) ltac:(lia)) as (? & -> & ?)
  end; cbn [mbind option_bind].

Lemma a24_rep : rep (2 ^ 53) a24 121666.
Proof. split; [unfold within, a24; cbn; lia | reflexivity]. Qed.

Lemma ladder_arith_ok f1 f2 e2 f3 e3 x1 x2 z2 x3 z3 : rep (2 ^ 51) f1 x1 -> rep (2 ^ 51) f2 x2 -> rep (2 ^ 51) e2 z2 -> rep (2 ^ 51) f3 x3 -> rep (2 ^ 51) e3 z3 ->
  exists f2' e2' f3' e3' x2' z2' x3' z3', ladder_arith f1 f2 e2 f3 e3 = Some (f2', e2', f3', e3') /\ rfc_step x1 x2 z2 x3 z3 = (x2', z2', x3', z3') /\
    rep (2 ^ 51) f2' x2' /\ rep (2 ^ 51) e2' z2' /\ rep (2 ^ 51) f3' x3' /\ rep (2 ^ 51) e3' z3'.
Proof.
  intros H1 H2 H3 H4 H5. unfold ladder_arith. pose proof a24_rep.
  repeat field_step. do 8 eexists. split; [reflexivity |]. split; [reflexivity |].
  repeat match goal with H : rep _ ?h _ |- rep _ ?h _ /\ _ => split; [eapply rep_eq; [exact H |] |] | H : rep _ ?h _ |- rep _ ?h _ => eapply rep_eq; [exact H |] end.
  all: unfold fp; Z.push_pull_mod; f_equal; ring.
Qed.

(** The bits of a number are those of its bytes. *)
Lemma le_val_testbit l : forall i j, bytes l -> 0 <= j < 8 -> Z.testbit (le_val l) (8 * Z.of_nat i + j) = Z.testbit l.[i] j.
Proof.
  induction l as [| b l IH]; intros i j Hl Hj; [destruct i; cbn; by rewrite !Z.testbit_0_l |]. apply bytes_cons in Hl as [Hb Hl].
  cbn [le_val]. destruct i as [| i].
  - rewrite Z.mul_0_r, Z.add_0_l. change (b :: l).[0] with b. rewrite <- (Z.mod_pow2_bits_low (b + 256 * le_val l) 8) by lia.
    change 256 with (2 ^ 8). rewrite Z.mul_comm, Z.mod_add by lia. by rewrite Z.mod_pow2_bits_low by lia.
  - change (b :: l).[S i] with l.[i]. rewrite <- IH by done. replace (8 * Z.of_nat (S i) + j) with ((8 * Z.of_nat i + j) + 8) by lia.
    rewrite <- Z.shiftr_spec, shiftr_div by lia. f_equal. unfold byte_ok in Hb. change (2 ^ 8) with 256. rewrite Z.mul_comm, Z.div_add, Z.div_small by lia. lia.
Qed.

Lemma bit_of_byte e k t : bytes e -> le_val e = k ->
  Z.land (Z.shiftr e.[(t / 8)%nat] (Z.land (Z.of_nat t) 7)) 1 = b2z (Z.testbit k (Z.of_nat t)).
Proof.
  intros He <-. change 7 with (2 ^ 3 - 1). change 1 with (2 ^ 1 - 1) at 2. rewrite !land_ones' by lia.
  pose proof (Nat.div_mod t 8 ltac:(lia)) as Ht. pose proof (Nat.mod_upper_bound t 8 ltac:(lia)) as Hm.
  assert (Z.of_nat t mod 2 ^ 3 = Z.of_nat (t mod 8)) as -> by (rewrite Nat2Z.inj_mod; done).
  replace (Z.of_nat t) with (8 * Z.of_nat (t / 8) + Z.of_nat (t mod 8)) by lia. rewrite le_val_testbit by (done || lia).
  change (2 ^ 1) with 2. rewrite <- (Z.bit0_mod), Z.shiftr_spec by lia. rewrite Z.add_0_l. by destruct (Z.testbit _ _).
Qed.

Definition state_rep (s : fe25519 * fe25519 * fe25519 * fe25519 * Z) (r : Z * Z * Z * Z * bool) : Prop :=
  let '(f2, e2, f3, e3, sw) := s in let '(x2, z2, x3, z3, b) := r in
  rep (2 ^ 51) f2 x2 /\ rep (2 ^ 51) e2 z2 /\ rep (2 ^ 51) f3 x3 /\ rep (2 ^ 51) e3 z3 /\ sw = b2z b.

Lemma b2z_xor a b : Z.lxor (b2z a) (b2z b) = b2z (xorb a b).
Proof. by destruct a, b. Qed.

Lemma ladder_ok e k f1 x1 n : bytes e -> le_val e = k -> rep (2 ^ 51) f1 x1 -> forall f2 e2 f3 e3 sw x2 z2 x3 z3 b,
  state_rep (f2, e2, f3, e3, sw) (x2, z2, x3, z3, b) -> exists s, ladder e f1 n f2 e2 f3 e3 sw = Some s /\ state_rep s (rfc_ladder k x1 n x2 z2 x3 z3 b).
Proof.
  intros He Hk H1. induction n as [| n IH]; intros f2 e2 f3 e3 sw x2 z2 x3 z3 b Hs; cbn [ladder rfc_ladder]; [by eexists |].
  destruct Hs as (R2 & S2 & R3 & S3 & ->). cbv zeta. rewrite (bit_of_byte e k n He Hk), b2z_xor, !fe_cswap_ok.
  set (kt := Z.testbit k (Z.of_nat n)).
  assert (forall f2 e2 f3 e3 x2 z2 x3 z3, rep (2 ^ 51) f2 x2 -> rep (2 ^ 51) e2 z2 -> rep (2 ^ 51) f3 x3 -> rep (2 ^ 51) e3 z3 ->
    exists s, ('(f2, e2, f3, e3) ← ladder_arith f1 f2 e2 f3 e3; ladder e f1 n f2 e2 f3 e3 (b2z kt)) = Some s /\
      state_rep s (let '(x2, z2, x3, z3) := rfc_step x1 x2 z2 x3 z3 in rfc_ladder k x1 n x2 z2 x3 z3 kt)) as Hstep.
  { clear - H1 IH. intros f2 e2 f3 e3 x2 z2 x3 z3 R2 S2 R3 S3.
    destruct (ladder_arith_ok f1 f2 e2 f3 e3 x1 x2 z2 x3 z3 H1 R2 S2 R3 S3) as (f2' & e2' & f3' & e3' & x2' & z2' & x3' & z3' & -> & -> & R2' & S2' & R3' & S3').
    cbn [mbind option_bind]. apply IH. by repeat split; apply R2' || apply S2' || apply R3' || apply S3'. }
  destruct (xorb b kt); by apply Hstep.
Qed.

(* ------------------------------------------------------------------ *)
(** * Bytes *)

Lemma clamp_shape a m b : length m = 30%nat -> clamp (a :: m ++ [b]) = Z.land a 248 :: m ++ [Z.lor (Z.land b 127) 64].
Proof.
  intros Hm. unfold clamp. cbv zeta. rewrite take_ge by (cbn [length]; rewrite length_app, Hm; cbn; lia).
  change (<[0%nat := Z.land (a :: m ++ [b]).[0] 248]> (a :: m ++ [b])) with (Z.land a 248 :: m ++ [b]).
  assert (forall x z y, <[31%nat := y]> (x :: m ++ [z]) = x :: m ++ [y]) as Hi.
  { intros x z y. change (x :: <[30%nat := y]> (m ++ [z]) = x :: m ++ [y]). f_equal. rewrite insert_app_r_alt by lia. by rewrite Hm. }
  assert (forall x y, (x :: m ++ [y]).[31] = y) as Hg.
  { intros x y. change ((m ++ [y]).[30] = y). rewrite get_app_r by lia. by rewrite Hm. }
  by rewrite (Hg _ b), (Hi _ b), (Hg _ (Z.land b 127)), (Hi _ (Z.land b 127)).
Qed.

Lemma clamp_byte_low a : byte_ok a -> Z.land a 248 = 8 * (a / 8).
Proof. intros Ha. apply Z.eqb_eq. by apply (byte_forall (fun a => Z.land a 248 =? 8 * (a / 8))). Qed.

Lemma clamp_byte_high b : byte_ok b -> Z.lor (Z.land b 127) 64 = 64 + b mod 64.
Proof. intros Hb. apply Z.eqb_eq. by apply (byte_forall (fun b => Z.lor (Z.land b 127) 64 =? 64 + b mod 64)). Qed.

Lemma split_32 (s : list Z) : length s = 32%nat -> exists a m b, s = a :: m ++ [b] /\ length m = 30%nat.
Proof.
  intros Hl. destruct s as [| a s]; [done |]. injection Hl as Hl. exists a, (take 30 s). destruct (drop 30 s) as [| b [| c d]] eqn:E;
    (apply (f_equal length) in E as El; rewrite length_drop, Hl in El; cbn in El; try lia).
  exists b. rewrite <- E, take_drop. split; [done | rewrite length_take; lia].
Qed.

Lemma clamp_ok s : bytes s -> length s = 32%nat -> bytes (clamp s) /\ le_val (clamp s) = decodeScalar25519 s.
Proof.
  intros Hs Hl. destruct (split_32 s Hl) as (a & m & b & -> & Hm). apply bytes_cons in Hs as [Ha [Hmb Hb]%bytes_app]. apply bytes_cons in Hb as [Hb _].
  rewrite clamp_shape, clamp_byte_low, clamp_byte_high by done. unfold byte_ok in *. split.
  - apply bytes_cons. split; [unfold byte_ok; Z.div_mod_to_equations; lia |]. apply bytes_app. split; [done |]. apply bytes_cons.
    split; [unfold byte_ok; Z.div_mod_to_equations; lia | apply bytes_nil].
  - unfold decodeScalar25519. cbn [le_val]. rewrite !le_val_app, Hm. cbn [le_val]. change (256 ^ Z.of_nat 30) with (2 ^ 240).
    pose proof (le_val_range m Hmb) as Hv. rewrite Hm in Hv. change (256 ^ Z.of_nat 30) with (2 ^ 240) in Hv.
    assert ((a + 256 * (le_val m + 2 ^ 240 * (b + 256 * 0))) / 8 = a / 8 + 32 * le_val m + 2 ^ 245 * b) as -> by (Z.div_mod_to_equations; lia).
    assert ((a / 8 + 32 * le_val m + 2 ^ 245 * b) mod 2 ^ 251 = a / 8 + 32 * le_val m + 2 ^ 245 * (b mod 64)) as ->; [| lia].
    symmetry. apply (Z.mod_unique_pos _ _ (b / 64)); Z.div_mod_to_equations; lia.
Qed.

Lemma load64_val p : bytes p -> (8 <= length p)%nat -> load64 p = le_val (take 8 p).
Proof.
  intros Hp Hl. destruct p as [| a [| b [| c [| d [| e [| f [| g [| h p]]]]]]]]; cbn [length] in Hl; try lia.
  unfold bytes in Hp. rewrite !Forall_cons in Hp. unfold byte_ok in Hp. unfold load64, get. cbn [nth take le_val]. rewrite take_0. cbn [le_val].
  rewrite (lor_add a b 8), (lor_add _ c 16), (lor_add _ d 24), (lor_add _ e 32), (lor_add _ f 40), (lor_add _ g 48), (lor_add _ h 56) by lia. lia.
Qed.

Lemma load56_val p : bytes p -> (7 <= length p)%nat -> load56 p = le_val (take 7 p).
Proof.
  intros Hp Hl. destruct p as [| a [| b [| c [| d [| e [| f [| g p]]]]]]]; cbn [length] in Hl; try lia.
  unfold bytes in Hp. rewrite !Forall_cons in Hp. unfold byte_ok in Hp. unfold load56, get. cbn [nth take le_val]. rewrite take_0. cbn [le_val].
  rewrite (lor_add a b 8), (lor_add _ c 16), (lor_add _ d 24), (lor_add _ e 32), (lor_add _ f 40), (lor_add _ g 48) by lia. lia.
Qed.

Lemma le_val_sub s off n : bytes s -> (off + n <= length s)%nat -> le_val (take n (drop off s)) = (le_val s / 256 ^ Z.of_nat off) mod 256 ^ Z.of_nat n.
Proof.
  intros Hs Hl. rewrite <- (take_drop off s) at 2. rewrite le_val_app, length_take, Nat.min_l by lia.
  pose proof (le_val_range _ (bytes_take off s Hs)) as Hr. rewrite length_take, Nat.min_l in Hr by lia.
  pose proof (pow256 off). rewrite Z.mul_comm, Z.div_add, Z.div_small, Z.add_0_l by lia.
  rewrite <- (take_drop n (drop off s)) at 2. rewrite le_val_app, length_take, length_drop, Nat.min_l by lia.
  pose proof (le_val_range _ (bytes_take n _ (bytes_drop off s Hs))) as Hr2. rewrite length_take, length_drop, Nat.min_l in Hr2 by lia.
  pose proof (pow256 n). rewrite Z.mul_comm, Z.mod_add, Z.mod_small by lia. done.
Qed.

Lemma mod_div_mod x n k m : 0 <= k -> 0 <= m -> k + m <= n -> (x mod 2 ^ n / 2 ^ k) mod 2 ^ m = (x / 2 ^ k) mod 2 ^ m.
Proof.
  intros Hk Hm Hn. apply Z.bits_inj'. intros i Hi. destruct (Z.lt_ge_cases i m).
  - rewrite !Z.mod_pow2_bits_low, <- !shiftr_div, !Z.shiftr_spec by lia. apply Z.mod_pow2_bits_low. lia.
  - by rewrite !Z.mod_pow2_bits_high by lia.
Qed.

(** A limb read at byte [off] and bit [k]. *)
Lemma limb_at s off n k : bytes s -> (off + n <= length s)%nat -> 0 <= k -> k + 51 <= 8 * Z.of_nat n ->
  Z.land (Z.shiftr (le_val (take n (drop off s))) k) MASK51 = (le_val s / 2 ^ (8 * Z.of_nat off + k)) mod 2 ^ 51.
Proof.
  intros Hs Hl Hk Hn. rewrite mask51, shiftr_div, le_val_sub, !pow256_bits, mod_div_mod by (done || lia).
  by rewrite Z.div_div, <- Z.pow_add_r by lia.
Qed.

Lemma fe_frombytes_ok s : bytes s -> length s = 32%nat -> rep (2 ^ 51) (fe_frombytes s) (fp (decodeUCoordinate s)).
Proof.
  intros Hs Hl. unfold fe_frombytes.
  rewrite (load64_val s), (load64_val (drop 6 s)), (load64_val (drop 12 s)), (load64_val (drop 19 s)), (load56_val (drop 25 s)) by
    (try apply bytes_drop; rewrite ?length_drop; (done || lia)).
  pose proof (limb_at s 0 8 0 Hs ltac:(lia) ltac:(lia) ltac:(lia)) as E0. rewrite drop_0, Z.shiftr_0_r in E0. rewrite E0.
  rewrite !limb_at by (done || lia). set (V := le_val s).
  change (8 * Z.of_nat 0 + 0) with 0. change (8 * Z.of_nat 6 + 3) with 51. change (8 * Z.of_nat 12 + 6) with 102. change (8 * Z.of_nat 19 + 1) with 153. change (8 * Z.of_nat 25 + 4) with 204.
  rewrite Z.div_1_r. pose proof (fun x => Z.mod_pos_bound x (2 ^ 51) ltac:(lia)) as Hb.
  split; [unfold within; cbn [l0 l1 l2 l3 l4]; repeat split; try apply Hb; apply Z.lt_le_incl, Hb |].
  unfold fval, decodeUCoordinate. fold V. cbn [l0 l1 l2 l3 l4]. f_equal.
  assert (forall x n, 0 <= n -> x mod 2 ^ (51 + n) = x mod 2 ^ 51 + 2 ^ 51 * ((x / 2 ^ 51) mod 2 ^ n)) as Hstep
    by (intros x n Hn; rewrite Z.pow_add_r by lia; apply Z.rem_mul_r; lia).
  pose proof (Hstep V 204 ltac:(lia)) as E1. pose proof (Hstep (V / 2 ^ 51) 153 ltac:(lia)) as E2. pose proof (Hstep (V / 2 ^ 102) 102 ltac:(lia)) as E3. pose proof (Hstep (V / 2 ^ 153) 51 ltac:(lia)) as E4.
  assert (forall n, 0 <= n -> V / 2 ^ n / 2 ^ 51 = V / 2 ^ (n + 51)) as Hd by (intros n Hn; by rewrite Z.div_div, <- Z.pow_add_r by lia).
  rewrite Hd in E2, E3, E4 by lia.
  change (51 + 204) with 255 in E1. change (51 + 153) with 204 in E2. change (51 + 102) with 153 in E3. change (51 + 51) with 102 in *. change (102 + 51) with 153 in *. change (153 + 51) with 204 in *.
  rewrite E1, E2, E3, E4. ring.
Qed.

(** The bits of a limb in a number. *)
Lemma byte_in_limb L t H a k : 0 <= L < 2 ^ a -> 0 <= a -> 0 <= k <= 43 ->
  u8 (Z.shiftr (L + 2 ^ a * (t + 2 ^ 51 * H)) (a + k)) = u8 (Z.shiftr t k).
Proof.
  intros HL Ha Hk. rewrite <- Z.shiftr_shiftr, (shiftr_div _ a) by lia. rewrite (Z.mul_comm (2 ^ a)), Z.div_add, Z.div_small, Z.add_0_l by lia.
  rewrite !shiftr_div by lia. replace (t + 2 ^ 51 * H) with (t + H * 2 ^ (51 - k) * 2 ^ k) by (rewrite <- Z.mul_assoc, <- Z.pow_add_r by lia; replace (51 - k + k) with 51; lia).
  rewrite Z.div_add by lia. unfold u8. replace (H * 2 ^ (51 - k)) with (H * 2 ^ (43 - k) * 256); [apply Z.mod_add; lia |].
  change 256 with (2 ^ 8). rewrite <- Z.mul_assoc, <- Z.pow_add_r by lia. do 2 f_equal. lia.
Qed.

Lemma byte_across L t t' H a k : 0 <= L < 2 ^ a -> 0 <= a -> 0 <= t < 2 ^ 51 -> 43 < k <= 51 ->
  u8 (Z.shiftr (L + 2 ^ a * (t + 2 ^ 51 * (t' + 2 ^ 51 * H))) (a + k)) = u8 (Z.lor (Z.shiftr t k) (Z.shiftl t' (51 - k))).
Proof.
  intros HL Ha Ht Hk. rewrite <- Z.shiftr_shiftr, (shiftr_div _ a) by lia. rewrite (Z.mul_comm (2 ^ a)), Z.div_add, Z.div_small, Z.add_0_l by lia.
  assert (2 ^ 51 = 2 ^ (51 - k) * 2 ^ k) as E51 by (rewrite <- Z.pow_add_r by lia; f_equal; lia).
  rewrite !shiftr_div by lia. rewrite lor_add; [| lia | split; [apply Z.div_pos; lia | apply Z.div_lt_upper_bound; lia]].
  replace (t + 2 ^ 51 * (t' + 2 ^ 51 * H)) with (t + (t' + 2 ^ 51 * H) * 2 ^ (51 - k) * 2 ^ k) by (rewrite E51 at 2; ring).
  rewrite Z.div_add by lia. unfold u8. replace (t / 2 ^ k + (t' + 2 ^ 51 * H) * 2 ^ (51 - k)) with (t / 2 ^ k + t' * 2 ^ (51 - k) + H * 2 ^ (51 - k) * 2 ^ 43 * 256) by ring.
  apply Z.mod_add. lia.
Qed.

(** The 32 bytes are those of the number. *)
Lemma fe_pack_ok t0 t1 t2 t3 t4 : 0 <= t0 < 2 ^ 51 -> 0 <= t1 < 2 ^ 51 -> 0 <= t2 < 2 ^ 51 -> 0 <= t3 < 2 ^ 51 -> 0 <= t4 < 2 ^ 51 ->
  fe_pack t0 t1 t2 t3 t4 = le_bytes 32 (fval (Fe t0 t1 t2 t3 t4)).
Proof.
  intros H0 H1 H2 H3 H4. unfold fval. cbn [l0 l1 l2 l3 l4]. set (W := t0 + _ + _ + _ + _).
  assert (W = 0 + 2 ^ 0 * (t0 + 2 ^ 51 * (t1 + 2 ^ 51 * (t2 + 2 ^ 51 * (t3 + 2 ^ 51 * t4))))) as E0 by (unfold W; ring).
  assert (W = t0 + 2 ^ 51 * (t1 + 2 ^ 51 * (t2 + 2 ^ 51 * (t3 + 2 ^ 51 * t4)))) as E1 by (unfold W; ring).
  assert (W = (t0 + 2 ^ 51 * t1) + 2 ^ 102 * (t2 + 2 ^ 51 * (t3 + 2 ^ 51 * t4))) as E2 by (unfold W; ring).
  assert (W = (t0 + 2 ^ 51 * t1 + 2 ^ 102 * t2) + 2 ^ 153 * (t3 + 2 ^ 51 * (t4 + 2 ^ 51 * 0))) as E3 by (unfold W; ring).
  assert (W = (t0 + 2 ^ 51 * t1 + 2 ^ 102 * t2 + 2 ^ 153 * t3) + 2 ^ 204 * (t4 + 2 ^ 51 * (0 + 2 ^ 51 * 0))) as E4 by (unfold W; ring).
  assert (forall k, 0 <= k <= 43 -> u8 (Z.shiftr W (0 + k)) = u8 (Z.shiftr t0 k)) as B0 by (intros; rewrite E0; apply byte_in_limb; lia).
  assert (forall k, 0 <= k <= 43 -> u8 (Z.shiftr W (51 + k)) = u8 (Z.shiftr t1 k)) as B1 by (intros; rewrite E1; apply byte_in_limb; lia).
  assert (forall k, 0 <= k <= 43 -> u8 (Z.shiftr W (102 + k)) = u8 (Z.shiftr t2 k)) as B2 by (intros; rewrite E2; apply byte_in_limb; lia).
  assert (forall k, 0 <= k <= 43 -> u8 (Z.shiftr W (153 + k)) = u8 (Z.shiftr t3 k)) as B3 by (intros; rewrite E3; apply byte_in_limb; lia).
  assert (forall k, 0 <= k <= 43 -> u8 (Z.shiftr W (204 + k)) = u8 (Z.shiftr t4 k)) as B4 by (intros; rewrite E4; apply byte_in_limb; lia).
  assert (u8 (Z.shiftr W (0 + 48)) = u8 (Z.lor (Z.shiftr t0 48) (Z.shiftl t1 3))) as S0 by (rewrite E0; apply byte_across; lia).
  assert (u8 (Z.shiftr W (51 + 45)) = u8 (Z.lor (Z.shiftr t1 45) (Z.shiftl t2 6))) as S1 by (rewrite E1; apply byte_across; lia).
  assert (u8 (Z.shiftr W (102 + 50)) = u8 (Z.lor (Z.shiftr t2 50) (Z.shiftl t3 1))) as S2 by (rewrite E2; apply byte_across; lia).
  assert (u8 (Z.shiftr W (153 + 47)) = u8 (Z.lor (Z.shiftr t3 47) (Z.shiftl t4 4))) as S3 by (rewrite E3; apply byte_across; lia).
  assert (u8 (Z.shiftr W (204 + 44)) = u8 (Z.shiftr t4 44)) as S4
    by (rewrite E4, (byte_across _ t4 0 0 204 44) by lia; by rewrite Z.shiftl_0_l, Z.lor_0_r).
  clearbody W. clear E0 E1 E2 E3 E4. rewrite le_bytes_map. unfold fe_pack. cbn [seq map].
  repeat (apply (f_equal2 (@cons Z)); [symmetry; first
    [ exact S0 | exact S1 | exact S2 | exact S3 | exact S4
    | match goal with |- u8 (Z.shiftr W ?n) = u8 (Z.shiftr ?t ?k) => first [ exact (B0 k ltac:(lia)) | exact (B1 k ltac:(lia)) | exact (B2 k ltac:(lia)) | exact (B3 k ltac:(lia)) | exact (B4 k ltac:(lia)) ] end
    | exact (B0 0 ltac:(lia)) ] |]). reflexivity.
Qed.

(** The quotient, and the number that is written: 2^255 - 19 is subtracted from a
    number that is 2^255 - 1275068416 or more. *)
Definition canonical (r : Z) : Z := if 2 ^ 255 - 1275068416 <=? r then r + 19 else r.

Lemma split51 x : exists c m, Z.shiftr x 51 = c /\ x = 2 ^ 51 * c + m /\ 0 <= m < 2 ^ 51.
Proof. destruct (limb_split x) as (c & m & E & _ & D & M). by exists c, m. Qed.

Lemma fe_quotient_ok h : tight h -> l4 h < 2 ^ 51 -> fval h < 2 ^ 255 + 2 ^ 153 -> exists q, fe_quotient h = Some q /\
  (0 <= q <= 1 /\ 0 <= fval h) /\ (fval h + 19 * q) mod 2 ^ 255 = canonical (fp (fval h)).
Proof.
  intros (H0 & H1 & H2 & H3 & H4) Hl Hv. unfold fe_quotient. rewrite i64_ok by lia. cbn [mbind option_bind]. change (Z.shiftl 1 24) with (2 ^ 24). rewrite i64_ok by lia. cbn [mbind option_bind].
  set (q0 := Z.shiftr (19 * l4 h + 2 ^ 24) 25). assert (0 <= q0 <= 1275068416 /\ (l4 h = 2 ^ 51 - 1 -> q0 = 1275068416)) as [Hq Hq0].
  { unfold q0. rewrite shiftr_div by lia. split; [Z.div_mod_to_equations; lia | intros ->; reflexivity]. }
  clearbody q0. rewrite i64_ok by lia. cbn [mbind option_bind].
  destruct (split51 (l0 h + q0)) as (c0 & m0 & -> & E0 & M0). rewrite i64_ok by lia. cbn [mbind option_bind].
  destruct (split51 (l1 h + c0)) as (c1 & m1 & -> & E1 & M1). rewrite i64_ok by lia. cbn [mbind option_bind].
  destruct (split51 (l2 h + c1)) as (c2 & m2 & -> & E2 & M2). rewrite i64_ok by lia. cbn [mbind option_bind].
  destruct (split51 (l3 h + c2)) as (c3 & m3 & -> & E3 & M3). rewrite i64_ok by lia. cbn [mbind option_bind].
  destruct (split51 (l4 h + c3)) as (q & m4 & -> & E4 & M4). exists q. split; [done |].
  set (v := fval h) in *. assert (v = l0 h + 2 ^ 51 * l1 h + 2 ^ 102 * l2 h + 2 ^ 153 * l3 h + 2 ^ 204 * l4 h) as Ev by reflexivity.
  assert (exists m, v + q0 = 2 ^ 255 * q + m /\ 0 <= m < 2 ^ 255) as (m & Em & Hm) by (exists (m0 + 2 ^ 51 * m1 + 2 ^ 102 * m2 + 2 ^ 153 * m3 + 2 ^ 204 * m4); lia).
  assert (0 <= v) as Hv0 by lia. assert (v < 2 ^ 255 - 2 ^ 204 + 2 ^ 203 \/ l4 h = 2 ^ 51 - 1) as Htop by lia.
  clearbody v. clear - Hv Hq Hq0 Em Hm Hv0 Htop. split; [lia |]. unfold canonical, fp, p25519.
  destruct (Z.lt_ge_cases v (2 ^ 255 - 19)) as [Hp | Hp].
  - rewrite (Z.mod_small v) by lia. destruct (Z.leb_spec (2 ^ 255 - 1275068416) v).
    + assert (q = 1) as -> by lia. rewrite Z.mod_small by lia. lia.
    + assert (q = 0) as -> by lia. rewrite Z.mod_small by lia. lia.
  - assert (v mod (2 ^ 255 - 19) = v - (2 ^ 255 - 19)) as -> by (symmetry; apply (Z.mod_unique_pos _ _ 1); lia).
    destruct (Z.leb_spec (2 ^ 255 - 1275068416) (v - (2 ^ 255 - 19))); [lia |]. assert (q = 1) as -> by lia.
    symmetry. apply (Z.mod_unique_pos _ _ 1); lia.
Qed.

Lemma fe_tobytes_ok h : tight h -> l4 h < 2 ^ 51 -> fval h < 2 ^ 255 + 2 ^ 153 -> fe_tobytes h = Some (le_bytes 32 (canonical (fp (fval h)))).
Proof.
  intros Ht Hl Hv. unfold fe_tobytes. destruct (fe_quotient_ok h Ht Hl Hv) as (q & -> & [Hq _] & Ec). destruct Ht as (H0 & H1 & H2 & H3 & H4). cbn [mbind option_bind].
  rewrite i64_ok by lia. cbn [mbind option_bind]. rewrite i64_ok by lia. cbn [mbind option_bind].
  destruct (limb_split (l0 h + 19 * q)) as (c0 & m0 & -> & -> & E0 & M0). rewrite i64_ok by lia. cbn [mbind option_bind].
  destruct (limb_split (l1 h + c0)) as (c1 & m1 & -> & -> & E1 & M1). rewrite i64_ok by lia. cbn [mbind option_bind].
  destruct (limb_split (l2 h + c1)) as (c2 & m2 & -> & -> & E2 & M2). rewrite i64_ok by lia. cbn [mbind option_bind].
  destruct (limb_split (l3 h + c2)) as (c3 & m3 & -> & -> & E3 & M3). rewrite i64_ok by lia. cbn [mbind option_bind].
  destruct (limb_split (l4 h + c3)) as (c4 & m4 & _ & -> & E4 & M4). rewrite fe_pack_ok by done. do 2 f_equal. rewrite <- Ec.
  apply (Z.mod_unique_pos _ _ c4); unfold fval; cbn [l0 l1 l2 l3 l4]; lia.
Qed.

(* ------------------------------------------------------------------ *)
(** * X25519 *)

Lemma one_rep : rep (2 ^ 51) fe_one 1.
Proof. split; [unfold within, fe_one; cbn; lia | reflexivity]. Qed.

Lemma zero_rep : rep (2 ^ 51) fe_zero 0.
Proof. split; [unfold within, fe_zero; cbn; lia | reflexivity]. Qed.

Lemma scalar_mult_ok k u : bytes k -> bytes u -> length k = 32%nat -> length u = 32%nat ->
  x25519_scalar_mult k u = Some (le_bytes 32 (canonical (rfc_x25519 (decodeScalar25519 k) (decodeUCoordinate u)))).
Proof.
  intros Hk Hu Lk Lu. unfold x25519_scalar_mult, rfc_x25519. destruct (clamp_ok k Hk Lk) as [He Hv].
  pose proof (fe_frombytes_ok u Hu Lu) as H1. pose proof one_rep as R1. pose proof zero_rep as R0.
  destruct (ladder_ok (clamp k) _ _ _ 255 He Hv H1 fe_one fe_zero (fe_frombytes u) fe_one 0 1 0 _ 1 false (conj R1 (conj R0 (conj H1 (conj R1 eq_refl)))))
    as ([[[[f2 e2] f3] e3] sw] & -> & Hs).
  set (r := rfc_ladder _ _ _ _ _ _ _ _). change (state_rep (f2, e2, f3, e3, sw) r) in Hs. destruct r as [[[[x2 z2] x3] z3] b]. destruct Hs as (R2 & S2 & R3 & S3 & ->). cbn [mbind option_bind]. rewrite !fe_cswap_ok.
  assert (forall f e x z, rep (2 ^ 51) f x -> rep (2 ^ 51) e z -> (z2 ← fe_invert e; x2 ← fe_mul f z2; fe_tobytes x2) = Some (le_bytes 32 (canonical (fp (x * fp_inv z))))) as Hend.
  { clear. intros f e x z Hf He. destruct (fe_invert_ok e z He) as (i & -> & Hi). cbn [mbind option_bind].
    destruct (fe_mul_ok f i x (fp_inv z) (rep_loose _ _ Hf) (rep_loose _ _ Hi)) as (h & -> & [Ht <-] & Hl & Hv). cbn [mbind option_bind]. by apply fe_tobytes_ok. }
  destruct b; by apply Hend.
Qed.

Lemma fp_range x : 0 <= fp x < p25519.
Proof. by apply Z.mod_pos_bound. Qed.

Lemma rfc_range k u : 0 <= rfc_x25519 k u < p25519.
Proof. unfold rfc_x25519. destruct (rfc_ladder _ _ _ _ _ _ _ _) as [[[[x2 z2] x3] z3] b]. apply fp_range. Qed.

#[local] Opaque rfc_x25519 x25519_scalar_mult.

Lemma canonical_range r : 0 <= r < p25519 -> 0 <= canonical r < 2 ^ 255 /\ (canonical r = 0 <-> r = 0).
Proof. unfold canonical, p25519. destruct (Z.leb_spec (2 ^ 255 - 1275068416) r); lia. Qed.

Lemma canonical_id r : r < 2 ^ 255 - 1275068416 -> canonical r = r.
Proof. unfold canonical. destruct (Z.leb_spec (2 ^ 255 - 1275068416) r); [lia | done]. Qed.

Lemma encode_zero c : 0 <= c < 2 ^ 255 -> opssl_ct_is_zero (le_bytes 32 c) 32 = b2z (c =? 0).
Proof.
  intros Hc. rewrite opssl_ct_is_zero_spec by (first [apply le_bytes_ok | by rewrite le_bytes_length]). f_equal.
  rewrite take_ge by (by rewrite le_bytes_length). destruct (Z.eqb_spec c 0) as [-> | Hn]; [by apply bool_decide_eq_true_2 |].
  apply bool_decide_eq_false_2. intros E. apply (f_equal le_val) in E. rewrite le_bytes_mod, Z.mod_small in E by (change (256 ^ Z.of_nat 32) with (2 ^ 256); lia).
  by change (le_val (replicate 32 0)) with 0 in E.
Qed.

Lemma x25519_derive_ok k u : bytes k -> bytes u -> length k = 32%nat -> length u = 32%nat ->
  let r := rfc_x25519 (decodeScalar25519 k) (decodeUCoordinate u) in
  opssl_x25519_derive k u = Some (if r =? 0 then (0, replicate 32 0) else (1, le_bytes 32 (canonical r))).
Proof.
  intros Hk Hu Lk Lu r. unfold opssl_x25519_derive. rewrite scalar_mult_ok by done. fold r. cbn [mbind option_bind].
  destruct (canonical_range r (rfc_range _ _)) as [Hc Hz]. rewrite encode_zero by done.
  destruct (Z.eqb_spec (canonical r) 0), (Z.eqb_spec r 0); try tauto; reflexivity.
Qed.

(** C5: the key exchange is RFC 7748's.  For any private key and any public value the
    derivation returns, without overflow, the little-endian encoding of the RFC's
    X25519 and refuses a result of zero; the key pair is the private key with its
    multiple of 9.  The one exception is [canonical]: a result of
    2^255 - 1275068416 or more is written with 19 added to it. *)
Theorem x25519_rfc7748 k u : bytes k -> bytes u -> length k = 32%nat -> length u = 32%nat ->
  let r := rfc_x25519 (decodeScalar25519 k) (decodeUCoordinate u) in
  opssl_x25519_derive k u = Some (if r =? 0 then (0, replicate 32 0) else (1, le_bytes 32 (canonical r))) /\
  opssl_x25519_keygen (Some k) = Some (1, k, le_bytes 32 (canonical (rfc_x25519 (decodeScalar25519 k) 9))) /\
  (0 <= r < p25519 /\ (r < 2 ^ 255 - 1275068416 -> canonical r = r)).
Proof.
  intros Hk Hu Lk Lu r. split; [by apply x25519_derive_ok |]. split.
  - assert (bytes basepoint) as Hb by solve_bytes. assert (decodeUCoordinate basepoint = 9) as E9 by reflexivity.
    pose proof (scalar_mult_ok k basepoint Hk Hb Lk eq_refl) as E. rewrite E9 in E. unfold opssl_x25519_keygen. rewrite E. exact eq_refl.
  - split; [apply rfc_range | apply canonical_id].
Qed.

Lemma x25519_rfc7748_witness : let k := replicate 32 7 in let u := basepoint in
  let r := rfc_x25519 (decodeScalar25519 k) 9 in
  opssl_x25519_derive k u = Some (if r =? 0 then (0, replicate 32 0) else (1, le_bytes 32 (canonical r))).
Proof.
  assert (bytes (replicate 32 7)) as Hk by solve_bytes. assert (bytes basepoint) as Hu by solve_bytes.
  exact (proj1 (x25519_rfc7748 (replicate 32 7) basepoint Hk Hu eq_refl eq_refl)).
Defined.

(** C6: no operation of the field arithmetic leaves its integer type.  Elements of
    limbs up to 2^51 add and subtract to elements of limbs up to 2^53; those multiply
    to elements of limbs up to 2^51 again; and each is the operation modulo
    2^255 - 19. *)
Theorem fe_arith_bounds f g : loose f -> loose g ->
  (exists h, fe_mul f g = Some h /\ tight h /\ fp (fval h) = fp (fval f * fval g)) /\
  (tight f -> tight g ->
    (exists h, fe_add f g = Some h /\ loose h /\ fp (fval h) = fp (fval f + fval g)) /\
    (exists h, fe_sub f g = Some h /\ loose h /\ fp (fval h) = fp (fval f - fval g))).
Proof.
  intros Hf Hg. split.
  - destruct (fe_mul_ok f g _ _ (conj Hf eq_refl) (conj Hg eq_refl)) as (h & E & [Ht Hv] & _). exists h. by rewrite fp_mul in Hv.
  - intros Tf Tg. split.
    + destruct (fe_add_ok f g _ _ (conj Tf eq_refl) (conj Tg eq_refl)) as (h & E & Hl & Hv). exists h. split; [done |]. split; [done |]. rewrite Hv. unfold fp. by rewrite <- Z.add_mod.
    + destruct (fe_sub_ok f g _ _ (conj Tf eq_refl) (conj Tg eq_refl)) as (h & E & Hl & Hv). exists h. split; [done |]. split; [done |]. rewrite Hv. unfold fp. by rewrite <- Zminus_mod.
Qed.

(** At the bounds. *)
Lemma fe_arith_bounds_witness : let f := Fe (2 ^ 53) (2 ^ 53) (2 ^ 53) (2 ^ 53) (2 ^ 53) in
  loose f /\ exists h, fe_mul f f = Some h /\ tight h.
Proof.
  intros f. assert (loose f) as Hf by (unfold f, within; cbn; lia). split; [exact Hf |].
  destruct (fe_arith_bounds f f Hf Hf) as [(h & E & Ht & _) _]. exists h. split; [exact E | exact Ht].
Defined.

(** 2^255 - 35 is below the prime, and is written as 2^255 - 16. *)
Example tobytes_noncanonical : let h := Fe (2 ^ 51 - 35) MASK51 MASK51 MASK51 MASK51 in
  fp (fval h) = 2 ^ 255 - 35 /\ fe_tobytes h = Some (le_bytes 32 (2 ^ 255 - 16)).
Proof. split; vm_compute; reflexivity. Qed.
