(* ===== verification/Tls13.v ===== *)
(** The TLS 1.3 handshake: src/tls/tls13.c.

    [hs] is [tls13_hs_t], grouped as its comments group it.  An array with a
    length beside it is the list of the bytes in use; a secret is the [hash_len]
    bytes in use of its array.  The calls into the public-key code (x25519.c,
    ecc.c, ed25519.c, rsa.c, cert.c, pkey.c) are the class [Pki].

    A call runs in the monad [M] over [hs]; its failure is undefined behaviour.
    An inner call that returns -1 or 0 gives [None] as its value. *)
From Stdlib Require Import String.
From S2P Require Import Prelude Types Platform Err Cbs Asn1 Cbb Cpu Sha256 Sha512 Hmac Hkdf KeySched.
From stdpp Require Import gmap.
#[local] Open Scope Z_scope.

(* ------------------------------------------------------------------ *)
(** * The public-key operations *)

Inductive opssl_pkey_type_t := OPSSL_PKEY_RSA | OPSSL_PKEY_EC | OPSSL_PKEY_ED25519.

Class Pki := {
  opssl_x25519_derive : list Z -> list Z -> option (list Z);         (* scalar, point *)
  opssl_ecdh_ctx : Type;
  opssl_ecdh_keygen : opssl_curve_t -> list Z -> option opssl_ecdh_ctx;  (* with the random bytes it draws *)
  opssl_ecdh_get_public : opssl_ecdh_ctx -> option (list Z);
  opssl_ecdh_derive : opssl_ecdh_ctx -> list Z -> option (list Z);
  opssl_pkey : Type;
  opssl_pkey_type : opssl_pkey -> opssl_pkey_type_t;
  opssl_pkey_bits : opssl_pkey -> Z;
  opssl_pkey_sign : opssl_pkey -> list Z -> option (list Z);
  x509_spki : list Z -> option (list Z * list Z);                    (* [get_spki] and [get_spki_der] *)
  opssl_ed25519_verify : list Z -> list Z -> list Z -> bool;         (* signature, message, key *)
  ecdsa_verify : opssl_curve_t -> list Z -> list Z -> list Z -> bool; (* key, digest, signature *)
  rsa_pss_verify : list Z -> opssl_hmac_algo_t -> list Z -> list Z -> bool }.

(* ------------------------------------------------------------------ *)
(** * Constants *)

Definition TLS13_MSG_CLIENT_HELLO : Z := 1.
Definition TLS13_MSG_SERVER_HELLO : Z := 2.
Definition TLS13_MSG_ENCRYPTED_EXTENSIONS : Z := 8.
Definition TLS13_MSG_CERTIFICATE : Z := 11.
Definition TLS13_MSG_CERTIFICATE_REQUEST : Z := 13.
Definition TLS13_MSG_CERTIFICATE_VERIFY : Z := 15.
Definition TLS13_MSG_FINISHED : Z := 20.
Definition TLS13_MAX_PEER_CERTS : nat := 10.

Definition EXT_SERVER_NAME : Z := 0.
Definition EXT_STATUS_REQUEST : Z := 5.
Definition EXT_SUPPORTED_GROUPS : Z := 10.
Definition EXT_SIGNATURE_ALGORITHMS : Z := 13.
Definition EXT_ALPN : Z := 16.
Definition EXT_SIGNED_CERT_TIMESTAMP : Z := 18.
Definition EXT_PRE_SHARED_KEY : Z := 41.
Definition EXT_EARLY_DATA : Z := 42.
Definition EXT_SUPPORTED_VERSIONS : Z := 43.
Definition EXT_PSK_KEY_EXCHANGE_MODES : Z := 45.
Definition EXT_POST_HANDSHAKE_AUTH : Z := 49.
Definition EXT_KEY_SHARE : Z := 51.

Definition TLS_AES_128_GCM_SHA256 : Z := 0x1301.
Definition TLS_AES_256_GCM_SHA384 : Z := 0x1302.
Definition TLS_CHACHA20_POLY1305_SHA256 : Z := 0x1303.
Definition TLS_AES_128_CCM_SHA256 : Z := 0x1304.
Definition TLS_AES_128_CCM_8_SHA256 : Z := 0x1305.
Definition TLS_AES_256_CCM_SHA384 : Z := 0xC0B0.
Definition TLS_AES_256_CCM_8_SHA384 : Z := 0xC0B1.
Definition TLS_CAMELLIA_128_GCM_SHA256 : Z := 0xC0B2.
Definition TLS_CAMELLIA_256_GCM_SHA384 : Z := 0xC0B3.

Definition NAMED_GROUP_X25519 : Z := 0x1D.
Definition NAMED_GROUP_SECP256R1 : Z := 0x17.
Definition NAMED_GROUP_SECP384R1 : Z := 0x18.
Definition NAMED_GROUP_SECP521R1 : Z := 0x19.

Definition tls13_cipher_preference : list Z :=
  [TLS_AES_256_GCM_SHA384; TLS_CHACHA20_POLY1305_SHA256; TLS_AES_128_GCM_SHA256; TLS_CAMELLIA_256_GCM_SHA384; TLS_CAMELLIA_128_GCM_SHA256;
   TLS_AES_256_CCM_SHA384; TLS_AES_128_CCM_SHA256; TLS_AES_256_CCM_8_SHA384; TLS_AES_128_CCM_8_SHA256].

(* ------------------------------------------------------------------ *)
(** * The state *)

Section Tls13.
Context `{Cpu} {P : Pki}.

(** [ecdh_priv] holds a scalar, or the bytes of the pointer to a context. *)
Inductive ecdh_priv_t := NoKey | Scalar (k : list Z) | Ecdh (c : opssl_ecdh_ctx).

(** Key exchange ephemeral keys, primary and secondary. *)
Record kex := mk_kex {
  k_group : Z; k_priv : ecdh_priv_t; k_pub : list Z; k_peer : list Z; k_shared : list Z;
  k_sec_group : Z; k_sec_priv : ecdh_priv_t; k_sec_pub : list Z
}.

Record secrets := mk_secrets {
  s_early : list Z; s_handshake : list Z; s_master : list Z; s_client_hs : list Z; s_server_hs : list Z;
  s_client_ap : list Z; s_server_ap : list Z; s_exporter : list Z; s_resumption : list Z
}.

(** PSK resumption. *)
Record psk_state := mk_psk {
  p_psk : list Z; p_ticket : list Z; p_has : bool; p_offered : bool; p_accepted : bool; p_dhe_ke : bool; p_binder : list Z
}.

(** What the caller has set. *)
Record config := mk_config {
  g_sign_key : option opssl_pkey; g_chain : option (list (list Z)); g_client_key : option opssl_pkey; g_client_chain : option (list (list Z));
  g_sni : list Z; g_alpn_offer : list Z; g_alpn_supported : list Z; g_ocsp : list Z; g_sct : list Z; g_early_max : Z
}.

(** What the peer has sent, and what was negotiated. *)
Record peer := mk_peer {
  r_session_id : list Z; r_cert : list Z; r_chain : list (list Z); r_cert_verified : bool; r_request_cert : bool;
  r_ocsp_requested : bool; r_sct_requested : bool; r_early_offered : bool; r_early_accepted : bool; r_post_auth : bool;
  r_alpn_client : list Z; r_alpn : list Z
}.

Record hs := mk_hs {
  h_state : Z; h_is_server : bool; h_cipher : Z; h_algo : opssl_hmac_algo_t; h_len : nat;
  h_crandom : list Z; h_srandom : list Z; h_sha256 : opssl_sha256_ctx; h_sha384 : opssl_sha512_ctx;
  h_kex : kex; h_secrets : secrets; h_psk : psk_state; h_config : config; h_peer : peer
}.

Definition set_state (v : Z) (h : hs) : hs := mk_hs v (h_is_server h) (h_cipher h) (h_algo h) (h_len h) (h_crandom h) (h_srandom h) (h_sha256 h) (h_sha384 h) (h_kex h) (h_secrets h) (h_psk h) (h_config h) (h_peer h).
Definition set_is_server (v : bool) (h : hs) : hs := mk_hs (h_state h) v (h_cipher h) (h_algo h) (h_len h) (h_crandom h) (h_srandom h) (h_sha256 h) (h_sha384 h) (h_kex h) (h_secrets h) (h_psk h) (h_config h) (h_peer h).
Definition set_suite (c : Z) (a : opssl_hmac_algo_t) (n : nat) (h : hs) : hs := mk_hs (h_state h) (h_is_server h) c a n (h_crandom h) (h_srandom h) (h_sha256 h) (h_sha384 h) (h_kex h) (h_secrets h) (h_psk h) (h_config h) (h_peer h).
Definition set_crandom (v : list Z) (h : hs) : hs := mk_hs (h_state h) (h_is_server h) (h_cipher h) (h_algo h) (h_len h) v (h_srandom h) (h_sha256 h) (h_sha384 h) (h_kex h) (h_secrets h) (h_psk h) (h_config h) (h_peer h).
Definition set_srandom (v : list Z) (h : hs) : hs := mk_hs (h_state h) (h_is_server h) (h_cipher h) (h_algo h) (h_len h) (h_crandom h) v (h_sha256 h) (h_sha384 h) (h_kex h) (h_secrets h) (h_psk h) (h_config h) (h_peer h).
Definition set_transcript (a : opssl_sha256_ctx) (b : opssl_sha512_ctx) (h : hs) : hs := mk_hs (h_state h) (h_is_server h) (h_cipher h) (h_algo h) (h_len h) (h_crandom h) (h_srandom h) a b (h_kex h) (h_secrets h) (h_psk h) (h_config h) (h_peer h).
Definition set_kex (v : kex) (h : hs) : hs := mk_hs (h_state h) (h_is_server h) (h_cipher h) (h_algo h) (h_len h) (h_crandom h) (h_srandom h) (h_sha256 h) (h_sha384 h) v (h_secrets h) (h_psk h) (h_config h) (h_peer h).
Definition set_secrets (v : secrets) (h : hs) : hs := mk_hs (h_state h) (h_is_server h) (h_cipher h) (h_algo h) (h_len h) (h_crandom h) (h_srandom h) (h_sha256 h) (h_sha384 h) (h_kex h) v (h_psk h) (h_config h) (h_peer h).
Definition set_psk (v : psk_state) (h : hs) : hs := mk_hs (h_state h) (h_is_server h) (h_cipher h) (h_algo h) (h_len h) (h_crandom h) (h_srandom h) (h_sha256 h) (h_sha384 h) (h_kex h) (h_secrets h) v (h_config h) (h_peer h).
Definition set_peer (v : peer) (h : hs) : hs := mk_hs (h_state h) (h_is_server h) (h_cipher h) (h_algo h) (h_len h) (h_crandom h) (h_srandom h) (h_sha256 h) (h_sha384 h) (h_kex h) (h_secrets h) (h_psk h) (h_config h) v.
Definition set_config (v : config) (h : hs) : hs := mk_hs (h_state h) (h_is_server h) (h_cipher h) (h_algo h) (h_len h) (h_crandom h) (h_srandom h) (h_sha256 h) (h_sha384 h) (h_kex h) (h_secrets h) (h_psk h) v (h_peer h).

(* ------------------------------------------------------------------ *)
(** * The monad *)

Definition M (A : Type) : Type := hs -> option (A * hs).

Definition ret {A} (a : A) : M A := fun h => Some (a, h).
Definition bind {A B} (m : M A) (k : A -> M B) : M B := fun h => match m h with Some (a, h) => k a h | None => None end.
Definition ub {A} : M A := fun _ => None.
Definition get : M hs := fun h => Some (h, h).
Definition modify (f : hs -> hs) : M unit := fun h => Some (tt, f h).

(** A result that may be undefined behaviour. *)
Definition lift {A} (o : option A) : M A := fun h => match o with Some a => Some (a, h) | None => None end.

(** [if (call failed) return e;] *)
Definition or_return {A B} (m : M (option A)) (e : M B) (k : A -> M B) : M B := bind m (fun o => match o with Some a => k a | None => e end).
End Tls13.

Declare Scope hs_scope.
Delimit Scope hs_scope with hs.
Notation "x <- m ;; k" := (bind m (fun x => k)) (at level 100, m at next level, right associativity) : hs_scope.
Notation "m ;;; k" := (bind m (fun _ => k)) (at level 100, right associativity) : hs_scope.
Notation "x <- m 'or' e ;; k" := (or_return m e (fun x => k)) (at level 100, m at next level, e at next level, right associativity) : hs_scope.
#[local] Open Scope hs_scope.

Section Ops.
Context `{Cpu} {P : Pki}.
Variable junk : Z.           (* what [realloc] leaves in new memory *)
Variable hfuel : nat.        (* for HKDF *)
Variable hjunk : list Z.     (* the array of HKDF labels before a call *)

(* ------------------------------------------------------------------ *)
(** * Messages *)

(** A message is written with a builder whose additions are all checked.  With
    [flush], the builder is flushed and the result of that is not looked at; then
    it is finished, and the bytes copied if they fit ([cbb_finish_to_buf]). *)
Definition run_builder (flush : bool) (initial_cap : Z) (ops : list bop) : op (option (list Z)) :=
  let fuel := (2 + length ops)%nat in
  _ ← opssl_cbb_init 0 initial_cap;
  ok ← run_ops junk fuel ops;
  if negb ok then mret None else
  _ ← (if flush then opssl_cbb_flush fuel 0 else mret true);
  r ← opssl_cbb_finish fuel 0;
  match r with Some r => read_out r | None => mret None end.

Definition build_message (flush : bool) (initial_cap : Z) (ops : list bop) : option (option (list Z)) :=
  match run_builder flush initial_cap ops (mk_store ∅ ∅ 0) with Some (r, _) => Some r | None => None end.

Definition cbb_finish_to_buf (flush : bool) (initial_cap : Z) (ops : list bop) (out_cap : Z) : M (option (list Z)) :=
  m <- lift (build_message flush initial_cap ops) ;;
  ret match m with Some built => if out_cap <? Z.of_nat (length built) then None else Some built | None => None end.

#[local] Abbreviation CBS_len := opssl_cbs_len (only parsing).

Definition u16_of (v : Z) : list Z := opssl_put_be16 (u16 v).

(* ------------------------------------------------------------------ *)
(** * The transcript *)

Definition tls13_update_transcript (data : list Z) : M unit :=
  modify (fun h => set_transcript (opssl_sha256_update (h_sha256 h) data) (opssl_sha512_update (h_sha384 h) data) h).

Definition tls13_get_transcript_hash : M (option (list Z)) :=
  h <- get ;;
  ret match h_algo h with
      | OPSSL_HMAC_SHA256 => Some (opssl_sha256_final (h_sha256 h)).1
      | OPSSL_HMAC_SHA384 => Some (opssl_sha384_final (h_sha384 h)).1
      | _ => None
      end.

Definition suite_hash (cipher : Z) : opssl_hmac_algo_t * nat :=
  if (cipher =? TLS_AES_256_GCM_SHA384) || (cipher =? TLS_AES_256_CCM_SHA384) || (cipher =? TLS_AES_256_CCM_8_SHA384) ||
     (cipher =? TLS_CAMELLIA_256_GCM_SHA384)
  then (OPSSL_HMAC_SHA384, 48%nat) else (OPSSL_HMAC_SHA256, 32%nat).

(** [hs->cipher = cipher; tls13_set_hash_for_cipher(hs, cipher)] *)
Definition tls13_set_hash_for_cipher (cipher : Z) : M unit :=
  modify (set_suite cipher (suite_hash cipher).1 (suite_hash cipher).2).

Definition init_transcript : M unit :=
  modify (fun h => set_transcript (opssl_sha256_init (h_sha256 h)) (opssl_sha384_init (h_sha384 h)) h).

(* ------------------------------------------------------------------ *)
(** * Key derivation *)

(** The calls into keysched.c, with an output array of [hash_len] bytes. *)
Definition extract_secret (salt ikm : list Z) : M (option (list Z)) :=
  h <- get ;;
  r <- lift (opssl_tls13_extract_secret (Some (replicate (h_len h) 0)) (Some salt) (Some ikm) (h_len h) (h_algo h)) ;;
  ret match r with Some (s, _) => Some (take (h_len h) s) | None => None end.

Definition derive_secret (secret label : list Z) (context : option (list Z)) : M (option (list Z)) :=
  h <- get ;;
  lift (opssl_tls13_derive_secret_compat hfuel hjunk (Some (replicate (h_len h) 0)) (Some secret) (Some label) context (h_algo h)).

Definition expand_label (n : nat) (secret label : list Z) : M (option (list Z)) :=
  h <- get ;;
  lift (opssl_tls13_hkdf_expand_label hfuel hjunk (replicate n 0) secret label [] (h_algo h)).

Definition hmac (key data : list Z) : M (option (list Z)) :=
  h <- get ;;
  ret match opssl_hmac (h_algo h) (Some key) data with Some (d, _) => Some d | None => None end.

Definition set_hs_secrets (e hsec c s : list Z) (x : secrets) : secrets :=
  mk_secrets e hsec (s_master x) c s (s_client_ap x) (s_server_ap x) (s_exporter x) (s_resumption x).
Definition set_ap_secrets (m c s e : list Z) (x : secrets) : secrets :=
  mk_secrets (s_early x) (s_handshake x) m (s_client_hs x) (s_server_hs x) c s e (s_resumption x).
Definition set_resumption (r : list Z) (x : secrets) : secrets :=
  mk_secrets (s_early x) (s_handshake x) (s_master x) (s_client_hs x) (s_server_hs x) (s_client_ap x) (s_server_ap x) (s_exporter x) r.
Definition mod_secrets (f : secrets -> secrets) : M unit := modify (fun h => set_secrets (f (h_secrets h)) h).

(** The secrets are stored one by one, the last only when all have been derived. *)
Definition tls13_derive_handshake_secrets : M (option unit) :=
  th <- tls13_get_transcript_hash or ret None ;;
  h <- get ;;
  let zeros := replicate (h_len h) 0 in
  let ikm := if p_has (h_psk h) && (0 <? length (p_psk (h_psk h)))%nat then p_psk (h_psk h) else zeros in
  early <- extract_secret zeros ikm or ret None ;;
  mod_secrets (fun x => set_hs_secrets early (s_handshake x) (s_client_hs x) (s_server_hs x) x) ;;;
  derived <- derive_secret early TLS13_LABEL_DERIVED None or ret None ;;
  hsec <- extract_secret derived (k_shared (h_kex h)) or ret None ;;
  mod_secrets (fun x => set_hs_secrets early hsec (s_client_hs x) (s_server_hs x) x) ;;;
  c <- derive_secret hsec TLS13_LABEL_C_HS_TRAFFIC (Some th) or ret None ;;
  mod_secrets (fun x => set_hs_secrets early hsec c (s_server_hs x) x) ;;;
  s <- derive_secret hsec TLS13_LABEL_S_HS_TRAFFIC (Some th) or ret None ;;
  mod_secrets (fun x => set_hs_secrets early hsec c s x) ;;;
  ret (Some tt).

Definition tls13_derive_application_secrets : M (option unit) :=
  h <- get ;;
  derived <- derive_secret (s_handshake (h_secrets h)) TLS13_LABEL_DERIVED None or ret None ;;
  m <- extract_secret derived (replicate (h_len h) 0) or ret None ;;
  mod_secrets (fun x => set_ap_secrets m (s_client_ap x) (s_server_ap x) (s_exporter x) x) ;;;
  th <- tls13_get_transcript_hash or ret None ;;
  c <- derive_secret m TLS13_LABEL_C_AP_TRAFFIC (Some th) or ret None ;;
  mod_secrets (fun x => set_ap_secrets m c (s_server_ap x) (s_exporter x) x) ;;;
  s <- derive_secret m TLS13_LABEL_S_AP_TRAFFIC (Some th) or ret None ;;
  mod_secrets (fun x => set_ap_secrets m c s (s_exporter x) x) ;;;
  e <- derive_secret m (chars "exp master") (Some th) or ret None ;;
  mod_secrets (fun x => set_ap_secrets m c s e x) ;;;
  ret (Some tt).

(** At the end of both handshakes; a failure leaves the secret as it was. *)
Definition derive_resumption : M unit :=
  th <- tls13_get_transcript_hash ;;
  match th with
  | None => ret tt
  | Some th =>
    h <- get ;;
    r <- derive_secret (s_master (h_secrets h)) (chars "res master") (Some th) ;;
    match r with Some r => mod_secrets (set_resumption r) | None => ret tt end
  end.

(** The verify data of a Finished message, from a traffic secret. *)
Definition finished_data (traffic_secret : list Z) : M (option (list Z)) :=
  th <- tls13_get_transcript_hash or ret None ;;
  h <- get ;;
  key <- expand_label (h_len h) traffic_secret TLS13_LABEL_FINISHED or ret None ;;
  hmac key th.

(* ------------------------------------------------------------------ *)
(** * Key exchange *)

(** [opssl_random_bytes]: -1, or the bytes. *)
Definition random_bytes (r : option (list Z)) (n : nat) : M (option (list Z)) := ret (option_map (take n) r).

Definition basepoint : list Z := 9 :: replicate 31 0.

Definition set_keypair (g : Z) (priv : ecdh_priv_t) (pub : list Z) : M unit :=
  modify (fun h => let k := h_kex h in set_kex (mk_kex g priv pub (k_peer k) (k_shared k) (k_sec_group k) (k_sec_priv k) (k_sec_pub k)) h).

Definition curve_of (group : Z) : opssl_curve_t := if group =? NAMED_GROUP_SECP256R1 then OPSSL_CURVE_P256 else OPSSL_CURVE_P384.

(** [r]: the random bytes of the scalar, or those the curve's generator draws. *)
Definition tls13_generate_key_pair_for_group (r : option (list Z)) (group : Z) : M (option unit) :=
  if group =? NAMED_GROUP_X25519 then
    priv <- random_bytes r 32 or ret None ;;
    match opssl_x25519_derive priv basepoint with
    | None => ret None
    | Some pub => set_keypair group (Scalar priv) pub ;;; ret (Some tt)
    end
  else if (group =? NAMED_GROUP_SECP256R1) || (group =? NAMED_GROUP_SECP384R1) then
    match r ≫= opssl_ecdh_keygen (curve_of group) with
    | None => ret None
    | Some ecdh =>
      match opssl_ecdh_get_public ecdh with
      | None => ret None
      | Some pub => set_keypair group (Ecdh ecdh) pub ;;; ret (Some tt)
      end
    end
  else ret None.

Definition set_shared (s : list Z) (priv : ecdh_priv_t) : M unit :=
  modify (fun h => let k := h_kex h in set_kex (mk_kex (k_group k) priv (k_pub k) (k_peer k) s (k_sec_group k) (k_sec_priv k) (k_sec_pub k)) h).

(** The private key is read as a scalar, or as a pointer, by the group: a scalar
    read as a pointer is a wild one. *)
Definition tls13_compute_shared_secret : M (option unit) :=
  h <- get ;;
  let k := h_kex h in
  if k_group k =? NAMED_GROUP_X25519 then
    match k_priv k with
    | Scalar priv =>
      match opssl_x25519_derive priv (take 32 (k_peer k ++ replicate 32 0)) with
      | None => ret None
      | Some s => set_shared s (k_priv k) ;;; ret (Some tt)
      end
    | _ => ub
    end
  else if (k_group k =? NAMED_GROUP_SECP256R1) || (k_group k =? NAMED_GROUP_SECP384R1) then
    match k_priv k with
    | NoKey => ret None
    | Scalar _ => ub
    | Ecdh ecdh =>
      match opssl_ecdh_derive ecdh (k_peer k) with
      | None => ret None
      | Some s => set_shared s NoKey ;;; ret (Some tt)
      end
    end
  else ret None.

(* ------------------------------------------------------------------ *)
(** * ClientHello *)

(** Whether a list of suites has one, by the pairs of bytes of the list. *)
Fixpoint offers (fuel : nat) (suite : Z) (copy : cbs) : bool :=
  match fuel with
  | O => false
  | S fuel =>
    if CBS_len copy <? 2 then false else
    match opssl_cbs_get_u16 copy with
    | (Some s, copy) => if s =? suite then true else offers fuel suite copy
    | (None, _) => false
    end
  end.

Fixpoint first_offered (prefs : list Z) (suites : cbs) : option Z :=
  match prefs with
  | [] => None
  | p :: prefs => if offers (Z.to_nat (CBS_len suites)) p suites then Some p else first_offered prefs suites
  end.

Definition tls13_select_cipher_suite (suites : cbs) : option Z := first_offered tls13_cipher_preference suites.

(** [memcpy(dst, CBS_data(x), CBS_len(x))] *)
Definition content (x : cbs) : list Z := take (Z.to_nat (len x)) (data x).

(** The group and key of the first share that can be used. *)
Definition share_ok (group klen : Z) : bool :=
  ((group =? NAMED_GROUP_X25519) && (klen =? 32)) || ((group =? NAMED_GROUP_SECP256R1) && (klen =? 65)) ||
  ((group =? NAMED_GROUP_SECP384R1) && (klen =? 97)).

Fixpoint find_share (fuel : nat) (shares : cbs) : option (Z * list Z) :=
  match fuel with
  | O => None
  | S fuel =>
    if CBS_len shares <=? 0 then None else
    match cbs_bind opssl_cbs_get_u16 (fun g => cbs_bind opssl_cbs_get_u16_length_prefixed (fun k c => (Some (g, k), c))) shares with
    | (Some (group, key), shares) =>
      if share_ok group (CBS_len key) then Some (group, content key) else find_share fuel shares
    | (None, _) => None
    end
  end.

(** [peer_ecdh_pub], of the length its group has. *)
Definition set_peer_key (group : Z) (key : list Z) : M unit :=
  modify (fun h => let k := h_kex h in
    set_kex (mk_kex group (k_priv k) (k_pub k) key (k_shared k) (k_sec_group k) (k_sec_priv k) (k_sec_pub k)) h).

Definition tls13_parse_key_share_extension (ext_data : cbs) : M (option unit) :=
  match opssl_cbs_get_u16_length_prefixed ext_data with
  | (None, _) => ret None
  | (Some shares, _) =>
    match find_share (Z.to_nat (CBS_len shares)) shares with
    | None => ret None
    | Some (group, key) => set_peer_key group key ;;; ret (Some tt)
    end
  end.

Definition mod_config (f : config -> config) : M unit := modify (fun h => set_config (f (h_config h)) h).
Definition mod_peer (f : peer -> peer) : M unit := modify (fun h => set_peer (f (h_peer h)) h).
Definition mod_psk (f : psk_state -> psk_state) : M unit := modify (fun h => set_psk (f (h_psk h)) h).

Definition set_sni (v : list Z) (g : config) : config := mk_config (g_sign_key g) (g_chain g) (g_client_key g) (g_client_chain g) v (g_alpn_offer g) (g_alpn_supported g) (g_ocsp g) (g_sct g) (g_early_max g).
Definition set_session_id (v : list Z) (r : peer) : peer := mk_peer v (r_cert r) (r_chain r) (r_cert_verified r) (r_request_cert r) (r_ocsp_requested r) (r_sct_requested r) (r_early_offered r) (r_early_accepted r) (r_post_auth r) (r_alpn_client r) (r_alpn r).
Definition set_certs (c : list Z) (ch : list (list Z)) (r : peer) : peer := mk_peer (r_session_id r) c ch (r_cert_verified r) (r_request_cert r) (r_ocsp_requested r) (r_sct_requested r) (r_early_offered r) (r_early_accepted r) (r_post_auth r) (r_alpn_client r) (r_alpn r).
Definition set_verified (r : peer) : peer := mk_peer (r_session_id r) (r_cert r) (r_chain r) true (r_request_cert r) (r_ocsp_requested r) (r_sct_requested r) (r_early_offered r) (r_early_accepted r) (r_post_auth r) (r_alpn_client r) (r_alpn r).
Definition set_request_cert (v : bool) (r : peer) : peer := mk_peer (r_session_id r) (r_cert r) (r_chain r) (r_cert_verified r) v (r_ocsp_requested r) (r_sct_requested r) (r_early_offered r) (r_early_accepted r) (r_post_auth r) (r_alpn_client r) (r_alpn r).
Definition set_wants (ocsp sct early post : bool) (r : peer) : peer := mk_peer (r_session_id r) (r_cert r) (r_chain r) (r_cert_verified r) (r_request_cert r) ocsp sct early (r_early_accepted r) post (r_alpn_client r) (r_alpn r).
Definition set_early_accepted (r : peer) : peer := mk_peer (r_session_id r) (r_cert r) (r_chain r) (r_cert_verified r) (r_request_cert r) (r_ocsp_requested r) (r_sct_requested r) (r_early_offered r) true (r_post_auth r) (r_alpn_client r) (r_alpn r).
Definition set_alpn_client (v : list Z) (r : peer) : peer := mk_peer (r_session_id r) (r_cert r) (r_chain r) (r_cert_verified r) (r_request_cert r) (r_ocsp_requested r) (r_sct_requested r) (r_early_offered r) (r_early_accepted r) (r_post_auth r) v (r_alpn r).
Definition set_alpn (v : list Z) (r : peer) : peer := mk_peer (r_session_id r) (r_cert r) (r_chain r) (r_cert_verified r) (r_request_cert r) (r_ocsp_requested r) (r_sct_requested r) (r_early_offered r) (r_early_accepted r) (r_post_auth r) (r_alpn_client r) v.

(** server_name: the first name of type 0. *)
Fixpoint find_sni (fuel : nat) (sni_list : cbs) : option (list Z) :=
  match fuel with
  | O => None
  | S fuel =>
    if CBS_len sni_list <? 3 then None else
    match cbs_bind opssl_cbs_get_u8 (fun t => cbs_bind opssl_cbs_get_u16_length_prefixed (fun n c => (Some (t, n), c))) sni_list with
    | (Some (name_type, name), sni_list) =>
      if name_type =? 0 then (if CBS_len name <? 256 then Some (content name) else None) else find_sni fuel sni_list
    | (None, _) => None
    end
  end.

(** ALPN: the protocols, with their lengths, as far as an array of 128 bytes goes. *)
Fixpoint alpn_protocols (fuel : nat) (proto_list : cbs) (done : list Z) : list Z :=
  match fuel with
  | O => done
  | S fuel =>
    if (CBS_len proto_list <=? 0) || (126 <=? Z.of_nat (length done)) then done else
    match opssl_cbs_get_u8_length_prefixed proto_list with
    | (None, _) => done
    | (Some proto, proto_list) =>
      let plen := CBS_len proto in
      if (plen =? 0) || (128 <? Z.of_nat (length done) + 1 + plen) then done
      else alpn_protocols fuel proto_list (done ++ plen :: content proto)
    end
  end.

(** psk_key_exchange_modes: whether psk_dhe_ke (1) is among them. *)
Fixpoint has_dhe_ke (fuel : nat) (modes : cbs) : bool :=
  match fuel with
  | O => false
  | S fuel =>
    match opssl_cbs_get_u8 modes with
    | (Some mode, modes) => (mode =? 1) || has_dhe_ke fuel modes
    | (None, _) => false
    end
  end.

(** pre_shared_key: the first identity and the first binder. *)
Definition parse_psk_extension (ext_data : cbs) : M unit :=
  match cbs_bind opssl_cbs_get_u16_length_prefixed (fun i => cbs_bind opssl_cbs_get_u16_length_prefixed (fun b c => (Some (i, b), c))) ext_data with
  | (None, _) => ret tt
  | (Some (identities, binders), _) =>
    (match cbs_bind opssl_cbs_get_u16_length_prefixed (fun i => cbs_bind opssl_cbs_get_u32 (fun _ c => (Some i, c))) identities with
     | (Some ident, _) =>
       if (0 <? CBS_len ident) && (CBS_len ident <=? 1024)
       then mod_psk (fun p => mk_psk (p_psk p) (content ident) (p_has p) true (p_accepted p) (p_dhe_ke p) (p_binder p)) else ret tt
     | (None, _) => ret tt
     end) ;;;
    match opssl_cbs_get_u8_length_prefixed binders with
    | (Some binder, _) =>
      if (0 <? CBS_len binder) && (CBS_len binder <=? 48)
      then mod_psk (fun p => mk_psk (p_psk p) (p_ticket p) (p_has p) (p_offered p) (p_accepted p) (p_dhe_ke p) (content binder)) else ret tt
    | (None, _) => ret tt
    end
  end.

(** One extension of a ClientHello. *)
Definition client_hello_extension (ext_type : Z) (ext_data : cbs) : M (option unit) :=
  if ext_type =? EXT_KEY_SHARE then tls13_parse_key_share_extension ext_data else
  (if ext_type =? EXT_SERVER_NAME then
     match opssl_cbs_get_u16_length_prefixed ext_data with
     | (Some l, _) => match find_sni (Z.to_nat (CBS_len l)) l with Some n => mod_config (set_sni n) | None => ret tt end
     | (None, _) => ret tt
     end
   else if ext_type =? EXT_ALPN then
     match opssl_cbs_get_u16_length_prefixed ext_data with
     | (Some l, _) => mod_peer (set_alpn_client (alpn_protocols (Z.to_nat (CBS_len l)) l []))
     | (None, _) => ret tt
     end
   else if ext_type =? EXT_STATUS_REQUEST then mod_peer (fun r => set_wants true (r_sct_requested r) (r_early_offered r) (r_post_auth r) r)
   else if ext_type =? EXT_SIGNED_CERT_TIMESTAMP then mod_peer (fun r => set_wants (r_ocsp_requested r) true (r_early_offered r) (r_post_auth r) r)
   else if ext_type =? EXT_POST_HANDSHAKE_AUTH then mod_peer (fun r => set_wants (r_ocsp_requested r) (r_sct_requested r) (r_early_offered r) true r)
   else if ext_type =? EXT_EARLY_DATA then mod_peer (fun r => set_wants (r_ocsp_requested r) (r_sct_requested r) true (r_post_auth r) r)
   else if ext_type =? EXT_PSK_KEY_EXCHANGE_MODES then
     match opssl_cbs_get_u8_length_prefixed ext_data with
     | (Some modes, _) =>
       if has_dhe_ke (Z.to_nat (CBS_len modes)) modes
       then mod_psk (fun p => mk_psk (p_psk p) (p_ticket p) (p_has p) (p_offered p) (p_accepted p) true (p_binder p)) else ret tt
     | (None, _) => ret tt
     end
   else if ext_type =? EXT_PRE_SHARED_KEY then parse_psk_extension ext_data
   else ret tt) ;;;
  ret (Some tt).

(** Type and data of the next extension. *)
Definition next_extension : parser (Z * cbs) :=
  cbs_bind opssl_cbs_get_u16 (fun t => cbs_bind opssl_cbs_get_u16_length_prefixed (fun d c => (Some (t, d), c))).

(** [while (CBS_len(&extensions) > 0)]; an extension takes four bytes at least. *)
Fixpoint each_extension (fuel : nat) (f : Z -> cbs -> M (option unit)) (extensions : cbs) : M (option unit) :=
  if CBS_len extensions <=? 0 then ret (Some tt) else
  match fuel with
  | O => ub
  | S fuel =>
    match next_extension extensions with
    | (None, _) => ret None
    | (Some (ext_type, ext_data), extensions) =>
      _ <- f ext_type ext_data or ret None ;;
      each_extension fuel f extensions
    end
  end.

(** The fields of a ClientHello. *)
Definition client_hello_fields : parser (cbs * cbs * cbs * cbs) :=
  cbs_bind opssl_cbs_get_u16 (fun _ => cbs_bind (opssl_cbs_get_bytes 32) (fun random => cbs_bind opssl_cbs_get_u8_length_prefixed (fun session_id =>
  cbs_bind opssl_cbs_get_u16_length_prefixed (fun suites => cbs_bind opssl_cbs_get_u8_length_prefixed (fun _ =>
  cbs_bind opssl_cbs_get_u16_length_prefixed (fun extensions c => (Some (random, session_id, suites, extensions), c))))))).

(** A session id of more than 32 bytes is refused after its length is stored. *)
Definition tls13_parse_client_hello (msg : cbs) : M (option unit) :=
  match client_hello_fields msg with
  | (None, _) => ret None
  | (Some (random, session_id, suites, extensions), _) =>
    modify (set_crandom (content random)) ;;;
    if 32 <? CBS_len session_id then ret None else
    mod_peer (set_session_id (content session_id)) ;;;
    match tls13_select_cipher_suite suites with
    | None => ret None
    | Some cipher =>
      tls13_set_hash_for_cipher cipher ;;;
      init_transcript ;;;
      each_extension (Z.to_nat (CBS_len extensions)) client_hello_extension extensions
    end
  end.

(* ------------------------------------------------------------------ *)
(** * The messages of a server *)

(** The builders of [tls13_build_server_hello]: [out] is 0, [msg] 1, [extensions]
    2, [ext_data] 3, [ks_ext] 4, [ks_entry] 5, [psk_ext] 6. *)
Definition server_hello_ops (h : hs) : list bop :=
  let sid := r_session_id (h_peer h) in
  [Put 0 [TLS13_MSG_SERVER_HELLO]; Open 0 3 1; Put 1 (u16_of 0x0303); Put 1 (h_srandom h); Put 1 [u8 (Z.of_nat (length sid))]] ++
  (if (0 <? length sid)%nat then [Put 1 sid] else []) ++
  [Put 1 (u16_of (h_cipher h)); Put 1 [0]; Open 1 2 2;
   Put 2 (u16_of EXT_SUPPORTED_VERSIONS); Open 2 2 3; Put 3 (u16_of 0x0304);
   Put 2 (u16_of EXT_KEY_SHARE); Open 2 2 4; Put 4 (u16_of (k_group (h_kex h))); Open 4 2 5; Put 5 (k_pub (h_kex h))] ++
  (if p_accepted (h_psk h) then [Put 2 (u16_of EXT_PRE_SHARED_KEY); Open 2 2 6; Put 6 (u16_of 0); Flush 2] else []).

(** [CBB_init(&cbb, out_cap); tls13_build_server_hello(hs, &cbb);
    cbb_finish_to_buf(&cbb, out, out_len, out_cap)].  [random] and [r] are what the
    random generator gives. *)
Definition tls13_build_server_hello (random r : option (list Z)) (out_cap : Z) : M (option (list Z)) :=
  sr <- random_bytes random 32 or ret None ;;
  modify (set_srandom sr) ;;;
  h <- get ;;
  _ <- tls13_generate_key_pair_for_group r (k_group (h_kex h)) or ret None ;;
  _ <- tls13_compute_shared_secret or ret None ;;
  h <- get ;;
  cbb_finish_to_buf true out_cap (server_hello_ops h) out_cap.

(** [sproto] of the server's list is offered: the client's list is scanned. *)
Fixpoint client_has (fuel : nat) (proto client : list Z) : bool :=
  match fuel, client with
  | S fuel, clen :: rest =>
    if bool_decide (take (Z.to_nat clen) rest = proto) then true else client_has fuel proto (drop (Z.to_nat clen) rest)
  | _, _ => false
  end.

Fixpoint select_alpn (fuel : nat) (supported client : list Z) : option (list Z) :=
  match fuel, supported with
  | S fuel, slen :: rest =>
    let proto := take (Z.to_nat slen) rest in
    if client_has (length client) proto client then Some proto else select_alpn fuel (drop (Z.to_nat slen) rest) client
  | _, _ => None
  end.

(** The protocol is copied to an array of 32 bytes, with a zero after it, and no
    test of its length. *)
Definition negotiate_alpn : M unit :=
  h <- get ;;
  let supported := g_alpn_supported (h_config h) in
  match (if (0 <? length (r_alpn_client (h_peer h)))%nat then select_alpn (length supported) supported (r_alpn_client (h_peer h)) else None) with
  | Some proto => if (length proto <? 32)%nat then mod_peer (set_alpn proto) else ub
  | None => ret tt
  end.

Definition encrypted_extensions_ops (h : hs) : list bop :=
  let r := h_peer h in let g := h_config h in
  [Put 0 [TLS13_MSG_ENCRYPTED_EXTENSIONS]; Open 0 3 1; Open 1 2 2] ++
  (if (0 <? length (r_alpn r))%nat
   then [Put 2 (u16_of EXT_ALPN); Open 2 2 3; Open 3 2 4; Open 4 1 5; Put 5 (r_alpn r); Flush 2] else []) ++
  (if r_ocsp_requested r && (0 <? length (g_ocsp g))%nat
   then [Put 2 (u16_of EXT_STATUS_REQUEST); Open 2 2 6; Put 6 [1];
         Put 6 (be_bytes 3 (u32 (Z.of_nat (length (g_ocsp g))))); Put 6 (g_ocsp g); Flush 2] else []) ++
  (if r_sct_requested r && (0 <? length (g_sct g))%nat
   then [Put 2 (u16_of EXT_SIGNED_CERT_TIMESTAMP); Open 2 2 7; Put 7 (g_sct g); Flush 2] else []) ++
  (if r_early_accepted r then [Put 2 (u16_of EXT_EARLY_DATA); Open 2 2 8; Flush 2] else []).

Definition certificate_request_ops : list bop :=
  [Put 0 [TLS13_MSG_CERTIFICATE_REQUEST]; Open 0 3 1; Put 1 [0]; Open 1 2 2;
   Put 2 (u16_of EXT_SIGNATURE_ALGORITHMS); Open 2 2 3; Open 3 2 4;
   Put 4 (u16_of 0x0403); Put 4 (u16_of 0x0804); Put 4 (u16_of 0x0805); Put 4 (u16_of 0x0807)].

(** The builder of an entry is a local of the loop, at the same address each time. *)
Definition certificate_ops (chain : list (list Z)) : list bop :=
  [Put 0 [TLS13_MSG_CERTIFICATE]; Open 0 3 1; Put 1 [0]; Open 1 3 2] ++
  concat (map (fun der => [Open 2 3 3; Put 3 der; Put 2 (u16_of 0)]) chain).

(** The signed content: 64 spaces, the label, a zero, the transcript hash. *)
Definition cv_context (label : list Z) (transcript_hash : list Z) : list Z := replicate 64 0x20 ++ label ++ [0] ++ transcript_hash.
Definition cv_label_server : list Z := chars "TLS 1.3, server CertificateVerify".
Definition cv_label_client : list Z := chars "TLS 1.3, client CertificateVerify".

Definition sig_scheme_of (key : opssl_pkey) : Z :=
  match opssl_pkey_type key with
  | OPSSL_PKEY_ED25519 => 0x0807
  | OPSSL_PKEY_EC => if 384 <=? opssl_pkey_bits key then 0x0503 else 0x0403
  | OPSSL_PKEY_RSA => 0x0804
  end.

(** What is given to the signature algorithm of a scheme. *)
Definition cv_input (scheme : Z) (context : list Z) : list Z :=
  if scheme =? 0x0807 then context else
  if scheme =? 0x0503 then opssl_sha384 sha512_ctx_zero context else opssl_sha256 sha256_ctx_zero context.

(** The array of the signature has 512 bytes; a longer one makes the call fail. *)
Definition sign_512 (key : opssl_pkey) (input : list Z) : option (list Z) :=
  match opssl_pkey_sign key input with Some s => if (512 <? length s)%nat then None else Some s | None => None end.

Definition certificate_verify_ops (scheme : Z) (sig : list Z) : list bop :=
  [Put 0 [TLS13_MSG_CERTIFICATE_VERIFY]; Open 0 3 1; Put 1 (u16_of scheme); Put 1 (u16_of (Z.of_nat (length sig))); Put 1 sig].

Definition tls13_build_certificate_verify (key : opssl_pkey) (transcript_hash : list Z) (out_cap : Z) : M (option (list Z)) :=
  h <- get ;;
  let context := cv_context (if h_is_server h then cv_label_server else cv_label_client) transcript_hash in
  match sign_512 key (cv_input (sig_scheme_of key) context) with
  | None => ret None
  | Some sig => cbb_finish_to_buf true 512 (certificate_verify_ops (sig_scheme_of key) sig) out_cap
  end.

Definition finished_ops (verify_data : list Z) : list bop := [Put 0 [TLS13_MSG_FINISHED]; Open 0 3 1; Put 1 verify_data].

Definition tls13_build_finished (is_client : bool) (cap out_cap : Z) : M (option (list Z)) :=
  h <- get ;;
  vd <- finished_data (if is_client then s_client_hs (h_secrets h) else s_server_hs (h_secrets h)) or ret None ;;
  cbb_finish_to_buf true cap (finished_ops (take (h_len h) vd)) out_cap.

(* ------------------------------------------------------------------ *)
(** * The server *)

(** The result, [*consumed], and the first [*out_len] bytes of [out]. *)
Definition hs_ret : Type := opssl_result_t * nat * list Z.
Definition error : M hs_ret := ret (OPSSL_ERROR, 0%nat, []).

(** A message of the flight: built, then added to the transcript. *)
Definition send (m : M (option (list Z))) : M (option (list Z)) :=
  b <- m or ret None ;; tls13_update_transcript b ;;; ret (Some b).

(** [hs->hash_len == 32 ? SHA-256 : SHA-384] of some bytes. *)
Definition hash_by_len (n : nat) (data : list Z) : list Z :=
  if (n =? 32)%nat then opssl_sha256 sha256_ctx_zero data else opssl_sha384 sha512_ctx_zero data.

(** The binder of a partial ClientHello.  The results of the calls are not looked
    at: a failure would leave the arrays uninitialised. *)
Definition psk_binder (partial : list Z) : M (list Z) :=
  h <- get ;;
  early <- extract_secret (replicate (h_len h) 0) (p_psk (h_psk h)) or ub ;;
  binder_key <- derive_secret early (chars "res binder") (Some (hash_by_len (h_len h) [])) or ub ;;
  key <- expand_label (h_len h) binder_key TLS13_LABEL_FINISHED or ub ;;
  b <- hmac key (hash_by_len (h_len h) partial) or ub ;;
  ret b.

(** A binder longer than the hash is compared with uninitialised bytes. *)
Definition check_psk_binder (ch : list Z) : M unit :=
  h <- get ;;
  let p := h_psk h in
  if p_offered p && p_has p && (0 <? length (p_psk p))%nat && p_dhe_ke p && (0 <? length (p_binder p))%nat &&
     (3 + length (p_binder p) <? length ch)%nat then
    expected <- psk_binder (take (length ch - (3 + length (p_binder p))) ch) ;;
    if (length expected <? length (p_binder p))%nat then ub else
    if negb (opssl_ct_eq expected (p_binder p) (length (p_binder p)) =? 0)
    then mod_psk (fun p => mk_psk (p_psk p) (p_ticket p) (p_has p) (p_offered p) true (p_dhe_ke p) (p_binder p)) else ret tt
  else ret tt.

Definition server_client_hello (random r : option (list Z)) (buf : list Z) (out_cap : Z) : M hs_ret :=
  if (length buf <? 4)%nat then ret (OPSSL_WANT_READ, 0%nat, []) else
  let msg_len := Z.to_nat (be24 (drop 1 buf)) in
  if negb (buf.[0] =? TLS13_MSG_CLIENT_HELLO) then error else
  if (length buf <? 4 + msg_len)%nat then ret (OPSSL_WANT_READ, 0%nat, []) else
  _ <- tls13_parse_client_hello (opssl_cbs_init (drop 4 buf) (Z.of_nat msg_len)) or error ;;
  let ch := take (4 + msg_len) buf in
  check_psk_binder ch ;;;
  modify (fun h => if r_early_offered (h_peer h) && p_accepted (h_psk h) && (0 <? g_early_max (h_config h))
                   then set_peer (set_early_accepted (h_peer h)) h else h) ;;;
  tls13_update_transcript ch ;;;
  let consumed := (4 + msg_len)%nat in
  sh <- tls13_build_server_hello random r out_cap or ret (OPSSL_ERROR, consumed, []) ;;
  tls13_update_transcript sh ;;;
  _ <- tls13_derive_handshake_secrets or ret (OPSSL_ERROR, consumed, sh) ;;
  modify (set_state OPSSL_HS_ENCRYPTED_EXTENSIONS) ;;;
  ret (OPSSL_OK, consumed, sh).

(** The Certificate and CertificateVerify of the flight. *)
Definition server_certificate : M (option (list Z)) :=
  h <- get ;;
  match g_chain (h_config h) with
  | Some (der :: chain) =>
    if p_accepted (h_psk h) then ret (Some []) else
    cert <- send (cbb_finish_to_buf true 4096 (certificate_ops (der :: chain)) 4096) or ret None ;;
    match g_sign_key (h_config h) with
    | None => ret (Some cert)
    | Some key =>
      th <- tls13_get_transcript_hash or ret None ;;
      cv <- send (tls13_build_certificate_verify key th 512) or ret None ;;
      ret (Some (cert ++ cv))
    end
  | _ => ret (Some [])
  end.

(** The pieces of the flight fit its array: 512 + 256 + 4096 + 512 + 512 bytes are
    less than 8192. *)
Definition server_flight (out_cap : Z) : M hs_ret :=
  negotiate_alpn ;;;
  h <- get ;;
  ee <- send (cbb_finish_to_buf true 512 (encrypted_extensions_ops h) 512) or error ;;
  h <- get ;;
  cr <- (if negb (p_accepted (h_psk h)) && r_request_cert (h_peer h)
         then send (cbb_finish_to_buf true 256 certificate_request_ops 256) else ret (Some [])) or error ;;
  certs <- server_certificate or error ;;
  fin <- send (tls13_build_finished false 512 512) or error ;;
  _ <- tls13_derive_application_secrets or error ;;
  let flight := ee ++ cr ++ certs ++ fin in
  if out_cap <? Z.of_nat (length flight) then error else
  modify (set_state OPSSL_HS_WAIT_FINISHED) ;;;
  ret (OPSSL_OK, 0%nat, flight).

(** The loop over the entries of a certificate list that ends at [end_]. *)
Fixpoint store_certs (n index : nat) (body : list Z) (pos end_ : nat) : M bool :=
  match n with
  | O => ret true
  | S n =>
    if (end_ <? pos + 3)%nat then ret (0 <? index)%nat else
    let cert_len := Z.to_nat (be24 (drop pos body)) in
    let pos := (pos + 3)%nat in
    if (cert_len =? 0)%nat || (end_ <? pos + cert_len + 2)%nat then ret false else
    let der := sub_list pos cert_len body in
    mod_peer (fun r => if (index =? 0)%nat then set_certs der (r_chain r) r else set_certs (r_cert r) (r_chain r ++ [der]) r) ;;;
    let pos := (pos + cert_len)%nat in
    let ext_len := Z.to_nat (Z.lor (Z.shiftl body.[pos] 8) body.[pos + 1]) in
    let pos := (pos + 2)%nat in
    if (end_ <? pos + ext_len)%nat then ret false else
    store_certs n (S index) body (pos + ext_len) end_
  end.

Definition tls13_store_peer_certificate_list (body : list Z) : M bool :=
  if (length body <? 4)%nat then ret false else
  let pos := (1 + Z.to_nat body.[0])%nat in
  if (length body <? pos + 3)%nat then ret false else
  let list_len := Z.to_nat (be24 (drop pos body)) in
  let pos := (pos + 3)%nat in
  if (length body <? pos + list_len)%nat then ret false else
  mod_peer (set_certs [] []) ;;;
  ok <- store_certs TLS13_MAX_PEER_CERTS 0 body pos (pos + list_len) ;;
  ret (ok || (list_len =? 0)%nat).

(** The messages before the client's Finished: [None] for [break]. *)
Fixpoint client_certificates (fuel : nat) (buf : list Z) (offset : nat) : M (option hs_ret * nat) :=
  if (length buf <=? offset)%nat then ret (None, offset) else
  match fuel with
  | O => ub
  | S fuel =>
    let want := ret (Some (OPSSL_WANT_READ, offset, []), offset) in
    if (length buf <? offset + 4)%nat then want else
    let mt := buf.[offset] in
    let ml := Z.to_nat (be24 (drop (offset + 1) buf)) in
    if (length buf <? offset + 4 + ml)%nat then want else
    let msg := sub_list offset (4 + ml) buf in
    if mt =? TLS13_MSG_CERTIFICATE then
      ok <- (if (0 <? ml)%nat then tls13_store_peer_certificate_list (drop 4 msg) else ret true) ;;
      if negb ok then ret (Some (OPSSL_ERROR, 0%nat, []), offset) else
      tls13_update_transcript msg ;;; client_certificates fuel buf (offset + 4 + ml)
    else if mt =? TLS13_MSG_CERTIFICATE_VERIFY then
      tls13_update_transcript msg ;;; mod_peer set_verified ;;; client_certificates fuel buf (offset + 4 + ml)
    else mod_peer (set_request_cert false) ;;; ret (None, offset)
  end.

(** [buf] from [offset]: the client's Finished. *)
Definition server_check_finished (buf : list Z) (offset : nat) : M hs_ret :=
  if (length buf <? offset + 4)%nat then ret (OPSSL_WANT_READ, offset, []) else
  h <- get ;;
  let msg_len := Z.to_nat (be24 (drop (offset + 1) buf)) in
  if negb (buf.[offset] =? TLS13_MSG_FINISHED) || negb (msg_len =? h_len h)%nat then error else
  if (length buf <? offset + 4 + msg_len)%nat then ret (OPSSL_WANT_READ, offset, []) else
  expected <- finished_data (s_client_hs (h_secrets h)) or error ;;
  if negb (opssl_ct_eq (drop (offset + 4) buf) expected (h_len h) =? 1) then error else
  tls13_update_transcript (sub_list offset (4 + msg_len) buf) ;;;
  derive_resumption ;;;
  modify (set_state OPSSL_HS_COMPLETE) ;;;
  ret (OPSSL_OK, (offset + 4 + msg_len)%nat, []).

Definition server_wait_finished (buf : list Z) : M hs_ret :=
  if (length buf <? 4)%nat then ret (OPSSL_WANT_READ, 0%nat, []) else
  h <- get ;;
  if r_request_cert (h_peer h) then
    s <- client_certificates (length buf) buf 0 ;;
    match s with
    | (Some r, _) => ret r
    | (None, offset) =>
      if (length buf <=? offset)%nat then ret (OPSSL_WANT_READ, offset, []) else server_check_finished buf offset
    end
  else server_check_finished buf 0.

Definition opssl_tls13_server_handshake (random r : option (list Z)) (buf : list Z) (out_cap : Z) : M hs_ret :=
  modify (set_is_server true) ;;;
  h <- get ;;
  if (h_state h =? OPSSL_HS_IDLE) || (h_state h =? OPSSL_HS_CLIENT_HELLO) then server_client_hello random r buf out_cap
  else if h_state h =? OPSSL_HS_ENCRYPTED_EXTENSIONS then modify (set_state OPSSL_HS_FINISHED) ;;; ret (OPSSL_OK, 0%nat, [])
  else if h_state h =? OPSSL_HS_FINISHED then server_flight out_cap
  else if h_state h =? OPSSL_HS_WAIT_FINISHED then server_wait_finished buf
  else error.

(* ------------------------------------------------------------------ *)
(** * The client *)

(** A C string in an array. *)
Fixpoint c_string (l : list Z) : list Z := match l with [] => [] | c :: l => if c =? 0 then [] else c :: c_string l end.

(** The X25519 pair is generated and saved, then the P-256 pair, which becomes the
    secondary one. *)
Definition client_key_pairs (r25519 r256 : option (list Z)) : M (option unit) :=
  _ <- tls13_generate_key_pair_for_group r25519 NAMED_GROUP_X25519 or ret None ;;
  h <- get ;;
  let k1 := h_kex h in
  _ <- tls13_generate_key_pair_for_group r256 NAMED_GROUP_SECP256R1 or ret None ;;
  modify (fun h => let k := h_kex h in
    set_kex (mk_kex NAMED_GROUP_X25519 (k_priv k1) (take 32 (k_pub k1)) (k_peer k) (k_shared k) NAMED_GROUP_SECP256R1 (k_priv k) (k_pub k)) h) ;;;
  ret (Some tt).

Definition u16s (l : list Z) (p : nat) : list bop := map (fun v => Put p (u16_of v)) l.

(** The client sends early data, and offers the ticket. *)
Definition sends_early (h : hs) : bool := p_has (h_psk h) && (0 <? length (p_psk (h_psk h)))%nat && (0 <? g_early_max (h_config h)).
Definition offers_psk (h : hs) : bool := p_has (h_psk h) && (0 <? length (p_psk (h_psk h)))%nat && (0 <? length (p_ticket (h_psk h)))%nat.

(** The builders, in the order of their declarations: [cbb] 0, [ch_msg] 1,
    [cipher_suites] 2, [compression] 3, [extensions] 4, [sv_ext] 5, [sv_list] 6,
    [ks_ext] 7, [ks_list] 8, [ks_entry] 9, [p256_entry] 10, [sg_ext] 11, [sg_list]
    12, [sa_ext] 13, [sa_list] 14, [sni_ext] 15, [sni_list] 16, [sni_entry] 17,
    [alpn_ext] 18, [alpn_list] 19, [sr_ext] 20, [sct_ext] 21, [pha_ext] 22, [ed_ext]
    23, [psk_ext] 24, [identities] 25, [binders] 26. *)
Definition client_hello_ops (h : hs) : list bop :=
  let sni := c_string (g_sni (h_config h)) in
  let alpn := g_alpn_offer (h_config h) in
  let psk := p_psk (h_psk h) in let ticket := p_ticket (h_psk h) in
  [Put 0 [TLS13_MSG_CLIENT_HELLO]; Open 0 3 1; Put 1 (u16_of 0x0303); Put 1 (h_crandom h); Put 1 [0]; Open 1 2 2] ++
  u16s tls13_cipher_preference 2 ++
  [Open 1 1 3; Put 3 [0]; Open 1 2 4;
   Put 4 (u16_of EXT_SUPPORTED_VERSIONS); Open 4 2 5; Open 5 1 6; Put 6 (u16_of 0x0304);
   Put 4 (u16_of EXT_KEY_SHARE); Open 4 2 7; Open 7 2 8;
   Put 8 (u16_of NAMED_GROUP_X25519); Open 8 2 9; Put 9 (k_pub (h_kex h));
   Put 8 (u16_of NAMED_GROUP_SECP256R1); Open 8 2 10; Put 10 (k_sec_pub (h_kex h));
   Put 4 (u16_of EXT_SUPPORTED_GROUPS); Open 4 2 11; Open 11 2 12] ++
  u16s [NAMED_GROUP_X25519; NAMED_GROUP_SECP256R1; NAMED_GROUP_SECP384R1; NAMED_GROUP_SECP521R1] 12 ++
  [Put 4 (u16_of EXT_SIGNATURE_ALGORITHMS); Open 4 2 13; Open 13 2 14] ++
  u16s [0x0804; 0x0805; 0x0806; 0x0403; 0x0503; 0x0603] 14 ++
  (if (0 <? length sni)%nat
   then [Put 4 (u16_of EXT_SERVER_NAME); Open 4 2 15; Open 15 2 16; Put 16 [0]; Open 16 2 17; Put 17 sni; Flush 4] else []) ++
  (if (0 <? length alpn)%nat then [Put 4 (u16_of EXT_ALPN); Open 4 2 18; Open 18 2 19; Put 19 alpn; Flush 4] else []) ++
  [Put 4 (u16_of EXT_STATUS_REQUEST); Open 4 2 20; Put 20 [1]; Put 20 (u16_of 0); Put 20 (u16_of 0);
   Put 4 (u16_of EXT_SIGNED_CERT_TIMESTAMP); Open 4 2 21;
   Put 4 (u16_of EXT_POST_HANDSHAKE_AUTH); Open 4 2 22] ++
  (if sends_early h then [Put 4 (u16_of EXT_EARLY_DATA); Open 4 2 23; Flush 4] else []) ++
  (if offers_psk h
   then [Put 4 (u16_of EXT_PRE_SHARED_KEY); Open 4 2 24; Open 24 2 25; Put 25 (u16_of (Z.of_nat (length ticket))); Put 25 ticket;
         Put 25 (be_bytes 4 0); Open 24 2 26; Put 26 [u8 (Z.of_nat (length psk))]; Put 26 psk; Flush 4] else []).

(** The binder is computed over the ClientHello without its last [psk_len + 3]
    bytes, and written over them from there.  Only the [hash_len] first bytes of it
    are initialised. *)
Definition patch_binder (out : list Z) : M (list Z) :=
  h <- get ;;
  let psk_len := length (p_psk (h_psk h)) in
  if (length out <? psk_len + 3)%nat then ub else
  let binder_offset := (length out - psk_len - 3)%nat in
  binder <- psk_binder (take binder_offset out) ;;
  if (length binder <? psk_len)%nat then ub else ret (splice out binder_offset (take psk_len binder)).

(** The two flags are set before the message is built: the builder's extensions do
    not fail. *)
Definition client_start (random r25519 r256 : option (list Z)) (out_cap : Z) : M hs_ret :=
  modify (fun h => set_suite (h_cipher h) OPSSL_HMAC_SHA256 32 h) ;;;
  init_transcript ;;;
  cr <- random_bytes random 32 or error ;;
  modify (set_crandom cr) ;;;
  _ <- client_key_pairs r25519 r256 or error ;;
  h <- get ;;
  (if sends_early h then mod_peer (fun r => set_wants (r_ocsp_requested r) (r_sct_requested r) true (r_post_auth r) r) else ret tt) ;;;
  (if offers_psk h then mod_psk (fun p => mk_psk (p_psk p) (p_ticket p) (p_has p) true (p_accepted p) (p_dhe_ke p) (p_binder p)) else ret tt) ;;;
  out <- cbb_finish_to_buf false out_cap (client_hello_ops h) out_cap or error ;;
  h <- get ;;
  out <- (if p_offered (h_psk h) then patch_binder out else ret out) ;;
  tls13_update_transcript out ;;;
  modify (set_state OPSSL_HS_CLIENT_HELLO) ;;;
  ret (OPSSL_OK, 0%nat, out).

(** One extension of a ServerHello. *)
Definition server_hello_extension (ext_type : Z) (ext_data : cbs) : M (option unit) :=
  if ext_type =? EXT_KEY_SHARE then
    match cbs_bind opssl_cbs_get_u16 (fun g => cbs_bind opssl_cbs_get_u16_length_prefixed (fun k c => (Some (g, k), c))) ext_data with
    | (None, _) => ret None
    | (Some (group, key), _) =>
      (if share_ok group (CBS_len key) then
         set_peer_key group (content key) ;;;
         modify (fun h => let k := h_kex h in
           if (group =? NAMED_GROUP_SECP256R1) && (k_sec_group k =? NAMED_GROUP_SECP256R1)
           then set_kex (mk_kex (k_group k) (k_sec_priv k) (k_sec_pub k) (k_peer k) (k_shared k) (k_sec_group k) (k_sec_priv k) (k_sec_pub k)) h else h)
       else ret tt) ;;;
      ret (Some tt)
    end
  else if ext_type =? EXT_PRE_SHARED_KEY then
    match opssl_cbs_get_u16 ext_data with
    | (None, _) => ret None
    | (Some selected, _) =>
      mod_psk (fun p => if (selected =? 0) && p_offered p
                        then mk_psk (p_psk p) (p_ticket p) (p_has p) (p_offered p) true (p_dhe_ke p) (p_binder p) else p) ;;;
      ret (Some tt)
    end
  else ret (Some tt).

Definition server_hello_fields : parser (cbs * Z * cbs) :=
  cbs_bind opssl_cbs_get_u16 (fun _ => cbs_bind (opssl_cbs_get_bytes 32) (fun random => cbs_bind opssl_cbs_get_u8_length_prefixed (fun _ =>
  cbs_bind opssl_cbs_get_u16 (fun cipher => cbs_bind opssl_cbs_get_u8 (fun _ =>
  cbs_bind opssl_cbs_get_u16_length_prefixed (fun extensions c => (Some (random, cipher, extensions), c))))))).

Definition tls13_parse_server_hello (msg : cbs) : M (option unit) :=
  match server_hello_fields msg with
  | (None, _) => ret None
  | (Some (random, cipher, extensions), _) =>
    modify (set_srandom (content random)) ;;;
    tls13_set_hash_for_cipher cipher ;;;
    each_extension (Z.to_nat (CBS_len extensions)) server_hello_extension extensions
  end.

(** The secondary pair is dropped when the server chose another group. *)
Definition drop_secondary : M unit :=
  modify (fun h => let k := h_kex h in
    if ((k_sec_group k =? NAMED_GROUP_SECP256R1) || (k_sec_group k =? NAMED_GROUP_SECP384R1)) && negb (k_group k =? k_sec_group k)
    then set_kex (mk_kex (k_group k) (k_priv k) (k_pub k) (k_peer k) (k_shared k) 0 NoKey (k_sec_pub k)) h else h).

Definition client_server_hello (buf : list Z) : M hs_ret :=
  if (length buf <? 4)%nat then ret (OPSSL_WANT_READ, 0%nat, []) else
  let msg_len := Z.to_nat (be24 (drop 1 buf)) in
  if negb (buf.[0] =? TLS13_MSG_SERVER_HELLO) then error else
  if (length buf <? 4 + msg_len)%nat then ret (OPSSL_WANT_READ, 0%nat, []) else
  tls13_update_transcript (take (4 + msg_len) buf) ;;;
  _ <- tls13_parse_server_hello (opssl_cbs_init (drop 4 buf) (Z.of_nat msg_len)) or error ;;
  _ <- tls13_compute_shared_secret or error ;;
  drop_secondary ;;;
  _ <- tls13_derive_handshake_secrets or error ;;
  modify (set_state OPSSL_HS_ENCRYPTED_EXTENSIONS) ;;;
  ret (OPSSL_OK, (4 + msg_len)%nat, []).

(** The ALPN of EncryptedExtensions; the loop ends at the first malformed
    extension. *)
Fixpoint ee_extensions (fuel : nat) (ee_exts : cbs) : M unit :=
  match fuel with
  | O => ret tt
  | S fuel =>
    if CBS_len ee_exts <=? 0 then ret tt else
    match next_extension ee_exts with
    | (None, _) => ret tt
    | (Some (etype, edata), ee_exts) =>
      (if etype =? EXT_ALPN then
         match cbs_bind opssl_cbs_get_u16_length_prefixed (fun l c => (fst (opssl_cbs_get_u8_length_prefixed l), c)) edata with
         | (Some proto, _) => if CBS_len proto <? 32 then mod_peer (set_alpn (content proto)) else ret tt
         | (None, _) => ret tt
         end
       else ret tt) ;;;
      ee_extensions fuel ee_exts
    end
  end.

(** The key of a SubjectPublicKeyInfo: the bit string after the algorithm, whose
    result is not looked at. *)
Definition spki_key (spki : list Z) : option (list Z) :=
  let s := (opssl_asn1_get_sequence (mk_asn1 (opssl_cbs_init spki (Z.of_nat (length spki))) err_tls_init)).2 in
  match opssl_asn1_get_bit_string s with (Some (pub_bits, _), _) => Some (content pub_bits) | (None, _) => None end.

(** [None]: the 64 bytes of an Ed25519 signature are read whatever its length. *)
Definition verify_signature (scheme : Z) (spki spki_der context sig_data : list Z) (sig_len : nat) : option bool :=
  let sig := take sig_len sig_data in
  let with_key (f : list Z -> option bool) := match spki_key spki with Some k => f k | None => Some false end in
  if scheme =? 0x0807 then
    with_key (fun k => if negb (length k =? 32)%nat then Some false else
                       if (length sig_data <? 64)%nat then None else Some (opssl_ed25519_verify (take 64 sig_data) context k))
  else if scheme =? 0x0403 then with_key (fun k => Some (ecdsa_verify OPSSL_CURVE_P256 k (opssl_sha256 sha256_ctx_zero context) sig))
  else if scheme =? 0x0503 then with_key (fun k => Some (ecdsa_verify OPSSL_CURVE_P384 k (opssl_sha384 sha512_ctx_zero context) sig))
  else if scheme =? 0x0804 then Some (rsa_pss_verify spki_der OPSSL_HMAC_SHA256 (opssl_sha256 sha256_ctx_zero context) sig)
  else if scheme =? 0x0805 then Some (rsa_pss_verify spki_der OPSSL_HMAC_SHA384 (opssl_sha384 sha512_ctx_zero context) sig)
  else if scheme =? 0x0806 then Some (rsa_pss_verify spki_der OPSSL_HMAC_SHA512 (opssl_sha512 sha512_ctx_zero context) sig)
  else Some false.

(** A CertificateVerify, checked when a certificate has been received; the label is
    chosen by [is_server]. *)
Definition check_certificate_verify (msg : cbs) : M bool :=
  h <- get ;;
  let cert := r_cert (h_peer h) in
  if (length cert =? 0)%nat then ret true else
  th <- tls13_get_transcript_hash or ret false ;;
  let context := cv_context (if h_is_server h then cv_label_client else cv_label_server) th in
  match cbs_bind opssl_cbs_get_u16 (fun a => cbs_bind opssl_cbs_get_u16 (fun b c => (Some (a, b), c))) msg with
  | (None, _) => ret false
  | (Some (scheme, sig_len), msg) =>
    if CBS_len msg <? sig_len then ret false else
    match x509_spki cert with
    | None => ret false
    | Some (spki, spki_der) => lift (verify_signature scheme spki spki_der context (data msg) (Z.to_nat sig_len))
    end
  end.

(** [memcpy(out + *out_len, m, m_len)]: the room in [out] is not looked at. *)
Definition append_out (out_cap : Z) (out m : list Z) : M (list Z) :=
  if out_cap <? Z.of_nat (length out + length m) then ub else ret (out ++ m).

Definition empty_certificate_ops : list bop := [Put 0 [TLS13_MSG_CERTIFICATE]; Put 0 (be_bytes 3 4); Put 0 [0]; Put 0 (be_bytes 3 0)].

(** The client's Certificate and CertificateVerify, when they were asked for. *)
Definition client_certificate (out_cap : Z) : M (option (list Z)) :=
  h <- get ;;
  if negb (r_request_cert (h_peer h)) then ret (Some []) else
  match g_client_chain (h_config h) with
  | Some (der :: chain) =>
    cert <- send (cbb_finish_to_buf true out_cap (certificate_ops (der :: chain)) SIZE_MAX) or ret None ;;
    out <- append_out out_cap [] cert ;;
    match g_client_key (h_config h) with
    | None => ret (Some out)
    | Some key =>
      th <- tls13_get_transcript_hash or ret None ;;
      cv <- send (tls13_build_certificate_verify key th SIZE_MAX) or ret None ;;
      out <- append_out out_cap out cv ;;
      ret (Some out)
    end
  | _ =>
    cert <- send (cbb_finish_to_buf false out_cap empty_certificate_ops SIZE_MAX) or ret None ;;
    out <- append_out out_cap [] cert ;;
    ret (Some out)
  end.

(** The server's Finished, of [msg_len] bytes at [offset], and the client's reply. *)
Definition client_finished (buf : list Z) (offset msg_len : nat) (out_cap : Z) : M hs_ret :=
  h <- get ;;
  expected <- finished_data (s_server_hs (h_secrets h)) or error ;;
  if negb (msg_len =? h_len h)%nat || negb (opssl_ct_eq (drop (offset + 4) buf) expected (h_len h) =? 1) then error else
  tls13_update_transcript (sub_list offset (4 + msg_len) buf) ;;;
  let consumed := (offset + 4 + msg_len)%nat in
  _ <- tls13_derive_application_secrets or ret (OPSSL_ERROR, consumed, []) ;;
  out <- client_certificate out_cap or ret (OPSSL_ERROR, consumed, []) ;;
  fin <- send (tls13_build_finished true (u64 (out_cap - Z.of_nat (length out))) SIZE_MAX) or ret (OPSSL_ERROR, consumed, out) ;;
  out <- append_out out_cap out fin ;;
  derive_resumption ;;;
  modify (set_state OPSSL_HS_COMPLETE) ;;;
  ret (OPSSL_OK, consumed, out).

(** The messages of the server's flight; [*consumed] is not set when the last one
    is incomplete. *)
Fixpoint client_flight (fuel : nat) (buf : list Z) (offset : nat) (out_cap : Z) : M hs_ret :=
  if (length buf <=? offset)%nat then ret (OPSSL_WANT_READ, offset, []) else
  match fuel with
  | O => ub
  | S fuel =>
    if (length buf <? offset + 4)%nat then ret (OPSSL_WANT_READ, 0%nat, []) else
    let msg_type := buf.[offset] in
    let msg_len := Z.to_nat (be24 (drop (offset + 1) buf)) in
    if (length buf <? offset + 4 + msg_len)%nat then ret (OPSSL_WANT_READ, 0%nat, []) else
    let msg := sub_list offset (4 + msg_len) buf in
    let next := client_flight fuel buf (offset + 4 + msg_len) out_cap in
    if msg_type =? TLS13_MSG_ENCRYPTED_EXTENSIONS then
      tls13_update_transcript msg ;;;
      match opssl_cbs_get_u16_length_prefixed (opssl_cbs_init (drop (offset + 4) buf) (Z.of_nat msg_len)) with
      | (Some ee_exts, _) => ee_extensions (Z.to_nat (CBS_len ee_exts)) ee_exts
      | (None, _) => ret tt
      end ;;;
      next
    else if msg_type =? TLS13_MSG_CERTIFICATE_REQUEST then
      mod_peer (set_request_cert true) ;;; tls13_update_transcript msg ;;; next
    else if msg_type =? TLS13_MSG_CERTIFICATE then
      ok <- tls13_store_peer_certificate_list (drop 4 msg) ;;
      if negb ok then error else tls13_update_transcript msg ;;; next
    else if msg_type =? TLS13_MSG_CERTIFICATE_VERIFY then
      ok <- check_certificate_verify (opssl_cbs_init (drop (offset + 4) buf) (Z.of_nat msg_len)) ;;
      if negb ok then error else tls13_update_transcript msg ;;; next
    else if msg_type =? TLS13_MSG_FINISHED then client_finished buf offset msg_len out_cap
    else next
  end.

Definition opssl_tls13_client_handshake (random r25519 r256 : option (list Z)) (buf : list Z) (out_cap : Z) : M hs_ret :=
  h <- get ;;
  if h_state h =? OPSSL_HS_IDLE then client_start random r25519 r256 out_cap
  else if h_state h =? OPSSL_HS_CLIENT_HELLO then client_server_hello buf
  else if h_state h =? OPSSL_HS_ENCRYPTED_EXTENSIONS then client_flight (length buf) buf 0 out_cap
  else error.

(* ------------------------------------------------------------------ *)
(** * What the connection takes from a handshake *)

Definition suite_key_len (cipher : Z) : nat := if (cipher =? TLS_AES_128_GCM_SHA256) || (cipher =? 0x1304) then 16%nat else 32%nat.

(** Client key, server key, client IV, server IV, suite. *)
Definition tls13_derive_keys_from_secrets (client_secret server_secret : list Z) : M (option (list Z * list Z * list Z * list Z * Z)) :=
  h <- get ;;
  let n := suite_key_len (h_cipher h) in
  ck <- expand_label n client_secret TLS13_LABEL_KEY or ret None ;;
  sk <- expand_label n server_secret TLS13_LABEL_KEY or ret None ;;
  ci <- expand_label 12 client_secret TLS13_LABEL_IV or ret None ;;
  si <- expand_label 12 server_secret TLS13_LABEL_IV or ret None ;;
  ret (Some (ck, sk, ci, si, h_cipher h)).

Definition opssl_tls13_extract_hs_keys : M (option (list Z * list Z * list Z * list Z * Z)) :=
  h <- get ;; tls13_derive_keys_from_secrets (s_client_hs (h_secrets h)) (s_server_hs (h_secrets h)).

Definition opssl_tls13_extract_traffic_keys : M (option (list Z * list Z * list Z * list Z * Z)) :=
  h <- get ;;
  if negb (h_state h =? OPSSL_HS_COMPLETE) then ret None else
  tls13_derive_keys_from_secrets (s_client_ap (h_secrets h)) (s_server_ap (h_secrets h)).

(** [memset(hs_buf, 0)] *)
Definition hs_zero : hs :=
  mk_hs OPSSL_HS_IDLE false 0 OPSSL_HMAC_SHA256 0 (replicate 32 0) (replicate 32 0) sha256_ctx_zero sha512_ctx_zero
    (mk_kex 0 NoKey [] [] [] 0 NoKey []) (mk_secrets [] [] [] [] [] [] [] [] []) (mk_psk [] [] false false false false [])
    (mk_config None None None None [] [] [] [] [] 0) (mk_peer [] [] [] false false false false false false false [] []).

(* ------------------------------------------------------------------ *)
(** * Configuration *)

(** A name of 256 bytes or more is cut. *)
Definition opssl_tls13_set_sni (hostname : list Z) : M unit := mod_config (set_sni (take 255 (c_string hostname))).

Definition opssl_tls13_get_sni (h : hs) : option (list Z) :=
  match c_string (g_sni (h_config h)) with [] => None | n => Some n end.

(** Protocols with their lengths, as many as an array of 128 bytes takes. *)
Fixpoint alpn_list (protos : list (list Z)) (done : list Z) : list Z :=
  match protos with
  | [] => done
  | p :: protos =>
    if 126 <=? Z.of_nat (length done) then done else
    let plen := Z.of_nat (length (c_string p)) in
    if (plen =? 0) || (128 <? Z.of_nat (length done) + 1 + plen) then done else alpn_list protos (done ++ plen :: c_string p)
  end.

Definition opssl_tls13_set_alpn_offer (protos : list (list Z)) : M unit :=
  mod_config (fun g => mk_config (g_sign_key g) (g_chain g) (g_client_key g) (g_client_chain g) (g_sni g) (alpn_list protos []) (g_alpn_supported g) (g_ocsp g) (g_sct g) (g_early_max g)).

Definition opssl_tls13_set_alpn_supported (protos : list (list Z)) : M unit :=
  mod_config (fun g => mk_config (g_sign_key g) (g_chain g) (g_client_key g) (g_client_chain g) (g_sni g) (g_alpn_offer g) (alpn_list protos []) (g_ocsp g) (g_sct g) (g_early_max g)).

Definition opssl_tls13_set_sign_key (key : option opssl_pkey) : M unit :=
  mod_config (fun g => mk_config key (g_chain g) (g_client_key g) (g_client_chain g) (g_sni g) (g_alpn_offer g) (g_alpn_supported g) (g_ocsp g) (g_sct g) (g_early_max g)).

Definition opssl_tls13_set_cert_chain (chain : option (list (list Z))) : M unit :=
  mod_config (fun g => mk_config (g_sign_key g) chain (g_client_key g) (g_client_chain g) (g_sni g) (g_alpn_offer g) (g_alpn_supported g) (g_ocsp g) (g_sct g) (g_early_max g)).

Definition opssl_tls13_set_client_cert (key : option opssl_pkey) (chain : option (list (list Z))) : M unit :=
  mod_config (fun g => mk_config (g_sign_key g) (g_chain g) key chain (g_sni g) (g_alpn_offer g) (g_alpn_supported g) (g_ocsp g) (g_sct g) (g_early_max g)).

Definition opssl_tls13_set_ocsp_response (response : list Z) : M unit :=
  mod_config (fun g => mk_config (g_sign_key g) (g_chain g) (g_client_key g) (g_client_chain g) (g_sni g) (g_alpn_offer g) (g_alpn_supported g) response (g_sct g) (g_early_max g)).

Definition opssl_tls13_set_sct_list (sct_list : list Z) : M unit :=
  mod_config (fun g => mk_config (g_sign_key g) (g_chain g) (g_client_key g) (g_client_chain g) (g_sni g) (g_alpn_offer g) (g_alpn_supported g) (g_ocsp g) sct_list (g_early_max g)).

Definition opssl_tls13_set_early_data_max (max_bytes : Z) : M unit :=
  mod_config (fun g => mk_config (g_sign_key g) (g_chain g) (g_client_key g) (g_client_chain g) (g_sni g) (g_alpn_offer g) (g_alpn_supported g) (g_ocsp g) (g_sct g) max_bytes).

Definition opssl_tls13_request_client_cert (request : bool) : M unit := mod_peer (set_request_cert request).

Definition opssl_tls13_set_psk (psk ticket : list Z) : M unit :=
  if (length psk =? 0)%nat then ret tt else
  mod_psk (fun p => mk_psk (take 48 psk) (if (0 <? length ticket)%nat && (Z.of_nat (length ticket) <=? 1024) then ticket else p_ticket p)
                      true (p_offered p) (p_accepted p) (p_dhe_ke p) (p_binder p)).
End Ops.
