(* ===== verification/Tls13Msg.v ===== *)
(** The messages of the TLS 1.3 handshake: what the builders of [Tls13] write, and
    what its parsers read, as RFC 8446 section 4 gives them. *)
From S2P Require Import Prelude Types Platform Err Cbs Cbb Cpu Sha256 Sha512 Hmac Hkdf KeySched Tls13.
From stdpp Require Import gmap.
#[local] Open Scope Z_scope.
#[local] Open Scope list_scope.

(** A vector with its length, an extension, a handshake message. *)
Definition lp (n : nat) (x : list Z) : list Z := be_bytes n (Z.of_nat (length x)) ++ x.
Definition ext (t : Z) (d : list Z) : list Z := be_bytes 2 t ++ lp 2 d.
Definition hmsg (t : Z) (body : list Z) : list Z := t :: lp 3 body.

Lemma lp_length n x : length (lp n x) = (n + length x)%nat.
Proof. unfold lp. by rewrite length_app, be_bytes_length. Qed.

Lemma ext_length t d : length (ext t d) = (4 + length d)%nat.
Proof. unfold ext. by rewrite length_app, be_bytes_length, lp_length. Qed.

Lemma hmsg_length t b : length (hmsg t b) = (4 + length b)%nat.
Proof. unfold hmsg. cbn [length]. by rewrite lp_length. Qed.

Lemma lp_bytes n x : bytes x -> bytes (lp n x).
Proof. intros H. apply bytes_app. split; [apply be_bytes_ok | exact H]. Qed.

Lemma u16_of_bytes v : u16_of v = be_bytes 2 v.
Proof. unfold u16_of. rewrite put_be16_bytes. apply (be_bytes_wrap 2). apply Z.mod_mod. lia. Qed.

(* ------------------------------------------------------------------ *)
(** * Building *)

(** What a program of builder calls writes from a stack of open builders. *)
Definition Writes (ops : list bop) (fs : list (nat * nat * list Z)) (out : list Z) : Prop :=
  valid ops fs /\ spec_run ops fs ≫= closed = Some out.

Lemma split_at_ptrs p fs x : split_at p fs = Some x -> p ∈ ptrs fs.
Proof.
  revert x. induction fs as [| [[q n] c] fs IH]; intros x; cbn [split_at]; [done |]. destruct (Nat.eqb_spec q p) as [-> |].
  - intros _. left.
  - destruct (split_at p fs) as [[[? ?] ?] |]; [| done]. intros _. right. by eapply IH.
Qed.

Lemma writes_put p data ops fs fs1 n c fs2 t out : split_at p fs = Some (fs1, (n, c), fs2) -> closed fs2 = Some t ->
  Writes ops (fs1 ++ [(p, n, c ++ t ++ data)]) out -> Writes (Put p data :: ops) fs out.
Proof.
  intros Hs Ht [Hv Hr]. unfold Writes. cbn [valid spec_run valid_op spec_step]. rewrite Hs. cbn [mbind option_bind]. rewrite Ht. cbn [mbind option_bind].
  split; [split; [by eapply split_at_ptrs | exact Hv] | exact Hr].
Qed.

Lemma writes_open p w ch ops fs fs1 n c fs2 t out : split_at p fs = Some (fs1, (n, c), fs2) -> closed fs2 = Some t ->
  (1 <= w <= 3)%nat -> bool_decide (ch ∈ ptrs fs) = false ->
  Writes ops (fs1 ++ [(p, n, c ++ t); (ch, w, [])]) out -> Writes (Open p w ch :: ops) fs out.
Proof.
  intros Hs Ht Hw Hch [Hv Hr]. apply bool_decide_eq_false in Hch. unfold Writes. cbn [valid spec_run valid_op spec_step]. rewrite Hs. cbn [mbind option_bind]. rewrite Ht. cbn [mbind option_bind].
  split; [split; [split; [by eapply split_at_ptrs | done] | exact Hv] | exact Hr].
Qed.

Lemma closed_frame p n c fs t : closed fs = Some t -> Z.of_nat (length (c ++ t)) <= prefix_max (Z.of_nat n) ->
  closed ((p, n, c) :: fs) = Some (lp n (c ++ t)).
Proof. intros Ht Hl. rewrite closed_cons, Ht. by rewrite (proj2 (Z.leb_le _ _) Hl). Qed.

Lemma writes_end fs out : closed fs = Some out -> Writes [] fs out.
Proof. intros H. split; [exact I | exact H]. Qed.

(** What is written has the size of the operations. *)
Lemma spec_step_size o fs fs' : spec_step o fs = Some fs' -> valid_op o fs ->
  Z.of_nat (length (flat fs')) = Z.of_nat (length (flat fs)) + op_size o.
Proof.
  intros Hs Hv. assert (exists p, p ∈ ptrs fs /\ match o with Put q _ | Open q _ _ | Flush q => q = p end) as (p & Hp & Ho)
    by (destruct o; cbn in Hv; eexists; (split; [apply Hv | done])).
  destruct (split_at_app p fs Hp) as (fs1 & n & c & fs2 & Hsp & ->).
  destruct o as [q d | q w ch | q]; subst q; cbn [spec_step op_size] in *; rewrite Hsp in Hs; cbn [mbind option_bind] in Hs.
  - destruct (closed fs2) as [t |] eqn:Ht; [| done]. injection Hs as <-. pose proof (flat_closed fs1 p n c fs2 t Ht) as Hfl.
    rewrite !flat_app, !flat_frame, !length_app in *. cbn [flat length] in *. rewrite ?length_app in *. lia.
  - destruct (closed fs2) as [t |] eqn:Ht; [| done]. injection Hs as <-. pose proof (flat_closed fs1 p n c fs2 t Ht) as Hfl.
    rewrite !flat_app, !flat_frame, !length_app in *. cbn [flat length] in *. rewrite ?length_app, ?length_replicate in *. cbn [length]. lia.
  - destruct fs1 as [| [[q m] e] fs1 _] using rev_ind; cbn [rev app] in *.
    + destruct (closed fs2) as [t |] eqn:Ht; [| done]. injection Hs as <-. pose proof (flat_closed [] p n c fs2 t Ht) as Hfl. cbn [app] in Hfl. lia.
    + rewrite rev_app_distr in Hs. cbn [rev app] in Hs. rewrite rev_involutive, <- app_assoc in *. cbn [app] in *.
      destruct (closed ((p, n, c) :: fs2)) as [t |] eqn:Ht; [| done]. injection Hs as <-. pose proof (flat_closed fs1 q m e _ t Ht) as Hfl. lia.
Qed.

Lemma writes_size ops : forall fs out, Writes ops fs out -> Z.of_nat (length out) = Z.of_nat (length (flat fs)) + total_size ops.
Proof.
  induction ops as [| o ops IH]; intros fs out [Hv Hr]; cbn [spec_run total_size valid] in *.
  - cbn [mbind option_bind] in Hr. rewrite (closed_length _ _ Hr). lia.
  - destruct Hv as [Hv Hvs]. destruct (spec_step o fs) as [fs' |] eqn:Hs; [| done]. rewrite (IH fs' out (conj Hvs Hr)), (spec_step_size o fs fs' Hs Hv). lia.
Qed.

(** A message of the kind a program writes is built, with or without the flush. *)
Lemma build_message_spec junk flush cap ops out : Writes ops [(0%nat, 0%nat, [])] out -> 0 <= cap <= 2 ^ 62 -> Z.of_nat (length out) <= 2 ^ 62 ->
  build_message junk flush cap ops = Some (Some out).
Proof.
  intros Hw Hc Hsz. rewrite (writes_size _ _ _ Hw) in Hsz. cbn [flat length app replicate] in Hsz. destruct Hw as [Hv Hr]. unfold build_message, run_builder. cbv zeta. set (fuel := (2 + length ops)%nat).
  destruct (init_spec 0%nat cap (mk_store ∅ ∅ 0) ltac:(done) Hc) as (s1 & b & cp & Hi & Him & Hcp).
  rewrite (op_bind_some _ _ _ _ _ Hi).
  pose proof (run_ops_spec junk fuel ops s1 b cp _ Him Hcp Hv ltac:(cbn; lia) ltac:(cbn; unfold fuel; lia)) as H.
  destruct (spec_run ops _) as [fs |]; [| done]. destruct H as (s2 & b2 & cp2 & H2 & Him2 & Hl2 & Hh). cbn [mbind option_bind] in Hr.
  rewrite (op_bind_some _ _ _ _ _ H2). cbn [negb]. destruct (im_root _ _ _ _ _ Him2) as (p & c & Hrt). destruct fs as [| f fs]; [done |]. injection Hrt as ->.
  injection Hh as ->. cbn [length] in Hl2. assert (exists s3, (if flush then opssl_cbb_flush fuel 0 else mret true) s2 = Some (true, s3) /\
    exists b3 fs3, implements s3 b3 true cp2 ((0%nat, 0%nat, fs3.1) :: fs3.2) /\ closed ((0%nat, 0%nat, fs3.1) :: fs3.2) = Some out /\ (length fs3.2 <= fuel)%nat)
    as (s3 & Hfl & b3 & fs3 & Him3 & Hc3 & Hl3).
  { destruct flush; [| exists s2; split; [done |]; exists b2, (c, fs); split; [done |]; split; [done | cbn; lia]].
    pose proof (flush_root_spec s2 b2 true cp2 0%nat 0%nat c fs fuel Him2 ltac:(lia)) as Hf. rewrite closed_cons in Hr. destruct (closed fs) as [t |] eqn:Ht; [| done].
    destruct Hf as (s3 & Hf & Him3). exists s3. split; [exact Hf |]. exists b2, (c ++ t, []). split; [exact Him3 |]. split; [| cbn; lia].
    rewrite closed_cons. cbn [closed fst snd]. rewrite app_nil_r. exact Hr. }
  rewrite (op_bind_some _ _ _ _ _ Hfl). destruct (finish_spec s3 b3 true cp2 0%nat fs3.1 fs3.2 fuel Him3 Hl3) as (s4 & Hfin).
  rewrite Hc3 in Hfin. rewrite Hfin. reflexivity.
Qed.

(** Lengths of encodings, and the bounds of prefixes. *)
Ltac enc_len := unfold ext, hmsg, lp; repeat (rewrite ?length_app, ?be_bytes_length, ?length_replicate; cbn [length]); lia.
Ltac prefix_bound :=
  match goal with |- _ <= prefix_max ?n => let v := eval vm_compute in (prefix_max n) in change (prefix_max n) with v end; enc_len.

(** The closed form of the frames that a step closes. *)
Ltac close_frames :=
  lazymatch goal with
  | |- closed [] = _ => reflexivity
  | |- closed (_ :: _) = _ => eapply closed_frame; [close_frames | prefix_bound]
  end.

Ltac tidy := rewrite ?app_nil_r, ?app_nil_l, <- ?app_assoc.

(** One operation at a time: [cs] opens the frames, [fin] compares the result. *)
Ltac writes_step :=
  lazymatch goal with
  | |- Writes (Put _ _ :: _) _ _ => eapply writes_put; [reflexivity | close_frames | tidy; cbn [app]]
  | |- Writes (Open _ _ _ :: _) _ _ => eapply writes_open; [reflexivity | close_frames | lia | reflexivity | tidy; cbn [app]]
  | |- Writes [] _ _ => apply writes_end
  end.

Ltac writes_end_tac := eapply eq_trans; [close_frames | unfold hmsg, ext; tidy; cbn [app]].

Section Messages.
Context `{Cpu} {P : Pki}.

(** The fields of the messages a program writes, RFC 8446 sections 4.1 to 4.4. *)
Definition finished_msg (vd : list Z) : list Z := hmsg TLS13_MSG_FINISHED vd.

Definition certificate_verify_msg (scheme : Z) (sig : list Z) : list Z := hmsg TLS13_MSG_CERTIFICATE_VERIFY (be_bytes 2 scheme ++ lp 2 sig).

Definition certificate_entries (chain : list (list Z)) : list Z := concat (map (fun der => lp 3 der ++ be_bytes 2 0) chain).
Definition certificate_msg (chain : list (list Z)) : list Z := hmsg TLS13_MSG_CERTIFICATE (0 :: lp 3 (certificate_entries chain)).

Definition encrypted_extensions_msg : list Z := hmsg TLS13_MSG_ENCRYPTED_EXTENSIONS (lp 2 []).

Definition server_hello_msg (random sid : list Z) (cipher group : Z) (pub : list Z) : list Z :=
  hmsg TLS13_MSG_SERVER_HELLO
    (be_bytes 2 0x0303 ++ random ++ lp 1 sid ++ be_bytes 2 cipher ++ 0 ::
     lp 2 (ext EXT_SUPPORTED_VERSIONS (be_bytes 2 0x0304) ++ ext EXT_KEY_SHARE (be_bytes 2 group ++ lp 2 pub))).

Definition client_hello_exts (x25519_pub p256_pub : list Z) : list Z :=
  ext EXT_SUPPORTED_VERSIONS (lp 1 (be_bytes 2 0x0304)) ++
  ext EXT_KEY_SHARE (lp 2 (be_bytes 2 NAMED_GROUP_X25519 ++ lp 2 x25519_pub ++ be_bytes 2 NAMED_GROUP_SECP256R1 ++ lp 2 p256_pub)) ++
  ext EXT_SUPPORTED_GROUPS (lp 2 (concat (map (be_bytes 2) [NAMED_GROUP_X25519; NAMED_GROUP_SECP256R1; NAMED_GROUP_SECP384R1; NAMED_GROUP_SECP521R1]))) ++
  ext EXT_SIGNATURE_ALGORITHMS (lp 2 (concat (map (be_bytes 2) [0x0804; 0x0805; 0x0806; 0x0403; 0x0503; 0x0603]))) ++
  ext EXT_STATUS_REQUEST [1; 0; 0; 0; 0] ++ ext EXT_SIGNED_CERT_TIMESTAMP [] ++ ext EXT_POST_HANDSHAKE_AUTH [].

Definition client_suites : list Z := concat (map (be_bytes 2) tls13_cipher_preference).

Definition client_hello_msg (random x25519_pub p256_pub : list Z) : list Z :=
  hmsg TLS13_MSG_CLIENT_HELLO
    (be_bytes 2 0x0303 ++ random ++ lp 1 [] ++ lp 2 client_suites ++ lp 1 [0] ++ lp 2 (client_hello_exts x25519_pub p256_pub)).

Lemma finished_writes vd : (length vd <= 64)%nat -> Writes (finished_ops vd) [(0%nat, 0%nat, [])] (finished_msg vd).
Proof. intros Hl. unfold finished_ops. repeat writes_step. by writes_end_tac. Qed.

Lemma encrypted_extensions_writes (h : hs) : r_alpn (h_peer h) = [] -> g_ocsp (h_config h) = [] -> g_sct (h_config h) = [] ->
  r_early_accepted (h_peer h) = false -> Writes (encrypted_extensions_ops h) [(0%nat, 0%nat, [])] encrypted_extensions_msg.
Proof.
  intros H1 H2 H3 H4. unfold encrypted_extensions_ops. cbv zeta. rewrite H1, H2, H3, H4, !andb_false_r. cbn [length Nat.ltb Nat.leb app].
  repeat writes_step. by writes_end_tac.
Qed.

Lemma certificate_verify_writes scheme sig : (length sig <= 512)%nat ->
  Writes (certificate_verify_ops scheme sig) [(0%nat, 0%nat, [])] (certificate_verify_msg scheme sig).
Proof. intros Hl. unfold certificate_verify_ops. rewrite !u16_of_bytes. repeat writes_step. by writes_end_tac. Qed.

Lemma server_hello_writes (h : hs) : (length (h_srandom h) <= 32)%nat -> (length (r_session_id (h_peer h)) <= 32)%nat ->
  (length (k_pub (h_kex h)) <= 256)%nat -> p_accepted (h_psk h) = false ->
  Writes (server_hello_ops h) [(0%nat, 0%nat, [])]
    (server_hello_msg (h_srandom h) (r_session_id (h_peer h)) (h_cipher h) (k_group (h_kex h)) (k_pub (h_kex h))).
Proof.
  intros Hr Hs Hp Ha. unfold server_hello_ops. cbv zeta. rewrite Ha, app_nil_r, !u16_of_bytes. generalize dependent (r_session_id (h_peer h)). intros sid Hs.
  assert ([u8 (Z.of_nat (length sid))] = be_bytes 1 (Z.of_nat (length sid))) as -> by (cbn [be_bytes]; rewrite Z.shiftr_0_r; reflexivity).
  destruct sid as [| b sid].
  - cbn [length Nat.ltb Nat.leb app]. repeat writes_step. unfold server_hello_msg. by writes_end_tac.
  - change (0 <? length (b :: sid))%nat with true. cbn [app]. unfold server_hello_msg. cbn [length] in Hs. repeat writes_step. writes_end_tac.
    change (lp 1 (b :: sid)) with (be_bytes 1 (Z.of_nat (length (b :: sid))) ++ b :: sid). rewrite <- ?app_assoc. cbn [app]. by rewrite <- ?app_assoc.
Qed.

Definition no_options (h : hs) : Prop :=
  c_string (g_sni (h_config h)) = [] /\ g_alpn_offer (h_config h) = [] /\ p_has (h_psk h) = false.

Lemma client_hello_writes (h : hs) : no_options h -> (length (h_crandom h) <= 32)%nat ->
  (length (k_pub (h_kex h)) <= 256)%nat -> (length (k_sec_pub (h_kex h)) <= 256)%nat ->
  Writes (client_hello_ops h) [(0%nat, 0%nat, [])] (client_hello_msg (h_crandom h) (k_pub (h_kex h)) (k_sec_pub (h_kex h))).
Proof.
  intros (Hs & Ha & Hp) Hr H1 H2. unfold client_hello_ops, offers_psk, sends_early, u16s. cbv zeta. rewrite Hs, Ha, Hp, !u16_of_bytes. cbn [length Nat.ltb Nat.leb andb].
  rewrite !app_nil_r. cbn [map app tls13_cipher_preference]. rewrite ?u16_of_bytes.
  unfold client_hello_msg, client_hello_exts, client_suites. cbn [map concat tls13_cipher_preference].
  repeat writes_step. by writes_end_tac.
Qed.
End Messages.

(* ------------------------------------------------------------------ *)
(** * Parsing *)

(** A parser at [x], before [r]. *)
Definition V (x r : list Z) : cbs := {| data := x ++ r; len := Z.of_nat (length x) |}.

Lemma V_advance d x r : cbs_advance (Z.of_nat (length d)) (V (d ++ x) r) = V x r.
Proof.
  unfold cbs_advance, V. cbn [data len]. rewrite Nat2Z.id, <- app_assoc, drop_app_length, length_app. f_equal. lia.
Qed.

Lemma V_init x r : opssl_cbs_init (x ++ r) (Z.of_nat (length x)) = V x r.
Proof. done. Qed.

Lemma V_len x r : opssl_cbs_len (V x r) = Z.of_nat (length x).
Proof. done. Qed.

Lemma V_content x r : content (V x r) = x.
Proof. unfold content, V. cbn [data len]. by rewrite Nat2Z.id, take_app_length. Qed.

Lemma V_u8 b x r : opssl_cbs_get_u8 (V (b :: x) r) = (Some b, V x r).
Proof.
  unfold opssl_cbs_get_u8. rewrite (proj2 (Z.ltb_ge _ _)) by (unfold V; cbn [len length]; lia). f_equal. apply (V_advance [b]).
Qed.

Lemma V_u16 v x r : 0 <= v < 65536 -> opssl_cbs_get_u16 (V (be_bytes 2 v ++ x) r) = (Some v, V x r).
Proof.
  intros Hv. unfold opssl_cbs_get_u16. rewrite (proj2 (Z.ltb_ge _ _)) by (unfold V; cbn [len]; rewrite length_app, be_bytes_length; lia).
  f_equal; [| apply (V_advance (be_bytes 2 v))]. f_equal. unfold V; cbn [data be_bytes app]. rewrite be16_cons, be16_val.
  - change [_; _] with (be_bytes 2 v). rewrite be_bytes_mod. by apply Z.mod_small.
  - apply (be_bytes_ok 2 v).
Qed.

Lemma be24_app v x : 0 <= v < 2 ^ 24 -> be24 (be_bytes 3 v ++ x) = v.
Proof.
  intros Hv. assert (bytes (be_bytes 3 v)) as Hb by apply be_bytes_ok. pose proof (get_u24_reads (opssl_cbs_init (be_bytes 3 v) 3)) as Hr.
  specialize (Hr (init_wf _ Hb)). rewrite view_init in Hr. apply (f_equal fst) in Hr.
  change (Some (be24 (be_bytes 3 v)) = Some (be_val (be_bytes 3 v))) in Hr. assert (be24 (be_bytes 3 v) = be_val (be_bytes 3 v)) as Hr2 by congruence. clear Hr. rename Hr2 into Hr. rewrite be_bytes_mod, Z.mod_small in Hr by exact Hv.
  rewrite <- Hr at 2. reflexivity.
Qed.

Lemma V_bytes d x r n : n = Z.of_nat (length d) -> opssl_cbs_get_bytes n (V (d ++ x) r) = (Some (V d (x ++ r)), V x r).
Proof.
  intros ->. unfold opssl_cbs_get_bytes. rewrite (proj2 (Z.ltb_ge _ _)) by (unfold V; cbn [len]; rewrite length_app; lia).
  f_equal; [| apply V_advance]. f_equal. unfold V. cbn [data]. by rewrite <- app_assoc.
Qed.

Lemma V_lp8 d x r : Z.of_nat (length d) < 256 -> opssl_cbs_get_u8_length_prefixed (V (lp 1 d ++ x) r) = (Some (V d (x ++ r)), V x r).
Proof.
  intros Hd. unfold opssl_cbs_get_u8_length_prefixed, cbs_bind, lp. change (be_bytes 1 ?v) with [u8 (Z.shiftr v 0)]. rewrite Z.shiftr_0_r, <- app_assoc. cbn [app].
  rewrite V_u8. apply V_bytes. apply Z.mod_small. lia.
Qed.

Lemma V_lp16 d x r : Z.of_nat (length d) < 65536 -> opssl_cbs_get_u16_length_prefixed (V (lp 2 d ++ x) r) = (Some (V d (x ++ r)), V x r).
Proof.
  intros Hd. unfold opssl_cbs_get_u16_length_prefixed, cbs_bind, lp. rewrite <- app_assoc, V_u16 by lia. by apply V_bytes.
Qed.

Lemma V_ext t d x r : 0 <= t < 65536 -> Z.of_nat (length d) < 65536 -> next_extension (V (ext t d ++ x) r) = (Some (t, V d (x ++ r)), V x r).
Proof. intros Ht Hd. unfold next_extension, cbs_bind, ext. by rewrite <- app_assoc, V_u16, V_lp16. Qed.

Lemma V_lp16_last d r : Z.of_nat (length d) < 65536 -> opssl_cbs_get_u16_length_prefixed (V (lp 2 d) r) = (Some (V d r), V [] r).
Proof. intros Hd. rewrite <- (app_nil_r (lp 2 d)). by rewrite V_lp16. Qed.

Section Walk.
Context `{Cpu} {P : Pki}.

(** The extensions of a list, each taken in turn, before [r]. *)
Inductive walks (f : Z -> cbs -> M (option unit)) (r : list Z) : list Z -> hs -> hs -> Prop :=
  | walks_nil h : walks f r [] h h
  | walks_cons t d x h h1 h2 : 0 <= t < 65536 -> Z.of_nat (length d) < 65536 ->
      f t (V d (x ++ r)) h = Some (Some tt, h1) -> walks f r x h1 h2 -> walks f r (ext t d ++ x) h h2.

Lemma walks_last f r t d h h1 : 0 <= t < 65536 -> Z.of_nat (length d) < 65536 -> f t (V d r) h = Some (Some tt, h1) ->
  walks f r (ext t d) h h1.
Proof. intros Ht Hd Hf. rewrite <- (app_nil_r (ext t d)). by apply walks_cons with (h1 := h1); [| | | apply walks_nil]. Qed.

Lemma each_extension_walks f r l h h' : walks f r l h h' -> forall fuel, (length l <= fuel)%nat ->
  each_extension fuel f (V l r) h = Some (Some tt, h').
Proof.
  induction 1 as [h | t d x h h1 h2 Ht Hd Hf Hw IH]; intros fuel Hl; [by destruct fuel |]. rewrite length_app, ext_length in Hl.
  destruct fuel as [| fuel]; [lia |]. cbn [each_extension]. rewrite V_len, length_app, ext_length, (proj2 (Z.leb_gt _ _)) by lia.
  rewrite V_ext by done. unfold or_return, bind. rewrite Hf. apply IH. lia.
Qed.

Lemma finish_to_buf_spec junk flush cap ops out out_cap h : Writes ops [(0%nat, 0%nat, [])] out -> 0 <= cap <= 2 ^ 62 ->
  Z.of_nat (length out) <= 2 ^ 62 -> Z.of_nat (length out) <= out_cap ->
  cbb_finish_to_buf junk flush cap ops out_cap h = Some (Some out, h).
Proof.
  intros Hw Hc Hs Ho. unfold cbb_finish_to_buf, lift, bind. rewrite (build_message_spec junk flush cap ops out) by done. by rewrite Z.ltb_antisym, (proj2 (Z.leb_le _ _) Ho).
Qed.
End Walk.
