(* ===== verification/Tls13Secrets.v ===== *)
(** The secrets of the TLS 1.3 handshake: the transcript hash is the hash of the
    messages, and the derivations of [Tls13] are the key schedule of RFC 8446
    section 7.1 on them. *)
From Stdlib Require Import String.
From S2P Require Import Prelude Types Platform Err Cbs Asn1 Cbb Cpu HashApi Sha256 Sha512 Hmac Hkdf KeySched Tls13.
From stdpp Require Import gmap.
#[local] Open Scope Z_scope.
#[local] Open Scope list_scope.

Lemma short_ok (l : list Z) n : (length l <= n)%nat -> (n <= 4096)%nat -> size_ok l.
Proof. unfold size_ok, SIZE_MAX. lia. Qed.

(* ------------------------------------------------------------------ *)
(** * Steps of the monad *)

Section Steps.
Context `{Cpu} {P : Pki}.

Lemma bind_step {A B} (m : M A) (k : A -> M B) h a h1 : m h = Some (a, h1) -> bind m k h = k a h1.
Proof. intros E. unfold bind. by rewrite E. Qed.

Lemma or_step {A B} (m : M (option A)) (e : M B) (k : A -> M B) h a h1 : m h = Some (Some a, h1) -> or_return m e k h = k a h1.
Proof. intros E. unfold or_return, bind. by rewrite E. Qed.

Lemma get_step {B} (k : hs -> M B) h : bind get k h = k h h.
Proof. done. Qed.

Lemma modify_step {B} f (k : unit -> M B) h : bind (modify f) k h = k tt (f h).
Proof. done. Qed.

(** A run that ends with [a] in a state of which [Q] holds. *)
Definition outcome {A} (x : option (A * hs)) (a : A) (Q : hs -> Prop) : Prop := exists h, x = Some (a, h) /\ Q h.

Lemma outcome_eq {A} (x y : option (A * hs)) a Q : x = y -> outcome y a Q -> outcome x a Q.
Proof. by intros ->. Qed.

Lemma outcome_ret {A} (a : A) h (Q : hs -> Prop) : Q h -> outcome (Some (a, h)) a Q.
Proof. by exists h. Qed.
End Steps.

(** A name for the state [X] that says nothing about it but [E]. *)
Ltac name_state X h E := destruct (ex_intro (fun y => y = X) X eq_refl) as [h E]; rewrite <- E.

(** One call of a sequence, by the lemma [L] about it. *)
Ltac by_lemma L := first [eapply eq_trans | eapply outcome_eq]; [first [eapply or_step, L | eapply bind_step, L] | cbv beta].
Tactic Notation "step" uconstr(L) "by" tactic3(tac) := by_lemma L; [tac .. |].

(* ------------------------------------------------------------------ *)
(** * The transcript *)

Section Secrets.
Context `{Cpu} {SP : SimdSpec cpu_simd} {P : Pki}.

(** Both running hashes are of the messages [T]. *)
Definition transcript (h : hs) (T : list Z) : Prop := sha256_rep (h_sha256 h) T /\ sha512_rep sha384_iv (h_sha384 h) T.

(** The hash of the suite is [a]. *)
Definition suite_ok (a : opssl_hmac_algo_t) (h : hs) : Prop := h_algo h = a /\ h_len h = get_digest_size a /\ tls13_hash a = true.

(** The arrays of the two contexts have their sizes. *)
Definition transcript_alloc (h : hs) : Prop := sha256_alloc (h_sha256 h) /\ h_alloc sha384_ops (h_sha384 h).

Definition add_transcript (d : list Z) (h : hs) : hs :=
  set_transcript (opssl_sha256_update (h_sha256 h) d) (opssl_sha512_update (h_sha384 h) d) h.

Definition fresh_transcript (h : hs) : hs := set_transcript (opssl_sha256_init (h_sha256 h)) (opssl_sha384_init (h_sha384 h)) h.

Lemma transcript_init h : transcript_alloc h -> transcript (fresh_transcript h) [].
Proof. intros [H1 H2]. split; [exact (@h_init_rep _ _ _ sha256_laws _ H1) | exact (@h_init_rep _ _ _ sha384_laws _ H2)]. Qed.

Lemma transcript_add h T d : size_ok d -> transcript h T -> transcript (add_transcript d h) (T ++ d).
Proof.
  intros Hs [H1 H2]. split; [exact (@h_update_rep _ _ _ sha256_laws _ _ _ Hs H1) | exact (@h_update_rep _ _ _ sha384_laws _ _ _ Hs H2)].
Qed.

(** A message that is built is sent. *)
Lemma send_ok m h T msg : m h = Some (Some msg, h) -> (length msg <= 4096)%nat -> transcript h T ->
  send m h = Some (Some msg, add_transcript msg h) /\ transcript (add_transcript msg h) (T ++ msg).
Proof.
  intros Hm Hl Ht. split; [unfold send; by step Hm by idtac |]. apply transcript_add; [unfold size_ok, SIZE_MAX; lia | done].
Qed.

Lemma transcript_hash h T a : transcript h T -> suite_ok a h -> tls13_get_transcript_hash h = Some (Some (hash_of a T), h).
Proof.
  intros [H1 H2] (Ha & _ & Ht). unfold tls13_get_transcript_hash. rewrite get_step. unfold ret. rewrite Ha. destruct a; try done.
  - do 3 f_equal. exact (@h_final_rep _ _ _ sha256_laws _ _ H1).
  - do 3 f_equal. exact (@h_final_rep _ _ _ sha384_laws _ _ H2).
Qed.

(* ------------------------------------------------------------------ *)
(** * The derivations *)

Context (hfuel : nat) (hjunk : list Z) (Hfuel : (254 <= hfuel)%nat) (Hjunk : length hjunk = 512%nat).
Context (a : opssl_hmac_algo_t).

Lemma not_sha1 : tls13_hash a = true -> a = OPSSL_HMAC_SHA1 -> False.
Proof. by intros ? ->. Qed.

Lemma extract_secret_ok salt ikm h : suite_ok a h -> size_ok salt -> size_ok ikm ->
  extract_secret salt ikm h = Some (Some (HKDF_Extract a salt ikm), h).
Proof.
  intros (Ha & Hl & Ht) Hs Hi. unfold extract_secret. rewrite get_step. unfold lift, bind, ret, opssl_tls13_extract_secret. rewrite Ha, Hl.
  rewrite (@extract_ok _ SP a (not_sha1 Ht) (Some salt) (Some ikm)) by (done || apply length_replicate).
  rewrite take_ge; [done |]. by rewrite HKDF_Extract_length.
Qed.

Lemma derive_secret_ok secret label context h : suite_ok a h -> length secret = get_digest_size a -> (length label <= 12)%nat ->
  (match context with Some c => (length c <= 255)%nat | None => True end) ->
  derive_secret hfuel hjunk secret label context h =
    Some (Some (HKDF_Expand_Label a secret label (match context with Some c => c | None => hash_of a [] end) (get_digest_size a)), h).
Proof.
  intros (Ha & Hl & Ht) Hs Hlab Hc. unfold derive_secret. rewrite get_step. unfold lift, opssl_tls13_derive_secret_compat. rewrite Ha, Hl.
  pose proof (digest_pos a). rewrite (@derive_ok _ SP hfuel hjunk Hfuel Hjunk a (not_sha1 Ht)); [done | | done | apply length_replicate | by destruct context].
  apply (short_ok _ 64); lia.
Qed.

Lemma derive_transcript_ok secret label T h : suite_ok a h -> length secret = get_digest_size a -> (length label <= 12)%nat ->
  derive_secret hfuel hjunk secret label (Some (hash_of a T)) h = Some (Some (Derive_Secret a secret label T), h).
Proof. intros. apply derive_secret_ok; try done. rewrite hash_of_length. pose proof (digest_pos a). lia. Qed.

Lemma expand_label_M_ok n secret label h : suite_ok a h -> length secret = get_digest_size a -> (length label <= 12)%nat -> (n <= 254)%nat ->
  expand_label hfuel hjunk n secret label h = Some (Some (HKDF_Expand_Label a secret label [] n), h).
Proof.
  intros (Ha & Hl & Ht) Hs Hlab Hn. unfold expand_label. rewrite get_step. unfold lift, opssl_tls13_hkdf_expand_label. rewrite Ha.
  pose proof (digest_pos a). rewrite (@expand_short _ SP hfuel hjunk Hfuel Hjunk a); rewrite ?length_replicate; [done | | done | cbn; lia | nia].
  apply (short_ok _ 64); lia.
Qed.

(** Section 7.1 without a PSK, from the shared secret. *)
Definition early_secret : list Z := Early_Secret a (zeros a).
Definition hs_secret (ecdhe : list Z) : list Z := Handshake_Secret a (zeros a) ecdhe.
Definition master_secret (ecdhe : list Z) : list Z := Master_Secret a (zeros a) ecdhe.

Lemma zeros_short : size_ok (zeros a).
Proof. apply (short_ok _ 64); [| lia]. unfold zeros. rewrite length_replicate. pose proof (digest_pos a). lia. Qed.

Lemma HKDF_Expand_Label_length s l c n : length (HKDF_Expand_Label a s l c n) = n.
Proof. apply HKDF_Expand_length. Qed.

Lemma Derive_Secret_length s l T : length (Derive_Secret a s l T) = get_digest_size a.
Proof. apply HKDF_Expand_length. Qed.

Lemma derived_short s l c : size_ok (HKDF_Expand_Label a s l c (get_digest_size a)).
Proof. apply (short_ok _ 64); [rewrite HKDF_Expand_Label_length; apply digest_pos | lia]. Qed.

Ltac secret_side := first [exact I | assumption | apply HKDF_Extract_length | cbn; lia].

Definition after_hs_secrets (ecdhe T : list Z) (h : hs) : hs :=
  set_secrets (set_hs_secrets early_secret (hs_secret ecdhe) (Derive_Secret a (hs_secret ecdhe) (chars "c hs traffic") T)
    (Derive_Secret a (hs_secret ecdhe) (chars "s hs traffic") T) (h_secrets h)) h.

Lemma derive_handshake_ok h T : suite_ok a h -> transcript h T -> p_has (h_psk h) = false -> size_ok (k_shared (h_kex h)) ->
  tls13_derive_handshake_secrets hfuel hjunk h = Some (Some tt, after_hs_secrets (k_shared (h_kex h)) T h).
Proof.
  intros Hs Ht Hp Hk. pose proof (digest_pos a). unfold tls13_derive_handshake_secrets, mod_secrets.
  step (transcript_hash _ T a) by assumption. rewrite get_step. cbv zeta. rewrite Hp. cbn [andb].
  assert (h_len h = get_digest_size a) as Hl by apply Hs. rewrite Hl.
  step (extract_secret_ok (zeros a) (zeros a)) by first [apply zeros_short | assumption]. rewrite modify_step.
  step (derive_secret_ok _ TLS13_LABEL_DERIVED None) by secret_side.
  step (extract_secret_ok _ _) by first [apply derived_short | assumption]. rewrite modify_step.
  step (derive_transcript_ok _ TLS13_LABEL_C_HS_TRAFFIC T) by secret_side. rewrite modify_step.
  step (derive_transcript_ok _ TLS13_LABEL_S_HS_TRAFFIC T) by secret_side. reflexivity.
Qed.

Definition after_ap_secrets (ecdhe T : list Z) (h : hs) : hs :=
  let ms := master_secret ecdhe in
  set_secrets (set_ap_secrets ms (Derive_Secret a ms (chars "c ap traffic") T) (Derive_Secret a ms (chars "s ap traffic") T)
    (Derive_Secret a ms (chars "exp master") T) (h_secrets h)) h.

Lemma derive_application_ok h T ecdhe : suite_ok a h -> transcript h T -> s_handshake (h_secrets h) = hs_secret ecdhe ->
  tls13_derive_application_secrets hfuel hjunk h = Some (Some tt, after_ap_secrets ecdhe T h).
Proof.
  intros Hs Ht Hk. pose proof (digest_pos a). unfold tls13_derive_application_secrets, mod_secrets. rewrite get_step, Hk.
  assert (h_len h = get_digest_size a) as Hl by apply Hs. rewrite Hl.
  step (derive_secret_ok _ TLS13_LABEL_DERIVED None) by secret_side.
  step (extract_secret_ok _ (zeros a)) by first [apply zeros_short | apply derived_short | assumption]. rewrite modify_step.
  step (transcript_hash _ T a) by assumption.
  step (derive_transcript_ok _ TLS13_LABEL_C_AP_TRAFFIC T) by secret_side. rewrite modify_step.
  step (derive_transcript_ok _ TLS13_LABEL_S_AP_TRAFFIC T) by secret_side. rewrite modify_step.
  step (derive_transcript_ok _ (chars "exp master") T) by secret_side. reflexivity.
Qed.

Lemma derive_resumption_ok h T ecdhe : suite_ok a h -> transcript h T -> s_master (h_secrets h) = master_secret ecdhe ->
  derive_resumption hfuel hjunk h =
    Some (tt, set_secrets (set_resumption (Derive_Secret a (master_secret ecdhe) (chars "res master") T) (h_secrets h)) h).
Proof.
  intros Hs Ht Hk. pose proof (digest_pos a). unfold derive_resumption. step (transcript_hash _ T a) by assumption. rewrite get_step, Hk.
  step (derive_transcript_ok _ (chars "res master") T) by secret_side. reflexivity.
Qed.

(** Section 4.4.4. *)
Definition verify_data (secret T : list Z) : list Z :=
  HMAC a (HKDF_Expand_Label a secret (chars "finished") [] (get_digest_size a)) (hash_of a T).

Lemma verify_data_length secret T : length (verify_data secret T) = get_digest_size a.
Proof. apply HMAC_length. Qed.

Lemma finished_data_ok h T secret : suite_ok a h -> transcript h T -> length secret = get_digest_size a ->
  finished_data hfuel hjunk secret h = Some (Some (verify_data secret T), h).
Proof.
  intros Hs Ht Hl. pose proof (digest_pos a). unfold finished_data. step (transcript_hash _ T a) by assumption. rewrite get_step.
  assert (h_len h = get_digest_size a) as Hn by apply Hs. rewrite Hn.
  step (expand_label_M_ok _ secret TLS13_LABEL_FINISHED) by first [assumption | cbn; lia].
  unfold hmac. rewrite get_step. unfold ret. rewrite (proj1 Hs).
  rewrite (@hmac_oneshot _ SP) by (apply (short_ok _ 64); rewrite ?HKDF_Expand_Label_length, ?hash_of_length; lia). reflexivity.
Qed.

(** Section 7.3, with the lengths of the suite. *)
Definition traffic_keys (cipher : Z) (c s : list Z) : list Z * list Z * list Z * list Z * Z :=
  (HKDF_Expand_Label a c (chars "key") [] (suite_key_len cipher), HKDF_Expand_Label a s (chars "key") [] (suite_key_len cipher),
   HKDF_Expand_Label a c (chars "iv") [] 12, HKDF_Expand_Label a s (chars "iv") [] 12, cipher).

Lemma derive_keys_ok h c s : suite_ok a h -> length c = get_digest_size a -> length s = get_digest_size a ->
  tls13_derive_keys_from_secrets hfuel hjunk c s h = Some (Some (traffic_keys (h_cipher h) c s), h).
Proof.
  intros Hs Hc Hsl. assert (suite_key_len (h_cipher h) <= 254)%nat as Hn by (unfold suite_key_len; destruct (_ || _); lia).
  unfold tls13_derive_keys_from_secrets. rewrite get_step. cbv zeta.
  step (expand_label_M_ok _ c TLS13_LABEL_KEY) by first [assumption | cbn; lia].
  step (expand_label_M_ok _ s TLS13_LABEL_KEY) by first [assumption | cbn; lia].
  step (expand_label_M_ok _ c TLS13_LABEL_IV) by first [assumption | cbn; lia].
  step (expand_label_M_ok _ s TLS13_LABEL_IV) by first [assumption | cbn; lia]. reflexivity.
Qed.
End Secrets.
