(* ===== verification/Tls13Ok.v ===== *)
(** A TLS 1.3 handshake between a client and a server, without a PSK: what each
    call does with the messages of the other end, and the secrets both have. *)
From Stdlib Require Import String.
From S2P Require Import Prelude Types Platform Err Cbs Asn1 Cbb Cpu HashApi Sha256 Sha512 Hmac Hkdf KeySched Tls13 Tls13Msg Tls13Secrets.
From stdpp Require Import gmap.
#[local] Open Scope Z_scope.
#[local] Open Scope list_scope.
#[local] Opaque opssl_sha256_update opssl_sha512_update Derive_Secret HKDF_Extract HKDF_Expand_Label HMAC.

(* ------------------------------------------------------------------ *)
(** * Messages in a buffer *)

Lemma ct_eq_prefix x r : opssl_ct_eq (x ++ r) x (length x) = 1.
Proof.
  unfold opssl_ct_eq. assert (for_range 0 (length x) (fun i diff => Z.lor diff (Z.lxor (x ++ r).[i] x.[i])) 0 = 0) as ->; [| reflexivity].
  apply (for_range_ind (fun _ d => d = 0)); [done |]. intros i d Hi ->. by rewrite get_app_l, Z.lxor_nilpotent by lia.
Qed.

Lemma drop_app_plus {A} (x y : list A) n : drop (length x + n) (x ++ y) = drop n y.
Proof. by rewrite <- drop_drop, drop_app_length. Qed.

(** A message at an offset of a buffer. *)
Section Framing.
Context (pre : list Z) (t : Z) (body post : list Z) (Hbody : Z.of_nat (length body) < 2 ^ 24).
Let buf := pre ++ hmsg t body ++ post.
Let off := length pre.

Lemma frame_type : buf.[off] = t.
Proof. unfold buf, off. rewrite get_app_r, Nat.sub_diag by lia. reflexivity. Qed.

Lemma frame_len : Z.to_nat (be24 (drop (off + 1) buf)) = length body.
Proof.
  unfold buf, off. rewrite drop_app_plus. unfold hmsg, lp. cbn [app drop]. rewrite drop_0, <- app_assoc, be24_app by lia. lia.
Qed.

Lemma frame_body : drop (off + 4) buf = body ++ post.
Proof. unfold buf, off. rewrite drop_app_plus. unfold hmsg, lp. cbn [app drop be_bytes]. reflexivity. Qed.

Lemma frame_msg : sub_list off (4 + length body) buf = hmsg t body.
Proof.
  unfold sub_list, buf, off. rewrite drop_app_length. rewrite <- (hmsg_length t body). apply take_app_length.
Qed.

Lemma frame_fits : (length buf = off + 4 + length body + length post)%nat.
Proof. unfold buf, off. rewrite !length_app, hmsg_length. lia. Qed.
End Framing.

(** Decides the length tests on such a buffer. *)
Ltac fits E := repeat (rewrite (proj2 (Nat.ltb_ge _ _)) by (rewrite ?E; lia)).

(** Fields of a structure that has been set. *)
Ltac fields := cbn [h_state h_is_server h_cipher h_algo h_len h_crandom h_srandom h_sha256 h_sha384 h_kex h_secrets h_psk h_config h_peer
  set_state set_is_server set_suite set_crandom set_srandom set_transcript set_kex set_secrets set_psk set_peer set_config
  k_group k_priv k_pub k_peer k_shared k_sec_group k_sec_priv k_sec_pub r_session_id r_request_cert r_early_accepted r_alpn r_alpn_client
  set_session_id set_wants set_request_cert set_certs fresh_transcript add_transcript].

(** Facts about a state that is [E], of the one it was made from. *)
Ltac framed E := rewrite E; repeat match goal with |- _ /\ _ => split end; fields; first [assumption | reflexivity | eassumption].

Section Handshake.
Context `{Cpu} {SP : SimdSpec cpu_simd} {P : Pki}.
Context (junk : Z) (hfuel : nat) (hjunk : list Z) (Hfuel : (254 <= hfuel)%nat) (Hjunk : length hjunk = 512%nat).

#[local] Abbreviation client := (opssl_tls13_client_handshake junk hfuel hjunk).
#[local] Abbreviation server := (opssl_tls13_server_handshake junk hfuel hjunk).

(* ------------------------------------------------------------------ *)
(** * The client's first call *)

(** A zeroed structure that has been given at most certificates and keys. *)
Record client_ready (h : hs) : Prop := {
  cr_state : h_state h = OPSSL_HS_IDLE;
  cr_client : h_is_server h = false;
  cr_alloc : transcript_alloc h;
  cr_options : no_options h;
  cr_offered : p_offered (h_psk h) = false;
  cr_request : r_request_cert (h_peer h) = false }.

(** The keys the client makes from its random bytes. *)
Record client_keys (random r25519 r256 : list Z) (xpub p256 : list Z) (e256 : opssl_ecdh_ctx) : Prop := {
  ck_random : (32 <= length random)%nat;
  ck_x25519 : opssl_x25519_derive (take 32 r25519) basepoint = Some xpub;
  ck_xlen : length xpub = 32%nat;
  ck_p256 : opssl_ecdh_keygen OPSSL_CURVE_P256 r256 = Some e256;
  ck_public : opssl_ecdh_get_public e256 = Some p256;
  ck_plen : length p256 = 65%nat }.

(** After the ClientHello [ch]. *)
Record client_sent (ch : list Z) (priv xpub : list Z) (h : hs) : Prop := {
  cs_state : h_state h = OPSSL_HS_CLIENT_HELLO;
  cs_client : h_is_server h = false;
  cs_transcript : transcript h ch;
  cs_priv : k_priv (h_kex h) = Scalar priv;
  cs_psk : p_has (h_psk h) = false;
  cs_request : r_request_cert (h_peer h) = false }.

Lemma client_hello_msg_length random xpub p256 :
  (length (client_hello_msg random xpub p256) <= length random + length xpub + length p256 + 256)%nat.
Proof.
  unfold client_hello_msg, client_hello_exts, client_suites, hmsg, ext, lp. cbn [map concat tls13_cipher_preference].
  repeat (rewrite ?length_app, ?be_bytes_length; cbn [length]). lia.
Qed.

(** The pairs of keys in the structure. *)
Definition with_key_pairs (priv xpub : list Z) (e256 : opssl_ecdh_ctx) (p256 : list Z) (h : hs) : hs :=
  set_kex (mk_kex NAMED_GROUP_X25519 (Scalar priv) xpub (k_peer (h_kex h)) (k_shared (h_kex h)) NAMED_GROUP_SECP256R1 (Ecdh e256) p256) h.

Lemma x25519_pair_ok r pub h : opssl_x25519_derive (take 32 r) basepoint = Some pub ->
  tls13_generate_key_pair_for_group (Some r) NAMED_GROUP_X25519 h =
    Some (Some tt, let k := h_kex h in
      set_kex (mk_kex NAMED_GROUP_X25519 (Scalar (take 32 r)) pub (k_peer k) (k_shared k) (k_sec_group k) (k_sec_priv k) (k_sec_pub k)) h).
Proof.
  intros Hp. unfold tls13_generate_key_pair_for_group. cbn [Z.eqb NAMED_GROUP_X25519 Pos.eqb]. unfold random_bytes. cbn [option_map].
  erewrite or_step by reflexivity. rewrite Hp. reflexivity.
Qed.

Lemma client_key_pairs_ok random r25519 r256 xpub p256 e256 h : client_keys random r25519 r256 xpub p256 e256 ->
  client_key_pairs (Some r25519) (Some r256) h = Some (Some tt, with_key_pairs (take 32 r25519) xpub e256 p256 h).
Proof.
  intros [K1 K2 K3 K4 K5 K6]. unfold client_key_pairs. step (x25519_pair_ok _ xpub) by assumption. rewrite get_step.
  unfold tls13_generate_key_pair_for_group. cbn [mbind option_bind]. unfold curve_of.
  change (NAMED_GROUP_SECP256R1 =? NAMED_GROUP_X25519) with false. cbn [Z.eqb NAMED_GROUP_SECP256R1 Pos.eqb orb]. rewrite K4, K5.
  erewrite or_step by reflexivity. unfold with_key_pairs. rewrite modify_step. cbn [h_kex set_kex k_pub k_priv k_peer k_shared]. rewrite (take_ge xpub) by lia. reflexivity.
Qed.

Lemma client_start_ok h random r25519 r256 xpub p256 e256 buf out_cap :
  client_ready h -> client_keys random r25519 r256 xpub p256 e256 -> 512 <= out_cap <= 2 ^ 62 ->
  let ch := client_hello_msg (take 32 random) xpub p256 in
  outcome (client (Some random) (Some r25519) (Some r256) buf out_cap h) (OPSSL_OK, 0%nat, ch) (client_sent ch (take 32 r25519) xpub).
Proof.
  intros Hc Hk Hcap ch. destruct Hc as [C1 C2 C3 C4 C5 C6].
  pose proof (client_hello_msg_length (take 32 random) xpub p256) as Hlen. fold ch in Hlen. rewrite length_take, (ck_xlen _ _ _ _ _ _ Hk), (ck_plen _ _ _ _ _ _ Hk) in Hlen.
  unfold opssl_tls13_client_handshake. rewrite get_step, C1. cbn [Z.eqb OPSSL_HS_IDLE]. unfold client_start. rewrite modify_step. unfold init_transcript. rewrite modify_step.
  unfold random_bytes. cbn [option_map]. erewrite or_step by reflexivity. rewrite modify_step.
  step (client_key_pairs_ok random r25519 r256 xpub p256 e256) by assumption. rewrite get_step.
  assert (length (take 32 random) = 32%nat) as Hr by (rewrite length_take; destruct Hk; lia).
  set (h0 := set_crandom _ _). name_state (with_key_pairs (take 32 r25519) xpub e256 p256 h0) h1 E1.
  assert (transcript h1 []) as Ht by (rewrite E1; exact (transcript_init (set_suite (h_cipher h) OPSSL_HMAC_SHA256 32 h) C3)).
  assert (no_options h1 /\ p_offered (h_psk h1) = false /\ h_is_server h1 = false /\ r_request_cert (h_peer h1) = false) as (Hn & Ho & Hcl & Hreq) by (by rewrite E1).
  assert (h_crandom h1 = take 32 random /\ k_pub (h_kex h1) = xpub /\ k_sec_pub (h_kex h1) = p256 /\ k_priv (h_kex h1) = Scalar (take 32 r25519)) as (E2 & E3 & E4 & E5)
    by (by rewrite E1).
  clear E1. clearbody h0.
  assert (sends_early h1 = false) as -> by (unfold sends_early; by rewrite (proj2 (proj2 Hn))).
  assert (offers_psk h1 = false) as -> by (unfold offers_psk; by rewrite (proj2 (proj2 Hn))).
  erewrite bind_step by reflexivity. erewrite bind_step by reflexivity.
  assert (Writes (client_hello_ops h1) [(0%nat, 0%nat, [])] ch) as Hw.
  { unfold ch. rewrite <- E2, <- E3, <- E4. destruct Hk. apply (client_hello_writes h1); [exact Hn | rewrite ?E2, ?E3, ?E4; lia ..]. }
  step (finish_to_buf_spec junk false out_cap (client_hello_ops h1) ch out_cap h1 Hw) by lia.
  rewrite get_step, Ho. erewrite bind_step by reflexivity. unfold tls13_update_transcript. rewrite !modify_step.
  fold (add_transcript ch h1). apply outcome_ret. constructor; fields; try assumption; [reflexivity | | exact (proj2 (proj2 Hn))].
  apply (transcript_add h1 []); [| exact Ht]. unfold size_ok, SIZE_MAX. lia.
Qed.

(* ------------------------------------------------------------------ *)
(** * The server's answer *)

(** A zeroed structure that has been given at most a certificate and a key. *)
Record server_ready (h : hs) : Prop := {
  sr_state : h_state h = OPSSL_HS_IDLE;
  sr_alloc : transcript_alloc h;
  sr_psk : p_has (h_psk h) = false;
  sr_accepted : p_accepted (h_psk h) = false;
  sr_early : r_early_accepted (h_peer h) = false;
  sr_alpn : r_alpn (h_peer h) = [];
  sr_alpn_client : r_alpn_client (h_peer h) = [];
  sr_ocsp : g_ocsp (h_config h) = [];
  sr_sct : g_sct (h_config h) = [];
  sr_request : r_request_cert (h_peer h) = false }.

Lemma find_share_first xpub x r fuel : length xpub = 32%nat -> (0 < fuel)%nat ->
  find_share fuel (V (be_bytes 2 NAMED_GROUP_X25519 ++ lp 2 xpub ++ x) r) = Some (NAMED_GROUP_X25519, xpub).
Proof.
  intros Hx Hf. destruct fuel as [| fuel]; [lia |]. cbn [find_share]. rewrite V_len, !length_app, be_bytes_length, (proj2 (Z.leb_gt _ _)) by lia.
  unfold cbs_bind. rewrite V_u16, V_lp16 by (unfold NAMED_GROUP_X25519; lia). rewrite V_len, V_content, Hx. reflexivity.
Qed.

Lemma client_suites_first r : tls13_select_cipher_suite (V client_suites r) = Some TLS_AES_256_GCM_SHA384.
Proof. reflexivity. Qed.

(** What the extensions of the ClientHello set. *)
Definition after_client_exts (xpub : list Z) (h : hs) : hs :=
  let k := h_kex h in let p := h_peer h in
  set_peer (set_wants true true (r_early_offered p) true p)
    (set_kex (mk_kex NAMED_GROUP_X25519 (k_priv k) (k_pub k) xpub (k_shared k) (k_sec_group k) (k_sec_priv k) (k_sec_pub k)) h).

Lemma client_exts_walk xpub p256 r h : length xpub = 32%nat -> length p256 = 65%nat ->
  walks client_hello_extension r (client_hello_exts xpub p256) h (after_client_exts xpub h).
Proof.
  intros Hx Hp. unfold client_hello_exts.
  eapply walks_cons; [done | done | reflexivity |].
  eapply walks_cons; [done | enc_len | |].
  { unfold client_hello_extension. cbn [Z.eqb EXT_KEY_SHARE Pos.eqb]. unfold tls13_parse_key_share_extension. rewrite V_lp16_last by enc_len.
    rewrite find_share_first; [reflexivity | done |]. rewrite V_len, Nat2Z.id. enc_len. }
  do 4 (eapply walks_cons; [done | done | reflexivity |]).
  eapply walks_last; [done | done |]. reflexivity.
Qed.

Definition after_client_hello (random xpub : list Z) (h : hs) : hs :=
  after_client_exts xpub (fresh_transcript (set_suite TLS_AES_256_GCM_SHA384 OPSSL_HMAC_SHA384 48
    (set_peer (set_session_id [] (h_peer h)) (set_crandom random h)))).

Definition client_hello_body (random xpub p256 : list Z) : list Z :=
  be_bytes 2 0x0303 ++ random ++ lp 1 [] ++ lp 2 client_suites ++ lp 1 [0] ++ lp 2 (client_hello_exts xpub p256).

Lemma parse_client_hello_ok random xpub p256 r h : length random = 32%nat -> length xpub = 32%nat -> length p256 = 65%nat ->
  tls13_parse_client_hello (V (client_hello_body random xpub p256) r) h = Some (Some tt, after_client_hello random xpub h).
Proof.
  intros Hr Hx Hp. unfold tls13_parse_client_hello, client_hello_fields, client_hello_body, cbs_bind.
  rewrite V_u16 by done. rewrite (V_bytes random) by (rewrite Hr; done). rewrite V_lp8 by done. rewrite V_lp16 by done. rewrite V_lp8 by done.
  assert (length (client_hello_exts xpub p256) <= 512)%nat as Hl by (unfold client_hello_exts; cbn [map concat]; enc_len).
  rewrite V_lp16_last by lia. rewrite modify_step, !V_len, !V_content. change (32 <? Z.of_nat (length [])) with false. cbv iota.
  unfold mod_peer at 1. rewrite modify_step. rewrite client_suites_first.
  unfold tls13_set_hash_for_cipher, init_transcript. rewrite !modify_step.
  apply (each_extension_walks _ _ _ _ _ (client_exts_walk xpub p256 r _ Hx Hp)). lia.
Qed.

(** The secrets of section 7.1 that both ends derive from the shared secret and
    the messages up to the ServerHello. *)
#[local] Abbreviation a := OPSSL_HMAC_SHA384.

Definition hs_secrets_are (shared T : list Z) (x : secrets) : Prop :=
  s_early x = early_secret a /\ s_handshake x = hs_secret a shared /\
  s_client_hs x = Derive_Secret a (hs_secret a shared) (chars "c hs traffic") T /\
  s_server_hs x = Derive_Secret a (hs_secret a shared) (chars "s hs traffic") T.

Lemma after_hs_secrets_are shared T h : hs_secrets_are shared T (h_secrets (after_hs_secrets a shared T h)).
Proof. repeat split. Qed.

Definition with_shared (s : list Z) (h : hs) : hs :=
  let k := h_kex h in set_kex (mk_kex (k_group k) (k_priv k) (k_pub k) (k_peer k) s (k_sec_group k) (k_sec_priv k) (k_sec_pub k)) h.

Lemma compute_shared_ok h priv s : k_group (h_kex h) = NAMED_GROUP_X25519 -> k_priv (h_kex h) = Scalar priv ->
  length (k_peer (h_kex h)) = 32%nat -> opssl_x25519_derive priv (k_peer (h_kex h)) = Some s ->
  tls13_compute_shared_secret h = Some (Some tt, with_shared s h).
Proof.
  intros Hg Hp Hl Hs. unfold tls13_compute_shared_secret. rewrite get_step. cbv zeta. rewrite Hg, Hp. rewrite Z.eqb_refl.
  assert (take 32 (k_peer (h_kex h) ++ replicate 32 0) = k_peer (h_kex h)) as -> by (rewrite <- Hl at 1; apply take_app_length). rewrite Hs. unfold with_shared. by rewrite Hp.
Qed.

(** The keys the server makes, and the secret it shares with a client of public
    key [cpub]. *)
Record server_keys (random r cpub spub shared : list Z) : Prop := {
  sk_random : (32 <= length random)%nat;
  sk_x25519 : opssl_x25519_derive (take 32 r) basepoint = Some spub;
  sk_len : length spub = 32%nat;
  sk_shared : opssl_x25519_derive (take 32 r) cpub = Some shared;
  sk_shared_len : length shared = 32%nat }.

Definition server_hello_of (random spub : list Z) : list Z :=
  server_hello_msg (take 32 random) [] TLS_AES_256_GCM_SHA384 NAMED_GROUP_X25519 spub.

(** After the ServerHello, with the messages [T] so far. *)
Record server_sent (T shared : list Z) (chain : option (list (list Z))) (key : option opssl_pkey) (st : Z) (h : hs) : Prop := {
  ss_state : h_state h = st;
  ss_suite : suite_ok a h;
  ss_cipher : h_cipher h = TLS_AES_256_GCM_SHA384;
  ss_transcript : transcript h T;
  ss_secrets : hs_secrets_are shared T (h_secrets h);
  ss_accepted : p_accepted (h_psk h) = false;
  ss_early : r_early_accepted (h_peer h) = false;
  ss_alpn : r_alpn (h_peer h) = [];
  ss_alpn_client : r_alpn_client (h_peer h) = [];
  ss_ocsp : g_ocsp (h_config h) = [];
  ss_sct : g_sct (h_config h) = [];
  ss_request : r_request_cert (h_peer h) = false;
  ss_chain : g_chain (h_config h) = chain;
  ss_key : g_sign_key (h_config h) = key }.

Lemma server_hello_msg_length random spub : length spub = 32%nat -> (length (server_hello_of random spub) <= 128)%nat.
Proof.
  intros Hs. unfold server_hello_of, server_hello_msg. assert (length (take 32 random) <= 32)%nat by (rewrite length_take; lia). enc_len.
Qed.

Lemma build_server_hello_ok h random r cpub spub shared out_cap :
  server_keys random r cpub spub shared -> 512 <= out_cap <= 2 ^ 62 -> k_group (h_kex h) = NAMED_GROUP_X25519 -> k_peer (h_kex h) = cpub ->
  length cpub = 32%nat -> h_cipher h = TLS_AES_256_GCM_SHA384 -> r_session_id (h_peer h) = [] -> p_accepted (h_psk h) = false ->
  exists k, tls13_build_server_hello junk (Some random) (Some r) out_cap h = Some (Some (server_hello_of random spub), set_kex k (set_srandom (take 32 random) h)) /\
    k_shared k = shared.
Proof.
  intros [K1 K2 K3 K4 K5] Hcap Hg Hpeer Hcl Hc Hsid Hacc. eexists. split.
  - unfold tls13_build_server_hello, random_bytes. cbn [option_map]. erewrite or_step by reflexivity. rewrite modify_step, get_step.
    cbn [h_kex set_srandom]. rewrite Hg. step (x25519_pair_ok r spub) by assumption. 
    step (compute_shared_ok _ (take 32 r) shared) by first [reflexivity | cbn; congruence]. rewrite get_step.
    set (h1 := with_shared _ _). pose proof (server_hello_msg_length random spub K3) as Hl.
    apply (finish_to_buf_spec junk true out_cap (server_hello_ops h1) (server_hello_of random spub) out_cap); [| lia | lia | lia].
    assert (server_hello_of random spub = server_hello_msg (h_srandom h1) (r_session_id (h_peer h1)) (h_cipher h1) (k_group (h_kex h1)) (k_pub (h_kex h1))) as ->.
    { cbn. by rewrite Hsid, Hc. }
    apply (server_hello_writes h1); [cbn; rewrite length_take; lia | cbn; rewrite Hsid; cbn; lia | cbn; lia | done].
  - reflexivity.
Qed.

Lemma no_psk_binder ch h : p_has (h_psk h) = false -> check_psk_binder hfuel hjunk ch h = Some (tt, h).
Proof. intros Hp. unfold check_psk_binder. rewrite get_step. cbv zeta. by rewrite Hp, andb_false_r. Qed.

Lemma client_hello_msg_body random xpub p256 : client_hello_msg random xpub p256 = hmsg TLS13_MSG_CLIENT_HELLO (client_hello_body random xpub p256).
Proof. done. Qed.

Lemma server_hello_ok h crandom xpub p256 rest random r spub shared out_cap :
  server_ready h -> length crandom = 32%nat -> length xpub = 32%nat -> length p256 = 65%nat ->
  server_keys random r xpub spub shared -> 512 <= out_cap <= 2 ^ 62 ->
  let ch := client_hello_msg crandom xpub p256 in let sh := server_hello_of random spub in
  outcome (server (Some random) (Some r) (ch ++ rest) out_cap h) (OPSSL_OK, length ch, sh)
    (server_sent (ch ++ sh) shared (g_chain (h_config h)) (g_sign_key (h_config h)) OPSSL_HS_ENCRYPTED_EXTENSIONS).
Proof.
  intros [R1 R2 R3 R4 R5 R6 R7 R8 R9 R10] Hcr Hx Hp Hk Hcap ch sh. pose proof (client_hello_msg_length crandom xpub p256) as Hlen. fold ch in Hlen.
  pose proof (server_hello_msg_length random spub (sk_len _ _ _ _ _ Hk)) as Hsl. fold sh in Hsl.
  unfold opssl_tls13_server_handshake. rewrite modify_step, get_step. cbn [h_state set_is_server]. rewrite R1. cbn [Z.eqb OPSSL_HS_IDLE orb].
  unfold server_client_hello. set (body := client_hello_body crandom xpub p256).
  assert (length ch = 4 + length body)%nat as Hcl by (unfold ch; by rewrite client_hello_msg_body, hmsg_length).
  assert (length (ch ++ rest) = 4 + length body + length rest)%nat as Hbl by (rewrite length_app; lia).
  pose proof (frame_type [] TLS13_MSG_CLIENT_HELLO body rest) as Ft. pose proof (frame_len [] TLS13_MSG_CLIENT_HELLO body rest ltac:(lia)) as Fl.
  pose proof (frame_body [] TLS13_MSG_CLIENT_HELLO body rest) as Fb. cbn [app length] in Ft, Fl, Fb. change (hmsg TLS13_MSG_CLIENT_HELLO body) with ch in Ft, Fl, Fb.
  cbn [Nat.add] in Fl, Fb. cbv zeta. rewrite Fl, Ft, Fb. fits Hbl. rewrite Z.eqb_refl. cbn [negb].
  replace (take (4 + length body) (ch ++ rest)) with ch by (rewrite <- Hcl; symmetry; apply take_app_length).
  rewrite V_init. step (parse_client_hello_ok crandom xpub p256 rest) by assumption.
  name_state (after_client_hello crandom xpub (set_is_server true h)) h1 E1.
  assert (transcript h1 []) as Ht by (rewrite E1; exact (transcript_init (set_suite (h_cipher h) a 48 h) R2)).
  assert (p_has (h_psk h1) = false /\ p_accepted (h_psk h1) = false /\ suite_ok a h1 /\ h_cipher h1 = TLS_AES_256_GCM_SHA384 /\
    r_early_accepted (h_peer h1) = false /\ r_session_id (h_peer h1) = [] /\ r_alpn (h_peer h1) = [] /\ r_alpn_client (h_peer h1) = [] /\
    r_request_cert (h_peer h1) = false /\ h_config h1 = h_config h) as (P1 & P2 & P3 & P4 & P5 & P6 & P7 & P8 & P9 & P10) by (by rewrite E1).
  assert (k_group (h_kex h1) = NAMED_GROUP_X25519 /\ k_peer (h_kex h1) = xpub) as (G1 & G2) by (by rewrite E1).
  clear E1 R1 R2 R3 R4 R5 R6 R7 R10. rewrite <- P10 in *. clear P10 h.
  step (no_psk_binder ch h1 P1) by idtac. rewrite modify_step, P2, andb_false_r. cbn [andb].
  unfold tls13_update_transcript at 1. rewrite modify_step. fold (add_transcript ch h1).
  assert (size_ok ch) as Hs1 by (unfold size_ok, SIZE_MAX; lia). assert (size_ok sh) as Hs2 by (unfold size_ok, SIZE_MAX; lia).
  pose proof (transcript_add h1 [] ch Hs1 Ht) as Ht2. cbn [app] in Ht2.
  destruct (build_server_hello_ok (add_transcript ch h1) random r xpub spub shared out_cap Hk Hcap G1 G2 Hx P4 P6 P2) as (k & Hb & Hks).
  step Hb by idtac. fold sh. unfold tls13_update_transcript. rewrite modify_step. fold (add_transcript sh (set_kex k (set_srandom (take 32 random) (add_transcript ch h1)))).
  name_state (set_kex k (set_srandom (take 32 random) (add_transcript ch h1))) h3 E3.
  assert (transcript h3 ch) as Ht3 by (rewrite E3; exact Ht2).
  assert (h_config h3 = h_config h1 /\ h_psk h3 = h_psk h1 /\ h_peer h3 = h_peer h1 /\ h_cipher h3 = h_cipher h1 /\ suite_ok a h3 /\ k_shared (h_kex h3) = shared)
    as (Q1 & Q2 & Q3 & Q4 & Q5 & Q6) by (by rewrite E3).
  clear E3 Hb. rewrite <- Q1, <- Q2, <- Q3, <- Q4 in *. clear Q1 Q2 Q3 Q4 G1 G2 Ht Ht2 P3 h1.
  pose proof (transcript_add h3 _ sh Hs2 Ht3) as Ht4. name_state (add_transcript sh h3) h4 E4. rewrite <- E4 in Ht4.
  assert (suite_ok a h4) as Hs4 by (by rewrite E4). assert (h_config h4 = h_config h3 /\ h_psk h4 = h_psk h3 /\ h_peer h4 = h_peer h3 /\ h_cipher h4 = h_cipher h3 /\ h_kex h4 = h_kex h3)
    as (Q1 & Q2 & Q3 & Q4 & Q7) by (by rewrite E4).
  clear E4. rewrite <- Q1, <- Q2, <- Q3, <- Q4, <- Q7 in *. clear Q1 Q2 Q3 Q4 Q7 Ht3 Q5 h3.
  assert (size_ok (k_shared (h_kex h4))) as Hk4 by (rewrite Q6; apply (short_ok _ 64); destruct Hk; lia).
  step (derive_handshake_ok hfuel hjunk Hfuel Hjunk a h4 (ch ++ sh) Hs4 Ht4 P1 Hk4) by idtac.
  rewrite modify_step. replace (4 + length body)%nat with (length ch) by lia. rewrite Q6. apply outcome_ret.
  constructor; unfold after_hs_secrets; fields; try reflexivity; try assumption. repeat split.
Qed.

(* ------------------------------------------------------------------ *)
(** * The client reads the ServerHello *)

Record client_keyed (T shared : list Z) (h : hs) : Prop := {
  ke_state : h_state h = OPSSL_HS_ENCRYPTED_EXTENSIONS;
  ke_client : h_is_server h = false;
  ke_suite : suite_ok a h;
  ke_cipher : h_cipher h = TLS_AES_256_GCM_SHA384;
  ke_transcript : transcript h T;
  ke_secrets : hs_secrets_are shared T (h_secrets h);
  ke_request : r_request_cert (h_peer h) = false }.

Definition with_peer_key (pub : list Z) (h : hs) : hs :=
  let k := h_kex h in set_kex (mk_kex NAMED_GROUP_X25519 (k_priv k) (k_pub k) pub (k_shared k) (k_sec_group k) (k_sec_priv k) (k_sec_pub k)) h.

Definition server_hello_exts (spub : list Z) : list Z :=
  ext EXT_SUPPORTED_VERSIONS (be_bytes 2 0x0304) ++ ext EXT_KEY_SHARE (be_bytes 2 NAMED_GROUP_X25519 ++ lp 2 spub).

Lemma server_exts_walk spub r h : length spub = 32%nat ->
  walks server_hello_extension r (server_hello_exts spub) h (with_peer_key spub h).
Proof.
  intros Hs. unfold server_hello_exts. eapply walks_cons; [done | done | reflexivity |].
  eapply walks_last; [done | enc_len |]. unfold server_hello_extension. cbn [Z.eqb EXT_KEY_SHARE Pos.eqb]. unfold cbs_bind.
  rewrite V_u16, V_lp16_last by (unfold NAMED_GROUP_X25519; lia). rewrite V_len, V_content, Hs. reflexivity.
Qed.

Definition server_hello_body (random spub : list Z) : list Z :=
  be_bytes 2 0x0303 ++ random ++ lp 1 [] ++ be_bytes 2 TLS_AES_256_GCM_SHA384 ++ 0 :: lp 2 (server_hello_exts spub).

Lemma parse_server_hello_ok random spub r h : length random = 32%nat -> length spub = 32%nat ->
  tls13_parse_server_hello (V (server_hello_body random spub) r) h =
    Some (Some tt, with_peer_key spub (set_suite TLS_AES_256_GCM_SHA384 a 48 (set_srandom random h))).
Proof.
  intros Hr Hs. unfold tls13_parse_server_hello, server_hello_fields, server_hello_body, cbs_bind.
  rewrite V_u16 by done. rewrite (V_bytes random) by (rewrite Hr; done). rewrite V_lp8 by done. rewrite V_u16 by done. rewrite V_u8.
  assert (length (server_hello_exts spub) <= 128)%nat as Hl by (unfold server_hello_exts; enc_len).
  rewrite V_lp16_last by lia. rewrite modify_step, V_content, !V_len. unfold tls13_set_hash_for_cipher. rewrite modify_step.
  apply (each_extension_walks _ _ _ _ _ (server_exts_walk spub r _ Hs)). lia.
Qed.

Lemma drop_secondary_x25519 h : exists k, drop_secondary h = Some (tt, set_kex k h) /\ k_shared k = k_shared (h_kex h).
Proof.
  unfold drop_secondary, modify. cbv zeta. destruct (_ && _); [by eexists |]. exists (h_kex h). by destruct h.
Qed.

Lemma client_server_hello_ok h ch priv xpub random spub shared rest out_cap :
  client_sent ch priv xpub h -> (32 <= length random)%nat -> length spub = 32%nat -> length shared = 32%nat ->
  opssl_x25519_derive priv spub = Some shared ->
  let sh := server_hello_of random spub in
  outcome (client None None None (sh ++ rest) out_cap h) (OPSSL_OK, length sh, []) (client_keyed (ch ++ sh) shared).
Proof.
  intros [C1 C2 C3 C4 C5 C6] Hr Hs Hsh Hx sh. pose proof (server_hello_msg_length random spub Hs) as Hlen. fold sh in Hlen.
  unfold opssl_tls13_client_handshake. rewrite get_step, C1. change (OPSSL_HS_CLIENT_HELLO =? OPSSL_HS_IDLE) with false. rewrite Z.eqb_refl. cbv iota.
  unfold client_server_hello. set (body := server_hello_body (take 32 random) spub).
  assert (length sh = 4 + length body)%nat as Hcl by (unfold sh; change (server_hello_of random spub) with (hmsg TLS13_MSG_SERVER_HELLO body); by rewrite hmsg_length).
  assert (length (sh ++ rest) = 4 + length body + length rest)%nat as Hbl by (rewrite length_app; lia).
  pose proof (frame_type [] TLS13_MSG_SERVER_HELLO body rest) as Ft. pose proof (frame_len [] TLS13_MSG_SERVER_HELLO body rest ltac:(lia)) as Fl.
  pose proof (frame_body [] TLS13_MSG_SERVER_HELLO body rest) as Fb. cbn [app length] in Ft, Fl, Fb. change (hmsg TLS13_MSG_SERVER_HELLO body) with sh in Ft, Fl, Fb.
  cbn [Nat.add] in Fl, Fb. cbv zeta. rewrite Fl, Ft, Fb. fits Hbl. rewrite Z.eqb_refl. cbn [negb].
  replace (take (4 + length body) (sh ++ rest)) with sh by (rewrite <- Hcl; symmetry; apply take_app_length).
  unfold tls13_update_transcript. rewrite modify_step. fold (add_transcript sh h).
  assert (size_ok sh) as Hs1 by (unfold size_ok, SIZE_MAX; lia). pose proof (transcript_add h ch sh Hs1 C3) as Ht. rewrite V_init.
  assert (length (take 32 random) = 32%nat) as Hrl by (rewrite length_take; lia).
  step (parse_server_hello_ok (take 32 random) spub rest (add_transcript sh h) Hrl Hs) by idtac.
  name_state (with_peer_key spub (set_suite TLS_AES_256_GCM_SHA384 a 48 (set_srandom (take 32 random) (add_transcript sh h)))) h1 E1.
  assert (transcript h1 (ch ++ sh) /\ suite_ok a h1 /\ h_cipher h1 = TLS_AES_256_GCM_SHA384 /\ h_is_server h1 = false /\ p_has (h_psk h1) = false /\
    r_request_cert (h_peer h1) = false) as (Q1 & Q2 & Q3 & Q4 & Q5 & Q6) by (by rewrite E1).
  assert (k_group (h_kex h1) = NAMED_GROUP_X25519 /\ k_priv (h_kex h1) = Scalar priv /\ k_peer (h_kex h1) = spub) as (G1 & G2 & G3) by (by rewrite E1).
  clear E1 C1 C2 C3 C4 C5 C6 Ht h. 
  step (compute_shared_ok h1 priv shared) by first [assumption | congruence].
  destruct (drop_secondary_x25519 (with_shared shared h1)) as (k & Hd & Hks). step Hd by idtac.
  name_state (set_kex k (with_shared shared h1)) h2 E2.
  assert (transcript h2 (ch ++ sh) /\ suite_ok a h2 /\ h_cipher h2 = TLS_AES_256_GCM_SHA384 /\ h_is_server h2 = false /\ p_has (h_psk h2) = false /\
    r_request_cert (h_peer h2) = false /\ k_shared (h_kex h2) = shared) as (U1 & U2 & U3 & U4 & U5 & U6 & U7) by (by rewrite E2).
  clear E2 Hd Hks Q1 Q2 Q3 Q4 Q5 Q6 G1 G2 G3 h1.
  assert (size_ok (k_shared (h_kex h2))) as Hk by (rewrite U7; apply (short_ok _ 64); lia).
  step (derive_handshake_ok hfuel hjunk Hfuel Hjunk a h2 (ch ++ sh) U2 U1 U5 Hk) by idtac.
  rewrite modify_step. replace (4 + length body)%nat with (length sh) by lia. rewrite U7. apply outcome_ret.
  constructor; unfold after_hs_secrets; fields; try reflexivity; try assumption. repeat split.
Qed.

(* ------------------------------------------------------------------ *)
(** * The server's flight *)

(** A chain the server can send, and a key that makes a signature that fits. *)
Definition creds_ok (chain : option (list (list Z))) (key : option opssl_pkey) : Prop :=
  match chain with
  | Some (der :: ders) =>
    (length (certificate_msg (der :: ders)) <= 4096)%nat /\ Forall (fun d => (0 < length d)%nat) (der :: ders) /\
    match key with
    | Some k => forall input, exists sig, sign_512 k input = Some sig /\ (length sig <= 504)%nat
    | None => True
    end
  | _ => True
  end.

Definition cv_content (T : list Z) : list Z := cv_context cv_label_server (hash_of a T).

Definition signature (k : opssl_pkey) (T : list Z) : list Z :=
  match sign_512 k (cv_input (sig_scheme_of k) (cv_content T)) with Some s => s | None => [] end.

(** The Certificate and CertificateVerify after the messages [T]. *)
Definition certs_of (chain : option (list (list Z))) (key : option opssl_pkey) (T : list Z) : list Z :=
  match chain with
  | Some (der :: ders) =>
    let cert := certificate_msg (der :: ders) in
    cert ++ match key with Some k => certificate_verify_msg (sig_scheme_of k) (signature k (T ++ cert)) | None => [] end
  | _ => []
  end.

Lemma certificate_entries_cons der ders : certificate_entries (der :: ders) = lp 3 der ++ be_bytes 2 0 ++ certificate_entries ders.
Proof. unfold certificate_entries. cbn [map concat]. by rewrite <- app_assoc. Qed.

Lemma certificate_loop_writes ders : forall done, Z.of_nat (length (done ++ certificate_entries ders)) <= 65536 ->
  Writes (concat (map (fun der => [Open 2 3 3; Put 3 der; Put 2 (u16_of 0)]) ders)) [(0%nat, 0%nat, [TLS13_MSG_CERTIFICATE]); (1%nat, 3%nat, [0]); (2%nat, 3%nat, done)]
    (hmsg TLS13_MSG_CERTIFICATE (0 :: lp 3 (done ++ certificate_entries ders))).
Proof.
  induction ders as [| der ders IH]; intros done Hl.
  - cbn [map concat]. apply writes_end. change (certificate_entries []) with (@nil Z) in *. rewrite app_nil_r in *. by writes_end_tac.
  - rewrite certificate_entries_cons in *. rewrite !length_app, lp_length, be_bytes_length in Hl. cbn [map concat app]. rewrite u16_of_bytes.
    do 3 writes_step. rewrite !app_assoc. rewrite app_assoc in IH || idtac. apply IH. enc_len.
Qed.

Lemma certificate_writes ders : (length (certificate_msg ders) <= 4096)%nat ->
  Writes (certificate_ops ders) [(0%nat, 0%nat, [])] (certificate_msg ders).
Proof.
  intros Hl. unfold certificate_msg in *. rewrite hmsg_length in Hl. cbn [length] in Hl. rewrite lp_length in Hl. unfold certificate_ops. cbn [app].
  do 4 writes_step. apply (certificate_loop_writes ders []). cbn [app]. lia.
Qed.

Lemma set_own_transcript h : set_transcript (h_sha256 h) (h_sha384 h) h = h.
Proof. by destruct h. Qed.

Lemma build_certificate_verify_ok key h T out_cap sig : h_is_server h = true ->
  sign_512 key (cv_input (sig_scheme_of key) (cv_content T)) = Some sig -> (length sig <= 504)%nat -> 512 <= out_cap ->
  tls13_build_certificate_verify junk key (hash_of a T) out_cap h = Some (Some (certificate_verify_msg (sig_scheme_of key) sig), h).
Proof.
  intros Hsrv Hs Hl Hc. unfold tls13_build_certificate_verify. rewrite get_step, Hsrv. cbv zeta. unfold cv_content in Hs. rewrite Hs.
  assert (length (certificate_verify_msg (sig_scheme_of key) sig) <= 512)%nat by (unfold certificate_verify_msg; enc_len).
  apply finish_to_buf_spec; [apply certificate_verify_writes; lia | lia | lia | lia].
Qed.

Lemma server_certificate_ok h T chain key : h_is_server h = true -> transcript h T -> suite_ok a h -> p_accepted (h_psk h) = false ->
  g_chain (h_config h) = chain -> g_sign_key (h_config h) = key -> creds_ok chain key ->
  exists x y, server_certificate junk h = Some (Some (certs_of chain key T), set_transcript x y h) /\
    transcript (set_transcript x y h) (T ++ certs_of chain key T) /\ (length (certs_of chain key T) <= 4608)%nat.
Proof.
  intros Hsrv Ht Hs Ha Hch Hkey Hok.
  assert (chain = None \/ chain = Some [] \/ exists der ders, chain = Some (der :: ders)) as [-> | [-> | (der & ders & ->)]]
    by (destruct chain as [[| der ders] |]; eauto).
  1, 2: exists (h_sha256 h), (h_sha384 h); unfold server_certificate; rewrite get_step, Hch, set_own_transcript, app_nil_r; (split; [reflexivity |]; split; [exact Ht | apply Nat.le_0_l]).
  unfold server_certificate, certs_of. rewrite get_step, Hch. destruct Hok as (Hlen & _ & Hsig). rewrite Ha. cbv zeta. set (cert := certificate_msg (der :: ders)) in *.
  assert (cbb_finish_to_buf junk true 4096 (certificate_ops (der :: ders)) 4096 h = Some (Some cert, h)) as Hb
    by (apply finish_to_buf_spec; [by apply certificate_writes | lia | lia | lia]).
  destruct (send_ok _ h T cert Hb Hlen Ht) as [Hsend Ht1].
  assert (exists x y, add_transcript cert h = set_transcript x y h) as (x & y & E) by (unfold add_transcript; eauto). rewrite E in Hsend, Ht1. clear E.
  destruct key as [key |].
  - destruct (Hsig (cv_input (sig_scheme_of key) (cv_content (T ++ cert)))) as (sig & Hsg & Hsl).
    assert (signature key (T ++ cert) = sig) as -> by (unfold signature; by rewrite Hsg).
    pose proof (build_certificate_verify_ok key (set_transcript x y h) (T ++ cert) 512 sig Hsrv Hsg Hsl ltac:(lia)) as Hcv.
    set (cv := certificate_verify_msg (sig_scheme_of key) sig) in *. assert (length cv <= 512)%nat as Hcl by (unfold cv, certificate_verify_msg; enc_len).
    destruct (send_ok _ _ (T ++ cert) cv Hcv ltac:(lia) Ht1) as [Hsend2 Ht2].
    exists (opssl_sha256_update x cv), (opssl_sha512_update y cv). rewrite app_assoc. split; [| split; [exact Ht2 | rewrite length_app; lia]].
    step Hsend by idtac. rewrite Hkey. step (transcript_hash _ (T ++ cert) a) by first [exact Ht1 | exact Hs]. step Hsend2 by idtac. reflexivity.
  - exists x, y. rewrite app_nil_r. split; [step Hsend by idtac; rewrite Hkey; reflexivity | split; [exact Ht1 | lia]].
Qed.

Definition client_traffic (shared T : list Z) : list Z := Derive_Secret a (hs_secret a shared) (chars "c hs traffic") T.
Definition server_traffic (shared T : list Z) : list Z := Derive_Secret a (hs_secret a shared) (chars "s hs traffic") T.

(** What both derive from the messages up to the server's Finished. *)
Definition ap_secrets_are (shared T : list Z) (x : secrets) : Prop :=
  let ms := master_secret a shared in
  s_master x = ms /\ s_client_ap x = Derive_Secret a ms (chars "c ap traffic") T /\
  s_server_ap x = Derive_Secret a ms (chars "s ap traffic") T /\ s_exporter x = Derive_Secret a ms (chars "exp master") T.

(** The flight after the messages [T]. *)
Definition certs_after (chain : option (list (list Z))) (key : option opssl_pkey) (T : list Z) : list Z := certs_of chain key (T ++ encrypted_extensions_msg).
Definition server_finished (chain : option (list (list Z))) (key : option opssl_pkey) (shared T : list Z) : list Z :=
  finished_msg (verify_data a (server_traffic shared T) (T ++ encrypted_extensions_msg ++ certs_after chain key T)).
Definition flight_of (chain : option (list (list Z))) (key : option opssl_pkey) (shared T : list Z) : list Z :=
  encrypted_extensions_msg ++ certs_after chain key T ++ server_finished chain key shared T.

(** The server waits for the client's Finished, with the messages [T2] so far. *)
Record server_waits (T T2 shared : list Z) (h : hs) : Prop := {
  sw_state : h_state h = OPSSL_HS_WAIT_FINISHED;
  sw_suite : suite_ok a h;
  sw_cipher : h_cipher h = TLS_AES_256_GCM_SHA384;
  sw_transcript : transcript h T2;
  sw_secrets : hs_secrets_are shared T (h_secrets h);
  sw_ap : ap_secrets_are shared T2 (h_secrets h);
  sw_request : r_request_cert (h_peer h) = false }.

Lemma derive_secret_length s l T : length (Derive_Secret a s l T) = 48%nat.
Proof. apply (Derive_Secret_length a). Qed.

Lemma server_bump_ok h T shared chain key buf out_cap :
  server_sent T shared chain key OPSSL_HS_ENCRYPTED_EXTENSIONS h ->
  outcome (server None None buf out_cap h) (OPSSL_OK, 0%nat, []) (server_sent T shared chain key OPSSL_HS_FINISHED).
Proof.
  intros [S1 S2 S3 S4 S5 S6 S7 S8 S9 S10 S11 S12 S13 S14]. unfold opssl_tls13_server_handshake. rewrite modify_step, get_step. fields. rewrite S1.
  change ((OPSSL_HS_ENCRYPTED_EXTENSIONS =? OPSSL_HS_IDLE) || (OPSSL_HS_ENCRYPTED_EXTENSIONS =? OPSSL_HS_CLIENT_HELLO)) with false. rewrite Z.eqb_refl. cbv iota.
  rewrite modify_step. apply outcome_ret. constructor; fields; try assumption; reflexivity.
Qed.

Lemma build_finished_ok h T (is_client : bool) secret cap out_cap : suite_ok a h -> transcript h T -> length secret = 48%nat ->
  (if is_client then s_client_hs (h_secrets h) else s_server_hs (h_secrets h)) = secret -> 0 <= cap <= 2 ^ 62 -> 52 <= out_cap ->
  tls13_build_finished junk hfuel hjunk is_client cap out_cap h = Some (Some (finished_msg (verify_data a secret T)), h).
Proof.
  intros Hs Ht Hl Hsec Hc Ho. unfold tls13_build_finished. rewrite get_step, Hsec. step (finished_data_ok hfuel hjunk Hfuel Hjunk a h T secret Hs Ht Hl) by idtac.
  pose proof (verify_data_length a secret T) as Hv. change (get_digest_size a) with 48%nat in Hv.
  assert (h_len h = 48%nat) as -> by apply Hs. rewrite take_ge by lia.
  assert (length (finished_msg (verify_data a secret T)) = 52%nat) as Hf by (unfold finished_msg; rewrite hmsg_length; lia).
  apply finish_to_buf_spec; [apply finished_writes; lia | lia | lia | lia].
Qed.

Lemma negotiate_no_alpn h : r_alpn_client (h_peer h) = [] -> negotiate_alpn h = Some (tt, h).
Proof. intros Ha. unfold negotiate_alpn. rewrite get_step, Ha. reflexivity. Qed.

Lemma server_flight_ok h T shared chain key buf out_cap :
  server_sent T shared chain key OPSSL_HS_FINISHED h -> creds_ok chain key -> 8192 <= out_cap ->
  let flight := flight_of chain key shared T in
  outcome (server None None buf out_cap h) (OPSSL_OK, 0%nat, flight) (server_waits T (T ++ flight) shared).
Proof.
  intros [S1 S2 S3 S4 S5 S6 S7 S8 S9 S10 S11 S12 S13 S14] Hok Hcap flight. unfold opssl_tls13_server_handshake. rewrite modify_step, get_step. fields. rewrite S1.
  change ((OPSSL_HS_FINISHED =? OPSSL_HS_IDLE) || (OPSSL_HS_FINISHED =? OPSSL_HS_CLIENT_HELLO)) with false.
  change (OPSSL_HS_FINISHED =? OPSSL_HS_ENCRYPTED_EXTENSIONS) with false. rewrite Z.eqb_refl. cbv iota. unfold server_flight.
  name_state (set_is_server true h) h1 E1.
  assert (h_is_server h1 = true /\ suite_ok a h1 /\ h_cipher h1 = TLS_AES_256_GCM_SHA384 /\ transcript h1 T /\ hs_secrets_are shared T (h_secrets h1) /\
    h_psk h1 = h_psk h /\ h_peer h1 = h_peer h /\ h_config h1 = h_config h) as (Q1 & Q2 & Q3 & Q4 & Q5 & Q6 & Q7 & Q8) by (framed E1).
  rewrite <- Q6, <- Q7, <- Q8 in *. clear E1 S1 S2 S3 S4 S5 Q6 Q7 Q8 h.
  step (negotiate_no_alpn h1 S9) by idtac. rewrite get_step.
  assert (cbb_finish_to_buf junk true 512 (encrypted_extensions_ops h1) 512 h1 = Some (Some encrypted_extensions_msg, h1)) as Hee
    by (apply finish_to_buf_spec; [by apply encrypted_extensions_writes | cbn; lia ..]).
  destruct (send_ok _ h1 T _ Hee ltac:(cbn; lia) Q4) as [Hsend Ht1]. step Hsend by idtac. clear Hsend Hee. rewrite get_step.
  name_state (add_transcript encrypted_extensions_msg h1) h2 E2. rewrite <- E2 in Ht1.
  assert (h_is_server h2 = true /\ suite_ok a h2 /\ h_cipher h2 = TLS_AES_256_GCM_SHA384 /\ hs_secrets_are shared T (h_secrets h2) /\
    h_psk h2 = h_psk h1 /\ h_peer h2 = h_peer h1 /\ h_config h2 = h_config h1) as (R1 & R2 & R3 & R4 & R6 & R7 & R8) by (framed E2).
  rewrite <- R6, <- R7, <- R8 in *. clear E2 Q1 Q2 Q3 Q4 Q5 R6 R7 R8 h1. rewrite S12, andb_false_r.
  erewrite or_step by reflexivity.
  destruct (server_certificate_ok h2 _ chain key R1 Ht1 R2 S6 S13 S14 Hok) as (x & y & Hcert & Ht2 & Hcl). step Hcert by idtac. clear Hcert.
  fold (certs_after chain key T) in *. name_state (set_transcript x y h2) h3 E3. rewrite <- E3 in Ht2. rewrite <- app_assoc in Ht2.
  assert (suite_ok a h3 /\ h_cipher h3 = TLS_AES_256_GCM_SHA384 /\ hs_secrets_are shared T (h_secrets h3) /\ r_request_cert (h_peer h3) = false)
    as (U2 & U3 & U4 & U5) by (framed E3). clear E3 S6 S7 S8 S9 S10 S11 S12 S13 S14 R1 R2 R3 R4 Ht1 h2.
  pose proof (build_finished_ok h3 _ false (server_traffic shared T) 512 512 U2 Ht2 ltac:(apply derive_secret_length) ltac:(apply U4) ltac:(lia) ltac:(lia)) as Hfin.
  fold (server_finished chain key shared T) in Hfin.
  assert (length (server_finished chain key shared T) = 52%nat) as Hfl
    by (unfold server_finished, finished_msg; rewrite hmsg_length, verify_data_length; reflexivity).
  destruct (send_ok _ h3 _ _ Hfin ltac:(lia) Ht2) as [Hsend Ht3]. step Hsend by idtac. clear Hsend Hfin.
  assert ((T ++ encrypted_extensions_msg ++ certs_after chain key T) ++ server_finished chain key shared T = T ++ flight) as ET by (unfold flight, flight_of; by rewrite <- !app_assoc).
  rewrite ET in Ht3. name_state (add_transcript (server_finished chain key shared T) h3) h4 E4. rewrite <- E4 in Ht3.
  assert (suite_ok a h4 /\ h_cipher h4 = TLS_AES_256_GCM_SHA384 /\ hs_secrets_are shared T (h_secrets h4) /\ r_request_cert (h_peer h4) = false)
    as (W2 & W3 & W4 & W5) by (framed E4). clear E4 ET U2 U3 U4 U5 Ht2 h3.
  step (derive_application_ok hfuel hjunk Hfuel Hjunk a h4 _ shared W2 Ht3 (proj1 (proj2 W4))) by idtac. cbv zeta.
  change (encrypted_extensions_msg ++ [] ++ certs_after chain key T ++ server_finished chain key shared T) with flight.
  assert (length flight <= 4800)%nat as Hfll by (unfold flight, flight_of; rewrite !length_app; cbn [length]; change (length encrypted_extensions_msg) with 6%nat; lia).
  rewrite (proj2 (Z.ltb_ge _ _)) by lia. rewrite modify_step. apply outcome_ret.
  constructor; unfold after_ap_secrets; fields; try reflexivity; try assumption. repeat split.
Qed.
End Handshake.
