(* ===== verification/Tls13Agree.v ===== *)
(** The end of a TLS 1.3 handshake: the client reads the server's flight and the
    server the client's Finished, and the two have the same secrets. *)
From Stdlib Require Import String.
From S2P Require Import Prelude Types Platform Err Cbs Asn1 Cbb Cpu HashApi Sha256 Sha512 Hmac Hkdf KeySched Tls13 Tls13Msg Tls13Secrets Tls13Ok.
From stdpp Require Import gmap.
#[local] Open Scope Z_scope.
#[local] Open Scope list_scope.
#[local] Opaque opssl_sha256_update opssl_sha512_update Derive_Secret HKDF_Extract HKDF_Expand_Label HMAC hs_secret master_secret early_secret verify_data.

(* ------------------------------------------------------------------ *)
(** * The certificates of a flight *)

(** One entry of a certificate list, at an offset. *)
Section Entry.
Context (pre der rest : list Z) (Hder : Z.of_nat (length der) < 2 ^ 24).
Let body := pre ++ lp 3 der ++ be_bytes 2 0 ++ rest.
Let off := length pre.

Lemma entry_len : Z.to_nat (be24 (drop off body)) = length der.
Proof. unfold body, off. rewrite drop_app_length. unfold lp. rewrite <- !app_assoc, be24_app by lia. lia. Qed.

Lemma entry_der : sub_list (off + 3) (length der) body = der.
Proof. unfold sub_list, body, off. rewrite drop_app_plus. unfold lp. cbn [be_bytes app drop]. apply take_app_length. Qed.

Lemma entry_ext : Z.to_nat (Z.lor (Z.shiftl body.[off + 3 + length der] 8) body.[off + 3 + length der + 1]) = 0%nat.
Proof.
  assert (forall i, body.[off + 3 + length der + i] = ([0; 0] ++ rest).[i]) as Hi.
  { intros i. unfold body, off. rewrite get_app_r by lia. unfold lp. rewrite <- app_assoc.
    rewrite get_app_r by (rewrite be_bytes_length; lia). rewrite be_bytes_length, get_app_r by lia. f_equal. lia. }
  pose proof (Hi 0%nat) as H0. rewrite Nat.add_0_r in H0. by rewrite H0, Hi.
Qed.

Lemma entry_fits : (length body = off + 3 + length der + 2 + length rest)%nat.
Proof. unfold body, off. rewrite !length_app, lp_length, be_bytes_length. lia. Qed.
End Entry.

Section Agree.
Context `{Cpu} {SP : SimdSpec cpu_simd} {P : Pki}.

Definition with_certs (c : list Z) (ch : list (list Z)) (h : hs) : hs := set_peer (set_certs c ch (h_peer h)) h.

Lemma with_own_certs h : with_certs (r_cert (h_peer h)) (r_chain (h_peer h)) h = h.
Proof. unfold with_certs, set_certs. destruct h as [? ? ? ? ? ? ? ? ? ? ? ? ? p]. by destruct p. Qed.

(** One turn of the loop. *)
Lemma store_step n index pre der rest h : (0 < length der)%nat -> Z.of_nat (length der) < 2 ^ 24 ->
  let body := pre ++ lp 3 der ++ be_bytes 2 0 ++ rest in
  store_certs (S n) index body (length pre) (length body) h =
    store_certs n (S index) body (length (pre ++ lp 3 der ++ be_bytes 2 0)) (length body)
      (with_certs (if (index =? 0)%nat then der else r_cert (h_peer h)) (if (index =? 0)%nat then r_chain (h_peer h) else r_chain (h_peer h) ++ [der]) h).
Proof.
  intros H0 Hd body. pose proof (entry_fits pre der rest) as Hf. fold body in Hf.
  cbn [store_certs]. rewrite (proj2 (Nat.ltb_ge (length body) _)) by lia. cbv zeta.
  pose proof (entry_len pre der rest Hd) as E1. pose proof (entry_der pre der rest) as E2. pose proof (entry_ext pre der rest) as E3. fold body in E1, E2, E3. rewrite E1, E2, E3.
  rewrite (proj2 (Nat.eqb_neq _ _)) by lia. rewrite (proj2 (Nat.ltb_ge (length body) _)) by lia. cbn [orb]. unfold mod_peer. rewrite modify_step.
  rewrite (proj2 (Nat.ltb_ge (length body) _)) by lia. rewrite !length_app, lp_length, be_bytes_length. unfold with_certs.
  replace (length pre + 3 + length der + 2 + 0)%nat with (length pre + (3 + length der + 2))%nat by lia. by destruct (index =? 0)%nat.
Qed.

(** The certificates after the first. *)
Lemma store_rest ders : forall pre n index h, Forall (fun d => (0 < length d)%nat) ders -> Forall (fun d => Z.of_nat (length d) < 2 ^ 24) ders ->
  store_certs n (S index) (pre ++ certificate_entries ders) (length pre) (length (pre ++ certificate_entries ders)) h =
    Some (true, with_certs (r_cert (h_peer h)) (r_chain (h_peer h) ++ take n ders) h).
Proof.
  induction ders as [| der ders IH]; intros pre n index h H0 Hd.
  - assert (r_chain (h_peer h) ++ take n [] = r_chain (h_peer h)) as -> by (by rewrite take_nil, app_nil_r). rewrite with_own_certs. destruct n as [| n]; [done |]. cbn [store_certs].
    change (certificate_entries []) with (@nil Z). rewrite app_nil_r, (proj2 (Nat.ltb_lt _ _)) by lia. done.
  - destruct n as [| n]; [by rewrite take_0, app_nil_r, with_own_certs |]. inversion H0 as [| ? ? Hder Hders]; subst. inversion Hd as [| ? ? Hdl Hdls]; subst.
    rewrite certificate_entries_cons, store_step by done. cbn [Nat.eqb].
    replace (pre ++ lp 3 der ++ be_bytes 2 0 ++ certificate_entries ders) with ((pre ++ lp 3 der ++ be_bytes 2 0) ++ certificate_entries ders) by (by rewrite <- !app_assoc).
    rewrite IH by done. cbn [with_certs h_peer set_peer r_cert r_chain set_certs take]. by rewrite <- app_assoc.
Qed.

(** The list of a Certificate message: the first, and nine more. *)
Lemma store_list_ok der ders h : Forall (fun d => (0 < length d)%nat) (der :: ders) -> (length (certificate_msg (der :: ders)) <= 4096)%nat ->
  tls13_store_peer_certificate_list (0 :: lp 3 (certificate_entries (der :: ders))) h = Some (true, with_certs der (take 9 ders) h).
Proof.
  intros H0 Hl. set (es := certificate_entries (der :: ders)) in *. unfold certificate_msg in Hl. fold es in Hl. rewrite hmsg_length in Hl. cbn [length] in Hl. rewrite lp_length in Hl.
  assert (Forall (fun d => Z.of_nat (length d) < 2 ^ 24) (der :: ders)) as Hd.
  { apply Forall_forall. intros d Hin. assert (length d <= length es)%nat; [| lia]. unfold es, certificate_entries.
    clear -Hin. induction (der :: ders) as [| e l IH]; [by apply elem_of_nil in Hin |]. cbn [map concat]. rewrite !length_app, lp_length.
    apply elem_of_cons in Hin as [-> | Hin]; [lia |]. specialize (IH Hin). lia. }
  inversion H0 as [| ? ? Hder Hders]; subst. inversion Hd as [| ? ? Hdl Hdls]; subst.
  assert (length (0%Z :: lp 3 es) = 4 + length es)%nat as Hlen by (cbn [length]; rewrite lp_length; lia).
  unfold tls13_store_peer_certificate_list. change ((0 :: lp 3 es).[0]) with 0. cbv zeta. change (1 + Z.to_nat 0)%nat with 1%nat.
  assert (Z.to_nat (be24 (drop 1 (0 :: lp 3 es))) = length es) as Hll by (cbn [drop]; rewrite drop_0; unfold lp; rewrite be24_app by lia; lia).
  rewrite Hll. fits Hlen. unfold mod_peer. rewrite modify_step.
  replace (1 + 3)%nat with (length (0%Z :: be_bytes 3 (Z.of_nat (length es)))) by (cbn [length]; rewrite be_bytes_length; lia).
  replace (length (0%Z :: be_bytes 3 (Z.of_nat (length es))) + length es)%nat with (length (0%Z :: lp 3 es)) by (cbn [length]; rewrite be_bytes_length, lp_length; lia).
  change (0 :: lp 3 es) with ((0 :: be_bytes 3 (Z.of_nat (length es))) ++ es). set (pre := 0 :: be_bytes 3 (Z.of_nat (length es))).
  unfold TLS13_MAX_PEER_CERTS. unfold es. rewrite certificate_entries_cons. unfold bind at 1. rewrite store_step by done. cbn [Nat.eqb].
  replace (pre ++ lp 3 der ++ be_bytes 2 0 ++ certificate_entries ders) with ((pre ++ lp 3 der ++ be_bytes 2 0) ++ certificate_entries ders) by (by rewrite <- !app_assoc).
  rewrite store_rest by done. reflexivity.
Qed.

(* ------------------------------------------------------------------ *)
(** * The signature of a flight *)

Context (junk : Z) (hfuel : nat) (hjunk : list Z) (Hfuel : (254 <= hfuel)%nat) (Hjunk : length hjunk = 512%nat).

#[local] Abbreviation client := (opssl_tls13_client_handshake junk hfuel hjunk).
#[local] Abbreviation server := (opssl_tls13_server_handshake junk hfuel hjunk).
#[local] Abbreviation a := OPSSL_HMAC_SHA384.

(** What the key signs is accepted with the certificate's key. *)
Definition certifies (k : opssl_pkey) (der : list Z) : Prop :=
  exists spki spki_der, x509_spki der = Some (spki, spki_der) /\
  forall input sig, sign_512 k input = Some sig ->
    match opssl_pkey_type k with
    | OPSSL_PKEY_ED25519 => length sig = 64%nat /\ exists p, spki_key spki = Some p /\ length p = 32%nat /\ opssl_ed25519_verify sig input p = true
    | OPSSL_PKEY_EC => exists p, spki_key spki = Some p /\ ecdsa_verify (if 384 <=? opssl_pkey_bits k then OPSSL_CURVE_P384 else OPSSL_CURVE_P256) p input sig = true
    | OPSSL_PKEY_RSA => rsa_pss_verify spki_der OPSSL_HMAC_SHA256 input sig = true
    end.

Lemma verify_own k der : certifies k der -> exists spki spki_der, x509_spki der = Some (spki, spki_der) /\
  forall context sig post, sign_512 k (cv_input (sig_scheme_of k) context) = Some sig ->
    verify_signature (sig_scheme_of k) spki spki_der context (sig ++ post) (length sig) = Some true.
Proof.
  intros (spki & sd & Hx & Hv). exists spki, sd. split; [done |]. intros context sig post Hs. specialize (Hv _ _ Hs). unfold verify_signature. rewrite take_app_length.
  unfold sig_scheme_of in *. destruct (opssl_pkey_type k).
  - change (cv_input 0x0804 context) with (opssl_sha256 sha256_ctx_zero context) in Hv. cbn [Z.eqb Pos.eqb]. by rewrite Hv.
  - destruct (384 <=? opssl_pkey_bits k); destruct Hv as (p & Hp & Hv); cbn [Z.eqb Pos.eqb]; rewrite Hp; f_equal; exact Hv.
  - destruct Hv as (Hl & p & Hp & Hpl & Hv). cbn [Z.eqb Pos.eqb]. rewrite Hp, Hpl. cbn [Nat.eqb negb].
    rewrite (proj2 (Nat.ltb_ge _ _)) by (rewrite length_app; lia). rewrite <- Hl, take_app_length. f_equal. exact Hv.
Qed.

Lemma check_certificate_verify_ok k der sig post h T : certifies k der -> r_cert (h_peer h) = der -> (0 < length der)%nat ->
  h_is_server h = false -> transcript h T -> suite_ok a h ->
  sign_512 k (cv_input (sig_scheme_of k) (cv_content T)) = Some sig -> (length sig <= 504)%nat ->
  check_certificate_verify (V (be_bytes 2 (sig_scheme_of k) ++ lp 2 sig) post) h = Some (true, h).
Proof.
  intros Hc Hr H0 Hcl Ht Hs Hsig Hl. destruct (verify_own k der Hc) as (spki & sd & Hx & Hv). specialize (Hv _ sig post Hsig).
  unfold check_certificate_verify. rewrite get_step. cbv zeta. rewrite Hr, (proj2 (Nat.eqb_neq _ _)), Hcl by lia.
  step (transcript_hash h T a) by assumption. unfold cbs_bind.
  assert (0 <= sig_scheme_of k < 65536) as Hsc by (unfold sig_scheme_of; destruct (opssl_pkey_type k); [lia | destruct (_ <=? _); lia | lia]).
  rewrite V_u16 by done. unfold lp. rewrite V_u16, V_len, (proj2 (Z.ltb_ge _ _)) by lia. rewrite Hx, Nat2Z.id. unfold lift. unfold cv_content in Hv. cbn [V data]. by rewrite Hv.
Qed.

(* ------------------------------------------------------------------ *)
(** * The client reads the flight *)

(** The loop at a message. *)
Lemma flight_message fuel pre t body post out_cap h : Z.of_nat (length body) < 2 ^ 24 ->
  let buf := pre ++ hmsg t body ++ post in let off := length pre in let msg := hmsg t body in
  let next := client_flight junk hfuel hjunk fuel buf (length (pre ++ msg)) out_cap in
  client_flight junk hfuel hjunk (S fuel) buf off out_cap h =
    (if t =? TLS13_MSG_ENCRYPTED_EXTENSIONS then
       bind (tls13_update_transcript msg) (fun _ =>
       bind match opssl_cbs_get_u16_length_prefixed (V body post) with
            | (Some ee_exts, _) => ee_extensions (Z.to_nat (opssl_cbs_len ee_exts)) ee_exts
            | (None, _) => ret tt
            end (fun _ => next))
     else if t =? TLS13_MSG_CERTIFICATE_REQUEST then
       bind (mod_peer (set_request_cert true)) (fun _ => bind (tls13_update_transcript msg) (fun _ => next))
     else if t =? TLS13_MSG_CERTIFICATE then
       bind (tls13_store_peer_certificate_list body) (fun ok => if negb ok then error else bind (tls13_update_transcript msg) (fun _ => next))
     else if t =? TLS13_MSG_CERTIFICATE_VERIFY then
       bind (check_certificate_verify (V body post)) (fun ok => if negb ok then error else bind (tls13_update_transcript msg) (fun _ => next))
     else if t =? TLS13_MSG_FINISHED then client_finished junk hfuel hjunk buf off (length body) out_cap
     else next) h.
Proof.
  intros Hb buf off msg next. pose proof (frame_fits pre t body post) as Hf. fold buf off in Hf.
  pose proof (frame_type pre t body post) as E1. pose proof (frame_len pre t body post Hb) as E2. pose proof (frame_body pre t body post) as E3. pose proof (frame_msg pre t body post) as E4.
  fold buf off in E1, E2, E3, E4. fold msg in E4. cbn [client_flight]. rewrite (proj2 (Nat.leb_gt _ _)) by lia. rewrite E1. cbv zeta. rewrite E2, E3, E4. fits Hf.
  rewrite V_init. replace (off + 4 + length body)%nat with (length (pre ++ msg)) by (unfold msg; rewrite length_app, hmsg_length; lia). reflexivity.
Qed.

Lemma flight_ee fuel pre post out_cap h :
  client_flight junk hfuel hjunk (S fuel) (pre ++ encrypted_extensions_msg ++ post) (length pre) out_cap h =
  client_flight junk hfuel hjunk fuel (pre ++ encrypted_extensions_msg ++ post) (length (pre ++ encrypted_extensions_msg)) out_cap (add_transcript encrypted_extensions_msg h).
Proof.
  unfold encrypted_extensions_msg. rewrite flight_message by (cbn; lia). cbv zeta. change (TLS13_MSG_ENCRYPTED_EXTENSIONS =? TLS13_MSG_ENCRYPTED_EXTENSIONS) with true. cbv iota.
  unfold tls13_update_transcript. rewrite modify_step. rewrite V_lp16_last by (cbn; lia). reflexivity.
Qed.

Lemma flight_certificate fuel pre post out_cap h der ders : Forall (fun d => (0 < length d)%nat) (der :: ders) ->
  (length (certificate_msg (der :: ders)) <= 4096)%nat -> let msg := certificate_msg (der :: ders) in
  client_flight junk hfuel hjunk (S fuel) (pre ++ msg ++ post) (length pre) out_cap h =
  client_flight junk hfuel hjunk fuel (pre ++ msg ++ post) (length (pre ++ msg)) out_cap (add_transcript msg (with_certs der (take 9 ders) h)).
Proof.
  intros H0 Hl msg. unfold msg. pose proof Hl as Hl'. unfold certificate_msg in Hl'. rewrite hmsg_length in Hl'. unfold certificate_msg. rewrite flight_message by lia. cbv zeta.
  change (TLS13_MSG_CERTIFICATE =? TLS13_MSG_ENCRYPTED_EXTENSIONS) with false. change (TLS13_MSG_CERTIFICATE =? TLS13_MSG_CERTIFICATE_REQUEST) with false. rewrite Z.eqb_refl. cbv iota.
  step (store_list_ok der ders h H0 Hl) by idtac. reflexivity.
Qed.

Lemma flight_certificate_verify fuel pre post out_cap h k der sig T : certifies k der -> r_cert (h_peer h) = der -> (0 < length der)%nat ->
  h_is_server h = false -> transcript h T -> suite_ok a h ->
  sign_512 k (cv_input (sig_scheme_of k) (cv_content T)) = Some sig -> (length sig <= 504)%nat ->
  let msg := certificate_verify_msg (sig_scheme_of k) sig in
  client_flight junk hfuel hjunk (S fuel) (pre ++ msg ++ post) (length pre) out_cap h =
  client_flight junk hfuel hjunk fuel (pre ++ msg ++ post) (length (pre ++ msg)) out_cap (add_transcript msg h).
Proof.
  intros Hc Hr H0 Hcl Ht Hs Hsig Hl msg. unfold msg, certificate_verify_msg. rewrite flight_message by enc_len. cbv zeta.
  change (TLS13_MSG_CERTIFICATE_VERIFY =? TLS13_MSG_ENCRYPTED_EXTENSIONS) with false. change (TLS13_MSG_CERTIFICATE_VERIFY =? TLS13_MSG_CERTIFICATE_REQUEST) with false.
  change (TLS13_MSG_CERTIFICATE_VERIFY =? TLS13_MSG_CERTIFICATE) with false. rewrite Z.eqb_refl. cbv iota.
  step (check_certificate_verify_ok k der sig post h T Hc Hr H0 Hcl Ht Hs Hsig Hl) by idtac. reflexivity.
Qed.

(** Before the server's Finished, and at the end: the messages, the secrets, the
    server's certificate. *)
Record client_reads (T T2 shared : list Z) (h : hs) : Prop := {
  rd_suite : suite_ok a h;
  rd_client : h_is_server h = false;
  rd_cipher : h_cipher h = TLS_AES_256_GCM_SHA384;
  rd_transcript : transcript h T2;
  rd_secrets : hs_secrets_are shared T (h_secrets h);
  rd_request : r_request_cert (h_peer h) = false }.

Lemma client_reads_add T T2 shared h msg : client_reads T T2 shared h -> size_ok msg -> client_reads T (T2 ++ msg) shared (add_transcript msg h).
Proof. intros [R1 R2 R3 R4 R5 R6] Hs. constructor; try assumption. by apply transcript_add. Qed.

Lemma client_reads_certs T T2 shared h c ch : client_reads T T2 shared h -> client_reads T T2 shared (with_certs c ch h).
Proof. intros [R1 R2 R3 R4 R5 R6]. constructor; assumption. Qed.

(** The secrets of section 7.1, from the shared secret, the messages to the
    ServerHello, to the server's Finished, and to the client's. *)
Definition session_secrets (shared T T2 T3 : list Z) : secrets :=
  let hsec := hs_secret a shared in let ms := master_secret a shared in
  mk_secrets (early_secret a) hsec ms (client_traffic shared T) (server_traffic shared T)
    (Derive_Secret a ms (chars "c ap traffic") T2) (Derive_Secret a ms (chars "s ap traffic") T2)
    (Derive_Secret a ms (chars "exp master") T2) (Derive_Secret a ms (chars "res master") T3).

(** A finished handshake. *)
Record completed (shared T T2 T3 : list Z) (h : hs) : Prop := {
  cd_state : h_state h = OPSSL_HS_COMPLETE;
  cd_suite : suite_ok a h;
  cd_cipher : h_cipher h = TLS_AES_256_GCM_SHA384;
  cd_secrets : h_secrets h = session_secrets shared T T2 T3 }.

Lemma session_secrets_eq shared T T2 T3 x : hs_secrets_are shared T x -> ap_secrets_are shared T2 x ->
  set_resumption (Derive_Secret a (master_secret a shared) (chars "res master") T3) x = session_secrets shared T T2 T3.
Proof.
  intros (E1 & E2 & E3 & E4) (E5 & E6 & E7 & E8). unfold set_resumption, session_secrets, client_traffic, server_traffic. by rewrite E1, E2, E3, E4, E5, E6, E7, E8.
Qed.

(** The client's Finished after the messages [T2]. *)
Definition client_finished_msg (shared T T2 : list Z) : list Z := finished_msg (verify_data a (client_traffic shared T) T2).

Lemma finished_msg_length secret T : length (finished_msg (verify_data a secret T)) = 52%nat.
Proof. unfold finished_msg. rewrite hmsg_length, verify_data_length. reflexivity. Qed.

Lemma client_finished_ok pre post out_cap h shared T T2 : client_reads T T2 shared h -> 52 <= out_cap <= 2 ^ 62 ->
  let msg := finished_msg (verify_data a (server_traffic shared T) T2) in
  let fin := client_finished_msg shared T (T2 ++ msg) in
  outcome (client_finished junk hfuel hjunk (pre ++ msg ++ post) (length pre) 48 out_cap h) (OPSSL_OK, length (pre ++ msg), fin)
    (fun h' => completed shared T (T2 ++ msg) (T2 ++ msg ++ fin) h' /\ h_peer h' = h_peer h).
Proof.
  intros [R1 R2 R3 R4 R5 R6] Hcap msg fin. pose proof (finished_msg_length (server_traffic shared T) T2) as Hml. fold msg in Hml.
  pose proof (finished_msg_length (client_traffic shared T) (T2 ++ msg)) as Hfl. fold (client_finished_msg shared T (T2 ++ msg)) in Hfl. fold fin in Hfl.
  assert (s_server_hs (h_secrets h) = server_traffic shared T) as Es by exact (proj2 (proj2 (proj2 R5))).
  assert (s_handshake (h_secrets h) = hs_secret a shared) as Eh by exact (proj1 (proj2 R5)).
  unfold client_finished. rewrite get_step, Es. step (finished_data_ok hfuel hjunk Hfuel Hjunk a h T2 (server_traffic shared T) R1 R4 (derive_secret_length _ _ _)) by idtac.
  pose proof (verify_data_length a (server_traffic shared T) T2) as Hvl. change (get_digest_size a) with 48%nat in Hvl.
  assert (h_len h = 48%nat) as Hlen by apply R1. rewrite Hlen. cbn [Nat.eqb negb orb].
  pose proof (frame_body pre TLS13_MSG_FINISHED (verify_data a (server_traffic shared T) T2) post) as E3. fold msg in E3.
  pose proof (frame_msg pre TLS13_MSG_FINISHED (verify_data a (server_traffic shared T) T2) post) as E4. rewrite Hvl in E4.
  change (hmsg TLS13_MSG_FINISHED (verify_data a (server_traffic shared T) T2)) with msg in E3, E4. rewrite E3, E4.
  pose proof (ct_eq_prefix (verify_data a (server_traffic shared T) T2) post) as Hct. rewrite Hvl in Hct. rewrite Hct. cbn [Z.eqb Pos.eqb negb]. unfold tls13_update_transcript at 1. rewrite modify_step. cbv zeta. fold (add_transcript msg h).
  assert (size_ok msg) as Hs1 by (apply (short_ok _ 64); lia). assert (size_ok fin) as Hs2 by (apply (short_ok _ 64); lia).
  pose proof (transcript_add h T2 msg Hs1 R4) as Ht1. name_state (add_transcript msg h) h1 E1. rewrite <- E1 in Ht1.
  assert (suite_ok a h1 /\ h_cipher h1 = TLS_AES_256_GCM_SHA384 /\ hs_secrets_are shared T (h_secrets h1) /\ r_request_cert (h_peer h1) = false /\ h_peer h1 = h_peer h /\
    s_handshake (h_secrets h1) = hs_secret a shared) as (U1 & U2 & U3 & U4 & U5 & U6) by (framed E1).
  rewrite <- U5. clear E1 R1 R2 R3 R4 R5 R6 Es Eh Hlen U5 E3 E4 h.
  step (derive_application_ok hfuel hjunk Hfuel Hjunk a h1 _ shared U1 Ht1 U6) by idtac.
  assert (ap_secrets_are shared (T2 ++ msg) (h_secrets (after_ap_secrets a shared (T2 ++ msg) h1))) as U7 by (repeat split).
  name_state (after_ap_secrets a shared (T2 ++ msg) h1) h2 E2. rewrite <- E2 in U7.
  assert (transcript h2 (T2 ++ msg) /\ suite_ok a h2 /\ h_cipher h2 = TLS_AES_256_GCM_SHA384 /\ hs_secrets_are shared T (h_secrets h2) /\ h_peer h2 = h_peer h1)
    as (W1 & W2 & W3 & W4 & W5) by (unfold after_ap_secrets in E2; framed E2).
  rewrite <- W5 in *. clear E2 U1 U2 U3 U6 W5 Ht1 h1.
  assert (client_certificate junk out_cap h2 = Some (Some [], h2)) as Hcert by (unfold client_certificate; rewrite get_step, U4; reflexivity).
  step Hcert by idtac. cbn [length]. change (Z.of_nat 0) with 0. rewrite Z.sub_0_r.
  assert (u64 out_cap = out_cap) as -> by (apply Z.mod_small; lia).
  pose proof (build_finished_ok junk hfuel hjunk Hfuel Hjunk h2 (T2 ++ msg) true (client_traffic shared T) out_cap SIZE_MAX W2 W1 (derive_secret_length _ _ _) (proj1 (proj2 (proj2 W4))) ltac:(lia) ltac:(unfold SIZE_MAX; lia)) as Hfin.
  fold (client_finished_msg shared T (T2 ++ msg)) in Hfin. fold fin in Hfin.
  destruct (send_ok _ h2 _ _ Hfin ltac:(lia) W1) as [Hsend Ht3]. step Hsend by idtac. unfold append_out. cbn [app length].
  rewrite (proj2 (Z.ltb_ge _ _)) by lia. erewrite bind_step by reflexivity.
  rewrite <- app_assoc in Ht3. name_state (add_transcript fin h2) h3 E3. rewrite <- E3 in Ht3.
  assert (suite_ok a h3 /\ h_cipher h3 = TLS_AES_256_GCM_SHA384 /\ hs_secrets_are shared T (h_secrets h3) /\ h_peer h3 = h_peer h2 /\
    ap_secrets_are shared (T2 ++ msg) (h_secrets h3)) as (Y1 & Y2 & Y3 & Y4 & Y5) by (framed E3). rewrite <- Y4. clear E3 Y4 Hsend Hfin Hcert U4 U7 W1 W2 W3 W4 h2.
  step (derive_resumption_ok hfuel hjunk Hfuel Hjunk a h3 _ shared Y1 Ht3 (proj1 Y5)) by idtac. rewrite modify_step.
  replace (length pre + 4 + 48)%nat with (length (pre ++ msg)) by (rewrite length_app; lia). apply outcome_ret.
  split; [| reflexivity]. constructor; fields; [reflexivity | exact Y1 | exact Y2 | by apply session_secrets_eq].
Qed.

(** What the client knows of the server's certificate. *)
Definition received (chain : option (list (list Z))) (h : hs) : Prop :=
  match chain with
  | Some (der :: ders) => r_cert (h_peer h) = der /\ r_chain (h_peer h) = take 9 ders
  | _ => True
  end.

Definition chain_certified (chain : option (list (list Z))) (key : option opssl_pkey) : Prop :=
  match chain, key with Some (der :: _), Some k => certifies k der | _, _ => True end.

Lemma flight_certs fuel pre post out_cap h shared T T2 chain key : client_reads T T2 shared h -> creds_ok chain key -> chain_certified chain key ->
  (3 <= fuel)%nat -> let buf := pre ++ certs_of chain key T2 ++ post in
  exists fuel' h', client_flight junk hfuel hjunk fuel buf (length pre) out_cap h =
      client_flight junk hfuel hjunk fuel' buf (length (pre ++ certs_of chain key T2)) out_cap h' /\ (0 < fuel')%nat /\
    client_reads T (T2 ++ certs_of chain key T2) shared h' /\ received chain h'.
Proof.
  intros Hr Hok Hcert Hf.
  assert (chain = None \/ chain = Some [] \/ exists der ders, chain = Some (der :: ders)) as [-> | [-> | (der & ders & ->)]]
    by (destruct chain as [[| der ders] |]; eauto).
  1, 2: exists fuel, h; cbn [certs_of]; rewrite !app_nil_r; split; [reflexivity | split; [lia | split; [exact Hr | exact I]]].
  destruct Hok as (Hlen & Hne & Hsig). unfold certs_of. cbv zeta. set (cert := certificate_msg (der :: ders)) in *.
  destruct fuel as [| fuel]; [lia |]. rewrite <- app_assoc.
  pose proof (flight_certificate fuel pre (match key with Some k => certificate_verify_msg (sig_scheme_of k) (signature k (T2 ++ cert)) | None => [] end ++ post) out_cap h der ders Hne Hlen) as E.
  cbv zeta in E. fold cert in E. rewrite E. clear E.
  pose proof (client_reads_add T T2 shared _ cert (client_reads_certs _ _ _ _ der (take 9 ders) Hr) ltac:(apply (short_ok _ 4096); lia)) as Hr1.
  set (h1 := add_transcript cert (with_certs der (take 9 ders) h)) in *.
  assert (received (Some (der :: ders)) h1) as Hrec by done. destruct key as [k |].
  - destruct (Hsig (cv_input (sig_scheme_of k) (cv_content (T2 ++ cert)))) as (sig & Hsg & Hsl).
    assert (signature k (T2 ++ cert) = sig) as -> by (unfold signature; by rewrite Hsg).
    destruct fuel as [| fuel]; [lia |]. set (cv := certificate_verify_msg (sig_scheme_of k) sig).
    replace (pre ++ cert ++ cv ++ post) with ((pre ++ cert) ++ cv ++ post) by (by rewrite <- app_assoc). inversion Hne as [| ? ? Hder _]; subst.
    pose proof (flight_certificate_verify fuel (pre ++ cert) post out_cap h1 k der sig (T2 ++ cert) Hcert (proj1 Hrec) Hder (rd_client _ _ _ _ Hr1)
      (rd_transcript _ _ _ _ Hr1) (rd_suite _ _ _ _ Hr1) Hsg Hsl) as E. cbv zeta in E. fold cv in E. rewrite E. clear E.
    exists fuel, (add_transcript cv h1). rewrite !app_assoc. split; [reflexivity | split; [lia | split; [| exact Hrec]]].
    apply (client_reads_add T (T2 ++ cert)); [exact Hr1 |]. apply (short_ok _ 4096); [| lia]. unfold cv, certificate_verify_msg. enc_len.
  - exists fuel, h1. rewrite !app_nil_r. split; [reflexivity | split; [lia | split; [exact Hr1 | exact Hrec]]].
Qed.

Lemma client_flight_ok h T shared chain key rest out_cap : client_keyed T shared h -> creds_ok chain key -> chain_certified chain key ->
  52 <= out_cap <= 2 ^ 62 -> let flight := flight_of chain key shared T in let fin := client_finished_msg shared T (T ++ flight) in
  outcome (client None None None (flight ++ rest) out_cap h) (OPSSL_OK, length flight, fin)
    (fun h' => completed shared T (T ++ flight) (T ++ flight ++ fin) h' /\ received chain h').
Proof.
  intros [K1 K2 K3 K4 K5 K6 K7] Hok Hcert Hcap flight fin. unfold opssl_tls13_client_handshake. rewrite get_step, K1.
  change (OPSSL_HS_ENCRYPTED_EXTENSIONS =? OPSSL_HS_IDLE) with false. change (OPSSL_HS_ENCRYPTED_EXTENSIONS =? OPSSL_HS_CLIENT_HELLO) with false. rewrite Z.eqb_refl. cbv iota.
  set (ee := encrypted_extensions_msg). set (certs := certs_after chain key T). set (sfin := server_finished chain key shared T).
  assert (flight ++ rest = [] ++ ee ++ (certs ++ sfin ++ rest)) as -> by (unfold flight, flight_of; cbn [app]; by rewrite <- !app_assoc).
  assert (length ee = 6%nat) as Hel by reflexivity. assert (length sfin = 52%nat) as Hfl by apply finished_msg_length.
  assert (5 <= length ([] ++ ee ++ certs ++ sfin ++ rest))%nat as Hlen by (rewrite !length_app; lia).
  destruct (length ([] ++ ee ++ certs ++ sfin ++ rest)) as [| fuel]; [lia |]. change 0%nat with (length (@nil Z)). unfold ee. rewrite flight_ee. fold ee. cbn [app].
  assert (client_reads T (T ++ ee) shared (add_transcript ee h)) as Hr by (apply client_reads_add; [by constructor | apply (short_ok _ 64); lia]).
  destruct (flight_certs fuel ee (sfin ++ rest) out_cap _ shared T (T ++ ee) chain key Hr Hok Hcert ltac:(lia)) as (fuel' & h' & E & Hf' & Hr' & Hrec).
  change (certs_of chain key (T ++ ee)) with certs in E, Hr'. cbv zeta in E. rewrite E. clear E.
  destruct fuel' as [| fuel']; [lia |].
  replace (ee ++ certs ++ sfin ++ rest) with ((ee ++ certs) ++ sfin ++ rest) by (by rewrite <- !app_assoc).
  assert (sfin = hmsg TLS13_MSG_FINISHED (verify_data a (server_traffic shared T) ((T ++ ee) ++ certs))) as Es by (unfold sfin, server_finished; by rewrite <- app_assoc).
  assert (length (verify_data a (server_traffic shared T) ((T ++ ee) ++ certs)) = 48%nat) as Hvl by apply verify_data_length.
  pose proof (flight_message fuel' (ee ++ certs) TLS13_MSG_FINISHED (verify_data a (server_traffic shared T) ((T ++ ee) ++ certs)) rest out_cap h' ltac:(rewrite Hvl; lia)) as E.
  cbv zeta in E. rewrite Hvl, <- Es in E. rewrite E. clear E.
  change (TLS13_MSG_FINISHED =? TLS13_MSG_ENCRYPTED_EXTENSIONS) with false. change (TLS13_MSG_FINISHED =? TLS13_MSG_CERTIFICATE_REQUEST) with false.
  change (TLS13_MSG_FINISHED =? TLS13_MSG_CERTIFICATE) with false. change (TLS13_MSG_FINISHED =? TLS13_MSG_CERTIFICATE_VERIFY) with false. rewrite Z.eqb_refl. cbv iota.
  destruct (client_finished_ok (ee ++ certs) rest out_cap h' shared T _ Hr' Hcap) as (h2 & E & Hdone & Hp).
  assert (((T ++ ee) ++ certs) ++ sfin = T ++ flight) as ET by (unfold flight, flight_of; by rewrite <- !app_assoc).
  change (finished_msg (verify_data a (server_traffic shared T) ((T ++ ee) ++ certs))) with (hmsg TLS13_MSG_FINISHED (verify_data a (server_traffic shared T) ((T ++ ee) ++ certs))) in E, Hdone.
  rewrite <- Es, ET in E, Hdone. fold fin in E, Hdone.
  replace (length ((ee ++ certs) ++ sfin)) with (length flight) in E by (unfold flight, flight_of; cbn [app]; by rewrite <- app_assoc).
  exists h2. split; [exact E |]. split; [| unfold received in *; by rewrite Hp].
  replace (T ++ flight ++ fin) with (((T ++ ee) ++ certs) ++ sfin ++ fin) by (unfold flight, flight_of; by rewrite <- !app_assoc). exact Hdone.
Qed.

(* ------------------------------------------------------------------ *)
(** * The server reads the client's Finished *)

Lemma server_finish_ok h T T2 shared rest out_cap : server_waits T T2 shared h ->
  let fin := client_finished_msg shared T T2 in
  outcome (server None None (fin ++ rest) out_cap h) (OPSSL_OK, length fin, []) (completed shared T T2 (T2 ++ fin)).
Proof.
  intros [S1 S2 S3 S4 S5 S6 S7] fin. pose proof (finished_msg_length (client_traffic shared T) T2) as Hml. fold (client_finished_msg shared T T2) in Hml. fold fin in Hml.
  unfold opssl_tls13_server_handshake. rewrite modify_step, get_step. fields. rewrite S1.
  change ((OPSSL_HS_WAIT_FINISHED =? OPSSL_HS_IDLE) || (OPSSL_HS_WAIT_FINISHED =? OPSSL_HS_CLIENT_HELLO)) with false.
  change (OPSSL_HS_WAIT_FINISHED =? OPSSL_HS_ENCRYPTED_EXTENSIONS) with false. change (OPSSL_HS_WAIT_FINISHED =? OPSSL_HS_FINISHED) with false. rewrite Z.eqb_refl. cbv iota.
  name_state (set_is_server true h) h1 E1.
  assert (s_client_hs (h_secrets h) = client_traffic shared T) as Ec by exact (proj1 (proj2 (proj2 S5))).
  assert (suite_ok a h1 /\ h_cipher h1 = TLS_AES_256_GCM_SHA384 /\ transcript h1 T2 /\ hs_secrets_are shared T (h_secrets h1) /\ ap_secrets_are shared T2 (h_secrets h1) /\
    r_request_cert (h_peer h1) = false /\ s_client_hs (h_secrets h1) = client_traffic shared T) as (Q1 & Q2 & Q3 & Q4 & Q5 & Q6 & Q7) by (framed E1).
  clear E1 S1 S2 S3 S4 S5 S6 S7 Ec h.
  pose proof (verify_data_length a (client_traffic shared T) T2) as Hvl. change (get_digest_size a) with 48%nat in Hvl.
  pose proof (frame_fits [] TLS13_MSG_FINISHED (verify_data a (client_traffic shared T) T2) rest) as Hf.
  pose proof (frame_type [] TLS13_MSG_FINISHED (verify_data a (client_traffic shared T) T2) rest) as F1.
  pose proof (frame_len [] TLS13_MSG_FINISHED (verify_data a (client_traffic shared T) T2) rest ltac:(lia)) as F2.
  pose proof (frame_body [] TLS13_MSG_FINISHED (verify_data a (client_traffic shared T) T2) rest) as F3.
  pose proof (frame_msg [] TLS13_MSG_FINISHED (verify_data a (client_traffic shared T) T2) rest) as F4.
  cbn [app length] in Hf, F1, F2, F3, F4. change (hmsg TLS13_MSG_FINISHED (verify_data a (client_traffic shared T) T2)) with fin in *. rewrite Hvl in Hf, F2, F4.
  unfold server_wait_finished. fits Hf. rewrite get_step, Q6. unfold server_check_finished. cbv zeta. rewrite (proj2 (Nat.ltb_ge _ _)) by lia. rewrite get_step. cbn [Nat.add] in *. rewrite F1, F2, F3.
  assert (h_len h1 = 48%nat) as Hlen by apply Q1. rewrite Hlen. rewrite Z.eqb_refl, Nat.eqb_refl. cbn [negb orb]. rewrite (proj2 (Nat.ltb_ge _ _)) by lia.
  rewrite Q7. step (finished_data_ok hfuel hjunk Hfuel Hjunk a h1 T2 (client_traffic shared T) Q1 Q3 (derive_secret_length _ _ _)) by idtac.
  pose proof (ct_eq_prefix (verify_data a (client_traffic shared T) T2) rest) as Hct. rewrite Hvl in Hct. rewrite Hct. cbn [Z.eqb Pos.eqb negb]. rewrite F4.
  unfold tls13_update_transcript. rewrite modify_step. fold (add_transcript fin h1).
  pose proof (transcript_add h1 T2 fin ltac:(apply (short_ok _ 64); lia) Q3) as Ht. name_state (add_transcript fin h1) h2 E2. rewrite <- E2 in Ht.
  assert (suite_ok a h2 /\ h_cipher h2 = TLS_AES_256_GCM_SHA384 /\ hs_secrets_are shared T (h_secrets h2) /\ ap_secrets_are shared T2 (h_secrets h2)) as (U1 & U2 & U3 & U4) by (framed E2).
  step (derive_resumption_ok hfuel hjunk Hfuel Hjunk a h2 _ shared U1 Ht (proj1 U4)) by idtac. rewrite modify_step.
  change (0 + 4 + 48)%nat with 52%nat. rewrite <- Hml. apply outcome_ret. constructor; fields; [reflexivity | exact U1 | exact U2 | by apply session_secrets_eq].
Qed.

(* ------------------------------------------------------------------ *)
(** * The whole handshake *)

(** The calls of the two ends, each given what the other has written and whatever
    comes after it: ClientHello; ServerHello, the change of keys, the flight; the
    client's two calls; the server's last.  [cr], [x1], [x2] and [sr], [x3] are the
    bytes that the random generators give them. *)
Definition handshake_run (cr x1 x2 sr x3 : list Z) (t1 t2 t3 t4 : list Z) (cap : Z) (hc hsv : hs) : option (list hs_ret * hs * hs) :=
  '((r1, n1, ch), hc) ← client (Some cr) (Some x1) (Some x2) [] cap hc;
  '((r2, n2, sh), hsv) ← server (Some sr) (Some x3) (ch ++ t1) cap hsv;
  '((r3, n3, o3), hsv) ← server None None [] cap hsv;
  '((r4, n4, flight), hsv) ← server None None [] cap hsv;
  '((r5, n5, o5), hc) ← client None None None (sh ++ t2) cap hc;
  '((r6, n6, fin), hc) ← client None None None (flight ++ t3) cap hc;
  '((r7, n7, o7), hsv) ← server None None (fin ++ t4) cap hsv;
  Some ([(r1, n1, ch); (r2, n2, sh); (r3, n3, o3); (r4, n4, flight); (r5, n5, o5); (r6, n6, fin); (r7, n7, o7)], hc, hsv).

(** What the public-key operations promise: values of their lengths. *)
Class PkiLaws := {
  x25519_length x p s : length x = 32%nat -> opssl_x25519_derive x p = Some s -> length s = 32%nat;
  p256_public_length r c p : opssl_ecdh_keygen OPSSL_CURVE_P256 r = Some c -> opssl_ecdh_get_public c = Some p -> length p = 65%nat }.

(** Two X25519 key pairs and the secret both ends compute from the other's public
    key. *)
Record key_exchange (x1 x3 xpub spub shared : list Z) : Prop := {
  kx_client : opssl_x25519_derive (take 32 x1) basepoint = Some xpub;
  kx_server : opssl_x25519_derive (take 32 x3) basepoint = Some spub;
  kx_client_shared : opssl_x25519_derive (take 32 x1) spub = Some shared;
  kx_server_shared : opssl_x25519_derive (take 32 x3) xpub = Some shared }.

Lemma exchange_ok (L : PkiLaws) hc hsv cr x1 x2 sr x3 xpub spub shared e256 p256 t1 t2 t3 t4 cap :
  client_ready hc -> server_ready hsv -> creds_ok (g_chain (h_config hsv)) (g_sign_key (h_config hsv)) ->
  chain_certified (g_chain (h_config hsv)) (g_sign_key (h_config hsv)) ->
  (32 <= length cr)%nat -> (32 <= length x1)%nat -> (32 <= length sr)%nat -> (32 <= length x3)%nat ->
  key_exchange x1 x3 xpub spub shared ->
  opssl_ecdh_keygen OPSSL_CURVE_P256 x2 = Some e256 -> opssl_ecdh_get_public e256 = Some p256 -> 8192 <= cap <= 2 ^ 62 ->
  exists ch sh flight fin hc' hsv',
    handshake_run cr x1 x2 sr x3 t1 t2 t3 t4 cap hc hsv =
      Some ([(OPSSL_OK, 0%nat, ch); (OPSSL_OK, length ch, sh); (OPSSL_OK, 0%nat, []); (OPSSL_OK, 0%nat, flight);
             (OPSSL_OK, length sh, []); (OPSSL_OK, length flight, fin); (OPSSL_OK, length fin, [])], hc', hsv') /\
    completed shared (ch ++ sh) (ch ++ sh ++ flight) (ch ++ sh ++ flight ++ fin) hc' /\
    completed shared (ch ++ sh) (ch ++ sh ++ flight) (ch ++ sh ++ flight ++ fin) hsv' /\ received (g_chain (h_config hsv)) hc'.
Proof.
  intros Hc Hs Hok Hcert L1 L2 L3 L4 [Hx Hy E1 E2] He Hp Hcap. assert (length (take 32 x1) = 32%nat) as T1 by (rewrite length_take; lia). assert (length (take 32 x3) = 32%nat) as T3 by (rewrite length_take; lia).
  pose proof (x25519_length _ _ _ T1 Hx) as Lx. pose proof (x25519_length _ _ _ T3 Hy) as Ly. pose proof (x25519_length _ _ _ T1 E1) as Ls.
  pose proof (p256_public_length _ _ _ He Hp) as Lp.
  assert (client_keys cr x1 x2 xpub p256 e256) as Kc by (by constructor). assert (server_keys sr x3 xpub spub shared) as Ks by (by constructor).
  set (chain := g_chain (h_config hsv)) in *. set (key := g_sign_key (h_config hsv)) in *.
  set (ch := client_hello_msg (take 32 cr) xpub p256). set (sh := server_hello_of sr spub). set (T := ch ++ sh).
  set (flight := flight_of chain key shared T). set (fin := client_finished_msg shared T (T ++ flight)).
  destruct (client_start_ok junk hfuel hjunk Hfuel Hjunk hc cr x1 x2 xpub p256 e256 [] cap Hc Kc ltac:(lia)) as (hc1 & R1 & Sc). fold ch in R1, Sc.
  destruct (server_hello_ok junk hfuel hjunk Hfuel Hjunk hsv (take 32 cr) xpub p256 t1 sr x3 spub shared cap Hs ltac:(rewrite length_take; lia) Lx Lp Ks ltac:(lia)) as (hs1 & R2 & Ss).
  fold ch sh in R2, Ss. fold T chain key in Ss.
  destruct (server_bump_ok junk hfuel hjunk hs1 T shared chain key [] cap Ss) as (hs2 & R3 & Ss2).
  destruct (server_flight_ok junk hfuel hjunk Hfuel Hjunk hs2 T shared chain key [] cap Ss2 Hok ltac:(lia)) as (hs3 & R4 & Ss3). fold flight in R4, Ss3.
  destruct (client_server_hello_ok junk hfuel hjunk Hfuel Hjunk hc1 ch _ xpub sr spub shared t2 cap Sc L3 Ly Ls E1) as (hc2 & R5 & Sc2). fold sh in R5, Sc2. fold T in Sc2.
  destruct (client_flight_ok hc2 T shared chain key t3 cap Sc2 Hok Hcert ltac:(lia)) as (hc3 & R6 & Sc3 & Hrec). fold flight in R6, Sc3. fold fin in R6, Sc3.
  destruct (server_finish_ok hs3 T (T ++ flight) shared t4 cap Ss3) as (hs4 & R7 & Ss4). fold fin in R7, Ss4.
  exists ch, sh, flight, fin, hc3, hs4. split.
  { unfold handshake_run. rewrite R1. cbn [mbind option_bind]. rewrite R2. cbn [mbind option_bind]. rewrite R3. cbn [mbind option_bind]. rewrite R4. cbn [mbind option_bind].
    rewrite R5. cbn [mbind option_bind]. rewrite R6. cbn [mbind option_bind]. rewrite R7. reflexivity. }
  assert (T ++ flight = ch ++ sh ++ flight) as ET by (unfold T; by rewrite <- app_assoc).
  assert ((T ++ flight) ++ fin = ch ++ sh ++ flight ++ fin) as ET2 by (unfold T; by rewrite <- !app_assoc).
  rewrite app_assoc in Sc3. rewrite ET2, ET in Sc3, Ss4. fold T. split; [exact Sc3 | split; [exact Ss4 | exact Hrec]].
Qed.

Lemma completed_keys shared T T2 T3 h : completed shared T T2 T3 h ->
  opssl_tls13_extract_traffic_keys hfuel hjunk h =
    Some (Some (traffic_keys a TLS_AES_256_GCM_SHA384 (s_client_ap (session_secrets shared T T2 T3)) (s_server_ap (session_secrets shared T T2 T3))), h).
Proof.
  intros [C1 C2 C3 C4]. unfold opssl_tls13_extract_traffic_keys. rewrite get_step, C1, Z.eqb_refl. cbn [negb]. rewrite C4, <- C3.
  apply (derive_keys_ok hfuel hjunk Hfuel Hjunk a h _ _ C2); apply derive_secret_length.
Qed.

End Agree.

(* ------------------------------------------------------------------ *)
(** * Witness *)

Section Witness.
#[local] Existing Instance plain_cpu.

(** Public-key operations of which the laws hold: a commutative multiplication for
    X25519, a signature that is the key. *)
Definition toy_mul (k p : list Z) : list Z := be_bytes 32 (u64 (be_val k * be_val p)).

#[local] Instance toy_pki : Pki := {|
  opssl_x25519_derive k p := Some (toy_mul k p);
  opssl_ecdh_ctx := list Z; opssl_ecdh_keygen _ r := Some r; opssl_ecdh_get_public _ := Some (replicate 65 4); opssl_ecdh_derive _ _ := None;
  opssl_pkey := unit; opssl_pkey_type _ := OPSSL_PKEY_RSA; opssl_pkey_bits _ := 2048; opssl_pkey_sign _ m := Some (take 32 m ++ [7]);
  x509_spki der := Some (der, der); opssl_ed25519_verify _ _ _ := false; ecdsa_verify _ _ _ _ := false;
  rsa_pss_verify _ _ digest sig := bool_decide (sig = take 32 digest ++ [7]) |}.

Lemma toy_mul_val k p : be_val (toy_mul k p) = u64 (be_val k * be_val p).
Proof. unfold toy_mul. rewrite be_bytes_mod. apply Z.mod_small. pose proof (u64_range (be_val k * be_val p)). change (256 ^ Z.of_nat 32) with (2 ^ 256). lia. Qed.

Lemma toy_laws : PkiLaws.
Proof.
  split.
  - intros x p s _ [= <-]. apply be_bytes_length.
  - intros r c p _ [= <-]. reflexivity.
Qed.

Lemma toy_exchange x1 x3 : let px := toy_mul (take 32 x1) basepoint in let py := toy_mul (take 32 x3) basepoint in
  key_exchange x1 x3 px py (toy_mul (take 32 x1) py).
Proof.
  split; try reflexivity. cbn [opssl_x25519_derive toy_pki]. f_equal. unfold toy_mul at 1 3. rewrite !toy_mul_val. f_equal.
  unfold u64. rewrite !Z.mul_mod_idemp_r by lia. f_equal. lia.
Qed.

Definition toy_server : hs := mk_hs OPSSL_HS_IDLE true 0 OPSSL_HMAC_SHA256 0 (replicate 32 0) (replicate 32 0) sha256_ctx_zero sha512_ctx_zero
  (mk_kex 0 NoKey [] [] [] 0 NoKey []) (mk_secrets [] [] [] [] [] [] [] [] []) (mk_psk [] [] false false false false [])
  (mk_config (Some tt) (Some [[48; 1; 2; 3]; [48; 0]]) None None [] [] [] [] [] 0) (mk_peer [] [] [] false false false false false false false [] []).

Lemma toy_creds : creds_ok (g_chain (h_config toy_server)) (g_sign_key (h_config toy_server)).
Proof.
  split; [vm_compute; lia |]. split; [by repeat constructor |]. intros input. unfold sign_512. cbn [opssl_pkey_sign toy_pki].
  assert (length (take 32 input ++ [7%Z]) <= 33)%nat as Hl by (rewrite length_app, length_take; cbn [length]; lia).
  exists (take 32 input ++ [7]). rewrite (proj2 (Nat.ltb_ge _ _)) by lia. split; [reflexivity | lia].
Qed.

Lemma toy_certified : chain_certified (g_chain (h_config toy_server)) (g_sign_key (h_config toy_server)).
Proof.
  exists [48; 1; 2; 3], [48; 1; 2; 3]. split; [reflexivity |]. intros input sig. unfold sign_512. cbn [opssl_pkey_sign toy_pki opssl_pkey_type].
  destruct (512 <? length (take 32 input ++ [7%Z]))%nat; [done |]. intros [= <-]. by apply bool_decide_eq_true_2.
Qed.

End Witness.
