(* ===== verification/Tls13X25519.v ===== *)
(** The X25519 of src/crypto/x25519.c as the one the handshake calls: it has the
    laws of [Tls13Agree.PkiLaws], and two key pairs agree when RFC 7748's function
    commutes on them. *)
From S2P Require Import Prelude X25519 X25519Ok Tls13 Tls13Agree.
#[local] Open Scope Z_scope.
#[local] Opaque rfc_x25519 x25519_scalar_mult.

(** [opssl_x25519_derive(...) != 1] is the failure. *)
Definition derive_of_code (k u : list Z) : option (list Z) :=
  match X25519.opssl_x25519_derive k u with Some (1, s) => Some s | _ => None end.

(** Public-key operations with this X25519. *)
Definition with_x25519 (P : Pki) : Pki := {|
  opssl_x25519_derive := derive_of_code;
  opssl_ecdh_ctx := @opssl_ecdh_ctx P; opssl_ecdh_keygen := @opssl_ecdh_keygen P; opssl_ecdh_get_public := @opssl_ecdh_get_public P; opssl_ecdh_derive := @opssl_ecdh_derive P;
  opssl_pkey := @opssl_pkey P; opssl_pkey_type := @opssl_pkey_type P; opssl_pkey_bits := @opssl_pkey_bits P; opssl_pkey_sign := @opssl_pkey_sign P;
  x509_spki := @x509_spki P; opssl_ed25519_verify := @opssl_ed25519_verify P; ecdsa_verify := @ecdsa_verify P; rsa_pss_verify := @rsa_pss_verify P |}.

Lemma tobytes_length h s : fe_tobytes h = Some s -> length s = 32%nat.
Proof.
  unfold fe_tobytes. intros E. repeat match type of E with context [?e ≫= _] => destruct e; cbn [mbind option_bind] in E; [| discriminate E] end. by injection E as <-.
Qed.

Lemma scalar_mult_length k u s : x25519_scalar_mult k u = Some s -> length s = 32%nat.
Proof.
  Transparent x25519_scalar_mult. unfold x25519_scalar_mult. cbv zeta. destruct (ladder _ _ _ _ _ _ _ _) as [[[[[f2 e2] f3] e3] sw] |]; cbn [mbind option_bind]; [| done].
  destruct (fe_cswap f2 f3 sw) as [f ?], (fe_cswap e2 e3 sw) as [e ?]. destruct (fe_invert e) as [i |]; cbn [mbind option_bind]; [| done].
  destruct (fe_mul f i) as [h |]; cbn [mbind option_bind]; [apply tobytes_length | done].
Qed.
#[local] Opaque x25519_scalar_mult.

Lemma derive_of_code_length k u s : derive_of_code k u = Some s -> length s = 32%nat.
Proof.
  unfold derive_of_code, X25519.opssl_x25519_derive. destruct (x25519_scalar_mult k u) as [x |] eqn:E; cbn [mbind option_bind]; [| done].
  apply scalar_mult_length in E. destruct (_ =? 0); [by intros [= <-] | done].
Qed.

(** The laws of the handshake's interface. *)
Lemma with_x25519_laws (P : Pki) : @PkiLaws P -> @PkiLaws (with_x25519 P).
Proof. intros L. split; [intros x p s _; apply derive_of_code_length | exact (@p256_public_length P L)]. Qed.

Lemma decode_encode u : 0 <= u < 2 ^ 255 -> decodeUCoordinate (le_bytes 32 u) = u.
Proof. intros Hu. unfold decodeUCoordinate. rewrite le_bytes_mod, (Z.mod_small u) by (change (256 ^ Z.of_nat 32) with (2 ^ 256); lia). by apply Z.mod_small. Qed.

(** A field element of the range in which encoding is exact, and not zero. *)
Definition plain (r : Z) : Prop := 0 < r < 2 ^ 255 - 1275068416.

Lemma derive_plain k u r : bytes k -> length k = 32%nat -> bytes u -> length u = 32%nat ->
  rfc_x25519 (decodeScalar25519 k) (decodeUCoordinate u) = r -> plain r -> derive_of_code k u = Some (le_bytes 32 r).
Proof.
  intros Hk Lk Hu Lu Er [H0 H1]. unfold derive_of_code. pose proof (x25519_derive_ok k u Hk Hu Lk Lu) as E. cbv zeta in E. rewrite Er in E. rewrite E.
  destruct (Z.eqb_spec r 0); [lia |]. by rewrite canonical_id.
Qed.

(** The keys two ends make with this X25519 agree.  If RFC 7748's function gives the
    same secret for the two private keys, and none of the two public values and the
    secret is zero or in the last 1275068416 values below 2^255, then the exchange of
    [handshake_agrees] takes place with x25519.c in its place. *)
Lemma x25519_exchange (P : Pki) x1 x3 u1 u3 s : bytes x1 -> bytes x3 -> (32 <= length x1)%nat -> (32 <= length x3)%nat ->
  let k1 := decodeScalar25519 (take 32 x1) in let k3 := decodeScalar25519 (take 32 x3) in
  rfc_x25519 k1 9 = u1 -> rfc_x25519 k3 9 = u3 -> rfc_x25519 k1 u3 = s -> rfc_x25519 k3 u1 = s ->
  plain u1 -> plain u3 -> plain s ->
  @key_exchange (with_x25519 P) x1 x3 (le_bytes 32 u1) (le_bytes 32 u3) (le_bytes 32 s).
Proof.
  intros B1 B3 L1 L3 k1 k3 E1 E3 Es1 Es3 P1 P3 Ps. apply (bytes_take 32) in B1, B3.
  assert (length (take 32 x1) = 32%nat) as T1 by (rewrite length_take; lia). assert (length (take 32 x3) = 32%nat) as T3 by (rewrite length_take; lia).
  assert (bytes Tls13.basepoint) as Hb by solve_bytes.
  assert (forall u, plain u -> decodeUCoordinate (le_bytes 32 u) = u) as Hd by (intros u [H0 H1]; apply decode_encode; lia).
  split; apply derive_plain; try apply le_bytes_ok; try apply le_bytes_length; rewrite ?Hd by assumption; assumption || exact eq_refl.
Qed.
