(* ===== verification/Tls13Safe.v ===== *)
(** A handshake ends only with the peer's Finished: whatever the buffers hold, an end
    that has come to the state COMPLETE has read a Finished message whose value is
    the HMAC of RFC 8446 section 4.4.4 over the messages it has hashed. *)
From Stdlib Require Import String.
From S2P Require Import Prelude Types Platform Err Cbs Asn1 Cbb Cpu HashApi Sha256 Sha512 Hmac Hkdf KeySched Tls13 Tls13Msg Tls13Secrets Tls13Ok Tls13Agree.
From stdpp Require Import gmap.
#[local] Open Scope Z_scope.
#[local] Open Scope list_scope.
Create HintDb frames.
#[local] Opaque opssl_sha256_update opssl_sha512_update opssl_sha256_init opssl_sha384_init Derive_Secret HKDF_Extract HKDF_Expand_Label HMAC.

Section Safe.
Context `{Cpu} {SP : SimdSpec cpu_simd} {P : Pki}.

(* ------------------------------------------------------------------ *)
(** * What a call can do to the state *)

(** A relation between the structure before and after that calls compose. *)
Definition respects {A} (R : hs -> hs -> Prop) (m : M A) : Prop := forall h x h', m h = Some (x, h') -> R h h'.

Class Frame (R : hs -> hs -> Prop) := { frame_refl h : R h h; frame_trans h1 h2 h3 : R h1 h2 -> R h2 h3 -> R h1 h3 }.

Section Rules.
Context {R : hs -> hs -> Prop} {FR : Frame R}.

Lemma respects_ret {A} (x : A) : respects R (ret x).
Proof. intros h y h' [= <- <-]. apply frame_refl. Qed.

Lemma respects_ub {A} : respects R (@ub _ A).
Proof. intros h x h' E. discriminate E. Qed.

Lemma respects_lift {A} (o : option A) : respects R (lift o).
Proof. intros h x h' E. unfold lift in E. destruct o; [injection E as <- <-; apply frame_refl | discriminate E]. Qed.

Lemma respects_get : respects R get.
Proof. intros h x h' [= <- <-]. apply frame_refl. Qed.

Lemma respects_modify f : (forall h, R h (f h)) -> respects R (modify f).
Proof. intros Hf h x h' [= <- <-]. apply Hf. Qed.

Lemma respects_bind {A B} (m : M A) (k : A -> M B) : respects R m -> (forall x, respects R (k x)) -> respects R (bind m k).
Proof.
  intros Hm Hk h y h' E. unfold bind in E. destruct (m h) as [[x h1] |] eqn:E1; [| discriminate E]. eapply frame_trans; [by eapply Hm | by eapply Hk].
Qed.

Lemma respects_or {A B} (m : M (option A)) (e : M B) (k : A -> M B) : respects R m -> respects R e -> (forall x, respects R (k x)) -> respects R (or_return m e k).
Proof. intros Hm He Hk. apply respects_bind; [done |]. by intros [x |]. Qed.

Lemma respects_each fuel f c : (forall t d, respects R (f t d)) -> respects R (each_extension fuel f c).
Proof.
  intros Hf. revert c. induction fuel as [| fuel IH]; intros c; cbn [each_extension]; (destruct (opssl_cbs_len c <=? 0); [apply respects_ret |]); [apply respects_ub |].
  destruct (next_extension c) as [[[t d] |] c']; [| apply respects_ret]. apply respects_or; [apply Hf | apply respects_ret | intros _; apply IH].
Qed.
End Rules.
End Safe.

(** Goes through a call; [t] ends what changes the structure, and the calls are in the
    database [frames]. *)
Ltac framing t :=
  repeat (intros; cbv zeta;
    lazymatch goal with
    | |- respects _ (ret _) => apply respects_ret
    | |- respects _ ub => apply respects_ub
    | |- respects _ (lift _) => apply respects_lift
    | |- respects _ get => apply respects_get
    | |- respects _ (modify _) => apply respects_modify; intros; t
    | |- respects _ (bind _ _) => apply respects_bind
    | |- respects _ (or_return _ _ _) => apply respects_or
    | |- respects _ (each_extension _ _ _) => apply respects_each
    | |- respects _ (match ?x with _ => _ end) => destruct x
    | |- respects _ _ =>
      first [ solve [eauto with frames]
            | progress unfold mod_peer, mod_psk, mod_config, mod_secrets, set_keypair, set_shared, set_peer_key, tls13_update_transcript, tls13_get_transcript_hash,
                extract_secret, derive_secret, expand_label, hmac, finished_data, random_bytes, init_transcript, tls13_set_hash_for_cipher, cbb_finish_to_buf, error, send, append_out ]
    end).

Section Frames.
Context `{Cpu} {SP : SimdSpec cpu_simd} {P : Pki}.
Context (junk : Z) (hfuel : nat) (hjunk : list Z).

(** The state does not become COMPLETE. *)
Definition open_ (h h' : hs) : Prop := h_state h' = OPSSL_HS_COMPLETE -> h_state h = OPSSL_HS_COMPLETE.

#[export] Instance open_frame : Frame open_.
Proof. split; unfold open_; auto. Qed.

(** Only what is known of the peer changes. *)
Definition peer_only (h h' : hs) : Prop := exists p, h' = set_peer p h.

#[export] Instance peer_frame : Frame peer_only.
Proof.
  split; [intros h; exists (h_peer h); by destruct h |]. intros h1 h2 h3 [p ->] [q ->]. by exists q.
Qed.

(** A step that does not set the state to COMPLETE. *)
Ltac keep := let E := fresh "E" in intros E; cbn [h_state set_state set_kex set_secrets set_psk set_peer set_config set_transcript set_suite set_crandom set_srandom set_is_server] in E;
  first [exact E | discriminate E | (repeat match type of E with context [if ?b then _ else _] => destruct b end); exact E].

Lemma derive_handshake_open : respects open_ (tls13_derive_handshake_secrets hfuel hjunk).
Proof. unfold tls13_derive_handshake_secrets. framing keep. Qed.

Lemma derive_application_open : respects open_ (tls13_derive_application_secrets hfuel hjunk).
Proof. unfold tls13_derive_application_secrets. framing keep. Qed.

Lemma compute_shared_open : respects open_ tls13_compute_shared_secret.
Proof. unfold tls13_compute_shared_secret. framing keep. Qed.

Lemma key_pair_open r g : respects open_ (tls13_generate_key_pair_for_group r g).
Proof. unfold tls13_generate_key_pair_for_group. framing keep. Qed.

Lemma psk_binder_open l : respects open_ (psk_binder hfuel hjunk l).
Proof. unfold psk_binder. framing keep. Qed.

Lemma build_finished_open b c1 c2 : respects open_ (tls13_build_finished junk hfuel hjunk b c1 c2).
Proof. unfold tls13_build_finished. framing keep. Qed.

Lemma build_certificate_verify_open k th c : respects open_ (tls13_build_certificate_verify junk k th c).
Proof. unfold tls13_build_certificate_verify. framing keep. Qed.

#[local] Hint Resolve derive_handshake_open derive_application_open compute_shared_open key_pair_open psk_binder_open build_finished_open build_certificate_verify_open : frames.

Lemma client_start_open r r1 r2 cap : respects open_ (client_start junk hfuel hjunk r r1 r2 cap).
Proof. unfold client_start, client_key_pairs, patch_binder. framing keep. Qed.

Lemma client_hello_open c : respects open_ (tls13_parse_client_hello c).
Proof.
  unfold tls13_parse_client_hello. framing keep. unfold client_hello_extension, tls13_parse_key_share_extension, parse_psk_extension. framing keep.
Qed.

Lemma server_hello_open c : respects open_ (tls13_parse_server_hello c).
Proof.
  unfold tls13_parse_server_hello. framing keep. unfold server_hello_extension. framing keep.
Qed.

#[local] Hint Resolve client_hello_open server_hello_open : frames.

Lemma client_server_hello_open buf : respects open_ (client_server_hello hfuel hjunk buf).
Proof. unfold client_server_hello, drop_secondary. framing keep. Qed.

Lemma server_client_hello_open r1 r2 buf cap : respects open_ (server_client_hello junk hfuel hjunk r1 r2 buf cap).
Proof. unfold server_client_hello, check_psk_binder, tls13_build_server_hello. framing keep. Qed.

Lemma negotiate_alpn_open : respects open_ negotiate_alpn.
Proof. unfold negotiate_alpn. framing keep. Qed.

Lemma send_open m : respects open_ m -> respects open_ (send m).
Proof. intros Hm. unfold send. framing keep. Qed.

Lemma build_open flush c1 ops c2 : respects open_ (cbb_finish_to_buf junk flush c1 ops c2).
Proof. unfold cbb_finish_to_buf. framing keep. Qed.

#[local] Hint Resolve negotiate_alpn_open send_open build_open : frames.

Lemma server_certificate_open : respects open_ (server_certificate junk).
Proof. unfold server_certificate. framing keep. Qed.

#[local] Hint Resolve server_certificate_open : frames.

Lemma server_flight_open cap : respects open_ (server_flight junk hfuel hjunk cap).
Proof. unfold server_flight. framing keep. Qed.

#[local] Hint Resolve client_start_open client_server_hello_open server_client_hello_open server_flight_open : frames.

Ltac only_peer := eexists; reflexivity.

Lemma ee_extensions_peer fuel c : respects peer_only (ee_extensions fuel c).
Proof. revert c. induction fuel as [| fuel IH]; intros c; cbn [ee_extensions]; framing only_peer; apply IH. Qed.

Lemma store_certs_peer n index body pos end_ : respects peer_only (store_certs n index body pos end_).
Proof. revert index pos. induction n as [| n IH]; intros index pos; cbn [store_certs]; framing only_peer; apply IH. Qed.

#[local] Hint Resolve ee_extensions_peer store_certs_peer : frames.

Lemma store_list_peer body : respects peer_only (tls13_store_peer_certificate_list body).
Proof. unfold tls13_store_peer_certificate_list. framing only_peer. Qed.

Lemma check_certificate_verify_peer c : respects peer_only (check_certificate_verify c).
Proof. unfold check_certificate_verify. framing only_peer. Qed.

(* ------------------------------------------------------------------ *)
(** * Messages in any buffer *)

Lemma be24_val x y z l : bytes [x; y; z] -> be24 (x :: y :: z :: l) = be_val [x; y; z].
Proof.
  intros Hb. pose proof (get_u24_reads (opssl_cbs_init [x; y; z] (Z.of_nat (length [x; y; z]))) (init_wf _ Hb)) as Hr. rewrite view_init in Hr.
  apply (f_equal fst) in Hr. change (Some (be24 (x :: y :: z :: l)) = Some (be_val [x; y; z])) in Hr. congruence.
Qed.

(** A buffer that holds a whole message has its type, its length and its body. *)
Lemma split_message buf off : bytes buf -> (off + 4 <= length buf)%nat -> (off + 4 + Z.to_nat (be24 (drop (off + 1) buf)) <= length buf)%nat ->
  exists body rest, drop off buf = hmsg buf.[off] body ++ rest /\ length body = Z.to_nat (be24 (drop (off + 1) buf)) /\
    sub_list off (4 + length body) buf = hmsg buf.[off] body /\ drop (off + 4) buf = body ++ rest /\ drop (off + 4 + length body) buf = rest.
Proof.
  intros Hb H4 Hl. set (ml := Z.to_nat (be24 (drop (off + 1) buf))) in *.
  assert (exists t x y z d, drop off buf = t :: x :: y :: z :: d) as (t & x & y & z & d & Ed).
  { assert (length (drop off buf) = length buf - off)%nat as Hd by apply length_drop. destruct (drop off buf) as [| t [| x [| y [| z d]]]]; cbn [length] in Hd; try lia. by eauto 6. }
  assert (drop (off + 1) buf = x :: y :: z :: d) as E1 by (by rewrite <- drop_drop, Ed). assert (drop (off + 4) buf = d) as E4 by (by rewrite <- drop_drop, Ed).
  assert (buf.[off] = t) as Et. { rewrite <- (take_drop off buf), Ed, get_app_r; rewrite length_take; [| lia]. rewrite Nat.min_l, Nat.sub_diag by lia. reflexivity. }
  assert (bytes (t :: x :: y :: z :: d)) as Hbd by (rewrite <- Ed; by apply bytes_drop).
  assert (bytes [x; y; z]) as H3 by exact (bytes_sub 1 3 _ Hbd).
  exists (take ml d), (drop ml d). assert (length d = length buf - (off + 4))%nat as Hd by (rewrite <- E4; apply length_drop).
  assert (length (take ml d) = ml) as Htl by (rewrite length_take; lia). rewrite Htl.
  assert (hmsg t (take ml d) = t :: x :: y :: z :: take ml d) as Em.
  { unfold hmsg, lp. rewrite Htl. unfold ml. rewrite E1. pose proof (be24_val x y z d H3) as Hbb.
    rewrite Hbb, Z2Nat.id by (by apply be_val_range). by rewrite (be_val_bytes [x; y; z] H3 : be_bytes 3 _ = _). }
  rewrite Et, Em, Ed, E4. cbn [app]. rewrite take_drop. split; [done |]. split; [done |].
  split; [unfold sub_list; rewrite Ed; reflexivity |]. split; [done |]. by rewrite <- drop_drop, E4.
Qed.

(* ------------------------------------------------------------------ *)
(** * Only a Finished completes *)

Context (Hfuel : (254 <= hfuel)%nat) (Hjunk : length hjunk = 512%nat).

#[local] Abbreviation client := (opssl_tls13_client_handshake junk hfuel hjunk).
#[local] Abbreviation server := (opssl_tls13_server_handshake junk hfuel hjunk).

(** Messages, and those of them that are hashed. *)
Definition messages (ms : list (Z * list Z)) : list Z := concat (map (fun m => hmsg m.1 m.2) ms).

Definition is_hashed (t : Z) : bool :=
  (t =? TLS13_MSG_ENCRYPTED_EXTENSIONS) || (t =? TLS13_MSG_CERTIFICATE_REQUEST) || (t =? TLS13_MSG_CERTIFICATE) || (t =? TLS13_MSG_CERTIFICATE_VERIFY).

Definition hashed (ms : list (Z * list Z)) : list Z := concat (map (fun m => if is_hashed m.1 then hmsg m.1 m.2 else []) ms).

(** A structure whose transcript is [T] and whose traffic secrets are known. *)
Record running (a : opssl_hmac_algo_t) (T c s : list Z) (h : hs) : Prop := {
  rn_suite : suite_ok a h;
  rn_transcript : transcript h T;
  rn_client : s_client_hs (h_secrets h) = c /\ length c = get_digest_size a;
  rn_server : s_server_hs (h_secrets h) = s /\ length s = get_digest_size a;
  rn_open : h_state h <> OPSSL_HS_COMPLETE }.

Lemma running_peer a T c s h h' : peer_only h h' -> running a T c s h -> running a T c s h'.
Proof. intros [p ->] [R1 R2 R3 R4 R5]. by constructor. Qed.

Lemma running_add a T c s h msg : size_ok msg -> running a T c s h -> running a (T ++ msg) c s (add_transcript msg h).
Proof. intros Hs [R1 R2 R3 R4 R5]. constructor; try done. by apply transcript_add. Qed.

Lemma run_inv {A B} (m : M A) (k : A -> M B) h r : bind m k h = Some r -> exists x h1, m h = Some (x, h1) /\ k x h1 = Some r.
Proof. unfold bind. destruct (m h) as [[x h1] |]; [by eauto | done]. Qed.

Lemma sized (l : list Z) n : (length l <= n)%nat -> Z.of_nat n <= 2 ^ 32 -> size_ok l.
Proof. unfold size_ok, SIZE_MAX. lia. Qed.

Lemma message_sized t body off buf : length body = Z.to_nat (be24 (drop (off + 1) buf)) -> bytes buf -> size_ok (hmsg t body).
Proof.
  intros Hl Hb. assert (be24 (drop (off + 1) buf) < 2 ^ 32).
  { apply (bytes_drop (off + 1)) in Hb. unfold be24. pose proof (bytes_get _ 0 Hb). pose proof (bytes_get _ 1 Hb). pose proof (bytes_get _ 2 Hb). unfold byte_ok in *.
    rewrite lor_shiftl2, lor_shiftl by (simpl; lia). simpl. lia. }
  unfold size_ok, SIZE_MAX. rewrite hmsg_length. lia.
Qed.

(** The comparison with the expected value. *)
Lemma finished_match buf off vd n : bytes buf -> bytes vd -> length vd = n -> (off + 4 + n <= length buf)%nat ->
  opssl_ct_eq (drop (off + 4) buf) vd n = 1 -> take n (drop (off + 4) buf) = vd.
Proof.
  intros Hb Hv Hn Hl E. rewrite opssl_ct_eq_spec in E; [| by apply bytes_drop | done | rewrite length_drop; lia | lia].
  destruct (bool_decide_reflect (take n (drop (off + 4) buf) = take n vd)) as [-> |]; [| done]. apply take_ge. lia.
Qed.

(** At a message of the peer: its Finished, or what the end does not complete on. *)
Lemma finished_at a T c s sec buf off h : running a T c s h -> length sec = get_digest_size a -> bytes buf -> (off + 4 <= length buf)%nat ->
  buf.[off] = TLS13_MSG_FINISHED -> Z.to_nat (be24 (drop (off + 1) buf)) = get_digest_size a -> (off + 4 + get_digest_size a <= length buf)%nat ->
  opssl_ct_eq (drop (off + 4) buf) (verify_data a sec T) (get_digest_size a) = 1 ->
  exists rest, drop off buf = finished_msg (verify_data a sec T) ++ rest.
Proof.
  intros Hr Hl Hb H4 Ht Hml Hfit E. destruct (split_message buf off Hb H4 ltac:(rewrite Hml; lia)) as (body & rest & Ed & Hbl & _ & Eb & _).
  exists rest. rewrite Ed, Ht. unfold finished_msg. do 2 f_equal. rewrite Hml in Hbl.
  apply finished_match in E; [| done | apply HMAC_bytes | apply verify_data_length | done]. by rewrite Eb, <- Hbl, take_app_length in E.
Qed.

Lemma client_finished_only a T c s cap buf off h r h' : running a T c s h -> bytes buf -> buf.[off] = TLS13_MSG_FINISHED ->
  (off + 4 + Z.to_nat (be24 (drop (off + 1) buf)) <= length buf)%nat ->
  client_finished junk hfuel hjunk buf off (Z.to_nat (be24 (drop (off + 1) buf))) cap h = Some (r, h') -> h_state h' = OPSSL_HS_COMPLETE ->
  exists rest, drop off buf = finished_msg (verify_data a s T) ++ rest.
Proof.
  intros Hr Hb Ht Hfit E Hd. pose proof Hr as [R1 R2 _ [R3 R4] R5]. unfold client_finished in E. rewrite get_step, R3 in E.
  rewrite (or_step _ _ _ _ _ _ (finished_data_ok hfuel hjunk Hfuel Hjunk a h T s R1 R2 R4)) in E. assert (h_len h = get_digest_size a) as Hlen by apply R1. rewrite Hlen in E.
  destruct (Nat.eqb_spec (Z.to_nat (be24 (drop (off + 1) buf))) (get_digest_size a)) as [Hml |]; cbn [negb orb] in E; [| injection E as <- <-; done].
  destruct (Z.eqb_spec (opssl_ct_eq (drop (off + 4) buf) (verify_data a s T) (get_digest_size a)) 1) as [Hct |]; cbn [negb] in E; [| injection E as <- <-; done].
  rewrite Hml in Hfit. apply (finished_at a T c s s buf off h Hr R4 Hb ltac:(lia) Ht Hml Hfit Hct).
Qed.

Lemma client_flight_finished a c s cap fuel : forall buf off T h r h', bytes buf -> running a T c s h ->
  client_flight junk hfuel hjunk fuel buf off cap h = Some (r, h') -> h_state h' = OPSSL_HS_COMPLETE ->
  exists ms rest, drop off buf = messages ms ++ finished_msg (verify_data a s (T ++ hashed ms)) ++ rest.
Proof.
  induction fuel as [| fuel IH]; intros buf off T h r h' Hb Hr E Hd; cbn [client_flight] in E.
  { destruct (length buf <=? off)%nat; [injection E as <- <-; by destruct Hr |]. discriminate E. }
  destruct (Nat.leb_spec (length buf) off); [injection E as <- <-; by destruct Hr |].
  destruct (Nat.ltb_spec (length buf) (off + 4)); [injection E as <- <-; by destruct Hr |]. cbv zeta in E.
  destruct (Nat.ltb_spec (length buf) (off + 4 + Z.to_nat (be24 (drop (off + 1) buf)))) as [| Hfit]; [injection E as <- <-; by destruct Hr |].
  destruct (split_message buf off Hb ltac:(lia) Hfit) as (body & rest & Ed & Hbl & Em & Eb & Er). rewrite <- Hbl in E, Hfit. rewrite Em in E.
  set (t := buf.[off]) in *. pose proof (message_sized t body off buf Hbl Hb) as Hsz.
  assert (forall h1, running a (T ++ (if is_hashed t then hmsg t body else [])) c s h1 -> client_flight junk hfuel hjunk fuel buf (off + 4 + length body) cap h1 = Some (r, h') ->
    exists ms rest, drop off buf = messages ms ++ finished_msg (verify_data a s (T ++ hashed ms)) ++ rest) as Hnext.
  { intros h1 Hr1 E1. destruct (IH _ _ _ _ _ _ Hb Hr1 E1 Hd) as (ms & rest' & E2). exists ((t, body) :: ms), rest'. rewrite Ed, <- Er, E2.
    unfold messages, hashed. cbn [map concat fst snd]. by rewrite <- !app_assoc. }
  unfold is_hashed in Hnext.
  destruct (t =? TLS13_MSG_ENCRYPTED_EXTENSIONS); cbn [orb] in Hnext.
  { apply run_inv in E as (x1 & h1 & [= <- <-] & E). apply run_inv in E as (x2 & h2 & E2 & E). apply (Hnext h2); [| exact E].
    eapply running_peer; [| by apply running_add; [exact Hsz | exact Hr]].
    destruct (opssl_cbs_get_u16_length_prefixed _) as [[ee |] ?]; [eapply ee_extensions_peer; exact E2 |]. injection E2 as <- <-. apply frame_refl. }
  destruct (t =? TLS13_MSG_CERTIFICATE_REQUEST); cbn [orb] in Hnext.
  { apply run_inv in E as (x1 & h1 & [= <- <-] & E). apply run_inv in E as (x2 & h2 & [= <- <-] & E). eapply Hnext; [| exact E].
    apply (running_add _ _ _ _ (set_peer (set_request_cert true (h_peer h)) h)); [exact Hsz |]. eapply running_peer; [| exact Hr]. by eexists. }
  destruct (t =? TLS13_MSG_CERTIFICATE); cbn [orb] in Hnext.
  { apply run_inv in E as (ok & h1 & E1 & E). apply store_list_peer in E1. pose proof (running_peer _ _ _ _ _ _ E1 Hr) as Hr1.
    destruct ok; cbn [negb] in E; [| injection E as <- <-; by destruct Hr1]. apply run_inv in E as (x2 & h2 & [= <- <-] & E).
    eapply Hnext; [| exact E]. by apply running_add. }
  destruct (t =? TLS13_MSG_CERTIFICATE_VERIFY); cbn [orb] in Hnext.
  { apply run_inv in E as (ok & h1 & E1 & E). apply check_certificate_verify_peer in E1. pose proof (running_peer _ _ _ _ _ _ E1 Hr) as Hr1.
    destruct ok; cbn [negb] in E; [| injection E as <- <-; by destruct Hr1]. apply run_inv in E as (x2 & h2 & [= <- <-] & E).
    eapply Hnext; [| exact E]. by apply running_add. }
  rewrite app_nil_r in Hnext. destruct (Z.eqb_spec t TLS13_MSG_FINISHED) as [Ht |]; [| by apply (Hnext h)].
  rewrite Hbl in E, Hfit. destruct (client_finished_only a T c s cap buf off h r h' Hr Hb Ht Hfit E Hd) as (rest' & E').
  exists [], rest'. cbn [messages hashed map concat]. by rewrite app_nil_r.
Qed.

(** The messages before the client's Finished, when a certificate was asked for. *)
Lemma client_certificates_run a c s fuel : forall buf off T h o off' h', bytes buf -> running a T c s h -> (off <= length buf)%nat ->
  client_certificates fuel buf off h = Some ((o, off'), h') ->
  exists ms rest, running a (T ++ hashed ms) c s h' /\ drop off buf = messages ms ++ rest /\ drop off' buf = rest /\ (off' <= length buf)%nat.
Proof.
  induction fuel as [| fuel IH]; intros buf off T h o off' h' Hb Hr Ho E; cbn [client_certificates] in E;
    (destruct (Nat.leb_spec (length buf) off); [injection E as <- <- <-; exists [], (drop off buf); by rewrite app_nil_r |]); [discriminate E |].
  assert (forall o1, Some (o1, off, h) = Some (o, off', h') -> exists ms rest, running a (T ++ hashed ms) c s h' /\ drop off buf = messages ms ++ rest /\ drop off' buf = rest /\ (off' <= length buf)%nat) as Hstop
    by (intros o1 [= <- <- <-]; exists [], (drop off buf); by rewrite app_nil_r).
  destruct (Nat.ltb_spec (length buf) (off + 4)); [exact (Hstop _ E) |]. cbv zeta in E.
  destruct (Nat.ltb_spec (length buf) (off + 4 + Z.to_nat (be24 (drop (off + 1) buf)))) as [| Hfit]; [exact (Hstop _ E) |].
  destruct (split_message buf off Hb ltac:(lia) Hfit) as (body & rest & Ed & Hbl & Em & Eb & Er). rewrite <- Hbl in E, Hfit. rewrite Em in E.
  set (t := buf.[off]) in *. pose proof (message_sized t body off buf Hbl Hb) as Hsz.
  assert (forall h1, is_hashed t = true -> running a (T ++ hmsg t body) c s h1 -> client_certificates fuel buf (off + 4 + length body) h1 = Some ((o, off'), h') ->
    exists ms rest, running a (T ++ hashed ms) c s h' /\ drop off buf = messages ms ++ rest /\ drop off' buf = rest /\ (off' <= length buf)%nat) as Hnext.
  { intros h1 Hh Hr1 E1. destruct (IH _ _ _ _ _ _ _ Hb Hr1 Hfit E1) as (ms & rest' & Hr2 & E2 & E3 & E4). exists ((t, body) :: ms), rest'.
    unfold messages, hashed in *. cbn [map concat fst snd]. rewrite Hh, app_assoc. split; [exact Hr2 |]. split; [| done]. by rewrite Ed, <- Er, E2, <- app_assoc. }
  destruct (Z.eqb_spec t TLS13_MSG_CERTIFICATE) as [Ht |].
  { apply run_inv in E as (ok & h1 & E1 & E).
    assert (peer_only h h1) as Hp by (destruct (0 <? length body)%nat; [by apply store_list_peer in E1 | injection E1 as <- <-; apply frame_refl]).
    pose proof (running_peer _ _ _ _ _ _ Hp Hr) as Hr1. destruct ok; cbn [negb] in E.
    - apply run_inv in E as (x2 & h2 & [= <- <-] & E). eapply Hnext; [by rewrite Ht | by apply running_add | exact E].
    - injection E as <- <- <-. exists [], (drop off buf). by rewrite app_nil_r. }
  destruct (Z.eqb_spec t TLS13_MSG_CERTIFICATE_VERIFY) as [Ht |].
  { apply run_inv in E as (x1 & h1 & [= <- <-] & E). apply run_inv in E as (x2 & h2 & [= <- <-] & E). eapply Hnext; [by rewrite Ht | | exact E].
    eapply running_peer; [| by apply running_add; [exact Hsz | exact Hr]]. by eexists. }
  apply run_inv in E as (x1 & h1 & [= <- <-] & E). injection E as <- <- <-. exists [], (drop off buf). rewrite app_nil_r. split; [| done].
  eapply running_peer; [| exact Hr]. by eexists.
Qed.

Lemma server_check_only a T c s buf off h r h' : running a T c s h -> bytes buf -> server_check_finished hfuel hjunk buf off h = Some (r, h') ->
  h_state h' = OPSSL_HS_COMPLETE -> exists rest, drop off buf = finished_msg (verify_data a c T) ++ rest.
Proof.
  intros Hr Hb E Hd. pose proof Hr as [R1 R2 [R3 R4] _ R5]. unfold server_check_finished in E.
  destruct (Nat.ltb_spec (length buf) (off + 4)); [injection E as <- <-; done |]. rewrite get_step in E. cbv zeta in E.
  assert (h_len h = get_digest_size a) as Hlen by apply R1. rewrite Hlen in E.
  destruct (Z.eqb_spec buf.[off] TLS13_MSG_FINISHED) as [Ht |]; cbn [negb orb] in E; [| injection E as <- <-; done].
  destruct (Nat.eqb_spec (Z.to_nat (be24 (drop (off + 1) buf))) (get_digest_size a)) as [Hml |]; cbn [negb] in E; [| injection E as <- <-; done]. rewrite Hml in E.
  destruct (Nat.ltb_spec (length buf) (off + 4 + get_digest_size a)) as [| Hfit]; [injection E as <- <-; done |]. rewrite R3 in E.
  rewrite (or_step _ _ _ _ _ _ (finished_data_ok hfuel hjunk Hfuel Hjunk a h T c R1 R2 R4)) in E.
  destruct (Z.eqb_spec (opssl_ct_eq (drop (off + 4) buf) (verify_data a c T) (get_digest_size a)) 1) as [Hct |]; cbn [negb] in E; [| injection E as <- <-; done].
  apply (finished_at a T c s c buf off h Hr R4 Hb ltac:(lia) Ht Hml Hfit Hct).
Qed.

(** C3: a client whose state becomes COMPLETE has read the server's Finished.
    Whatever the buffer holds, it starts with whole messages followed by a Finished
    whose value is RFC 8446's HMAC, under the server's handshake traffic secret, of
    the hash of everything this client has hashed before: nobody without the secret
    completes a handshake, and no message that was hashed can have been altered. *)
Theorem client_completes_on_finished a T c s h r1 r2 r3 buf cap r h' : bytes buf -> running a T c s h ->
  client r1 r2 r3 buf cap h = Some (r, h') -> h_state h' = OPSSL_HS_COMPLETE ->
  h_state h = OPSSL_HS_ENCRYPTED_EXTENSIONS /\
  exists ms rest, buf = messages ms ++ finished_msg (verify_data a s (T ++ hashed ms)) ++ rest.
Proof.
  intros Hb Hr E Hd. unfold opssl_tls13_client_handshake in E. rewrite get_step in E. destruct (Z.eqb_spec (h_state h) OPSSL_HS_IDLE).
  { apply client_start_open in E. specialize (E Hd). by destruct Hr. }
  destruct (Z.eqb_spec (h_state h) OPSSL_HS_CLIENT_HELLO). { apply client_server_hello_open in E. specialize (E Hd). by destruct Hr. }
  destruct (Z.eqb_spec (h_state h) OPSSL_HS_ENCRYPTED_EXTENSIONS) as [Hs |]; [| injection E as <- <-; by destruct Hr]. split; [exact Hs |].
  destruct (client_flight_finished a c s cap _ buf 0 T h r h' Hb Hr E Hd) as (ms & rest & E'). exists ms, rest. by rewrite <- E', drop_0.
Qed.

(** C4: a server whose state becomes COMPLETE has read the client's Finished, under the
    client's handshake traffic secret. *)
Theorem server_completes_on_finished a T c s h r1 r2 buf cap r h' : bytes buf -> running a T c s h ->
  server r1 r2 buf cap h = Some (r, h') -> h_state h' = OPSSL_HS_COMPLETE ->
  h_state h = OPSSL_HS_WAIT_FINISHED /\
  exists ms rest, buf = messages ms ++ finished_msg (verify_data a c (T ++ hashed ms)) ++ rest.
Proof.
  intros Hb Hr0 E Hd. unfold opssl_tls13_server_handshake in E. rewrite modify_step, get_step in E.
  assert (running a T c s (set_is_server true h)) as Hr by (destruct Hr0; by constructor). change (h_state (set_is_server true h)) with (h_state h) in E.
  destruct ((h_state h =? OPSSL_HS_IDLE) || (h_state h =? OPSSL_HS_CLIENT_HELLO)). { apply server_client_hello_open in E. specialize (E Hd). by destruct Hr. }
  destruct (h_state h =? OPSSL_HS_ENCRYPTED_EXTENSIONS). { rewrite modify_step in E. injection E as <- <-. discriminate Hd. }
  destruct (h_state h =? OPSSL_HS_FINISHED). { apply server_flight_open in E. specialize (E Hd). by destruct Hr. }
  destruct (Z.eqb_spec (h_state h) OPSSL_HS_WAIT_FINISHED) as [Hs |]; [| injection E as <- <-; by destruct Hr]. split; [exact Hs |].
  unfold server_wait_finished in E. destruct (length buf <? 4)%nat; [injection E as <- <-; by destruct Hr |]. rewrite get_step in E.
  destruct (r_request_cert (h_peer (set_is_server true h))).
  - apply run_inv in E as ([o off] & h1 & E1 & E). destruct (client_certificates_run a c s _ buf 0 T _ o off h1 Hb Hr ltac:(lia) E1) as (ms & rest & Hr1 & Ed & Eo & _).
    destruct o as [o |]; [injection E as <- <-; by destruct Hr1 |]. destruct (length buf <=? off)%nat; [injection E as <- <-; by destruct Hr1 |].
    destruct (server_check_only a _ c s buf off h1 r h' Hr1 Hb E Hd) as (rest' & E'). exists ms, rest'. rewrite drop_0 in Ed. by rewrite Ed, <- Eo, E'.
  - destruct (server_check_only a T c s buf 0 _ r h' Hr Hb E Hd) as (rest' & E'). exists [], rest'. rewrite drop_0 in E'. cbn [messages hashed map concat]. by rewrite app_nil_r.
Qed.
End Frames.

(* ------------------------------------------------------------------ *)
(** * A run *)

Section SafeWitness.
#[local] Existing Instance plain_cpu.
#[local] Existing Instance toy_pki.

(** An end that has derived its traffic secrets and waits for the peer's flight. *)
Definition waiting (st : Z) : hs :=
  fresh_transcript (set_state st (set_suite 4865 OPSSL_HMAC_SHA256 32 (set_secrets (mk_secrets [] [] (replicate 32 1) (replicate 32 2) (replicate 32 3) [] [] [] []) toy_server))).

Lemma waiting_running st : st <> OPSSL_HS_COMPLETE -> running OPSSL_HMAC_SHA256 [] (replicate 32 2) (replicate 32 3) (waiting st).
Proof. intros Hs. constructor; [by split | apply transcript_init; by split | split; reflexivity | split; reflexivity | exact Hs]. Qed.

Definition completes {A} (o : option (A * hs)) : bool := match o with Some (_, h') => h_state h' =? OPSSL_HS_COMPLETE | None => false end.

Lemma completes_some {A} (o : option (A * hs)) : completes o = true -> exists r h', o = Some (r, h') /\ h_state h' = OPSSL_HS_COMPLETE.
Proof. destruct o as [[r h'] |]; [intros E%Z.eqb_eq; eauto | done]. Qed.

(** EncryptedExtensions, then the server's Finished. *)
Definition server_flight_bytes : list Z :=
  let ee := hmsg TLS13_MSG_ENCRYPTED_EXTENSIONS [0; 0] in ee ++ finished_msg (verify_data OPSSL_HMAC_SHA256 (replicate 32 3) ee).

Lemma client_completes_on_finished_witness :
  completes (opssl_tls13_client_handshake 0 (Z.to_nat 254) (replicate 512 0) None None None server_flight_bytes 1024 (waiting OPSSL_HS_ENCRYPTED_EXTENSIONS)) = true /\
  exists ms rest, server_flight_bytes = messages ms ++ finished_msg (verify_data OPSSL_HMAC_SHA256 (replicate 32 3) (hashed ms)) ++ rest.
Proof.
  assert (completes (opssl_tls13_client_handshake 0 (Z.to_nat 254) (replicate 512 0) None None None server_flight_bytes 1024 (waiting OPSSL_HS_ENCRYPTED_EXTENSIONS)) = true) as Hc
    by (vm_compute; reflexivity).
  split; [exact Hc |]. apply completes_some in Hc as (r & h' & E & Hd).
  assert (bytes server_flight_bytes) as Hb by solve_bytes.
  destruct (@client_completes_on_finished plain_cpu simd_model_spec toy_pki 0 (Z.to_nat 254) (replicate 512 0) ltac:(lia) eq_refl
    OPSSL_HMAC_SHA256 [] (replicate 32 2) (replicate 32 3) (waiting OPSSL_HS_ENCRYPTED_EXTENSIONS) None None None server_flight_bytes 1024 r h' Hb (waiting_running OPSSL_HS_ENCRYPTED_EXTENSIONS ltac:(discriminate)) E Hd) as [_ Hx].
  exact Hx.
Defined.

Definition client_flight_bytes : list Z := finished_msg (verify_data OPSSL_HMAC_SHA256 (replicate 32 2) []).

Lemma server_completes_on_finished_witness :
  completes (opssl_tls13_server_handshake 0 (Z.to_nat 254) (replicate 512 0) None None client_flight_bytes 1024 (waiting OPSSL_HS_WAIT_FINISHED)) = true /\
  exists ms rest, client_flight_bytes = messages ms ++ finished_msg (verify_data OPSSL_HMAC_SHA256 (replicate 32 2) (hashed ms)) ++ rest.
Proof.
  assert (completes (opssl_tls13_server_handshake 0 (Z.to_nat 254) (replicate 512 0) None None client_flight_bytes 1024 (waiting OPSSL_HS_WAIT_FINISHED)) = true) as Hc
    by (vm_compute; reflexivity).
  split; [exact Hc |]. apply completes_some in Hc as (r & h' & E & Hd).
  assert (bytes client_flight_bytes) as Hb by solve_bytes.
  destruct (@server_completes_on_finished plain_cpu simd_model_spec toy_pki 0 (Z.to_nat 254) (replicate 512 0) ltac:(lia) eq_refl
    OPSSL_HMAC_SHA256 [] (replicate 32 2) (replicate 32 3) (waiting OPSSL_HS_WAIT_FINISHED) None None client_flight_bytes 1024 r h' Hb (waiting_running OPSSL_HS_WAIT_FINISHED ltac:(discriminate)) E Hd) as [_ Hx].
  exact Hx.
Defined.
End SafeWitness.
